(* ===== verification/_CoqProject ===== *)
-Q . S2P
Prelude.v
PyFloat.v
PyReal.v
PyStats.v
PyDict.v
PySort.v
PyStr.v
Blake2b.v
Config.v
Learner.v
LearnerFacts.v
LearnerExact.v
Rls.v
Admission.v
EngineMetrics.v
Scheduler.v
SchedulerFacts.v
PickFacts.v
Setup.v
Simulation.v
AbcExperiments.v
LearnerProps.v
CostExact.v
Feasible.v
EngineProps.v
Json.v
ResultStats.v
Emulation.v
Workloads.v
LoadClients.v
RegimeD.v
Backends.v
Requests.v
ConfigFile.v
Mcp.v
Cli.v
Commands.v
EngineFixture.v
OllamaStream.v
MockBackend.v
Worker.v
JsonFacts.v
Proxy.v
Routes.v
Gateway.v
RoutingProps.v
Accounting.v
Router.v
Lockout.v
Suites.v
GpuSuites.v
RegimeRuns.v
SuiteMains.v
TraceRuns.v
SimProps.v
AbcProps.v
ResultProps.v
LoadProps.v
SuiteProps.v
SuiteMainProps.v
TraceProps.v
Swarm.v
SwarmProps.v
RegimeDProps.v
EmulationProps.v
GatewayFacts.v
GatewayInv.v
Termination.v
GatewayProps.v
RouteProps.v
BackendProps.v
ConfigProps.v
McpProps.v
StreamProps.v
WorkerProps.v
FixtureProps.v
SwarmClient.v
Lifecycle.v
LifecycleProps.v
