(* ===== verification/Prelude.v ===== *)
(** * DIO: verification of the inference gateway

    DIO routes requests for large language models over several engines.  Each engine
    has a learned latency model; a request goes to the engine of least predicted
    cost, or is refused when no engine can meet its budget.  This library models the
    Python package [src/dio-serve/src/dio/] and the gRPC sidecar
    [src/DIO/vllm-integration/worker_proxy.py], with the engines and load clients its
    experiments emulate, and proves what they promise.

    ** How the program works

    A client request enters the gateway ([gateway.py]), which checks its key, size
    and budgets, resolves the model name to backends, and asks the scheduler
    ([scheduler.py]) for one of them.  [pick] scores every healthy backend with its
    latency model, its queue, its engine's telemetry ([engine_metrics.py]) and the
    cache affinity of the prompt, lets the admission controller decide, and takes a
    slot.  The gateway forwards the request ([backends.py]) plain or as a stream,
    translates between the OpenAI, Ollama and TGI dialects, and gives the slot back
    with [feedback], which trains the model, or with [release].  Background loops
    scrape the engines and probe their health.  Configuration comes from files and
    flags ([config.py], [config_file.py], [cli.py]); [mcp.py] serves the gateway's
    figures to agents.  The sidecar stands between a vLLM engine and the older
    control plane.  The scripts of [dio-serve/scripts] and [DIO/benchmarks] drive the
    scheduler in memory, or a running gateway over HTTP, with emulated engines, and
    reduce what they record to statistics.

    ** Conventions

    A Python object's state is a Record, a method a function of it; a method that
    raises gives an [Err] beside the state it leaves.  Floats are a type class
    ([PyFloat], with laws [PyFloatLaws]): theorems that hold with every rounding, NaN
    and overflow are proved from the laws, theorems about exact values at the
    extended reals ([PyReal]), and examples run on binary64 ([PyFloat.B64]).  Ints
    are unbounded, as in Python; BLAKE2b wraps its 64-bit words.  Strings are code
    points U+0000..U+00FF ([PyStr]).  Dicts are insertion-ordered association lists
    ([PyDict]), because iteration order decides ties.  The HTTP client, the file
    system, PyYAML, pydantic, tokenizers, NVML, gRPC and the clock are parameters:
    what a call gives is an argument of the step that follows it.

    ** Files

    Foundations: [Prelude] (results, deques, first minimum, automation), [PyFloat],
    [PyReal], [PyStats] (the [statistics] module, a class over floats), [PyDict],
    [PySort], [PyStr] (strings, and f-strings of fixed
    precision), [Blake2b], [Json], [JsonFacts].

    Scheduler: [Config], [Learner] (class [DualTimescaleNLMS]), [Rls] ([SimpleRLS]),
    [Admission], [EngineMetrics], [Scheduler], [Setup] (the constructor call); facts
    in [LearnerFacts], [LearnerExact], [SchedulerFacts], [PickFacts]; theorems in
    [LearnerProps], [CostExact], [Feasible], [EngineProps], [RoutingProps],
    [Accounting], [Lockout].

    Gateway: [Backends], [Requests] (checks and mappings), [OllamaStream] (the stream
    translator), [MockBackend] (the in-process engine, and [real_engine_server.py]),
    [Proxy] (the proxying coroutines, cut at their [await]s), [Routes] (handlers,
    loops, admin and the read-only routes), [Gateway] (all of them as one step relation
    on the requests in flight), [Router] (the abstract router it refines: a table of
    slots); facts in [GatewayFacts], [GatewayInv]; theorems in [GatewayProps],
    [Termination], [RouteProps], [BackendProps], [StreamProps].

    Around it: [ConfigFile], [Cli] ([serve]), [Commands] (the other commands), [Mcp],
    [Worker] (the sidecar), [Lifecycle] (how each process starts and stops: the
    gateway's lifespan, the sidecar's [main], [vllm_launcher.py], the mock engine, the
    workers), [SwarmClient] ([examples/swarm_client.py]) and [Swarm]
    ([examples/agent_swarm_demo.py]); theorems in [ConfigProps], [Cli], [Commands],
    [McpProps], [WorkerProps], [LifecycleProps], [SwarmClient], [SwarmProps].

    Experiments: [EngineFixture] ([mock_vllm_server.py]), [Emulation]
    ([mock_latency_model.py], [worker_gpu.py], [latency_delay_proxy.py],
    [model_server.py]), [Simulation] ([run_publishable_suite.py],
    [run_rls_headtohead.py]), [AbcExperiments] ([run_abc_experiments.py]),
    [LoadClients] (the threads of [run_gpu_abc_suite.py], the loops of
    [run_gpu_cluster_validation.py] and [run_mock_hetero_concurrency.py]),
    [Workloads] ([workload_generator.py]),
    [RegimeD] ([run_regime_d_hetero.py], the discovery run of [run_post_d_priority.py]),
    [ResultStats] (statistics of the recorded results).  The suites that start engines
    and gateways share the process table of [Suites]: [Suites]
    ([run_workshop_final_suite.py]), [GpuSuites] ([run_gpu_abc_suite.py],
    [run_gpu_cluster_validation.py], [run_real_hetero_multiseed.py],
    [kaggle/run_kaggle_followups.py]), [RegimeRuns] ([run_regime_d_hetero.py],
    [run_post_d_priority.py]), [SuiteMains] (the [main] of each), [TraceRuns]
    ([run_sharegpt_hetero.py], [run_n3_hetero.py], [run_g1_factorial_mock.py]).
    Theorems in [FixtureProps], [EmulationProps], [SimProps], [AbcProps], [LoadProps],
    [RegimeDProps], [ResultProps], [SuiteProps], [SuiteMainProps], [TraceProps].

    ** What the theorems show

    - Routing: [pick] returns a healthy, allowed, unblocked worker of least cost, its
      cost is the documented sum with bonuses capped by the base cost, a refusal
      leaves no trace but its counter, ties and baselines behave as intended, and
      every reachable scheduler is well formed ([RoutingProps], [CostExact]).  Short
      requests are admitted in every state a finite history leads to ([Feasible]);
      with an absolute gate a tail over the budget locks every request out for good
      ([Lockout]).
    - Learning: parameters stay in their bounds whatever the samples, NaN included;
      in exact arithmetic a repeated sample is learned geometrically, a contended one
      moves the prediction by at most the trust region plus the intercept step (more
      than the source promises, as an example shows), and RLS solves its weighted
      normal equations ([LearnerProps], [Rls]).
    - Accounting: the pending counts are the open requests.  This is shown for the
      scheduler alone against its protocol ([Accounting]), and refined to the whole
      gateway for every interleaving of requests, failures, cancellations, admin
      calls and loops ([GatewayInv], [GatewayProps]): the counts never exceed the slots,
      and are exact unless a backend is added again while requests are open on it, when
      its count starts again at zero.  The places where the code leaks a slot are named.
      But for such additions the gateway refines a router that knows only slots and open
      requests ([GatewayProps]).
    - Termination: an exchange ends after a bounded number of replies, and when all
      requests fail the gateway is idle again ([Termination]).
    - The front: guarded routes need the key, bodies accepted on the OpenAI routes are
      within the caps, model names resolve to declared backends, refusals of the routes
      have the right shape, only successes train, and URLs stay on the host that was
      vetted, but for the redirects of an engine, which the client follows ([RouteProps],
      [BackendProps], [ConfigProps]).
    - Processes: a lifespan leaves no client or task behind, unless a request came
      before it; the sidecar registers once its engine is ready and its exit codes say
      what happened; a clean exit of the launcher means the engine is gone, and the
      signals it misses are named ([LifecycleProps]).  The suites leave no process of theirs running, except where
      the code loses a handle, which is named ([SuiteProps], [SuiteMainProps],
      [TraceProps]).
    - Agents: the client of the swarm reads from a stream the text the engine wrote,
      its streamed and plain answers agree, and a swarm accounts for every turn
      ([SwarmClient], [SwarmProps]).
    - Texts: exposition text, flags and JSON are read back as written; a stream does
      not depend on how the network cuts it and gives the text of the plain answer
      ([EngineProps], [Cli], [JsonFacts], [StreamProps]).
    - MCP: one reply a request, one line a frame, the cheapest backend recommended
      ([McpProps]).
    - Sidecar: the text of a stream is read exactly, whatever stands between its
      chunks, and its token counts and times as the code estimates them; counters
      never overcount under overlapping threads and are exact alone; failures are
      answered; registration ends ([WorkerProps]).
    - Experiments: the fixture engine stays within its capacity and drains but from the
      states that lock it up, which are named ([FixtureProps]); the simulations account
      for every request and measure what they say ([SimProps], [AbcProps]); the
      threads of the multi-turn load end, record every turn once and report what the
      sessions one after the other report, by commuting the steps of different
      sessions ([LoadProps]); the discovery run stops at a ranking that is right, and
      the summaries that mix different seeds are shown on examples ([RegimeDProps],
      [ResultProps]); emulated latencies stay within their factors
      ([EmulationProps]); the offline fit is the least-squares one and the signed-rank
      test ranks by magnitude and counts its sign choices ([ResultProps]).

    ** Fuel and bounds

    [ConfigFile.discover_up] climbs ten directories, as the source's [range(10)] does.
    [Json.loads] runs with fuel beyond the length of the text, and [JsonFacts] proves
    it enough for every dumped value.  The searches of [Json.float_repr] go through
    at most the digits and exponents binary64 has.  [Blake2b.blocks] has one unit
    for each block of 128 bytes and one for the last.  [Worker.register_loop] makes ten attempts.  All other
    recursion is structural; a wait over an unbounded source (the clock, a stream)
    consumes the list of what was observed.

    ** Not modelled

    Reading [DIO_*] environment variables and pydantic's validation; FastAPI, httpx
    and the event loop themselves; logging, files and the layout of printed tables;
    surrogates and code points above U+00FF.  Of the suites, probing the machine and
    waiting for an engine (whether a process comes up is an argument), numpy's
    bootstrap, the microbenchmarks that time the interpreter, and the generation by a
    real model.  Plots, the tables written for the paper and the drivers that only call
    other scripts ([run_paper_experiments.py], [validate_local_realtime.py],
    [fill_regime_d_tables.py]) have no logic of their own.  The Go control plane, and
    the load generators of [DIO/benchmarks] written for it, are another program; the
    gRPC stubs are generated.

    ** State of the plan

    Every component with a state of its own is modelled.  What is partly modelled
    lacks only what the list above names; what could still be added is the readiness
    and heartbeat loops of the sidecar as threads beside its requests, where the model
    runs them one after the other. *)

From Stdlib Require Export ZArith Lia Bool.
From stdpp Require Export base tactics numbers strings option gmap list.

#[global] Open Scope Z_scope.
#[export] Set Warnings "-level-tolerance,-clear-no-such-hyp,-register-all".

(** ** Results of code that may raise *)

Declare Scope py_scope.
Delimit Scope py_scope with py.

(** Outcome of Python code that returns an [A] or raises an [E]. *)
Inductive result (E A : Type) : Type :=
| Ok (a : A)
| Err (e : E).
Arguments Ok {E A} a.
Arguments Err {E A} e.

#[export] Instance result_ret {E} : MRet (result E) := fun A a => Ok a.
#[export] Instance result_bind {E} : MBind (result E) := fun A B f r =>
  match r with Ok a => f a | Err e => Err e end.
#[export] Instance result_fmap {E} : FMap (result E) := fun A B f r =>
  match r with Ok a => Ok (f a) | Err e => Err e end.

Definition is_ok {E A} (r : result E A) : bool :=
  match r with Ok _ => true | Err _ => false end.

(** A comprehension over a call that may raise: the first error ends it. *)
Fixpoint map_ok {E A B} (f : A -> result E B) (l : list A) : result E (list B) :=
  match l with
  | [] => Ok []
  | x :: l' => y ← f x; ys ← map_ok f l'; Ok (y :: ys)
  end.

(** A sequence that returned: both parts did. *)
Lemma bind_Ok {E A B} (r : result E A) (f : A -> result E B) b :
  (x ← r; f x) = Ok b -> exists a, r = Ok a /\ f a = Ok b.
Proof. destruct r as [a|]; [by exists a|done]. Qed.

(** ** Automation *)

Create HintDb dio.

(** Split boolean connectives in hypotheses into propositions. *)
Ltac bool_hyps :=
  repeat match goal with
  | H : (_ && _) = true |- _ => apply andb_true_iff in H; destruct H
  | H : (_ || _) = false |- _ => apply orb_false_iff in H; destruct H
  | H : negb _ = true |- _ => apply negb_true_iff in H
  | H : negb _ = false |- _ => apply negb_false_iff in H
  end.

(** Case analysis on the innermost scrutinee of a [match] or [if] in the goal. *)
Ltac case_goal :=
  match goal with
  | |- context [match ?x with _ => _ end] =>
    lazymatch x with
    | context [match _ with _ => _ end] => fail
    | _ => destruct x eqn:?
    end
  end.

(** Split a membership in a literal list into one goal per element. *)
Ltac in_cases H :=
  repeat (apply elem_of_cons in H as [H|H]); [..|by apply not_elem_of_nil in H].

(** ** Lists *)

Section Lists.
Context {A : Type}.
Implicit Types l : list A.

(** [l[-n:]]: the last [n] elements. *)
Definition lastn (n : nat) (l : list A) : list A := skipn (length l - n) l.

Lemma length_lastn n l : length (lastn n l) = Nat.min n (length l).
Proof. unfold lastn. rewrite length_skipn. lia. Qed.

Lemma lastn_ge n l : (length l <= n)%nat -> lastn n l = l.
Proof. unfold lastn. intros H. by replace (length l - n)%nat with 0%nat by lia. Qed.

Lemma lastn_incl n l x : x ∈ lastn n l -> x ∈ l.
Proof.
  unfold lastn. intros H. rewrite <- (take_drop (length l - n) l).
  apply elem_of_app. by right.
Qed.

(** [collections.deque(maxlen=m).append(x)]: the oldest element is dropped
    once the deque is full; a deque of [maxlen] 0 stays empty. *)
Definition deque_append (maxlen : nat) (x : A) (l : list A) : list A :=
  lastn maxlen (l ++ [x]).

Lemma length_deque_append m x l :
  length (deque_append m x l) = Nat.min m (S (length l)).
Proof. unfold deque_append. rewrite length_lastn, length_app. simpl. lia. Qed.

Lemma deque_append_room m x l :
  (length l < m)%nat -> deque_append m x l = l ++ [x].
Proof. intros H. apply lastn_ge. rewrite length_app. simpl. lia. Qed.

Lemma deque_append_incl m x y l : y ∈ deque_append m x l -> y ∈ l \/ y = x.
Proof.
  intros H%lastn_incl. apply elem_of_app in H as [H|H]; [by left|].
  right. by apply list_elem_of_singleton in H.
Qed.

Lemma deque_append_bound m x l : (length (deque_append m x l) <= m)%nat.
Proof. rewrite length_deque_append. lia. Qed.
End Lists.

#[export] Hint Resolve deque_append_bound : dio.

(** The sum of a measure over a list. *)
Definition sum_of {A} (f : A -> Z) (l : list A) : Z := foldr (fun x n => f x + n) 0 l.

Lemma sum_of_cons {A} (f : A -> Z) x l : sum_of f (x :: l) = f x + sum_of f l.
Proof. done. Qed.

Lemma sum_of_app {A} (f : A -> Z) l k : sum_of f (l ++ k) = sum_of f l + sum_of f k.
Proof. induction l as [|x l IH]; [done|]. cbn [app]. rewrite !sum_of_cons, IH. lia. Qed.

Lemma sum_of_snoc {A} (f : A -> Z) l x : sum_of f (l ++ [x]) = sum_of f l + f x.
Proof. rewrite sum_of_app, sum_of_cons. cbn. lia. Qed.

Lemma sum_of_insert {A} (f : A -> Z) i x y (l : list A) :
  l !! i = Some x -> sum_of f (<[i := y]> l) = sum_of f l - f x + f y.
Proof.
  revert i; induction l as [|z l IH]; intros [|i]; [done..| |].
  - intros [= ->]. cbn. lia.
  - intros H. change (<[S i := y]> (z :: l)) with (z :: <[i := y]> l).
    rewrite !sum_of_cons, (IH i H). lia.
Qed.

Lemma sum_of_nonneg {A} (f : A -> Z) l : (forall x, 0 <= f x) -> 0 <= sum_of f l.
Proof. intros H. induction l as [|x l IH]; [done|]. rewrite sum_of_cons. specialize (H x). lia. Qed.

Lemma sum_of_le {A} (f g : A -> Z) l : (forall x, f x <= g x) -> sum_of f l <= sum_of g l.
Proof. intros H. induction l as [|x l IH]; [done|]. rewrite !sum_of_cons. specialize (H x). lia. Qed.

Lemma sum_of_pos {A} (f : A -> Z) l :
  (forall x, 0 <= f x) -> 0 < sum_of f l -> exists i x, l !! i = Some x /\ 0 < f x.
Proof.
  intros Hf. induction l as [|x l IH]; [done|]. rewrite sum_of_cons. intros H.
  destruct (decide (0 < f x)) as [Hx|Hx]; [by exists 0%nat, x|].
  destruct IH as (i & y & Hi & Hy); [specialize (Hf x); lia|]. by exists (S i), y.
Qed.

Lemma sum_of_elem {A} (f : A -> Z) l i x :
  (forall y, 0 <= f y) -> l !! i = Some x -> f x <= sum_of f l.
Proof.
  intros Hf. revert i.
  induction l as [|z l IH]; intros [|i]; [done..| |]; rewrite sum_of_cons.
  - intros [= ->]. pose proof (sum_of_nonneg f l Hf). lia.
  - intros Hi. specialize (IH i Hi). specialize (Hf z). lia.
Qed.

(** Python's [min(l, key=f)] over integers: the first element of least key. *)
Fixpoint min_by_from {A} (f : A -> Z) (best : A) (l : list A) : A :=
  match l with
  | [] => best
  | x :: l' => min_by_from f (if Z.ltb (f x) (f best) then x else best) l'
  end.

Definition min_by {A} (f : A -> Z) (l : list A) : option A :=
  match l with
  | [] => None
  | x :: l' => Some (min_by_from f x l')
  end.

Lemma min_by_from_spec {A} (f : A -> Z) l best :
  (min_by_from f best l = best \/ min_by_from f best l ∈ l) /\
  f (min_by_from f best l) <= f best /\
  (forall y, y ∈ l -> f (min_by_from f best l) <= f y).
Proof.
  revert best; induction l as [|x l IH]; intros best; simpl.
  - split_and!; [by left|lia|by intros y Hy%not_elem_of_nil].
  - destruct (IH (if f x <? f best then x else best)) as (Hin & Hle & Hall).
    destruct (Z.ltb_spec (f x) (f best)).
    + split_and!; [right; set_solver|lia|].
      intros y [->|Hy]%elem_of_cons; [lia|eauto].
    + split_and!; [destruct Hin; [by left|right; set_solver]|lia|].
      intros y [->|Hy]%elem_of_cons; [lia|eauto].
Qed.

Lemma min_by_spec {A} (f : A -> Z) l m :
  min_by f l = Some m -> m ∈ l /\ forall y, y ∈ l -> f m <= f y.
Proof.
  destruct l as [|x l]; simpl; intros [= <-].
  destruct (min_by_from_spec f l x) as (Hin & Hle & Hall). split.
  - destruct Hin as [Hin|Hin]; [rewrite Hin|]; set_solver.
  - intros y [->|?]%elem_of_cons; eauto.
Qed.

Lemma min_by_None {A} (f : A -> Z) l : min_by f l = None <-> l = [].
Proof. destruct l; simpl; split; done. Qed.
