(* ===== verification/PyFloat.v ===== *)
(** Python floats: the operations the sources use, as a class; its order and
    sign laws; and IEEE binary64 as the instance the program runs on. *)

From Stdlib Require Import SpecFloat.
From S2P Require Import Prelude.

(** ** The interface *)

(** What the sources do with a [float].  [flt], [fle], [feq] are [<], [<=],
    [==]; [fint] is the conversion of an [int]; [fdec m e] is the literal
    [m * 10**e], correctly rounded; [ffloor], [fceil] are [math.floor] and
    [math.ceil]; [ftrunc] is [int(x)] on a finite float; [fscaled k x] is
    [x * 10**k] rounded half to even, the integer behind both
    [f"{x:.kf}"] and [round(x, k)]. *)
Class PyFloat (F : Type) := {
  fadd : F -> F -> F;
  fsub : F -> F -> F;
  fmul : F -> F -> F;
  fdiv : F -> F -> F;
  fopp : F -> F;
  fabs : F -> F;
  flt : F -> F -> bool;
  fle : F -> F -> bool;
  feq : F -> F -> bool;
  fint : Z -> F;
  fdec : Z -> Z -> F;
  finf : F;
  fisinf : F -> bool;
  ffloor : F -> Z;
  fceil : F -> Z;
  ftrunc : F -> Z;
  fscaled : Z -> F -> Z
}.

Declare Scope float_scope.
Delimit Scope float_scope with fl.
Infix "+" := fadd : float_scope.
Infix "-" := fsub : float_scope.
Infix "*" := fmul : float_scope.
Infix "/" := fdiv : float_scope.
Notation "- x" := (fopp x) : float_scope.
Infix "<?" := flt : float_scope.
Infix "<=?" := fle : float_scope.
Infix "=?" := feq : float_scope.
Notation "x >? y" := (flt y x) (at level 70, only parsing) : float_scope.
Notation "x >=? y" := (fle y x) (at level 70, only parsing) : float_scope.

Section Derived.
Context {F : Type} {PF : PyFloat F}.
Local Open Scope float_scope.

Definition f0 : F := fint 0.
Definition f1 : F := fint 1.

(** [math.isnan(x)]: the one float that differs from itself. *)
Definition fisnan (x : F) : bool := negb (x =? x).

(** The builtins [max(a, b)] and [min(a, b)]: the first argument is kept
    unless the second is strictly greater (smaller), so a NaN second
    argument is dropped. *)
Definition py_max (a b : F) : F := if a <? b then b else a.
Definition py_min (a b : F) : F := if b <? a then b else a.

(** [max(lo, min(hi, x))]. *)
Definition clamp (lo hi x : F) : F := py_max lo (py_min hi x).

(** Truth value of a float. *)
Definition ftruth (x : F) : bool := negb (x =? f0).

(** [round(x, k)]. *)
Definition fround (k : Z) (x : F) : F := fdec (fscaled k x) (- k)%Z.
End Derived.

(** ** Laws *)

(** The laws the theorems rely on, true of binary64 and of the extended reals:
    [<=] is a total preorder on the floats that are not NaN, a comparison with
    NaN is false, and non-negative operands give non-negative sums, products
    and quotients. *)
Class PyFloatLaws (F : Type) {PF : PyFloat F} : Prop := {
  fle_trans : forall x y z : F, fle x y = true -> fle y z = true -> fle x z = true;
  fle_total : forall x y : F, fisnan x = false -> fisnan y = false ->
    fle x y = negb (flt y x);
  flt_fle : forall x y : F, flt x y = true -> fle x y = true;
  fle_num : forall x y : F, fle x y = true -> fisnan x = false /\ fisnan y = false;
  feq_fle : forall x y : F, feq x y = fle x y && fle y x;
  fint_num : forall z, fisnan (fint z : F) = false;
  finf_num : fisnan (finf : F) = false;
  finf_top : forall x : F, fisnan x = false -> fle x finf = true;
  fisinf_finf : fisinf (finf : F) = true;
  fint_nonneg : forall z, 0 <= z -> fle (fint 0) (fint z : F) = true;
  f0_lt_f1 : flt (fint 0) (fint 1 : F) = true;
  f0_lt_tenth : flt (fint 0) (fdec 1 (-1) : F) = true;
  f0_lt_nano : flt (fint 0) (fdec 1 (-9) : F) = true;
  fadd_nonneg : forall x y : F, fle (fint 0) x = true -> fle (fint 0) y = true ->
    fle (fint 0) (fadd x y) = true;
  fmul_nonneg : forall x y : F, fle (fint 0) x = true -> fle (fint 0) y = true ->
    fisnan (fmul x y) = false -> fle (fint 0) (fmul x y) = true;
  fdiv_nonneg : forall x y : F, fle (fint 0) x = true -> flt (fint 0) y = true ->
    fisnan (fdiv x y) = false -> fle (fint 0) (fdiv x y) = true;
  fopp_nonpos : forall x : F, fle (fint 0) x = true -> fle (fopp x) (fint 0) = true;
  fabs_nonneg : forall x : F, fisnan x = false -> fle (fint 0) (fabs x) = true
}.

Section Order.
Context {F : Type} {PF : PyFloat F} {PL : PyFloatLaws F}.
Local Open Scope float_scope.
Implicit Types x y z : F.

Lemma fle_refl x : fisnan x = false -> x <=? x = true.
Proof.
  unfold fisnan. intros H%negb_false_iff. rewrite feq_fle in H.
  by apply andb_true_iff in H as [? _].
Qed.

Lemma flt_num x y : x <? y = true -> fisnan x = false /\ fisnan y = false.
Proof. intros H%flt_fle. by apply fle_num. Qed.

Lemma flt_not_fle x y : x <? y = true -> y <=? x = false.
Proof.
  intros H. destruct (flt_num x y H) as [Hx Hy].
  rewrite (fle_total y x Hy Hx), H. done.
Qed.

Lemma flt_irrefl x : x <? x = false.
Proof.
  destruct (x <? x) eqn:E; [|done]. pose proof (flt_not_fle _ _ E) as H.
  destruct (flt_num _ _ E) as [Hx _]. by rewrite (fle_refl x Hx) in H.
Qed.

Lemma fle_not_flt x y : x <=? y = true -> y <? x = false.
Proof.
  intros H. destruct (fle_num x y H) as [Hx Hy].
  rewrite (fle_total x y Hx Hy) in H. by apply negb_true_iff in H.
Qed.

Lemma flt_false_fle x y :
  fisnan x = false -> fisnan y = false -> x <? y = false -> y <=? x = true.
Proof. intros Hx Hy H. by rewrite (fle_total y x Hy Hx), H. Qed.

Lemma fle_lt_trans x y z : x <=? y = true -> y <? z = true -> x <? z = true.
Proof.
  intros H1 H2. destruct (x <? z) eqn:E; [done|].
  destruct (fle_num _ _ H1) as [Hx _]. destruct (flt_num _ _ H2) as [_ Hz].
  pose proof (flt_false_fle x z Hx Hz E) as H3.
  pose proof (fle_trans _ _ _ H3 H1) as H4.
  by rewrite (flt_not_fle _ _ H2) in H4.
Qed.

Lemma flt_le_trans x y z : x <? y = true -> y <=? z = true -> x <? z = true.
Proof.
  intros H1 H2. destruct (x <? z) eqn:E; [done|].
  destruct (fle_num _ _ H2) as [_ Hz]. destruct (flt_num _ _ H1) as [Hx _].
  pose proof (flt_false_fle x z Hx Hz E) as H3.
  pose proof (fle_trans _ _ _ H2 H3) as H4.
  by rewrite (flt_not_fle _ _ H1) in H4.
Qed.

Lemma flt_trans x y z : x <? y = true -> y <? z = true -> x <? z = true.
Proof. intros H1%flt_fle H2. by eapply fle_lt_trans. Qed.

Lemma f0_num : fisnan (f0 : F) = false.
Proof. apply fint_num. Qed.

(** *** [max], [min] and clamping *)

Lemma py_max_ge_l x y : fisnan x = false -> x <=? py_max x y = true.
Proof.
  intros Hx. unfold py_max. destruct (x <? y) eqn:E; [by apply flt_fle|].
  by apply fle_refl.
Qed.

Lemma py_max_num x y : fisnan x = false -> fisnan (py_max x y) = false.
Proof. intros Hx%(fun H => py_max_ge_l x y H). by destruct (fle_num _ _ Hx). Qed.

Lemma py_max_ge_r x y :
  fisnan x = false -> fisnan y = false -> y <=? py_max x y = true.
Proof.
  intros Hx Hy. unfold py_max. destruct (x <? y) eqn:E.
  - by apply fle_refl.
  - by apply flt_false_fle.
Qed.

Lemma py_max_lub x y z : x <=? z = true -> y <=? z = true -> py_max x y <=? z = true.
Proof. unfold py_max. by destruct (x <? y). Qed.

Lemma py_max_cases x y : py_max x y = x \/ py_max x y = y.
Proof. unfold py_max. destruct (x <? y); auto. Qed.

Lemma py_min_le_l x y : fisnan x = false -> py_min x y <=? x = true.
Proof.
  intros Hx. unfold py_min. destruct (y <? x) eqn:E; [by apply flt_fle|].
  by apply fle_refl.
Qed.

Lemma py_min_num x y : fisnan x = false -> fisnan (py_min x y) = false.
Proof. intros Hx%(fun H => py_min_le_l x y H). by destruct (fle_num _ _ Hx). Qed.

Lemma py_min_cases x y : py_min x y = x \/ py_min x y = y.
Proof. unfold py_min. destruct (y <? x); auto. Qed.

Lemma py_min_glb x y z : z <=? x = true -> z <=? y = true -> z <=? py_min x y = true.
Proof. unfold py_min. by destruct (y <? x). Qed.

(** A clamped value is in range whatever was clamped, NaN and the infinities
    included. *)
Lemma clamp_range lo hi x :
  lo <=? hi = true -> lo <=? clamp lo hi x = true /\ clamp lo hi x <=? hi = true.
Proof.
  intros H. destruct (fle_num _ _ H) as [Hlo Hhi]. unfold clamp. split.
  - by apply py_max_ge_l.
  - apply py_max_lub; [done|]. by apply py_min_le_l.
Qed.

(** A value already in range is left alone. *)
Lemma clamp_id lo hi x :
  lo <? x = true -> x <? hi = true -> clamp lo hi x = x.
Proof. intros H1 H2. unfold clamp, py_max, py_min. by rewrite H2, H1. Qed.

Lemma fisnan_fle_false_l x y : fisnan x = true -> x <=? y = false.
Proof.
  intros H. destruct (x <=? y) eqn:E; [|done].
  destruct (fle_num _ _ E) as [H' _]. congruence.
Qed.

Lemma flt_nan_l x y : fisnan x = true -> x <? y = false.
Proof.
  intros H. destruct (x <? y) eqn:E; [|done].
  destruct (flt_num _ _ E) as [H' _]. congruence.
Qed.

Lemma flt_nan_r x y : fisnan y = true -> x <? y = false.
Proof.
  intros H. destruct (x <? y) eqn:E; [|done].
  destruct (flt_num _ _ E) as [_ H']. congruence.
Qed.

Lemma flt_inf_not_inf x : x <? finf = true -> fisnan x = false.
Proof. intros H. by destruct (flt_num _ _ H). Qed.

(** [max(0.0, x)] is non-negative and a number for every [x]. *)
Lemma py_max0_nonneg x : f0 <=? py_max f0 x = true.
Proof. apply py_max_ge_l, f0_num. Qed.
End Order.

#[export] Hint Resolve fle_refl flt_fle py_max_num py_min_num py_max0_nonneg
  f0_num fint_num finf_num fadd_nonneg fint_nonneg : dio.

(** ** binary64 *)

(** CPython's [float]: IEEE 754 binary64 with rounding to nearest even, through
    the Standard Library's executable specification.  Division by zero, which
    Python raises on, gives the IEEE result here; every division of the sources
    is guarded, and the guards are theorems. *)
Module B64.
Definition prec : Z := 53.
Definition emax : Z := 1024.
Definition t : Type := spec_float.

Definition of_Z (z : Z) : t := binary_normalize prec emax z 0 false.

(** Correctly rounded [m * 10**e]. *)
Definition of_decimal (m e : Z) : t :=
  if 0 <=? e then of_Z (m * 10 ^ e)
  else match m with
       | Z0 => S754_zero false
       | Zpos p => SFdiv prec emax (S754_finite false p 0)
                     (S754_finite false (Z.to_pos (10 ^ (- e))) 0)
       | Zneg p => SFdiv prec emax (S754_finite true p 0)
                     (S754_finite false (Z.to_pos (10 ^ (- e))) 0)
       end.

Definition signed (s : bool) (m : positive) : Z := if s then Zneg m else Zpos m.

(** Round [n / d] half to even, for [0 < d]. *)
Definition div_even (n d : Z) : Z :=
  let q := n / d in
  let r := n mod d in
  if (2 * r <? d) then q
  else if (d <? 2 * r) then q + 1
  else if Z.even q then q else q + 1.

Definition floor (x : t) : Z :=
  match x with
  | S754_finite s m e =>
    if 0 <=? e then signed s m * 2 ^ e else signed s m / 2 ^ (- e)
  | _ => 0
  end.

Definition ceil (x : t) : Z := - floor (SFopp x).

Definition trunc (x : t) : Z :=
  match x with
  | S754_finite s m e =>
    if 0 <=? e then signed s m * 2 ^ e else Z.quot (signed s m) (2 ^ (- e))
  | _ => 0
  end.

Definition scaled (k : Z) (x : t) : Z :=
  match x with
  | S754_finite s m e =>
    if 0 <=? e then signed s m * 2 ^ e * 10 ^ k
    else div_even (signed s m * 10 ^ k) (2 ^ (- e))
  | _ => 0
  end.

Definition isinf (x : t) : bool :=
  match x with S754_infinity _ => true | _ => false end.
End B64.

#[export] Instance b64 : PyFloat spec_float := {|
  fadd := SFadd B64.prec B64.emax;
  fsub := SFsub B64.prec B64.emax;
  fmul := SFmul B64.prec B64.emax;
  fdiv := SFdiv B64.prec B64.emax;
  fopp := SFopp;
  fabs := SFabs;
  flt := SFltb;
  fle := SFleb;
  feq := SFeqb;
  fint := B64.of_Z;
  fdec := B64.of_decimal;
  finf := S754_infinity false;
  fisinf := B64.isinf;
  ffloor := B64.floor;
  fceil := B64.ceil;
  ftrunc := B64.trunc;
  fscaled := B64.scaled
|}.

Abbreviation float := spec_float.

(** 0.1 + 0.2 is the double above 0.3, as in Python. *)
Example b64_point_three :
  feq (fadd (fdec 1 (-1)) (fdec 2 (-1))) (fdec 3 (-1) : float) = false
  /\ fadd (fdec 1 (-1)) (fdec 2 (-1)) = (fdec 30000000000000004 (-17) : float).
Proof. vm_compute. split; reflexivity. Qed.

(** *** The order *)

Module B64Order.
Import B64.

(** Position of a number in the order: class, exponent, mantissa. *)
Definition key (x : float) : Z * Z * Z :=
  match x with
  | S754_nan => (9, 0, 0)
  | S754_infinity false => (2, 0, 0)
  | S754_infinity true => (-2, 0, 0)
  | S754_zero _ => (0, 0, 0)
  | S754_finite false m e => (1, e, Zpos m)
  | S754_finite true m e => (-1, - e, Zneg m)
  end.

Definition key_lt (a b : Z * Z * Z) : Prop :=
  let '(a1, a2, a3) := a in
  let '(b1, b2, b3) := b in
  a1 < b1 \/ (a1 = b1 /\ (a2 < b2 \/ (a2 = b2 /\ a3 < b3))).

Definition key_le (a b : Z * Z * Z) : Prop := key_lt a b \/ a = b.

Definition isnan (x : float) : bool :=
  match x with S754_nan => true | _ => false end.

Lemma compare_spec (x y : float) :
  isnan x = false -> isnan y = false ->
  match SFcompare x y with
  | Some Lt => key_lt (key x) (key y)
  | Some Eq => key x = key y
  | Some Gt => key_lt (key y) (key x)
  | None => False
  end.
Proof.
  destruct x as [[]|[]| |[] mx ex]; destruct y as [[]|[]| |[] my ey];
    intros ? ?; try done; simpl; try reflexivity; try (left; lia).
  - destruct (Z.compare_spec ex ey) as [->|?|?].
    + change (Pos.compare_cont Eq mx my) with (Pos.compare mx my).
      destruct (Pos.compare_spec mx my) as [->|?|?]; simpl; [done|right; lia|right; lia].
    + right; lia.
    + right; lia.
  - destruct (Z.compare_spec ex ey) as [->|?|?].
    + change (Pos.compare_cont Eq mx my) with (Pos.compare mx my).
      destruct (Pos.compare_spec mx my) as [->|?|?]; simpl; [done|right; lia|right; lia].
    + right; lia.
    + right; lia.
Qed.

Lemma compare_nan (x y : float) :
  isnan x = true \/ isnan y = true -> SFcompare x y = None.
Proof. destruct x, y; simpl; intros [?|?]; done. Qed.

Lemma key_lt_irrefl a : ~ key_lt a a.
Proof. destruct a as [[]]; simpl; lia. Qed.

Lemma key_lt_asym a b : key_lt a b -> key_lt b a -> False.
Proof. destruct a as [[]], b as [[]]; simpl; lia. Qed.

Lemma key_le_trans a b c : key_le a b -> key_le b c -> key_le a c.
Proof.
  unfold key_le. destruct a as [[a1 a2] a3], b as [[b1 b2] b3], c as [[c1 c2] c3].
  simpl. intros [?|[= -> -> ->]] [?|[= -> -> ->]]; [left; lia|by left|by left|by right].
Qed.

Lemma fisnan_isnan (x : float) : fisnan x = isnan x.
Proof.
  unfold fisnan; simpl; unfold SFeqb. destruct (isnan x) eqn:Hx.
  - by rewrite compare_nan by auto.
  - pose proof (compare_spec x x Hx Hx) as H.
    destruct (SFcompare x x) as [[]|]; try done; by apply key_lt_irrefl in H.
Qed.

Lemma fle_key (x y : float) :
  fle x y = true <-> isnan x = false /\ isnan y = false /\ key_le (key x) (key y).
Proof.
  simpl. unfold SFleb, key_le. destruct (isnan x) eqn:Hx; [|destruct (isnan y) eqn:Hy].
  - rewrite compare_nan by auto. split; [done|by intros (?&?&?)].
  - rewrite compare_nan by auto. split; [done|by intros (?&?&?)].
  - pose proof (compare_spec x y Hx Hy) as H.
    destruct (SFcompare x y) as [[]|]; try done.
    + split; auto.
    + split; auto.
    + split; [done|]. intros (_ & _ & [H'|H']).
      * by destruct (key_lt_asym _ _ H H').
      * rewrite H' in H. by apply key_lt_irrefl in H.
Qed.

Lemma flt_key (x y : float) :
  flt x y = true <-> isnan x = false /\ isnan y = false /\ key_lt (key x) (key y).
Proof.
  simpl. unfold SFltb. destruct (isnan x) eqn:Hx; [|destruct (isnan y) eqn:Hy].
  - rewrite compare_nan by auto. split; [done|by intros (?&?&?)].
  - rewrite compare_nan by auto. split; [done|by intros (?&?&?)].
  - pose proof (compare_spec x y Hx Hy) as H.
    destruct (SFcompare x y) as [[]|]; try done.
    + split; [done|]. intros (_ & _ & H'). rewrite H in H'. by apply key_lt_irrefl in H'.
    + split; [done|]. intros (_ & _ & H'). by destruct (key_lt_asym _ _ H H').
Qed.

Lemma fle_total_key (x y : float) :
  isnan x = false -> isnan y = false -> fle x y = negb (flt y x).
Proof.
  intros Hx Hy. simpl. unfold SFleb, SFltb.
  pose proof (compare_spec x y Hx Hy) as H1.
  pose proof (compare_spec y x Hy Hx) as H2.
  destruct (SFcompare x y) as [[]|], (SFcompare y x) as [[]|]; try done; exfalso;
    try (by eapply key_lt_asym); try (rewrite H1 in H2; by apply key_lt_irrefl in H2);
    try (rewrite H2 in H1; by apply key_lt_irrefl in H1).
Qed.

Lemma feq_key (x y : float) : feq x y = fle x y && fle y x.
Proof.
  destruct (isnan x) eqn:Hx; [|destruct (isnan y) eqn:Hy].
  - simpl. unfold SFeqb, SFleb. by rewrite !compare_nan by auto.
  - simpl. unfold SFeqb, SFleb. by rewrite !compare_nan by auto.
  - rewrite (fle_total_key y x) by done. simpl. unfold SFeqb, SFleb, SFltb.
    destruct (SFcompare x y) as [[]|]; done.
Qed.

(** *** Signs *)

(** Non-negative numbers: no NaN, no negative non-zero value. *)
Definition pos_sf (x : float) : bool :=
  match x with
  | S754_nan | S754_infinity true | S754_finite true _ _ => false
  | _ => true
  end.

Lemma fle0_pos (x : float) : fle (fint 0) x = true <-> pos_sf x = true.
Proof.
  rewrite fle_key. destruct x as [[]|[]| |[] m e]; simpl; split; intros H;
    try done; try (destruct H as (_ & H & _); done);
    try (split_and!; [done|done|unfold key_le; simpl; first [by right|left; lia]]);
    destruct H as (_ & _ & [H|H]); simpl in H; try done; lia.
Qed.

Lemma shr_1_nonneg mrs : 0 <= shr_m mrs -> 0 <= shr_m (shr_1 mrs).
Proof. destruct mrs as [[|[]|[]] r s]; simpl; lia. Qed.

Lemma iter_shr_nonneg n mrs : 0 <= shr_m mrs -> 0 <= shr_m (SpecFloat.iter_pos shr_1 n mrs).
Proof.
  revert mrs; induction n as [n IH|n IH|]; intros mrs H; simpl;
    auto using shr_1_nonneg.
Qed.

Lemma shr_nonneg mrs e n : 0 <= shr_m mrs -> 0 <= shr_m (shr mrs e n).1.
Proof. intros H. destruct n; simpl; auto using iter_shr_nonneg. Qed.

Lemma shr_fexp_nonneg m e l : 0 <= m -> 0 <= shr_m (shr_fexp prec emax m e l).1.
Proof. intros H. apply shr_nonneg. destruct l as [|[]]; done. Qed.

Lemma round_even_nonneg m l : 0 <= m -> 0 <= round_nearest_even m l.
Proof. intros H. destruct l as [|[]]; simpl; try lia. destruct (Z.even m); lia. Qed.

(** Rounding a non-negative mantissa keeps the sign and gives a number. *)
Lemma round_aux_sign s m e l :
  0 <= m ->
  match binary_round_aux prec emax s m e l with
  | S754_nan => False
  | S754_zero s' | S754_infinity s' | S754_finite s' _ _ => s' = s
  end.
Proof.
  intros H. unfold binary_round_aux.
  destruct (shr_fexp prec emax m e l) as [mrs' e'] eqn:E1.
  pose proof (shr_fexp_nonneg m e l H) as H1. rewrite E1 in H1. simpl in H1.
  set (m2 := round_nearest_even _ _).
  assert (H2 : 0 <= m2) by (by apply round_even_nonneg).
  destruct (shr_fexp prec emax m2 e' loc_Exact) as [mrs'' e''] eqn:E2.
  pose proof (shr_fexp_nonneg m2 e' loc_Exact H2) as H3. rewrite E2 in H3.
  simpl in H3. destruct (shr_m mrs''); [done| |lia].
  destruct (_ <=? _); done.
Qed.

Lemma round_sign s m e :
  match binary_round prec emax s m e with
  | S754_nan => False
  | S754_zero s' | S754_infinity s' | S754_finite s' _ _ => s' = s
  end.
Proof.
  unfold binary_round. destruct (shl_align _ _ _) as [mz ez].
  apply round_aux_sign. lia.
Qed.

Lemma normalize_pos m e : 0 <= m -> pos_sf (binary_normalize prec emax m e false) = true.
Proof.
  intros H. destruct m as [|m|m]; [done| |lia]. simpl.
  pose proof (round_sign false m e) as Hs.
  destruct (binary_round _ _ _ _ _) as [[]|[]| |[] ? ?]; done.
Qed.

Lemma normalize_num m e s : isnan (binary_normalize prec emax m e s) = false.
Proof.
  destruct m as [|m|m]; [done| |]; simpl;
    [pose proof (round_sign false m e) as Hs|pose proof (round_sign true m e) as Hs];
    destruct (binary_round _ _ _ _ _) as [[]|[]| |[] ? ?]; done.
Qed.

Lemma add_pos (x y : float) :
  pos_sf x = true -> pos_sf y = true -> pos_sf (fadd x y) = true.
Proof.
  destruct x as [[]|[]| |[] mx ex], y as [[]|[]| |[] my ey]; try done.
  intros _ _. by apply (normalize_pos (Zpos _)).
Qed.

Lemma mul_pos (x y : float) :
  pos_sf x = true -> pos_sf y = true -> isnan (fmul x y) = false ->
  pos_sf (fmul x y) = true.
Proof.
  destruct x as [[]|[]| |[] mx ex], y as [[]|[]| |[] my ey]; simpl; try done.
  - intros _ _ _.
    pose proof (round_aux_sign false (Zpos (mx * my)) (ex + ey) loc_Exact
                  ltac:(lia)) as Hs.
    change (Z.pos (mx * my)%positive) with (Z.pos (Pos.mul mx my)) in *.
    destruct (binary_round_aux _ _ _ _ _ _) as [[]|[]| |[] ? ?]; done.
Qed.

Lemma div_core_nonneg m1 e1 m2 e2 :
  0 <= (SFdiv_core_binary prec emax (Zpos m1) e1 (Zpos m2) e2).1.1.
Proof.
  unfold SFdiv_core_binary. set (e' := Z.min _ _).
  set (m' := match e1 - e2 - e' with Z0 => _ | Zpos _ => _ | Zneg _ => _ end).
  assert (Hm : 0 <= m').
  { unfold m'. destruct (e1 - e2 - e'); [lia|apply Z.shiftl_nonneg; lia|lia]. }
  pose proof (Z.div_pos m' (Zpos m2) Hm ltac:(lia)) as Hq.
  unfold Z.div in Hq. destruct (Z.div_eucl m' (Zpos m2)) as [q r]. done.
Qed.

Lemma div_pos (x y : float) :
  pos_sf x = true -> flt (fint 0) y = true -> isnan (fdiv x y) = false ->
  pos_sf (fdiv x y) = true.
Proof.
  destruct x as [[]|[]| |[] mx ex], y as [[]|[]| |[] my ey]; simpl; try done.
  intros _ _ _.
  pose proof (div_core_nonneg mx ex my ey) as Hq.
  destruct (SFdiv_core_binary _ _ _ _ _ _) as [[q e'] l]. simpl in Hq.
  pose proof (round_aux_sign false q e' l Hq) as Hs.
  destruct (binary_round_aux _ _ _ _ _ _) as [[]|[]| |[] ? ?]; done.
Qed.
End B64Order.

#[export] Instance b64_laws : PyFloatLaws float.
Proof.
  split; intros *; rewrite ?B64Order.fisnan_isnan.
  - rewrite !B64Order.fle_key. intros (? & ? & ?) (? & ? & ?).
    split_and!; eauto using B64Order.key_le_trans.
  - apply B64Order.fle_total_key.
  - rewrite B64Order.flt_key, B64Order.fle_key. intros (? & ? & ?).
    split_and!; [done|done|by left].
  - rewrite B64Order.fle_key. by intros (? & ? & ?).
  - apply B64Order.feq_key.
  - apply B64Order.normalize_num.
  - done.
  - rewrite B64Order.fle_key. intros Hx. split_and!; [done|done|].
    unfold B64Order.key_le. destruct x as [[]|[]| |[] m e]; simpl; try done; auto;
      left; lia.
  - done.
  - intros H. rewrite B64Order.fle0_pos. by apply B64Order.normalize_pos.
  - reflexivity.
  - vm_compute. reflexivity.
  - vm_compute. reflexivity.
  - rewrite !B64Order.fle0_pos. apply B64Order.add_pos.
  - rewrite !B64Order.fle0_pos. apply B64Order.mul_pos.
  - rewrite !B64Order.fle0_pos. apply B64Order.div_pos.
  - rewrite B64Order.fle0_pos, B64Order.fle_key.
    destruct x as [[]|[]| |[] m e]; simpl; try done; intros _; split_and!; try done;
      unfold B64Order.key_le; simpl; first [by right|left; lia].
  - rewrite B64Order.fle0_pos. by destruct x as [[]|[]| |[] m e].
Qed.

(** ** Changes of sign *)

(** [-x] has the magnitude of [x] and the other sign; true of binary64. *)
Class PyFloatSigns (F : Type) {PF : PyFloat F} : Prop := {
  fabs_opp : forall x : F, fabs (fopp x) = fabs x;
  fopp_pos : forall x : F, flt (fint 0) (fopp x) = flt x (fint 0);
  fopp_neg : forall x : F, flt (fopp x) (fint 0) = flt (fint 0) x;
  fopp_zero : forall x : F, feq (fopp x) (fint 0) = feq x (fint 0);
  fopp_num : forall x : F, fisnan (fopp x) = fisnan x
}.

#[export] Instance b64_signs : PyFloatSigns float.
Proof.
  split; intros x; rewrite ?B64Order.fisnan_isnan; by destruct x as [[]|[]| |[] m e].
Qed.
