(* ===== verification/PyReal.v ===== *)
(** Exact arithmetic: the extended reals as an instance of the float interface.
    Theorems about what an algorithm computes, apart from rounding, are stated
    at this instance; the definitions they are about are the same ones that run
    on binary64. *)

From Stdlib Require Import Reals Lra.
From S2P Require Import Prelude PyFloat.

(** A real, an infinity ([true] is negative) or NaN. *)
Inductive xreal : Type :=
| XR (r : R)
| XInf (neg : bool)
| XNaN.

Module XReal.
Local Open Scope R_scope.

Definition rlt (a b : R) : bool := if Rlt_dec a b then true else false.
Definition rle (a b : R) : bool := if Rle_dec a b then true else false.
Definition req (a b : R) : bool := if Req_dec_T a b then true else false.

Definition opp (x : xreal) : xreal :=
  match x with XR r => XR (- r) | XInf s => XInf (negb s) | XNaN => XNaN end.

Definition abs (x : xreal) : xreal :=
  match x with XR r => XR (Rabs r) | XInf _ => XInf false | XNaN => XNaN end.

Definition add (x y : xreal) : xreal :=
  match x, y with
  | XR a, XR b => XR (a + b)
  | XInf s, XR _ | XR _, XInf s => XInf s
  | XInf s, XInf s' => if Bool.eqb s s' then XInf s else XNaN
  | _, _ => XNaN
  end.

(** The infinity of sign [s] times (or over) a non-zero real. *)
Definition scale_inf (s : bool) (r : R) : xreal :=
  if req r 0 then XNaN else XInf (if rlt 0 r then s else negb s).

Definition mul (x y : xreal) : xreal :=
  match x, y with
  | XR a, XR b => XR (a * b)
  | XInf s, XR r | XR r, XInf s => scale_inf s r
  | XInf s, XInf s' => XInf (xorb s s')
  | _, _ => XNaN
  end.

Definition div (x y : xreal) : xreal :=
  match x, y with
  | XR a, XR b => if req b 0 then XNaN else XR (a / b)
  | XInf s, XR r => scale_inf s r
  | XR _, XInf _ => XR 0
  | _, _ => XNaN
  end.

Definition lt (x y : xreal) : bool :=
  match x, y with
  | XR a, XR b => rlt a b
  | XInf true, XR _ | XR _, XInf false | XInf true, XInf false => true
  | _, _ => false
  end.

Definition le (x y : xreal) : bool :=
  match x, y with
  | XR a, XR b => rle a b
  | XNaN, _ | _, XNaN => false
  | XInf true, _ | _, XInf false => true
  | _, _ => false
  end.

Definition floor (x : xreal) : Z :=
  match x with XR r => Int_part r | _ => 0%Z end.

Definition ceil (x : xreal) : Z :=
  match x with XR r => (- Int_part (- r))%Z | _ => 0%Z end.

Definition trunc (x : xreal) : Z :=
  match x with
  | XR r => if rlt r 0 then (- Int_part (- r))%Z else Int_part r
  | _ => 0%Z
  end.

Definition decimal (m e : Z) : R := IZR m * powerRZ 10 e.

Definition round_even (r : R) : Z :=
  let q := Int_part r in
  let d := r - IZR q in
  if rlt d (/ 2) then q
  else if rlt (/ 2) d then (q + 1)%Z
  else if Z.even q then q else (q + 1)%Z.

Definition scaled (k : Z) (x : xreal) : Z :=
  match x with XR r => round_even (r * powerRZ 10 k) | _ => 0%Z end.

Definition isinf (x : xreal) : bool :=
  match x with XInf _ => true | _ => false end.
End XReal.

#[export] Instance xreal_float : PyFloat xreal := {|
  fadd := XReal.add;
  fsub x y := XReal.add x (XReal.opp y);
  fmul := XReal.mul;
  fdiv := XReal.div;
  fopp := XReal.opp;
  fabs := XReal.abs;
  flt := XReal.lt;
  fle := XReal.le;
  feq x y := XReal.le x y && XReal.le y x;
  fint z := XR (IZR z);
  fdec m e := XR (XReal.decimal m e);
  finf := XInf false;
  fisinf := XReal.isinf;
  ffloor := XReal.floor;
  fceil := XReal.ceil;
  ftrunc := XReal.trunc;
  fscaled := XReal.scaled
|}.

(** Case analysis on the decisions of the real comparisons. *)
Ltac rcases :=
  unfold XReal.rlt, XReal.rle, XReal.req in *;
  repeat match goal with
  | H : context [if ?d then _ else _] |- _ =>
    lazymatch d with context [if _ then _ else _] => fail | _ => destruct d end
  | |- context [if ?d then _ else _] =>
    lazymatch d with context [if _ then _ else _] => fail | _ => destruct d end
  end.

Section RealFacts.
Local Open Scope R_scope.

Lemma rlt_true a b : XReal.rlt a b = true <-> a < b.
Proof. rcases; split; try done; lra. Qed.
Lemma rlt_false a b : XReal.rlt a b = false <-> b <= a.
Proof. rcases; split; try done; lra. Qed.
Lemma rle_true a b : XReal.rle a b = true <-> a <= b.
Proof. rcases; split; try done; lra. Qed.
Lemma rle_false a b : XReal.rle a b = false <-> b < a.
Proof. rcases; split; try done; lra. Qed.
Lemma req_false a b : a <> b -> XReal.req a b = false.
Proof. rcases; done. Qed.

Lemma fle_XR a b : fle (XR a) (XR b) = XReal.rle a b.
Proof. done. Qed.
Lemma flt_XR a b : flt (XR a) (XR b) = XReal.rlt a b.
Proof. done. Qed.

Lemma fdiv_XR a b : b <> 0 -> fdiv (XR a) (XR b) = XR (a / b).
Proof. intros H. simpl. by rewrite req_false. Qed.

Lemma py_max_XR a b : py_max (XR a) (XR b) = XR (Rmax a b).
Proof.
  unfold py_max; simpl. rcases; f_equal.
  - rewrite Rmax_right; lra.
  - rewrite Rmax_left; lra.
Qed.

Lemma py_min_XR a b : py_min (XR a) (XR b) = XR (Rmin a b).
Proof.
  unfold py_min; simpl. rcases; f_equal.
  - rewrite Rmin_right; lra.
  - rewrite Rmin_left; lra.
Qed.

Lemma clamp_XR lo hi x : clamp (XR lo) (XR hi) (XR x) = XR (Rmax lo (Rmin hi x)).
Proof. unfold clamp. by rewrite py_min_XR, py_max_XR. Qed.

Lemma xnan_spec (x : xreal) : fisnan x = match x with XNaN => true | _ => false end.
Proof.
  unfold fisnan; simpl. destruct x as [r|[]|]; simpl; try done.
  rcases; simpl; try done; exfalso; lra.
Qed.
End RealFacts.

Lemma decimal_neg m k : XReal.decimal m (Zneg k) = (IZR m / IZR (10 ^ Zpos k))%R.
Proof.
  unfold XReal.decimal. simpl. unfold Rdiv. f_equal. f_equal.
  rewrite pow_IZR. f_equal. by rewrite positive_nat_Z.
Qed.

Lemma xreal_tenth : (fdec 1 (-1) : xreal) = XR (1 / 10).
Proof. simpl. f_equal. by rewrite decimal_neg. Qed.

#[export] Instance xreal_laws : PyFloatLaws xreal.
Proof.
  split; intros *; rewrite ?xnan_spec; simpl.
  - destruct x as [?|[]|], y as [?|[]|], z as [?|[]|]; simpl; try done;
      rcases; try done; lra.
  - destruct x as [?|[]|], y as [?|[]|]; simpl; try done; rcases; try done; lra.
  - destruct x as [?|[]|], y as [?|[]|]; simpl; try done; rcases; try done; lra.
  - destruct x as [?|[]|], y as [?|[]|]; simpl; done.
  - done.
  - done.
  - done.
  - by destruct x as [?|[]|].
  - done.
  - intros H%IZR_le. by apply rle_true.
  - apply rlt_true. lra.
  - change (XR (XReal.decimal 1 (-1))) with (fdec 1 (-1) : xreal).
    rewrite decimal_neg. apply rlt_true.
    change (10 ^ 1)%Z with 10%Z. lra.
  - rewrite decimal_neg. apply rlt_true.
    change (10 ^ 9)%Z with 1000000000%Z. lra.
  - destruct x as [?|[]|], y as [?|[]|]; simpl; try done; rcases; try done; lra.
  - destruct x as [?|[]|], y as [?|[]|]; simpl; try done; unfold XReal.scale_inf;
      rcases; try done; try lra; nra.
  - destruct x as [a|[]|], y as [b|[]|]; simpl; try done; unfold XReal.scale_inf;
      rcases; try done; try lra; intros _ _ _;
      match goal with H : ~ (0 <= ?u / ?v)%R |- _ => exfalso; apply H;
        apply Rmult_le_pos; [done|]; left; apply Rinv_0_lt_compat; lra end.
  - destruct x as [?|[]|]; simpl; try done; rcases; try done; lra.
  - destruct x as [a|[]|]; simpl; try done; intros _. apply rle_true. apply Rabs_pos.
Qed.
