(* ===== verification/PyStats.v ===== *)
(** The functions of the [statistics] module the scripts use, on a list of floats that is
    not empty ([stdev] on two values at least): the module works on exact fractions and
    rounds once.  And [math.sqrt]. *)

From Stdlib Require Import SpecFloat Reals.
From S2P Require Import Prelude PyFloat PyReal.

Class PyStats (F : Type) := {
  mean : list F -> F;
  stdev : list F -> F;
  pstdev : list F -> F;
  fsqrt : F -> F
}.

(** ** binary64 *)

Module StatsB64.
Import B64.

(** [n / d] of two integers, [0 < d], correctly rounded. *)
Definition quotient (n d : Z) : float :=
  match n with
  | Z0 => S754_zero false
  | Zpos p => SFdiv prec emax (S754_finite false p 0) (S754_finite false (Z.to_pos d) 0)
  | Zneg p => SFdiv prec emax (S754_finite true p 0) (S754_finite false (Z.to_pos d) 0)
  end.

Definition is_finite (x : float) : bool :=
  match x with S754_zero _ | S754_finite _ _ _ => true | _ => false end.

Definition exponent (x : float) : Z := match x with S754_finite _ _ e => e | _ => 0 end.

(** The values as integers over a common power of two. *)
Definition scale (xs : list float) : Z := foldr (fun x e => Z.min (exponent x) e) 0 xs.
Definition mantissa (e : Z) (x : float) : Z :=
  match x with S754_finite s m e' => signed s m * 2 ^ (e' - e) | _ => 0 end.
Definition mantissas (xs : list float) : list Z := map (mantissa (scale xs)) xs.

Definition zsum (l : list Z) : Z := foldr Z.add 0 l.

(** [n * 2**e / d]; the common exponent is never positive. *)
Definition scaled_ratio (n e d : Z) : float := quotient n (d * 2 ^ (- e)).

(** A list with an infinity or a NaN has their sum for a mean. *)
Definition mean (xs : list float) : float :=
  let n := Z.of_nat (length xs) in
  match filter (fun x => is_finite x = false) xs with
  | [] => scaled_ratio (zsum (mantissas xs)) (scale xs) n
  | odd => fdiv (foldl fadd (fint 0) odd) (fint n)
  end.

(** [_float_sqrt_of_frac]: the square root of [n / m], through an integer root that is
    rounded to odd. *)
Definition isqrt_rto (n m : Z) : Z :=
  let a := Z.sqrt (n / m) in
  if a * a * m =? n then a else Z.lor a 1.
Definition bit_length (n : Z) : Z := if n =? 0 then 0 else Z.log2 n + 1.
Definition sqrt_of_frac (n m : Z) : float :=
  let q := (bit_length n - bit_length m - 109) / 2 in
  if n =? 0 then S754_zero false
  else if 0 <=? q then quotient (isqrt_rto n (m * 2 ^ (2 * q)) * 2 ^ q) 1
  else quotient (isqrt_rto (n * 2 ^ (-2 * q)) m) (2 ^ (- q)).

(** The squared deviations, over the count and the common scale: [n * sxx - sx * sx]. *)
Definition deviations (xs : list float) : Z :=
  let ms := mantissas xs in
  Z.of_nat (length xs) * zsum (map (fun m => m * m) ms) - zsum ms * zsum ms.

(** The root of the deviations over [d]; the library raises on an infinity or a NaN. *)
Definition deviation (d : Z) (xs : list float) : float :=
  match filter (fun x => is_finite x = false) xs with
  | [] => sqrt_of_frac (deviations xs) (Z.of_nat (length xs) * d * 2 ^ (-2 * scale xs))
  | _ => S754_nan
  end.
End StatsB64.

#[export] Instance b64_stats : PyStats float := {|
  mean := StatsB64.mean;
  stdev xs := StatsB64.deviation (Z.of_nat (length xs) - 1) xs;
  pstdev xs := StatsB64.deviation (Z.of_nat (length xs)) xs;
  fsqrt := SFsqrt B64.prec B64.emax
|}.

(** [statistics.mean([0.1, 0.2, 0.3]) == 0.2] and [statistics.stdev([1.0, 2.0, 4.0])]. *)
Example stats_b64_point_two :
  mean [fdec 1 (-1); fdec 2 (-1); fdec 3 (-1)] = (fdec 2 (-1) : float) /\
  stdev [fint 1; fint 2; fint 4] = (fdec 15275252316519468 (-16) : float) /\
  pstdev [fint 2; fint 4; fint 4; fint 4; fint 5; fint 5; fint 7; fint 9] = (fint 2 : float).
Proof. vm_compute. split_and!; reflexivity. Qed.

(** ** Exact arithmetic *)

Module StatsReal.
Definition total (xs : list xreal) : xreal := foldr fadd (fint 0) xs.
Definition mean (xs : list xreal) : xreal := fdiv (total xs) (fint (Z.of_nat (length xs))).
Definition root (x : xreal) : xreal := match x with XR r => XR (sqrt r) | _ => x end.
Definition deviation (d : Z) (xs : list xreal) : xreal :=
  let m := mean xs in
  root (fdiv (total (map (fun x => fmul (fsub x m) (fsub x m)) xs)) (fint d)).
End StatsReal.

#[export] Instance xreal_stats : PyStats xreal := {|
  mean := StatsReal.mean;
  stdev xs := StatsReal.deviation (Z.of_nat (length xs) - 1) xs;
  pstdev xs := StatsReal.deviation (Z.of_nat (length xs)) xs;
  fsqrt := StatsReal.root
|}.
