(* ===== verification/PyDict.v ===== *)
(** Python dicts and [OrderedDict]: insertion-ordered association lists.

    The sources iterate over their dicts (the order decides ties in routing), so
    the order is part of the state.  Assigning to a key that is present keeps
    its position; a new key goes to the end. *)

From S2P Require Import Prelude.

Section Dict.
Context {K V : Type} `{EqDecision K}.
Implicit Types (k : K) (v : V) (d : list (K * V)).

(** [d.get(k)]. *)
Fixpoint dget (k : K) (d : list (K * V)) : option V :=
  match d with
  | [] => None
  | (k', v) :: d' => if decide (k = k') then Some v else dget k d'
  end.

(** [d[k] = v]. *)
Fixpoint dset (k : K) (v : V) (d : list (K * V)) : list (K * V) :=
  match d with
  | [] => [(k, v)]
  | (k', v') :: d' => if decide (k = k') then (k', v) :: d' else (k', v') :: dset k v d'
  end.

(** [d.pop(k, None)]. *)
Fixpoint dpop (k : K) (d : list (K * V)) : list (K * V) :=
  match d with
  | [] => []
  | (k', v') :: d' => if decide (k = k') then dpop k d' else (k', v') :: dpop k d'
  end.

Definition dkeys (d : list (K * V)) : list K := map fst d.
Definition dvalues (d : list (K * V)) : list V := map snd d.

(** [k in d]. *)
Definition dmem (k : K) (d : list (K * V)) : bool :=
  match dget k d with Some _ => true | None => false end.

(** [d.get(k, default)]. *)
Definition dget_or (k : K) (v : V) (d : list (K * V)) : V :=
  match dget k d with Some x => x | None => v end.

(** [d[k] = f(d[k])] when the key is present. *)
Definition dalter (f : V -> V) (k : K) (d : list (K * V)) : list (K * V) :=
  match dget k d with Some v => dset k (f v) d | None => d end.

(** [d.setdefault(k, v)], the dict part. *)
Definition dsetdefault (k : K) (v : V) (d : list (K * V)) : list (K * V) :=
  if dmem k d then d else dset k v d.

(** [d.update(d')]. *)
Definition dupdate (d d' : list (K * V)) : list (K * V) :=
  foldl (fun acc kv => dset kv.1 kv.2 acc) d d'.

(** [OrderedDict.move_to_end(k)]. *)
Definition dmove_to_end (k : K) (d : list (K * V)) : list (K * V) :=
  match dget k d with Some v => dpop k d ++ [(k, v)] | None => d end.

(** Keys are pairwise distinct: the representation invariant. *)
Definition dict_wf (d : list (K * V)) : Prop := NoDup (dkeys d).

Lemma dget_Some_elem k v d : dget k d = Some v -> (k, v) ∈ d.
Proof.
  induction d as [|[k' v'] d IH]; simpl; [done|]. case_decide; [|set_solver].
  intros [= ->]. subst. set_solver.
Qed.

Lemma dget_None k d : dget k d = None <-> k ∉ dkeys d.
Proof.
  induction d as [|[k' v'] d IH]; simpl; [set_solver|]. case_decide.
  - subst. split; [done|set_solver].
  - rewrite IH. set_solver.
Qed.

Lemma dget_is_Some k d : is_Some (dget k d) <-> k ∈ dkeys d.
Proof.
  destruct (dget k d) as [v|] eqn:E.
  - split; [|done]. intros _. apply dget_Some_elem in E.
    apply list_elem_of_fmap. by exists (k, v).
  - apply dget_None in E. split; [by intros []|done].
Qed.

Lemma dmem_true k d : dmem k d = true <-> k ∈ dkeys d.
Proof.
  rewrite <- dget_is_Some. unfold dmem, is_Some.
  destruct (dget k d); naive_solver.
Qed.

Lemma dget_elem k v d : dict_wf d -> (k, v) ∈ d -> dget k d = Some v.
Proof.
  unfold dict_wf. induction d as [|[k' v'] d IH]; simpl; [set_solver|].
  intros [Hk Hd]%NoDup_cons [[= -> ->]|Hin]%elem_of_cons.
  - by rewrite decide_True.
  - rewrite decide_False; [by apply IH|]. intros ->. apply Hk.
    apply list_elem_of_fmap. by exists (k', v).
Qed.

Lemma dget_dset_eq k v d : dget k (dset k v d) = Some v.
Proof.
  induction d as [|[k' v'] d IH]; simpl; [by rewrite decide_True|].
  case_decide; simpl; case_decide; done.
Qed.

Lemma dget_dset_ne k k' v d : k <> k' -> dget k (dset k' v d) = dget k d.
Proof.
  intros Hne. induction d as [|[k2 v2] d IH]; simpl; [by rewrite decide_False|].
  repeat (case_decide; simpl); congruence.
Qed.

Lemma dget_dset k k' v d :
  dget k (dset k' v d) = if decide (k = k') then Some v else dget k d.
Proof. case_decide; [subst; apply dget_dset_eq|by apply dget_dset_ne]. Qed.

Lemma dkeys_dset_present k v d : k ∈ dkeys d -> dkeys (dset k v d) = dkeys d.
Proof.
  induction d as [|[k' v'] d IH]; simpl; [set_solver|].
  intros [->|Hin]%elem_of_cons; case_decide; simpl; try done.
  f_equal. by apply IH.
Qed.

Lemma dkeys_dset_new k v d : k ∉ dkeys d -> dkeys (dset k v d) = dkeys d ++ [k].
Proof.
  induction d as [|[k' v'] d IH]; simpl; [done|]. intros Hin.
  rewrite decide_False by set_solver. simpl. f_equal. apply IH. set_solver.
Qed.

Lemma dset_fresh k v d : k ∉ dkeys d -> dset k v d = d ++ [(k, v)].
Proof.
  induction d as [|[k' v'] d IH]; simpl; [done|]. intros H.
  rewrite decide_False by set_solver. rewrite IH by set_solver. done.
Qed.

Lemma elem_of_dkeys_dset k k' v d : k ∈ dkeys (dset k' v d) <-> k = k' \/ k ∈ dkeys d.
Proof.
  rewrite <- !dget_is_Some, dget_dset. case_decide; [by split; eauto|]. naive_solver.
Qed.

Lemma dict_wf_dset k v d : dict_wf d -> dict_wf (dset k v d).
Proof.
  unfold dict_wf. intros Hd. destruct (decide (k ∈ dkeys d)) as [Hin|Hin].
  - by rewrite dkeys_dset_present.
  - rewrite dkeys_dset_new by done. apply NoDup_app.
    split_and!; [done| |apply NoDup_singleton].
    intros x Hx Hx'%list_elem_of_singleton. by subst.
Qed.

Lemma dget_dpop k k' d : dget k (dpop k' d) = if decide (k = k') then None else dget k d.
Proof.
  induction d as [|[k2 v2] d IH]; simpl; [by case_decide|].
  repeat (case_decide; simpl; try subst); congruence.
Qed.

Lemma dkeys_dpop k d : dkeys (dpop k d) = filter (fun k' => k <> k') (dkeys d).
Proof.
  induction d as [|[k' v'] d IH]; simpl; [done|].
  rewrite filter_cons. repeat (case_decide; simpl); try congruence; tauto.
Qed.

Lemma dict_wf_dpop k d : dict_wf d -> dict_wf (dpop k d).
Proof. unfold dict_wf. rewrite dkeys_dpop. apply NoDup_filter. Qed.

Lemma length_dpop_present k d :
  dict_wf d -> k ∈ dkeys d -> S (length (dpop k d)) = length d.
Proof.
  unfold dict_wf. induction d as [|[k' v'] d IH]; simpl; [set_solver|].
  intros [Hk Hd]%NoDup_cons. case_decide; subst.
  - intros _. f_equal. clear IH Hd. induction d as [|[k2 v2] d IH]; simpl; [done|].
    simpl in Hk. rewrite decide_False by set_solver. simpl. f_equal. apply IH. set_solver.
  - intros [?|?]%elem_of_cons; [congruence|]. simpl. f_equal. by apply IH.
Qed.

Lemma dget_dalter f k k' d :
  dget k (dalter f k' d) = if decide (k = k') then f <$> dget k d else dget k d.
Proof.
  unfold dalter. destruct (dget k' d) as [v|] eqn:E.
  - rewrite dget_dset. case_decide; [subst; by rewrite E|done].
  - case_decide; [subst; by rewrite E|done].
Qed.

Lemma dkeys_dalter f k d : dkeys (dalter f k d) = dkeys d.
Proof.
  unfold dalter. destruct (dget k d) eqn:E; [|done].
  apply dkeys_dset_present, dget_is_Some. by rewrite E.
Qed.

Lemma length_dalter f k d : length (dalter f k d) = length d.
Proof.
  pose proof (f_equal length (dkeys_dalter f k d)) as H. unfold dkeys in H.
  by rewrite !length_map in H.
Qed.

Lemma dict_wf_dalter f k d : dict_wf d -> dict_wf (dalter f k d).
Proof. unfold dict_wf. by rewrite dkeys_dalter. Qed.

Lemma dget_app k d d' :
  dget k (d ++ d') = match dget k d with Some v => Some v | None => dget k d' end.
Proof. induction d as [|[k' v'] d IH]; simpl; [done|]. by case_decide. Qed.

(** *** Recency: [move_to_end] *)

Lemma dget_dmove_to_end k k' d : dget k (dmove_to_end k' d) = dget k d.
Proof.
  unfold dmove_to_end. destruct (dget k' d) as [v|] eqn:E; [|done].
  rewrite dget_app, dget_dpop. case_decide.
  - subst. simpl. by rewrite decide_True.
  - destruct (dget k d); [done|]. simpl. by rewrite decide_False.
Qed.

Lemma dict_wf_dmove_to_end k d : dict_wf d -> dict_wf (dmove_to_end k d).
Proof.
  unfold dmove_to_end. destruct (dget k d) as [v|] eqn:E; [|done].
  unfold dict_wf, dkeys. rewrite map_app. intros Hd.
  apply NoDup_app. split_and!.
  - by apply (dict_wf_dpop k).
  - change (map fst (dpop k d)) with (dkeys (dpop k d)).
    rewrite dkeys_dpop. intros x [? _]%list_elem_of_filter Hx.
    simpl in Hx. apply list_elem_of_singleton in Hx. by subst.
  - apply NoDup_singleton.
Qed.

Lemma length_dmove_to_end k d : dict_wf d -> length (dmove_to_end k d) = length d.
Proof.
  unfold dmove_to_end. destruct (dget k d) as [v|] eqn:E; [|done].
  intros Hd. rewrite length_app. simpl.
  rewrite <- (length_dpop_present k d) by (done || apply dget_is_Some; by rewrite E).
  lia.
Qed.

Lemma dmove_to_end_last k v d :
  dget k d = Some v -> last (dmove_to_end k d) = Some (k, v).
Proof. intros E. unfold dmove_to_end. rewrite E. apply last_snoc. Qed.

Lemma length_dset k v d :
  length (dset k v d) = if decide (k ∈ dkeys d) then length d else S (length d).
Proof.
  destruct (decide (k ∈ dkeys d)) as [Hin|Hin].
  - pose proof (f_equal length (dkeys_dset_present k v d Hin)) as H.
    unfold dkeys in H. by rewrite !length_map in H.
  - pose proof (f_equal length (dkeys_dset_new k v d Hin)) as H.
    unfold dkeys in H. rewrite length_app, !length_map in H. simpl in H. lia.
Qed.

Lemma length_dset_le k v d : (length (dset k v d) <= S (length d))%nat.
Proof. rewrite length_dset. case_decide; lia. Qed.

(** A set followed by a move to the end puts the entry last. *)
Lemma dpop_dset k v d : dpop k (dset k v d) = dpop k d.
Proof.
  induction d as [|[k' v'] d IH]; simpl; [by rewrite decide_True|].
  repeat (case_decide; simpl); congruence.
Qed.

Lemma dset_dset k v v' d : dset k v (dset k v' d) = dset k v d.
Proof. induction d as [|[k' w] d IH]; simpl; repeat (case_decide; simpl); congruence. Qed.

Lemma dset_id k v d : dget k d = Some v -> dset k v d = d.
Proof.
  induction d as [|[k' w] d IH]; simpl; [done|]. case_decide; [congruence|].
  intros Hg. by rewrite IH.
Qed.

Lemma dalter_Some f k v d : dget k d = Some v -> dalter f k d = dset k (f v) d.
Proof. unfold dalter. by intros ->. Qed.

Lemma dalter_None f k d : dget k d = None -> dalter f k d = d.
Proof. unfold dalter. by intros ->. Qed.

Lemma dalter_dset f k v d : dalter f k (dset k v d) = dset k (f v) d.
Proof. rewrite (dalter_Some _ _ v) by apply dget_dset_eq. apply dset_dset. Qed.

Lemma dmove_to_end_dset k v d : dmove_to_end k (dset k v d) = dpop k d ++ [(k, v)].
Proof. unfold dmove_to_end. by rewrite dget_dset_eq, dpop_dset. Qed.

Lemma length_dpop_le k d : (length (dpop k d) <= length d)%nat.
Proof. induction d as [|[k' v'] d IH]; simpl; [done|]. case_decide; simpl; lia. Qed.

Lemma dict_wf_drop n d : dict_wf d -> dict_wf (drop n d).
Proof.
  unfold dict_wf, dkeys. intros Hd. rewrite <- (take_drop n (map fst d)) in Hd.
  apply NoDup_app in Hd as (_ & _ & Hd).
  by rewrite List.skipn_map in Hd.
Qed.
End Dict.

#[export] Hint Resolve dict_wf_dset dict_wf_dpop dict_wf_dalter dict_wf_dmove_to_end
  dict_wf_drop : dio.
#[export] Hint Extern 1 (dict_wf []) => (apply NoDup_nil_2) : dio.
