(* ===== verification/PySort.v ===== *)
(** [sorted] on floats, and what the percentile and quartile code needs of it. *)

From S2P Require Import Prelude PyFloat.

Section Sort.
Context {F : Type} {PF : PyFloat F}.
Implicit Types (x y : F) (l : list F).

(** Insert [x] after the elements that are not greater than it. *)
Fixpoint finsert (x : F) (l : list F) : list F :=
  match l with
  | [] => [x]
  | y :: l' => if flt x y then x :: y :: l' else y :: finsert x l'
  end.

(** [sorted(xs)]: the stable sort; on lists without NaN every stable sort
    gives this list. *)
Definition fsorted (l : list F) : list F := foldl (fun acc x => finsert x acc) [] l.

(** [0 <= i]: the element at index [i], [0.0] out of range (never reached:
    see the index lemmas of the users). *)
Definition fnth (l : list F) (i : Z) : F := nth (Z.to_nat i) l f0.

Definition all_num (l : list F) : Prop := forall x, x ∈ l -> fisnan x = false.

Lemma finsert_perm x l : finsert x l ≡ₚ x :: l.
Proof.
  induction l as [|y l IH]; simpl; [done|]. destruct (flt x y); [done|].
  rewrite IH. apply Permutation_swap.
Qed.

Lemma foldl_finsert_perm l acc : foldl (fun a x => finsert x a) acc l ≡ₚ acc ++ l.
Proof.
  revert acc; induction l as [|x l IH]; intros acc; simpl.
  - by rewrite app_nil_r.
  - rewrite IH, finsert_perm. simpl. by rewrite Permutation_middle.
Qed.

Lemma fsorted_perm l : fsorted l ≡ₚ l.
Proof. unfold fsorted. by rewrite foldl_finsert_perm. Qed.

Lemma length_fsorted l : length (fsorted l) = length l.
Proof. by rewrite fsorted_perm. Qed.

Lemma elem_of_fsorted x l : x ∈ fsorted l <-> x ∈ l.
Proof. by rewrite fsorted_perm. Qed.

Lemma fnth_elem l i : 0 <= i < Z.of_nat (length l) -> fnth l i ∈ l.
Proof.
  intros H. unfold fnth. apply list_elem_of_In, nth_In. lia.
Qed.

Context {PL : PyFloatLaws F}.

(** Non-decreasing in the float order. *)
Fixpoint nondec (l : list F) : Prop :=
  match l with
  | [] => True
  | x :: l' => (forall y, y ∈ l' -> fle x y = true) /\ nondec l'
  end.

Lemma finsert_nondec x l :
  fisnan x = false -> all_num l -> nondec l -> nondec (finsert x l).
Proof.
  intros Hx. induction l as [|y l IH]; intros Hnum Hl; simpl.
  - split; [by intros ? ?%not_elem_of_nil|done].
  - destruct Hl as [Hy Hl].
    assert (Hny : fisnan y = false) by (apply Hnum; set_solver).
    destruct (flt x y) eqn:E.
    + simpl. split; [|by split]. intros z [->|Hz]%elem_of_cons; [by apply flt_fle|].
      eapply fle_trans; [by apply flt_fle|by apply Hy].
    + simpl. split.
      * intros z Hz. rewrite (finsert_perm x l) in Hz.
        apply elem_of_cons in Hz as [->|Hz]; [by apply flt_false_fle|by apply Hy].
      * apply IH; [|done]. intros z Hz. apply Hnum. set_solver.
Qed.

Lemma fsorted_nondec l : all_num l -> nondec (fsorted l).
Proof.
  unfold fsorted. intros Hl.
  cut (forall acc, all_num acc -> nondec acc ->
         nondec (foldl (fun a x => finsert x a) acc l)).
  { intros H. apply H; [by intros ? ?%not_elem_of_nil|done]. }
  induction l as [|x l IH]; intros acc Hacc Hn; simpl; [done|].
  apply IH.
  - intros z Hz. apply Hl. set_solver.
  - intros z Hz. rewrite finsert_perm in Hz.
    apply elem_of_cons in Hz as [->|Hz]; [apply Hl; set_solver|by apply Hacc].
  - apply finsert_nondec; [|done..]. apply Hl. set_solver.
Qed.

Lemma nondec_nth l i j :
  nondec l -> all_num l -> (i <= j < length l)%nat ->
  fle (nth i l f0) (nth j l f0) = true.
Proof.
  revert i j; induction l as [|x l IH]; intros i j Hl Hnum Hij; simpl in *; [lia|].
  destruct Hl as [Hx Hl]. destruct j as [|j].
  - replace i with 0%nat by lia. apply fle_refl, Hnum. set_solver.
  - destruct i as [|i].
    + apply Hx. apply list_elem_of_In, nth_In. lia.
    + apply IH; [done| |lia]. intros z Hz. apply Hnum. set_solver.
Qed.

(** Order statistics: an element of the sorted list bounds its prefix from
    above and its suffix from below. *)
Lemma fsorted_fnth_le l i j :
  all_num l -> 0 <= i <= j -> j < Z.of_nat (length l) ->
  fle (fnth (fsorted l) i) (fnth (fsorted l) j) = true.
Proof.
  intros Hl Hij Hj. unfold fnth. apply nondec_nth.
  - by apply fsorted_nondec.
  - intros x Hx. apply Hl. by rewrite fsorted_perm in Hx.
  - rewrite length_fsorted. lia.
Qed.
End Sort.

#[export] Hint Resolve fsorted_perm : dio.
