(* ===== verification/PyStr.v ===== *)
(** Python strings over the code points U+0000..U+00FF: a [string] is the
    sequence of its code points, one [ascii] each.  Whitespace, letter case,
    [isdigit] and line boundaries follow CPython's tables on that range.
    Then the fixed-point formatting of floats. *)

From Stdlib Require Export Ascii.
From Stdlib Require String.
From Stdlib Require Import DecimalString.
From S2P Require Import Prelude.
From S2P Require Import PyFloat.

#[global] Open Scope string_scope.
#[global] Open Scope Z_scope.

(** ** Characters *)

Definition code (c : ascii) : Z := Z.of_N (N_of_ascii c).
Definition chr (n : Z) : ascii := ascii_of_N (Z.to_N n).

Definition in_range (lo hi n : Z) : bool := (lo <=? n) && (n <=? hi).

(** [c.isspace()]. *)
Definition is_space (c : ascii) : bool :=
  let n := code c in
  in_range 9 13 n || in_range 28 32 n || (n =? 133) || (n =? 160).

(** [c.lower()]. *)
Definition to_lower (c : ascii) : ascii :=
  let n := code c in
  if in_range 65 90 n || (in_range 192 222 n && negb (n =? 215)) then chr (n + 32) else c.

(** [c.isdigit()]: the decimal digits and the superscripts one, two, three. *)
Definition is_digit (c : ascii) : bool :=
  let n := code c in
  in_range 48 57 n || (n =? 178) || (n =? 179) || (n =? 185).

(** A character [int] accepts as a digit. *)
Definition is_decimal (c : ascii) : bool := in_range 48 57 (code c).

(** ** Strings as character lists *)

Abbreviation chars := String.list_ascii_of_string.
Abbreviation unchars := String.string_of_list_ascii.

Lemma str_app_cons c s t : (String c s) ++ t = String c (s ++ t).
Proof. done. Qed.

Lemma str_app_nil_l s : "" ++ s = s.
Proof. done. Qed.

Lemma chars_app s t : chars (s ++ t) = (chars s ++ chars t)%list.
Proof.
  induction s as [|c s IH]; [done|]. rewrite str_app_cons. simpl. f_equal. apply IH.
Qed.

Lemma unchars_app s t : unchars (s ++ t)%list = unchars s ++ unchars t.
Proof.
  induction s as [|c s IH]; [done|]. simpl. rewrite str_app_cons. f_equal. apply IH.
Qed.

Lemma chars_inj s t : chars s = chars t -> s = t.
Proof.
  intros H. rewrite <- (String.string_of_list_ascii_of_string s), H.
  apply String.string_of_list_ascii_of_string.
Qed.

(** [len(s)]. *)
Definition str_len (s : string) : Z := Z.of_nat (String.length s).

Definition str_eqb (s t : string) : bool := bool_decide (s = t).

(** Truth value of a string. *)
Definition str_truth (s : string) : bool :=
  match s with EmptyString => false | _ => true end.

(** [a or b] on strings. *)
Definition str_or (a b : string) : string := if str_truth a then a else b.

Fixpoint drop_while (p : ascii -> bool) (l : list ascii) : list ascii :=
  match l with
  | [] => []
  | c :: l' => if p c then drop_while p l' else l
  end.

Definition strip_right (p : ascii -> bool) (l : list ascii) : list ascii :=
  rev (drop_while p (rev l)).

(** [s.strip()]. *)
Definition strip (s : string) : string :=
  unchars (strip_right is_space (drop_while is_space (chars s))).

(** [s.rstrip("/")] for one character. *)
Definition rstrip_char (c : ascii) (s : string) : string :=
  unchars (strip_right (fun c' => bool_decide (c' = c)) (chars s)).

(** [s.strip(cs)] for a set of characters. *)
Definition strip_chars (cs : list ascii) (s : string) : string :=
  let p := fun c' => bool_decide (c' ∈ cs) in
  unchars (strip_right p (drop_while p (chars s))).

(** [s.lower()]. *)
Definition lower (s : string) : string := unchars (map to_lower (chars s)).

(** [s.startswith(p)]. *)
Fixpoint startswith (p s : string) : bool :=
  match p, s with
  | EmptyString, _ => true
  | String a p', String b s' => bool_decide (a = b) && startswith p' s'
  | String _ _, EmptyString => false
  end.

(** [s.endswith(p)]. *)
Definition endswith (p s : string) : bool :=
  startswith (unchars (rev (chars p))) (unchars (rev (chars s))).

(** [s[n:]]. *)
Fixpoint str_drop (n : nat) (s : string) : string :=
  match n, s with
  | S n', String _ s' => str_drop n' s'
  | _, _ => s
  end.

(** [s[:n]]. *)
Fixpoint str_take (n : nat) (s : string) : string :=
  match n, s with
  | S n', String c s' => String c (str_take n' s')
  | _, _ => EmptyString
  end.

(** [s.partition(c)], or [s.split(c, 1)], for a one-character separator: the
    text before and after the first occurrence. *)
Fixpoint partition (c : ascii) (s : string) : option (string * string) :=
  match s with
  | EmptyString => None
  | String c' s' =>
    if decide (c' = c) then Some (EmptyString, s')
    else match partition c s' with
         | Some (a, b) => Some (String c' a, b)
         | None => None
         end
  end.

(** [s.split(sep, 1)] for a longer separator. *)
Fixpoint partition_str (sep s : string) : option (string * string) :=
  if startswith sep s then Some (EmptyString, str_drop (String.length sep) s)
  else match s with
       | EmptyString => None
       | String c s' =>
         match partition_str sep s' with
         | Some (a, b) => Some (String c a, b)
         | None => None
         end
       end.

(** [c in s] for one character. *)
Definition has_char (c : ascii) (s : string) : bool := bool_decide (c ∈ chars s).

(** [s.split(c)] for a one-character separator. *)
Fixpoint split (c : ascii) (s : string) : list string :=
  match s with
  | EmptyString => [EmptyString]
  | String c' s' =>
    if decide (c' = c) then EmptyString :: split c s'
    else match split c s' with
         | [] => [String c' EmptyString]
         | w :: ws => String c' w :: ws
         end
  end.

(** [s.rsplit(c, 1)[-1]]: the text after the last separator. *)
Fixpoint after_last (c : ascii) (s : string) : string :=
  match s with
  | EmptyString => EmptyString
  | String c' s' => if has_char c s then
                      if decide (c' = c) then
                        if has_char c s' then after_last c s' else s'
                      else after_last c s'
                    else s
  end.

(** [sep.join(l)]. *)
Definition join (sep : string) (l : list string) : string := String.concat sep l.

(** [str.splitlines()]: LF, CR, CRLF, VT, FF, FS, GS, RS and NEL end a line. *)
Definition is_linebreak (c : ascii) : bool :=
  let n := code c in in_range 10 13 n || in_range 28 30 n || (n =? 133).

Fixpoint splitlines_from (cur : list ascii) (s : string) : list string :=
  match s with
  | EmptyString => match cur with [] => [] | _ => [unchars (rev cur)] end
  | String c s' =>
    if is_linebreak c then
      unchars (rev cur) ::
      match s' with
      | String c2 s'' =>
        if (code c =? 13) && (code c2 =? 10) then splitlines_from [] s''
        else splitlines_from [] s'
      | EmptyString => []
      end
    else splitlines_from (c :: cur) s'
  end.

Definition splitlines (s : string) : list string := splitlines_from [] s.

(** [s.replace(c, "", 1)]. *)
Fixpoint remove_first (c : ascii) (s : string) : string :=
  match s with
  | EmptyString => EmptyString
  | String c' s' => if decide (c' = c) then s' else String c' (remove_first c s')
  end.

(** [s.isdigit()]. *)
Definition isdigit (s : string) : bool :=
  match s with EmptyString => false | _ => forallb is_digit (chars s) end.

(** ** Numbers and text *)

(** [str(n)]. *)
Definition str_of_Z (z : Z) : string := NilZero.string_of_int (Z.to_int z).

(** Decimal digits with single underscores between them, as [int] reads them. *)
Fixpoint digits_from (acc : Z) (prev_digit : bool) (l : list ascii) : option Z :=
  match l with
  | [] => if prev_digit then Some acc else None
  | c :: l' =>
    if is_decimal c then digits_from (10 * acc + (code c - 48)) true l'
    else if bool_decide (c = "_"%char) && prev_digit then digits_from acc false l'
    else None
  end.

(** [int(s)]; [None] is the [ValueError]. *)
Definition int_of_str (s : string) : option Z :=
  match chars (strip s) with
  | [] => None
  | c :: l =>
    if bool_decide (c = "-"%char) then Z.opp <$> digits_from 0 false l
    else if bool_decide (c = "+"%char) then digits_from 0 false l
    else digits_from 0 false (c :: l)
  end.

Example str_strip_ex : strip " 	a b " = "a b".
Proof. reflexivity. Qed.
Example str_split_ex : split "," "a,,b" = ["a"; ""; "b"].
Proof. reflexivity. Qed.
Example str_after_last_ex : after_last "/" "org/team/m" = "m" /\ after_last "/" "m" = "m".
Proof. split; reflexivity. Qed.
Example str_splitlines_ex : splitlines (String (chr 10) (String "a" (String (chr 13)
  (String (chr 10) "b")))) = [""; "a"; "b"].
Proof. reflexivity. Qed.
Example str_int_ex : int_of_str " -1_0 " = Some (-10) /\ int_of_str "1-2" = None
  /\ isdigit (String (chr 178) "") = true /\ int_of_str (String (chr 178) "") = None.
Proof. vm_compute. done. Qed.
Example str_of_Z_ex : str_of_Z (-120) = "-120" /\ str_of_Z 0 = "0".
Proof. split; reflexivity. Qed.

(** ** Lemmas *)

Lemma startswith_spec p s : startswith p s = true <-> exists r, s = p ++ r.
Proof.
  revert s; induction p as [|a p IH]; intros s; simpl.
  - split; eauto.
  - destruct s as [|b s]; [split; [done|by intros []]|].
    rewrite andb_true_iff, bool_decide_eq_true, IH. setoid_rewrite str_app_cons. split.
    + intros [-> [r ->]]. by exists r.
    + intros [r [= -> ->]]. eauto.
Qed.

Lemma startswith_app p r : startswith p (p ++ r) = true.
Proof. apply startswith_spec. by exists r. Qed.

Lemma str_app_nil_r s : s ++ "" = s.
Proof. induction s as [|c s IH]; [done|]. by rewrite str_app_cons, IH. Qed.

Lemma str_app_assoc (a b c : string) : a ++ (b ++ c) = (a ++ b) ++ c.
Proof. induction a as [|x a IH]; [done|]. by rewrite !str_app_cons, IH. Qed.

Lemma endswith_spec p s : endswith p s = true <-> exists r, s = r ++ p.
Proof.
  unfold endswith. rewrite startswith_spec. split.
  - intros [r Hr]. exists (unchars (rev (chars r))). apply chars_inj.
    apply (f_equal chars) in Hr. rewrite chars_app in Hr |- *.
    rewrite !String.list_ascii_of_string_of_list_ascii in *.
    apply (f_equal (@rev ascii)) in Hr. rewrite rev_app_distr, !rev_involutive in Hr. done.
  - intros [r ->]. exists (unchars (rev (chars r))). apply chars_inj.
    rewrite !chars_app, !String.list_ascii_of_string_of_list_ascii.
    apply rev_app_distr.
Qed.

Lemma str_len_nonneg s : 0 <= str_len s.
Proof. unfold str_len. lia. Qed.

Lemma partition_Some c s a b :
  partition c s = Some (a, b) -> s = a ++ String c b /\ has_char c a = false.
Proof.
  unfold has_char. revert a; induction s as [|c' s IH]; intros a; simpl; [done|].
  case_decide.
  - intros [= <- <-]. subst. split; [done|].
    apply bool_decide_eq_false. simpl. apply not_elem_of_nil.
  - destruct (partition c s) as [[a' b']|] eqn:E; [|done].
    intros [= <- <-]. destruct (IH a' eq_refl) as [-> Ha]. split; [done|].
    apply bool_decide_eq_false in Ha. apply bool_decide_eq_false. simpl.
    intros [->|?]%elem_of_cons; done.
Qed.

Lemma partition_None c s : partition c s = None <-> has_char c s = false.
Proof.
  unfold has_char. rewrite bool_decide_eq_false.
  induction s as [|c' s IH]; simpl; [split; [intros _; apply not_elem_of_nil|done]|].
  case_decide.
  - subst. split; [done|]. intros H. exfalso. apply H. by left.
  - destruct (partition c s) as [[a b]|]; simpl.
    + split; [done|]. intros H'. exfalso. apply H'.
      right. destruct IH as [_ IH]. destruct (decide (c ∈ chars s)) as [|Hn]; [done|].
      by apply IH in Hn.
    + split; [|done]. intros _ [->|Hin]%elem_of_cons; [done|]. by apply IH.
Qed.

Lemma split_nonempty c s : split c s <> [].
Proof.
  destruct s as [|c' s]; simpl; [done|]. case_decide; [done|].
  by destruct (split c s).
Qed.

(** [sep.join(s.split(sep)) == s]. *)
Lemma join_split c s : join (String c "") (split c s) = s.
Proof.
  unfold join. induction s as [|c' s IH]; [done|]. simpl. case_decide as Hc.
  - subst c'. destruct (split c s) as [|w ws] eqn:E; [by apply split_nonempty in E|].
    simpl in *. by rewrite IH.
  - destruct (split c s) as [|w ws] eqn:E; [by apply split_nonempty in E|].
    simpl in *. destruct ws as [|w2 ws]; simpl in *; by rewrite <- IH.
Qed.

Lemma to_lower_idem c : to_lower (to_lower c) = to_lower c.
Proof. by destruct c as [[] [] [] [] [] [] [] []]. Qed.

Lemma lower_idem s : lower (lower s) = lower s.
Proof.
  unfold lower. rewrite String.list_ascii_of_string_of_list_ascii, map_map.
  f_equal. apply map_ext. apply to_lower_idem.
Qed.

Lemma drop_while_idem p l : drop_while p (drop_while p l) = drop_while p l.
Proof.
  induction l as [|c l IH]; simpl; [done|]. destruct (p c) eqn:E; [done|].
  simpl. by rewrite E.
Qed.

Lemma strip_right_idem p l : strip_right p (strip_right p l) = strip_right p l.
Proof. unfold strip_right. by rewrite rev_involutive, drop_while_idem. Qed.

Lemma rstrip_char_idem c s : rstrip_char c (rstrip_char c s) = rstrip_char c s.
Proof.
  unfold rstrip_char. by rewrite String.list_ascii_of_string_of_list_ascii, strip_right_idem.
Qed.

(** Facts about single characters, checked on all of them. *)
Lemma forall_ascii (P : ascii -> bool) :
  forallb (fun n => P (ascii_of_nat n)) (seq 0 256) = true -> forall c, P c = true.
Proof.
  intros H c. rewrite forallb_forall in H. rewrite <- (ascii_nat_embedding c).
  apply H, in_seq. pose proof (nat_ascii_bounded c). lia.
Qed.

Lemma forallb_imp {A} (p q : A -> bool) l :
  (forall x, p x = true -> q x = true) -> forallb p l = true -> forallb q l = true.
Proof. intros H. rewrite !forallb_forall. naive_solver. Qed.

Lemma strip_right_id p l c :
  p c = false -> strip_right p (l ++ [c])%list = (l ++ [c])%list.
Proof.
  intros Hc. unfold strip_right. rewrite rev_app_distr. simpl. rewrite Hc. simpl.
  by rewrite rev_involutive.
Qed.

(** A text whose ends are not spaces is stripped of the spaces around it only. *)
Lemma strip_ends pre c m e :
  forallb is_space pre = true -> is_space c = false -> is_space e = false ->
  strip (unchars (pre ++ c :: m ++ [e])%list) = unchars (c :: m ++ [e]).
Proof.
  intros Hp Hc He. unfold strip. rewrite String.list_ascii_of_string_of_list_ascii.
  induction pre as [|x pre IH]; simpl in *.
  - rewrite Hc. by rewrite app_comm_cons, strip_right_id.
  - bool_hyps. rewrite H. by apply IH.
Qed.

(** The first separator splits off a text without one. *)
Lemma split_line c s t : has_char c s = false -> split c (s ++ String c t) = s :: split c t.
Proof.
  unfold has_char. intros H%bool_decide_eq_false. induction s as [|x s IH]; simpl.
  - by rewrite decide_True.
  - simpl in H. rewrite decide_False by set_solver. by rewrite IH by set_solver.
Qed.

(** ** Fixed-point formatting of floats: [f"{x:.kf}"] *)

Section Fmt.
Context {F : Type} {PF : PyFloat F}.

(** Left-pad a digit string with zeros to at least [n] characters. *)
Definition zero_pad (n : nat) (s : string) : string :=
  unchars (replicate (n - String.length s) "0"%char) ++ s.

(** [f"{x:.kf}"] for [x] other than the negative zero. *)
Definition fmt_fixed (k : nat) (x : F) : string :=
  if fisnan x then "nan"
  else if fisinf x then (if flt x f0 then "-inf" else "inf")
  else
    let n := fscaled (Z.of_nat k) x in
    let sign := if flt x f0 then "-" else "" in
    let digits := zero_pad (S k) (str_of_Z (Z.abs n)) in
    let i := (String.length digits - k)%nat in
    match k with
    | O => sign ++ digits
    | _ => sign ++ str_take i digits ++ "." ++ str_drop i digits
    end.
End Fmt.

Example fmt_fixed_ex :
  fmt_fixed 1 (fdec 12345 (-2) : float) = "123.5"
  /\ fmt_fixed 0 (fdec 25 (-1) : float) = "2"
  /\ fmt_fixed 2 (fdec (-5) (-2) : float) = "-0.05"
  /\ fmt_fixed 0 (finf : float) = "inf".
Proof. vm_compute. done. Qed.
