(* ===== verification/Blake2b.v ===== *)
(** [hashlib.blake2b] (RFC 7693, unkeyed), which the sources use for affinity
    keys and model digests, and the UTF-8 encoding it is applied to. *)

From S2P Require Import Prelude PyStr.

Module Blake2b.
Definition w64 : Z := 2 ^ 64.
Definition add64 (a b : Z) : Z := (a + b) mod w64.
Definition rotr (x n : Z) : Z :=
  Z.lor (Z.shiftr x n) (Z.shiftl x (64 - n) mod w64).

Definition iv : list Z :=
  [0x6a09e667f3bcc908; 0xbb67ae8584caa73b; 0x3c6ef372fe94f82b; 0xa54ff53a5f1d36f1;
   0x510e527fade682d1; 0x9b05688c2b3e6c1f; 0x1f83d9abfb41bd6b; 0x5be0cd19137e2179].

Definition sigma : list (list nat) :=
  ([[0; 1; 2; 3; 4; 5; 6; 7; 8; 9; 10; 11; 12; 13; 14; 15];
    [14; 10; 4; 8; 9; 15; 13; 6; 1; 12; 0; 2; 11; 7; 5; 3];
    [11; 8; 12; 0; 5; 2; 15; 13; 10; 14; 3; 6; 7; 1; 9; 4];
    [7; 9; 3; 1; 13; 12; 11; 14; 2; 6; 5; 10; 4; 0; 15; 8];
    [9; 0; 5; 7; 2; 4; 10; 15; 14; 1; 11; 12; 6; 8; 3; 13];
    [2; 12; 6; 10; 0; 11; 8; 3; 4; 13; 7; 5; 15; 14; 1; 9];
    [12; 5; 1; 15; 14; 13; 4; 10; 0; 7; 6; 3; 9; 2; 8; 11];
    [13; 11; 7; 14; 12; 1; 3; 9; 5; 0; 15; 4; 8; 6; 2; 10];
    [6; 15; 14; 9; 11; 3; 0; 8; 12; 2; 13; 7; 1; 4; 10; 5];
    [10; 2; 8; 4; 7; 6; 1; 5; 15; 11; 9; 14; 3; 12; 13; 0];
    [0; 1; 2; 3; 4; 5; 6; 7; 8; 9; 10; 11; 12; 13; 14; 15];
    [14; 10; 4; 8; 9; 15; 13; 6; 1; 12; 0; 2; 11; 7; 5; 3]])%nat.

Definition get (l : list Z) (i : nat) : Z := nth i l 0.

(** The mixing function on the working vector. *)
Definition mix (v : list Z) (a b c d : nat) (x y : Z) : list Z :=
  let va := add64 (add64 (get v a) (get v b)) x in
  let vd := rotr (Z.lxor (get v d) va) 32 in
  let vc := add64 (get v c) vd in
  let vb := rotr (Z.lxor (get v b) vc) 24 in
  let va := add64 (add64 va vb) y in
  let vd := rotr (Z.lxor vd va) 16 in
  let vc := add64 vc vd in
  let vb := rotr (Z.lxor vb vc) 63 in
  <[a := va]> (<[b := vb]> (<[c := vc]> (<[d := vd]> v))).

Definition round (m : list Z) (v : list Z) (s : list nat) : list Z :=
  let w i := get m (nth i s 0%nat) in
  let v := mix v 0 4 8 12 (w 0%nat) (w 1%nat) in
  let v := mix v 1 5 9 13 (w 2%nat) (w 3%nat) in
  let v := mix v 2 6 10 14 (w 4%nat) (w 5%nat) in
  let v := mix v 3 7 11 15 (w 6%nat) (w 7%nat) in
  let v := mix v 0 5 10 15 (w 8%nat) (w 9%nat) in
  let v := mix v 1 6 11 12 (w 10%nat) (w 11%nat) in
  let v := mix v 2 7 8 13 (w 12%nat) (w 13%nat) in
  mix v 3 4 9 14 (w 14%nat) (w 15%nat).

(** Compress one 16-word block; [t] is the number of bytes hashed so far. *)
Definition compress (h m : list Z) (t : Z) (final : bool) : list Z :=
  let v := (h ++ iv)%list in
  let v := <[12%nat := Z.lxor (get v 12) (t mod w64)]> v in
  let v := <[13%nat := Z.lxor (get v 13) (t / w64)]> v in
  let v := if final then <[14%nat := Z.lxor (get v 14) (w64 - 1)]> v else v in
  let v := foldl (round m) v sigma in
  map (fun i => Z.lxor (get h i) (Z.lxor (get v i) (get v (i + 8)))) (seq 0 8).

(** Little-endian words of a block of bytes, zero padded. *)
Definition le_word (bs : list Z) : Z := foldr (fun b acc => b + 256 * acc) 0 bs.

Fixpoint words (n : nat) (bs : list Z) : list Z :=
  match n with
  | O => []
  | S n' => le_word (take 8 bs) :: words n' (drop 8 bs)
  end.

(** All blocks but the last are compressed as they fill up. *)
Fixpoint blocks (fuel : nat) (h : list Z) (t : Z) (bs : list Z) : list Z :=
  match fuel with
  | O => h
  | S fuel' =>
    if decide (length bs <= 128)%nat
    then compress h (words 16 bs) (t + Z.of_nat (length bs)) true
    else blocks fuel' (compress h (words 16 (take 128 bs)) (t + 128) false)
                (t + 128) (drop 128 bs)
  end.

Definition bytes_of_word (w : Z) : list Z :=
  map (fun i => Z.shiftr w (8 * Z.of_nat i) mod 256) (seq 0 8).

(** [hashlib.blake2b(data, digest_size=n).digest()]. *)
Definition digest (n : nat) (data : list Z) : list Z :=
  let h0 := <[0%nat := Z.lxor (get iv 0) (0x01010000 + Z.of_nat n)]> iv in
  let h := blocks (S (length data / 128)) h0 0 data in
  take n (mjoin (map bytes_of_word h)).
End Blake2b.

(** [s.encode("utf-8", "replace")] on code points up to U+00FF. *)
Definition utf8_encode (s : string) : list Z :=
  mjoin (map (fun c => let n := code c in
                if n <? 128 then [n] else [192 + n / 64; 128 + n mod 64]) (chars s)).

(** [int.from_bytes(bs, "big")]. *)
Definition from_bytes_big (bs : list Z) : Z := foldl (fun acc b => 256 * acc + b) 0 bs.

Definition hex_digit (n : Z) : ascii := if n <? 10 then chr (48 + n) else chr (87 + n).

(** [bs.hex()]. *)
Definition hex_of_bytes (bs : list Z) : string :=
  unchars (mjoin (map (fun b => [hex_digit (b / 16); hex_digit (b mod 16)]) bs)).

Example blake2b_abc :
  hex_of_bytes (Blake2b.digest 8 (utf8_encode "abc")) = "d8bb14d833d59559".
Proof. vm_compute. reflexivity. Qed.

Example blake2b_two_blocks :
  hex_of_bytes (Blake2b.digest 32 (replicate 200 120))
  = "7eb9c902d76f4876a0494066a9773bd4f8c0caf612f4683e352af66bc12af33e"
  /\ hex_of_bytes (Blake2b.digest 8 (replicate 128 120)) = "901ce374e8e12402".
Proof. vm_compute. done. Qed.
