(* ===== verification/Config.v ===== *)
(** Runtime configuration: [dio/config.py] and the ablation flags of
    [dio/scheduler.py]. *)

From S2P Require Import Prelude PyFloat PyStr.

(** [AblationFlags]: which terms of the joint cost are switched off. *)
Record AblationFlags : Type := mkAblation {
  abl_name : string;
  disable_queue : bool;
  disable_vram_soft : bool;
  disable_vram_hard : bool;
  disable_tier : bool;
  disable_cache : bool;
  single_timescale : bool
}.

Definition ablation_default (name : string) : AblationFlags :=
  mkAblation name false false false false false false.

Definition str_in (s : string) (l : list string) : bool := bool_decide (s ∈ l).

(** [ablation_from_name]: the [if]/[elif] chain on the lower-cased name. *)
Definition ablation_from_name (name : string) : AblationFlags :=
  let n := lower (str_or name "full") in
  if str_in n ["no_queue"; "-queue"] then
    mkAblation n true false false false false false
  else if str_in n ["no_vram"; "-vram"] then
    mkAblation n false true true false false false
  else if str_eqb n "no_vram_hard" then
    mkAblation n false false true false false false
  else if str_in n ["no_tier"; "-tier"; "-tiers"] then
    mkAblation n false false false true false false
  else if str_in n ["no_cache"; "-cache"] then
    mkAblation n false false false false true false
  else if str_in n ["no_dual"; "single"; "single_mu"] then
    mkAblation n false false false false false true
  else ablation_default n.

(** [DIOConfig] with its field names (the values after pydantic's validation). *)
Record DIOConfig {F : Type} : Type := mkConfig {
  strategy : string;
  nlms_mode : string;
  ablation : string;
  slo_ms : F;
  admission_off : bool;
  admission_mode : string;
  admission_percentile : F;
  recent_latency_window : Z;
  tier_mismatch_ms : F;
  cache_bonus_ms : F;
  affinity_cache_size : Z;
  vram_soft_limit_mb : F;
  vram_hard_limit_mb : F;
  batch_size : F;
  engine_metrics : bool;
  metrics_interval_s : F;
  kv_cache_cost_ms : F;
  engine_queue_cost_ms : F;
  engine_prefix_hit_bonus_ms : F;
  mu_fast : F;
  mu_slow : F;
  mu_bias : F;
  fast_slow_blend : F;
  initial_slope : F;
  initial_intercept : F;
  static_slope : F;
  static_intercept : F;
  learner_robust : bool;
  learner_err_clip : F;
  learner_step_frac : F;
  learner_slope_max : F;
  learner_intercept_max : F;
  tokenizer_name : option string;
  use_tokenizer : bool;
  host : string;
  port : Z;
  request_timeout_s : F;
  health_interval_s : F;
  max_tokens_cap : Z;
  token_feature_cap : Z;
  body_size_cap_bytes : Z;
  prompt_chars_cap : Z;
  api_key : option string;
  protect_debug : bool;
  data_plane_auth : bool;
  log_decisions : bool;
  decision_log_size : Z;
  pred_history_size : Z
}.
Arguments DIOConfig F : clear implicits.

Section Defaults.
Context {F : Type} {PF : PyFloat F}.

(** [DIOConfig()] with no environment override. *)
Definition DIOConfig_default : DIOConfig F := {|
  strategy := "nlms";
  nlms_mode := "dual";
  ablation := "full";
  slo_ms := fint 5000;
  admission_off := false;
  admission_mode := "empirical";
  admission_percentile := fint 95;
  recent_latency_window := 64;
  tier_mismatch_ms := fint 500;
  cache_bonus_ms := fint 200;
  affinity_cache_size := 2048;
  vram_soft_limit_mb := fint 4096;
  vram_hard_limit_mb := fint 2400;
  batch_size := fint 8;
  engine_metrics := true;
  metrics_interval_s := fint 1;
  kv_cache_cost_ms := fint 800;
  engine_queue_cost_ms := fint 50;
  engine_prefix_hit_bonus_ms := fint 150;
  mu_fast := fdec 1 (-1);
  mu_slow := fdec 1 (-2);
  mu_bias := fdec 5 (-3);
  fast_slow_blend := fdec 8 (-1);
  initial_slope := fint 2;
  initial_intercept := fint 150;
  static_slope := fint 1;
  static_intercept := fint 50;
  learner_robust := true;
  learner_err_clip := fint 2;
  learner_step_frac := fdec 5 (-2);
  learner_slope_max := fint 200;
  learner_intercept_max := fdec 1 6;
  tokenizer_name := None;
  use_tokenizer := true;
  host := "0.0.0.0";
  port := 8085;
  request_timeout_s := fint 300;
  health_interval_s := fint 5;
  max_tokens_cap := 0;
  token_feature_cap := 32768;
  body_size_cap_bytes := 8 * 1024 * 1024;
  prompt_chars_cap := 1000000;
  api_key := None;
  protect_debug := true;
  data_plane_auth := false;
  log_decisions := true;
  decision_log_size := 200;
  pred_history_size := 5000
|}.
End Defaults.

(** The literal strategies, modes and ablations the configuration admits. *)
Definition strategy_literals : list string :=
  ["nlms"; "rls"; "ewma"; "static"; "round_robin"; "least_loaded"].
Definition nlms_mode_literals : list string := ["dual"; "single"].
Definition ablation_literals : list string :=
  ["full"; "no_queue"; "no_vram"; "no_vram_hard"; "no_tier"; "no_cache"; "no_dual"].
Definition admission_mode_literals : list string :=
  ["absolute"; "empirical"; "strict"; "rank_only"].

(** How many flags an ablation sets. *)
Definition flags_set (a : AblationFlags) : nat :=
  length (filter (fun b => b = true)
    [disable_queue a; disable_vram_soft a; disable_vram_hard a; disable_tier a;
     disable_cache a; single_timescale a]).

(** Every ablation literal other than [full] switches off one component of the
    cost (two flags for [no_vram]), and [full] none: none of the literals is
    silently ignored. *)
Lemma ablation_literals_effective :
  map (fun n => flags_set (ablation_from_name n)) ablation_literals
  = [0; 1; 2; 1; 1; 1; 1]%nat.
Proof. vm_compute. reflexivity. Qed.
