(* ===== verification/Learner.v ===== *)
(** [DualTimescaleNLMS] of [dio/scheduler.py]: the per-backend latency model
    [y = s * tokens + b], its robust online update, and the invariants the
    scheduler relies on. *)

From S2P Require Import Prelude PyFloat PySort PyStr.

Section Learner.
Context {F : Type} {PF : PyFloat F}.
Local Open Scope float_scope.

(** ** State *)

(** The attributes fixed at construction. *)
Record LParams : Type := mkLParams {
  p_mu_fast : F;
  p_mu_slow : F;
  p_mu_bias : F;
  p_blend : F;
  p_dual : bool;
  p_frozen : bool;
  p_tier : string;
  p_total_vram_mb : F;
  p_robust : bool;
  p_err_clip : F;
  p_step_frac : F;
  p_slope_max : F;
  p_intercept_max : F
}.

(** The attributes [update] writes. *)
Record Fit : Type := mkFit {
  fast_slope : F;
  slow_slope : F;
  intercept : F;
  avg_latency : F;
  update_count : Z;
  sum_abs : F;
  sum_rel : F;
  sum_sq : F;
  clipped_updates : Z;
  clip_streak : Z;
  contended_updates : Z;
  recent : list F
}.

(** The whole object: parameters, fit, and what the scheduler keeps on it. *)
Record Learner : Type := mkLearner {
  l_params : LParams;
  l_fit : Fit;
  pending : Z;
  inflight_log : list Z;
  free_vram_mb : F;
  healthy : bool
}.

Definition recent_maxlen : nat := 32.
Definition inflight_maxlen : nat := 1024.

(** [__init__]: a frozen learner is never dual. *)
Definition nlms_init (mu_fast mu_slow mu_bias blend initial_slope initial_intercept : F)
    (dual frozen : bool) (tier : string) (total_vram_mb : F) (robust : bool)
    (err_clip step_frac slope_max intercept_max : F) : Learner := {|
  l_params := mkLParams mu_fast mu_slow mu_bias blend (dual && negb frozen) frozen
                tier total_vram_mb robust err_clip step_frac slope_max intercept_max;
  l_fit := mkFit initial_slope initial_slope initial_intercept f0 0 f0 f0 f0 0 0 0 [];
  pending := 0;
  inflight_log := [];
  free_vram_mb := total_vram_mb;
  healthy := true
|}.

(** ** Prediction *)

Definition effective_slope (p : LParams) (f : Fit) : F :=
  if p_dual p
  then p_blend p * fast_slope f + (f1 - p_blend p) * slow_slope f
  else fast_slope f.

Definition mode (p : LParams) : string :=
  if p_frozen p then "STATIC" else if p_dual p then "DUAL" else "SINGLE".

Definition predict (p : LParams) (f : Fit) (tokens : Z) : F :=
  effective_slope p f * fint (Z.max 1 tokens) + intercept f.

(** [estimate]: the predicted service time and the average latency, which
    defaults to the prediction before the first sample. *)
Definition estimate (l : Learner) (tokens : Z) : F * F :=
  let base := predict (l_params l) (l_fit l) tokens in
  (base, if avg_latency (l_fit l) >? f0 then avg_latency (l_fit l) else base).

(** ** Update *)

(** [_robust_scale]: the low quartile of the recent samples, or the model's
    own prediction before there are eight of them. *)
Definition quartile_index (n : Z) : Z := ftrunc (fdec 25 (-2) * fint (n - 1)).

Definition robust_scale (f : Fit) (pred : F) : F :=
  if (8 <=? Z.of_nat (length (recent f)))%Z then
    let xs := fsorted (recent f) in
    py_max (fnth xs (quartile_index (Z.of_nat (length xs)))) f1
  else py_max pred f1.

(** The part of [update] that decides how much of the error to believe. *)
Record Clip : Type := mkClip {
  c_trusted : bool;
  c_err : F;
  c_widen : F;
  c_clipped : Z;
  c_streak : Z;
  c_contended : Z
}.

Definition is_trusted (p : LParams) (inflight : Z) : bool :=
  negb (p_robust p) || (inflight <=? 1)%Z.

Definition clip_widen (f : Fit) : F := fint (2 ^ Z.min (clip_streak f) 6).

Definition clip_error (p : LParams) (f : Fit) (pred err : F) (inflight : Z) : Clip :=
  if is_trusted p inflight then
    mkClip true err f1 (clipped_updates f) 0 (contended_updates f)
  else
    let widen := clip_widen f in
    let base := p_err_clip p * robust_scale f pred in
    let limit := base * widen in
    let update_err :=
      if err >? limit then limit
      else if err <? - limit then - limit else err in
    if negb (update_err =? err) then
      mkClip false update_err widen (clipped_updates f + 1)%Z (clip_streak f + 1)%Z
        (contended_updates f + 1)%Z
    else
      mkClip false update_err widen (clipped_updates f)
        (if fabs err <=? base then 0%Z else clip_streak f)
        (contended_updates f + 1)%Z.

(** The trust region on the prediction. *)
Definition step_cap (p : LParams) (c : Clip) (pred : F) (tokens : Z) : F :=
  if c_trusted c then finf
  else py_max (p_step_frac p * c_widen c * pred / fint tokens) (fdec 1 (-9)).

Definition tenth : F := fdec 1 (-1).

(** The gradient step: new fast slope, slow slope and intercept. *)
Definition gradient_step (p : LParams) (f : Fit) (c : Clip) (pred : F) (tokens : Z) :
    F * F * F :=
  let grad := c_err c / fint tokens in
  let cap := step_cap p c pred tokens in
  let fast := fast_slope f + clamp (- cap) cap (p_mu_fast p * grad) in
  let slow := if p_dual p
              then slow_slope f + clamp (- cap) cap (p_mu_slow p * grad)
              else fast in
  let icpt := intercept f + p_mu_bias p * c_err c in
  (clamp tenth (p_slope_max p) fast,
   clamp tenth (p_slope_max p) slow,
   clamp tenth (p_intercept_max p) icpt).

Record UpdateInfo : Type := mkUpdateInfo {
  ui_predicted : F;
  ui_actual : F;
  ui_abs_err : F;
  ui_rel_err : F;
  ui_fast_slope : F;
  ui_slow_slope : F
}.

(** [update(actual_ms, tokens, inflight)]. *)
Definition update_fit (p : LParams) (f : Fit) (actual_ms : F) (tokens inflight : Z) :
    Fit * UpdateInfo :=
  let tokens := Z.max 1 tokens in
  let pred := effective_slope p f * fint tokens + intercept f in
  let err := actual_ms - pred in
  let abs_err := fabs err in
  let rel := abs_err / py_max actual_ms f1 in
  let c := clip_error p f pred err inflight in
  let '(fast, slow, icpt) :=
    if p_frozen p then (fast_slope f, slow_slope f, intercept f)
    else gradient_step p f c pred tokens in
  let f' := {|
    fast_slope := fast;
    slow_slope := slow;
    intercept := icpt;
    avg_latency := if avg_latency f <=? f0 then actual_ms
                   else fdec 9 (-1) * avg_latency f + fdec 1 (-1) * actual_ms;
    update_count := (update_count f + 1)%Z;
    sum_abs := sum_abs f + abs_err;
    sum_rel := sum_rel f + rel;
    sum_sq := sum_sq f + err * err;
    clipped_updates := if p_frozen p then clipped_updates f else c_clipped c;
    clip_streak := if p_frozen p then clip_streak f else c_streak c;
    contended_updates := if p_frozen p then contended_updates f else c_contended c;
    recent := deque_append recent_maxlen actual_ms (recent f)
  |} in
  (f', mkUpdateInfo pred actual_ms abs_err rel fast slow).

Definition set_fit (f : Fit) (l : Learner) : Learner :=
  mkLearner (l_params l) f (pending l) (inflight_log l) (free_vram_mb l) (healthy l).

Definition update (l : Learner) (actual_ms : F) (tokens inflight : Z) :
    Learner * UpdateInfo :=
  let '(f, info) := update_fit (l_params l) (l_fit l) actual_ms tokens inflight in
  (set_fit f l, info).

(** ** Snapshot *)

Record WorkerSnapshot : Type := mkWorkerSnapshot {
  ws_fast_slope : F;
  ws_slow_slope : F;
  ws_intercept : F;
  ws_avg_latency_ms : F;
  ws_updates : Z;
  ws_clipped_updates : Z;
  ws_contended_updates : Z;
  ws_robust : bool;
  ws_mode : string;
  ws_mae_ms : F;
  ws_mape_pct : F;
  ws_pending : Z;
  ws_free_vram_mb : F;
  ws_tier : string;
  ws_healthy : bool;
  ws_frozen : bool
}.

Definition snapshot (l : Learner) : WorkerSnapshot :=
  let p := l_params l in
  let f := l_fit l in
  let n := Z.max 1 (update_count f) in
  let seen := negb (update_count f =? 0)%Z in
  {| ws_fast_slope := fast_slope f;
     ws_slow_slope := slow_slope f;
     ws_intercept := intercept f;
     ws_avg_latency_ms := avg_latency f;
     ws_updates := update_count f;
     ws_clipped_updates := clipped_updates f;
     ws_contended_updates := contended_updates f;
     ws_robust := p_robust p;
     ws_mode := mode p;
     ws_mae_ms := if seen then sum_abs f / fint n else f0;
     ws_mape_pct := if seen then sum_rel f / fint n * fint 100 else f0;
     ws_pending := pending l;
     ws_free_vram_mb := free_vram_mb l;
     ws_tier := p_tier p;
     ws_healthy := healthy l;
     ws_frozen := p_frozen p |}.
End Learner.

Arguments LParams F : clear implicits.
Arguments Fit F : clear implicits.
Arguments Learner F : clear implicits.
Arguments Clip F : clear implicits.
Arguments UpdateInfo F : clear implicits.
Arguments WorkerSnapshot F : clear implicits.

(** The defaults of [__init__], on binary64. *)
Definition nlms_default : Learner float :=
  nlms_init (fdec 1 (-1)) (fdec 1 (-2)) (fdec 5 (-3)) (fdec 8 (-1)) (fint 2) (fint 150)
    true false "small" (fint 24000) true (fint 2) (fdec 5 (-2)) (fint 200) (fdec 1 6).

(** A first sample of 1000 ms for 100 tokens against the prior of 350 ms. *)
Example update_first_sample :
  let '(l, info) := update nlms_default (fint 1000) 100 1 in
  ui_predicted info = fint 350
  /\ fast_slope (l_fit l) = fdec 265 (-2)
  /\ slow_slope (l_fit l) = fdec 2065 (-3)
  /\ intercept (l_fit l) = fdec 15325 (-2)
  /\ fst (estimate l 100) = fdec 40654999999999995 (-14).
Proof. vm_compute. repeat split; reflexivity. Qed.
