(* ===== verification/LearnerFacts.v ===== *)
(** Properties of the latency learner that hold for every lawful float type, so
    on binary64 with every rounding, overflow and NaN included. *)

From S2P Require Import Prelude PyFloat PySort PyStr Learner.

(** The robust scale is at least 1 ms, and an order statistic of the window. *)
Section Facts.
Context {F : Type} {PF : PyFloat F} {PL : PyFloatLaws F}.
Local Open Scope float_scope.
Implicit Types (p : LParams F) (f : Fit F) (l : Learner F).

(** Parameters under which the bounds of the clamps make sense. *)
Definition lparams_ok p : Prop :=
  tenth <=? p_slope_max p = true /\ tenth <=? p_intercept_max p = true.

(** Slopes and intercept are numbers between 0.1 and their caps. *)
Definition fit_in_range p f : Prop :=
  (tenth <=? fast_slope f = true /\ fast_slope f <=? p_slope_max p = true) /\
  (tenth <=? slow_slope f = true /\ slow_slope f <=? p_slope_max p = true) /\
  (tenth <=? intercept f = true /\ intercept f <=? p_intercept_max p = true).

(** Counters and windows. *)
Definition fit_counters_ok f : Prop :=
  0 <= clip_streak f /\ 0 <= clipped_updates f /\
  clipped_updates f <= contended_updates f <= update_count f /\
  clip_streak f <= clipped_updates f /\
  (length (recent f) <= recent_maxlen)%nat.

Lemma tenth_pos : f0 <? tenth = true.
Proof. apply f0_lt_tenth. Qed.

Lemma tenth_num : fisnan (tenth : F) = false.
Proof. by destruct (flt_num _ _ tenth_pos). Qed.

(** *** What an update changes *)

Lemma update_fit_frozen p f a t i :
  p_frozen p = true ->
  fast_slope (update_fit p f a t i).1 = fast_slope f /\
  slow_slope (update_fit p f a t i).1 = slow_slope f /\
  intercept (update_fit p f a t i).1 = intercept f /\
  clip_streak (update_fit p f a t i).1 = clip_streak f.
Proof. unfold update_fit. intros ->. done. Qed.

Lemma update_params l a t i : l_params (update l a t i).1 = l_params l.
Proof. unfold update. by destruct (update_fit _ _ _ _ _). Qed.

Lemma update_keeps_load l a t i :
  pending (update l a t i).1 = pending l /\
  inflight_log (update l a t i).1 = inflight_log l /\
  free_vram_mb (update l a t i).1 = free_vram_mb l /\
  healthy (update l a t i).1 = healthy l.
Proof. unfold update. by destruct (update_fit _ _ _ _ _). Qed.

Lemma update_l_fit l a t i :
  l_fit (update l a t i).1 = (update_fit (l_params l) (l_fit l) a t i).1.
Proof. unfold update. by destruct (update_fit _ _ _ _ _). Qed.

Lemma gradient_step_range p f c pred t :
  lparams_ok p ->
  let '(fast, slow, icpt) := gradient_step p f c pred t in
  (tenth <=? fast = true /\ fast <=? p_slope_max p = true) /\
  (tenth <=? slow = true /\ slow <=? p_slope_max p = true) /\
  (tenth <=? icpt = true /\ icpt <=? p_intercept_max p = true).
Proof.
  intros [Hs Hi]. unfold gradient_step. split_and!; by apply clamp_range.
Qed.

Lemma update_fit_range p f a t i :
  lparams_ok p -> p_frozen p = false -> fit_in_range p (update_fit p f a t i).1.
Proof.
  intros Hp Hf. unfold update_fit. rewrite Hf.
  match goal with |- context [gradient_step ?p ?f ?c ?pred ?t] =>
    pose proof (gradient_step_range p f c pred t Hp) as H;
    destruct (gradient_step p f c pred t) as [[fast slow] icpt] end.
  exact H.
Qed.

Lemma clip_error_counters p f pred err i :
  let c := clip_error p f pred err i in
  (c_clipped c = clipped_updates f \/
    (c_clipped c = clipped_updates f + 1)%Z /\ (c_contended c = contended_updates f + 1)%Z) /\
  (c_contended c = contended_updates f \/ (c_contended c = contended_updates f + 1)%Z) /\
  (c_streak c = 0%Z \/ (c_streak c = clip_streak f /\ c_clipped c = clipped_updates f) \/
    (c_streak c = clip_streak f + 1)%Z /\ (c_clipped c = clipped_updates f + 1)%Z).
Proof.
  unfold clip_error. destruct (is_trusted p i); simpl; [auto 6|].
  match goal with |- context [negb (?a =? ?b)] => destruct (negb (a =? b)) end;
    simpl; [auto 8|]. destruct (_ <=? _); auto 8.
Qed.

Lemma update_fit_counters p f a t i :
  fit_counters_ok f -> fit_counters_ok (update_fit p f a t i).1.
Proof.
  intros (Hs & Hc & Hcu & Hsc & Hr). unfold update_fit.
  set (pred := effective_slope p f * _ + _).
  pose proof (clip_error_counters p f pred (a - pred) i) as Hcl.
  destruct (p_frozen p) eqn:Hfz.
  - unfold fit_counters_ok; simpl. split_and!; try lia. apply deque_append_bound.
  - destruct (gradient_step _ _ _ _ _) as [[fast slow] icpt].
    unfold fit_counters_ok; simpl.
    destruct (clip_error p f pred (a - pred) i) as [tr e w cl st co]; simpl in *.
    split_and!; try (apply deque_append_bound); intuition lia.
Qed.

Lemma nlms_init_counters a b c d e g h i j k m n o q r :
  fit_counters_ok (l_fit (nlms_init a b c d e g h i j k m n o q r : Learner F)).
Proof. unfold fit_counters_ok; simpl. lia. Qed.

(** *** The trust decision *)

Lemma clip_error_trusted p f pred err i :
  is_trusted p i = true ->
  clip_error p f pred err i
  = mkClip true err f1 (clipped_updates f) 0 (contended_updates f).
Proof. unfold clip_error. by intros ->. Qed.

(** [p] with the robust guard switched off. *)
Definition unguarded p : LParams F :=
  mkLParams (p_mu_fast p) (p_mu_slow p) (p_mu_bias p) (p_blend p) (p_dual p)
    (p_frozen p) (p_tier p) (p_total_vram_mb p) false (p_err_clip p)
    (p_step_frac p) (p_slope_max p) (p_intercept_max p).

Lemma update_fit_unguarded p f a t i :
  i <= 1 -> update_fit (unguarded p) f a t i = update_fit p f a t i.
Proof.
  intros Hi. assert (H1 : is_trusted p i = true)
    by (unfold is_trusted; apply orb_true_iff; right; by apply Z.leb_le).
  unfold update_fit. cbv zeta.
  change (effective_slope (unguarded p) f) with (effective_slope p f).
  rewrite !clip_error_trusted by done. done.
Qed.

(** The believed error is within the limit, whatever the sample was. *)
Lemma clip_error_bound p f pred err i :
  is_trusted p i = false ->
  let limit := p_err_clip p * robust_scale f pred * clip_widen f in
  f0 <=? limit = true -> fisnan err = false ->
  - limit <=? c_err (clip_error p f pred err i) = true /\
  c_err (clip_error p f pred err i) <=? limit = true.
Proof.
  intros Ht limit Hl He. unfold clip_error. rewrite Ht. fold limit.
  destruct (fle_num _ _ Hl) as [_ Hln].
  pose proof (fle_trans _ _ _ (fopp_nonpos _ Hl) Hl) as Hrange.
  destruct (fle_num _ _ Hrange) as [Hon _].
  set (u := if err >? limit then limit else if err <? - limit then - limit else err).
  assert (Hu : - limit <=? u = true /\ u <=? limit = true).
  { unfold u. destruct (limit <? err) eqn:E1; [split; [done|by apply fle_refl]|].
    destruct (err <? - limit) eqn:E2; [split; [by apply fle_refl|done]|].
    split; by apply flt_false_fle. }
  destruct (negb (u =? err)); exact Hu.
Qed.

Lemma step_cap_nonneg p c pred t :
  fisnan (step_cap p c pred t) = false -> f0 <=? step_cap p c pred t = true.
Proof.
  unfold step_cap. destruct (c_trusted c); [intros _; apply finf_top, f0_num|].
  set (x := p_step_frac p * _ * _ / _). pose proof (f0_lt_nano (F:=F)) as Hn.
  unfold py_max. destruct (x <? fdec 1 (-9)) eqn:E; intros Hx; [by apply flt_fle|].
  destruct (flt_num _ _ Hn) as [_ Hnano].
  eapply fle_trans; [by apply flt_fle|]. by apply flt_false_fle.
Qed.

(** Before the final clamp a slope moves by at most the trust region. *)
Lemma step_within_cap p c pred t s :
  fisnan (step_cap p c pred t) = false ->
  let cap := step_cap p c pred t in
  - cap <=? clamp (- cap) cap s = true /\ clamp (- cap) cap s <=? cap = true.
Proof.
  intros Hc cap. apply clamp_range.
  pose proof (step_cap_nonneg p c pred t Hc) as H0.
  eapply fle_trans; [by apply fopp_nonpos|done].
Qed.

(** A trusted sample is not limited by the trust region. *)
Lemma trusted_step_free p c pred t s :
  c_trusted c = true -> - finf <? s = true -> s <? finf = true ->
  clamp (- step_cap p c pred t) (step_cap p c pred t) s = s.
Proof. unfold step_cap. intros ->. apply clamp_id. Qed.

Lemma clip_error_streak_clipped p f pred err i :
  is_trusted p i = false ->
  c_clipped (clip_error p f pred err i) = (clipped_updates f + 1)%Z ->
  c_streak (clip_error p f pred err i) = (clip_streak f + 1)%Z.
Proof.
  unfold clip_error. intros ->. destruct (negb _); simpl; [done|lia].
Qed.

(** *** The estimate *)

Lemma estimate_avg_pos l t :
  f0 <? (estimate l t).1 = true -> f0 <? (estimate l t).2 = true.
Proof. unfold estimate; simpl. by destruct (f0 <? avg_latency (l_fit l)) eqn:E. Qed.

Lemma robust_scale_ge_1 f pred :
  (forall x, x ∈ recent f -> fisnan x = false) -> fisnan pred = false ->
  0 <= quartile_index (F:=F) (Z.of_nat (length (recent f))) < Z.max 1 (Z.of_nat (length (recent f))) ->
  f1 <=? robust_scale f pred = true.
Proof.
  intros Hr Hp Hq. unfold robust_scale. destruct (8 <=? _)%Z eqn:E.
  - apply py_max_ge_r; [|apply fint_num]. apply Z.leb_le in E.
    apply Hr. apply elem_of_fsorted, fnth_elem.
    rewrite length_fsorted in *. lia.
  - by apply py_max_ge_r; [|apply fint_num].
Qed.
End Facts.

(** The index [int(0.25 * (n - 1))] on binary64, for every window length. *)
Lemma quartile_index_b64 n :
  (n <= recent_maxlen)%nat ->
  0 <= quartile_index (F:=float) (Z.of_nat n) < Z.max 1 (Z.of_nat n).
Proof.
  intros Hn.
  assert (H : forallb (fun k => (0 <=? quartile_index (F:=float) (Z.of_nat k)) &&
            (quartile_index (F:=float) (Z.of_nat k) <? Z.max 1 (Z.of_nat k)))
            (seq 0 33) = true) by (vm_compute; reflexivity).
  rewrite forallb_forall in H. unfold recent_maxlen in Hn.
  specialize (H n ltac:(apply in_seq; lia)). bool_hyps. lia.
Qed.

#[export] Hint Resolve update_fit_range update_fit_counters nlms_init_counters : dio.
