(* ===== verification/LearnerExact.v ===== *)
(** What the learner computes in exact arithmetic: an uncontended sample
    contracts the prediction error by a fixed factor, a repeated one drives it
    to zero geometrically, and a contended sample moves the prediction by at
    most the trust region. *)

From Stdlib Require Import Reals Lra.
From S2P Require Import Prelude PyFloat PyReal PySort PyStr Learner LearnerFacts.
Local Open Scope R_scope.

(** Real-valued hyper-parameters of a dual learner. *)
Record RParams : Type := mkRParams {
  r_mu_fast : R;
  r_mu_slow : R;
  r_mu_bias : R;
  r_blend : R;
  r_err_clip : R;
  r_step_frac : R;
  r_slope_max : R;
  r_intercept_max : R
}.

Definition lift_params (q : RParams) (robust : bool) : LParams xreal :=
  mkLParams (XR (r_mu_fast q)) (XR (r_mu_slow q)) (XR (r_mu_bias q)) (XR (r_blend q))
    true false "small" (XR 24000) robust (XR (r_err_clip q)) (XR (r_step_frac q))
    (XR (r_slope_max q)) (XR (r_intercept_max q)).

(** The learner's defaults. *)
Definition default_rparams : RParams :=
  mkRParams (1 / 10) (1 / 100) (5 / 1000) (8 / 10) 2 (5 / 100) 200 1000000.

(** [f] holds the real slopes [s1], [s2] and intercept [b]. *)
Definition fit_is (f : Fit xreal) (s1 s2 b : R) : Prop :=
  fast_slope f = XR s1 /\ slow_slope f = XR s2 /\ intercept f = XR b.

Definition rpred (q : RParams) (s1 s2 b : R) (t : Z) : R :=
  (r_blend q * s1 + (1 - r_blend q) * s2) * IZR t + b.

(** The fraction of the error one trusted sample removes. *)
Definition gain (q : RParams) : R :=
  r_blend q * r_mu_fast q + (1 - r_blend q) * r_mu_slow q + r_mu_bias q.

Definition inside (lo hi x : R) : Prop := lo < x < hi.

Lemma XR_inj a b : XR a = XR b -> a = b.
Proof. by intros [= ->]. Qed.

Lemma predict_lift q rb f s1 s2 b t :
  fit_is f s1 s2 b -> (1 <= t)%Z ->
  (effective_slope (lift_params q rb) f * fint t + intercept f)%fl = XR (rpred q s1 s2 b t).
Proof.
  intros (H1 & H2 & H3) Ht. unfold effective_slope. simpl. rewrite H1, H2, H3.
  done.
Qed.

Lemma tenth_XR : (tenth : xreal) = XR (1 / 10).
Proof. apply xreal_tenth. Qed.

Lemma clamp_inside lo hi x : inside lo hi x -> clamp (XR lo) (XR hi) (XR x) = XR x.
Proof. intros [H1 H2]. apply clamp_id; rewrite flt_XR; by apply rlt_true. Qed.

(** One trusted update on real states whose targets lie inside the bounds. *)
Lemma trusted_step q rb f s1 s2 b y t i :
  let p := lift_params q rb in
  let err := y - rpred q s1 s2 b t in
  let s1' := s1 + r_mu_fast q * (err / IZR t) in
  let s2' := s2 + r_mu_slow q * (err / IZR t) in
  let b' := b + r_mu_bias q * err in
  fit_is f s1 s2 b -> (1 <= t)%Z -> is_trusted p i = true ->
  inside (1 / 10) (r_slope_max q) s1' -> inside (1 / 10) (r_slope_max q) s2' ->
  inside (1 / 10) (r_intercept_max q) b' ->
  fit_is (update_fit p f (XR y) t i).1 s1' s2' b'.
Proof.
  intros p err s1' s2' b' Hf Ht Htr H1 H2 H3.
  assert (Ht0 : IZR t <> 0) by (apply not_0_IZR; lia).
  unfold update_fit. rewrite Z.max_r by lia.
  assert (Hpr : (effective_slope p f * fint t + intercept f)%fl = XR (rpred q s1 s2 b t))
    by (by apply predict_lift).
  rewrite Hpr.
  rewrite clip_error_trusted by done.
  destruct Hf as (Hs1 & Hs2 & Hb).
  assert (Hg : gradient_step p f (mkClip true (XR err) f1 (clipped_updates f) 0
                 (contended_updates f)) (XR (rpred q s1 s2 b t)) t
               = (XR s1', XR s2', XR b')).
  { unfold gradient_step. cbn [c_err c_trusted step_cap].
    change (fint t) with (XR (IZR t)). rewrite fdiv_XR by done. rewrite Hs1, Hs2, Hb. cbn [p lift_params p_dual
      p_mu_fast p_mu_slow p_mu_bias p_slope_max p_intercept_max].
    unfold step_cap; cbn [c_trusted]. rewrite tenth_XR.
    assert (Hfree : forall z, clamp (- finf)%fl finf (XR z) = XR z).
    { intros z. by apply clamp_id. }
    cbn [fmul xreal_float XReal.mul]. rewrite !Hfree.
    cbn [fadd xreal_float XReal.add].
    rewrite (clamp_inside _ _ s1'), (clamp_inside _ _ s2'), (clamp_inside _ _ b') by done.
    done. }
  cbn [p lift_params p_frozen]. change (XR y - XR (rpred q s1 s2 b t))%fl
    with (XR (y + - rpred q s1 s2 b t)).
  replace (y + - rpred q s1 s2 b t) with err by (unfold err; lra).
  fold p. rewrite Hg. done.
Qed.

Lemma rpred_step q s1 s2 b t err :
  (1 <= t)%Z ->
  rpred q (s1 + r_mu_fast q * (err / IZR t)) (s2 + r_mu_slow q * (err / IZR t))
    (b + r_mu_bias q * err) t
  = rpred q s1 s2 b t + gain q * err.
Proof.
  intros Ht. assert (IZR t <> 0) by (apply not_0_IZR; lia).
  unfold rpred, gain. field. done.
Qed.

(** *** Repeated samples *)

(** [n] updates with the same sample. *)
Fixpoint feed (p : LParams xreal) (f : Fit xreal) (y : R) (t i : Z) (n : nat) : Fit xreal :=
  match n with
  | O => f
  | S n' => (update_fit p (feed p f y t i n') (XR y) t i).1
  end.

(** How much of the first error the first [n] steps have consumed, over the
    gain: a number between 0 and [1 / gain]. *)
Definition progress (g : R) (n : nat) : R := (1 - (1 - g) ^ n) / g.

Lemma pow_shrink g n : 0 < g < 1 -> 0 < (1 - g) ^ n <= 1.
Proof.
  intros Hg. split; [apply pow_lt; lra|].
  pose proof (pow_incr (1 - g) 1 n ltac:(lra)) as H. by rewrite pow1 in H.
Qed.

Lemma progress_bound g n : 0 < g < 1 -> 0 <= progress g n <= / g.
Proof.
  intros Hg. pose proof (pow_shrink g n Hg) as Hp. unfold progress.
  assert (Hi : 0 < / g) by (apply Rinv_0_lt_compat; lra).
  set (x := (1 - g) ^ n) in *. set (k := / g) in *. unfold Rdiv. fold k.
  clearbody x k. split; nra.
Qed.

Lemma progress_S g n : 0 < g < 1 -> progress g (S n) = progress g n + (1 - g) ^ n.
Proof. intros Hg. unfold progress. simpl. field. lra. Qed.

(** Inside at both ends of a segment means inside all along it. *)
Lemma inside_segment lo hi a d u v :
  0 <= u <= v -> inside lo hi a -> inside lo hi (a + d * v) -> inside lo hi (a + d * u).
Proof. unfold inside. intros Hu [H1 H2] [H3 H4]. destruct (Rle_dec 0 d); split; nra. Qed.

Lemma feed_closed_form q rb f s1 s2 b y t i n :
  let p := lift_params q rb in
  let g := gain q in
  let err := y - rpred q s1 s2 b t in
  let at_ m u := m * (err / IZR t) * u in
  fit_is f s1 s2 b -> (1 <= t)%Z -> is_trusted p i = true -> 0 < g < 1 ->
  inside (1 / 10) (r_slope_max q) s1 -> inside (1 / 10) (r_slope_max q) s2 ->
  inside (1 / 10) (r_intercept_max q) b ->
  inside (1 / 10) (r_slope_max q) (s1 + at_ (r_mu_fast q) (/ g)) ->
  inside (1 / 10) (r_slope_max q) (s2 + at_ (r_mu_slow q) (/ g)) ->
  inside (1 / 10) (r_intercept_max q) (b + r_mu_bias q * err * / g) ->
  fit_is (feed p f y t i n)
    (s1 + at_ (r_mu_fast q) (progress g n)) (s2 + at_ (r_mu_slow q) (progress g n))
    (b + r_mu_bias q * err * progress g n).
Proof.
  intros p g err at_ Hf Ht Htr Hg I1 I2 I3 E1 E2 E3.
  assert (Ht0 : IZR t <> 0) by (apply not_0_IZR; lia).
  induction n as [|n IH].
  - simpl. unfold at_, progress. simpl.
    replace ((1 - 1) / g) with 0 by lra. rewrite !Rmult_0_r, !Rplus_0_r. done.
  - set (s1n := s1 + at_ (r_mu_fast q) (progress g n)) in *.
    set (s2n := s2 + at_ (r_mu_slow q) (progress g n)) in *.
    set (bn := b + r_mu_bias q * err * progress g n) in *.
    assert (Herr : y - rpred q s1n s2n bn t = (1 - g) ^ n * err).
    { assert (Hr : rpred q s1n s2n bn t
                   = rpred q s1 s2 b t + g * (err * progress g n)).
      { unfold s1n, s2n, bn, at_.
        replace (r_mu_fast q * (err / IZR t) * progress g n)
          with (r_mu_fast q * (err * progress g n / IZR t)) by (field; done).
        replace (r_mu_slow q * (err / IZR t) * progress g n)
          with (r_mu_slow q * (err * progress g n / IZR t)) by (field; done).
        replace (r_mu_bias q * err * progress g n)
          with (r_mu_bias q * (err * progress g n)) by lra.
        by apply rpred_step. }
      rewrite Hr. unfold progress.
      replace (g * (err * ((1 - (1 - g) ^ n) / g))) with (err * (1 - (1 - g) ^ n))
        by (field; lra).
      unfold err. lra. }
    pose proof (trusted_step q rb (feed p f y t i n) s1n s2n bn y t i) as Hstep.
    cbv zeta in Hstep. rewrite Herr in Hstep.
    assert (N1 : s1n + r_mu_fast q * ((1 - g) ^ n * err / IZR t)
                 = s1 + at_ (r_mu_fast q) (progress g (S n))).
    { unfold s1n, at_. rewrite progress_S by done. field. done. }
    assert (N2 : s2n + r_mu_slow q * ((1 - g) ^ n * err / IZR t)
                 = s2 + at_ (r_mu_slow q) (progress g (S n))).
    { unfold s2n, at_. rewrite progress_S by done. field. done. }
    assert (N3 : bn + r_mu_bias q * ((1 - g) ^ n * err)
                 = b + r_mu_bias q * err * progress g (S n)).
    { unfold bn. rewrite progress_S by done. lra. }
    rewrite N1, N2, N3 in Hstep. cbn [feed].
    apply Hstep; try done; eapply inside_segment; eauto using progress_bound.
Qed.

Lemma feed_pred q s1 s2 b y t n :
  let g := gain q in
  let err := y - rpred q s1 s2 b t in
  (1 <= t)%Z -> 0 < g < 1 ->
  rpred q (s1 + r_mu_fast q * (err / IZR t) * progress g n)
    (s2 + r_mu_slow q * (err / IZR t) * progress g n)
    (b + r_mu_bias q * err * progress g n) t
  = y - (1 - g) ^ n * err.
Proof.
  intros g err Ht Hg. assert (Ht0 : IZR t <> 0) by (apply not_0_IZR; lia).
  replace (r_mu_fast q * (err / IZR t) * progress g n)
    with (r_mu_fast q * (err * progress g n / IZR t)) by (field; done).
  replace (r_mu_slow q * (err / IZR t) * progress g n)
    with (r_mu_slow q * (err * progress g n / IZR t)) by (field; done).
  replace (r_mu_bias q * err * progress g n) with (r_mu_bias q * (err * progress g n)) by lra.
  rewrite rpred_step by done. fold g. unfold progress.
  replace (g * (err * ((1 - (1 - g) ^ n) / g))) with (err * (1 - (1 - g) ^ n))
    by (field; lra).
  unfold err. lra.
Qed.

(** *** Contended samples *)

Lemma Rmax_min_near lo hi a x :
  lo <= a <= hi -> Rabs (Rmax lo (Rmin hi x) - a) <= Rabs (x - a).
Proof.
  intros H. unfold Rmax, Rmin, Rabs. repeat destruct (Rle_dec _ _);
    repeat destruct (Rcase_abs _); lra.
Qed.

Lemma Rclamp_abs c x : 0 <= c -> Rabs (Rmax (- c) (Rmin c x)) <= c.
Proof.
  intros H. unfold Rmax, Rmin, Rabs. repeat destruct (Rle_dec _ _);
    repeat destruct (Rcase_abs _); lra.
Qed.

(** The trust region of a contended sample. *)
Definition rcap (q : RParams) (w pred : R) (t : Z) : R :=
  Rmax (r_step_frac q * w * pred / IZR t) (1 / 1000000000).

Lemma step_cap_XR q rb w pred t e cl st co :
  (1 <= t)%Z ->
  step_cap (lift_params q rb) (mkClip false e (XR w) cl st co) (XR pred) t
  = XR (rcap q w pred t).
Proof.
  intros Ht. unfold step_cap; simpl. rewrite req_false by (apply not_0_IZR; lia).
  rewrite decimal_neg. rewrite py_max_XR. done.
Qed.

Lemma clip_error_XR q f pred err sc i :
  is_trusted (lift_params q true) i = false ->
  robust_scale f (XR pred) = XR sc -> 0 <= r_err_clip q * sc ->
  let w := IZR (2 ^ Z.min (clip_streak f) 6) in
  exists u cl st co,
    clip_error (lift_params q true) f (XR pred) (XR err) i
      = mkClip false (XR u) (XR w) cl st co
    /\ Rabs u <= r_err_clip q * sc * w.
Proof.
  intros Ht Hsc Hpos w. unfold clip_error. rewrite Ht, Hsc.
  assert (Hw : 0 <= w) by (apply IZR_le; apply Z.pow_nonneg; lia).
  set (lim := r_err_clip q * sc * w). assert (Hlim : 0 <= lim) by (unfold lim; nra).
  change (p_err_clip (lift_params q true) * XR sc * clip_widen f)%fl with (XR lim).
  change (clip_widen f) with (XR w).
  set (u := if XReal.rlt lim err then lim else if XReal.rlt err (- lim) then - lim else err).
  assert (Hu : (if (XR lim <? XR err)%fl then XR lim
                else if (XR err <? - XR lim)%fl then (- XR lim)%fl else XR err) = XR u).
  { unfold u. simpl. by repeat case_match. }
  rewrite Hu. assert (Hb : Rabs u <= lim).
  { unfold u. rcases; apply Rabs_le; lra. }
  destruct (negb _); eauto 10.
Qed.

Lemma Rabs_le_both x c : Rabs x <= c -> - c <= x <= c.
Proof. unfold Rabs. destruct (Rcase_abs x); lra. Qed.

(** How far the prediction moves when each parameter moves a bounded amount. *)
Lemma rpred_move q s1 s2 b s1' s2' b' t cap lim :
  (1 <= t)%Z -> 0 <= r_blend q <= 1 -> 0 <= cap ->
  Rabs (s1' - s1) <= cap -> Rabs (s2' - s2) <= cap -> Rabs (b' - b) <= lim ->
  Rabs (rpred q s1' s2' b' t - rpred q s1 s2 b t) <= IZR t * cap + lim.
Proof.
  intros Ht Hbl Hcap D1%Rabs_le_both D2%Rabs_le_both D3%Rabs_le_both.
  assert (T0 : 0 < IZR t) by (apply IZR_lt; lia).
  unfold rpred. set (be := r_blend q) in *.
  assert (M : - cap <= be * (s1' - s1) + (1 - be) * (s2' - s2) <= cap) by nra.
  replace ((be * s1' + (1 - be) * s2') * IZR t + b'
           - ((be * s1 + (1 - be) * s2) * IZR t + b))
    with ((be * (s1' - s1) + (1 - be) * (s2' - s2)) * IZR t + (b' - b)) by lra.
  set (m := be * (s1' - s1) + _) in *. clearbody m. apply Rabs_le. nra.
Qed.

(** A clamped step from a point in range moves at most as far as the step. *)
Lemma clamped_step_near lo hi a d c :
  lo <= a <= hi -> Rabs d <= c -> Rabs (Rmax lo (Rmin hi (a + d)) - a) <= c.
Proof.
  intros Ha Hd. eapply Rle_trans; [by apply Rmax_min_near|].
  by replace (a + d - a) with d by lra.
Qed.

(** One contended update: every parameter stays a bounded real, and the
    prediction for this request size moves by at most the trust region plus the
    intercept step of the clipped error. *)
Lemma contended_step q f s1 s2 b y t i sc :
  let p := lift_params q true in
  let pred := rpred q s1 s2 b t in
  let w := IZR (2 ^ Z.min (clip_streak f) 6) in
  fit_is f s1 s2 b -> (1 <= t)%Z -> is_trusted p i = false ->
  0 <= r_blend q <= 1 -> 0 <= r_mu_bias q ->
  1 / 10 <= s1 <= r_slope_max q -> 1 / 10 <= s2 <= r_slope_max q ->
  1 / 10 <= b <= r_intercept_max q ->
  robust_scale f (XR pred) = XR sc -> 0 <= r_err_clip q * sc ->
  exists s1' s2' b',
    fit_is (update_fit p f (XR y) t i).1 s1' s2' b' /\
    Rabs (rpred q s1' s2' b' t - pred)
      <= IZR t * rcap q w pred t + r_mu_bias q * (r_err_clip q * sc * w).
Proof.
  intros p pred w Hf Ht Htr Hbl Hmb I1 I2 I3 Hsc Hlim.
  assert (Hpr : (effective_slope p f * fint t + intercept f)%fl = XR pred)
    by (by apply predict_lift).
  destruct (clip_error_XR q f pred (y - pred) sc i Htr Hsc Hlim)
    as (u & cl & st & co & Hc & Hu). fold w in Hc, Hu.
  set (cap := rcap q w pred t).
  assert (Hcap : 0 <= cap) by (unfold cap, rcap; pose proof (Rmax_r
    (r_step_frac q * w * pred / IZR t) (1 / 1000000000)); lra).
  set (d1 := Rmax (- cap) (Rmin cap (r_mu_fast q * (u / IZR t)))).
  set (d2 := Rmax (- cap) (Rmin cap (r_mu_slow q * (u / IZR t)))).
  exists (Rmax (1 / 10) (Rmin (r_slope_max q) (s1 + d1))),
    (Rmax (1 / 10) (Rmin (r_slope_max q) (s2 + d2))),
    (Rmax (1 / 10) (Rmin (r_intercept_max q) (b + r_mu_bias q * u))).
  assert (Ht0 : IZR t <> 0) by (apply not_0_IZR; lia).
  split.
  - destruct Hf as (Hs1 & Hs2 & Hb). unfold update_fit. rewrite Z.max_r by lia.
    rewrite Hpr. change (XR y - XR pred)%fl with (XR (y - pred)).
    change (clip_error p) with (clip_error (lift_params q true)). rewrite Hc.
    unfold gradient_step. subst p. rewrite step_cap_XR by done. fold cap. cbn [c_err].
    change (fint t) with (XR (IZR t)). rewrite fdiv_XR by done.
    cbn [lift_params p_frozen p_dual p_mu_fast p_mu_slow p_mu_bias p_slope_max
      p_intercept_max]. rewrite Hs1, Hs2, Hb, tenth_XR.
    cbn [fmul fopp fadd xreal_float XReal.mul XReal.opp].
    rewrite !clamp_XR. cbn [XReal.add]. rewrite !clamp_XR. done.
  - unfold pred. apply rpred_move; try done.
    + apply clamped_step_near; [done|]. by apply Rclamp_abs.
    + apply clamped_step_near; [done|]. by apply Rclamp_abs.
    + apply clamped_step_near; [done|].
      rewrite Rabs_mult, (Rabs_pos_eq (r_mu_bias q)) by done.
      by apply Rmult_le_compat_l.
Qed.
