(* ===== verification/Rls.v ===== *)
(** [SimpleRLS] of [dio/scheduler.py], the 2x2 recursive-least-squares baseline,
    and its correctness in exact arithmetic: the matrix it carries is the
    inverse of the exponentially weighted information matrix, and its estimate
    solves the weighted normal equations. *)

From Stdlib Require Import Reals Lra.
From S2P Require Import Prelude PyFloat PyReal.

Section Rls.
Context {F : Type} {PF : PyFloat F}.
Local Open Scope float_scope.

Record SimpleRLS : Type := mkRLS {
  rls_lam : F;
  rls_slope : F;
  rls_intercept : F;
  rls_P00 : F;
  rls_P01 : F;
  rls_P10 : F;
  rls_P11 : F;
  rls_avg_latency : F;
  rls_update_count : Z
}.

(** [__init__] with [P = 1000 * I]. *)
Definition rls_init (lam slope intercept : F) : SimpleRLS :=
  mkRLS lam slope intercept (fint 1000) f0 f0 (fint 1000) f0 0.

Definition rls_estimate (r : SimpleRLS) (tokens : Z) : F * F :=
  let base := rls_slope r * fint (Z.max 1 tokens) + rls_intercept r in
  (base, if rls_avg_latency r >? f0 then rls_avg_latency r else base).

Definition rls_update (r : SimpleRLS) (actual_ms : F) (tokens : Z) : SimpleRLS :=
  let x0 := fint (Z.max 1 tokens) in
  let x1 := f1 in
  let pred := rls_slope r * x0 + rls_intercept r in
  let err := actual_ms - pred in
  let px0 := rls_P00 r * x0 + rls_P01 r * x1 in
  let px1 := rls_P10 r * x0 + rls_P11 r * x1 in
  let denom := py_max (fdec 1 (-9)) (rls_lam r + x0 * px0 + x1 * px1) in
  let k0 := px0 / denom in
  let k1 := px1 / denom in
  let slope := rls_slope r + k0 * err in
  let intercept := rls_intercept r + k1 * err in
  let p00 := rls_P00 r in
  let p01 := rls_P01 r in
  let p10 := rls_P10 r in
  let p11 := rls_P11 r in
  {| rls_lam := rls_lam r;
     rls_slope := py_max (fdec 1 (-1)) slope;
     rls_intercept := py_max (fdec 1 (-1)) intercept;
     rls_P00 := (p00 - k0 * (x0 * p00 + x1 * p10)) / rls_lam r;
     rls_P01 := (p01 - k0 * (x0 * p01 + x1 * p11)) / rls_lam r;
     rls_P10 := (p10 - k1 * (x0 * p00 + x1 * p10)) / rls_lam r;
     rls_P11 := (p11 - k1 * (x0 * p01 + x1 * p11)) / rls_lam r;
     rls_avg_latency := if rls_avg_latency r <=? f0 then actual_ms
                        else fdec 9 (-1) * rls_avg_latency r + fdec 1 (-1) * actual_ms;
     rls_update_count := (rls_update_count r + 1)%Z |}.
End Rls.
Arguments SimpleRLS F : clear implicits.

(** ** Exact arithmetic *)

Local Open Scope R_scope.

(** A symmetric 2x2 information matrix [[a, b], [b, c]]. *)
Record Info : Type := mkInfo { i_a : R; i_b : R; i_c : R }.

Definition info_det (A : Info) : R := i_a A * i_c A - i_b A * i_b A.

(** Positive definite. *)
Definition info_pd (A : Info) : Prop := 0 < i_a A /\ 0 < i_c A /\ 0 < info_det A.

(** Discount by [lam] and add the outer product of [(x, 1)]. *)
Definition info_add (lam : R) (A : Info) (x : R) : Info :=
  mkInfo (lam * i_a A + x * x) (lam * i_b A + x) (lam * i_c A + 1).

(** [r] carries the real estimate [(s, b)] and the inverse of [A]. *)
Definition rls_is (r : SimpleRLS xreal) (lam s b : R) (A : Info) : Prop :=
  rls_lam r = XR lam /\ rls_slope r = XR s /\ rls_intercept r = XR b /\
  rls_P00 r = XR (i_c A / info_det A) /\ rls_P01 r = XR (- i_b A / info_det A) /\
  rls_P10 r = XR (- i_b A / info_det A) /\ rls_P11 r = XR (i_a A / info_det A).

(** The quadratic form of the adjugate is non-negative. *)
Definition info_quad (A : Info) (x : R) : R := i_a A - 2 * i_b A * x + i_c A * (x * x).

Lemma info_quad_nonneg A x : info_pd A -> 0 <= info_quad A x.
Proof.
  intros (Ha & Hc & Hd).
  assert (H : i_a A * info_quad A x
              = (i_a A - i_b A * x) * (i_a A - i_b A * x) + info_det A * (x * x))
    by (unfold info_quad, info_det; ring).
  apply (Rmult_le_reg_l (i_a A)); [done|]. rewrite Rmult_0_r, H.
  apply Rplus_le_le_0_compat; [apply Rle_0_sqr|].
  apply Rmult_le_pos; [lra|apply Rle_0_sqr].
Qed.

Lemma info_det_add lam A x :
  info_det (info_add lam A x) = lam * (lam * info_det A + info_quad A x).
Proof. unfold info_det, info_quad, info_add; simpl. ring. Qed.

Lemma info_add_pd lam A x : 0 < lam -> info_pd A -> info_pd (info_add lam A x).
Proof.
  intros Hl Hpd. pose proof (info_quad_nonneg A x Hpd) as Hq.
  destruct Hpd as (Ha & Hc & Hd). unfold info_pd. rewrite info_det_add.
  unfold info_add; simpl. split_and!; [nra|nra|].
  apply Rmult_lt_0_compat; [done|]. nra.
Qed.

(** The gain denominator [lam + x' P x] is [det (A') / (lam * det A)]. *)
Definition rls_denom (lam : R) (A : Info) (x : R) : R :=
  lam + x * (i_c A / info_det A * x + - i_b A / info_det A * 1)
      + 1 * (- i_b A / info_det A * x + i_a A / info_det A * 1).

Lemma rls_denom_eq lam A x :
  0 < lam -> info_pd A ->
  rls_denom lam A x = info_det (info_add lam A x) / (lam * info_det A).
Proof.
  intros Hl (_ & _ & Hd). unfold rls_denom, info_det, info_add in *; simpl.
  field. split; lra.
Qed.

Lemma rls_denom_ge lam A x : 0 < lam -> info_pd A -> lam <= rls_denom lam A x.
Proof.
  intros Hl Hpd. pose proof (info_quad_nonneg A x Hpd) as Hq.
  destruct Hpd as (Ha & Hc & Hd).
  replace (rls_denom lam A x) with (lam + info_quad A x * / info_det A)
    by (unfold rls_denom, info_quad; field; lra).
  pose proof (Rinv_0_lt_compat _ Hd) as Hi. nra.
Qed.

(** The estimate the normal equations give. *)
Definition rls_next (lam s b : R) (A : Info) (x y : R) : R * R :=
  let d := rls_denom lam A x in
  let err := y - (s * x + b) in
  (s + (i_c A / info_det A * x + - i_b A / info_det A * 1) / d * err,
   b + (- i_b A / info_det A * x + i_a A / info_det A * 1) / d * err).

(** The two gains over the new determinant. *)
Definition rls_gain (lam : R) (A : Info) (x : R) : R * R :=
  (lam * (i_c A * x - i_b A) / info_det (info_add lam A x),
   lam * (i_a A - i_b A * x) / info_det (info_add lam A x)).

Lemma rls_gain_eq lam A x :
  0 < lam -> info_pd A ->
  (i_c A / info_det A * x + - i_b A / info_det A * 1) / rls_denom lam A x
    = (rls_gain lam A x).1 /\
  (- i_b A / info_det A * x + i_a A / info_det A * 1) / rls_denom lam A x
    = (rls_gain lam A x).2.
Proof.
  intros Hl Hpd. rewrite rls_denom_eq by done.
  pose proof (info_add_pd lam A x Hl Hpd) as (_ & _ & Hd').
  destruct Hpd as (_ & _ & Hd). unfold rls_gain; simpl.
  split; field; split_and!; lra.
Qed.

(** The gains solve [A' k = (x, 1)]. *)
Lemma rls_gain_solves lam A x :
  0 < lam -> info_pd A ->
  let A' := info_add lam A x in
  let '(k0, k1) := rls_gain lam A x in
  i_a A' * k0 + i_b A' * k1 = x /\ i_b A' * k0 + i_c A' * k1 = 1.
Proof.
  intros Hl Hpd. pose proof (info_add_pd lam A x Hl Hpd) as (_ & _ & Hd').
  cbv zeta. unfold rls_gain.
  assert (Hd2 : lam * (lam * info_det A + info_quad A x) <> 0)
    by (rewrite <- info_det_add; lra).
  rewrite info_det_add. unfold info_add; simpl.
  assert (lam * info_det A + info_quad A x <> 0) by (intros E; rewrite E in Hd2; lra).
  split; (field_simplify_eq; [|split_and!; lra]); unfold info_det, info_quad; ring.
Qed.

Lemma rls_next_normal lam s b A x y :
  0 < lam -> info_pd A ->
  let A' := info_add lam A x in
  let '(s', b') := rls_next lam s b A x y in
  i_a A' * s' + i_b A' * b' = lam * (i_a A * s + i_b A * b) + x * y /\
  i_b A' * s' + i_c A' * b' = lam * (i_b A * s + i_c A * b) + y.
Proof.
  intros Hl Hpd. pose proof (rls_gain_solves lam A x Hl Hpd) as Hk.
  pose proof (rls_gain_eq lam A x Hl Hpd) as [E0 E1].
  cbv zeta in *. unfold rls_next. rewrite E0, E1.
  destruct (rls_gain lam A x) as [k0 k1]; simpl in *. destruct Hk as [K0 K1].
  set (err := y - (s * x + b)). split.
  - transitivity ((lam * i_a A + x * x) * s + (lam * i_b A + x) * b
      + ((lam * i_a A + x * x) * k0 + (lam * i_b A + x) * k1) * err); [ring|].
    rewrite K0. unfold err. ring.
  - transitivity ((lam * i_b A + x) * s + (lam * i_c A + 1) * b
      + ((lam * i_b A + x) * k0 + (lam * i_c A + 1) * k1) * err); [ring|].
    rewrite K1. unfold err. ring.
Qed.

(** The update of [P] gives the inverse of the new information matrix. *)
Lemma rls_P_next lam A x :
  0 < lam -> info_pd A ->
  let A' := info_add lam A x in
  let d := info_det A in
  let '(k0, k1) := rls_gain lam A x in
  (i_c A / d - k0 * (x * (i_c A / d) + 1 * (- i_b A / d))) / lam = i_c A' / info_det A' /\
  (- i_b A / d - k0 * (x * (- i_b A / d) + 1 * (i_a A / d))) / lam = - i_b A' / info_det A' /\
  (- i_b A / d - k1 * (x * (i_c A / d) + 1 * (- i_b A / d))) / lam = - i_b A' / info_det A' /\
  (i_a A / d - k1 * (x * (- i_b A / d) + 1 * (i_a A / d))) / lam = i_a A' / info_det A'.
Proof.
  intros Hl Hpd. pose proof (info_add_pd lam A x Hl Hpd) as (_ & _ & Hd').
  destruct Hpd as (Ha & Hc & Hd). cbv zeta. unfold rls_gain.
  rewrite info_det_add in *.
  assert (lam * info_det A + info_quad A x <> 0)
    by (intros E; rewrite E, Rmult_0_r in Hd'; lra).
  unfold info_add; simpl.
  split_and!; (field_simplify_eq; [|split_and!; lra]); unfold info_det, info_quad; ring.
Qed.

(** One update of the program, when the floors at 0.1 do not bind. *)
Lemma rls_update_exact r lam s b A y t :
  let x := IZR (Z.max 1 t) in
  let '(s', b') := rls_next lam s b A x y in
  rls_is r lam s b A -> info_pd A -> 1 / 1000000000 <= lam ->
  1 / 10 <= s' -> 1 / 10 <= b' ->
  rls_is (rls_update r (XR y) t) lam s' b' (info_add lam A x).
Proof.
  cbv zeta. destruct (rls_next _ _ _ _ _ _) as [s' b'] eqn:En.
  intros (H0 & H1 & H2 & H3 & H4 & H5 & H6) Hpd Hl Hs Hb.
  set (x := IZR (Z.max 1 t)) in *. assert (Hl0 : 0 < lam) by lra.
  assert (Hden : rls_denom lam A x <> 0)
    by (pose proof (rls_denom_ge lam A x Hl0 Hpd); lra).
  assert (Hmax : Rmax (1 / 1000000000) (rls_denom lam A x) = rls_denom lam A x)
    by (apply Rmax_right; pose proof (rls_denom_ge lam A x Hl0 Hpd); lra).
  pose proof (rls_P_next lam A x Hl0 Hpd) as HP. cbv zeta in HP.
  pose proof (rls_gain_eq lam A x Hl0 Hpd) as [E0 E1].
  unfold rls_next in En. rewrite E0, E1 in En.
  destruct (rls_gain lam A x) as [k0 k1] eqn:Ek; simpl in *. injection En as <- <-.
  unfold rls_is, rls_update. rewrite H0, H1, H2, H3, H4, H5, H6. cbn [rls_lam rls_slope
    rls_intercept rls_P00 rls_P01 rls_P10 rls_P11].
  change (fint (Z.max 1 t)) with (XR x). unfold f1. simpl. rewrite !decimal_neg.
  fold (rls_denom lam A x). rewrite py_max_XR.
  change (IZR 1 / IZR (10 ^ 9)) with (1 / 1000000000). rewrite Hmax.
  rewrite !req_false by done. simpl. rewrite E0, E1.
  rewrite !req_false by lra. rewrite !py_max_XR.
  change (IZR (10 ^ 1)) with 10. rewrite !Rmax_right by done.
  destruct HP as (P0 & P1 & P2 & P3).
  split_and!; try done; f_equal; done.
Qed.
