(* ===== verification/Admission.v ===== *)
(** Admission control of [dio/scheduler.py]: the counters ([AdmissionStats]),
    the rolling percentile, and the decision of [_should_reject_slo]. *)

From S2P Require Import Prelude PyFloat PySort PyStr Config.

(** ** Counters *)

Section Stats.
Context {F : Type} {PF : PyFloat F}.
Local Open Scope float_scope.

Record AdmissionStats : Type := mkAdmission {
  admitted : Z;
  rejected_slo : Z;
  rejected_vram : Z;
  rejected_no_worker : Z;
  completed_under_slo : Z;
  completed_over_slo : Z;
  completed_total : Z;
  failed_total : Z;
  sum_e2e_ms : F;
  would_reject_absolute : Z;
  rejected_slo_suppressed : Z;
  would_admit_absolute : Z;
  absolute_vs_active_disagree : Z
}.

Definition admission_zero : AdmissionStats :=
  mkAdmission 0 0 0 0 0 0 0 0 f0 0 0 0 0.

(** One counter bumped by one. *)
Inductive Counter : Type :=
| CAdmitted | CRejectedSlo | CRejectedVram | CRejectedNoWorker | CFailed
| CWouldReject | CSuppressed | CWouldAdmit | CDisagree.

Definition one_if (b : bool) : Z := if b then 1 else 0.

Definition bump (c : Counter) (a : AdmissionStats) : AdmissionStats :=
  let hit c' := one_if (match c, c' with
    | CAdmitted, CAdmitted | CRejectedSlo, CRejectedSlo | CRejectedVram, CRejectedVram
    | CRejectedNoWorker, CRejectedNoWorker | CFailed, CFailed
    | CWouldReject, CWouldReject | CSuppressed, CSuppressed
    | CWouldAdmit, CWouldAdmit | CDisagree, CDisagree => true
    | _, _ => false end) in
  {| admitted := (admitted a + hit CAdmitted)%Z;
     rejected_slo := (rejected_slo a + hit CRejectedSlo)%Z;
     rejected_vram := (rejected_vram a + hit CRejectedVram)%Z;
     rejected_no_worker := (rejected_no_worker a + hit CRejectedNoWorker)%Z;
     completed_under_slo := completed_under_slo a;
     completed_over_slo := completed_over_slo a;
     completed_total := completed_total a;
     failed_total := (failed_total a + hit CFailed)%Z;
     sum_e2e_ms := sum_e2e_ms a;
     would_reject_absolute := (would_reject_absolute a + hit CWouldReject)%Z;
     rejected_slo_suppressed := (rejected_slo_suppressed a + hit CSuppressed)%Z;
     would_admit_absolute := (would_admit_absolute a + hit CWouldAdmit)%Z;
     absolute_vs_active_disagree := (absolute_vs_active_disagree a + hit CDisagree)%Z |}.

(** The completion branch of [feedback]. *)
Definition complete (slo_ms e2e_ms : F) (a : AdmissionStats) : AdmissionStats :=
  {| admitted := admitted a;
     rejected_slo := rejected_slo a;
     rejected_vram := rejected_vram a;
     rejected_no_worker := rejected_no_worker a;
     completed_under_slo := (completed_under_slo a + one_if (e2e_ms <=? slo_ms)%fl)%Z;
     completed_over_slo := (completed_over_slo a + one_if (negb (e2e_ms <=? slo_ms)%fl))%Z;
     completed_total := (completed_total a + 1)%Z;
     failed_total := failed_total a;
     sum_e2e_ms := sum_e2e_ms a + e2e_ms;
     would_reject_absolute := would_reject_absolute a;
     rejected_slo_suppressed := rejected_slo_suppressed a;
     would_admit_absolute := would_admit_absolute a;
     absolute_vs_active_disagree := absolute_vs_active_disagree a |}.

(** [AdmissionStats.snapshot] (the derived figures; the counters are copied). *)
Record AdmissionSnapshot : Type := mkAdmissionSnapshot {
  as_stats : AdmissionStats;
  as_attempts : Z;
  as_failure_rate : F;
  as_goodput_fraction : F;
  as_avg_e2e_ms : F;
  as_slo_ms : F;
  as_admission_enabled : bool;
  as_absolute_disagree_frac : F;
  as_admission_mode : string;
  as_empirical_p_ms : option F;
  as_recent_e2e_n : Z
}.

Definition ratio (n d : Z) : F := if (d =? 0)%Z then f0 else fint n / fint d.

Definition admission_snapshot (a : AdmissionStats) (slo_ms : F) (enabled : bool)
    (mode : string) (empirical_p : option F) (recent_n : Z) : AdmissionSnapshot :=
  let total := completed_total a in
  let attempts := (total + failed_total a)%Z in
  let cmp_n := (would_reject_absolute a + would_admit_absolute a)%Z in
  {| as_stats := a;
     as_attempts := attempts;
     as_failure_rate := ratio (failed_total a) attempts;
     as_goodput_fraction := ratio (completed_under_slo a) attempts;
     as_avg_e2e_ms := if (total =? 0)%Z then f0 else sum_e2e_ms a / fint total;
     as_slo_ms := slo_ms;
     as_admission_enabled := enabled;
     as_absolute_disagree_frac := ratio (absolute_vs_active_disagree a) cmp_n;
     as_admission_mode := mode;
     as_empirical_p_ms := empirical_p;
     as_recent_e2e_n := recent_n |}.

(** ** The rolling percentile *)

(** [_percentile(xs, p)]: linear interpolation between order statistics. *)
Definition percentile_rank (n : Z) (p : F) : F :=
  py_max f0 (py_min (fint 100) p) / fint 100 * fint (n - 1).

Definition percentile (xs : list F) (p : F) : F :=
  match xs with
  | [] => f0
  | _ =>
    let ys := fsorted xs in
    let n := Z.of_nat (length ys) in
    if (n =? 1)%Z then fnth ys 0
    else
      let k := percentile_rank n p in
      let lo := ffloor k in
      let hi := fceil k in
      if (lo =? hi)%Z then fnth ys lo
      else
        let t := k - fint lo in
        fnth ys lo * (f1 - t) + fnth ys hi * t
  end.

(** ** The decision *)

(** What [_should_reject_slo] reads from the scheduler. *)
Record AdmissionCfg : Type := mkAdmissionCfg {
  ac_slo_ms : F;
  ac_off : bool;
  ac_mode : string;
  ac_percentile : F
}.

Definition min_samples : nat := 8.

(** [best_score >= p75(scores) - 1e-9], trivially true of a single candidate. *)
Definition worst_quartile (best_score : F) (scores : list F) : bool :=
  if (2 <=? Z.of_nat (length scores))%Z
  then percentile scores (fint 75) - fdec 1 (-9) <=? best_score
  else true.

Definition tail_reason (prefix : string) (pct p : F) : string :=
  prefix ++ "_p" ++ fmt_fixed 0 pct ++ "=" ++ fmt_fixed 0 p ++ ">SLO".

Definition warm (recent : list F) : bool := Nat.leb min_samples (length recent).

(** [_should_reject_slo]: decision, reason, and the counters afterwards. *)
Definition should_reject_slo (c : AdmissionCfg) (recent : list F) (best_score : F)
    (scores : list F) (a : AdmissionStats) : bool * string * AdmissionStats :=
  if ac_off c || str_in (ac_mode c) ["rank_only"; "ranking"; "none"] then
    (false, "rank_only", a)
  else if str_in (ac_mode c) ["strict"; "shed"; "overflow"] then
    if negb (warm recent) then (false, "strict_warmup", a)
    else
      let p := percentile recent (ac_percentile c) in
      if p >? ac_slo_ms c then (true, tail_reason "strict" (ac_percentile c) p, a)
      else (false, "strict_ok", a)
  else if str_in (ac_mode c) ["empirical"; "observed"; "percentile"] then
    if negb (warm recent) then (false, "empirical_warmup", a)
    else
      let p := percentile recent (ac_percentile c) in
      if (p >? ac_slo_ms c) && worst_quartile best_score scores then
        (true, tail_reason "empirical" (ac_percentile c) p, a)
      else if p >? ac_slo_ms c then
        (false, "empirical_ok_better_backend_available", bump CSuppressed a)
      else (false, "empirical_ok", a)
  else if best_score >? ac_slo_ms c then
    (true, "absolute_score=" ++ fmt_fixed 0 best_score ++ ">SLO", a)
  else (false, "absolute_ok", a).

(** ** Invariants and the decision table *)

(** No counter is negative and every completion is under or over the SLO. *)
Definition stats_ok (a : AdmissionStats) : Prop :=
  completed_total a = (completed_under_slo a + completed_over_slo a)%Z /\
  0 <= admitted a /\ 0 <= rejected_slo a /\ 0 <= rejected_vram a /\
  0 <= rejected_no_worker a /\ 0 <= completed_under_slo a /\
  0 <= completed_over_slo a /\ 0 <= failed_total a.

Lemma stats_ok_zero : stats_ok admission_zero.
Proof. unfold stats_ok; simpl. lia. Qed.

Lemma stats_ok_bump c a : stats_ok a -> stats_ok (bump c a).
Proof. unfold stats_ok, bump, one_if. destruct c; simpl; lia. Qed.

Lemma stats_ok_complete s e a : stats_ok a -> stats_ok (complete s e a).
Proof. unfold stats_ok, complete, one_if; simpl. destruct (e <=? s); simpl; lia. Qed.

Lemma should_reject_slo_stats c recent best scores a :
  let a' := (should_reject_slo c recent best scores a).2 in
  a' = a \/ a' = bump CSuppressed a.
Proof. unfold should_reject_slo. repeat case_match; simpl; auto. Qed.

(** The mode is one of those the empirical (strict) branch answers to. *)
Definition mode_empirical (c : AdmissionCfg) : Prop :=
  ac_off c = false /\ ac_mode c ∈ ["empirical"; "observed"; "percentile"].
Definition mode_strict (c : AdmissionCfg) : Prop :=
  ac_off c = false /\ ac_mode c ∈ ["strict"; "shed"; "overflow"].

Definition tail_over_slo (c : AdmissionCfg) (recent : list F) : bool :=
  warm recent && (percentile recent (ac_percentile c) >? ac_slo_ms c).

Lemma decision_off c recent best scores a :
  ac_off c = true \/ ac_mode c ∈ ["rank_only"; "ranking"; "none"] ->
  should_reject_slo c recent best scores a = (false, "rank_only", a).
Proof.
  unfold should_reject_slo. intros [->|H]; [done|].
  destruct (ac_off c); [done|]. in_cases H; by rewrite H.
Qed.

Lemma decision_strict c recent best scores a :
  mode_strict c ->
  (should_reject_slo c recent best scores a).1.1 = tail_over_slo c recent /\
  (should_reject_slo c recent best scores a).2 = a.
Proof.
  intros [Hoff Hm]. unfold should_reject_slo, tail_over_slo. rewrite Hoff.
  in_cases Hm; rewrite Hm; simpl; destruct (warm recent); simpl; try done;
    by destruct (_ <? _).
Qed.

Lemma decision_empirical c recent best scores a :
  mode_empirical c ->
  (should_reject_slo c recent best scores a).1.1
    = tail_over_slo c recent && worst_quartile best scores /\
  (should_reject_slo c recent best scores a).2
    = if tail_over_slo c recent && negb (worst_quartile best scores)
      then bump CSuppressed a else a.
Proof.
  intros [Hoff Hm]. unfold should_reject_slo, tail_over_slo. rewrite Hoff.
  in_cases Hm; rewrite Hm; simpl; destruct (warm recent); simpl; try done;
    by destruct (_ <? _), (worst_quartile best scores).
Qed.

Lemma decision_absolute c recent best scores a :
  ac_off c = false -> ac_mode c = "absolute" ->
  (should_reject_slo c recent best scores a).1.1 = (best >? ac_slo_ms c) /\
  (should_reject_slo c recent best scores a).2 = a.
Proof.
  intros Hoff Hm. unfold should_reject_slo. rewrite Hoff, Hm. simpl.
  by destruct (_ <? _).
Qed.
End Stats.
Arguments AdmissionStats F : clear implicits.
Arguments AdmissionCfg F : clear implicits.
Arguments AdmissionSnapshot F : clear implicits.

#[export] Hint Resolve stats_ok_zero stats_ok_bump stats_ok_complete : dio.

(** The 95th percentile of 1..20 ms, with Python's interpolation. *)
Example percentile_ex :
  percentile (map (fun n => fint n : float) (map Z.of_nat (seq 1 20))) (fint 95)
  = fdec 1905 (-2).
Proof. vm_compute. reflexivity. Qed.
