(* ===== verification/EngineMetrics.v ===== *)
(** Engine telemetry: [dio/engine_metrics.py].  Prometheus text is parsed to a
    name-to-value dict, and the dict is folded into an [EngineSnapshot] whose
    fields the cost function can use without further checks. *)

From S2P Require Import Prelude PyFloat PyStr PyDict.

(** ** The exposition format *)

Section Parse.
Context {F : Type} {PF : PyFloat F}.

Definition is_alpha (c : ascii) : bool :=
  let n := code c in in_range 65 90 n || in_range 97 122 n.

Definition is_name_start (c : ascii) : bool :=
  is_alpha c || bool_decide (c = "_"%char) || bool_decide (c = ":"%char).
Definition is_name_char (c : ascii) : bool := is_name_start c || is_decimal c.

(** The longest prefix of characters satisfying [p], and the rest. *)
Fixpoint span (p : ascii -> bool) (l : list ascii) : list ascii * list ascii :=
  match l with
  | [] => ([], [])
  | c :: l' => if p c then let '(a, b) := span p l' in (c :: a, b) else ([], l)
  end.

Definition nat_of_digits (l : list ascii) : Z :=
  foldl (fun acc c => 10 * acc + (code c - 48)) 0 l.

(** [[eE][-+]?[0-9]+] and the end of the text; no exponent is exponent 0. *)
Definition parse_exponent (l : list ascii) : option Z :=
  match l with
  | [] => Some 0
  | c :: l' =>
    if bool_decide (c ∈ ["e"%char; "E"%char]) then
      let '(neg, l'') := match l' with
        | "-"%char :: r => (true, r) | "+"%char :: r => (false, r) | _ => (false, l') end in
      let '(ds, rest) := span is_decimal l'' in
      match ds, rest with
      | _ :: _, [] => Some (if neg then - nat_of_digits ds else nat_of_digits ds)
      | _, _ => None
      end
    else None
  end.

(** The value group of the sample expression, matched to the end of the text:
    [[-+]?[0-9]*\.?[0-9]+([eE][-+]?[0-9]+)?]. *)
Definition parse_number (l : list ascii) : option F :=
  let '(neg, l) := match l with
    | "-"%char :: r => (true, r) | "+"%char :: r => (false, r) | _ => (false, l) end in
  let '(a, rest) := span is_decimal l in
  let '(b, rest') := match rest with
    | "."%char :: r => span is_decimal r
    | _ => ([], rest) end in
  let dotted := match rest with "."%char :: _ => true | _ => false end in
  let digits_ok := if dotted then negb (Nat.eqb (length b) 0)
                   else negb (Nat.eqb (length a) 0) in
  if digits_ok then
    e ← parse_exponent rest';
    let m := nat_of_digits (a ++ b)%list in
    let v := fdec m (e - Z.of_nat (length b)) in
    Some (if neg then fopp v else v)
  else None.

(** [(?:\{[^}]*\})?]. *)
Definition skip_labels (l : list ascii) : option (list ascii) :=
  match l with
  | "{"%char :: r =>
    match span (fun c => negb (bool_decide (c = "}"%char))) r with
    | (_, "}"%char :: r') => Some r'
    | _ => None
    end
  | _ => Some l
  end.

(** [_SAMPLE_RE.match(line)] and [float(m.group(2))]. *)
Definition parse_sample (line : string) : option (string * F) :=
  match chars line with
  | c :: l =>
    if is_name_start c then
      let '(name, rest) := span is_name_char l in
      rest ← skip_labels rest;
      let '(ws, rest) := span is_space rest in
      match ws with
      | [] => None
      | _ => v ← parse_number (strip_right is_space rest);
             Some (unchars (c :: name), v)
      end
    else None
  | [] => None
  end.

Definition parse_line (out : list (string * F)) (line : string) : list (string * F) :=
  let line := strip line in
  if negb (str_truth line) || startswith "#" line then out
  else match parse_sample line with
       | Some (name, v) => dset name v out
       | None => out
       end.

(** [parse_prometheus_text]: the last sample of a name wins. *)
Definition parse_prometheus_text (text : string) : list (string * F) :=
  foldl parse_line [] (splitlines text).

(** ** The snapshot *)

Record EngineSnapshot : Type := mkSnap {
  kv_cache_usage : F;
  num_waiting : F;
  num_running : F;
  prefix_hit_rate : F;
  prefix_hits : F;
  prefix_queries : F;
  scraped_at : F;
  snap_ok : bool;
  snap_source : string;
  raw_keys : list (string * F)
}.

(** [n.split(":", 1)[-1]]. *)
Definition bare_name (n : string) : string :=
  match partition ":" n with Some (_, b) => b | None => n end.

(** The first metric whose name ends with the bare name. *)
Fixpoint first_suffix (bare : string) (metrics : list (string * F)) : option F :=
  match metrics with
  | [] => None
  | (k, v) :: rest =>
    if endswith bare k || str_eqb k bare then Some v else first_suffix bare rest
  end.

(** [_first(metrics, *names)]. *)
Fixpoint first_metric (metrics : list (string * F)) (names : list string) : option F :=
  match names with
  | [] => None
  | n :: names' =>
    match dget n metrics with
    | Some v => Some v
    | None => match first_suffix (bare_name n) metrics with
              | Some v => Some v
              | None => first_metric metrics names'
              end
    end
  end.

Definition unit_clamp (x : F) : F := py_max f0 (py_min f1 x).

(** A field set when the metric is present. *)
Definition or_default (d : F) (f : F -> F) (o : option F) : F :=
  match o with Some x => f x | None => d end.

Definition empty_snapshot (now : F) (source : string) (raw : list (string * F)) :
    EngineSnapshot :=
  mkSnap f0 f0 f0 f0 f0 f0 now false source raw.

(** [snapshot_from_metrics]; [now] is [time.time()]. *)
Definition snapshot_from_metrics (now : F) (metrics : list (string * F)) :
    EngineSnapshot :=
  match metrics with
  | [] => empty_snapshot now "none" []
  | _ =>
    let kv := first_metric metrics
      ["vllm:gpu_cache_usage_perc"; "vllm:kv_cache_usage_perc";
       "gpu_cache_usage_perc"; "kv_cache_usage_perc"] in
    let waiting := first_metric metrics
      ["vllm:num_requests_waiting"; "num_requests_waiting"] in
    let running := first_metric metrics
      ["vllm:num_requests_running"; "num_requests_running"] in
    let hit_rate := first_metric metrics
      ["vllm:gpu_prefix_cache_hit_rate"; "vllm:prefix_cache_hit_rate";
       "gpu_prefix_cache_hit_rate"] in
    let hits := first_metric metrics ["vllm:prefix_cache_hits"; "prefix_cache_hits"] in
    let queries := first_metric metrics
      ["vllm:prefix_cache_queries"; "prefix_cache_queries"] in
    let hits := or_default f0 (fun x => x) hits in
    let queries := or_default f0 (fun x => x) queries in
    {| kv_cache_usage := or_default f0 unit_clamp kv;
       num_waiting := or_default f0 (py_max f0) waiting;
       num_running := or_default f0 (py_max f0) running;
       prefix_hit_rate :=
         match hit_rate with
         | Some r => unit_clamp r
         | None => if flt f0 queries then unit_clamp (fdiv hits queries) else f0
         end;
       prefix_hits := hits;
       prefix_queries := queries;
       scraped_at := now;
       snap_ok := true;
       snap_source := "prometheus";
       raw_keys := metrics |}
  end.

(** What the scheduler keeps of a snapshot: the entries of [as_dict] it reads;
    [None] is a missing or [None] entry of a caller-supplied dict. *)
Record EngineDict : Type := mkEngineDict {
  ed_ok : bool;
  ed_kv : option F;
  ed_waiting : option F;
  ed_prefix_rate : option F
}.

Definition as_dict (s : EngineSnapshot) : EngineDict :=
  mkEngineDict (snap_ok s) (Some (kv_cache_usage s)) (Some (num_waiting s))
    (Some (prefix_hit_rate s)).

(** [scrape_metrics_url] on the outcome of the GET: a status with the body, or
    the exception's type name. *)
Inductive ScrapeReply : Type :=
| ScrapeHttp (status : Z) (text : string)
| ScrapeRaised (type_name : string).

Definition scrape_metrics (now : F) (r : ScrapeReply) : EngineSnapshot :=
  match r with
  | ScrapeHttp status text =>
    if 400 <=? status then empty_snapshot now ("http_" ++ str_of_Z status) []
    else snapshot_from_metrics now (parse_prometheus_text text)
  | ScrapeRaised t => empty_snapshot now ("error:" ++ t) []
  end.

Definition metrics_url_for_backend (base_url metrics_path : string) : string :=
  rstrip_char "/" base_url ++
  (if startswith "/" metrics_path then metrics_path else "/" ++ metrics_path).

(** [prefix_hit_rate_delta]. *)
Definition prefix_hit_rate_delta (before after : EngineSnapshot) : F * F * F :=
  let dh := py_max f0 (fsub (prefix_hits after) (prefix_hits before)) in
  let dq := py_max f0 (fsub (prefix_queries after) (prefix_queries before)) in
  let rate := if flt f0 dq then fdiv dh dq else f0 in
  (dh, dq, rate).
End Parse.
Arguments EngineSnapshot F : clear implicits.
Arguments EngineDict F : clear implicits.

(** ** Properties *)

Section Facts.
Context {F : Type} {PF : PyFloat F} {PL : PyFloatLaws F}.
Local Open Scope float_scope.

Definition in_unit (x : F) : Prop := f0 <=? x = true /\ x <=? f1 = true.

Lemma f0_in_unit : in_unit f0.
Proof. split; [apply fle_refl, f0_num|apply flt_fle, f0_lt_f1]. Qed.

Lemma unit_clamp_in_unit x : in_unit (unit_clamp x).
Proof. apply clamp_range, flt_fle, f0_lt_f1. Qed.

(** The fields of a snapshot the cost function multiplies by its weights. *)
Definition snapshot_sane (s : EngineSnapshot F) : Prop :=
  in_unit (kv_cache_usage s) /\ in_unit (prefix_hit_rate s) /\
  f0 <=? num_waiting s = true /\ f0 <=? num_running s = true.

Lemma or_default_max o : f0 <=? or_default f0 (py_max f0) o = true.
Proof. destruct o; simpl; [apply py_max0_nonneg|apply fle_refl, f0_num]. Qed.

Lemma or_default_unit o : in_unit (or_default f0 unit_clamp o).
Proof. destruct o; simpl; [apply unit_clamp_in_unit|apply f0_in_unit]. Qed.

Lemma snapshot_from_metrics_sane now m : snapshot_sane (snapshot_from_metrics now m).
Proof.
  unfold snapshot_from_metrics. destruct m as [|kv m].
  - split_and!; try apply f0_in_unit; apply fle_refl, f0_num.
  - split_and!; cbn [kv_cache_usage prefix_hit_rate num_waiting num_running];
      try apply or_default_unit; try apply or_default_max.
    destruct (first_metric _ _); [apply unit_clamp_in_unit|].
    destruct (_ <? _); [apply unit_clamp_in_unit|apply f0_in_unit].
Qed.

Lemma scrape_metrics_sane now r : snapshot_sane (scrape_metrics now r).
Proof.
  destruct r as [st t|t]; simpl; [destruct (400 <=? st)%Z|].
  - split_and!; try apply f0_in_unit; apply fle_refl, f0_num.
  - apply snapshot_from_metrics_sane.
  - split_and!; try apply f0_in_unit; apply fle_refl, f0_num.
Qed.

Lemma parse_line_wf out line : dict_wf out -> dict_wf (parse_line out line).
Proof.
  unfold parse_line. intros H. repeat case_match; auto using dict_wf_dset.
Qed.

Lemma parse_text_wf text : dict_wf (parse_prometheus_text text : list (string * F)).
Proof.
  unfold parse_prometheus_text.
  cut (forall ls out, dict_wf out -> dict_wf (foldl (parse_line (F:=F)) out ls)).
  { intros H. apply H. apply NoDup_nil_2. }
  induction ls as [|l ls IH]; intros out Hout; simpl; [done|].
  by apply IH, parse_line_wf.
Qed.

Lemma hit_rate_delta_nonneg before after :
  let '(dh, dq, rate) := prefix_hit_rate_delta before after in
  f0 <=? dh = true /\ f0 <=? dq = true /\ (fisnan rate = false -> f0 <=? rate = true).
Proof.
  unfold prefix_hit_rate_delta. split_and!; [apply py_max0_nonneg..|].
  destruct (f0 <? py_max f0 _) eqn:E.
  - intros Hn. apply fdiv_nonneg; [apply py_max0_nonneg|done|done].
  - intros _. apply fle_refl, f0_num.
Qed.
End Facts.

Example parse_prometheus_ex :
  parse_prometheus_text (String.concat (String (chr 10) "")
    ["# HELP x"; "vllm:num_requests_waiting{model=m} 3.0"; "bad line here";
     "vllm:gpu_cache_usage_perc 4.2e-1"; "vllm:num_requests_waiting 7"])
  = [("vllm:num_requests_waiting", fint 7); ("vllm:gpu_cache_usage_perc", fdec 42 (-2) : float)].
Proof. vm_compute. reflexivity. Qed.
