(* ===== verification/Scheduler.v ===== *)
(** The joint cost router: class [Scheduler] of [dio/scheduler.py].

    The object's attributes that never change are [SchedCfg]; the rest is the
    state [Sched].  Every public method holds the object's lock for its whole
    body, so each is one atomic step: a function of the state.  A method that
    raises returns an [Err] beside the state it leaves behind. *)

From S2P Require Import Prelude PyFloat PyDict PySort PyStr Blake2b Config Learner.
From S2P Require Import Rls Admission EngineMetrics.

Section Scheduler.
Context {F : Type} {PF : PyFloat F}.
Local Open Scope float_scope.

(** ** State *)

Record RoutingDecision : Type := mkDecision {
  d_worker_id : string;
  d_exec_ms : F;
  d_wait_ms : F;
  d_tier_cost_ms : F;
  d_vram_cost_ms : F;
  d_cache_bonus_ms : F;
  d_total_ms : F;
  d_tokens : Z;
  d_strategy : string;
  d_engine_kv_cost_ms : F;
  d_engine_queue_cost_ms : F;
  d_engine_prefix_bonus_ms : F;
  d_bonus_clamped_ms : F;
  d_affinity_hit : bool
}.

(** Constructor arguments, and the attributes they become. *)
Record SchedCfg : Type := mkSchedCfg {
  s_strategy : string;
  s_dual : bool;
  s_ablation : AblationFlags;
  s_admission : AdmissionCfg F;
  s_recent_window : Z;
  s_batch_size : F;
  s_tier_mismatch_ms : F;
  s_cache_bonus_ms : F;
  s_vram_soft_mb : F;
  s_vram_hard_mb : F;
  s_kv_cache_cost_ms : F;
  s_engine_queue_cost_ms : F;
  s_engine_prefix_hit_bonus_ms : F;
  s_use_engine_metrics : bool;
  s_mu_fast : F;
  s_mu_slow : F;
  s_mu_bias : F;
  s_blend : F;
  s_initial_slope : F;
  s_initial_intercept : F;
  s_static_slope : F;
  s_static_intercept : F;
  s_decision_log_size : nat;
  s_pred_history_size : nat;
  s_affinity_cache_size : Z;
  s_health_interval_s : F;
  s_recovery_hint_s : Z;
  s_learner_robust : bool;
  s_learner_err_clip : F;
  s_learner_step_frac : F;
  s_learner_slope_max : F;
  s_learner_intercept_max : F
}.

(** [s.replace("-", "_")]. *)
Definition underscores (s : string) : string :=
  unchars (map (fun c => if decide (c = "-"%char) then "_"%char else c) (chars s)).

(** What [__init__] does to its arguments. *)
Definition sched_cfg (a : SchedCfg) : SchedCfg := {|
  s_strategy := underscores (lower (s_strategy a));
  s_dual := if single_timescale (s_ablation a) then false else s_dual a;
  s_ablation := s_ablation a;
  s_admission := mkAdmissionCfg (ac_slo_ms (s_admission a)) (ac_off (s_admission a))
    (underscores (lower (str_or (ac_mode (s_admission a)) "empirical")))
    (ac_percentile (s_admission a));
  s_recent_window := Z.max 8 (s_recent_window a);
  s_batch_size := if ftruth (s_batch_size a) && (s_batch_size a >? f0)
                  then s_batch_size a else fint 8;
  s_tier_mismatch_ms := s_tier_mismatch_ms a;
  s_cache_bonus_ms := s_cache_bonus_ms a;
  s_vram_soft_mb := s_vram_soft_mb a;
  s_vram_hard_mb := s_vram_hard_mb a;
  s_kv_cache_cost_ms := s_kv_cache_cost_ms a;
  s_engine_queue_cost_ms := s_engine_queue_cost_ms a;
  s_engine_prefix_hit_bonus_ms := s_engine_prefix_hit_bonus_ms a;
  s_use_engine_metrics := s_use_engine_metrics a;
  s_mu_fast := s_mu_fast a;
  s_mu_slow := s_mu_slow a;
  s_mu_bias := s_mu_bias a;
  s_blend := s_blend a;
  s_initial_slope := s_initial_slope a;
  s_initial_intercept := s_initial_intercept a;
  s_static_slope := s_static_slope a;
  s_static_intercept := s_static_intercept a;
  s_decision_log_size := s_decision_log_size a;
  s_pred_history_size := s_pred_history_size a;
  s_affinity_cache_size := Z.max 16 (s_affinity_cache_size a);
  s_health_interval_s := s_health_interval_s a;
  s_recovery_hint_s :=
    Z.max 1 (fscaled 0 (if ftruth (s_health_interval_s a)
                        then s_health_interval_s a else fint 5));
  s_learner_robust := s_learner_robust a;
  s_learner_err_clip := s_learner_err_clip a;
  s_learner_step_frac := s_learner_step_frac a;
  s_learner_slope_max := s_learner_slope_max a;
  s_learner_intercept_max := s_learner_intercept_max a
|}.

(** One entry of [pred_history]. *)
Record PredSample : Type := mkSample {
  ps_unix_ms : Z;
  ps_worker_id : string;
  ps_tokens : Z;
  ps_info : UpdateInfo F;
  ps_mode : string
}.

Record Sched : Type := mkSched {
  predictors : list (string * Learner F);
  rls : gmap string (SimpleRLS F);
  ewma_e2e : gmap string F;
  ewma_samples : gmap string Z;
  prefix_cache : list (Z * string);
  engine_snap : list (string * EngineDict F);
  rr_index : Z;
  affinity_decisions : Z;
  affinity_hits : Z;
  affinity_evictions : Z;
  fail_streak : gmap string Z;
  decision_log : list RoutingDecision;
  pred_history : list PredSample;
  recent_e2e : list F;
  admission : AdmissionStats F;
  last_decision : option RoutingDecision
}.

Definition sched_init : Sched :=
  mkSched [] ∅ ∅ ∅ [] [] 0 0 0 0 ∅ [] [] [] admission_zero None.

Definition ewma_alpha : F := fdec 2 (-1).
Definition ewma_prior_ms : F := fint 5000.

(** *** Field updates *)

Definition set_predictors (p : list (string * Learner F)) (s : Sched) : Sched :=
  mkSched p (rls s) (ewma_e2e s) (ewma_samples s) (prefix_cache s) (engine_snap s)
    (rr_index s) (affinity_decisions s) (affinity_hits s) (affinity_evictions s)
    (fail_streak s) (decision_log s) (pred_history s) (recent_e2e s) (admission s)
    (last_decision s).

Definition set_admission (a : AdmissionStats F) (s : Sched) : Sched :=
  mkSched (predictors s) (rls s) (ewma_e2e s) (ewma_samples s) (prefix_cache s)
    (engine_snap s) (rr_index s) (affinity_decisions s) (affinity_hits s)
    (affinity_evictions s) (fail_streak s) (decision_log s) (pred_history s)
    (recent_e2e s) a (last_decision s).

Definition set_fail_streak (m : gmap string Z) (s : Sched) : Sched :=
  mkSched (predictors s) (rls s) (ewma_e2e s) (ewma_samples s) (prefix_cache s)
    (engine_snap s) (rr_index s) (affinity_decisions s) (affinity_hits s)
    (affinity_evictions s) m (decision_log s) (pred_history s) (recent_e2e s)
    (admission s) (last_decision s).

Definition set_rr_index (i : Z) (s : Sched) : Sched :=
  mkSched (predictors s) (rls s) (ewma_e2e s) (ewma_samples s) (prefix_cache s)
    (engine_snap s) i (affinity_decisions s) (affinity_hits s)
    (affinity_evictions s) (fail_streak s) (decision_log s) (pred_history s)
    (recent_e2e s) (admission s) (last_decision s).

Definition set_decisions (l : list RoutingDecision) (d : option RoutingDecision)
    (s : Sched) : Sched :=
  mkSched (predictors s) (rls s) (ewma_e2e s) (ewma_samples s) (prefix_cache s)
    (engine_snap s) (rr_index s) (affinity_decisions s) (affinity_hits s)
    (affinity_evictions s) (fail_streak s) l (pred_history s) (recent_e2e s)
    (admission s) d.

Definition set_affinity (pc : list (Z * string)) (decisions hits evictions : Z)
    (s : Sched) : Sched :=
  mkSched (predictors s) (rls s) (ewma_e2e s) (ewma_samples s) pc (engine_snap s)
    (rr_index s) decisions hits evictions (fail_streak s) (decision_log s)
    (pred_history s) (recent_e2e s) (admission s) (last_decision s).

Definition set_pending (n : Z) (l : Learner F) : Learner F :=
  mkLearner (l_params l) (l_fit l) n (inflight_log l) (free_vram_mb l) (healthy l).
Definition set_inflight (log : list Z) (l : Learner F) : Learner F :=
  mkLearner (l_params l) (l_fit l) (pending l) log (free_vram_mb l) (healthy l).
Definition set_free_vram (x : F) (l : Learner F) : Learner F :=
  mkLearner (l_params l) (l_fit l) (pending l) (inflight_log l) x (healthy l).
Definition set_health (h : bool) (l : Learner F) : Learner F :=
  mkLearner (l_params l) (l_fit l) (pending l) (inflight_log l) (free_vram_mb l) h.

Definition alter_pred (f : Learner F -> Learner F) (wid : string) (s : Sched) : Sched :=
  set_predictors (dalter f wid (predictors s)) s.

Definition bump_admission (c : Counter) (s : Sched) : Sched :=
  set_admission (bump c (admission s)) s.

(** ** Registration and health *)

(** The learner [register] builds. *)
Definition new_learner (c : SchedCfg) (tier : string) (total_vram_mb : F)
    (free : option F) : Learner F :=
  let frozen := str_eqb (s_strategy c) "static" in
  let slope := if frozen then s_static_slope c else s_initial_slope c in
  let icpt := if frozen then s_static_intercept c else s_initial_intercept c in
  let l := nlms_init (s_mu_fast c) (s_mu_slow c) (s_mu_bias c) (s_blend c) slope icpt
    (s_dual c && negb frozen) frozen tier total_vram_mb (s_learner_robust c)
    (s_learner_err_clip c) (s_learner_step_frac c) (s_learner_slope_max c)
    (s_learner_intercept_max c) in
  match free with Some x => set_free_vram x l | None => l end.

Definition rls_lam_default : F := fdec 99 (-2).

Definition register (c : SchedCfg) (worker_id tier : string) (total_vram_mb : F)
    (free : option F) (s : Sched) : Sched :=
  mkSched (dset worker_id (new_learner c tier total_vram_mb free) (predictors s))
    (<[worker_id := rls_init rls_lam_default (s_initial_slope c)
                      (s_initial_intercept c)]> (rls s))
    (<[worker_id := ewma_prior_ms]> (ewma_e2e s))
    (<[worker_id := 0%Z]> (ewma_samples s))
    (prefix_cache s) (engine_snap s) (rr_index s) (affinity_decisions s)
    (affinity_hits s) (affinity_evictions s) (fail_streak s) (decision_log s)
    (pred_history s) (recent_e2e s) (admission s) (last_decision s).

Definition unregister (worker_id : string) (s : Sched) : Sched :=
  mkSched (dpop worker_id (predictors s)) (delete worker_id (rls s))
    (delete worker_id (ewma_e2e s)) (delete worker_id (ewma_samples s))
    (prefix_cache s) (engine_snap s) (rr_index s) (affinity_decisions s)
    (affinity_hits s) (affinity_evictions s) (fail_streak s) (decision_log s)
    (pred_history s) (recent_e2e s) (admission s) (last_decision s).

Definition set_vram (worker_id : string) (free_mb : F) (s : Sched) : Sched :=
  alter_pred (set_free_vram free_mb) worker_id s.

(** [x or 0.0] for an entry of an engine dict. *)
Definition entry (o : option F) : F :=
  match o with Some x => if ftruth x then x else f0 | None => f0 end.

(** [set_engine_metrics]: store the dict, and turn the KV usage into a free
    VRAM estimate when the total is known. *)
Definition set_engine_metrics (worker_id : string) (d : EngineDict F) (s : Sched) : Sched :=
  let p' := dalter (fun l =>
      let kv := entry (ed_kv d) in
      let tot := p_total_vram_mb (l_params l) in
      if ed_ok d && ((tot >? f0) && (kv >=? f0))
      then set_free_vram (py_max f0 (tot * (f1 - kv))) l else l)
    worker_id (predictors s) in
  mkSched p' (rls s) (ewma_e2e s) (ewma_samples s) (prefix_cache s)
    (dset worker_id d (engine_snap s)) (rr_index s) (affinity_decisions s)
    (affinity_hits s) (affinity_evictions s) (fail_streak s) (decision_log s)
    (pred_history s) (recent_e2e s) (admission s) (last_decision s).

Definition set_healthy (worker_id : string) (h : bool) (s : Sched) : Sched :=
  if dmem worker_id (predictors s) then
    let s := alter_pred (set_health h) worker_id s in
    if h then set_fail_streak (<[worker_id := 0%Z]> (fail_streak s)) s else s
  else s.

Definition workers_health (s : Sched) : list (string * bool) :=
  map (fun '(wid, p) => (wid, healthy p)) (predictors s).

(** [note_failure]: [true] when the streak reaches the threshold. *)
Definition note_failure (worker_id : string) (threshold : Z) (s : Sched) : Sched * bool :=
  let streak := (default 0 (fail_streak s !! worker_id) + 1)%Z in
  let s := set_fail_streak (<[worker_id := streak]> (fail_streak s)) s in
  let tripped := (threshold <=? streak)%Z in
  (if tripped && dmem worker_id (predictors s)
   then alter_pred (set_health false) worker_id s else s, tripped).

Definition note_success (worker_id : string) (s : Sched) : Sched :=
  set_fail_streak (<[worker_id := 0%Z]> (fail_streak s)) s.

(** ** The joint cost *)

(** [_prefix_hash]: 64 bits of BLAKE2b over the first 256 characters. *)
Definition prefix_hash (text : string) : Z :=
  from_bytes_big (Blake2b.digest 8 (utf8_encode (str_take 256 text))).

Inductive SchedError : Type :=
| AdmissionError (message : string) (retry_after_sec : Z)
| KeyError (key : string).

(** [AdmissionError.__init__]. *)
Definition admission_error (message : string) (retry : Z) : SchedError :=
  AdmissionError message (Z.max 1 retry).

Definition engine_of (s : Sched) (wid : string) : EngineDict F :=
  match dget wid (engine_snap s) with
  | Some d => d
  | None => mkEngineDict false None None None
  end.

(** The hard blocks: VRAM head-room, engine KV pressure, tier. *)
Definition hard_blocked (c : SchedCfg) (pred : Learner F) (eng : EngineDict F)
    (tokens : Z) (tier : string) : bool :=
  let abl := s_ablation c in
  let free := free_vram_mb pred in
  (negb (disable_vram_hard abl) &&
     ((free >? f0) && (free <? s_vram_hard_mb c) && (1000 <? tokens)%Z ||
      (s_use_engine_metrics c && ed_ok eng && (entry (ed_kv eng) >? fdec 95 (-2)) &&
       (500 <? tokens)%Z))) ||
  (negb (disable_tier abl) &&
     (str_eqb tier "large" && negb (str_eqb (p_tier (l_params pred)) "large"))).

(** The terms of the cost, once the worker is not blocked. *)
Definition score_terms (c : SchedCfg) (s : Sched) (wid : string) (pred : Learner F)
    (eng : EngineDict F) (tokens : Z) (tier : string) (pkey : Z) (exec_ms avg : F) :
    F * RoutingDecision :=
  let abl := s_ablation c in
  let free := free_vram_mb pred in
  let total_vram := p_total_vram_mb (l_params pred) in
  let wait :=
    if disable_queue abl then f0
    else fint (pending pred) / s_batch_size c * (if avg >? f0 then avg else exec_ms) in
  let tier_cost :=
    if negb (disable_tier abl) && str_eqb tier "small" &&
       str_eqb (p_tier (l_params pred)) "large"
    then s_tier_mismatch_ms c else f0 in
  let vram_cost :=
    if negb (disable_vram_soft abl) && (total_vram >? f0) && (free <? s_vram_soft_mb c)
    then (f1 - free / total_vram) * fint 1000 else f0 in
  let engine := s_use_engine_metrics c && ed_ok eng in
  let eng_kv := if engine then entry (ed_kv eng) * s_kv_cache_cost_ms c else f0 in
  let eng_q := if engine then entry (ed_waiting eng) * s_engine_queue_cost_ms c else f0 in
  let eng_pref :=
    if engine then entry (ed_prefix_rate eng) * s_engine_prefix_hit_bonus_ms c else f0 in
  let affinity_hit :=
    negb (disable_cache abl) && bool_decide (dget pkey (prefix_cache s) = Some wid) in
  let cache_bonus := if affinity_hit then s_cache_bonus_ms c else f0 in
  let bonus_raw := cache_bonus + eng_pref in
  let bonus_allowed := py_max f0 (wait + exec_ms) in
  let bonus_scale :=
    if (bonus_raw <=? f0) || (bonus_raw <=? bonus_allowed) then f1
    else bonus_allowed / bonus_raw in
  let cache_applied := cache_bonus * bonus_scale in
  let pref_applied := eng_pref * bonus_scale in
  let total :=
    py_max f0 (wait + exec_ms + tier_cost + vram_cost + eng_kv + eng_q
               - cache_applied - pref_applied) in
  (total,
   {| d_worker_id := wid;
      d_exec_ms := exec_ms;
      d_wait_ms := wait;
      d_tier_cost_ms := tier_cost;
      d_vram_cost_ms := vram_cost;
      d_cache_bonus_ms := cache_applied + pref_applied;
      d_total_ms := total;
      d_tokens := tokens;
      d_strategy := s_strategy c;
      d_engine_kv_cost_ms := eng_kv;
      d_engine_queue_cost_ms := eng_q;
      d_engine_prefix_bonus_ms := pref_applied;
      d_bonus_clamped_ms := bonus_raw - (cache_applied + pref_applied);
      d_affinity_hit := affinity_hit |}).

(** [_score]: [Ok None] is the blocked result [(None, None, True)]. *)
Definition score (c : SchedCfg) (s : Sched) (wid : string) (pred : Learner F)
    (tokens : Z) (tier : string) (use_rls : bool) (pkey : Z) :
    result SchedError (option (F * RoutingDecision)) :=
  let eng := engine_of s wid in
  if hard_blocked c pred eng tokens tier then Ok None
  else
    est ← (if use_rls then
             match rls s !! wid with
             | Some r => Ok (rls_estimate r tokens)
             | None => Err (KeyError wid)
             end
           else Ok (estimate pred tokens));
    let '(exec_ms, avg) := est in
    if (exec_ms >=? fdec 1 300) || fisinf exec_ms then Ok None
    else Ok (Some (score_terms c s wid pred eng tokens tier pkey exec_ms avg)).

(** ** Selection *)

(** [_mark_admitted] on the worker [wid]. *)
Definition mark_admitted (l : Learner F) : Learner F :=
  let n := (pending l + 1)%Z in
  set_inflight (deque_append inflight_maxlen n (inflight_log l)) (set_pending n l).

Definition log_decision (c : SchedCfg) (d : RoutingDecision) (s : Sched) : Sched :=
  set_decisions (deque_append (s_decision_log_size c) d (decision_log s))
    (last_decision s) s.

Definition set_last_decision (d : RoutingDecision) (s : Sched) : Sched :=
  set_decisions (decision_log s) (Some d) s.

(** The healthy workers in registration order, restricted to [allowed]. *)
Definition eligible (s : Sched) (allowed : option (list string)) : list string :=
  let ids := map fst (filter (fun '(_, p) => healthy p = true) (predictors s)) in
  match allowed with
  | None => ids
  | Some l => filter (fun wid => wid ∈ l) ids
  end.

Definition pending_of (s : Sched) (wid : string) : Z :=
  match dget wid (predictors s) with Some p => pending p | None => 0 end.

(** A decision with no cost terms, as the baselines build it. *)
Definition plain_decision (c : SchedCfg) (wid : string) (ewma wait total : F) (tokens : Z) :
    RoutingDecision :=
  mkDecision wid ewma wait f0 f0 f0 total tokens (s_strategy c) f0 f0 f0 f0 false.

(** Mark, count and log one admission. *)
Definition admit_one (c : SchedCfg) (wid : string) (d : RoutingDecision) (s : Sched) : Sched :=
  log_decision c d (bump_admission CAdmitted (alter_pred mark_admitted wid s)).

Definition PickResult : Type := result SchedError (string * RoutingDecision).

Definition reject (k : Counter) (message : string) (retry : Z) (s : Sched) :
    Sched * PickResult :=
  (bump_admission k s, Err (admission_error message retry)).

Definition pick_round_robin (c : SchedCfg) (ids : list string) (tokens : Z) (s : Sched) :
    Sched * PickResult :=
  let i := ((rr_index s + 1) mod Z.of_nat (length ids))%Z in
  let s := set_rr_index i s in
  match ids !! Z.to_nat i with
  | Some wid =>
    let d := plain_decision c wid f0 f0 f0 tokens in
    (admit_one c wid d s, Ok (wid, d))
  | None => (s, Err (KeyError ""))
  end.

Definition pick_least_loaded (c : SchedCfg) (ids : list string) (tokens : Z) (s : Sched) :
    Sched * PickResult :=
  match min_by (pending_of s) ids with
  | Some wid =>
    let d := plain_decision c wid f0 f0 f0 tokens in
    (admit_one c wid d s, Ok (wid, d))
  | None => (s, Err (KeyError ""))
  end.

(** Score of the EWMA strategy: mean latency plus a queue term. *)
Definition ewma_decision (c : SchedCfg) (s : Sched) (tokens : Z) (wid : string) :
    RoutingDecision :=
  let ewma := default ewma_prior_ms (ewma_e2e s !! wid) in
  let wait := fint (pending_of s wid) / py_max f1 (s_batch_size c) * ewma in
  plain_decision c wid ewma wait (ewma + wait) tokens.

(** [for wid in ids: if score < best_score: ...]. *)
Definition better (best : option (F * RoutingDecision)) (sc : F) (d : RoutingDecision) :
    option (F * RoutingDecision) :=
  let cur := match best with Some (b, _) => b | None => finf end in
  if sc <? cur then Some (sc, d) else best.

Definition ewma_best (c : SchedCfg) (s : Sched) (tokens : Z) (ids : list string) :
    option (F * RoutingDecision) :=
  foldl (fun best wid => let d := ewma_decision c s tokens wid in
                         better best (d_total_ms d) d) None ids.

Definition unexplored (s : Sched) (ids : list string) : list string :=
  filter (fun wid => default 0 (ewma_samples s !! wid) <= 0) ids.

Definition pick_ewma (c : SchedCfg) (ids : list string) (tokens : Z) (s : Sched) :
    Sched * PickResult :=
  match min_by (pending_of s) (unexplored s ids) with
  | Some wid =>
    let d := ewma_decision c s tokens wid in
    (set_last_decision d (admit_one c wid d s), Ok (wid, d))
  | None =>
    match ewma_best c s tokens ids with
    | Some (_, d) =>
      let wid := d_worker_id d in
      (set_last_decision d (admit_one c wid d s), Ok (wid, d))
    | None => reject CRejectedNoWorker "no feasible backend" (s_recovery_hint_s c) s
    end
  end.

(** Accumulator of the single ranking pass. *)
Record Ranking : Type := mkRanking {
  rk_best : option (F * RoutingDecision);
  rk_scores : list F
}.

Fixpoint rank (c : SchedCfg) (s : Sched) (tokens : Z) (tier : string) (use_rls : bool)
    (pkey : Z) (ids : list string) (acc : Ranking) : result SchedError Ranking :=
  match ids with
  | [] => Ok acc
  | wid :: ids' =>
    match dget wid (predictors s) with
    | None => Err (KeyError wid)
    | Some pred =>
      r ← score c s wid pred tokens tier use_rls pkey;
      let acc := match r with
        | None => acc
        | Some (sc, d) =>
          mkRanking (better (rk_best acc) sc d) (rk_scores acc ++ [sc])
        end in
      rank c s tokens tier use_rls pkey ids' acc
    end
  end.

(** [while len(cache) > size: popitem(last=False)]: the entries to drop. *)
Definition lru_excess (c : SchedCfg) (pc : list (Z * string)) : nat :=
  Z.to_nat (Z.of_nat (length pc) - s_affinity_cache_size c).

(** Remember [pkey -> wid] as the most recent entry, evict the oldest. *)
Definition touch_affinity (c : SchedCfg) (pkey : Z) (wid : string) (hit : bool) (s : Sched) :
    Sched :=
  let pc := dmove_to_end pkey (dset pkey wid (prefix_cache s)) in
  let n := lru_excess c pc in
  set_affinity (drop n pc) (affinity_decisions s + 1)%Z
    (affinity_hits s + one_if hit)%Z (affinity_evictions s + Z.of_nat n)%Z s.

(** The strategies that rank by predicted cost. *)
Definition pick_cost (c : SchedCfg) (ids : list string) (prompt : string) (tier : string)
    (tokens : Z) (s : Sched) : Sched * PickResult :=
  let use_rls := str_eqb (s_strategy c) "rls" in
  let pkey := prefix_hash prompt in
  match rank c s tokens tier use_rls pkey ids (mkRanking None []) with
  | Err e => (s, Err e)
  | Ok rk =>
    match rk_best rk with
    | None =>
      if negb (Nat.eqb (length (rk_scores rk)) 0) then
        reject CRejectedVram "all backends VRAM/tier blocked" 2 s
      else reject CRejectedNoWorker "no feasible backend" (s_recovery_hint_s c) s
    | Some (best_score, d) =>
      let wid := d_worker_id d in
      let absolute_would_reject := best_score >? ac_slo_ms (s_admission c) in
      let s := bump_admission
        (if absolute_would_reject then CWouldReject else CWouldAdmit) s in
      let '(rej, reason, adm) := should_reject_slo (s_admission c) (recent_e2e s)
        best_score (rk_scores rk) (admission s) in
      let s := set_admission adm s in
      let s := if Bool.eqb absolute_would_reject rej then s
               else bump_admission CDisagree s in
      if rej then
        reject CRejectedSlo
          ("admission rejected (" ++ ac_mode (s_admission c) ++ ": " ++ reason ++ ")")
          (Z.max 1 (ftrunc (best_score / fint 1000))) s
      else
        let s := alter_pred mark_admitted wid s in
        let s := touch_affinity c pkey wid (d_affinity_hit d) s in
        let s := bump_admission CAdmitted s in
        let s := set_last_decision d (log_decision c d s) in
        (s, Ok (wid, d))
    end
  end.

Definition is_round_robin (st : string) : bool := str_in st ["round_robin"; "roundrobin"].
Definition is_least_loaded (st : string) : bool :=
  str_in st ["least_loaded"; "leastloaded"; "least_load"].
Definition is_ewma (st : string) : bool := str_in st ["ewma"; "ema"; "recent_latency"].

(** [pick]. *)
Definition pick (c : SchedCfg) (prompt tier : string) (tokens : option Z)
    (allowed : option (list string)) (s : Sched) : Sched * PickResult :=
  let tokens := match tokens with
                | Some t => t
                | None => Z.max 1 (str_len prompt / 4)
                end in
  let ids := eligible s allowed in
  match ids with
  | [] => reject CRejectedNoWorker "no healthy backends registered" (s_recovery_hint_s c) s
  | _ =>
    if is_round_robin (s_strategy c) then pick_round_robin c ids tokens s
    else if is_least_loaded (s_strategy c) then pick_least_loaded c ids tokens s
    else if is_ewma (s_strategy c) then pick_ewma c ids tokens s
    else pick_cost c ids prompt tier tokens s
  end.

(** ** Completion *)

Definition dec_pending (l : Learner F) : Learner F :=
  if (0 <? pending l)%Z then set_pending (pending l - 1) l else l.

(** [release]: give a slot back without recording an outcome. *)
Definition release (worker_id : string) (s : Sched) : Sched :=
  alter_pred dec_pending worker_id s.

(** [log.popleft()] when the log is not empty, the default 1 otherwise. *)
Definition pop_inflight (worker_id : string) (s : Sched) : Sched * Z :=
  match dget worker_id (predictors s) with
  | Some l =>
    match inflight_log l with
    | n :: log => (alter_pred (set_inflight log) worker_id s, n)
    | [] => (s, 1)
    end
  | None => (s, 1)
  end.

Definition ewma_next (n : Z) (prev : option F) (e2e : F) : F :=
  if (n <=? 0)%Z then e2e
  else match prev with
       | Some p => ewma_alpha * e2e + (f1 - ewma_alpha) * p
       | None => e2e
       end.

(** The learning part of a successful [feedback]. *)
Definition learn (c : SchedCfg) (worker_id : string) (e2e_ms : F) (tokens inflight now : Z)
    (s : Sched) : Sched :=
  match dget worker_id (predictors s) with
  | None => s
  | Some l =>
    let '(l', info) := update l e2e_ms tokens inflight in
    let known := match ewma_e2e s !! worker_id with Some _ => true | None => false end in
    let n := default 0%Z (ewma_samples s !! worker_id) in
    {| predictors := dset worker_id l' (predictors s);
       rls := match rls s !! worker_id with
              | Some r => <[worker_id := rls_update r e2e_ms tokens]> (rls s)
              | None => rls s
              end;
       ewma_e2e := if known
                   then <[worker_id := ewma_next n (ewma_e2e s !! worker_id) e2e_ms]>
                          (ewma_e2e s)
                   else ewma_e2e s;
       ewma_samples := if known then <[worker_id := (n + 1)%Z]> (ewma_samples s)
                       else ewma_samples s;
       prefix_cache := prefix_cache s;
       engine_snap := engine_snap s;
       rr_index := rr_index s;
       affinity_decisions := affinity_decisions s;
       affinity_hits := affinity_hits s;
       affinity_evictions := affinity_evictions s;
       fail_streak := fail_streak s;
       decision_log := decision_log s;
       pred_history := deque_append (s_pred_history_size c)
         (mkSample now worker_id tokens info (mode (l_params l'))) (pred_history s);
       recent_e2e := recent_e2e s;
       admission := admission s;
       last_decision := last_decision s |}
  end.

Definition set_recent (l : list F) (s : Sched) : Sched :=
  mkSched (predictors s) (rls s) (ewma_e2e s) (ewma_samples s) (prefix_cache s)
    (engine_snap s) (rr_index s) (affinity_decisions s) (affinity_hits s)
    (affinity_evictions s) (fail_streak s) (decision_log s) (pred_history s)
    l (admission s) (last_decision s).

(** [feedback]; [now] is [int(time.time() * 1000)]. *)
Definition feedback (c : SchedCfg) (worker_id : string) (e2e_ms : F) (tokens : Z)
    (success : bool) (now : Z) (s : Sched) : Sched :=
  let '(s, inflight) := pop_inflight worker_id s in
  let s :=
    if success then
      let s := learn c worker_id e2e_ms tokens inflight now s in
      let s := set_admission (complete (ac_slo_ms (s_admission c)) e2e_ms (admission s)) s in
      let s := set_recent (deque_append (Z.to_nat (s_recent_window c)) e2e_ms
                             (recent_e2e s)) s in
      set_fail_streak (<[worker_id := 0%Z]> (fail_streak s)) s
    else bump_admission CFailed s in
  alter_pred dec_pending worker_id s.

(** ** Reporting *)

(** [sum] of floats, added from the left as CPython before 3.12 does; later versions
    compensate the rounding errors. *)
Definition fsum (l : list F) : F := foldl fadd (fint 0) l.

Record Metrics : Type := mkMetrics {
  m_strategy : string;
  m_nlms_mode : string;
  m_ablation : string;
  m_workers : list (string * WorkerSnapshot F);
  m_engine_metrics : list (string * EngineDict F);
  m_use_engine_metrics : bool;
  m_aff_decisions : Z;
  m_aff_hits : Z;
  m_aff_hit_rate : F;
  m_aff_evictions : Z;
  m_aff_cache_size : Z;
  m_aff_capacity : Z;
  m_admission : AdmissionSnapshot F;
  m_last_decision : option RoutingDecision;
  m_decisions : list RoutingDecision;
  m_pred_count : Z;
  m_pred_mae_ms : F;
  m_pred_mape_pct : F;
  m_pred_samples : list PredSample
}.

Definition metrics (c : SchedCfg) (s : Sched) : Metrics :=
  let n := Z.of_nat (length (pred_history s)) in
  let total f := fsum (map (fun x => f (ps_info x)) (pred_history s)) in
  {| m_strategy := s_strategy c;
     m_nlms_mode := if s_dual c then "dual" else "single";
     m_ablation := abl_name (s_ablation c);
     m_workers := map (fun '(wid, p) => (wid, snapshot p)) (predictors s);
     m_engine_metrics := engine_snap s;
     m_use_engine_metrics := s_use_engine_metrics c;
     m_aff_decisions := affinity_decisions s;
     m_aff_hits := affinity_hits s;
     m_aff_hit_rate :=
       if (affinity_decisions s =? 0)%Z then f0
       else fint (affinity_hits s) / fint (Z.max 1 (affinity_decisions s));
     m_aff_evictions := affinity_evictions s;
     m_aff_cache_size := Z.of_nat (length (prefix_cache s));
     m_aff_capacity := s_affinity_cache_size c;
     m_admission := admission_snapshot (admission s) (ac_slo_ms (s_admission c))
       (negb (ac_off (s_admission c))) (ac_mode (s_admission c))
       (match recent_e2e s with
        | [] => None
        | l => Some (percentile l (ac_percentile (s_admission c)))
        end)
       (Z.of_nat (length (recent_e2e s)));
     m_last_decision := last_decision s;
     m_decisions := decision_log s;
     m_pred_count := n;
     m_pred_mae_ms := if (n =? 0)%Z then f0 else total ui_abs_err / fint n;
     m_pred_mape_pct := if (n =? 0)%Z then f0
                        else total ui_rel_err / fint n * fint 100;
     m_pred_samples := lastn 200 (pred_history s) |}.

Definition reset_stats (s : Sched) : Sched :=
  mkSched (predictors s) (rls s) (ewma_e2e s) (ewma_samples s) [] (engine_snap s)
    (rr_index s) 0 0 0 ∅ [] [] (recent_e2e s) admission_zero (last_decision s).

(** ** Runs *)

(** One call of a public method, in the order the lock serialises them. *)
Inductive Op : Type :=
| OpRegister (wid tier : string) (total : F) (free : option F)
| OpUnregister (wid : string)
| OpSetVram (wid : string) (free : F)
| OpSetEngine (wid : string) (d : EngineDict F)
| OpSetHealthy (wid : string) (h : bool)
| OpNoteFailure (wid : string) (threshold : Z)
| OpNoteSuccess (wid : string)
| OpPick (prompt tier : string) (tokens : option Z) (allowed : option (list string))
| OpRelease (wid : string)
| OpFeedback (wid : string) (e2e : F) (tokens : Z) (success : bool) (now : Z)
| OpResetStats.

Definition step (c : SchedCfg) (s : Sched) (o : Op) : Sched :=
  match o with
  | OpRegister wid tier total free => register c wid tier total free s
  | OpUnregister wid => unregister wid s
  | OpSetVram wid free => set_vram wid free s
  | OpSetEngine wid d => set_engine_metrics wid d s
  | OpSetHealthy wid h => set_healthy wid h s
  | OpNoteFailure wid thr => (note_failure wid thr s).1
  | OpNoteSuccess wid => note_success wid s
  | OpPick prompt tier tokens allowed => (pick c prompt tier tokens allowed s).1
  | OpRelease wid => release wid s
  | OpFeedback wid e2e tokens success now => feedback c wid e2e tokens success now s
  | OpResetStats => reset_stats s
  end.

Definition run (c : SchedCfg) (s : Sched) (ops : list Op) : Sched := foldl (step c) s ops.

(** The states a scheduler can be in. *)
Inductive reachable (c : SchedCfg) : Sched -> Prop :=
| reach_init : reachable c sched_init
| reach_step s o : reachable c s -> reachable c (step c s o).
End Scheduler.
Arguments RoutingDecision F : clear implicits.
Arguments SchedCfg F : clear implicits.
Arguments Sched F : clear implicits.
Arguments Op F : clear implicits.
Arguments Ranking F : clear implicits.
Arguments PickResult F : clear implicits.
Arguments PredSample F : clear implicits.
