(* ===== verification/SchedulerFacts.v ===== *)
(** Lemmas on the scheduler's operations: what each changes, the ranking pass,
    and the state invariant of every reachable scheduler. *)

From S2P Require Import Prelude PyFloat PyDict PySort PyStr Config Learner LearnerFacts.
From S2P Require Import Rls Admission EngineMetrics Scheduler.

Section Facts.
Context {F : Type} {PF : PyFloat F} {PL : PyFloatLaws F}.
Local Open Scope float_scope.
Implicit Types (c : SchedCfg F) (s : Sched F) (lr : Learner F) (wid : string)
  (d : RoutingDecision F).

(** ** The ranking pass *)

(** The results of [_score] over the candidates, blocked ones left out. *)
Fixpoint scored c s (tokens : Z) (tier : string) (use_rls : bool) (pkey : Z)
    (ids : list string) : list (F * RoutingDecision F) :=
  match ids with
  | [] => []
  | wid :: ids' =>
    match dget wid (predictors s) with
    | None => []
    | Some pred =>
      match score c s wid pred tokens tier use_rls pkey with
      | Ok (Some r) => [r]
      | _ => []
      end
    end ++ scored c s tokens tier use_rls pkey ids'
  end%list.

Definition pick_best (l : list (F * RoutingDecision F)) : option (F * RoutingDecision F) :=
  foldl (fun b r => better b r.1 r.2) None l.

Lemma rank_scored c s tokens tier use_rls pkey ids acc rk :
  rank c s tokens tier use_rls pkey ids acc = Ok rk ->
  let l := scored c s tokens tier use_rls pkey ids in
  rk_best rk = foldl (fun b r => better b r.1 r.2) (rk_best acc) l /\
  rk_scores rk = (rk_scores acc ++ map fst l)%list.
Proof.
  revert acc; induction ids as [|wid ids IH]; intros acc; simpl.
  - intros [= ->]. by rewrite app_nil_r.
  - destruct (dget wid (predictors s)) as [pred|]; [|done].
    destruct (score c s wid pred tokens tier use_rls pkey) as [[[sc dd]|]|e]; simpl;
      [|by intros H%IH|done].
    intros H%IH. simpl in H. destruct H as [-> ->]. by rewrite <- app_assoc.
Qed.

Lemma score_total_num c s wid pred t tier r k sc d :
  score c s wid pred t tier r k = Ok (Some (sc, d)) ->
  f0 <=? sc = true /\ d_total_ms d = sc /\ d_worker_id d = wid /\
  hard_blocked c pred (engine_of s wid) t tier = false.
Proof.
  unfold score. destruct (hard_blocked _ _ _ _ _); [done|].
  destruct (if r then _ else _) as [[ex avg]|]; simpl; [|done].
  destruct (_ || _); [done|]. intros [= <- <-]. split_and!; try done.
  apply py_max0_nonneg.
Qed.

Lemma scored_elem c s t tier r k ids sc d :
  (sc, d) ∈ scored c s t tier r k ids ->
  exists pred, d_worker_id d ∈ ids /\ dget (d_worker_id d) (predictors s) = Some pred /\
    score c s (d_worker_id d) pred t tier r k = Ok (Some (sc, d)).
Proof.
  induction ids as [|wid ids IH]; simpl; [by intros ?%not_elem_of_nil|].
  rewrite elem_of_app. intros [H|H].
  - destruct (dget wid (predictors s)) as [pred|] eqn:E; [|by apply not_elem_of_nil in H].
    destruct (score c s wid pred t tier r k) as [[[sc' d']|]|] eqn:Es;
      try by apply not_elem_of_nil in H.
    apply list_elem_of_singleton in H as [= -> ->].
    destruct (score_total_num _ _ _ _ _ _ _ _ _ _ Es) as (_ & _ & <- & _).
    exists pred. split_and!; [set_solver|done|done].
  - destruct (IH H) as (pred & ? & ? & ?). exists pred. split_and!; [set_solver|done|done].
Qed.

Lemma elem_scored c s t tier r k ids wid pred sc d :
  wid ∈ ids -> dget wid (predictors s) = Some pred ->
  score c s wid pred t tier r k = Ok (Some (sc, d)) ->
  (sc, d) ∈ scored c s t tier r k ids.
Proof.
  intros Hin Hp Hs. induction ids as [|w ids IH]; [by apply not_elem_of_nil in Hin|].
  simpl. rewrite elem_of_app. apply elem_of_cons in Hin as [->|Hin].
  - left. rewrite Hp, Hs. set_solver.
  - right. by apply IH.
Qed.

Lemma better_spec b sc d :
  (forall b0 d0, b = Some (b0, d0) -> fisnan b0 = false) -> fisnan sc = false ->
  match better b sc d with
  | None => b = None /\ sc <? finf = false
  | Some (m, dm) =>
    (b = Some (m, dm) \/ (m, dm) = (sc, d)) /\ m <=? sc = true /\
    (forall b0 d0, b = Some (b0, d0) -> m <=? b0 = true)
  end.
Proof.
  intros Hb Hsc. unfold better. destruct b as [[b0 d0]|].
  - specialize (Hb b0 d0 eq_refl). destruct (sc <? b0) eqn:E.
    + split_and!; [by right|by apply fle_refl|]. intros ? ? [= <- <-]. by apply flt_fle.
    + split_and!; [by left|by apply flt_false_fle|]. intros ? ? [= <- <-]. by apply fle_refl.
  - destruct (sc <? finf) eqn:E; [|done].
    split_and!; [by right|by apply fle_refl|done].
Qed.

(** The fold keeps a least element. *)
Lemma pick_best_from b l :
  (forall b0 d0, b = Some (b0, d0) -> fisnan b0 = false) ->
  (forall sc d, (sc, d) ∈ l -> fisnan sc = false) ->
  match foldl (fun b r => better b r.1 r.2) b l with
  | None => b = None /\ forall sc d, (sc, d) ∈ l -> sc <? finf = false
  | Some (m, dm) =>
    (b = Some (m, dm) \/ (m, dm) ∈ l) /\
    (forall b0 d0, b = Some (b0, d0) -> m <=? b0 = true) /\
    (forall sc d, (sc, d) ∈ l -> m <=? sc = true)
  end.
Proof.
  revert b; induction l as [|[sc d] l IH]; intros b Hb Hl; simpl.
  - destruct b as [[m dm]|].
    + split_and!; [by left| |by intros ? ? ?%not_elem_of_nil].
      intros ? ? [= <- <-]. apply fle_refl. by eapply Hb.
    + split; [done|]. by intros ? ? ?%not_elem_of_nil.
  - assert (Hsc : fisnan sc = false) by (eapply Hl; by left).
    pose proof (better_spec b sc d Hb Hsc) as Hbs.
    assert (Hb' : forall b0 d0, better b sc d = Some (b0, d0) -> fisnan b0 = false).
    { intros b0 d0 E. rewrite E in Hbs. destruct Hbs as (_ & H & _).
      by destruct (fle_num _ _ H). }
    specialize (IH (better b sc d) Hb' (fun x y H => Hl x y (list_elem_of_further _ _ _ H))).
    destruct (foldl _ _ l) as [[m dm]|].
    + destruct IH as (H1 & H2 & H3). destruct (better b sc d) as [[m' dm']|] eqn:E.
      * destruct Hbs as (B1 & B2 & B3). specialize (H2 m' dm' eq_refl).
        split_and!.
        -- destruct H1 as [[= -> ->]|H1]; [|right; by right].
           destruct B1 as [->|[= -> ->]]; [by left|right; by left].
        -- intros b0 d0 Hb0. eapply fle_trans; [done|by eapply B3].
        -- intros x y [[= -> ->]|Hin]%elem_of_cons; [by eapply fle_trans|by eapply H3].
      * destruct Hbs as [-> Hinf]. destruct H1 as [|H1]; [done|].
        split_and!; [right; by right|done|].
        intros x y [[= -> ->]|Hin]%elem_of_cons; [|by eapply H3].
        assert (Hm : fisnan m = false) by (eapply Hl; by right).
        eapply fle_trans; [by apply finf_top|]. apply flt_false_fle; [done| |exact Hinf].
        apply finf_num.
    + destruct IH as [Hn Hall]. rewrite Hn in Hbs. destruct Hbs as [-> Hinf].
      split; [done|]. intros x y [[= -> ->]|Hin]%elem_of_cons; [done|by eapply Hall].
Qed.

Lemma scored_nonnan c s t tier r k ids sc d :
  (sc, d) ∈ scored c s t tier r k ids -> fisnan sc = false.
Proof.
  intros H. destruct (scored_elem _ _ _ _ _ _ _ _ _ H) as (pred & _ & _ & Hs).
  destruct (score_total_num _ _ _ _ _ _ _ _ _ _ Hs) as (Hn & _).
  by destruct (fle_num _ _ Hn).
Qed.

(** The result of the ranking pass: a scored candidate of least score. *)
Lemma rank_best c s t tier r k ids rk m dm :
  rank c s t tier r k ids (mkRanking None []) = Ok rk -> rk_best rk = Some (m, dm) ->
  (m, dm) ∈ scored c s t tier r k ids /\
  forall sc d, (sc, d) ∈ scored c s t tier r k ids -> m <=? sc = true.
Proof.
  intros H Hb. destruct (rank_scored _ _ _ _ _ _ _ _ _ H) as [Hr _].
  rewrite Hr in Hb. simpl in Hb.
  assert (H0 : forall b0 d0, @None (F * RoutingDecision F) = Some (b0, d0) ->
               fisnan b0 = false) by done.
  pose proof (pick_best_from None _ H0
    (fun sc d => scored_nonnan c s t tier r k ids sc d)) as Hp.
  rewrite Hb in Hp. destruct Hp as ([?|Hin] & _ & Hall); [done|]. by split.
Qed.

(** ** Predicates on every registered worker *)

Definition all_preds (P : Learner F -> Prop) (p : list (string * Learner F)) : Prop :=
  forall wid lr, dget wid p = Some lr -> P lr.

Lemma all_preds_nil P : all_preds P [].
Proof. by intros wid lr. Qed.

Lemma all_preds_dset (P : Learner F -> Prop) wid lr p :
  P lr -> all_preds P p -> all_preds P (dset wid lr p).
Proof.
  intros Hl Hp w x. rewrite dget_dset. case_decide; [by intros [= <-]|apply Hp].
Qed.

Lemma all_preds_dpop (P : Learner F -> Prop) wid p :
  all_preds P p -> all_preds P (dpop wid p).
Proof. intros Hp w x. rewrite dget_dpop. case_decide; [done|apply Hp]. Qed.

Lemma all_preds_dalter (P : Learner F -> Prop) f wid p :
  (forall lr, P lr -> P (f lr)) -> all_preds P p -> all_preds P (dalter f wid p).
Proof.
  intros Hf Hp w x. rewrite dget_dalter. case_decide; [|apply Hp].
  destruct (dget w p) as [lr|] eqn:E; [|done]. intros [= <-]. eapply Hf, Hp, E.
Qed.

(** ** The state invariant *)

(** A worker record is sane: no negative load, bounded ring of in-flight
    depths, learner counters consistent. *)
Definition worker_ok (lr : Learner F) : Prop :=
  0 <= pending lr /\ (length (inflight_log lr) <= inflight_maxlen)%nat /\
  fit_counters_ok (l_fit lr).

Record sched_inv c s : Prop := mkInv {
  inv_dict : dict_wf (predictors s);
  inv_workers : all_preds worker_ok (predictors s);
  inv_rls : forall wid, is_Some (rls s !! wid) <-> wid ∈ dkeys (predictors s);
  inv_ewma : forall wid, is_Some (ewma_e2e s !! wid) <-> wid ∈ dkeys (predictors s);
  inv_cache : dict_wf (prefix_cache s);
  inv_capacity : Z.of_nat (length (prefix_cache s)) <= s_affinity_cache_size c;
  inv_hits : 0 <= affinity_hits s <= affinity_decisions s;
  inv_evictions : 0 <= affinity_evictions s <= affinity_decisions s;
  inv_streak : forall wid n, fail_streak s !! wid = Some n -> 0 <= n;
  inv_log : (length (decision_log s) <= s_decision_log_size c)%nat;
  inv_history : (length (pred_history s) <= s_pred_history_size c)%nat;
  inv_recent : (length (recent_e2e s) <= Z.to_nat (s_recent_window c))%nat;
  inv_stats : stats_ok (admission s)
}.

Lemma worker_ok_set_pending n lr :
  0 <= n -> worker_ok lr -> worker_ok (set_pending n lr).
Proof. by intros ? (_ & ? & ?). Qed.

Lemma worker_ok_set_inflight log lr :
  (length log <= inflight_maxlen)%nat -> worker_ok lr -> worker_ok (set_inflight log lr).
Proof. by intros ? (? & _ & ?). Qed.

Lemma worker_ok_set_free_vram x lr : worker_ok lr -> worker_ok (set_free_vram x lr).
Proof. done. Qed.

Lemma worker_ok_set_health h lr : worker_ok lr -> worker_ok (set_health h lr).
Proof. done. Qed.

Lemma worker_ok_mark_admitted lr : worker_ok lr -> worker_ok (mark_admitted lr).
Proof.
  intros H. apply worker_ok_set_inflight; [apply deque_append_bound|].
  apply worker_ok_set_pending; [|done]. destruct H as [? _]. lia.
Qed.

Lemma worker_ok_dec_pending lr : worker_ok lr -> worker_ok (dec_pending lr).
Proof.
  intros H. unfold dec_pending. destruct (Z.ltb_spec 0 (pending lr)); [|done].
  apply worker_ok_set_pending; [lia|done].
Qed.

Lemma worker_ok_new c tier total free : worker_ok (new_learner c tier total free).
Proof.
  unfold new_learner, worker_ok, fit_counters_ok, nlms_init, set_free_vram.
  destruct free; simpl; lia.
Qed.

Lemma worker_ok_update lr e t i : worker_ok lr -> worker_ok (update lr e t i).1.
Proof.
  intros (Hp & Hl & Hf). destruct (update_keeps_load lr e t i) as (Ep & El & _ & _).
  unfold worker_ok. rewrite Ep, El, update_l_fit. split_and!; try done.
  by apply update_fit_counters.
Qed.

(** *** Preservation by the building blocks *)

Lemma inv_alter c s f wid :
  (forall lr, worker_ok lr -> worker_ok (f lr)) ->
  sched_inv c s -> sched_inv c (alter_pred f wid s).
Proof.
  intros Hf []. split; simpl; try done; rewrite ?dkeys_dalter; try done.
  - by apply dict_wf_dalter.
  - by apply all_preds_dalter.
Qed.

Lemma inv_set_admission c s a : stats_ok a -> sched_inv c s -> sched_inv c (set_admission a s).
Proof. intros ? []. by split. Qed.

Lemma inv_bump c s k : sched_inv c s -> sched_inv c (bump_admission k s).
Proof. intros H. apply inv_set_admission; [|done]. apply stats_ok_bump, H. Qed.

Lemma inv_rr c s i : sched_inv c s -> sched_inv c (set_rr_index i s).
Proof. intros []. by split. Qed.

Lemma inv_set_last c s d : sched_inv c s -> sched_inv c (set_last_decision d s).
Proof. intros []. by split. Qed.

Lemma inv_log_decision c s d : sched_inv c s -> sched_inv c (log_decision c d s).
Proof. intros []. split; try done. apply deque_append_bound. Qed.

Lemma inv_streak_insert c s wid n :
  0 <= n -> sched_inv c s -> sched_inv c (set_fail_streak (<[wid := n]> (fail_streak s)) s).
Proof.
  intros Hn []. split; try done. simpl. intros w m.
  rewrite lookup_insert_Some. intros [[_ <-]|[_ ?]]; eauto.
Qed.

Lemma length_touched (pc : list (Z * string)) pkey wid :
  dict_wf pc -> (length (dmove_to_end pkey (dset pkey wid pc)) <= S (length pc))%nat.
Proof.
  intros Hpc. rewrite length_dmove_to_end by auto with dio. apply length_dset_le.
Qed.

Lemma inv_touch c s pkey wid hit :
  0 <= s_affinity_cache_size c ->
  sched_inv c s -> sched_inv c (touch_affinity c pkey wid hit s).
Proof.
  intros Hcap []. pose proof (length_touched _ pkey wid inv_cache0).
  split; simpl; try done; auto with dio.
  - rewrite length_drop. unfold lru_excess. lia.
  - destruct hit; simpl; lia.
  - unfold lru_excess. lia.
Qed.

Lemma inv_admit c s wid d : sched_inv c s -> sched_inv c (admit_one c wid d s).
Proof.
  intros H. apply inv_log_decision, inv_bump, inv_alter; [|done].
  apply worker_ok_mark_admitted.
Qed.

Lemma inv_init c : 0 <= s_affinity_cache_size c -> sched_inv c sched_init.
Proof.
  intros Hc. split; simpl; auto with dio; try lia; try apply stats_ok_zero.
  - apply all_preds_nil.
  - intros wid. rewrite lookup_empty. split; [by intros []|by intros ?%not_elem_of_nil].
  - intros wid. rewrite lookup_empty. split; [by intros []|by intros ?%not_elem_of_nil].
  - intros wid n. by rewrite lookup_empty.
Qed.

(** *** Preservation by the public methods *)

Lemma inv_register c s wid tier total free :
  sched_inv c s -> sched_inv c (register c wid tier total free s).
Proof.
  intros []. split; simpl; auto with dio.
  - apply all_preds_dset; [apply worker_ok_new|done].
  - intros w. rewrite elem_of_dkeys_dset, <- inv_rls0, lookup_insert_is_Some. 
    destruct (decide (wid = w)); naive_solver.
  - intros w. rewrite elem_of_dkeys_dset, <- inv_ewma0, lookup_insert_is_Some.
    destruct (decide (wid = w)); naive_solver.
Qed.

Lemma inv_unregister c s wid : sched_inv c s -> sched_inv c (unregister wid s).
Proof.
  intros []. split; simpl; auto with dio.
  - by apply all_preds_dpop.
  - intros w. rewrite dkeys_dpop, list_elem_of_filter, <- inv_rls0, lookup_delete_is_Some.
    naive_solver.
  - intros w. rewrite dkeys_dpop, list_elem_of_filter, <- inv_ewma0, lookup_delete_is_Some.
    naive_solver.
Qed.

Lemma inv_set_engine c s wid (ed : EngineDict F) :
  sched_inv c s -> sched_inv c (set_engine_metrics wid ed s).
Proof.
  intros []. split; simpl; try done; rewrite ?dkeys_dalter; try done; auto with dio.
  apply all_preds_dalter; [|done]. intros lr H. by destruct (_ && _).
Qed.

Lemma inv_set_healthy c s wid h : sched_inv c s -> sched_inv c (set_healthy wid h s).
Proof.
  intros H. unfold set_healthy. destruct (dmem _ _); [|done].
  destruct h; [apply inv_streak_insert; [done|]|]; by apply inv_alter.
Qed.

Lemma inv_note_failure c s wid thr :
  sched_inv c s -> sched_inv c (note_failure wid thr s).1.
Proof.
  intros H. unfold note_failure. simpl.
  assert (H' : sched_inv c (set_fail_streak
    (<[wid := (default 0 (fail_streak s !! wid) + 1)%Z]> (fail_streak s)) s)).
  { apply inv_streak_insert; [|done].
    destruct (fail_streak s !! wid) as [n|] eqn:E; simpl; [|lia].
    pose proof (inv_streak _ _ H _ _ E). lia. }
  destruct (_ && _); [by apply inv_alter|done].
Qed.

Lemma inv_note_success c s wid : sched_inv c s -> sched_inv c (note_success wid s).
Proof. intros H. by apply inv_streak_insert. Qed.

Lemma inv_release c s wid : sched_inv c s -> sched_inv c (release wid s).
Proof. apply inv_alter, worker_ok_dec_pending. Qed.

Lemma inv_pop c s wid : sched_inv c s -> sched_inv c (pop_inflight wid s).1.
Proof.
  intros H. unfold pop_inflight.
  destruct (dget wid (predictors s)) as [lr|] eqn:E; [|done].
  destruct (inflight_log lr) as [|n log] eqn:El; [done|]. simpl.
  destruct H. split; simpl; try done; rewrite ?dkeys_dalter; auto with dio.
  unfold dalter. rewrite E. apply all_preds_dset; [|done].
  apply worker_ok_set_inflight; [|by eapply inv_workers0].
  destruct (inv_workers0 _ _ E) as (_ & Hl & _). rewrite El in Hl. simpl in Hl. lia.
Qed.

Lemma is_Some_insert_existing {V} (m : gmap string V) k v w :
  is_Some (m !! k) -> is_Some (<[k := v]> m !! w) <-> is_Some (m !! w).
Proof. intros Hk. rewrite lookup_insert_is_Some. destruct (decide (k = w)); naive_solver. Qed.

Lemma inv_learn c s wid e t i now :
  sched_inv c s -> sched_inv c (learn c wid e t i now s).
Proof.
  intros H. unfold learn. destruct (dget wid (predictors s)) as [lr|] eqn:E; [|done].
  pose proof (worker_ok_update lr e t i (inv_workers _ _ H _ _ E)) as Hu.
  destruct (update lr e t i) as [lr' info]. simpl in Hu.
  assert (Hin : wid ∈ dkeys (predictors s)) by (apply dget_is_Some; by rewrite E).
  destruct H. split; simpl; rewrite ?(dkeys_dset_present wid) by done; auto with dio.
  - by apply all_preds_dset.
  - intros w. rewrite <- inv_rls0. destruct (rls s !! wid) eqn:Er; [|done].
    apply is_Some_insert_existing. by rewrite Er.
  - intros w. rewrite <- inv_ewma0. destruct (ewma_e2e s !! wid) eqn:Er; [|done].
    apply is_Some_insert_existing. by rewrite Er.
Qed.

Lemma inv_set_recent c s x :
  sched_inv c s ->
  sched_inv c (set_recent (deque_append (Z.to_nat (s_recent_window c)) x (recent_e2e s)) s).
Proof. intros []. split; try done. apply deque_append_bound. Qed.

Lemma inv_feedback c s wid e t ok now :
  sched_inv c s -> sched_inv c (feedback c wid e t ok now s).
Proof.
  intros H. unfold feedback. pose proof (inv_pop c s wid H) as Hp.
  destruct (pop_inflight wid s) as [s1 i]. simpl in Hp.
  apply inv_alter; [apply worker_ok_dec_pending|]. destruct ok; [|by apply inv_bump].
  apply inv_streak_insert; [done|]. apply inv_set_recent, inv_set_admission.
  - apply stats_ok_complete, (inv_stats c), inv_learn, Hp.
  - by apply inv_learn.
Qed.

Lemma inv_reset c s : 0 <= s_affinity_cache_size c -> sched_inv c s ->
  sched_inv c (reset_stats s).
Proof.
  intros Hc []. split; simpl; try done; try lia; auto with dio; try apply stats_ok_zero.
Qed.

(** *** Selection *)

Lemma inv_pick_round_robin c s ids t :
  sched_inv c s -> sched_inv c (pick_round_robin c ids t s).1.
Proof.
  intros H. unfold pick_round_robin. destruct (_ !! _); simpl; [apply inv_admit|];
    by apply inv_rr.
Qed.

Lemma inv_pick_least_loaded c s ids t :
  sched_inv c s -> sched_inv c (pick_least_loaded c ids t s).1.
Proof. intros H. unfold pick_least_loaded. case_match; simpl; [by apply inv_admit|done]. Qed.

Lemma inv_pick_ewma c s ids t :
  sched_inv c s -> sched_inv c (pick_ewma c ids t s).1.
Proof.
  intros H. unfold pick_ewma. case_match; simpl; [by apply inv_set_last, inv_admit|].
  case_match; [|by apply inv_bump]. case_match; simpl. by apply inv_set_last, inv_admit.
Qed.

(** The counters after the two predictive increments and the decision. *)
Definition decided c s (would_reject : bool) (best : F) (scores : list F) :
    bool * string * AdmissionStats F :=
  let s := bump_admission (if would_reject then CWouldReject else CWouldAdmit) s in
  should_reject_slo (s_admission c) (recent_e2e s) best scores (admission s).

(** The counters of a decided request, the disagreement counter included. *)
Definition decided_stats c s (best : F) (scores : list F) : AdmissionStats F :=
  let would := best >? ac_slo_ms (s_admission c) in
  let '(rej, _, a) := decided c s would best scores in
  if Bool.eqb would rej then a else bump CDisagree a.

Lemma stats_ok_decided c s best scores :
  stats_ok (admission s) -> stats_ok (decided_stats c s best scores).
Proof.
  intros H. unfold decided_stats, decided. set (w := best >? _).
  set (s' := bump_admission _ s).
  pose proof (should_reject_slo_stats (s_admission c) (recent_e2e s') best scores
    (admission s')) as Hs.
  destruct (should_reject_slo _ _ _ _ _) as [[rej reason] a]. simpl in Hs.
  assert (Ha : stats_ok a).
  { assert (stats_ok (admission s')) by (by apply stats_ok_bump).
    destruct Hs as [->| ->]; [done|by apply stats_ok_bump]. }
  destruct (Bool.eqb w rej); [done|by apply stats_ok_bump].
Qed.

(** [pick_cost] in one equation: the same function of the ranking. *)
Definition cost_outcome c (pkey : Z) s (rk : Ranking F) : Sched F * PickResult F :=
  match rk_best rk with
  | None =>
    if negb (Nat.eqb (length (rk_scores rk)) 0) then
      reject CRejectedVram "all backends VRAM/tier blocked" 2 s
    else reject CRejectedNoWorker "no feasible backend" (s_recovery_hint_s c) s
  | Some (best, d) =>
    let s' := set_admission (decided_stats c s best (rk_scores rk)) s in
    let '(rej, reason, _) := decided c s (best >? ac_slo_ms (s_admission c)) best
      (rk_scores rk) in
    if rej then
      reject CRejectedSlo
        ("admission rejected (" ++ ac_mode (s_admission c) ++ ": " ++ reason ++ ")")
        (Z.max 1 (ftrunc (best / fint 1000))) s'
    else
      (set_last_decision d (log_decision c d (bump_admission CAdmitted
         (touch_affinity c pkey (d_worker_id d) (d_affinity_hit d)
            (alter_pred mark_admitted (d_worker_id d) s')))), Ok (d_worker_id d, d))
  end.

Lemma pick_cost_outcome c ids prompt tier t s :
  pick_cost c ids prompt tier t s
  = match rank c s t tier (str_eqb (s_strategy c) "rls") (prefix_hash prompt) ids
            (mkRanking None []) with
    | Err e => (s, Err e)
    | Ok rk => cost_outcome c (prefix_hash prompt) s rk
    end.
Proof.
  unfold pick_cost. generalize (prefix_hash prompt) as key. intros key.
  destruct (rank _ _ _ _ _ _ _ _) as [rk|e]; [|done].
  unfold cost_outcome. destruct (rk_best rk) as [[best d]|]; [|done].
  unfold decided_stats, decided. simpl.
  destruct (should_reject_slo _ _ _ _ _) as [[rej reason] a].
  destruct (Bool.eqb _ rej); done.
Qed.

Lemma inv_pick_cost c ids prompt tier t s :
  0 <= s_affinity_cache_size c ->
  sched_inv c s -> sched_inv c (pick_cost c ids prompt tier t s).1.
Proof.
  intros Hc H. rewrite pick_cost_outcome. generalize (prefix_hash prompt) as key. intros key.
  destruct (rank _ _ _ _ _ _ _ _) as [rk|e]; [|done].
  unfold cost_outcome. destruct (rk_best rk) as [[best d]|];
    [|case_match; simpl; by apply inv_bump].
  assert (H' : sched_inv c (set_admission (decided_stats c s best (rk_scores rk)) s)).
  { apply inv_set_admission; [|done]. apply stats_ok_decided, H. }
  destruct (decided _ _ _ _ _) as [[[] reason] a]; simpl; [by apply inv_bump|].
  apply inv_set_last, inv_log_decision, inv_bump, inv_touch; [done|].
  apply inv_alter; [apply worker_ok_mark_admitted|done].
Qed.

Lemma inv_pick c prompt tier tokens allowed s :
  0 <= s_affinity_cache_size c ->
  sched_inv c s -> sched_inv c (pick c prompt tier tokens allowed s).1.
Proof.
  intros Hc H. unfold pick. destruct (eligible s allowed); [by apply inv_bump|].
  repeat case_match; auto using inv_pick_round_robin, inv_pick_least_loaded,
    inv_pick_ewma, inv_pick_cost.
Qed.

Lemma inv_step c s o :
  0 <= s_affinity_cache_size c -> sched_inv c s -> sched_inv c (step c s o).
Proof.
  intros Hc H. destruct o; simpl;
    auto using inv_register, inv_unregister, inv_set_engine, inv_set_healthy,
      inv_note_success, inv_pick, inv_release, inv_feedback, inv_reset.
  - by apply inv_alter.
  - by apply inv_note_failure.
Qed.

Lemma inv_reachable a s : reachable (sched_cfg a) s -> sched_inv (sched_cfg a) s.
Proof.
  assert (Hc : 0 <= s_affinity_cache_size (sched_cfg a)) by (simpl; lia).
  induction 1; [by apply inv_init|by apply inv_step].
Qed.
End Facts.
