(* ===== verification/PickFacts.v ===== *)
(** What [pick] does to the scheduler, strategy by strategy: the frame of an
    admission, the frame of a rejection, and the totality of the ranking. *)

From S2P Require Import Prelude PyFloat PyDict PySort PyStr Config Learner LearnerFacts.
From S2P Require Import Rls Admission EngineMetrics Scheduler SchedulerFacts.

Section PickFacts.
Context {F : Type} {PF : PyFloat F} {PL : PyFloatLaws F}.
Implicit Types (c : SchedCfg F) (s : Sched F) (wid : string) (d : RoutingDecision F).

(** ** The candidates *)

Definition allows (allowed : option (list string)) wid : Prop :=
  match allowed with None => True | Some l => wid ∈ l end.

Lemma elem_of_eligible s allowed wid :
  dict_wf (predictors s) ->
  wid ∈ eligible s allowed <->
  (exists lr, dget wid (predictors s) = Some lr /\ healthy lr = true) /\ allows allowed wid.
Proof.
  intros Hwf. unfold eligible.
  assert (E : wid ∈ map fst (filter (fun '(_, p) => healthy p = true) (predictors s)) <->
              exists lr, dget wid (predictors s) = Some lr /\ healthy lr = true).
  { rewrite list_elem_of_fmap. split.
    - intros ([w lr] & -> & [Hh Hin]%list_elem_of_filter). exists lr.
      split; [by apply dget_elem|done].
    - intros (lr & Hg & Hh). exists (wid, lr). split; [done|].
      apply list_elem_of_filter. split; [done|by apply dget_Some_elem]. }
  destruct allowed as [l|]; simpl; [|by rewrite E; intuition].
  rewrite list_elem_of_filter, E. tauto.
Qed.

Lemma eligible_registered s allowed wid :
  wid ∈ eligible s allowed -> wid ∈ dkeys (predictors s).
Proof.
  unfold eligible. assert (E : forall w,
    w ∈ map fst (filter (fun '(_, p) => healthy p = true) (predictors s)) ->
    w ∈ dkeys (predictors s)).
  { intros w ([w' lr] & -> & [_ Hin]%list_elem_of_filter)%list_elem_of_fmap.
    apply list_elem_of_fmap. by exists (w', lr). }
  destruct allowed as [l|]; [|apply E]. intros [_ H]%list_elem_of_filter. by apply E.
Qed.

(** ** Totality of the ranking pass *)

Lemma score_ok c s wid pred t tier r k :
  is_Some (rls s !! wid) -> is_ok (score c s wid pred t tier r k) = true.
Proof.
  intros [x Hx]. unfold score. destruct (hard_blocked _ _ _ _ _); [done|].
  destruct r; [rewrite Hx|]; simpl; repeat case_match; done.
Qed.

Lemma rank_total c s t tier r k ids acc :
  sched_inv c s -> (forall w, w ∈ ids -> w ∈ dkeys (predictors s)) ->
  is_ok (rank c s t tier r k ids acc) = true.
Proof.
  intros Hinv. revert acc; induction ids as [|wid ids IH]; intros acc Hids; simpl; [done|].
  assert (Hw : wid ∈ dkeys (predictors s)) by (apply Hids; by left).
  destruct (proj2 (dget_is_Some _ _) Hw) as [pred Hp]. rewrite Hp.
  pose proof (score_ok c s wid pred t tier r k (proj2 (inv_rls _ _ Hinv wid) Hw)) as Hs.
  destruct (score c s wid pred t tier r k) as [o|]; [|done]. simpl.
  apply IH. intros w Hin. apply Hids. by right.
Qed.

(** ** The frame of an admission *)

(** Everything the learner and the health logic own is untouched. *)
Definition same_learning s s' : Prop :=
  rls s' = rls s /\ ewma_e2e s' = ewma_e2e s /\ ewma_samples s' = ewma_samples s /\
  pred_history s' = pred_history s /\ recent_e2e s' = recent_e2e s /\
  fail_streak s' = fail_streak s /\ engine_snap s' = engine_snap s.

Record admitted_as c s s' wid d : Prop := mkAdmitted {
  ad_workers : predictors s' = dalter mark_admitted wid (predictors s);
  ad_log : decision_log s' = deque_append (s_decision_log_size c) d (decision_log s);
  ad_count : admitted (admission s') = (admitted (admission s) + 1)%Z;
  ad_rejects : rejected_slo (admission s') = rejected_slo (admission s) /\
    rejected_vram (admission s') = rejected_vram (admission s) /\
    rejected_no_worker (admission s') = rejected_no_worker (admission s);
  ad_learning : same_learning s s'
}.

Lemma admitted_admit c s wid d i :
  admitted_as c s (admit_one c wid d (set_rr_index i s)) wid d.
Proof. split; try done; simpl; lia. Qed.

Lemma admitted_admit_last c s wid d :
  admitted_as c s (set_last_decision d (admit_one c wid d s)) wid d.
Proof. split; try done; simpl; lia. Qed.

Lemma decided_stats_counts c s best scores :
  admitted (decided_stats c s best scores) = admitted (admission s) /\
  rejected_slo (decided_stats c s best scores) = rejected_slo (admission s) /\
  rejected_vram (decided_stats c s best scores) = rejected_vram (admission s) /\
  rejected_no_worker (decided_stats c s best scores) = rejected_no_worker (admission s).
Proof.
  unfold decided_stats, decided. set (s' := bump_admission _ s).
  pose proof (should_reject_slo_stats (s_admission c) (recent_e2e s') best scores
    (admission s')) as Hs.
  destruct (should_reject_slo _ _ _ _ _) as [[rej reason] a]. simpl in Hs.
  subst s'. destruct (flt (ac_slo_ms _) best), rej, Hs as [->| ->]; simpl; lia.
Qed.

(** ** [pick] returns *)

Lemma pick_cost_ok c ids prompt tier t s s' wid d :
  pick_cost c ids prompt tier t s = (s', Ok (wid, d)) ->
  exists pred,
    d_worker_id d = wid /\ wid ∈ ids /\ dget wid (predictors s) = Some pred /\
    score c s wid pred t tier (str_eqb (s_strategy c) "rls") (prefix_hash prompt)
      = Ok (Some (d_total_ms d, d)) /\
    (forall sc d', (sc, d') ∈ scored c s t tier (str_eqb (s_strategy c) "rls")
                     (prefix_hash prompt) ids -> fle (d_total_ms d) sc = true) /\
    admitted_as c s s' wid d /\ last_decision s' = Some d.
Proof.
  rewrite pick_cost_outcome. generalize (prefix_hash prompt) as key. intros key.
  destruct (rank _ _ _ _ _ _ _ _) as [rk|e] eqn:Hr; [|done].
  unfold cost_outcome. destruct (rk_best rk) as [[best dd]|] eqn:Hb;
    [|by destruct (negb _)].
  destruct (decided_stats_counts c s best (rk_scores rk)) as (H1 & H2 & H3 & H4).
  destruct (decided _ _ _ _ _) as [[[] reason] a]; [done|]. intros [= <- <- <-].
  destruct (rank_best _ _ _ _ _ _ _ _ _ _ Hr Hb) as [Hin Hmin].
  destruct (scored_elem _ _ _ _ _ _ _ _ _ Hin) as (pred & Hids & Hp & Hs).
  destruct (score_total_num _ _ _ _ _ _ _ _ _ _ Hs) as (_ & <- & _ & _).
  exists pred. split_and!; try done. split; simpl; try done; lia.
Qed.

Lemma pick_ok c prompt tier tokens allowed s s' wid d :
  pick c prompt tier tokens allowed s = (s', Ok (wid, d)) ->
  wid ∈ eligible s allowed /\ d_worker_id d = wid /\ admitted_as c s s' wid d /\
  d_tokens d = default (Z.max 1 (str_len prompt / 4)) tokens.
Proof.
  unfold pick. change (match tokens with Some t => t | None => _ end)
    with (default (Z.max 1 (str_len prompt / 4)) tokens).
  generalize (default (Z.max 1 (str_len prompt / 4)) tokens) as t. intros t.
  destruct (eligible s allowed) as [|w0 ids0] eqn:Hids; [done|]. rewrite <- Hids.
  destruct (is_round_robin _); [|destruct (is_least_loaded _); [|destruct (is_ewma _)]].
  - unfold pick_round_robin. destruct (_ !! _) as [w|] eqn:E; [|done].
    intros [= <- <- <-]. split_and!; try done; [by eapply list_elem_of_lookup_2|].
    apply admitted_admit.
  - unfold pick_least_loaded. destruct (min_by _ _) as [w|] eqn:E; [|done].
    intros [= <- <- <-]. apply min_by_spec in E as [? _]. split_and!; try done.
    apply (admitted_admit c s w _ (rr_index s)).
  - unfold pick_ewma. destruct (min_by _ _) as [w|] eqn:E.
    + intros [= <- <- <-]. apply min_by_spec in E as [[_ ?]%list_elem_of_filter _].
      split_and!; try done. apply admitted_admit_last.
    + destruct (ewma_best c s t (eligible s allowed)) as [[sc dd]|] eqn:Eb; [|done].
      intros [= <- <- <-].
      assert (H : forall ids b, (forall x : F * RoutingDecision F, b = Some x ->
                 d_worker_id x.2 ∈ eligible s allowed /\ d_tokens x.2 = t) ->
               (forall w, w ∈ ids -> w ∈ eligible s allowed) ->
               forall x, foldl (fun best wid => let d := ewma_decision c s t wid in
                         better best (d_total_ms d) d) b ids = Some x ->
               d_worker_id x.2 ∈ eligible s allowed /\ d_tokens x.2 = t).
      { induction ids as [|w ids IH]; intros b Hb Hi x; simpl; [apply Hb|].
        apply IH; [|intros; apply Hi; by right]. unfold better.
        intros y. destruct (flt _ _); [intros [= <-]|apply Hb].
        split; [apply Hi; by left|done]. }
      destruct (H (eligible s allowed) None (fun x E0 => ltac:(done)) (fun w Hw => Hw) _ Eb).
      split_and!; try done.
      apply admitted_admit_last.
  - intros H. destruct (pick_cost_ok _ _ _ _ _ _ _ _ _ H) as (p & ? & ? & ? & Hs & ? & ? & ?).
    split_and!; try done. revert Hs. unfold score. clear.
    destruct (hard_blocked _ _ _ _ _); [done|].
    match goal with |- context [mbind _ ?e] => destruct e as [[ex avg]|] end; simpl; [|done].
    destruct (_ || _); [done|]. unfold score_terms. intros [= _ <-]. done.
Qed.

(** ** [pick] raises *)

(** Only the admission counters moved, and no admission was counted. *)
Definition rejected_only s s' : Prop :=
  s' = set_admission (admission s') s /\ admitted (admission s') = admitted (admission s).

Lemma rejected_bump k s s0 :
  k <> CAdmitted -> rejected_only s s0 -> rejected_only s (bump_admission k s0).
Proof.
  intros Hk [H1 H2]. split; simpl.
  - by rewrite H1.
  - rewrite H2. destruct k; simpl; try done; lia.
Qed.

Lemma rejected_refl s : rejected_only s s.
Proof. by destruct s. Qed.

Lemma pick_err c prompt tier tokens allowed s s' e :
  sched_inv c s ->
  pick c prompt tier tokens allowed s = (s', Err e) ->
  rejected_only s s' /\ exists m r, e = AdmissionError m r /\ 1 <= r.
Proof.
  intros Hinv. unfold pick. generalize (match tokens with Some t => t | None => Z.max 1 (str_len prompt / 4) end) as t.
  intros t. destruct (eligible s allowed) as [|w0 ids0] eqn:Hids.
  { intros [= <- <-]. split; [|eexists _, _; split; [done|lia]].
    by apply rejected_bump, rejected_refl. }
  rewrite <- Hids.
  destruct (is_round_robin _); [|destruct (is_least_loaded _); [|destruct (is_ewma _)]].
  - unfold pick_round_robin. destruct (_ !! _) as [w|] eqn:E; [done|].
    apply lookup_ge_None in E. rewrite Hids in E. simpl in E.
    pose proof (Z.mod_pos_bound (rr_index s + 1) (Z.of_nat (S (length ids0)))). lia.
  - unfold pick_least_loaded. destruct (min_by _ _) as [w|] eqn:E; [done|].
    apply min_by_None in E. congruence.
  - unfold pick_ewma. destruct (min_by _ _); [done|]. destruct (ewma_best _ _ _ _) as [[]|];
      [done|]. intros [= <- <-]. split; [|eexists _, _; split; [done|lia]].
    by apply rejected_bump, rejected_refl.
  - rewrite pick_cost_outcome. generalize (prefix_hash prompt) as key. intros key.
    pose proof (rank_total c s t tier (str_eqb (s_strategy c) "rls") key
      (eligible s allowed) (mkRanking None []) Hinv (eligible_registered s allowed)) as Hr.
    destruct (rank _ _ _ _ _ _ _ _) as [rk|]; [clear Hr|done].
    unfold cost_outcome. destruct (rk_best rk) as [[best d]|].
    + destruct (decided _ _ _ _ _) as [[[] reason] a]; [|done].
      intros [= <- <-]. split; [|eexists _, _; split; [done|lia]].
      apply rejected_bump; [done|]. split; [done|].
      apply (decided_stats_counts c s best (rk_scores rk)).
    + destruct (negb _); intros [= <- <-]; (split; [|eexists _, _; split; [done|lia]]);
        by apply rejected_bump, rejected_refl.
Qed.

(** ** The affinity cache *)

Lemma pick_cost_touch c ids prompt tier t s s' wid d :
  pick_cost c ids prompt tier t s = (s', Ok (wid, d)) ->
  let pc := dmove_to_end (prefix_hash prompt)
              (dset (prefix_hash prompt) wid (prefix_cache s)) in
  prefix_cache s' = drop (lru_excess c pc) pc /\
  affinity_decisions s' = (affinity_decisions s + 1)%Z /\
  affinity_hits s' = (affinity_hits s + one_if (d_affinity_hit d))%Z /\
  affinity_evictions s' = (affinity_evictions s + Z.of_nat (lru_excess c pc))%Z /\
  d_affinity_hit d = negb (disable_cache (s_ablation c)) &&
                     bool_decide (dget (prefix_hash prompt) (prefix_cache s) = Some wid).
Proof.
  intros H. destruct (pick_cost_ok _ _ _ _ _ _ _ _ _ H) as (pred & _ & _ & _ & Hs & _ & _).
  revert H Hs. rewrite pick_cost_outcome. generalize (prefix_hash prompt) as key.
  intros key. destruct (rank _ _ _ _ _ _ _ _) as [rk|e]; [|done].
  unfold cost_outcome. destruct (rk_best rk) as [[best dd]|]; [|by destruct (negb _)].
  destruct (decided _ _ _ _ _) as [[[] reason] a]; [done|]. intros [= <- <- <-] Hs.
  split_and!; try done. revert Hs. unfold score.
  destruct (hard_blocked _ _ _ _ _); [done|].
  match goal with |- context [mbind _ ?e] => destruct e as [[ex avg]|] end; simpl; [|done].
  destruct (_ || _); [done|]. unfold score_terms. intros [= _ <-]. done.
Qed.

(** ** Repeated picks *)

(** The workers a sequence of requests is routed to ([None]: rejected). *)
Fixpoint pick_all c allowed (reqs : list (string * string * option Z)) s :
    list (option string) :=
  match reqs with
  | [] => []
  | (prompt, tier, tokens) :: reqs' =>
    let '(s', r) := pick c prompt tier tokens allowed s in
    match r with Ok (wid, _) => Some wid | Err _ => None end
      :: pick_all c allowed reqs' s'
  end.

(** The round-robin schedule: [k] picks from position [i] of a ring. *)
Fixpoint rotation (ids : list string) (i : Z) (k : nat) : list (option string) :=
  match k with
  | O => []
  | S k' =>
    let j := ((i + 1) mod Z.of_nat (length ids))%Z in
    (ids !! Z.to_nat j) :: rotation ids j k'
  end.

Lemma eligible_alter f wid s allowed :
  (forall lr, healthy (f lr) = healthy lr) ->
  eligible (alter_pred f wid s) allowed = eligible s allowed.
Proof.
  intros Hf. unfold eligible, alter_pred. simpl.
  assert (E : map fst (filter (fun '(_, p) => healthy p = true) (dalter f wid (predictors s)))
    = map fst (filter (fun '(_, p) => healthy p = true) (predictors s))); [|by rewrite E].
  unfold dalter. destruct (dget wid (predictors s)) as [lr|] eqn:Eg; [|done].
  revert Eg. induction (predictors s) as [|[w l0] p IH]; [done|].
  simpl. case_decide as Ew; [subst w|].
  - intros [= ->]. rewrite !filter_cons. specialize (Hf lr).
    repeat case_decide; simpl; congruence.
  - intros Eg. rewrite !filter_cons. specialize (IH Eg). case_decide; simpl; congruence.
Qed.

Lemma pick_all_round_robin c allowed reqs s :
  is_round_robin (s_strategy c) = true -> eligible s allowed <> [] ->
  pick_all c allowed reqs s
  = rotation (eligible s allowed) (rr_index s) (length reqs).
Proof.
  intros Hrr. revert s; induction reqs as [|[[prompt tier] tokens] reqs IH]; intros s Hne;
    [done|]. simpl. unfold pick at 1. rewrite Hrr.
  destruct (eligible s allowed) as [|w0 ids0] eqn:E; [done|]. rewrite <- E in *.
  unfold pick_round_robin. set (j := ((rr_index s + 1) mod _)%Z).
  assert (Hj : is_Some (eligible s allowed !! Z.to_nat j)).
  { apply lookup_lt_is_Some. subst j. rewrite E. simpl length.
    pose proof (Z.mod_pos_bound (rr_index s + 1) (Z.of_nat (S (length ids0)))). lia. }
  destruct Hj as [wid Hj]. rewrite Hj. f_equal.
  set (s1 := admit_one c wid _ _).
  assert (Ea : eligible s1 allowed = eligible s allowed)
    by (by apply (eligible_alter mark_admitted wid (set_rr_index j s) allowed)).
  rewrite IH; [by rewrite Ea|by rewrite Ea].
Qed.

(** One turn of the ring is a rotation of it. *)
Lemma rotation_lookup ids i k j :
  (j < k)%nat -> ids <> [] ->
  rotation ids i k !! j
  = Some (ids !! Z.to_nat ((i + 1 + Z.of_nat j) mod Z.of_nat (length ids))).
Proof.
  intros Hj Hne. revert i j Hj; induction k as [|k IH]; intros i j Hj; [lia|].
  destruct j as [|j]; simpl; [by rewrite Z.add_0_r|].
  rewrite IH by lia. do 3 f_equal.
  assert (Z.of_nat (length ids) <> 0) by (destruct ids; simpl; [done|lia]).
  rewrite <- Z.add_assoc, Zplus_mod_idemp_l. f_equal. lia.
Qed.

Lemma length_rotation ids i k : length (rotation ids i k) = k.
Proof. revert i; induction k as [|k IH]; intros i; simpl; [done|]. by rewrite IH. Qed.

Lemma rotation_permutation ids i k :
  ids <> [] -> k = length ids -> rotation ids i k ≡ₚ map Some ids.
Proof.
  intros Hne ->. set (n := length ids).
  assert (Hn : 0 < Z.of_nat n) by (destruct ids; simpl in *; [done|lia]).
  set (r := Z.to_nat ((i + 1) mod Z.of_nat n)).
  pose proof (Z.mod_pos_bound (i + 1) (Z.of_nat n) Hn) as Hb.
  trans (map Some (drop r ids ++ take r ids)%list);
    [|rewrite <- (take_drop r ids) at 3; rewrite !map_app; apply Permutation_app_comm].
  apply reflexive_eq, list_eq. intros j.
  destruct (decide (j < n)%nat) as [Hj|Hj].
  - rewrite rotation_lookup by done. change (map Some ?l) with (Some <$> l).
    rewrite list_lookup_fmap. fold n.
    assert (E : ids !! Z.to_nat ((i + 1 + Z.of_nat j) mod Z.of_nat n)
                = (drop r ids ++ take r ids)%list !! j).
    { assert (Hm : ((i + 1 + Z.of_nat j) mod Z.of_nat n)%Z
                = if decide (r + j < n)%nat then Z.of_nat (r + j) else Z.of_nat (r + j - n)).
      { rewrite <- Zplus_mod_idemp_l. subst r. case_decide.
        - rewrite Z.mod_small by lia. lia.
        - symmetry. apply (Z.mod_unique _ _ 1); lia. }
      rewrite Hm. case_decide.
      - rewrite lookup_app_l by (rewrite length_drop; fold n; lia).
        rewrite lookup_drop. f_equal. lia.
      - rewrite lookup_app_r by (rewrite length_drop; fold n; lia).
        rewrite length_drop. fold n. rewrite lookup_take_lt by lia. f_equal. lia. }
    rewrite E. destruct (lookup_lt_is_Some_2 (drop r ids ++ take r ids)%list j) as [x Hx].
    { rewrite length_app, length_drop, length_take. fold n. lia. }
    by rewrite Hx.
  - rewrite !lookup_ge_None_2; [done| |].
    + rewrite length_map, length_app, length_drop, length_take. fold n. lia.
    + rewrite length_rotation. fold n. lia.
Qed.

(** ** The EWMA minimum *)

(** A NaN score never becomes the best. *)
Lemma pick_best_filter b l :
  foldl (fun b r => better b r.1 r.2) b l
  = foldl (fun (b : option (F * RoutingDecision F)) r => better b r.1 r.2) b
      (filter (fun r => fisnan r.1 = false) l).
Proof.
  revert b; induction l as [|[sc d] l IH]; intros b; [done|].
  rewrite filter_cons. simpl. case_decide as Hn; [apply IH|].
  rewrite <- IH. f_equal. unfold better.
  by rewrite flt_nan_l by (by destruct (fisnan sc)).
Qed.

Lemma ewma_best_min c s t ids sc d :
  ewma_best c s t ids = Some (sc, d) ->
  forall w, w ∈ ids -> fisnan (d_total_ms (ewma_decision c s t w)) = false ->
  fle (d_total_ms (ewma_decision c s t (d_worker_id d)))
      (d_total_ms (ewma_decision c s t w)) = true.
Proof.
  set (dec := ewma_decision c s t). set (item w := (d_total_ms (dec w), dec w)).
  assert (E : forall b, foldl (fun best w => let d := dec w in better best (d_total_ms d) d) b ids
            = foldl (fun b r => better b r.1 r.2) b (map item ids)).
  { induction ids as [|w ids' IH]; intros b; simpl; [done|]. apply IH. }
  unfold ewma_best. fold dec. rewrite E, pick_best_filter. intros Hb w Hw Hn.
  pose proof (pick_best_from None (filter (fun r => fisnan r.1 = false) (map item ids))) as Hp.
  rewrite Hb in Hp. destruct Hp as ([|Hin] & _ & Hall); [done| |done|].
  - by intros x y [Hx _]%list_elem_of_filter.
  - apply list_elem_of_filter in Hin as [_ (w' & [= -> ->] & _)%list_elem_of_fmap].
    simpl. apply (Hall _ (dec w)), list_elem_of_filter. split; [done|].
    apply list_elem_of_fmap. by exists w.
Qed.

(** ** What a completion does to its worker *)

(** The worker record after its oldest depth was popped and, on success, the
    sample was learnt. *)
Definition served (e : F) (t : Z) (ok : bool) (lr : Learner F) : Learner F :=
  let lr0 := set_inflight (tl (inflight_log lr)) lr in
  if ok then (update lr0 e t (hd 1 (inflight_log lr))).1 else lr0.

Lemma served_load e t ok lr :
  pending (served e t ok lr) = pending lr /\
  inflight_log (served e t ok lr) = tl (inflight_log lr) /\
  healthy (served e t ok lr) = healthy lr.
Proof.
  unfold served. destruct ok; [|done].
  destruct (update_keeps_load (set_inflight (tl (inflight_log lr)) lr) e t
    (hd 1 (inflight_log lr))) as (-> & -> & _ & ->). done.
Qed.

Lemma pop_inflight_eq wid s :
  pop_inflight wid s
  = match dget wid (predictors s) with
    | Some lr => (set_predictors (dset wid (set_inflight (tl (inflight_log lr)) lr)
                    (predictors s)) s, hd 1 (inflight_log lr))
    | None => (s, 1)
    end.
Proof.
  unfold pop_inflight, alter_pred. destruct (dget wid (predictors s)) as [lr|] eqn:E; [|done].
  destruct (inflight_log lr) as [|n log] eqn:El; simpl; [|by rewrite (dalter_Some _ _ lr)].
  rewrite dset_id; [by destruct s|]. rewrite E. f_equal. destruct lr; simpl in *. by subst.
Qed.

Lemma predictors_learn c w e t i now s lr :
  dget w (predictors s) = Some lr ->
  predictors (learn c w e t i now s) = dset w (update lr e t i).1 (predictors s).
Proof. unfold learn. intros ->. by destruct (update lr e t i). Qed.

Lemma feedback_workers c w e t ok now s :
  predictors (feedback c w e t ok now s)
  = match dget w (predictors s) with
    | Some lr => dset w (dec_pending (served e t ok lr)) (predictors s)
    | None => predictors s
    end.
Proof.
  unfold feedback. rewrite pop_inflight_eq.
  destruct (dget w (predictors s)) as [lr|] eqn:E; simpl.
  - destruct ok; simpl.
    + rewrite (predictors_learn _ _ _ _ _ _ _ (set_inflight (tl (inflight_log lr)) lr))
        by (simpl; by rewrite dget_dset_eq).
      simpl. by rewrite dset_dset, dalter_dset.
    + by rewrite dalter_dset.
  - destruct ok; simpl; rewrite ?dalter_None; try done; unfold learn; by rewrite E.
Qed.
End PickFacts.
