(* ===== verification/Setup.v ===== *)
(** From configuration to a running scheduler: the constructor call of
    [DIOGateway.__init__] ([dio/gateway.py]), and a small concrete fleet the
    witnesses of the development run on. *)

From S2P Require Import Prelude PyFloat PyStr Config Admission EngineMetrics Learner Scheduler.

Section Setup.
Context {F : Type} {PF : PyFloat F}.

(** [if cfg.nlms_mode == "single": abl.single_timescale = True]. *)
Definition effective_ablation (cfg : DIOConfig F) : AblationFlags :=
  let abl := ablation_from_name (ablation cfg) in
  mkAblation (abl_name abl) (disable_queue abl) (disable_vram_soft abl)
    (disable_vram_hard abl) (disable_tier abl) (disable_cache abl)
    (single_timescale abl || str_eqb (nlms_mode cfg) "single").

(** The arguments [DIOGateway.__init__] gives to [Scheduler]. *)
Definition scheduler_args (cfg : DIOConfig F) : SchedCfg F :=
  let abl := effective_ablation cfg in
  {| s_strategy := strategy cfg;
     s_dual := str_eqb (nlms_mode cfg) "dual" && negb (single_timescale abl);
     s_ablation := abl;
     s_admission := mkAdmissionCfg (slo_ms cfg) (admission_off cfg) (admission_mode cfg)
                      (admission_percentile cfg);
     s_recent_window := recent_latency_window cfg;
     s_batch_size := batch_size cfg;
     s_tier_mismatch_ms := tier_mismatch_ms cfg;
     s_cache_bonus_ms := cache_bonus_ms cfg;
     s_vram_soft_mb := vram_soft_limit_mb cfg;
     s_vram_hard_mb := vram_hard_limit_mb cfg;
     s_kv_cache_cost_ms := kv_cache_cost_ms cfg;
     s_engine_queue_cost_ms := engine_queue_cost_ms cfg;
     s_engine_prefix_hit_bonus_ms := engine_prefix_hit_bonus_ms cfg;
     s_use_engine_metrics := engine_metrics cfg;
     s_mu_fast := mu_fast cfg;
     s_mu_slow := mu_slow cfg;
     s_mu_bias := mu_bias cfg;
     s_blend := fast_slow_blend cfg;
     s_initial_slope := initial_slope cfg;
     s_initial_intercept := initial_intercept cfg;
     s_static_slope := static_slope cfg;
     s_static_intercept := static_intercept cfg;
     s_decision_log_size := Z.to_nat (decision_log_size cfg);
     s_pred_history_size := Z.to_nat (pred_history_size cfg);
     s_affinity_cache_size := affinity_cache_size cfg;
     s_health_interval_s := health_interval_s cfg;
     s_recovery_hint_s := 0;
     s_learner_robust := learner_robust cfg;
     s_learner_err_clip := learner_err_clip cfg;
     s_learner_step_frac := learner_step_frac cfg;
     s_learner_slope_max := learner_slope_max cfg;
     s_learner_intercept_max := learner_intercept_max cfg |}.

(** The configuration the scheduler runs with. *)
Definition configured (cfg : DIOConfig F) : SchedCfg F := sched_cfg (scheduler_args cfg).

(** The default configuration with another strategy and admission mode. *)
Definition demo_args (st mode : string) : SchedCfg F :=
  let c := scheduler_args DIOConfig_default in
  mkSchedCfg st (s_dual c) (s_ablation c)
    (mkAdmissionCfg (ac_slo_ms (s_admission c)) false mode (ac_percentile (s_admission c)))
    (s_recent_window c) (s_batch_size c) (s_tier_mismatch_ms c) (s_cache_bonus_ms c)
    (s_vram_soft_mb c) (s_vram_hard_mb c) (s_kv_cache_cost_ms c)
    (s_engine_queue_cost_ms c) (s_engine_prefix_hit_bonus_ms c)
    (s_use_engine_metrics c) (s_mu_fast c) (s_mu_slow c) (s_mu_bias c) (s_blend c)
    (s_initial_slope c) (s_initial_intercept c) (s_static_slope c)
    (s_static_intercept c) (s_decision_log_size c) (s_pred_history_size c)
    (s_affinity_cache_size c) (s_health_interval_s c) 0 (s_learner_robust c)
    (s_learner_err_clip c) (s_learner_step_frac c) (s_learner_slope_max c)
    (s_learner_intercept_max c).
End Setup.

(** ** A concrete fleet *)

(** Two small workers and a large one, all with 24 GB; [b] has seen one slow
    request and [a] holds one in flight. *)
Definition fleet_ops : list (Op float) :=
  [OpRegister "a" "small" (fint 24000) None;
   OpRegister "b" "small" (fint 24000) None;
   OpRegister "c" "large" (fint 24000) (Some (fint 3000));
   OpPick "hello" "small" (Some 100) (Some ["b"]);
   OpFeedback "b" (fint 900) 100 true 1000;
   OpPick "hello again" "small" (Some 100) (Some ["a"])].

Definition nlms_args : SchedCfg float := demo_args "nlms" "empirical".
Definition fleet (a : SchedCfg float) : Sched float :=
  run (sched_cfg a) sched_init fleet_ops.

Lemma run_reachable {F} {PF : PyFloat F} (c : SchedCfg F) ops s :
  reachable c s -> reachable c (run c s ops).
Proof.
  revert s; induction ops as [|o ops IH]; intros s H; simpl; [done|]. apply IH. by constructor.
Qed.

Lemma fleet_reachable a : reachable (sched_cfg a) (fleet a).
Proof. unfold fleet. apply run_reachable, reach_init. Qed.
