(* ===== verification/Simulation.v ===== *)
(** The library-level experiments: [dio-serve/scripts/run_publishable_suite.py] and the
    simulated mode of [run_rls_headtohead.py].  They drive the scheduler with made-up
    engines, one request at a time.  Random draws and the wall clock are parameters; the
    microbenchmarks are not modelled. *)

From S2P Require Import Prelude PyFloat PyStats PyStr PyDict PySort Config Learner Admission Scheduler.

Section Simulation.
Context {F : Type} {PF : PyFloat F} {PS : PyStats F}.
Local Open Scope float_scope.

(** [random.random()] and [int(time.time() * 1000)], by the number of the call. *)
Variables (rand : nat -> F) (clock : nat -> Z).

(** [random.uniform(a, b)] on a draw. *)
Definition uniform (a b r : F) : F := a + (b - a) * r.

(** ** The scheduler under test *)

(** [Scheduler(...)] with the arguments the experiments give and the defaults of its
    constructor for the rest. *)
Definition suite_args (strategy : string) (dual : bool) (abl : AblationFlags) (off : bool)
    (slo static_slope static_intercept : F) : SchedCfg F := {|
  s_strategy := strategy;
  s_dual := dual;
  s_ablation := abl;
  s_admission := mkAdmissionCfg slo off "empirical" (fint 95);
  s_recent_window := 64;
  s_batch_size := fint 8;
  s_tier_mismatch_ms := fint 500;
  s_cache_bonus_ms := fint 200;
  s_vram_soft_mb := fint 4096;
  s_vram_hard_mb := fint 2400;
  s_kv_cache_cost_ms := fint 800;
  s_engine_queue_cost_ms := fint 50;
  s_engine_prefix_hit_bonus_ms := fint 150;
  s_use_engine_metrics := true;
  s_mu_fast := fdec 1 (-1);
  s_mu_slow := fdec 1 (-2);
  s_mu_bias := fdec 5 (-3);
  s_blend := fdec 8 (-1);
  s_initial_slope := fint 2;
  s_initial_intercept := fint 150;
  s_static_slope := static_slope;
  s_static_intercept := static_intercept;
  s_decision_log_size := 200;
  s_pred_history_size := 5000;
  s_affinity_cache_size := 2048;
  s_health_interval_s := fint 5;
  s_recovery_hint_s := 0;
  s_learner_robust := true;
  s_learner_err_clip := fint 2;
  s_learner_step_frac := fdec 5 (-2);
  s_learner_slope_max := fint 200;
  s_learner_intercept_max := fdec 1 6
|}.

(** ** [pct] and the simulated engines *)

(** [pct]: the order statistic nearest to the rank. *)
Definition pct_index (p len : Z) : Z :=
  Z.min (len - 1) (Z.max 0 (fscaled 0 (fint p / fint 100 * fint (len - 1)))).
Definition pct (xs : list F) (p : Z) : option F :=
  match xs with
  | [] => None
  | _ => Some (fnth (fsorted xs) (pct_index p (Z.of_nat (length xs))))
  end.

Record SimBackend : Type := mkSim {
  sb_id : string;
  sb_slope : F;
  sb_bias : F;
  sb_tier : string;
  sb_free_vram : F;
  sb_total_vram : F;
  sb_jitter : F;
  sb_thermal_start : Z;
  sb_thermal_ramp : F;
  sb_thermal_max : F;
  sb_served : Z
}.

(** The defaults of the dataclass. *)
Definition sim_backend (id : string) (slope bias jitter : F) : SimBackend :=
  mkSim id slope bias "small" (fint 20000) (fint 24000) jitter (10 ^ 9) f0 f1 0.

Definition sim_thermal (b : SimBackend) (n : Z) : F :=
  if (sb_thermal_start b <=? n)%Z
  then py_min (sb_thermal_max b) (f1 + fint (n - sb_thermal_start b) * sb_thermal_ramp b)
  else f1.

(** [serve]: the engine after one request, and its latency. *)
Definition sb_serve (tokens : Z) (r : F) (b : SimBackend) : SimBackend * F :=
  let n := (sb_served b + 1)%Z in
  let noise := f1 + uniform (- sb_jitter b) (sb_jitter b) r in
  (mkSim (sb_id b) (sb_slope b) (sb_bias b) (sb_tier b) (sb_free_vram b) (sb_total_vram b)
     (sb_jitter b) (sb_thermal_start b) (sb_thermal_ramp b) (sb_thermal_max b) n,
   py_max f1 ((sb_bias b + sb_slope b * fint tokens) * sim_thermal b n * noise)).

(** ** [simulate_load] *)

Record SimState : Type := mkSimState {
  sim_sched : Sched F;
  sim_backends : list (string * SimBackend);
  sim_lats : list F;
  sim_ok : Z;
  sim_fail : Z;
  sim_rej : Z;
  sim_routes : list (string * Z)
}.

(** The loop that registers the engines. *)
Definition enrol (c : SchedCfg F) (s : Sched F) (b : SimBackend) : Sched F :=
  if dmem (sb_id b) (predictors s) then set_vram (sb_id b) (sb_free_vram b) s
  else register c (sb_id b) (sb_tier b) (sb_total_vram b) (Some (sb_free_vram b)) s.

Definition sim_prompt (tokens : Z) : string :=
  unchars (repeat "x"%char (Z.to_nat (Z.max 4 (tokens * 4)))).

(** One request; only [AdmissionError] is caught. *)
Definition sim_request (c : SchedCfg F) (tokens : Z) (tier : string) (st : SimState) :
    result SchedError SimState :=
  match pick c (sim_prompt tokens) tier (Some tokens) None (sim_sched st) with
  | (s, Err (AdmissionError _ _)) =>
    Ok (mkSimState s (sim_backends st) (sim_lats st) (sim_ok st) (sim_fail st + 1)%Z
          (sim_rej st + 1)%Z (sim_routes st))
  | (s, Err e) => Err e
  | (s, Ok (wid, _)) =>
    match dget wid (sim_backends st) with
    | None => Err (KeyError wid)
    | Some b =>
      let k := length (sim_lats st) in
      let '(b, actual) := sb_serve tokens (rand k) b in
      let s := set_vram wid (sb_free_vram b) s in
      let s := feedback c wid actual tokens true (clock k) s in
      Ok (mkSimState s (dset wid b (sim_backends st)) (sim_lats st ++ [actual])
            (sim_ok st + 1)%Z (sim_fail st) (sim_rej st)
            (dset wid (dget_or wid 0 (sim_routes st) + 1)%Z (sim_routes st)))
    end
  end.

Fixpoint sim_loop (c : SchedCfg F) (tokens_fn : Z -> Z) (tier_fn : Z -> string)
    (n : nat) (i : Z) (st : SimState) : result SchedError SimState :=
  match n with
  | O => Ok st
  | S n' => st ← sim_request c (tokens_fn i) (tier_fn i) st;
            sim_loop c tokens_fn tier_fn n' (i + 1)%Z st
  end.

Definition sim_start (c : SchedCfg F) (s : Sched F) (backends : list (string * SimBackend)) :
    SimState :=
  mkSimState (foldl (enrol c) s (map snd backends)) backends [] 0 0 0 [].

(** The figures of a run; [wall] is the elapsed time in seconds. *)
Record SimReport : Type := mkReport {
  r_ok : Z;
  r_fail : Z;
  r_rejected : Z;
  r_p50 : option F;
  r_p95 : option F;
  r_p99 : option F;
  r_mean : option F;
  r_rps : F;
  r_goodput : F;
  r_routes : list (string * Z);
  r_metrics : Metrics (F:=F)
}.

Definition sim_report (c : SchedCfg F) (wall : F) (st : SimState) : SimReport :=
  let m := metrics c (sim_sched st) in
  let rate x := if wall >? f0 then x / wall else f0 in
  mkReport (sim_ok st) (sim_fail st) (sim_rej st) (pct (sim_lats st) 50)
    (pct (sim_lats st) 95) (pct (sim_lats st) 99)
    (match sim_lats st with [] => None | l => Some (mean l) end)
    (rate (fint (sim_ok st))) (rate (fint (completed_under_slo (as_stats (m_admission m)))))
    (sim_routes st) m.

Definition simulate_load (c : SchedCfg F) (s : Sched F) (backends : list (string * SimBackend))
    (n : nat) (tokens_fn : Z -> Z) (tier_fn : Z -> string) (wall : F) :
    result SchedError (SimState * SimReport) :=
  st ← sim_loop c tokens_fn tier_fn n 0 (sim_start c s backends);
  Ok (st, sim_report c wall st).

(** ** One seed of the head-to-head *)

(** [true]: slope and intercept of the two engines. *)
Definition true_latency (wid : string) : option (F * F) :=
  if str_eqb wid "fast" then Some (fint 2, fint 40)
  else if str_eqb wid "slow" then Some (fint 8, fint 90) else None.

Record SeedState : Type := mkSeed {
  sd_sched : Sched F;
  sd_e2e : list F;
  sd_routes : list (string * Z)
}.

Definition seed_start (c : SchedCfg F) : SeedState :=
  mkSeed (register c "slow" "small" (fint 24000) None
            (register c "fast" "small" (fint 24000) None sched_init)) [] [].

(** One request; here nothing is caught. *)
Definition seed_request (c : SchedCfg F) (i : Z) (st : SeedState) : result SchedError SeedState :=
  let tokens := (40 + i mod 60)%Z in
  let prompt := unchars (repeat "x"%char (Z.to_nat (tokens * 4))) in
  match pick c prompt "small" (Some tokens) None (sd_sched st) with
  | (_, Err e) => Err e
  | (s, Ok (wid, _)) =>
    match true_latency wid with
    | None => Err (KeyError wid)
    | Some (slope, b) =>
      let k := length (sd_e2e st) in
      let actual := (slope * fint tokens + b) * uniform (fdec 92 (-2)) (fdec 108 (-2)) (rand k) in
      Ok (mkSeed (feedback c wid actual tokens true (clock k) s) (sd_e2e st ++ [actual])
            (dset wid (dget_or wid 0 (sd_routes st) + 1)%Z (sd_routes st)))
    end
  end.

Fixpoint seed_loop (c : SchedCfg F) (n : nat) (i : Z) (st : SeedState) :
    result SchedError SeedState :=
  match n with
  | O => Ok st
  | S n' => st ← seed_request c i st; seed_loop c n' (i + 1)%Z st
  end.

Record SeedReport : Type := mkSeedReport {
  sr_frac_fast : F;
  sr_p99 : F;
  sr_mean : F;
  sr_mape : F;
  sr_routes : list (string * Z)
}.

(** [sum(routes.values()) or 1]. *)
Definition routes_total (routes : list (string * Z)) : Z := sum_of snd routes.

(** The figures; [None] is the [IndexError] of an empty run. *)
Definition seed_report (c : SchedCfg F) (st : SeedState) : option SeedReport :=
  let len := Z.of_nat (length (sd_e2e st)) in
  let i := Z.min (len - 1) (fscaled 0 (fdec 99 (-2) * fint (len - 1))) in
  let total := let t := routes_total (sd_routes st) in if (t =? 0)%Z then 1%Z else t in
  match sd_e2e st with
  | [] => None
  | l => Some (mkSeedReport (fint (dget_or "fast" 0%Z (sd_routes st)) / fint total)
                 (fnth (fsorted l) i) (mean l) (m_pred_mape_pct (metrics c (sd_sched st)))
                 (sd_routes st))
  end.

(** [sim_seed]: [dual] and no admission, an unlimited SLO. *)
Definition sim_seed (strategy : string) (n : nat) : result SchedError (option SeedReport) :=
  let c := sched_cfg (suite_args strategy true (ablation_default "full") true (fdec 1 9)
                        (fint 1) (fint 50)) in
  st ← seed_loop c n 0 (seed_start c);
  Ok (seed_report c st).
End Simulation.
Arguments SimBackend F : clear implicits.
Arguments SimState F : clear implicits.
Arguments SimReport F : clear implicits.

(** ** The experiments *)

Section Experiments.
Context {F : Type} {PF : PyFloat F} {PS : PyStats F}.
Local Open Scope float_scope.

(** One call of [simulate_load] and the scheduler it is given. *)
Record SimCase : Type := mkCase {
  cs_name : string;
  cs_args : SchedCfg F;
  cs_backends : list (SimBackend F);
  cs_tokens : Z -> Z;
  cs_tier : Z -> string
}.

Definition thermal (start : Z) (ramp top : F) (b : SimBackend F) : SimBackend F :=
  mkSim (sb_id b) (sb_slope b) (sb_bias b) (sb_tier b) (sb_free_vram b) (sb_total_vram b)
    (sb_jitter b) start ramp top (sb_served b).
Definition on_tier (tier : string) (b : SimBackend F) : SimBackend F :=
  mkSim (sb_id b) (sb_slope b) (sb_bias b) tier (sb_free_vram b) (sb_total_vram b)
    (sb_jitter b) (sb_thermal_start b) (sb_thermal_ramp b) (sb_thermal_max b) (sb_served b).
Definition with_vram (free total : F) (b : SimBackend F) : SimBackend F :=
  mkSim (sb_id b) (sb_slope b) (sb_bias b) (sb_tier b) free total
    (sb_jitter b) (sb_thermal_start b) (sb_thermal_ramp b) (sb_thermal_max b) (sb_served b).

Definition jitter_default : F := fdec 8 (-2).
Definition always_small (i : Z) : string := "small".
Definition no_slo : F := fdec 1 9.

(** Arguments the experiments leave alone: static slope 1 and intercept 50. *)
Definition plain_args (strategy : string) (dual : bool) (abl : AblationFlags) (off : bool)
    (slo : F) : SchedCfg F :=
  suite_args strategy dual abl off slo (fint 1) (fint 50).

Definition exp_N1 : list SimCase :=
  map (fun '(dual, tag, abl) =>
    mkCase ("N1_" ++ tag) (plain_args "nlms" dual abl true no_slo)
      [sim_backend "fast" (fint 10) (fint 50) (fdec 28 (-2));
       thermal 25 (fdec 3 (-2)) (fint 2)
         (sim_backend "slow" (fint 12) (fint 80) (fdec 5 (-2)))]
      (fun i => 40 + i mod 40 * 3)%Z always_small)
    [(true, "DUAL", ablation_default "full");
     (false, "SINGLE", mkAblation "no_dual" false false false false false true)].

Definition exp_N2 : list SimCase :=
  map (fun '(off, tag) =>
    mkCase ("N2_" ++ tag) (plain_args "nlms" true (ablation_default "full") off (fint 700))
      [sim_backend "a" (fint 5) (fint 80) (fdec 3 (-2));
       sim_backend "b" (fint 6) (fint 90) (fdec 3 (-2))]
      (fun i => if i mod 2 =? 0 then 40 else 200)%Z always_small)
    [(true, "admission_off"); (false, "admission_on")].

Definition exp_N3 : list SimCase :=
  map (fun '(disable, tag) =>
    mkCase ("N3_" ++ tag)
      (plain_args "nlms" true (mkAblation tag false false false disable false false) true no_slo)
      [sim_backend "small0" (fint 6) (fint 40) jitter_default;
       on_tier "large" (sim_backend "large0" (fint 20) (fint 100) jitter_default)]
      (fun i => 30 + i mod 10)%Z (fun i => if (i mod 3 =? 0)%Z then "large" else "small"))
    [(false, "tier_on"); (true, "tier_off")].

Definition n4_variants : list (string * bool * AblationFlags) :=
  let full := ablation_default "full" in
  [("nlms", true, full);
   ("nlms", true, mkAblation "no_queue" true false false false false false);
   ("nlms", true, mkAblation "no_vram" false true true false false false);
   ("nlms", true, mkAblation "no_tier" false false false true false false);
   ("nlms", false, mkAblation "no_dual" false false false false false true);
   ("rls", true, full); ("static", true, full); ("round_robin", true, full);
   ("least_loaded", true, full)].

Definition exp_N4 : list SimCase :=
  map (fun '(strategy, dual, abl) =>
    mkCase ("N4_" ++ strategy ++ "_" ++ abl_name abl)
      (suite_args strategy (dual && negb (single_timescale abl)) abl true no_slo
         (fint 15) (fint 60))
      [with_vram (fint 18000) (fint 24000)
         (sim_backend "fast" (fint 8) (fint 40) jitter_default);
       with_vram (fint 3000) (fint 24000) (thermal 30 (fdec 2 (-2)) (fdec 15 (-1))
         (sim_backend "slow" (fint 22) (fint 90) jitter_default))]
      (fun i => 50 + i mod 30 * 2)%Z always_small)
    n4_variants.

Definition exp_N5 (n_workers : nat) : list SimCase :=
  [mkCase "N5_scale" (plain_args "nlms" true (ablation_default "full") true no_slo)
     (map (fun i => sim_backend ("w" ++ str_of_Z (Z.of_nat i))
                      (fint 5 + fint (Z.of_nat i mod 5)) (fint 30 + fint (Z.of_nat i))
                      (fdec 5 (-2))) (seq 0 n_workers))
     (fun i => 20 + i mod 15)%Z always_small].

Definition exp_N2b : list SimCase :=
  [mkCase "N2b_vram_hard" (plain_args "nlms" true (ablation_default "full") false no_slo)
     [with_vram (fint 1500) (fint 8000) (sim_backend "only" (fint 5) (fint 40) jitter_default)]
     (fun i => 1200)%Z always_small].

(** The simulations of an experiment in turn, each with the draws and clocks it sees. *)
Definition run_case (rand : nat -> F) (clock : nat -> Z) (wall : F)
    (n : nat) (x : SimCase) : result SchedError (string * SimReport F) :=
  r ← simulate_load rand clock (sched_cfg (cs_args x)) sched_init
        (map (fun b => (sb_id b, b)) (cs_backends x)) n (cs_tokens x) (cs_tier x) wall;
  Ok (cs_name x, r.2).

Fixpoint run_cases (rand : nat -> nat -> F) (clock : nat -> nat -> Z)
    (wall : nat -> F) (k n : nat) (xs : list SimCase) :
    result SchedError (list (string * SimReport F)) :=
  match xs with
  | [] => Ok []
  | x :: xs' =>
    r ← run_case (rand k) (clock k) (wall k) n x;
    rs ← run_cases rand clock wall (S k) n xs';
    Ok (r :: rs)
  end.
End Experiments.
Arguments SimCase F : clear implicits.
