(* ===== verification/AbcExperiments.v ===== *)
(** The offline suite [dio-serve/scripts/run_abc_experiments.py]: hybrid cost under
    engine pressure (A), session affinity (B), admission under a poisoned estimate (C)
    and the sensitivity to the hybrid coefficients.  Like the suites of [Simulation] it
    drives the scheduler alone, one request at a time.  The generator of a seed and
    the clock are parameters; the snippets and files the script writes are not modelled. *)

From S2P Require Import Prelude PyFloat PyStats PyStr PyDict PySort Config Learner Admission.
From S2P Require Import EngineMetrics Scheduler Simulation.

Section Abc.
Context {F : Type} {PF : PyFloat F} {PS : PyStats F}.
Local Open Scope float_scope.

(** The draws of one [random.Random(seed)], by the number of the call on it, and the clock
    by the same count. *)
Record Rng : Type := mkRng {
  gauss : nat -> F -> F -> F;
  random : nat -> F;
  randint : nat -> Z -> Z -> Z;
  now_ms : nat -> Z
}.

(** ** Summaries *)

Definition fnan : F := finf - finf.

Record Spread : Type := mkSpread { sp_mean : F; sp_std : F; sp_n : Z }.

Definition mean_std (xs : list F) : Spread :=
  match xs with
  | [] => mkSpread fnan fnan 0
  | [_] => mkSpread (mean xs) f0 1
  | _ => mkSpread (mean xs) (stdev xs) (Z.of_nat (length xs))
  end.

(** [pct] here gives NaN for an empty list. *)
Definition pct_or_nan (xs : list F) (p : Z) : F := default fnan (pct xs p).

(** [n / max(1, m)]. *)
Definition fraction (n m : Z) : F := fint n / fint (Z.max 1 m).

(** ** The schedulers under test *)

Definition with_costs (use : bool) (kv queue cache prefix : F) (a : SchedCfg F) : SchedCfg F := {|
  s_strategy := s_strategy a;
  s_dual := s_dual a;
  s_ablation := s_ablation a;
  s_admission := s_admission a;
  s_recent_window := s_recent_window a;
  s_batch_size := s_batch_size a;
  s_tier_mismatch_ms := s_tier_mismatch_ms a;
  s_cache_bonus_ms := cache;
  s_vram_soft_mb := s_vram_soft_mb a;
  s_vram_hard_mb := s_vram_hard_mb a;
  s_kv_cache_cost_ms := kv;
  s_engine_queue_cost_ms := queue;
  s_engine_prefix_hit_bonus_ms := prefix;
  s_use_engine_metrics := use;
  s_mu_fast := s_mu_fast a;
  s_mu_slow := s_mu_slow a;
  s_mu_bias := s_mu_bias a;
  s_blend := s_blend a;
  s_initial_slope := s_initial_slope a;
  s_initial_intercept := s_initial_intercept a;
  s_static_slope := s_static_slope a;
  s_static_intercept := s_static_intercept a;
  s_decision_log_size := s_decision_log_size a;
  s_pred_history_size := s_pred_history_size a;
  s_affinity_cache_size := s_affinity_cache_size a;
  s_health_interval_s := s_health_interval_s a;
  s_recovery_hint_s := s_recovery_hint_s a;
  s_learner_robust := s_learner_robust a;
  s_learner_err_clip := s_learner_err_clip a;
  s_learner_step_frac := s_learner_step_frac a;
  s_learner_slope_max := s_learner_slope_max a;
  s_learner_intercept_max := s_learner_intercept_max a
|}.

Definition with_admission (mode : string) (window : Z) (a : SchedCfg F) : SchedCfg F := {|
  s_strategy := s_strategy a;
  s_dual := s_dual a;
  s_ablation := s_ablation a;
  s_admission := mkAdmissionCfg (ac_slo_ms (s_admission a)) (ac_off (s_admission a)) mode
    (ac_percentile (s_admission a));
  s_recent_window := window;
  s_batch_size := s_batch_size a;
  s_tier_mismatch_ms := s_tier_mismatch_ms a;
  s_cache_bonus_ms := s_cache_bonus_ms a;
  s_vram_soft_mb := s_vram_soft_mb a;
  s_vram_hard_mb := s_vram_hard_mb a;
  s_kv_cache_cost_ms := s_kv_cache_cost_ms a;
  s_engine_queue_cost_ms := s_engine_queue_cost_ms a;
  s_engine_prefix_hit_bonus_ms := s_engine_prefix_hit_bonus_ms a;
  s_use_engine_metrics := s_use_engine_metrics a;
  s_mu_fast := s_mu_fast a;
  s_mu_slow := s_mu_slow a;
  s_mu_bias := s_mu_bias a;
  s_blend := s_blend a;
  s_initial_slope := s_initial_slope a;
  s_initial_intercept := s_initial_intercept a;
  s_static_slope := s_static_slope a;
  s_static_intercept := s_static_intercept a;
  s_decision_log_size := s_decision_log_size a;
  s_pred_history_size := s_pred_history_size a;
  s_affinity_cache_size := s_affinity_cache_size a;
  s_health_interval_s := s_health_interval_s a;
  s_recovery_hint_s := s_recovery_hint_s a;
  s_learner_robust := s_learner_robust a;
  s_learner_err_clip := s_learner_err_clip a;
  s_learner_step_frac := s_learner_step_frac a;
  s_learner_slope_max := s_learner_slope_max a;
  s_learner_intercept_max := s_learner_intercept_max a
|}.

(** [Scheduler(strategy=...)]; the SLO is 5000 unless given. *)
Definition abc_base (strategy : string) (off : bool) (slo : F) : SchedCfg F :=
  plain_args strategy true (ablation_default "full") off slo.

Definition register_plain (c : SchedCfg F) (wid : string) (s : Sched F) : Sched F :=
  register c wid "small" (fint 24000) None s.

(** The dict given to [set_engine_metrics]. *)
Definition pressure (kv waiting prefix : F) : EngineDict F :=
  mkEngineDict true (Some kv) (Some waiting) (Some prefix).

(** ** A: hybrid cost *)

Record HybridState : Type := mkHybrid {
  hy_sched : Sched F;
  hy_lats : list F;
  hy_cool : Z;
  hy_calls : nat
}.

Definition hybrid_args (strategy : string) (hybrid : bool) : SchedCfg F :=
  with_costs hybrid (if hybrid then fint 800 else f0) (if hybrid then fint 80 else f0) f0 f0
    (abc_base strategy true (fint 5000)).

Definition hybrid_start (c : SchedCfg F) (hybrid : bool) : Sched F :=
  let s := register_plain c "hot" (register_plain c "cool" sched_init) in
  if hybrid then
    set_engine_metrics "hot" (pressure (fdec 85 (-2)) (fint 8) f0)
      (set_engine_metrics "cool" (pressure (fdec 15 (-2)) f0 f0) s)
  else s.

(** The service itself: a worker called ["hot"] is slower by 40 ms per pending request. *)
Definition hybrid_serve (g : Rng) (c : SchedCfg F) (prompt : string) (tokens : Z)
    (st : HybridState) : result SchedError HybridState :=
  match pick c prompt "small" (Some tokens) None (hy_sched st) with
  | (_, Err e) => Err e
  | (s, Ok (wid, _)) =>
    let extra := if str_eqb wid "hot" then fint 40 * fint (pending_of s wid) else f0 in
    let true_lat := fint 2 * fint tokens + fint 100 + gauss g (hy_calls st) f0 (fint 15) in
    let y := true_lat + extra in
    Ok (mkHybrid (feedback c wid y tokens true (now_ms g (hy_calls st)) s)
          (hy_lats st ++ [y]) (hy_cool st + one_if (str_eqb wid "cool"))%Z (S (hy_calls st)))
  end.

(** The scrape of the hot engine; [waiting] is the queue it reports. *)
Definition hot_scrape (g : Rng) (waiting : Z) (st : HybridState) : HybridState :=
  let kv := fdec 8 (-1) + fdec 5 (-2) * random g (hy_calls st) in
  mkHybrid (set_engine_metrics "hot" (pressure kv (fint waiting) f0) (hy_sched st))
    (hy_lats st) (hy_cool st) (S (hy_calls st)).

Definition xs20 : string := unchars (repeat "x"%char 20).

(** One request; [pending_hot] is never assigned after its initialisation. *)
Definition pending_hot : Z := 0.
Definition hybrid_request (g : Rng) (c : SchedCfg F) (hybrid : bool) (seed i : Z)
    (st : HybridState) : result SchedError HybridState :=
  let tokens := (40 + i mod 30)%Z in
  let prompt := "req-" ++ str_of_Z seed ++ "-" ++ str_of_Z i ++ " " ++ xs20 in
  let st := if hybrid && (i mod 5 =? 0)%Z then hot_scrape g (6 + pending_hot / 2) st else st in
  hybrid_serve g c prompt tokens st.

Fixpoint hybrid_loop (g : Rng) (c : SchedCfg F) (hybrid : bool) (seed : Z) (n : nat) (i : Z)
    (st : HybridState) : result SchedError HybridState :=
  match n with
  | O => Ok st
  | S n' => st ← hybrid_request g c hybrid seed i st;
            hybrid_loop g c hybrid seed n' (i + 1)%Z st
  end.

(** [simulate]: p99 and the share of the cool worker, and how far the generator is. *)
Definition simulate (g : Rng) (strategy : string) (hybrid : bool) (seed : Z) (n_req : nat)
    (calls : nat) : result SchedError (F * F * nat) :=
  let c := sched_cfg (hybrid_args strategy hybrid) in
  st ← hybrid_loop g c hybrid seed n_req 0 (mkHybrid (hybrid_start c hybrid) [] 0 calls);
  Ok (pct_or_nan (hy_lats st) 99, fraction (hy_cool st) (Z.of_nat n_req), hy_calls st).

(** One seed: the three arms share its generator. *)
Record HybridRow : Type := mkHybridRow {
  hr_hybrid : F * F;
  hr_nlms : F * F;
  hr_rr : F * F
}.

Definition hybrid_seed (g : Rng) (seed : Z) (n_req : nat) : result SchedError HybridRow :=
  h ← simulate g "nlms" true seed n_req 0;
  n ← simulate g "nlms" false seed n_req h.2;
  r ← simulate g "round_robin" false seed n_req n.2;
  Ok (mkHybridRow h.1 n.1 r.1).

(** The gain over round robin of a seed, when its p99 is positive. *)
Definition improvement (row : HybridRow) : list F :=
  let rr := (hr_rr row).1 in
  if rr >? f0 then [fint 100 * (rr - (hr_hybrid row).1) / rr] else [].

Definition run_A_hybrid (gens : Z -> Rng) (seeds n_req : nat) :
    result SchedError (list (string * Spread)) :=
  rows ← map_ok (fun k => hybrid_seed (gens (Z.of_nat k + 17)%Z) (Z.of_nat k) n_req) (seq 0 seeds);
  let col f := mean_std (map f rows) in
  Ok [("nlms_only_p99", col (fun r => (hr_nlms r).1)); ("hybrid_p99", col (fun r => (hr_hybrid r).1));
      ("rr_p99", col (fun r => (hr_rr r).1)); ("hybrid_frac_cool", col (fun r => (hr_hybrid r).2));
      ("nlms_frac_cool", col (fun r => (hr_nlms r).2)); ("rr_frac_cool", col (fun r => (hr_rr r).2));
      ("hybrid_p99_vs_rr_pct", mean_std (flat_map improvement rows))].

(** ** B: session affinity *)

Record AffinityState : Type := mkAffinity {
  af_sched : Sched F;
  af_home : list (Z * string);
  af_last : list (Z * string);
  af_sticky : Z;
  af_hits : Z;
  af_turns : Z;
  af_lats : list F;
  af_calls : nat
}.

Definition affinity_args (strategy : string) (use : bool) : SchedCfg F :=
  with_costs true f0 f0 (if use then fint 400 else f0) (if use then fint 100 else f0)
    (abc_base strategy true (fint 5000)).

(** [s.predictors[wid].fast_slope = ...], and [slow_slope]. *)
Definition set_slopes (slope : F) (l : Learner F) : Learner F :=
  let f := l_fit l in
  mkLearner (l_params l)
    (mkFit slope slope (intercept f) (avg_latency f) (update_count f) (sum_abs f) (sum_rel f)
       (sum_sq f) (clipped_updates f) (clip_streak f) (contended_updates f) (recent f))
    (pending l) (inflight_log l) (free_vram_mb l) (healthy l).

Definition affinity_start (c : SchedCfg F) (calls : nat) : AffinityState :=
  let s := register_plain c "e1" (register_plain c "e0" sched_init) in
  let s := alter_pred (set_slopes (fdec 22 (-1))) "e1" (alter_pred (set_slopes (fint 2)) "e0" s) in
  mkAffinity s [] [] 0 0 0 [] calls.

(** The text every turn of a session begins with. *)
Definition str_repeat (n : nat) (s : string) : string := join "" (repeat s n).
Definition session_prefix (sess : Z) : string :=
  "SYSTEM: you are agent-" ++ str_of_Z sess ++ " " ++ str_repeat 30 "CONTEXT ".
Definition turn_prompt (sess t question : Z) : string :=
  session_prefix sess ++ String (chr 10) "" ++ "user turn " ++ str_of_Z t ++ ": question "
    ++ str_of_Z question.

(** The synthetic scrape before a turn: the last worker of the session reports more hits. *)
Definition session_scrape (last : option string) (wid : string) (s : Sched F) : Sched F :=
  let hit := if bool_decide (last = Some wid) then fdec 7 (-1) else fdec 1 (-1) in
  set_engine_metrics wid (pressure (fdec 3 (-1)) f0 hit) s.

Definition affinity_turn (g : Rng) (c : SchedCfg F) (sess t : Z) (st : AffinityState) :
    result SchedError AffinityState :=
  let prompt := turn_prompt sess t (randint g (af_calls st) 0 999) in
  let tokens := (50 + t * 5)%Z in
  let last := dget sess (af_last st) in
  let s := session_scrape last "e1" (session_scrape last "e0" (af_sched st)) in
  match pick c prompt "small" (Some tokens) None s with
  | (_, Err e) => Err e
  | (s, Ok (wid, dec)) =>
    let home := dsetdefault sess wid (af_home st) in
    let at_home := bool_decide (dget sess home = Some wid) in
    let base := fint 2 * fint tokens + fint 80 in
    let noise := gauss g (S (af_calls st)) f0 (fint 8) in
    let y := if d_affinity_hit dec || ((0 <? t)%Z && at_home) then base * fdec 7 (-1) + noise
             else base + noise in
    Ok (mkAffinity (feedback c wid y tokens true (now_ms g (af_calls st)) s) home
          (dset sess wid (af_last st)) (af_sticky st + one_if at_home)%Z
          (af_hits st + one_if (bool_decide (last = Some wid)))%Z (af_turns st + 1)%Z
          (af_lats st ++ [py_max f1 y]) (S (S (af_calls st))))
  end.

Fixpoint affinity_session (g : Rng) (c : SchedCfg F) (sess : Z) (n : nat) (t : Z)
    (st : AffinityState) : result SchedError AffinityState :=
  match n with
  | O => Ok st
  | S n' => st ← affinity_turn g c sess t st; affinity_session g c sess n' (t + 1)%Z st
  end.

Fixpoint affinity_sessions (g : Rng) (c : SchedCfg F) (turns n : nat) (sess : Z)
    (st : AffinityState) : result SchedError AffinityState :=
  match n with
  | O => Ok st
  | S n' => st ← affinity_session g c sess turns 0 st;
            affinity_sessions g c turns n' (sess + 1)%Z st
  end.

(** [run_mode]: the reported hit rate, the stickiness, the repeats among the turns that
    have a predecessor, and the p99. *)
Record AffinityReport : Type := mkAffReport {
  ar_hit_rate : F;
  ar_stickiness : F;
  ar_proxy_hit : F;
  ar_p99 : F
}.

Definition run_mode (g : Rng) (use : bool) (strategy : string) (n_sessions turns : nat)
    (calls : nat) : result SchedError (AffinityReport * nat) :=
  let c := sched_cfg (affinity_args strategy use) in
  st ← affinity_sessions g c turns n_sessions 0 (affinity_start c calls);
  Ok (mkAffReport (if use then m_aff_hit_rate (metrics c (af_sched st)) else f0)
        (fraction (af_sticky st) (af_turns st))
        (fraction (af_hits st) (af_turns st - Z.of_nat n_sessions))
        (pct_or_nan (af_lats st) 99), af_calls st).

Definition affinity_seed (g : Rng) (n_sessions turns : nat) :
    result SchedError (AffinityReport * AffinityReport) :=
  a ← run_mode g true "nlms" n_sessions turns 0;
  r ← run_mode g false "round_robin" n_sessions turns a.2;
  Ok (a.1, r.1).

Definition run_B_affinity (gens : Z -> Rng) (seeds n_sessions turns : nat) :
    result SchedError (list (string * Spread)) :=
  rows ← map_ok (fun k => affinity_seed (gens (Z.of_nat k + 99)%Z) n_sessions turns) (seq 0 seeds);
  let col f := mean_std (map f rows) in
  Ok [("nlms_affinity_hit_rate", col (fun r => ar_hit_rate r.1));
      ("nlms_session_stickiness", col (fun r => ar_stickiness r.1));
      ("nlms_p99", col (fun r => ar_p99 r.1)); ("rr_proxy_hit_rate", col (fun r => ar_proxy_hit r.2));
      ("rr_session_stickiness", col (fun r => ar_stickiness r.2));
      ("rr_p99", col (fun r => ar_p99 r.2))].

(** ** C: admission under a poisoned estimate *)

Record AdmissionState : Type := mkAdmState {
  ad_sched : Sched F;
  ad_admitted : Z;
  ad_rejected : Z;
  ad_under : Z;
  ad_calls : nat
}.

Definition admission_args (mode : string) : SchedCfg F :=
  with_admission mode 32 (abc_base "nlms" false (fint 500)).

Definition poison (l : Learner F) : Learner F :=
  let f := l_fit l in
  mkLearner (l_params l)
    (mkFit (fint 40) (fint 40) (fint 800) (avg_latency f) (update_count f) (sum_abs f) (sum_rel f)
       (sum_sq f) (clipped_updates f) (clip_streak f) (contended_updates f) (recent f))
    (pending l) (inflight_log l) (free_vram_mb l) (healthy l).

Definition admission_start (c : SchedCfg F) : Sched F :=
  alter_pred poison "w0" (register_plain c "w0" sched_init).

(** One request; the draw is made before the pick. *)
Definition admission_request (g : Rng) (c : SchedCfg F) (i : Z) (st : AdmissionState) :
    result SchedError AdmissionState :=
  let tokens := (20 + i mod 10)%Z in
  let k := ad_calls st in
  let true_y := fint 120 + fdec 15 (-1) * fint tokens + fabs (gauss g k f0 (fint 20)) in
  match pick c ("prompt " ++ str_of_Z i) "small" (Some tokens) None (ad_sched st) with
  | (s, Ok (wid, _)) =>
    Ok (mkAdmState (feedback c wid true_y tokens true (now_ms g k) s) (ad_admitted st + 1)%Z
          (ad_rejected st) (ad_under st + one_if (true_y <=? fint 500)%fl)%Z (S k))
  | (s, Err (AdmissionError _ _)) =>
    Ok (mkAdmState s (ad_admitted st) (ad_rejected st + 1)%Z (ad_under st) (S k))
  | (_, Err e) => Err e
  end.

Fixpoint admission_loop (g : Rng) (c : SchedCfg F) (n : nat) (i : Z) (st : AdmissionState) :
    result SchedError AdmissionState :=
  match n with
  | O => Ok st
  | S n' => st ← admission_request g c i st; admission_loop g c n' (i + 1)%Z st
  end.

Record AdmissionRow : Type := mkAdmRow {
  dr_reject_rate : F;
  dr_completed : F;
  dr_goodput : F;
  dr_disagree : F
}.

Definition admission_mode_run (g : Rng) (mode : string) (n_req : nat) (calls : nat) :
    result SchedError (AdmissionState * AdmissionRow) :=
  let c := sched_cfg (admission_args mode) in
  st ← admission_loop g c n_req 0 (mkAdmState (admission_start c) 0 0 0 calls);
  Ok (st, mkAdmRow (fraction (ad_rejected st) (ad_admitted st + ad_rejected st))
            (fint (ad_admitted st))
            (if (ad_admitted st =? 0)%Z then f0 else fraction (ad_under st) (ad_admitted st))
            (fint (absolute_vs_active_disagree (admission (ad_sched st))))).

Definition admission_modes : list string := ["absolute"; "empirical"; "rank_only"].

(** The three modes of one seed, in turn on its generator. *)
Fixpoint admission_seed (g : Rng) (modes : list string) (n_req : nat) (calls : nat) :
    result SchedError (list (string * AdmissionRow)) :=
  match modes with
  | [] => Ok []
  | m :: modes' =>
    r ← admission_mode_run g m n_req calls;
    rs ← admission_seed g modes' n_req (ad_calls r.1);
    Ok ((m, r.2) :: rs)
  end.

(** For each mode the spread of each figure over the seeds. *)
Definition run_C_admission (gens : Z -> Rng) (seeds n_req : nat) :
    result SchedError (list (string * list (string * Spread))) :=
  rows ← map_ok (fun k => admission_seed (gens (Z.of_nat k + 3)%Z) admission_modes n_req 0)
           (seq 0 seeds);
  let col m f := mean_std (omap (fun row => f <$> dget m row) rows) in
  Ok (map (fun m => (m, [("reject_rate", col m dr_reject_rate); ("goodput", col m dr_goodput);
                         ("completed", col m dr_completed); ("abs_disagree", col m dr_disagree)]))
        admission_modes).

(** ** Sensitivity to the hybrid coefficients *)

Definition sensitivity_variants : list (string * (F * F * F)) :=
  ("default", (f1, f1, f1)) ::
  flat_map (fun key => map (fun '(scale, tag) =>
      let s k := if str_eqb k key then scale else f1 in
      (key ++ "_" ++ tag, (s "kv", s "q", s "p")))
    [(fdec 5 (-1), "m50"); (fdec 15 (-1), "p50")]) ["kv"; "q"; "p"].

Definition sensitivity_args (scales : F * F * F) : SchedCfg F :=
  let '(sk, sq, sp) := scales in
  with_costs true (fint 800 * sk) (fint 50 * sq) f0 (fint 150 * sp)
    (abc_base "nlms" true (fint 5000)).

(** Here both engines are scraped, and the queue the hot one reports follows [pending]. *)
Definition sensitivity_request (g : Rng) (c : SchedCfg F) (seed i : Z) (st : HybridState) :
    result SchedError HybridState :=
  let tokens := (40 + i mod 30)%Z in
  let prompt := "sens-" ++ str_of_Z seed ++ "-" ++ str_of_Z i ++ " " ++ xs20 in
  let st :=
    if (i mod 5 =? 0)%Z then
      let s := set_engine_metrics "cool" (pressure (fdec 15 (-2)) f0 f0) (hy_sched st) in
      hot_scrape g (6 + pending_of s "hot" / 2) (mkHybrid s (hy_lats st) (hy_cool st) (hy_calls st))
    else st in
  hybrid_serve g c prompt tokens st.

Fixpoint sensitivity_loop (g : Rng) (c : SchedCfg F) (seed : Z) (n : nat) (i : Z)
    (st : HybridState) : result SchedError HybridState :=
  match n with
  | O => Ok st
  | S n' => st ← sensitivity_request g c seed i st; sensitivity_loop g c seed n' (i + 1)%Z st
  end.

Definition sensitivity_seed (g : Rng) (scales : F * F * F) (seed : Z) (n_req : nat) :
    result SchedError (F * F) :=
  let c := sched_cfg (sensitivity_args scales) in
  let s := register_plain c "hot" (register_plain c "cool" sched_init) in
  st ← sensitivity_loop g c seed n_req 0 (mkHybrid s [] 0 0);
  Ok (pct_or_nan (hy_lats st) 99, fraction (hy_cool st) (Z.of_nat n_req)).

(** A variant with its p99, its share of the cool worker and its scales. *)
Definition Variant : Type := string * (Spread * Spread * (F * F * F)).

Definition sensitivity_variant (gens : Z -> Rng) (seeds n_req : nat)
    (v : string * (F * F * F)) : result SchedError Variant :=
  rows ← map_ok (fun k => sensitivity_seed (gens (Z.of_nat k + 41)%Z) v.2 (Z.of_nat k) n_req)
           (seq 0 seeds);
  Ok (v.1, (mean_std (map fst rows), mean_std (map snd rows), v.2)).

(** The relative change of the p99 against the default variant, where that is positive. *)
Definition p99_of (v : Variant) : F := sp_mean (v.2.1.1).
Definition swings (vs : list Variant) : list F :=
  match vs with
  | [] => []
  | d :: others =>
    if p99_of d >? f0 then
      map (fun v => fint 100 * fabs (p99_of v - p99_of d) / p99_of d) others
    else []
  end.

Definition list_max (xs : list F) : F :=
  match xs with [] => f0 | x :: xs' => foldl py_max x xs' end.

Definition run_hybrid_coeff_sensitivity (gens : Z -> Rng) (seeds n_req : nat) :
    result SchedError (list Variant * F * F) :=
  vs ← map_ok (sensitivity_variant gens seeds n_req) sensitivity_variants;
  let sw := swings vs in
  Ok (vs, list_max sw, match sw with [] => f0 | _ => mean sw end).

(** ** The sizes of a run *)

Record AbcArgs : Type := mkAbcArgs {
  abc_seeds : nat;
  abc_n_req : nat;
  abc_sessions : nat;
  abc_turns : nat
}.

Definition abc_defaults : AbcArgs := mkAbcArgs 10 120 20 5.
Definition abc_quick (quick : bool) (a : AbcArgs) : AbcArgs :=
  if quick then mkAbcArgs 3 40 8 3 else a.

(** [main]: the four experiments in turn. *)
Definition run_abc (gens : Z -> Rng) (a : AbcArgs) :
    result SchedError (list (string * Spread) * list (string * Spread) *
                       list (string * list (string * Spread)) * (list Variant * F * F)) :=
  A ← run_A_hybrid gens (abc_seeds a) (abc_n_req a);
  B ← run_B_affinity gens (abc_seeds a) (abc_sessions a) (abc_turns a);
  C ← run_C_admission gens (abc_seeds a) (abc_n_req a);
  S ← run_hybrid_coeff_sensitivity gens (abc_seeds a) (abc_n_req a);
  Ok (A, B, C, S).
End Abc.
Arguments Rng F : clear implicits.
Arguments AffinityState F : clear implicits.
