(* ===== verification/LearnerProps.v ===== *)
(** Properties of the latency learners: bounds that hold for every float, the
    transparency of the robust guard, and what the updates compute exactly. *)

From Stdlib Require Import Reals Lra.
From S2P Require Import Prelude PyFloat PyReal PySort PyStr Learner LearnerFacts LearnerExact.
From S2P Require Import Rls.

(** ** Any history of samples *)

Section Histories.
Context {F : Type} {PF : PyFloat F} {PL : PyFloatLaws F}.

(** Actual latency, tokens, in-flight depth. *)
Definition sample : Type := F * Z * Z.

Definition learn_all (l : Learner F) (h : list sample) : Learner F :=
  foldl (fun l '(y, t, i) => (update l y t i).1) l h.

(** No sample was admitted behind another request. *)
Definition uncontended (h : list sample) : bool := forallb (fun '(_, _, i) => i <=? 1) h.

Definition with_params (p : LParams F) (l : Learner F) : Learner F :=
  mkLearner p (l_fit l) (pending l) (inflight_log l) (free_vram_mb l) (healthy l).

(** C9. For every history of samples, NaN and infinities included, the slopes
    and the intercept of an unfrozen learner are numbers between 0.1 and their
    caps, and its counters are consistent: clipped <= contended <= all, a
    streak no longer than the clips, a window of at most 32. *)
Theorem learner_stays_bounded l h :
  lparams_ok (l_params l) -> p_frozen (l_params l) = false ->
  fit_in_range (l_params l) (l_fit l) -> fit_counters_ok (l_fit l) ->
  l_params (learn_all l h) = l_params l /\
  fit_in_range (l_params l) (l_fit (learn_all l h)) /\
  fit_counters_ok (l_fit (learn_all l h)).
Proof.
  intros Hp Hz. revert l Hp Hz. induction h as [|[[y t] i] h IH]; intros l Hp Hz Hr Hc; [done|].
  simpl. pose proof (update_params l y t i) as Ep. pose proof (update_l_fit l y t i) as Ef.
  specialize (IH (update l y t i).1). rewrite Ep, Ef in IH. apply IH; try done.
  - by apply update_fit_range.
  - by apply update_fit_counters.
Qed.

(** A frozen (static) learner never moves: whatever the samples, its
    prediction for every request size stays the one it was configured with. *)
Theorem frozen_learner_constant l h tokens :
  p_frozen (l_params l) = true ->
  (estimate (learn_all l h) tokens).1 = (estimate l tokens).1.
Proof.
  revert l; induction h as [|[[y t] i] h IH]; intros l Hz; [done|].
  change (learn_all l ((y, t, i) :: h)) with (learn_all (update l y t i).1 h).
  rewrite IH by (by rewrite update_params). unfold estimate, predict, effective_slope. simpl.
  rewrite update_params, update_l_fit.
  by destruct (update_fit_frozen (l_params l) (l_fit l) y t i Hz) as (-> & -> & -> & _).
Qed.

(** The robust guard does not slow adaptation down: on any history of
    uncontended samples the guarded learner goes through exactly the same
    fits as the learner without the guard. *)
Theorem guard_transparent_when_uncontended l h :
  uncontended h = true ->
  l_fit (learn_all l h) = l_fit (learn_all (with_params (unguarded (l_params l)) l) h).
Proof.
  intros Hh. set (l' := with_params _ l).
  assert (H : forall l l', l_params l' = unguarded (l_params l) -> l_fit l = l_fit l' ->
            l_fit (learn_all l h) = l_fit (learn_all l' h)); [|by apply H].
  clear l l'. induction h as [|[[y t] i] h IH]; intros l l' Hp Hf; [done|].
  simpl in Hh. bool_hyps. simpl. apply IH; [done| |].
  - by rewrite !update_params.
  - rewrite !update_l_fit, Hp, <- Hf. by rewrite update_fit_unguarded by lia.
Qed.
End Histories.

(** ** Exact arithmetic *)

Local Open Scope R_scope.

(** C11. In exact arithmetic, [n] equal uncontended samples shrink the prediction
    error by the factor [(1 - g)^n], with
    [g = blend * mu_fast + (1 - blend) * mu_slow + mu_bias], as long as the
    bounds do not bind on the way. *)
Theorem uncontended_convergence q rb f s1 s2 b y t i n :
  let g := gain q in
  let err := y - rpred q s1 s2 b t in
  fit_is f s1 s2 b -> (1 <= t)%Z -> is_trusted (lift_params q rb) i = true -> 0 < g < 1 ->
  inside (1 / 10) (r_slope_max q) s1 -> inside (1 / 10) (r_slope_max q) s2 ->
  inside (1 / 10) (r_intercept_max q) b ->
  inside (1 / 10) (r_slope_max q) (s1 + r_mu_fast q * (err / IZR t) * / g) ->
  inside (1 / 10) (r_slope_max q) (s2 + r_mu_slow q * (err / IZR t) * / g) ->
  inside (1 / 10) (r_intercept_max q) (b + r_mu_bias q * err * / g) ->
  predict (lift_params q rb) (feed (lift_params q rb) f y t i n) t
  = XR (y - (1 - g) ^ n * err).
Proof.
  intros g err Hf Ht Htr Hg H1 H2 H3 E1 E2 E3.
  pose proof (feed_closed_form q rb f s1 s2 b y t i n Hf Ht Htr Hg H1 H2 H3 E1 E2 E3) as Hn.
  unfold predict. rewrite Z.max_r by lia. rewrite (predict_lift _ _ _ _ _ _ _ Hn Ht).
  f_equal. by apply feed_pred.
Qed.

(** C12. In exact arithmetic, one contended sample, however large, moves the
    prediction for its request size by at most the trust region
    [tokens * max(step_frac * widen * prediction / tokens, 1e-9)] plus the bias
    step of the clipped error. *)
Theorem contended_sample_limited q f s1 s2 b y t i sc :
  let pred := rpred q s1 s2 b t in
  let w := IZR (2 ^ Z.min (clip_streak f) 6) in
  fit_is f s1 s2 b -> (1 <= t)%Z -> is_trusted (lift_params q true) i = false ->
  0 <= r_blend q <= 1 -> 0 <= r_mu_bias q ->
  1 / 10 <= s1 <= r_slope_max q -> 1 / 10 <= s2 <= r_slope_max q ->
  1 / 10 <= b <= r_intercept_max q ->
  robust_scale f (XR pred) = XR sc -> 0 <= r_err_clip q * sc ->
  exists pred', predict (lift_params q true) (update_fit (lift_params q true) f (XR y) t i).1 t
    = XR pred' /\
  Rabs (pred' - pred) <= IZR t * rcap q w pred t + r_mu_bias q * (r_err_clip q * sc * w).
Proof.
  intros pred w Hf Ht Htr Hb Hm I1 I2 I3 Hs Hc.
  destruct (contended_step q f s1 s2 b y t i sc Hf Ht Htr Hb Hm I1 I2 I3 Hs Hc)
    as (s1' & s2' & b' & Hf' & Hle).
  exists (rpred q s1' s2' b' t). split; [|exact Hle].
  unfold predict. rewrite Z.max_r by lia. by apply predict_lift.
Qed.

(** C29. In exact arithmetic, while the floors at 0.1 do not bind, the RLS
    baseline is recursive least squares: its matrix stays the inverse of the
    discounted information matrix, and the new estimate solves the discounted
    normal equations. *)
Theorem rls_solves_normal_equations r lam s b A y t :
  let x := IZR (Z.max 1 t) in
  let A' := info_add lam A x in
  rls_is r lam s b A -> info_pd A -> 1 / 1000000000 <= lam ->
  1 / 10 <= (rls_next lam s b A x y).1 -> 1 / 10 <= (rls_next lam s b A x y).2 ->
  exists s' b',
    rls_is (rls_update r (XR y) t) lam s' b' A' /\ info_pd A' /\
    i_a A' * s' + i_b A' * b' = lam * (i_a A * s + i_b A * b) + x * y /\
    i_b A' * s' + i_c A' * b' = lam * (i_b A * s + i_c A * b) + y.
Proof.
  intros x A' Hr Hpd Hl H1 H2. assert (Hl0 : 0 < lam) by lra.
  pose proof (rls_update_exact r lam s b A y t) as Hu. fold x in Hu. cbv zeta in Hu.
  pose proof (rls_next_normal lam s b A x y Hl0 Hpd) as Hn. cbv zeta in Hn.
  destruct (rls_next lam s b A x y) as [s' b']. exists s', b'.
  split_and!; [by apply Hu|by apply info_add_pd|apply Hn|apply Hn].
Qed.

(** ** Witnesses *)

Local Open Scope Z_scope.

(** Six samples on binary64, a NaN and an infinite one among them. *)
Definition rough_history : list (float * Z * Z) :=
  [(fint 1000, 100, 1); (SpecFloat.S754_nan, 50, 4); (fint 1, 1, 9);
   (SpecFloat.S754_infinity false, 2000, 3); (fint (-5), 0, 2); (fint 90000, 7, 1)].

Definition static_default : Learner float :=
  nlms_init (fdec 1 (-1)) (fdec 1 (-2)) (fdec 5 (-3)) (fdec 8 (-1)) (fint 1) (fint 50)
    true true "small" (fint 24000) true (fint 2) (fdec 5 (-2)) (fint 200) (fdec 1 6).

Lemma learner_stays_bounded_witness :
  fit_in_range (l_params nlms_default) (l_fit (learn_all nlms_default rough_history)).
Proof.
  apply (learner_stays_bounded nlms_default rough_history).
  - split; vm_compute; reflexivity.
  - reflexivity.
  - split_and!; vm_compute; reflexivity.
  - apply nlms_init_counters.
Defined.

Lemma frozen_learner_constant_witness :
  (estimate (learn_all static_default rough_history) 100).1 = (estimate static_default 100).1.
Proof. exact (frozen_learner_constant static_default rough_history 100 eq_refl). Defined.

Lemma guard_transparent_when_uncontended_witness :
  l_fit (learn_all nlms_default [(fint 1000, 100, 1); (fint 40000, 10, 0)])
  = l_fit (learn_all (with_params (unguarded (l_params nlms_default)) nlms_default)
             [(fint 1000, 100, 1); (fint 40000, 10, 0)]).
Proof. exact (guard_transparent_when_uncontended _ [(_, _, 1); (_, _, 0)] eq_refl). Defined.

Local Open Scope R_scope.

Definition exact_fit : Fit xreal :=
  mkFit (XR 2) (XR 2) (XR 150) (XR 0) 0 (XR 0) (XR 0) (XR 0) 0 0 0 [].

Lemma uncontended_convergence_witness :
  predict (lift_params default_rparams true)
    (feed (lift_params default_rparams true) exact_fit 400 100 1 20) 100
  = XR (400 - (1 - gain default_rparams) ^ 20 * (400 - rpred default_rparams 2 2 150 100)).
Proof.
  apply (uncontended_convergence default_rparams true exact_fit 2 2 150 400 100 1 20);
    unfold inside, gain, rpred, default_rparams, fit_is; simpl; try done; try lia;
    try (split_and!; done); try lra;
    (split; apply Rlt_0_minus; field_simplify; lra).
Defined.

Lemma contended_sample_limited_witness :
  exists pred', predict (lift_params default_rparams true)
      (update_fit (lift_params default_rparams true) exact_fit (XR 100000) 100 5).1 100 = XR pred' /\
    Rabs (pred' - 350) <= 100 * Rmax (5 / 100 * 1 * 350 / 100) (1 / 1000000000)
                          + 5 / 1000 * (2 * 350 * 1).
Proof.
  assert (Ep : rpred default_rparams 2 2 150 100 = 350) by (unfold rpred; simpl; lra).
  destruct (contended_sample_limited default_rparams exact_fit 2 2 150 100000 100 5 350)
    as (p' & H1 & H2); try (unfold fit_is; simpl; split_and!; done); try done; try lia;
    try (simpl; lra).
  - rewrite Ep. unfold robust_scale, exact_fit; simpl recent. simpl Z.leb. cbv iota.
    change (f1 : xreal) with (XR 1). rewrite py_max_XR. f_equal. apply Rmax_left. lra.
  - exists p'. split; [exact H1|]. rewrite Ep in H2. exact H2.
Defined.

(** The source means the trust region to bound the move by itself (5 % of 350 ms is 17.5 ms);
    the step of the intercept comes on top: one contended sample moves the prior of the
    defaults, on binary64, by more. *)
Lemma contended_step_exceeds_trust_region :
  let before := (estimate nlms_default 100).1 in
  let after := (estimate (update nlms_default (fint 100000) 100 5).1 100).1 in
  before = fint 350 /\ flt (fmul (fdec 5 (-2)) before) (fsub after before) = true.
Proof. vm_compute. done. Qed.

(** The prior [P = 1000 I] is the inverse of [I / 1000]. *)
Lemma rls_solves_normal_equations_witness :
  exists s' b',
    rls_is (rls_update (rls_init (XR (99 / 100)) (XR 2) (XR 150)) (XR 400) 100)
      (99 / 100) s' b' (info_add (99 / 100) (mkInfo (1 / 1000) 0 (1 / 1000)) 100) /\
    (99 / 100 * (1 / 1000) + 100 * 100) * s' + (99 / 100 * 0 + 100) * b'
      = 99 / 100 * (1 / 1000 * 2 + 0 * 150) + 100 * 400.
Proof.
  destruct (rls_solves_normal_equations (rls_init (XR (99 / 100)) (XR 2) (XR 150)) (99 / 100)
    2 150 (mkInfo (1 / 1000) 0 (1 / 1000)) 400 100) as (s' & b' & H1 & _ & H2 & _).
  - unfold rls_is, rls_init, info_det; simpl.
    split_and!; try done; f_equal; field.
  - unfold info_pd, info_det; simpl; lra.
  - lra.
  - change (IZR (Z.max 1 100)) with 100. unfold rls_next, rls_denom, info_det; simpl.
    field_simplify. lra.
  - change (IZR (Z.max 1 100)) with 100. unfold rls_next, rls_denom, info_det; simpl.
    field_simplify. lra.
  - exists s', b'. split; [exact H1|exact H2].
Defined.
