(* ===== verification/CostExact.v ===== *)
(** The joint cost and the percentile in exact arithmetic, and how the admission
    modes compare. *)

From Stdlib Require Import Reals Lra.
From S2P Require Import Prelude PyFloat PyReal PyDict PySort PyStr Config Learner.
From S2P Require Import Rls Admission EngineMetrics Scheduler Setup.
Local Open Scope R_scope.

(** A finite, non-negative value. *)
Definition nn (x : xreal) : Prop := exists r, x = XR r /\ 0 <= r.

Lemma nn_if (b : bool) x y : nn x -> nn y -> nn (if b then x else y).
Proof. by destruct b. Qed.

Lemma nn_XR r : 0 <= r -> nn (XR r).
Proof. by exists r. Qed.

Lemma nn_zero : nn f0.
Proof. apply nn_XR. lra. Qed.

Lemma nn_mul x y : nn x -> nn y -> nn (fmul x y).
Proof.
  intros (a & -> & Ha) (b & -> & Hb). exists (a * b). split; [done|].
  by apply Rmult_le_pos.
Qed.

Lemma nn_div_pos x b : nn x -> 0 < b -> nn (fdiv x (XR b)).
Proof.
  intros (a & -> & Ha) Hb. rewrite fdiv_XR by lra. exists (a / b). split; [done|].
  apply Rmult_le_pos; [done|]. left. by apply Rinv_0_lt_compat.
Qed.

Lemma nn_fint z : (0 <= z)%Z -> nn (fint z).
Proof. intros H. apply nn_XR. by apply IZR_le. Qed.

(** The configuration and the engine report of a cost evaluation are finite and
    non-negative, and the batch size is positive. *)
Record cost_inputs_ok (c : SchedCfg xreal) (eng : EngineDict xreal) : Prop := mkCostInputs {
  ci_batch : exists r, s_batch_size c = XR r /\ 0 < r;
  ci_tier : nn (s_tier_mismatch_ms c);
  ci_cache : nn (s_cache_bonus_ms c);
  ci_kv_w : nn (s_kv_cache_cost_ms c);
  ci_q_w : nn (s_engine_queue_cost_ms c);
  ci_pref_w : nn (s_engine_prefix_hit_bonus_ms c);
  ci_kv : nn (entry (ed_kv eng));
  ci_q : nn (entry (ed_waiting eng));
  ci_pref : nn (entry (ed_prefix_rate eng))
}.

(** The worker's VRAM figures are real, and no more is free than there is. *)
Definition vram_ok (pred : Learner xreal) : Prop :=
  exists free total, free_vram_mb pred = XR free /\ p_total_vram_mb (l_params pred) = XR total /\
    free <= total.

Lemma vram_cost_nn (b : bool) c pred :
  vram_ok pred ->
  nn (if b && (f0 <? p_total_vram_mb (l_params pred))%fl &&
         (free_vram_mb pred <? s_vram_soft_mb c)%fl
      then ((f1 - free_vram_mb pred / p_total_vram_mb (l_params pred)) * fint 1000)%fl
      else f0).
Proof.
  intros (free & total & -> & -> & Hle). destruct b; [|apply nn_zero]. rewrite andb_true_l.
  destruct (f0 <? XR total)%fl eqn:E; [|apply nn_zero].
  apply rlt_true in E. apply nn_if; [|apply nn_zero].
  apply nn_mul; [|apply nn_fint; lia]. rewrite fdiv_XR by lra.
  change (f1 - XR (free / total))%fl with (XR (1 + - (free / total))). apply nn_XR.
  assert (free / total <= 1); [|lra].
  apply (Rmult_le_reg_r total); [done|]. unfold Rdiv. rewrite Rmult_assoc, Rinv_l by lra. lra.
Qed.

(** Scaling both bonuses by the same factor applies exactly the smaller of the
    requested bonus and the allowance. *)
Lemma bonus_clamp cb pb allowed :
  0 <= cb -> 0 <= pb -> 0 <= allowed ->
  let raw := cb + pb in
  exists k,
    (if ((XR raw <=? f0) || (XR raw <=? XR allowed))%fl then f1 else XR allowed / XR raw)%fl = XR k
    /\ cb * k + pb * k = Rmin raw allowed /\ 0 <= cb * k /\ 0 <= pb * k.
Proof.
  intros H1 H2 H3 raw. destruct (Rle_dec raw allowed) as [Hle|Hgt].
  - exists 1. rewrite Rmin_left by done. split_and!; try (unfold raw; lra).
    rewrite (fle_XR raw allowed), (proj2 (rle_true _ _) Hle). by rewrite orb_true_r.
  - assert (0 < raw) by lra. exists (allowed / raw).
    assert (Hk : 0 <= allowed / raw)
      by (apply Rmult_le_pos; [done|left; by apply Rinv_0_lt_compat]).
    rewrite Rmin_right by lra. split_and!.
    + change (f0 : xreal) with (XR 0). rewrite !fle_XR.
      rewrite (proj2 (rle_false raw 0)), (proj2 (rle_false raw allowed)) by lra.
      apply fdiv_XR. lra.
    + unfold raw. field. unfold raw in *. lra.
    + by apply Rmult_le_pos.
    + by apply Rmult_le_pos.
Qed.

(** The last terms of the cost as functions of the first ones. *)
Lemma score_terms_bonus {F} {PF : PyFloat F} (c : SchedCfg F) s wid pred eng tokens tier key ex av :
  let d := (score_terms c s wid pred eng tokens tier key ex av).2 in
  let cb := if negb (disable_cache (s_ablation c)) &&
               bool_decide (dget key (prefix_cache s) = Some wid)
            then s_cache_bonus_ms c else f0 in
  let pb := if s_use_engine_metrics c && ed_ok eng
            then (entry (ed_prefix_rate eng) * s_engine_prefix_hit_bonus_ms c)%fl else f0 in
  let raw := (cb + pb)%fl in
  let allowed := py_max f0 (d_wait_ms d + ex)%fl in
  let k := if ((raw <=? f0) || (raw <=? allowed))%fl then f1 else (allowed / raw)%fl in
  d_exec_ms d = ex /\
  d_cache_bonus_ms d = (cb * k + pb * k)%fl /\
  d_bonus_clamped_ms d = (raw - (cb * k + pb * k))%fl /\
  d_total_ms d = py_max f0 (d_wait_ms d + ex + d_tier_cost_ms d + d_vram_cost_ms d
    + d_engine_kv_cost_ms d + d_engine_queue_cost_ms d - cb * k - pb * k)%fl.
Proof. done. Qed.

(** C10. The reported breakdown adds up: in exact arithmetic, with non-negative
    inputs and no more VRAM free than installed, every term is non-negative, the
    applied bonus is the smaller of the requested bonus and the predicted wait
    plus execution time, and the total is the sum of the terms minus the bonus
    (the floor at zero never binds). *)
Theorem score_breakdown c s wid pred eng tokens tier key ex av :
  cost_inputs_ok c eng -> vram_ok pred -> (0 <= pending pred)%Z -> nn ex -> nn av ->
  let d := (score_terms c s wid pred eng tokens tier key ex av).2 in
  exists w x t v k q raw,
    let b := Rmin raw (w + x) in
    d_wait_ms d = XR w /\ d_exec_ms d = XR x /\ d_tier_cost_ms d = XR t /\
    d_vram_cost_ms d = XR v /\ d_engine_kv_cost_ms d = XR k /\
    d_engine_queue_cost_ms d = XR q /\ d_cache_bonus_ms d = XR b /\
    d_bonus_clamped_ms d = XR (raw - b) /\
    d_total_ms d = XR (w + x + t + v + k + q - b) /\
    0 <= w /\ 0 <= x /\ 0 <= t /\ 0 <= v /\ 0 <= k /\ 0 <= q /\ 0 <= b <= w + x.
Proof.
  intros [Hb Ht Hc Hkw Hqw Hpw Hkv Hq Hp] Hv Hpend Hex Hav d.
  destruct Hb as (batch & Eb & Hbatch).
  assert (Nw : nn (d_wait_ms d)).
  { unfold d, score_terms. cbn [snd d_wait_ms]. rewrite Eb. apply nn_if; [apply nn_zero|].
    apply nn_mul; [|by apply nn_if].
    apply nn_div_pos; [by apply nn_fint|done]. }
  assert (Nt : nn (d_tier_cost_ms d)) by (apply nn_if; [done|apply nn_zero]).
  assert (Nv : nn (d_vram_cost_ms d)) by (by apply vram_cost_nn).
  assert (Nk : nn (d_engine_kv_cost_ms d)) by (apply nn_if; [by apply nn_mul|apply nn_zero]).
  assert (Nq : nn (d_engine_queue_cost_ms d)) by (apply nn_if; [by apply nn_mul|apply nn_zero]).
  destruct Nw as (w & Ew & Hw), Nt as (t & Et & Ht0), Nv as (v & Ev & Hv0),
    Nk as (k & Ek & Hk0), Nq as (q & Eq & Hq0), Hex as (x & Ex & Hx).
  destruct (score_terms_bonus c s wid pred eng tokens tier key ex av) as (Fe & Fb & Fc & Ft).
  fold d in Fe, Fb, Fc, Ft.
  assert (Nc : nn (if negb (disable_cache (s_ablation c)) &&
                      bool_decide (dget key (prefix_cache s) = Some wid)
                   then s_cache_bonus_ms c else f0)) by (apply nn_if; [done|apply nn_zero]).
  assert (Np : nn (if s_use_engine_metrics c && ed_ok eng
                   then (entry (ed_prefix_rate eng) * s_engine_prefix_hit_bonus_ms c)%fl else f0))
    by (apply nn_if; [by apply nn_mul|apply nn_zero]).
  destruct Nc as (cb & Ecb & Hcb), Np as (pb & Epb & Hpb).
  rewrite Ecb, Epb, Ex, Ew in Fb, Fc, Ft. rewrite Et, Ev, Ek, Eq in Ft.
  change (XR w + XR x)%fl with (XR (w + x)) in Fb, Fc, Ft.
  change (XR cb + XR pb)%fl with (XR (cb + pb)) in Fb, Fc, Ft.
  assert (Hallow : py_max f0 (XR (w + x)) = XR (w + x)).
  { change (f0 : xreal) with (XR 0). rewrite py_max_XR. f_equal. apply Rmax_right. lra. }
  rewrite Hallow in Fb, Fc, Ft. clearbody d.
  destruct (bonus_clamp cb pb (w + x) Hcb Hpb ltac:(lra)) as (sc & Esc & Hsc & Hc1 & Hc2).
  rewrite Esc in Fb, Fc, Ft.
  assert (Hmin : 0 <= Rmin (cb + pb) (w + x) <= w + x)
    by (unfold Rmin; destruct (Rle_dec _ _); lra).
  exists w, x, t, v, k, q, (cb + pb). cbv zeta.
  split_and!; try done; try apply Hmin.
  - by rewrite Fe.
  - rewrite Fb, <- Hsc. done.
  - rewrite Fc, <- Hsc. done.
  - rewrite Ft, <- Hsc. change (f0 : xreal) with (XR 0).
    cbn [fadd fsub fmul xreal_float XReal.add XReal.mul XReal.opp]. rewrite py_max_XR.
    f_equal. rewrite Rmax_right by lra. lra.
Qed.

(** The comment in [_score] that every term is non-negative does not hold for
    the VRAM term: a worker whose reported free memory exceeds its registered
    total, below the soft limit, gets a negative cost. *)
Theorem vram_term_can_be_negative c s wid pred eng tokens tier key ex av free total soft :
  disable_vram_soft (s_ablation c) = false ->
  free_vram_mb pred = XR free -> p_total_vram_mb (l_params pred) = XR total ->
  s_vram_soft_mb c = XR soft -> 0 < total < free -> free < soft ->
  exists v, d_vram_cost_ms (score_terms c s wid pred eng tokens tier key ex av).2 = XR v /\ v < 0.
Proof.
  intros H1 H2 H3 H4 H5 H6. unfold score_terms. cbn [snd d_vram_cost_ms].
  rewrite H1, H2, H3, H4. change (f0 : xreal) with (XR 0).
  change (XR 0 <? XR total)%fl with (XReal.rlt 0 total).
  change (XR free <? XR soft)%fl with (XReal.rlt free soft).
  rewrite (proj2 (rlt_true 0 total)), (proj2 (rlt_true free soft)) by lra.
  cbn [negb andb]. rewrite fdiv_XR by lra.
  exists ((1 + - (free / total)) * 1000). split; [done|].
  assert (1 < free / total); [|lra].
  apply (Rmult_lt_reg_r total); [lra|]. unfold Rdiv. rewrite Rmult_assoc, Rinv_l by lra. lra.
Qed.

(** ** The percentile *)

Lemma Int_part_bounds r : IZR (Int_part r) <= r < IZR (Int_part r) + 1.
Proof. pose proof (base_Int_part r). lra. Qed.

Lemma percentile_rank_range n (p : xreal) :
  (1 <= n)%Z -> exists k, percentile_rank n p = XR k /\ 0 <= k <= IZR (n - 1).
Proof.
  intros Hn.
  assert (Hm : exists m, py_max f0 (py_min (fint 100) p) = XR m /\ 0 <= m <= 100).
  { assert (Hz : forall r, py_max f0 (XR r) = XR (Rmax 0 r)) by (intros; apply py_max_XR).
    destruct p as [r|[]|].
    - change (fint 100 : xreal) with (XR 100). rewrite py_min_XR, Hz. eexists. split; [done|].
      unfold Rmax, Rmin. repeat destruct (Rle_dec _ _); lra.
    - exists 0. split; [done|lra].
    - exists 100. split; [|lra]. change (py_min (fint 100) (XInf false)) with (XR 100).
      rewrite Hz. f_equal. apply Rmax_right. lra.
    - exists 100. split; [|lra]. change (py_min (fint 100) XNaN) with (XR 100).
      rewrite Hz. f_equal. apply Rmax_right. lra. }
  destruct Hm as (m & Em & Hm). exists (m / 100 * IZR (n - 1)).
  unfold percentile_rank. rewrite Em. change (fint 100 : xreal) with (XR 100).
  rewrite fdiv_XR by lra. split; [done|].
  assert (0 <= IZR (n - 1)) by (apply IZR_le; lia). nra.
Qed.

Lemma all_real_fnth (xs : list xreal) i :
  (forall x, x ∈ xs -> exists r, x = XR r) -> (0 <= i < Z.of_nat (length xs))%Z ->
  exists r, fnth (fsorted xs) i = XR r /\ XR r ∈ xs.
Proof.
  intros H Hi. assert (Hin : fnth (fsorted xs) i ∈ xs).
  { apply elem_of_fsorted, fnth_elem. by rewrite length_fsorted. }
  destruct (H _ Hin) as [r E]. exists r. by rewrite <- E.
Qed.

(** The rolling percentile of a non-empty window of real latencies lies
    between two latencies of the window, for every requested percentile (NaN,
    negative and over 100 included): the admission gate compares the SLO with a
    value inside the range that was observed. *)
Theorem percentile_within_window (xs : list xreal) p :
  xs <> [] -> (forall x, x ∈ xs -> exists r, x = XR r) ->
  exists v a b, percentile xs p = XR v /\ XR a ∈ xs /\ XR b ∈ xs /\ a <= v <= b.
Proof.
  intros Hne Hall. unfold percentile. destruct xs as [|x0 xs0] eqn:Exs; [done|]. rewrite <- Exs in *.
  rewrite length_fsorted. set (n := Z.of_nat (length xs)).
  assert (Hn : (1 <= n)%Z) by (unfold n; rewrite Exs; simpl; lia).
  assert (Hget : forall i, (0 <= i < n)%Z -> exists r, fnth (fsorted xs) i = XR r /\ XR r ∈ xs)
    by (intros; by apply all_real_fnth).
  destruct (n =? 1)%Z.
  { destruct (Hget 0%Z ltac:(lia)) as (r & E & Hin). exists r, r, r. split_and!; try done; lra. }
  destruct (percentile_rank_range n p Hn) as (k & Ek & Hk). rewrite Ek.
  change (ffloor (XR k)) with (Int_part k). change (fceil (XR k)) with (- Int_part (- k))%Z.
  pose proof (Int_part_bounds k) as Hf. pose proof (Int_part_bounds (- k)) as Hc.
  set (lo := Int_part k) in *. set (hi := (- Int_part (- k))%Z).
  assert (Hhi : IZR hi - 1 < k <= IZR hi) by (unfold hi; rewrite opp_IZR; lra).
  assert (Hlo0 : (0 <= lo)%Z) by (apply Z.lt_succ_r, lt_IZR; rewrite succ_IZR; lra).
  assert (Hhin : (hi <= n - 1)%Z) by (apply Z.lt_succ_r, lt_IZR; rewrite succ_IZR; lra).
  assert (Hlohi : (lo <= hi)%Z) by (apply le_IZR; lra).
  destruct (Z.eqb_spec lo hi) as [E|Hd].
  { destruct (Hget lo ltac:(lia)) as (r & Er & Hin). exists r, r, r. split_and!; try done; lra. }
  destruct (Hget lo ltac:(lia)) as (a & Ea & Hina), (Hget hi ltac:(lia)) as (b & Eb & Hinb).
  assert (Hab : a <= b).
  { apply rle_true. rewrite <- fle_XR, <- Ea, <- Eb. apply fsorted_fnth_le; [|lia|fold n; lia].
    intros x Hx. destruct (Hall x Hx) as [r ->]. by rewrite xnan_spec. }
  rewrite Ea, Eb. exists (a * (1 + - (k + - IZR lo)) + b * (k + - IZR lo)), a, b.
  split_and!; [done|done|done|nra|nra].
Qed.

(** ** Admission modes *)

(** [c] under another mode. *)
Definition with_mode {F} (m : string) (c : AdmissionCfg F) : AdmissionCfg F :=
  mkAdmissionCfg (ac_slo_ms c) (ac_off c) m (ac_percentile c).

(** The empirical gate is the strict gate with one escape: on the same window
    and scores it rejects only when the strict gate does, and it counts a
    suppressed rejection exactly when strict would reject and it does not. *)
Theorem strict_dominates_empirical {F} {PF : PyFloat F} (c : AdmissionCfg F) recent best scores a :
  ac_off c = false ->
  let strict := (should_reject_slo (with_mode "strict" c) recent best scores a).1.1 in
  let empirical := should_reject_slo (with_mode "empirical" c) recent best scores a in
  (empirical.1.1 = true -> strict = true) /\
  empirical.2 = (if strict && negb empirical.1.1 then bump CSuppressed a else a).
Proof.
  intros Hoff strict empirical.
  assert (Hs : strict = tail_over_slo c recent).
  { apply (decision_strict (with_mode "strict" c)). split; [done|set_solver]. }
  destruct (decision_empirical (with_mode "empirical" c) recent best scores a) as [H1 H2];
    [split; [done|set_solver]|].
  fold empirical in H1, H2. rewrite H1, H2, Hs.
  change (tail_over_slo (with_mode "empirical" c) recent) with (tail_over_slo c recent).
  by destruct (tail_over_slo c recent), (worst_quartile best scores).
Qed.

(** With the gate off (or in [rank_only] mode) no request is ever rejected
    for its predicted or observed latency, and no counter moves. *)
Theorem gate_off_never_rejects {F} {PF : PyFloat F} (c : AdmissionCfg F) recent best scores a :
  ac_off c = true \/ ac_mode c ∈ ["rank_only"; "ranking"; "none"] ->
  should_reject_slo c recent best scores a = (false, "rank_only", a).
Proof. apply decision_off. Qed.

(** ** Witnesses *)

Definition real_cfg : SchedCfg xreal := demo_args "nlms" "empirical".
Definition real_worker : Learner xreal :=
  set_pending 4 (new_learner real_cfg "small" (XR 24000) (Some (XR 3000))).
Definition real_engine : EngineDict xreal :=
  mkEngineDict true (Some (XR (1 / 2))) (Some (XR 3)) (Some (XR 1)).

Lemma entry_XR r : r <> 0 -> entry (Some (XR r)) = XR r.
Proof.
  intros H. unfold entry, ftruth. simpl. unfold XReal.rle.
  destruct (Rle_dec r 0), (Rle_dec 0 r); try done. exfalso. lra.
Qed.

Lemma real_inputs_ok : cost_inputs_ok real_cfg real_engine.
Proof.
  split; [exists 8; split; [reflexivity|lra]|apply (nn_fint 500); lia|apply (nn_fint 200); lia
    |apply (nn_fint 800); lia|apply (nn_fint 50); lia|apply (nn_fint 150); lia|..];
    cbn [ed_kv ed_waiting ed_prefix_rate real_engine]; rewrite entry_XR by lra; apply nn_XR; lra.
Qed.

Lemma score_breakdown_witness :
  exists w x t v k q raw,
    d_total_ms (score_terms real_cfg sched_init "a" real_worker real_engine 100 "small" 7
                  (XR 350) (XR 400)).2 = XR (w + x + t + v + k + q - Rmin raw (w + x)) /\
    0 <= Rmin raw (w + x) <= w + x.
Proof.
  destruct (score_breakdown real_cfg sched_init "a" real_worker real_engine 100 "small" 7
    (XR 350) (XR 400) real_inputs_ok) as (w & x & t & v & k & q & raw & H).
  - exists 3000, 24000. split_and!; [done|done|lra].
  - done.
  - apply nn_XR. lra.
  - apply nn_XR. lra.
  - exists w, x, t, v, k, q, raw. cbv zeta in H. split; apply H.
Defined.

Lemma vram_term_can_be_negative_witness :
  exists v, d_vram_cost_ms (score_terms real_cfg sched_init "a"
    (new_learner real_cfg "small" (XR 2000) (Some (XR 3000))) real_engine 100 "small" 7
    (XR 350) (XR 400)).2 = XR v /\ v < 0.
Proof.
  apply (vram_term_can_be_negative real_cfg sched_init "a" _ real_engine 100 "small" 7
    (XR 350) (XR 400) 3000 2000 4096); try done; lra.
Defined.

Lemma percentile_within_window_witness :
  exists v a b, percentile [XR 30; XR 10; XR 20] (XR 95) = XR v /\
    XR a ∈ [XR 30; XR 10; XR 20] /\ XR b ∈ [XR 30; XR 10; XR 20] /\ a <= v <= b.
Proof.
  apply percentile_within_window; [done|].
  intros x Hx. in_cases Hx; subst; eauto.
Defined.

Lemma strict_dominates_empirical_witness :
  let c := mkAdmissionCfg (fint 100 : float) false "empirical" (fint 95) in
  let w := repeat (fint 500) 8 in
  (should_reject_slo (with_mode "strict" c) w (fint 10) [fint 10; fint 20] admission_zero).1.1 = true
  /\ (should_reject_slo (with_mode "empirical" c) w (fint 10) [fint 10; fint 20] admission_zero).2
     = bump CSuppressed admission_zero.
Proof.
  intros c w. split; [vm_compute; reflexivity|].
  pose proof (strict_dominates_empirical c w (fint 10) [fint 10; fint 20] admission_zero eq_refl)
    as [_ H].
  cbv zeta in H. rewrite H. vm_compute. reflexivity.
Defined.

Lemma gate_off_never_rejects_witness :
  should_reject_slo (mkAdmissionCfg (fint 1 : float) true "absolute" (fint 95)) [] (fint 9000)
    [fint 9000] admission_zero = (false, "rank_only", admission_zero).
Proof. apply gate_off_never_rejects. by left. Defined.
