(* ===== verification/Feasible.v ===== *)
(** Availability in exact arithmetic: with admission off, a request that no hard limit
    can concern is never refused while some eligible worker is registered, whatever
    happened before. *)

From Stdlib Require Import Reals Lra.
From S2P Require Import Prelude PyFloat PyReal PyDict PySort PyStr Config Learner LearnerFacts.
From S2P Require Import Rls Admission EngineMetrics Scheduler SchedulerFacts PickFacts Setup.
From S2P Require Import LearnerExact CostExact.

(** ** Finite values *)

Definition real (x : xreal) : Prop := exists r, x = XR r.

Lemma real_XR r : real (XR r).
Proof. by exists r. Qed.
Lemma real_fint z : real (fint z).
Proof. apply real_XR. Qed.
Lemma real_fdec m e : real (fdec m e).
Proof. apply real_XR. Qed.
Lemma real_f0 : real f0.
Proof. apply real_XR. Qed.
Lemma real_f1 : real f1.
Proof. apply real_XR. Qed.
Lemma real_add x y : real x -> real y -> real (fadd x y).
Proof. intros [a ->] [b ->]. apply real_XR. Qed.
Lemma real_sub x y : real x -> real y -> real (fsub x y).
Proof. intros [a ->] [b ->]. apply real_XR. Qed.
Lemma real_mul x y : real x -> real y -> real (fmul x y).
Proof. intros [a ->] [b ->]. apply real_XR. Qed.
Lemma real_max x y : real x -> real y -> real (py_max x y).
Proof. intros [a ->] [b ->]. rewrite py_max_XR. apply real_XR. Qed.
Lemma real_min x y : real x -> real y -> real (py_min x y).
Proof. intros [a ->] [b ->]. rewrite py_min_XR. apply real_XR. Qed.
Lemma real_div_pos x y : real x -> real y -> flt f0 y = true -> real (fdiv x y).
Proof.
  intros [a ->] [b ->] H. apply rlt_true in H. rewrite fdiv_XR by lra. apply real_XR.
Qed.
Lemma real_if (b : bool) x y : (b = true -> real x) -> (b = false -> real y) -> real (if b then x else y).
Proof. destruct b; auto. Qed.
Lemma real_below_inf x : real x -> flt x finf = true.
Proof. by intros [r ->]. Qed.
Lemma real_entry o : (forall x, o = Some x -> real x) -> real (entry o).
Proof. intros H. destruct o as [x|]; cbn; [|apply real_f0]. apply real_if; intros _; [by apply H|apply real_f0]. Qed.

Lemma not_le_f0 x : real x -> fle x f0 = false -> flt f0 x = true.
Proof. intros [r ->] H. apply rle_false in H. by apply rlt_true. Qed.

(** Splits the finiteness of a formula; what it divides by is left. *)
Ltac solve_real :=
  repeat lazymatch goal with
  | |- real (if _ then _ else _) => apply real_if; intros ?
  | |- real (py_max _ _) => apply real_max
  | |- real (fadd _ _) => apply real_add
  | |- real (fsub _ _) => apply real_sub
  | |- real (fmul _ _) => apply real_mul
  | |- real (fdiv _ _) => apply real_div_pos
  | |- _ => first [assumption|apply real_fint|apply real_fdec|apply real_f0|apply real_f1|fail]
  end.

Create HintDb real.
#[export] Hint Resolve real_XR real_fint real_fdec real_f0 real_f1 real_add real_sub real_mul
  real_max real_min real_below_inf : real.

(** ** A configuration and a history in finite figures *)

(** The numbers a [Scheduler] is built with: the blend is a mix, the initial and static fits
    are within the caps of the learner, and these are below a thousand million. *)
Record cfg_real (c : SchedCfg xreal) : Prop := mkCfgReal {
  cr_blend : exists w, s_blend c = XR w /\ (0 <= w <= 1)%R;
  cr_caps : exists sm im, s_learner_slope_max c = XR sm /\ s_learner_intercept_max c = XR im /\
    (1 / 10 <= sm <= IZR (10 ^ 9))%R /\ (1 / 10 <= im <= IZR (10 ^ 9))%R;
  cr_init : fit_in_range
    (mkLParams f0 f0 f0 f0 false false "" f0 false f0 f0 (s_learner_slope_max c) (s_learner_intercept_max c))
    (mkFit (s_initial_slope c) (s_initial_slope c) (s_initial_intercept c) f0 0 f0 f0 f0 0 0 0 []);
  cr_static : fit_in_range
    (mkLParams f0 f0 f0 f0 false false "" f0 false f0 f0 (s_learner_slope_max c) (s_learner_intercept_max c))
    (mkFit (s_static_slope c) (s_static_slope c) (s_static_intercept c) f0 0 f0 f0 f0 0 0 0 []);
  cr_batch : real (s_batch_size c) /\ flt f0 (s_batch_size c) = true;
  cr_costs : real (s_tier_mismatch_ms c) /\ real (s_cache_bonus_ms c) /\
    real (s_kv_cache_cost_ms c) /\ real (s_engine_queue_cost_ms c) /\
    real (s_engine_prefix_hit_bonus_ms c)
}.

Definition engine_real (d : EngineDict xreal) : Prop :=
  real (entry (ed_kv d)) /\ real (entry (ed_waiting d)) /\ real (entry (ed_prefix_rate d)).

(** Every figure a caller passes is finite. *)
Definition op_real (o : Op xreal) : Prop :=
  match o with
  | OpRegister _ _ total free => real total /\ forall x, free = Some x -> real x
  | OpSetVram _ free => real free
  | OpSetEngine _ d => engine_real d
  | OpFeedback _ e2e _ _ _ => real e2e
  | _ => True
  end.

(** ** What stays finite *)

Record worker_real (c : SchedCfg xreal) (lr : Learner xreal) : Prop := mkWorkerReal {
  wr_blend : p_blend (l_params lr) = s_blend c;
  wr_caps : p_slope_max (l_params lr) = s_learner_slope_max c /\
            p_intercept_max (l_params lr) = s_learner_intercept_max c;
  wr_total : real (p_total_vram_mb (l_params lr));
  wr_fit : fit_in_range (l_params lr) (l_fit lr);
  wr_avg : real (avg_latency (l_fit lr));
  wr_free : real (free_vram_mb lr)
}.

Record finite (c : SchedCfg xreal) (s : Sched xreal) : Prop := mkFinite {
  fi_workers : all_preds (worker_real c) (predictors s);
  fi_engines : forall w d, dget w (engine_snap s) = Some d -> engine_real d;
  fi_ewma : forall w x, ewma_e2e s !! w = Some x -> real x
}.

Section Finite.
Variable c : SchedCfg xreal.
Hypothesis Hc : cfg_real c.
Implicit Types (s : Sched xreal) (lr : Learner xreal).

Lemma caps_ok lr : worker_real c lr -> lparams_ok (l_params lr).
Proof.
  intros [_ [E1 E2] _ _ _ _]. destruct (cr_caps _ Hc) as (sm & im & H1 & H2 & B1 & B2).
  unfold lparams_ok. rewrite E1, E2, H1, H2, tenth_XR, !fle_XR.
  split; apply rle_true; lra.
Qed.

Lemma worker_real_new tier total free :
  real total -> (forall x, free = Some x -> real x) -> worker_real c (new_learner c tier total free).
Proof.
  intros Ht Hf. pose proof (cr_init _ Hc) as Hi. pose proof (cr_static _ Hc) as Hs.
  unfold new_learner. destruct (str_eqb _ _); destruct free as [x|]; split; cbn; auto with real.
Qed.

Lemma worker_real_same lr lr' :
  l_params lr' = l_params lr -> l_fit lr' = l_fit lr -> real (free_vram_mb lr') ->
  worker_real c lr -> worker_real c lr'.
Proof. intros Ep Ef Hr []. split; rewrite ?Ep, ?Ef; done. Qed.

Lemma real_avg p f a t i :
  real (avg_latency f) -> real a -> real (avg_latency (update_fit p f a t i).1).
Proof.
  intros Hf Ha. unfold update_fit. destruct (if p_frozen p then _ else _) as [[x y] z].
  cbn [fst avg_latency]. apply real_if; intros _; eauto with real.
Qed.

Lemma worker_real_update lr a t i : real a -> worker_real c lr -> worker_real c (update lr a t i).1.
Proof.
  intros Ha H. pose proof (caps_ok lr H) as Hp. destruct H as [H1 H2 H3 H4 H5 H6].
  destruct (update_keeps_load lr a t i) as (_ & _ & Ef & _).
  split; rewrite ?update_params, ?update_l_fit, ?Ef; try done; [|by apply real_avg].
  destruct (p_frozen (l_params lr)) eqn:Hz; [|by apply update_fit_range].
  unfold update_fit. rewrite Hz. exact H4.
Qed.

Lemma worker_real_mark lr : worker_real c lr -> worker_real c (mark_admitted lr).
Proof. intros H. apply (worker_real_same lr); try done. apply H. Qed.

Lemma worker_real_dec lr : worker_real c lr -> worker_real c (dec_pending lr).
Proof.
  intros H. unfold dec_pending. destruct (0 <? pending lr); [|done].
  apply (worker_real_same lr); try done. apply H.
Qed.

Lemma worker_real_served lr e t ok : real e -> worker_real c lr -> worker_real c (served e t ok lr).
Proof.
  intros He H. assert (H0 : worker_real c (set_inflight (tl (inflight_log lr)) lr))
    by (apply (worker_real_same lr); try done; apply H).
  unfold served. destruct ok; [by apply worker_real_update|done].
Qed.

Lemma finite_alter s f wid :
  (forall lr, worker_real c lr -> worker_real c (f lr)) -> finite c s -> finite c (alter_pred f wid s).
Proof. intros Hf []. split; cbn; try done. by apply all_preds_dalter. Qed.

Lemma finite_set_admission s a : finite c s -> finite c (set_admission a s).
Proof. intros []. by split. Qed.

Lemma real_ewma_next n o e : real e -> (forall x, o = Some x -> real x) -> real (ewma_next n o e).
Proof.
  intros He Ho. unfold ewma_next. apply real_if; intros _; [done|].
  destruct o as [x|]; [|done]. specialize (Ho x eq_refl). unfold ewma_alpha. eauto with real.
Qed.

Lemma feedback_engines w e t ok now s :
  engine_snap (feedback c w e t ok now s) = engine_snap s.
Proof.
  unfold feedback. rewrite pop_inflight_eq. destruct (dget w (predictors s)) as [lr|]; destruct ok;
    cbn; unfold learn; try done; destruct (dget w _) as [l|]; try done; by destruct (update l _ _ _).
Qed.

Lemma feedback_ewma w e t ok now s x v :
  ewma_e2e (feedback c w e t ok now s) !! x = Some v ->
  ewma_e2e s !! x = Some v \/
  exists n o, (forall y, o = Some y -> ewma_e2e s !! w = Some y) /\ v = ewma_next n o e.
Proof.
  unfold feedback. rewrite pop_inflight_eq. destruct (dget w (predictors s)) as [lr|]; destruct ok;
    cbn; unfold learn; try (by left); destruct (dget w _) as [l|]; try (by left).
  all: destruct (update l _ _ _); cbn; destruct (ewma_e2e s !! w) as [old|] eqn:E; try (by left).
  all: destruct (decide (x = w)) as [->|Hne]; [rewrite lookup_insert_eq|rewrite lookup_insert_ne by done; by left].
  all: intros [= <-]; right; eexists _, (Some old); split; [|done]; by intros y [= <-].
Qed.

Lemma finite_feedback w e t ok now s :
  real e -> finite c s -> finite c (feedback c w e t ok now s).
Proof.
  intros He [H1 H2 H3]. split.
  - rewrite feedback_workers. destruct (dget w (predictors s)) as [lr|] eqn:E; [|done].
    apply all_preds_dset; [|done]. apply worker_real_dec, worker_real_served; [done|].
    by apply (H1 w).
  - intros x d. rewrite feedback_engines. apply H2.
  - intros x v [Hv|(n & o & Ho & ->)]%feedback_ewma; [by eapply H3|].
    apply real_ewma_next; [done|]. intros y Hy. by eapply H3, Ho.
Qed.

Lemma finite_engine w d s : engine_real d -> finite c s -> finite c (set_engine_metrics w d s).
Proof.
  intros Hd H0. pose proof (proj1 Hd) as Hk. pose proof H0 as [H1 H2 H3]. split; [|cbn|done].
  - unfold set_engine_metrics. cbn [predictors]. apply all_preds_dalter; [|done]. intros lr H.
    cbv zeta. destruct (ed_ok d && _); [|done]. apply (worker_real_same lr); [done|done| |done].
    apply real_max; [apply real_f0|]. apply real_mul; [apply H|]. by apply real_sub; [apply real_f1|].
  - intros x e. rewrite dget_dset. case_decide; [by intros [= <-]|apply H2].
Qed.

(** A call that only moves queues, health and counters. *)
Lemma finite_same s s' :
  finite c s -> all_preds (worker_real c) (predictors s') ->
  engine_snap s' = engine_snap s -> ewma_e2e s' = ewma_e2e s -> finite c s'.
Proof. intros [] H E1 E2. split; rewrite ?E1, ?E2; done. Qed.

Lemma finite_pick p ti tk al s :
  sched_inv c s -> finite c s -> finite c (pick c p ti tk al s).1.
Proof.
  intros Hi H. destruct (pick c p ti tk al s) as [s' [[w d]|e]] eqn:E; cbn [fst].
  - destruct (pick_ok _ _ _ _ _ _ _ _ _ E) as (_ & _ & [Hw _ _ _ (_ & L & _ & _ & _ & _ & L')] & _).
    apply (finite_same s); try done. rewrite Hw.
    apply all_preds_dalter; [intros lr; apply worker_real_mark|apply H].
  - destruct (pick_err _ _ _ _ _ _ _ _ Hi E) as ([-> _] & _). by apply finite_set_admission.
Qed.

Lemma finite_health f wid s :
  (forall lr, l_params (f lr) = l_params lr /\ l_fit (f lr) = l_fit lr /\ free_vram_mb (f lr) = free_vram_mb lr) ->
  finite c s -> finite c (alter_pred f wid s).
Proof.
  intros Hf. apply finite_alter. intros lr H. destruct (Hf lr) as (E1 & E2 & E3).
  apply (worker_real_same lr); [done|done| |done]. rewrite E3. apply H.
Qed.

Lemma finite_step s o : sched_inv c s -> op_real o -> finite c s -> finite c (step c s o).
Proof.
  intros Hi Ho H. destruct o; cbn [step op_real] in *.
  - destruct Ho as [Ht Hf], H as [H1 H2 H3]. split; cbn; try done.
    + apply all_preds_dset; [by apply worker_real_new|done].
    + intros w x. destruct (decide (w = wid)) as [->|Hne];
        [rewrite lookup_insert_eq; intros [= <-]; apply real_fint|].
      rewrite lookup_insert_ne by done. apply H3.
  - destruct H as [H1 H2 H3]. split; cbn.
    + by apply all_preds_dpop.
    + done.
    + intros w x [_ Hx]%lookup_delete_Some. by eapply H3.
  - apply finite_alter; [|done]. intros lr Hl. by apply (worker_real_same lr).
  - by apply finite_engine.
  - unfold set_healthy. destruct (dmem _ _); [|done].
    destruct h; [apply (finite_same (alter_pred (set_health true) wid s)); try done|];
      by apply finite_health.
  - unfold note_failure. cbn. destruct (_ && _).
    + apply (finite_health (set_health false) wid); [done|]. destruct H. by split.
    + destruct H. by split.
  - destruct H. by split.
  - by apply finite_pick.
  - apply finite_alter; [apply worker_real_dec|done].
  - by apply finite_feedback.
  - destruct H. by split.
Qed.

Lemma finite_run s ops :
  0 <= s_affinity_cache_size c -> sched_inv c s -> Forall op_real ops -> finite c s ->
  finite c (run c s ops) /\ sched_inv c (run c s ops).
Proof.
  intros Hcap. revert s; induction ops as [|o ops IH]; intros s Hi Ho H; cbn; [done|].
  apply Forall_cons in Ho as [Ho Hos].
  apply IH; [by apply inv_step|done|by apply finite_step].
Qed.

Lemma finite_init : finite c sched_init.
Proof. split; cbn; [apply all_preds_nil|done|intros w x; by rewrite lookup_empty]. Qed.

(** ** A small request *)

(** No hard limit looks at it: no large tier is asked for and it is short. *)
Definition small_request (tier : string) (tokens : Z) : Prop := tier <> "large" /\ tokens <= 500.

Lemma small_not_blocked lr d tokens tier :
  small_request tier tokens -> hard_blocked c lr d tokens tier = false.
Proof.
  intros [Ht Hn]. unfold hard_blocked. rewrite (proj2 (Z.ltb_ge 1000 tokens)) by lia.
  rewrite (proj2 (Z.ltb_ge 500 tokens)) by lia.
  assert (str_eqb tier "large" = false) as -> by by apply bool_decide_eq_false.
  by rewrite !andb_false_r.
Qed.

(** A fit within its caps predicts a finite time. *)
Lemma predict_small lr tokens :
  worker_real c lr -> tokens <= 500 ->
  exists r, predict (l_params lr) (l_fit lr) tokens = XR r /\ (0 <= r <= IZR (501 * 10 ^ 9))%R.
Proof.
  intros [E1 [E2 E3] _ H _ _] Hn.
  destruct (cr_caps _ Hc) as (sm & im & C1 & C2 & Bs & Bi), (cr_blend _ Hc) as (w & Ew & Bw).
  destruct H as ((F1 & F2) & (S1 & S2) & (I1 & I2)).
  rewrite E2, C1 in F2, S2. rewrite E3, C2 in I2. rewrite tenth_XR in F1, S1, I1.
  unfold predict, effective_slope. rewrite E1, Ew.
  destruct (fast_slope (l_fit lr)) as [a|[]|], (slow_slope (l_fit lr)) as [b|[]|],
    (intercept (l_fit lr)) as [k|[]|]; try done.
  rewrite fle_XR in *. apply rle_true in F1, F2, S1, S2, I1, I2.
  assert (Ht : (1 <= IZR (Z.max 1 tokens) <= 500)%R) by (split; apply IZR_le; lia).
  set (t := IZR (Z.max 1 tokens)) in *. replace (501 * 10 ^ 9)%Z with (500 * 10 ^ 9 + 10 ^ 9)%Z by lia.
  rewrite plus_IZR, mult_IZR. set (B := IZR (10 ^ 9)) in *.
  assert (Hs : forall u, (0 <= u <= B -> 0 <= u * t <= 500 * B)%R)
    by (intros u Hu; split; [apply Rmult_le_pos; lra|]; rewrite (Rmult_comm 500); apply Rmult_le_compat; lra).
  destruct (p_dual _).
  - exists ((w * a + (1 + - w) * b) * t + k)%R. split; [reflexivity|].
    assert (Hm : (0 <= w * a + (1 + - w) * b <= B)%R).
    { split; [apply Rplus_le_le_0_compat; apply Rmult_le_pos; lra|].
      replace B with (w * B + (1 + - w) * B)%R by ring.
      apply Rplus_le_compat; apply Rmult_le_compat_l; lra. }
    pose proof (Hs _ Hm). lra.
  - exists (a * t + k)%R. split; [reflexivity|]. pose proof (Hs a ltac:(lra)). lra.
Qed.

Lemma real_score_terms s w lr eng tokens tier key ex av :
  worker_real c lr -> engine_real eng -> real ex -> real av ->
  real (score_terms c s w lr eng tokens tier key ex av).1.
Proof.
  intros Hw (Ek & Eq & Ep) Hex Hav. destruct Hw as [_ _ Ht _ _ Hf], (cr_batch _ Hc) as [Hb Hb0].
  destruct (cr_costs _ Hc) as (C1 & C2 & C3 & C4 & C5). unfold score_terms. cbn [fst].
  solve_real.
  - by apply andb_true_iff in H as [[_ H]%andb_true_iff _].
  - apply orb_false_iff in H as [H _]. apply not_le_f0; [solve_real|exact H].
  - apply orb_false_iff in H as [H _]. apply not_le_f0; [solve_real|exact H].
Qed.

Lemma small_score s w lr tokens tier key :
  finite c s -> dget w (predictors s) = Some lr -> small_request tier tokens ->
  exists sc d, score c s w lr tokens tier false key = Ok (Some (sc, d)) /\ real sc.
Proof.
  intros [H1 H2 _] Hw Hs. pose proof (H1 w lr Hw) as Hr. destruct Hs as [Ht Hn].
  destruct (predict_small lr tokens Hr Hn) as (r & Ep & Br).
  assert (Hav : real (estimate lr tokens).2).
  { unfold estimate. cbn [snd]. rewrite Ep. apply real_if; intros _; [apply Hr|apply real_XR]. }
  assert (He : engine_real (engine_of s w)).
  { unfold engine_of. destruct (dget w (engine_snap s)) as [d|] eqn:E; [by eapply H2|].
    by repeat split; apply real_f0. }
  unfold score. rewrite (small_not_blocked lr _ _ _ (conj Ht Hn)). cbn [mbind result_bind].
  unfold estimate in *. rewrite Ep in *. cbn [snd] in Hav.
  assert (Hbig : fle (fdec 1 300 : xreal) (XR r) || fisinf (XR r) = false).
  { rewrite orb_false_r. apply rle_false. eapply Rle_lt_trans; [apply Br|].
    unfold XReal.decimal. rewrite Rmult_1_l. change (powerRZ 10 300) with (10 ^ 300)%R.
    rewrite pow_IZR. apply IZR_lt. vm_compute. reflexivity. }
  rewrite Hbig. eexists _, _. split; [by rewrite <- surjective_pairing|].
  by apply real_score_terms; [|..|apply real_XR|].
Qed.

Lemma small_ewma s w tokens : finite c s -> real (d_total_ms (ewma_decision c s tokens w)).
Proof.
  intros [_ _ H3]. destruct (cr_batch _ Hc) as [Hb Hb0]. unfold ewma_decision. cbn [d_total_ms plain_decision].
  assert (Hx : real (default ewma_prior_ms (ewma_e2e s !! w))).
  { destruct (ewma_e2e s !! w) as [x|] eqn:E; cbn; [by eapply H3|apply real_fint]. }
  apply real_add; [done|]. apply real_mul; [|done]. apply real_div_pos; [apply real_fint|by apply real_max; [apply real_f1|]|].
  destruct Hb as [b ->]. change (py_max f1 (XR b)) with (py_max (XR 1) (XR b)). rewrite py_max_XR.
  apply rlt_true. pose proof (Rmax_l 1 b). lra.
Qed.

(** ** Some worker is picked *)

Lemma ewma_best_some s tokens ids :
  finite c s -> ids <> [] -> is_Some (ewma_best c s tokens ids).
Proof.
  intros Hf Hne. unfold ewma_best.
  assert (H : forall l b, is_Some b -> is_Some (foldl (fun best wid =>
            let d := ewma_decision c s tokens wid in better best (d_total_ms d) d) b l)).
  { induction l as [|w l IH]; intros b Hb; [done|]. apply IH. unfold better. by destruct (flt _ _). }
  destruct ids as [|w ids]; [done|]. cbn [foldl]. apply H. unfold better.
  by rewrite (real_below_inf _ (small_ewma s w tokens Hf)).
Qed.

Lemma rank_some s tokens tier key ids rk :
  finite c s -> small_request tier tokens -> ids <> [] ->
  (forall w, w ∈ ids -> w ∈ dkeys (predictors s)) ->
  rank c s tokens tier false key ids (mkRanking None []) = Ok rk -> is_Some (rk_best rk).
Proof.
  intros Hf Hs Hne Hids Hr. destruct (rank_scored _ _ _ _ _ _ _ _ _ Hr) as [Hb _].
  pose proof (pick_best_from None (scored c s tokens tier false key ids)
    (fun b d H => ltac:(done)) (fun sc d H => scored_nonnan c s tokens tier false key ids sc d H)) as Hp.
  rewrite Hb. cbn [rk_best]. destruct (foldl _ _ _) as [x|]; [done|]. exfalso.
  destruct ids as [|w ids]; [done|]. specialize (Hids w (list_elem_of_here _ _)).
  apply dget_is_Some in Hids as [lr Hl].
  destruct (small_score s w lr tokens tier key Hf Hl Hs) as (sc & d & Hsc & Hreal).
  destruct Hp as [_ Hp]. specialize (Hp sc d (elem_scored _ _ _ _ _ _ _ _ _ _ _ (list_elem_of_here _ _) Hl Hsc)).
  by rewrite real_below_inf in Hp.
Qed.

Lemma small_admitted s prompt tier tokens allowed :
  sched_inv c s -> finite c s -> s_strategy c <> "rls" ->
  ac_off (s_admission c) = true \/ ac_mode (s_admission c) ∈ ["rank_only"; "ranking"; "none"] ->
  small_request tier (default (Z.max 1 (str_len prompt / 4)) tokens) -> eligible s allowed <> [] ->
  exists wid d, (pick c prompt tier tokens allowed s).2 = Ok (wid, d).
Proof.
  intros Hi Hf Hrls Hoff Hs Hne. unfold pick.
  change (match tokens with Some t => t | None => _ end)
    with (default (Z.max 1 (str_len prompt / 4)) tokens).
  revert Hs. generalize (default (Z.max 1 (str_len prompt / 4)) tokens) as t. intros t Hs.
  pose proof (eligible_registered s allowed) as Hreg.
  destruct (eligible s allowed) as [|w0 ids0] eqn:Hids; [done|]. rewrite <- Hids in *.
  destruct (is_round_robin _); [|destruct (is_least_loaded _); [|destruct (is_ewma _)]].
  - unfold pick_round_robin. destruct (_ !! _) as [w|] eqn:E; [by eexists _, _|].
    apply lookup_ge_None in E. rewrite Hids in E. cbn in E.
    pose proof (Z.mod_pos_bound (rr_index s + 1) (Z.of_nat (S (length ids0)))). lia.
  - unfold pick_least_loaded. destruct (min_by _ _) as [w|] eqn:E; [by eexists _, _|].
    apply min_by_None in E. congruence.
  - unfold pick_ewma. destruct (min_by _ _); [by eexists _, _|].
    destruct (ewma_best_some s t (eligible s allowed) Hf Hne) as [[sc d] ->]. by eexists _, _.
  - rewrite pick_cost_outcome.
    assert (str_eqb (s_strategy c) "rls" = false) as -> by by apply bool_decide_eq_false.
    generalize (prefix_hash prompt) as key. intros key.
    pose proof (rank_total c s t tier false key (eligible s allowed) (mkRanking None []) Hi Hreg) as Hr.
    destruct (rank _ _ _ _ _ _ _ _) as [rk|] eqn:Ek; [|done]. clear Hr.
    destruct (rank_some s t tier key _ rk Hf Hs Hne Hreg Ek) as [[best d] Hb].
    unfold cost_outcome. rewrite Hb. unfold decided. rewrite decision_off by done.
    by eexists _, _.
Qed.
End Finite.

(** C4. Availability: in exact arithmetic, with admission off (or a mode that only ranks) and
    any strategy but the RLS baseline, a request of at most 500 tokens that asks for no
    large tier is admitted whenever a healthy, allowed worker is registered, after any
    history of calls with finite figures. *)
Theorem small_requests_admitted a ops prompt tier tokens allowed :
  let c := sched_cfg a in
  let s := run c sched_init ops in
  cfg_real c -> s_strategy c <> "rls" ->
  ac_off (s_admission c) = true \/ ac_mode (s_admission c) ∈ ["rank_only"; "ranking"; "none"] ->
  Forall op_real ops ->
  small_request tier (default (Z.max 1 (str_len prompt / 4)) tokens) ->
  eligible s allowed <> [] ->
  exists wid d, (pick c prompt tier tokens allowed s).2 = Ok (wid, d).
Proof.
  intros c s Hc Hst Hoff Hops Hs Hne.
  assert (Hcap : 0 <= s_affinity_cache_size c) by (cbn; lia).
  destruct (finite_run c Hc sched_init ops Hcap (inv_init c Hcap) Hops (finite_init c)) as [Hf Hi].
  by apply (small_admitted c Hc s).
Qed.

(** ** The default figures *)

Local Abbreviation demo st mode := (sched_cfg (demo_args (F:=xreal) st mode)).

Lemma decimal_pos m k : XReal.decimal m (Zpos k) = IZR (m * 10 ^ Zpos k).
Proof.
  unfold XReal.decimal. cbn [powerRZ]. rewrite mult_IZR. f_equal.
  rewrite pow_IZR. f_equal. by rewrite positive_nat_Z.
Qed.

(** The ranges of an initial fit, in figures. *)
Lemma fit_in_range_XR p a b sm im :
  p_slope_max p = XR sm -> p_intercept_max p = XR im -> (1 / 10 <= a <= sm)%R -> (1 / 10 <= b <= im)%R ->
  fit_in_range p (mkFit (XR a) (XR a) (XR b) f0 0 f0 f0 f0 0 0 0 []).
Proof.
  intros H1 H2 Ha Hb. unfold fit_in_range. cbn [fast_slope slow_slope intercept].
  rewrite H1, H2, tenth_XR, !fle_XR, !rle_true. lra.
Qed.

(** The constructor replaces a batch size that is not positive. *)
Lemma batch_ok a :
  real (s_batch_size a) -> real (s_batch_size (sched_cfg a)) /\ flt f0 (s_batch_size (sched_cfg a)) = true.
Proof.
  intros H. cbn [sched_cfg s_batch_size]. destruct (ftruth (s_batch_size a)) eqn:E1, (flt f0 (s_batch_size a)) eqn:E2;
    cbn [andb]; (split; [done || apply real_fint|]); try done; apply rlt_true; lra.
Qed.

Lemma demo_cfg_real st mode : cfg_real (demo st mode).
Proof.
  assert (Him : s_learner_intercept_max (demo st mode) = XR (IZR (10 ^ 6)))
    by (cbn; by rewrite decimal_pos).
  assert (H6 : (150 <= IZR (10 ^ 6) <= IZR (10 ^ 9))%R)
    by (split; apply IZR_le; vm_compute; discriminate).
  split.
  - exists (8 / 10)%R. split; [|lra]. cbn. by rewrite decimal_neg.
  - exists 200%R, (IZR (10 ^ 6)). split; [done|]. split; [exact Him|].
    assert (200 <= IZR (10 ^ 9))%R by (apply IZR_le; vm_compute; discriminate). lra.
  - apply (fit_in_range_XR _ 2 150 200 (IZR (10 ^ 6))); [done|exact Him|lra|lra].
  - apply (fit_in_range_XR _ 1 50 200 (IZR (10 ^ 6))); [done|exact Him|lra|lra].
  - apply batch_ok, real_fint.
  - split_and!; first [apply real_fint|apply real_fdec].
Qed.

(** One worker, with a completion and a busy engine behind it. *)
Definition busy_history : list (Op xreal) :=
  [OpSetEngine "a" (mkEngineDict true (Some (fdec 9 (-1))) (Some (fint 12)) None);
   OpRegister "a" "small" (fint 24000) None;
   OpFeedback "a" (fint 900000) 10 true 0].

Lemma small_requests_admitted_witness :
  exists wid d, (pick (demo "nlms" "rank_only") "hi" "small" (Some 40) None
                   (run (demo "nlms" "rank_only") sched_init busy_history)).2 = Ok (wid, d).
Proof.
  apply (small_requests_admitted (demo_args "nlms" "rank_only") busy_history).
  - apply demo_cfg_real.
  - vm_compute. discriminate.
  - right. vm_compute. by left.
  - repeat constructor; cbn; try apply real_fint; try (intros ? [=]; done);
      apply real_if; intros _; first [apply real_fint|apply real_fdec|apply real_f0].
  - split; [done|vm_compute; discriminate].
  - assert (E : eligible (run (demo "nlms" "rank_only") sched_init busy_history) None = ["a"])
      by reflexivity.
    rewrite E. discriminate.
Defined.
