(* ===== verification/EngineProps.v ===== *)
(** Properties of the engine telemetry: the scrape is total and its figures are
    sane, and well-formed exposition text is read exactly. *)

From S2P Require Import Prelude PyFloat PyStr PyDict EngineMetrics Config Learner Admission.
From S2P Require Import Scheduler.

Section Exposition.
Context {F : Type} {PF : PyFloat F}.

(** One sample of the text format, before rendering. *)
Record Sample : Type := mkSample {
  sp_head : ascii;
  sp_tail : list ascii;
  sp_labels : option (list ascii);
  sp_int : list ascii;
  sp_frac : list ascii
}.

Definition sp_name (p : Sample) : string := unchars (sp_head p :: sp_tail p).

Definition sp_value (p : Sample) : F :=
  fdec (nat_of_digits (sp_int p ++ sp_frac p)) (0 - Z.of_nat (length (sp_frac p))).

Definition frac_part (fr : list ascii) : list ascii :=
  match fr with [] => [] | _ => "."%char :: fr end.

(** [name{labels} int.frac]. *)
Definition sp_render (p : Sample) : list ascii :=
  (sp_head p :: sp_tail p ++
   match sp_labels p with Some ls => "{"%char :: ls ++ ["}"%char] | None => [] end ++
   " "%char :: sp_int p ++ frac_part (sp_frac p))%list.

Definition label_char (c : ascii) : bool :=
  negb (bool_decide (c = "}"%char)) && negb (is_linebreak c).

Definition sp_ok (p : Sample) : bool :=
  is_name_start (sp_head p) && forallb is_name_char (sp_tail p) &&
  match sp_labels p with Some ls => forallb label_char ls | None => true end &&
  negb (Nat.eqb (length (sp_int p)) 0) && forallb is_decimal (sp_int p) &&
  forallb is_decimal (sp_frac p).

(** The rendered lines, each ended by a newline. *)
Definition exposition (l : list Sample) : string :=
  unchars (concat (map (fun p => sp_render p ++ ["010"%char])%list l)).

(** *** Lexing lemmas *)

Lemma span_all p a c r :
  forallb p a = true -> p c = false -> span p (a ++ c :: r)%list = (a, c :: r).
Proof.
  intros Ha Hc. induction a as [|x a IH]; simpl in *; [by rewrite Hc|].
  bool_hyps. rewrite H. by rewrite IH.
Qed.

Lemma span_end p a : forallb p a = true -> span p a = (a, []).
Proof.
  intros Ha. induction a as [|x a IH]; simpl in *; [done|]. bool_hyps. rewrite H. by rewrite IH.
Qed.

Definition class_ok (c : ascii) : bool :=
  implb (is_name_char c) (negb (is_space c) && negb (is_linebreak c) &&
                          negb (bool_decide (c = "#"%char))) &&
  implb (is_decimal c) (negb (is_space c) && negb (is_linebreak c)).

Lemma class_ok_all : forallb (fun n => class_ok (ascii_of_nat n)) (seq 0 256) = true.
Proof. vm_compute. reflexivity. Qed.

Lemma name_char_class c :
  is_name_char c = true -> is_space c = false /\ is_linebreak c = false /\ c <> "#"%char.
Proof.
  intros E. pose proof (forall_ascii class_ok class_ok_all c) as H.
  unfold class_ok in H. rewrite E in H. apply andb_true_iff in H as [H _]. simpl in H.
  bool_hyps. split_and!; try done. intros ->. done.
Qed.

Lemma decimal_class c : is_decimal c = true -> is_space c = false /\ is_linebreak c = false.
Proof.
  intros E. pose proof (forall_ascii class_ok class_ok_all c) as H.
  unfold class_ok in H. rewrite E in H. apply andb_true_iff in H as [_ H]. simpl in H.
  by bool_hyps.
Qed.

Lemma parse_number_decimal a b :
  a <> [] -> forallb is_decimal a = true -> forallb is_decimal b = true ->
  parse_number (a ++ frac_part b)%list
  = Some (fdec (nat_of_digits (a ++ b)) (0 - Z.of_nat (length b)) : F).
Proof.
  intros Hne Ha Hb. destruct a as [|x a]; [done|].
  assert (Hx : x <> "-"%char /\ x <> "+"%char).
  { simpl in Ha. apply andb_true_iff in Ha as [Hx _]. split; intros ->; vm_compute in Hx; done. }
  assert (Hl : forall l, match (x :: l)%list with
      | "-"%char :: r => (true, r) | "+"%char :: r => (false, r) | _ => (false, (x :: l)%list) end
      = (false, (x :: l)%list)).
  { intros l. destruct Hx as [H1 H2]. destruct x as [[] [] [] [] [] [] [] []]; first [reflexivity|congruence]. }
  unfold parse_number. rewrite <- app_comm_cons. rewrite Hl.
  destruct b as [|y b]; unfold frac_part.
  - rewrite !app_nil_r. rewrite (span_end is_decimal (x :: a)) by done. simpl. by rewrite app_nil_r.
  - rewrite app_comm_cons, (span_all is_decimal (x :: a) "." (y :: b)) by done.
    rewrite (span_end is_decimal (y :: b)) by done. simpl length. cbn [Nat.eqb negb].
    simpl parse_exponent. done.
Qed.

(** The parts of a well-formed sample. *)
Lemma sp_ok_inv p :
  sp_ok p = true ->
  is_name_start (sp_head p) = true /\ forallb is_name_char (sp_tail p) = true /\
  (match sp_labels p with Some ls => forallb label_char ls | None => true end) = true /\
  sp_int p <> [] /\ forallb is_decimal (sp_int p) = true /\
  forallb is_decimal (sp_frac p) = true.
Proof.
  unfold sp_ok. intros H. bool_hyps. split_and!; try done. by destruct (sp_int p).
Qed.

Lemma sp_head_class p :
  sp_ok p = true -> is_space (sp_head p) = false /\ is_linebreak (sp_head p) = false /\
  sp_head p <> "#"%char.
Proof.
  intros (H & _)%sp_ok_inv. apply name_char_class. unfold is_name_char. by rewrite H.
Qed.

(** A rendered sample ends with a digit. *)
Lemma sp_render_last p :
  sp_ok p = true -> exists l c, sp_render p = (l ++ [c])%list /\ is_decimal c = true.
Proof.
  intros (_ & _ & _ & Hne & Hi & Hf)%sp_ok_inv. unfold sp_render.
  set (pre := match sp_labels p with Some ls => _ | None => _ end).
  destruct (sp_frac p) as [|f fr] eqn:E; unfold frac_part.
  - rewrite app_nil_r. destruct (exists_last Hne) as (i & c & Ei). rewrite Ei in *.
    exists (sp_head p :: sp_tail p ++ pre ++ " "%char :: i)%list, c. split.
    + do 3 (simpl; rewrite <- ?app_assoc). done.
    + rewrite forallb_app in Hi. bool_hyps. simpl in *. by bool_hyps.
  - destruct (@exists_last _ (f :: fr)) as (i & c & Ei); [done|]. rewrite Ei in *.
    exists (sp_head p :: sp_tail p ++ pre ++ " "%char :: sp_int p ++ "."%char :: i)%list, c. split.
    + do 3 (simpl; rewrite <- ?app_assoc). done.
    + rewrite forallb_app in Hf. bool_hyps. simpl in *. by bool_hyps.
Qed.

Lemma parse_sample_render p :
  sp_ok p = true -> parse_sample (unchars (sp_render p)) = Some (sp_name p, sp_value p).
Proof.
  intros Hok. pose proof (sp_render_last p Hok) as (l0 & c0 & Elast & Hc0).
  destruct (sp_ok_inv p Hok) as (Hh & Ht & Hl & Hne & Hi & Hf).
  unfold parse_sample. rewrite String.list_ascii_of_string_of_list_ascii.
  unfold sp_render in *. rewrite Hh.
  set (num := (sp_int p ++ frac_part (sp_frac p))%list) in *.
  assert (Hnum : strip_right is_space num = num).
  { assert (Hn : num <> []) by (unfold num; by destruct (sp_int p)).
    destruct (exists_last Hn) as (i & c & Ei). rewrite Ei. apply strip_right_id.
    assert (Ec : c = c0).
    { rewrite Ei in Elast. rewrite !app_comm_cons, !app_assoc in Elast.
      apply app_inj_tail in Elast. by destruct Elast. }
    subst. by apply decimal_class. }
  assert (Hskip : forall ws, skip_labels
    (match sp_labels p with Some ls => "{"%char :: ls ++ ["}"%char] | None => [] end
       ++ " "%char :: ws)%list = Some (" "%char :: ws)).
  { intros ws. destruct (sp_labels p) as [ls|]; [|done].
    rewrite <- app_comm_cons, <- app_assoc. simpl.
    rewrite span_all; [done| |done]. eapply forallb_imp, Hl.
    intros c E. unfold label_char in E. by apply andb_true_iff in E as [? _]. }
  assert (Hspan : span is_name_char (sp_tail p ++
    match sp_labels p with Some ls => "{"%char :: ls ++ ["}"%char] | None => [] end
    ++ " "%char :: num)%list = (sp_tail p,
    match sp_labels p with Some ls => "{"%char :: ls ++ ["}"%char] | None => [] end
    ++ " "%char :: num)%list).
  { destruct (sp_labels p) as [ls|]; simpl; by apply span_all. }
  rewrite Hspan, Hskip. simpl.
  assert (Hws : span is_space (" "%char :: num) = ([" "%char], num)).
  { unfold num. destruct (sp_int p) as [|x a]; [done|]. simpl in Hi. bool_hyps.
    rewrite <- app_comm_cons.
    match goal with |- context [(x :: ?r)%list] =>
      exact (span_all is_space [" "%char] x r eq_refl ltac:(by apply decimal_class)) end. }
  simpl in Hws. rewrite Hws, Hnum.
  assert (Hv : parse_number num = Some (sp_value p)) by (by apply parse_number_decimal).
  rewrite Hv. done.
Qed.

(** *** Lines *)

Lemma splitlines_line cur l rest :
  forallb (fun c => negb (is_linebreak c)) l = true ->
  splitlines_from cur (unchars (l ++ "010"%char :: rest)%list)
  = unchars (rev cur ++ l)%list :: splitlines_from [] (unchars rest).
Proof.
  revert cur; induction l as [|c l IH]; intros cur Hl.
  - rewrite app_nil_r. simpl. f_equal. by destruct rest.
  - simpl in Hl. bool_hyps. simpl.
    match goal with H : is_linebreak c = false |- _ => rewrite H end.
    rewrite IH by done. simpl. by rewrite <- app_assoc.
Qed.

Lemma sp_render_no_linebreak p :
  sp_ok p = true -> forallb (fun c => negb (is_linebreak c)) (sp_render p) = true.
Proof.
  intros Hok. destruct (sp_head_class p Hok) as (_ & Hh & _).
  destruct (sp_ok_inv p Hok) as (_ & Ht & Hl & _ & Hi & Hf).
  assert (Hd : forall l, forallb is_decimal l = true ->
            forallb (fun c => negb (is_linebreak c)) l = true).
  { intros l. apply forallb_imp. intros c Hc. by destruct (decimal_class c Hc) as [_ ->]. }
  unfold sp_render. simpl. rewrite Hh, !forallb_app. simpl.
  rewrite !andb_true_iff. split_and!; try done.
  - revert Ht. apply forallb_imp. intros c Hc. by destruct (name_char_class c Hc) as (_ & -> & _).
  - destruct (sp_labels p) as [ls|]; [|done]. simpl. rewrite forallb_app. simpl.
    rewrite andb_true_r. revert Hl. apply forallb_imp.
    intros c Hc. unfold label_char in Hc. by apply andb_true_iff in Hc as [_ ?].
  - rewrite forallb_app, (Hd (sp_int p)) by done. simpl.
    unfold frac_part. destruct (sp_frac p) as [|f fr] eqn:E; [done|]. simpl. by apply (Hd (f :: fr)).
Qed.

Lemma parse_line_render out p :
  sp_ok p = true ->
  parse_line out (unchars (sp_render p)) = dset (sp_name p) (sp_value p) out.
Proof.
  intros Hok. destruct (sp_head_class p Hok) as (Hs & _ & Hsharp).
  destruct (sp_render_last p Hok) as (l & c & El & Hc).
  assert (Hstrip : strip (unchars (sp_render p)) = unchars (sp_render p)).
  { unfold strip. rewrite String.list_ascii_of_string_of_list_ascii.
    assert (Ed : drop_while is_space (sp_render p) = sp_render p)
      by (unfold sp_render; simpl; by rewrite Hs).
    rewrite Ed, El, strip_right_id; [done|]. by apply decimal_class. }
  unfold parse_line. rewrite Hstrip.
  assert (Hno : startswith "#" (unchars (sp_render p)) = false).
  { unfold sp_render. simpl. by rewrite bool_decide_eq_false_2. }
  rewrite Hno. change (str_truth (unchars (sp_render p))) with true. simpl orb. cbv iota.
  by rewrite parse_sample_render.
Qed.

(** C30. Well-formed exposition text is read exactly: for every list of samples
    (any legal metric name, optional labels, a decimal value) the parser
    returns the dict of the names to the decimal values, the last sample of a
    name winning and the labels ignored. *)
Theorem exposition_roundtrip (l : list Sample) :
  forallb sp_ok l = true ->
  parse_prometheus_text (exposition l)
  = foldl (fun d p => dset (sp_name p) (sp_value p) d) [] l.
Proof.
  intros Hl. unfold parse_prometheus_text, splitlines.
  cut (forall out, foldl parse_line out (splitlines_from [] (exposition l))
       = foldl (fun d p => dset (sp_name p) (sp_value p) d) out l); [by intros ->|].
  induction l as [|p l IH]; intros out; [done|]. simpl in Hl. bool_hyps.
  unfold exposition in *. cbn [map concat].
  rewrite <- app_assoc. cbn [app].
  rewrite splitlines_line by (by apply sp_render_no_linebreak).
  cbn [rev app foldl]. rewrite parse_line_render by done. by apply IH.
Qed.
End Exposition.

Section Telemetry.
Context {F : Type} {PF : PyFloat F} {PL : PyFloatLaws F}.

(** Whatever an engine answers, an HTTP error, a refused connection or any
    text at all, the scrape returns a snapshot whose KV usage and prefix hit
    rate are in [0, 1] and whose queue lengths are non-negative numbers. *)
Theorem scrape_is_sane (now : F) r :
  snapshot_sane (scrape_metrics now r) /\
  (snap_ok (scrape_metrics now r) = true -> exists text, exists st,
     r = ScrapeHttp st text /\ st < 400 /\ raw_keys (scrape_metrics now r) <> []).
Proof.
  split; [apply scrape_metrics_sane|]. destruct r as [st text|t]; simpl; [|done].
  destruct (Z.leb_spec 400 st); [done|]. unfold snapshot_from_metrics.
  destruct (parse_prometheus_text text) eqn:E; [done|]. intros _. by exists text, st.
Qed.

(** Between two scrapes the reported prefix-cache deltas are never negative,
    a counter reset included, and the interval hit rate is zero when no query
    was counted. *)
Theorem hit_rate_delta_sane (before after : EngineSnapshot F) :
  let '(dh, dq, rate) := prefix_hit_rate_delta before after in
  fle f0 dh = true /\ fle f0 dq = true /\ (fisnan rate = false -> fle f0 rate = true) /\
  (flt f0 dq = false -> rate = f0).
Proof.
  pose proof (hit_rate_delta_nonneg before after) as H. unfold prefix_hit_rate_delta in *.
  destruct H as (H1 & H2 & H3). split_and!; try done. by intros ->.
Qed.
End Telemetry.

Definition demo_samples : list Sample :=
  [mkSample "v" (chars "llm:num_requests_waiting") (Some (chars "model=m")) ["3"%char] ["5"%char];
   mkSample "k" (chars "v_cache_usage_perc") None ["0"%char] (chars "25")].

Lemma exposition_roundtrip_witness :
  parse_prometheus_text (exposition demo_samples)
  = [("vllm:num_requests_waiting", fdec 35 (-1) : float); ("kv_cache_usage_perc", fdec 25 (-2))].
Proof.
  rewrite (exposition_roundtrip demo_samples (eq_refl true)). vm_compute. reflexivity.
Defined.

Lemma scrape_is_sane_witness :
  snap_ok (scrape_metrics (fint 0 : float) (ScrapeHttp 200 (exposition demo_samples))) = true /\
  raw_keys (scrape_metrics (fint 0 : float) (ScrapeHttp 200 (exposition demo_samples))) <> [].
Proof.
  assert (H : snap_ok (scrape_metrics (fint 0 : float)
    (ScrapeHttp 200 (exposition demo_samples))) = true) by (vm_compute; reflexivity).
  split; [exact H|].
  destruct (proj2 (scrape_is_sane (fint 0 : float) _) H) as (text & st & _ & _ & Hk). exact Hk.
Defined.

(** An engine restart: the counters went back to zero between the scrapes. *)
Lemma hit_rate_delta_sane_witness :
  let snap (h q : Z) := mkSnap (f0 : float) f0 f0 f0 (fint h) (fint q) f0 true "" [] in
  (prefix_hit_rate_delta (snap 10 20) (snap 0 0)).2 = f0.
Proof.
  intros snap. pose proof (hit_rate_delta_sane (snap 10 20) (snap 0 0)) as H.
  destruct (prefix_hit_rate_delta (snap 10 20) (snap 0 0)) as [[dh dq] rate] eqn:E.
  apply H. vm_compute in E. by injection E as <- <- <-.
Defined.
