(* ===== verification/Json.v ===== *)
(** JSON values as Python objects: what [json.loads] returns, and the operations
    the gateway applies to such values (truth value, [get], [isinstance], [int],
    [float], [str], [repr]), with the exceptions they raise. *)

From S2P Require Import Prelude PyFloat PyStr PyDict.

(** The exceptions the modelled code can raise, as far as it tells them apart. *)
Inductive PyExc : Type :=
| TypeError
| AttributeError
| ValueError (message : string)
| KeyMissing (key : string)
| IndexMissing
| OverflowError
| OtherExc.

Section Json.
Context {F : Type} {PF : PyFloat F}.

(** A JSON value; the keys of an object are in insertion order. *)
Inductive json : Type :=
| JNull
| JBool (b : bool)
| JInt (z : Z)
| JFloat (x : F)
| JStr (s : string)
| JList (l : list json)
| JDict (d : list (string * json)).

(** [bool(v)]. *)
Definition truthy (v : json) : bool :=
  match v with
  | JNull => false
  | JBool b => b
  | JInt z => negb (z =? 0)
  | JFloat x => ftruth x
  | JStr s => str_truth s
  | JList l => negb (Nat.eqb (length l) 0)
  | JDict d => negb (Nat.eqb (length d) 0)
  end.

Definition is_none (v : json) : bool := match v with JNull => true | _ => false end.

(** [a or b]. *)
Definition jor (a b : json) : json := if truthy a then a else b.

(** [v.get(k)] and [v.get(k, default)]. *)
Definition jget_or (k : string) (default : json) (v : json) : result PyExc json :=
  match v with
  | JDict d => Ok (dget_or k default d)
  | _ => Err AttributeError
  end.

Definition jget (k : string) (v : json) : result PyExc json := jget_or k JNull v.

(** On a body that is known to be a dict. *)
Definition bget (k : string) (d : list (string * json)) : json := dget_or k JNull d.

(** ** [repr] and [str] *)

(** The decimal exponent of a positive float: the [e] with [10^e <= x < 10^(e+1)]. *)
Fixpoint dec_exponent (fuel : nat) (e : Z) (x : F) : Z :=
  match fuel with
  | O => e
  | S fuel' => if fle (fdec 1 e) x then e else dec_exponent fuel' (e - 1) x
  end.

(** The shortest digit string that reads back as [x] (17 digits always do). *)
Fixpoint shortest (fuel : nat) (n e : Z) (x : F) : Z * Z :=
  let k := n - 1 - e in
  match fuel with
  | O => (fscaled k x, k)
  | S fuel' =>
    if feq (fdec (fscaled k x) (- k)) x then (fscaled k x, k) else shortest fuel' (n + 1) e x
  end.

Definition zeros (n : Z) : string := unchars (repeat "0"%char (Z.to_nat n)).

(** Strip trailing zeros of a digit string, at least one digit kept. *)
Definition sig_digits (s : string) : string :=
  match strip_right (fun c => bool_decide (c = "0"%char)) (chars s) with
  | [] => "0"
  | l => unchars l
  end.

(** [repr] of a positive finite float from its digits and decimal exponent. *)
Definition float_layout (ds : string) (e : Z) : string :=
  let n := str_len ds in
  if (-4 <=? e) && (e <? 16) then
    if e <? 0 then "0." ++ zeros (- e - 1) ++ ds
    else if n <=? e + 1 then ds ++ zeros (e + 1 - n) ++ ".0"
    else str_take (Z.to_nat (e + 1)) ds ++ "." ++ str_drop (Z.to_nat (e + 1)) ds
  else
    let mant := if n =? 1 then ds else str_take 1 ds ++ "." ++ str_drop 1 ds in
    let a := Z.abs e in
    mant ++ (if e <? 0 then "e-" else "e+") ++ (if a <? 10 then "0" else "") ++ str_of_Z a.

Definition float_repr (x : F) : string :=
  if fisnan x then "nan"
  else if fisinf x then (if flt x f0 then "-inf" else "inf")
  else if feq x f0 then (if flt (fdiv f1 x) f0 then "-0.0" else "0.0")
  else
    let a := fabs x in
    let e := dec_exponent 640 309 a in
    let '(m, k) := shortest 16 1 e a in
    let ds := str_of_Z m in
    (if flt x f0 then "-" else "") ++
    float_layout (sig_digits ds) (str_len ds - 1 - k).

Definition hex_digit (n : Z) : ascii := if n <? 10 then chr (48 + n) else chr (87 + n).

Definition printable (c : ascii) : bool :=
  let n := code c in in_range 32 126 n || (in_range 161 255 n && negb (n =? 173)).

Definition repr_char (quote : ascii) (c : ascii) : string :=
  let n := code c in
  if bool_decide (c = quote) || (n =? 92) then String "\" (String c "")
  else if n =? 9 then "\t" else if n =? 10 then "\n" else if n =? 13 then "\r"
  else if printable c then String c ""
  else "\x" ++ String (hex_digit (n / 16)) (String (hex_digit (n mod 16)) "").

(** [repr(s)]: single quotes unless the string has one and no double quote. *)
Definition str_repr (s : string) : string :=
  let quote := if has_char "'" s && negb (has_char "034" s) then "034"%char else "'"%char in
  String quote "" ++ join "" (map (repr_char quote) (chars s)) ++ String quote "".

Fixpoint jrepr (v : json) : string :=
  match v with
  | JNull => "None"
  | JBool true => "True"
  | JBool false => "False"
  | JInt z => str_of_Z z
  | JFloat x => float_repr x
  | JStr s => str_repr s
  | JList l => "[" ++ join ", " (map jrepr l) ++ "]"
  | JDict d => "{" ++ join ", " (map (fun kv => str_repr kv.1 ++ ": " ++ jrepr kv.2) d) ++ "}"
  end.

(** [str(v)], and what an f-string inserts for [{v}]. *)
Definition jstr (v : json) : string := match v with JStr s => s | _ => jrepr v end.

(** ** Conversions *)

(** A run of digits with single underscores between digits. *)
Fixpoint digit_run (prev : bool) (l : list ascii) : list ascii * list ascii :=
  match l with
  | c :: l' =>
    if is_decimal c then let '(a, b) := digit_run true l' in (c :: a, b)
    else if bool_decide (c = "_"%char) && prev then
      match l' with
      | c2 :: _ => if is_decimal c2 then digit_run false l' else ([], l)
      | [] => ([], l)
      end
    else ([], l)
  | [] => ([], [])
  end.

Definition digits_value (l : list ascii) : Z := foldl (fun acc c => 10 * acc + (code c - 48)) 0 l.

(** [float(s)]. *)
Definition float_of_str (s : string) : option F :=
  let l := chars (strip s) in
  let '(neg, l) := match l with
    | "-"%char :: r => (true, r) | "+"%char :: r => (false, r) | _ => (false, l) end in
  let sign (x : F) := if neg then fopp x else x in
  let w := lower (unchars l) in
  if str_eqb w "inf" || str_eqb w "infinity" then Some (sign finf)
  else if str_eqb w "nan" then Some (fsub finf finf)
  else
    let '(a, rest) := digit_run false l in
    let '(b, rest) := match rest with
      | "."%char :: r => digit_run false r | _ => ([], rest) end in
    if Nat.eqb (length (a ++ b)) 0 then None
    else
      match rest with
      | [] => Some (sign (fdec (digits_value (a ++ b)) (- Z.of_nat (length b))))
      | c :: r =>
        if bool_decide (c = "e"%char) || bool_decide (c = "E"%char) then
          let '(eneg, r) := match r with
            | "-"%char :: r' => (true, r') | "+"%char :: r' => (false, r') | _ => (false, r) end in
          let '(ds, rest) := digit_run false r in
          match ds, rest with
          | _ :: _, [] =>
            let e := if eneg then - digits_value ds else digits_value ds in
            Some (sign (fdec (digits_value (a ++ b)) (e - Z.of_nat (length b))))
          | _, _ => None
          end
        else None
      end.

(** [float(v)]. *)
Definition jfloat (v : json) : result PyExc F :=
  match v with
  | JBool b => Ok (if b then f1 else f0)
  | JInt z => if fisinf (fint z : F) then Err OverflowError else Ok (fint z)
  | JFloat x => Ok x
  | JStr s => match float_of_str s with
              | Some x => Ok x
              | None => Err (ValueError ("could not convert string to float: " ++ str_repr s))
              end
  | _ => Err TypeError
  end.

(** [int(v)]. *)
Definition jint (v : json) : result PyExc Z :=
  match v with
  | JBool b => Ok (if b then 1 else 0)
  | JInt z => Ok z
  | JFloat x => if fisnan x then Err (ValueError "cannot convert float NaN to integer")
                else if fisinf x then Err OverflowError else Ok (ftrunc x)
  | JStr s => match int_of_str s with
              | Some z => Ok z
              | None => Err (ValueError ("invalid literal for int() with base 10: " ++ str_repr s))
              end
  | _ => Err TypeError
  end.

(** ** [json.dumps] and [json.loads] *)

(** One character of a JSON string with [ensure_ascii]. *)
Definition dump_char (c : ascii) : string :=
  let n := code c in
  if n =? 34 then "\" ++ String c "" else if n =? 92 then "\\"
  else if n =? 10 then "\n" else if n =? 13 then "\r" else if n =? 9 then "\t"
  else if n =? 12 then "\f" else if n =? 8 then "\b"
  else if in_range 32 126 n then String c ""
  else "\u00" ++ String (hex_digit (n / 16)) (String (hex_digit (n mod 16)) "").

Definition dquote : string := String "034" "".

Definition dump_str (s : string) : string := dquote ++ join "" (map dump_char (chars s)) ++ dquote.

Definition dump_float (x : F) : string :=
  if fisnan x then "NaN"
  else if fisinf x then (if flt x f0 then "-Infinity" else "Infinity")
  else float_repr x.

Fixpoint dumps (v : json) : string :=
  match v with
  | JNull => "null"
  | JBool true => "true"
  | JBool false => "false"
  | JInt z => str_of_Z z
  | JFloat x => dump_float x
  | JStr s => dump_str s
  | JList l => "[" ++ join ", " (map dumps l) ++ "]"
  | JDict d => "{" ++ join ", " (map (fun kv => dump_str kv.1 ++ ": " ++ dumps kv.2) d) ++ "}"
  end.

Definition json_space (c : ascii) : bool := bool_decide (code c ∈ [32; 9; 10; 13]).

Definition hex_value (c : ascii) : option Z :=
  let n := code c in
  if in_range 48 57 n then Some (n - 48)
  else if in_range 97 102 n then Some (n - 87)
  else if in_range 65 70 n then Some (n - 55)
  else None.

(** The escapes of a JSON string; code points above U+00FF are outside the
    strings of this development and rejected. *)
Definition unescape (c : ascii) : option ascii :=
  let n := code c in
  if (n =? 34) || (n =? 92) || (n =? 47) then Some c
  else if n =? 110 then Some (chr 10) else if n =? 114 then Some (chr 13)
  else if n =? 116 then Some (chr 9) else if n =? 102 then Some (chr 12)
  else if n =? 98 then Some (chr 8) else None.

(** The characters of a string up to its closing quote, and the rest. *)
Fixpoint load_chars (l : list ascii) : option (list ascii * list ascii) :=
  match l with
  | [] => None
  | c :: l' =>
    if code c =? 34 then Some ([], l')
    else if code c =? 92 then
      match l' with
      | e :: l'' =>
        if code e =? 117 then
          match l'' with
          | a :: b :: c :: d :: r =>
            match hex_value a, hex_value b, hex_value c, hex_value d with
            | Some 0, Some 0, Some x, Some y =>
              match load_chars r with
              | Some (s, rest) => Some (chr (16 * x + y) :: s, rest)
              | None => None
              end
            | _, _, _, _ => None
            end
          | _ => None
          end
        else
          match unescape e, load_chars l'' with
          | Some x, Some (s, rest) => Some (x :: s, rest)
          | _, _ => None
          end
      | [] => None
      end
    else if code c <? 32 then None
    else match load_chars l' with
         | Some (s, rest) => Some (c :: s, rest)
         | None => None
         end
  end.

(** The longest run of decimal digits. *)
Fixpoint load_digits (l : list ascii) : list ascii * list ascii :=
  match l with
  | c :: l' => if is_decimal c then let '(a, b) := load_digits l' in (c :: a, b) else ([], l)
  | [] => ([], [])
  end.

(** The integer part: a zero, or digits that do not start with one. *)
Definition load_int (l : list ascii) : option (list ascii * list ascii) :=
  match load_digits l with
  | ([], _) => None
  | (c :: ds, rest) =>
    if bool_decide (c = "0"%char) then Some ([c], ds ++ rest)%list else Some (c :: ds, rest)
  end.

(** The exponent, when there is a well-formed one. *)
Definition load_exp (l : list ascii) : option (Z * list ascii) :=
  match l with
  | c :: r =>
    if bool_decide (c = "e"%char) || bool_decide (c = "E"%char) then
      let '(neg, r) := match r with
        | "-"%char :: r' => (true, r') | "+"%char :: r' => (false, r') | _ => (false, r) end in
      match load_digits r with
      | ([], _) => None
      | (ds, rest) => Some (if neg : bool then - digits_value ds else digits_value ds, rest)
      end
    else None
  | [] => None
  end.

Definition load_number (l : list ascii) : option (json * list ascii) :=
  let '(neg, r) := match l with "-"%char :: r => (true, r) | _ => (false, l) end in
  match load_int r with
  | None => None
  | Some (a, rest) =>
    let '(b, rest1) := match rest with
      | "."%char :: r' => match load_digits r' with ([], _) => ([], rest) | x => x end
      | _ => ([], rest) end in
    let '(e, rest2) := match load_exp rest1 with
      | Some (e, r') => (Some e, r') | None => (None, rest1) end in
    match b, e with
    | [], None => let z := digits_value a in Some (JInt (if neg then - z else z), rest)
    | _, _ =>
      let x := fdec (digits_value (a ++ b)) (default 0 e - Z.of_nat (length b)) in
      Some (JFloat (if neg then fopp x else x), rest2)
    end
  end.

Definition skip_ws (l : list ascii) : list ascii := drop_while json_space l.

(** [p] is a prefix of [l]: the rest. *)
Fixpoint eat (p l : list ascii) : option (list ascii) :=
  match p, l with
  | [], _ => Some l
  | c :: p', c' :: l' => if decide (c = c') then eat p' l' else None
  | _ :: _, [] => None
  end.

Definition literals : list (string * json) :=
  [("null", JNull); ("true", JBool true); ("false", JBool false);
   ("NaN", JFloat (fsub finf finf)); ("Infinity", JFloat finf);
   ("-Infinity", JFloat (fopp finf))].

Fixpoint load_literal (ws : list (string * json)) (l : list ascii) : option (json * list ascii) :=
  match ws with
  | [] => None
  | (w, v) :: ws' => match eat (chars w) l with
                     | Some rest => Some (v, rest)
                     | None => load_literal ws' l
                     end
  end.

(** One value; [fuel] bounds the nesting and the number of items together. *)
Fixpoint load_value (fuel : nat) (l : list ascii) : option (json * list ascii) :=
  match fuel with
  | O => None
  | S fuel' =>
    match l with
    | "034"%char :: l' =>
      match load_chars l' with Some (s, r) => Some (JStr (unchars s), r) | None => None end
    | "["%char :: l' =>
      match skip_ws l' with
      | "]"%char :: r => Some (JList [], r)
      | r => match load_items fuel' r with Some (vs, r') => Some (JList vs, r') | None => None end
      end
    | "{"%char :: l' =>
      match skip_ws l' with
      | "}"%char :: r => Some (JDict [], r)
      | r => match load_fields fuel' [] r with
             | Some (d, r') => Some (JDict d, r') | None => None end
      end
    | _ => match load_literal literals l with
           | Some x => Some x
           | None => load_number l
           end
    end
  end
with load_items (fuel : nat) (l : list ascii) : option (list json * list ascii) :=
  match fuel with
  | O => None
  | S fuel' =>
    match load_value fuel' l with
    | None => None
    | Some (v, r) =>
      match skip_ws r with
      | "]"%char :: r' => Some ([v], r')
      | ","%char :: r' =>
        match load_items fuel' (skip_ws r') with
        | Some (vs, r'') => Some (v :: vs, r'')
        | None => None
        end
      | _ => None
      end
    end
  end
with load_fields (fuel : nat) (d : list (string * json)) (l : list ascii) :
    option (list (string * json) * list ascii) :=
  match fuel with
  | O => None
  | S fuel' =>
    match l with
    | "034"%char :: l' =>
      match load_chars l' with
      | None => None
      | Some (k, r) =>
        match skip_ws r with
        | ":"%char :: r =>
          match load_value fuel' (skip_ws r) with
          | None => None
          | Some (v, r) =>
            let d := dset (unchars k) v d in
            match skip_ws r with
            | "}"%char :: r' => Some (d, r')
            | ","%char :: r' => load_fields fuel' d (skip_ws r')
            | _ => None
            end
          end
        | _ => None
        end
      end
    | _ => None
    end
  end.

(** [json.loads(text)]; [None] is the [JSONDecodeError]. *)
Definition loads (text : string) : option json :=
  let l := skip_ws (chars text) in
  match load_value (2 * length l + 2) l with
  | Some (v, rest) => match skip_ws rest with [] => Some v | _ => None end
  | None => None
  end.
End Json.
Arguments json F : clear implicits.

(** ** Examples against CPython *)

Example jrepr_ex :
  jrepr (JDict [("a", JList [JInt 1; JNull; JStr "it's"]); ("b", JBool true)] : json float)
  = "{'a': [1, None, " ++ String "034" "it's" ++ String "034" "], 'b': True}".
Proof. vm_compute. reflexivity. Qed.

Example float_of_str_ex :
  map float_of_str [" 1_0.5e1 "; "-.5"; "abc"; "1e"]
  = [Some (fint 105); Some (fdec (-5) (-1) : float); None; None].
Proof. vm_compute. reflexivity. Qed.

Definition sample_json : json float :=
  JDict [("id", JStr "a"); ("n", JInt (-12)); ("x", JBool false);
         ("l", JList [JNull; JBool true; JDict []; JStr (String (chr 10) (String "034" "z"))])].

Example dumps_loads_ex : loads (dumps sample_json) = Some sample_json.
Proof. vm_compute. reflexivity. Qed.
