(* ===== verification/ResultStats.v ===== *)
(** The statistics the experiment scripts of [dio-serve/scripts] report: means and
    percentiles, the least-squares fit of [run_regime_d_hetero.py], the exact signed-rank
    test of [audit_g1_confound.py], the per-seed values and the paired comparison of
    [reanalyze_committed_results.py], and the runs of [run_t2_multiseed.py]. *)

From S2P Require Import Prelude PyFloat PyStats PyStr PyDict PySort Config Learner Admission.
From S2P Require Import EngineMetrics Scheduler Simulation Json.

Section Stats.
Context {F : Type} {PF : PyFloat F} {PS : PyStats F}.
Local Open Scope float_scope.

(** ** Means *)

(** [mean_std] of [run_regime_d_hetero.py]: absent values are left out. *)
Record MeanStd : Type := mkMeanStd { ms_mean : option F; ms_std : option F; ms_n : Z }.

Definition mean_std_given (xs : list (option F)) : MeanStd :=
  match omap id xs with
  | [] => mkMeanStd None None 0
  | [x] => mkMeanStd (Some (mean [x])) (Some f0) 1
  | vals => mkMeanStd (Some (mean vals)) (Some (stdev vals)) (Z.of_nat (length vals))
  end.

(** [mean_std] of [run_mock_hetero_concurrency.py]: NaN is left out as well ([x == x]), and
    the deviation is the one of a population. *)
Definition mean_pstd (xs : list (option F)) : MeanStd :=
  match filter (fun x => fisnan x = false) (omap id xs) with
  | [] => mkMeanStd None None 0
  | [x] => mkMeanStd (Some (mean [x])) (Some f0) 1
  | vals => mkMeanStd (Some (mean vals)) (Some (pstdev vals)) (Z.of_nat (length vals))
  end.

(** [msc]: with the half width of a normal 95% interval. *)
Definition half_width (sd : F) (n : Z) : F := fdec 196 (-2) * sd / fsqrt (fint n).
Definition msc (xs : list F) : F * F * F :=
  let n := Z.of_nat (length xs) in
  if (1 <? n)%Z then (mean xs, stdev xs, half_width (stdev xs) n) else (mean xs, f0, f0).

(** ** Percentiles *)

(** Linear interpolation, [run_regime_d_hetero.py]. *)
Definition lerp_at (ys : list F) (k : F) : F :=
  let last := (Z.of_nat (length ys) - 1)%Z in
  let lo := ftrunc k in
  let hi := Z.min last (ftrunc k + 1) in
  if (lo =? hi)%Z then fnth ys lo
  else let t := k - fint lo in fnth ys lo * (f1 - t) + fnth ys hi * t.

Definition percentile_lerp (xs : list F) (p : F) : option F :=
  match fsorted xs with
  | [] => None
  | [y] => Some y
  | ys =>
    let k := py_max f0 (py_min (fint 100) p) / fint 100 * fint (Z.of_nat (length ys) - 1) in
    Some (lerp_at ys k)
  end.

(** [pct] of [run_mock_hetero_concurrency.py]: no clamp, and always the formula; [None]
    stands for NaN. *)
Definition pct_lerp (xs : list F) (p : F) : option F :=
  match fsorted xs with
  | [] => None
  | [y] => Some y
  | ys =>
    let last := (Z.of_nat (length ys) - 1)%Z in
    let k := p / fint 100 * fint last in
    let lo := ftrunc k in
    let t := k - fint lo in
    Some (fnth ys lo * (f1 - t) + fnth ys (Z.min last (lo + 1)) * t)
  end.

(** ** [ols_fit] *)

(** The outcome: too few points, a degenerate feature, or a fit. *)
Inductive Ols : Type :=
| OlsFew (n : Z)
| OlsDegenerate (n : Z)
| OlsFit (slope intercept : F) (n : Z) (r2 : option F) (spread : F * F * F).

Definition sum_fl (l : list F) : F := foldl fadd (fint 0) l.
Definition square (x : F) : F := x * x.

(** The points with a token count; [x and x > 0]. *)
Definition ols_points (pairs : list (F * F)) : list (F * F) :=
  filter (fun p => ftruth p.1 && (p.1 >? f0) = true) pairs.

Definition list_min (xs : list F) : F :=
  match xs with [] => f0 | x :: xs' => foldl py_min x xs' end.
Definition list_max (xs : list F) : F :=
  match xs with [] => f0 | x :: xs' => foldl py_max x xs' end.

Definition ols_fit (pairs : list (F * F)) : Ols :=
  let pts := ols_points pairs in
  let n := Z.of_nat (length pts) in
  if (n <? 3)%Z then OlsFew n
  else
    let xs := map fst pts in
    let ys := map snd pts in
    let mx := mean xs in
    let my := mean ys in
    let sxx := sum_fl (map (fun x => square (x - mx)) xs) in
    if sxx <=? fdec 1 (-12) then OlsDegenerate n
    else
      let sxy := sum_fl (map (fun p => (p.1 - mx) * (p.2 - my)) pts) in
      let slope := sxy / sxx in
      let intercept := my - slope * mx in
      let ss_tot := sum_fl (map (fun y => square (y - my)) ys) in
      let ss_res := sum_fl (map (fun p => square (p.2 - (slope * p.1 + intercept))) pts) in
      let r2 := if ss_tot >? fdec 1 (-12) then Some (f1 - ss_res / ss_tot) else None in
      OlsFit slope intercept n r2 (list_min xs, list_max xs, stdev xs).

(** ** [exact_wilcoxon] *)

(** The indices in the order of the absolute differences; [sorted] is stable. *)
Fixpoint insert_index (key : nat -> F) (i : nat) (l : list nat) : list nat :=
  match l with
  | [] => [i]
  | j :: l' => if key i <? key j then i :: l else j :: insert_index key i l'
  end.
Definition sort_indices (key : nat -> F) (n : nat) : list nat :=
  foldl (fun acc i => insert_index key i acc) [] (seq 0 n).

(** [for r, i in enumerate(order, start=1): ranks[i] = r]. *)
Definition assign_ranks (n : nat) (order : list nat) : list Z :=
  foldl (fun ranks '(r, i) => <[i := r]> ranks) (replicate n 0%Z)
    (zip (seqZ 1 (Z.of_nat n)) order).
Definition ranks_of (nz : list F) : list Z :=
  assign_ranks (length nz) (sort_indices (fun i => fabs (nth i nz f0)) (length nz)).

(** The sums of the ranks under every choice of signs, in the order of [product]. *)
Fixpoint sign_sums (ranks : list Z) : list Z :=
  match ranks with
  | [] => [0%Z]
  | r :: rs => let s := sign_sums rs in (s ++ map (Z.add r) s)%list
  end.

(** The sum of the ranks of the differences that satisfy a test. *)
Definition rank_sum (test : F -> bool) (nz : list F) (ranks : list Z) : Z :=
  sum_of (fun p => if test p.1 then p.2 else 0%Z) (zip nz ranks).

(** How many of the sums are as extreme as [w]. *)
Definition extreme_count (total w : Z) (sums : list Z) : Z :=
  Z.of_nat (length (filter (fun wp => Z.min wp (total - wp) <= w) sums)).

Record Wilcoxon : Type := mkWilcoxon {
  wx_n : Z;
  wx_plus : Z;
  wx_minus : Z;
  wx_w : Z;
  wx_count : Z;
  wx_p : F;
  wx_consistent : bool
}.

Definition exact_wilcoxon (diffs : list F) : Wilcoxon :=
  let nz := filter (fun d => (d =? f0) = false) diffs in
  let n := Z.of_nat (length nz) in
  let ranks := ranks_of nz in
  let w_plus := rank_sum (fun d => d >? f0) nz ranks in
  let w_minus := rank_sum (fun d => d <? f0) nz ranks in
  let w := Z.min w_plus w_minus in
  let count := extreme_count (n * (n + 1) / 2) w (sign_sums ranks) in
  let p := fint count / fint (2 ^ n) in
  mkWilcoxon n w_plus w_minus w count p (fabs (p - fdec 1 (-2)) <? fdec 1 (-2)).

(** ** Values read back from summaries *)

(** [finite]: a float, or nothing. *)
Definition finite_value (v : json F) : option F :=
  match jfloat v with
  | Ok x => if fisinf x || fisnan x then None else Some x
  | Err _ => None
  end.

(** [rows_values]: a row that is no dict raises. *)
Fixpoint rows_values (rows : list (json F)) (field : string) : result PyExc (list F) :=
  match rows with
  | [] => Ok []
  | row :: rows' =>
    v ← jget field row;
    vs ← rows_values rows' field;
    Ok (match finite_value v with Some x => x :: vs | None => vs end)
  end.

(** [per_seed]: the values of a configuration of a section. *)
Definition config_rows (section : json F) (config : string) : result PyExc (list (json F)) :=
  match section with
  | JDict d =>
    match dget "configs" d with
    | None => Err (KeyMissing "configs")
    | Some (JDict cs) =>
      match dget config cs with
      | None => Err (KeyMissing config)
      | Some c => v ← jget_or "per_seed" (JList []) c;
                  match v with JList l => Ok l | JDict [] | JStr "" => Ok []
                             | JDict _ | JStr _ => Err AttributeError | _ => Err TypeError end
      end
    | Some _ => Err TypeError
    end
  | _ => Err TypeError
  end.
Definition per_seed (section : json F) (config field : string) : result PyExc (list F) :=
  rows ← config_rows section config; rows_values rows field.

(** ** [paired_stats] *)

(** numpy's mean, standard deviation with [ddof=1] and percentile, and the indices the
    generator draws for [draws] samples of [n]. *)
Variables (np_mean np_std : list F -> F) (np_percentile : list F -> F -> F).
Variable resamples : nat -> list (list nat).

Record Paired : Type := mkPaired {
  pd_n : Z;
  pd_treatment_mean : F;
  pd_baseline_mean : F;
  pd_mean_delta : F;
  pd_improvement_pct : F;
  pd_ci95 : F * F;
  pd_dz : F;
  pd_wins : Z;
  pd_ties : Z;
  pd_win_rate : F;
  pd_deltas : list F
}.

Definition count_of (test : F -> bool) (l : list F) : Z :=
  Z.of_nat (length (filter (fun d => test d = true) l)).

(** The longer list is cut to the shorter; without a pair the generator raises. *)
Definition paired_stats (a b : list F) : result PyExc Paired :=
  let n := Nat.min (length a) (length b) in
  let x := take n a in
  let y := take n b in
  let d := zip_with (fun x y => y - x) x y in
  match d with
  | [] => Err (ValueError "high <= 0")
  | _ =>
    let boot := map (fun idx => np_mean (map (fun i => nth i d f0) idx)) (resamples n) in
    let sd := if (1 <? n)%nat then np_std d else f0 in
    let m := np_mean d in
    let wins := count_of (fun d => d >? f0) d in
    Ok (mkPaired (Z.of_nat n) (np_mean x) (np_mean y) m
          (fint 100 * np_mean (zip_with (fun x y => (y - x) / y) x y))
          (np_percentile boot (fdec 25 (-1)), np_percentile boot (fdec 975 (-1)))
          (if sd >? f0 then m / sd else if m >? f0 then finf else f0)
          wins (count_of (fun d => d =? f0) d) (fint wins / fint (Z.of_nat n)) d)
  end.

(** ** [run_t2_multiseed.py] *)

Variables (rand : nat -> F) (clock : nat -> Z).

(** Slope, bias and jitter of the two engines. *)
Definition t2_engine (wid : string) : option (F * F * F) :=
  if str_eqb wid "fast" then Some (fint 8, fint 40, fdec 8 (-2))
  else if str_eqb wid "slow" then Some (fint 22, fint 90, fdec 1 (-1)) else None.

Definition t2_serve (e : F * F * F) (tokens : Z) (r : F) : F :=
  let '(slope, bias, jitter) := e in
  py_max f1 ((bias + slope * fint tokens) * (f1 + uniform (- jitter) jitter r)).

Definition t2_start (c : SchedCfg F) : SeedState (F:=F) :=
  mkSeed (register c "slow" "small" (fint 24000) None
            (register c "fast" "small" (fint 24000) None sched_init)) [] [].

Definition t2_request (c : SchedCfg F) (i : Z) (st : SeedState (F:=F)) :
    result SchedError (SeedState (F:=F)) :=
  let tokens := (40 + i mod 30 * 2)%Z in
  let prompt := unchars (repeat "x"%char (Z.to_nat (tokens * 4))) in
  match pick c prompt "small" (Some tokens) None (sd_sched st) with
  | (_, Err e) => Err e
  | (s, Ok (wid, _)) =>
    match t2_engine wid with
    | None => Err (KeyError wid)
    | Some e =>
      let k := length (sd_e2e st) in
      let y := t2_serve e tokens (rand k) in
      Ok (mkSeed (feedback c wid y tokens true (clock k) s) (sd_e2e st ++ [y])
            (dset wid (dget_or wid 0 (sd_routes st) + 1)%Z (sd_routes st)))
    end
  end.

Fixpoint t2_loop (c : SchedCfg F) (n : nat) (i : Z) (st : SeedState (F:=F)) :
    result SchedError (SeedState (F:=F)) :=
  match n with
  | O => Ok st
  | S n' => st ← t2_request c i st; t2_loop c n' (i + 1)%Z st
  end.

(** The share of the fast engine and the p99; [0 < n]. *)
Definition run_seed (strategy : string) (n : nat) : result SchedError (F * F) :=
  let c := sched_cfg (plain_args strategy true (ablation_default "full") true no_slo) in
  st ← t2_loop c n 0 (t2_start c);
  let len := Z.of_nat (length (sd_e2e st)) in
  Ok (fint (dget_or "fast" 0%Z (sd_routes st)) / fint (Z.of_nat n),
      fnth (fsorted (sd_e2e st)) (ftrunc (fdec 99 (-2) * fint (len - 1)))).
End Stats.
