(* ===== verification/Emulation.v ===== *)
(** Emulated engines: the calibrated latencies of [benchmarks/mock_latency_model.py] that
    the workers of [benchmarks/worker_gpu.py] sleep for, the delay proxy of
    [dio-serve/scripts/latency_delay_proxy.py], and the answers of
    [workers/python_worker/model_server.py]. *)

From S2P Require Import Prelude PyFloat PyStr PyDict Json.

Section Emulation.
Context {F : Type} {PF : PyFloat F}.
Local Open Scope float_scope.
Local Abbreviation json := (json F).

(** ** Profiles *)

Record ThermalThrottle : Type := mkThermal {
  tt_enabled : bool;
  tt_start_request : Z;
  tt_ramp_per_request : F;
  tt_max_factor : F
}.

Definition thermal_factor (t : ThermalThrottle) (request_idx : Z) : F :=
  if negb (tt_enabled t) || (request_idx <? tt_start_request t)%Z then f1
  else
    let extra := fint (request_idx - tt_start_request t) * tt_ramp_per_request t in
    py_min (tt_max_factor t) (f1 + extra).

(** [gpu] is kept as the file has it. *)
Record LatencyProfile : Type := mkProfile {
  lp_name : string;
  lp_gpu : json;
  lp_ttft_intercept_ms : F;
  lp_prefill_slope : F;
  lp_decode_slope : F;
  lp_jitter_pct : F;
  lp_thermal : ThermalThrottle;
  lp_latency_mult : F
}.

(** [float(d.get(k, default))] and the like. *)
Definition float_field (k : string) (default : json) (d : json) : result PyExc F :=
  v ← jget_or k default d; jfloat v.

Definition profile_from_dict (name : string) (d : json) (latency_mult : F) :
    result PyExc LatencyProfile :=
  th ← jget "thermal_throttle" d;
  let th := jor th (JDict []) in
  gpu ← jget_or "gpu" (JStr "emulated") d;
  ttft ← float_field "ttft_intercept_ms" (JInt 180) d;
  prefill ← float_field "prefill_slope_ms_per_token" (JFloat (fdec 5 (-1))) d;
  decode ← float_field "decode_slope_ms_per_token" (JInt 12) d;
  jitter ← float_field "jitter_pct" (JFloat (fdec 10 (-2))) d;
  enabled ← jget_or "enabled" (JBool false) th;
  v ← jget_or "start_request" (JInt 40) th;
  start ← jint v;
  ramp ← float_field "ramp_per_request" (JFloat (fdec 2 (-2))) th;
  top ← float_field "max_factor" (JFloat (fdec 14 (-1))) th;
  Ok (mkProfile name gpu ttft prefill decode jitter
        (mkThermal (truthy enabled) start ramp top) latency_mult).

(** The uniform mock; it does not keep the multiplier. *)
Definition legacy_profile (latency_mult : F) : LatencyProfile :=
  let m := py_max f1 latency_mult in
  mkProfile "legacy_uniform" (JStr "emulated") (fint 50 * m) (fdec 5 (-1)) (fint 10 * m)
    (fdec 5 (-2)) (mkThermal false 40 (fdec 2 (-2)) (fdec 14 (-1))) f1.

(** ** [resolve_profile] *)

(** [pairing["fast"]] or [pairing["slow"]], and the profile it names. *)
Definition paired_profile (profiles : list (string * json)) (pairing : json) (role : string)
    (latency_mult : F) : result PyExc LatencyProfile :=
  let side := if str_eqb (lower role) "fast" then "fast" else "slow" in
  match pairing with
  | JDict d =>
    match dget side d with
    | None => Err (KeyMissing side)
    | Some (JStr key) =>
      match dget key profiles with
      | None => Err (KeyMissing key)
      | Some p => profile_from_dict key p latency_mult
      end
    | Some (JList _) | Some (JDict _) => Err TypeError
    | Some v => Err (KeyMissing (jstr v))
    end
  | _ => Err TypeError
  end.

(** The two dicts of the profile file; a name that is [None] is the empty one.  The call the
    function makes to itself always takes its first branch. *)
Definition resolve_profile (profiles pairings : list (string * json))
    (profile_name profile_role pairing_name : string) (latency_mult : F) :
    result PyExc LatencyProfile :=
  let role := str_or profile_role "slow" in
  match (if str_truth pairing_name then dget pairing_name pairings else None) with
  | Some pairing => paired_profile profiles pairing role latency_mult
  | None =>
    if str_truth profile_name then
      match dget profile_name pairings, dget profile_name profiles with
      | Some pairing, _ => paired_profile profiles pairing role latency_mult
      | None, Some p => profile_from_dict profile_name p latency_mult
      | None, None => Ok (legacy_profile latency_mult)
      end
    else Ok (legacy_profile latency_mult)
  end.

(** ** [MockLatencySimulator] *)

(** The standard normal draws behind [random.gauss], by the number of the call. *)
Variable normal : Z -> F.

Definition estimate_prompt_tokens (prompt : string) : Z := Z.max 1 (str_len prompt / 4).

Record MockInferenceResult : Type := mkInference {
  mi_ttft_ms : F;
  mi_total_latency_ms : F;
  mi_tokens_generated : Z;
  mi_profile_name : string;
  mi_thermal_factor : F
}.

Definition noise_of (p : LatencyProfile) (count : Z) : F :=
  py_max (fdec 65 (-2)) (py_min (fdec 145 (-2)) (f1 + normal count * lp_jitter_pct p)).

(** The count after the call, and its result. *)
Definition mock_predict (p : LatencyProfile) (prompt : string) (output_len : Z) (count : Z) :
    Z * MockInferenceResult :=
  let count := (count + 1)%Z in
  let ttft := lp_ttft_intercept_ms p + lp_prefill_slope p * fint (estimate_prompt_tokens prompt) in
  let base := ttft + lp_decode_slope p * fint output_len in
  let noise := noise_of p count in
  let thermal := thermal_factor (lp_thermal p) count in
  (count, mkInference (ttft * noise * thermal * lp_latency_mult p)
            (base * noise * thermal * lp_latency_mult p) output_len (lp_name p) thermal).

(** [execute]: also the seconds it sleeps. *)
Definition mock_execute (p : LatencyProfile) (prompt : string) (output_len : Z) (count : Z) :
    Z * MockInferenceResult * F :=
  let '(count, r) := mock_predict p prompt output_len count in
  (count, r, mi_total_latency_ms r / fint 1000).

(** [n] requests in a row; the latencies. *)
Fixpoint mock_sequence (p : LatencyProfile) (prompt : string) (output_len : Z) (n : nat)
    (count : Z) : list F :=
  match n with
  | O => []
  | S n' =>
    let '(count, r) := mock_predict p prompt output_len count in
    mi_total_latency_ms r :: mock_sequence p prompt output_len n' count
  end.

(** ** [InferenceWorker] of [worker_gpu.py] *)

(** What the constructor and the loading thread leave: the simulator, a loaded model, the
    text of a load error, or nothing yet. *)
Inductive GpuModel : Type :=
| Loading
| MockModel (p : LatencyProfile)
| Loaded
| LoadFailed (error : option string).

(** A gRPC abort, or an answer: latency, tokens, time to first token, seconds slept. *)
Inductive GpuReply : Type :=
| Unavailable (message : string)
| Internal (message : string)
| GpuAnswer (latency_ms : F) (tokens : Z) (ttft_ms : F) (slept : option F).

(** [measured] is the two timings and the token count of a real generation.  [Loading] is
    what the 600 seconds of the wait end in. *)
Definition gpu_predict (m : GpuModel) (latency_mult : F) (measured : F * F * Z)
    (prompt : string) (count : Z) : Z * GpuReply :=
  let output_len := 128%Z in
  match m with
  | Loading => (count, Unavailable "model still loading (timeout)")
  | MockModel p =>
    let '(count, r, slept) := mock_execute p prompt output_len count in
    (count, GpuAnswer (mi_total_latency_ms r) (mi_tokens_generated r) (mi_ttft_ms r) (Some slept))
  | LoadFailed e => (count, Internal (str_or (default "" e) "model not available"))
  | Loaded =>
    let '(ttft, total, tokens) := measured in
    if latency_mult >? f1 then
      (count, GpuAnswer (total * latency_mult) tokens (ttft * latency_mult)
                (Some ((total * latency_mult - total) / fint 1000)))
    else (count, GpuAnswer total tokens ttft None)
  end.

(** What the constructor makes of [--mock], and the loading thread of a failed load;
    [None] is an exception of the constructor. *)
Definition gpu_start (profiles pairings : list (string * json)) (mock : bool)
    (profile role : string) (latency_mult : F) : option GpuModel :=
  if mock then
    match resolve_profile profiles pairings profile (str_or role "slow") "" latency_mult with
    | Ok p => Some (MockModel p)
    | Err _ => None
    end
  else Some Loading.
Definition gpu_loaded (profiles pairings : list (string * json)) (latency_mult : F)
    (model_found : bool) : GpuModel :=
  if model_found then Loaded
  else
    match resolve_profile profiles pairings "" "" "" latency_mult with
    | Ok p => MockModel p
    | Err _ => LoadFailed None
    end.

(** ** [model_server.py] *)

(** [s.split()]. *)
Fixpoint split_words_from (cur : list ascii) (l : list ascii) : list string :=
  match l with
  | [] => match cur with [] => [] | _ => [unchars (reverse cur)] end
  | c :: l' =>
    if is_space c
    then match cur with [] => split_words_from [] l' | _ => unchars (reverse cur) :: split_words_from [] l' end
    else split_words_from (c :: cur) l'
  end.
Definition split_words (s : string) : list string := split_words_from [] (chars s).

Record WorkerAnswer : Type := mkAnswer {
  wa_output : string;
  wa_latency_ms : F;
  wa_ttft_ms : F;
  wa_tokens_used : Z
}.

(** [Predict]; [pipe] is [None] when the model did not load, its [Err] is an exception. *)
Definition server_predict (pipe : option (string -> result string string)) (input : string)
    (latency : F) : WorkerAnswer :=
  let text :=
    match pipe with
    | None => "Model not loaded, simulation mode."
    | Some run =>
      match run input with
      | Ok out => if startswith input out then str_drop (String.length input) out else out
      | Err e => ("Error: " ++ e)%string
      end
    end in
  mkAnswer text latency (latency / fint 10) (Z.of_nat (length (split_words text))).

(** [s.replace(sub, "")]; every turn drops a part of [s]. *)
Fixpoint remove_all (fuel : nat) (sub s : string) : string :=
  match fuel with
  | O => s
  | S fuel' =>
    match partition_str sub s with
    | None => s
    | Some (a, b) => (a ++ remove_all fuel' sub b)%string
    end
  end.
Definition str_remove (sub s : string) : string := remove_all (String.length s) sub s.
Definition contains (sub s : string) : bool := negb (bool_decide (partition_str sub s = None)).

(** The channel [register_with_manager] opens: over TLS or not, and to where. *)
Definition manager_channel (addr : string) : bool * string :=
  if contains "ngrok" addr || contains "443" addr
  then (true, str_remove "http://" (str_remove "https://" addr))
  else (false, addr).

(** ** The delay proxy *)

Definition delay_mult (latency_mult : F) : F := py_max f1 latency_mult.

(** The seconds it sleeps after an upstream call of [elapsed] seconds. *)
Definition delay_sleep (mult elapsed : F) : option F :=
  if mult >? f1 then Some (elapsed * (mult - f1)) else None.

Definition Headers : Type := list (string * string).
Definition drop_headers (names : list string) (h : Headers) : Headers :=
  filter (fun kv => lower kv.1 ∉ names) h.
Definition forward_headers (h : Headers) : Headers :=
  drop_headers ["host"; "content-length"; "transfer-encoding"] h.
Definition reply_headers (mult elapsed : F) (h : Headers) : Headers :=
  dset "X-DIO-Upstream-Ms" (fmt_fixed 2 (elapsed * fint 1000))
    (dset "X-DIO-Delay-Mult" (float_repr mult)
      (drop_headers ["content-encoding"; "transfer-encoding"; "content-length"; "connection"] h)).

(** What goes upstream, what comes back and after how long. *)
Record ProxyCall : Type := mkCall {
  pc_method : string;
  pc_url : string;
  pc_headers : Headers;
  pc_params : list (string * string);
  pc_body : string
}.
Record ProxyReply : Type := mkProxyReply {
  py_status : Z;
  py_headers : Headers;
  py_content : string + json;
  py_slept : option F
}.

(** [catch_all] and [_proxy]; [call] is the upstream call, with the seconds it took, or
    [Err] with the text of its exception. *)
Definition delay_proxy (upstream : string) (latency_mult : F)
    (call : ProxyCall -> result string (Z * Headers * string * F))
    (method path : string) (headers : Headers) (params : list (string * string))
    (body : string) : ProxyReply :=
  let mult := delay_mult latency_mult in
  let path := if str_truth path then ("/" ++ path)%string else "/" in
  match call (mkCall method (rstrip_char "/" upstream ++ path) (forward_headers headers)
                params body) with
  | Err e =>
    mkProxyReply 502 [] (inr (JDict [("error", JStr ("upstream: " ++ e)%string)])) None
  | Ok (status, h, content, elapsed) =>
    mkProxyReply status (reply_headers mult elapsed h) (inl content) (delay_sleep mult elapsed)
  end.

(** The routes in the order they are declared, the first that matches answers. *)
Inductive ProxyRoute : Type :=
| CatchAll
| Health.
Definition proxy_routes : list (ProxyRoute * (string -> string -> bool)) :=
  [(CatchAll, fun method _ => bool_decide (method ∈ ["GET"; "POST"; "PUT"; "DELETE"; "OPTIONS"]));
   (Health, fun method path => str_eqb method "GET" && str_eqb path "health")].
Definition proxy_route (method path : string) : option ProxyRoute :=
  fst <$> List.find (fun r => r.2 method path) proxy_routes.
End Emulation.
Arguments ThermalThrottle F : clear implicits.
Arguments LatencyProfile F : clear implicits.
