(* ===== verification/Workloads.v ===== *)
(** The workloads of [DIO/benchmarks/workload_generator.py]: prompts and output lengths drawn
    from traces, or made up when a trace is missing. *)

From S2P Require Import Prelude PyFloat PyStr PyDict Json.

Section Workloads.
Context {F : Type} {PF : PyFloat F}.
Local Abbreviation json := (json F).

(** ** Traces *)

(** [v[k]] of a JSON value. *)
Definition jsub (k : string) (v : json) : result PyExc json :=
  match v with
  | JDict d => match dget k d with Some x => Ok x | None => Err (KeyMissing k) end
  | _ => Err TypeError
  end.

(** The first message of a human in a conversation. *)
Fixpoint human_message (msgs : list json) : result PyExc (option json) :=
  match msgs with
  | [] => Ok None
  | msg :: msgs' =>
    from ← jsub "from" msg;
    match from with
    | JStr "human" => v ← jsub "value" msg; Ok (Some v)
    | _ => human_message msgs'
    end
  end.

(** What an item of the data set adds; [k in item] of a text is a substring test, and every
    further step on one raises. *)
Definition item_prompt (item : json) : result PyExc (option json) :=
  match item with
  | JDict d =>
    match dget "conversations" d with
    | None => Ok None
    | Some (JList msgs) => human_message msgs
    | Some (JDict []) | Some (JStr "") => Ok None
    | Some _ => Err TypeError
    end
  | JList l => if existsb (fun v => match v with JStr "conversations" => true | _ => false end) l
               then Err TypeError else Ok None
  | JStr s => match partition_str "conversations" s with Some _ => Err TypeError | None => Ok None end
  | _ => Err TypeError
  end.

(** The prompts up to the first exception. *)
Fixpoint item_prompts (items : list json) : list json :=
  match items with
  | [] => []
  | item :: items' =>
    match item_prompt item with
    | Ok (Some p) => p :: item_prompts items'
    | Ok None => item_prompts items'
    | Err _ => []
    end
  end.

(** [_load_sharegpt] on the parsed file; [None] when there is none or it is no JSON. *)
Definition load_sharegpt (data : option json) : list json :=
  let prompts := match data with Some (JList items) => item_prompts items | _ => [] end in
  match prompts with
  | [] => replicate 100 (JStr "Explain quantum computing.")
  | _ => prompts
  end.

(** [_load_trace] on the lines of the file: one that is no JSON empties the trace. *)
Definition load_trace (file : option (list string)) : list json :=
  match file with
  | None => []
  | Some ls =>
    match map_ok (fun line => match loads line with Some v => Ok v | None => Err tt end) ls with
    | Ok l => l
    | Err _ => []
    end
  end.

(** ** Prompts *)

Record Traces : Type := mkTraces {
  tr_sharegpt : list json;
  tr_arxiv : list json;
  tr_code : list json
}.

(** The draws of a call: an index below a length, and an integer between two bounds, by the
    number of the draw. *)
Variable choice : nat -> nat.
Variable randint : nat -> Z -> Z -> Z.

Fixpoint repeat_str (n : nat) (s : string) : string :=
  match n with O => "" | S n' => s ++ repeat_str n' s end.
Definition times (s : string) (n : Z) : string := repeat_str (Z.to_nat n) s.

Definition drawn (l : list json) : result PyExc json :=
  match l !! choice (length l) with Some v => Ok v | None => Err IndexMissing end.

(** A prompt and the expected number of output tokens. *)
Definition sharegpt (t : Traces) : result PyExc (json * json) :=
  p ← drawn (tr_sharegpt t); Ok (p, JInt 128).
Definition flowgpt : json * json :=
  (JStr (times "Chat " (randint 0 10 50)), JInt (randint 1 50 200)).
Definition enterprise : json * json :=
  (JStr ("Draft an email about " ++ times "business " (randint 0 50 250)),
   JInt (randint 1 100 500)).

(** An item of a trace, its prompt after an introduction. *)
Definition replayed (intro : string) (trace : list json) : result PyExc (json * json) :=
  item ← drawn trace;
  p ← jsub "prompt" item;
  n ← jsub "output_len" item;
  Ok (JStr (intro ++ jstr p), n).

Definition newline2 : string := String "010" (String "010" "").
Definition arxiv (t : Traces) : result PyExc (json * json) :=
  match tr_arxiv t with
  | [] => Ok (JStr ("Summarize this paper: " ++ times "Abstract " (randint 0 1000 3000)),
              JInt (randint 1 100 200))
  | trace => replayed ("Summarize this paper:" ++ newline2) trace
  end.
Definition code_prompt (t : Traces) : result PyExc (json * json) :=
  match tr_code t with
  | [] => Ok (JStr ("Write a python function to " ++ times "do x " (randint 0 50 150)),
              JInt (randint 1 500 1000))
  | trace => replayed "Write a Python function that " trace
  end.

Definition get_prompt (t : Traces) (workload_name : string) : result PyExc (json * json) :=
  if str_eqb workload_name "ShareGPT" then sharegpt t
  else if str_eqb workload_name "FlowGPT" then Ok flowgpt
  else if str_eqb workload_name "ArXiv" then arxiv t
  else if str_eqb workload_name "Code" then code_prompt t
  else if str_eqb workload_name "Enterprise" then Ok enterprise
  else sharegpt t.

(** [get_slo]: seconds to the first token, milliseconds for each further one. *)
Definition get_slo (workload_name : string) : F * Z :=
  dget_or workload_name (fdec 5 (-1), 50)
    [("ShareGPT", (fdec 5 (-1), 50)); ("FlowGPT", (fdec 2 (-1), 40)); ("ArXiv", (fint 2, 100));
     ("Code", (fint 1, 30)); ("Enterprise", (fdec 5 (-1), 50))].

(** ** Properties *)

Hypothesis choice_below : forall n, (0 < n)%nat -> (choice n < n)%nat.
Hypothesis randint_between : forall k a b, a <= b -> a <= randint k a b <= b.

Lemma load_sharegpt_some data : load_sharegpt data <> [].
Proof. unfold load_sharegpt. by case_match. Qed.

Lemma drawn_ok l : l <> [] -> exists v, drawn l = Ok v /\ v ∈ l.
Proof.
  intros Hl. unfold drawn.
  destruct (lookup_lt_is_Some_2 l (choice (length l))) as [v Hv].
  { apply choice_below. destruct l; [done|simpl; lia]. }
  rewrite Hv. exists v. split; [done|]. by eapply list_elem_of_lookup_2.
Qed.

(** Without traces every workload gives a prompt, with a budget of 50 to 1000 tokens. *)
Lemma synthetic_prompts_bounded data name :
  exists p n, get_prompt (mkTraces (load_sharegpt data) [] []) name = Ok (p, JInt n) /\ 50 <= n <= 1000.
Proof.
  pose proof (fun k a b H => randint_between k a b H) as Hr.
  destruct (drawn_ok _ (load_sharegpt_some data)) as (v & Hv & _).
  assert (forall t, t = mkTraces (load_sharegpt data) [] [] ->
    exists p n, sharegpt t = Ok (p, JInt n) /\ 50 <= n <= 1000) as Hs.
  { intros t ->. unfold sharegpt. cbn [tr_sharegpt]. rewrite Hv. by exists v, 128. }
  unfold get_prompt. repeat case_match; try (by apply Hs).
  - eexists _, _. split; [done|]. specialize (Hr 1%nat 50 200). lia.
  - eexists _, _. split; [done|]. specialize (Hr 1%nat 100 200). lia.
  - eexists _, _. split; [done|]. specialize (Hr 1%nat 500 1000). lia.
  - eexists _, _. split; [done|]. specialize (Hr 1%nat 100 500). lia.
Qed.
End Workloads.
