(* ===== verification/LoadClients.v ===== *)
(** The clients that put load on a running gateway: the multi-turn and admission loads of
    [run_gpu_abc_suite.py], the request loop of [run_gpu_cluster_validation.py], and the
    cells of [run_mock_hetero_concurrency.py].  What the gateway answers, and how long it
    takes, is a parameter. *)

From S2P Require Import Prelude PyFloat PyStats PyStr PyDict PySort Json Simulation ResultStats.

Section Clients.
Context {F : Type} {PF : PyFloat F} {PS : PyStats F}.
Local Open Scope float_scope.
Local Abbreviation json := (json F).

(** One call of [client.post]: the status, the [X-DIO-Backend] header and the elapsed
    milliseconds, or an exception. *)
Inductive Exchange : Type :=
| Reply (status : Z) (backend : option string) (ms : F)
| Raised.

(** [h or default] of an optional header. *)
Definition header_or (default : string) (h : option string) : string :=
  match h with Some s => str_or s default | None => default end.

(** [d[k] = d.get(k, 0) + 1]. *)
Definition count_route (wid : string) (routes : list (string * Z)) : list (string * Z) :=
  dset wid (dget_or wid 0 routes + 1)%Z routes.

(** [sum(d.values()) or 1], and [d.get(k, 0)] over it. *)
Definition route_total (routes : list (string * Z)) : Z :=
  let n := sum_of id (dvalues routes) in if (n =? 0)%Z then 1%Z else n.
Definition route_share (wid : string) (routes : list (string * Z)) : F :=
  fint (dget_or wid 0%Z routes) / fint (route_total routes).

Definition mean_or_none (xs : list F) : option F :=
  match xs with [] => None | _ => Some (mean xs) end.

(** ** [run_multiturn_load] *)

Fixpoint str_times (n : nat) (s : string) : string :=
  match n with O => "" | S n' => s ++ str_times n' s end.

Definition SYSTEM_PREFIXES : list string :=
  ["SYSTEM: You are a careful research assistant. Always answer in short sentences. " ++
     "Context block: " ++ str_times 40 "alpha beta gamma delta ";
   "SYSTEM: You are a coding copilot for Python. Prefer clear code comments. " ++
     "Context block: " ++ str_times 30 "import numpy as np; ";
   "SYSTEM: You are a customer support agent for an API product. Be brief. " ++
     "Context block: " ++ str_times 35 "ticket queue status policy ";
   "SYSTEM: You are a tutor for linear algebra. One-sentence definitions only. " ++
     "Context block: " ++ str_times 40 "vector matrix eigenvalue "].

Definition USER_TURNS : list string :=
  ["What is 2+2?"; "Name one color."; "Say hello briefly."; "One benefit of sleep?";
   "Capital of France?"].

(** The element at an index taken modulo the length. *)
Definition cycle (l : list string) (i : nat) : string := nth (i mod length l) l "".

Definition chat_message (role content : string) : json :=
  JDict [("role", JStr role); ("content", JStr content)].

Definition turn_messages (seed : Z) (s t : nat) : list json :=
  [chat_message "system" (cycle SYSTEM_PREFIXES s);
   chat_message "user" (cycle USER_TURNS t ++ " (sess=" ++ str_of_Z (Z.of_nat s) ++
     " turn=" ++ str_of_Z (Z.of_nat t) ++ " seed=" ++ str_of_Z seed ++ ")")].

(** The variables the sessions share, each update under the lock. *)
Record Load : Type := mkLoad {
  ld_ok : Z;
  ld_fail : Z;
  ld_rejects : Z;
  ld_e2e : list F;
  ld_routes : list (string * Z);
  ld_sticky : Z;
  ld_turns : Z;
  ld_home : list (nat * string)
}.

Definition load_init : Load := mkLoad 0 0 0 [] [] 0 0 [].

(** What a session does with the outcome of a turn. *)
Definition turn_served (s : nat) (wid : string) (ms : F) (l : Load) : Load :=
  let home := dsetdefault s wid (ld_home l) in
  mkLoad (ld_ok l + 1) (ld_fail l) (ld_rejects l) (ld_e2e l ++ [ms])
    (count_route wid (ld_routes l))
    (if decide (dget s home = Some wid) then ld_sticky l + 1 else ld_sticky l)
    (ld_turns l + 1) home.

Definition turn_failed (rejected : Z) (l : Load) : Load :=
  mkLoad (ld_ok l) (ld_fail l + 1) (ld_rejects l + rejected) (ld_e2e l) (ld_routes l)
    (ld_sticky l) (ld_turns l) (ld_home l).

Definition turn_done (s : nat) (x : Exchange) (l : Load) : Load :=
  match x with
  | Reply status h ms =>
    if (status =? 200)%Z then turn_served s (header_or "unknown" h) ms l
    else if (status =? 503)%Z then turn_failed 1 l else turn_failed 0 l
  | Raised => turn_failed 0 l
  end.

(** *** The threads of the pool *)

(** Where a session is: not submitted to a thread, in its loop, or over. *)
Inductive Client : Type :=
| Queued
| At (t : nat)
| Over.

Record ThreadPool : Type := mkThreadPool { pl_clients : list Client; pl_load : Load }.

(** What can happen: a free thread takes the next session, a session records the outcome
    of a turn, a session returns. *)
Inductive PoolEvent : Type :=
| Begin
| TurnDone (s : nat)
| End (s : nat).

Definition is_queued (c : Client) : bool := match c with Queued => true | _ => false end.
Definition is_busy (c : Client) : Z := match c with At _ => 1 | _ => 0 end.
Definition busy_threads (p : ThreadPool) : Z := sum_of is_busy (pl_clients p).

(** [ask s t] is the outcome of turn [t] of session [s]. *)
Variable ask : nat -> nat -> Exchange.

Definition pool_event (concurrent : Z) (turns : nat) (p : ThreadPool) (e : PoolEvent) : option ThreadPool :=
  match e with
  | Begin =>
    if (busy_threads p <? concurrent)%Z then
      '(s, _) ← list_find is_queued (pl_clients p);
      Some (mkThreadPool (<[s := At 0]> (pl_clients p)) (pl_load p))
    else None
  | TurnDone s =>
    match pl_clients p !! s with
    | Some (At t) =>
      if (t <? turns)%nat
      then Some (mkThreadPool (<[s := At (S t)]> (pl_clients p)) (turn_done s (ask s t) (pl_load p)))
      else None
    | _ => None
    end
  | End s =>
    match pl_clients p !! s with
    | Some (At t) =>
      if (turns <=? t)%nat then Some (mkThreadPool (<[s := Over]> (pl_clients p)) (pl_load p)) else None
    | _ => None
    end
  end.

Fixpoint pool_run (concurrent : Z) (turns : nat) (p : ThreadPool) (es : list PoolEvent) : option ThreadPool :=
  match es with
  | [] => Some p
  | e :: es' => p' ← pool_event concurrent turns p e; pool_run concurrent turns p' es'
  end.

Definition pool_start (n : nat) : ThreadPool := mkThreadPool (replicate n Queued) load_init.

(** The turns in the order of the loops, for [concurrent <= 1]. *)
Definition sequential_turns (n turns : nat) : list (nat * nat) :=
  s ← seq 0 n; t ← seq 0 turns; [(s, t)].
Definition play (l : Load) (ps : list (nat * nat)) : Load :=
  foldl (fun l p => turn_done p.1 (ask p.1 p.2) l) l ps.
Definition load_sequential (n turns : nat) : Load := play load_init (sequential_turns n turns).

(** What the function returns of them. *)
Record LoadReport : Type := mkLoadReport {
  lr_ok : Z;
  lr_fail : Z;
  lr_rejects : Z;
  lr_frac_e0 : F;
  lr_stickiness : F;
  lr_p50 : option F;
  lr_p99 : option F;
  lr_mean : option F
}.

Definition load_report (l : Load) : LoadReport :=
  mkLoadReport (ld_ok l) (ld_fail l) (ld_rejects l) (route_share "e0" (ld_routes l))
    (fint (ld_sticky l) / fint (Z.max 1 (ld_turns l)))
    (pct (ld_e2e l) 50) (pct (ld_e2e l) 99) (mean_or_none (ld_e2e l)).

(** *** The sampler of engine peaks *)

(** [float(snap.get(key) or 0.0)] against the mark; a value that is no number is skipped.
    [OverflowError] is not caught: the flag tells whether the thread goes on. *)
Definition note_peak (key : string) (snap : list (string * json)) (peak : F) : F * bool :=
  match jfloat (jor (bget key snap) (JFloat f0)) with
  | Ok v => (if v >? peak then v else peak, true)
  | Err OverflowError => (peak, false)
  | Err _ => (peak, true)
  end.

Definition note_snapshot (snap : json) (peak : F * F) : F * F * bool :=
  match snap with
  | JDict d =>
    let '(r, go) := note_peak "num_running" d peak.1 in
    if go then let '(w, go) := note_peak "num_waiting" d peak.2 in (r, w, go)
    else (r, peak.2, false)
  | _ => (peak, true)
  end.

Fixpoint note_snapshots (snaps : list json) (peak : F * F) : F * F * bool :=
  match snaps with
  | [] => (peak, true)
  | snap :: snaps' =>
    let '(peak, go) := note_snapshot snap peak in
    if go then note_snapshots snaps' peak else (peak, false)
  end.

(** One turn of the loop of [sample_engine_peaks], on the body [fetch_json] gave; a body
    without [get] ends the thread. *)
Definition sample_peaks (body : json) (peak : F * F) : F * F * bool :=
  match jget "snapshots" (jor body (JDict [])) with
  | Err _ => (peak, false)
  | Ok snaps =>
    match jor snaps (JDict []) with
    | JDict d => note_snapshots (dvalues d) peak
    | _ => (peak, true)
    end
  end.

(** [fetch_json]: the body of a 200, [{}] for anything else; [None] is a failed call or a
    body that is no JSON. *)
Definition fetch_json (reply : option (Z * option json)) : json :=
  match reply with
  | Some (200, Some v) => v
  | _ => JDict []
  end.

(** ** [run_admission_load] *)

Record AdmLoad : Type := mkAdmLoad { al_ok : Z; al_fail : Z; al_rejects : Z; al_e2e : list F }.

Definition adm_failed (rejected : Z) (a : AdmLoad) : AdmLoad :=
  mkAdmLoad (al_ok a) (al_fail a + 1) (al_rejects a + rejected) (al_e2e a).
Definition adm_done (a : AdmLoad) (x : Exchange) : AdmLoad :=
  match x with
  | Reply status _ ms =>
    if (status =? 200)%Z
    then mkAdmLoad (al_ok a + 1) (al_fail a) (al_rejects a) (al_e2e a ++ [ms])
    else if (status =? 503)%Z then adm_failed 1 a else adm_failed 0 a
  | Raised => adm_failed 0 a
  end.

Definition adm_prompt (seed : Z) (i : nat) : string :=
  cycle USER_TURNS i ++ " seed=" ++ str_of_Z seed ++ " i=" ++ str_of_Z (Z.of_nat i).

(** [one i] is the outcome of request [i]. *)
Definition admission_load (one : nat -> Exchange) (n : nat) : AdmLoad :=
  foldl (fun a i => adm_done a (one i)) (mkAdmLoad 0 0 0 []) (seq 0 n).
Definition reject_rate (n : nat) (a : AdmLoad) : F :=
  fint (al_rejects a) / fint (Z.max 1 (Z.of_nat n)).

(** ** [chat_once] and [run_load] of [run_gpu_cluster_validation.py] *)

(** A response: status, the two headers, the elapsed milliseconds and [r.json()]. *)
Record ChatReply : Type := mkChatReply {
  cr_status : Z;
  cr_backend : option string;
  cr_ttft_header : option string;
  cr_ms : F;
  cr_body : option json
}.

(** What the [try] of [chat_once] leaves in [ttft_ms] and [text]. *)
Definition choice_text (ch : json) : result PyExc json :=
  match ch with
  | JDict d =>
    if dmem "message" d then
      v ← jget "content" (bget "message" d); Ok (jor v (JStr ""))
    else if dmem "text" d then Ok (jor (bget "text" d) (JStr ""))
    else Ok (JStr "")
  | JStr s =>
    (* [in] looks for a substring; a string has no item ["message"] *)
    match partition_str "message" s, partition_str "text" s with
    | Some _, _ => Err TypeError
    | None, Some _ => Err AttributeError
    | None, None => Ok (JStr "")
    end
  | JList l =>
    if existsb (fun v => match v with JStr "message" => true | _ => false end) l then Err TypeError
    else if existsb (fun v => match v with JStr "text" => true | _ => false end) l
    then Err AttributeError else Ok (JStr "")
  | _ => Err TypeError
  end.

Definition body_choice (d : list (string * json)) : result PyExc json :=
  match bget "choices" d with
  | JList (ch :: _) => choice_text ch
  | JStr (String c _) => choice_text (JStr (String c ""))
  | v => if truthy v then Err TypeError else Ok (JStr "")
  end.

Definition header_ttft (h : option string) (ttft : json) : json :=
  match h with
  | Some s => if str_truth s then
                match float_of_str s with Some x => JFloat x | None => ttft end
              else ttft
  | None => ttft
  end.

(** [ttft_ms] and [text]: the first exception leaves both as they are. *)
Definition read_body (r : ChatReply) : json * json :=
  match cr_body r with
  | Some (JDict d) =>
    let ttft := bget "dio_engine_e2e_ms" d in
    match body_choice d with
    | Ok text => (header_ttft (cr_ttft_header r) ttft, text)
    | Err _ => (ttft, JStr "")
    end
  | _ => (JNull, JStr "")
  end.

(** [(text or "")[:120]]; a dict or a number has no slice. *)
Definition text_preview (text : json) : result PyExc json :=
  match jor text (JStr "") with
  | JStr s => Ok (JStr (str_take 120 s))
  | JList l => Ok (JList (take 120 l))
  | _ => Err TypeError
  end.

Record RunLoad : Type := mkRunLoad {
  rl_ok : Z;
  rl_fail : Z;
  rl_e2e : list F;
  rl_ttft : list F;
  rl_routes : list (string * Z);
  rl_samples : list json
}.

Definition cluster_prompts : list string :=
  ["What is 2+2? Answer in one short sentence.";
   "Name three colors. Be brief.";
   "Explain gravity in one sentence.";
   "Write a haiku about rain.";
   "List two benefits of exercise.";
   "What is the capital of France? One word if possible.";
   "Summarize photosynthesis in one sentence.";
   "Say hello and ask how I am."].
Definition cluster_prompt (seed : Z) (i : nat) : string :=
  cycle cluster_prompts i ++ " (seed=" ++ str_of_Z seed ++ " i=" ++ str_of_Z (Z.of_nat i) ++ ")".

(** One turn of the loop.  [None] for [r] is an exception of [client.post]; nothing catches
    it, nor the one of the preview: the result is [None]. *)
Definition run_one (r : option ChatReply) (l : RunLoad) : option RunLoad :=
  r ← r;
  let '(ttft, text) := read_body r in
  match text_preview text with
  | Err _ => None
  | Ok preview =>
    if (cr_status r =? 200)%Z then
      Some (mkRunLoad (rl_ok l + 1) (rl_fail l) (rl_e2e l ++ [cr_ms r])
            (if is_none ttft then rl_ttft l
             else match jfloat ttft with Ok x => rl_ttft l ++ [x] | Err _ => rl_ttft l end)
            (count_route (header_or "?" (cr_backend r)) (rl_routes l))
            (if (length (rl_samples l) <? 3)%nat then rl_samples l ++ [preview] else rl_samples l))
    else Some (mkRunLoad (rl_ok l) (rl_fail l + 1) (rl_e2e l) (rl_ttft l) (rl_routes l) (rl_samples l))
  end.

Fixpoint run_load_loop (rs : list (option ChatReply)) (l : RunLoad) : option RunLoad :=
  match rs with
  | [] => Some l
  | r :: rs' => l ← run_one r l; run_load_loop rs' l
  end.

(** [rs] are the outcomes of the requests, [length rs] is [n]. *)
Definition run_load (rs : list (option ChatReply)) : option RunLoad :=
  run_load_loop rs (mkRunLoad 0 0 [] [] [] []).

(** *** [exp_G3_hetero]: the gain over round robin, by the rows of both arms *)

(** A row is the [e2e_p99_ms] it holds; an arm that did not start has none. *)
Definition p99_improvement (a b : option F) : option F :=
  match a, b with
  | Some a, Some b =>
    if ftruth a && ftruth b && (b >? f0) then Some ((b - a) / b * fint 100) else None
  | _, _ => None
  end.
Definition improvements (nlms rr : list (option F)) : list F :=
  omap (fun ab => p99_improvement ab.1 ab.2) (zip nlms rr).

(** ** [run_cell] of [run_mock_hetero_concurrency.py] *)

(** [decs[-n:]], all of it for 0. *)
Definition last_decisions {A} (n : nat) (l : list A) : list A :=
  match n with O => l | _ => lastn n l end.

(** The worker ids of the decision log, [None] where the call failed; [total] is 1 when
    nothing was counted. *)
Definition cell_init : list (string * Z) := [("slow", 0%Z); ("fast", 0%Z); ("unknown", 0%Z)].
Definition cell_routes (n : nat) (decs : option (list (option string))) : list (string * Z) :=
  match decs with
  | None => cell_init
  | Some l =>
    if (n / 2 <=? length l)%nat
    then foldl (fun d w => count_route (header_or "unknown" w) d) cell_init (last_decisions n l)
    else cell_init
  end.

Record Cell : Type := mkCell {
  ce_ok : Z;
  ce_fail : Z;
  ce_routes : list (string * Z);
  ce_fast : F;
  ce_slow : F;
  ce_p50 : option F;
  ce_p95 : option F;
  ce_p99 : option F;
  ce_rps : F
}.

(** [one_request]: a success is a status below 400. *)
Definition one_ok (x : Exchange) : option F :=
  match x with
  | Reply status _ ms => if (400 <=? status)%Z then None else Some ms
  | Raised => None
  end.

Definition run_cell (results : list Exchange) (decs : option (list (option string)))
    (elapsed : F) : Cell :=
  let n := length results in
  let e2e := omap one_ok results in
  let ok := Z.of_nat (length e2e) in
  let routes := cell_routes n decs in
  let counted := sum_of id (dvalues routes) in
  let wall := py_max (fdec 1 (-6)) elapsed in
  let shown := if (counted =? 0)%Z && (dget_or "unknown" 0 routes =? 0)%Z
               then [("slow", 0%Z); ("fast", 0%Z); ("unknown", ok)] else routes in
  let share k := fint (dget_or k 0%Z shown) / fint (route_total routes) in
  mkCell ok (Z.of_nat n - ok) shown (share "fast") (share "slow")
    (pct_lerp e2e (fint 50)) (pct_lerp e2e (fint 95)) (pct_lerp e2e (fint 99))
    (fint ok / wall).
End Clients.
Arguments Exchange F : clear implicits.
Arguments Load F : clear implicits.
Arguments ThreadPool F : clear implicits.
Arguments LoadReport F : clear implicits.
