(* ===== verification/RegimeD.v ===== *)
(** The experiments on engines of different hardware: [run_regime_d_hetero.py], its loads and
    the summaries D1 to D3, and the discovery run of [run_post_d_priority.py].  The answers
    of the gateway and the random draws are parameters. *)

From S2P Require Import Prelude PyFloat PyStats PyStr PyDict PySort Json Simulation ResultStats.
From S2P Require Import LoadClients.

Section RegimeD.
Context {F : Type} {PF : PyFloat F} {PS : PyStats F}.
Local Open Scope float_scope.
Local Abbreviation json := (json F).

(** ** [parse_kv] and [build_workload] *)

Definition parse_one (i : nat) (raw : string) : option (string * string) :=
  let raw := strip raw in
  if negb (str_truth raw) then None
  else
    match partition "=" raw with
    | Some (k, v) =>
      Some (if startswith "http" raw then (("e" ++ str_of_Z (Z.of_nat i))%string, raw)
            else (strip k, strip v))
    | None => Some (("e" ++ str_of_Z (Z.of_nat i))%string, raw)
    end.
Definition parse_kv (spec : string) : list (string * string) :=
  omap id (imap parse_one (split "," spec)).

Definition PROMPT_SEEDS : list string :=
  ["Summarize the causes of the industrial revolution.";
   "Explain how a B-tree index speeds up lookups.";
   "Describe the tradeoffs between TCP and UDP.";
   "What is gradient descent and why does it converge?";
   "Compare optimistic and pessimistic concurrency control.";
   "Explain KV-cache reuse in transformer inference.";
   "Why does batching improve GPU utilization?";
   "Describe how paged attention manages memory."].

(** The draws of [random.Random(seed)], by the number of the call: two for an item. *)
Variables (randint : nat -> Z -> Z -> Z) (choice : nat -> list Z -> Z).

Definition workload_item (seed : Z) (choices : list Z) (i : nat) : string * Z :=
  let pad := str_times (Z.to_nat (randint (2 * i) 0 6)) "Provide relevant background detail. " in
  (strip (cycle PROMPT_SEEDS i ++ " " ++ pad ++ "(seed=" ++ str_of_Z seed ++ " i=" ++
          str_of_Z (Z.of_nat i) ++ ")")%string,
   choice (2 * i + 1) choices).
Definition build_workload (n : nat) (seed : Z) (choices : list Z) : list (string * Z) :=
  map (workload_item seed choices) (seq 0 n).

(** ** [run_load] *)

(** A response: status, [X-DIO-Backend], elapsed milliseconds and [r.json()]; or an
    exception of the call. *)
Inductive DReply : Type :=
| DAnswer (status : Z) (backend : option string) (ms : F) (parsed : option json)
| DRaised.

Record DRequest : Type := mkDRequest {
  dq_worker : string;
  dq_e2e_ms : F;
  dq_tokens : json;
  dq_completion : json;
  dq_prompt : json
}.

Record DLoad : Type := mkDLoad {
  dl_ok : Z;
  dl_fail : Z;
  dl_e2e : list F;
  dl_routes : list (string * Z);
  dl_requests : list DRequest
}.
Definition dload_init : DLoad := mkDLoad 0 0 [] [] [].

(** The token feature and the usage the inner [try] leaves. *)
Definition read_feature (parsed : option json) : json * json :=
  match parsed with
  | None => (JNull, JDict [])
  | Some j =>
    match (d ← jget "dio" j; dec ← jget "decision" (jor d (JDict []));
           jget "tokens" (jor dec (JDict []))) with
    | Err _ => (JNull, JDict [])
    | Ok tokens =>
      match jget "usage" j with
      | Ok u => (tokens, jor u (JDict []))
      | Err _ => (tokens, JDict [])
      end
    end
  end.

(** One request.  A usage that is no object raises after the success was counted, and the
    request is counted as failed as well. *)
Definition dload_one (r : DReply) (l : DLoad) : DLoad :=
  match r with
  | DRaised => mkDLoad (dl_ok l) (dl_fail l + 1) (dl_e2e l) (dl_routes l) (dl_requests l)
  | DAnswer status h ms parsed =>
    if negb (status =? 200)%Z
    then mkDLoad (dl_ok l) (dl_fail l + 1) (dl_e2e l) (dl_routes l) (dl_requests l)
    else
      let wid := header_or "unknown" h in
      let routes := count_route wid (dl_routes l) in
      let '(tokens, usage) := read_feature parsed in
      match jget "completion_tokens" usage, jget "prompt_tokens" usage with
      | Ok c, Ok p =>
        mkDLoad (dl_ok l + 1) (dl_fail l) (dl_e2e l ++ [ms]) routes
          (dl_requests l ++ [mkDRequest wid ms tokens c p])
      | _, _ => mkDLoad (dl_ok l + 1) (dl_fail l + 1) (dl_e2e l ++ [ms]) routes (dl_requests l)
      end
  end.
Definition dload (rs : list DReply) : DLoad := foldl (fun l r => dload_one r l) dload_init rs.

(** [v / total] of every route. *)
Definition route_fractions (routes : list (string * Z)) : list (string * F) :=
  map (fun kv => (kv.1, fint kv.2 / fint (route_total routes))) routes.

(** The numbers among the token features that are true: the gateway reports an int. *)
Definition feature_number (v : json) : option F :=
  match v with
  | JInt z => if (z =? 0)%Z then None else Some (fint z)
  | JFloat x => if ftruth x then Some x else None
  | _ => None
  end.
Definition worker_pairs (wid : string) (reqs : list DRequest) : list (F * F) :=
  omap (fun r => if str_eqb (dq_worker r) wid
                 then t ← feature_number (dq_tokens r); Some (t, dq_e2e_ms r) else None) reqs.

(** A row: what a seed of an arm gave, [None] when the gateway did not start.  [rw_learned] is
    the [fast_slope] of each worker, when it is a number. *)
Record Row : Type := mkRow {
  rw_p50 : option F;
  rw_p95 : option F;
  rw_p99 : option F;
  rw_mean : option F;
  rw_frac : list (string * F);
  rw_ols : list (string * Ols (F:=F));
  rw_learned : list (string * option F);
  rw_requests : list DRequest
}.

Definition row_of (l : DLoad) (learned : list (string * option F)) : Row :=
  mkRow (percentile_lerp (dl_e2e l) (fint 50)) (percentile_lerp (dl_e2e l) (fint 95))
    (percentile_lerp (dl_e2e l) (fint 99)) (mean_or_none (dl_e2e l))
    (route_fractions (dl_routes l))
    (map (fun kv => (kv.1, ols_fit (worker_pairs kv.1 (dl_requests l)))) (dl_routes l))
    learned (dl_requests l).

(** ** [run_d1] *)

(** [acc.setdefault(k, []).append(v)]. *)
Definition collect {V} (acc : list (string * list V)) (kv : string * V) : list (string * list V) :=
  dset kv.1 (dget_or kv.1 [] acc ++ [kv.2])%list acc.
Definition fractions_of (good : list Row) : list (string * list F) :=
  foldl (fun acc r => foldl collect acc (rw_frac r)) [] good.

Record Arm : Type := mkArm {
  ar_p50 : MeanStd (F:=F);
  ar_p95 : MeanStd (F:=F);
  ar_p99 : MeanStd (F:=F);
  ar_mean : MeanStd (F:=F);
  ar_frac : list (string * F);
  ar_frac_std : list (string * F);
  ar_seeds_ok : Z
}.
Definition spread_of (vs : list F) : F :=
  if (1 <? length vs)%nat then stdev vs else f0.
Definition arm_summary (rows : list (option Row)) : Arm :=
  let good := omap id rows in
  let acc := fractions_of good in
  mkArm (mean_std_given (map rw_p50 good)) (mean_std_given (map rw_p95 good))
    (mean_std_given (map rw_p99 good)) (mean_std_given (map rw_mean good))
    (map (fun kv => (kv.1, mean kv.2)) acc) (map (fun kv => (kv.1, spread_of kv.2)) acc)
    (Z.of_nat (length good)).

(** The paired gain over round robin: the mean, the wins, and out of how many. *)
Definition d1_gains (arm rr : list (option Row)) : MeanStd (F:=F) * Z * Z :=
  let imps := improvements (map (fun r => r ≫= rw_p99) arm) (map (fun r => r ≫= rw_p99) rr) in
  (mean_std_given (map Some imps),
   Z.of_nat (length (filter (fun x => (x >? f0) = true) imps)), Z.of_nat (length imps)).

(** ** [run_d2] *)

Definition request_pair (r : DRequest) : option (string * (F * F)) :=
  t ← feature_number (dq_tokens r); Some (dq_worker r, (t, dq_e2e_ms r)).
Definition pooled (good : list Row) : list (string * list (F * F)) :=
  foldl (fun acc r => foldl collect acc (omap request_pair (rw_requests r))) [] good.

Record WorkerFit : Type := mkWorkerFit {
  wf_vram : F;
  wf_learned : MeanStd (F:=F);
  wf_ols : Ols (F:=F);
  wf_samples : Z
}.
Definition worker_fit (vram : list (string * F)) (good : list Row)
    (kv : string * list (F * F)) : string * WorkerFit :=
  let learned := map (fun r => default None (dget kv.1 (rw_learned r))) good in
  (kv.1, mkWorkerFit (dget_or kv.1 (fint 24000) vram) (mean_std_given learned) (ols_fit kv.2)
           (Z.of_nat (length kv.2))).
Definition by_worker (vram : list (string * F)) (rows : list (option Row)) :
    list (string * WorkerFit) :=
  let good := omap id rows in map (worker_fit vram good) (pooled good).

Definition ols_fit_slope (o : Ols (F:=F)) : option F :=
  match o with OlsFit slope _ _ _ _ => Some slope | _ => None end.

(** [(a / b) if (a and b) else None]. *)
Definition slope_ratio (a b : option F) : option F :=
  match a, b with
  | Some a, Some b => if ftruth a && ftruth b then Some (a / b) else None
  | _, _ => None
  end.

(** [max(d, key=d.get)]: the first key of a greatest value. *)
Fixpoint max_key_from (best : string * F) (l : list (string * F)) : string * F :=
  match l with
  | [] => best
  | kv :: l' => max_key_from (if kv.2 >? best.2 then kv else best) l'
  end.

(** [sorted(d, key=d.get)], stable. *)
Fixpoint insert_value (kv : string * F) (l : list (string * F)) : list (string * F) :=
  match l with
  | [] => [kv]
  | x :: l' => if kv.2 <? x.2 then kv :: l else x :: insert_value kv l'
  end.
Definition sort_values (l : list (string * F)) : list (string * F) :=
  foldl (fun acc kv => insert_value kv acc) [] l.

Record Normalised : Type := mkNormalised {
  nm_reference : string;
  nm_ratios : list (string * F);
  nm_order : list string
}.

(** The slopes of one kind against the slowest; fewer than two usable ones give nothing. *)
Definition usable_slopes (vals : list (string * option F)) : list (string * F) :=
  omap (fun kv => match kv.2 with
                  | Some v => if v >? f0 then Some (kv.1, v) else None
                  | None => None
                  end) vals.
Definition normalise (vals : list (string * option F)) : option Normalised :=
  match usable_slopes vals with
  | [] | [_] => None
  | kv :: rest =>
    let l := kv :: rest in
    let best := max_key_from kv rest in
    Some (mkNormalised best.1 (map (fun x => (x.1, x.2 / best.2)) l) (map fst (sort_values l)))
  end.

(** ** [run_d3] *)

Record D3Cell : Type := mkD3Cell {
  d3_p99 : MeanStd (F:=F);
  d3_slopes : list (string * MeanStd (F:=F));
  d3_frac : list (string * F);
  d3_degenerate : Z;
  d3_seeds_ok : Z
}.
Definition has_note (o : Ols (F:=F)) : bool := match o with OlsDegenerate _ => true | _ => false end.
Definition d3_cell (workers : list string) (rows : list (option Row)) : D3Cell :=
  let good := omap id rows in
  mkD3Cell (mean_std_given (map rw_p99 good))
    (map (fun w => (w, mean_std_given (map (fun r => default None (dget w (rw_learned r))) good)))
       workers)
    (map (fun kv => (kv.1, mean kv.2)) (fractions_of good))
    (sum_of (fun r => Z.of_nat (length (filter (fun kv => has_note kv.2 = true) (rw_ols r)))) good)
    (Z.of_nat (length good)).

(** ** [discovery_run] *)

(** The two slopes the gateway reports after each request. *)
Definition order_ok (margin : F) (slopes : option F * option F) : bool :=
  match slopes with
  | (Some t4, Some a30) => (a30 >? f0) && (t4 >? a30 * (f1 + margin))
  | _ => false
  end.

(** The curve: one flag for each request; the loop stops ten requests after the first
    discovery. *)
Fixpoint discovery_loop (margin : F) (i : Z) (found : option Z)
    (slopes : list (option F * option F)) : list bool * option Z :=
  match slopes with
  | [] => ([], found)
  | s :: rest =>
    let ok := order_ok margin s in
    let found := match found with Some n => Some n
                                | None => if ok then Some (i + 1)%Z else None end in
    if match found with Some n => (n + 10 <=? i + 1)%Z | None => false end then ([ok], found)
    else let '(curve, last) := discovery_loop margin (i + 1) found rest in (ok :: curve, last)
  end.

(** The first request whose ranking, and the four after it, are right. *)
Fixpoint stable_from (i : Z) (curve : list bool) : option Z :=
  match curve with
  | [] => None
  | ok :: rest =>
    if forallb id (take 5 curve) && (5 <=? length curve)%nat then Some (i + 1)%Z
    else stable_from (i + 1) rest
  end.
Definition discovery (margin : F) (slopes : list (option F * option F)) :
    option Z * option Z * list bool :=
  let '(curve, found) := discovery_loop margin 0 None slopes in
  (found, stable_from 0 curve, curve).

(** ** Gains over round robin in [run_workshop_final_suite.py] *)

(** The values of round robin are compacted, those of the other arm are not. *)
Definition workshop_gains (rr block : list (option F)) : list F :=
  let rr_p99 := omap (fun x => match x with
                               | Some v => if ftruth v then Some v else None
                               | None => None
                               end) rr in
  omap id (imap (fun i r =>
    match r, rr_p99 !! i with
    | Some p, Some q => if ftruth p && (q >? f0) then Some ((q - p) / q * fint 100) else None
    | _, _ => None
    end) block).
End RegimeD.
Arguments Row F : clear implicits.
Arguments DLoad F : clear implicits.
Arguments DReply F : clear implicits.
Arguments DRequest F : clear implicits.
Arguments Normalised F : clear implicits.
