(* ===== verification/Backends.v ===== *)
(** The backend registry: [dio/backends.py] without its demo server.  URL vetting,
    the endpoint URLs and headers of a backend, the mapping between the OpenAI
    and TGI payloads, and the requests the pool sends. *)

From S2P Require Import Prelude PyFloat PyStr PyDict Json.

(** ** [urllib.parse.urlsplit], as far as the vetting reads it *)

Definition is_ascii_alpha (c : ascii) : bool :=
  let n := code c in in_range 65 90 n || in_range 97 122 n.

Definition is_scheme_char (c : ascii) : bool :=
  is_ascii_alpha c || is_decimal c || bool_decide (c ∈ ["+"%char; "-"%char; "."%char]).

(** The scheme (lower case) and the rest, when the text before the first colon
    is a scheme. *)
Definition split_scheme (url : string) : string * string :=
  match partition ":" url with
  | Some (String c s, rest) =>
    if is_ascii_alpha c && forallb is_scheme_char (c :: chars s)
    then (lower (String c s), rest) else ("", url)
  | _ => ("", url)
  end.

(** [_splitnetloc(url, 2)]: up to the first of ["/?#"]. *)
Definition netloc_of (s : string) : string :=
  let fix go (l : list ascii) : list ascii :=
    match l with
    | [] => []
    | c :: l' => if bool_decide (c ∈ ["/"%char; "?"%char; "#"%char]) then [] else c :: go l'
    end in
  unchars (go (chars s)).

Record UrlParts : Type := mkUrl {
  u_scheme : string;
  u_netloc : string
}.

Definition is_c0_or_space (c : ascii) : bool := code c <=? 32.

Section Urls.
(** Whether the running interpreter accepts the host of a bracketed network
    location (it is handed to [ipaddress]; the rules differ between releases). *)
Variable bracketed_ok : string -> bool.

(** [urlsplit(url)] on a text without white space; a [None] is its [ValueError]. *)
Definition urlsplit (url : string) : option UrlParts :=
  let url := unchars (drop_while is_c0_or_space (chars url)) in
  let '(scheme, rest) := split_scheme url in
  if startswith "//" rest then
    let netloc := netloc_of (str_drop 2 rest) in
    let op := has_char "[" netloc in
    let cl := has_char "]" netloc in
    if negb (Bool.eqb op cl) then None
    else if op && negb (bracketed_ok netloc) then None
    else Some (mkUrl scheme netloc)
  else Some (mkUrl scheme "").

(** [netloc.rpartition("@")[2]]. *)
Definition hostinfo (netloc : string) : string := after_last "@" netloc.

Definition before (c : ascii) (s : string) : string :=
  match partition c s with Some (a, _) => a | None => s end.

(** [parts.hostname], [None] when there is none. *)
Definition hostname (u : UrlParts) : option string :=
  let h := hostinfo (u_netloc u) in
  let h := match partition "[" h with
           | Some (_, bracketed) => before "]" bracketed
           | None => before ":" h
           end in
  match h with
  | EmptyString => None
  | _ => Some (match partition "%" h with
               | Some (host, zone) => lower host ++ "%" ++ zone
               | None => lower h
               end)
  end.

(** [_BLOCKED_BACKEND_HOSTS]. *)
Definition BLOCKED_BACKEND_HOSTS : list string :=
  ["169.254.169.254"; "fd00:ec2::254"; "metadata.google.internal"].

(** The "backend 'x': " prefix of the messages. *)
Definition backend_error (backend_id message : string) : PyExc :=
  ValueError ("backend " ++ str_repr backend_id ++ ": " ++ message).

(** [validate_backend_url] on a string. *)
Definition validate_backend_url (base_url backend_id : string) : result PyExc string :=
  let url := strip base_url in
  if negb (str_truth url) then
    Err (backend_error backend_id "base_url must be a non-empty URL")
  else if existsb is_space (chars url) then
    Err (backend_error backend_id ("base_url contains whitespace: " ++ str_repr url))
  else
    match urlsplit url with
    | None => Err (ValueError "Invalid IPv6 URL")
    | Some parts =>
      if negb (bool_decide (u_scheme parts ∈ ["http"; "https"])) then
        Err (backend_error backend_id
          ("base_url must start with http:// or https:// (got " ++
           str_repr (str_or (u_scheme parts) "no scheme") ++ ")"))
      else
        match hostname parts with
        | None => Err (backend_error backend_id ("base_url has no host: " ++ str_repr url))
        | Some host =>
          if bool_decide (host ∈ BLOCKED_BACKEND_HOSTS) then
            Err (backend_error backend_id
              ("refusing to forward to metadata host " ++ str_repr host))
          else Ok url
        end
    end.
End Urls.

(** ** One backend *)

Section Backend.
Context {F : Type} {PF : PyFloat F}.
Local Abbreviation json := (json F).

Record Backend : Type := mkBackend {
  b_id : string;
  b_base_url : string;
  b_tier : string;
  b_model : option string;
  b_total_vram_mb : F;
  b_free_vram_mb : F;
  b_weight : F;
  b_prior_slope : option F;
  b_prior_intercept : option F;
  b_labels : list (string * string);
  b_api_style : string;
  b_api_key : option string;
  b_chat_path : string;
  b_completions_path : string;
  b_generate_path : string;
  b_health_path : string;
  b_models_path : string;
  b_metrics_path : string;
  b_timeout_s : option F
}.

(** The dataclass defaults for an id and a URL. *)
Definition backend_defaults (id base_url : string) : Backend := {|
  b_id := id;
  b_base_url := base_url;
  b_tier := "small";
  b_model := None;
  b_total_vram_mb := fint 24000;
  b_free_vram_mb := fint 24000;
  b_weight := f1;
  b_prior_slope := None;
  b_prior_intercept := None;
  b_labels := [];
  b_api_style := "openai";
  b_api_key := None;
  b_chat_path := "/v1/chat/completions";
  b_completions_path := "/v1/completions";
  b_generate_path := "/generate";
  b_health_path := "/health";
  b_models_path := "/v1/models";
  b_metrics_path := "/metrics";
  b_timeout_s := None
|}.

Definition set_base_url (u : string) (b : Backend) : Backend :=
  mkBackend (b_id b) u (b_tier b) (b_model b) (b_total_vram_mb b) (b_free_vram_mb b)
    (b_weight b) (b_prior_slope b) (b_prior_intercept b) (b_labels b) (b_api_style b)
    (b_api_key b) (b_chat_path b) (b_completions_path b) (b_generate_path b)
    (b_health_path b) (b_models_path b) (b_metrics_path b) (b_timeout_s b).

(** [__post_init__]: construction vets the URL. *)
Definition post_init (bracketed_ok : string -> bool) (b : Backend) : result PyExc Backend :=
  u ← validate_backend_url bracketed_ok (b_base_url b) (b_id b);
  Ok (set_base_url u b).

(** [_url]. *)
Definition url_of (b : Backend) (path : string) : string :=
  rstrip_char "/" (b_base_url b) ++ (if startswith "/" path then path else "/" ++ path).

Definition metrics_url (b : Backend) : string := url_of b (b_metrics_path b).
Definition chat_url (b : Backend) : string :=
  if str_eqb (b_api_style b) "tgi_generate" then url_of b (b_generate_path b)
  else if str_eqb (b_api_style b) "custom" then url_of b (b_chat_path b)
  else url_of b (b_chat_path b).
Definition completions_url (b : Backend) : string :=
  if str_eqb (b_api_style b) "tgi_generate" then url_of b (b_generate_path b)
  else if str_eqb (b_api_style b) "custom" then url_of b (b_completions_path b)
  else url_of b (b_completions_path b).
Definition models_url (b : Backend) : string := url_of b (b_models_path b).
Definition health_url (b : Backend) : string := url_of b (b_health_path b).

(** The client of [gateway.py] is built with [follow_redirects=True], at both places.
    [redirects follow u] is what httpx requests after [u] for a client built with
    [follow]: the targets of the redirects it is answered with. *)
Definition FOLLOW_REDIRECTS : bool := true.
Definition client_requests (redirects : bool -> string -> list string) (u : string) : list string :=
  u :: redirects FOLLOW_REDIRECTS u.

Definition auth_headers (b : Backend) : list (string * string) :=
  match b_api_key b with
  | Some k => if str_truth k then [("Authorization", "Bearer " ++ k)] else []
  | None => []
  end.

(** ** OpenAI and TGI payloads *)

(** One line of the flattened chat: "role: content". *)
Definition chat_line (m : json) : result PyExc string :=
  role ← jget_or "role" (JStr "user") m;
  content ← jget_or "content" (JStr "") m;
  Ok (jstr role ++ ": " ++ jstr content).

Fixpoint map_result {A B} (f : A -> result PyExc B) (l : list A) : result PyExc (list B) :=
  match l with
  | [] => Ok []
  | x :: l' => y ← f x; ys ← map_result f l'; Ok (y :: ys)
  end.

(** Iterating a truthy JSON value: a list gives its items, an object its keys, a
    string its characters; a number is not iterable. *)
Definition iterate (v : json) : result PyExc (list json) :=
  match v with
  | JList l => Ok l
  | JDict d => Ok (map (fun kv => JStr kv.1) d)
  | JStr s => Ok (map (fun c => JStr (String c "")) (chars s))
  | _ => Err TypeError
  end.

Definition newline : string := String (chr 10) "".

Definition tgi_prompt (body : list (string * json)) : result PyExc string :=
  let messages := bget "messages" body in
  if truthy messages then
    ms ← iterate messages;
    parts ← map_result chat_line ms;
    Ok (join newline parts ++ newline ++ "assistant:")
  else Ok (jstr (jor (bget "prompt" body) (JStr ""))).

(** The three optional numeric parameters, in order. *)
Fixpoint tgi_numbers (pairs : list (string * string)) (body : list (string * json))
    (params : list (string * json)) : result PyExc (list (string * json)) :=
  match pairs with
  | [] => Ok params
  | (src, dst) :: pairs' =>
    if is_none (bget src body) then tgi_numbers pairs' body params
    else x ← jfloat (bget src body); tgi_numbers pairs' body (dset dst (JFloat x) params)
  end.

(** [openai_chat_to_tgi_generate]. *)
Definition openai_chat_to_tgi_generate (body : list (string * json)) : result PyExc json :=
  prompt ← tgi_prompt body;
  let max_new := if is_none (bget "max_tokens" body) then bget "max_new_tokens" body
                 else bget "max_tokens" body in
  n ← (if is_none max_new then Ok 64 else jint max_new);
  let params := [("max_new_tokens", JInt n); ("do_sample", JBool true)] in
  params ← (if is_none (bget "temperature" body)
            then Ok (dset "temperature" (JFloat (fdec 7 (-1))) params)
            else t ← jfloat (bget "temperature" body);
                 Ok (dset "do_sample" (JBool (flt f0 t)) (dset "temperature" (JFloat t) params)));
  params ← tgi_numbers [("top_p", "top_p"); ("presence_penalty", "repetition_penalty");
                        ("frequency_penalty", "frequency_penalty")] body params;
  params ← (match bget "stop" body with
            | JNull => Ok params
            | JStr s => Ok (dset "stop_sequences" (JList [JStr s]) params)
            | v => l ← iterate v; Ok (dset "stop_sequences" (JList l) params)
            end);
  Ok (JDict [("inputs", JStr prompt); ("parameters", JDict params)]).

(** [raw.get("generated_text")] and its [details], for a list or a dict reply. *)
Definition tgi_text (raw : json) : result PyExc (json * json) :=
  match raw with
  | JList (r0 :: _) =>
    t ← jget "generated_text" r0; d ← jget "details" r0; Ok (jor t (JStr ""), d)
  | JDict d =>
    Ok (jor (jor (bget "generated_text" d) (bget "text" d)) (JStr ""), bget "details" d)
  | _ => Ok (JStr "", JNull)
  end.

(** [len(text)]. *)
Definition jlen (v : json) : result PyExc Z :=
  match v with
  | JStr s => Ok (str_len s)
  | JList l => Ok (Z.of_nat (length l))
  | JDict d => Ok (Z.of_nat (length d))
  | _ => Err TypeError
  end.

(** [isinstance(v, int)], booleans included. *)
Definition as_int (v : json) : option Z :=
  match v with JInt z => Some z | JBool b => Some (if b then 1 else 0) | _ => None end.

(** [tgi_generate_to_openai_chat]; [now_ms] is the clock in milliseconds. *)
Definition tgi_generate_to_openai_chat (now_ms : Z) (raw : json) (model : json)
    (prompt_tokens : Z) : result PyExc json :=
  td ← tgi_text raw;
  let '(text, details) := td in
  let reported := match details with JDict d => bget "generated_tokens" d | _ => JNull end in
  completion ← (match as_int reported with
                | Some n => if n <=? 0 then k ← jlen text; Ok (JInt (Z.max 1 (k / 4)))
                            else Ok reported
                | None => k ← jlen text; Ok (JInt (Z.max 1 (k / 4)))
                end);
  let c := default 0 (as_int completion) in
  let p := if 0 <? prompt_tokens then prompt_tokens else 0 in
  Ok (JDict
    [("id", JStr ("chatcmpl-tgi-" ++ str_of_Z now_ms));
     ("object", JStr "chat.completion");
     ("created", JInt (now_ms / 1000));
     ("model", model);
     ("choices", JList [JDict
        [("index", JInt 0);
         ("message", JDict [("role", JStr "assistant"); ("content", text)]);
         ("finish_reason", JStr "stop")]]);
     ("usage", JDict
        [("prompt_tokens", JInt p); ("completion_tokens", completion);
         ("total_tokens", JInt (p + c))])]).

(** ** The pool *)

(** [BackendPool.backends]: insertion order, one entry per id. *)
Definition Pool : Type := list (string * Backend).

Definition pool_add (b : Backend) (p : Pool) : Pool := dset (b_id b) b p.
Definition pool_init (l : list Backend) : Pool := foldl (fun p b => pool_add b p) [] l.
Definition pool_get (id : string) (p : Pool) : result PyExc Backend :=
  match dget id p with Some b => Ok b | None => Err (KeyMissing id) end.
Definition pool_list (p : Pool) : list Backend := dvalues p.

(** What a GET of a probe gives: a status, or an exception. *)
Inductive ProbeReply : Type := ProbeStatus (status : Z) | ProbeFailed.

(** [probe_health]: the health URL first, the models URL if that did not answer
    below 500; [get] is the HTTP client. *)
Definition probe_health (get : string -> list (string * string) -> ProbeReply) (b : Backend) :
    bool :=
  let up url := match get url (auth_headers b) with
                | ProbeStatus st => st <? 500 | ProbeFailed => false end in
  up (health_url b) || up (models_url b).

(** A request the pool sends. *)
Record HttpRequest : Type := mkRequest {
  rq_url : string;
  rq_payload : json;
  rq_headers : list (string * string);
  rq_timeout : F
}.

Definition with_model (b : Backend) (body : list (string * json)) : list (string * json) :=
  match b_model b with
  | Some m => if str_truth m then dset "model" (JStr m) body else body
  | None => body
  end.

Definition forward (url : string) (b : Backend) (body : list (string * json)) (timeout : F) :
    result PyExc HttpRequest :=
  let t := default timeout (b_timeout_s b) in
  payload ← (if str_eqb (b_api_style b) "tgi_generate"
             then openai_chat_to_tgi_generate body
             else Ok (JDict (with_model b body)));
  Ok (mkRequest url payload (auth_headers b) t).

Definition forward_chat (b : Backend) body timeout : result PyExc HttpRequest :=
  forward (chat_url b) b body timeout.
Definition forward_completions (b : Backend) body timeout : result PyExc HttpRequest :=
  forward (completions_url b) b body timeout.
End Backend.
Arguments Backend F : clear implicits.
Arguments Pool F : clear implicits.
Arguments HttpRequest F : clear implicits.
