(* ===== verification/Requests.v ===== *)
(** The request side of the gateway ([dio/gateway.py]): prompt extraction, the
    shape and size checks, the Ollama-to-OpenAI mappings, token counting, API
    keys, and the resolution of model names. *)

From S2P Require Import Prelude PyFloat PyStr PyDict Json Blake2b Config Backends.

(** ** Responses *)

Section Response.
Context {F : Type}.

(** A [JSONResponse]. *)
Record Response : Type := mkResponse {
  rs_status : Z;
  rs_content : json F;
  rs_headers : list (string * string)
}.
End Response.
Arguments Response F : clear implicits.

Section Requests.
Context {F : Type} {PF : PyFloat F}.
Local Abbreviation json := (json F).
Local Abbreviation body := (list (string * json)).

(** [v == s] for a string literal [s]. *)
Definition is_str (s : string) (v : json) : bool :=
  match v with JStr t => str_eqb t s | _ => false end.

(** ** Prompt *)

(** The text parts of a multimodal content. *)
Fixpoint text_parts (l : list json) : list json :=
  match l with
  | [] => []
  | JDict d :: l' =>
    if is_str "text" (bget "type" d) then dget_or "text" (JStr "") d :: text_parts l'
    else text_parts l'
  | _ :: l' => text_parts l'
  end.

(** [sep.join(l)]: every item must be a string. *)
Definition join_json (sep : string) (l : list json) : result PyExc string :=
  ss ← map_result (fun v => match v with JStr s => Ok s | _ => Err TypeError end) l;
  Ok (join sep ss).

Definition message_line (m : json) : result PyExc string :=
  c ← jget_or "content" (JStr "") m;
  c ← (match c with JList l => s ← join_json " " (text_parts l); Ok (JStr s) | _ => Ok c end);
  role ← jget_or "role" (JStr "user") m;
  Ok (jstr role ++ ": " ++ jstr c).

(** [_extract_prompt]. *)
Definition extract_prompt (b : body) : result PyExc string :=
  if truthy (bget "messages" b) then
    ms ← iterate (bget "messages" b);
    parts ← map_result message_line ms;
    Ok (join newline parts)
  else Ok (jstr (jor (bget "prompt" b) (JStr ""))).

(** ** Ollama mappings *)

(** One option copied under another name through a conversion. *)
Definition map_option (src dst : string) (f : json -> result PyExc json) (options : body)
    (mapped : body) : result PyExc body :=
  match dget src options with
  | Some v => w ← f v; Ok (dset dst w mapped)
  | None => Ok mapped
  end.

Definition as_float (v : json) : result PyExc json := x ← jfloat v; Ok (JFloat x).
Definition to_int (v : json) : result PyExc json := z ← jint v; Ok (JInt z).

(** [_ollama_options_to_openai]. *)
Definition ollama_options_to_openai (options : json) : result PyExc body :=
  match options with
  | JDict d =>
    mapped ← map_option "temperature" "temperature" as_float d [];
    mapped ← map_option "top_p" "top_p" as_float d mapped;
    mapped ← map_option "num_predict" "max_tokens" to_int d mapped;
    mapped ← map_option "stop" "stop" Ok d mapped;
    mapped ← map_option "presence_penalty" "presence_penalty" as_float d mapped;
    map_option "frequency_penalty" "frequency_penalty" as_float d mapped
  | _ => Ok []
  end.

(** [_ollama_done_reason] on a list of choices. *)
Definition ollama_done_reason (choices : list json) : result PyExc string :=
  match choices with
  | [] => Ok "stop"
  | c :: _ =>
    finish ← jget "finish_reason" c;
    Ok (if is_str "length" finish then "length"
        else if is_str "tool_calls" finish then "tool_calls" else "stop")
  end.

(** [_ollama_request_to_openai]. *)
Definition ollama_request_to_openai (b : body) : body :=
  let mapped :=
    match bget "format" b with
    | JStr s => if str_eqb (lower s) "json"
                then [("response_format", JDict [("type", JStr "json_object")])] else []
    | JDict d => [("response_format", JDict
        [("type", JStr "json_schema");
         ("json_schema", JDict [("name", JStr "ollama_format"); ("schema", JDict d)])])]
    | _ => []
    end in
  match bget "tools" b with
  | JList (t :: ts) =>
    let mapped := dset "tools" (JList (t :: ts)) mapped in
    if is_none (bget "tool_choice" b) then mapped
    else dset "tool_choice" (bget "tool_choice" b) mapped
  | _ => mapped
  end.

(** [_openai_error]. *)
Definition openai_error (message : string) (status : Z) (err_type : string)
    (code : option string) : Response F :=
  let err := [("message", JStr message); ("type", JStr err_type)] in
  let err := match code with
             | Some c => if str_truth c then dset "code" (JStr c) err else err
             | None => err
             end in
  mkResponse status (JDict [("error", JDict err)]) [].

(** ** Shape and size checks *)

Fixpoint check_budgets (keys : list string) (b : body) (cap : Z) : option string :=
  match keys with
  | [] => None
  | key :: keys' =>
    match bget key b with
    | JNull => check_budgets keys' b cap
    | JInt v =>
      if v <=? 0 then Some ("'" ++ key ++ "' must be positive (got " ++ str_of_Z v ++ ")")
      else if negb (cap =? 0) && (cap <? v) then
        Some ("'" ++ key ++ "'=" ++ str_of_Z v ++ " exceeds the configured cap of "
              ++ str_of_Z cap)
      else check_budgets keys' b cap
    | v => Some ("'" ++ key ++ "' must be an integer (got " ++ jrepr v ++ ")")
    end
  end.

Definition budget_keys : list string := ["max_tokens"; "max_completion_tokens"; "max_new_tokens"].

(** [_validate_openai_body]; [chat] is [path == "chat"]. *)
Definition validate_openai_body (v : json) (chat : bool) (max_tokens_cap : Z) : option string :=
  match v with
  | JDict b =>
    let shape :=
      if chat then
        match bget "messages" b with
        | JList (_ :: _) => None
        | _ => Some "'messages' must be a non-empty array"
        end
      else
        match bget "prompt" b with
        | JNull => Some "'prompt' is required"
        | JStr s => if str_truth (strip s) then None else Some "'prompt' is required"
        | _ => None
        end in
    match shape with
    | Some e => Some e
    | None => check_budgets budget_keys b max_tokens_cap
    end
  | _ => Some "body must be a JSON object"
  end.

(** [_prompt_within_cap]: a 413 when the prompt is too long. *)
Definition prompt_within_cap (b : body) (cap : Z) (ollama_style : bool) :
    result PyExc (option (Response F)) :=
  if cap =? 0 then Ok None
  else
    p ← extract_prompt b;
    let n := str_len p in
    if n <=? cap then Ok None
    else
      let message := "prompt is " ++ str_of_Z n ++
        " characters, which exceeds the configured cap of " ++ str_of_Z cap in
      Ok (Some (if ollama_style then mkResponse 413 (JDict [("error", JStr message)]) []
                else openai_error message 413 "invalid_request_error" (Some "request_too_large"))).

(** ** Token counts *)

(** [int(body.get("max_tokens") or body.get("max_completion_tokens") or 64)]. *)
Definition completion_budget (b : body) : result PyExc Z :=
  jint (jor (jor (bget "max_tokens" b) (bget "max_completion_tokens" b)) (JInt 64)).

(** [_estimate_tokens_heuristic]. *)
Definition estimate_tokens_heuristic (prompt : string) (b : body) : result PyExc Z :=
  out ← completion_budget b;
  Ok (Z.max 1 (str_len prompt / 4) + Z.max 1 out).

(** [_TokenCounter]: the loaded tokenizer's token count ([None]: it raised). *)
Record TokenCounter : Type := mkTokenCounter {
  tc_tok : option (string -> option Z);
  tc_mode : string
}.

(** [__init__]; [load] is [AutoTokenizer.from_pretrained]. *)
Definition token_counter (load : string -> option (string -> option Z)) (name : option string)
    (enabled : bool) : TokenCounter :=
  match name with
  | Some n =>
    if enabled && str_truth n then
      match load n with
      | Some tok => mkTokenCounter (Some tok) "hf"
      | None => mkTokenCounter None "heuristic"
      end
    else mkTokenCounter None "heuristic"
  | None => mkTokenCounter None "heuristic"
  end.

Definition prompt_tokens (tc : TokenCounter) (prompt : string) : Z :=
  match tc_tok tc with
  | Some tok => match tok prompt with
                | Some n => Z.max 1 n
                | None => Z.max 1 (str_len prompt / 4)
                end
  | None => Z.max 1 (str_len prompt / 4)
  end.

(** [count]. *)
Definition count_tokens (tc : TokenCounter) (prompt : string) (b : body) : result PyExc Z :=
  out ← completion_budget b;
  let out := Z.max 1 out in
  match tc_tok tc with
  | Some tok => match tok prompt with
                | Some n => Ok (Z.max 1 (n + out))
                | None => estimate_tokens_heuristic prompt b
                end
  | None => estimate_tokens_heuristic prompt b
  end.

(** [_feature_tokens]. *)
Definition feature_tokens (tc : TokenCounter) (cap : Z) (prompt : string) (b : body) :
    result PyExc Z :=
  tokens ← count_tokens tc prompt b;
  Ok (if 0 <? cap then Z.min tokens cap else tokens).

(** ** Paths and keys *)

Definition is_admin_path (path : string) : bool :=
  str_eqb path "/debug" || startswith "/debug/" path.

Definition is_data_plane_path (path : string) : bool :=
  startswith "/v1/" path || startswith "/api/" path.

(** [_model_digest]. *)
Definition model_digest (name : string) : string :=
  "sha256:" ++ hex_of_bytes (Blake2b.digest 32 (utf8_encode name)).

(** What the middleware reads of a request. *)
Record HttpIn : Type := mkHttpIn {
  hi_method : string;
  hi_path : string;
  hi_headers : list (string * string)
}.

(** [_supplied_api_key]. *)
Definition supplied_api_key (r : HttpIn) : option string :=
  let auth := dget_or "authorization" "" (hi_headers r) in
  let '(scheme, token) := match partition " " auth with
                          | Some (a, b) => (a, b) | None => (auth, "") end in
  if str_eqb (lower scheme) "bearer" && str_truth (strip token) then Some (strip token)
  else match dget "x-dio-api-key" (hi_headers r) with
       | Some k => if str_truth (strip k) then Some (strip k) else None
       | None => None
       end.

Definition str_ascii (s : string) : bool := forallb (fun c => code c <? 128) (chars s).

(** [hmac.compare_digest] on strings, which must be ASCII. *)
Definition compare_digest (a b : string) : result PyExc bool :=
  if str_ascii a && str_ascii b then Ok (str_eqb a b) else Err TypeError.

Definition unauthorized (scope : string) : Response F :=
  mkResponse 401
    (JDict [("error", JDict [("message", JStr (scope ++ " API key required"));
                             ("type", JStr "dio_unauthorized"); ("code", JStr "unauthorized")])])
    [("WWW-Authenticate", "Bearer")].

(** The configuration [_request_guard] reads. *)
Record GuardCfg : Type := mkGuardCfg {
  g_api_key : option string;
  g_protect_debug : bool;
  g_data_plane_auth : bool;
  g_body_cap : Z
}.

Definition key_set (g : GuardCfg) : option string :=
  match g_api_key g with
  | Some k => if str_truth k then Some k else None
  | None => None
  end.

(** The 401 of the middleware, if any. *)
Definition guard_auth (g : GuardCfg) (r : HttpIn) : result PyExc (option (Response F)) :=
  match key_set g with
  | None => Ok None
  | Some key =>
    let admin := g_protect_debug g && is_admin_path (hi_path r) in
    let data := g_data_plane_auth g && is_data_plane_path (hi_path r) in
    if admin || data then
      match supplied_api_key r with
      | Some k =>
        ok ← compare_digest k key;
        Ok (if ok : bool then None
            else Some (unauthorized (if admin then "admin" else "inference")))
      | None => Ok (Some (unauthorized (if admin then "admin" else "inference")))
      end
    else Ok None
  end.

(** The 413 of the middleware, from the declared length. *)
Definition guard_size (g : GuardCfg) (r : HttpIn) : result PyExc (option (Response F)) :=
  let cap := g_body_cap g in
  match dget "content-length" (hi_headers r) with
  | Some declared =>
    if negb (cap =? 0) && str_in (hi_method r) ["POST"; "PUT"; "PATCH"] &&
       str_truth declared && isdigit declared
    then
      match int_of_str declared with
      | None => Err (ValueError "invalid literal for int()")
      | Some size =>
        if cap <? size then
          let message := "request body is " ++ str_of_Z size ++
            " bytes, which exceeds the configured cap of " ++ str_of_Z cap ++ " bytes" in
          Ok (Some (if is_data_plane_path (hi_path r)
                    then openai_error message 413 "invalid_request_error"
                           (Some "request_too_large")
                    else mkResponse 413 (JDict [("error", JStr message)]) []))
        else Ok None
      end
    else Ok None
  | None => Ok None
  end.

(** [_request_guard]: a response, or [None] to call the route. *)
Definition request_guard (g : GuardCfg) (r : HttpIn) : result PyExc (option (Response F)) :=
  a ← guard_auth g r;
  match a with
  | Some resp => Ok (Some resp)
  | None => guard_size g r
  end.

(** ** Model names *)

Definition AliasTable : Type := list (string * list string).

(** [setdefault(name, [])] and an append unless present. *)
Definition alias_add (name id : string) (t : AliasTable) : AliasTable :=
  let ids := dget_or name [] t in
  dset name (if decide (id ∈ ids) then ids else (ids ++ [id])%list) t.

(** [_model_aliases]. *)
Definition model_aliases (model_map : AliasTable) (pool : Pool F) : AliasTable :=
  let pool_ids := map b_id (pool_list pool) in
  let declared := foldl (fun t '(name, ids) =>
      let kept := filter (fun i => i ∈ pool_ids) ids in
      dset name (match kept with [] => ids | _ => kept end) t) [] model_map in
  foldl (fun t b => match b_model b with
                    | Some m => if str_truth m then alias_add m (b_id b) t else t
                    | None => t
                    end) declared (pool_list pool).

(** One GET of [/v1/models]: the ids it lists, with the names [m.get("id")] as
    JSON; [None] is an error, another status or an unreadable body. *)
Fixpoint collect_models (b : Backend F) (names : list json) (t : AliasTable) : AliasTable :=
  match names with
  | [] => t
  | m :: names' =>
    let mid := jor (jor m (match b_model b with Some x => JStr x | None => JNull end))
                 (JStr (b_id b)) in
    collect_models b names' (if truthy mid then alias_add (jstr mid) (b_id b) t else t)
  end.

(** [_collect_model_names]. *)
Definition collect_model_names (model_map : AliasTable) (pool : Pool F)
    (probe : Backend F -> option (list json)) : AliasTable :=
  foldl (fun t b => match probe b with Some names => collect_models b names t | None => t end)
    (model_aliases model_map pool) (pool_list pool).

(** [key.rsplit("/", 1)[-1]]. *)
Definition last_segment (k : string) : string := after_last "/" k.

Fixpoint find_alias (p : string -> bool) (t : AliasTable) : option (list string) :=
  match t with
  | [] => None
  | (key, ids) :: t' => if p (lower key) then Some ids else find_alias p t'
  end.

(** [_resolve_model_backends] on a name: [None] is no restriction. *)
Definition resolve_model_backends (t : AliasTable) (model_name : string) :
    option (list string) :=
  if Nat.eqb (length t) 0 || negb (str_truth model_name) ||
     str_in model_name ["default"; "dio-default"] then None
  else
    match dget model_name t with
    | Some ids => Some ids
    | None =>
      let l := strip (lower model_name) in
      if str_len l <? 3 then Some []
      else
        match find_alias (fun k => str_eqb l k || str_eqb (last_segment k) l) t with
        | Some ids => Some ids
        | None =>
          match find_alias (fun k => startswith l (last_segment k) ||
                                     startswith (last_segment k) l) t with
          | Some ids => Some ids
          | None => Some []
          end
        end
    end.

(** The same on the [model] entry of a body, which may be any JSON value. *)
Definition resolve_model (t : AliasTable) (model : json) : result PyExc (option (list string)) :=
  match model with
  | JStr s => Ok (resolve_model_backends t s)
  | v => if Nat.eqb (length t) 0 || negb (truthy v) then Ok None
         else match v with
              | JList _ | JDict _ => Err TypeError
              | _ => Err AttributeError
              end
  end.
End Requests.
