(* ===== verification/ConfigFile.v ===== *)
(** Configuration files: [dio/config_file.py].  The file system, PyYAML, the HTTP
    client of the probes and the pydantic constructor [DIOConfig] are parameters;
    a document is a JSON value (YAML's dates and non-text keys are left out). *)

From S2P Require Import Prelude PyFloat PyStr PyDict Json Config Backends Requests.

(** What loading can raise: [ConfigError], [FileNotFoundError], any other exception;
    [CeUntyped] marks an entry whose id, tier, key or path is not a text, where the
    model stops ([Backend] does not check the types of its fields). *)
Inductive ConfigExc : Type :=
| CeConfig (message : string)
| CeNotFound
| CePy (e : PyExc)
| CeUntyped.

Definition lift_py {A} (r : result PyExc A) : result ConfigExc A :=
  match r with Ok a => Ok a | Err e => Err (CePy e) end.

Definition CONFIG_NAMES : list string :=
  ["dio.yaml"; "dio.yml"; "dio.json"; ".dio.yaml"; ".dio.yml"].

(** ** Finding the file *)

(** [discover_config] from a resolved directory, innermost component first; the file
    system tells which names are files there. *)
Fixpoint discover_up (fuel : nat) (is_file : list string -> string -> bool)
    (dir : list string) : option (list string * string) :=
  match fuel with
  | O => None
  | S fuel' =>
    match List.find (is_file dir) CONFIG_NAMES with
    | Some name => Some (dir, name)
    | None => match dir with [] => None | _ :: parent => discover_up fuel' is_file parent end
    end
  end.

Definition discover_config := discover_up 10.

Section ConfigFile.
Context {F : Type} {PF : PyFloat F}.
Local Abbreviation json := (json F).
Local Abbreviation body := (list (string * json)).

(** ** The built-in parser *)

Definition quotes : list ascii := ["'"%char; "034"%char].

Definition minimal_value (val : string) : result PyExc json :=
  if startswith "[" val && endswith "]" val then
    let inner := str_take (String.length val - 2) (str_drop 1 val) in
    let items := map (fun v => strip_chars quotes (strip v)) (split "," inner) in
    Ok (JList (map JStr (filter (fun i => i <> "") items)))
  else if str_in (lower val) ["true"; "yes"] then Ok (JBool true)
  else if str_in (lower val) ["false"; "no"] then Ok (JBool false)
  else if isdigit (remove_first "-" (remove_first "." val)) then
    if has_char "." val then x ← jfloat (JStr val); Ok (JFloat x)
    else z ← jint (JStr val); Ok (JInt z)
  else Ok (if str_truth val then JStr (strip_chars quotes val) else JNull).

Definition minimal_line (line : string) (result : body) : Prelude.result PyExc body :=
  let line := strip line in
  if negb (str_truth line) || startswith "#" line then Ok result
  else match partition ":" line with
       | Some (key, val) => v ← minimal_value (strip val); Ok (dset (strip key) v result)
       | None => Ok result
       end.

Fixpoint minimal_lines (lines : list string) (result : body) : Prelude.result PyExc body :=
  match lines with
  | [] => Ok result
  | line :: lines' => result ← minimal_line line result; minimal_lines lines' result
  end.

(** [_minimal_yaml_parse]. *)
Definition minimal_yaml_parse (text : string) : result PyExc body :=
  minimal_lines (splitlines text) [].

(** [_load_yaml] on the text of the file; [yaml] is [yaml.safe_load], [None] when PyYAML
    is not installed. *)
Definition load_yaml (yaml : option (string -> result PyExc json)) (is_json : bool)
    (text : string) : result ConfigExc json :=
  if is_json then
    match loads text with Some v => Ok v | None => Err (CePy (ValueError "json")) end
  else
    match yaml with
    | Some safe_load => v ← lift_py (safe_load text); Ok (jor v (JDict []))
    | None =>
      parsed ← lift_py (minimal_yaml_parse text);
      if dmem "backends" parsed then Ok (JDict parsed)
      else Err (CeConfig "PyYAML is required to read this config")
    end.

(** ** One backend entry *)

(** [raw.get("models") or raw.get("model")], a text made a list. *)
Definition entry_models (raw : json) : result PyExc json :=
  a ← jget "models" raw;
  b ← jget "model" raw;
  Ok (match jor a b with JStr s => JList [JStr s] | v => v end).

(** [models[0] if models else None]. *)
Definition first_model (models : json) : result PyExc json :=
  if truthy models then
    match models with
    | JList (m :: _) => Ok m
    | JDict _ => Err (KeyMissing "0")
    | _ => Err TypeError
    end
  else Ok JNull.

(** [",".join(models)]. *)
Definition joined_models (models : json) : result PyExc string :=
  match models with
  | JList l => join_json "," l
  | JDict d => Ok (join "," (map fst d))
  | _ => Err TypeError
  end.

Definition api_style_of (engine : string) : string :=
  if str_in engine ["tgi"; "text-generation-inference"] then "tgi_generate" else "openai".

Definition as_text (v : json) : result ConfigExc string :=
  match v with JStr s => Ok s | _ => Err CeUntyped end.
Definition as_opt_text (v : json) : result ConfigExc (option string) :=
  match v with JStr s => Ok (Some s) | JNull => Ok None | _ => Err CeUntyped end.

Variable bracketed_ok : string -> bool.

(** [_parse_backend]. *)
Definition parse_backend (raw : json) (index : Z) : result ConfigExc (Backend F) :=
  id ← lift_py (jget "id" raw);
  name ← lift_py (jget "name" raw);
  let bid := jor (jor id name) (JStr ("backend-" ++ str_of_Z index)) in
  u ← lift_py (jget "url" raw);
  base ← lift_py (jget "base_url" raw);
  address ← lift_py (jget_or "address" (JStr "") raw);
  let url := jor (jor u base) address in
  if negb (truthy url) then
    Err (CePy (ValueError ("Backend '" ++ jstr bid ++ "' missing 'url' field")))
  else
    e ← lift_py (jget "engine" raw);
    ty ← lift_py (jget "type" raw);
    engine ← lift_py (match jor (jor e ty) (JStr "openai") with
                      | JStr s => Ok (lower s) | _ => Err AttributeError end);
    models ← lift_py (entry_models raw);
    let models := if is_none models then JList [] else models in
    base_url ← lift_py (match url with
                        | JStr s => Ok (rstrip_char "/" s) | _ => Err AttributeError end);
    tier ← lift_py (jget_or "tier" (JStr "small") raw);
    model ← lift_py (first_model models);
    vram ← lift_py (jget_or "vram" (JInt 24000) raw);
    tv ← lift_py (jget "total_vram_mb" raw);
    total ← lift_py (jfloat (jor tv vram));
    fv ← lift_py (jget "free_vram_mb" raw);
    free ← lift_py (jfloat (jor fv vram));
    key ← lift_py (jget "api_key" raw);
    health ← lift_py (jget_or "health_path" (JStr "/health") raw);
    metrics ← lift_py (jget_or "metrics_path" (JStr "/metrics") raw);
    names ← lift_py (joined_models models);
    id ← as_text bid; tier ← as_text tier; model ← as_opt_text model;
    key ← as_opt_text key; health ← as_text health; metrics ← as_text metrics;
    let d : Backend F := backend_defaults id base_url in
    lift_py (post_init bracketed_ok
      (mkBackend id base_url tier model total free (b_weight d) None None
         [("engine", engine); ("models", names)] (api_style_of engine) key
         (b_chat_path d) (b_completions_path d) (b_generate_path d) health
         (b_models_path d) metrics None)).

(** ** The whole document *)

(** [type(v).__name__]. *)
Definition type_name (v : json) : string :=
  match v with
  | JNull => "NoneType" | JBool _ => "bool" | JInt _ => "int" | JFloat _ => "float"
  | JStr _ => "str" | JList _ => "list" | JDict _ => "dict"
  end.

(** [data.get("backends") or data.get("backend") or []], an object made a list. *)
Definition raw_backends (p : string) (data : body) : result ConfigExc (list json) :=
  match jor (jor (bget "backends" data) (bget "backend" data)) (JList []) with
  | JList l => Ok l
  | JDict d => Ok (map (fun kv => JDict [("id", JStr kv.1); ("url", kv.2)]) d)
  | v => Err (CeConfig (p ++ ": 'backends' must be a list of backend entries, got "
                        ++ type_name v ++ "."))
  end.

(** [model_map.setdefault(name, []).append(id)] for every model of an entry. *)
Fixpoint bind_models (id : string) (models : list json) (m : AliasTable) :
    result ConfigExc AliasTable :=
  match models with
  | [] => Ok m
  | JStr name :: models' =>
    bind_models id models' (dset name (dget_or name [] m ++ [id])%list m)
  | _ :: _ => Err CeUntyped
  end.

(** One turn of the loop over the entries. *)
Definition load_entry (p : string) (i : Z) (raw : json) (m : AliasTable) :
    result ConfigExc (Backend F * AliasTable) :=
  let raw := match raw with
             | JStr s => JDict [("url", JStr s); ("id", JStr ("b" ++ str_of_Z i))]
             | v => v
             end in
  b ← (match parse_backend raw i with
       | Err (CePy (ValueError e)) => Err (CeConfig (p ++ ": " ++ e))
       | r => r
       end);
  models ← lift_py (entry_models raw);
  names ← lift_py (iterate (jor models (JList [])));
  m ← bind_models (b_id b) names m;
  Ok (b, m).

Fixpoint load_entries (p : string) (i : Z) (raws : list json) (m : AliasTable) :
    result ConfigExc (list (Backend F) * AliasTable) :=
  match raws with
  | [] => Ok ([], m)
  | raw :: raws' =>
    bm ← load_entry p i raw m;
    rest ← load_entries p (i + 1) raws' bm.2;
    Ok (bm.1 :: rest.1, rest.2)
  end.

(** ** Settings *)

(** [if sec.get(key): kwargs[name] = sec[key]]. *)
Definition set_truthy (sec : json) (key name : string) (kw : body) : result PyExc body :=
  v ← jget key sec; Ok (if truthy v then dset name v kw else kw).

(** [if sec.get(key) is not None: kwargs[name] = conv(sec[key])]. *)
Definition set_given (conv : json -> result PyExc json) (sec : json) (key name : string)
    (kw : body) : result PyExc body :=
  v ← jget key sec;
  if is_none v then Ok kw else w ← conv v; Ok (dset name w kw).

Definition to_bool (v : json) : result PyExc json := Ok (JBool (truthy v)).

Definition section_of (key : string) (data : body) : json := jor (bget key data) (JDict []).

(** The keyword arguments of [DIOConfig]. *)
Definition config_kwargs (data : body) : result PyExc body :=
  let sched := section_of "scheduler" data in
  let admission := section_of "admission" data in
  let server := section_of "server" data in
  let security := section_of "security" data in
  kw ← set_truthy sched "strategy" "strategy" [];
  kw ← set_truthy sched "nlms_mode" "nlms_mode" kw;
  kw ← set_truthy sched "ablation" "ablation" kw;
  kw ← set_given as_float sched "cache_bonus_ms" "cache_bonus_ms" kw;
  kw ← set_given to_int sched "affinity_cache_size" "affinity_cache_size" kw;
  kw ← set_given to_bool sched "learner_robust" "learner_robust" kw;
  kw ← set_truthy admission "mode" "admission_mode" kw;
  slo ← jget "slo_ms" admission;
  kw ← set_given as_float (if is_none slo then sched else admission) "slo_ms" "slo_ms" kw;
  kw ← set_given as_float admission "percentile" "admission_percentile" kw;
  off ← jget "off" admission;
  disabled ← jget "disabled" admission;
  let kw := if truthy (jor off disabled) then dset "admission_off" (JBool true) kw else kw in
  kw ← set_given to_bool sched "engine_metrics" "engine_metrics" kw;
  kw ← set_truthy server "host" "host" kw;
  kw ← set_given to_int server "port" "port" kw;
  kw ← set_given as_float server "timeout" "request_timeout_s" kw;
  kw ← set_given to_int server "body_size_cap_bytes" "body_size_cap_bytes" kw;
  kw ← set_given to_int server "prompt_chars_cap" "prompt_chars_cap" kw;
  kw ← set_truthy security "api_key" "api_key" kw;
  kw ← set_given to_bool security "protect_debug" "protect_debug" kw;
  kw ← set_given to_bool security "data_plane_auth" "data_plane_auth" kw;
  tok ← jget "tokenizer" sched;
  Ok (if truthy tok then dset "use_tokenizer" (JBool true) (dset "tokenizer_name" tok kw) else kw).

(** [DIOConfig] applied to the keyword arguments. *)
Variable build_config : body -> result PyExc (DIOConfig F).

(** [load_config_file] on the parsed document of the file [p]. *)
Definition load_document (p : string) (data : json) :
    result ConfigExc (list (Backend F) * DIOConfig F * AliasTable) :=
  match data with
  | JDict d =>
    raws ← raw_backends p d;
    bm ← load_entries p 0 raws [];
    kw ← lift_py (config_kwargs d);
    cfg ← lift_py (build_config kw);
    Ok (bm.1, cfg, bm.2)
  | v => Err (CeConfig (p ++ ": expected a mapping at the top level but found "
                        ++ type_name v ++ ". See dio.example.yaml for the expected shape."))
  end.

(** [load_config_file]: the file is given or discovered; [read] is its suffix test and its
    text, [None] when it cannot be found. *)
Definition load_config_file (yaml : option (string -> result PyExc json))
    (read : string -> option (bool * string)) (path discovered : option string) :
    result ConfigExc (list (Backend F) * DIOConfig F * AliasTable) :=
  let chosen := match path with
                | Some p => if str_truth p then Some p else discovered
                | None => discovered
                end in
  match chosen with
  | None => Err CeNotFound
  | Some p =>
    match read p with
    | None => Err CeNotFound
    | Some (is_json, text) => data ← load_yaml yaml is_json text; load_document p data
    end
  end.

(** ** Detection of local engines *)

(** A GET of a probe: a status and the parsed body ([None]: not JSON), or an exception. *)
Inductive GetReply : Type := GetAnswer (status : Z) (parsed : option json) | GetRaised.

Record Detected : Type := mkDetected {
  dt_id : string;
  dt_url : string;
  dt_tier : string;
  dt_engine : string;
  dt_models : list json
}.

(** The names of a listing, [None] when reading it raises. *)
Definition listed_names (key : string) (name_keys : list string) (data : json) :
    result PyExc (list json) :=
  v ← jget_or key (JList []) data;
  items ← iterate v;
  names ← map_result (fun m => foldr (fun k r => v ← jget k m; w ← r; Ok (jor v w)) (Ok JNull)
                                 name_keys) items;
  Ok (filter (fun m => truthy m = true) names).

(** One probe: nothing unless it answers 200 with a readable listing. *)
Definition detect_one (d : Detected) (key : string) (name_keys : list string) (fallback : string)
    (r : GetReply) : list Detected :=
  match r with
  | GetAnswer status (Some data) =>
    if status =? 200 then
      match listed_names key name_keys data with
      | Ok names => [mkDetected (dt_id d) (dt_url d) (dt_tier d) (dt_engine d)
                       (match names with [] => [JStr fallback] | _ => names end)]
      | Err _ => []
      end
    else []
  | _ => []
  end.

(** [detect_local_backends]. *)
Definition detect_local_backends (get : string -> GetReply) : list Detected :=
  (detect_one (mkDetected "ollama-local" "http://127.0.0.1:11434" "small" "ollama" [])
     "models" ["name"; "model"] "llama3" (get "http://127.0.0.1:11434/api/tags") ++
   detect_one (mkDetected "vllm-primary" "http://127.0.0.1:8000" "large" "vllm" [])
     "data" ["id"] "default" (get "http://127.0.0.1:8000/v1/models") ++
   detect_one (mkDetected "vllm-secondary" "http://127.0.0.1:8001" "large" "vllm" [])
     "data" ["id"] "default" (get "http://127.0.0.1:8001/v1/models") ++
   detect_one (mkDetected "sglang-local" "http://127.0.0.1:30000" "large" "sglang" [])
     "data" ["id"] "default" (get "http://127.0.0.1:30000/v1/models"))%list.

(** ** Generated files *)

(** [generate_example_config]. *)
Definition example_lines : list string :=
  ["# DIO Configuration - Distributed Inference Orchestrator";
   "# Docs: https://github.com/nisaral/DIO";
   "";
   "backends:";
   "  # Local vLLM instance";
   "  - id: local-gpu";
   "    url: http://localhost:8000";
   "    tier: large";
   "    engine: vllm";
   "    models:";
   "      - meta-llama/Llama-3.2-3B-Instruct";
   "";
   "  # Second GPU / remote server";
   "  # - id: remote-a100";
   "  #   url: http://10.0.1.5:8000";
   "  #   tier: large";
   "  #   engine: vllm";
   "  #   vram: 81920";
   "  #   models:";
   "  #     - meta-llama/Llama-3.1-70B-Instruct";
   "";
   "  # Ollama (local CPU/GPU)";
   "  # - id: ollama";
   "  #   url: http://localhost:11434";
   "  #   tier: small";
   "  #   engine: ollama";
   "  #   models:";
   "  #     - llama3";
   "  #     - codellama";
   "  #     - mistral";
   "";
   "scheduler:";
   "  strategy: nlms        # nlms | rls | ewma | static | round_robin | least_loaded";
   "  nlms_mode: dual       # dual | single";
   "  engine_metrics: true  # scrape vLLM /metrics for KV-cache-aware routing";
   "  cache_bonus_ms: 200   # session affinity bonus for multi-turn";
   "  affinity_cache_size: 2048  # how many session prefixes stay pinned in the LRU";
   "";
   "admission:";
   "  mode: empirical       # empirical | strict | rank_only | absolute";
   "  slo_ms: 30000         # max acceptable e2e latency (ms)";
   "  percentile: 95        # for empirical / strict mode";
   "";
   "server:";
   "  host: 0.0.0.0";
   "  port: 8085";
   "  timeout: 300          # request timeout (s)";
   ""].
Definition generate_example_config : string := join newline example_lines.

Definition detected_lines (d : Detected) : list string :=
  let entry := ["  - id: " ++ dt_id d; "    url: " ++ dt_url d; "    tier: " ++ dt_tier d;
                "    engine: " ++ dt_engine d] in
  let models := match dt_models d with
                | [] => []
                | ms => "    models:" :: map (fun m => "      - " ++ jstr m) ms
                end in
  (entry ++ models ++ [""])%list.

(** [generate_detected_config]. *)
Definition generate_detected_config (discovered : list Detected) : string :=
  match discovered with
  | [] => generate_example_config
  | _ => join newline (
    ["# DIO Configuration - Auto-discovered Local Backends";
     "# Generated by: dio init";
     "# Docs: https://github.com/nisaral/DIO";
     "";
     "backends:"] ++
    concat (map detected_lines discovered) ++
    ["scheduler:";
     "  strategy: nlms        # nlms | rls | ewma | static | round_robin | least_loaded";
     "  nlms_mode: dual       # dual | single";
     "  engine_metrics: true  # scrape vLLM /metrics for KV-cache-aware routing";
     "  cache_bonus_ms: 200   # session affinity bonus for multi-turn";
     "  affinity_cache_size: 2048  # pinned session prefixes in the LRU";
     "";
     "admission:";
     "  mode: empirical       # empirical | strict | rank_only | absolute";
     "  slo_ms: 30000         # max acceptable e2e latency (ms)";
     "  percentile: 95        # for empirical / strict mode";
     "";
     "server:";
     "  host: 0.0.0.0";
     "  port: 8085";
     "  timeout: 300          # request timeout (s)";
     ""])%list
  end.
End ConfigFile.
