(* ===== verification/Mcp.v ===== *)
(** The Model Context Protocol server: [dio/mcp.py].  The gateway it queries, the local
    configuration and the texts of exceptions are parameters. *)

From S2P Require Import Prelude PyFloat PyStr PyDict Json Config Learner Backends Requests.
From S2P Require Import ConfigFile.

Section Mcp.
Context {F : Type} {PF : PyFloat F}.
Local Abbreviation json := (json F).
Local Abbreviation body := (list (string * json)).

(** An answer of the gateway: its status, its body as JSON ([None]: unreadable) and as
    text, its headers; or the message of an exception. *)
Inductive McpReply : Type :=
| McpAnswer (status : Z) (parsed : option json) (text : string) (headers : list (string * string))
| McpRaised (message : string).

(** Everything a tool asks for: GETs, the POST of a prompt, and the local file. *)
Record McpEnv : Type := mkEnv {
  env_get : string -> McpReply;
  env_post : string -> json -> McpReply;
  env_local : option (string * option (list (Backend F) * DIOConfig F * AliasTable))
}.

Variables (gateway_url version : string) (exc_text : PyExc -> string).

(** ** Small steps that may raise: the message of the exception *)

Local Abbreviation step A := (result string A).
Definition py {A} (r : result PyExc A) : step A :=
  match r with Ok a => Ok a | Err e => Err (exc_text e) end.

(** [r.json()]. *)
Definition reply_json (parsed : option json) : step json :=
  match parsed with Some v => Ok v | None => Err (exc_text (ValueError "json")) end.

(** [await client.get(url)] and its status. *)
Definition answered (r : McpReply) : step (Z * option json) :=
  match r with McpAnswer st p _ _ => Ok (st, p) | McpRaised m => Err m end.

(** [r.json() if r.status_code == 200 else {}]. *)
Definition json_if_ok (a : Z * option json) : step json :=
  if a.1 =? 200 then reply_json a.2 else Ok (JDict []).

(** ** Tools *)

(** [get_models]. *)
Definition get_models (env : McpEnv) : body :=
  let online : step body :=
    r ← answered (env_get env (gateway_url ++ "/v1/models"));
    h ← answered (env_get env (gateway_url ++ "/health"));
    models ← (if r.1 =? 200 then data ← reply_json r.2; py (jget_or "data" (JList []) data)
              else Ok (JList []));
    health ← json_if_ok h;
    items ← py (iterate models);
    ids ← py (map_result (jget "id") items);
    Ok [("status", JStr "online"); ("gateway_url", JStr gateway_url); ("models", JList ids);
        ("model_details", models); ("cluster_health", health)] in
  match online with
  | Ok res => res
  | Err e =>
    match env_local env with
    | Some (path, Some (backends, cfg, model_map)) =>
      let declared := map (fun b => JStr (default "" (b_model b)))
        (filter (fun b => str_truth (default "" (b_model b)) = true) backends) in
      [("status", JStr "gateway_offline (loaded from local dio.yaml)");
       ("gateway_url", JStr gateway_url); ("config_file", JStr path);
       ("models", JList (match map (fun kv => JStr kv.1) model_map with
                         | [] => declared | names => names end));
       ("backends", JList (map (fun b => JDict [("id", JStr (b_id b));
          ("url", JStr (b_base_url b)); ("tier", JStr (b_tier b))]) backends));
       ("strategy", JStr (strategy cfg))]
    | _ =>
      [("status", JStr "offline"); ("gateway_url", JStr gateway_url);
       ("error", JStr ("Could not connect to DIO gateway at " ++ gateway_url ++ ": " ++ e));
       ("hint", JStr "Start the gateway with: dio serve")]
    end
  end.

(** A number in arithmetic with floats: a text or any other value is a [TypeError]. *)
Definition as_factor (v : json) : result PyExc F :=
  match v with JStr _ => Err TypeError | v => jfloat v end.

(** [float(w.get(key) or d)]. *)
Definition float_or (key : string) (d : F) (w : json) : result PyExc F :=
  v ← jget key w; jfloat (jor v (JFloat d)).

(** [round(x, k)], which keeps a NaN and an infinity. *)
Definition py_round (k : Z) (x : F) : F := if fisnan x || fisinf x then x else fround k x.

(** A candidate backend. *)
Record Prediction : Type := mkPrediction {
  pr_backend : string;
  pr_exec : F;
  pr_wait : F;
  pr_total : F;
  pr_pending : Z;
  pr_slope : F;
  pr_healthy : json
}.

Definition predict_worker (est_tokens : json) (wid : string) (w : json) :
    result PyExc Prediction :=
  fast ← float_or "fast_slope" (fint 4) w;
  slow ← float_or "slow_slope" (fint 4) w;
  alpha ← float_or "alpha" (fdec 8 (-1)) w;
  let eff := fadd (fmul alpha fast) (fmul (fsub f1 alpha) slow) in
  intercept ← float_or "intercept" (fint 100) w;
  pv ← jget "pending" w;
  pending ← jint (jor pv (JInt 0));
  n ← as_factor est_tokens;
  let y_hat := fadd (fmul eff n) intercept in
  p ← jfloat (JInt pending);
  let wait := fmul p (py_max (fint 10) (fmul y_hat (fdec 25 (-2)))) in
  tier ← float_or "tier_cost" f0 w;
  let total := fadd (fadd wait y_hat) tier in
  healthy ← jget_or "healthy" (JBool true) w;
  Ok (mkPrediction wid (py_round 1 y_hat) (py_round 1 wait) (py_round 1 total) pending
        (py_round 2 eff) healthy).

(** [predictions.sort(key=lambda x: x["total_score"])]: stable. *)
Fixpoint insert_prediction (p : Prediction) (l : list Prediction) : list Prediction :=
  match l with
  | [] => [p]
  | q :: l' => if flt (pr_total p) (pr_total q) then p :: q :: l' else q :: insert_prediction p l'
  end.
Definition sort_predictions (l : list Prediction) : list Prediction :=
  foldl (fun acc p => insert_prediction p acc) [] l.

Definition prediction_json (p : Prediction) : json :=
  JDict [("backend_id", JStr (pr_backend p)); ("predicted_execution_ms", JFloat (pr_exec p));
         ("queue_wait_ms", JFloat (pr_wait p)); ("total_score", JFloat (pr_total p));
         ("pending_requests", JInt (pr_pending p));
         ("learned_slope_ms_per_token", JFloat (pr_slope p)); ("healthy", pr_healthy p)].

(** The candidates of a metrics document, and its SLO. *)
Definition candidates (est_tokens metrics : json) : result PyExc (list Prediction * F) :=
  workers ← jget_or "workers" (JDict []) metrics;
  adm ← jget_or "admission" (JDict []) metrics;
  slo ← jget_or "slo_ms" (JFloat (fint 30000)) adm;
  slo ← jfloat slo;
  ws ← (match workers with JDict d => Ok d | _ => Err AttributeError end);
  ps ← map_result (fun kv => predict_worker est_tokens kv.1 kv.2) ws;
  Ok (sort_predictions ps, slo).

Definition estimated_tokens (prompt : string) (tokens : json) : json :=
  if is_none tokens then JInt (Z.max 1 (str_len prompt / 4)) else tokens.

(** [predict_latency]; the heuristic of the offline answer can itself raise. *)
Definition predict_latency (env : McpEnv) (prompt : string) (model tokens : json) :
    step body :=
  let est := estimated_tokens prompt tokens in
  let online : step body :=
    r ← answered (env_get env (gateway_url ++ "/debug/metrics"));
    if negb (r.1 =? 200) then
      Ok [("error", JStr ("Gateway returned status " ++ str_of_Z r.1))]
    else
      metrics ← reply_json r.2;
      cs ← py (candidates est metrics);
      let best := head cs.1 in
      Ok [("status", JStr "online"); ("estimated_tokens", est);
          ("model", jor model (JStr "default"));
          ("recommended_backend", match best with Some b => JStr (pr_backend b) | None => JNull end);
          ("predicted_latency_ms", match best with Some b => JFloat (pr_total b) | None => JNull end);
          ("slo_ms", JFloat cs.2);
          ("admissible", JBool match best with Some b => fle (pr_total b) cs.2 | None => false end);
          ("candidate_backends", JList (map prediction_json cs.1))] in
  match online with
  | Ok res => Ok res
  | Err e =>
    n ← py (as_factor est);
    Ok [("status", JStr "gateway_offline"); ("estimated_tokens", est);
        ("model", jor model (JStr "default"));
        ("predicted_latency_ms", JFloat (py_round 1 (fadd (fmul n (fint 15)) (fint 100))));
        ("note", JStr ("Estimated via heuristic (DIO gateway at " ++ gateway_url
                       ++ " is offline: " ++ e ++ ")"))]
  end.

(** [v[0]] and [v[key]]. *)
Definition jfirst (v : json) : result PyExc json :=
  match v with
  | JList (x :: _) => Ok x
  | JList [] => Err IndexMissing
  | JDict _ => Err (KeyMissing "0")
  | JStr (String c _) => Ok (JStr (String c ""))
  | JStr EmptyString => Err IndexMissing
  | _ => Err TypeError
  end.
Definition jitem (key : string) (v : json) : result PyExc json :=
  match v with
  | JDict d => match dget key d with Some x => Ok x | None => Err (KeyMissing key) end
  | _ => Err TypeError
  end.

(** [route_prompt]. *)
Definition route_payload (prompt : string) (model : json) (max_tokens : Z) (temperature : F) : json :=
  let payload := [("messages", JList [JDict [("role", JStr "user"); ("content", JStr prompt)]]);
                  ("max_tokens", JInt max_tokens); ("temperature", JFloat temperature)] in
  JDict (if truthy model then dset "model" model payload else payload).

Definition route_prompt (env : McpEnv) (prompt : string) (model : json) (max_tokens : Z)
    (temperature : F) : body :=
  let routed : step body :=
    match env_post env (gateway_url ++ "/v1/chat/completions")
            (route_payload prompt model max_tokens temperature) with
    | McpRaised m => Err m
    | McpAnswer status parsed text headers =>
      if negb (status =? 200) then
        Ok [("error", JStr ("Gateway error " ++ str_of_Z status)); ("details", JStr text)]
      else
        data ← reply_json parsed;
        choices ← py (jget "choices" data);
        let choices := jor choices (JList []) in
        content ← py (if truthy choices then c ← jfirst choices; m ← jitem "message" c; jitem "content" m
                      else Ok (JStr ""));
        e2e ← py (jfloat (JStr (dget_or "X-DIO-E2E-Ms" "0.0" headers)));
        m ← py (jget_or "model" model data);
        usage ← py (jget_or "usage" (JDict []) data);
        Ok [("content", content); ("backend_used", JStr (dget_or "X-DIO-Backend" "unknown" headers));
            ("latency_ms", JFloat e2e); ("model", m); ("usage", usage)]
    end in
  match routed with
  | Ok res => res
  | Err e => [("error", JStr ("Failed to route prompt: " ++ e))]
  end.

(** [cluster_status]. *)
Definition cluster_status (env : McpEnv) : body :=
  let online : step body :=
    m ← answered (env_get env (gateway_url ++ "/debug/metrics"));
    e ← answered (env_get env (gateway_url ++ "/debug/engine"));
    h ← answered (env_get env (gateway_url ++ "/health"));
    hj ← json_if_ok h; mj ← json_if_ok m; ej ← json_if_ok e;
    Ok [("status", JStr "online"); ("gateway", hj); ("scheduler", mj); ("engine_metrics", ej)] in
  match online with
  | Ok res => res
  | Err e => [("status", JStr "offline"); ("error", JStr ("Could not fetch cluster status: " ++ e))]
  end.

(** ** JSON-RPC *)

Definition SUPPORTED_PROTOCOL_VERSIONS : list string := ["2025-06-18"; "2024-11-05"].
Definition DEFAULT_PROTOCOL_VERSION : string := "2024-11-05".

(** [json.dumps(v, indent=2)]. *)
Fixpoint dumps_indent (level : nat) (v : json) : string :=
  let pad n := newline ++ unchars (repeat " "%char (2 * n)) in
  match v with
  | JList ((_ :: _) as l) =>
    "[" ++ join "," (map (fun x => pad (S level) ++ dumps_indent (S level) x) l) ++ pad level ++ "]"
  | JDict ((_ :: _) as d) =>
    "{" ++ join "," (map (fun kv => pad (S level) ++ dump_str kv.1 ++ ": "
                                    ++ dumps_indent (S level) kv.2) d) ++ pad level ++ "}"
  | v => dumps v
  end.

Definition rpc_result (id : json) (v : json) : json :=
  JDict [("jsonrpc", JStr "2.0"); ("id", id); ("result", v)].
Definition rpc_error (id : json) (code : Z) (message : string) : json :=
  JDict [("jsonrpc", JStr "2.0"); ("id", id);
         ("error", JDict [("code", JInt code); ("message", JStr message)])].
Definition invalid_request : json := rpc_error JNull (-32600) "Invalid Request".

Definition tool_list : json := JList [
   JDict
     [("name", JStr "dio_get_models");
      ("description", JStr "Query DIO gateway for available LLM models, active backends, and cluster health.");
      ("inputSchema", JDict
       [("type", JStr "object");
        ("properties", JDict [])])];
   JDict
     [("name", JStr "dio_predict_latency");
      ("description", JStr "Get latency and cost predictions before sending requests. Predicts queue delay, execution latency, and optimal backend using DIO's dual-timescale NLMS filter.");
      ("inputSchema", JDict
       [("type", JStr "object");
        ("properties", JDict
         [("prompt", JDict
           [("type", JStr "string");
            ("description", JStr "The prompt text or query to estimate")]);
          ("model", JDict
           [("type", JStr "string");
            ("description", JStr "Target model name (optional)")]);
          ("tokens", JDict
           [("type", JStr "integer");
            ("description", JStr "Estimated token count (optional)")])]);
        ("required", JList [JStr "prompt"])])];
   JDict
     [("name", JStr "dio_route_prompt");
      ("description", JStr "Route a prompt through DIO's intelligent NLMS scheduler to the optimal backend and return the completion.");
      ("inputSchema", JDict
       [("type", JStr "object");
        ("properties", JDict
         [("prompt", JDict
           [("type", JStr "string");
            ("description", JStr "Prompt text to send")]);
          ("model", JDict
           [("type", JStr "string");
            ("description", JStr "Target model name (optional)")]);
          ("max_tokens", JDict
           [("type", JStr "integer");
            ("description", JStr "Maximum tokens to generate (default: 256)")]);
          ("temperature", JDict
           [("type", JStr "number");
            ("description", JStr "Sampling temperature (default: 0.7)")])]);
        ("required", JList [JStr "prompt"])])];
   JDict
     [("name", JStr "dio_cluster_status");
      ("description", JStr "Get live telemetry from the DIO cluster, including learned worker slopes, KV-cache pressure, and admission goodput statistics.");
      ("inputSchema", JDict
       [("type", JStr "object");
        ("properties", JDict [])])]].

(** [tools/call]: the tool's answer, the message of an exception, or no such tool. *)
Inductive ToolOutcome : Type :=
| ToolDone (res : body)
| ToolFailed (message : string)
| ToolUnknown.

Definition call_tool (env : McpEnv) (name args : json) : ToolOutcome :=
  let done (r : step body) := match r with Ok res => ToolDone res | Err e => ToolFailed e end in
  let prompt : step string := v ← py (jget_or "prompt" (JStr "") args); Ok (jstr v) in
  if is_str "dio_get_models" name then ToolDone (get_models env)
  else if is_str "dio_predict_latency" name then
    done (p ← prompt; m ← py (jget "model" args); t ← py (jget "tokens" args);
          predict_latency env p m t)
  else if is_str "dio_route_prompt" name then
    done (p ← prompt; m ← py (jget "model" args);
          n ← py (jget_or "max_tokens" (JInt 256) args); n ← py (jint n);
          t ← py (jget_or "temperature" (JFloat (fdec 7 (-1))) args); t ← py (jfloat t);
          Ok (route_prompt env p m n t))
  else if is_str "dio_cluster_status" name then ToolDone (cluster_status env)
  else ToolUnknown.

Definition text_content (text : string) (is_error : bool) : json :=
  JDict [("content", JList [JDict [("type", JStr "text"); ("text", JStr text)]]);
         ("isError", JBool is_error)].

Definition tools_call (env : McpEnv) (id : json) (params : body) : json :=
  let name := bget "name" params in
  match call_tool env name (jor (bget "arguments" params) (JDict [])) with
  | ToolDone res => rpc_result id (text_content (dumps_indent 0 (JDict res)) (dmem "error" res))
  | ToolFailed e => rpc_result id (text_content ("Tool execution failed: " ++ e) true)
  | ToolUnknown => rpc_error id (-32601) ("Unknown tool '" ++ jstr name ++ "'")
  end.

(** [handle_request]; [None] is no answer. *)
Definition handle_request (env : McpEnv) (req : json) : option json :=
  match req with
  | JDict d =>
    let method := bget "method" d in
    let params := match bget "params" d with JDict p => p | _ => [] end in
    match dget "id" d with
    | None => None
    | Some id =>
      if is_str "initialize" method then
        let requested := strip (jstr (jor (bget "protocolVersion" params) (JStr ""))) in
        Some (rpc_result id (JDict
          [("protocolVersion", JStr (if str_in requested SUPPORTED_PROTOCOL_VERSIONS
                                     then requested else DEFAULT_PROTOCOL_VERSION));
           ("capabilities", JDict [("tools", JDict [])]);
           ("serverInfo", JDict [("name", JStr "dio-mcp"); ("version", JStr version)])]))
      else if is_str "notifications/initialized" method || is_str "initialized" method then None
      else if is_str "ping" method then Some (rpc_result id (JDict []))
      else if is_str "tools/list" method then Some (rpc_result id (JDict [("tools", tool_list)]))
      else if is_str "tools/call" method then Some (tools_call env id params)
      else Some (rpc_error id (-32601) ("Method '" ++ jstr method ++ "' not supported"))
    end
  | _ => Some invalid_request
  end.

(** [handle_message]: the [n]-th request of a batch meets the gateway [envs n]. *)
Fixpoint handle_batch (envs : nat -> McpEnv) (n : nat) (items : list json) : list json :=
  match items with
  | [] => []
  | item :: items' =>
    match handle_request (envs n) item with
    | Some reply => reply :: handle_batch envs (S n) items'
    | None => handle_batch envs (S n) items'
    end
  end.

Definition handle_message (envs : nat -> McpEnv) (msg : json) : option json :=
  match msg with
  | JList [] => Some invalid_request
  | JList items => match handle_batch envs 0 items with
                   | [] => None | replies => Some (JList replies) end
  | v => handle_request (envs 0%nat) v
  end.

(** One line of [run_stdio]: the line it writes, if any. *)
Definition stdio_line (envs : nat -> McpEnv) (line : string) : option string :=
  let line := strip line in
  if negb (str_truth line) then None
  else
    match loads line with
    | Some req => (fun v => dumps v ++ newline) <$> handle_message envs req
    | None => Some (dumps (rpc_error JNull (-32700) "Parse error" : json) ++ newline)
    end.

(** ** What the scheduler's metrics give the tool *)

(** A worker of [Scheduler.metrics()] as the gateway serves it. *)
Definition worker_json (w : WorkerSnapshot F) : json :=
  JDict [("fast_slope", JFloat (ws_fast_slope w)); ("slow_slope", JFloat (ws_slow_slope w));
         ("intercept", JFloat (ws_intercept w)); ("avg_latency_ms", JFloat (ws_avg_latency_ms w));
         ("updates", JInt (ws_updates w)); ("clipped_updates", JInt (ws_clipped_updates w));
         ("contended_updates", JInt (ws_contended_updates w)); ("robust", JBool (ws_robust w));
         ("mode", JStr (ws_mode w)); ("mae_ms", JFloat (ws_mae_ms w));
         ("mape_pct", JFloat (ws_mape_pct w)); ("pending", JInt (ws_pending w));
         ("free_vram_mb", JFloat (ws_free_vram_mb w)); ("tier", JStr (ws_tier w));
         ("healthy", JBool (ws_healthy w)); ("frozen", JBool (ws_frozen w))].
End Mcp.
Arguments McpReply F : clear implicits.
Arguments McpEnv F : clear implicits.
Arguments Prediction F : clear implicits.
