(* ===== verification/Cli.v ===== *)
(** The command line: [_parse_backends] and the choice of configuration of [serve]
    ([dio/cli.py]).  Printing and the server loop are left out; loading a file and
    the pydantic constructor are parameters. *)

From S2P Require Import Prelude PyFloat PyStr PyDict Json Config Backends Requests ConfigFile.

Section Cli.
Context {F : Type} {PF : PyFloat F}.
Local Abbreviation json := (json F).
Local Abbreviation body := (list (string * json)).
Variable bracketed_ok : string -> bool.

(** ** Backend flags *)

(** One value of [--backend] with its index: URL, id=URL or id=URL;tier=T. *)
Definition parse_flag (i : nat) (raw : string) (tiers : list string) (vrams : list F) :
    result PyExc (Backend F) :=
  let '(bid, url) :=
    match partition "=" raw with
    | Some (id, rest) => if startswith "http" raw then ("b" ++ str_of_Z (Z.of_nat i), raw) else (id, rest)
    | None => ("b" ++ str_of_Z (Z.of_nat i), raw)
    end in
  let '(url, tier) := match partition_str ";tier=" url with
                      | Some (u, t) => (u, t)
                      | None => (url, default "small" (tiers !! i))
                      end in
  let vram := default (fint 24000) (vrams !! i) in
  let d : Backend F := backend_defaults (strip bid) (strip url) in
  post_init bracketed_ok
    (mkBackend (b_id d) (b_base_url d) (strip tier) None vram vram (b_weight d) None None []
       (b_api_style d) None (b_chat_path d) (b_completions_path d) (b_generate_path d)
       (b_health_path d) (b_models_path d) (b_metrics_path d) None).

Fixpoint parse_flags (i : nat) (values tiers : list string) (vrams : list F) :
    result PyExc (list (Backend F)) :=
  match values with
  | [] => Ok []
  | raw :: values' =>
    b ← parse_flag i raw tiers vrams;
    bs ← parse_flags (S i) values' tiers vrams;
    Ok (b :: bs)
  end.

(** [_parse_backends]. *)
Definition parse_backends (values tiers : list string) (vrams : list F) :
    result PyExc (list (Backend F)) := parse_flags 0 values tiers vrams.

(** ** [serve] *)

Record ServeOptions : Type := mkOptions {
  so_backend : list string;
  so_config : option string;
  so_host : string;
  so_port : Z;
  so_strategy : string;
  so_nlms_mode : string;
  so_slo_ms : F;
  so_admission_off : bool;
  so_admission_mode : string;
  so_tokenizer : string;
  so_engine_metrics : bool;
  so_cache_bonus_ms : F;
  so_ablation : string;
  so_tier : list string;
  so_vram : list F
}.

Definition set_listen (host : string) (port : Z) (c : DIOConfig F) : DIOConfig F :=
  mkConfig F (strategy c) (nlms_mode c) (ablation c) (slo_ms c) (admission_off c)
    (admission_mode c) (admission_percentile c) (recent_latency_window c) (tier_mismatch_ms c)
    (cache_bonus_ms c) (affinity_cache_size c) (vram_soft_limit_mb c) (vram_hard_limit_mb c)
    (batch_size c) (engine_metrics c) (metrics_interval_s c) (kv_cache_cost_ms c)
    (engine_queue_cost_ms c) (engine_prefix_hit_bonus_ms c) (mu_fast c) (mu_slow c) (mu_bias c)
    (fast_slow_blend c) (initial_slope c) (initial_intercept c) (static_slope c)
    (static_intercept c) (learner_robust c) (learner_err_clip c) (learner_step_frac c)
    (learner_slope_max c) (learner_intercept_max c) (tokenizer_name c) (use_tokenizer c)
    host port (request_timeout_s c) (health_interval_s c) (max_tokens_cap c)
    (token_feature_cap c) (body_size_cap_bytes c) (prompt_chars_cap c) (api_key c)
    (protect_debug c) (data_plane_auth c) (log_decisions c) (decision_log_size c)
    (pred_history_size c).

(** The keyword arguments of [DIOConfig] made of the flags. *)
Definition flag_kwargs (o : ServeOptions) : body :=
  [("host", JStr (so_host o)); ("port", JInt (so_port o)); ("strategy", JStr (so_strategy o));
   ("nlms_mode", JStr (so_nlms_mode o)); ("slo_ms", JFloat (so_slo_ms o));
   ("admission_off", JBool (so_admission_off o)); ("admission_mode", JStr (so_admission_mode o));
   ("tokenizer_name", if str_truth (so_tokenizer o) then JStr (so_tokenizer o) else JNull);
   ("use_tokenizer", JBool (str_truth (so_tokenizer o)));
   ("engine_metrics", JBool (so_engine_metrics o)); ("cache_bonus_ms", JFloat (so_cache_bonus_ms o));
   ("ablation", JStr (so_ablation o))].

(** What [serve] comes to: a gateway, an exit code, or an uncaught exception. *)
Inductive Served : Type :=
| ServeRun (backends : list (Backend F)) (cfg : DIOConfig F) (model_map : AliasTable)
| ServeExit (code : Z)
| ServeRaise (e : ConfigExc).

Definition served {A} (r : result ConfigExc A) (k : A -> Served) : Served :=
  match r with Ok a => k a | Err e => ServeRaise e end.

Variable build_config : body -> result PyExc (DIOConfig F).

Definition serve_flags (o : ServeOptions) (model_map : AliasTable) : Served :=
  served (lift_py (parse_backends (so_backend o) (so_tier o) (so_vram o))) (fun bs =>
  served (lift_py (build_config (flag_kwargs o))) (fun cfg => ServeRun bs cfg model_map)).

(** [serve] up to the gateway; [load] is [load_config_file], [found] whether a
    configuration file is discovered. *)
Definition serve (load : option string -> result ConfigExc (list (Backend F) * DIOConfig F * AliasTable))
    (found : bool) (o : ServeOptions) : Served :=
  let no_backend := match so_backend o with [] => true | _ => false end in
  let named := match so_config o with Some p => str_truth p | None => false end in
  if named || (no_backend && found) then
    match load (so_config o) with
    | Ok (file_backends, cfg, model_map) =>
      let host' := if negb (str_eqb (so_host o) "0.0.0.0") || str_eqb (host cfg) ""
                   then so_host o else host cfg in
      let port' := if so_port o =? 8085 then port cfg else so_port o in
      match (if no_backend then Ok file_backends
             else parse_backends (so_backend o) (so_tier o) (so_vram o)) with
      | Ok bs => ServeRun bs (set_listen host' port' cfg) model_map
      | Err e => ServeRaise (CePy e)
      end
    | Err (CeConfig _) => ServeExit 2
    | Err CeNotFound => if no_backend then ServeExit 1 else serve_flags o []
    | Err e => ServeRaise e
    end
  else if no_backend then ServeExit 1 else serve_flags o [].
End Cli.
Arguments ServeOptions F : clear implicits.
Arguments Served F : clear implicits.

(** ** Properties *)

Section Flags.
Context {F : Type} {PF : PyFloat F}.
Variable bracketed_ok : string -> bool.
Implicit Types (o : ServeOptions F) (tiers : list string) (vrams : list F).

(** A backend written the way the help text says. *)
Record FlagSpec : Type := mkSpec { fs_id : string; fs_url : string; fs_tier : string }.
Definition render_flag (s : FlagSpec) : string :=
  fs_id s ++ "=" ++ fs_url s ++ ";tier=" ++ fs_tier s.

Definition spec_ok (s : FlagSpec) : Prop :=
  has_char "=" (fs_id s) = false /\ startswith "http" (fs_id s) = false /\
  has_char ";" (fs_url s) = false.

(** The backend a specification stands for. *)
Definition spec_backend (s : FlagSpec) (vram : F) : Backend F :=
  let d : Backend F := backend_defaults (strip (fs_id s)) (strip (fs_url s)) in
  mkBackend (b_id d) (b_base_url d) (strip (fs_tier s)) None vram vram (b_weight d) None None []
    (b_api_style d) None (b_chat_path d) (b_completions_path d) (b_generate_path d)
    (b_health_path d) (b_models_path d) (b_metrics_path d) None.

Lemma partition_at c s t : has_char c s = false -> partition c (s ++ String c t) = Some (s, t).
Proof.
  unfold has_char. intros H%bool_decide_eq_false. induction s as [|x s IH]; simpl in *.
  - by rewrite decide_True.
  - rewrite decide_False by set_solver. by rewrite IH by set_solver.
Qed.

Lemma startswith_before p a c t :
  has_char c p = false -> startswith p (a ++ String c t) = true -> startswith p a = true.
Proof.
  unfold has_char. intros Hp%bool_decide_eq_false. revert a Hp.
  induction p as [|x p IH]; intros [|y a] Hp; simpl in *; try done.
  - intros H%andb_true_iff. destruct H as [H%bool_decide_eq_true _]. subst. set_solver.
  - intros H%andb_true_iff. destruct H as [-> H]. apply (IH a); [set_solver|done].
Qed.

Lemma partition_tier u t :
  has_char ";" u = false -> partition_str ";tier=" (u ++ ";tier=" ++ t) = Some (u, t).
Proof.
  unfold has_char. intros H%bool_decide_eq_false. induction u as [|x u IH]; [done|].
  simpl in H. rewrite str_app_cons. cbn [partition_str].
  assert (E : startswith ";tier=" (String x (u ++ ";tier=" ++ t)) = false).
  { cbn [startswith]. rewrite bool_decide_eq_false_2; [done|]. set_solver. }
  rewrite E, IH by set_solver. done.
Qed.

Lemma parse_flag_render i s tiers vrams :
  spec_ok s ->
  parse_flag bracketed_ok i (render_flag s) tiers vrams
  = post_init bracketed_ok (spec_backend s (default (fint 24000) (vrams !! i))).
Proof.
  intros (H1 & H2 & H3). unfold parse_flag, render_flag.
  change ("=" ++ fs_url s ++ ";tier=" ++ fs_tier s)
    with (String "=" (fs_url s ++ ";tier=" ++ fs_tier s)).
  rewrite partition_at by done.
  match goal with |- context [if startswith "http" ?x then _ else _] =>
    destruct (startswith "http" x) eqn:E end.
  { apply startswith_before in E; [congruence|done]. }
  by rewrite partition_tier.
Qed.

(** The help text is true: a list of flags written id=URL;tier=T is read back as
    exactly those backends, in their order, each with the memory given at its
    position, and fails only if one of the URLs does not pass the vetting. *)
Theorem flags_read_back specs tiers vrams :
  Forall spec_ok specs ->
  parse_backends bracketed_ok (map render_flag specs) tiers vrams
  = map_result (fun '(i, s) => post_init bracketed_ok
                  (spec_backend s (default (fint 24000) (vrams !! i))))
      (imap (fun i s => (i, s)) specs).
Proof.
  unfold parse_backends. intros H. rewrite <- (imap_ext (fun i s => (0 + i, s)%nat)) by done.
  generalize 0%nat. induction H as [|s specs Hs _ IH]; intros n; [done|].
  cbn [map parse_flags imap map_result]. rewrite parse_flag_render by done.
  rewrite Nat.add_0_r. destruct (post_init _ _); [|done]. rewrite IH.
  by rewrite (imap_ext _ (fun i s => (n + S i, s)%nat)) by (intros; f_equal; lia).
Qed.

Variable build_config : list (string * json F) -> result PyExc (DIOConfig F).

(** The same flags but for the settings a configuration file decides. *)
Definition same_listen o o' : Prop :=
  so_backend o = so_backend o' /\ so_config o = so_config o' /\ so_host o = so_host o' /\
  so_port o = so_port o' /\ so_tier o = so_tier o' /\ so_vram o = so_vram o'.

(** A configuration file that loads decides every setting but the address: the gateway
    runs with it whatever the flags for strategy, SLO, admission, tokenizer or
    ablation say, with the file's backends unless flags name others; only host and
    port can be overridden. *)
Theorem config_file_decides load found o o' bs cfg mm :
  same_listen o o' -> load (so_config o) = Ok (bs, cfg, mm) ->
  (exists p, so_config o = Some p /\ p <> "") \/ (so_backend o = [] /\ found = true) ->
  serve bracketed_ok build_config load found o = serve bracketed_ok build_config load found o' /\
  (so_backend o = [] -> exists h p,
     serve bracketed_ok build_config load found o = ServeRun bs (set_listen h p cfg) mm /\
     (so_host o = "0.0.0.0" -> host cfg <> "" -> h = host cfg) /\
     (so_port o = 8085 -> p = port cfg)).
Proof.
  intros (E1 & E2 & E3 & E4 & E5 & E6) Hl Hc. unfold serve.
  rewrite <- E1, <- E2, <- E3, <- E4, <- E5, <- E6, Hl.
  assert (Hb : (match so_config o with Some p => str_truth p | None => false end ||
                (match so_backend o with [] => true | _ => false end && found)) = true).
  { destruct Hc as [(p & -> & Hp)|[-> ->]]; [by destruct p|by rewrite orb_true_r]. }
  rewrite Hb. split; [done|]. intros ->. eexists _, _. split; [reflexivity|]. split.
  - intros -> Hh. unfold str_eqb. by rewrite bool_decide_eq_true_2, bool_decide_eq_false_2.
  - by intros ->.
Qed.
End Flags.

(** ** Witnesses *)

Definition demo_specs : list FlagSpec :=
  [mkSpec "gpu0" "http://10.0.0.1:8000" "large"; mkSpec "gpu1 " " http://10.0.0.2:8000" "small"].

Lemma flags_read_back_witness :
  map render_flag demo_specs
  = ["gpu0=http://10.0.0.1:8000;tier=large"; "gpu1 = http://10.0.0.2:8000;tier=small"] /\
  parse_backends (fun _ => false) (map render_flag demo_specs) [] [fint (F:=float) 80000]
  = Ok [spec_backend (mkSpec "gpu0" "http://10.0.0.1:8000" "large") (fint 80000);
        spec_backend (mkSpec "gpu1" "http://10.0.0.2:8000" "small") (fint 24000)].
Proof.
  split; [reflexivity|].
  rewrite (flags_read_back (fun _ => false) demo_specs); [vm_compute; reflexivity|].
  repeat constructor.
Defined.

Definition demo_options (strategy : string) : ServeOptions float :=
  mkOptions [] (Some "dio.yaml") "0.0.0.0" 9000 strategy "dual" (fint 5000) false "empirical" ""
    true (fint 200) "full" [] [].

Lemma config_file_decides_witness :
  exists h p, serve (fun _ => false) (fun _ => Err OtherExc)
    (fun _ => Ok ([], DIOConfig_default (F:=float), [])) false (demo_options "rls")
  = ServeRun [] (set_listen h p DIOConfig_default) [] /\ h = "0.0.0.0".
Proof.
  destruct (config_file_decides (fun _ => false) (fun _ => Err OtherExc)
    (fun _ => Ok ([], DIOConfig_default (F:=float), [])) false (demo_options "rls")
    (demo_options "nlms") [] DIOConfig_default []) as [_ H].
  - by split_and!.
  - reflexivity.
  - left. by exists "dio.yaml".
  - destruct (H eq_refl) as (h & p & E & Hh & _). exists h, p. split; [exact E|].
    by apply Hh.
Defined.
