(* ===== verification/Commands.v ===== *)
(** The other commands of [dio/cli.py]: [config], [check-config], [init] and the figures of
    [bench-smoke], as what they print and the code they exit with; and the URLs [serve]
    prints. *)

From S2P Require Import Prelude PyFloat PyStr PyDict PySort Json Config Backends Requests ConfigFile.

Section Commands.
Context {F : Type} {PF : PyFloat F}.
Local Abbreviation json := (json F).
Local Abbreviation body := (list (string * json)).

(** How a command ends. *)
Inductive Command (A : Type) : Type :=
| Done (a : A)
| Exit (code : Z)
| Uncaught (e : ConfigExc).
Arguments Done {A}. Arguments Exit {A}. Arguments Uncaught {A}.

(** ** The URLs [serve] prints *)

Definition client_host (host : string) : string :=
  if str_in host ["0.0.0.0"; "::"; ""] then "127.0.0.1" else host.
Definition openai_base (host : string) (port : Z) : string :=
  "http://" ++ client_host host ++ ":" ++ str_of_Z port ++ "/v1".
Definition ollama_base (host : string) (port : Z) : string :=
  "http://" ++ client_host host ++ ":" ++ str_of_Z port ++ "/api".

(** ** [config] *)

(** A row of the table of backends. *)
Definition backend_row (b : Backend F) : list string :=
  [b_id b; b_base_url b; b_tier b; dget_or "engine" "openai" (b_labels b);
   dget_or "models" (str_or (default "" (b_model b)) "-") (b_labels b)].

(** The model map as a table. *)
Definition model_rows (model_map : AliasTable) : list (string * string) :=
  map (fun kv => (kv.1, join ", " kv.2)) model_map.

Definition config_show
    (loaded : result ConfigExc (list (Backend F) * DIOConfig F * AliasTable)) :
    Command (list (list string) * list (string * string)) :=
  match loaded with
  | Ok (backends, _, model_map) => Done (map backend_row backends, model_rows model_map)
  | Err (CeConfig _) => Exit 2
  | Err CeNotFound => Exit 1
  | Err e => Uncaught e
  end.

(** ** [check-config] *)

(** What reading the file comes to; [UnicodeDecodeError] is not an [OSError]. *)
Inductive ReadReply : Type :=
| ReadText (is_json : bool) (text : string)
| ReadMissing
| ReadOsError
| ReadBadText.

Variable bracketed_ok : string -> bool.
Variable build_config : body -> result PyExc (DIOConfig F).

(** The command imports PyYAML itself.  A failed parse is a [YAMLError] or a
    [JSONDecodeError]. *)
Definition check_config (yaml : option (string -> result PyExc json))
    (read : string -> ReadReply) (discovered : option string) (file : string) :
    Command (Z * string * Z) :=
  match yaml with
  | None => Uncaught (CePy OtherExc)
  | Some _ =>
    match (if str_truth file then Some file else discovered) with
    | None => Exit 1
    | Some p =>
      match read p with
      | ReadMissing | ReadOsError => Exit 1
      | ReadBadText => Uncaught (CePy (ValueError "utf-8"))
      | ReadText is_json text =>
        match load_yaml yaml is_json text with
        | Err (CePy _) => Exit 2
        | Err e => Uncaught e
        | Ok data =>
          match load_document bracketed_ok build_config p data with
          | Ok (backends, cfg, _) =>
            Done (Z.of_nat (length backends), strategy cfg, port cfg)
          | Err (CeConfig _) => Exit 2
          | Err CeNotFound => Exit 1
          | Err e => Uncaught e
          end
        end
      end
    end
  end.

(** ** [init] *)

(** [", ".join(models)] of every engine found, printed before the file is written. *)
Fixpoint models_printable (l : list (Detected (F:=F))) : result PyExc unit :=
  match l with
  | [] => Ok tt
  | d :: l' => _ ← join_json ", " (dt_models d); models_printable l'
  end.

(** The text written to the output file.  [found] is what the probes gave; an exception of
    the detection counts as nothing found. *)
Definition init_command (exists_already force detect : bool)
    (found : option (list (Detected (F:=F)))) : Command string :=
  if exists_already && negb force then Exit 1
  else
    match (if detect then default [] found else []) with
    | [] => Done generate_example_config
    | l =>
      match models_printable l with
      | Ok _ => Done (generate_detected_config l)
      | Err e => Uncaught (CePy e)
      end
    end.

(** ** [bench-smoke] *)

Record BenchRow : Type := mkBenchRow {
  br_strategy : string;
  br_ok : Z;
  br_p50 : option F;
  br_p99 : option F;
  br_mape : F
}.

(** The row of a strategy from the status and latency of every request. *)
Definition bench_row (strategy : string) (outcomes : list (Z * F)) (mape : F) : BenchRow :=
  let lats := fsorted (map snd outcomes) in
  let n := Z.of_nat (length lats) in
  mkBenchRow strategy (Z.of_nat (length (filter (fun o => (o.1 =? 200) = true) outcomes)))
    (match lats with [] => None | _ => Some (fnth lats (n / 2)) end)
    (match lats with
     | [] => None
     | _ => Some (fnth lats (ftrunc (fmul (fdec 99 (-2)) (fint (n - 1)))))
     end) mape.

(** A cell of the printed table; 0 prints as a dash. *)
Definition bench_cell (x : option F) : string :=
  match x with Some x => if ftruth x then fmt_fixed 0 x else "-" | None => "-" end.
Definition bench_cells (r : BenchRow) : list string :=
  [br_strategy r; str_of_Z (br_ok r); bench_cell (br_p50 r); bench_cell (br_p99 r);
   fmt_fixed 1 (br_mape r)].

(** ** Properties *)

(** An existing file is kept unless [--force] is given. *)
Lemma init_keeps_file detect found : init_command true false detect found = Exit 1.
Proof. done. Qed.

(** A generated file is never empty, whatever the probes find. *)
Lemma init_writes_config exists_already force detect found text :
  init_command exists_already force detect found = Done text -> startswith "# DIO Configuration" text = true.
Proof.
  unfold init_command. destruct (exists_already && negb force); [done|].
  destruct (if detect then default [] found else []) as [|d l]; [by intros [= <-]|].
  destruct (models_printable (d :: l)); [|done]. by intros [= <-].
Qed.

(** The exit codes of the check: success exactly when the document loads. *)
Lemma check_config_done safe_load read discovered file n s p :
  check_config (Some safe_load) read discovered file = Done (n, s, p) ->
  exists path is_json text data backends cfg mm,
    read path = ReadText is_json text /\ load_yaml (Some safe_load) is_json text = Ok data /\
    load_document bracketed_ok build_config path data = Ok (backends, cfg, mm) /\
    n = Z.of_nat (length backends) /\ s = strategy cfg /\ p = port cfg.
Proof.
  unfold check_config. destruct (if str_truth file then Some file else discovered) as [path|]; [|done].
  destruct (read path) as [is_json text| | |] eqn:Hr; [|done..].
  destruct (load_yaml _ is_json text) as [data|[]] eqn:Hy; [|done..].
  destruct (load_document _ _ path data) as [[[bs cfg] mm]|[]] eqn:Hd; [|done..].
  intros [= <- <- <-]. by exists path, is_json, text, data, bs, cfg, mm.
Qed.
End Commands.
