(* ===== verification/EngineFixture.v ===== *)
(** The fixture engine of the harness: [dio-serve/scripts/mock_vllm_server.py].  Its
    request slots are counters under a lock, and the threads that serve requests
    run between the critical sections in any order. *)

From S2P Require Import Prelude PyFloat PyStr PyDict Json Backends.

Section Fixture.
Context {F : Type} {PF : PyFloat F}.
Local Abbreviation json := (json F).

(** ** [EngineState] *)

Record EngineCfg : Type := mkEngineCfg {
  max_concurrency : Z;
  kv_per_request : F
}.

Record EngineState : Type := mkEngineState {
  es_running : Z;
  es_waiting : Z;
  es_prefix_hits : Z;
  es_prefix_queries : Z;
  es_seen_prefixes : gset string;
  es_peak_running : Z;
  es_peak_waiting : Z
}.

Definition engine_init : EngineState := mkEngineState 0 0 0 0 ∅ 0 0.

(** A slot is taken, or a place in the queue. *)
Definition set_slots (r w : Z) (s : EngineState) : EngineState :=
  mkEngineState r w (es_prefix_hits s) (es_prefix_queries s) (es_seen_prefixes s)
    (es_peak_running s) (es_peak_waiting s).
Definition note_running (s : EngineState) : EngineState :=
  mkEngineState (es_running s) (es_waiting s) (es_prefix_hits s) (es_prefix_queries s) (es_seen_prefixes s)
    (Z.max (es_peak_running s) (es_running s)) (es_peak_waiting s).
Definition note_waiting (s : EngineState) : EngineState :=
  mkEngineState (es_running s) (es_waiting s) (es_prefix_hits s) (es_prefix_queries s) (es_seen_prefixes s)
    (es_peak_running s) (Z.max (es_peak_waiting s) (es_waiting s)).

(** [engine_admit]: whether the prefix was seen before, and the state after it. *)
Definition count_prefix (key : string) (s : EngineState) : EngineState * bool :=
  let hit := bool_decide (key ∈ es_seen_prefixes s) in
  (mkEngineState (es_running s) (es_waiting s)
     (if hit then es_prefix_hits s + 1 else es_prefix_hits s) (es_prefix_queries s + 1)
     (if hit then es_seen_prefixes s else {[key]} ∪ es_seen_prefixes s)
     (es_peak_running s) (es_peak_waiting s), hit).

Definition engine_admit (c : EngineCfg) (key : string) (s : EngineState) : EngineState * bool :=
  let '(s, hit) := count_prefix key s in
  (if max_concurrency c <=? es_running s
   then note_waiting (set_slots (es_running s) (es_waiting s + 1) s)
   else note_running (set_slots (es_running s + 1) (es_waiting s) s), hit).

(** One turn of the loop of [start_service]: the state and whether it returns. *)
Definition start_turn (c : EngineCfg) (s : EngineState) : EngineState * bool :=
  if (es_running s <? max_concurrency c) && (0 <? es_waiting s) then
    (note_running (set_slots (es_running s + 1) (es_waiting s - 1) s), true)
  else (s, (es_running s <=? max_concurrency c) && (es_waiting s =? 0)).

Definition release_slot (s : EngineState) : EngineState :=
  set_slots (Z.max 0 (es_running s - 1)) (es_waiting s) s.

(** [POST /debug/reset]; the slots stay. *)
Definition reset_peaks (s : EngineState) : EngineState :=
  mkEngineState (es_running s) (es_waiting s) 0 0 ∅ 0 0.

Record Snapshot : Type := mkSnapshot {
  sn_running : F;
  sn_waiting : F;
  sn_hits : F;
  sn_queries : F;
  sn_kv : F;
  sn_peak_running : F;
  sn_peak_waiting : F
}.

Definition snapshot_of (c : EngineCfg) (s : EngineState) : Snapshot :=
  mkSnapshot (fint (es_running s)) (fint (es_waiting s)) (fint (es_prefix_hits s))
    (fint (es_prefix_queries s)) (py_min f1 (fmul (fint (es_running s)) (kv_per_request c)))
    (fint (es_peak_running s)) (fint (es_peak_waiting s)).

(** ** [GET /metrics] *)

(** One gauge with its type line; the value is already formatted. *)
Definition gauge (kind name model value : string) : list string :=
  ["# TYPE " ++ name ++ " " ++ kind;
   name ++ "{model_name=" ++ dquote ++ model ++ dquote ++ "} " ++ value].

Definition metrics_text (model running waiting kv hits queries : string) : string :=
  join newline
    (gauge "gauge" "vllm:num_requests_running" model running ++
     gauge "gauge" "vllm:num_requests_waiting" model waiting ++
     gauge "gauge" "vllm:gpu_cache_usage_perc" model kv ++
     gauge "counter" "vllm:prefix_cache_hits" model hits ++
     gauge "counter" "vllm:prefix_cache_queries" model queries ++ [""])%list.

Definition fixture_metrics (c : EngineCfg) (model : string) (s : EngineState) : string :=
  let sn := snapshot_of c s in
  metrics_text model (float_repr (sn_running sn)) (float_repr (sn_waiting sn))
    (fmt_fixed 6 (sn_kv sn)) (float_repr (sn_hits sn)) (float_repr (sn_queries sn)).

(** ** [POST /v1/chat/completions] *)

(** [str(m.get("content", ""))] of every message, joined. *)
Definition fixture_prompt (body : json) : result PyExc string :=
  msgs ← jget "messages" body;
  match jor msgs (JList []) with
  | JList l =>
    (fix join_all (l : list json) : result PyExc string :=
       match l with
       | [] => Ok ""
       | m :: l' => t ← jget_or "content" (JStr "") m; r ← join_all l'; Ok (jstr t ++ r)
       end) l
  | JDict ((_ :: _)) | JStr (String _ _) => Err AttributeError
  | _ => Err TypeError
  end.

(** The prefill and decode times, in milliseconds; a cached prefix skips prefill. *)
Definition fixture_delay (latency_ms : F) (hit : bool) (max_tokens : Z) : F :=
  fadd (if hit then f0 else fmul latency_ms (fdec 5 (-1)))
    (fmul (fmul latency_ms (fdec 1 (-2))) (fint max_tokens)).

Definition fixture_answer (model prompt : string) (max_tokens : Z) : json :=
  let n := Z.max 1 (str_len prompt / 4) in
  JDict [("id", JStr "mock"); ("object", JStr "chat.completion"); ("model", JStr model);
         ("choices", JList [JDict [("index", JInt 0);
            ("message", JDict [("role", JStr "assistant"); ("content", JStr "ok")]);
            ("finish_reason", JStr "stop")]]);
         ("usage", JDict [("prompt_tokens", JInt n); ("completion_tokens", JInt max_tokens);
                          ("total_tokens", JInt (n + max_tokens))])].

(** The part of the handler inside its [try]: the time it sleeps and its answer. *)
Definition serve_chat (model : string) (latency_ms : F) (body : json) (prompt : string)
    (hit : bool) : result PyExc (F * json) :=
  v ← jget "max_tokens" body;
  n ← jint (jor v (JInt 16));
  Ok (fixture_delay latency_ms hit n, fixture_answer model prompt n).

(** ** The threads *)

(** Where the thread of a request is: before the slot loop returned, in the [try], or
    over.  A thread that failed before [engine_admit] never is in the list. *)
Inductive Thread : Type :=
| Starting
| Serving
| Gone.

(** What can happen: a request arrives with the key of its prefix, a thread takes its
    next turn (a spin of the loop, or the release), the counters are reset. *)
Inductive Tick : Type :=
| Arrive (key : string)
| Turn (i : nat)
| ResetPeaks.

Record FixState : Type := mkFix { fx_engine : EngineState; fx_threads : list Thread }.

Definition fixture_init : FixState := mkFix engine_init [].

Definition thread_turn (c : EngineCfg) (s : EngineState) (t : Thread) : EngineState * Thread :=
  match t with
  | Starting => let '(s, go) := start_turn c s in (s, if go : bool then Serving else Starting)
  | Serving => (release_slot s, Gone)
  | Gone => (s, Gone)
  end.

Definition tick (c : EngineCfg) (st : FixState) (e : Tick) : FixState :=
  match e with
  | Arrive key => mkFix (engine_admit c key (fx_engine st)).1 (fx_threads st ++ [Starting])
  | Turn i =>
    match fx_threads st !! i with
    | None => st
    | Some t => let '(s, t) := thread_turn c (fx_engine st) t in
                mkFix s (<[i := t]> (fx_threads st))
    end
  | ResetPeaks => mkFix (reset_peaks (fx_engine st)) (fx_threads st)
  end.

Definition ticks (c : EngineCfg) (st : FixState) (l : list Tick) : FixState :=
  foldl (tick c) st l.

Inductive fixture_reachable (c : EngineCfg) : FixState -> Prop :=
| fix_start : fixture_reachable c fixture_init
| fix_tick st e : fixture_reachable c st -> fixture_reachable c (tick c st e).
End Fixture.
Arguments EngineCfg F : clear implicits.
Arguments Snapshot F : clear implicits.
