(* ===== verification/OllamaStream.v ===== *)
(** The translator of a streamed answer from OpenAI server-sent events to Ollama's
    newline-delimited JSON: the generator of [_proxy_ollama_stream]
    ([dio/gateway.py]), as a state machine fed with decoded text. *)

From S2P Require Import Prelude PyFloat PyStr PyDict Json Backends Requests.

Section Translator.
Context {F : Type} {PF : PyFloat F}.
Local Abbreviation json := (json F).

(** ** State *)

(** One accumulated tool call: [id] and [name] are absent until a fragment has them. *)
Record ToolSlot : Type := mkSlot {
  ts_id : json;
  ts_name : option json;
  ts_args : string
}.

(** The local variables of the generator, and the lines it has yielded. *)
Record TState : Type := mkTState {
  t_buffer : string;
  t_gen_tokens : Z;
  t_reported_prompt : option Z;
  t_reported_gen : option Z;
  t_tool_calls : list (Z * ToolSlot);
  t_last_finish : json;
  t_lines : list json
}.

Definition t_init : TState := mkTState "" 0 None None [] JNull [].

Definition set_buffer (b : string) (t : TState) : TState :=
  mkTState b (t_gen_tokens t) (t_reported_prompt t) (t_reported_gen t) (t_tool_calls t)
    (t_last_finish t) (t_lines t).
Definition set_reported_prompt (n : Z) (t : TState) : TState :=
  mkTState (t_buffer t) (t_gen_tokens t) (Some n) (t_reported_gen t) (t_tool_calls t)
    (t_last_finish t) (t_lines t).
Definition set_reported_gen (n : Z) (t : TState) : TState :=
  mkTState (t_buffer t) (t_gen_tokens t) (t_reported_prompt t) (Some n) (t_tool_calls t)
    (t_last_finish t) (t_lines t).
Definition set_tool_calls (l : list (Z * ToolSlot)) (t : TState) : TState :=
  mkTState (t_buffer t) (t_gen_tokens t) (t_reported_prompt t) (t_reported_gen t) l
    (t_last_finish t) (t_lines t).
Definition set_last_finish (v : json) (t : TState) : TState :=
  mkTState (t_buffer t) (t_gen_tokens t) (t_reported_prompt t) (t_reported_gen t)
    (t_tool_calls t) v (t_lines t).

(** [gen_tokens += 1] and a [yield] of one line. *)
Definition yield_token (line : json) (t : TState) : TState :=
  mkTState (t_buffer t) (t_gen_tokens t + 1) (t_reported_prompt t) (t_reported_gen t)
    (t_tool_calls t) (t_last_finish t) (t_lines t ++ [line]).

(** ** Statements: state passing, and an exception that keeps the state *)

Definition M (A : Type) : Type := TState -> TState * result PyExc A.

#[export] Instance M_ret : MRet M := fun A a t => (t, Ok a).
#[export] Instance M_bind : MBind M := fun A B f m t =>
  match m t with
  | (t', Ok a) => f a t'
  | (t', Err e) => (t', Err e)
  end.

Definition lift {A} (r : result PyExc A) : M A := fun t => (t, r).
Definition modify (f : TState -> TState) : M unit := fun t => (f t, Ok tt).

(** ** Tool calls *)

(** [sorted] on the distinct keys of a dict. *)
Fixpoint zinsert (x : Z * ToolSlot) (l : list (Z * ToolSlot)) : list (Z * ToolSlot) :=
  match l with
  | [] => [x]
  | y :: l' => if x.1 <? y.1 then x :: y :: l' else y :: zinsert x l'
  end.

Definition zsorted (l : list (Z * ToolSlot)) : list (Z * ToolSlot) :=
  foldl (fun acc x => zinsert x acc) [] l.

Definition tool_call_json (idx : Z) (s : ToolSlot) : json :=
  JDict [("id", jor (ts_id s) (JStr ("call_" ++ str_of_Z idx)));
         ("type", JStr "function");
         ("function", JDict [("name", default (JStr "") (ts_name s));
                             ("arguments", JStr (ts_args s))])].

Definition slot_empty (s : ToolSlot) : bool :=
  negb (truthy (default JNull (ts_name s))) && negb (str_truth (ts_args s)).

(** [_ollama_tool_call_deltas]. *)
Definition ollama_tool_call_deltas (acc : list (Z * ToolSlot)) : list json :=
  map (fun '(idx, s) => tool_call_json idx s)
    (filter (fun '(_, s) => slot_empty s = false) (zsorted acc)).

Definition empty_slot : ToolSlot := mkSlot JNull None "".

(** ** One chunk *)

Section Chunk.
Variables (model_name : json) (is_chat : bool) (now_iso : string).

Definition chat_line (content : json) (tool_calls : option (list json)) : json :=
  let m := [("role", JStr "assistant"); ("content", content)] in
  JDict [("model", model_name); ("created_at", JStr now_iso);
         ("message", JDict match tool_calls with
                           | Some l => (m ++ [("tool_calls", JList l)])%list
                           | None => m
                           end);
         ("done", JBool false)].

Definition text_line (text : json) : json :=
  JDict [("model", model_name); ("created_at", JStr now_iso); ("response", text);
         ("done", JBool false)].

(** The [usage] of a chunk. *)
Definition note_usage (usage : json) : M unit :=
  match usage with
  | JDict ((_ :: _) as u) =>
    _ ← (if is_none (bget "prompt_tokens" u) then mret tt
         else z ← lift (jint (bget "prompt_tokens" u)); modify (set_reported_prompt z));
    if is_none (bget "completion_tokens" u) then mret tt
    else z ← lift (jint (bget "completion_tokens" u)); modify (set_reported_gen z)
  | _ => mret tt
  end.

Definition alter_slot (idx : Z) (f : ToolSlot -> ToolSlot) : M unit :=
  modify (fun t => set_tool_calls (dalter f idx (t_tool_calls t)) t).

(** One tool-call fragment. *)
Definition note_fragment (frag : json) : M unit :=
  i ← lift (jget "index" frag);
  idx ← lift (jint (jor i (JInt 0)));
  _ ← modify (fun t => set_tool_calls (dsetdefault idx empty_slot (t_tool_calls t)) t);
  fn ← lift (jget "function" frag);
  let fn := jor fn (JDict []) in
  id ← lift (jget "id" frag);
  _ ← (if truthy id then alter_slot idx (fun s => mkSlot id (ts_name s) (ts_args s))
       else mret tt);
  name ← lift (jget "name" fn);
  _ ← (if truthy name then alter_slot idx (fun s => mkSlot (ts_id s) (Some name) (ts_args s))
       else mret tt);
  args ← lift (jget "arguments" fn);
  _ ← (if truthy args
       then alter_slot idx (fun s => mkSlot (ts_id s) (ts_name s) (ts_args s ++ jstr args))
       else mret tt);
  modify (fun t =>
    yield_token (chat_line (JStr "") (Some (ollama_tool_call_deltas (t_tool_calls t)))) t).

Fixpoint note_fragments (l : list json) : M unit :=
  match l with
  | [] => mret tt
  | f :: l' => _ ← note_fragment f; note_fragments l'
  end.

(** [choices[0]] of a truthy [choices]. *)
Definition first_choice (choices : json) : result PyExc json :=
  match choices with
  | JList (c :: _) => Ok c
  | JStr (String c _) => Ok (JStr (String c ""))
  | JList [] | JStr EmptyString => Err IndexMissing
  | JDict _ => Err (KeyMissing "0")
  | _ => Err TypeError
  end.

(** The body of the [try] around one data line, once it is parsed. *)
Definition handle_chunk (chunk : json) : M unit :=
  usage ← lift (jget "usage" chunk);
  _ ← note_usage usage;
  choices ← lift (jget "choices" chunk);
  if truthy choices then
    choice ← lift (first_choice choices);
    finish ← lift (jget "finish_reason" choice);
    _ ← (if truthy finish then modify (set_last_finish finish) else mret tt);
    if is_chat then
      delta ← lift (jget "delta" choice);
      let delta := jor delta (JDict []) in
      content ← lift (jget "content" delta);
      _ ← (if truthy content then modify (yield_token (chat_line content None)) else mret tt);
      calls ← lift (jget "tool_calls" delta);
      if truthy calls then l ← lift (iterate calls); note_fragments l else mret tt
    else
      text ← lift (jget "text" choice);
      if truthy text then modify (yield_token (text_line text)) else mret tt
  else mret tt.

Definition handle_data (data : string) : M unit :=
  chunk ← lift (match loads data with Some v => Ok v | None => Err (ValueError "json") end);
  handle_chunk chunk.

(** ** Lines and text *)

(** One line of the buffer; [true] on the [DONE] marker. *)
Definition handle_line (line : string) (t : TState) : TState * bool :=
  let line := strip line in
  if negb (str_truth line) || negb (startswith "data:" line) then (t, false)
  else
    let data := strip (str_drop 5 line) in
    if str_eqb data "[DONE]" then (t, true)
    else ((handle_data data t).1, false).

(** [while newline in buffer], on the buffer split at its newlines: the last
    piece is the new buffer. *)
Fixpoint handle_pieces (pieces : list string) (t : TState) : TState * bool :=
  match pieces with
  | [] => (t, false)
  | [rest] => (set_buffer rest t, false)
  | line :: rest =>
    match handle_line line t with
    | (t', true) => (set_buffer (join newline rest) t', true)
    | (t', false) => handle_pieces rest t'
    end
  end.

(** One chunk of decoded text; [true] when the stream is finished. *)
Definition feed (t : TState) (text : string) : TState * bool :=
  handle_pieces (split "010" (t_buffer t ++ text)) t.

(** Chunks in order, none read after the one that finishes the stream. *)
Fixpoint feed_all (t : TState) (chunks : list string) : TState * bool :=
  match chunks with
  | [] => (t, false)
  | c :: chunks' =>
    match feed t c with
    | (t', true) => (t', true)
    | (t', false) => feed_all t' chunks'
    end
  end.

(** ** The last line *)

(** [_ollama_done_reason([{"finish_reason": last_finish}])]. *)
Definition done_reason (t : TState) : string :=
  match ollama_done_reason [JDict [("finish_reason", t_last_finish t)]] with
  | Ok r => r
  | Err _ => "stop"
  end.

Definition final_chunk (prompt_only : Z) (e2e_ms : F) (t : TState) : json :=
  let d := [("model", model_name); ("created_at", JStr now_iso); ("done", JBool true);
            ("done_reason", JStr (done_reason t));
            ("total_duration", JInt (ftrunc (fmul e2e_ms (fint 1000000))));
            ("load_duration", JInt 1000000);
            ("prompt_eval_count", JInt (default prompt_only (t_reported_prompt t)));
            ("eval_count", JInt (default (t_gen_tokens t) (t_reported_gen t)))] in
  JDict (d ++ [if is_chat then
                 ("message", JDict ([("role", JStr "assistant"); ("content", JStr "")] ++
                    match t_tool_calls t with
                    | [] => []
                    | calls => [("tool_calls", JList (ollama_tool_call_deltas calls))]
                    end))
               else ("response", JStr "")])%list.
End Chunk.

(** The error line of [_ndjson_error] and of an aborted stream. *)
Definition ndjson_error (message : string) : json :=
  JDict [("error", JStr message); ("done", JBool true)].

(** The bytes of a line. *)
Definition ndjson (v : json) : string := dumps v ++ newline.

(** One server-sent event: [f"data: {json.dumps(v)}\n\n"]. *)
Definition sse (v : json) : string := "data: " ++ dumps v ++ newline ++ newline.
Definition sse_done : string := "data: [DONE]" ++ newline ++ newline.
End Translator.
Arguments TState F : clear implicits.
Arguments ToolSlot F : clear implicits.

(** ** Example: two deltas, a usage chunk and the end marker, cut inside a line *)

Example feed_ex :
  let delta s : json float :=
    JDict [("choices", JList [JDict [("delta", JDict [("content", JStr s)])]])] in
  let text := sse (delta "Hel") ++ sse (delta "lo") ++
              sse (JDict [("choices", JList []);
                          ("usage", JDict [("prompt_tokens", JInt 7); ("completion_tokens", JInt 2)])])
              ++ sse_done in
  let '(t, fin) := feed_all (JStr "m") true "now" t_init [str_take 30 text; str_drop 30 text] in
  fin = true /\ t_gen_tokens t = 2 /\ t_reported_prompt t = Some 7 /\
  map (fun l => match l with JDict d => bget "message" d | _ => JNull end) (t_lines t)
  = [JDict [("role", JStr "assistant"); ("content", JStr "Hel")];
     JDict [("role", JStr "assistant"); ("content", JStr "lo")]].
Proof. vm_compute. done. Qed.
