(* ===== verification/MockBackend.v ===== *)
(** The in-process engine of [dio/backends.py] (class [MockBackendServer]): its
    OpenAI routes as functions of the request body.  Its sleeps only take time
    and are not modelled.  Then the engine of
    [scripts/real_engine_server.py]. *)

From S2P Require Import Prelude PyFloat PyStr PyDict Json Backends Requests OllamaStream.
From S2P Require Import Mcp LoadClients.

Section Mock.
Context {F : Type} {PF : PyFloat F}.
Local Abbreviation json := (json F).
Local Abbreviation body := (list (string * json)).

(** [l[:n]]: a negative bound counts from the end. *)
Definition py_take {A} (n : Z) (l : list A) : list A :=
  if n <? 0 then take (length l - Z.to_nat (- n)) l else take (Z.to_nat n) l.

Variables (name : string) (now_ms : Z).

(** [int(body.get("max_tokens") or 64)]. *)
Definition mock_max_tokens (b : body) : result PyExc Z :=
  jint (jor (bget "max_tokens" b) (JInt 64)).

Definition mock_model (b : body) : json := jor (bget "model" b) (JStr "mock-model").

(** [messages[-1]["content"] if messages else ""]. *)
Definition mock_content (b : body) : result PyExc json :=
  let messages := jor (bget "messages" b) (JList []) in
  if truthy messages then
    match messages with
    | JList l => match last l with
                 | Some (JDict m) => match dget "content" m with
                                     | Some c => Ok c
                                     | None => Err (KeyMissing "content")
                                     end
                 | Some _ => Err TypeError
                 | None => Err IndexMissing
                 end
    | JDict _ => Err (KeyMissing "-1")
    | _ => Err TypeError
    end
  else Ok (JStr "").

Definition mock_tokens_in (v : json) : Z := Z.max 1 (str_len (jstr v) / 4).

(** The text the engine answers, and its words. *)
Definition mock_chat_text (content : json) : string :=
  "[" ++ name ++ "] echo: " ++ str_take 80 (jstr content).
Definition mock_comp_text (prompt : json) : string :=
  "[" ++ name ++ "] " ++ str_take 40 (jstr prompt).

Definition mock_truncated (text : string) (n : Z) : bool :=
  n <? Z.of_nat (length (split " " text)).
Definition mock_finish (text : string) (n : Z) : string :=
  if mock_truncated text n then "length" else "stop".

(** A word and the space before the next one. *)
Fixpoint spaced (words : list string) : list string :=
  match words with
  | [] => []
  | [w] => [w]
  | w :: ws => (w ++ " ") :: spaced ws
  end.

(** ** The streamed answers *)

Definition mock_event (cid object : string) (model : json) (choices : list json)
    (usage : option json) : json :=
  JDict ([("id", JStr cid); ("object", JStr object); ("created", JInt (now_ms / 1000));
          ("model", model); ("choices", JList choices)] ++
         match usage with Some u => [("usage", u)] | None => [] end)%list.

Definition usage_json (tokens_in completion : Z) : json :=
  JDict [("prompt_tokens", JInt tokens_in); ("completion_tokens", JInt completion);
         ("total_tokens", JInt (tokens_in + completion))].

Definition chat_choice (delta : body) (finish : json) : json :=
  JDict [("index", JInt 0); ("delta", JDict delta); ("finish_reason", finish)].
Definition comp_choice (text : string) (finish : json) : json :=
  JDict [("text", JStr text); ("index", JInt 0); ("finish_reason", finish)].

(** [(body.get("stream_options") or {}).get("include_usage")]. *)
Definition include_usage (b : body) : result PyExc bool :=
  v ← jget "include_usage" (jor (bget "stream_options" b) (JDict [])); Ok (truthy v).

(** The events after the words: the stop chunk, the usage chunk when it was asked
    for, and whether the generator reaches its [DONE]. *)
Definition mock_tail (b : body) (stop usage : json) : list json * bool :=
  match include_usage b with
  | Ok true => ([stop; usage], true)
  | Ok false => ([stop], true)
  | Err _ => ([stop], false)
  end.

(** [chat_stream]. *)
Definition mock_chat_stream (b : body) (content : json) (n : Z) : list json * bool :=
  let event := mock_event ("chatcmpl-mock-" ++ str_of_Z now_ms) "chat.completion.chunk"
                 (mock_model b) in
  let text := mock_chat_text content in
  let words := py_take n (split " " text) in
  let init := event [chat_choice [("role", JStr "assistant"); ("content", JStr "")] JNull] None in
  let chunks := map (fun w => event [chat_choice [("content", JStr w)] JNull] None)
                  (spaced words) in
  let stop := event [chat_choice [] (JStr (mock_finish text n))] None in
  let usage := event [] (Some (usage_json (mock_tokens_in content)
                                 (Z.of_nat (length words)))) in
  let '(tail, fin) := mock_tail b stop usage in
  ((init :: chunks ++ tail)%list, fin).

(** [comp_stream]. *)
Definition mock_comp_stream (b : body) (prompt : json) (n : Z) : list json * bool :=
  let event := mock_event ("cmpl-mock-" ++ str_of_Z now_ms) "text_completion" (mock_model b) in
  let text := mock_comp_text prompt in
  let words := py_take n (split " " text) in
  let chunks := map (fun w => event [comp_choice w JNull] None) (spaced words) in
  let stop := event [comp_choice "" (JStr (mock_finish text n))] None in
  let usage := event [] (Some (usage_json (mock_tokens_in prompt)
                                 (Z.of_nat (length words)))) in
  let '(tail, fin) := mock_tail b stop usage in
  ((chunks ++ tail)%list, fin).

(** The text of a stream on the wire. *)
Definition mock_wire (s : list json * bool) : string :=
  join "" (map sse s.1) ++ (if s.2 then sse_done else "").

(** ** The plain answers *)

Definition mock_reply (cid object : string) (model : json) (choice : string -> json -> json)
    (text : string) (tokens_in n : Z) : json :=
  let words := split " " text in
  let truncated := mock_truncated text n in
  let text := if truncated then join " " (py_take n words) else text in
  let generated := Z.min n (Z.of_nat (length words)) in
  JDict [("id", JStr cid); ("object", JStr object); ("created", JInt (now_ms / 1000));
         ("model", model);
         ("choices", JList [choice text (JStr (if truncated then "length" else "stop"))]);
         ("usage", usage_json tokens_in generated)].

Inductive MockAnswer : Type :=
| MockJson (v : json)
| MockSse (s : list json * bool).

(** [POST /v1/chat/completions]; an [Err] is the server's 500. *)
Definition mock_chat (b : body) : result PyExc MockAnswer :=
  content ← mock_content b;
  n ← mock_max_tokens b;
  if truthy (bget "stream" b) then Ok (MockSse (mock_chat_stream b content n))
  else Ok (MockJson (mock_reply ("chatcmpl-mock-" ++ str_of_Z now_ms) "chat.completion"
    (mock_model b)
    (fun text finish => JDict [("index", JInt 0);
       ("message", JDict [("role", JStr "assistant"); ("content", JStr text)]);
       ("finish_reason", finish)])
    (mock_chat_text content) (mock_tokens_in content) n)).

(** [POST /v1/completions]. *)
Definition mock_completions (b : body) : result PyExc MockAnswer :=
  let prompt := jor (bget "prompt" b) (JStr "") in
  n ← mock_max_tokens b;
  if truthy (bget "stream" b) then Ok (MockSse (mock_comp_stream b prompt n))
  else Ok (MockJson (mock_reply ("cmpl-mock-" ++ str_of_Z now_ms) "text_completion"
    (mock_model b)
    (fun text finish => JDict [("text", JStr text); ("index", JInt 0); ("finish_reason", finish)])
    (mock_comp_text prompt) (mock_tokens_in prompt) n)).
End Mock.
Arguments MockAnswer F : clear implicits.

Example mock_chat_ex :
  mock_chat "m" 0 [("messages", JList [JDict [("content", JStr "a b")]]); ("max_tokens", JInt 3)]
  = Ok (MockJson (JDict [("id", JStr "chatcmpl-mock-0"); ("object", JStr "chat.completion");
      ("created", JInt 0); ("model", JStr "mock-model");
      ("choices", JList [JDict [("index", JInt 0);
         ("message", JDict [("role", JStr "assistant"); ("content", JStr "[m] echo: a")]);
         ("finish_reason", JStr "length")]]);
      ("usage", usage_json 1 3)] : json float)).
Proof. vm_compute. reflexivity. Qed.

(** ** The engine over a Hugging Face model, [scripts/real_engine_server.py]: its routes as
    functions of the request body.  The model and its tokenizer are parameters. *)

Section RealEngine.
Context {F : Type} {PF : PyFloat F}.
Local Open Scope float_scope.
Local Abbreviation json := (json F).
Local Abbreviation body := (list (string * json)).

Variables (model_id device : string) (latency_mult : F) (now_ms : Z).
(** The chat template of the tokenizer, [None] when it has none or it raises; and a generation:
    the text, the tokens of the prompt, the tokens generated. *)
Variable template : list json -> option string.
Variable generate : string -> Z -> string * Z * Z.

(** [messages_to_text]: without a template, one line for each message. *)
Definition message_text_line (m : json) : result PyExc string :=
  role ← jget_or "role" (JStr "user") m; content ← jget_or "content" (JStr "") m;
  Ok (jstr role ++ ": " ++ jstr content)%string.
Definition messages_to_text (messages : list json) : result PyExc string :=
  match template messages with
  | Some text => Ok text
  | None => parts ← map_result message_text_line messages;
            Ok (join newline (parts ++ ["assistant:"]))
  end.

(** [max(1, min(int(...), 128))]: 0 counts as absent. *)
Definition engine_budget (b : body) : result PyExc Z :=
  n ← jint (jor (jor (bget "max_tokens" b) (bget "max_completion_tokens" b)) (JInt 32));
  Ok (Z.max 1 (Z.min n 128)).

(** The elapsed milliseconds reported, and the seconds slept on top. *)
Definition engine_e2e (elapsed : F) : F * option F :=
  if latency_mult >? f1
  then (elapsed * latency_mult, Some (elapsed * (latency_mult - f1) / fint 1000))
  else (elapsed, None).

(** [POST /v1/chat/completions]; an [Err] is the server's 500. *)
Definition engine_chat (b : body) (elapsed : F) : result PyExc json :=
  let default_messages := JList [chat_message "user" "hi"] in
  n ← engine_budget b;
  messages ← iterate (jor (bget "messages" b) default_messages);
  prompt ← messages_to_text messages;
  let '(text, prompt_tokens, generated) := generate prompt n in
  let completion := if (generated =? 0)%Z then 1%Z else generated in
  Ok (JDict [("id", JStr ("chatcmpl-real-" ++ str_of_Z now_ms));
             ("object", JStr "chat.completion"); ("created", JInt (now_ms / 1000));
             ("model", JStr model_id);
             ("choices", JList [JDict [("index", JInt 0);
                ("message", JDict [("role", JStr "assistant"); ("content", JStr text)]);
                ("finish_reason", JStr "stop")]]);
             ("usage", JDict [("prompt_tokens", JInt prompt_tokens);
                ("completion_tokens", JInt completion);
                ("total_tokens", JInt (prompt_tokens + completion))]);
             ("dio_engine_e2e_ms", JFloat (py_round 2 (engine_e2e elapsed).1))]).

(** [POST /v1/completions]: the chat route on the prompt. *)
Definition completion_chat_body (b : body) : body :=
  [("model", bget "model" b);
   ("messages", JList [chat_message "user" (jstr (jor (bget "prompt" b) (JStr "Hello")))]);
   ("max_tokens", dget_or "max_tokens" (JInt 32) b)].
Definition engine_completions (b : body) (elapsed : F) : result PyExc json :=
  engine_chat (completion_chat_body b) elapsed.

(** [GET /health] and [GET /v1/models]. *)
Definition engine_health (gpu_name : option string) : json :=
  JDict [("status", JStr "ok"); ("model", JStr model_id); ("device", JStr device);
         ("cuda", JBool (match gpu_name with Some _ => true | None => false end));
         ("gpu_name", match gpu_name with Some n => JStr n | None => JNull end)].
Definition engine_models : json :=
  JDict [("object", JStr "list");
         ("data", JList [JDict [("id", JStr model_id); ("object", JStr "model");
                                ("owned_by", JStr "local")]])].

(** ** Properties *)

(** The budget of a generation is 1 to 128 whatever the request asks for, and 32 when it asks
    for 0. *)
Lemma engine_budget_bounded b n : engine_budget b = Ok n -> 1 <= n <= 128.
Proof. unfold engine_budget. destruct (jint _); [|done]. cbn. intros [= <-]. lia. Qed.
Lemma engine_budget_zero : engine_budget [("max_tokens", JInt 0)] = Ok 32%Z.
Proof. reflexivity. Qed.

(** What an answer of the chat route is made of. *)
Lemma engine_chat_answer b elapsed v : engine_chat b elapsed = Ok v ->
  exists text p c more, c <> 0%Z /\
    v = JDict ([("id", JStr ("chatcmpl-real-" ++ str_of_Z now_ms));
                ("object", JStr "chat.completion"); ("created", JInt (now_ms / 1000));
                ("model", JStr model_id);
                ("choices", JList [JDict [("index", JInt 0);
                   ("message", JDict [("role", JStr "assistant"); ("content", JStr text)]);
                   ("finish_reason", JStr "stop")]]);
                ("usage", JDict [("prompt_tokens", JInt p); ("completion_tokens", JInt c);
                   ("total_tokens", JInt (p + c))])] ++ more)%list.
Proof.
  unfold engine_chat. intros (n & _ & H)%bind_Ok. apply bind_Ok in H as (ms & _ & H).
  apply bind_Ok in H as (prompt & _ & H). destruct (generate prompt n) as [[text p] g].
  injection H as <-. eexists text, p, _, [_]. split; [|reflexivity].
  destruct (Z.eqb_spec g 0); lia.
Qed.

(** A completion is answered with a message, in a chat object: its choice has no text. *)
Lemma completions_carry_no_text b elapsed v : engine_completions b elapsed = Ok v ->
  exists choice, jget "choices" v = Ok (JList [choice]) /\ jget "text" choice = Ok JNull /\
    jget "object" v = Ok (JStr "chat.completion").
Proof. intros (text & p & c & more & _ & ->)%engine_chat_answer. by eexists. Qed.

(** The usage adds up. *)
Lemma engine_usage_total b elapsed v : engine_chat b elapsed = Ok v ->
  exists p c, jget "usage" v = Ok (JDict [("prompt_tokens", JInt p); ("completion_tokens", JInt c);
                                          ("total_tokens", JInt (p + c))]) /\ c <> 0%Z.
Proof. intros (text & p & c & more & Hc & ->)%engine_chat_answer. by exists p, c. Qed.
End RealEngine.
