(* ===== verification/Worker.v ===== *)
(** The gRPC sidecar of one engine: [DIO/vllm-integration/worker_proxy.py].  NVML, the
    HTTP session, the clock and the manager's stub are parameters: what each call
    gives is an argument.  [main] is in [Lifecycle]; logging is left
    out. *)

From S2P Require Import Prelude PyFloat PyStr PyDict Json OllamaStream.

Section Worker.
Context {F : Type} {PF : PyFloat F}.
Local Abbreviation json := (json F).
Local Open Scope float_scope.

(** ** [GPUTelemetry] *)

Record GPU : Type := mkGPU {
  gpu_index : Z;
  gpu_handle : bool;
  gpu_name : string;
  total_vram_mb : Z
}.

(** What the NVML calls of the constructor give: the handle, the decoded name, and
    the total memory in bytes; [None] is an exception. *)
Record Nvml : Type := mkNvml {
  nv_handle : option bool;
  nv_name : option string;
  nv_total : option Z
}.

Definition mib : Z := 1024 * 1024.

(** [__init__]; [None] when pynvml is not installed.  An exception clears the handle
    and keeps what was read before it. *)
Definition gpu_init (nvml : option Nvml) (index : Z) : GPU :=
  match nvml with
  | None => mkGPU index false "Unknown" 0
  | Some n =>
    match nv_handle n, nv_name n, nv_total n with
    | None, _, _ | _, None, _ => mkGPU index false "Unknown" 0
    | Some _, Some name, None => mkGPU index false name 0
    | Some h, Some name, Some total => mkGPU index h name (total / mib)
    end
  end.

(** [read] is what the NVML query gives, in bytes. *)
Definition get_free_vram_mb (g : GPU) (read : option Z) : Z :=
  if gpu_handle g then match read with Some free => (free / mib)%Z | None => 19200 end
  else 19200.

Definition get_total_vram_mb (g : GPU) : Z :=
  if (0 <? total_vram_mb g)%Z then total_vram_mb g else 24576.

(** [get_utilization] and [get_temperature]: the integer NVML gives, as a float. *)
Definition get_utilization (g : GPU) (read : option Z) : F :=
  if gpu_handle g then match read with Some u => fint u | None => f0 end else f0.
Definition get_temperature (g : GPU) (read : option Z) : F :=
  if gpu_handle g then match read with Some t => fint t | None => f0 end else f0.

(** ** [VLLMClient] *)

Record VLLMClient : Type := mkClient {
  cl_base_url : string;
  cl_model_id : string;
  cl_timeout : Z
}.

Definition client_init (base_url model_id : string) (timeout : Z) : VLLMClient :=
  mkClient (rstrip_char "/" base_url) model_id timeout.

(** [health_check]: [get] gives the status of a GET, or [None] when it raises.  The
    second URL is asked only when the first request raises. *)
Definition health_check (cl : VLLMClient) (get : string -> option Z) : bool :=
  match get (cl_base_url cl ++ "/health") with
  | Some status => (status =? 200)%Z
  | None =>
    match get (cl_base_url cl ++ "/v1/models") with
    | Some status => (status =? 200)%Z
    | None => false
    end
  end.

(** The result dict of both modes.  The fields that come from the engine are JSON
    values, as nothing checks them. *)
Record GenResult : Type := mkGen {
  gr_output : json;
  gr_latency_ms : F;
  gr_ttft_ms : F;
  gr_prompt_tokens : json;
  gr_completion_tokens : json;
  gr_total_tokens : json
}.

Definition completion_payload (cl : VLLMClient) (prompt : string) (max_tokens : Z)
    (temperature : F) (stream : bool) : json :=
  JDict [("model", JStr (cl_model_id cl)); ("prompt", JStr prompt);
         ("max_tokens", JInt max_tokens); ("temperature", JFloat temperature);
         ("stream", JBool stream)].

(** [a + b] on what the code adds: numbers, [True] and [False] counting as 1 and 0. *)
Definition int_value (v : json) : option Z :=
  match v with JInt z => Some z | JBool b => Some (if b then 1 else 0)%Z | _ => None end.

Definition py_add (a b : json) : result PyExc json :=
  match int_value a, int_value b with
  | Some x, Some y => Ok (JInt (x + y))
  | _, _ =>
    match a, b with
    | JFloat x, JFloat y => Ok (JFloat (x + y))
    | JFloat x, (JInt _ | JBool _) => y ← jfloat b; Ok (JFloat (x + y))
    | (JInt _ | JBool _), JFloat y => x ← jfloat a; Ok (JFloat (x + y))
    | _, _ => Err TypeError
    end
  end.

(** [choices and choices[0].get("text", "")], up to truth value. *)
Definition first_text (choices : json) : result PyExc json :=
  if truthy choices then c ← first_choice choices; jget_or "text" (JStr "") c
  else Ok (JStr "").

(** The local variables of the streaming loop. *)
Record GState : Type := mkGState {
  g_ttft_ms : F;
  g_first : bool;
  g_chunks : list json;
  g_tokens : json
}.

Definition g_init : GState := mkGState f0 false [] (JInt 0).

(** Milliseconds between two readings of [perf_counter]. *)
Definition ms_since (start now : F) : F := (now - start) * fint 1000.

(** The time to the first token, set once. *)
Definition note_first (start now : F) (text : json) (g : GState) : GState :=
  if negb (g_first g) && truthy text
  then mkGState (ms_since start now) true (g_chunks g) (g_tokens g) else g.

(** A piece of text; [completion_tokens] may hold anything the engine reported. *)
Definition note_text (text : json) (g : GState) : result PyExc GState :=
  if truthy text then
    n ← py_add (g_tokens g) (JInt 1);
    Ok (mkGState (g_ttft_ms g) (g_first g) (g_chunks g ++ [text]) n)
  else Ok g.

Definition note_reported (usage : json) (g : GState) : result PyExc GState :=
  if truthy usage then
    n ← jget_or "completion_tokens" (g_tokens g) usage;
    Ok (mkGState (g_ttft_ms g) (g_first g) (g_chunks g) n)
  else Ok g.

(** One parsed chunk. *)
Definition note_chunk (start now : F) (chunk : json) (g : GState) : result PyExc GState :=
  choices ← jget_or "choices" (JList []) chunk;
  text ← first_text choices;
  g ← note_text text (note_first start now text g);
  usage ← jget "usage" chunk;
  note_reported usage g.

(** What [iter_lines] gives: a line, decoded, with the clock when it is handled; or
    bytes that are not UTF-8.  After the last one the stream ends or raises. *)
Inductive GenExc : Type :=
| GTimeout
| GError (message : string).

Inductive LineEvent : Type :=
| LineText (text : string) (now : F)
| LineBad (message : string).

(** The texts of exceptions. *)
Variable exc_text : PyExc -> string.

Definition lift_exc {A} (r : result PyExc A) : result GenExc A :=
  match r with Ok a => Ok a | Err e => Err (GError (exc_text e)) end.

(** One line; [true] on the end marker. *)
Definition read_line (start now : F) (line : string) (g : GState) :
    result GenExc (GState * bool) :=
  if negb (startswith "data: " line) then Ok (g, false)
  else
    let data := str_drop 6 line in
    if str_eqb (strip data) "[DONE]" then Ok (g, true)
    else match loads data with
         | None => Ok (g, false)
         | Some chunk => g ← lift_exc (note_chunk start now chunk g); Ok (g, false)
         end.

Fixpoint read_lines (start : F) (lines : list LineEvent) (tail : option GenExc) (g : GState) :
    result GenExc GState :=
  match lines with
  | [] => match tail with None => Ok g | Some e => Err e end
  | LineBad m :: _ => Err (GError m)
  | LineText line now :: lines' =>
    r ← read_line start now line g;
    let '(g, done) := r in
    if done : bool then Ok g else read_lines start lines' tail g
  end.

(** What the POST of a stream gives: it raises, or a response arrives with its lines.
    [http_error] is the text of the exception of [raise_for_status]. *)
Inductive StreamReply : Type :=
| StreamFailed (e : GenExc)
| StreamOpen (status : Z) (http_error : string) (lines : list LineEvent)
    (tail : option GenExc).

Definition raise_for_status (status : Z) (http_error : string) : result GenExc unit :=
  if (400 <=? status)%Z && (status <? 600)%Z then Err (GError http_error) else Ok tt.

(** [prompt_tokens] of a stream: four bytes a token, at least one. *)
Definition prompt_estimate (prompt : string) : Z := Z.max (str_len prompt / 4) 1.

(** The pieces are joined; one that is not text makes [join] raise. *)
Fixpoint join_chunks (l : list json) : result PyExc string :=
  match l with
  | [] => Ok ""
  | JStr s :: l' => t ← join_chunks l'; Ok (s ++ t)%string
  | _ => Err TypeError
  end.

(** The result of a request that raised, [elapsed] milliseconds in. *)
Definition failed (e : GenExc) (elapsed : F) : GenResult :=
  let text := match e with GTimeout => "ERROR: vLLM timeout" | GError m => "ERROR: " ++ m end in
  mkGen (JStr text) elapsed elapsed (JInt 0) (JInt 0) (JInt 0).

Definition fifteen_percent : F := fdec 15 (-2).

Definition stream_result (prompt : string) (total : F) (g : GState) : result PyExc GenResult :=
  let ttft := if g_ttft_ms g =? f0 then total * fifteen_percent else g_ttft_ms g in
  text ← join_chunks (g_chunks g);
  let p := JInt (prompt_estimate prompt) in
  sum ← py_add p (g_tokens g);
  Ok (mkGen (JStr text) total ttft p (g_tokens g) sum).

(** The clause [except ... as e] at the end of both modes. *)
Definition or_failed (r : result GenExc GenResult) (elapsed : F) : GenResult :=
  match r with Ok res => res | Err e => failed e elapsed end.

(** [generate_streaming]: [start] and [stop] are the first and last readings of the
    clock. *)
Definition generate_streaming (prompt : string) (post : StreamReply) (start stop : F) :
    GenResult :=
  let elapsed := ms_since start stop in
  or_failed
    match post with
    | StreamFailed e => Err e
    | StreamOpen status err lines tail =>
      _ ← raise_for_status status err;
      g ← read_lines start lines tail g_init;
      lift_exc (stream_result prompt elapsed g)
    end elapsed.

(** What the POST of a plain request gives; [body] is what [resp.json()] gives. *)
Inductive JsonReply : Type :=
| JsonFailed (message : string)
| JsonOpen (status : Z) (http_error : string) (body : result string json).

Definition sync_result (data : json) (total : F) : result PyExc GenResult :=
  usage ← jget_or "usage" (JDict []) data;
  choices ← jget_or "choices" (JList [JDict []]) data;
  text ← first_text choices;
  p ← jget_or "prompt_tokens" (JInt 0) usage;
  c ← jget_or "completion_tokens" (JInt 0) usage;
  t ← jget_or "total_tokens" (JInt 0) usage;
  Ok (mkGen text total (total * fifteen_percent) p c t).

(** [generate_sync].  Its handler has no clause of its own for a timeout. *)
Definition generate_sync (post : JsonReply) (start stop : F) : GenResult :=
  let elapsed := ms_since start stop in
  or_failed
    match post with
    | JsonFailed m => Err (GError m)
    | JsonOpen status err body =>
      _ ← raise_for_status status err;
      match body with
      | Err m => Err (GError m)
      | Ok data => lift_exc (sync_result data elapsed)
      end
    end elapsed.

(** ** [VLLMWorkerProxy] *)

(** The object's counters; tokens are added as the engine reported them. *)
Record Counters : Type := mkCounters {
  request_count : Z;
  total_tokens_served : json
}.

Definition counters_init : Counters := mkCounters 0 (JInt 0).

Record WorkerCfg : Type := mkWorker {
  wk_id : string;
  wk_use_streaming : bool;
  wk_max_tokens : Z;
  wk_latency_mult : F
}.

(** [request.data.decode("utf-8")], or the [repr] of the bytes. *)
Definition request_prompt (decoded : option string) (bytes_repr : string) : string :=
  default bytes_repr decoded.

(** The engine as [Predict] sees it: what each mode's POST gives. *)
Record Engine : Type := mkEngine {
  en_stream : json -> StreamReply;
  en_plain : json -> JsonReply;
  en_start : F;
  en_stop : F
}.

Definition default_temperature : F := fdec 7 (-1).

(** Step 2 of [Predict]. *)
Definition generate (w : WorkerCfg) (cl : VLLMClient) (en : Engine) (prompt : string) :
    GenResult :=
  let payload := completion_payload cl prompt (wk_max_tokens w) default_temperature in
  if wk_use_streaming w
  then generate_streaming prompt (en_stream en (payload true)) (en_start en) (en_stop en)
  else generate_sync (en_plain en (payload false)) (en_start en) (en_stop en).

(** Step 3: the scaled latencies, and the extra sleep in milliseconds. *)
Definition actual_latency (w : WorkerCfg) (r : GenResult) : F :=
  gr_latency_ms r * wk_latency_mult w.
Definition actual_ttft (w : WorkerCfg) (r : GenResult) : F :=
  gr_ttft_ms r * wk_latency_mult w.
Definition extra_sleep_ms (w : WorkerCfg) (r : GenResult) : option F :=
  if wk_latency_mult w >? f1 then
    let extra := actual_latency w r - gr_latency_ms r in
    if extra >? f0 then Some extra else None
  else None.

(** [pb.InferenceResponse]. *)
Record InferenceResponse : Type := mkResp {
  ir_output : string;
  ir_latency_ms : F;
  ir_tokens_used : Z;
  ir_ttft_ms : F;
  ir_prompt_tokens : Z;
  ir_completion_tokens : Z
}.

(** Step 6.  [extended] tells whether the message type has the token fields; the first
    assignment evaluates its right-hand side before it fails. *)
Definition predict_response (w : WorkerCfg) (extended : bool) (r : GenResult) :
    result PyExc InferenceResponse :=
  match gr_output r with
  | JStr output =>
    used ← jint (gr_total_tokens r);
    p ← jint (gr_prompt_tokens r);
    if extended then
      c ← jint (gr_completion_tokens r);
      Ok (mkResp output (actual_latency w r) used (actual_ttft w r) p c)
    else Ok (mkResp output (actual_latency w r) used (actual_ttft w r) 0 0)
  | _ => Err AttributeError
  end.

(** The whole handler, when no other call runs beside it. *)
Definition Predict (w : WorkerCfg) (cl : VLLMClient) (extended : bool) (en : Engine)
    (prompt : string) (s : Counters) : Counters * result PyExc InferenceResponse :=
  let s := mkCounters (request_count s + 1) (total_tokens_served s) in
  let r := generate w cl en prompt in
  match py_add (total_tokens_served s) (gr_total_tokens r) with
  | Err e => (s, Err e)
  | Ok total => (mkCounters (request_count s) total, predict_response w extended r)
  end.

(** *** Overlapping calls

    The server runs [Predict] on sixteen threads and nothing guards the counters:
    [x += n] reads, adds and writes back, and other threads may run in between.  A
    thread is one call; its engine's result is given with it. *)

Inductive Phase : Type :=
| PStart
| PCounting (seen : Z)
| PWaiting
| PAdding (seen : json)
| PDone (r : result PyExc InferenceResponse).

Record Call : Type := mkCall { ca_result : GenResult; ca_phase : Phase }.

(** One step of one thread. *)
Definition call_step (w : WorkerCfg) (extended : bool) (s : Counters) (c : Call) :
    Counters * Call :=
  let r := ca_result c in
  match ca_phase c with
  | PStart => (s, mkCall r (PCounting (request_count s)))
  | PCounting n => (mkCounters (n + 1) (total_tokens_served s), mkCall r PWaiting)
  | PWaiting => (s, mkCall r (PAdding (total_tokens_served s)))
  | PAdding t =>
    match py_add t (gr_total_tokens r) with
    | Err e => (s, mkCall r (PDone (Err e)))
    | Ok total => (mkCounters (request_count s) total,
                   mkCall r (PDone (predict_response w extended r)))
    end
  | PDone _ => (s, c)
  end.

Definition calls_step (w : WorkerCfg) (extended : bool) (i : nat) (st : Counters * list Call) :
    Counters * list Call :=
  match st.2 !! i with
  | None => st
  | Some c => let '(s, c) := call_step w extended st.1 c in (s, <[i := c]> st.2)
  end.

(** A schedule names the thread that takes each step. *)
Definition calls_run (w : WorkerCfg) (extended : bool) (schedule : list nat)
    (st : Counters * list Call) : Counters * list Call :=
  foldl (fun st i => calls_step w extended i st) st schedule.

(** [CheckHealth]: whether the call is marked [UNAVAILABLE]. *)
Definition check_health_unavailable (cl : VLLMClient) (get : string -> option Z) : bool :=
  negb (health_check cl get).

(** ** Registration *)

Record RegisterRequest : Type := mkReg {
  rg_worker_id : string;
  rg_address : string;
  rg_tier : string;
  rg_vram_gb : Z;
  rg_engine_type : string;
  rg_free_vram_mb : Z
}.

(** Protobuf's defaults stand when the message type lacks the last two fields. *)
Definition with_extended (extended : bool) (free : Z) (r : RegisterRequest) : RegisterRequest :=
  if extended
  then mkReg (rg_worker_id r) (rg_address r) (rg_tier r) (rg_vram_gb r) "vllm" free
  else r.

(** The request of a registration: the total memory. *)
Definition registration_request (extended : bool) (wid address tier : string) (g : GPU)
    (read : option Z) : RegisterRequest :=
  with_extended extended (get_free_vram_mb g read)
    (mkReg wid address tier (get_total_vram_mb g) "" 0).

(** The request of a heartbeat: the free memory, in both fields, read twice. *)
Definition heartbeat_request (extended : bool) (wid address tier : string) (g : GPU)
    (read read' : option Z) : RegisterRequest :=
  with_extended extended (get_free_vram_mb g read')
    (mkReg wid address tier (get_free_vram_mb g read) "" 0).

(** What [RegisterWorker] gives: the flag of the response, or an exception. *)
Inductive RegReply : Type :=
| RegAnswer (success : bool)
| RegRaised.

(** How a registration ran: its result, the requests sent, the seconds slept. *)
Record RegRun : Type := mkRegRun {
  rr_registered : bool;
  rr_sent : list RegisterRequest;
  rr_slept : Z
}.

Definition max_retries : nat := 10.
Definition retry_delay : Z := 3.

(** [for attempt in range(max_retries)], from [attempt] with [left] to go. *)
Fixpoint register_loop (request : nat -> RegisterRequest)
    (manager : nat -> RegisterRequest -> RegReply) (attempt left : nat) : RegRun :=
  match left with
  | O => mkRegRun false [] 0
  | S left' =>
    let req := request attempt in
    match manager attempt req with
    | RegAnswer b => mkRegRun b [req] 0
    | RegRaised =>
      let run := register_loop request manager (S attempt) left' in
      mkRegRun (rr_registered run) (req :: rr_sent run)
        ((if bool_decide (attempt < max_retries - 1)%nat then retry_delay else 0)
         + rr_slept run)
    end
  end.

(** [register_with_manager]; [reads n] is the memory query of attempt [n]. *)
Definition register_with_manager (extended : bool) (wid address tier : string) (g : GPU)
    (reads : nat -> option Z) (manager : nat -> RegisterRequest -> RegReply) : RegRun :=
  register_loop (fun n => registration_request extended wid address tier g (reads n))
    manager 0 max_retries.

(** ** [wait_for_vllm] *)

(** One turn of the loop: the clock of its test, and what a GET gives then. *)
Fixpoint wait_for_vllm (cl : VLLMClient) (start timeout : F)
    (turns : list (F * (string -> option Z))) : option bool :=
  match turns with
  | [] => None
  | (now, get) :: turns' =>
    if now - start <? timeout then
      if health_check cl get then Some true else wait_for_vllm cl start timeout turns'
    else Some false
  end.
End Worker.

Arguments GenResult F : clear implicits.
Arguments GState F : clear implicits.
Arguments LineEvent F : clear implicits.
Arguments StreamReply F : clear implicits.
Arguments JsonReply F : clear implicits.
Arguments Counters F : clear implicits.
Arguments WorkerCfg F : clear implicits.
Arguments Engine F : clear implicits.
Arguments InferenceResponse F : clear implicits.
Arguments Phase F : clear implicits.
Arguments Call F : clear implicits.
