(* ===== verification/JsonFacts.v ===== *)
(** [json.loads] inverts [json.dumps] on values without floats, and a dumped value is
    one line of printable ASCII. *)

From Stdlib Require Import DecimalString DecimalFacts DecimalPos DecimalN DecimalZ.
From S2P Require Import Prelude PyFloat PyStr PyDict Json.

(** ** Decimal numerals *)

Lemma chars_of_uint (d : Decimal.uint) :
  forallb is_decimal (chars (NilEmpty.string_of_uint d)) = true.
Proof. induction d; simpl; try done; by rewrite IHd. Qed.

Definition digits_acc (acc : Z) (l : list ascii) : Z :=
  foldl (fun acc c => 10 * acc + (code c - 48)) acc l.

Lemma digits_acc_uint d p :
  digits_acc (Zpos p) (chars (NilEmpty.string_of_uint d)) = Zpos (Pos.of_uint_acc d p).
Proof.
  revert p; induction d; intros p; [done|..]; simpl chars; simpl Pos.of_uint_acc;
    rewrite <- IHd; unfold digits_acc; cbn [foldl chars]; f_equal;
    vm_compute (code _); lia.
Qed.

(** The decimal text of a positive number: digits, no leading zero, its value. *)
Lemma pos_digits p :
  exists c ds, chars (NilZero.string_of_uint (Pos.to_uint p)) = c :: ds /\ c <> "0"%char /\
    forallb is_decimal (c :: ds) = true /\ digits_value (c :: ds) = Zpos p.
Proof.
  set (d := Pos.to_uint p).
  assert (Hof : N.of_uint d = Npos p) by exact (DecimalN.Unsigned.of_to (Npos p)).
  assert (Hnorm : Decimal.unorm d = d).
  { rewrite <- DecimalN.Unsigned.to_of, Hof. done. }
  assert (Hz : forall l, d <> Decimal.D0 l).
  { intros l E. rewrite E in Hnorm, Hof. unfold Decimal.unorm in Hnorm. simpl in Hnorm.
    destruct (Decimal.nzhead l) eqn:El; try discriminate.
    - injection Hnorm as <-. done.
    - by apply DecimalFacts.nzhead_nonzero in El. }
  destruct d as [|l|l|l|l|l|l|l|l|l|l]; try done; try (by exfalso; eapply Hz);
    (eexists _, _; split; [reflexivity|]; split; [done|]; split; [apply (chars_of_uint l)|]);
    change (Z.of_N (Npos p)) with (Zpos p); unfold digits_value; cbn [foldl];
    vm_compute (10 * 0 + _); injection Hof as <-; apply digits_acc_uint.
Qed.

(** What may follow a value inside a container, or at the end. *)
Definition delim (l : list ascii) : Prop :=
  l = [] \/ exists c r, l = c :: r /\ c ∈ [","%char; "]"%char; "}"%char].

Ltac delim_cases H :=
  destruct H as [->|(?c & ?r & -> & H)]; [|in_cases H; subst].

Lemma load_digits_app ds rest :
  forallb is_decimal ds = true -> delim rest -> load_digits (ds ++ rest)%list = (ds, rest).
Proof.
  intros Hd Hr. induction ds as [|c ds IH]; simpl in *.
  - by delim_cases Hr.
  - bool_hyps. rewrite H. by rewrite IH.
Qed.

Lemma load_int_app c ds rest :
  c <> "0"%char \/ ds = [] -> forallb is_decimal (c :: ds) = true -> delim rest ->
  load_int (c :: ds ++ rest)%list = Some (c :: ds, rest).
Proof.
  intros Hc Hd Hr. unfold load_int. rewrite app_comm_cons, (load_digits_app (c :: ds) rest) by done.
  case_bool_decide as E; [|done]. destruct Hc as [Hc| ->]; [done|]. by rewrite E.
Qed.

Section Numbers.
Context {F : Type} {PF : PyFloat F}.

Lemma load_number_digits (neg : bool) c ds rest :
  c <> "0"%char \/ ds = [] -> forallb is_decimal (c :: ds) = true -> delim rest ->
  load_number ((if neg then "-"%char :: c :: ds else c :: ds) ++ rest)%list
  = Some (JInt (if neg then - digits_value (c :: ds) else digits_value (c :: ds)) : json F, rest).
Proof.
  intros Hc Hd Hr. pose proof (load_int_app c ds rest Hc Hd Hr) as Hi.
  assert (Hend : forall n : bool, match Some (c :: ds, rest) with
      | None => None
      | Some (a, rest) =>
        let '(b, rest1) := match rest with
          | "."%char :: r' => match load_digits r' with ([], _) => ([], rest) | x => x end
          | _ => ([], rest) end in
        let '(e, rest2) := match load_exp rest1 with
          | Some (e, r') => (Some e, r') | None => (None, rest1) end in
        match b, e with
        | [], None => let z := digits_value a in Some (JInt (if n then - z else z), rest)
        | _, _ =>
          let x := fdec (digits_value (a ++ b)) (default 0 e - Z.of_nat (length b)) in
          Some (JFloat (if n then fopp x else x), rest2)
        end
      end = Some (JInt (if n then - digits_value (c :: ds) else digits_value (c :: ds)) : json F, rest)).
  { intros n. by delim_cases Hr. }
  unfold load_number. destruct neg; cbn [app].
  - rewrite Hi. apply (Hend true).
  - simpl in Hd. apply andb_true_iff in Hd as [Hd _].
    destruct c as [[] [] [] [] [] [] [] []]; try (by vm_compute in Hd);
      rewrite Hi; apply (Hend false).
Qed.

Lemma load_number_str z rest :
  delim rest -> load_number (chars (str_of_Z z) ++ rest)%list = Some (JInt z : json F, rest).
Proof.
  intros Hr. unfold str_of_Z. destruct z as [|p|p].
  - by apply (load_number_digits false "0" []); [right|..].
  - destruct (pos_digits p) as (c & ds & E & Hc & Hd & Hv). simpl. rewrite E, <- Hv.
    apply (load_number_digits false); [by left|done|done].
  - destruct (pos_digits p) as (c & ds & E & Hc & Hd & Hv).
    change (Z.to_int (Z.neg p)) with (Decimal.Neg (Pos.to_uint p)).
    cbn [NilZero.string_of_int String.list_ascii_of_string]. rewrite E, <- Pos2Z.opp_pos, <- Hv.
    apply (load_number_digits true); [by left|done|done].
Qed.

(** A number is not a literal. *)
Lemma load_literal_str z rest : load_literal literals (chars (str_of_Z z) ++ rest)%list = None :> option (json F * _).
Proof.
  assert (Hd : forall c (l : list ascii), is_decimal c = true ->
            load_literal literals (c :: l) = None :> option (json F * _) /\
            load_literal literals ("-"%char :: c :: l) = None :> option (json F * _)).
  { intros [[] [] [] [] [] [] [] []] l H; first [by vm_compute in H|by split]. }
  unfold str_of_Z. destruct z as [|p|p].
  - by apply Hd.
  - destruct (pos_digits p) as (c & ds & E & _ & Hc & _). simpl. rewrite E.
    simpl in Hc. bool_hyps. by apply Hd.
  - destruct (pos_digits p) as (c & ds & E & _ & Hc & _).
    change (Z.to_int (Z.neg p)) with (Decimal.Neg (Pos.to_uint p)).
    cbn [NilZero.string_of_int String.list_ascii_of_string]. rewrite E.
    simpl in Hc. bool_hyps. by apply Hd.
Qed.
End Numbers.

(** ** Strings *)

Lemma load_chars_dump c l :
  load_chars (chars (dump_char c) ++ l)%list
  = match load_chars l with Some (s, rest) => Some (c :: s, rest) | None => None end.
Proof. destruct c as [[] [] [] [] [] [] [] []]; reflexivity. Qed.

Lemma chars_join_empty (l : list string) : chars (join "" l) = concat (map chars l).
Proof.
  induction l as [|s l IH]; [done|]. destruct l as [|t l].
  - simpl. by rewrite app_nil_r.
  - change (join "" (s :: t :: l)) with (s ++ join "" (t :: l)). by rewrite chars_app, IH.
Qed.

Lemma load_chars_str l rest :
  load_chars (concat (map chars (map dump_char l)) ++ "034"%char :: rest)%list = Some (l, rest).
Proof.
  induction l as [|c l IH]; [done|].
  cbn [map concat]. by rewrite <- app_assoc, load_chars_dump, IH.
Qed.

Lemma chars_dump_str s :
  chars (dump_str s) = "034"%char :: (concat (map chars (map dump_char (chars s))) ++ ["034"%char])%list.
Proof. unfold dump_str, dquote. rewrite !chars_app, chars_join_empty. done. Qed.

Lemma unchars_chars s : unchars (chars s) = s.
Proof. apply String.string_of_list_ascii_of_string. Qed.

(** ** Values *)

Section Values.
Context {F : Type} {PF : PyFloat F}.
Local Abbreviation json := (json F).
Implicit Types (v : json) (l : list json) (d : list (string * json)).

(** No float, and no key twice in an object. *)
Fixpoint jplain (v : json) : bool :=
  match v with
  | JFloat _ => false
  | JList l => forallb jplain l
  | JDict d => bool_decide (NoDup (map fst d)) && forallb (fun kv => jplain kv.2) d
  | _ => true
  end.

(** The fuel reading [v] back takes. *)
Fixpoint jneed (v : json) : nat :=
  match v with
  | JList l => S (list_sum (map (fun x => S (jneed x)) l))
  | JDict d => S (list_sum (map (fun kv => S (jneed kv.2)) d))
  | _ => 1
  end.

Definition items_text (l : list json) : list ascii := chars (join ", " (map dumps l)).
Definition field_text (kv : string * json) : string := dump_str kv.1 ++ ": " ++ dumps kv.2.
Definition fields_text (d : list (string * json)) : list ascii :=
  chars (join ", " (map field_text d)).

Lemma join_cons2 sep (s t : string) (ss : list string) :
  join sep (s :: t :: ss) = s ++ sep ++ join sep (t :: ss).
Proof. done. Qed.

(** A value starts with a character that is neither space nor a closing bracket. *)
Definition starts_value (t : list ascii) : Prop :=
  exists c r, t = c :: r /\ json_space c = false /\ c <> "]"%char /\ c <> "}"%char.

Lemma decimal_starts c r : is_decimal c = true -> starts_value (c :: r).
Proof. intros H. exists c, r. by destruct c as [[] [] [] [] [] [] [] []]. Qed.

Lemma dumps_starts v r : jplain v = true -> starts_value (chars (dumps v) ++ r)%list.
Proof.
  intros H. destruct v as [|[]|z|x|s|l|d]; try done; try by (eexists _, _; split; [reflexivity|]).
  simpl. unfold str_of_Z. destruct z as [|p|p].
  - by apply decimal_starts.
  - destruct (pos_digits p) as (c & ds & E & _ & Hc & _). simpl. rewrite E.
    simpl in Hc. bool_hyps. by apply decimal_starts.
  - by eexists _, _; split; [reflexivity|].
Qed.

Lemma skip_ws_starts t : starts_value t -> skip_ws t = t.
Proof. intros (c & r & -> & H & _). unfold skip_ws. simpl. by rewrite H. Qed.

(** What is shown of a value: it is read back, whatever delimiter follows. *)
Definition reads (v : json) : Prop :=
  forall fuel rest, (jneed v <= fuel)%nat -> delim rest ->
  load_value fuel (chars (dumps v) ++ rest)%list = Some (v, rest).

Lemma delim_comma r : delim (","%char :: r).
Proof. right. eexists _, _. split; [reflexivity|set_solver]. Qed.
Lemma delim_bracket r : delim ("]"%char :: r).
Proof. right. eexists _, _. split; [reflexivity|set_solver]. Qed.
Lemma delim_brace r : delim ("}"%char :: r).
Proof. right. eexists _, _. split; [reflexivity|set_solver]. Qed.

Lemma load_items_text x l fuel rest :
  (forall y, y ∈ x :: l -> reads y /\ jplain y = true) ->
  (list_sum (map (fun y => S (jneed y)) (x :: l)) <= fuel)%nat ->
  load_items fuel (items_text (x :: l) ++ "]"%char :: rest)%list = Some (x :: l, rest).
Proof.
  revert x fuel; induction l as [|y l IH]; intros x fuel Hall Hf;
    (destruct fuel as [|fuel]; [simpl in Hf; lia|]);
    destruct (Hall x ltac:(set_solver)) as [Hx _]; simpl in Hf.
  - unfold items_text. cbn [map]. change (join ", " [dumps x]) with (dumps x).
    cbn [load_items]. rewrite Hx by (apply delim_bracket || lia). done.
  - unfold items_text. cbn [map]. rewrite join_cons2, !chars_app, <- !app_assoc.
    cbn [load_items]. rewrite Hx by (apply delim_comma || lia).
    change (chars ", ") with [","%char; " "%char]. cbn [app].
    change (skip_ws (","%char :: ?z)) with (","%char :: z).
    destruct (Hall y ltac:(set_solver)) as [_ Hy].
    assert (Hs : starts_value (items_text (y :: l) ++ "]"%char :: rest)%list).
    { unfold items_text. cbn [map]. destruct l as [|z l].
      - by apply dumps_starts.
      - cbn [map]. rewrite join_cons2, chars_app, <- app_assoc. by apply dumps_starts. }
    unfold items_text in *. cbn [map] in *.
    change (skip_ws (" "%char :: ?z)) with (skip_ws z).
    rewrite (skip_ws_starts _ Hs).
    rewrite IH; [done| |simpl; lia]. intros z Hz. apply Hall. set_solver.
Qed.

Lemma chars_field kv r :
  (chars (field_text kv) ++ r
   = "034"%char :: concat (map chars (map dump_char (chars kv.1))) ++
     "034"%char :: ":"%char :: " "%char :: chars (dumps kv.2) ++ r)%list.
Proof.
  unfold field_text. rewrite !chars_app, chars_dump_str. cbn [app].
  by rewrite <- !app_assoc.
Qed.

Lemma fields_start kv d r :
  starts_value (fields_text (kv :: d) ++ r)%list.
Proof.
  unfold fields_text. destruct d as [|z d]; cbn [map].
  - change (join ", " [field_text kv]) with (field_text kv). rewrite chars_field.
    by eexists _, _.
  - cbn [map]. rewrite join_cons2, chars_app, <- app_assoc, chars_field. by eexists _, _.
Qed.

(** One field, up to what follows its value. *)
Lemma load_fields_step kv fuel acc r :
  reads kv.2 -> jplain kv.2 = true -> (jneed kv.2 <= fuel)%nat -> delim r ->
  load_fields (S fuel) acc (chars (field_text kv) ++ r)%list
  = let acc := dset kv.1 kv.2 acc in
    match skip_ws r with
    | "}"%char :: r' => Some (acc, r')
    | ","%char :: r' => load_fields fuel acc (skip_ws r')
    | _ => None
    end.
Proof.
  intros Hv Hp Hf Hr. rewrite chars_field. cbn [load_fields].
  rewrite load_chars_str. change (skip_ws (":"%char :: ?z)) with (":"%char :: z).
  cbv iota beta. change (skip_ws (" "%char :: ?z)) with (skip_ws z).
  rewrite skip_ws_starts by by apply dumps_starts.
  rewrite Hv by done. by rewrite unchars_chars.
Qed.

Lemma load_fields_text kv d fuel acc rest :
  (forall x, x ∈ kv :: d -> reads x.2 /\ jplain x.2 = true) ->
  NoDup (map fst acc ++ map fst (kv :: d)) ->
  (list_sum (map (fun x => S (jneed x.2)) (kv :: d)) <= fuel)%nat ->
  load_fields fuel acc (fields_text (kv :: d) ++ "}"%char :: rest)%list
  = Some ((acc ++ kv :: d)%list, rest).
Proof.
  revert kv fuel acc; induction d as [|z d IH]; intros kv fuel acc Hall Hnd Hf;
    (destruct fuel as [|fuel]; [simpl in Hf; lia|]);
    destruct (Hall kv ltac:(set_solver)) as [Hx Hp]; simpl in Hf;
    assert (Hset : dset kv.1 kv.2 acc = (acc ++ [kv])%list) by
      (rewrite (surjective_pairing kv) at 3; apply dset_fresh; apply NoDup_app in Hnd as (_ & Hnd & _); intros Hin;
       apply (Hnd _ Hin); set_solver);
    unfold fields_text; cbn [map].
  - change (join ", " [field_text kv]) with (field_text kv).
    rewrite load_fields_step by (done || apply delim_brace || lia). cbv zeta.
    by rewrite Hset.
  - rewrite join_cons2, (chars_app (field_text kv)), (chars_app ", "), <- !app_assoc.
    change (chars ", ") with [","%char; " "%char]. cbn [app].
    rewrite load_fields_step by (done || apply delim_comma || lia). cbv zeta.
    change (skip_ws (","%char :: ?z)) with (","%char :: z).
    cbv iota beta. change (skip_ws (" "%char :: ?z)) with (skip_ws z).
    pose proof (fields_start z d ("}"%char :: rest)) as Hs.
    unfold fields_text in Hs, IH. cbn [map] in Hs, IH. rewrite (skip_ws_starts _ Hs), Hset.
    rewrite IH; [by rewrite <- app_assoc|intros y Hy; apply Hall; set_solver| |simpl; lia].
    rewrite map_app. simpl. rewrite <- app_assoc. done.
Qed.

(** The three shapes of a value by its first character. *)
Lemma load_value_list fuel t :
  starts_value t ->
  load_value (S fuel) ("["%char :: t)
  = match load_items fuel t with Some (vs, r) => Some (JList vs, r) | None => None end.
Proof.
  intros Ht. cbn [load_value]. rewrite (skip_ws_starts t Ht).
  destruct Ht as (c & r & -> & _ & Hb & _).
  by destruct c as [[] [] [] [] [] [] [] []].
Qed.

Lemma load_value_dict fuel t :
  starts_value t ->
  load_value (S fuel) ("{"%char :: t)
  = match load_fields fuel [] t with Some (d, r) => Some (JDict d, r) | None => None end.
Proof.
  intros Ht. cbn [load_value]. rewrite (skip_ws_starts t Ht).
  destruct Ht as (c & r & -> & _ & _ & Hb).
  by destruct c as [[] [] [] [] [] [] [] []].
Qed.

Lemma load_value_int fuel z rest :
  delim rest -> load_value (S fuel) (chars (str_of_Z z) ++ rest)%list = Some (JInt z, rest).
Proof.
  intros Hr. pose proof (load_literal_str (F:=F) z rest) as Hl.
  pose proof (load_number_str (F:=F) z rest Hr) as Hn.
  assert (Hc : exists c r, (chars (str_of_Z z) ++ rest)%list = c :: r /\
                           (is_decimal c || bool_decide (c = "-"%char)) = true).
  { unfold str_of_Z. destruct z as [|p|p]; [by eexists _, _| |by eexists _, _].
    destruct (pos_digits p) as (c & ds & E & _ & Hc & _). simpl. rewrite E.
    simpl in Hc. apply andb_true_iff in Hc as [Hc _]. eexists _, _. split; [done|]. by rewrite Hc. }
  destruct Hc as (c & r & E & Hc). rewrite E in *. rewrite <- Hn. cbn [load_value].
  rewrite Hl. destruct c as [[] [] [] [] [] [] [] []]; first [reflexivity|by vm_compute in Hc].
Qed.

Lemma list_sum_elem {A} (f : A -> nat) x xs : x ∈ xs -> (f x <= list_sum (map f xs))%nat.
Proof.
  induction xs as [|y xs IH]; [by intros ?%not_elem_of_nil|].
  intros [->|H]%elem_of_cons; simpl; [lia|]. specialize (IH H). lia.
Qed.

(** Every plain value is read back. *)
Lemma reads_plain n v : (jneed v <= n)%nat -> jplain v = true -> reads v.
Proof.
  revert v; induction n as [|n IH]; intros v Hn Hp; [destruct v; simpl in Hn; lia|].
  intros fuel rest Hf Hr. destruct fuel as [|fuel]; [destruct v; simpl in Hf; lia|].
  destruct v as [|[]|z|x|s|l|d]; try done.
  - by apply load_value_int.
  - cbn [dumps]. rewrite chars_dump_str. cbn [app load_value].
    rewrite <- app_assoc. cbn [app]. rewrite load_chars_str, unchars_chars. done.
  - cbn [dumps]. rewrite (chars_app "["), (chars_app _ "]"), <- !app_assoc.
    destruct l as [|x l]; [done|]. cbn [jneed jplain] in Hn, Hf, Hp. rewrite forallb_forall in Hp.
    assert (Hall : forall y, y ∈ x :: l -> reads y /\ jplain y = true).
    { intros y Hy. assert (Hyp : jplain y = true) by by apply Hp, list_elem_of_In.
      split; [|done]. apply IH; [|done].
      apply (list_sum_elem (fun y => S (jneed y))) in Hy. lia. }
    pose proof (load_items_text x l fuel rest Hall ltac:(lia)) as Hi.
    change (chars "[" ++ ?t)%list with ("["%char :: t).
    rewrite load_value_list; [|].
    { change (match load_items fuel (items_text (x :: l) ++ "]"%char :: rest)%list with
              | Some (vs, r) => Some (JList vs, r) | None => None end = Some (JList (x :: l), rest)).
      by rewrite Hi. }
    destruct (Hall x ltac:(set_solver)) as [_ Hx].
    destruct l as [|y l]; [by apply dumps_starts|].
    cbn [map]. rewrite join_cons2, (chars_app (dumps x)), <- app_assoc. by apply dumps_starts.
  - cbn [dumps]. rewrite (chars_app "{"), (chars_app _ "}"), <- !app_assoc.
    destruct d as [|x d]; [done|]. cbn [jneed jplain] in Hn, Hf, Hp.
    apply andb_true_iff in Hp as [Hnd%bool_decide_eq_true Hp]. rewrite forallb_forall in Hp.
    assert (Hall : forall y, y ∈ x :: d -> reads y.2 /\ jplain y.2 = true).
    { intros y Hy. assert (Hyp : jplain y.2 = true) by by apply Hp, list_elem_of_In.
      split; [|done]. apply IH; [|done].
      apply (list_sum_elem (fun y => S (jneed y.2))) in Hy. lia. }
    pose proof (load_fields_text x d fuel [] rest Hall Hnd ltac:(lia)) as Hi.
    change (chars "{" ++ ?t)%list with ("{"%char :: t).
    rewrite load_value_dict; [|].
    { change (match load_fields fuel [] (fields_text (x :: d) ++ "}"%char :: rest)%list with
              | Some (vs, r) => Some (JDict vs, r) | None => None end = Some (JDict (x :: d), rest)).
      by rewrite Hi. }
    apply (fields_start x d).
Qed.

Lemma length_join (s : string) ss :
  (length (chars (join ", " (s :: ss))) + 2
   = list_sum (map (fun t => length (chars t) + 2) (s :: ss)))%nat.
Proof.
  revert s; induction ss as [|t ss IH]; intros s; [simpl; lia|].
  rewrite join_cons2, (chars_app s), (chars_app ", "), !length_app.
  specialize (IH t). simpl in *. lia.
Qed.

Lemma need_join {A} (need : A -> nat) (text : A -> string) x xs :
  (forall y, y ∈ x :: xs -> (need y <= 2 * length (chars (text y)))%nat) ->
  (S (list_sum (map (fun y => S (need y)) (x :: xs)))
   <= 2 * (2 + length (chars (join ", " (map text (x :: xs))))))%nat.
Proof.
  intros H. pose proof (length_join (text x) (map text xs)) as Hj.
  rewrite <- (map_cons text), map_map in Hj.
  assert (Hs : forall ys, (forall y, y ∈ ys -> (need y <= 2 * length (chars (text y)))%nat) ->
    (list_sum (map (fun y => S (need y)) ys) + 3 * length ys
     <= 2 * list_sum (map (fun y => length (chars (text y)) + 2) ys))%nat).
  { induction ys as [|y ys IH]; intros Hy; [simpl; lia|].
    pose proof (Hy y ltac:(set_solver)). specialize (IH (fun z Hz => Hy z ltac:(set_solver))).
    simpl. lia. }
  specialize (Hs _ H). cbn [length] in Hs. lia.
Qed.

(** The fuel of [loads] is enough. *)
Lemma jneed_dumps n v :
  (jneed v <= n)%nat -> jplain v = true -> (jneed v <= 2 * length (chars (dumps v)))%nat.
Proof.
  revert v; induction n as [|n IH]; intros v Hn Hp; [destruct v; simpl in Hn; lia|].
  destruct v as [|[]|z|x|s|l|d]; try discriminate Hp; try (simpl; lia).
  - destruct (dumps_starts (JInt z) [] Hp) as (c & r & E & _).
    rewrite app_nil_r in E. rewrite E. simpl. lia.
  - cbn [dumps]. rewrite (chars_app "["), (chars_app _ "]"), !length_app.
    destruct l as [|x l]; [simpl; lia|]. cbn [jneed jplain] in Hn, Hp |- *.
    rewrite forallb_forall in Hp.
    enough (S (list_sum (map (fun y => S (jneed y)) (x :: l)))
            <= 2 * (2 + length (chars (join ", " (map dumps (x :: l))))))%nat by (simpl in *; lia).
    apply need_join. intros y Hy. apply IH; [|by apply Hp, list_elem_of_In].
    apply (list_sum_elem (fun y => S (jneed y))) in Hy. lia.
  - cbn [dumps]. rewrite (chars_app "{"), (chars_app _ "}"), !length_app.
    destruct d as [|x d]; [simpl; lia|]. cbn [jneed jplain] in Hn, Hp |- *.
    apply andb_true_iff in Hp as [_ Hp]. rewrite forallb_forall in Hp.
    enough (S (list_sum (map (fun kv => S (jneed kv.2)) (x :: d)))
            <= 2 * (2 + length (chars (join ", " (map field_text (x :: d))))))%nat
      by (unfold field_text in *; simpl in *; lia).
    apply (need_join (fun kv => jneed kv.2)). intros y Hy.
    assert (jneed y.2 <= 2 * length (chars (dumps y.2)))%nat.
    { apply IH; [|by apply (Hp y), list_elem_of_In].
      apply (list_sum_elem (fun kv => S (jneed kv.2))) in Hy. lia. }
    unfold field_text. rewrite !chars_app, !length_app. lia.
Qed.

(** [loads (dumps v) = v] on every plain value. *)
Lemma loads_dumps v : jplain v = true -> loads (dumps v) = Some v.
Proof.
  intros Hp. unfold loads.
  assert (Hs : skip_ws (chars (dumps v)) = chars (dumps v)).
  { apply skip_ws_starts. rewrite <- (app_nil_r (chars _)). by apply dumps_starts. }
  rewrite Hs. rewrite <- (app_nil_r (chars (dumps v))) at 2.
  rewrite (reads_plain (jneed v) v); [done|done|done| |by left].
  pose proof (jneed_dumps (jneed v) v ltac:(done) Hp). lia.
Qed.
End Values.

(** ** [dumps] writes printable ASCII only *)

Definition printable_ascii (c : ascii) : bool := in_range 32 126 (code c).

Lemma dump_char_printable c : forallb printable_ascii (chars (dump_char c)) = true.
Proof. by destruct c as [[] [] [] [] [] [] [] []]. Qed.

Lemma printable_concat (l : list (list ascii)) :
  (forall x, x ∈ l -> forallb printable_ascii x = true) ->
  forallb printable_ascii (concat l) = true.
Proof.
  induction l as [|x l IH]; intros H; [done|]. simpl. rewrite forallb_app.
  rewrite (H x) by set_solver. apply IH. set_solver.
Qed.

Lemma printable_join (sep : string) ss :
  forallb printable_ascii (chars sep) = true ->
  (forall s, s ∈ ss -> forallb printable_ascii (chars s) = true) ->
  forallb printable_ascii (chars (join sep ss)) = true.
Proof.
  intros Hsep. induction ss as [|s ss IH]; intros H; [done|].
  destruct ss as [|s' ss]; [apply (H s); set_solver|].
  rewrite join_cons2, !chars_app, !forallb_app, Hsep, (H s) by set_solver.
  apply IH. intros x Hx. apply H. set_solver.
Qed.

Lemma printable_dump_str s : forallb printable_ascii (chars (dump_str s)) = true.
Proof.
  rewrite chars_dump_str. simpl. rewrite forallb_app. simpl. rewrite andb_true_r.
  apply printable_concat. intros x Hx. rewrite map_map in Hx.
  apply list_elem_of_In, in_map_iff in Hx as (c & <- & _). apply dump_char_printable.
Qed.

Lemma decimal_printable c : is_decimal c = true -> printable_ascii c = true.
Proof. by destruct c as [[] [] [] [] [] [] [] []]. Qed.

Lemma printable_int z : forallb printable_ascii (chars (str_of_Z z)) = true.
Proof.
  unfold str_of_Z. destruct z as [|p|p]; [done|..];
    destruct (pos_digits p) as (c & ds & E & _ & Hc & _);
    apply (forallb_imp _ printable_ascii _ decimal_printable) in Hc; simpl in *;
    by rewrite E.
Qed.

Lemma printable_app s t :
  forallb printable_ascii (chars (s ++ t)) =
  forallb printable_ascii (chars s) && forallb printable_ascii (chars t).
Proof. by rewrite chars_app, forallb_app. Qed.

Lemma printable_take n s :
  forallb printable_ascii (chars s) = true -> forallb printable_ascii (chars (str_take n s)) = true.
Proof.
  revert s; induction n as [|n IH]; intros [|c s]; simpl; try done.
  intros H. bool_hyps. rewrite H. by apply IH.
Qed.

Lemma printable_drop n s :
  forallb printable_ascii (chars s) = true -> forallb printable_ascii (chars (str_drop n s)) = true.
Proof.
  revert s; induction n as [|n IH]; intros [|c s]; simpl; try done.
  intros H. bool_hyps. by apply IH.
Qed.

Lemma printable_zeros n : forallb printable_ascii (chars (zeros n)) = true.
Proof.
  unfold zeros. rewrite String.list_ascii_of_string_of_list_ascii. induction (Z.to_nat n) as [|k IH]; [done|]. exact IH.
Qed.

Lemma printable_sig s :
  forallb printable_ascii (chars s) = true ->
  forallb printable_ascii (chars (sig_digits s)) = true.
Proof.
  intros H. unfold sig_digits. set (p := fun c => bool_decide (c = "0"%char)).
  assert (Hs : forallb printable_ascii (strip_right p (chars s)) = true).
  { unfold strip_right. rewrite forallb_forall in H |- *. intros x Hx. apply H.
    rewrite <- in_rev in Hx. apply in_rev. revert Hx. induction (rev (chars s)) as [|y l IH]; [done|].
    simpl. destruct (p y); [right; auto|done]. }
  destruct (strip_right p (chars s)) eqn:E; [done|]. by rewrite <- E, String.list_ascii_of_string_of_list_ascii, E.
Qed.

Lemma printable_layout ds e :
  forallb printable_ascii (chars ds) = true ->
  forallb printable_ascii (chars (float_layout ds e)) = true.
Proof.
  intros H. unfold float_layout.
  assert (Hm : forallb printable_ascii (chars (if str_len ds =? 1 then ds
                 else str_take 1 ds ++ "." ++ str_drop 1 ds)) = true).
  { destruct (_ =? _); [done|].
    by rewrite !printable_app, (printable_take 1), (printable_drop 1). }
  destruct (_ && _); [destruct (e <? 0); [|destruct (_ <=? _)]|];
    rewrite !printable_app, ?printable_zeros, ?H, ?printable_int, ?Hm; try done.
  - by rewrite printable_take, printable_drop.
  - by destruct (e <? 0), (Z.abs e <? 10).
Qed.

Section Printable.
Context {F : Type} {PF : PyFloat F}.
Implicit Types (v : json F) (x : F).

Lemma printable_float x : forallb printable_ascii (chars (dump_float x)) = true.
Proof.
  unfold dump_float, float_repr. destruct (fisnan x); [done|].
  destruct (fisinf x); [by destruct (flt x f0)|].
  destruct (feq x f0); [by destruct (flt _ f0)|].
  destruct (shortest _ _ _ _) as [m k]. rewrite printable_app, printable_layout.
  - by destruct (flt x f0).
  - apply printable_sig, printable_int.
Qed.

Lemma printable_dumps v : forallb printable_ascii (chars (dumps v)) = true.
Proof.
  assert (H : forall n v, (jneed v <= n)%nat -> forallb printable_ascii (chars (dumps v)) = true);
    [|by apply (H (jneed v))].
  clear v. induction n as [|n IH]; intros v Hn; [destruct v; simpl in Hn; lia|].
  destruct v as [|[]|z|x|s|l|d]; try reflexivity.
  - apply printable_int.
  - apply printable_float.
  - apply printable_dump_str.
  - cbn [dumps]. rewrite (chars_app "["), (chars_app _ "]"), !forallb_app. simpl.
    rewrite andb_true_r. cbn [jneed] in Hn. apply printable_join; [done|].
    intros s Hs. apply list_elem_of_In, in_map_iff in Hs as (x & <- & Hx%list_elem_of_In).
    apply IH. apply (list_sum_elem (fun y => S (jneed y))) in Hx. lia.
  - cbn [dumps]. rewrite (chars_app "{"), (chars_app _ "}"), !forallb_app. simpl.
    rewrite andb_true_r. cbn [jneed] in Hn. apply printable_join; [done|].
    intros s Hs. apply list_elem_of_In, in_map_iff in Hs as (x & <- & Hx%list_elem_of_In).
    rewrite !chars_app, !forallb_app, printable_dump_str.
    rewrite IH; [done|]. apply (list_sum_elem (fun y => S (jneed y.2))) in Hx. lia.
Qed.
End Printable.

Lemma printable_no_newline s :
  forallb printable_ascii (chars s) = true -> has_char "010" s = false.
Proof.
  rewrite forallb_forall. intros H. unfold has_char. apply bool_decide_eq_false.
  intros Hin%list_elem_of_In. apply H in Hin. by vm_compute in Hin.
Qed.
