(* ===== verification/Proxy.v ===== *)
(** The proxying coroutines of the gateway ([_proxy_json], [_relay_stream] and
    [_proxy_ollama_stream] of [dio/gateway.py]).

    A coroutine runs without interruption between two [await]s or [yield]s, so
    each stretch is one function of the gateway's state; what the HTTP client or
    the server gives back at an [await] is an argument of the next stretch. *)

From S2P Require Import Prelude PyFloat PyStr PyDict Json Config Admission EngineMetrics.
From S2P Require Import Learner Scheduler Setup Backends Requests OllamaStream.

Section Proxy.
Context {F : Type} {PF : PyFloat F}.
Local Abbreviation json := (json F).
Local Abbreviation body := (list (string * json)).

(** ** State *)

(** The attributes of [DIOGateway] that never change. *)
Record GwCfg : Type := mkGwCfg {
  gw_config : DIOConfig F;
  gw_model_map : AliasTable;
  gw_counter : TokenCounter
}.

Record Gateway : Type := mkGateway {
  gw_pool : Pool F;
  gw_sched : Sched F
}.

Definition set_sched (s : Sched F) (gw : Gateway) : Gateway := mkGateway (gw_pool gw) s.

(** The configuration of the gateway's scheduler. *)
Definition gw_sched_cfg (g : GwCfg) : SchedCfg F := configured (gw_config g).

(** The locals a coroutine keeps once its request is admitted. *)
Record Ticket : Type := mkTicket {
  tk_worker : string;
  tk_decision : RoutingDecision F;
  tk_tokens : Z;
  tk_prompt : string;
  tk_body : body;
  tk_chat : bool
}.

(** The clocks read at the end of an exchange: elapsed milliseconds and the
    wall clock in milliseconds. *)
Record Clock : Type := mkClock {
  ck_e2e : F;
  ck_now : Z
}.

(** What the client gets: a plain response, or a stream's status, headers and the
    chunks known so far. *)
Inductive Reply : Type :=
| RJson (r : Response F)
| RStream (status : Z) (headers : list (string * string)) (chunks : list string).

(** Exceptions that leave a handler. *)
Inductive Raised : Type :=
| HttpException (status : Z) (detail : string)
| Uncaught (e : PyExc).

(** ** Admission *)

(** [extract_prompt], the token feature, and [pick]. *)
Inductive Admission : Type :=
| AdTicket (t : Ticket)
| AdRejected (message : string) (retry_after : Z)
| AdRaised (e : PyExc).

Definition admit_request (g : GwCfg) (b : body) (chat : bool) (tier : string)
    (allowed : option (list string)) (gw : Gateway) : Gateway * Admission :=
  match extract_prompt b with
  | Err e => (gw, AdRaised e)
  | Ok prompt =>
    match feature_tokens (gw_counter g) (token_feature_cap (gw_config g)) prompt b with
    | Err e => (gw, AdRaised e)
    | Ok tokens =>
      let '(s, r) := pick (gw_sched_cfg g) prompt tier (Some tokens) allowed (gw_sched gw) in
      (set_sched s gw,
       match r with
       | Ok (wid, d) => AdTicket (mkTicket wid d tokens prompt b chat)
       | Err (AdmissionError m retry) => AdRejected m retry
       | Err (KeyError k) => AdRaised (KeyMissing k)
       end)
    end
  end.

(** The error object of a rejected request. *)
Definition rejection_json (message : string) : json :=
  JDict [("error", JDict [("message", JStr message); ("type", JStr "dio_admission_rejected");
                          ("code", JStr "service_unavailable")])].

Definition retry_header (retry : Z) : list (string * string) :=
  [("Retry-After", str_of_Z retry)].

(** ** Completion *)

Definition gw_release (wid : string) (gw : Gateway) : Gateway :=
  set_sched (release wid (gw_sched gw)) gw.

Definition gw_feedback (g : GwCfg) (tk : Ticket) (ck : Clock) (ok : bool) (gw : Gateway) :
    Gateway :=
  set_sched (feedback (gw_sched_cfg g) (tk_worker tk) (ck_e2e ck) (tk_tokens tk) ok
               (ck_now ck) (gw_sched gw)) gw.

(** [note_failure] with its default threshold. *)
Definition failure_threshold : Z := 3.
Definition gw_note_failure (wid : string) (gw : Gateway) : Gateway :=
  set_sched (note_failure wid failure_threshold (gw_sched gw)).1 gw.

Definition backend_error_502 (wid message : string) : Raised :=
  HttpException 502 ("backend " ++ wid ++ " error: " ++ message).

(** ** [_proxy_json] *)

(** What an [await] on the HTTP client gives: a response with its parsed body
    (or none) and its text, an exception, or the cancellation of the task. *)
Inductive HttpReply : Type :=
| HAnswer (status : Z) (parsed : option json) (text : string)
| HRaised (message : string)
| HCancelled.

(** The next step of a non-streaming request.  [JDropped] ends it after its
    admission without giving the slot back: a cancellation ([None]), or an
    exception no handler of the coroutine catches. *)
Inductive JsonStep : Type :=
| JSend (req : HttpRequest F) (tk : Ticket) (retried : bool)
| JReply (r : Response F)
| JRaise (e : Raised)
| JDropped (tk : Ticket) (e : option PyExc).

(** [self.pool.forward_*(client, worker_id, body, timeout)] up to its [await]. *)
Definition forward_to (g : GwCfg) (gw : Gateway) (tk : Ticket) (chat : bool) (b : body) :
    result PyExc (HttpRequest F) :=
  be ← pool_get (tk_worker tk) (gw_pool gw);
  if chat then forward_chat be b (request_timeout_s (gw_config g))
  else forward_completions be b (request_timeout_s (gw_config g)).

(** [str(e)] of an exception; its wording is the interpreter's. *)
Variable exc_text : PyExc -> string.

Definition send_json (g : GwCfg) (gw : Gateway) (tk : Ticket) (chat : bool) (b : body)
    (retried : bool) : Gateway * JsonStep :=
  match forward_to g gw tk chat b with
  | Ok req => (gw, JSend req tk retried)
  | Err e =>
    (gw_release (tk_worker tk) gw, JRaise (backend_error_502 (tk_worker tk) (exc_text e)))
  end.

Definition json_start (g : GwCfg) (b : body) (chat : bool) (tier : string)
    (allowed : option (list string)) (gw : Gateway) : Gateway * JsonStep :=
  match admit_request g b chat tier allowed gw with
  | (gw, AdRaised e) => (gw, JRaise (Uncaught e))
  | (gw, AdRejected m retry) =>
    (gw, JReply (mkResponse 503 (rejection_json m) (retry_header retry)))
  | (gw, AdTicket tk) => send_json g gw tk chat b false
  end.

(** The body of the fallback from chat to completions. *)
Definition completions_fallback (tk : Ticket) : body :=
  let b := tk_body tk in
  [("model", bget "model" b); ("prompt", JStr (tk_prompt tk));
   ("max_tokens", dget_or "max_tokens" (JInt 64) b);
   ("temperature", dget_or "temperature" (JFloat (fdec 7 (-1))) b)].

(** The response body and the tokens the engine reports. *)
Definition read_answer (g : GwCfg) (tk : Ticket) (be : Backend F) (status : Z)
    (parsed : option json) (text : string) (now : Z) : json * option Z :=
  let r : result PyExc (json * option Z) :=
    raw ← (match parsed with Some v => Ok v | None => Err (ValueError "json") end);
    data ← (if (status <? 400) && str_eqb (b_api_style be) "tgi_generate" && tk_chat tk
            then tgi_generate_to_openai_chat now raw
                   (jor (match b_model be with Some m => JStr m | None => JNull end)
                        (jor (bget "model" (tk_body tk)) (JStr "tgi")))
                   (prompt_tokens (gw_counter g) (tk_prompt tk))
            else Ok raw);
    let usage := match data with
                 | JDict d => jor (bget "usage" d) (JDict [])
                 | _ => JDict []
                 end in
    total ← jget "total_tokens" usage;
    if truthy total then n ← jint total; Ok (data, Some n)
    else
      completion ← jget "completion_tokens" usage;
      if truthy completion then
        n ← jint completion; Ok (data, Some (Z.max 1 (str_len (tk_prompt tk) / 4) + n))
      else Ok (data, None) in
  match r with
  | Ok x => x
  | Err _ => (JDict [("raw", JStr text)], None)
  end.

(** [RoutingDecision.as_dict]. *)
Definition decision_json (d : RoutingDecision F) : json :=
  JDict [("worker_id", JStr (d_worker_id d)); ("exec_ms", JFloat (d_exec_ms d));
         ("wait_ms", JFloat (d_wait_ms d)); ("tier_cost_ms", JFloat (d_tier_cost_ms d));
         ("vram_cost_ms", JFloat (d_vram_cost_ms d));
         ("cache_bonus_ms", JFloat (d_cache_bonus_ms d));
         ("total_ms", JFloat (d_total_ms d)); ("tokens", JInt (d_tokens d));
         ("strategy", JStr (d_strategy d));
         ("engine_kv_cost_ms", JFloat (d_engine_kv_cost_ms d));
         ("engine_queue_cost_ms", JFloat (d_engine_queue_cost_ms d));
         ("engine_prefix_bonus_ms", JFloat (d_engine_prefix_bonus_ms d));
         ("bonus_clamped_ms", JFloat (d_bonus_clamped_ms d));
         ("affinity_hit", JBool (d_affinity_hit d))].

Definition over_budget (g : GwCfg) (ck : Clock) : bool :=
  flt (slo_ms (gw_config g)) (ck_e2e ck).

(** The "dio" object of an annotated answer. *)
Definition annotation (g : GwCfg) (tk : Ticket) (be : Backend F) (reported : option Z)
    (ck : Clock) : json :=
  JDict [("backend_id", JStr (tk_worker tk)); ("backend_url", JStr (b_base_url be));
         ("api_style", JStr (b_api_style be)); ("e2e_ms", JFloat (fround 2 (ck_e2e ck)));
         ("tokens", JInt (tk_tokens tk));
         ("reported_tokens", match reported with Some n => JInt n | None => JNull end);
         ("slo_ms", JFloat (slo_ms (gw_config g)));
         ("over_budget", JBool (over_budget g ck));
         ("decision", decision_json (tk_decision tk))].

Definition answer_headers (g : GwCfg) (tk : Ticket) (ck : Clock) : list (string * string) :=
  [("X-DIO-Backend", tk_worker tk); ("X-DIO-E2E-Ms", fmt_fixed 1 (ck_e2e ck));
   ("X-DIO-Budget-Ms", fmt_fixed 0 (slo_ms (gw_config g)));
   ("X-DIO-Over-Budget", if over_budget g ck then "1" else "0")].

(** Everything after the last [await]. *)
Definition json_finish (g : GwCfg) (tk : Ticket) (status : Z) (parsed : option json)
    (text : string) (ck : Clock) (gw : Gateway) : Gateway * JsonStep :=
  match pool_get (tk_worker tk) (gw_pool gw) with
  | Err e => (gw, JDropped tk (Some e))
  | Ok be =>
    let '(data, reported) := read_answer g tk be status parsed text (ck_now ck) in
    let gw := if 500 <=? status then gw_note_failure (tk_worker tk) gw else gw in
    let gw := gw_feedback g tk ck (status <? 400) gw in
    if 400 <=? status then (gw, JReply (mkResponse status data []))
    else
      let data := match data with
                  | JDict d => JDict (dset "dio" (annotation g tk be reported ck) d)
                  | _ => data
                  end in
      (gw, JReply (mkResponse 200 data (answer_headers g tk ck)))
  end.

(** The stretch after the [await] on the engine. *)
Definition json_reply (g : GwCfg) (tk : Ticket) (retried : bool) (r : HttpReply) (ck : Clock)
    (gw : Gateway) : Gateway * JsonStep :=
  match r with
  | HAnswer status parsed text =>
    if (status =? 404) && tk_chat tk && negb retried then
      send_json g gw tk false (completions_fallback tk) true
    else json_finish g tk status parsed text ck gw
  | HRaised m => (gw_release (tk_worker tk) gw, JRaise (backend_error_502 (tk_worker tk) m))
  | HCancelled => (gw, JDropped tk None)
  end.

(** ** Streams *)

(** What opening the upstream stream gives.  [OpenBuildFailed] is an exception of the
    first [build_request], which is outside the handler's [try]. *)
Inductive OpenReply : Type :=
| Opened (status : Z)
| OpenRaised (message : string)
| OpenBuildFailed (message : string)
| OpenCancelled.

(** What reading and closing an error response gives: its text, or an exception or
    cancellation (no handler is around it). *)
Inductive BodyReply : Type :=
| BodyText (text : string)
| BodyLost.

(** How a generator ends: its loop is over, the upstream raised, the task was
    cancelled, or it was closed at a [yield] by the server. *)
Inductive StreamEnd : Type :=
| EndDone
| EndFailed (message : string)
| EndCancelled
| EndClosed.

(** The next step of a streaming request; [rebuilt] tells that the request sent is the
    second one, which is built inside the [try]. *)
Inductive StreamStep : Type :=
| SSend (url : string) (payload : body) (headers : list (string * string)) (timeout : F)
    (tk : Ticket) (rebuilt : bool)
| SErrBody (tk : Ticket) (status : Z)
| SStreaming (tk : Ticket) (status : Z) (headers : list (string * string))
| SReply (r : Reply)
| SRaise (e : Raised)
| SDropped (tk : Ticket) (e : option PyExc).

(** The upstream request of a stream: [timeout_s or request_timeout_s]. *)
Definition stream_payload (be : Backend F) (b : body) : body :=
  with_model be (dset "stream" (JBool true) b).

Definition stream_timeout (g : GwCfg) (be : Backend F) : F :=
  match b_timeout_s be with
  | Some t => if ftruth t then t else request_timeout_s (gw_config g)
  | None => request_timeout_s (gw_config g)
  end.

Definition stream_url (be : Backend F) (chat : bool) : string :=
  if chat then chat_url be else completions_url be.

(** [f"data: {json.dumps(payload)}\n\n"] and the end marker. *)
Definition sse_error (v : json) : list string := [sse v; "data: [DONE]" ++ newline ++ newline].

Definition stream_headers (g : GwCfg) (tk : Ticket) : list (string * string) :=
  [("X-DIO-Backend", tk_worker tk); ("Cache-Control", "no-cache");
   ("X-DIO-Budget-Ms", fmt_fixed 0 (slo_ms (gw_config g)));
   ("X-DIO-Predicted-Ms", fmt_fixed 1 (d_total_ms (tk_decision tk)))].

(** [_relay_stream] up to its first [await]. *)
Definition relay_start (g : GwCfg) (b : body) (chat : bool) (tier : string)
    (allowed : option (list string)) (gw : Gateway) : Gateway * StreamStep :=
  match admit_request g b chat tier allowed gw with
  | (gw, AdRaised e) => (gw, SRaise (Uncaught e))
  | (gw, AdRejected m retry) =>
    (gw, SReply (RStream 503 (retry_header retry) (sse_error (rejection_json m))))
  | (gw, AdTicket tk) =>
    match pool_get (tk_worker tk) (gw_pool gw) with
    | Err e => (gw, SDropped tk (Some e))
    | Ok be => (gw, SSend (stream_url be chat) (stream_payload be b) (auth_headers be)
                      (stream_timeout g be) tk false)
    end
  end.

(** The upstream answered the opening request. *)
Definition stream_opened (g : GwCfg) (tk : Ticket) (r : OpenReply) (gw : Gateway) :
    Gateway * StreamStep :=
  match r with
  | Opened status =>
    if 400 <=? status then (gw, SErrBody tk status)
    else (gw, SStreaming tk 200 (stream_headers g tk))
  | OpenRaised m => (gw_release (tk_worker tk) gw, SRaise (backend_error_502 (tk_worker tk) m))
  | OpenBuildFailed _ => (gw, SDropped tk (Some OtherExc))
  | OpenCancelled => (gw, SDropped tk None)
  end.

(** The accounting of a stream that was refused with an error status. *)
Definition refused (g : GwCfg) (tk : Ticket) (status : Z) (ck : Clock) (gw : Gateway) : Gateway :=
  let gw := gw_feedback g tk ck false gw in
  if 500 <=? status then gw_note_failure (tk_worker tk) gw else gw.

Definition relay_refused (g : GwCfg) (tk : Ticket) (status : Z) (r : BodyReply) (ck : Clock)
    (gw : Gateway) : Gateway * StreamStep :=
  match r with
  | BodyLost => (gw, SDropped tk None)
  | BodyText text =>
    let content := match loads text with
                   | Some v => v
                   | None => JDict [("error", JDict [("message", JStr text);
                                                     ("type", JStr "backend_error")])]
                   end in
    (refused g tk status ck gw, SReply (RJson (mkResponse status content [])))
  end.

(** The end of a stream: the [except] and [finally] clauses.  [ok] is
    [stream_ok], [closes] whether [upstream.aclose()] returns. *)
Definition stream_end (g : GwCfg) (tk : Ticket) (e : StreamEnd) (ok closes : bool) (ck : Clock)
    (gw : Gateway) : Gateway :=
  let gw := match e with EndFailed _ => gw_note_failure (tk_worker tk) gw | _ => gw end in
  if closes then
    match e with
    | EndCancelled => gw_release (tk_worker tk) gw
    | _ => gw_feedback g tk ck ok gw
    end
  else gw.

(** The frames an aborted relay still sends. *)
Definition relay_end_frames (e : StreamEnd) : list string :=
  match e with
  | EndFailed m => sse_error (JDict [("error", JDict
      [("message", JStr ("upstream stream failed: " ++ m)); ("type", JStr "dio_stream_error")])])
  | _ => []
  end.

(** ** [_proxy_ollama_stream] *)

(** The payload, with [stream_options] for OpenAI-style engines. *)
Definition ollama_payload (be : Backend F) (b : body) : body :=
  let p := stream_payload be b in
  if str_eqb (b_api_style be) "openai"
  then dsetdefault "stream_options" (JDict [("include_usage", JBool true)]) p else p.

Definition ndjson_reply (status : Z) (headers : list (string * string)) (message : string) :
    Reply :=
  RStream status headers [ndjson (ndjson_error message : json)].

Definition ollama_start (g : GwCfg) (b : body) (chat : bool) (tier : string)
    (allowed : option (list string)) (gw : Gateway) : Gateway * StreamStep :=
  match admit_request g b chat tier allowed gw with
  | (gw, AdRaised e) => (gw, SRaise (Uncaught e))
  | (gw, AdRejected m retry) => (gw, SReply (ndjson_reply 503 (retry_header retry) m))
  | (gw, AdTicket tk) =>
    match pool_get (tk_worker tk) (gw_pool gw) with
    | Err e => (gw, SDropped tk (Some e))
    | Ok be => (gw, SSend (stream_url be chat) (ollama_payload be b) (auth_headers be)
                      (stream_timeout g be) tk false)
    end
  end.

(** Reading and closing the first response before a retry. *)
Inductive Drain : Type :=
| Drained
| DrainRaised (message : string)
| DrainCancelled.

(** The upstream answered; a 400 to a payload with [stream_options] is retried once
    without it.  An exception while that second request is built is caught like one of
    sending it. *)
Definition ollama_opened (g : GwCfg) (url : string) (payload : body)
    (headers : list (string * string)) (timeout : F) (tk : Ticket) (rebuilt : bool)
    (r : OpenReply) (drain : Drain) (gw : Gateway) : Gateway * StreamStep :=
  match r with
  | Opened status =>
    if (status =? 400) && dmem "stream_options" payload then
      match drain with
      | Drained => (gw, SSend url (dpop "stream_options" payload) headers timeout tk true)
      | DrainRaised m =>
        (gw_release (tk_worker tk) gw, SRaise (backend_error_502 (tk_worker tk) m))
      | DrainCancelled => (gw, SDropped tk None)
      end
    else stream_opened g tk r gw
  | OpenBuildFailed m => stream_opened g tk (if rebuilt then OpenRaised m else r) gw
  | _ => stream_opened g tk r gw
  end.

(** The message of a refused Ollama stream. *)
Definition refused_message (status : Z) (text : string) : string :=
  let text := strip text in
  let r : result PyExc json :=
    parsed ← (match loads text with Some v => Ok v | None => Err (ValueError "json") end);
    err ← jget "error" parsed;
    m ← (match err with
         | JDict d => jget "message" (jor (JDict d) (JDict []))
         | v => Ok v
         end);
    Ok (jor m (JStr text)) in
  match r with
  | Ok m => jstr m
  | Err _ => str_or text ("backend returned HTTP " ++ str_of_Z status)
  end.

Definition ollama_refused (g : GwCfg) (tk : Ticket) (status : Z) (r : BodyReply) (ck : Clock)
    (gw : Gateway) : Gateway * StreamStep :=
  match r with
  | BodyLost => (gw, SDropped tk None)
  | BodyText text =>
    (refused g tk status ck gw, SReply (ndjson_reply status [] (refused_message status text)))
  end.

Definition ollama_model_name (tk : Ticket) : json :=
  jor (bget "model" (tk_body tk)) (JStr "dio-default").

(** The generator: its translator, and whether the final chunk has been yielded
    ([stream_ok]). *)
Record OllamaGen : Type := mkGen {
  og_state : TState F;
  og_ok : bool
}.

Definition ollama_final (g : GwCfg) (tk : Ticket) (iso : string) (ck : Clock) (t : TState F) :
    json :=
  final_chunk (ollama_model_name tk) (tk_chat tk) iso
    (prompt_tokens (gw_counter g) (tk_prompt tk)) (ck_e2e ck) t.

(** One upstream chunk: the lines it gives the client; the end marker gives the
    final line too. *)
Definition ollama_chunk (g : GwCfg) (tk : Ticket) (iso : string) (ck : Clock) (text : string)
    (og : OllamaGen) : OllamaGen * list json :=
  if og_ok og then (og, [])
  else
    let n := length (t_lines (og_state og)) in
    let '(t, fin) := feed (ollama_model_name tk) (tk_chat tk) iso (og_state og) text in
    let lines := drop n (t_lines t) in
    if fin : bool then (mkGen t true, (lines ++ [ollama_final g tk iso ck t])%list)
    else (mkGen t false, lines).

(** The upstream ends without a marker: the final line. *)
Definition ollama_eof (g : GwCfg) (tk : Ticket) (iso : string) (ck : Clock) (og : OllamaGen) :
    OllamaGen * list json :=
  if og_ok og then (og, [])
  else (mkGen (og_state og) true, [ollama_final g tk iso ck (og_state og)]).
End Proxy.
Arguments GwCfg F : clear implicits.
Arguments Gateway F : clear implicits.
Arguments Ticket F : clear implicits.
Arguments Clock F : clear implicits.
Arguments Reply F : clear implicits.
Arguments HttpReply F : clear implicits.
Arguments JsonStep F : clear implicits.
Arguments StreamStep F : clear implicits.
Arguments OllamaGen F : clear implicits.
