(* ===== verification/Routes.v ===== *)
(** The routes of the gateway ([_build_app] of [dio/gateway.py]): what each handler
    does before the proxying coroutines, the translation of plain Ollama answers,
    the admin endpoints and the error handlers. *)

From S2P Require Import Prelude PyFloat PyStr PyDict Json Config Admission EngineMetrics.
From S2P Require Import Learner Scheduler Setup Backends Requests OllamaStream Proxy.

Section Routes.
Context {F : Type} {PF : PyFloat F}.
Local Abbreviation json := (json F).
Local Abbreviation body := (list (string * json)).
Implicit Types (g : GwCfg F) (gw : Gateway F) (b : body).

(** The table routing and the listings read. *)
Definition gw_aliases g gw : AliasTable := model_aliases (gw_model_map g) (gw_pool gw).

(** What a handler hands over to. *)
Inductive Post : Type :=
| PostNone
| PostChat (model : json)
| PostGenerate (model : json).

Inductive Dispatch : Type :=
| DReply (r : Response F)
| DJson (b : body) (chat : bool) (allowed : option (list string)) (post : Post)
| DRelay (b : body) (chat : bool) (allowed : option (list string))
| DOllama (b : body) (chat : bool) (allowed : option (list string)).

Definition plain_error (status : Z) (v : json) : Response F :=
  mkResponse status (JDict [("error", v)]) [].

(** ** OpenAI routes *)

(** [chat_completions] and [completions]. *)
Definition openai_route (chat : bool) g gw b : result PyExc Dispatch :=
  match validate_openai_body (JDict b) chat (max_tokens_cap (gw_config g)) with
  | Some problem =>
    Ok (DReply (openai_error problem 400 "invalid_request_error" (Some "invalid_body")))
  | None =>
    too_large ← prompt_within_cap b (prompt_chars_cap (gw_config g)) false;
    match too_large with
    | Some r => Ok (DReply r)
    | None =>
      let hint := jor (bget "model" b) (JStr "") in
      allowed ← resolve_model (gw_aliases g gw) hint;
      match allowed with
      | Some [] =>
        Ok (DReply (openai_error ("The model '" ++ jstr hint ++ "' does not exist.") 404
                      "invalid_request_error" (Some "model_not_found")))
      | _ => if truthy (bget "stream" b) then Ok (DRelay b chat allowed)
             else Ok (DJson b chat allowed PostNone)
      end
    end
  end.

(** ** Ollama routes *)

(** The OpenAI body an Ollama request becomes. *)
Definition ollama_openai_body (chat : bool) (model : json) b : result PyExc body :=
  let base := if chat
              then [("model", model); ("messages", jor (bget "messages" b) (JList []))]
              else [("model", model); ("prompt", jor (bget "prompt" b) (JStr ""))] in
  options ← (match dget "options" b with
             | Some o => ollama_options_to_openai o
             | None => Ok []
             end);
  Ok (dupdate (dupdate base options) (ollama_request_to_openai b)).

(** [ollama_chat] and [ollama_generate]. *)
Definition ollama_route (chat : bool) g gw b : result PyExc Dispatch :=
  match validate_openai_body (JDict b) chat (max_tokens_cap (gw_config g)) with
  | Some problem => Ok (DReply (plain_error 400 (JStr problem)))
  | None =>
    too_large ← prompt_within_cap b (prompt_chars_cap (gw_config g)) true;
    match too_large with
    | Some r => Ok (DReply r)
    | None =>
      let model := jor (bget "model" b) (JStr "") in
      allowed ← resolve_model (gw_aliases g gw) model;
      match allowed with
      | Some [] => Ok (DReply (plain_error 404 (JStr ("model '" ++ jstr model ++ "' not found"))))
      | _ =>
        ob ← ollama_openai_body chat model b;
        if truthy (dget_or "stream" (JBool true) b)
        then Ok (DOllama (dset "stream" (JBool true) ob) chat allowed)
        else Ok (DJson ob chat allowed (if chat then PostChat model else PostGenerate model))
      end
    end
  end.

(** [_routing_headers]. *)
Definition routing_headers (r : Response F) : list (string * string) :=
  let pick key := match dget key (rs_headers r) with
                  | Some v => if str_truth v then [(key, v)] else []
                  | None => []
                  end in
  (pick "X-DIO-Backend" ++ pick "X-DIO-E2E-Ms")%list.

(** [choices[0]], which must be an object: every other value makes one of the
    accesses below raise. *)
Definition choice_object (choices : json) : result PyExc (option body) :=
  if truthy choices then
    c ← first_choice choices;
    match c with JDict d => Ok (Some d) | _ => Err AttributeError end
  else Ok None.

(** The fields shared by both plain Ollama answers. *)
Definition ollama_stats (iso : string) (model : json) (e2e : F) (usage : json)
    (part : string * json) (reason : string) : result PyExc json :=
  total ← (let x := fmul e2e (fint 1000000) in
           if fisnan x then Err (ValueError "nan") else if fisinf x then Err OverflowError
           else Ok (ftrunc x));
  p ← jget_or "prompt_tokens" (JInt 0) usage;
  c ← jget_or "completion_tokens" (JInt 0) usage;
  Ok (JDict [("model", jor model (JStr "dio-default")); ("created_at", JStr iso); part;
             ("done", JBool true); ("done_reason", JStr reason);
             ("total_duration", JInt total); ("load_duration", JInt 1000000);
             ("prompt_eval_count", p); ("eval_count", c)]).

(** The plain Ollama answer made of an internal JSON answer. *)
Definition ollama_answer (iso : string) (post : Post) (r : Response F) :
    result PyExc (Response F) :=
  if 400 <=? rs_status r then Ok r
  else
    match post with
    | PostNone => Ok r
    | PostChat model | PostGenerate model =>
      let data := rs_content r in
      choices ← jget "choices" data;
      choice ← choice_object choices;
      let part := match post, choice with
        | PostGenerate _, Some d => ("response", dget_or "text" (JStr "") d)
        | PostGenerate _, None => ("response", JStr "")
        | _, Some d => ("message", dget_or "message"
            (JDict [("role", JStr "assistant"); ("content", JStr "")]) d)
        | _, None => ("message", JDict [("role", JStr "assistant"); ("content", JStr "")])
        end in
      e2e ← (match dget "X-DIO-E2E-Ms" (rs_headers r) with
             | Some h => match float_of_str h with
                         | Some x => Ok x | None => Err (ValueError h) end
             | None => Ok (fint 10)
             end);
      usage ← jget "usage" data;
      reason ← ollama_done_reason (match choice with Some d => [JDict d] | None => [] end);
      v ← ollama_stats iso model e2e (jor usage (JDict [])) part reason;
      Ok (mkResponse 200 v (routing_headers r))
    end.

(** ** Listings *)

(** [list_models]. *)
Definition list_models (table : AliasTable) : json :=
  let entry '(name, ids) :=
    JDict [("id", JStr name); ("object", JStr "model");
           ("owned_by", JStr (match ids with
                              | [i] => "dio/" ++ i
                              | _ => "dio/config"
                              end))] in
  let data := match table with
              | [] => [JDict [("id", JStr "dio-default"); ("object", JStr "model");
                              ("owned_by", JStr "dio")]]
              | _ => map entry table
              end in
  JDict [("object", JStr "list"); ("data", JList data)].

(** [ollama_tags]. *)
Definition tag_details : json :=
  JDict [("parent_model", JStr ""); ("format", JStr "gguf"); ("family", JStr "llama");
         ("families", JList [JStr "llama"]); ("parameter_size", JStr "8B");
         ("quantization_level", JStr "Q4_K_M")].

Definition ollama_tags (iso : string) (table : AliasTable) : json :=
  let tag name size details :=
    JDict [("name", JStr name); ("model", JStr name); ("modified_at", JStr iso);
           ("size", JInt size); ("digest", JStr (model_digest name)); ("details", details)] in
  JDict [("models", JList match table with
    | [] => [tag "dio-default" 0 (JDict [("format", JStr "gguf"); ("family", JStr "llama")])]
    | _ => map (fun e => tag e.1 4000000000 tag_details) table
    end)].

(** [ollama_show]. *)
Definition ollama_show b : json :=
  let model := jstr (jor (jor (bget "model" b) (bget "name" b)) (JStr "dio-default")) in
  JDict [("modelfile", JStr ("# Modelfile for " ++ model ++ newline ++ "FROM " ++ model ++
                             newline ++ "PARAMETER temperature 0.7"));
         ("parameters", JStr "temperature 0.7"); ("template", JStr "{{ .Prompt }}");
         ("details", tag_details)].

(** ** Health *)

Fixpoint sinsert (x : string) (l : list string) : list string :=
  match l with
  | [] => [x]
  | y :: l' => if String.ltb x y then x :: y :: l' else y :: sinsert x l'
  end.
Definition ssorted (l : list string) : list string := foldl (fun acc x => sinsert x acc) [] l.

(** [healthz]. *)
Definition healthz g gw : json :=
  let cfg := gw_config g in
  let health := workers_health (gw_sched gw) in
  let unhealthy := ssorted (map fst (filter (fun kv => kv.2 = false) health)) in
  let adm := m_admission (metrics (gw_sched_cfg g) (gw_sched gw)) in
  JDict [("status", JStr (match unhealthy with [] => "ok" | _ => "degraded" end));
         ("service", JStr "dio");
         ("backends", JInt (Z.of_nat (length (gw_pool gw))));
         ("backends_registered", JInt (Z.of_nat (length health)));
         ("backends_unhealthy", JList (map JStr unhealthy));
         ("strategy", JStr (strategy cfg)); ("engine_metrics", JBool (engine_metrics cfg));
         ("slo", JDict [("slo_ms", JFloat (as_slo_ms adm));
                        ("avg_e2e_ms", JFloat (fround 1 (as_avg_e2e_ms adm)));
                        ("goodput_fraction", JFloat (fround 4 (as_goodput_fraction adm)));
                        ("rejected_slo", JInt (rejected_slo (as_stats adm)));
                        ("rejected_slo_suppressed", JInt (rejected_slo_suppressed (as_stats adm)))])].

(** ** Admin endpoints *)

(** [add_backend]. *)
Definition add_backend g (be : Backend F) gw : Gateway F :=
  mkGateway (pool_add be (gw_pool gw))
    (register (gw_sched_cfg g) (b_id be) (b_tier be) (b_total_vram_mb be)
       (Some (b_free_vram_mb be)) (gw_sched gw)).

(** [DIOGateway.__init__] on its backends. *)
Definition gateway_init g (l : list (Backend F)) : Gateway F :=
  let pool := pool_init l in
  mkGateway pool
    (foldl (fun s be => register (gw_sched_cfg g) (b_id be) (b_tier be) (b_total_vram_mb be)
                          (Some (b_free_vram_mb be)) s)
       sched_init (pool_list pool)).

Definition bad_request (message : string) : Response F :=
  mkResponse 400 (JDict [("error", JDict [("message", JStr message);
                                          ("type", JStr "dio_bad_request")])]) [].

(** The message of a rejected backend: its [ValueError] or [TypeError]; anything
    else is not caught. *)
Definition caught (exc_text : PyExc -> string) (e : PyExc) : option string :=
  match e with
  | ValueError m => Some m
  | TypeError => Some (exc_text TypeError)
  | _ => None
  end.

(** The [Backend] a hot registration asks for, on text entries. *)
Definition requested_backend (bracketed_ok : string -> bool) (id base_url tier : string)
    (model : option string) b : result PyExc (Backend F) :=
  total ← jfloat (dget_or "total_vram_mb" (JInt 24000) b);
  free ← jfloat (dget_or "free_vram_mb" (dget_or "total_vram_mb" (JInt 24000) b) b);
  let d : Backend F := backend_defaults id base_url in
  post_init bracketed_ok
    (mkBackend id base_url tier model total free (b_weight d) None None [] (b_api_style d) None
       (b_chat_path d) (b_completions_path d) (b_generate_path d) (b_health_path d)
       (b_models_path d) (b_metrics_path d) None).

(** [add_backend_http]: the body is the parsed JSON, [None] when it is not JSON.
    A body whose id, tier or model is neither absent nor a text is outside the
    model: [None]. *)
Definition add_backend_http (bracketed_ok : string -> bool) (exc_text : PyExc -> string) g
    (v : option json) gw : option (Gateway F * result PyExc (Response F)) :=
  let missing := Some (gw, Ok (bad_request "body must contain 'id' and 'base_url'")) in
  match v with
  | None => Some (gw, Ok (bad_request "body must be JSON"))
  | Some (JDict b) =>
    if negb (truthy (bget "id" b)) || negb (truthy (bget "base_url" b)) then missing
    else
      match bget "id" b, bget "base_url" b, dget_or "tier" (JStr "small") b, bget "model" b with
      | JStr id, JStr url, JStr tier, (JStr _ | JNull) as model =>
        let model := match model with JStr m => Some m | _ => None end in
        match requested_backend bracketed_ok id url tier model b with
        | Ok be => Some (add_backend g be gw,
            Ok (mkResponse 200 (JDict [("status", JStr "ok"); ("id", JStr id)]) []))
        | Err e => match caught exc_text e with
                   | Some m => Some (gw, Ok (bad_request m))
                   | None => Some (gw, Err e)
                   end
        end
      | _, _, _, _ => None
      end
  | Some _ => missing
  end.

Definition set_backend_free (x : F) (be : Backend F) : Backend F :=
  mkBackend (b_id be) (b_base_url be) (b_tier be) (b_model be) (b_total_vram_mb be) x
    (b_weight be) (b_prior_slope be) (b_prior_intercept be) (b_labels be) (b_api_style be)
    (b_api_key be) (b_chat_path be) (b_completions_path be) (b_generate_path be)
    (b_health_path be) (b_models_path be) (b_metrics_path be) (b_timeout_s be).

(** [chaos_vram] on the parsed body. *)
Definition chaos_vram (v : json) gw : Gateway F * (Response F + Raised) :=
  let r := wid ← jget "worker_id" v;
           f ← jget_or "free_vram_mb" (JInt 1500) v;
           free ← jfloat f;
           Ok (wid, free) in
  match r with
  | Err e => (gw, inr (Uncaught e))
  | Ok (wid, free) =>
    if negb (truthy wid) then (gw, inr (HttpException 400 "worker_id required"))
    else
      let ok := inl (mkResponse 200 (JDict [("status", JStr "ok"); ("worker_id", wid);
                                            ("free_vram_mb", JFloat free)]) []) in
      match wid with
      | JStr w => (mkGateway (dalter (set_backend_free free) w (gw_pool gw))
                     (set_vram w free (gw_sched gw)), ok)
      | JList _ | JDict _ => (gw, inr (Uncaught TypeError))
      | _ => (gw, ok)
      end
  end.

(** [reset_stats]. *)
Definition debug_reset_stats gw : Gateway F * Response F :=
  (set_sched (reset_stats (gw_sched gw)) gw,
   mkResponse 200 (JDict [("status", JStr "ok")]) []).

(** ** Background loops *)

(** One backend of a turn of [_health_loop]. *)
Definition health_turn (get : string -> list (string * string) -> ProbeReply) (be : Backend F)
    gw : Gateway F :=
  set_sched (set_healthy (b_id be) (probe_health get be) (gw_sched gw)) gw.

(** One backend of a turn of [_metrics_loop] on the outcome of its GET. *)
Definition metrics_turn (now : F) (be : Backend F) (r : ScrapeReply) gw : Gateway F :=
  match r with
  | ScrapeHttp status text =>
    if 400 <=? status then gw
    else
      let snap := snapshot_from_metrics now (parse_prometheus_text text) in
      if snap_ok snap
      then set_sched (set_engine_metrics (b_id be) (as_dict snap) (gw_sched gw)) gw
      else gw
  | ScrapeRaised _ => gw
  end.

(** ** Error handlers *)

(** [_http_error]. *)
Definition http_error (path : string) (status : Z) (detail : string) : Response F :=
  if startswith "/api/" path then plain_error status (JStr detail)
  else openai_error detail status
         (if status <? 500 then "invalid_request_error" else "server_error") None.

(** [_body_error] on the location and message of the first validation error. *)
Definition body_error (path : string) (loc : list string) (msg : string) : Response F :=
  let loc := join "." (filter (fun p => p <> "body") loc) in
  let message := if str_truth loc then loc ++ ": " ++ msg else msg in
  if startswith "/api/" path then plain_error 400 (JStr message)
  else openai_error message 400 "invalid_request_error" (Some "invalid_body").
End Routes.
Arguments Dispatch F : clear implicits.
Arguments Post F : clear implicits.

(** ** The read-only [/debug] routes: projections of [Scheduler.metrics] *)

Section Debug.
Context {F : Type} {PF : PyFloat F}.
Implicit Types (c : SchedCfg F) (s : Sched F).

(** [xs[-n:]]: 0 keeps everything, a negative [n] drops from the front. *)
Definition tail_slice {A} (n : Z) (xs : list A) : list A :=
  if n =? 0 then xs else if 0 <? n then lastn (Z.to_nat n) xs else drop (Z.to_nat (- n)) xs.

(** The affinity block of the metrics. *)
Record AffinityBlock : Type := mkAffinityBlock {
  ab_decisions : Z;
  ab_hits : Z;
  ab_hit_rate : F;
  ab_evictions : Z;
  ab_cache_size : Z;
  ab_capacity : Z
}.
Definition affinity_block (m : Metrics) : AffinityBlock :=
  mkAffinityBlock (m_aff_decisions m) (m_aff_hits m) (m_aff_hit_rate m) (m_aff_evictions m)
    (m_aff_cache_size m) (m_aff_capacity m).

(** [/debug/engine]. *)
Record DebugEngine : Type := mkDebugEngine {
  de_enabled : bool;
  de_interval_s : F;
  de_snapshots : list (string * EngineDict F);
  de_affinity : AffinityBlock
}.
Definition debug_engine (interval : F) c s : DebugEngine :=
  let m := metrics c s in
  mkDebugEngine (m_use_engine_metrics m) interval (m_engine_metrics m) (affinity_block m).

(** [/debug/admission] and [/debug/affinity]. *)
Definition debug_admission c s : AdmissionSnapshot F := m_admission (metrics c s).
Definition debug_affinity c s : AffinityBlock := affinity_block (metrics c s).

(** [/debug/predictions?limit=n]. *)
Record DebugPredictions : Type := mkDebugPredictions {
  dp_count : Z;
  dp_mae_ms : F;
  dp_mape_pct : F;
  dp_samples : list (PredSample F)
}.
Definition debug_predictions (limit : Z) c s : DebugPredictions :=
  let m := metrics c s in
  mkDebugPredictions (m_pred_count m) (m_pred_mae_ms m) (m_pred_mape_pct m)
    (tail_slice limit (m_pred_samples m)).

(** [/debug/workers]. *)
Record DebugWorkers : Type := mkDebugWorkers {
  dw_worker_count : Z;
  dw_workers : list string;
  dw_strategy : string;
  dw_detail : list (string * WorkerSnapshot F);
  dw_engine : list (string * EngineDict F)
}.
Definition debug_workers c s : DebugWorkers :=
  let m := metrics c s in
  mkDebugWorkers (Z.of_nat (length (m_workers m))) (dkeys (m_workers m)) (m_strategy m)
    (m_workers m) (m_engine_metrics m).

(** ** Properties *)

(** A positive limit bounds the samples, and those kept are the newest. *)
Lemma predictions_limited limit c s :
  0 < limit -> Z.of_nat (length (dp_samples (debug_predictions limit c s))) <= limit.
Proof.
  intros H. cbn [debug_predictions dp_samples]. unfold tail_slice.
  rewrite (proj2 (Z.eqb_neq limit 0)), (proj2 (Z.ltb_lt 0 limit)) by lia.
  rewrite length_lastn. lia.
Qed.

(** A limit of 0 keeps every sample, as many as the metrics hold. *)
Lemma predictions_limit_zero c s :
  dp_samples (debug_predictions 0 c s) = lastn 200 (pred_history s).
Proof. done. Qed.

(** The ids listed are those of the registered workers, in their order. *)
Lemma debug_workers_registered c s :
  dw_workers (debug_workers c s) = dkeys (predictors s) /\
  dw_worker_count (debug_workers c s) = Z.of_nat (length (predictors s)).
Proof.
  unfold debug_workers, metrics, dkeys. cbn. rewrite length_map, map_map. split; [|done].
  apply map_ext. by intros [].
Qed.
End Debug.
