(* ===== verification/Gateway.v ===== *)
(** The running gateway: its requests in flight as suspended coroutines, and every
    way one of them, the admin endpoints or a background loop can take a step.
    Steps do not overlap (one event loop); their order is arbitrary. *)

From S2P Require Import Prelude PyFloat PyStr PyDict Json Config EngineMetrics Learner.
From S2P Require Import Scheduler Setup Backends Requests OllamaStream Proxy Routes.

Section Gateway.
Context {F : Type} {PF : PyFloat F}.
Local Abbreviation json := (json F).
Local Abbreviation body := (list (string * json)).
Variable exc_text : PyExc -> string.

(** ** State *)

(** A request after its admission: waiting for the engine's answer, for the stream to
    open, for the body of a refusal, or streaming. *)
Inductive Flight : Type :=
| FJson (tk : Ticket F) (retried : bool) (post : Post F)
| FOpening (ollama : bool) (url : string) (payload : body) (headers : list (string * string))
    (timeout : F) (tk : Ticket F) (rebuilt : bool)
| FRefused (ollama : bool) (tk : Ticket F) (status : Z)
| FRelay (tk : Ticket F)
| FOllama (tk : Ticket F) (og : OllamaGen F).

Definition flight_worker (f : Flight) : string :=
  match f with
  | FJson tk _ _ | FOpening _ _ _ _ _ tk _ | FRefused _ tk _ | FRelay tk | FOllama tk _ =>
    tk_worker tk
  end.

(** [w_lost] is a ghost: the workers of the requests that ended without giving
    their slot back. *)
Record World : Type := mkWorld {
  w_gw : Gateway F;
  w_flights : list (Z * Flight);
  w_next : Z;
  w_lost : list string
}.

(** What a step shows outside. *)
Inductive Output : Type :=
| OutNone
| OutSend (req : HttpRequest F)
| OutOpen (url : string) (payload : body) (headers : list (string * string)) (timeout : F)
| OutReply (r : Reply F)
| OutRaise (e : Raised)
| OutLines (chunks : list string).

Inductive Route : Type := RtChat | RtCompletions | RtOllamaChat | RtOllamaGenerate.

(** The handlers of the four routes. *)
Definition chat_completions (g : GwCfg F) (gw : Gateway F) (b : body) : result PyExc (Dispatch F) :=
  openai_route true g gw b.
Definition completions (g : GwCfg F) (gw : Gateway F) (b : body) : result PyExc (Dispatch F) :=
  openai_route false g gw b.
Definition ollama_chat (g : GwCfg F) (gw : Gateway F) (b : body) : result PyExc (Dispatch F) :=
  ollama_route true g gw b.
Definition ollama_generate (g : GwCfg F) (gw : Gateway F) (b : body) : result PyExc (Dispatch F) :=
  ollama_route false g gw b.

(** The framework's choice among them. *)
Definition dispatch (rt : Route) : GwCfg F -> Gateway F -> body -> result PyExc (Dispatch F) :=
  match rt with
  | RtChat => chat_completions
  | RtCompletions => completions
  | RtOllamaChat => ollama_chat
  | RtOllamaGenerate => ollama_generate
  end.

(** ** Putting a coroutine's next step into the world *)

Definition put (id : Z) (f : Flight) (gw : Gateway F) (w : World) : World :=
  mkWorld gw (dset id f (w_flights w)) (Z.max (w_next w) (id + 1)) (w_lost w).
Definition finish (id : Z) (gw : Gateway F) (w : World) : World :=
  mkWorld gw (dpop id (w_flights w)) (Z.max (w_next w) (id + 1)) (w_lost w).
Definition lose (id : Z) (tk : Ticket F) (gw : Gateway F) (w : World) : World :=
  mkWorld gw (dpop id (w_flights w)) (Z.max (w_next w) (id + 1)) (tk_worker tk :: w_lost w).

Definition out_raise (e : option PyExc) : Output :=
  match e with Some e => OutRaise (Uncaught e) | None => OutNone end.

Definition json_next (id : Z) (post : Post F) (iso : string) (r : Gateway F * JsonStep F)
    (w : World) : World * Output :=
  match r with
  | (gw, JSend req tk retried) => (put id (FJson tk retried post) gw w, OutSend req)
  | (gw, JReply resp) =>
    (finish id gw w, match ollama_answer iso post resp with
                     | Ok resp => OutReply (RJson resp)
                     | Err e => OutRaise (Uncaught e)
                     end)
  | (gw, JRaise e) => (finish id gw w, OutRaise e)
  | (gw, JDropped tk e) => (lose id tk gw w, out_raise e)
  end.

Definition stream_next (id : Z) (ollama : bool) (r : Gateway F * StreamStep F) (w : World) :
    World * Output :=
  match r with
  | (gw, SSend url payload headers timeout tk rebuilt) =>
    (put id (FOpening ollama url payload headers timeout tk rebuilt) gw w,
     OutOpen url payload headers timeout)
  | (gw, SErrBody tk status) => (put id (FRefused ollama tk status) gw w, OutNone)
  | (gw, SStreaming tk status headers) =>
    (put id (if ollama then FOllama tk (mkGen t_init false) else FRelay tk) gw w,
     OutReply (RStream status headers []))
  | (gw, SReply r) => (finish id gw w, OutReply r)
  | (gw, SRaise e) => (finish id gw w, OutRaise e)
  | (gw, SDropped tk e) => (lose id tk gw w, out_raise e)
  end.

(** ** Events *)

Inductive Event : Type :=
(** A request reaches a route. *)
| EvRequest (rt : Route) (b : body) (iso : string)
(** The await of request [id] is over. *)
| EvAnswer (id : Z) (r : HttpReply F) (iso : string) (ck : Clock F)
| EvOpened (id : Z) (r : OpenReply) (drain : Drain)
| EvRefusal (id : Z) (r : BodyReply) (ck : Clock F)
| EvChunk (id : Z) (text iso : string) (ck : Clock F)
| EvEof (id : Z) (iso : string) (ck : Clock F)
| EvEnd (id : Z) (e : StreamEnd) (closes : bool) (ck : Clock F)
(** The stream's response is dropped before its generator starts. *)
| EvAbandon (id : Z)
(** Administration and background loops. *)
| EvAddBackend (be : Backend F)
| EvChaosVram (v : json)
| EvResetStats
| EvHealth (get : string -> list (string * string) -> ProbeReply) (be : Backend F)
| EvMetrics (now : F) (be : Backend F) (r : ScrapeReply).

Definition request (g : GwCfg F) (rt : Route) (b : body) (iso : string) (w : World) :
    World * Output :=
  let id := w_next w in
  match dispatch rt g (w_gw w) b with
  | Err e => (w, OutRaise (Uncaught e))
  | Ok (DReply r) => (w, OutReply (RJson r))
  | Ok (DJson b chat allowed post) =>
    json_next id post iso (json_start exc_text g b chat "small" allowed (w_gw w)) w
  | Ok (DRelay b chat allowed) =>
    stream_next id false (relay_start g b chat "small" allowed (w_gw w)) w
  | Ok (DOllama b chat allowed) =>
    stream_next id true (ollama_start g b chat "small" allowed (w_gw w)) w
  end.

Definition with_gw (gw : Gateway F) (w : World) : World :=
  mkWorld gw (w_flights w) (w_next w) (w_lost w).

(** The end of a generator; one that is not over cannot end by itself. *)
Definition end_stream (g : GwCfg F) (id : Z) (f : Flight) (e : StreamEnd) (closes : bool)
    (ck : Clock F) (w : World) : World * Output :=
  let close tk ok frames :=
    let gw := stream_end g tk e ok closes ck (w_gw w) in
    (if closes then finish id gw w else lose id tk gw w, OutLines frames) in
  match f with
  | FRelay tk => close tk (match e with EndDone => true | _ => false end) (relay_end_frames e)
  | FOllama tk og =>
    match e with
    | EndDone => if og_ok og then close tk true [] else (w, OutNone)
    | EndFailed m => close tk (og_ok og)
        [ndjson (ndjson_error ("upstream stream failed: " ++ m) : json)]
    | _ => close tk (og_ok og) []
    end
  | _ => (w, OutNone)
  end.

(** One step of a request in flight; an event that does not concern its phase
    changes nothing. *)
Definition resume (g : GwCfg F) (id : Z) (f : Flight) (ev : Event) (w : World) :
    World * Output :=
  let gw := w_gw w in
  match ev, f with
  | EvAnswer _ r iso ck, FJson tk retried post =>
    json_next id post iso (json_reply exc_text g tk retried r ck gw) w
  | EvOpened _ r drain, FOpening ollama url payload headers timeout tk rebuilt =>
    stream_next id ollama
      (if ollama then ollama_opened g url payload headers timeout tk rebuilt r drain gw
       else stream_opened g tk r gw) w
  | EvRefusal _ r ck, FRefused ollama tk status =>
    stream_next id ollama
      (if ollama then ollama_refused g tk status r ck gw
       else relay_refused g tk status r ck gw) w
  | EvChunk _ text iso ck, FRelay tk => (w, OutLines [text])
  | EvChunk _ text iso ck, FOllama tk og =>
    let '(og, lines) := ollama_chunk g tk iso ck text og in
    (put id (FOllama tk og) gw w, OutLines (map ndjson lines))
  | EvEof _ iso ck, FOllama tk og =>
    let '(og, lines) := ollama_eof g tk iso ck og in
    (put id (FOllama tk og) gw w, OutLines (map ndjson lines))
  | EvEnd _ e closes ck, f => end_stream g id f e closes ck w
  | EvAbandon _, FRelay tk | EvAbandon _, FOllama tk _ => (lose id tk gw w, OutNone)
  | _, _ => (w, OutNone)
  end.

Definition event_flight (ev : Event) : option Z :=
  match ev with
  | EvAnswer id _ _ _ | EvOpened id _ _ | EvRefusal id _ _ | EvChunk id _ _ _
  | EvEof id _ _ | EvEnd id _ _ _ | EvAbandon id => Some id
  | _ => None
  end.

Definition wstep (g : GwCfg F) (w : World) (ev : Event) : World * Output :=
  match event_flight ev with
  | Some id => match dget id (w_flights w) with
               | Some f => resume g id f ev w
               | None => (w, OutNone)
               end
  | None =>
    let gw := w_gw w in
    match ev with
    | EvRequest rt b iso => request g rt b iso w
    | EvAddBackend be => (with_gw (add_backend g be gw) w, OutNone)
    | EvChaosVram v =>
      let '(gw, r) := chaos_vram v gw in
      (with_gw gw w, match r with inl r => OutReply (RJson r) | inr e => OutRaise e end)
    | EvResetStats => let '(gw, r) := debug_reset_stats gw in
                      (with_gw gw w, OutReply (RJson r))
    | EvHealth get be => (with_gw (health_turn get be gw) w, OutNone)
    | EvMetrics now be r => (with_gw (metrics_turn now be r gw) w, OutNone)
    | _ => (w, OutNone)
    end
  end.

Definition world_init (g : GwCfg F) (l : list (Backend F)) : World :=
  mkWorld (gateway_init g l) [] 0 [].

Definition wrun (g : GwCfg F) (w : World) (evs : list Event) : World :=
  foldl (fun w ev => (wstep g w ev).1) w evs.
End Gateway.
Arguments Flight F : clear implicits.
Arguments World F : clear implicits.
Arguments Event F : clear implicits.
Arguments Output F : clear implicits.
