(* ===== verification/RoutingProps.v ===== *)
(** Properties of routing: which worker [pick] may return, which one it returns,
    and what a rejection leaves behind. *)

From S2P Require Import Prelude PyFloat PyDict PySort PyStr Config Learner LearnerFacts.
From S2P Require Import Rls Admission EngineMetrics Scheduler SchedulerFacts PickFacts Setup.

Section Routing.
Context {F : Type} {PF : PyFloat F} {PL : PyFloatLaws F}.
Implicit Types (c : SchedCfg F) (s : Sched F) (wid : string) (d : RoutingDecision F).

(** The strategy is none of the three baselines. *)
Definition ranks_by_cost c : Prop :=
  is_round_robin (s_strategy c) = false /\ is_least_loaded (s_strategy c) = false /\
  is_ewma (s_strategy c) = false.

Definition token_count (prompt : string) (tokens : option Z) : Z :=
  default (Z.max 1 (str_len prompt / 4)) tokens.

(** The score [pick] gives a worker for this request. *)
Definition score_for c s prompt tier tokens wid (pred : Learner F) :=
  score c s wid pred (token_count prompt tokens) tier
    (str_eqb (s_strategy c) "rls") (prefix_hash prompt).

Lemma pick_cost_eq c prompt tier tokens allowed s :
  ranks_by_cost c -> eligible s allowed <> [] ->
  pick c prompt tier tokens allowed s
  = pick_cost c (eligible s allowed) prompt tier (token_count prompt tokens) s.
Proof.
  intros (H1 & H2 & H3) Hne. unfold pick. rewrite H1, H2, H3.
  by destruct (eligible s allowed).
Qed.

Lemma pick_ok_cost c prompt tier tokens allowed s s' wid d :
  ranks_by_cost c -> pick c prompt tier tokens allowed s = (s', Ok (wid, d)) ->
  pick_cost c (eligible s allowed) prompt tier (token_count prompt tokens) s
  = (s', Ok (wid, d)).
Proof.
  intros Hc H. rewrite <- H. symmetry. apply pick_cost_eq; [done|].
  intros E. revert H. unfold pick. by rewrite E.
Qed.

(** C1. Under the predictive strategies the router returns an eligible worker
    whose joint cost, evaluated on the state before the call, is least among
    the eligible workers that are not blocked. *)
Theorem pick_minimises_cost c prompt tier tokens allowed s s' wid d :
  ranks_by_cost c ->
  pick c prompt tier tokens allowed s = (s', Ok (wid, d)) ->
  wid ∈ eligible s allowed /\
  (exists pred, dget wid (predictors s) = Some pred /\
    score_for c s prompt tier tokens wid pred = Ok (Some (d_total_ms d, d))) /\
  (forall wid' pred' sc d', wid' ∈ eligible s allowed ->
    dget wid' (predictors s) = Some pred' ->
    score_for c s prompt tier tokens wid' pred' = Ok (Some (sc, d')) ->
    fle (d_total_ms d) sc = true).
Proof.
  intros Hc H%pick_ok_cost; [|done].
  destruct (pick_cost_ok _ _ _ _ _ _ _ _ _ H) as (pred & _ & Hin & Hp & Hs & Hmin & _).
  split_and!; [done|by exists pred|]. intros w p sc d' Hw Hg Hsc.
  eapply Hmin, elem_scored; [exact Hw|exact Hg|exact Hsc].
Qed.

(** C2. Whatever the strategy, a worker that is returned is registered, healthy
    and allowed by the caller; the worker, one admission and one log entry are
    all that is charged, and no learned quantity moves. *)
Theorem pick_returns_feasible a prompt tier tokens allowed s s' wid d :
  reachable (sched_cfg a) s ->
  pick (sched_cfg a) prompt tier tokens allowed s = (s', Ok (wid, d)) ->
  (exists lr, dget wid (predictors s) = Some lr /\ healthy lr = true) /\
  allows allowed wid /\ d_worker_id d = wid /\ d_tokens d = token_count prompt tokens /\
  admitted_as (sched_cfg a) s s' wid d.
Proof.
  intros Hr H. destruct (pick_ok _ _ _ _ _ _ _ _ _ H) as (Hin & Hd & Had & Ht).
  apply elem_of_eligible in Hin as [Hl Ha]; [|apply (inv_dict _ _ (inv_reachable a s Hr))].
  done.
Qed.

(** C3. A request that is not routed raises an admission error whose retry hint
    is at least one second (never an internal [KeyError]), and leaves every
    part of the scheduler but the admission counters unchanged. *)
Theorem pick_rejects_cleanly a prompt tier tokens allowed s s' e :
  reachable (sched_cfg a) s ->
  pick (sched_cfg a) prompt tier tokens allowed s = (s', Err e) ->
  s' = set_admission (admission s') s /\
  admitted (admission s') = admitted (admission s) /\
  exists message retry, e = AdmissionError message retry /\ 1 <= retry.
Proof.
  intros Hr H. destruct (pick_err _ _ _ _ _ _ _ _ (inv_reachable a s Hr) H) as ([? ?] & ?).
  done.
Qed.

(** C8. Every sequence of calls keeps the scheduler well formed: worker ids are
    distinct, no load is negative, the in-flight rings, logs, windows and the
    affinity cache stay within their bounds, the RLS and EWMA tables cover
    exactly the registered workers, and the counters stay consistent. *)
Theorem reachable_states_well_formed a s :
  reachable (sched_cfg a) s -> sched_inv (sched_cfg a) s.
Proof. apply inv_reachable. Qed.

(** C18. A request marked [large] is never routed to a worker of another tier, a
    request of more than 1000 tokens never to a worker below the hard VRAM
    limit, and one of more than 500 never to an engine reporting more than 95%
    KV usage, unless the ablation switches the guard off. *)
Theorem hard_limits_respected c prompt tier tokens allowed s s' wid d pred :
  ranks_by_cost c ->
  pick c prompt tier tokens allowed s = (s', Ok (wid, d)) ->
  dget wid (predictors s) = Some pred ->
  (disable_tier (s_ablation c) = false -> tier = "large" ->
     p_tier (l_params pred) = "large") /\
  (disable_vram_hard (s_ablation c) = false -> 1000 < token_count prompt tokens ->
     flt f0 (free_vram_mb pred) = true ->
     flt (free_vram_mb pred) (s_vram_hard_mb c) = false) /\
  (disable_vram_hard (s_ablation c) = false -> 500 < token_count prompt tokens ->
     s_use_engine_metrics c = true -> ed_ok (engine_of s wid) = true ->
     flt (fdec 95 (-2)) (entry (ed_kv (engine_of s wid))) = false).
Proof.
  intros Hc H Hg. apply pick_ok_cost in H; [|done].
  destruct (pick_cost_ok _ _ _ _ _ _ _ _ _ H) as (p & _ & _ & Hp & Hs & _).
  rewrite Hg in Hp. injection Hp as <-.
  destruct (score_total_num _ _ _ _ _ _ _ _ _ _ Hs) as (_ & _ & _ & Hb).
  unfold hard_blocked in Hb. apply orb_false_iff in Hb as [Hv Ht]. split_and!.
  - intros E1 ->. rewrite E1 in Ht. simpl in Ht. apply negb_false_iff in Ht.
    by apply bool_decide_eq_true in Ht.
  - intros E1 Hn Hf. rewrite E1, Hf in Hv. simpl in Hv.
    apply orb_false_iff in Hv as [Hv _]. apply andb_false_iff in Hv as [Hv|Hv]; [done|].
    apply Z.ltb_ge in Hv. lia.
  - intros E1 Hn E2 E3. rewrite E1, E2, E3 in Hv. simpl in Hv.
    apply orb_false_iff in Hv as [_ Hv]. apply andb_false_iff in Hv as [Hv|Hv]; [done|].
    apply Z.ltb_ge in Hv. lia.
Qed.

(** Every one of the workers [ids] is registered and hard-blocked. *)
Definition all_blocked c s (tokens : Z) (tier : string) (ids : list string) : bool :=
  forallb (fun w => match dget w (predictors s) with
                    | Some pred => hard_blocked c pred (engine_of s w) tokens tier
                    | None => false
                    end) ids.

Lemma rank_all_blocked c s t tier r k ids acc :
  all_blocked c s t tier ids = true -> rank c s t tier r k ids acc = Ok acc.
Proof.
  revert acc; induction ids as [|w ids IH]; intros acc H; simpl in *; [done|].
  bool_hyps. destruct (dget w (predictors s)) as [pred|]; [|done].
  unfold score. match goal with H : hard_blocked _ _ _ _ _ = true |- _ => rewrite H end.
  simpl. by rewrite IH.
Qed.

(** When every eligible worker is hard-blocked (VRAM, KV or tier) the
    request is counted under [rejected_no_worker] with the message
    "no feasible backend", not under [rejected_vram]. *)
Theorem all_blocked_counts_no_worker c prompt tier tokens allowed s :
  ranks_by_cost c -> eligible s allowed <> [] ->
  all_blocked c s (token_count prompt tokens) tier (eligible s allowed) = true ->
  pick c prompt tier tokens allowed s
  = (bump_admission CRejectedNoWorker s,
     Err (AdmissionError "no feasible backend" (Z.max 1 (s_recovery_hint_s c)))).
Proof.
  intros Hc Hne Hb. rewrite pick_cost_eq, pick_cost_outcome by done.
  by rewrite rank_all_blocked.
Qed.

(** C28. A routed request leaves its prefix mapped to the chosen worker as the
    most recent entry of the affinity cache; the other entries keep their
    order, and only the oldest are dropped, and only beyond the capacity.  The
    hit flag says whether the prefix was already mapped to that worker. *)
Theorem affinity_lru a prompt tier tokens allowed s s' wid d :
  reachable (sched_cfg a) s -> ranks_by_cost (sched_cfg a) ->
  pick (sched_cfg a) prompt tier tokens allowed s = (s', Ok (wid, d)) ->
  let key := prefix_hash prompt in
  let recency := (dpop key (prefix_cache s) ++ [(key, wid)])%list in
  (exists n, prefix_cache s' = drop n recency /\
     affinity_evictions s' = (affinity_evictions s + Z.of_nat n)%Z /\ (n <= 1)%nat /\
     (Z.of_nat (length recency) <= s_affinity_cache_size (sched_cfg a) -> n = 0%nat)) /\
  last (prefix_cache s') = Some (key, wid) /\
  d_affinity_hit d = negb (disable_cache (s_ablation (sched_cfg a))) &&
                     bool_decide (dget key (prefix_cache s) = Some wid) /\
  affinity_decisions s' = (affinity_decisions s + 1)%Z /\
  affinity_hits s' = (affinity_hits s + one_if (d_affinity_hit d))%Z.
Proof.
  intros Hr Hc H%pick_ok_cost; [|done]. apply inv_reachable in Hr.
  set (c := sched_cfg a) in *. set (t := token_count prompt tokens) in *.
  destruct (pick_cost_touch _ _ _ _ _ _ _ _ _ H) as (Hpc & Hdec & Hhit & Hev & Hflag).
  simpl. revert Hpc Hflag Hev. generalize (prefix_hash prompt) as key. intros key.
  rewrite dmove_to_end_dset. set (rec := (dpop key (prefix_cache s) ++ [(key, wid)])%list).
  assert (Hrec : length rec = S (length (dpop key (prefix_cache s))))
    by (unfold rec; rewrite length_app; simpl; lia).
  pose proof (length_dpop_le key (prefix_cache s)) as Hlen.
  pose proof (inv_capacity _ _ Hr) as Hcap. intros Hpc Hflag Hev.
  assert (Hc16 : 16 <= s_affinity_cache_size c) by (subst c; simpl; lia).
  assert (Hn : (lru_excess c rec <= 1)%nat) by (unfold lru_excess; lia).
  split_and!; try done.
  - exists (lru_excess c rec). split_and!; try done. intros Hfit. unfold lru_excess.
    change (Z.of_nat (length rec) <= s_affinity_cache_size c) in Hfit. lia.
  - assert (Hle : (lru_excess c rec <= length (dpop key (prefix_cache s)))%nat)
      by (unfold lru_excess in *; lia).
    rewrite Hpc. unfold rec at 2. rewrite drop_app_le by done. by rewrite last_snoc.
Qed.

(** Round robin is fair: over as many consecutive picks as there are
    eligible workers, each of them is returned exactly once. *)
Theorem round_robin_fair c allowed reqs s :
  is_round_robin (s_strategy c) = true -> eligible s allowed <> [] ->
  length reqs = length (eligible s allowed) ->
  pick_all c allowed reqs s ≡ₚ map Some (eligible s allowed).
Proof.
  intros Hrr Hne Hlen. rewrite pick_all_round_robin by done.
  apply rotation_permutation; [|done]. by destruct (eligible s allowed).
Qed.

(** The least-loaded baseline returns an eligible worker with the fewest
    requests in flight. *)
Theorem least_loaded_minimal c prompt tier tokens allowed s s' wid d :
  is_round_robin (s_strategy c) = false -> is_least_loaded (s_strategy c) = true ->
  pick c prompt tier tokens allowed s = (s', Ok (wid, d)) ->
  wid ∈ eligible s allowed /\
  forall w, w ∈ eligible s allowed -> pending_of s wid <= pending_of s w.
Proof.
  intros H1 H2. unfold pick. rewrite H1, H2.
  destruct (eligible s allowed) as [|w0 ids] eqn:E; [done|]. rewrite <- E.
  unfold pick_least_loaded. destruct (min_by _ _) as [w|] eqn:Em; [|done].
  intros [= <- <- <-]. by apply min_by_spec in Em.
Qed.

(** The EWMA baseline visits every eligible worker that has no sample yet,
    the least loaded first, before it exploits the averages; once all have
    one, it returns a worker whose mean latency plus queue term is least. *)
Theorem ewma_explores_then_minimises c prompt tier tokens allowed s s' wid d :
  is_round_robin (s_strategy c) = false -> is_least_loaded (s_strategy c) = false ->
  is_ewma (s_strategy c) = true ->
  pick c prompt tier tokens allowed s = (s', Ok (wid, d)) ->
  let ids := eligible s allowed in
  let cost w := d_total_ms (ewma_decision c s (token_count prompt tokens) w) in
  wid ∈ ids /\
  if decide (unexplored s ids = []) then
    forall w, w ∈ ids -> fisnan (cost w) = false -> fle (cost wid) (cost w) = true
  else wid ∈ unexplored s ids /\
       forall w, w ∈ unexplored s ids -> pending_of s wid <= pending_of s w.
Proof.
  intros H1 H2 H3 H ids cost. destruct (pick_ok _ _ _ _ _ _ _ _ _ H) as (Hin & _).
  split; [exact Hin|]. revert H. unfold pick. rewrite H1, H2, H3. fold ids.
  destruct ids as [|w0 ids0] eqn:E; [done|]. rewrite <- E. unfold pick_ewma.
  change (match tokens with Some t => t | None => _ end) with (token_count prompt tokens).
  destruct (min_by _ (unexplored s ids)) as [w|] eqn:Em.
  - intros [= _ <- _]. pose proof Em as [Hm Hall]%min_by_spec.
    case_decide as Hu; [|done]. by rewrite Hu in Em.
  - apply min_by_None in Em. rewrite decide_True by done.
    destruct (ewma_best _ _ _ _) as [[sc dd]|] eqn:Eb; [|done]. intros [= _ <- _].
    by eapply ewma_best_min.
Qed.
End Routing.

(** ** Witnesses on the concrete fleet *)

Definition is_picked (r : PickResult float) : bool := is_ok r.

(** Case analysis on a pick whose outcome is evaluated. *)
Ltac run_pick E :=
  match goal with |- context [pick ?c ?p ?t ?n ?al ?s] =>
    let P := fresh in
    assert (P : is_picked (pick c p t n al s).2 = true) by (vm_compute; reflexivity);
    destruct (pick c p t n al s) as [? [[? ?]|?]] eqn:E; [clear P|discriminate P]
  end.

Ltac run_reject E :=
  match goal with |- context [pick ?c ?p ?t ?n ?al ?s] =>
    let P := fresh in
    assert (P : is_picked (pick c p t n al s).2 = false) by (vm_compute; reflexivity);
    destruct (pick c p t n al s) as [? [[? ?]|?]] eqn:E; [discriminate P|clear P]
  end.

Lemma nlms_ranks : ranks_by_cost (sched_cfg nlms_args).
Proof. split_and!; vm_compute; reflexivity. Qed.

Lemma pick_minimises_cost_witness :
  match pick (sched_cfg nlms_args) "hi" "small" (Some 100) None (fleet nlms_args) with
  | (_, Ok (wid, d)) =>
    forall wid' pred' sc d', wid' ∈ eligible (fleet nlms_args) None ->
      dget wid' (predictors (fleet nlms_args)) = Some pred' ->
      score_for (sched_cfg nlms_args) (fleet nlms_args) "hi" "small" (Some 100) wid' pred'
        = Ok (Some (sc, d')) -> fle (d_total_ms d) sc = true
  | _ => False
  end.
Proof. run_pick E. exact (proj2 (proj2 (pick_minimises_cost _ _ _ _ _ _ _ _ _ nlms_ranks E))). Defined.

Lemma pick_returns_feasible_witness :
  match pick (sched_cfg nlms_args) "hi" "small" (Some 100) (Some ["a"; "c"]) (fleet nlms_args) with
  | (s', Ok (wid, d)) => allows (Some ["a"; "c"]) wid /\
      admitted_as (sched_cfg nlms_args) (fleet nlms_args) s' wid d
  | _ => False
  end.
Proof.
  run_pick E.
  destruct (pick_returns_feasible _ _ _ _ _ _ _ _ _ (fleet_reachable nlms_args) E)
    as (_ & H1 & _ & _ & H2). exact (conj H1 H2).
Defined.

Lemma pick_rejects_cleanly_witness :
  match pick (sched_cfg nlms_args) "hi" "small" (Some 100) (Some ["zz"]) (fleet nlms_args) with
  | (s', Err e) => s' = set_admission (admission s') (fleet nlms_args) /\
      exists message retry, e = AdmissionError message retry /\ 1 <= retry
  | _ => False
  end.
Proof.
  run_reject E.
  destruct (pick_rejects_cleanly _ _ _ _ _ _ _ _ (fleet_reachable nlms_args) E) as (H1 & _ & H2).
  exact (conj H1 H2).
Defined.

Lemma reachable_states_well_formed_witness : sched_inv (sched_cfg nlms_args) (fleet nlms_args).
Proof. exact (reachable_states_well_formed _ _ (fleet_reachable nlms_args)). Defined.

Lemma hard_limits_respected_witness :
  match pick (sched_cfg nlms_args) "hi" "large" (Some 2000) None (fleet nlms_args) with
  | (_, Ok (wid, _)) =>
    match dget wid (predictors (fleet nlms_args)) with
    | Some pred => p_tier (l_params pred) = "large"
    | None => False
    end
  | _ => False
  end.
Proof.
  run_pick E. destruct (dget _ _) as [pred|] eqn:G.
  - exact (proj1 (hard_limits_respected _ _ _ _ _ _ _ _ _ _ nlms_ranks E G) eq_refl eq_refl).
  - destruct (pick_minimises_cost _ _ _ _ _ _ _ _ _ nlms_ranks E) as (_ & (p & G' & _) & _).
    congruence.
Defined.

Lemma all_blocked_counts_no_worker_witness :
  (pick (sched_cfg nlms_args) "hi" "large" (Some 10) (Some ["a"; "b"]) (fleet nlms_args)).2
  = Err (AdmissionError "no feasible backend" 5).
Proof.
  rewrite all_blocked_counts_no_worker.
  - vm_compute. reflexivity.
  - exact nlms_ranks.
  - vm_compute. discriminate.
  - vm_compute. reflexivity.
Defined.

Lemma affinity_lru_witness :
  match pick (sched_cfg nlms_args) "hi" "small" (Some 100) None (fleet nlms_args) with
  | (s', Ok (wid, _)) => last (prefix_cache s') = Some (prefix_hash "hi", wid)
  | _ => False
  end.
Proof.
  run_pick E.
  pose proof (affinity_lru _ _ _ _ _ _ _ _ _ (fleet_reachable nlms_args) nlms_ranks E) as H.
  cbv zeta in H. destruct H as (_ & H & _). exact H.
Defined.

Lemma round_robin_fair_witness :
  pick_all (sched_cfg (demo_args "round-robin" "empirical")) None
    (repeat ("hi", "small", Some 10) 3) (fleet (demo_args "round-robin" "empirical")) ≡ₚ [Some "a"; Some "b"; Some "c"].
Proof.
  exact (round_robin_fair (sched_cfg (demo_args "round-robin" "empirical")) None
    (repeat ("hi", "small", Some 10) 3) (fleet (demo_args "round-robin" "empirical"))
    ltac:(vm_compute; reflexivity) ltac:(vm_compute; discriminate) ltac:(vm_compute; reflexivity)).
Defined.

Lemma least_loaded_minimal_witness :
  match pick (sched_cfg (demo_args "least_loaded" "empirical")) "hi" "small" None None
          (fleet (demo_args "least_loaded" "empirical")) with
  | (_, Ok (wid, _)) =>
    pending_of (fleet (demo_args "least_loaded" "empirical")) wid
    <= pending_of (fleet (demo_args "least_loaded" "empirical")) "b"
  | _ => False
  end.
Proof.
  run_pick E.
  apply (proj2 (least_loaded_minimal (sched_cfg (demo_args "least_loaded" "empirical")) _ _ _ _ _ _ _ _ ltac:(vm_compute; reflexivity)
    ltac:(vm_compute; reflexivity) E) "b").
  assert (H : eligible (fleet (demo_args "least_loaded" "empirical")) None = ["a"; "b"; "c"]) by (vm_compute; reflexivity).
  rewrite H. apply list_elem_of_further, list_elem_of_here.
Defined.

Lemma ewma_explores_then_minimises_witness :
  match pick (sched_cfg (demo_args "ewma" "empirical")) "hi" "small" None None (fleet (demo_args "ewma" "empirical")) with
  | (_, Ok (wid, _)) => wid ∈ unexplored (fleet (demo_args "ewma" "empirical")) (eligible (fleet (demo_args "ewma" "empirical")) None)
  | _ => False
  end.
Proof.
  run_pick E.
  pose proof (ewma_explores_then_minimises (sched_cfg (demo_args "ewma" "empirical")) _ _ _ _ _ _ _ _ ltac:(vm_compute; reflexivity)
    ltac:(vm_compute; reflexivity) ltac:(vm_compute; reflexivity) E) as [_ H].
  destruct (decide _) as [Hu|_]; [|by destruct H].
  apply (f_equal length) in Hu. vm_compute in Hu. discriminate.
Defined.
