(* ===== verification/Accounting.v ===== *)
(** In-flight accounting and the circuit breaker: the scheduler seen by a client
    that closes every admitted request exactly once. *)

From S2P Require Import Prelude PyFloat PyDict PySort PyStr Config Learner LearnerFacts.
From S2P Require Import Rls Admission EngineMetrics Scheduler SchedulerFacts PickFacts Setup.

(** ** The client protocol *)

Section Protocol.
Context {F : Type} {PF : PyFloat F}.

(** Calls that neither open nor close a request; a registration is of a new id or of
    an idle worker, which it replaces, and a worker is only removed once it is idle. *)
Inductive admin_call (s : Sched F) (open : list string) : Op F -> Prop :=
| adm_register wid tier total free :
    dmem wid (predictors s) = false -> admin_call s open (OpRegister wid tier total free)
| adm_replace wid tier total free :
    wid ∉ open -> admin_call s open (OpRegister wid tier total free)
| adm_unregister wid : wid ∉ open -> admin_call s open (OpUnregister wid)
| adm_vram wid free : admin_call s open (OpSetVram wid free)
| adm_engine wid d : admin_call s open (OpSetEngine wid d)
| adm_health wid h : admin_call s open (OpSetHealthy wid h)
| adm_failure wid thr : admin_call s open (OpNoteFailure wid thr)
| adm_success wid : admin_call s open (OpNoteSuccess wid)
| adm_reset : admin_call s open OpResetStats.

(** A state of the scheduler with the workers of the requests still open.
    [releases] says whether the client may close a request by [release]. *)
Inductive client (releases : bool) (c : SchedCfg F) : Sched F -> list string -> Prop :=
| cl_init : client releases c sched_init []
| cl_admin s open o :
    client releases c s open -> admin_call s open o -> client releases c (step c s o) open
| cl_pick s open prompt tier tokens allowed s' wid d :
    client releases c s open ->
    pick c prompt tier tokens allowed s = (s', Ok (wid, d)) ->
    client releases c s' (wid :: open)
| cl_reject s open prompt tier tokens allowed s' e :
    client releases c s open ->
    pick c prompt tier tokens allowed s = (s', Err e) -> client releases c s' open
| cl_feedback s l1 l2 wid e2e tokens ok now :
    client releases c s (l1 ++ wid :: l2)%list ->
    client releases c (feedback c wid e2e tokens ok now s) (l1 ++ l2)%list
| cl_release s l1 l2 wid :
    releases = true -> client releases c s (l1 ++ wid :: l2)%list ->
    client releases c (release wid s) (l1 ++ l2)%list.

(** The same protocol as a check: the requests open after one call, if the
    client may make it. *)
Fixpoint close_one (wid : string) (open : list string) : option (list string) :=
  match open with
  | [] => None
  | w :: open' => if decide (w = wid) then Some open'
                  else (cons w) <$> close_one wid open'
  end.

Definition client_call (releases : bool) (c : SchedCfg F) (s : Sched F)
    (open : list string) (o : Op F) : option (list string) :=
  match o with
  | OpRegister wid _ _ _ => if dmem wid (predictors s) then None else Some open
  | OpUnregister wid => if decide (wid ∈ open) then None else Some open
  | OpPick prompt tier tokens allowed =>
    match (pick c prompt tier tokens allowed s).2 with
    | Ok (wid, _) => Some (wid :: open)
    | Err _ => Some open
    end
  | OpFeedback wid _ _ _ _ => close_one wid open
  | OpRelease wid => if releases then close_one wid open else None
  | _ => Some open
  end.

Fixpoint client_run (releases : bool) (c : SchedCfg F) (s : Sched F)
    (open : list string) (ops : list (Op F)) : option (list string) :=
  match ops with
  | [] => Some open
  | o :: ops' =>
    match client_call releases c s open o with
    | Some open' => client_run releases c (step c s o) open' ops'
    | None => None
    end
  end.

(** How many of the open requests are on [wid]. *)
Definition open_on (wid : string) (open : list string) : Z :=
  Z.of_nat (length (filter (fun w => w = wid) open)).

(** *** The circuit breaker *)

(** One request outcome: a 5xx or aborted stream, or a success. *)
Definition outcome (thr : Z) (wid : string) (s : Sched F) (ok : bool) : Sched F :=
  if ok then note_success wid s else (note_failure wid thr s).1.

Definition outcomes (thr : Z) (wid : string) (s : Sched F) (l : list bool) : Sched F :=
  foldl (outcome thr wid) s l.

Definition healthy_at (wid : string) (s : Sched F) : option bool :=
  healthy <$> dget wid (predictors s).

(** How many failures the list ends with. *)
Fixpoint tail_failures (rev_l : list bool) : nat :=
  match rev_l with false :: l => S (tail_failures l) | _ => O end.
End Protocol.

Section AccountingFacts.
Context {F : Type} {PF : PyFloat F} {PL : PyFloatLaws F}.
Implicit Types (c : SchedCfg F) (s : Sched F) (wid : string).

Lemma close_one_split wid open open' :
  close_one wid open = Some open' ->
  exists l1 l2, open = (l1 ++ wid :: l2)%list /\ open' = (l1 ++ l2)%list.
Proof.
  revert open'; induction open as [|w open IH]; intros open'; simpl; [done|].
  case_decide; [subst; intros [= <-]; by exists [], open|].
  destruct (close_one wid open) as [o|]; [|done]. intros [= <-].
  destruct (IH o eq_refl) as (l1 & l2 & -> & ->). by exists (w :: l1), l2.
Qed.

Lemma client_call_sound r c s open o open' :
  client r c s open -> client_call r c s open o = Some open' ->
  client r c (step c s o) open'.
Proof.
  intros Hc. destruct o; unfold client_call; intros H;
    try (injection H as <-; apply cl_admin; [done|constructor]; fail).
  - destruct (dmem _ _) eqn:E; [done|]. injection H as <-. apply cl_admin; [done|by constructor].
  - case_decide; [done|]. injection H as <-. apply cl_admin; [done|by constructor].
  - simpl. destruct (pick c prompt tier tokens allowed s) as [s' [[w d]|e]] eqn:E;
      injection H as <-; [by eapply cl_pick|by eapply cl_reject].
  - destruct r; [|done]. apply close_one_split in H as (l1 & l2 & -> & ->).
    by apply cl_release.
  - apply close_one_split in H as (l1 & l2 & -> & ->). by apply cl_feedback.
Qed.

Lemma client_run_sound r c s open ops open' :
  client r c s open -> client_run r c s open ops = Some open' ->
  client r c (run c s ops) open'.
Proof.
  revert s open; induction ops as [|o ops IH]; intros s open Hc; simpl; [by intros [= <-]|].
  destruct (client_call r c s open o) as [o'|] eqn:E; [|done].
  apply IH. by eapply client_call_sound.
Qed.

Lemma open_on_cons wid w open :
  open_on wid (w :: open) = (open_on wid open + if decide (w = wid) then 1 else 0)%Z.
Proof. unfold open_on. rewrite filter_cons. case_decide; simpl; lia. Qed.

Lemma open_on_middle wid l1 w l2 :
  open_on wid (l1 ++ w :: l2)%list
  = (open_on wid (l1 ++ l2)%list + if decide (w = wid) then 1 else 0)%Z.
Proof.
  unfold open_on. rewrite !filter_app, filter_cons, !length_app.
  case_decide; simpl; lia.
Qed.

Lemma open_on_nonneg wid open : 0 <= open_on wid open.
Proof. unfold open_on. lia. Qed.

Lemma open_on_zero wid open : wid ∉ open -> open_on wid open = 0%Z.
Proof.
  intros H. unfold open_on. induction open as [|w open IH]; [done|].
  rewrite filter_cons. rewrite decide_False by set_solver. apply IH. set_solver.
Qed.

(** [pending_of] after an update of one worker. *)
Lemma pending_of_alter f w wid s :
  pending_of (alter_pred f w s) wid
  = if decide (wid = w) then
      match dget w (predictors s) with Some lr => pending (f lr) | None => 0 end
    else pending_of s wid.
Proof.
  unfold pending_of, alter_pred. simpl. rewrite dget_dalter. case_decide; [subst|done].
  by destruct (dget w (predictors s)).
Qed.

Lemma pending_of_alter_same f w wid s :
  (forall lr, pending (f lr) = pending lr) -> pending_of (alter_pred f w s) wid = pending_of s wid.
Proof.
  intros Hf. rewrite pending_of_alter. case_decide; [subst|done].
  unfold pending_of. by destruct (dget w _).
Qed.

Lemma pending_of_predictors s s' wid :
  predictors s' = predictors s -> pending_of s' wid = pending_of s wid.
Proof. unfold pending_of. by intros ->. Qed.

Lemma pending_of_dset w lr wid s p :
  predictors p = dset w lr (predictors s) ->
  pending_of p wid = if decide (wid = w) then pending lr else pending_of s wid.
Proof. unfold pending_of. intros ->. rewrite dget_dset. by case_decide. Qed.

(** An admin call moves no load. *)
Lemma admin_pending c s open o wid :
  admin_call s open o -> (forall w, pending_of s w = open_on w open) ->
  pending_of (step c s o) wid = open_on wid open.
Proof.
  intros Ha Hp. rewrite <- Hp. destruct Ha; simpl.
  - rewrite (pending_of_dset wid0 (new_learner c tier total free) wid s) by done.
    case_decide; [subst|done]. unfold pending_of, dmem in *.
    destruct (dget wid0 _); [done|]. by destruct free.
  - rewrite (pending_of_dset wid0 (new_learner c tier total free) wid s) by done.
    case_decide; [subst|done]. rewrite Hp, open_on_zero by done. by destruct free.
  - rewrite Hp. unfold pending_of. simpl. rewrite dget_dpop.
    case_decide; [subst; by rewrite open_on_zero|]. apply Hp.
  - by apply pending_of_alter_same.
  - apply (pending_of_alter_same _ wid0 wid s). intros lr. simpl. by case_match.
  - unfold set_healthy. destruct (dmem _ _); [|done].
    destruct h; by apply (pending_of_alter_same _ wid0 wid s).
  - unfold note_failure. simpl. destruct (_ && _); [|done].
    by apply (pending_of_alter_same _ wid0 wid s).
  - done.
  - done.
Qed.

(** A call that serves no request leaves a count alone or takes it to zero. *)
Lemma idle_call_pending c s o wid :
  match o with OpPick _ _ _ _ | OpFeedback _ _ _ _ _ | OpRelease _ => False | _ => True end ->
  pending_of (step c s o) wid = pending_of s wid \/ pending_of (step c s o) wid = 0.
Proof.
  destruct o as [w tier total free|w|w free|w d|w h|w thr|w| | | |]; intros Ho; try done; simpl.
  - rewrite (pending_of_dset w (new_learner c tier total free) wid s) by done.
    case_decide; [right; by destruct free|by left].
  - unfold pending_of. simpl. rewrite dget_dpop. case_decide; auto.
  - left. by apply pending_of_alter_same.
  - left. apply (pending_of_alter_same _ w wid s). intros lr. simpl. by case_match.
  - left. unfold set_healthy. destruct (dmem _ _); [|done].
    destruct h; by apply (pending_of_alter_same _ w wid s).
  - left. unfold note_failure. simpl. destruct (_ && _); [|done].
    by apply (pending_of_alter_same _ w wid s).
  - by left.
  - by left.
Qed.

Lemma pending_of_feedback c w e t ok now wid s :
  pending_of (feedback c w e t ok now s) wid = pending_of (release w s) wid.
Proof.
  unfold release. rewrite pending_of_alter. unfold pending_of.
  rewrite feedback_workers. destruct (dget w (predictors s)) as [lr|] eqn:E.
  - rewrite dget_dset. case_decide; [|done]. unfold dec_pending.
    destruct (served_load e t ok lr) as (-> & _). by destruct (0 <? pending lr)%Z; simpl;
      rewrite ?(proj1 (served_load e t ok lr)).
  - case_decide; [subst|done]. by rewrite E.
Qed.

Lemma pending_of_release w l1 l2 wid s :
  (forall x, pending_of s x = open_on x (l1 ++ w :: l2)%list) ->
  pending_of (release w s) wid = open_on wid (l1 ++ l2)%list.
Proof.
  intros Hp. unfold release. rewrite pending_of_alter.
  pose proof (Hp wid) as Hw. rewrite open_on_middle in Hw.
  destruct (decide (wid = w)) as [->|Hne].
  - rewrite decide_True in Hw by done.
    pose proof (open_on_nonneg w (l1 ++ l2)). unfold pending_of in Hw.
    destruct (dget w _) as [lr|]; [|lia]. unfold dec_pending.
    destruct (Z.ltb_spec 0 (pending lr)); simpl; lia.
  - rewrite decide_False in Hw by done. lia.
Qed.

Lemma client_reachable r c (s : Sched F) open : client r c s open -> reachable c s.
Proof.
  intros H. induction H as [|s open o H IH Ha|s open p t n al s' w d H IH Hp
    |s open p t n al s' e H IH Hp|s l1 l2 w e t ok now H IH|s l1 l2 w Hr H IH].
  - apply reach_init.
  - by apply reach_step.
  - replace s' with (step c s (OpPick p t n al)) by (simpl; by rewrite Hp). by apply reach_step.
  - replace s' with (step c s (OpPick p t n al)) by (simpl; by rewrite Hp). by apply reach_step.
  - by apply (reach_step c s (OpFeedback w e t ok now)).
  - by apply (reach_step c s (OpRelease w)).
Qed.

(** *** Counts that may have been reset

    When a worker is replaced while requests are open on it, its count starts again at
    zero, and only the upper bound is left. *)
Definition bounded c s (open : list string) : Prop :=
  sched_inv c s /\ forall wid, 0 <= pending_of s wid <= open_on wid open.

Lemma open_on_perm wid (l k : list string) : l ≡ₚ k -> open_on wid l = open_on wid k.
Proof. intros H. unfold open_on. by rewrite H. Qed.

Lemma bounded_perm c s (l k : list string) : l ≡ₚ k -> bounded c s l -> bounded c s k.
Proof. intros H [Hi Hb]. split; [done|]. intros wid. by rewrite <- (open_on_perm wid l k H). Qed.

Lemma bounded_idle_call a s open o :
  match o with OpPick _ _ _ _ | OpFeedback _ _ _ _ _ | OpRelease _ => False | _ => True end ->
  bounded (sched_cfg a) s open -> bounded (sched_cfg a) (step (sched_cfg a) s o) open.
Proof.
  intros Ho [Hi Hb]. split; [apply inv_step; [simpl; lia|done]|]. intros wid.
  pose proof (open_on_nonneg wid open).
  destruct (idle_call_pending (sched_cfg a) s o wid Ho) as [-> | ->]; [apply Hb|lia].
Qed.

Lemma bounded_pick a s open p t n al s' r :
  pick (sched_cfg a) p t n al s = (s', r) -> bounded (sched_cfg a) s open ->
  bounded (sched_cfg a) s' (match r with Ok (wid, _) => wid :: open | Err _ => open end).
Proof.
  intros Hpk [Hi Hb].
  assert (Hi' : sched_inv (sched_cfg a) s').
  { replace s' with (step (sched_cfg a) s (OpPick p t n al)) by (simpl; by rewrite Hpk).
    apply inv_step; [simpl; lia|done]. }
  split; [done|]. intros x. specialize (Hb x). destruct r as [[w d]|e].
  - destruct (pick_ok _ _ _ _ _ _ _ _ _ Hpk) as (_ & _ & Had & _). rewrite open_on_cons.
    rewrite (pending_of_predictors (alter_pred mark_admitted w s) s') by apply Had.
    rewrite pending_of_alter. unfold pending_of in *. destruct (decide (x = w)) as [->|].
    + rewrite decide_True by done. destruct (dget w _); simpl; lia.
    + rewrite decide_False by done. lia.
  - destruct (pick_err _ _ _ _ _ _ _ _ Hi Hpk) as ([E _] & _). by rewrite E.
Qed.

Lemma pending_release_bounded w s open wid :
  (forall x, 0 <= pending_of s x <= open_on x (w :: open)) ->
  0 <= pending_of (release w s) wid <= open_on wid open.
Proof.
  intros Hb. specialize (Hb wid). pose proof (open_on_nonneg wid open). rewrite open_on_cons in Hb.
  unfold release. rewrite pending_of_alter. destruct (decide (wid = w)) as [->|].
  - rewrite decide_True in Hb by done. unfold pending_of in Hb.
    destruct (dget w _) as [lr|]; [|lia]. unfold dec_pending.
    destruct (Z.ltb_spec 0 (pending lr)); simpl; lia.
  - rewrite decide_False in Hb by done. lia.
Qed.

Lemma bounded_release a w s open :
  bounded (sched_cfg a) s (w :: open) -> bounded (sched_cfg a) (release w s) open.
Proof.
  intros [Hi Hb]. split; [by apply inv_release|]. intros x. by apply pending_release_bounded.
Qed.

Lemma bounded_feedback a w e t ok now s open :
  bounded (sched_cfg a) s (w :: open) ->
  bounded (sched_cfg a) (feedback (sched_cfg a) w e t ok now s) open.
Proof.
  intros [Hi Hb]. split; [by apply inv_feedback|]. intros x. rewrite pending_of_feedback.
  by apply pending_release_bounded.
Qed.

(** The count of every worker is the number of its open requests. *)
Lemma client_pending releases a s open wid :
  client releases (sched_cfg a) s open -> pending_of s wid = open_on wid open.
Proof.
  intros H. assert (Hall : sched_inv (sched_cfg a) s /\
                           forall w, pending_of s w = open_on w open); [|apply Hall].
  assert (Hcap : 0 <= s_affinity_cache_size (sched_cfg a)) by (simpl; lia).
  induction H as [|s open o H [Hi Hp] Ha|s open p t n al s' w d H [Hi Hp] Hpk
    |s open p t n al s' e H [Hi Hp] Hpk|s l1 l2 w e t ok now H [Hi Hp]|s l1 l2 w Hr H [Hi Hp]].
  - split; [by apply inv_init|done].
  - split; [by apply inv_step|]. intros x. by apply admin_pending.
  - split; [replace s' with (step (sched_cfg a) s (OpPick p t n al));
            [by apply inv_step|simpl; by rewrite Hpk]|].
    intros x. destruct (pick_ok _ _ _ _ _ _ _ _ _ Hpk) as (Hin & _ & Had & _).
    rewrite open_on_cons, <- Hp.
    rewrite (pending_of_predictors (alter_pred mark_admitted w s) s') by apply Had.
    rewrite pending_of_alter. destruct (decide (x = w)) as [->|Hx].
    + rewrite decide_True by done. apply eligible_registered, dget_is_Some in Hin as [lr Hg].
      unfold pending_of. by rewrite Hg.
    + rewrite decide_False by done. lia.
  - destruct (pick_err _ _ _ _ _ _ _ _ Hi Hpk) as ([E _] & _).
    split; [replace s' with (step (sched_cfg a) s (OpPick p t n al));
            [by apply inv_step|simpl; by rewrite Hpk]|].
    intros x. rewrite <- Hp. rewrite E. done.
  - split; [by apply inv_feedback|]. intros x. rewrite pending_of_feedback.
    by apply pending_of_release.
  - split; [by apply inv_release|]. intros x. by apply pending_of_release.
Qed.

(** C5. For a client that closes every admitted request exactly once, by
    [feedback] or by [release], and registers only new or idle workers, the
    scheduler's [pending] count of each worker is exactly the number of requests still
    open on it. *)
Theorem pending_counts_open_requests releases a s open wid :
  client releases (sched_cfg a) s open -> pending_of s wid = open_on wid open.
Proof. apply client_pending. Qed.

(** ** The ring of in-flight depths *)

(** The ring never holds more depths than there are requests in flight. *)
Definition ring_in_step (lr : Learner F) : Prop :=
  Z.of_nat (length (inflight_log lr)) <= pending lr.

Definition not_release (o : Op F) : bool :=
  match o with OpRelease _ => false | _ => true end.

Lemma ring_mark lr : ring_in_step lr -> ring_in_step (mark_admitted lr).
Proof.
  unfold ring_in_step, mark_admitted. simpl. rewrite length_deque_append. lia.
Qed.

Lemma ring_alter f wid s :
  (forall lr, ring_in_step lr -> ring_in_step (f lr)) ->
  all_preds ring_in_step (predictors s) ->
  all_preds ring_in_step (predictors (alter_pred f wid s)).
Proof. intros Hf H. by apply all_preds_dalter. Qed.

Lemma ring_pick c p t n al s :
  sched_inv c s -> all_preds ring_in_step (predictors s) ->
  all_preds ring_in_step (predictors (pick c p t n al s).1).
Proof.
  intros Hi H. destruct (pick c p t n al s) as [s' [[w d]|e]] eqn:E; simpl.
  - destruct (pick_ok _ _ _ _ _ _ _ _ _ E) as (_ & _ & [Hw _ _ _ _] & _).
    rewrite Hw. by apply (ring_alter mark_admitted w s ring_mark).
  - destruct (pick_err _ _ _ _ _ _ _ _ Hi E) as ([Hs _] & _). by rewrite Hs.
Qed.

Lemma ring_served e t ok lr :
  0 <= pending lr -> ring_in_step lr -> ring_in_step (dec_pending (served e t ok lr)).
Proof.
  intros Hp Hr. destruct (served_load e t ok lr) as (U1 & U2 & _).
  unfold ring_in_step, dec_pending in *. rewrite U1.
  destruct (inflight_log lr); simpl in *;
    destruct (Z.ltb_spec 0 (pending lr)); simpl; rewrite U2; simpl; lia.
Qed.

Lemma ring_feedback c w e t ok now s :
  sched_inv c s -> all_preds ring_in_step (predictors s) ->
  all_preds ring_in_step (predictors (feedback c w e t ok now s)).
Proof.
  intros Hi H. rewrite feedback_workers. destruct (dget w _) as [lr|] eqn:Ew; [|done].
  apply all_preds_dset; [|done]. apply ring_served; [|by eapply H].
  by apply (inv_workers _ _ Hi _ _ Ew).
Qed.

(** As long as no request is closed by [release], a worker's ring of
    in-flight depths never runs ahead of its load: a depth read at completion
    belongs to a request of the current busy period. *)
Theorem ring_never_ahead a ops wid lr :
  forallb not_release ops = true ->
  dget wid (predictors (run (sched_cfg a) sched_init ops)) = Some lr ->
  Z.of_nat (length (inflight_log lr)) <= pending lr.
Proof.
  intros Hops. revert wid lr.
  change (all_preds ring_in_step (predictors (run (sched_cfg a) sched_init ops))).
  assert (H : forall s, sched_inv (sched_cfg a) s -> all_preds ring_in_step (predictors s) ->
            all_preds ring_in_step (predictors (run (sched_cfg a) s ops))).
  { induction ops as [|o ops IH]; intros s Hi H; [done|]. simpl in Hops. bool_hyps.
    apply IH; [done|apply inv_step; [simpl; lia|done]|].
    destruct o; simpl; try done.
    - apply all_preds_dset; [|done]. unfold new_learner, ring_in_step. by destruct free.
    - by apply all_preds_dpop.
    - by apply ring_alter.
    - apply all_preds_dalter; [|done]. intros lr Hr. by case_match.
    - unfold set_healthy. destruct (dmem _ _); [|done]. destruct h; by apply ring_alter.
    - destruct (_ && _); [by apply ring_alter|done].
    - by apply ring_pick.
    - by apply ring_feedback. }
  apply H; [apply inv_init; simpl; lia|apply all_preds_nil].
Qed.

(** [release] does not pop the ring: after two admissions on an idle worker
    and the release of the first, the completion of the second is read with
    depth 1, as if it had been alone, although it was admitted at depth 2. *)
Theorem release_desynchronises_ring s wid lr :
  dget wid (predictors s) = Some lr -> pending lr = 0%Z -> inflight_log lr = [] ->
  let s2 := alter_pred mark_admitted wid (alter_pred mark_admitted wid s) in
  (inflight_log <$> dget wid (predictors s2)) = Some [1; 2] /\
  (pop_inflight wid (release wid s2)).2 = 1%Z /\
  (pop_inflight wid (pop_inflight wid s2).1).2 = 2%Z.
Proof.
  intros Hg Hp Hl s2.
  assert (H2 : dget wid (predictors s2) = Some (mark_admitted (mark_admitted lr)))
    by (unfold s2; simpl; by rewrite !dget_dalter, !decide_True, Hg by done).
  assert (Hm : inflight_log (mark_admitted (mark_admitted lr)) = [1; 2])
    by (unfold mark_admitted; simpl; by rewrite Hp, Hl).
  split_and!.
  - rewrite H2. simpl. f_equal. exact Hm.
  - rewrite pop_inflight_eq. change (predictors (release wid s2)) with (dalter dec_pending wid (predictors s2)).
    rewrite dget_dalter, decide_True, H2 by done. simpl. unfold dec_pending. destruct (0 <? _)%Z; simpl; rewrite Hp, Hl; done.
  - rewrite (pop_inflight_eq wid s2), H2. simpl. rewrite pop_inflight_eq. simpl.
    rewrite dget_dset_eq. simpl. by rewrite Hp, Hl.
Qed.

(** ** The circuit breaker *)

Lemma tail_failures_prefix n l :
  (n <= tail_failures l)%nat <-> replicate n false `prefix_of` l.
Proof.
  revert l; induction n as [|n IH]; intros l; simpl.
  - split; [intros _; apply prefix_nil|lia].
  - destruct l as [|[] l]; simpl.
    + split; [lia|]. by intros ?%prefix_nil_inv.
    + split; [lia|]. by intros ?%prefix_cons_inv_1.
    + rewrite <- Nat.succ_le_mono, IH. split; [apply prefix_cons|apply prefix_cons_inv_2].
Qed.

Lemma tail_failures_suffix n l :
  (n <= tail_failures (reverse l))%nat <-> replicate n false `suffix_of` l.
Proof.
  rewrite tail_failures_prefix, suffix_prefix_reverse, reverse_replicate. done.
Qed.

Lemma healthy_at_alter f wid s :
  healthy_at wid (alter_pred f wid s) = (fun lr => healthy (f lr)) <$> dget wid (predictors s).
Proof.
  unfold healthy_at. simpl. rewrite dget_dalter, decide_True by done.
  by destruct (dget wid _).
Qed.

(** The state after a list of outcomes. *)
Lemma outcomes_state thr wid s l lr :
  1 <= thr -> dget wid (predictors s) = Some lr -> healthy lr = true ->
  default 0 (fail_streak s !! wid) = 0 ->
  let s' := outcomes thr wid s l in
  default 0 (fail_streak s' !! wid) = Z.of_nat (tail_failures (reverse l)) /\
  exists b, healthy_at wid s' = Some b /\
    (b = false <-> exists k, replicate (Z.to_nat thr) false `suffix_of` take k l).
Proof.
  intros Hthr Hg Hh Hs. simpl. induction l as [|b l [IHs (h & IHh & IHk)]] using rev_ind.
  - split; [done|]. exists true. split; [unfold healthy_at, outcomes; simpl; rewrite Hg; simpl; by rewrite Hh|].
    split; [done|]. intros [k Hk%suffix_length]. rewrite take_nil, length_replicate in Hk.
    simpl in Hk. lia.
  - unfold outcomes in *. rewrite foldl_snoc, reverse_snoc.
    set (s1 := foldl _ s l) in *.
    assert (Hsplit : (exists k, replicate (Z.to_nat thr) false `suffix_of` take k (l ++ [b])%list) <->
      h = false \/ replicate (Z.to_nat thr) false `suffix_of` (l ++ [b])%list).
    { rewrite IHk. split.
      - intros [k Hk]. destruct (decide (k <= length l)%nat).
        + left. exists k. by rewrite take_app_le in Hk.
        + right. by rewrite take_ge in Hk by (rewrite length_app; simpl; lia).
      - intros [[k Hk]|Hk].
        + exists (Nat.min k (length l)). rewrite take_app_le by lia.
          destruct (decide (k <= length l)%nat); [by rewrite Nat.min_l by done|].
          rewrite Nat.min_r, take_ge by lia. by rewrite take_ge in Hk by lia.
        + exists (length (l ++ [b])%list). by rewrite take_ge by done. }
    rewrite <- tail_failures_suffix, reverse_snoc in Hsplit.
    destruct b; simpl in *.
    + rewrite lookup_insert_eq. split; [done|]. exists h. split; [exact IHh|].
      rewrite Hsplit. split; [by left|]. intros [?|?]; [done|lia].
    + unfold note_failure. simpl. rewrite IHs.
      set (n := tail_failures (reverse l)) in *.
      assert (Hm : dmem wid (predictors s1) = true).
      { unfold dmem. unfold healthy_at in IHh. by destruct (dget wid (predictors s1)). }
      rewrite Hm, andb_true_r. destruct (Z.leb_spec thr (Z.of_nat n + 1)).
      * split; [simpl; rewrite lookup_insert_eq; simpl; lia|].
        exists false. rewrite healthy_at_alter. split.
        { unfold healthy_at in IHh. simpl. by destruct (dget wid (predictors s1)). }
        rewrite Hsplit. split; [intros _; right; lia|done].
      * split; [simpl; rewrite lookup_insert_eq; simpl; lia|].
        exists h. split; [exact IHh|]. rewrite Hsplit. split; [by left|].
        intros [?|?]; [done|lia].
Qed.

(** C19. The circuit breaker takes a healthy worker out of rotation exactly when
    [threshold] consecutive failures are reported: interleaved successes
    reset the count, and nothing less than a full streak trips it. *)
Theorem breaker_trips_on_streak thr wid s l lr :
  1 <= thr -> dget wid (predictors s) = Some lr -> healthy lr = true ->
  default 0 (fail_streak s !! wid) = 0 ->
  (healthy_at wid (outcomes thr wid s l) = Some false <->
   exists k, replicate (Z.to_nat thr) false `suffix_of` take k l) /\
  is_Some (healthy_at wid (outcomes thr wid s l)).
Proof.
  intros H1 H2 H3 H4. destruct (outcomes_state thr wid s l lr H1 H2 H3 H4) as [_ (b & Hb & Hk)].
  rewrite Hb, <- Hk. split; [|done]. split; [by intros [= ->]|by intros ->].
Qed.

(** A failed request is no latency sample: [feedback] with [success=False]
    changes no fit, no RLS or EWMA estimate and no latency window; it gives
    the slot and the depth back and counts one failure. *)
Theorem failure_teaches_nothing c wid e2e tokens now s :
  let s' := feedback c wid e2e tokens false now s in
  (forall w, l_fit <$> dget w (predictors s') = l_fit <$> dget w (predictors s)) /\
  rls s' = rls s /\ ewma_e2e s' = ewma_e2e s /\ ewma_samples s' = ewma_samples s /\
  recent_e2e s' = recent_e2e s /\ pred_history s' = pred_history s /\
  admission s' = bump CFailed (admission s) /\
  (forall w, pending_of s' w = pending_of (release wid s) w).
Proof.
  simpl. split.
  { intros w. rewrite feedback_workers. destruct (dget wid (predictors s)) as [lr|] eqn:E; [|done].
    rewrite dget_dset. case_decide; [subst|done]. rewrite E. unfold dec_pending, served.
    simpl. by destruct (0 <? pending lr). }
  pose proof (fun w => pending_of_feedback c wid e2e tokens false now w s) as Hpend.
  revert Hpend. unfold feedback. rewrite pop_inflight_eq.
  destruct (dget wid (predictors s)); intros Hpend; by split_and!.
Qed.
End AccountingFacts.

(** ** Witnesses on the concrete fleet *)

(** [a] holds the request the fleet was left with, and gets two more. *)
Definition busy_ops : list (Op float) :=
  fleet_ops ++ [OpPick "x" "small" (Some 10) (Some ["a"]);
                OpPick "y" "small" (Some 10) (Some ["a"])].
Local Abbreviation busy := (run (sched_cfg nlms_args) sched_init busy_ops).

Lemma ring_never_ahead_witness :
  match dget "a" (predictors busy) with
  | Some lr => Z.of_nat (length (inflight_log lr)) <= pending lr
  | None => False
  end.
Proof.
  assert (P : healthy <$> dget "a" (predictors busy) = Some true) by (vm_compute; reflexivity).
  destruct (dget "a" (predictors busy)) as [lr|] eqn:G; [|discriminate P].
  assert (Hops : forallb not_release busy_ops = true) by (vm_compute; reflexivity).
  exact (ring_never_ahead nlms_args busy_ops "a" lr Hops G).
Defined.

Lemma release_desynchronises_ring_witness :
  (pop_inflight "c" (release "c" (alter_pred mark_admitted "c"
     (alter_pred mark_admitted "c" (fleet nlms_args))))).2 = 1%Z.
Proof.
  assert (Hm : pending <$> dget "c" (predictors (fleet nlms_args)) = Some 0%Z)
    by (vm_compute; reflexivity).
  assert (Hl : inflight_log <$> dget "c" (predictors (fleet nlms_args)) = Some [])
    by (vm_compute; reflexivity).
  destruct (dget "c" (predictors (fleet nlms_args))) as [lr|] eqn:G; [|discriminate Hm].
  injection Hm as Hm. injection Hl as Hl.
  pose proof (release_desynchronises_ring _ _ _ G Hm Hl) as H. cbv zeta in H.
  destruct H as (_ & H & _). exact H.
Defined.

Definition flapping : list bool := [false; false; true; false; false; false; true].

Lemma breaker_trips_on_streak_witness :
  healthy_at "b" (outcomes 3 "b" (fleet nlms_args) flapping) = Some false.
Proof.
  assert (Hm : healthy <$> dget "b" (predictors (fleet nlms_args)) = Some true)
    by (vm_compute; reflexivity).
  assert (Hz : default 0 (fail_streak (fleet nlms_args) !! "b") = 0) by (vm_compute; reflexivity).
  destruct (dget "b" (predictors (fleet nlms_args))) as [lr|] eqn:G; [|discriminate Hm].
  injection Hm as Hm.
  pose proof (breaker_trips_on_streak 3 "b" _ flapping lr ltac:(lia) G Hm Hz) as [H _].
  apply H. exists 6%nat. by exists [false; false; true].
Defined.

(** [a] still owes the request of the fleet, then two more. *)
Lemma busy_client : client false (sched_cfg nlms_args) busy ["a"; "a"; "a"].
Proof. apply (client_run_sound _ _ _ []); [apply cl_init|vm_compute; reflexivity]. Qed.

Lemma pending_counts_open_requests_witness : pending_of busy "a" = 3.
Proof.
  transitivity (open_on "a" ["a"; "a"; "a"]); [|reflexivity].
  exact (pending_counts_open_requests false nlms_args busy _ "a" busy_client).
Defined.
