(* ===== verification/Router.v ===== *)
(** The router, in the abstract: a fleet of workers that are up or down and carry a
    number of open requests, with a circuit breaker.  It says what a client of the
    gateway may rely on and nothing of costs, learners, prompts or streams; the
    scheduler is shown here to implement it call by call, and the running gateway in
    GatewayInv.v and GatewayProps.v step by step. *)

From S2P Require Import Prelude PyFloat PyDict PySort PyStr Config Learner LearnerFacts.
From S2P Require Import Rls Admission EngineMetrics Scheduler SchedulerFacts PickFacts Setup Accounting.

(** ** The abstract machine *)

Record RouterWorker : Type := mkRouterWorker { rw_up : bool; rw_load : Z }.

Record Router : Type := mkRouter {
  ro_workers : gmap string RouterWorker;
  ro_streak : gmap string Z
}.

(** How a request gives its slot back. *)
Inductive Closing : Type := Released | Failed | Served.

Inductive RLabel : Type :=
| RJoin (wid : string)
| RLeave (wid : string)
| RAdmit (wid : string)
| RReject
| RClose (wid : string) (k : Closing)
| RFail (wid : string) (thr : Z)
| RSucceed (wid : string)
| RProbe (wid : string) (up : bool)
| RReset.

Definition router_empty : Router := mkRouter ∅ ∅.

Definition streak_of (r : Router) (wid : string) : Z := default 0 (ro_streak r !! wid).
Definition set_streak (wid : string) (n : Z) (r : Router) : Router :=
  mkRouter (ro_workers r) (<[wid := n]> (ro_streak r)).
Definition set_worker (wid : string) (x : RouterWorker) (r : Router) : Router :=
  mkRouter (<[wid := x]> (ro_workers r)) (ro_streak r).

(** The health of a worker of the fleet; that of a stranger is nobody's concern. *)
Definition mark_up (wid : string) (h : bool) (r : Router) : Router :=
  match ro_workers r !! wid with
  | Some x => set_worker wid (mkRouterWorker h (rw_load x)) r
  | None => r
  end.

Definition load_of (r : Router) (wid : string) : Z :=
  match ro_workers r !! wid with Some x => rw_load x | None => 0 end.

(** One step; [None] when the router does not allow it.  A join is of a new worker, or
    replaces an idle one. *)
Definition rstep (r : Router) (l : RLabel) : option Router :=
  match l with
  | RJoin wid =>
    if (load_of r wid =? 0)%Z then Some (set_worker wid (mkRouterWorker true 0) r) else None
  | RLeave wid =>
    match ro_workers r !! wid with
    | Some (mkRouterWorker _ n) =>
      if (n =? 0)%Z then Some (mkRouter (delete wid (ro_workers r)) (ro_streak r)) else None
    | None => Some r
    end
  | RAdmit wid =>
    match ro_workers r !! wid with
    | Some (mkRouterWorker true n) => Some (set_worker wid (mkRouterWorker true (n + 1)) r)
    | _ => None
    end
  | RReject => Some r
  | RClose wid k =>
    match ro_workers r !! wid with
    | Some (mkRouterWorker h n) =>
      if (0 <? n)%Z
      then let r := set_worker wid (mkRouterWorker h (n - 1)) r in
           Some (match k with Served => set_streak wid 0 r | _ => r end)
      else None
    | None => None
    end
  | RFail wid thr =>
    let n := (streak_of r wid + 1)%Z in
    let r := set_streak wid n r in
    Some (if (thr <=? n)%Z then mark_up wid false r else r)
  | RSucceed wid => Some (set_streak wid 0 r)
  | RProbe wid h =>
    match ro_workers r !! wid with
    | Some _ => Some (mark_up wid h (if h then set_streak wid 0 r else r))
    | None => Some r
    end
  | RReset => Some (mkRouter (ro_workers r) ∅)
  end.

Fixpoint rrun (r : Router) (tr : list RLabel) : option Router :=
  match tr with
  | [] => Some r
  | l :: tr' => match rstep r l with Some r' => rrun r' tr' | None => None end
  end.

Lemma rrun_app r tr1 tr2 :
  rrun r (tr1 ++ tr2) = match rrun r tr1 with Some r' => rrun r' tr2 | None => None end.
Proof.
  revert r; induction tr1 as [|l tr1 IH]; intros r; [done|]. simpl.
  destruct (rstep r l); [apply IH|done].
Qed.

(** *** What the machine guarantees by itself *)

Definition loads_ok (r : Router) : Prop := forall wid, 0 <= load_of r wid.

(** What a label adds to the load of [wid]. *)
Definition load_delta (wid : string) (l : RLabel) : Z :=
  match l with
  | RAdmit w => if decide (w = wid) then 1 else 0
  | RClose w _ => if decide (w = wid) then -1 else 0
  | _ => 0
  end.

Lemma load_set_worker w x r wid :
  load_of (set_worker w x r) wid = if decide (wid = w) then rw_load x else load_of r wid.
Proof.
  unfold load_of, set_worker. simpl. case_decide as E.
  - subst. by rewrite lookup_insert_eq.
  - by rewrite lookup_insert_ne.
Qed.

Lemma load_mark_up w h r wid : load_of (mark_up w h r) wid = load_of r wid.
Proof.
  unfold mark_up. destruct (ro_workers r !! w) as [x|] eqn:E; [|done].
  rewrite load_set_worker. case_decide; [subst|done]. unfold load_of. by rewrite E.
Qed.

(** Loads move by admissions and closings only, whatever else happens. *)
Lemma rstep_load r l r' wid :
  rstep r l = Some r' -> load_of r' wid = (load_of r wid + load_delta wid l)%Z.
Proof.
  assert (Hw : forall w x, ro_workers r !! w = Some x -> load_of r w = rw_load x).
  { intros w x E. unfold load_of. by rewrite E. }
  destruct l; simpl; intros H.
  - destruct (Z.eqb_spec (load_of r wid0) 0) as [E|]; [|done]. injection H as <-.
    rewrite load_set_worker. case_decide; [subst; simpl|]; lia.
  - destruct (ro_workers r !! wid0) as [[h n]|] eqn:E; [|injection H as <-; lia].
    destruct (Z.eqb_spec n 0) as [->|]; [|done]. injection H as <-. unfold load_of. simpl.
    destruct (decide (wid0 = wid)) as [->|]; [by rewrite lookup_delete_eq, E|].
    rewrite lookup_delete_ne by done. lia.
  - destruct (ro_workers r !! wid0) as [[[] n]|] eqn:E; try done. injection H as <-.
    rewrite load_set_worker. specialize (Hw _ _ E). simpl in *.
    repeat case_decide; subst; try congruence; lia.
  - injection H as <-. lia.
  - destruct (ro_workers r !! wid0) as [[h n]|] eqn:E; [|done].
    destruct (0 <? n)%Z; [|done]. injection H as <-. specialize (Hw _ _ E). simpl in Hw.
    assert (Hl : load_of (match k with Served => set_streak wid0 0
        (set_worker wid0 (mkRouterWorker h (n - 1)) r)
      | _ => set_worker wid0 (mkRouterWorker h (n - 1)) r end) wid
      = load_of (set_worker wid0 (mkRouterWorker h (n - 1)) r) wid) by (by destruct k).
    rewrite Hl, load_set_worker. simpl. repeat case_decide; subst; try congruence; lia.
  - injection H as <-. case_match; [rewrite load_mark_up|]; change (load_of r wid = load_of r wid + 0)%Z; lia.
  - injection H as <-. change (load_of r wid = load_of r wid + 0)%Z. lia.
  - destruct (ro_workers r !! wid0); injection H as <-; [rewrite load_mark_up; destruct up|];
      change (load_of r wid = load_of r wid + 0)%Z; lia.
  - injection H as <-. change (load_of r wid = load_of r wid + 0)%Z. lia.
Qed.

Definition trace_load (wid : string) (tr : list RLabel) : Z :=
  foldr (fun l n => load_delta wid l + n)%Z 0 tr.

Lemma rrun_load r tr r' wid :
  rrun r tr = Some r' -> load_of r' wid = (load_of r wid + trace_load wid tr)%Z.
Proof.
  revert r; induction tr as [|l tr IH]; intros r; simpl; [intros [= ->]; lia|].
  destruct (rstep r l) as [r1|] eqn:E; [|done]. intros H.
  rewrite (IH _ H), (rstep_load _ _ _ wid E). lia.
Qed.

(** No load is ever negative. *)
Lemma rstep_loads_ok r l r' : rstep r l = Some r' -> loads_ok r -> loads_ok r'.
Proof.
  intros H Hl wid. rewrite (rstep_load _ _ _ wid H). specialize (Hl wid).
  destruct l; simpl in *; try lia; [case_decide; lia|].
  destruct (decide (wid0 = wid)) as [->|]; [|lia]. unfold load_of in *.
  destruct (ro_workers r !! wid) as [[h n]|]; [|done].
  destruct (Z.ltb_spec 0 n); [simpl; lia|done].
Qed.

Lemma rrun_loads_ok r tr r' : rrun r tr = Some r' -> loads_ok r -> loads_ok r'.
Proof.
  revert r; induction tr as [|l tr IH]; intros r; simpl; [by intros [= ->]|].
  destruct (rstep r l) as [r1|] eqn:E; [|done]. intros H Hl.
  apply (IH r1 H). by eapply rstep_loads_ok.
Qed.

(** ** The scheduler implements it *)

(** The trace of an administrative call of the scheduler. *)
Definition admin_trace {F} (o : Op F) : list RLabel :=
  match o with
  | OpRegister wid _ _ _ => [RJoin wid]
  | OpUnregister wid => [RLeave wid]
  | OpSetHealthy wid h => [RProbe wid h]
  | OpNoteFailure wid thr => [RFail wid thr]
  | OpNoteSuccess wid => [RSucceed wid]
  | OpResetStats => [RReset]
  | _ => []
  end.

Definition pick_trace {F} (r : PickResult F) : list RLabel :=
  match r with Ok (wid, _) => [RAdmit wid] | Err _ => [RReject] end.

(** The slot an admission opens. *)
Definition pick_slot {F} (r : PickResult F) : list string :=
  match r with Ok (wid, _) => [wid] | Err _ => [] end.

Definition feedback_closing (ok : bool) : Closing := if ok then Served else Failed.

(** What a client's slots do in a stretch of calls: [M tr held held' s s'] says that from
    [s] to [s'] the stretch whose trace is [tr] turns the slots [held] into [held'].  The
    gateway's steps are proved to move slots against these laws alone. *)
Class SlotMoves {F} {PF : PyFloat F} (c : SchedCfg F)
    (M : list RLabel -> list string -> list string -> Sched F -> Sched F -> Prop) : Prop := {
  sm_refl h s : M [] h h s s;
  sm_trans t1 t2 h1 h2 h3 s1 s2 s3 :
    M t1 h1 h2 s1 s2 -> M t2 h2 h3 s2 s3 -> M (t1 ++ t2)%list h1 h3 s1 s3;
  sm_admin h s o :
    (forall open, admin_call s open o) -> M (admin_trace o) h h s (step c s o);
  sm_pick prompt tier tokens allowed s :
    let p := pick c prompt tier tokens allowed s in
    M (pick_trace p.2) [] (pick_slot p.2) s p.1;
  sm_release wid s : M [RClose wid Released] [wid] [] s (release wid s);
  sm_feedback wid e t ok now s :
    M [RClose wid (feedback_closing ok)] [wid] [] s (feedback c wid e t ok now s)
}.

Section Simulation.
Context {F : Type} {PF : PyFloat F}.
Implicit Types (s : Sched F) (r : Router) (wid : string) (lr : Learner F) (c : SchedCfg F).

Definition abs_worker lr : RouterWorker := mkRouterWorker (healthy lr) (pending lr).

(** The router a scheduler stands for. *)
Record represents r s : Prop := mkRep {
  rep_workers : forall wid, ro_workers r !! wid = abs_worker <$> dget wid (predictors s);
  rep_streaks : forall wid, streak_of r wid = default 0 (fail_streak s !! wid)
}.

Lemma represents_init : represents router_empty sched_init.
Proof. split; intros wid; [apply lookup_empty|done]. Qed.

(** A call that changes neither health, nor load, nor streaks. *)
Lemma represents_same r s s' :
  (forall wid, abs_worker <$> dget wid (predictors s') = abs_worker <$> dget wid (predictors s)) ->
  fail_streak s' = fail_streak s -> represents r s -> represents r s'.
Proof. intros H Hf [Hw Hs]. split; intros wid; [by rewrite H|by rewrite Hf]. Qed.

(** A call that changes one worker. *)
Lemma represents_set w x r s s' :
  (forall wid, abs_worker <$> dget wid (predictors s')
     = if decide (wid = w) then Some x else abs_worker <$> dget wid (predictors s)) ->
  fail_streak s' = fail_streak s -> represents r s -> represents (set_worker w x r) s'.
Proof.
  intros H Hf [Hw Hs]. split; intros wid; simpl; [|rewrite Hf; apply Hs].
  rewrite H. case_decide as E; [subst; by rewrite lookup_insert_eq|].
  by rewrite lookup_insert_ne.
Qed.

Lemma represents_alter f w lr r s :
  dget w (predictors s) = Some lr -> represents r s ->
  represents (set_worker w (abs_worker (f lr)) r) (alter_pred f w s).
Proof.
  intros Hg. apply represents_set; [|done]. intros wid. simpl. rewrite dget_dalter.
  case_decide; [subst; by rewrite Hg|done].
Qed.

Lemma represents_alter_same f w r s :
  (forall lr, abs_worker (f lr) = abs_worker lr) -> represents r s ->
  represents r (alter_pred f w s).
Proof.
  intros Hf. apply represents_same; [|done]. intros wid. simpl. rewrite dget_dalter.
  case_decide; [subst|done]. destruct (dget w _) as [lr|]; [|done]. simpl. by rewrite Hf.
Qed.

Lemma represents_streak w n r s :
  represents r s -> represents (set_streak w n r) (set_fail_streak (<[w := n]> (fail_streak s)) s).
Proof.
  intros [Hw Hs]. split; [done|]. intros wid. unfold streak_of, set_streak. simpl.
  destruct (decide (w = wid)) as [->|]; [by rewrite !lookup_insert_eq|].
  rewrite !lookup_insert_ne by done. apply Hs.
Qed.

(** Marking a worker up or down is the same on both sides. *)
Lemma represents_mark w h r s :
  represents r s ->
  represents (mark_up w h r) (if dmem w (predictors s) then alter_pred (set_health h) w s else s).
Proof.
  intros Hr. unfold mark_up, dmem. rewrite (rep_workers _ _ Hr).
  destruct (dget w (predictors s)) as [lr|] eqn:E; [|done]. simpl.
  by apply (represents_alter (set_health h) w lr).
Qed.

Lemma load_represented r s wid : represents r s -> load_of r wid = pending_of s wid.
Proof.
  intros Hr. unfold load_of, pending_of. rewrite (rep_workers _ _ Hr). by destruct (dget wid _).
Qed.

(** Registering an idle worker, or a new one, is joining it. *)
Lemma register_simulated c r s wid tier total free :
  represents r s -> pending_of s wid = 0 ->
  exists r', rrun r [RJoin wid] = Some r' /\ represents r' (register c wid tier total free s).
Proof.
  intros Hr Hp. cbn [rrun rstep]. rewrite (load_represented r s wid Hr), Hp.
  eexists. split; [done|]. apply represents_set with (s := s); [|done..].
  intros w. simpl. rewrite dget_dset. case_decide; [|done]. by destruct free.
Qed.

Lemma admin_simulated c r s open o :
  admin_call s open o -> represents r s ->
  (forall wid, pending_of s wid = open_on wid open) ->
  exists r', rrun r (admin_trace o) = Some r' /\ represents r' (step c s o).
Proof.
  intros Ha Hr Hp.
  destruct Ha as [wid tier total free E|wid tier total free E|wid Hin|wid free|wid d|wid h|wid thr|wid|];
    cbn [admin_trace rrun rstep step].
  - apply register_simulated; [done|]. unfold pending_of, dmem in *. by destruct (dget wid _).
  - apply register_simulated; [done|]. by rewrite Hp, open_on_zero.
  - rewrite (rep_workers _ _ Hr). specialize (Hp wid). unfold pending_of in Hp.
    destruct (dget wid (predictors s)) as [lr|] eqn:G; simpl.
    + rewrite open_on_zero in Hp by done. rewrite Hp. eexists. split; [done|].
      split; [|apply Hr]. intros w. simpl. rewrite dget_dpop. case_decide as E.
      * subst. by rewrite lookup_delete_eq.
      * rewrite lookup_delete_ne by done. apply Hr.
    + eexists. split; [done|]. apply (represents_same _ s); [|done..]. intros w. simpl.
      rewrite dget_dpop. case_decide; [subst; by rewrite G|done].
  - eexists. split; [done|]. by apply represents_alter_same.
  - eexists. split; [done|]. apply (represents_same _ s); [|done..]. intros w. simpl.
    rewrite dget_dalter. case_decide; [subst|done]. destruct (dget wid _); [|done].
    simpl. by case_match.
  - unfold set_healthy, dmem. rewrite (rep_workers _ _ Hr).
    destruct (dget wid (predictors s)) as [lr|] eqn:G; simpl; [|by exists r].
    eexists. split; [done|].
    assert (Hm : forall r0 s0, predictors s0 = predictors s -> represents r0 s0 ->
              represents (mark_up wid h r0) (alter_pred (set_health h) wid s0)).
    { intros r0 s0 E H0. apply (represents_mark wid h) in H0. unfold dmem in H0.
      by rewrite E, G in H0. }
    destruct h; [|by apply Hm].
    by apply (represents_same _ _ _ (fun _ => eq_refl) eq_refl
      (Hm (set_streak wid 0 r) (set_fail_streak (<[wid := 0%Z]> (fail_streak s)) s)
        eq_refl (represents_streak wid 0 r s Hr))).
  - eexists. split; [done|]. unfold note_failure. rewrite (rep_streaks _ _ Hr).
    pose proof (represents_streak wid (default 0 (fail_streak s !! wid) + 1) r s Hr) as H1.
    destruct (thr <=? _)%Z; simpl; [|done]. by apply (represents_mark wid false) in H1.
  - eexists. split; [done|]. by apply represents_streak.
  - eexists. split; [done|]. split; [apply Hr|]. intros w. unfold streak_of. simpl.
    by rewrite lookup_empty.
Qed.

Context {PL : PyFloatLaws F}.

Lemma pick_simulated c r s prompt tier tokens allowed :
  sched_inv c s -> represents r s ->
  let p := pick c prompt tier tokens allowed s in
  exists r', rrun r (pick_trace p.2) = Some r' /\ represents r' p.1.
Proof.
  intros Hi Hr. cbv zeta. destruct (pick c prompt tier tokens allowed s) as [s' [[wid d]|e]] eqn:P.
  - destruct (pick_ok _ _ _ _ _ _ _ _ _ P) as (Hin & _ & Had & _).
    apply elem_of_eligible in Hin as [(lr & Hg & Hh) _]; [|apply Hi].
    simpl. rewrite (rep_workers _ _ Hr), Hg. simpl. unfold abs_worker. rewrite Hh.
    eexists. split; [done|]. apply represents_set with (s := s); [| |done].
    + intros w. rewrite (ad_workers _ _ _ _ _ Had), dget_dalter. case_decide; [|done].
      subst. rewrite Hg. unfold abs_worker. simpl. by rewrite Hh.
    + apply (ad_learning _ _ _ _ _ Had).
  - destruct (pick_err _ _ _ _ _ _ _ _ Hi P) as [[E _] _].
    exists r. split; [done|]. rewrite E. by apply (represents_same r s).
Qed.

(** The part of a completion the router sees is [release]. *)
Lemma release_simulated r s w :
  represents r s -> 0 < pending_of s w ->
  exists lr, dget w (predictors s) = Some lr /\
    represents (set_worker w (mkRouterWorker (healthy lr) (pending lr - 1)) r) (release w s) /\
    forall k, rstep r (RClose w k)
      = Some (match k with
              | Served => set_streak w 0 (set_worker w (mkRouterWorker (healthy lr) (pending lr - 1)) r)
              | _ => set_worker w (mkRouterWorker (healthy lr) (pending lr - 1)) r end).
Proof.
  intros Hr Hp. unfold pending_of in Hp. destruct (dget w (predictors s)) as [lr|] eqn:G; [|lia].
  exists lr. split; [done|]. split.
  - pose proof (represents_alter dec_pending w lr r s G Hr) as H. unfold dec_pending in H.
    rewrite (proj2 (Z.ltb_lt _ _) Hp) in H. exact H.
  - intros k. simpl. rewrite (rep_workers _ _ Hr), G. simpl.
    by rewrite (proj2 (Z.ltb_lt _ _) Hp).
Qed.

Lemma fail_streak_feedback c w e t (ok : bool) now s :
  fail_streak (feedback c w e t ok now s)
  = if ok then <[w := 0%Z]> (fail_streak s) else fail_streak s.
Proof.
  unfold feedback. rewrite pop_inflight_eq. unfold learn.
  destruct (dget w (predictors s)) as [lr|] eqn:G; destruct ok; simpl; try done.
  - rewrite dget_dset_eq. simpl. by destruct (update _ _ _ _).
  - rewrite G. done.
Qed.

Lemma feedback_simulated c r s w e t ok now :
  represents r s -> 0 < pending_of s w ->
  exists r', rrun r [RClose w (feedback_closing ok)] = Some r' /\
             represents r' (feedback c w e t ok now s).
Proof.
  intros Hr Hp. destruct (release_simulated r s w Hr Hp) as (lr & G & H & Hs).
  cbn [rrun]. rewrite Hs.
  assert (Hd : forall wid, abs_worker <$> dget wid (predictors (feedback c w e t ok now s))
                         = abs_worker <$> dget wid (predictors (release w s))).
  { intros wid. rewrite feedback_workers, G. simpl. rewrite dget_dset, dget_dalter.
    case_decide; [subst|done]. rewrite G. simpl. f_equal. unfold abs_worker, dec_pending.
    destruct (served_load e t ok lr) as (E & _ & Eh). rewrite E.
    destruct (0 <? pending lr)%Z; simpl; by rewrite ?E, Eh. }
  pose proof (fail_streak_feedback c w e t ok now s) as Hf.
  destruct ok; simpl in *; (eexists; split; [done|]).
  - apply (represents_same _ (set_fail_streak (<[w := 0%Z]> (fail_streak (release w s))) (release w s)));
      [exact Hd|exact Hf|]. by apply represents_streak.
  - by apply (represents_same _ (release w s)).
Qed.
End Simulation.
