(* ===== verification/Lockout.v ===== *)
(** Admission can lock a scheduler up: once the rolling tail is over budget and no
    request is open, the window that decides never changes again. *)

From S2P Require Import Prelude PyFloat PyDict PySort PyStr Config Learner LearnerFacts.
From S2P Require Import Rls Admission EngineMetrics Scheduler SchedulerFacts PickFacts Setup.
From S2P Require Import RoutingProps Accounting.

Section Lockout.
Context {F : Type} {PF : PyFloat F} {PL : PyFloatLaws F}.
Implicit Types (c : SchedCfg F) (s : Sched F) (o : Op F).

(** The tail is over the SLO, and either mode is strict, or it is the default one and
    at most one worker is registered, so that no better backend can exist. *)
Definition locked c s : Prop :=
  tail_over_slo (s_admission c) (recent_e2e s) = true /\
  (mode_strict (s_admission c) \/
   mode_empirical (s_admission c) /\ (length (predictors s) <= 1)%nat).

Lemma length_eligible s allowed : (length (eligible s allowed) <= length (predictors s))%nat.
Proof.
  unfold eligible. rewrite <- (length_map fst (predictors s)).
  assert (H : (length (map fst (filter (fun '(_, p) => healthy p = true) (predictors s)))
               <= length (map fst (predictors s)))%nat).
  { rewrite !length_map. apply length_filter. }
  destruct allowed as [l|]; [|done]. etrans; [apply length_filter|done].
Qed.

Lemma length_rank c s t tier r k ids acc rk :
  rank c s t tier r k ids acc = Ok rk ->
  (length (rk_scores rk) <= length (rk_scores acc) + length ids)%nat.
Proof.
  revert acc; induction ids as [|wid ids IH]; intros acc; cbn [rank length].
  - intros [= <-]. lia.
  - destruct (dget wid _) as [pred|]; [|done]. unfold mbind, result_bind.
    destruct (score _ _ _ _ _ _ _ _) as [[[sc d]|]|]; [| |done]; intros H%IH; [|lia].
    cbn [rk_scores] in H. rewrite length_app in H. cbn in H. lia.
Qed.

Lemma locked_decision c s rk best would :
  locked c s -> (length (rk_scores rk) <= length (predictors s))%nat ->
  (decided c s would best (rk_scores rk)).1.1 = true.
Proof.
  intros [Ht Hm] Hl. unfold decided. set (a := admission _).
  destruct Hm as [Hm|[Hm H1]].
  - pose proof (decision_strict _ (recent_e2e s) best (rk_scores rk) a Hm) as [H _]. etrans; [exact H|exact Ht].
  - pose proof (decision_empirical _ (recent_e2e s) best (rk_scores rk) a Hm) as [H _].
    rewrite Ht in H. etrans; [exact H|]. cbn [andb]. unfold worst_quartile.
    by rewrite (proj2 (Z.leb_gt 2 _)) by lia.
Qed.

Lemma locked_pick c s prompt tier tokens allowed :
  ranks_by_cost c -> locked c s -> exists e, (pick c prompt tier tokens allowed s).2 = Err e.
Proof.
  intros Hc Hl. destruct (pick c prompt tier tokens allowed s) as [s' [[wid d]|e]] eqn:E;
    [|by exists e].
  apply pick_ok_cost in E; [|done]. rewrite pick_cost_outcome in E. revert E.
  generalize (prefix_hash prompt) as key. intros key.
  destruct (rank _ _ _ _ _ _ _ _) as [rk|] eqn:Hr; [|done].
  apply length_rank in Hr. pose proof (length_eligible s allowed).
  unfold cost_outcome. destruct (rk_best rk) as [[best d']|]; [|by destruct (negb _)].
  pose proof (locked_decision c s rk best (flt (ac_slo_ms (s_admission c)) best) Hl) as Hd.
  destruct (decided _ _ _ _ _) as [[rej reason] st]. cbn in Hd, Hr.
  by rewrite Hd by lia.
Qed.

(** *** What cannot happen without a completion *)

(** A new backend may appear under [strict], where it changes nothing. *)
Definition pool_closed c o : Prop :=
  mode_strict (s_admission c) \/ match o with OpRegister _ _ _ _ => False | _ => True end.

Lemma length_alter_pred f wid s : length (predictors (alter_pred f wid s)) = length (predictors s).
Proof. apply length_dalter. Qed.

Lemma locked_same c s s' :
  locked c s -> recent_e2e s' = recent_e2e s ->
  mode_strict (s_admission c) \/ (length (predictors s') <= length (predictors s))%nat ->
  locked c s'.
Proof.
  intros [Ht Hm] Hr Hp. split; [by rewrite Hr|].
  destruct Hm as [Hm|[Hm H1]]; [by left|]. destruct Hp as [Hp|Hp]; [by left|]. right. split; [done|lia].
Qed.

(** One call of a client that holds nothing: nothing is opened, and the lock stays. *)
Lemma locked_call r a s o open' :
  let c := sched_cfg a in
  ranks_by_cost c -> sched_inv c s -> locked c s -> pool_closed c o ->
  client_call r c s [] o = Some open' -> open' = [] /\ locked c (step c s o) /\
  recent_e2e (step c s o) = recent_e2e s.
Proof.
  intros c Hc Hi Hl Hpool Hcall.
  assert (Hsame : recent_e2e (step c s o) = recent_e2e s ->
    mode_strict (s_admission c) \/ (length (predictors (step c s o)) <= length (predictors s))%nat ->
    open' = [] -> open' = [] /\ locked c (step c s o) /\ recent_e2e (step c s o) = recent_e2e s).
  { intros H1 H2 H3. split_and!; [done| |done]. by eapply locked_same. }
  destruct o as [wid tier total free|wid|wid free|wid d|wid h|wid thr|wid|prompt tier tokens allowed|wid
    |wid e2e tokens ok now|]; cbn [client_call step] in *.
  - destruct (dmem _ _); [done|]. injection Hcall as <-. apply Hsame; [done| |done].
    destruct Hpool as [Hp|[]]. by left.
  - destruct (decide _); [done|]. injection Hcall as <-. apply Hsame; [done| |done].
    right. apply length_dpop_le.
  - injection Hcall as <-. apply Hsame; [done| |done]. right. apply Nat.eq_le_incl; etrans; [apply length_alter_pred|done].
  - injection Hcall as <-. apply Hsame; [done| |done]. right.
    apply Nat.eq_le_incl, length_dalter.
  - injection Hcall as <-. unfold set_healthy in *.
    destruct (dmem _ _); [|by apply Hsame; [done|right|done]].
    destruct h; (apply Hsame; [done|right; apply Nat.eq_le_incl; etrans; [apply length_alter_pred|done]|done]).
  - injection Hcall as <-. unfold note_failure in *. cbn in *.
    destruct (_ && _); (apply Hsame; [done|right|done]);
      [apply Nat.eq_le_incl; etrans; [apply length_alter_pred|done]|done].
  - injection Hcall as <-. apply Hsame; [done|by right|done].
  - destruct (locked_pick c s prompt tier tokens allowed Hc Hl) as [e He].
    destruct (pick c prompt tier tokens allowed s) as [s' res] eqn:E. cbn in He, Hcall. subst res.
    injection Hcall as <-. destruct (pick_err _ _ _ _ _ _ _ _ Hi E) as [[Hs _] _].
    cbn [fst] in *. apply Hsame; [by rewrite Hs|right; by rewrite Hs|done].
  - by destruct r.
  - done.
  - injection Hcall as <-. apply Hsame; [done|by right|done].
Qed.

(** C20. From any well-formed state where the rolling tail is over the SLO, a client that
    has nothing in flight is locked out: admission under
    [strict] never admits a request again, and neither does the default mode while
    at most one backend is registered: whatever it does from there (picks,
    probes, health changes, telemetry, even [reset_stats]), the latency window stays
    as it is and every [pick] raises. *)
Theorem admission_lockout r a s ops open' :
  let c := sched_cfg a in
  ranks_by_cost c -> sched_inv c s -> locked c s -> Forall (pool_closed c) ops ->
  client_run r c s [] ops = Some open' ->
  open' = [] /\ recent_e2e (run c s ops) = recent_e2e s /\
  forall prompt tier tokens allowed,
    exists e, (pick c prompt tier tokens allowed (run c s ops)).2 = Err e.
Proof.
  intros c Hc Hi Hl Hp. revert s Hi Hl.
  induction Hp as [|o ops Ho Hp IH]; intros s Hi Hl; cbn [client_run run foldl].
  - intros [= <-]. split_and!; [done|done|]. intros. by apply locked_pick.
  - destruct (client_call r c s [] o) as [open1|] eqn:E; [|done]. intros Hrun.
    destruct (locked_call r a s o open1 Hc Hi Hl Ho E) as (-> & Hl' & Hr).
    destruct (IH (step c s o)) as (H1 & H2 & H3); [apply inv_step; [simpl; lia|done]|done|done|].
    split_and!; [done|by rewrite <- Hr|done].
Qed.
End Lockout.

(** ** A single backend that was slow for a while *)

Local Abbreviation c1 := (sched_cfg nlms_args).

(** Eight requests of a thousand seconds are the last that completed. *)
Definition was_slow : Sched float :=
  set_recent (replicate 8 (fint 1000000)) (register c1 "a" "small" (fint 24000) None sched_init).

(** What is tried after it: a request, a probe, a reset of the statistics. *)
Definition later_ops : list (Op float) :=
  [OpPick "hi" "small" (Some 10) None; OpSetHealthy "a" true; OpResetStats].

Lemma admission_lockout_witness :
  exists e, (pick c1 "hi" "small" (Some 10) None (run c1 was_slow later_ops)).2 = Err e.
Proof.
  assert (Hi : sched_inv c1 was_slow).
  { destruct (inv_step c1 sched_init (OpRegister "a" "small" (fint 24000) None)) as [];
      [vm_compute; discriminate|apply inv_init; vm_compute; discriminate|].
    constructor; try assumption. vm_compute. lia. }
  assert (Hl : locked c1 was_slow).
  { split; [vm_compute; reflexivity|]. right.
    split; [split; [reflexivity|vm_compute; by left]|vm_compute; lia]. }
  assert (Hrun : client_run false c1 was_slow [] later_ops = Some []) by (vm_compute; reflexivity).
  apply (admission_lockout false nlms_args was_slow later_ops []);
    [by split_and!|exact Hi|exact Hl| |exact Hrun].
  unfold later_ops. repeat constructor; by right.
Defined.
