(* ===== verification/Suites.v ===== *)
(** The suites that measure a running gateway, [dio-serve/scripts]: the processes they start
    and stop, the arms of strategies by seeds, and what they report
    ([run_workshop_final_suite.py], [run_gpu_abc_suite.py],
    [run_gpu_cluster_validation.py], [run_real_hetero_multiseed.py],
    [kaggle/run_kaggle_followups.py], [run_post_d_priority.py]).  Whether a process comes up,
    and what a load on it gives, are parameters. *)

From S2P Require Import Prelude PyFloat PyStats PyStr PyDict PySort Json Simulation ResultStats.
From S2P Require Import LoadClients RegimeD Config Backends AbcExperiments.

(** ** [Session] *)

Record Proc : Type := mkProc {
  pr_id : nat;
  pr_name : string;
  pr_cmd : list string;
  pr_env : list (string * string)
}.

(** What the suite does to the machine, in order.  A load is noted with the processes the
    session has started and not killed. *)
Inductive Act : Type :=
| Start (p : Proc)
| Kill (id : nat)
| Measure (p : Proc) (alive : list nat).

(** [ss_alive] are the processes started and still running; [ss_left] those that were
    killed alone, with children of theirs still running. *)
Record Session : Type := mkSession {
  ss_handles : list Proc;
  ss_next : nat;
  ss_alive : list nat;
  ss_acts : list Act;
  ss_left : list nat
}.

Definition session_init : Session := mkSession [] 0 [] [] [].

Definition start (name : string) (cmd : list string) (env : list (string * string)) (s : Session) :
    Session * Proc :=
  let p := mkProc (ss_next s) name cmd env in
  (mkSession (ss_handles s ++ [p]) (S (ss_next s)) (ss_alive s ++ [pr_id p])
     (ss_acts s ++ [Start p]) (ss_left s), p).

(** The machine: whether the whole group of a process has ended once [kill_proc] is done
    with it.  The group gets SIGTERM; when the process is still there after ten seconds,
    or signalling the group raised, it alone is killed and its children stay.  (That
    last signal cannot be caught, so the process itself ends in both cases.  The cluster
    suite kills the group in the second case too.) *)
Class Machine : Type := group_ends : nat -> bool.

(** [kill_proc]: a process that is gone is left alone. *)
Definition kill_proc {MA : Machine} (id : nat) (s : Session) : Session :=
  if decide (id ∈ ss_alive s)
  then mkSession (ss_handles s) (ss_next s) (filter (fun i => i <> id) (ss_alive s))
         (ss_acts s ++ [Kill id]) (ss_left s ++ if group_ends id then [] else [id])
  else s.

(** [if session.handles: kill_proc(session.handles.pop())]. *)
Definition kill_last {MA : Machine} (s : Session) : Session :=
  match last (ss_handles s) with
  | Some p =>
    kill_proc (pr_id p) (mkSession (removelast (ss_handles s)) (ss_next s) (ss_alive s) (ss_acts s) (ss_left s))
  | None => s
  end.

Definition cleanup {MA : Machine} (s : Session) : Session :=
  let s := foldl (fun s p => kill_proc (pr_id p) s) s (reverse (ss_handles s)) in
  mkSession [] (ss_next s) (ss_alive s) (ss_acts s) (ss_left s).

Definition measure_act (p : Proc) (s : Session) : Session :=
  mkSession (ss_handles s) (ss_next s) (ss_alive s) (ss_acts s ++ [Measure p (ss_alive s)])
    (ss_left s).

(** *** The command lines *)

Definition local_url (port : Z) : string := "http://127.0.0.1:" ++ str_of_Z port.

(** [e0=URL], [e1=URL], ... each after [-b]. *)
Definition backend_value (i : nat) (url : string) : string :=
  ("e" ++ str_of_Z (Z.of_nat i) ++ "=" ++ url)%string.
Definition backend_flags (backends : list string) : list string :=
  concat (imap (fun i b => ["-b"; backend_value i b]) backends).

Section Suites.
Context {F : Type} {PF : PyFloat F} {PS : PyStats F} {MA : Machine}.
Local Open Scope float_scope.
Local Abbreviation json := (json F).
Variables (PY DELAY_PROXY : string).

Definition start_vllm (gpu : string) (port : Z) (model : string) (max_model_len : Z)
    (gpu_mem_util : F) (name : string) (enable_prefix_caching : bool) (s : Session) :
    Session * Proc :=
  let cmd := [PY; "-m"; "vllm.entrypoints.openai.api_server"; "--model"; model; "--host";
              "127.0.0.1"; "--port"; str_of_Z port; "--max-model-len"; str_of_Z max_model_len;
              "--gpu-memory-utilization"; float_repr gpu_mem_util] in
  start name (cmd ++ if enable_prefix_caching then ["--enable-prefix-caching"] else [])%list
    [("CUDA_VISIBLE_DEVICES", gpu)] s.

(** The settings of a gateway; [so_extra] is [extra_env], which updates the environment. *)
Record DioSpec : Type := mkDioSpec {
  ds_strategy : string;
  ds_name : string;
  ds_tokenizer : string;
  ds_admission_mode : string;
  ds_slo : string;
  ds_admission_off : bool;
  ds_extra : list (string * string)
}.

(** [start_dio] of [run_workshop_final_suite.py]; [ds_slo] is [str(slo_ms)]. *)
Definition dio_cmd (backends : list string) (port : Z) (d : DioSpec) : list string :=
  ([PY; "-m"; "dio"; "serve"; "--host"; "127.0.0.1"; "--port"; str_of_Z port; "--strategy";
    ds_strategy d; "--nlms-mode"; "dual"; "--slo-ms"; ds_slo d; "--admission-mode";
    ds_admission_mode d] ++
   (if ds_admission_off d then ["--admission-off"] else []) ++
   (if str_truth (ds_tokenizer d) then ["--tokenizer"; ds_tokenizer d] else []) ++
   backend_flags backends)%list.
Definition dio_env (d : DioSpec) : list (string * string) :=
  let env := [("DIO_STRATEGY", ds_strategy d); ("DIO_ADMISSION_MODE", ds_admission_mode d);
              ("DIO_SLO_MS", ds_slo d);
              ("DIO_ADMISSION_OFF", if ds_admission_off d then "1" else "0")] in
  let env := if str_truth (ds_tokenizer d)
             then dset "DIO_USE_TOKENIZER" "1" (dset "DIO_TOKENIZER_NAME" (ds_tokenizer d) env)
             else env in
  dupdate env (ds_extra d).
Definition start_dio (backends : list string) (port : Z) (d : DioSpec) (s : Session) :
    Session * Proc := start (ds_name d) (dio_cmd backends port d) (dio_env d) s.

(** The settings of every arm of the workshop suite but the strategy and the tokenizer. *)
Definition workshop_spec (strategy name tokenizer : string) (extra : list (string * string)) :
    DioSpec := mkDioSpec strategy name tokenizer "rank_only" "180000" true extra.

(** ** A load *)

Record WLoad : Type := mkWLoad {
  wl_ok : Z; wl_fail : Z; wl_e2e : list F; wl_routes : list (string * Z)
}.
Definition wload_init : WLoad := mkWLoad 0 0 [] [].
Definition wload_one (l : WLoad) (x : Exchange F) : WLoad :=
  match x with
  | Reply status h ms =>
    if (status =? 200)%Z
    then mkWLoad (wl_ok l + 1) (wl_fail l) (wl_e2e l ++ [ms])
           (count_route (header_or "unknown" h) (wl_routes l))
    else mkWLoad (wl_ok l) (wl_fail l + 1) (wl_e2e l) (wl_routes l)
  | Raised => mkWLoad (wl_ok l) (wl_fail l + 1) (wl_e2e l) (wl_routes l)
  end.
Definition wload (xs : list (Exchange F)) : WLoad := foldl wload_one wload_init xs.

Definition WORKSHOP_PROMPTS : list string :=
  (cluster_prompts ++ ["List three programming languages briefly.";
                       "What causes seasons on Earth? One sentence."])%list.
Definition seed_prompt (prompts : list string) (seed : Z) (i : nat) : string :=
  (cycle prompts i ++ " (seed=" ++ str_of_Z seed ++ " i=" ++ str_of_Z (Z.of_nat i) ++ ")")%string.

(** [mape_pct] of the gateway's [/debug/metrics]; [None] for the body is a failed call or no
    JSON.  Whatever the [try] raises leaves none. *)
Definition worker_mape (w : json) : result PyExc (list F) :=
  match w with
  | JDict d => let v := bget "mape_pct" d in
               if is_none v then Ok [] else x ← jfloat v; Ok [x]
  | _ => Ok []
  end.
Definition pred_mape (body : option json) : json :=
  match body with
  | None => JNull
  | Some m =>
    let r : result PyExc json :=
      ws ← jget "workers" m;
      match jor ws (JDict []) with
      | JDict d =>
        mapes ← map_result worker_mape (dvalues d);
        let base := match concat mapes with [] => JNull | xs => JFloat (mean xs) end in
        p ← jget "prediction" m;
        if truthy p then v ← jget "mape_pct" p; Ok (if is_none v then base else v) else Ok base
      | _ => Err AttributeError
      end in
    match r with Ok v => v | Err _ => JNull end
  end.

(** What a seed of an arm gives. *)
Record SeedRow : Type := mkSeedRow {
  sr_ok : Z;
  sr_fail : Z;
  sr_routes : list (string * Z);
  sr_frac_e0 : option F;
  sr_p50 : option F;
  sr_p99 : option F;
  sr_mean : option F;
  sr_mape : json
}.

(** The row of a gateway that did not start, and of one whose [/healthz] raised. *)
Definition row_not_started : SeedRow := mkSeedRow 0 0 [] None None None None JNull.
Definition row_unreachable (n : Z) : SeedRow := mkSeedRow 0 n [] None None None None JNull.

(** [run_load] of the workshop suite: whether [/healthz] answered, the outcomes of the
    requests, the body of [/debug/metrics]. *)
Definition load_row (health : bool) (xs : list (Exchange F)) (metrics : option json) : SeedRow :=
  if negb health then row_unreachable (Z.of_nat (length xs))
  else
    let l := wload xs in
    mkSeedRow (wl_ok l) (wl_fail l) (wl_routes l) (Some (route_share "e0" (wl_routes l)))
      (pct (wl_e2e l) 50) (pct (wl_e2e l) 99) (mean_or_none (wl_e2e l)) (pred_mape metrics).

(** ** Arms *)

(** [mean_std] with the half width of a 95% interval. *)
Record MeanCi : Type := mkMeanCi { mc_mean : F; mc_std : F; mc_ci95 : F; mc_n : Z }.
Definition mean_ci (xs : list F) : MeanCi :=
  match xs with
  | [] => mkMeanCi fnan fnan fnan 0
  | [_] => mkMeanCi (mean xs) f0 f0 1
  | _ => let n := Z.of_nat (length xs) in
         mkMeanCi (mean xs) (stdev xs) (half_width (stdev xs) n) n
  end.

(** One run of an arm: the gateway it starts, the port it listens on, the seed of the load. *)
Record Run : Type := mkRun {
  ru_port : Z;
  ru_seed : Z;
  ru_name : string;
  ru_cmd : list string;
  ru_env : list (string * string)
}.
Definition dio_run (backends : list string) (port seed : Z) (d : DioSpec) : Run :=
  mkRun port seed (ds_name d) (dio_cmd backends port d) (dio_env d).

(** How a suite stops a gateway, by whether it came up: most take the last handle off the
    session and kill it. *)
Definition Stop : Type := bool -> Proc -> Session -> Session.
Definition stop_pop : Stop := fun _ _ s => kill_last s.

(** Whether the health route of a process answers in time. *)
Variable ready : Proc -> bool.

(** One seed: start, wait, load, stop.  [measure] is what the load on the gateway gives, by
    the process and the seed. *)
Definition seed_run {R} (stop : Stop) (measure : Proc -> Z -> R) (failed : R) (r : Run)
    (s : Session) : Session * R :=
  let '(s, p) := start (ru_name r) (ru_cmd r) (ru_env r) s in
  if ready p
  then (stop true p (measure_act p s), measure p (ru_seed r))
  else (stop false p s, failed).

Fixpoint seed_runs {R} (stop : Stop) (measure : Proc -> Z -> R) (failed : R) (rs : list Run)
    (s : Session) : Session * list R :=
  match rs with
  | [] => (s, [])
  | r :: rs' =>
    let '(s, row) := seed_run stop measure failed r s in
    let '(s, rows) := seed_runs stop measure failed rs' s in
    (s, row :: rows)
  end.

(** What the loads of the workshop suite give. *)
Variable measure : Proc -> Z -> SeedRow.

(** *** [multi_seed_matrix] *)

Record Block : Type := mkBlock {
  bk_p99 : MeanCi;
  bk_p50 : MeanCi;
  bk_mape : MeanCi;
  bk_frac_e0 : MeanCi;
  bk_ok_sum : Z;
  bk_rows : list SeedRow;
  bk_gain : option MeanCi
}.

Definition mape_values (rows : list SeedRow) : result PyExc (list F) :=
  map_result jfloat (filter (fun v => is_none v = false) (map sr_mape rows)).
Definition block_of (rows : list SeedRow) : result PyExc Block :=
  mapes ← mape_values rows;
  Ok (mkBlock (mean_ci (omap sr_p99 rows)) (mean_ci (omap sr_p50 rows)) (mean_ci mapes)
        (mean_ci (omap sr_frac_e0 rows)) (sum_of sr_ok rows) rows None).

(** The runs of the arm number [si]. *)
Definition matrix_runs (backends : list string) (dio_base : Z) (label tokenizer : string)
    (seeds : Z) (si : nat) (strat : string) : list Run :=
  map (fun seed => dio_run backends (dio_base + Z.of_nat si * 40 + seed)
         (1000 * (Z.of_nat si + 1) + seed)
         (workshop_spec strat (label ++ "_" ++ strat ++ "_s" ++ str_of_Z seed) tokenizer []))
    (seqZ 0 seeds).

(** A strategy named twice replaces its first block, at the first place. *)
Fixpoint matrix_arms (backends : list string) (dio_base : Z) (label tokenizer : string)
    (seeds : Z) (si : nat) (strategies : list string) (out : list (string * Block)) (s : Session) :
    Session * result PyExc (list (string * Block)) :=
  match strategies with
  | [] => (s, Ok out)
  | strat :: rest =>
    let '(s, rows) := seed_runs stop_pop measure row_not_started
      (matrix_runs backends dio_base label tokenizer seeds si strat) s in
    match block_of rows with
    | Err e => (s, Err e)
    | Ok b => matrix_arms backends dio_base label tokenizer seeds (S si) rest (dset strat b out) s
    end
  end.

Definition is_rr (strat : string) : bool := str_in strat ["round_robin"; "rr"].

(** The gains over round robin, when it has rows. *)
Definition matrix_gains (out : list (string * Block)) : list (string * Block) :=
  let rr := match dget "round_robin" out with Some b => Some b | None => dget "rr" out end in
  match rr with
  | Some b =>
    match bk_rows b with
    | [] => out
    | rr_rows =>
      map (fun kv => if is_rr kv.1 then kv
        else (kv.1, mkBlock (bk_p99 kv.2) (bk_p50 kv.2) (bk_mape kv.2) (bk_frac_e0 kv.2)
               (bk_ok_sum kv.2) (bk_rows kv.2)
               (Some (mean_ci (workshop_gains (map sr_p99 rr_rows) (map sr_p99 (bk_rows kv.2)))))))
        out
    end
  | None => out
  end.

Definition multi_seed_matrix (backends strategies : list string) (seeds dio_base : Z)
    (label tokenizer : string) (s : Session) : Session * result PyExc (list (string * Block)) :=
  let '(s, out) := matrix_arms backends dio_base label tokenizer seeds 0 strategies [] s in
  (s, out' ← out; Ok (matrix_gains out')).

(** ** [coeff_sweep_live] *)

Definition coeff_env (tier cache : string) : list (string * string) :=
  [("DIO_TIER_MISMATCH_MS", tier); ("DIO_CACHE_BONUS_MS", cache)].
Definition coeff_variants : list (string * list (string * string)) :=
  [("baseline", coeff_env "500" "200"); ("tier_p50", coeff_env "750" "200");
   ("tier_m50", coeff_env "250" "200"); ("cache_p50", coeff_env "500" "300");
   ("cache_m50", coeff_env "500" "100"); ("both_p50", coeff_env "750" "300");
   ("both_m50", coeff_env "250" "100")].

Definition coeff_runs (backends : list string) (tokenizer : string) (dio_base : Z) : list Run :=
  imap (fun i v => dio_run backends (dio_base + Z.of_nat i) (7000 + Z.of_nat i)
          (workshop_spec "nlms" ("coeff_" ++ v.1) tokenizer v.2)) coeff_variants.

(** The changes of p99 against the baseline, in percent, and the greatest of them. *)
Definition coeff_deltas (rows : list (string * SeedRow)) : option (list (string * F)) :=
  match dget "baseline" rows ≫= sr_p99 with
  | Some b =>
    if ftruth b && (b >? f0)
    then Some (omap (fun kv => if str_eqb kv.1 "baseline" then None
                               else v ← sr_p99 kv.2; Some (kv.1, (v - b) / b * fint 100)) rows)
    else None
  | None => None
  end.
Definition max_abs_delta (deltas : list (string * F)) : option F :=
  match map (fun kv => fabs kv.2) deltas with
  | [] => None
  | x :: xs => Some (foldl py_max x xs)
  end.
Definition coeff_sweep_live (backends : list string) (tokenizer : string) (dio_base : Z)
    (s : Session) : Session * (list (string * SeedRow) * option (list (string * F))) :=
  let '(s, rows) := seed_runs stop_pop measure row_not_started
    (coeff_runs backends tokenizer dio_base) s in
  let out := zip (map fst coeff_variants) rows in
  (s, (out, coeff_deltas out)).

(** ** The W2 comparison of the two token features *)

Definition w2_runs (backends : list string) (dio_base : Z) (second : bool) (tokenizer : string)
    (seeds : Z) : list Run :=
  map (fun seed => dio_run backends (dio_base + 50 + (if second then 20 else 0) + seed) (200 + seed)
         (workshop_spec "nlms"
            ("mape_" ++ (if second then "tokenizer" else "heuristic") ++ "_s" ++ str_of_Z seed)
            tokenizer []))
    (seqZ 0 seeds).
Definition w2_mape (rows : list SeedRow) : result PyExc MeanCi :=
  mapes ← mape_values rows; Ok (mean_ci mapes).

(** The difference of the mean errors, when both arms have one. *)
Definition mape_delta (heuristic tokenizer : MeanCi) : option F :=
  if negb (mc_n heuristic =? 0)%Z && negb (mc_n tokenizer =? 0)%Z
  then Some (mc_mean tokenizer - mc_mean heuristic) else None.
Definition w2 (backends : list string) (tokenizer : string) (seeds dio_base : Z) (s : Session) :
    Session * result PyExc (MeanCi * MeanCi * option F) :=
  let '(s, rows1) := seed_runs stop_pop measure row_not_started
    (w2_runs backends dio_base false "" seeds) s in
  match w2_mape rows1 with
  | Err e => (s, Err e)
  | Ok m1 =>
    let '(s, rows2) := seed_runs stop_pop measure row_not_started
      (w2_runs backends dio_base true tokenizer seeds) s in
    (s, m2 ← w2_mape rows2; Ok (m1, m2, mape_delta m1 m2))
  end.

(** ** The command line and [main] of the workshop suite *)

Record WorkshopArgs : Type := mkWorkshopArgs {
  wa_only : string;
  wa_quick : bool;
  wa_skip : list (string * bool);
  wa_seeds_a : Z;
  wa_seeds_c : Z;
  wa_seeds_long : Z;
  wa_seeds_mape : Z;
  wa_n_per_seed : Z;
  wa_n_long : Z;
  wa_n_coeff : Z;
  wa_max_tokens_long : Z
}.

Definition WORKSHOP_PHASES : list string := ["w2"; "w3"; "w4"; "w5"; "w6"].

(** The names after [--only]. *)
Definition wanted (only : string) : list string :=
  map (fun x => lower (strip x)) (filter (fun x => str_truth (strip x) = true) (split "," only)).

(** [apply_only_flags]. *)
Definition apply_only_flags (a : WorkshopArgs) : WorkshopArgs :=
  let skip := if str_truth (strip (wa_only a))
              then map (fun w => (w, negb (str_in w (wanted (wa_only a))))) WORKSHOP_PHASES
              else wa_skip a in
  let cap lim n := if wa_quick a then Z.min n lim else n in
  mkWorkshopArgs (wa_only a) (wa_quick a) skip (cap 2 (wa_seeds_a a)) (cap 2 (wa_seeds_c a))
    (cap 2 (wa_seeds_long a)) (cap 2 (wa_seeds_mape a)) (cap 12 (wa_n_per_seed a))
    (cap 8 (wa_n_long a)) (cap 10 (wa_n_coeff a)) (cap 64 (wa_max_tokens_long a)).

Definition comma_list (s : string) : list string :=
  filter (fun x => str_truth x = true) (map strip (split "," s)).

Inductive PhaseOut : Type :=
| PhSkipped
| PhProxyFailed
| PhMape (heuristic tokenizer : MeanCi) (delta : option F)
| PhMatrix (out : list (string * Block))
| PhCoeff (rows : list (string * SeedRow)) (deltas : option (list (string * F))).

(** The phases in order; one that raises ends the suite. *)
Definition Phase : Type := Session -> Session * result PyExc PhaseOut.
Fixpoint run_phases (skip : list (string * bool)) (ps : list (string * Phase)) (s : Session) :
    Session * (list (string * PhaseOut) * bool) :=
  match ps with
  | [] => (s, ([], true))
  | (name, ph) :: rest =>
    let '(s, r) := if dget_or name false skip then (s, Ok PhSkipped) else ph s in
    match r with
    | Err _ => (s, ([], false))
    | Ok o => let '(s, (outs, ok)) := run_phases skip rest s in (s, ((name, o) :: outs, ok))
    end
  end.

(** The rest of the arguments. *)
Record SuiteEnv : Type := mkSuiteEnv {
  se_external : bool;
  se_backends : string;
  se_gpus : string;
  se_model : string;
  se_tokenizer : string;
  se_engine_base : Z;
  se_dio_base : Z;
  se_proxy_port : Z;
  se_max_model_len : Z;
  se_gpu_mem_util : F;
  se_slow_mult : F;
  se_strategies_a : string;
  se_strategies_c : string;
  se_strategies_long : string;
  se_proxy_script : bool
}.

Definition proxy_cmd (upstream : string) (port : Z) (mult : F) : list string :=
  [PY; DELAY_PROXY; "--upstream"; upstream; "--host"; "127.0.0.1"; "--port"; str_of_Z port;
   "--latency-mult"; float_repr mult].

Definition matrix_phase (backends : list string) (strategies : string) (seeds port : Z)
    (label tokenizer : string) : Phase := fun s =>
  let '(s, out) := multi_seed_matrix backends (comma_list strategies) seeds port label tokenizer s in
  (s, o ← out; Ok (PhMatrix o)).

(** W4: the second engine behind the delay proxy. *)
Definition throttle_phase (backends : list string) (v : SuiteEnv) (seeds : Z) : Phase := fun s =>
  if negb (se_proxy_script v) then (s, Err OtherExc)
  else
    let '(s, p) := start "delay_proxy_slow"
      (proxy_cmd (nth 1 backends "") (se_proxy_port v) (se_slow_mult v)) [] s in
    if ready p
    then matrix_phase [nth 0 backends ""; local_url (se_proxy_port v)] (se_strategies_c v) seeds
           (se_dio_base v + 400) "W4_regime_c" (se_tokenizer v) s
    else (s, Ok PhProxyFailed).

Definition workshop_phases (backends : list string) (v : SuiteEnv) (a : WorkshopArgs) :
    list (string * Phase) :=
  [("w2", fun s => let '(s, r) := w2 backends (se_tokenizer v) (wa_seeds_mape a) (se_dio_base v) s in
                   (s, x ← r; Ok (PhMape x.1.1 x.1.2 x.2)));
   ("w3", matrix_phase backends (se_strategies_a v) (wa_seeds_a a) (se_dio_base v + 200)
            "W3_regime_a" (se_tokenizer v));
   ("w4", throttle_phase backends v (wa_seeds_c a));
   ("w5", matrix_phase backends (se_strategies_long v) (wa_seeds_long a) (se_dio_base v + 600)
            "W5_long_decode" (se_tokenizer v));
   ("w6", fun s => let '(s, (rows, d)) :=
            coeff_sweep_live backends (se_tokenizer v) (se_dio_base v + 700) s in
          (s, Ok (PhCoeff rows d)))].

(** What the suite comes to before its cleanup: the exit code, the status it saved, and the
    results of its phases. *)
Record Outcome : Type := mkOutcome {
  oc_code : Z;
  oc_status : option string;
  oc_phases : list (string * PhaseOut)
}.
Definition stopped (code : Z) (status : option string) : Outcome := mkOutcome code status [].

(** The two engines. *)
Definition start_engines (v : SuiteEnv) (gpus : list string) (s : Session) : Session * list Proc :=
  foldl (fun '(s, ps) '(i, gpu) =>
           let '(s, p) := start_vllm gpu (se_engine_base v + Z.of_nat i) (se_model v)
             (se_max_model_len v) (se_gpu_mem_util v) ("vllm_gpu" ++ gpu) true s in
           (s, ps ++ [p])%list)
    (s, []) (imap (fun i gpu => (i, gpu)) (take 2 gpus)).

Definition suite_body (v : SuiteEnv) (a : WorkshopArgs) (backends : list string) (s : Session) :
    Session * Outcome :=
  let '(s, p) := start_dio (take 1 backends) (se_dio_base v)
    (workshop_spec "nlms" "smoke" (se_tokenizer v) []) s in
  if negb (ready p) then (s, stopped 1 (Some "dio_smoke_failed"))
  else
    let s := kill_last (measure_act p s) in
    if (sr_ok (measure p 0) <? 1)%Z then (s, stopped 1 (Some "smoke_no_success"))
    else
      let '(s, (outs, ok)) := run_phases (wa_skip a) (workshop_phases backends v a) s in
      (s, mkOutcome (if ok then 0 else 1) (Some (if ok then "ok" else "error")) outs).

(** [main], from the parsed arguments; [finally] cleans up in every case. *)
Definition workshop_main (v : SuiteEnv) (a : WorkshopArgs) : Session * Outcome :=
  let a := apply_only_flags a in
  let '(s, out) :=
    if se_external v || str_truth (strip (se_backends v)) then
      match comma_list (se_backends v) with
      | [] | [_] => (session_init, stopped 2 None)
      | bs => suite_body v a bs session_init
      end
    else
      match comma_list (se_gpus v) with
      | [] | [_] => (session_init, stopped 2 None)
      | gpus =>
        let '(s, ps) := start_engines v gpus session_init in
        if forallb ready ps
        then suite_body v a (imap (fun i _ => local_url (se_engine_base v + Z.of_nat i)) ps) s
        else (s, stopped 1 (Some "engine_start_failed"))
      end in
  (cleanup s, out).
End Suites.
