(* ===== verification/GpuSuites.v ===== *)
(** The other suites that measure a running gateway: [kaggle/run_kaggle_followups.py],
    [run_real_hetero_multiseed.py], the experiments G2 to G5 of
    [run_gpu_cluster_validation.py], the configurations of [run_gpu_abc_suite.py], and the
    loads of [run_post_d_priority.py].  The processes are those of Suites.v. *)

From S2P Require Import Prelude PyFloat PyStats PyStr PyDict PySort Json Simulation ResultStats.
From S2P Require Import LoadClients RegimeD Config Backends AbcExperiments Suites.

Section GpuSuites.
Context {F : Type} {PF : PyFloat F} {PS : PyStats F} {MA : Machine}.
Local Open Scope float_scope.
Local Abbreviation json := (json F).
Variables (PY DELAY_PROXY : string).
Variable ready : Proc -> bool.

(** ** [run_kaggle_followups.py] *)

(** [pct]: NaN for no value. *)
Definition kaggle_pct (xs : list F) (p : Z) : F := default fnan (pct_lerp xs (fint p)).

(** [one]: the elapsed milliseconds and the worker of a 200. *)
Definition kaggle_one (x : Exchange F) : option (F * string) :=
  match x with
  | Reply status h ms =>
    if (status =? 200)%Z then Some (ms, header_or "unknown" h) else None
  | Raised => None
  end.

Record KRow : Type := mkKRow {
  kr_ok : Z;
  kr_fail : Z;
  kr_p50 : F;
  kr_p99 : F;
  kr_mean : option F;
  kr_frac_e0 : F;
  kr_routes : list (string * Z);
  kr_rps : F
}.

(** [concurrent_load]: the outcomes in the order in which the requests complete. *)
Definition concurrent_load (results : list (Exchange F)) (elapsed : F) : KRow :=
  let good := omap kaggle_one results in
  let e2e := map fst good in
  let routes := foldl (fun d w => count_route w d) [] (map snd good) in
  let ok := Z.of_nat (length good) in
  mkKRow ok (Z.of_nat (length results) - ok) (kaggle_pct e2e 50) (kaggle_pct e2e 99)
    (mean_or_none e2e) (route_share "e0" routes) routes
    (fint ok / py_max (fdec 1 (-6)) elapsed).

Definition KAGGLE_PROMPTS : list string :=
  ["What is 2+2? One sentence."; "Name three colors briefly."; "Explain gravity in one sentence.";
   "List two benefits of exercise."; "What is the capital of France?"].

(** A cell: the rows of the seeds, [None] for a gateway that did not start.  Every row has a
    p99, a NaN included. *)
Record KCell : Type := mkKCell {
  kc_concurrent : Z;
  kc_strategy : string;
  kc_p99 : MeanCi (F:=F);
  kc_p50 : MeanCi (F:=F);
  kc_frac_e0 : MeanCi (F:=F);
  kc_rps : MeanCi (F:=F);
  kc_rows : list (option KRow)
}.
Definition kaggle_cell (conc : Z) (strat : string) (rows : list (option KRow)) : KCell :=
  let good := omap id rows in
  mkKCell conc strat (mean_ci (map kr_p99 good)) (mean_ci (map kr_p50 good))
    (mean_ci (map kr_frac_e0 good)) (mean_ci (map kr_rps good)) rows.

Variable kmeasure : Proc -> Z -> option KRow.

Definition kaggle_runs (backends : list string) (tokenizer : string) (conc : Z) (strat : string)
    (dio_port seeds : Z) : list Run :=
  map (fun seed => dio_run PY backends (dio_port + seed) seed
         (workshop_spec strat
            ("conc_" ++ str_of_Z conc ++ "_" ++ strat ++ "_s" ++ str_of_Z seed) tokenizer []))
    (seqZ 0 seeds).

(** The cells by their key, in the order of the loops; every run takes the next port. *)
Fixpoint kaggle_cells (backends : list string) (tokenizer : string) (seeds dio_port : Z)
    (grid : list (Z * string)) (cells : list (string * KCell)) (s : Session) :
    Session * list (string * KCell) :=
  match grid with
  | [] => (s, cells)
  | (conc, strat) :: rest =>
    let '(s, rows) := seed_runs ready stop_pop kmeasure None
      (kaggle_runs backends tokenizer conc strat dio_port seeds) s in
    let key := ("c" ++ str_of_Z conc ++ "_" ++ strat)%string in
    kaggle_cells backends tokenizer seeds (dio_port + Z.max 0 seeds) rest
      (dset key (kaggle_cell conc strat rows) cells) s
  end.

(** [if a.get(k) and b.get(k) and b[k] > 0]. *)
Definition kaggle_gain (a b : option KRow) : option F :=
  match a, b with
  | Some a, Some b =>
    if ftruth (kr_p99 a) && ftruth (kr_p99 b) && (kr_p99 b >? f0)
    then Some (fint 100 * (kr_p99 b - kr_p99 a) / kr_p99 b) else None
  | _, _ => None
  end.
(** The gains of a cell over round robin: their mean, the wins, and out of how many. *)
Definition kaggle_gains (cell rr : KCell) : MeanCi (F:=F) * Z * Z :=
  let imps := omap (fun ab => kaggle_gain ab.1 ab.2) (zip (kc_rows cell) (kc_rows rr)) in
  (mean_ci imps, Z.of_nat (length (filter (fun x => (x >? f0) = true) imps)),
   Z.of_nat (length imps)).

(** The proxy of the skewed cell: the multiplier goes by a flag of its own. *)
Definition kaggle_proxy_cmd (upstream : string) (port : Z) (mult : F) : list string :=
  [PY; DELAY_PROXY; "--upstream"; upstream; "--port"; str_of_Z port; "--mult"; float_repr mult].
(** The options [latency_delay_proxy.py] declares; its parser takes an option by its name
    or by a prefix of it. *)
Definition PROXY_OPTIONS : list string := ["--upstream"; "--host"; "--port"; "--latency-mult"].
Definition proxy_option (flag : string) : list string :=
  filter (fun o => startswith flag o = true) PROXY_OPTIONS.

(** ** [run_real_hetero_multiseed.py] *)

Definition hetero_cmd (backends : list string) (port : Z) (strategy : string) : list string :=
  ([PY; "-m"; "dio"; "serve"; "--port"; str_of_Z port; "--host"; "127.0.0.1"; "--strategy";
    strategy; "--nlms-mode"; "dual"; "--slo-ms"; "180000"; "--admission-off"] ++
   backend_flags backends)%list.
Definition hetero_runs (backends : list string) (dio_base seeds : Z) (strat : string) : list Run :=
  map (fun seed =>
    let port := (dio_base + (if str_eqb strat "nlms" then 0 else 50) + seed)%Z in
    mkRun port (1000 + seed) ("dio_" ++ strat ++ "_s" ++ str_of_Z seed)
      (hetero_cmd backends port strat) []) (seqZ 0 seeds).

(** Only a gateway that came up is stopped. *)
Definition stop_measured : Stop := fun ok _ s => if ok then kill_last s else s.

Variable measure : Proc -> Z -> SeedRow (F:=F).

(** [G3_hetero]. *)
Record Hetero : Type := mkHetero {
  he_nlms_frac : Spread (F:=F);
  he_rr_frac : Spread (F:=F);
  he_nlms_p99 : Spread (F:=F);
  he_rr_p99 : Spread (F:=F);
  he_gain : Spread (F:=F);
  he_nlms : list (SeedRow (F:=F));
  he_rr : list (SeedRow (F:=F))
}.
Definition hetero_report (nlms rr : list (SeedRow (F:=F))) : Hetero :=
  mkHetero (mean_std (omap sr_frac_e0 nlms)) (mean_std (omap sr_frac_e0 rr))
    (mean_std (omap sr_p99 nlms)) (mean_std (omap sr_p99 rr))
    (mean_std (improvements (map sr_p99 nlms) (map sr_p99 rr))) nlms rr.
Definition hetero (backends : list string) (dio_base seeds : Z) (s : Session) : Session * Hetero :=
  let '(s, nlms) := seed_runs ready stop_measured measure row_not_started
    (hetero_runs backends dio_base seeds "nlms") s in
  let '(s, rr) := seed_runs ready stop_measured measure row_not_started
    (hetero_runs backends dio_base seeds "round_robin") s in
  (s, hetero_report nlms rr).

(** ** [run_gpu_cluster_validation.py] *)

Definition cluster_cmd (backends : list string) (port : Z)
    (strategy nlms_mode slo mode tokenizer : string) (admission_off : bool) : list string :=
  ([PY; "-m"; "dio"; "serve"; "--port"; str_of_Z port; "--host"; "127.0.0.1"; "--strategy";
    strategy; "--nlms-mode"; nlms_mode; "--slo-ms"; slo; "--admission-mode"; mode] ++
   (if admission_off then ["--admission-off"] else []) ++
   (if str_truth tokenizer then ["--tokenizer"; tokenizer] else []) ++
   backend_flags backends)%list.
Definition cluster_env (strategy nlms_mode slo mode tokenizer : string) (admission_off : bool) :
    list (string * string) :=
  ([("DIO_STRATEGY", strategy); ("DIO_NLMS_MODE", nlms_mode); ("DIO_SLO_MS", slo);
    ("DIO_ADMISSION_OFF", if admission_off then "1" else "0");
    ("DIO_ADMISSION_MODE", mode)] ++
   (if str_truth tokenizer
    then [("DIO_TOKENIZER_NAME", tokenizer); ("DIO_USE_TOKENIZER", "1")] else []))%list.
Definition cluster_run (backends : list string) (port seed : Z)
    (strategy nlms_mode slo mode tokenizer name : string) : Run :=
  mkRun port seed name (cluster_cmd backends port strategy nlms_mode slo mode tokenizer true)
    (cluster_env strategy nlms_mode slo mode tokenizer true).

(** A row of [run_load] there: the error row of a gateway that does not answer has no
    routes. *)
Record CRow : Type := mkCRow {
  cw_ok : Z;
  cw_routes : list (string * Z);
  cw_p50 : option F;
  cw_p99 : option F;
  cw_mean : option F;
  cw_mape : option F
}.
Definition cluster_row (health : bool) (l : RunLoad (F:=F)) (mape : option F) : CRow :=
  if health
  then mkCRow (rl_ok l) (rl_routes l) (pct (rl_e2e l) 50) (pct (rl_e2e l) 99)
         (mean_or_none (rl_e2e l)) mape
  else mkCRow 0 [] None None None None.

(** What a load gives; [None] is an exception of the client, which nothing catches. *)
Variable cmeasure : Proc -> Z -> option CRow.

(** The seeds of an arm: a gateway is killed by its process, and its handle stays.  A load
    that raises ends the arm, with its gateway running.  A row is [None] for a gateway that
    did not start. *)
Fixpoint try_runs {R} (measure : Proc -> Z -> option R) (rs : list Run) (s : Session) :
    Session * option (list (option R)) :=
  match rs with
  | [] => (s, Some [])
  | r :: rs' =>
    let '(s, p) := start (ru_name r) (ru_cmd r) (ru_env r) s in
    let next row s :=
      let '(s, rows) := try_runs measure rs' s in (s, option_map (cons row) rows) in
    if ready p then
      let s := measure_act p s in
      match measure p (ru_seed r) with
      | None => (s, None)
      | Some row => next (Some row) (kill_proc (pr_id p) s)
      end
    else next None (kill_proc (pr_id p) s)
  end.

(** *** [exp_G2_multiseed_matrix] *)

Definition g2_runs (backends : list string) (dio_base : Z) (slo mode tokenizer : string)
    (seeds : Z) (i : nat) (strat : string) : list Run :=
  map (fun seed => cluster_run backends (dio_base + (Z.of_nat i * 10 + seed)) seed strat "dual" slo
         mode tokenizer ("dio_" ++ strat ++ "_s" ++ str_of_Z seed)) (seqZ 0 seeds).
Definition g2_block (rows : list (option CRow)) : MeanCi (F:=F) * MeanCi (F:=F) * MeanCi (F:=F) * Z :=
  let good := omap id rows in
  (mean_ci (omap cw_p99 good), mean_ci (omap cw_p50 good), mean_ci (omap cw_mean good),
   sum_of cw_ok good).

(** *** [exp_G3_hetero] *)

(** The share of the first engine; a row without routes has one as well. *)
Definition g3_frac (r : CRow) : F := route_share "e0" (cw_routes r).
Definition g3_runs (backends : list string) (dio_port seeds : Z) (strat : string) : list Run :=
  map (fun seed => cluster_run backends
         (dio_port + (if str_eqb strat "nlms" then 0 else 50) + seed) (1000 + seed) strat "dual"
         "180000" "rank_only" "" ("hetero_" ++ strat ++ "_s" ++ str_of_Z seed)) (seqZ 0 seeds).

Record G3 : Type := mkG3 {
  g3_nlms_frac : MeanCi (F:=F); g3_rr_frac : MeanCi (F:=F);
  g3_nlms_p99 : MeanCi (F:=F); g3_rr_p99 : MeanCi (F:=F);
  g3_nlms_mape : MeanCi (F:=F); g3_rr_mape : MeanCi (F:=F);
  g3_gain : MeanCi (F:=F)
}.
Definition g3_report (nlms rr : list (option CRow)) : G3 :=
  let col {A} (f : CRow -> A) rows := map f (omap id rows) in
  mkG3 (mean_ci (col g3_frac nlms)) (mean_ci (col g3_frac rr))
    (mean_ci (omap id (col cw_p99 nlms))) (mean_ci (omap id (col cw_p99 rr)))
    (mean_ci (omap id (col cw_mape nlms))) (mean_ci (omap id (col cw_mape rr)))
    (mean_ci (improvements (map (fun r => r ≫= cw_p99) nlms) (map (fun r => r ≫= cw_p99) rr))).
(** The outer [None] is an exception, the inner one a skipped experiment. *)
Definition g3_hetero (backends : list string) (dio_port seeds : Z) (s : Session) :
    Session * option (option G3) :=
  match backends with
  | [] | [_] => (s, Some None)
  | _ =>
    match try_runs cmeasure (g3_runs backends dio_port seeds "nlms") s with
    | (s, None) => (s, None)
    | (s, Some nlms) =>
      match try_runs cmeasure (g3_runs backends dio_port seeds "round_robin") s with
      | (s, None) => (s, None)
      | (s, Some rr) => (s, Some (Some (g3_report nlms rr)))
      end
    end
  end.

(** *** [exp_G4_dual_vs_single] *)

Definition g4_runs (backends : list string) (dio_port seeds : Z) (mode : string) : list Run :=
  map (fun seed => cluster_run backends
         (dio_port + (if str_eqb mode "dual" then 0 else 30) + seed) (2000 + seed) "nlms" mode
         "180000" "rank_only" "" ("mode_" ++ mode ++ "_s" ++ str_of_Z seed)) (seqZ 0 seeds).
Definition g4_arm (rows : list (option CRow)) : MeanCi (F:=F) * MeanCi (F:=F) :=
  let good := omap id rows in (mean_ci (omap cw_p99 good), mean_ci (omap cw_mape good)).

(** *** [exp_G5_admission] *)

Record G5 : Type := mkG5 { g5_ok : Z; g5_503 : Z; g5_p99 : option F }.
Definition g5_arm (rows : list (ChatReply (F:=F))) : G5 :=
  let good := filter (fun r => (cr_status r =? 200)%Z = true) rows in
  mkG5 (Z.of_nat (length good))
    (Z.of_nat (length (filter (fun r => (cr_status r =? 503)%Z = true) rows)))
    (pct (map cr_ms good) 99).

(** ** [run_gpu_abc_suite.py] *)

Record AbcConfig : Type := mkAbcConfig {
  ac_name : string;
  ac_strategy : string;
  ac_engine_metrics : bool;
  ac_cache_bonus_ms : F;
  ac_admission_mode : string;
  ac_admission_off : bool;
  ac_slo_ms : F;
  ac_kv_cache_cost_ms : F;
  ac_engine_queue_cost_ms : F
}.
Definition abc_config (name strategy : string) (metrics : bool) (bonus : Z) : AbcConfig :=
  mkAbcConfig name strategy metrics (fint bonus) "rank_only" true (fint 180000) (fint 800) (fint 50).

(** [start_dio_ext]. *)
Definition abc_cmd (backends : list string) (port : Z) (tokenizer : string) (c : AbcConfig) :
    list string :=
  ([PY; "-m"; "dio"; "serve"; "--host"; "127.0.0.1"; "--port"; str_of_Z port; "--strategy";
    ac_strategy c; "--nlms-mode"; "dual"; "--slo-ms"; float_repr (ac_slo_ms c);
    "--admission-mode"; ac_admission_mode c; "--cache-bonus-ms"; float_repr (ac_cache_bonus_ms c)] ++
   (if ac_admission_off c then ["--admission-off"] else []) ++
   [if ac_engine_metrics c then "--engine-metrics" else "--no-engine-metrics"] ++
   (if str_truth tokenizer then ["--tokenizer"; tokenizer] else []) ++
   backend_flags backends)%list.
Definition abc_env (tokenizer : string) (c : AbcConfig) : list (string * string) :=
  ([("DIO_STRATEGY", ac_strategy c); ("DIO_ADMISSION_MODE", ac_admission_mode c);
    ("DIO_SLO_MS", float_repr (ac_slo_ms c));
    ("DIO_ADMISSION_OFF", if ac_admission_off c then "1" else "0");
    ("DIO_ENGINE_METRICS", if ac_engine_metrics c then "1" else "0");
    ("DIO_CACHE_BONUS_MS", float_repr (ac_cache_bonus_ms c));
    ("DIO_KV_CACHE_COST_MS", float_repr (ac_kv_cache_cost_ms c));
    ("DIO_ENGINE_QUEUE_COST_MS", float_repr (ac_engine_queue_cost_ms c));
    ("DIO_METRICS_INTERVAL_S", "0.5")] ++
   (if str_truth tokenizer
    then [("DIO_TOKENIZER_NAME", tokenizer); ("DIO_USE_TOKENIZER", "1")] else []))%list.

(** A row of either load: the multi-turn one has a stickiness, the admission one a reject
    rate; the hit rate and the disagreements are read from the gateway's report. *)
Record AbcRow : Type := mkAbcRow {
  ab_p99 : option F;
  ab_stickiness : option F;
  ab_reject_rate : option F;
  ab_hit_rate : option F;
  ab_disagree : option F
}.
Definition multiturn_row (l : LoadReport F) (hit : option F) (disagree : option F) : AbcRow :=
  mkAbcRow (lr_p99 l) (Some (lr_stickiness l)) None hit disagree.
Definition admission_row (n : nat) (a : AdmLoad (F:=F)) (disagree : option F) : AbcRow :=
  mkAbcRow (pct (al_e2e a) 99) None (Some (reject_rate n a)) None disagree.

Record AbcBlock : Type := mkAbcBlock {
  abk_p99 : MeanCi (F:=F);
  abk_stickiness : MeanCi (F:=F);
  abk_reject_rate : MeanCi (F:=F);
  abk_hit_rate : MeanCi (F:=F);
  abk_disagree : MeanCi (F:=F);
  abk_rows : list (option AbcRow)
}.
Definition abc_block (rows : list (option AbcRow)) : AbcBlock :=
  let col f := mean_ci (omap f (omap id rows)) in
  mkAbcBlock (col ab_p99) (col ab_stickiness) (col ab_reject_rate) (col ab_hit_rate)
    (col ab_disagree) rows.

Variable ameasure : Proc -> Z -> option AbcRow.

(** [multi_seed_block]: the load seeds are 1000 + seed for [multiturn], 2000 + seed for
    [admission]. *)
Definition abc_runs (backends : list string) (tokenizer label : string) (multiturn : bool)
    (dio_base seeds : Z) (ci : nat) (c : AbcConfig) : list Run :=
  map (fun seed =>
    let port := (dio_base + Z.of_nat ci * 50 + seed)%Z in
    mkRun port ((if multiturn then 1000 else 2000) + seed)
      (label ++ "_" ++ ac_name c ++ "_s" ++ str_of_Z seed)
      (abc_cmd backends port tokenizer c) (abc_env tokenizer c)) (seqZ 0 seeds).
Fixpoint multi_seed_block (backends : list string) (tokenizer label : string) (multiturn : bool)
    (dio_base seeds : Z) (ci : nat) (cfgs : list AbcConfig) (out : list (string * AbcBlock))
    (s : Session) : Session * list (string * AbcBlock) :=
  match cfgs with
  | [] => (s, out)
  | c :: rest =>
    let '(s, rows) := seed_runs ready stop_pop ameasure None
      (abc_runs backends tokenizer label multiturn dio_base seeds ci c) s in
    multi_seed_block backends tokenizer label multiturn dio_base seeds (S ci) rest
      (dset (ac_name c) (abc_block rows) out) s
  end.

(** *** The configurations of G1 to G4 *)

Definition G1_CONFIGS : list AbcConfig :=
  [abc_config "nlms_hybrid_on" "nlms" true 200; abc_config "nlms_metrics_only" "nlms" true 0;
   abc_config "nlms_affinity_only" "nlms" false 200; abc_config "nlms_hybrid_off" "nlms" false 0;
   abc_config "rr" "round_robin" false 0].
Definition G2_CONFIGS : list AbcConfig :=
  [abc_config "nlms_affinity" "nlms" true 400; abc_config "rr" "round_robin" true 0].
Definition g3_config (slo : F) (mode : string) : AbcConfig :=
  mkAbcConfig mode "nlms" true (fint 200) mode false slo (fint 800) (fint 50).
Definition G3_CONFIGS (slo : F) : list AbcConfig :=
  map (g3_config slo) ["absolute"; "empirical"; "rank_only"].
Definition g4_config (name : string) (kv q : F) : AbcConfig :=
  mkAbcConfig name "nlms" true (fint 200) "rank_only" true (fint 180000) kv q.
Definition G4_CONFIGS : list AbcConfig :=
  let kv := fint 800 in
  let q := fint 50 in
  [g4_config "default" kv q; g4_config "kv_m50" (kv * fdec 5 (-1)) q;
   g4_config "kv_p50" (kv * fdec 15 (-1)) q; g4_config "q_m50" kv (q * fdec 5 (-1));
   g4_config "q_p50" kv (q * fdec 15 (-1))].

(** *** The margins of the factorial *)

Definition paired_gain (a b : option AbcRow) : option F :=
  match a ≫= ab_p99, b ≫= ab_p99 with
  | Some a, Some b =>
    if ftruth a && ftruth b && (a >? f0) then Some (fint 100 * (a - b) / a) else None
  | _, _ => None
  end.
(** [_paired_gain]: over the seeds both arms have, by position. *)
Definition block_gain (g1 : list (string * AbcBlock)) (base treat : string) : option (MeanCi (F:=F)) :=
  match dget base g1, dget treat g1 with
  | Some b, Some t =>
    match omap (fun ab => paired_gain ab.1 ab.2) (zip (abk_rows b) (abk_rows t)) with
    | [] => None
    | out => Some (mean_ci out)
    end
  | _, _ => None
  end.
Definition factorial_margins (g1 : list (string * AbcBlock)) :
    list (string * option (MeanCi (F:=F))) :=
  [("engine_metrics_effect_pct", block_gain g1 "nlms_affinity_only" "nlms_hybrid_on");
   ("affinity_effect_pct", block_gain g1 "nlms_metrics_only" "nlms_hybrid_on");
   ("metrics_only_vs_off_pct", block_gain g1 "nlms_hybrid_off" "nlms_metrics_only");
   ("affinity_only_vs_off_pct", block_gain g1 "nlms_hybrid_off" "nlms_affinity_only");
   ("both_vs_rr_pct", block_gain g1 "rr" "nlms_hybrid_on")].

(** ** [run_post_d_priority.py] *)

(** [get_slopes]: for each worker the slow slope when it is there, the fast one
    otherwise, and the fields it is read from; [None] for the body is a failed call, which
    gives a report without slopes. *)
Definition worker_slope (d : list (string * json)) : json :=
  let s := bget "slow_slope" d in if is_none s then bget "fast_slope" d else s.
Definition slope_entry (d : list (string * json)) : json :=
  JDict [("slope", worker_slope d); ("fast_slope", bget "fast_slope" d);
         ("slow_slope", bget "slow_slope" d); ("intercept", bget "intercept" d);
         ("updates", bget "updates" d)].
Definition get_slopes (body : option json) : result PyExc (option (list (string * json))) :=
  match body with
  | None => Ok None
  | Some m =>
    ws ← jget "workers" m;
    match jor ws (JDict []) with
    | JDict d => Ok (Some (omap (fun kv => match kv.2 with
                                           | JDict w => Some (kv.1, slope_entry w)
                                           | _ => None
                                           end) d))
    | _ => Err AttributeError
    end
  end.

(** The load of a seed, and its record; [pct] there interpolates. *)
Definition post_pct (ys : list F) (p : Z) : option F :=
  match fsorted ys with
  | [] => None
  | s => Some (
      let last := (Z.of_nat (length s) - 1)%Z in
      let k := fint p / fint 100 * fint last in
      let lo := ftrunc k in
      let hi := Z.min last (ftrunc k + 1) in
      fnth s lo * (f1 - (k - fint lo)) + fnth s hi * (k - fint lo))
  end.
Record PostRow : Type := mkPostRow {
  po_ok : Z;
  po_fail : Z;
  po_frac : list (string * F);
  po_p50 : option F;
  po_p99 : option F;
  po_mean : option F
}.
(** [post_one] does not catch what the client raises: [None] ends the run. *)
Fixpoint post_load (xs : list (Exchange F)) (l : WLoad (F:=F)) : option (WLoad (F:=F)) :=
  match xs with
  | [] => Some l
  | Raised :: _ => None
  | x :: xs' => post_load xs' (wload_one l x)
  end.
Definition post_row (l : WLoad (F:=F)) : PostRow :=
  mkPostRow (wl_ok l) (wl_fail l) (route_fractions (wl_routes l)) (post_pct (wl_e2e l) 50)
    (post_pct (wl_e2e l) 99) (mean_or_none (wl_e2e l)).

(** [extra_d1_seeds]: the summary of an arm over the seeds with a p99. *)
Record PostAgg : Type := mkPostAgg {
  pa_p99_mean : F; pa_p99_std : F; pa_a30_frac_mean : F; pa_seeds_ok : Z
}.
Definition post_good (rows : list (option PostRow)) : list (F * F) :=
  omap (fun r => match r with
                 | Some r => p ← po_p99 r; Some (p, dget_or "a30" f0 (po_frac r))
                 | None => None
                 end) rows.
Definition post_agg (rows : list (option PostRow)) : option PostAgg :=
  match post_good rows with
  | [] => None
  | good =>
    Some (mkPostAgg (mean (map fst good)) (spread_of (map fst good)) (mean (map snd good))
            (Z.of_nat (length good)))
  end.

(** [ordering_preserved] of [calibration_from_prior]. *)
Definition ordering_preserved (ratio : json) : result PyExc (option bool) :=
  l ← jget "learned_ratio" (jor ratio (JDict []));
  o ← jget "ols_ratio" (jor ratio (JDict []));
  if is_none l || is_none o then Ok None
  else
    x ← jfloat l;
    if x <? f1 then y ← jfloat o; Ok (Some (y <? f1)) else Ok (Some false).
End GpuSuites.
