(* ===== verification/RegimeRuns.v ===== *)
(** The runs around the experiments of RegimeD.v and Simulation.v: the gateways
    [run_regime_d_hetero.py] starts with declared memory, its cells D1 to D3 and [main]; the
    discovery and the extra seeds of [run_post_d_priority.py]; both modes of
    [run_rls_headtohead.py].  Processes are those of Suites.v; whether one comes up, the
    draws of a seed and what a load gives are parameters. *)

From S2P Require Import Prelude PyFloat PyStats PyStr PyDict PySort Json Config Admission.
From S2P Require Import Learner Scheduler Simulation ResultStats LoadClients RegimeD Backends.
From S2P Require Import Requests Routes AbcExperiments Suites GpuSuites.

(** [session.handles.remove(proc)]: process numbers are unique. *)
Definition remove_handle (id : nat) (s : Session) : Session :=
  mkSession (filter (fun p => pr_id p <> id) (ss_handles s)) (ss_next s) (ss_alive s) (ss_acts s)
    (ss_left s).

Section RegimeRuns.
Context {F : Type} {PF : PyFloat F} {PS : PyStats F} {MA : Machine}.
Local Open Scope float_scope.
Local Abbreviation json := (json F).
Local Abbreviation urls := (list (string * string)).
Variables (PY MOCK_SERVER : string).
Variable ready : Proc -> bool.

(** ** [start_dio] of [run_regime_d_hetero.py] *)

Definition declared_vram (vram : list (string * F)) (bid : string) : F :=
  dget_or bid (fint 24000) vram.
(** The values of [-b] and of [--vram], in the order of the backends. *)
Definition kv_values (backends : urls) : list string :=
  map (fun b => (b.1 ++ "=" ++ b.2)%string) backends.
Definition vram_values (vram : list (string * F)) (backends : urls) : list F :=
  map (fun b => declared_vram vram b.1) backends.
Definition kv_flags (vram : list (string * F)) (backends : urls) : list string :=
  (concat (map (fun v => ["-b"; v]) (kv_values backends)) ++
   concat (map (fun x => ["--vram"; float_repr x]) (vram_values vram backends)))%list.

Definition regime_cmd (backends : urls) (vram : list (string * F)) (port : Z)
    (strategy tokenizer : string) (engine_metrics : bool) : list string :=
  ([PY; "-m"; "dio"; "serve"; "--host"; "127.0.0.1"; "--port"; str_of_Z port; "--strategy";
    strategy; "--nlms-mode"; "dual"; "--slo-ms"; "180000"; "--admission-off";
    "--admission-mode"; "rank_only"] ++
   [if engine_metrics then "--engine-metrics" else "--no-engine-metrics"] ++
   (if str_truth tokenizer then ["--tokenizer"; tokenizer] else []) ++ kv_flags vram backends)%list.

(** ** Cells *)

Record DCell : Type := mkDCell {
  dc_strategy : string;
  dc_seed : Z;
  dc_port : Z;
  dc_workload : result PyExc (list (string * Z));
  dc_tag : string
}.

(** The backends and the settings all cells share. *)
Record Fleet : Type := mkFleet {
  fl_backends : urls;
  fl_vram : list (string * F);
  fl_tokenizer : string;
  fl_requests : nat;
  fl_dio_base : Z
}.

(** [run_load] on a gateway. *)
Variable load : Proc -> list (string * Z) -> result PyExc (Row F).
(** The generator of a seed. *)
Variables (randint : Z -> nat -> Z -> Z -> Z) (choice : Z -> nat -> list Z -> Z).

(** [build_workload]: choosing among no values raises. *)
Definition workload_of (n : nat) (seed : Z) (choices : list Z) : result PyExc (list (string * Z)) :=
  match n, choices with
  | S _, [] => Err IndexMissing
  | _, _ => Ok (build_workload (randint seed) (choice seed) n seed choices)
  end.

(** [_one_seed]: [finally] ends this gateway and takes its handle off the session. *)
Definition one_seed (f : Fleet) (c : DCell) (s : Session) :
    Session * result PyExc (option (Row F)) :=
  match dc_workload c with
  | Err e => (s, Err e)
  | Ok items =>
    let '(s, p) := start ("dio_" ++ dc_tag c ++ "_" ++ dc_strategy c ++ "_s" ++ str_of_Z (dc_seed c))
      (regime_cmd (fl_backends f) (fl_vram f) (dc_port c) (dc_strategy c) (fl_tokenizer f) true)
      [("DIO_METRICS_INTERVAL_S", "0.5")] s in
    let '(s, row) := if ready p
                     then (measure_act p s, x ← load p items; Ok (Some x))
                     else (s, Ok None) in
    (remove_handle (pr_id p) (kill_proc (pr_id p) s), row)
  end.
Fixpoint one_seeds (f : Fleet) (cs : list DCell) (s : Session) :
    Session * result PyExc (list (option (Row F))) :=
  match cs with
  | [] => (s, Ok [])
  | c :: cs' =>
    let '(s, r) := one_seed f c s in
    match r with
    | Err e => (s, Err e)
    | Ok row => let '(s, rows) := one_seeds f cs' s in (s, rest ← rows; Ok (row :: rest))
    end
  end.

(** *** [run_d1] *)

Definition d1_cells (f : Fleet) (max_tokens : list Z) (seeds : Z) (si : nat) (strat : string) :
    list DCell :=
  map (fun seed => mkDCell strat seed (fl_dio_base f + Z.of_nat si * 50 + seed)
         (workload_of (fl_requests f) (1000 + seed) max_tokens) "d1") (seqZ 0 seeds).

(** The rows by strategy: a strategy named twice gets the rows of both. *)
Fixpoint d1_rows (f : Fleet) (max_tokens : list Z) (seeds : Z) (si : nat) (strategies : list string)
    (rows : list (string * list (option (Row F)))) (s : Session) :
    Session * result PyExc (list (string * list (option (Row F)))) :=
  match strategies with
  | [] => (s, Ok rows)
  | strat :: rest =>
    let '(s, r) := one_seeds f (d1_cells f max_tokens seeds si strat) s in
    match r with
    | Err e => (s, Err e)
    | Ok new => d1_rows f max_tokens seeds (S si) rest
                  (dset strat (dget_or strat [] rows ++ new)%list rows) s
    end
  end.

Definition gain_key (strat : string) : string :=
  if str_eqb strat "nlms" then "p99_improvement_vs_rr"
  else "p99_improvement_vs_rr_" ++ strat.
(** The arms, and the gains over round robin when it is among them. *)
Definition d1_report (strategies : list string) (rows : list (string * list (option (Row F)))) :
    list (string * Arm (F:=F)) * list (string * (MeanStd (F:=F) * Z * Z)) :=
  (foldl (fun d strat => dset strat (arm_summary (dget_or strat [] rows)) d) [] strategies,
   match dget "round_robin" rows with
   | Some rr =>
     foldl (fun d strat => if str_eqb strat "round_robin" then d
                           else dset (gain_key strat) (d1_gains (dget_or strat [] rows) rr) d)
       [] strategies
   | None => []
   end).
Definition run_d1 (f : Fleet) (strategies : list string) (seeds : Z) (max_tokens : list Z)
    (s : Session) :
    Session * result PyExc (list (string * Arm (F:=F)) * list (string * (MeanStd (F:=F) * Z * Z))) :=
  let '(s, rows) := d1_rows f max_tokens seeds 0 strategies
    (foldl (fun d strat => dset strat [] d) [] strategies) s in
  (s, rows' ← rows; Ok (d1_report strategies rows')).

(** *** [run_d2] *)

Record D2 : Type := mkD2 {
  d2_workers : list (string * WorkerFit (F:=F));
  d2_pair : option (string * option F * option F);
  d2_learned : option (Normalised F);
  d2_ols : option (Normalised F)
}.
Definition d2_report (vram : list (string * F)) (rows : list (option (Row F))) : D2 :=
  let fits := by_worker vram rows in
  let wids := ssorted (map fst fits) in
  let learned w := dget w fits ≫= fun x => ms_mean (wf_learned x) in
  let ols w := dget w fits ≫= fun x => ols_fit_slope (wf_ols x) in
  mkD2 fits
    (match wids with
     | [a; b] => Some ((a ++ "/" ++ b)%string, slope_ratio (learned a) (learned b),
                       slope_ratio (ols a) (ols b))
     | _ => None
     end)
    (normalise (map (fun w => (w, learned w)) wids)) (normalise (map (fun w => (w, ols w)) wids)).
Definition d2_cells (f : Fleet) (max_tokens : list Z) (seeds : Z) : list DCell :=
  map (fun seed => mkDCell "round_robin" seed (fl_dio_base f + 400 + seed)
         (workload_of (fl_requests f) (5000 + seed) max_tokens) "d2") (seqZ 0 seeds).
Definition run_d2 (f : Fleet) (seeds : Z) (max_tokens : list Z) (s : Session) :
    Session * result PyExc D2 :=
  let '(s, rows) := one_seeds f (d2_cells f max_tokens seeds) s in
  (s, rows' ← rows; Ok (d2_report (fl_vram f) rows')).

(** *** [run_d3] *)

(** [int(x) for x in s.split(",") if x.strip()]. *)
Definition int_list (s : string) : result PyExc (list Z) :=
  map_result (fun x => jint (JStr x : json))
    (filter (fun x => str_truth (strip x) = true) (split "," s)).

Definition d3_cells (f : Fleet) (seeds : Z) (li : nat) (L : Z) : list DCell :=
  map (fun seed => mkDCell "nlms" seed (fl_dio_base f + 600 + Z.of_nat li * 20 + seed)
         (workload_of (fl_requests f) (7000 + seed) [L]) ("d3_" ++ str_of_Z L)) (seqZ 0 seeds).
Fixpoint d3_lengths (f : Fleet) (seeds : Z) (li : nat) (lengths : list Z)
    (cells : list (string * D3Cell (F:=F))) (s : Session) :
    Session * result PyExc (list (string * D3Cell (F:=F))) :=
  match lengths with
  | [] => (s, Ok cells)
  | L :: rest =>
    let '(s, rows) := one_seeds f (d3_cells f seeds li L) s in
    match rows with
    | Err e => (s, Err e)
    | Ok rows => d3_lengths f seeds (S li) rest
                   (dset (str_of_Z L) (d3_cell (map fst (fl_backends f)) rows) cells) s
    end
  end.
Definition run_d3 (f : Fleet) (spec : string) (seeds : Z) (s : Session) :
    Session * result PyExc (list (string * D3Cell (F:=F))) :=
  match int_list spec with
  | Err e => (s, Err e)
  | Ok lengths => d3_lengths f seeds 0 lengths [] s
  end.

(** ** [main] of [run_regime_d_hetero.py] *)

Definition MOCK_SPECS : list (string * Z * F * F) :=
  [("a100", 18102, fint 250, fint 40000); ("l4", 18101, fint 750, fint 24000)]%Z.
Definition MOCK_SPECS_3 : list (string * Z * F * F) :=
  (MOCK_SPECS ++ [("l40s", 18103%Z, fint 430, fint 48000)])%list.

Definition start_mocks (specs : list (string * Z * F * F)) (s : Session) :
    Session * (urls * list (string * F) * list Proc) :=
  foldl (fun '(s, (backends, vram, ps)) '(bid, port, latency_ms, vram_mb) =>
           let '(s, p) := start ("mock_" ++ bid)
             [PY; MOCK_SERVER; "--port"; str_of_Z port; "--latency-ms"; float_repr latency_ms;
              "--model"; "mock-model"] [] s in
           (s, ((backends ++ [(bid, local_url port)])%list, dset bid vram_mb vram, (ps ++ [p])%list)))
    (s, ([], [], [])) specs.

Record RegimeArgs : Type := mkRegimeArgs {
  rg_backends : string;
  rg_vram : string;
  rg_tokenizer : string;
  rg_seeds : Z;
  rg_requests : Z;
  rg_max_tokens_list : string;
  rg_strategies : string;
  rg_no_d1 : bool;
  rg_d2 : bool;
  rg_d3 : bool;
  rg_d3_lengths : string;
  rg_d3_seeds : Z;
  rg_mock : bool;
  rg_mock3 : bool;
  rg_base_port : Z
}.

Definition STRATEGIES : list string := ["nlms"; "rls"; "round_robin"; "least_loaded"].

(** [{k: float(v)}]: a later entry of a key replaces the value. *)
Definition vram_table (spec : string) : result PyExc (list (string * F)) :=
  if str_truth (strip spec) then
    kvs ← map_result (fun kv => x ← jfloat (JStr kv.2 : json); Ok (kv.1, x)) (parse_kv spec);
    Ok (foldl (fun d kv => dset kv.1 kv.2 d) [] kvs)
  else Ok [].

(** What the experiments gave, by the keys of the summary. *)
Inductive RegimeOut : Type :=
| OutD1 (arms : list (string * Arm (F:=F))) (gains : list (string * (MeanStd (F:=F) * Z * Z)))
| OutD2 (d : D2)
| OutD3 (cells : list (string * D3Cell (F:=F))).

(** The experiments that ran, and whether none of them raised. *)
Local Abbreviation progress := (list RegimeOut * bool)%type.

(** An experiment that is asked for; after one that raised, none is run. *)
Definition cell_of {A} (asked : bool) (run : Session -> Session * result PyExc A)
    (out : A -> RegimeOut) (st : Session * progress) : Session * progress :=
  let '(s, (outs, ok)) := st in
  if asked && ok then
    let '(s, r) := run s in
    (s, match r with Ok x => ((outs ++ [out x])%list, true) | Err _ => (outs, false) end)
  else st.

Definition regime_body (a : RegimeArgs) (backends : urls) (vram : list (string * F))
    (tokenizer : string) (s : Session) : Session * progress :=
  let f := mkFleet backends vram tokenizer (Z.to_nat (rg_requests a)) (rg_base_port a) in
  match int_list (rg_max_tokens_list a) with
  | Err _ => (s, ([], false))
  | Ok max_tokens =>
    let strategies := filter (fun x => str_in x STRATEGIES = true) (comma_list (rg_strategies a)) in
    cell_of (rg_d3 a) (run_d3 f (rg_d3_lengths a) (rg_d3_seeds a)) OutD3
      (cell_of (rg_d2 a) (run_d2 f (rg_seeds a) max_tokens) OutD2
         (cell_of (negb (rg_no_d1 a)) (run_d1 f strategies (rg_seeds a) max_tokens)
            (fun x => OutD1 x.1 x.2) (s, ([], true))))
  end.

(** [reached url]: whether an engine that is not ours answers. *)
Variable reached : string -> bool.

(** The exit code and the experiments that ran; [finally] cleans up. *)
Definition regime_main (a : RegimeArgs) : Session * (Z * list RegimeOut) :=
  let finish (x : Session * progress) := (x.1, ((if x.2.2 then 0 else 1)%Z, x.2.1)) in
  let '(s, out) :=
    if rg_mock a || rg_mock3 a then
      let '(s, (backends, vram, ps)) :=
        start_mocks (if rg_mock3 a then MOCK_SPECS_3 else MOCK_SPECS) session_init in
      if forallb ready ps then finish (regime_body a backends vram "" s) else (s, (1%Z, []))
    else
      match parse_kv (rg_backends a) with
      | [] | [_] => (session_init, (2%Z, []))
      | backends =>
        match vram_table (rg_vram a) with
        | Err _ => (session_init, (1%Z, []))
        | Ok vram =>
          if forallb (fun b => reached b.2) backends
          then finish (regime_body a backends vram (rg_tokenizer a) session_init)
          else (session_init, (1%Z, []))
        end
      end in
  (cleanup s, out).
End RegimeRuns.

(** ** [run_post_d_priority.py] *)

Section PostD.
Context {F : Type} {PF : PyFloat F} {PS : PyStats F} {MA : Machine}.
Local Open Scope float_scope.
Local Abbreviation json := (json F).
Local Abbreviation urls := (list (string * string)).
Variable PY : string.
Variable ready : Proc -> bool.
Variables (randint : Z -> nat -> Z -> Z -> Z) (choice : Z -> nat -> list Z -> Z).

(** [subprocess.Popen] without a session: nobody keeps a handle but the caller. *)
Definition popen (name : string) (cmd : list string) (env : list (string * string)) (s : Session) :
    Session * Proc :=
  let '(s, p) := start name cmd env s in (remove_handle (pr_id p) s, p).

Definition post_cmd (backends : urls) (vram : list (string * F)) (port : Z)
    (strategy tokenizer : string) : list string :=
  ([PY; "-m"; "dio"; "serve"; "--host"; "127.0.0.1"; "--port"; str_of_Z port; "--strategy";
    strategy; "--nlms-mode"; "dual"; "--slo-ms"; "180000"; "--admission-off";
    "--admission-mode"; "rank_only"; "--engine-metrics"] ++
   (if str_truth tokenizer then ["--tokenizer"; tokenizer] else []) ++ kv_flags vram backends)%list.
Definition post_start (backends : urls) (vram : list (string * F)) (port : Z)
    (strategy tokenizer log : string) (s : Session) : Session * Proc :=
  popen log (post_cmd backends vram port strategy tokenizer) [("DIO_METRICS_INTERVAL_S", "0.5")] s.

(** The answers of a gateway to a workload, and the two slopes after each request of the
    discovery; [None] is an exception of the client. *)
Variables (answers : Proc -> list (string * Z) -> list (Exchange F))
          (slopes : Proc -> list (string * Z) -> option (list (option F * option F))).

(** A gateway of its own for a measurement, ended by [finally]; an outer [None] is an
    exception, an inner one a gateway that did not start. *)
Definition with_gateway {A} (backends : urls) (vram : list (string * F)) (port : Z)
    (strategy tokenizer log : string) (body : Proc -> option A) (s : Session) :
    Session * option (option A) :=
  let '(s, p) := post_start backends vram port strategy tokenizer log s in
  if ready p
  then (kill_proc (pr_id p) (measure_act p s), match body p with
                                               | Some x => Some (Some x)
                                               | None => None
                                               end)
  else (kill_proc (pr_id p) s, Some None).

Definition post_choices : list Z := [32; 64; 128; 256].

(** [discovery_run]. *)
Definition discovery_run (backends : urls) (vram : list (string * F)) (tokenizer : string)
    (max_requests : nat) (margin : F) (port : Z) (s : Session) :
    Session * option (option (option Z * option Z * list bool)) :=
  with_gateway backends vram port "nlms" tokenizer "discovery_gateway"
    (fun p => l ← slopes p (build_workload (randint 4242) (choice 4242) max_requests 4242
                              post_choices);
              Some (discovery margin l)) s.

(** [extra_d1_seeds]: the rows of the strategies, [None] when a client raised. *)
Fixpoint extra_rows (backends : urls) (vram : list (string * F)) (tokenizer : string)
    (requests : nat) (cells : list (string * Z * Z)) (rows : list (string * list (option (PostRow (F:=F)))))
    (s : Session) : Session * option (list (string * list (option (PostRow (F:=F))))) :=
  match cells with
  | [] => (s, Some rows)
  | (strat, seed, port) :: rest =>
    let workload := build_workload (randint (1000 + seed)) (choice (1000 + seed)) requests
                      (1000 + seed) post_choices in
    let '(s, r) := with_gateway backends vram port strat tokenizer
      ("extra_d1_" ++ strat ++ "_s" ++ str_of_Z seed)%string
      (fun p => l ← post_load (answers p workload) wload_init; Some (post_row l)) s in
    match r with
    | None => (s, None)
    | Some row => extra_rows backends vram tokenizer requests rest
                    (dset strat (dget_or strat [] rows ++ [row])%list rows) s
    end
  end.
Definition extra_cells (strategies : list string) (n_seeds seed_offset base_port : Z) :
    list (string * Z * Z) :=
  concat (imap (fun si strat =>
    map (fun j => (strat, seed_offset + j, base_port + Z.of_nat si * 50 + j)%Z) (seqZ 0 n_seeds))
    strategies).
Definition extra_d1_seeds (backends : urls) (vram : list (string * F)) (tokenizer : string)
    (strategies : list string) (n_seeds seed_offset : Z) (requests : nat) (base_port : Z)
    (s : Session) : Session * option (list (string * PostAgg (F:=F))) :=
  let '(s, rows) := extra_rows backends vram tokenizer requests
    (extra_cells strategies n_seeds seed_offset base_port)
    (foldl (fun d strat => dset strat [] d) [] strategies) s in
  (s, option_map (omap (fun kv => option_map (fun a => (kv.1, a)) (post_agg kv.2))) rows).

Record PostArgs : Type := mkPostArgs {
  pa_backends : string;
  pa_vram : string;
  pa_tokenizer : string;
  pa_discovery_max : nat;
  pa_margin : F;
  pa_extra_seeds : Z;
  pa_seed_offset : Z;
  pa_requests : nat;
  pa_skip_discovery : bool;
  pa_skip_extra_seeds : bool;
  pa_base_port : Z
}.

Variable reached : string -> bool.

(** [main] without the calibration: the exit code, [None] when it raised. *)
Definition post_main (a : PostArgs) : Session * option Z :=
  let backends := parse_kv (pa_backends a) in
  match map_result (fun kv => x ← jfloat (JStr kv.2 : json); Ok (kv.1, x)) (parse_kv (pa_vram a)) with
  | Err _ => (session_init, None)
  | Ok kvs =>
    let vram := foldl (fun d kv => dset kv.1 kv.2 d) [] kvs in
    if negb (forallb (fun b => reached b.2) backends) then (session_init, Some 1%Z)
    else
      let '(s, ok1) :=
        if pa_skip_discovery a then (session_init, true)
        else let '(s, r) := discovery_run backends vram (pa_tokenizer a) (pa_discovery_max a)
                              (pa_margin a) (pa_base_port a) session_init in
             (s, match r with Some _ => true | None => false end) in
      if negb ok1 then (s, None)
      else
        let '(s, ok2) :=
          if pa_skip_extra_seeds a then (s, true)
          else let '(s, r) := extra_d1_seeds backends vram (pa_tokenizer a) ["nlms"; "rls"]
                                (pa_extra_seeds a) (pa_seed_offset a) (pa_requests a)
                                (pa_base_port a + 100) s in
               (s, match r with Some _ => true | None => false end) in
        (s, if ok2 then Some 0%Z else None)
  end.
End PostD.

(** ** The simulated head-to-head of [run_rls_headtohead.py] *)

Section HeadToHead.
Context {F : Type} {PF : PyFloat F} {PS : PyStats F} {MA : Machine}.
Local Open Scope float_scope.
(** The draws of a seed, and the clock of a run of a strategy. *)
Variables (rand : Z -> nat -> F) (clock : string -> Z -> nat -> Z).

Record HeadArm : Type := mkHeadArm {
  hd_frac_fast : MeanCi (F:=F);
  hd_p99 : MeanCi (F:=F);
  hd_mape : MeanCi (F:=F);
  hd_rows : list (SeedReport (F:=F));
  hd_gain : option (MeanCi (F:=F))
}.

Definition head_strategies : list string := ["nlms"; "rls"; "round_robin"; "least_loaded"].

(** The seeds of a strategy; [None] when one raised. *)
Definition head_rows (strat : string) (n : nat) (seeds : Z) : option (list (SeedReport (F:=F))) :=
  mapM (fun seed => match sim_seed (rand seed) (clock strat seed) strat n with
                    | Ok (Some r) => Some r
                    | _ => None
                    end) (seqZ 0 seeds).

(** An absent error counts as none at all. *)
Definition head_arm (rows : list (SeedReport (F:=F))) : HeadArm :=
  mkHeadArm (mean_ci (map sr_frac_fast rows)) (mean_ci (map Simulation.sr_p99 rows))
    (mean_ci (map (fun r => if ftruth (Simulation.sr_mape r) then Simulation.sr_mape r else f0) rows))
    rows None.
Definition head_gains (rr rows : list (SeedReport (F:=F))) : list F :=
  omap (fun ab => let '(b, a) := ab in
                  if Simulation.sr_p99 b >? f0
                  then Some ((Simulation.sr_p99 b - Simulation.sr_p99 a) / Simulation.sr_p99 b
                             * fint 100)
                  else None) (zip rr rows).
Definition run_sim (seeds : Z) (n : nat) : option (list (string * HeadArm)) :=
  arms ← mapM (fun strat => rows ← head_rows strat n seeds; Some (strat, head_arm rows))
           head_strategies;
  rr ← dget "round_robin" arms;
  Some (map (fun kv => if str_eqb kv.1 "round_robin" then kv
                       else (kv.1, mkHeadArm (hd_frac_fast kv.2) (hd_p99 kv.2) (hd_mape kv.2)
                                     (hd_rows kv.2)
                                     (Some (mean_ci (head_gains (hd_rows rr) (hd_rows kv.2))))))
          arms).
End HeadToHead.
