(* ===== verification/SuiteMains.v ===== *)
(** [main] of the suites of GpuSuites.v: how each comes by its engines, in which order it runs
    its experiments, and with which exit code it ends ([run_real_hetero_multiseed.py],
    [run_rls_headtohead.py], [kaggle/run_kaggle_followups.py], [run_gpu_abc_suite.py],
    [run_gpu_cluster_validation.py]). *)

From S2P Require Import Prelude PyFloat PyStats PyStr PyDict PySort Json Simulation ResultStats.
From S2P Require Import LoadClients RegimeD Config Backends AbcExperiments Emulation Suites GpuSuites.
From S2P Require Import RegimeRuns.

Section SuiteMains.
Context {F : Type} {PF : PyFloat F} {PS : PyStats F} {MA : Machine}.
Local Open Scope float_scope.
Local Abbreviation json := (json F).
Local Abbreviation env := (SuiteEnv (F:=F)).
Variables (PY DELAY_PROXY : string).
Variable ready : Proc -> bool.

(** ** Engines *)

(** An engine for each device, by its name and port. *)
Definition start_each (v : env) (caching : bool) (l : list (string * Z * string)) (s : Session) :
    Session * list Proc :=
  foldl (fun '(s, ps) '(gpu, port, name) =>
           let '(s, p) := start_vllm PY gpu port (se_model v) (se_max_model_len v)
             (se_gpu_mem_util v) name caching s in
           (s, ps ++ [p])%list) (s, []) l.
Definition gpu_engines (v : env) (gpus : list string) : list (string * Z * string) :=
  imap (fun i gpu => (gpu, se_engine_base v + Z.of_nat i, "vllm_gpu" ++ gpu)%Z%string) gpus.
Definition engine_urls (l : list (string * Z * string)) : list string :=
  map (fun e => local_url e.1.2) l.

Definition external (v : env) : bool := se_external v || str_truth (strip (se_backends v)).

(** The second backend behind the delay proxy. *)
Definition start_proxy (v : env) (name : string) (upstream : string) (s : Session) :
    Session * Proc :=
  start name (proxy_cmd PY DELAY_PROXY upstream (se_proxy_port v) (se_slow_mult v)) [] s.

(** What a suite comes to: its exit code, and its report when there is one. *)
Local Abbreviation outcome R := (Z * option R)%type.

(** ** [run_real_hetero_multiseed.py] *)

Variable measure : Proc -> Z -> SeedRow (F:=F).

Definition hetero_body (v : env) (seeds : Z) (backends : list string) (s : Session) :
    Session * outcome (Hetero (F:=F)) :=
  let '(s, p) := start_proxy v "delay_proxy_slow" (nth 1 backends "") s in
  if ready p
  then let '(s, h) := hetero PY ready measure
         [nth 0 backends ""; local_url (se_proxy_port v)] (se_dio_base v) seeds s in
       (s, (0%Z, Some h))
  else (s, (1%Z, None)).
Definition hetero_main (v : env) (seeds : Z) : Session * outcome (Hetero (F:=F)) :=
  let '(s, out) :=
    if external v then
      match comma_list (se_backends v) with
      | [] | [_] => (session_init, (2%Z, None))
      | backends => hetero_body v seeds backends session_init
      end
    else
      match comma_list (se_gpus v) with
      | [] | [_] => (session_init, (2%Z, None))
      | gpus =>
        let engines := gpu_engines v (take 2 gpus) in
        let '(s, ps) := start_each v false engines session_init in
        if forallb ready ps then hetero_body v seeds (engine_urls engines) s
        else (s, (1%Z, None))
      end in
  (cleanup s, out).

(** ** [run_real] of [run_rls_headtohead.py] *)

Variable hash : string -> Z.

Definition real_cmd (backends : list string) (port : Z) (strategy tokenizer : string) : list string :=
  ([PY; "-m"; "dio"; "serve"; "--port"; str_of_Z port; "--host"; "127.0.0.1"; "--strategy";
    strategy; "--nlms-mode"; "dual"; "--slo-ms"; "180000"; "--admission-off";
    "--admission-mode"; "rank_only"] ++
   (if str_truth tokenizer then ["--tokenizer"; tokenizer] else []) ++
   backend_flags backends)%list.
Definition real_runs (v : env) (backends : list string) (seeds : Z) (strat : string) : list Run :=
  map (fun seed =>
    let port := (se_dio_base v + hash strat mod 100 + seed)%Z in
    mkRun port (2000 + seed) ("dio_" ++ strat ++ "_s" ++ str_of_Z seed)
      (real_cmd backends port strat (se_tokenizer v)) []) (seqZ 0 seeds).

Record RealArm : Type := mkRealArm {
  re_frac_e0 : MeanCi (F:=F); re_p99 : MeanCi (F:=F); re_mape : MeanCi (F:=F)
}.
Definition real_arm (rows : list (SeedRow (F:=F))) : result PyExc RealArm :=
  mapes ← mape_values rows;
  Ok (mkRealArm (mean_ci (omap sr_frac_e0 rows)) (mean_ci (omap sr_p99 rows)) (mean_ci mapes)).
Fixpoint real_arms (v : env) (backends : list string) (seeds : Z) (strategies : list string)
    (out : list (string * RealArm)) (s : Session) : Session * (list (string * RealArm) * bool) :=
  match strategies with
  | [] => (s, (out, true))
  | strat :: rest =>
    let '(s, rows) := seed_runs ready stop_measured measure row_not_started
      (real_runs v backends seeds strat) s in
    match real_arm rows with
    | Ok a => real_arms v backends seeds rest (dset strat a out) s
    | Err _ => (s, (out, false))
    end
  end.

(** The proxy of this mode listens on the default host. *)
Definition real_proxy_cmd (upstream : string) (port : Z) (mult : F) : list string :=
  [PY; DELAY_PROXY; "--upstream"; upstream; "--port"; str_of_Z port; "--latency-mult";
   float_repr mult].
Definition real_body (v : env) (seeds : Z) (backends : list string) (s : Session) :
    Session * (list (string * RealArm) * bool) :=
  let strategies := comma_list (se_strategies_a v) in
  match backends with
  | b0 :: b1 :: _ =>
    if se_slow_mult v >? f1 then
      let '(s, p) := start "delay_proxy" (real_proxy_cmd b1 (se_proxy_port v) (se_slow_mult v)) [] s in
      if ready p then real_arms v [b0; local_url (se_proxy_port v)] seeds strategies [] s
      else (s, ([], false))
    else real_arms v backends seeds strategies [] s
  | _ => real_arms v backends seeds strategies [] s
  end.
(** The arms that were finished; the exit code is 0 when none of this raised. *)
Definition run_real (v : env) (seeds : Z) : Session * (Z * list (string * RealArm)) :=
  let '(s, (out, ok)) :=
    if str_truth (strip (se_backends v))
    then real_body v seeds (comma_list (se_backends v)) session_init
    else
      let engines := gpu_engines v (take 2 (comma_list (se_gpus v))) in
      let '(s, ps) := start_each v false engines session_init in
      if forallb ready ps then real_body v seeds (engine_urls engines) s else (s, ([], false)) in
  (cleanup s, ((if ok then 0 else 1)%Z, out)).

(** ** [run_kaggle_followups.py] *)

(** [start_dual_vllm]: the second engine is started when the first is up; [None] when it
    raises. *)
Fixpoint dual_vllm (v : env) (l : list (string * Z * string)) (urls : list string) (s : Session) :
    Session * option (list string) :=
  match l with
  | [] => (s, Some urls)
  | (gpu, port, name) :: rest =>
    let '(s, p) := start_vllm PY gpu port (se_model v) 2048 (fdec 85 (-2)) name false s in
    if ready p then dual_vllm v rest (urls ++ [local_url port])%list s else (s, None)
  end.
Definition start_dual_vllm (v : env) (s : Session) : Session * option (list string) :=
  match int_list (F:=F) (se_gpus v) with
  | Ok ((_ :: _ :: _) as gpus) =>
    dual_vllm v (imap (fun i g => (str_of_Z g, 8000 + Z.of_nat i, "vllm_gpu" ++ str_of_Z g)%Z%string)
                   (take 2 gpus)) [] s
  | _ => (s, None)
  end.

Definition quick_or (quick : bool) (q n : Z) : Z := if quick then q else n.

(** The two matrices, [None] when something raised; the second one runs whether the
    proxy answers or not. *)
Definition ewma_body (v : env) (quick : bool) (seeds : Z) (s : Session) :
    Session * option (list (string * Block (F:=F)) * list (string * Block (F:=F))) :=
  let seeds := quick_or quick 2 seeds in
  let strategies := comma_list (se_strategies_a v) in
  match start_dual_vllm v s with
  | (s, Some ((b0 :: b1 :: _) as backends)) =>
    match multi_seed_matrix PY ready measure backends strategies seeds 9100 "kaggle_ewma_matched"
            (se_tokenizer v) s with
    | (s, Ok matched) =>
      if se_proxy_script v then
        let '(s, _) := start "delay_proxy" (kaggle_proxy_cmd PY DELAY_PROXY b1 8101 (se_slow_mult v)) [] s in
        match multi_seed_matrix PY ready measure [b0; local_url 8101] strategies seeds 9200
                "kaggle_ewma_skew" (se_tokenizer v) s with
        | (s, Ok skew) => (s, Some (matched, skew))
        | (s, Err _) => (s, None)
        end
      else (s, None)
    | (s, Err _) => (s, None)
    end
  | (s, _) => (s, None)
  end.
Definition run_ewma_mode (v : env) (quick : bool) (seeds : Z) :
    Session * option (list (string * Block (F:=F)) * list (string * Block (F:=F))) :=
  let '(s, out) := ewma_body v quick seeds session_init in (cleanup s, out).

(** The load on a gateway, by the number of requests in flight. *)
Variable kmeasure : Z -> Proc -> Z -> option (KRow (F:=F)).

Fixpoint concurrency_cells (v : env) (backends : list string) (seeds port : Z)
    (grid : list (Z * string)) (cells : list (string * KCell (F:=F))) (s : Session) :
    Session * list (string * KCell (F:=F)) :=
  match grid with
  | [] => (s, cells)
  | (conc, strat) :: rest =>
    let '(s, cells) := kaggle_cells PY ready (kmeasure conc) backends (se_tokenizer v) seeds port
      [(conc, strat)] cells s in
    concurrency_cells v backends seeds (port + Z.max 0 seeds) rest cells s
  end.
(** The gains of every cell with a cell of round robin beside it. *)
Definition gains_vs_rr (grid : list (Z * string)) (cells : list (string * KCell (F:=F))) :
    list (string * (MeanCi (F:=F) * Z * Z)) :=
  foldl (fun d '(conc, strat) =>
           let key st := ("c" ++ str_of_Z conc ++ "_" ++ st)%string in
           if str_eqb strat "round_robin" then d
           else match dget (key "round_robin") cells, dget (key strat) cells with
                | Some rr, Some cell => dset (key strat) (kaggle_gains cell rr) d
                | _, _ => d
                end) [] grid.
Definition run_concurrency_mode (v : env) (quick : bool) (seeds : Z) (concurrencies : string) :
    Session * option (list (string * KCell (F:=F)) * list (string * (MeanCi (F:=F) * Z * Z))) :=
  match int_list (F:=F) concurrencies with
  | Err _ => (session_init, None)
  | Ok concs =>
    let seeds := quick_or quick 2 seeds in
    let grid := flat_map (fun c => map (fun st => (c, st)) (comma_list (se_strategies_a v))) concs in
    let '(s, out) :=
      match start_dual_vllm v session_init with
      | (s, Some backends) =>
        let '(s, cells) := concurrency_cells v backends seeds 9300 grid [] s in (s, Some cells)
      | (s, None) => (s, None)
      end in
    (cleanup s, option_map (fun cells => (cells, gains_vs_rr grid cells)) out)
  end.

(** [main]: [ewma in strategies] asks for the text; the strategies the first mode sets stay
    for the second. *)
Definition with_strategies (st : string) (v : env) : env :=
  mkSuiteEnv (se_external v) (se_backends v) (se_gpus v) (se_model v) (se_tokenizer v)
    (se_engine_base v) (se_dio_base v) (se_proxy_port v) (se_max_model_len v) (se_gpu_mem_util v)
    (se_slow_mult v) st (se_strategies_c v) (se_strategies_long v) (se_proxy_script v).
Definition EWMA_DEFAULT : string := "nlms,ewma,round_robin,rls".
Definition ewma_env (v : env) : env :=
  if contains "ewma" (se_strategies_a v) then v else with_strategies EWMA_DEFAULT v.
Definition concurrency_env (mode : string) (v : env) : env :=
  if str_eqb mode "concurrency" && str_eqb (se_strategies_a v) EWMA_DEFAULT
  then with_strategies "nlms,ewma,round_robin,least_loaded" v else v.

(** The sessions of the modes that ran, and whether none of them raised. *)
Definition kaggle_main (v : env) (mode : string) (quick : bool) (seeds : Z)
    (concurrencies : string) : list Session * bool :=
  let '(v, ran, ok) :=
    if str_in mode ["ewma"; "both"] then
      let v := ewma_env v in
      let '(s, out) := run_ewma_mode v quick seeds in
      (v, [s], match out with Some _ => true | None => false end)
    else (v, [], true) in
  if ok && str_in mode ["concurrency"; "both"] then
    let '(s, out) := run_concurrency_mode (concurrency_env mode v) quick seeds concurrencies in
    ((ran ++ [s])%list, match out with Some _ => true | None => false end)
  else (ran, ok).

(** ** [run_gpu_abc_suite.py] *)

Record AbcSuiteArgs : Type := mkAbcSuiteArgs {
  ag_seeds : Z;
  ag_sessions : Z;
  ag_turns : Z;
  ag_concurrent : Z;
  ag_affinity_concurrent : Z;
  ag_adm_n : Z;
  ag_adm_slo_ms : F;
  ag_quick : bool;
  ag_skip_g1 : bool;
  ag_skip_g2 : bool;
  ag_skip_g2b : bool;
  ag_skip_g3 : bool;
  ag_run_coeff : bool
}.
Definition abc_apply_quick (a : AbcSuiteArgs) : AbcSuiteArgs :=
  if ag_quick a
  then mkAbcSuiteArgs (Z.min (ag_seeds a) 2) 6 3 1 1 20 (ag_adm_slo_ms a) true (ag_skip_g1 a)
         (ag_skip_g2 a) (ag_skip_g2b a) (ag_skip_g3 a) (ag_run_coeff a)
  else a.

(** The shape of a load: multi-turn sessions, or admission requests. *)
Inductive AbcLoad : Type :=
| MultiTurn (n_sessions turns concurrent : Z)
| AdmissionRequests (n : Z).
Variable ameasure : AbcLoad -> Proc -> Z -> option (AbcRow (F:=F)).

Definition is_multiturn (l : AbcLoad) : bool :=
  match l with MultiTurn _ _ _ => true | AdmissionRequests _ => false end.

Definition G2B_CONFIGS : list (AbcConfig (F:=F)) :=
  [abc_config "nlms_affinity_load" "nlms" true 400; abc_config "rr_load" "round_robin" true 0].

(** One experiment: its key in the summary, whether it is left out, its configurations, its
    seeds, the offset of its ports, its label and its load. *)
Record AbcExp : Type := mkAbcExp {
  ax_key : string;
  ax_skip : bool;
  ax_configs : list (AbcConfig (F:=F));
  ax_seeds : Z;
  ax_port : Z;
  ax_label : string;
  ax_load : AbcLoad
}.
Definition abc_experiments (a : AbcSuiteArgs) : list AbcExp :=
  let multi := MultiTurn (ag_sessions a) (ag_turns a) in
  [mkAbcExp "G1_hybrid" (ag_skip_g1 a) G1_CONFIGS (ag_seeds a) 0 "G1" (multi (ag_concurrent a));
   mkAbcExp "G2_affinity" (ag_skip_g2 a) G2_CONFIGS (ag_seeds a) 200 "G2" (multi 1%Z);
   mkAbcExp "G2b_affinity_under_load" (ag_skip_g2b a) G2B_CONFIGS (ag_seeds a) 300 "G2b"
     (multi (ag_affinity_concurrent a));
   mkAbcExp "G3_admission" (ag_skip_g3 a) (G3_CONFIGS (ag_adm_slo_ms a)) (ag_seeds a) 400 "G3"
     (AdmissionRequests (ag_adm_n a));
   mkAbcExp "G4_hybrid_coeff" (negb (ag_run_coeff a)) G4_CONFIGS (Z.min (ag_seeds a) 5) 600 "G4"
     (MultiTurn (Z.max 6 (ag_sessions a / 2)) (ag_turns a) (ag_concurrent a))].
Fixpoint run_abc_experiments (v : env) (backends : list string) (l : list AbcExp)
    (out : list (string * list (string * AbcBlock (F:=F)))) (s : Session) :
    Session * list (string * list (string * AbcBlock (F:=F))) :=
  match l with
  | [] => (s, out)
  | x :: rest =>
    if ax_skip x then run_abc_experiments v backends rest out s
    else
      let '(s, b) := multi_seed_block PY ready (ameasure (ax_load x)) backends (se_tokenizer v)
        (ax_label x) (is_multiturn (ax_load x)) (se_dio_base v + ax_port x) (ax_seeds x) 0
        (ax_configs x) [] s in
      run_abc_experiments v backends rest (out ++ [(ax_key x, b)])%list s
  end.

(** The exit code, and the blocks of the experiments that ran. *)
Definition abc_main (v : env) (a : AbcSuiteArgs) :
    Session * outcome (list (string * list (string * AbcBlock (F:=F)))) :=
  let l := abc_experiments (abc_apply_quick a) in
  let '(s, out) :=
    if external v then
      match comma_list (se_backends v) with
      | [] | [_] => (session_init, (2%Z, None))
      | backends => let '(s, o) := run_abc_experiments v backends l [] session_init in
                    (s, (0%Z, Some o))
      end
    else
      match comma_list (se_gpus v) with
      | g0 :: g1 :: _ =>
        let engines := [(g0, 8000, "vllm_" ++ g0 ++ "_8000"); (g1, 8001, "vllm_" ++ g1 ++ "_8001")]%Z%string in
        let '(s, ps) := start_each v true engines session_init in
        if forallb ready ps
        then let '(s, o) := run_abc_experiments v (engine_urls engines) l [] s in (s, (0%Z, Some o))
        else (s, (3%Z, None))
      | _ => (session_init, (2%Z, None))
      end in
  (cleanup s, out).

(** ** [run_gpu_cluster_validation.py] *)

Record ClusterArgs : Type := mkClusterArgs {
  cg_mode : string;
  cg_backends : string;
  cg_gpus : string;
  cg_model : string;
  cg_seeds : Z;
  cg_requests : Z;
  cg_engine_base : Z;
  cg_dio_base : Z;
  cg_slo_ms : F;
  cg_tight_slo_ms : F;
  cg_max_model_len : Z;
  cg_gpu_mem_util : F;
  cg_strategies : string;
  cg_tokenizer : string;
  cg_admission_mode : string;
  cg_skip_g2 : bool;
  cg_skip_g3 : bool;
  cg_skip_g4 : bool;
  cg_skip_g5 : bool;
  cg_slow_mult : F;
  cg_hetero_seeds : Z;
  cg_proxy_port : Z;
  cg_quick : bool
}.

(** The three counts [--quick] bounds, and the seeds of G3. *)
Definition quick_seeds (a : ClusterArgs) : Z :=
  if cg_quick a then Z.min (cg_seeds a) 2 else cg_seeds a.
Definition quick_requests (a : ClusterArgs) : Z :=
  if cg_quick a then Z.min (cg_requests a) 12 else cg_requests a.
Definition hetero_seeds (a : ClusterArgs) : Z :=
  let h := if cg_quick a && negb (cg_hetero_seeds a =? 0)%Z
           then Z.min (cg_hetero_seeds a) 2 else cg_hetero_seeds a in
  if (0 <? h)%Z then h else quick_seeds a.

(** *** Engines *)

Definition vllm_engine_cmd (port : Z) (model : string) (max_model_len : Z) (gpu_mem_util : F) :
    list string :=
  [PY; "-m"; "vllm.entrypoints.openai.api_server"; "--model"; model; "--host"; "127.0.0.1";
   "--port"; str_of_Z port; "--max-model-len"; str_of_Z max_model_len; "--gpu-memory-utilization";
   float_repr gpu_mem_util].
Variable ENGINE_HF : string.
Definition hf_engine_cmd (port : Z) (model : string) (latency_mult : F) : list string :=
  [PY; ENGINE_HF; "--host"; "127.0.0.1"; "--port"; str_of_Z port; "--model"; model;
   "--latency-mult"; float_repr latency_mult].

(** The engines of a mode: device, port, name, command. *)
Definition cluster_engines (a : ClusterArgs) (gpus : list string) :
    list (string * Z * string * list string) :=
  let hf gpu i name := let port := (cg_engine_base a + i)%Z in
                       (gpu, port, name, hf_engine_cmd port (cg_model a) f1) in
  if str_eqb (cg_mode a) "vllm"
  then imap (fun i gpu => let port := (cg_engine_base a + Z.of_nat i)%Z in
               (gpu, port, ("vllm_gpu" ++ gpu)%string,
                vllm_engine_cmd port (cg_model a) (cg_max_model_len a) (cg_gpu_mem_util a))) gpus
  else match gpus with
       | [] => [hf "0" 0%Z "hf_fast"]
       | [g0] => [hf g0 0%Z "hf_fast"]
       | g0 :: g1 :: _ => [hf g0 0%Z "hf_fast"; hf g1 1%Z "hf_gpu1"]
       end.
Definition start_cluster_engines (l : list (string * Z * string * list string)) (s : Session) :
    Session * list Proc :=
  foldl (fun '(s, ps) '(gpu, _, name, cmd) =>
           let '(s, p) := start name cmd [("CUDA_VISIBLE_DEVICES", gpu)] s in (s, ps ++ [p])%list)
    (s, []) l.

(** [make_hetero_backends]: the proxy is used whether its health route answers or not. *)
Definition make_hetero_backends (backends : list string) (slow_mult : F) (proxy_port : Z)
    (s : Session) : Session * (list string * bool) :=
  match backends with
  | b0 :: b1 :: _ =>
    if slow_mult >? f1
    then let '(s, _) := start "delay_proxy_slow" (proxy_cmd PY DELAY_PROXY b1 proxy_port slow_mult) [] s in
         (s, ([b0; local_url proxy_port], true))
    else (s, (backends, false))
  | _ => (s, (backends, false))
  end.

(** *** The experiments, [None] when one raised *)

Variable cmeasure : Z -> Proc -> Z -> option (CRow (F:=F)).

(** [strategies.index(strat)]: the first place. *)
Fixpoint index_of (x : string) (l : list string) : nat :=
  match l with [] => 0 | y :: l' => if str_eqb y x then 0 else S (index_of x l') end.

Local Abbreviation g2_row :=
  (MeanCi (F:=F) * MeanCi (F:=F) * MeanCi (F:=F) * Z)%type.
Fixpoint g2_matrix (a : ClusterArgs) (backends all todo : list string)
    (out : list (string * g2_row)) (s : Session) : Session * option (list (string * g2_row)) :=
  match todo with
  | [] => (s, Some out)
  | strat :: rest =>
    match try_runs ready (cmeasure (quick_requests a))
            (g2_runs PY backends (cg_dio_base a + 100) (float_repr (cg_slo_ms a))
               (cg_admission_mode a) (cg_tokenizer a) (quick_seeds a) (index_of strat all) strat) s with
    | (s, None) => (s, None)
    | (s, Some rows) => g2_matrix a backends all rest (dset strat (g2_block rows) out) s
    end
  end.

Local Abbreviation g4_row := (MeanCi (F:=F) * MeanCi (F:=F))%type.
Definition g4_dual_single (a : ClusterArgs) (backends : list string) (s : Session) :
    Session * option (g4_row * g4_row) :=
  let n := Z.max 10 (quick_requests a / 2) in
  match try_runs ready (cmeasure n)
          (g4_runs PY backends (cg_dio_base a + 300) (quick_seeds a) "dual") s with
  | (s, None) => (s, None)
  | (s, Some dual) =>
    match try_runs ready (cmeasure n)
            (g4_runs PY backends (cg_dio_base a + 300) (quick_seeds a) "single") s with
    | (s, None) => (s, None)
    | (s, Some single) => (s, Some (g4_arm dual, g4_arm single))
    end
  end.

(** The answers of a gateway under admission control, or without it. *)
Variable g5_load : Z -> Proc -> option (list (ChatReply (F:=F))).
Definition g5_runs (a : ClusterArgs) (backends : list string) : list Run :=
  map (fun off : bool =>
         let port := (cg_dio_base a + 400 + if off then 0 else 1)%Z in
         let slo := if off then "180000" else float_repr (cg_tight_slo_ms a) in
         mkRun port 0 ("admit_" ++ if off then "off" else "on")
           (cluster_cmd PY backends port "nlms" "dual" slo "rank_only" "" off)
           (cluster_env "nlms" "dual" slo "rank_only" "" off)) [true; false].
Definition g5_admission (a : ClusterArgs) (backends : list string) (s : Session) :
    Session * option (list (option (G5 (F:=F)))) :=
  let n := Z.max 12 (quick_requests a) in
  try_runs ready (fun p _ => option_map g5_arm (g5_load n p)) (g5_runs a backends) s.

(** *** [main].  Its micro-benchmark (G7) and the probe of the environment, which
    can end the program before anything is started, are left out. *)

Inductive GOut : Type :=
| OutG2 (rows : list (string * g2_row))
| OutG3 (g : option (G3 (F:=F)))
| OutG4 (dual single : g4_row)
| OutG5 (arms : list (option (G5 (F:=F)))).

Local Abbreviation gprogress := (list GOut * bool)%type.
Definition exp_of {A} (skip : bool) (run : Session -> Session * option A) (out : A -> GOut)
    (st : Session * gprogress) : Session * gprogress :=
  let '(s, (outs, ok)) := st in
  if negb skip && ok then
    let '(s, r) := run s in
    (s, match r with Some x => ((outs ++ [out x])%list, true) | None => (outs, false) end)
  else st.

Definition g3_of (a : ClusterArgs) (backends : list string) (s : Session) :
    Session * option (option (G3 (F:=F))) :=
  match backends with
  | [] | [_] => (s, Some None)
  | _ =>
    let '(s, (hetero, _)) := make_hetero_backends backends (cg_slow_mult a) (cg_proxy_port a) s in
    g3_hetero PY ready (cmeasure (quick_requests a)) hetero (cg_dio_base a + 200) (hetero_seeds a) s
  end.

Definition cluster_body (a : ClusterArgs) (backends : list string) (s : Session) :
    Session * (Z * list GOut) :=
  let slo := float_repr (cg_slo_ms a) in
  let '(s, p) := start "dio_smoke"
    (cluster_cmd PY (take 1 backends) (cg_dio_base a) "nlms" "dual" slo "rank_only" "" true)
    (cluster_env "nlms" "dual" slo "rank_only" "" true) s in
  if negb (ready p) then (s, (1%Z, []))
  else
    let s := measure_act p s in
    match cmeasure 3 p 0 with
    | None => (s, (1%Z, []))
    | Some smoke =>
      if (cw_ok smoke <? 1)%Z then (s, (1%Z, []))
      else
        let s := kill_proc (pr_id p) s in
        let strategies := comma_list (cg_strategies a) in
        let '(s, (outs, ok)) :=
          exp_of (cg_skip_g5 a) (g5_admission a backends) OutG5
            (exp_of (cg_skip_g4 a) (g4_dual_single a backends) (fun x => OutG4 x.1 x.2)
               (exp_of (cg_skip_g3 a) (g3_of a backends) OutG3
                  (exp_of (cg_skip_g2 a) (g2_matrix a backends strategies strategies []) OutG2
                     (s, ([], true))))) in
        (s, ((if ok then 0 else 1)%Z, outs))
    end.

(** [hf_script]: whether the script of the second kind of engine is there. *)
Definition cluster_main (hf_script : bool) (a : ClusterArgs) : Session * (Z * list GOut) :=
  let gpus := comma_list (cg_gpus a) in
  let '(s, out) :=
    if str_eqb (cg_mode a) "external" || str_truth (strip (cg_backends a)) then
      match comma_list (cg_backends a) with
      | [] => (session_init, (2%Z, []))
      | backends => cluster_body a backends session_init
      end
    else if (str_eqb (cg_mode a) "vllm" && bool_decide (gpus = [])) ||
            (str_eqb (cg_mode a) "hf" && negb hf_script)
    then (session_init, (2%Z, []))
    else
      let engines := cluster_engines a gpus in
      let '(s, ps) := start_cluster_engines engines session_init in
      if forallb ready ps
      then cluster_body a (map (fun e => local_url e.1.1.2) engines) s
      else (s, (1%Z, [])) in
  (cleanup s, out).
End SuiteMains.
