(* ===== verification/TraceRuns.v ===== *)
(** Three more suites around a gateway: the replay of ShareGPT prompts
    ([run_sharegpt_hetero.py]), the study with three engines ([run_n3_hetero.py]) and the 2x2
    factorial over mock engines ([run_g1_factorial_mock.py]).  Their processes have no session:
    nobody but the caller holds them.  Whether one comes up, the draws of a seed and what a load
    gives are parameters. *)

From S2P Require Import Prelude PyFloat PyStats PyStr PyDict PySort Json Simulation ResultStats.
From S2P Require Import LoadClients RegimeD Config Backends Requests Suites GpuSuites RegimeRuns.

Section TraceRuns.
Context {F : Type} {PF : PyFloat F} {PS : PyStats F} {MA : Machine}.
Local Open Scope float_scope.
Local Abbreviation json := (json F).
Local Abbreviation urls := (list (string * string)).
Variable PY : string.
Variables (ready : Proc -> bool) (reached : string -> bool).

(** ** Prompts of a trace *)

(** The text of a download cut off in the middle, ended at its last closing brace before a
    comma. *)
Fixpoint rfind (sub s : string) : option nat :=
  match s with
  | EmptyString => if str_truth sub then None else Some O
  | String _ s' =>
    match rfind sub s' with
    | Some k => Some (S k)
    | None => if startswith sub s then Some O else None
    end
  end.
Definition trim_array (text : string) : string :=
  if startswith "[" (unchars (drop_while is_space (chars text))) then
    match rfind "}," text with
    | Some (S k) => (str_take (S (S k)) text ++ "]")%string
    | _ => text
    end
  else text.

Definition turn_text (v : json) : result PyExc string :=
  match v with JStr s => Ok s | _ => Err AttributeError end.
(** A turn: the first 2000 characters of what a human said, when it is 20 characters at least. *)
Definition trace_turn (turn : json) : result PyExc (option string) :=
  from ← jget "from" turn; role ← jget "role" turn;
  who ← turn_text (jor (jor from role) (JStr ""));
  if str_in (lower who) ["human"; "user"] then
    value ← jget "value" turn; content ← jget "content" turn;
    text ← turn_text (jor (jor value content) (JStr ""));
    Ok (if (20 <=? str_len (strip text))%Z then Some (str_take 2000 (strip text)) else None)
  else Ok None.
(** The conversations, until there are three times as many prompts as asked for. *)
Fixpoint trace_prompts (n : nat) (items : list json) (acc : list string) : result PyExc (list string) :=
  match items with
  | [] => Ok acc
  | item :: rest =>
    a ← jget "conversations" item; b ← jget "conversation" item;
    conv ← iterate (jor (jor a b) (JList []));
    found ← map_result trace_turn conv;
    let acc := (acc ++ omap id found)%list in
    if (n * 3 <=? length acc)%nat then Ok acc else trace_prompts n rest acc
  end.

Definition CHATTY_PROMPTS : list string :=
  ["Write a detailed explanation of how transformers use attention, with examples.";
   ("I have a production Kubernetes cluster. Walk me through debugging high tail latency for " ++
    "an LLM API.")%string;
   ("Compare PostgreSQL and MySQL for an OLTP workload with heavy writes. Be specific about " ++
    "locks and WAL.")%string;
   "Explain gradient checkpointing and when I should enable it for fine-tuning a 7B model.";
   ("Draft a design doc for a multi-tenant inference gateway with per-tenant SLOs and fair " ++
    "queuing.")%string].
(** The draws of [random.Random(seed)], and its [shuffle]. *)
Variables (randint : Z -> nat -> Z -> Z -> Z) (choice : Z -> nat -> list Z -> Z).
Variable shuffle : Z -> list string -> list string.

(** The loop that pads: the prompt at place [k], the first draw at place [from]. *)
Definition chatty_prompt (seed : Z) (from k : nat) : string :=
  (cycle CHATTY_PROMPTS k ++ " (expand point " ++ str_of_Z (randint seed (k - from) 1 9) ++ ".)")%string.
Definition pad_prompts (n : nat) (seed : Z) (ps : list string) : list string :=
  (ps ++ map (chatty_prompt seed (length ps)) (seq (length ps) (n - length ps)))%list.

(** [load_sharegpt_prompts] on the parsed trace. *)
Definition sharegpt_prompts (trace : json) (n : nat) (seed : Z) : result PyExc (list string) :=
  ps ← trace_prompts n (match trace with JList l => l | _ => [] end) [];
  Ok (take n (shuffle seed (pad_prompts n seed ps))).

(** ** A strategy on a gateway of its own *)

Record TraceRow : Type := mkTraceRow {
  tr_ok : Z;
  tr_fail : Z;
  tr_n : Z;
  tr_frac : list (string * F);
  tr_p50 : option F;
  tr_p95 : option F;
  tr_p99 : option F;
  tr_mean : option F
}.
Definition trace_row (n : nat) (l : WLoad (F:=F)) : TraceRow :=
  mkTraceRow (wl_ok l) (wl_fail l) (Z.of_nat n) (route_fractions (wl_routes l))
    (post_pct (wl_e2e l) 50) (post_pct (wl_e2e l) 95) (post_pct (wl_e2e l) 99)
    (mean_or_none (wl_e2e l)).

(** An answer; [label] stands for an engine that is not named. *)
Definition trace_one (label : string) (l : WLoad (F:=F)) (x : Exchange F) : WLoad (F:=F) :=
  match x with
  | Reply status h ms =>
    if (status =? 200)%Z
    then mkWLoad (wl_ok l + 1) (wl_fail l) (wl_e2e l ++ [ms])
           (count_route (header_or label h) (wl_routes l))
    else mkWLoad (wl_ok l) (wl_fail l + 1) (wl_e2e l) (wl_routes l)
  | Raised => mkWLoad (wl_ok l) (wl_fail l + 1) (wl_e2e l) (wl_routes l)
  end.

(** The answers of a gateway to prompts and their budgets, in order. *)
Variable answers : Proc -> list (string * Z) -> list (Exchange F).

Definition run_strategy (label : string) (backends : urls) (vram : list (string * F))
    (strategy tokenizer log : string)
    (items : list (string * Z)) (port : Z) (s : Session) : Session * option TraceRow :=
  let '(s, r) := with_gateway PY ready backends vram port strategy tokenizer log
    (fun p => Some (trace_row (length items) (foldl (trace_one label) wload_init (answers p items)))) s in
  (s, match r with Some x => x | None => None end).

(** The mean and deviation of the p99 over the seeds that have one. *)
Record TraceCell : Type := mkTraceCell {
  tc_rows : list (option TraceRow);
  tc_p99_mean : option F;
  tc_p99_std : F;
  tc_fast_mean : option F;
  tc_seeds_ok : Z
}.
Definition trace_cell (fast : string) (rows : list (option TraceRow)) : TraceCell :=
  let good := omap (fun r => r ≫= fun r => option_map (fun p => (p, r)) (tr_p99 r)) rows in
  let p99s := map fst good in
  mkTraceCell rows (mean_or_none p99s)
    (if (1 <? length p99s)%nat then stdev p99s else f0)
    (mean_or_none (map (fun g => let x := dget_or fast f0 (tr_frac g.2) in
                                 if ftruth x then x else f0) good))
    (Z.of_nat (length good)).

(** What a suite runs for a seed of a strategy. *)
Variable workload : Z -> result PyExc (list (string * Z)).

Fixpoint trace_seeds (label : string) (backends : urls) (vram : list (string * F)) (tokenizer strat : string)
    (base : Z) (prefix : string) (seeds : list Z) (s : Session) :
    Session * result PyExc (list (option TraceRow)) :=
  match seeds with
  | [] => (s, Ok [])
  | seed :: rest =>
    match workload seed with
    | Err e => (s, Err e)
    | Ok items =>
      let '(s, row) := run_strategy label backends vram strat tokenizer
        (prefix ++ strat ++ "_s" ++ str_of_Z seed)%string items (base + seed)%Z s in
      let '(s, rows) := trace_seeds label backends vram tokenizer strat base prefix rest s in
      (s, rows' ← rows; Ok (row :: rows'))
    end
  end.
(** The cells of the strategies; [stride] is the distance of their ports. *)
Fixpoint trace_cells (label : string) (backends : urls) (vram : list (string * F)) (tokenizer prefix fast : string)
    (base stride seeds : Z) (si : nat) (strategies : list string)
    (cells : list (string * TraceCell)) (s : Session) :
    Session * result PyExc (list (string * TraceCell)) :=
  match strategies with
  | [] => (s, Ok cells)
  | strat :: rest =>
    let '(s, rows) := trace_seeds label backends vram tokenizer strat
      (base + Z.of_nat si * stride) prefix (seqZ 0 seeds) s in
    match rows with
    | Err e => (s, Err e)
    | Ok rows => trace_cells label backends vram tokenizer prefix fast base stride seeds (S si) rest
                   (dset strat (trace_cell fast rows) cells) s
    end
  end.

(** [p99_improvement_nlms_vs_rr_pct]. *)
Definition trace_improvement (cells : list (string * TraceCell)) : option F :=
  a ← dget "nlms" cells; b ← dget "round_robin" cells;
  match tc_p99_mean a, tc_p99_mean b with
  | Some a, Some b => if ftruth a && ftruth b then Some ((b - a) / b * fint 100) else None
  | _, _ => None
  end.

(** [{k: float(v)}]. *)
Definition float_table (spec : string) : result PyExc (list (string * F)) :=
  kvs ← map_result (fun kv => x ← jfloat (JStr kv.2 : json); Ok (kv.1, x)) (parse_kv spec);
  Ok (foldl (fun d kv => dset kv.1 kv.2 d) [] kvs).
End TraceRuns.

(** ** The two programs *)

Section TraceMains.
Context {F : Type} {PF : PyFloat F} {PS : PyStats F} {MA : Machine}.
Local Open Scope float_scope.
Local Abbreviation json := (json F).
Variable PY : string.
Variables (ready : Proc -> bool) (reached : string -> bool).
Variables (randint : Z -> nat -> Z -> Z -> Z) (choice : Z -> nat -> list Z -> Z).
Variable shuffle : Z -> list string -> list string.
Variable answers : Proc -> list (string * Z) -> list (Exchange F).

Record TraceArgs : Type := mkTraceArgs {
  ta_backends : string;
  ta_vram : string;
  ta_tokenizer : string;
  ta_n : nat;
  ta_seeds : Z;
  ta_max_tokens : Z;
  ta_strategies : string;
  ta_fast_id : string;
  ta_base_port : Z
}.

(** [main] of [run_sharegpt_hetero.py]: exit code, cells and gain; [None] when it raised. *)
Definition sharegpt_workload (trace : json) (a : TraceArgs) (seed : Z) :
    result PyExc (list (string * Z)) :=
  ps ← sharegpt_prompts randint shuffle trace (ta_n a) (1000 + seed);
  Ok (map (fun p => (p, ta_max_tokens a)) ps).
Definition sharegpt_main (trace : json) (a : TraceArgs) :
    Session * option (Z * list (string * TraceCell (F:=F)) * option F) :=
  let backends := parse_kv (ta_backends a) in
  match float_table (ta_vram a) with
  | Err _ => (session_init, None)
  | Ok vram =>
    if negb (forallb (fun b => reached b.2) backends) then (session_init, Some (1%Z, [], None))
    else
      let '(s, cells) := trace_cells PY ready answers (sharegpt_workload trace a) "unknown" backends vram
        (ta_tokenizer a) "sg_" "" (ta_base_port a) 20 (ta_seeds a) 0
        (comma_list (ta_strategies a)) [] session_init in
      (s, match cells with
          | Ok cells => Some (0%Z, cells, trace_improvement cells)
          | Err _ => None
          end)
  end.

(** [run_n3_hetero.py]: its workload, and [main]. *)
Definition N3_PROMPTS : list string :=
  ["Summarize causes of the industrial revolution."; "Explain B-tree indexes.";
   "TCP vs UDP tradeoffs."; "What is gradient descent?"; "KV-cache reuse in transformers.";
   "Why batching helps GPU inference."; "Paged attention memory management.";
   "Optimistic vs pessimistic concurrency."].
Definition n3_item (seed : Z) (i : nat) : string * Z :=
  ((cycle N3_PROMPTS i ++ " " ++ str_times (Z.to_nat (randint seed (2 * i) 0 5)) "More detail. " ++
    "(s=" ++ str_of_Z seed ++ ",i=" ++ str_of_Z (Z.of_nat i) ++ ")")%string,
   choice seed (2 * i + 1) post_choices).
Definition n3_workload (n : nat) (seed : Z) : result PyExc (list (string * Z)) :=
  Ok (map (n3_item (2000 + seed)) (seq 0 n)).
Definition n3_main (a : TraceArgs) : Session * option (Z * list (string * TraceCell (F:=F))) :=
  let backends := parse_kv (ta_backends a) in
  if (length backends <? 3)%nat then (session_init, Some (2%Z, []))
  else
    match (if str_truth (ta_vram a) then float_table (ta_vram a)
           else Ok (foldl (fun d b => dset b.1 (fint 24000) d) [] backends)) with
    | Err _ => (session_init, None)
    | Ok vram =>
      if negb (forallb (fun b => reached b.2) backends) then (session_init, Some (1%Z, []))
      else
        let '(s, cells) := trace_cells PY ready answers (n3_workload (ta_n a)) "?" backends vram
          (ta_tokenizer a) "n3_" (ta_fast_id a) (ta_base_port a) 30 (ta_seeds a) 0
          (comma_list (ta_strategies a)) [] session_init in
        (s, match cells with Ok cells => Some (0%Z, cells) | Err _ => None end)
    end.
End TraceMains.

(** ** The factorial over mock engines *)

Section Factorial.
Context {F : Type} {PF : PyFloat F} {PS : PyStats F} {MA : Machine}.
Local Open Scope float_scope.
Variables (PY MOCK_SERVER SRC : string).
Variable ready : Proc -> bool.

Definition FACTORIAL_BACKENDS : list (string * Z * F) :=
  [("e0", 8000%Z, fint 120); ("e1", 8001%Z, fint 240)].
Definition GW_PORT : Z := 9100.

Record FArm : Type := mkFArm {
  fa_name : string; fa_strategy : string; fa_metrics : bool; fa_bonus : F
}.
Definition ARMS : list FArm :=
  [mkFArm "hybrid_on" "nlms" true (fint 200); mkFArm "metrics_only" "nlms" true f0;
   mkFArm "affinity_only" "nlms" false (fint 200); mkFArm "hybrid_off" "nlms" false f0;
   mkFArm "rr" "round_robin" false f0].

Definition factorial_mock_cmd (port : Z) (latency_ms : F) : list string :=
  [PY; MOCK_SERVER; "--port"; str_of_Z port; "--latency-ms"; float_repr latency_ms;
   "--max-concurrency"; "4"].
(** [start_mocks]: [None] when one does not come up; nothing ends those that did. *)
Definition factorial_mocks (s : Session) : Session * option (list Proc) :=
  let '(s, ps) := foldl (fun '(s, ps) '(name, port, latency_ms) =>
      let '(s, p) := popen ("mock_" ++ name) (factorial_mock_cmd port latency_ms) [] s in
      (s, (ps ++ [p])%list)) (s, []) FACTORIAL_BACKENDS in
  (s, if forallb ready ps then Some ps else None).

(** [start_gateway]: what distinguishes the arms goes by the environment. *)
Definition factorial_env (a : FArm) : list (string * string) :=
  [("PYTHONPATH", SRC); ("PYTHONIOENCODING", "utf-8");
   ("DIO_ENGINE_METRICS", if fa_metrics a then "1" else "0");
   ("DIO_CACHE_BONUS_MS", float_repr (fa_bonus a));
   ("DIO_METRICS_INTERVAL_S", "0.1"); ("DIO_ADMISSION_OFF", "1")].
Definition factorial_cmd (a : FArm) : list string :=
  ([PY; "-m"; "dio"; "serve"; "--host"; "127.0.0.1"; "--port"; str_of_Z GW_PORT; "--strategy";
    fa_strategy a; "--nlms-mode"; "dual"; "--slo-ms"; "180000"; "--admission-mode"; "rank_only";
    "--admission-off"] ++
   concat (map (fun b => ["-b"; (b.1.1 ++ "=" ++ local_url b.1.2)%string]) FACTORIAL_BACKENDS))%list.

(** [mean_std]: absent values are left out; the deviation is the one of a population. *)
Record FStat : Type := mkFStat {
  fs_mean : option F; fs_std : option F; fs_n : Z; fs_median : option F
}.
Definition median (xs : list F) : F :=
  let ys := fsorted xs in
  let n := Z.of_nat (length ys) in
  if (n mod 2 =? 1)%Z then fnth ys (n / 2) else (fnth ys (n / 2 - 1) + fnth ys (n / 2)) / fint 2.
Definition fstat (xs : list (option F)) : FStat :=
  match omap id xs with
  | [] => mkFStat None None 0 None
  | vals => mkFStat (Some (mean vals))
              (Some (if (1 <? length vals)%nat then pstdev vals else f0))
              (Z.of_nat (length vals)) (Some (median vals))
  end.
Record FBlock : Type := mkFBlock {
  fb_rows : list (LoadReport F); fb_p99 : FStat; fb_p50 : FStat; fb_frac : FStat; fb_stick : FStat
}.
Definition factorial_block (rows : list (LoadReport F)) : FBlock :=
  mkFBlock rows (fstat (map lr_p99 rows)) (fstat (map lr_p50 rows))
    (fstat (map (fun r => Some (lr_frac_e0 r)) rows)) (fstat (map (fun r => Some (lr_stickiness r)) rows)).

(** The multi-turn load of a seed.  The progress line formats the p99, which raises for a seed
    without an answer. *)
Variable measure : Proc -> Z -> LoadReport F.
Definition factorial_rows (p : Proc) (seeds : Z) : option (list (LoadReport F)) :=
  mapM (fun seed => let r := measure p seed in
                    match lr_p99 r with Some _ => Some r | None => None end) (seqZ 0 seeds).

(** The arms, [None] when one raised; [finally] ends a gateway that came up. *)
Fixpoint factorial_arms (seeds : Z) (arms : list FArm) (out : list (string * FBlock)) (s : Session) :
    Session * option (list (string * FBlock)) :=
  match arms with
  | [] => (s, Some out)
  | a :: rest =>
    let '(s, p) := popen ("gateway_" ++ fa_name a) (factorial_cmd a) (factorial_env a) s in
    if ready p then
      let s := kill_proc (pr_id p) (measure_act p s) in
      match factorial_rows p seeds with
      | Some rows => factorial_arms seeds rest (dset (fa_name a) (factorial_block rows) out) s
      | None => (s, None)
      end
    else (s, None)
  end.

(** [paired]. *)
Definition factorial_gain (base treat : LoadReport F) : option F :=
  x ← lr_p99 base; y ← lr_p99 treat;
  if ftruth x && ftruth y && (x >? f0) then Some (fint 100 * (x - y) / x) else None.
Definition factorial_paired (arms : list (string * FBlock)) (base treat : string) : FStat :=
  let rows n := match dget n arms with Some b => fb_rows b | None => [] end in
  fstat (map Some (omap (fun bt => factorial_gain bt.1 bt.2) (zip (rows base) (rows treat)))).
Definition factorial_report (arms : list (string * FBlock)) : list (string * FStat) :=
  [("engine_metrics_effect_pct", factorial_paired arms "affinity_only" "hybrid_on");
   ("affinity_effect_pct", factorial_paired arms "metrics_only" "hybrid_on");
   ("metrics_only_vs_off_pct", factorial_paired arms "hybrid_off" "metrics_only");
   ("affinity_only_vs_off_pct", factorial_paired arms "hybrid_off" "affinity_only");
   ("hybrid_on_vs_rr_pct", factorial_paired arms "rr" "hybrid_on")].

(** [main]: [None] when it raised. *)
Definition factorial_main (seeds : Z) :
    Session * option (list (string * FBlock) * list (string * FStat)) :=
  match factorial_mocks session_init with
  | (s, None) => (s, None)
  | (s, Some mocks) =>
    let '(s, arms) := factorial_arms seeds ARMS [] s in
    (foldl (fun s p => kill_proc (pr_id p) s) s mocks,
     option_map (fun arms => (arms, factorial_report arms)) arms)
  end.
End Factorial.
