(* ===== verification/SimProps.v ===== *)
(** The library-level experiments close every request before they open the next one:
    what their figures add up to, and what they therefore cannot measure. *)

From Stdlib Require Import Reals.
From S2P Require Import Prelude PyFloat PyReal PyStats PyDict PySort PyStr Config Learner LearnerFacts.
From S2P Require Import Rls Admission EngineMetrics Scheduler SchedulerFacts PickFacts Setup.
From S2P Require Import Simulation Accounting.

Section SimFacts.
Context {F : Type} {PF : PyFloat F} {PL : PyFloatLaws F} {PS : PyStats F}.
Variables (rand : nat -> F) (clock : nat -> Z).
Implicit Types (c : SchedCfg F) (s : Sched F).
Local Arguments sum_of : simpl never.

Lemma client_inv a r s open : client r (sched_cfg a) s open -> sched_inv (sched_cfg a) s.
Proof.
  assert (Hcap : 0 <= s_affinity_cache_size (sched_cfg a)) by (simpl; lia).
  induction 1 as [|s open o H Hi Ha|s open p t n al s' w d H Hi Hpk
    |s open p t n al s' e H Hi Hpk|s l1 l2 w e t ok now H Hi|s l1 l2 w Hr H Hi].
  - by apply inv_init.
  - by apply inv_step.
  - replace s' with (step (sched_cfg a) s (OpPick p t n al)) by (simpl; by rewrite Hpk).
    by apply inv_step.
  - replace s' with (step (sched_cfg a) s (OpPick p t n al)) by (simpl; by rewrite Hpk).
    by apply inv_step.
  - by apply inv_feedback.
  - by apply inv_release.
Qed.

Lemma pop_inflight_admission w s : admission (pop_inflight w s).1 = admission s.
Proof. rewrite pop_inflight_eq. by destruct (dget w _). Qed.

Lemma learn_admission c w e t i now s : admission (learn c w e t i now s) = admission s.
Proof. unfold learn. destruct (dget w _); [|done]. by destruct (update _ _ _ _). Qed.

Lemma feedback_admission c w e t now s :
  admission (feedback c w e t true now s)
  = complete (ac_slo_ms (s_admission c)) e (admission s).
Proof.
  unfold feedback. pose proof (pop_inflight_admission w s) as Hp.
  destruct (pop_inflight w s) as [s0 i]. cbn in *. by rewrite learn_admission, Hp.
Qed.

Lemma feedback_known c w e t ok now s x :
  is_Some (dget x (predictors (feedback c w e t ok now s))) <-> is_Some (dget x (predictors s)).
Proof.
  rewrite feedback_workers. destruct (dget w (predictors s)) as [lr|] eqn:E; [|done].
  rewrite dget_dset. case_decide; [subst; rewrite E|done]. by split; intros _.
Qed.

Lemma sum_of_count w (routes : list (string * Z)) :
  routes_total (dset w (dget_or w 0 routes + 1) routes) = routes_total routes + 1.
Proof.
  unfold routes_total, dget_or. induction routes as [|[k v] routes IH]; cbn; [done|].
  destruct (decide (w = k)) as [->|H]; rewrite !sum_of_cons; cbn [snd]; [lia|].
  rewrite IH. lia.
Qed.

(** ** What a pick leaves alone *)

Definition completions (a : AdmissionStats F) : Z * Z * Z * Z * F :=
  (completed_under_slo a, completed_over_slo a, completed_total a, failed_total a, sum_e2e_ms a).

Lemma completions_bump k a : k <> CFailed -> completions (bump k a) = completions a.
Proof. unfold completions. destruct k; [..|done| | | |]; intros _; cbn; by rewrite Z.add_0_r. Qed.

Lemma completions_decided c s best scores :
  completions (decided_stats c s best scores) = completions (admission s).
Proof.
  unfold decided_stats, decided. set (s1 := bump_admission _ s).
  assert (H1 : completions (admission s1) = completions (admission s)).
  { unfold s1. cbn. destruct (flt _ _); by apply completions_bump. }
  pose proof (should_reject_slo_stats (s_admission c) (recent_e2e s1) best scores
    (admission s1)) as Hs.
  destruct (should_reject_slo _ _ _ _ _) as [[rej reason] a]. cbn in Hs.
  assert (H2 : completions a = completions (admission s)).
  { rewrite <- H1. destruct Hs as [->| ->]; [done|by apply completions_bump]. }
  destruct (flt _ _), rej; cbn; by rewrite ?completions_bump by done.
Qed.

Lemma completions_pick c prompt tier tokens allowed s :
  completions (admission (pick c prompt tier tokens allowed s).1) = completions (admission s).
Proof.
  unfold pick. generalize (match tokens with Some t => t | None => Z.max 1 (str_len prompt / 4) end) as t.
  intros t. destruct (eligible s allowed) as [|w0 ids0] eqn:Hids; [by apply completions_bump|].
  rewrite <- Hids.
  destruct (is_round_robin _); [|destruct (is_least_loaded _); [|destruct (is_ewma _)]].
  - unfold pick_round_robin. destruct (_ !! _); [by apply completions_bump|done].
  - unfold pick_least_loaded. destruct (min_by _ _); [by apply completions_bump|done].
  - unfold pick_ewma. destruct (min_by _ _); [by apply completions_bump|].
    destruct (ewma_best _ _ _ _) as [[]|]; by apply completions_bump.
  - rewrite pick_cost_outcome. generalize (prefix_hash prompt) as key. intros key.
    destruct (rank _ _ _ _ _ _ _ _) as [rk|]; [|done]. unfold cost_outcome.
    destruct (rk_best rk) as [[best d]|]; [|destruct (negb _); by apply completions_bump].
    pose proof (completions_decided c s best (rk_scores rk)) as H.
    destruct (decided _ _ _ _ _) as [[[] reason] a]; cbn in H |- *;
      by rewrite completions_bump by done.
Qed.

(** ** One request *)

(** What holds between two requests of [simulate_load], [i] requests after a start with
    the admission counters [a0]: nothing is open, every backend that may be picked has an
    engine, and each request is in exactly one of the counts. *)
Record sim_inv c (a0 : AdmissionStats F) (i : Z) (st : SimState F) : Prop := mkSimInv {
  si_idle : client false c (sim_sched st) [];
  si_known : forall w, is_Some (dget w (predictors (sim_sched st))) ->
                       is_Some (dget w (sim_backends st));
  si_count : sim_ok st + sim_fail st = i;
  si_fail : sim_fail st = sim_rej st /\ 0 <= sim_rej st;
  si_lats : Z.of_nat (length (sim_lats st)) = sim_ok st;
  si_floor : Forall (fun x => (f1 <=? x)%fl = true) (sim_lats st);
  si_routes : routes_total (sim_routes st) = sim_ok st;
  si_admitted : admitted (admission (sim_sched st)) = admitted a0 + sim_ok st;
  si_total : completed_total (admission (sim_sched st)) = completed_total a0 + sim_ok st;
  si_failed : failed_total (admission (sim_sched st)) = failed_total a0
}.

Hypothesis num_one : fisnan (f1 : F) = false.

Lemma serve_floor tokens r (b : SimBackend F) : (f1 <=? (sb_serve tokens r b).2)%fl = true.
Proof. by apply py_max_ge_l. Qed.

Lemma same_completions a a' :
  completions a = completions a' -> completed_total a = completed_total a' /\ failed_total a = failed_total a'.
Proof. by intros [= _ _ -> -> _]. Qed.

(** A rejected request: one more failure and one more rejection. *)
Lemma sim_rejected a a0 i st s prompt tier tokens e :
  sim_inv (sched_cfg a) a0 i st ->
  pick (sched_cfg a) prompt tier tokens None (sim_sched st) = (s, Err e) ->
  (exists m r, e = AdmissionError m r) /\
  sim_inv (sched_cfg a) a0 (i + 1)
    (mkSimState s (sim_backends st) (sim_lats st) (sim_ok st) (sim_fail st + 1)
       (sim_rej st + 1) (sim_routes st)).
Proof.
  intros [H1 H2 H3 [H4 H4'] H5 H6 H7 H8 H9 H10] Hp.
  pose proof (completions_pick (sched_cfg a) prompt tier tokens None (sim_sched st)) as Hc.
  rewrite Hp in Hc. apply same_completions in Hc as [Ht Hf]. cbn in Ht, Hf.
  destruct (pick_err _ _ _ _ _ _ _ _ (client_inv _ _ _ _ H1) Hp) as ([Hs Ha] & m & r & -> & _).
  split; [by exists m, r|].
  split; cbn [sim_sched sim_backends sim_lats sim_ok sim_fail sim_rej sim_routes];
    try done; try lia; [by eapply cl_reject|].
  intros w. rewrite Hs. apply H2.
Qed.

(** A request that is served: [feedback] closes what [pick] opened. *)
Lemma sim_served a a0 i st s prompt tier tk tokens wid d b actual now :
  sim_inv (sched_cfg a) a0 i st ->
  pick (sched_cfg a) prompt tier tk None (sim_sched st) = (s, Ok (wid, d)) ->
  (f1 <=? actual)%fl = true ->
  let s := set_vram wid (sb_free_vram b) s in
  sim_inv (sched_cfg a) a0 (i + 1)
    (mkSimState (feedback (sched_cfg a) wid actual tokens true now s)
       (dset wid b (sim_backends st)) (sim_lats st ++ [actual])%list (sim_ok st + 1)
       (sim_fail st) (sim_rej st)
       (dset wid (dget_or wid 0 (sim_routes st) + 1) (sim_routes st))).
Proof.
  intros [H1 H2 H3 H4 H5 H6 H7 H8 H9 H10] Hp Hfl sv.
  pose proof (completions_pick (sched_cfg a) prompt tier tk None (sim_sched st)) as Hc.
  rewrite Hp in Hc. apply same_completions in Hc as [Ht Hf]. cbn in Ht, Hf.
  destruct (pick_ok _ _ _ _ _ _ _ _ _ Hp) as (Hin & _ & [Hw _ Had _ _] & _).
  assert (Hv : client false (sched_cfg a) sv [wid]).
  { apply (cl_admin false (sched_cfg a) s [wid] (OpSetVram wid (sb_free_vram b)));
      [by eapply cl_pick|constructor]. }
  split; cbn [sim_sched sim_backends sim_lats sim_ok sim_fail sim_rej sim_routes];
    rewrite ?feedback_admission; cbn [complete admitted completed_total failed_total]; try lia.
  - by apply (cl_feedback false (sched_cfg a) sv [] [] wid).
  - intros w [lr Hlr]%feedback_known. rewrite dget_dset. case_decide; [done|]. apply H2.
    cbn in Hlr. rewrite dget_dalter, Hw, dget_dalter in Hlr. by repeat case_decide.
  - rewrite length_app. cbn. lia.
  - apply Forall_app. by split; [|constructor].
  - rewrite sum_of_count. lia.
  - change (admission sv) with (admission s). lia.
  - change (admission sv) with (admission s). lia.
  - change (admission sv) with (admission s). lia.
Qed.

Lemma sim_request_inv a a0 i tokens tier st :
  sim_inv (sched_cfg a) a0 i st ->
  exists st', sim_request rand clock (sched_cfg a) tokens tier st = Ok st' /\
              sim_inv (sched_cfg a) a0 (i + 1) st'.
Proof.
  intros H. unfold sim_request. generalize (sim_prompt tokens) as prompt. intros prompt.
  destruct (pick _ _ _ _ _ _) as [s [[wid d]|e]] eqn:E.
  - destruct (pick_ok _ _ _ _ _ _ _ _ _ E) as (Hin & _).
    apply eligible_registered, dget_is_Some in Hin.
    destruct (si_known _ _ _ _ H wid Hin) as [b Hb]. rewrite Hb.
    pose proof (serve_floor tokens (rand (length (sim_lats st))) b) as Hfl.
    destruct (sb_serve _ _ b) as [b' actual]. eexists. split; [done|].
    exact (sim_served a a0 i st s prompt tier (Some tokens) tokens wid d b' actual _ H E Hfl).
  - destruct (sim_rejected _ _ _ _ _ _ _ _ _ H E) as [(m & r & ->) Hn]. by eexists.
Qed.

Lemma sim_loop_inv a a0 tokens_fn tier_fn n i st :
  sim_inv (sched_cfg a) a0 i st ->
  exists st', sim_loop rand clock (sched_cfg a) tokens_fn tier_fn n i st = Ok st' /\
              sim_inv (sched_cfg a) a0 (i + Z.of_nat n) st'.
Proof.
  revert i st; induction n as [|n IH]; intros i st H; cbn [sim_loop].
  - exists st. split; [done|]. by rewrite Z.add_0_r.
  - destruct (sim_request_inv a a0 i (tokens_fn i) (tier_fn i) st H) as (st1 & -> & H1).
    cbn [mbind result_bind]. destruct (IH (i + 1)%Z st1 H1) as (st' & -> & H').
    exists st'. split; [done|]. replace (i + Z.of_nat (S n)) with (i + 1 + Z.of_nat n) by lia. done.
Qed.

(** ** A whole run *)

Lemma enrol_inv c (bs : list (SimBackend F)) (known : string -> Prop) s :
  client false c s [] -> (forall w, is_Some (dget w (predictors s)) -> known w) ->
  (forall b, b ∈ bs -> known (sb_id b)) ->
  client false c (foldl (enrol c) s bs) [] /\
  (forall w, is_Some (dget w (predictors (foldl (enrol c) s bs))) -> known w) /\
  admission (foldl (enrol c) s bs) = admission s.
Proof.
  revert s; induction bs as [|b bs IH]; intros s H1 H2 H3; cbn [foldl]; [done|].
  assert (Hn : client false c (enrol c s b) [] /\
               (forall w, is_Some (dget w (predictors (enrol c s b))) -> known w) /\
               admission (enrol c s b) = admission s).
  { unfold enrol. destruct (dmem _ _) eqn:E.
    - split; [|split; [|done]].
      + apply (cl_admin false c s [] (OpSetVram (sb_id b) (sb_free_vram b))); [done|constructor].
      + intros w. cbn. rewrite dget_dalter. case_decide; [|apply H2].
        subst. intros _. apply H3. by left.
    - split; [|split; [|done]].
      + apply (cl_admin false c s [] (OpRegister (sb_id b) (sb_tier b) (sb_total_vram b)
                 (Some (sb_free_vram b)))); [done|by constructor].
      + intros w. cbn. rewrite dget_dset. case_decide; [|apply H2].
        subst. intros _. apply H3. by left. }
  destruct Hn as (N1 & N2 & N3). rewrite <- N3. apply IH; [done|done|].
  intros b' Hb. apply H3. by right.
Qed.

Lemma sim_start_inv a s (backends : list (string * SimBackend F)) :
  client false (sched_cfg a) s [] ->
  (forall w, is_Some (dget w (predictors s)) -> is_Some (dget w backends)) ->
  (forall k b, (k, b) ∈ backends -> sb_id b = k) ->
  sim_inv (sched_cfg a) (admission s) 0 (sim_start (sched_cfg a) s backends).
Proof.
  intros H1 H2 H3.
  destruct (enrol_inv (sched_cfg a) (map snd backends) (fun w => is_Some (dget w backends)) s H1 H2)
    as (N1 & N2 & N3).
  { intros b ((k & b') & -> & Hin)%list_elem_of_fmap. cbn. rewrite (H3 _ _ Hin).
    apply dget_is_Some, list_elem_of_fmap. by exists (k, b'). }
  split; cbn [sim_start sim_sched sim_backends sim_lats sim_ok sim_fail sim_rej sim_routes];
    rewrite ?N3; try done; lia.
Qed.

(** C36. [simulate_load] returns for any number of requests, and its figures are exact:
    every request is in [ok] or in [fail], and [fail] holds exactly the rejections; each
    of [ok] has one latency of at least a millisecond, one entry in the routes and one
    completion in the scheduler's counters.  Nothing is ever in flight between two
    requests, so every [pick] of the run sees empty queues. *)
Theorem simulate_load_accounted a s (backends : list (string * SimBackend F)) n tokens_fn tier_fn wall :
  let c := sched_cfg a in
  client false c s [] ->
  (forall w, is_Some (dget w (predictors s)) -> is_Some (dget w backends)) ->
  (forall k b, (k, b) ∈ backends -> sb_id b = k) ->
  exists st rep,
    simulate_load rand clock c s backends n tokens_fn tier_fn wall = Ok (st, rep) /\
    r_ok rep + r_fail rep = Z.of_nat n /\ r_fail rep = r_rejected rep /\
    routes_total (r_routes rep) = r_ok rep /\
    Z.of_nat (length (sim_lats st)) = r_ok rep /\
    Forall (fun x => (f1 <=? x)%fl = true) (sim_lats st) /\
    admitted (admission (sim_sched st)) = admitted (admission s) + r_ok rep /\
    completed_total (admission (sim_sched st)) = completed_total (admission s) + r_ok rep /\
    failed_total (admission (sim_sched st)) = failed_total (admission s) /\
    forall w, pending_of (sim_sched st) w = 0.
Proof.
  intros c H1 H2 H3. pose proof (sim_start_inv a s backends H1 H2 H3) as H0.
  destruct (sim_loop_inv a _ tokens_fn tier_fn n 0 _ H0) as (st & Hst & [G1 G2 G3 [G4 _] G5 G6 G7 G8 G9 G10]).
  unfold simulate_load. fold c in Hst. rewrite Hst. cbn [mbind result_bind].
  exists st, (sim_report c wall st). split; [done|]. unfold sim_report.
  cbn [r_ok r_fail r_rejected r_routes]. split_and!; try done.
  intros w. by rewrite (client_pending _ _ _ _ _ G1).
Qed.
End SimFacts.

(** ** The queue ablation *)

(** The configuration with [disable_queue] set. *)
Definition no_queue {F} (c : SchedCfg F) : SchedCfg F :=
  let a := s_ablation c in
  mkSchedCfg (s_strategy c) (s_dual c)
    (mkAblation (abl_name a) true (disable_vram_soft a) (disable_vram_hard a) (disable_tier a)
       (disable_cache a) (single_timescale a))
    (s_admission c) (s_recent_window c) (s_batch_size c) (s_tier_mismatch_ms c) (s_cache_bonus_ms c)
    (s_vram_soft_mb c) (s_vram_hard_mb c) (s_kv_cache_cost_ms c) (s_engine_queue_cost_ms c)
    (s_engine_prefix_hit_bonus_ms c) (s_use_engine_metrics c) (s_mu_fast c) (s_mu_slow c)
    (s_mu_bias c) (s_blend c) (s_initial_slope c) (s_initial_intercept c) (s_static_slope c)
    (s_static_intercept c) (s_decision_log_size c) (s_pred_history_size c)
    (s_affinity_cache_size c) (s_health_interval_s c) (s_recovery_hint_s c) (s_learner_robust c)
    (s_learner_err_clip c) (s_learner_step_frac c) (s_learner_slope_max c)
    (s_learner_intercept_max c).

(** With nothing pending on a worker its score is the one without the queue term: apart
    from rounding, the ablation the experiments run is the same algorithm. *)
Lemma idle_queue_term (c : SchedCfg xreal) s wid pred eng tokens tier key ex av batch :
  pending pred = 0 -> s_batch_size c = XR batch -> batch <> 0%R ->
  score_terms c s wid pred eng tokens tier key (XR ex) (XR av)
  = score_terms (no_queue c) s wid pred eng tokens tier key (XR ex) (XR av).
Proof.
  intros Hp Hb Hne.
  assert (H : (if disable_queue (s_ablation c) then f0
               else fint (pending pred) / s_batch_size c * (if f0 <? XR av then XR av else XR ex))%fl
              = f0).
  { destruct (disable_queue _); [done|]. rewrite Hp, Hb.
    change (fint 0 : xreal) with (XR 0). rewrite fdiv_XR by done.
    destruct (f0 <? XR av)%fl; cbn; do 2 f_equal; unfold Rdiv; by rewrite !Rmult_0_l. }
  unfold score_terms. rewrite H. done.
Qed.

Lemma simulate_load_accounted_witness :
  exists st rep,
    simulate_load (fun _ => fdec 5 (-1)) (fun k => Z.of_nat k) (sched_cfg nlms_args) sched_init
      [("a", sim_backend "a" (fint 5) (fint 80) (fdec 3 (-2)));
       ("b", sim_backend "b" (fint 6) (fint 90) (fdec 3 (-2)))]
      400 (fun i => if i mod 2 =? 0 then 40 else 200) always_small (fint 4) = Ok (st, rep) /\
    r_ok rep + r_fail rep = 400 /\ pending_of (sim_sched st) "a" = 0.
Proof.
  assert (H1 : fisnan (f1 : float) = false) by (vm_compute; reflexivity).
  destruct (simulate_load_accounted (fun _ => fdec 5 (-1)) (fun k => Z.of_nat k) H1
    nlms_args sched_init
      [("a", sim_backend "a" (fint 5) (fint 80) (fdec 3 (-2)));
       ("b", sim_backend "b" (fint 6) (fint 90) (fdec 3 (-2)))]
      400 (fun i => if i mod 2 =? 0 then 40 else 200) always_small (fint 4))
    as (st & rep & E & H & _ & _ & _ & _ & _ & _ & _ & Hp);
    [apply cl_init|by intros w [? ?]| |].
  - intros k b. rewrite !elem_of_cons, elem_of_nil. by intros [[= -> ->]|[[= -> ->]|[]]].
  - exists st, rep. split; [exact E|]. split; [exact H|exact (Hp "a")].
Defined.
