(* ===== verification/AbcProps.v ===== *)
(** What the offline suite of [AbcExperiments] measures: the latencies of the hybrid
    experiment, the hits of the affinity experiment, and admission under a poisoned
    estimate. *)

From Stdlib Require Import Reals Lra.
From S2P Require Import Prelude PyFloat PyReal PyStats PyDict PySort PyStr Config Learner LearnerFacts.
From S2P Require Import Rls Admission EngineMetrics Scheduler SchedulerFacts PickFacts Setup.
From S2P Require Import LearnerExact CostExact Feasible Simulation AbcExperiments.
From S2P Require Import RoutingProps Accounting SimProps.

(** ** The pool of healthy workers *)

Section Pool.
Context {F : Type} {PF : PyFloat F} {PL : PyFloatLaws F}.
Implicit Types (c : SchedCfg F) (s : Sched F).

Lemma eligible_predictors s s' allowed :
  predictors s' = predictors s -> eligible s' allowed = eligible s allowed.
Proof. unfold eligible. by intros ->. Qed.

Lemma feedback_dalter c w e t ok now s :
  predictors (feedback c w e t ok now s)
  = dalter (fun lr => dec_pending (served e t ok lr)) w (predictors s).
Proof. rewrite feedback_workers. unfold dalter. by destruct (dget w (predictors s)). Qed.

Lemma dec_pending_healthy lr : healthy (dec_pending (F:=F) lr) = healthy lr.
Proof. unfold dec_pending. by destruct (0 <? pending lr). Qed.

Lemma eligible_feedback c w e t ok now s allowed :
  eligible (feedback c w e t ok now s) allowed = eligible s allowed.
Proof.
  rewrite <- (eligible_alter (fun lr => dec_pending (served e t ok lr)) w s).
  - apply eligible_predictors, feedback_dalter.
  - intros lr. rewrite dec_pending_healthy. by destruct (served_load e t ok lr) as (_ & _ & ->).
Qed.

Lemma eligible_admitted c s s' wid d allowed :
  admitted_as c s s' wid d -> eligible s' allowed = eligible s allowed.
Proof.
  intros [Hw _ _ _ _]. rewrite <- (eligible_alter mark_admitted wid s) by done.
  by apply eligible_predictors.
Qed.

Lemma eligible_engine w d s allowed :
  eligible (set_engine_metrics w d s) allowed = eligible s allowed.
Proof.
  rewrite <- (eligible_alter (fun l => let kv := entry (ed_kv d) in
      let tot := p_total_vram_mb (l_params l) in
      if ed_ok d && (flt f0 tot && fle f0 kv)
      then set_free_vram (py_max f0 (fmul tot (fsub f1 kv))) l else l) w s).
  - by apply eligible_predictors.
  - intros lr. cbv zeta. by destruct (_ && _).
Qed.

(** What a worker holds right after it was picked from an idle pool. *)
Lemma idle_pick a prompt tier tokens allowed s s' wid d :
  client false (sched_cfg a) s [] ->
  pick (sched_cfg a) prompt tier tokens allowed s = (s', Ok (wid, d)) ->
  client false (sched_cfg a) s' [wid] /\ pending_of s' wid = 1.
Proof.
  intros H Hp. assert (H' : client false (sched_cfg a) s' [wid]) by by eapply cl_pick.
  split; [done|]. rewrite (client_pending _ _ _ _ _ H'). unfold open_on.
  rewrite filter_cons. by rewrite decide_True by done.
Qed.

Lemma idle_feedback a wid e t now s :
  client false (sched_cfg a) s [wid] ->
  client false (sched_cfg a) (feedback (sched_cfg a) wid e t true now s) [].
Proof. apply (cl_feedback false (sched_cfg a) s [] [] wid). Qed.

Lemma idle_engine a w d s open :
  client false (sched_cfg a) s open -> client false (sched_cfg a) (set_engine_metrics w d s) open.
Proof. intros H. by apply (cl_admin _ _ s open (OpSetEngine w d)); [|constructor]. Qed.
End Pool.

(** ** An idle pool in finite figures *)

Section Idle.
Variable a : SchedCfg xreal.
Local Abbreviation c := (sched_cfg a).
Hypothesis Hc : cfg_real c.
Hypothesis Hrls : s_strategy c <> "rls".
Hypothesis Hoff : ac_off (s_admission c) = true.

(** Every figure is finite and the workers [ids] are healthy. *)
Record ready (ids : list string) (s : Sched xreal) : Prop := mkReady {
  rd_inv : sched_inv c s;
  rd_finite : finite c s;
  rd_pool : eligible s None = ids
}.

Lemma ready_scrape ids w d s : engine_real d -> ready ids s -> ready ids (set_engine_metrics w d s).
Proof.
  intros Hd [H1 H2 H3].
  split; [by apply inv_set_engine|by apply finite_engine|by rewrite eligible_engine].
Qed.

Lemma ready_alter ids f w s :
  (forall lr, worker_ok lr -> worker_ok (f lr)) ->
  (forall lr, worker_real c lr -> worker_real c (f lr)) ->
  (forall lr, healthy (f lr) = healthy lr) ->
  ready ids s -> ready ids (alter_pred f w s).
Proof.
  intros H1 H2 H3 [R1 R2 R3]. split; [by apply inv_alter|by apply finite_alter|by rewrite eligible_alter].
Qed.

(** A short request on such a pool: some worker takes it, and once its latency is fed back
    the pool is as before. *)
Lemma ready_request ids s prompt tokens :
  ready ids s -> ids <> [] -> tokens <= 500 ->
  exists s' wid d, pick c prompt "small" (Some tokens) None s = (s', Ok (wid, d)) /\ wid ∈ ids /\
    forall e t now, real e -> ready ids (feedback c wid e t true now s').
Proof.
  intros [H1 H2 H3] Hne Ht.
  destruct (small_admitted c Hc s prompt "small" (Some tokens) None H1 H2 Hrls (or_introl Hoff))
    as (wid & d & Hp); [by split|by rewrite H3|].
  pose proof (finite_pick c prompt "small" (Some tokens) None s H1 H2) as Hf.
  pose proof (inv_pick c prompt "small" (Some tokens) None s ltac:(cbn; lia) H1) as Hv.
  destruct (pick c prompt "small" (Some tokens) None s) as [s' r] eqn:E. cbn in Hp, Hf, Hv. subst r.
  destruct (pick_ok _ _ _ _ _ _ _ _ _ E) as (Hin & _ & Had & _).
  exists s', wid, d. split_and!; [done|by rewrite <- H3|].
  intros e t now He. split; [by apply inv_feedback|by apply finite_feedback|].
  by rewrite eligible_feedback, (eligible_admitted _ _ _ _ _ _ Had).
Qed.

Lemma ready_init : ready [] sched_init.
Proof. split; [apply inv_init; cbn; lia|apply finite_init|done]. Qed.

Lemma ready_register ids w s :
  ready ids s -> ready (eligible (register_plain c w s) None) (register_plain c w s).
Proof.
  intros [H1 H2 _]. split; [by apply inv_register| |done].
  apply (finite_step c Hc s (OpRegister w "small" (fint 24000) None)); [done|by split; [apply real_fint|]|done].
Qed.

(** ... and nothing is open. *)
Definition idle (ids : list string) (s : Sched xreal) : Prop := client false c s [] /\ ready ids s.

Lemma idle_scrape ids w d s : engine_real d -> idle ids s -> idle ids (set_engine_metrics w d s).
Proof. intros Hd [H1 H2]. split; [by apply idle_engine|by apply ready_scrape]. Qed.

Lemma idle_request ids s prompt tokens :
  idle ids s -> ids <> [] -> tokens <= 500 ->
  exists s' wid d, pick c prompt "small" (Some tokens) None s = (s', Ok (wid, d)) /\
    wid ∈ ids /\ pending_of s' wid = 1 /\
    forall e t now, real e -> idle ids (feedback c wid e t true now s').
Proof.
  intros [H1 H2] Hne Ht. destruct (ready_request ids s prompt tokens H2 Hne Ht)
    as (s' & wid & d & E & Hin & Hnext).
  destruct (idle_pick _ _ _ _ _ _ _ _ _ H1 E) as [Hcl Hone].
  exists s', wid, d. split_and!; [done|done|done|].
  intros e t now He. split; [by apply idle_feedback|by apply Hnext].
Qed.
End Idle.

(** ** A: two latencies *)

(** The draws are finite. *)
Definition draws_real (g : Rng xreal) : Prop :=
  (forall k m s, real m -> real s -> real (gauss g k m s)) /\ forall k, real (random g k).

Lemma abc_cfg_real strategy off slo use kv q cache prefix :
  real kv -> real q -> real cache -> real prefix ->
  cfg_real (sched_cfg (with_costs use kv q cache prefix (abc_base strategy off slo))).
Proof.
  intros Hk Hq Hca Hp. set (x := sched_cfg _).
  assert (Him : s_learner_intercept_max x = XR (IZR (10 ^ 6))) by (cbn; by rewrite decimal_pos).
  assert (H6 : (150 <= IZR (10 ^ 6) <= IZR (10 ^ 9))%R)
    by (split; apply IZR_le; vm_compute; discriminate).
  split.
  - exists (8 / 10)%R. split; [|lra]. cbn. by rewrite decimal_neg.
  - exists 200%R, (IZR (10 ^ 6)). split; [done|]. split; [exact Him|].
    assert (200 <= IZR (10 ^ 9))%R by (apply IZR_le; vm_compute; discriminate). lra.
  - apply (fit_in_range_XR _ 2 150 200 (IZR (10 ^ 6))); [done|exact Him|lra|lra].
  - apply (fit_in_range_XR _ 1 50 200 (IZR (10 ^ 6))); [done|exact Him|lra|lra].
  - apply batch_ok, real_fint.
  - split_and!; try done. apply real_fint.
Qed.

Section Hybrid.
Variables (g : Rng xreal) (strategy : string) (hybrid : bool).
Hypothesis Hg : draws_real g.
Hypothesis Hst : strategy ∈ ["nlms"; "round_robin"].
Local Abbreviation c := (sched_cfg (hybrid_args strategy hybrid)).

Lemma hybrid_cfg_real : cfg_real c.
Proof. apply abc_cfg_real; try apply real_f0; apply real_if; intros _; apply real_fint || apply real_f0. Qed.

Lemma hybrid_not_rls : s_strategy c <> "rls".
Proof. by repeat (apply elem_of_cons in Hst as [->|Hst]); [| |apply elem_of_nil in Hst]. Qed.

Local Abbreviation idle := (idle (hybrid_args strategy hybrid) ["cool"; "hot"]).

Lemma pressure_real kv w p : real kv -> real w -> real p -> engine_real (pressure kv w p).
Proof. intros Hk Hw Hp. repeat split; cbn; apply real_if; auto with real. Qed.

Lemma hybrid_start_idle : idle (hybrid_start c hybrid).
Proof.
  assert (H : idle (register_plain c "hot" (register_plain c "cool" sched_init))).
  { split.
    - apply (cl_admin _ _ _ _ (OpRegister "hot" "small" (fint 24000) None)); [|by constructor].
      apply (cl_admin _ _ _ _ (OpRegister "cool" "small" (fint 24000) None)); [constructor|by constructor].
    - pose proof (ready_register _ hybrid_cfg_real _ "cool" _ (ready_init _)) as H1.
      exact (ready_register _ hybrid_cfg_real _ "hot" _ H1). }
  unfold hybrid_start. destruct hybrid; [|done].
  apply idle_scrape; [apply pressure_real; apply real_fdec || apply real_fint|].
  apply idle_scrape; [apply pressure_real; apply real_fdec || apply real_fint|done].
Qed.

(** The latency of a request of [tokens] with draw [k]: a constant 40 ms more on the hot
    worker, which never has more than the request itself pending. *)
Definition hybrid_latency (tokens : Z) (k : nat) (hot : bool) : xreal :=
  fadd (fadd (fadd (fmul (fint 2) (fint tokens)) (fint 100)) (gauss g k f0 (fint 15)))
    (if hot then fmul (fint 40) (fint 1) else f0).

Lemma hybrid_latency_real tokens k hot : real (hybrid_latency tokens k hot).
Proof.
  unfold hybrid_latency. apply real_add; [|apply real_if; auto with real].
  apply real_add; [auto with real|]. apply Hg; auto with real.
Qed.

Lemma hybrid_serve_ok prompt tokens st :
  idle (hy_sched st) -> tokens <= 500 ->
  exists hot s', hybrid_serve g c prompt tokens st
    = Ok (mkHybrid s' (hy_lats st ++ [hybrid_latency tokens (hy_calls st) hot])
            (hy_cool st + one_if (negb hot)) (S (hy_calls st))) /\ idle s'.
Proof.
  intros Hi Ht.
  destruct (idle_request _ hybrid_cfg_real hybrid_not_rls eq_refl _ _ prompt tokens Hi ltac:(done) Ht)
    as (s' & wid & d & Hp & Hin & Hone & Hnext).
  unfold hybrid_serve. rewrite Hp, Hone. set (hot := str_eqb wid "hot").
  exists hot, (feedback c wid (hybrid_latency tokens (hy_calls st) hot) tokens true
                 (now_ms g (hy_calls st)) s').
  split; [|apply Hnext, hybrid_latency_real]. unfold hot.
  by apply elem_of_cons in Hin as [->|[->|[]%elem_of_nil]%elem_of_cons].
Qed.

Lemma hybrid_request_ok seed i st :
  idle (hy_sched st) ->
  exists k hot s' calls, hybrid_request g c hybrid seed i st
    = Ok (mkHybrid s' (hy_lats st ++ [hybrid_latency (40 + i mod 30) k hot])
            (hy_cool st + one_if (negb hot)) calls) /\ idle s'.
Proof.
  intros Hi. pose proof (Z.mod_pos_bound i 30). unfold hybrid_request.
  destruct (hybrid && _).
  - destruct (hybrid_serve_ok ("req-" ++ str_of_Z seed ++ "-" ++ str_of_Z i ++ " " ++ xs20) (40 + i mod 30)
      (hot_scrape g (6 + pending_hot / 2) st)) as (hot & s' & E & H'); [|lia|by eexists _, hot, s', _].
    apply idle_scrape; [|done]. apply pressure_real; [|apply real_fint|apply real_f0].
    apply real_add; [apply real_fdec|]. apply real_mul; [apply real_fdec|apply Hg].
  - destruct (hybrid_serve_ok ("req-" ++ str_of_Z seed ++ "-" ++ str_of_Z i ++ " " ++ xs20) (40 + i mod 30) st)
      as (hot & s' & E & H'); [done|lia|by eexists _, hot, s', _].
Qed.

(** How many of the requests went to the cool worker. *)
Definition cool_count (ws : list (nat * bool)) : Z := sum_of (fun x => one_if (negb x.2)) ws.

Lemma hybrid_loop_ok seed n i st :
  idle (hy_sched st) ->
  exists st' ws, hybrid_loop g c hybrid seed n i st = Ok st' /\ idle (hy_sched st') /\
    length ws = n /\ hy_cool st' = hy_cool st + cool_count ws /\
    hy_lats st' = (hy_lats st ++
      imap (fun j x => hybrid_latency (40 + (i + Z.of_nat j) mod 30) x.1 x.2) ws)%list.
Proof.
  revert i st; induction n as [|n IH]; intros i st Hi; cbn [hybrid_loop].
  - exists st, []. split_and!; try done; cbn; [lia|by rewrite app_nil_r].
  - destruct (hybrid_request_ok seed i st Hi) as (k & hot & s' & calls & -> & Hi').
    cbn [mbind result_bind].
    lazymatch goal with |- context [hybrid_loop _ _ _ _ _ _ ?x] =>
      destruct (IH (i + 1) x Hi') as (st' & ws & -> & H1 & H2 & H3 & H4) end.
    exists st', ((k, hot) :: ws). split_and!; [done|done|cbn; lia| |].
    + rewrite H3. cbn [hy_cool]. unfold cool_count. rewrite sum_of_cons. cbn [snd]. lia.
    + rewrite H4. cbn [hy_lats]. rewrite <- app_assoc. f_equal.
      rewrite imap_cons. cbn [fst snd app]. f_equal; [by rewrite Z.add_0_r|].
      apply imap_ext. intros j x _. cbn [compose]. by replace (i + Z.of_nat (S j)) with (i + 1 + Z.of_nat j) by lia.
Qed.
End Hybrid.

(** Experiment A, in exact arithmetic and for finite draws: every arm returns, each of its
    [n] latencies is [2 * tokens + 100] plus the draw, plus a constant 40 ms on the hot
    worker: no backlog ever builds up there, whatever the engine reports, since nothing is
    pending between two requests. *)
Theorem hybrid_arms_two_valued g strategy hybrid seed n calls :
  draws_real g -> strategy ∈ ["nlms"; "round_robin"] ->
  let c := sched_cfg (hybrid_args strategy hybrid) in
  exists st ws,
    hybrid_loop g c hybrid seed n 0 (mkHybrid (hybrid_start c hybrid) [] 0 calls) = Ok st /\
    length ws = n /\
    hy_lats st = imap (fun i x => hybrid_latency g (40 + Z.of_nat i mod 30) x.1 x.2) ws /\
    hy_cool st = cool_count ws /\
    forall w, pending_of (hy_sched st) w = 0.
Proof.
  intros Hg Hst c.
  destruct (hybrid_loop_ok g strategy hybrid Hg Hst seed n 0 (mkHybrid (hybrid_start c hybrid) [] 0 calls)
    (hybrid_start_idle strategy hybrid)) as (st & ws & E & [Hi _] & H1 & H2 & H3).
  exists st, ws. split_and!; try done. intros w. by rewrite (client_pending _ _ _ _ _ Hi).
Qed.

(** ** B: hits are repeats *)

Lemma str_take_app n s t : (n <= String.length s)%nat -> str_take n (s ++ t) = str_take n s.
Proof.
  revert s; induction n as [|n IH]; intros s Hn; [by destruct s|].
  destruct s as [|a s]; cbn in *; [lia|]. f_equal. apply IH. lia.
Qed.

Lemma string_length_app s t : String.length (s ++ t) = (String.length s + String.length t)%nat.
Proof.
  induction s as [|a s IH]; [done|].
  change (S (String.length (s ++ t)) = S (String.length s + String.length t)). by rewrite IH.
Qed.

(** Every turn of a session has the prefix key of the session: its own text is beyond the
    256 characters that are hashed. *)
Lemma turn_prompt_key sess t q :
  prefix_hash (turn_prompt sess t q) = prefix_hash (session_prefix sess).
Proof.
  unfold prefix_hash, turn_prompt. rewrite str_take_app; [done|].
  unfold session_prefix. rewrite !string_length_app.
  change (String.length "SYSTEM: you are agent-") with 22%nat.
  change (String.length (str_repeat 30 "CONTEXT ")) with 240%nat.
  change (String.length " ") with 1%nat. lia.
Qed.

Lemma feedback_affinity {F} {PF : PyFloat F} (c : SchedCfg F) w e t ok now s :
  let s' := feedback c w e t ok now s in
  prefix_cache s' = prefix_cache s /\ affinity_hits s' = affinity_hits s /\
  affinity_decisions s' = affinity_decisions s.
Proof.
  unfold feedback. rewrite pop_inflight_eq. destruct (dget w (predictors s)) as [lr|]; destruct ok;
    cbn; unfold learn; try done; destruct (dget w _) as [l|]; try done; by destruct (update l _ _ _).
Qed.

(** The prefix that was just routed is in the cache. *)
Lemma touched_prefix_kept c key wid s :
  1 <= s_affinity_cache_size c -> dict_wf (prefix_cache (F:=xreal) s) ->
  Z.of_nat (length (prefix_cache s)) <= s_affinity_cache_size c ->
  let pc := dmove_to_end key (dset key wid (prefix_cache s)) in
  dget key (drop (lru_excess (F:=xreal) c pc) pc) = Some wid.
Proof.
  intros Hcap Hwf Hlen pc. unfold pc. rewrite dmove_to_end_dset.
  pose proof (length_dpop_le key (prefix_cache s)) as Hle.
  set (rest := dpop key (prefix_cache s)) in *.
  assert (Hn : (lru_excess c (rest ++ [(key, wid)])%list <= length rest)%nat).
  { unfold lru_excess. rewrite length_app. cbn. lia. }
  rewrite drop_app_le by done. rewrite dget_app.
  assert (Hno : dget key (drop (lru_excess c (rest ++ [(key, wid)])%list) rest) = None).
  { apply dget_None. unfold dkeys. rewrite fmap_drop. intros Hin.
    assert (Hin' : key ∈ dkeys rest) by by eapply subseteq_drop.
    revert Hin'. unfold rest. rewrite dkeys_dpop. by intros [? _]%list_elem_of_filter. }
  rewrite Hno. cbn. by rewrite decide_True by done.
Qed.

Section Affinity.
Variable g : Rng xreal.
Hypothesis Hg : draws_real g.
Local Abbreviation c := (sched_cfg (affinity_args (F:=xreal) "nlms" true)).
Local Abbreviation ready := (ready (affinity_args "nlms" true) ["e0"; "e1"]).

Lemma affinity_cfg_real : cfg_real c.
Proof. apply abc_cfg_real; apply real_fint. Qed.

Lemma set_slopes_real x lr :
  real x -> (1 / 10 <= match x with XR r => r | _ => 0 end <= 200)%R ->
  worker_real c lr -> worker_real c (set_slopes x lr).
Proof.
  intros [r ->] Hr [W1 W2 W3 W4 W5 W6]. split; try done.
  destruct W2 as [E1 E2], W4 as (_ & _ & W4). split; [|split; [|done]].
  all: cbn [set_slopes l_fit l_params fast_slope slow_slope]; rewrite E1, tenth_XR;
    change (s_learner_slope_max c) with (XR 200); rewrite !fle_XR, !rle_true; lra.
Qed.

Lemma affinity_start_ready calls : ready (af_sched (affinity_start c calls)).
Proof.
  pose proof (ready_register _ affinity_cfg_real _ "e0" _ (ready_init _)) as H1.
  pose proof (ready_register _ affinity_cfg_real _ "e1" _ H1) as H2.
  change (eligible (register_plain c "e1" (register_plain c "e0" sched_init)) None) with ["e0"; "e1"] in H2.
  unfold affinity_start. cbn [af_sched].
  apply ready_alter; [done| |done|apply ready_alter; [done| |done|done]];
    intros lr Hl; apply set_slopes_real; try done.
  - apply real_fdec.
  - cbn. rewrite decimal_neg. lra.
  - apply real_fint.
  - cbn. lra.
Qed.

Definition session_key (sess : Z) : Z := prefix_hash (session_prefix sess).

(** What one turn does to the two counts of hits. *)
Record turn_to (sess : Z) (st st' : AffinityState xreal) (wid : string) : Prop := mkTurn {
  tu_ready : ready (af_sched st');
  tu_last : af_last st' = dset sess wid (af_last st);
  tu_cache : dget (session_key sess) (prefix_cache (af_sched st')) = Some wid;
  tu_repeat : af_hits st' = af_hits st + one_if (bool_decide (dget sess (af_last st) = Some wid));
  tu_hit : affinity_hits (af_sched st') = affinity_hits (af_sched st)
    + one_if (bool_decide (dget (session_key sess) (prefix_cache (af_sched st)) = Some wid));
  tu_decisions : affinity_decisions (af_sched st') = affinity_decisions (af_sched st) + 1;
  tu_turns : af_turns st' = af_turns st + 1
}.

Lemma session_scrape_ready last w s : ready s -> ready (session_scrape last w s).
Proof.
  apply ready_scrape, pressure_real; [apply real_fdec|apply real_f0|].
  apply real_if; intros _; apply real_fdec.
Qed.

Lemma affinity_turn_ok sess t st :
  ready (af_sched st) -> 0 <= t <= 90 ->
  exists wid st', affinity_turn g c sess t st = Ok st' /\ turn_to sess st st' wid.
Proof.
  intros Hr Ht. unfold affinity_turn.
  assert (Hkey : prefix_hash (turn_prompt sess t (randint g (af_calls st) 0 999)) = session_key sess)
    by apply turn_prompt_key.
  revert Hkey. generalize (turn_prompt sess t (randint g (af_calls st) 0 999)) as prompt. intros prompt Hkey.
  set (s0 := session_scrape _ "e1" _).
  assert (H0 : ready s0) by by apply session_scrape_ready, session_scrape_ready.
  destruct (ready_request _ affinity_cfg_real ltac:(done) eq_refl _ s0 prompt (50 + t * 5) H0 ltac:(done) ltac:(lia))
    as (s' & wid & d & E & Hin & Hnext).
  rewrite E. apply pick_ok_cost in E; [|by split_and!].
  destruct (pick_cost_touch _ _ _ _ _ _ _ _ _ E) as (Hpc & Hdec & Hhit & _ & Hflag).
  rewrite Hkey in Hpc, Hflag.
  exists wid. eexists. split; [reflexivity|].
  lazymatch goal with |- turn_to _ _ (mkAffinity (feedback _ _ ?y ?n _ ?now _) _ _ _ _ _ _ _) _ =>
    destruct (feedback_affinity c wid y n true now s') as (F1 & F2 & F3) end.
  split; cbn [af_sched af_last af_hits af_turns]; try done.
  - apply Hnext. assert (Hbase : real (fadd (fmul (fint 2) (fint (50 + t * 5))) (fint 80) : xreal)) by auto with real.
    pose proof (proj1 Hg (S (af_calls st)) f0 (fint 8) real_f0 (real_fint 8)) as Hn.
    apply real_if; intros _; auto with real.
  - rewrite F1, Hpc. apply touched_prefix_kept; [cbn; lia|apply H0|apply H0].
  - rewrite F2, Hhit, Hflag. done.
  - rewrite F3, Hdec. done.
Qed.

(** [gap] hits of the scheduler were no repeats. *)
Definition gap (st : AffinityState xreal) : Z := affinity_hits (af_sched st) - af_hits st.

(** Later turns of a session: the cache names the worker of the turn before, so the
    scheduler counts a hit exactly when the worker is repeated. *)
Lemma affinity_session_later sess n t st wid :
  ready (af_sched st) -> 0 <= t -> t + Z.of_nat n <= 91 ->
  dget sess (af_last st) = Some wid -> dget (session_key sess) (prefix_cache (af_sched st)) = Some wid ->
  exists st', affinity_session g c sess n t st = Ok st' /\ ready (af_sched st') /\
    gap st' = gap st /\ af_turns st' = af_turns st + Z.of_nat n /\
    affinity_decisions (af_sched st') = affinity_decisions (af_sched st) + Z.of_nat n /\
    forall k, k <> sess -> dget k (af_last st') = dget k (af_last st).
Proof.
  revert t st wid; induction n as [|n IH]; intros t st wid Hr H0 Ht Hl Hk; cbn [affinity_session].
  - exists st. split_and!; try done; lia.
  - destruct (affinity_turn_ok sess t st Hr ltac:(lia)) as (w & st1 & -> & [T1 T2 T3 T4 T5 T6 T7]).
    cbn [mbind result_bind]. rewrite Hl in T4. rewrite Hk in T5.
    destruct (IH (t + 1) st1 w T1 ltac:(lia) ltac:(lia)) as (st' & -> & S1 & S2 & S3 & S4 & S5);
      [by rewrite T2, dget_dset_eq|done|].
    exists st'. split_and!; [done|done| |lia|lia|].
    + rewrite S2. unfold gap. lia.
    + intros k Hne. rewrite S5, T2 by done. by apply dget_dset_ne.
Qed.

(** The first turn of a session can only hit by a collision with another prefix. *)
Lemma affinity_session_ok sess n st :
  ready (af_sched st) -> Z.of_nat n <= 91 -> dget sess (af_last st) = None ->
  exists st', affinity_session g c sess n 0 st = Ok st' /\ ready (af_sched st') /\
    gap st <= gap st' <= gap st + 1 /\ af_turns st' = af_turns st + Z.of_nat n /\
    affinity_decisions (af_sched st') = affinity_decisions (af_sched st) + Z.of_nat n /\
    forall k, k <> sess -> dget k (af_last st') = dget k (af_last st).
Proof.
  intros Hr Hn Hl. destruct n as [|n]; cbn [affinity_session].
  - exists st. split_and!; try done; lia.
  - destruct (affinity_turn_ok sess 0 st Hr ltac:(lia)) as (w & st1 & -> & [T1 T2 T3 T4 T5 T6 T7]).
    cbn [mbind result_bind]. rewrite Hl in T4. rewrite bool_decide_eq_false_2 in T4 by done.
    destruct (affinity_session_later sess n (0 + 1) st1 w T1 ltac:(lia) ltac:(lia))
      as (st' & -> & S1 & S2 & S3 & S4 & S5); [by rewrite T2, dget_dset_eq|done|].
    exists st'. split_and!; [done|done| | |lia|lia|].
    + rewrite S2. unfold gap, one_if in *. case_bool_decide; lia.
    + rewrite S2. unfold gap, one_if in *. case_bool_decide; lia.
    + intros k Hne. rewrite S5, T2 by done. by apply dget_dset_ne.
Qed.

Lemma affinity_sessions_ok turns n sess st :
  ready (af_sched st) -> Z.of_nat turns <= 91 ->
  (forall k, sess <= k -> dget k (af_last st) = None) ->
  exists st', affinity_sessions g c turns n sess st = Ok st' /\
    gap st <= gap st' <= gap st + Z.of_nat n /\
    af_turns st' = af_turns st + Z.of_nat n * Z.of_nat turns /\
    affinity_decisions (af_sched st')
      = affinity_decisions (af_sched st) + Z.of_nat n * Z.of_nat turns.
Proof.
  intros Hr Hn. revert sess st Hr; induction n as [|n IH]; intros sess st Hr Hl; cbn [affinity_sessions].
  - exists st. split_and!; try done; lia.
  - destruct (affinity_session_ok sess turns st Hr Hn (Hl sess ltac:(lia)))
      as (st1 & -> & S1 & S2 & S3 & S4 & S5). cbn [mbind result_bind].
    destruct (IH (sess + 1) st1 S1) as (st' & -> & H1 & H2 & H3).
    { intros k Hk. rewrite S5 by lia. apply Hl. lia. }
    exists st'. split_and!; [done|lia|lia|lia|lia].
Qed.
End Affinity.

(** Experiment B, affinity arm, in exact arithmetic and for finite draws: every turn of
    every session is routed, all turns of a session share one prefix key, and the hits the
    scheduler reports are the turns that repeat the worker of the turn before, apart from
    at most one per session (its first turn, when its key collides with an older one). *)
Theorem affinity_hits_are_repeats g n_sessions turns calls :
  draws_real g -> Z.of_nat turns <= 91 ->
  let c := sched_cfg (affinity_args (F:=xreal) "nlms" true) in
  exists st,
    affinity_sessions g c turns n_sessions 0 (affinity_start c calls) = Ok st /\
    af_turns st = Z.of_nat n_sessions * Z.of_nat turns /\
    affinity_decisions (af_sched st) = Z.of_nat n_sessions * Z.of_nat turns /\
    af_hits st <= affinity_hits (af_sched st) <= af_hits st + Z.of_nat n_sessions /\
    forall sess t q, prefix_hash (turn_prompt sess t q) = session_key sess.
Proof.
  intros Hg Ht c.
  destruct (affinity_sessions_ok g Hg turns n_sessions 0 (affinity_start c calls)
    (affinity_start_ready calls) Ht ltac:(done)) as (st & E & H1 & H2 & H3).
  exists st. unfold gap in H1. cbn in H1, H2, H3.
  split_and!; [done|lia|lia|lia|lia|apply turn_prompt_key].
Qed.

(** ** C: the absolute gate never learns *)

Section Poisoned.
Local Abbreviation c := (sched_cfg (admission_args (F:=float) "absolute")).
Local Abbreviation start := (admission_start c).

(** The poisoned score is over the SLO for every size of the workload. *)
Lemma poisoned_rank key a t :
  20 <= t <= 29 ->
  match rank c (set_admission a start) t "small" false key ["w0"] (mkRanking None []) with
  | Ok (mkRanking (Some (best, _)) _) => flt (ac_slo_ms (s_admission c)) best
  | _ => false
  end = true.
Proof.
  intros Ht.
  assert (H : In t [20; 21; 22; 23; 24; 25; 26; 27; 28; 29]) by (simpl; lia).
  repeat (destruct H as [<-|H]; [vm_compute; reflexivity|]). done.
Qed.

Lemma poisoned_pick prompt a t :
  20 <= t <= 29 ->
  exists m r, (pick c prompt "small" (Some t) None (set_admission a start)).2 = Err (AdmissionError m r).
Proof.
  intros Ht. unfold pick.
  change (eligible (set_admission a start) None) with ["w0"].
  change (str_eqb (s_strategy c) "rls") with false.
  change (is_round_robin (s_strategy c)) with false. change (is_least_loaded (s_strategy c)) with false.
  change (is_ewma (s_strategy c)) with false. cbv iota. rewrite pick_cost_outcome.
  change (str_eqb (s_strategy c) "rls") with false.
  generalize (prefix_hash prompt) as key. intros key. pose proof (poisoned_rank key a t Ht) as H.
  destruct (rank _ _ _ _ _ _ _ _) as [[[[best d]|] sc]|]; try done.
  unfold cost_outcome. cbn [rk_best rk_scores]. rewrite H.
  unfold decided. set (s1 := bump_admission _ _).
  destruct (decision_absolute (s_admission c) (recent_e2e s1) best sc (admission s1) eq_refl eq_refl) as [Hd _].
  rewrite H in Hd. destruct (should_reject_slo _ _ _ _ _) as [[rej reason] a']. cbn in Hd. subst rej.
  by eexists _, _.
Qed.

Lemma start_inv : sched_inv c start.
Proof.
  apply inv_alter; [done|]. apply inv_register, inv_init. vm_compute. discriminate.
Qed.
End Poisoned.

(** A scheduler that rejects every request of the workload, whatever its counters, goes
    through it unchanged. *)
Section Rejecting.
Context {F : Type} {PF : PyFloat F} {PL : PyFloatLaws F}.
Variables (c : SchedCfg F) (start : Sched F) (g : Rng F).
Hypothesis Hcap : 0 <= s_affinity_cache_size c.
Hypothesis Hinv : sched_inv c start.
Hypothesis Hrej : forall prompt a t, 20 <= t <= 29 ->
  exists m r, (pick c prompt "small" (Some t) None (set_admission a start)).2 = Err (AdmissionError m r).

Lemma rejected_request i st a :
  ad_sched st = set_admission a start -> stats_ok a ->
  exists a' k, admission_request g c i st
    = Ok (mkAdmState (set_admission a' start) (ad_admitted st) (ad_rejected st + 1) (ad_under st) k) /\
    stats_ok a'.
Proof.
  intros Hs Ha. unfold admission_request. rewrite Hs.
  assert (Hi : sched_inv c (set_admission a start)) by by apply inv_set_admission.
  pose proof (Z.mod_pos_bound i 10).
  destruct (Hrej ("prompt " ++ str_of_Z i) a (20 + i mod 10)) as (m & r & Hp); [lia|].
  pose proof (inv_pick c ("prompt " ++ str_of_Z i) "small" (Some (20 + i mod 10)) None _ Hcap Hi) as H'.
  destruct (pick c _ _ _ _ _) as [s' res] eqn:E. cbn in Hp, H'. subst res.
  destruct (pick_err _ _ _ _ _ _ _ _ Hi E) as ([Hs' _] & _).
  exists (admission s'), (S (ad_calls st)). split; [by rewrite Hs'|apply H'].
Qed.

Lemma rejected_loop n i st a :
  ad_sched st = set_admission a start -> stats_ok a ->
  exists a' k, admission_loop g c n i st
    = Ok (mkAdmState (set_admission a' start) (ad_admitted st) (ad_rejected st + Z.of_nat n)
            (ad_under st) k).
Proof.
  revert i st a; induction n as [|n IH]; intros i st a Hs Ha; cbn [admission_loop].
  - exists a, (ad_calls st). rewrite <- Hs, Z.add_0_r. by destruct st.
  - destruct (rejected_request i st a Hs Ha) as (a1 & k1 & -> & Ha1). cbn [mbind result_bind].
    match goal with |- context [admission_loop _ _ _ _ ?x] =>
      destruct (IH (i + 1) x a1 eq_refl Ha1) as (a' & k & ->) end.
    exists a', k. cbn [ad_admitted ad_rejected ad_under]. do 2 f_equal. lia.
Qed.
End Rejecting.

(** Experiment C on binary64, for every generator: with the poisoned estimate the
    [absolute] gate rejects all [n] requests.  Nothing is ever completed, so the estimate
    that causes it is never corrected: the workers end as they started. *)
Theorem absolute_gate_never_recovers (g : Rng float) n calls :
  let c := sched_cfg (admission_args "absolute") in
  exists st row, admission_mode_run g "absolute" n calls = Ok (st, row) /\
    ad_admitted st = 0 /\ ad_rejected st = Z.of_nat n /\
    predictors (ad_sched st) = predictors (admission_start c) /\
    recent_e2e (ad_sched st) = [].
Proof.
  intros c. destruct (rejected_loop c (admission_start c) g ltac:(vm_compute; discriminate) start_inv
    poisoned_pick n 0 (mkAdmState (admission_start c) 0 0 0 calls) admission_zero eq_refl stats_ok_zero)
    as (a & k & E).
  unfold admission_mode_run. fold c. rewrite E. cbn [mbind result_bind].
  eexists _, _. split; [reflexivity|]. by split_and!.
Qed.

(** ** A generator without noise *)

Definition still : Rng xreal := mkRng (fun _ m _ => m) (fun _ => f0) (fun _ lo _ => lo) (fun _ => 0).

Lemma still_real : draws_real still.
Proof. split; [by intros k m s Hm _|intros k; apply real_f0]. Qed.

Lemma hybrid_arms_two_valued_witness :
  exists st ws,
    hybrid_loop still (sched_cfg (hybrid_args "nlms" true)) true 0 120 0
      (mkHybrid (hybrid_start (sched_cfg (hybrid_args "nlms" true)) true) [] 0 0) = Ok st /\
    length ws = 120%nat /\
    hy_lats st = imap (fun i x => hybrid_latency still (40 + Z.of_nat i mod 30) x.1 x.2) ws.
Proof.
  destruct (hybrid_arms_two_valued still "nlms" true 0 120 0 still_real ltac:(by left))
    as (st & ws & E & H1 & H2 & _).
  exists st, ws. split; [exact E|]. split; [exact H1|exact H2].
Defined.

Lemma affinity_hits_are_repeats_witness :
  exists st,
    affinity_sessions still (sched_cfg (affinity_args (F:=xreal) "nlms" true)) 5 20 0
      (affinity_start (sched_cfg (affinity_args "nlms" true)) 0) = Ok st /\
    affinity_decisions (af_sched st) = 100 /\
    af_hits st <= affinity_hits (af_sched st) <= af_hits st + 20.
Proof.
  destruct (affinity_hits_are_repeats still 20 5 0 still_real ltac:(lia))
    as (st & E & _ & H1 & H2 & _).
  exists st. split; [exact E|]. split; [exact H1|exact H2].
Defined.
