(* ===== verification/ResultProps.v ===== *)
(** The statistics of the experiments: the signed-rank test counts the null distribution,
    the least-squares fit is one, the interpolated percentiles agree with the
    scheduler's, and the paired comparison of the reanalysis. *)

From Stdlib Require Import Reals Lra.
From S2P Require Import Prelude PyFloat PyReal PyStats PyStr PyDict PySort Config Learner Admission.
From S2P Require Import LearnerExact CostExact Feasible Json ResultStats.

(** ** Signed ranks *)

Local Abbreviation zsum := (sum_of (fun r : Z => r)).

Section Wilcoxon.
Context {F : Type} {PF : PyFloat F} {PL : PyFloatLaws F} {PS : PyStats F}.

Lemma insert_index_perm (key : nat -> F) i l : insert_index key i l ≡ₚ i :: l.
Proof.
  induction l as [|j l IH]; cbn; [done|]. destruct (flt _ _); [done|].
  rewrite IH. apply Permutation_swap.
Qed.

Lemma sort_indices_perm (key : nat -> F) n : sort_indices key n ≡ₚ seq 0 n.
Proof.
  unfold sort_indices. rewrite <- (app_nil_l (seq 0 n)) at 2.
  generalize (@nil nat) as acc. generalize (seq 0 n) as l.
  induction l as [|i l IH]; intros acc; cbn; [by rewrite app_nil_r|].
  rewrite IH, insert_index_perm. cbn. by rewrite Permutation_middle.
Qed.

Lemma assign_length (l : list (Z * nat)) ranks :
  length (foldl (fun ranks '(r, i) => <[i := r]> ranks) ranks l) = length ranks.
Proof.
  revert ranks; induction l as [|[r i] l IH]; intros ranks; cbn; [done|].
  by rewrite IH, length_insert.
Qed.

(** Each index is written once, so it keeps the rank it was given. *)
Lemma assign_lookup (l : list (Z * nat)) ranks :
  NoDup (map snd l) -> (forall i, i ∈ map snd l -> (i < length ranks)%nat) ->
  map (fun i => foldl (fun ranks '(r, i) => <[i := r]> ranks) ranks l !! i) (map snd l)
  = map Some (map fst l) /\
  forall j, j ∉ map snd l ->
    foldl (fun ranks '(r, i) => <[i := r]> ranks) ranks l !! j = ranks !! j.
Proof.
  revert ranks; induction l as [|[r i] l IH]; intros ranks Hnd Hlt; cbn; [done|].
  cbn in Hnd. apply NoDup_cons in Hnd as [Hi Hnd].
  destruct (IH (<[i := r]> ranks) Hnd) as [H1 H2].
  { intros j Hj. rewrite length_insert. apply Hlt. cbn. by right. }
  split.
  - f_equal; [|exact H1]. rewrite H2 by done. apply list_lookup_insert_eq, Hlt. cbn. by left.
  - intros j [Hne Hj]%not_elem_of_cons. rewrite H2 by done. by apply list_lookup_insert_ne.
Qed.

Lemma map_lookup_seq (l : list Z) : map (fun i => l !! i) (seq 0 (length l)) = map Some l.
Proof.
  apply list_eq. intros i. rewrite !list_lookup_fmap.
  destruct (decide (i < length l)%nat) as [H|H].
  - rewrite lookup_seq_lt by done. cbn. by destruct (lookup_lt_is_Some_2 _ _ H) as [x ->].
  - rewrite lookup_seq_ge by lia. by rewrite lookup_ge_None_2 by lia.
Qed.

Lemma assign_ranks_perm n order :
  order ≡ₚ seq 0 n -> assign_ranks n order ≡ₚ seqZ 1 (Z.of_nat n).
Proof.
  intros Hp. unfold assign_ranks. set (l := zip (seqZ 1 (Z.of_nat n)) order).
  assert (Hlen : length order = n) by by rewrite Hp, length_seq.
  assert (Hs : map snd l = order) by (apply snd_zip; rewrite length_seqZ; lia).
  assert (Hf : map fst l = seqZ 1 (Z.of_nat n)) by (apply fst_zip; rewrite length_seqZ; lia).
  set (out := foldl _ _ l).
  assert (Ho : length out = n) by (unfold out; by rewrite assign_length, length_replicate).
  destruct (assign_lookup l (replicate n 0)) as [H _].
  { rewrite Hs, Hp. apply NoDup_seq. }
  { intros i. rewrite Hs, Hp, length_replicate. by intros [_ ?]%elem_of_seq. }
  fold out in H. rewrite Hs, Hf in H.
  assert (Hperm : map Some out ≡ₚ map Some (seqZ 1 (Z.of_nat n))).
  { rewrite <- H, <- map_lookup_seq, Ho. by rewrite Hp. }
  apply (Permutation_map (default 0)) in Hperm. rewrite !map_map in Hperm. cbn in Hperm.
  by rewrite !map_id in Hperm.
Qed.

Lemma ranks_perm (nz : list F) : ranks_of nz ≡ₚ seqZ 1 (Z.of_nat (length nz)).
Proof. apply assign_ranks_perm, sort_indices_perm. Qed.

(** *** The two rank sums *)

Lemma nonzero_sign (d : F) :
  fisnan d = false -> feq d f0 = false -> flt f0 d = negb (flt d f0).
Proof.
  intros Hn He. rewrite feq_fle in He.
  rewrite (fle_total d f0 Hn f0_num), (fle_total f0 d f0_num Hn) in He.
  destruct (flt f0 d) eqn:E1, (flt d f0) eqn:E2; try done.
  apply flt_not_fle in E1. apply flt_fle in E2. congruence.
Qed.

Lemma rank_sums_total (nz : list F) ranks :
  length ranks = length nz ->
  Forall (fun d => fisnan d = false /\ feq d f0 = false) nz ->
  rank_sum (fun d => flt f0 d) nz ranks + rank_sum (fun d => flt d f0) nz ranks = zsum ranks.
Proof.
  unfold rank_sum. revert ranks; induction nz as [|d nz IH]; intros [|r ranks] Hl Hnz; try done.
  apply Forall_cons in Hnz as [[Hn He] Hnz]. cbn [zip zip_with]. rewrite !sum_of_cons. cbn [fst snd].
  rewrite (nonzero_sign d Hn He). cbn in Hl. specialize (IH ranks ltac:(lia) Hnz).
  cbn beta in IH |- *. destruct (flt d f0); cbn [negb]; lia.
Qed.

Lemma rank_sum_nonneg test (nz : list F) ranks :
  Forall (fun r => 0 <= r) ranks -> 0 <= rank_sum test nz ranks.
Proof.
  unfold rank_sum. revert ranks; induction nz as [|d nz IH]; intros [|r ranks] H; try (cbn; lia).
  apply Forall_cons in H as [H0 H]. cbn [zip zip_with]. rewrite sum_of_cons. cbn [fst snd].
  specialize (IH ranks H). cbn beta in IH |- *. destruct (test d); lia.
Qed.

Lemma sum_of_perm {A} (f : A -> Z) l k : l ≡ₚ k -> sum_of f l = sum_of f k.
Proof. induction 1; rewrite ?sum_of_cons; lia. Qed.

Lemma sum_seqZ n : 2 * zsum (seqZ 1 (Z.of_nat n)) = Z.of_nat n * (Z.of_nat n + 1).
Proof.
  induction n as [|n IH]; [done|]. rewrite seqZ_S, sum_of_snoc. lia.
Qed.

(** *** The null distribution *)

Lemma sign_sums_perm l k : l ≡ₚ k -> sign_sums l ≡ₚ sign_sums k.
Proof.
  induction 1 as [|x l k _ IH|x y l|l1 l2 l3 _ IH1 _ IH2]; cbn [sign_sums]; [done| | |by etrans].
  - by rewrite IH.
  - rewrite !map_app, !map_map. rewrite <- !app_assoc. f_equiv.
    rewrite !app_assoc. apply Permutation_app; [apply Permutation_app_comm|].
    by erewrite map_ext by (intros z; rewrite Z.add_assoc, (Z.add_comm y x), <- Z.add_assoc; reflexivity).
Qed.

Lemma length_sign_sums l : length (sign_sums l) = (2 ^ length l)%nat.
Proof. induction l as [|r l IH]; cbn; [done|]. rewrite length_app, length_map, IH. lia. Qed.

Lemma sign_sums_least l : 0 ∈ sign_sums l.
Proof. induction l as [|r l IH]; cbn; [by left|]. apply elem_of_app. by left. Qed.

Lemma sign_sums_greatest l : zsum l ∈ sign_sums l.
Proof.
  induction l as [|r l IH]; cbn [sign_sums]; [by left|]. apply elem_of_app. right.
  rewrite sum_of_cons. apply list_elem_of_fmap. by exists (zsum l).
Qed.

Lemma extreme_count_perm total w l k :
  l ≡ₚ k -> extreme_count total w l = extreme_count total w k.
Proof. intros H. unfold extreme_count. by rewrite H. Qed.

Lemma filter_pos {A} (P : A -> Prop) `{!forall x, Decision (P x)} l x :
  x ∈ l -> P x -> (1 <= length (filter P l))%nat.
Proof.
  intros Hin Hx. assert (Hf : x ∈ filter P l) by by apply list_elem_of_filter.
  destruct (filter P l); [by apply elem_of_nil in Hf|cbn; lia].
Qed.

(** Taking no rank and taking all of them are always among the extreme ones. *)
Lemma extreme_count_range total w l :
  l <> [] -> zsum l = total -> 0 <= w ->
  2 <= extreme_count total w (sign_sums l) <= 2 ^ Z.of_nat (length l).
Proof.
  intros Hne Ht Hw. unfold extreme_count. split.
  - destruct l as [|r l]; [done|]. cbn [sign_sums]. rewrite filter_app, length_app.
    assert (H1 : (1 <= length (filter (fun wp => (Z.min wp (total - wp) <= w)%Z) (sign_sums l)))%nat)
      by (apply (filter_pos _ _ 0); [apply sign_sums_least|lia]).
    assert (H2 : (1 <= length (filter (fun wp => (Z.min wp (total - wp) <= w)%Z)
                                 (map (Z.add r) (sign_sums l))))%nat).
    { apply (filter_pos _ _ total); [|lia]. rewrite <- Ht, sum_of_cons. apply list_elem_of_fmap.
      exists (zsum l). split; [done|apply sign_sums_greatest]. }
    lia.
  - pose proof (length_filter (fun wp => Z.min wp (total - wp) <= w) (sign_sums l)) as H.
    rewrite length_sign_sums in H. rewrite <- (Nat2Z.inj_pow 2). lia.
Qed.

(** *** The ranks *)

(** [abs_before nz j i]: [sorted] puts the difference [j] before [i]. *)
Definition abs_of (nz : list F) (i : nat) : F := fabs (nth i nz f0).
Definition abs_before (nz : list F) (j i : nat) : bool :=
  flt (abs_of nz j) (abs_of nz i) ||
  (negb (flt (abs_of nz i) (abs_of nz j)) && (j <? i)%nat).

(** One more than the number of differences that come before: those of a smaller
    magnitude, and the earlier ones of the same. *)
Definition rank_at (nz : list F) (i : nat) : Z :=
  1 + Z.of_nat (length (filter (fun j => abs_before nz j i = true) (seq 0 (length nz)))).

(** A list of indices in that order. *)
Fixpoint ordered (before : nat -> nat -> bool) (l : list nat) : Prop :=
  match l with
  | [] => True
  | i :: l' => (forall j, j ∈ l' -> before i j = true) /\ ordered before l'
  end.

Section Order.
Variable nz : list F.
Hypothesis nz_num : Forall (fun d => fisnan d = false) nz.
Local Abbreviation before := (abs_before nz).
Local Abbreviation key := (abs_of nz).

Lemma abs_num i : fisnan (key i) = false.
Proof.
  assert (H : fisnan (nth i nz f0) = false).
  { destruct (nth_in_or_default i nz f0) as [Hi| ->]; [|apply f0_num].
    apply (proj1 (Forall_forall _ _) nz_num). by apply list_elem_of_In. }
  by apply fabs_nonneg, fle_num in H as [_ ?].
Qed.

Lemma abs_le i j : flt (key i) (key j) = false -> fle (key j) (key i) = true.
Proof. apply flt_false_fle; apply abs_num. Qed.

Lemma before_trans i j k : before i j = true -> before j k = true -> before i k = true.
Proof.
  unfold abs_before. rewrite !orb_true_iff, !andb_true_iff, !negb_true_iff, !Nat.ltb_lt.
  intros [H1|[H1 L1]] [H2|[H2 L2]].
  - left. by eapply flt_trans.
  - left. eapply flt_le_trans; [exact H1|by apply abs_le].
  - left. eapply fle_lt_trans; [by apply abs_le|exact H2].
  - right. split; [|lia]. apply fle_not_flt. by eapply fle_trans; apply abs_le.
Qed.

Lemma before_asym i j : before i j = true -> before j i = false.
Proof.
  unfold abs_before. rewrite orb_true_iff, andb_true_iff, negb_true_iff, Nat.ltb_lt.
  intros [H|[H L]].
  - rewrite H, (fle_not_flt (key i) (key j)) by by apply flt_fle. done.
  - rewrite H. cbn [orb]. apply andb_false_iff. right. apply Nat.ltb_ge. lia.
Qed.

Lemma before_irrefl i : before i i = false.
Proof. destruct (before i i) eqn:E; [|done]. by rewrite (before_asym _ _ E) in E. Qed.

(** Inserting an index after all smaller ones keeps the order. *)
Lemma insert_index_ordered i l :
  (forall j, j ∈ l -> (j < i)%nat) -> ordered before l -> ordered before (insert_index key i l).
Proof.
  induction l as [|j l IH]; intros Hlt Hl; cbn [insert_index]; [by split; [intros ? ?%not_elem_of_nil|]|].
  destruct Hl as [Hj Hl]. destruct (flt (key i) (key j)) eqn:E.
  - assert (Hij : before i j = true) by (unfold abs_before; by rewrite E).
    split; [|by split]. intros k [->|Hk]%elem_of_cons; [done|].
    eapply before_trans; [exact Hij|by apply Hj].
  - split; [|apply IH; [|done]].
    + intros k Hk. rewrite insert_index_perm in Hk. apply elem_of_cons in Hk as [->|Hk]; [|by apply Hj].
      unfold abs_before. rewrite E. cbn [negb andb]. apply orb_true_iff. right.
      apply Nat.ltb_lt, Hlt. by left.
    + intros k Hk. apply Hlt. by right.
Qed.

Lemma sort_indices_ordered n : ordered before (sort_indices key n).
Proof.
  unfold sort_indices.
  cut (forall m acc, (forall j, j ∈ acc -> (j < m)%nat) -> ordered before acc ->
         ordered before (foldl (fun acc i => insert_index key i acc) acc (seq m n))).
  { intros H. apply H; [by intros ? ?%not_elem_of_nil|done]. }
  induction n as [|n IH]; intros m acc Hlt Ho; cbn; [done|]. apply IH.
  - intros j Hj. rewrite insert_index_perm in Hj. apply elem_of_cons in Hj as [->|Hj]; [lia|].
    specialize (Hlt j Hj). lia.
  - by apply insert_index_ordered.
Qed.

(** In an ordered list an index stands behind as many as come before it. *)
Lemma ordered_position l1 i l2 :
  ordered before (l1 ++ i :: l2)%list ->
  filter (fun j => before j i = true) (l1 ++ i :: l2)%list = l1.
Proof.
  induction l1 as [|j l1 IH]; cbn [app]; intros [Hj Ho].
  - rewrite filter_cons, before_irrefl. cbn.
    destruct (filter _ l2) as [|k r] eqn:E; [done|].
    assert (Hk : k ∈ filter (fun j => before j i = true) l2) by (rewrite E; by left).
    apply list_elem_of_filter in Hk as [Hk Hin]. by rewrite (before_asym _ _ (Hj k Hin)) in Hk.
  - rewrite filter_cons, decide_True; [by rewrite IH|]. apply Hj. set_solver.
Qed.
End Order.

Lemma ranks_of_lookup nz i :
  Forall (fun d => fisnan d = false) nz -> (i < length nz)%nat ->
  ranks_of nz !! i = Some (rank_at nz i).
Proof.
  intros Hnum Hi. set (n := length nz). set (order := sort_indices (abs_of nz) n).
  assert (Hperm : order ≡ₚ seq 0 n) by apply sort_indices_perm.
  assert (Hlen : length order = n) by by rewrite Hperm, length_seq.
  assert (Hin : i ∈ order) by (rewrite Hperm; apply elem_of_seq; lia).
  apply list_elem_of_split in Hin as (l1 & l2 & E).
  assert (Hr : rank_at nz i = 1 + Z.of_nat (length l1)).
  { unfold rank_at. fold n. rewrite <- Hperm, E.
    rewrite (ordered_position nz Hnum l1 i l2); [done|]. rewrite <- E. by apply sort_indices_ordered. }
  set (l := zip (seqZ 1 (Z.of_nat n)) order).
  assert (Hs : map snd l = order) by (apply snd_zip; rewrite length_seqZ; lia).
  assert (Hf : map fst l = seqZ 1 (Z.of_nat n)) by (apply fst_zip; rewrite length_seqZ; lia).
  destruct (assign_lookup l (replicate n 0)) as [H _].
  { rewrite Hs, Hperm. apply NoDup_seq. }
  { intros j. rewrite Hs, Hperm, length_replicate. by intros [_ ?]%elem_of_seq. }
  rewrite Hs, Hf in H. apply (f_equal (fun x => x !! length l1)) in H.
  rewrite !list_lookup_fmap in H. rewrite E in H at 1.
  rewrite (list_lookup_middle l1 l2 i) in H by done.
  assert (Hl1 : (length l1 < n)%nat) by (rewrite <- Hlen, E, length_app; cbn; lia).
  rewrite lookup_seqZ_lt in H by lia. cbn in H. injection H as H.
  rewrite Hr. exact H.
Qed.

Lemma length_ranks_of nz : length (ranks_of nz) = length nz.
Proof. rewrite (ranks_perm nz), length_seqZ. lia. Qed.

Lemma ranks_of_at nz :
  Forall (fun d => fisnan d = false) nz -> ranks_of nz = map (rank_at nz) (seq 0 (length nz)).
Proof.
  intros Hnum. apply list_eq. intros i. rewrite list_lookup_fmap.
  destruct (decide (i < length nz)%nat) as [Hi|Hi].
  - rewrite ranks_of_lookup by done. by rewrite lookup_seq_lt.
  - rewrite !lookup_ge_None_2; [done|rewrite length_seq; lia|rewrite length_ranks_of; lia].
Qed.

(** The sum of the ranks of the differences that pass a test, each rank by its meaning. *)
Lemma rank_sum_at test nz :
  Forall (fun d => fisnan d = false) nz ->
  rank_sum test nz (ranks_of nz)
  = sum_of (fun i => if test (nth i nz f0) then rank_at nz i else 0) (seq 0 (length nz)).
Proof.
  intros Hnum. unfold rank_sum. rewrite (ranks_of_at nz Hnum).
  generalize (rank_at nz) as rank. intros rank.
  assert (E : nz = map (fun i => nth i nz f0) (seq 0 (length nz))).
  { apply list_eq. intros i. rewrite list_lookup_fmap. destruct (decide (i < length nz)%nat) as [Hi|Hi].
    - rewrite lookup_seq_lt by done. cbn. rewrite (nth_lookup nz i f0).
      by destruct (lookup_lt_is_Some_2 nz i Hi) as [d ->].
    - rewrite !lookup_ge_None_2; [done|rewrite length_seq; lia|lia]. }
  rewrite E at 1. generalize (seq 0 (length nz)) as l. induction l as [|i l IH]; [done|].
  cbn [map zip zip_with]. rewrite !sum_of_cons. cbn [fst snd]. rewrite <- IH. done.
Qed.

(** *** Changing the signs of the data *)

Context {SG : PyFloatSigns F}.

(** Every choice of signs. *)
Fixpoint sign_flips (l : list F) : list (list F) :=
  match l with
  | [] => [[]]
  | d :: l' => let s := sign_flips l' in (map (cons d) s ++ map (cons (fopp d)) s)%list
  end.

Lemma sign_flips_spec l k :
  k ∈ sign_flips l -> Forall2 (fun d e => e = d \/ e = fopp d) l k.
Proof.
  revert k; induction l as [|d l IH]; intros k; cbn [sign_flips].
  - intros ->%list_elem_of_singleton. constructor.
  - rewrite elem_of_app, !list_elem_of_fmap.
    intros [(k' & -> & Hk)|(k' & -> & Hk)]; (constructor; [auto|by apply IH]).
Qed.

Definition proper_diff (d : F) : Prop := fisnan d = false /\ feq d f0 = false.

Lemma proper_opp d : proper_diff d -> proper_diff (fopp d).
Proof. unfold proper_diff, f0. by rewrite fopp_num, fopp_zero. Qed.

Lemma flipped_proper l k :
  Forall2 (fun d e => e = d \/ e = fopp d) l k -> Forall proper_diff l ->
  Forall proper_diff k /\ map fabs k = map fabs l.
Proof.
  induction 1 as [|d e l k He _ IH]; intros Hp; [by split; [constructor|]|].
  apply Forall_cons in Hp as [Hd Hp]. destruct (IH Hp) as [Hk Ek].
  destruct He as [->| ->]; (split; [constructor; auto using proper_opp|]); cbn; by rewrite ?fabs_opp, Ek.
Qed.

Lemma abs_of_map l i : abs_of l i = nth i (map fabs l) (fabs f0).
Proof. unfold abs_of. by rewrite map_nth. Qed.

(** The ranks do not see the signs. *)
Lemma ranks_of_abs l k :
  Forall proper_diff l -> Forall proper_diff k -> map fabs k = map fabs l -> ranks_of k = ranks_of l.
Proof.
  intros Hl Hk E. assert (El : length k = length l) by (apply (f_equal length) in E; by rewrite !length_map in E).
  rewrite !ranks_of_at by (eapply Forall_impl; [done|by intros ? [? _]]). rewrite El.
  apply map_ext. intros i. unfold rank_at. do 3 f_equal. rewrite El.
  apply list_filter_iff. intros j. unfold abs_before. by rewrite !abs_of_map, E.
Qed.

(** Summed over every choice of signs, the positive ranks are every sum of ranks. *)
Lemma flipped_sums l ranks :
  length ranks = length l -> Forall proper_diff l ->
  map (fun k => rank_sum (fun d => flt f0 d) k ranks) (sign_flips l) ≡ₚ sign_sums ranks.
Proof.
  revert ranks; induction l as [|d l IH]; intros [|r ranks] Hl Hp; try done.
  apply Forall_cons in Hp as [[Hn Hz] Hp]. cbn in Hl. specialize (IH ranks ltac:(lia) Hp).
  assert (Hstep : forall e, map (fun k => rank_sum (fun d => flt f0 d) k (r :: ranks)) (map (cons e) (sign_flips l))
    = map (fun x => (if flt f0 e then r else 0) + x)
        (map (fun k => rank_sum (fun d => flt f0 d) k ranks) (sign_flips l))).
  { intros e. rewrite !map_map. apply map_ext. intros k. unfold rank_sum. cbn [zip zip_with].
    by rewrite sum_of_cons. }
  cbn [sign_flips sign_sums]. rewrite map_app, !Hstep, !IH.
  assert (Ho : flt f0 (fopp d) = negb (flt f0 d)).
  { unfold f0. rewrite fopp_pos. fold (f0 : F). rewrite (nonzero_sign d Hn Hz). by rewrite negb_involutive. }
  rewrite Ho. assert (E0 : map (fun x => 0 + x) (sign_sums ranks) = sign_sums ranks) by by apply map_id.
  destruct (flt f0 d); cbn [negb]; rewrite E0; [apply Permutation_app_comm|done].
Qed.

Lemma filter_map_length {A B} (f : A -> B) (P : B -> Prop) (Q : A -> Prop)
    `{!forall x, Decision (P x)} `{!forall x, Decision (Q x)} (l : list A) :
  (forall x, x ∈ l -> (Q x <-> P (f x))) -> length (filter Q l) = length (filter P (map f l)).
Proof.
  induction l as [|x l IH]; intros Hl; [done|]. cbn [map]. rewrite !filter_cons.
  specialize (IH (fun y Hy => Hl y ltac:(by right))). pose proof (Hl x ltac:(by left)) as Hx.
  destruct (decide (Q x)), (decide (P (f x))); cbn [length]; try tauto; lia.
Qed.

Definition proper_all (nz : list F) : Forall proper_diff nz -> filter (fun d => feq d f0 = false) nz = nz.
Proof.
  induction 1 as [|d l [_ Hz] _ IH]; [done|]. rewrite filter_cons, decide_True by done. by rewrite IH.
Qed.

Lemma ranks_total nz : zsum (ranks_of nz) = Z.of_nat (length nz) * (Z.of_nat (length nz) + 1) / 2.
Proof.
  rewrite (sum_of_perm _ _ _ (ranks_perm nz)), <- (sum_seqZ (length nz)).
  by rewrite Z.mul_comm, Z.div_mul.
Qed.

(** The statistic, from the positive ranks alone. *)
Lemma statistic_of_positive nz :
  Forall proper_diff nz ->
  let plus := rank_sum (fun d => flt f0 d) nz (ranks_of nz) in
  wx_w (exact_wilcoxon nz)
  = Z.min plus (Z.of_nat (length nz) * (Z.of_nat (length nz) + 1) / 2 - plus).
Proof.
  intros Hp plus. unfold exact_wilcoxon. rewrite (proper_all nz Hp). cbn [wx_w].
  pose proof (rank_sums_total nz (ranks_of nz) (length_ranks_of nz) Hp) as H.
  rewrite ranks_total in H. fold plus in H |- *. f_equal. lia.
Qed.

(** C39. The signed-rank test ranks the differences that are not zero by their magnitude
    (equal magnitudes by position) and counts as claimed.  Whatever the differences (no NaN
    among them), the two statistics are the sums of the ranks of the positive and of the
    negative ones and split [n * (n + 1) / 2]; the p-value is the share, among the [2 ^ n]
    choices of signs for the same magnitudes, of the data for which the test's own statistic
    is at most the one observed; at least two choices are, so that no [n] differences give
    less than [2 / 2 ^ n]. *)
Theorem wilcoxon_counts_null (diffs : list F) :
  let nz := filter (fun d => feq d f0 = false) diffs in
  let n := Z.of_nat (length nz) in
  let x := exact_wilcoxon diffs in
  let ranked (test : F -> bool) :=
    sum_of (fun i => if test (nth i nz f0) then rank_at nz i else 0) (seq 0 (length nz)) in
  Forall (fun d => fisnan d = false) nz -> nz <> [] ->
  wx_n x = n /\
  wx_plus x = ranked (fun d => flt f0 d) /\ wx_minus x = ranked (fun d => flt d f0) /\
  wx_plus x + wx_minus x = n * (n + 1) / 2 /\
  wx_w x = Z.min (wx_plus x) (wx_minus x) /\
  wx_count x = Z.of_nat (length (filter (fun k => wx_w (exact_wilcoxon k) <= wx_w x) (sign_flips nz))) /\
  2 <= wx_count x <= 2 ^ n /\
  wx_p x = fdiv (fint (wx_count x)) (fint (2 ^ n)).
Proof.
  intros nz n x ranked Hnum Hne.
  assert (Hz : Forall proper_diff nz).
  { apply Forall_forall. intros d Hd. split; [by eapply Forall_forall in Hnum|].
    by apply list_elem_of_filter in Hd as [? _]. }
  assert (Hr : Forall (fun r => 0 <= r) (ranks_of nz)).
  { rewrite (ranks_perm nz). apply Forall_forall. intros r Hr%elem_of_seqZ. lia. }
  pose proof (rank_sums_total nz (ranks_of nz) (length_ranks_of nz) Hz) as Hsum.
  rewrite ranks_total in Hsum. fold n in Hsum.
  pose proof (rank_sum_nonneg (fun d => flt f0 d) nz _ Hr) as Hplus.
  pose proof (rank_sum_nonneg (fun d => flt d f0) nz _ Hr) as Hminus.
  assert (Hw : 0 <= wx_w x) by (unfold x, exact_wilcoxon; cbn [wx_w]; fold nz; lia).
  assert (Hrange : 2 <= extreme_count (n * (n + 1) / 2) (wx_w x) (sign_sums (ranks_of nz)) <= 2 ^ n).
  { replace (2 ^ n) with (2 ^ Z.of_nat (length (ranks_of nz))) by by rewrite length_ranks_of.
    apply extreme_count_range; [|apply ranks_total|done].
    intros E. pose proof (length_ranks_of nz) as H. rewrite E in H. by destruct nz. }
  assert (Hcount : extreme_count (n * (n + 1) / 2) (wx_w x) (sign_sums (ranks_of nz))
    = Z.of_nat (length (filter (fun k => wx_w (exact_wilcoxon k) <= wx_w x) (sign_flips nz)))).
  { rewrite <- (extreme_count_perm _ _ _ _ (flipped_sums nz (ranks_of nz) (length_ranks_of nz) Hz)).
    unfold extreme_count. f_equal. symmetry. apply filter_map_length. intros k Hk.
    destruct (flipped_proper nz k (sign_flips_spec nz k Hk) Hz) as [Hpk Ek].
    assert (El : length k = length nz) by (apply (f_equal length) in Ek; by rewrite !length_map in Ek).
    rewrite (statistic_of_positive k Hpk), (ranks_of_abs nz k Hz Hpk Ek), El. done. }
  unfold x, exact_wilcoxon in *. fold nz in Hrange, Hcount, Hw |- *. fold n in Hrange, Hcount |- *.
  cbn [wx_n wx_plus wx_minus wx_w wx_count wx_p] in *.
  split_and!; try done; try (by apply rank_sum_at); try lia.
Qed.
End Wilcoxon.

(** Equal differences get the ranks of their positions, not their average: the order of
    the seeds decides the p-value (8 of 8 choices, or 4). *)
Lemma wilcoxon_ties_depend_on_order :
  let a : list float := [fint 1; fint 1; fint (-1)] in
  let b : list float := [fint (-1); fint 1; fint 1] in
  a ≡ₚ b /\ wx_count (exact_wilcoxon a) = 8 /\ wx_count (exact_wilcoxon b) = 4.
Proof.
  split_and!; [|vm_compute; reflexivity|vm_compute; reflexivity].
  apply (Permutation_app_comm [fint 1; fint 1] [fint (-1)]).
Qed.

(** Ten seeds that all improve. *)
Definition ten_gains : list float := map fint [3; 5; 1; 7; 2; 9; 4; 6; 8; 10].

Lemma wilcoxon_counts_null_witness :
  wx_plus (exact_wilcoxon ten_gains) + wx_minus (exact_wilcoxon ten_gains) = 55 /\
  2 <= wx_count (exact_wilcoxon ten_gains) <= 1024.
Proof.
  assert (E : filter (fun d => feq d f0 = false) ten_gains = ten_gains) by (vm_compute; reflexivity).
  pose proof (wilcoxon_counts_null ten_gains) as H. cbv zeta in H. rewrite E in H.
  destruct H as (_ & _ & _ & H1 & _ & _ & H2 & _).
  - repeat constructor.
  - discriminate.
  - split; [exact H1|exact H2].
Defined.

(** ** The percentiles agree *)

Local Open Scope R_scope.

Lemma lerp_at_percentile (xs : list xreal) k :
  (2 <= Z.of_nat (length xs))%Z -> (forall x, x ∈ xs -> real x) ->
  0 <= k <= IZR (Z.of_nat (length xs) - 1) ->
  let ys := fsorted xs in
  lerp_at ys (XR k)
  = if (ffloor (XR k) =? fceil (XR k))%Z then fnth ys (ffloor (XR k))
    else (let t := XR k - fint (ffloor (XR k)) in
          fnth ys (ffloor (XR k)) * (f1 - t) + fnth ys (fceil (XR k)) * t)%fl.
Proof.
  intros Hn Hall Hk ys. unfold lerp_at. cbv zeta. replace (length ys) with (length xs) by (unfold ys; by rewrite length_fsorted).
  set (n := Z.of_nat (length xs)) in *.
  assert (Hget : forall i, (0 <= i < n)%Z -> real (fnth ys i)).
  { intros i Hi. destruct (all_real_fnth xs i Hall Hi) as (r & E & _). by exists r. }
  assert (Htr : ftrunc (XR k) = Int_part k).
  { cbn. unfold XReal.trunc. by rewrite (proj2 (rlt_false k 0)) by lra. }
  rewrite Htr. change (ffloor (XR k)) with (Int_part k). change (fceil (XR k)) with (- Int_part (- k))%Z.
  pose proof (Int_part_bounds k) as Hf. pose proof (Int_part_bounds (- k)) as Hc.
  set (lo := Int_part k) in *. set (hi := (- Int_part (- k))%Z).
  assert (Hhi : IZR hi - 1 < k <= IZR hi) by (unfold hi; rewrite opp_IZR; lra).
  assert (Hlo0 : (0 <= lo)%Z) by (apply Z.lt_succ_r, lt_IZR; rewrite succ_IZR; lra).
  assert (Hlon : (lo <= n - 1)%Z) by (apply le_IZR; lra).
  assert (Hhin : (hi <= n - 1)%Z) by (apply Z.lt_succ_r, lt_IZR; rewrite succ_IZR; lra).
  assert (Hlohi : (lo <= hi <= lo + 1)%Z)
    by (split; [apply le_IZR; lra|apply Z.lt_succ_r, lt_IZR; rewrite succ_IZR, plus_IZR; lra]).
  destruct (Z.eqb_spec lo hi) as [E|Hd].
  - destruct (Z.eqb_spec lo (Z.min (n - 1) (lo + 1))) as [_|Hne]; [done|].
    destruct (Hget lo ltac:(lia)) as [a Ea], (Hget (Z.min (n - 1) (lo + 1)) ltac:(lia)) as [b Eb].
    rewrite Ea, Eb. cbn. assert (Ek : k = IZR lo) by (rewrite E in *; lra). rewrite Ek. f_equal. lra.
  - replace (Z.min (n - 1) (lo + 1)) with hi by lia.
    by rewrite (proj2 (Z.eqb_neq lo hi)) by done.
Qed.

(** The percentile of the Regime D report and the scheduler's rolling one are the same
    number on every non-empty list of finite latencies, for every requested percentile. *)
Theorem percentile_lerp_agrees (xs : list xreal) p :
  xs <> [] -> (forall x, x ∈ xs -> real x) -> percentile_lerp xs p = Some (percentile xs p).
Proof.
  intros Hne Hall. unfold percentile_lerp, percentile.
  destruct xs as [|x0 xs0] eqn:Exs; [done|]. rewrite <- Exs in *.
  destruct (fsorted xs) as [|y [|y' ys]] eqn:Es; [| |rewrite <- Es].
  - apply (f_equal length) in Es. rewrite length_fsorted, Exs in Es. done.
  - done.
  - assert (Hlen : (2 <= Z.of_nat (length xs))%Z)
      by (rewrite <- (length_fsorted xs), Es; cbn; lia).
    rewrite !length_fsorted.
    rewrite (proj2 (Z.eqb_neq (Z.of_nat (length xs)) 1)) by lia.
    destruct (percentile_rank_range (Z.of_nat (length xs)) p ltac:(lia)) as (k & Ek & Hk).
    unfold percentile_rank in Ek. rewrite Ek.
    f_equal. etrans; [by apply lerp_at_percentile|]. unfold percentile_rank. by rewrite Ek.
Qed.

(** ** Least squares *)

(** Sums over a list of points. *)
Fixpoint rsum (f : R * R -> R) (l : list (R * R)) : R :=
  match l with [] => 0 | p :: l' => f p + rsum f l' end.

Lemma rsum_ext f h l : (forall p, f p = h p) -> rsum f l = rsum h l.
Proof. intros H. induction l as [|p l IH]; cbn; [done|]. by rewrite H, IH. Qed.

Lemma rsum_linear a f b h l :
  rsum (fun p => a * f p + b * h p) l = a * rsum f l + b * rsum h l.
Proof. induction l as [|p l IH]; cbn; [lra|]. rewrite IH. lra. Qed.

Lemma rsum_const a l : rsum (fun _ => a) l = a * INR (length l).
Proof. induction l as [|p l IH]; [cbn; lra|]. cbn [rsum length]. rewrite S_INR, IH. lra. Qed.

Lemma rsum_nonneg f l : (forall p, 0 <= f p) -> 0 <= rsum f l.
Proof. intros H. induction l as [|p l IH]; cbn; [lra|]. specialize (H p). lra. Qed.

Definition avg (f : R * R -> R) (l : list (R * R)) : R := rsum f l / INR (length l).

(** The squared error of a line. *)
Definition sq_error (l : list (R * R)) (s b : R) : R := rsum (fun p => (snd p - (s * fst p + b)) ^ 2) l.

(** A line whose residuals sum to zero, plain and weighted by the feature, is optimal. *)
Lemma normal_equations_optimal l s b s' b' :
  rsum (fun p => snd p - (s * fst p + b)) l = 0 ->
  rsum (fun p => (snd p - (s * fst p + b)) * fst p) l = 0 ->
  sq_error l s b <= sq_error l s' b'.
Proof.
  intros H0 H1. unfold sq_error.
  assert (E : rsum (fun p => (snd p - (s' * fst p + b')) ^ 2) l
    = rsum (fun p => 1 * (snd p - (s * fst p + b)) ^ 2
        + 1 * (1 * ((s' - s) * fst p + (b' - b)) ^ 2
               + (-2) * ((s' - s) * ((snd p - (s * fst p + b)) * fst p)
                         + (b' - b) * (snd p - (s * fst p + b))))) l)
    by (apply rsum_ext; intros p; ring).
  rewrite E, !rsum_linear, H0, H1.
  pose proof (rsum_nonneg (fun p => ((s' - s) * fst p + (b' - b)) ^ 2) l) as Hq.
  assert (0 <= rsum (fun p => ((s' - s) * fst p + (b' - b)) ^ 2) l) by (apply Hq; intros; apply pow2_ge_0).
  lra.
Qed.

(** What the code computes. *)
Definition sxx (l : list (R * R)) : R := rsum (fun p => (fst p - avg fst l) * (fst p - avg fst l)) l.
Definition sxy (l : list (R * R)) : R := rsum (fun p => (fst p - avg fst l) * (snd p - avg snd l)) l.
Definition ols_slope (l : list (R * R)) : R := sxy l / sxx l.
Definition ols_intercept (l : list (R * R)) : R := avg snd l - ols_slope l * avg fst l.

Lemma avg_residual f l : (0 < length l)%nat -> rsum (fun p => f p - avg f l) l = 0.
Proof.
  intros Hl. assert (0 < INR (length l)) by by apply lt_0_INR.
  assert (E : rsum (fun p => f p - avg f l) l = rsum (fun p => 1 * f p + (-1) * avg f l) l)
    by (apply rsum_ext; intros p; ring).
  rewrite E, (rsum_linear 1 f (-1) (fun _ => avg f l)), rsum_const. unfold avg. field. lra.
Qed.

Lemma ols_optimal l s' b' :
  (0 < length l)%nat -> 0 < sxx l -> sq_error l (ols_slope l) (ols_intercept l) <= sq_error l s' b'.
Proof.
  intros Hl Hs. set (s := ols_slope l). set (b := ols_intercept l).
  pose proof (avg_residual fst l Hl) as Hx. pose proof (avg_residual snd l Hl) as Hy.
  assert (H0 : rsum (fun p => snd p - (s * fst p + b)) l = 0).
  { etrans; [apply (rsum_ext _ (fun p => 1 * (snd p - avg snd l) + (- s) * (fst p - avg fst l)))|].
    - intros p. unfold b, ols_intercept. fold s. ring.
    - rewrite rsum_linear, Hx, Hy. ring. }
  assert (Hw : rsum (fun p => (fst p - avg fst l) * (snd p - avg snd l)) l
               - s * rsum (fun p => (fst p - avg fst l) * (fst p - avg fst l)) l = 0).
  { change (sxy l - s * sxx l = 0). unfold s, ols_slope. field. lra. }
  apply normal_equations_optimal; [done|].
  etrans; [apply (rsum_ext _ (fun p => 1 * (1 * ((fst p - avg fst l) * (snd p - avg snd l))
      + (- s) * ((fst p - avg fst l) * (fst p - avg fst l))) + avg fst l * (snd p - (s * fst p + b))))|].
  - intros p. unfold b, ols_intercept. fold s. ring.
  - rewrite !rsum_linear, H0. lra.
Qed.

(** *** The code in figures *)

Definition lift (l : list (R * R)) : list (xreal * xreal) := map (fun p => (XR (fst p), XR (snd p))) l.

Lemma sum_fl_XR {A} (f : A -> R) (l : list A) acc :
  foldl fadd (XR acc) (map (fun x => XR (f x)) l) = XR (acc + foldr (fun x r => f x + r) 0 l).
Proof.
  revert acc; induction l as [|x l IH]; intros acc; cbn; [f_equal; lra|].
  etrans; [apply (IH (acc + f x))|]. f_equal. lra.
Qed.

Lemma rsum_foldr f l : foldr (fun p r => f p + r) 0 l = rsum f l.
Proof. induction l as [|p l IH]; cbn; [done|]. by rewrite IH. Qed.

Lemma sum_fl_points f (l : list (R * R)) : sum_fl (map (fun p => XR (f p)) l) = XR (rsum f l).
Proof.
  unfold sum_fl. change (fint 0 : xreal) with (XR 0). rewrite sum_fl_XR, rsum_foldr. f_equal. lra.
Qed.

Lemma mean_points f (l : list (R * R)) :
  (0 < length l)%nat -> mean (map (fun p => XR (f p)) l) = XR (avg f l).
Proof.
  intros Hl. assert (0 < INR (length l)) by by apply lt_0_INR.
  assert (Ht : StatsReal.total (map (fun p => XR (f p)) l) = XR (rsum f l)).
  { unfold StatsReal.total. induction l as [|p l IH]; [done|]. cbn [map foldr rsum].
    destruct l as [|p' l]; [cbn; f_equal; lra|]. rewrite IH; [done|cbn; lia|by apply lt_0_INR; cbn; lia]. }
  cbn [mean xreal_stats]. unfold StatsReal.mean. rewrite Ht, length_map.
  change (fint (Z.of_nat (length l))) with (XR (IZR (Z.of_nat (length l)))).
  rewrite <- INR_IZR_INZ. apply fdiv_XR. lra.
Qed.

Lemma ols_points_lift l : (forall p, p ∈ l -> 0 < fst p) -> ols_points (lift l) = lift l.
Proof.
  intros H. unfold ols_points. induction l as [|p l IH]; [done|]. cbn [lift map]. rewrite filter_cons.
  assert (Hp : 0 < fst p) by (apply H; by left).
  rewrite decide_True.
  - f_equal. apply IH. intros q Hq. apply H. by right.
  - apply andb_true_iff. cbn [fst]. split; [|by apply rlt_true].
    unfold ftruth. change (feq (XR (fst p)) f0) with (XReal.rle (fst p) 0 && XReal.rle 0 (fst p)).
    by rewrite (proj2 (rle_false (fst p) 0)).
Qed.

(** The total and the residual sums of squares. *)
Definition ss_tot (l : list (R * R)) : R := rsum (fun p => (snd p - avg snd l) * (snd p - avg snd l)) l.
Definition ss_res (l : list (R * R)) : R :=
  rsum (fun p => (snd p - (ols_slope l * fst p + ols_intercept l)) *
                 (snd p - (ols_slope l * fst p + ols_intercept l))) l.

Lemma ols_fit_lift l :
  (3 <= length l)%nat -> (forall p, p ∈ l -> 0 < fst p) -> / 10 ^ 12 < sxx l ->
  exists spread, ols_fit (lift l)
    = OlsFit (XR (ols_slope l)) (XR (ols_intercept l)) (Z.of_nat (length l))
        (if flt (fdec 1 (-12)) (XR (ss_tot l)) then Some (f1 - XR (ss_res l) / XR (ss_tot l))%fl else None)
        spread.
Proof.
  intros Hn Hpos Hs. assert (Hl : (0 < length l)%nat) by lia.
  assert (0 < / 10 ^ 12) by (apply Rinv_0_lt_compat, pow_lt; lra).
  unfold ols_fit. rewrite ols_points_lift by done. cbv zeta.
  assert (Elen : length (lift l) = length l) by apply length_map. rewrite Elen.
  rewrite (proj2 (Z.ltb_ge (Z.of_nat (length l)) 3)) by lia.
  assert (Ex : map fst (lift l) = map (fun p => XR (fst p)) l) by (unfold lift; by rewrite map_map).
  assert (Ey : map snd (lift l) = map (fun p => XR (snd p)) l) by (unfold lift; by rewrite map_map).
  rewrite Ex, Ey, !mean_points by done. rewrite !map_map. unfold lift. rewrite !map_map.
  assert (Esxx : sum_fl (map (fun p => square (XR (fst p) - XR (avg fst l))%fl) l) = XR (sxx l))
    by exact (sum_fl_points (fun p => (fst p - avg fst l) * (fst p - avg fst l)) l).
  rewrite Esxx.
  assert (Edeg : fle (XR (sxx l)) (fdec 1 (-12)) = false).
  { cbn. apply rle_false. unfold XReal.decimal. rewrite Rmult_1_l.
    change (powerRZ 10 (-12)) with (/ 10 ^ 12). done. }
  rewrite Edeg.
  assert (Esxy : sum_fl (map (fun p => (XR (fst p) - XR (avg fst l)) * (XR (snd p) - XR (avg snd l)))%fl l)
                 = XR (sxy l))
    by exact (sum_fl_points (fun p => (fst p - avg fst l) * (snd p - avg snd l)) l).
  cbn [fst snd]. rewrite Esxy, fdiv_XR by lra. fold (ols_slope l).
  change (XR (avg snd l) - XR (ols_slope l) * XR (avg fst l))%fl with (XR (ols_intercept l)).
  assert (Etot : sum_fl (map (fun p => square (XR (snd p) - XR (avg snd l))%fl) l) = XR (ss_tot l))
    by exact (sum_fl_points (fun p => (snd p - avg snd l) * (snd p - avg snd l)) l).
  assert (Eres : sum_fl (map (fun p => square (XR (snd p) - (XR (ols_slope l) * XR (fst p)
      + XR (ols_intercept l)))%fl) l) = XR (ss_res l))
    by exact (sum_fl_points (fun p => (snd p - (ols_slope l * fst p + ols_intercept l)) *
                 (snd p - (ols_slope l * fst p + ols_intercept l))) l).
  rewrite Etot, Eres. by eexists.
Qed.

Lemma ss_res_le_tot l : (0 < length l)%nat -> 0 < sxx l -> 0 <= ss_res l <= ss_tot l.
Proof.
  intros Hl Hs. split.
  - apply rsum_nonneg. intros p. apply Rle_0_sqr.
  - assert (E1 : ss_res l = sq_error l (ols_slope l) (ols_intercept l)) by (apply rsum_ext; intros p; ring).
    assert (E2 : ss_tot l = sq_error l 0 (avg snd l)) by (apply rsum_ext; intros p; ring).
    rewrite E1, E2. by apply ols_optimal.
Qed.

(** C40. The offline ground truth of Regime D, in exact arithmetic: on at least three points with
    token counts that differ, the reported line minimises the squared error among all
    lines, and the reported determination is a number between 0 and 1. *)
Theorem ols_is_least_squares l :
  (3 <= length l)%nat -> (forall p, p ∈ l -> 0 < fst p) -> / 10 ^ 12 < sxx l ->
  exists s b r2 spread,
    ols_fit (lift l) = OlsFit (XR s) (XR b) (Z.of_nat (length l)) r2 spread /\
    (forall s' b', sq_error l s b <= sq_error l s' b') /\
    match r2 with Some r => exists x, r = XR x /\ 0 <= x <= 1 | None => ss_tot l <= / 10 ^ 12 end.
Proof.
  intros Hn Hpos Hs. assert (Hl : (0 < length l)%nat) by lia.
  assert (0 < / 10 ^ 12) by (apply Rinv_0_lt_compat, pow_lt; lra).
  destruct (ols_fit_lift l Hn Hpos Hs) as [spread E].
  exists (ols_slope l), (ols_intercept l). eexists _, spread. split; [exact E|].
  split; [intros s' b'; apply ols_optimal; [done|lra]|].
  assert (Ed : flt (fdec 1 (-12)) (XR (ss_tot l)) = XReal.rlt (/ 10 ^ 12) (ss_tot l)).
  { cbn. unfold XReal.decimal. rewrite Rmult_1_l. done. }
  rewrite Ed. destruct (XReal.rlt _ _) eqn:Et.
  - apply rlt_true in Et. pose proof (ss_res_le_tot l Hl ltac:(lra)) as Hr.
    exists (1 - ss_res l / ss_tot l). split; [by rewrite fdiv_XR by lra|].
    assert (0 <= ss_res l / ss_tot l <= 1); [|lra]. split.
    + apply Rmult_le_pos; [lra|]. left. apply Rinv_0_lt_compat. lra.
    + apply (Rmult_le_reg_r (ss_tot l)); [lra|]. unfold Rdiv. rewrite Rmult_assoc, Rinv_l by lra. lra.
  - by apply rlt_false in Et.
Qed.

(** Three completions on a line. *)
Definition three_points : list (R * R) := [(1, 3); (2, 5); (3, 7)].

Lemma ols_is_least_squares_witness :
  exists s b r2 spread, ols_fit (lift three_points) = OlsFit (XR s) (XR b) 3 r2 spread /\
    forall s' b', sq_error three_points s b <= sq_error three_points s' b'.
Proof.
  assert (Hpos : forall p, p ∈ three_points -> 0 < fst p).
  { intros p. unfold three_points. rewrite !elem_of_cons, elem_of_nil.
    intros [->|[->|[->|[]]]]; cbn; lra. }
  assert (Hs : / 10 ^ 12 < sxx three_points).
  { assert (E : sxx three_points = 2) by (cbv [sxx avg three_points rsum fst snd length INR]; lra).
    rewrite E. apply (Rlt_trans _ 1); [|lra]. rewrite <- Rinv_1. apply Rinv_lt_contravar; [lra|].
    assert (1 < 10 ^ 12) by (apply Rlt_pow_R1; [lra|lia]). lra. }
  destruct (ols_is_least_squares three_points ltac:(cbn; lia) Hpos Hs) as (s & b & r2 & spread & E & H & _).
  exists s, b, r2, spread. split; [exact E|exact H].
Defined.

(** Two of the latencies a report sees. *)
Lemma percentile_lerp_agrees_witness :
  percentile_lerp [XR 5; XR 3] (XR 99) = Some (percentile [XR 5; XR 3] (XR 99)).
Proof.
  apply (percentile_lerp_agrees [XR 5; XR 3] (XR 99)); [discriminate|].
  intros x. rewrite !elem_of_cons, elem_of_nil. intros [->|[->|[]]]; apply real_XR.
Defined.

(** ** The reanalysis *)

(** Wins and ties are disjoint: together they are at most the pairs. *)
Lemma wins_and_ties {F} {PF : PyFloat F} {PL : PyFloatLaws F} (d : list F) :
  (count_of (fun x => flt f0 x) d + count_of (fun x => feq x f0) d <= Z.of_nat (length d))%Z.
Proof.
  unfold count_of. induction d as [|x d IH]; [done|]. rewrite !filter_cons.
  destruct (decide (flt f0 x = true)) as [Hx|Hx], (decide (feq x f0 = true)) as [Hy|Hy]; simpl; try lia.
  rewrite feq_fle in Hy. apply andb_true_iff in Hy as [Hy _]. by rewrite (flt_not_fle _ _ Hx) in Hy.
Qed.

(** [per_seed] leaves a seed without a value out, so the pairs after it are of different
    seeds: seed 1 is 2 ms faster with the treatment, and is reported 5 ms slower. *)
Definition p99_row (v : json float) : json float := JDict [("e2e_p99_ms", v)].
Definition two_arms : json float :=
  JDict [("configs", JDict
    [("hybrid", JDict [("per_seed", JList [p99_row JNull; p99_row (JInt 10)])]);
     ("rr", JDict [("per_seed", JList [p99_row (JInt 5); p99_row (JInt 12)])])])].

Lemma missing_seed_shifts_pairs :
  per_seed two_arms "hybrid" "e2e_p99_ms" = Ok [fint 10] /\
  per_seed two_arms "rr" "e2e_p99_ms" = Ok [fint 5; fint 12] /\
  match paired_stats mean stdev (fun _ _ => f0) (fun _ => []) [fint 10] [fint 5; fint 12] with
  | Ok p => pd_deltas p = [fint (-5) : float]
  | Err _ => False
  end.
Proof. split_and!; vm_compute; reflexivity. Qed.
