(* ===== verification/LoadProps.v ===== *)
(** What the multi-turn load of [LoadClients] reports does not depend on how its threads
    interleave. *)

From Stdlib Require Import Setoid Morphisms.
From S2P Require Import Prelude PyFloat PyReal PyStats PyStr PyDict Json Simulation ResultStats LoadClients.

(** ** Traces *)

(** Steps of different labels commute up to an equivalence: then a run depends only on
    the order of the steps of each label. *)
Section Traces.
Context {S E L : Type} `{EqDecision L} (lab : E -> L) (step : S -> E -> S).
Context (R : relation S) `{!Equivalence R}.
Hypothesis step_proper : forall e, Proper (R ==> R) (fun s => step s e).
Hypothesis step_commutes : forall s a b,
  lab a <> lab b -> R (step (step s a) b) (step (step s b) a).

(** The steps of one label, in order. *)
Definition fibre (i : L) (es : list E) : list E := filter (fun e => lab e = i) es.

Lemma run_proper es s s' : R s s' -> R (foldl step s es) (foldl step s' es).
Proof. revert s s'. induction es as [|e es IH]; intros s s' H; [done|]. by apply IH, step_proper. Qed.

Lemma run_to_front a es s :
  fibre (lab a) es = [] -> R (foldl step s (es ++ [a])%list) (foldl step (step s a) es).
Proof.
  revert s. induction es as [|b es IH]; intros s H; [done|]. unfold fibre in H. simpl in *.
  rewrite filter_cons in H. case_decide as Hb; [done|].
  rewrite IH by done. apply run_proper, step_commutes. done.
Qed.

Lemma fibre_cons_inv i e es f :
  fibre i f = e :: es ->
  exists f1 f2, f = (f1 ++ e :: f2)%list /\ fibre i f1 = [] /\ fibre i f2 = es /\ lab e = i.
Proof.
  unfold fibre. revert es. induction f as [|a f IH]; intros es; [done|].
  rewrite filter_cons. case_decide as Ha.
  - intros [= -> <-]. by exists [], f.
  - intros (f1 & f2 & -> & H1 & H2 & He)%IH. exists (a :: f1), f2.
    split_and!; [done| |done|done]. by rewrite filter_cons, decide_False.
Qed.

Lemma runs_agree es f s : (forall i, fibre i es = fibre i f) -> R (foldl step s es) (foldl step s f).
Proof.
  revert f s. induction es as [|e es IH]; intros f s H.
  - destruct f as [|a f]; [done|]. specialize (H (lab a)). unfold fibre in H.
    by rewrite filter_nil, filter_cons, decide_True in H.
  - pose proof (H (lab e)) as He. unfold fibre in He at 1. rewrite filter_cons, decide_True in He by done.
    symmetry in He. apply fibre_cons_inv in He as (f1 & f2 & -> & H1 & H2 & _).
    rewrite foldl_app. simpl. transitivity (foldl step (step s e) (f1 ++ f2)%list).
    + apply IH. intros i. specialize (H i). unfold fibre in *.
      rewrite filter_app in *. rewrite !filter_cons in H. case_decide as Hi; [|done].
      subst i. rewrite H1 in *. simpl in *. by injection H.
    + rewrite foldl_app. apply run_proper.
      pose proof (run_to_front e f1 s H1) as Hf. by rewrite foldl_app in Hf.
Qed.
End Traces.

(** ** The shared variables *)

Section Shared.
Context {F : Type} {PF : PyFloat F} {PS : PyStats F}.
Implicit Types (l : Load F) (x : Exchange F).

(** The same counts, shares and homes, and the same latencies in some order. *)
Record load_eq (a b : Load F) : Prop := {
  le_ok : ld_ok a = ld_ok b;
  le_fail : ld_fail a = ld_fail b;
  le_rejects : ld_rejects a = ld_rejects b;
  le_sticky : ld_sticky a = ld_sticky b;
  le_turns : ld_turns a = ld_turns b;
  le_e2e : ld_e2e a ≡ₚ ld_e2e b;
  le_routes : forall w, dget w (ld_routes a) = dget w (ld_routes b);
  le_home : forall s, dget s (ld_home a) = dget s (ld_home b)
}.

#[export] Instance load_eq_equivalence : Equivalence load_eq.
Proof.
  split.
  - intros a. by split.
  - intros a b []. by split.
  - intros a b c [] []. split; first [congruence | intros ?; congruence | etrans; eassumption].
Qed.

Lemma dget_count_route w wid r :
  dget w (count_route wid r) = if decide (w = wid) then Some (dget_or wid 0 r + 1) else dget w r.
Proof. apply dget_dset. Qed.

Lemma dget_dsetdefault {K} `{EqDecision K} {V} (k k' : K) (v : V) d :
  dget k (dsetdefault k' v d) = if decide (k = k') then Some (dget_or k' v d) else dget k d.
Proof.
  unfold dsetdefault, dmem, dget_or. case_decide as Hk; destruct (dget k' d) as [v'|] eqn:E; subst.
  - done.
  - by rewrite dget_dset_eq.
  - done.
  - by rewrite dget_dset_ne.
Qed.

Lemma turn_served_proper s wid ms a b :
  load_eq a b -> load_eq (turn_served s wid ms a) (turn_served s wid ms b).
Proof.
  intros []. split; simpl; try congruence.
  - rewrite !dget_dsetdefault, !(decide_True (P := s = s)) by done. unfold dget_or.
    by rewrite le_home0, le_sticky0.
  - by f_equiv.
  - intros w. rewrite !dget_count_route. unfold dget_or. by rewrite !le_routes0.
  - intros s'. rewrite !dget_dsetdefault. unfold dget_or. by rewrite !le_home0.
Qed.

Lemma turn_failed_proper r a b : load_eq a b -> load_eq (turn_failed r a) (turn_failed r b).
Proof. intros []. split; simpl; first [congruence | done]. Qed.

Lemma turn_done_proper s x a b : load_eq a b -> load_eq (turn_done s x a) (turn_done s x b).
Proof.
  intros H. unfold turn_done. repeat case_match; auto using turn_served_proper, turn_failed_proper.
Qed.

Lemma served_served s s' w w' ms ms' l :
  s <> s' ->
  load_eq (turn_served s' w' ms' (turn_served s w ms l)) (turn_served s w ms (turn_served s' w' ms' l)).
Proof.
  intros Hs. split; simpl; try lia.
  - rewrite !dget_dsetdefault, !(decide_True (P := s = s)), !(decide_True (P := s' = s')) by done. unfold dget_or.
    rewrite !dget_dsetdefault, (decide_False (P := s = s')), (decide_False (P := s' = s)) by done.
    repeat case_decide; lia || congruence.
  - rewrite <- !(assoc_L _ (ld_e2e l)). f_equiv. apply Permutation_swap.
  - intros v. rewrite !dget_count_route. unfold dget_or. rewrite !dget_count_route. unfold dget_or.
    repeat case_decide; subst; done || (f_equal; lia) || congruence.
  - intros v. rewrite !dget_dsetdefault. unfold dget_or. rewrite !dget_dsetdefault. unfold dget_or.
    repeat case_decide; subst; done || congruence.
Qed.

Lemma served_failed s w ms r l :
  load_eq (turn_failed r (turn_served s w ms l)) (turn_served s w ms (turn_failed r l)).
Proof. split; done. Qed.

Lemma failed_failed r r' l : load_eq (turn_failed r (turn_failed r' l)) (turn_failed r' (turn_failed r l)).
Proof. split; simpl; lia || done. Qed.

Lemma turn_done_commutes s s' x x' l :
  s <> s' -> load_eq (turn_done s' x' (turn_done s x l)) (turn_done s x (turn_done s' x' l)).
Proof.
  intros Hs. unfold turn_done.
  repeat case_match;
    first [by apply served_served | apply failed_failed | apply served_failed
          | symmetry; apply served_failed].
Qed.

(** Every turn is counted once, and every success once in the routes. *)
Lemma sum_count_route wid r : sum_of id (dvalues (count_route wid r)) = sum_of id (dvalues r) + 1.
Proof.
  unfold count_route, dget_or. induction r as [|[k v] r IH]; [done|]. simpl. case_decide; simpl.
  - unfold id. lia.
  - unfold dvalues in IH |- *. simpl. destruct (dget wid r); unfold id in *; lia.
Qed.

Record load_ok (l : Load F) (n : Z) : Prop := {
  lo_total : ld_ok l + ld_fail l = n;
  lo_turns : ld_turns l = ld_ok l;
  lo_routes : sum_of id (dvalues (ld_routes l)) = ld_ok l;
  lo_e2e : Z.of_nat (length (ld_e2e l)) = ld_ok l;
  lo_rejects : 0 <= ld_rejects l <= ld_fail l;
  lo_sticky : 0 <= ld_sticky l <= ld_ok l
}.

Lemma load_ok_init : load_ok load_init 0.
Proof. by split. Qed.

Lemma turn_done_ok s x l n : load_ok l n -> load_ok (turn_done s x l) (n + 1).
Proof.
  intros []. unfold turn_done.
  repeat case_match; split; simpl; rewrite ?sum_count_route, ?length_app; simpl; try lia.
  case_decide; lia.
Qed.

Lemma play_ok (ask : nat -> nat -> Exchange F) ps l n :
  load_ok l n -> load_ok (play ask l ps) (n + Z.of_nat (length ps)).
Proof.
  revert l n. induction ps as [|p ps IH]; intros l n H; [by rewrite Z.add_0_r|].
  replace (n + Z.of_nat (length (p :: ps))) with (n + 1 + Z.of_nat (length ps)) by (simpl; lia).
  by apply IH, turn_done_ok.
Qed.
End Shared.

(** ** The pool of threads *)

Section Threads.
Context {F : Type} {PF : PyFloat F} {PS : PyStats F}.
Variable ask : nat -> nat -> Exchange F.
Variables (concurrent : Z) (turns : nat).
Implicit Types (p : ThreadPool F) (c : Client).

Definition turns_made c : nat := match c with Queued => 0 | At t => t | Over => turns end.
Definition events_left c : Z :=
  match c with Queued => Z.of_nat turns + 2 | At t => Z.of_nat turns - Z.of_nat t + 1 | Over => 0 end.
Definition remaining p : Z := sum_of events_left (pl_clients p).

(** The turns recorded so far are, for every session, its first ones in order. *)
Record pool_inv p : Prop := {
  pi_past : exists past, pl_load p = play ask load_init past /\
    forall s, fibre fst s past = map (pair s) (seq 0 (from_option turns_made 0%nat (pl_clients p !! s)));
  pi_turn : forall s t, pl_clients p !! s = Some (At t) -> (t <= turns)%nat;
  pi_busy : busy_threads p <= concurrent
}.

Lemma is_busy_nonneg c : 0 <= is_busy c.
Proof. by destruct c. Qed.

Lemma sum_replicate {A} (f : A -> Z) n a : sum_of f (replicate n a) = Z.of_nat n * f a.
Proof. induction n as [|n IH]; [done|]. cbn [replicate]. rewrite sum_of_cons, IH. lia. Qed.

Lemma pool_start_inv n : 0 <= concurrent -> pool_inv (pool_start n).
Proof.
  intros Hc. split; simpl.
  - exists []. split; [done|]. intros s. destruct (replicate n Queued !! s) as [c|] eqn:E; [|done].
    by apply lookup_replicate in E as [-> _].
  - intros s t [? _]%lookup_replicate. done.
  - unfold busy_threads. simpl. rewrite sum_replicate. simpl. lia.
Qed.

(** A session that moves without a turn. *)
Lemma pool_inv_move p s a b :
  pool_inv p -> pl_clients p !! s = Some a -> turns_made b = turns_made a ->
  (forall t, b = At t -> (t <= turns)%nat) -> busy_threads p - is_busy a + is_busy b <= concurrent ->
  pool_inv (mkThreadPool (<[s := b]> (pl_clients p)) (pl_load p)).
Proof.
  intros [(past & Hl & Hf) Ht Hb] Ha Hab Hbt Hbusy. pose proof (lookup_lt_Some _ _ _ Ha) as Hs. split; simpl.
  - exists past. split; [done|]. intros s'. rewrite Hf. do 2 f_equal.
    destruct (decide (s = s')) as [<-|]; [by rewrite list_lookup_insert_eq, Ha by done|].
    by rewrite list_lookup_insert_ne.
  - intros s' t. destruct (decide (s = s')) as [<-|].
    + rewrite list_lookup_insert_eq by done. intros [= ->]. eauto.
    + rewrite list_lookup_insert_ne by done. eauto.
  - unfold busy_threads. simpl. by rewrite (sum_of_insert _ _ _ _ _ Ha).
Qed.

Lemma pool_inv_turn p s t :
  pool_inv p -> pl_clients p !! s = Some (At t) -> (t < turns)%nat ->
  pool_inv (mkThreadPool (<[s := At (S t)]> (pl_clients p)) (turn_done s (ask s t) (pl_load p))).
Proof.
  intros [(past & Hl & Hf) Ht Hb] Ha Hlt. pose proof (lookup_lt_Some _ _ _ Ha) as Hs. split; simpl.
  - exists (past ++ [(s, t)])%list. split.
    + rewrite Hl. unfold play. by rewrite foldl_app.
    + intros s'. unfold fibre in *. rewrite filter_app, Hf.
      destruct (decide (s = s')) as [<-|Hne].
      * rewrite list_lookup_insert_eq, Ha by done. cbn [from_option turns_made].
        rewrite seq_S, map_app, filter_cons, decide_True by done. done.
      * rewrite list_lookup_insert_ne, filter_cons, decide_False by done. by rewrite app_nil_r.
  - intros s' t'. destruct (decide (s = s')) as [<-|].
    + rewrite list_lookup_insert_eq by done. intros [= <-]. lia.
    + rewrite list_lookup_insert_ne by done. eauto.
  - unfold busy_threads in *. simpl. rewrite (sum_of_insert _ _ _ _ _ Ha). simpl. lia.
Qed.

Lemma pool_event_inv p e p' :
  pool_inv p -> pool_event ask concurrent turns p e = Some p' ->
  pool_inv p' /\ remaining p' = remaining p - 1 /\ length (pl_clients p') = length (pl_clients p).
Proof.
  intros Hp. pose proof (pi_turn p Hp) as Ht. destruct e as [|s|s]; simpl.
  - case_match eqn:Hb; [|done]. destruct (list_find is_queued (pl_clients p)) as [[s c]|] eqn:E; [|done].
    simpl. intros [= <-]. apply list_find_Some in E as (E & Hc & _). destruct c; try done.
    split_and!; simpl; [|unfold remaining; simpl; rewrite (sum_of_insert _ _ _ _ _ E); simpl; lia
                        |apply length_insert].
    apply (pool_inv_move _ _ _ _ Hp E); [done|intros t [= <-]; lia|simpl; lia].
  - destruct (pl_clients p !! s) as [[|t|]|] eqn:E; try done. case_match eqn:Hlt; [|done].
    apply Nat.ltb_lt in Hlt. intros [= <-].
    split_and!; simpl; [by apply pool_inv_turn
                       |unfold remaining; simpl; rewrite (sum_of_insert _ _ _ _ _ E); simpl; lia
                       |apply length_insert].
  - destruct (pl_clients p !! s) as [[|t|]|] eqn:E; try done. case_match eqn:Hle; [|done].
    apply Nat.leb_le in Hle. intros [= <-]. specialize (Ht _ _ E).
    split_and!; simpl; [|unfold remaining; simpl; rewrite (sum_of_insert _ _ _ _ _ E); simpl; lia
                        |apply length_insert].
    apply (pool_inv_move _ _ _ _ Hp E); [simpl; lia|done|]. pose proof (pi_busy p Hp). simpl. lia.
Qed.

Lemma pool_run_inv es p p' :
  pool_inv p -> pool_run ask concurrent turns p es = Some p' ->
  pool_inv p' /\ remaining p' = remaining p - Z.of_nat (length es) /\
  length (pl_clients p') = length (pl_clients p).
Proof.
  revert p. induction es as [|e es IH]; intros p Hp; simpl; [intros [= <-]; split_and!; [done|lia|done]|].
  destruct (pool_event ask concurrent turns p e) as [q|] eqn:E; [|done]. simpl. intros Hq.
  destruct (pool_event_inv _ _ _ Hp E) as (H1 & H2 & H3).
  destruct (IH q H1 Hq) as (H4 & H5 & H6). split_and!; [done|lia|congruence].
Qed.

Lemma remaining_nonneg p : pool_inv p -> 0 <= remaining p.
Proof.
  intros [_ Ht _]. unfold remaining. induction (pl_clients p) as [|c l IH]; [done|].
  rewrite sum_of_cons. assert (0 <= events_left c) as Hc.
  { pose proof (Ht 0%nat) as H0. destruct c; simpl; [lia| |lia]. specialize (H0 _ eq_refl). lia. }
  specialize (IH (fun s => Ht (S s))). lia.
Qed.

(** No event is possible only when every session is over. *)
Lemma stuck_is_over p c :
  1 <= concurrent -> (forall e, pool_event ask concurrent turns p e = None) ->
  c ∈ pl_clients p -> c = Over.
Proof.
  intros Hc Hstuck.
  assert (forall s t, pl_clients p !! s <> Some (At t)) as Hat.
  { intros s t E. pose proof (Hstuck (TurnDone s)) as H1. pose proof (Hstuck (End s)) as H2.
    simpl in *. rewrite E in *. destruct (Nat.ltb_spec t turns); [done|].
    destruct (Nat.leb_spec turns t); [done|lia]. }
  assert (busy_threads p = 0) as Hb.
  { unfold busy_threads. clear Hstuck. induction (pl_clients p) as [|d l IH]; [done|]. rewrite sum_of_cons.
    rewrite IH by (intros s; apply (Hat (S s))). destruct d as [|t|]; try done.
    by destruct (Hat 0%nat t). }
  intros Hin. pose proof (Hstuck Begin) as HB. simpl in HB. rewrite Hb in HB.
  rewrite (proj2 (Z.ltb_lt 0 concurrent)) in HB by lia.
  destruct (list_find is_queued (pl_clients p)) as [[s d]|] eqn:E; [done|].
  apply list_find_None in E. rewrite Forall_forall in E. specialize (E _ Hin).
  apply list_elem_of_lookup_1 in Hin as (s & Hs). destruct c as [|t|]; [by destruct E|by destruct (Hat s t)|done].
Qed.

Lemma fibre_row (s s' : nat) (ts : list nat) :
  fibre fst s (t ← ts; [(s', t)]) = if decide (s' = s) then map (pair s) ts else [].
Proof.
  unfold fibre. induction ts as [|t ts IH]; [by case_decide|].
  rewrite bind_cons, filter_app, IH. cbn [app]. rewrite filter_cons. simpl. by case_decide; subst.
Qed.

Lemma fibre_rows (s a m : nat) :
  fibre fst s (s' ← seq a m; t ← seq 0 turns; [(s', t)]) =
  if decide (a <= s < a + m)%nat then map (pair s) (seq 0 turns) else [].
Proof.
  revert a. induction m as [|m IH]; intros a; [by rewrite decide_False by lia|].
  cbn [seq]. rewrite bind_cons. unfold fibre in *. rewrite filter_app, IH.
  pose proof (fibre_row s a (seq 0 turns)) as Hr. unfold fibre in Hr. rewrite Hr.
  repeat case_decide; subst; first [lia | by rewrite app_nil_r | done].
Qed.

(** When every session is over, the turns were those of the loops. *)
Lemma pool_past_sequential p n :
  pool_inv p -> length (pl_clients p) = n -> (forall c, c ∈ pl_clients p -> c = Over) ->
  load_eq (pl_load p) (load_sequential ask n turns).
Proof.
  intros [(past & -> & Hf) _ _] Hn Hover.
  apply (runs_agree fst _ load_eq); [intros e a b; apply turn_done_proper
                                    |intros l a b; apply turn_done_commutes|].
  intros s. rewrite Hf. unfold sequential_turns. rewrite fibre_rows. case_decide as Hs.
  - destruct (lookup_lt_is_Some_2 (pl_clients p) s) as [c Hc]; [lia|]. rewrite Hc.
    by rewrite (Hover c (list_elem_of_lookup_2 _ _ _ Hc)).
  - rewrite lookup_ge_None_2; [done|lia].
Qed.

Lemma length_rows (a m : nat) :
  length (s ← seq a m; t ← seq 0 turns; [(s, t)]) = (m * turns)%nat.
Proof.
  assert (forall (s : nat) (ts : list nat), length (t ← ts; [(s, t)]) = length ts) as Hrow.
  { intros s ts. induction ts as [|t ts IH]; [done|]. rewrite bind_cons, length_app, IH. done. }
  revert a. induction m as [|m IH]; intros a; [done|].
  cbn [seq]. rewrite bind_cons, length_app, IH, Hrow, length_seq. lia.
Qed.

Lemma load_sequential_ok n : load_ok (load_sequential ask n turns) (Z.of_nat (n * turns)).
Proof.
  pose proof (play_ok ask (sequential_turns n turns) load_init 0 load_ok_init) as H.
  unfold sequential_turns in H at 2. by rewrite length_rows in H.
Qed.
End Threads.

(** The shares of the report follow. *)
Section Report.
Context {F : Type} {PF : PyFloat F} {PS : PyStats F}.
Implicit Types (l : Load F).

Lemma load_ok_eq (a b : Load F) n : load_eq a b -> load_ok b n -> sum_of id (dvalues (ld_routes a)) = ld_ok a -> load_ok a n.
Proof.
  intros [Hok Hfail Hrej Hst Htu He _ _] [] Hr.
  split; rewrite ?Hr, ?He, ?Hok, ?Hfail, ?Hrej, ?Hst, ?Htu; done.
Qed.

Lemma report_eq (a b : Load F) :
  load_eq a b -> sum_of id (dvalues (ld_routes a)) = sum_of id (dvalues (ld_routes b)) ->
  lr_frac_e0 (load_report a) = lr_frac_e0 (load_report b) /\
  lr_stickiness (load_report a) = lr_stickiness (load_report b).
Proof.
  intros [] Hs. unfold load_report, route_share, route_total, dget_or. simpl.
  by rewrite Hs, le_routes0, le_sticky0, le_turns0.
Qed.
End Report.

(** C38. However the threads of [run_multiturn_load] interleave, the run ends after at most
    [n * (turns + 2)] events with at most [concurrent] sessions in their loops at a time; once
    nothing can happen, it has recorded every turn exactly once, and it reports the counts,
    homes, route shares and stickiness of the sessions run one after the other, with the same
    latencies in some order. *)
Theorem schedule_changes_only_order {F} `{PyFloat F} `{PyStats F} (ask : nat -> nat -> Exchange F)
    concurrent turns n es p :
  1 <= concurrent ->
  pool_run ask concurrent turns (pool_start n) es = Some p ->
  (length es <= n * (turns + 2))%nat /\ busy_threads p <= concurrent /\
  ((forall e, pool_event ask concurrent turns p e = None) ->
    let a := pl_load p in
    let b := load_sequential ask n turns in
    load_eq a b /\ ld_ok a + ld_fail a = Z.of_nat (n * turns) /\
    lr_frac_e0 (load_report a) = lr_frac_e0 (load_report b) /\
    lr_stickiness (load_report a) = lr_stickiness (load_report b)).
Proof.
  intros Hc Hr. pose proof (pool_start_inv ask concurrent turns n ltac:(lia)) as Hinit.
  destruct (pool_run_inv _ _ _ _ _ _ Hinit Hr) as (Hp & Hrem & Hn).
  pose proof (remaining_nonneg _ _ _ _ Hp) as Hpos.
  simpl in Hn. rewrite length_replicate in Hn.
  unfold remaining at 2 in Hrem. simpl in Hrem. rewrite sum_replicate in Hrem. simpl in Hrem.
  split_and!; [lia|apply Hp|]. intros Hstuck a b.
  assert (load_eq a b) as Hab.
  { apply (pool_past_sequential _ _ _ _ _ Hp Hn). intros c. by apply (stuck_is_over ask concurrent turns). }
  pose proof (load_sequential_ok ask turns n) as Hb.
  assert (sum_of id (dvalues (ld_routes a)) = ld_ok a) as Ha.
  { destruct Hp as [(past & Hl & _) _ _]. unfold a. rewrite Hl. apply (play_ok ask past load_init 0 load_ok_init). }
  pose proof (load_ok_eq _ _ _ Hab Hb Ha) as Hoka.
  destruct (report_eq a b Hab) as [H1 H2].
  { rewrite Ha, (le_ok _ _ Hab). symmetry. apply Hb. }
  split_and!; [done|apply Hoka|done|done].
Qed.

(** Two sessions of two turns on two threads; session 1 is served by the other engine. *)
Definition two_engines (s t : nat) : Exchange float :=
  if Nat.eqb s 1 then Reply 200 (Some "e1") (fint 20)
  else if Nat.eqb t 1 then Reply 503 None (fint 1) else Reply 200 (Some "e0") (fint 10).
Definition overlapping : list PoolEvent :=
  [Begin; Begin; TurnDone 1; TurnDone 0; TurnDone 1; End 1; TurnDone 0; End 0].
Definition overlapped : ThreadPool float :=
  mkThreadPool [Over; Over]
    (mkLoad 3 1 1 [fint 20; fint 10; fint 20] [("e1", 2); ("e0", 1)] 3 3 [(1%nat, "e1"); (0%nat, "e0")]).

Lemma schedule_changes_only_order_witness :
  pool_run two_engines 2 2 (pool_start 2) overlapping = Some overlapped /\
  load_eq (pl_load overlapped) (load_sequential two_engines 2 2).
Proof.
  assert (pool_run two_engines 2 2 (pool_start 2) overlapping = Some overlapped) as Hr
    by (vm_compute; reflexivity).
  split; [exact Hr|].
  apply (schedule_changes_only_order two_engines 2 2 2 overlapping overlapped); [lia|exact Hr|].
  intros [|[|[|s]]|[|[|s]]]; reflexivity.
Defined.
