(* ===== verification/SuiteProps.v ===== *)
(** What the measuring suites do to the machine and with their numbers: gateways are started
    and stopped one at a time, nothing is left running, and which seeds enter a mean. *)

From S2P Require Import Prelude PyFloat PyStats PyStr PyDict PySort Json Config ConfigFile Simulation.
From S2P Require Import ResultStats LoadClients RegimeD Backends AbcExperiments Cli LoadProps.
From S2P Require Import Suites GpuSuites.

(** ** Processes *)

Section Processes.
Context {MA : Machine}.

(** Every process the session left running still has its handle, and only the children of
    processes that did not end in time are left behind. *)
Definition tracked (s : Session) : Prop :=
  (forall id, id ∈ ss_alive s -> id ∈ map pr_id (ss_handles s)) /\
  (forall id, id ∈ ss_left s -> group_ends id = false).

(** Process numbers are new. *)
Definition fresh_ids (s : Session) : Prop :=
  (forall id, id ∈ ss_alive s -> (id < ss_next s)%nat) /\
  (forall p, p ∈ ss_handles s -> (pr_id p < ss_next s)%nat).

Lemma tracked_init : tracked session_init.
Proof. by split; intros id ?%not_elem_of_nil. Qed.

Lemma tracked_start name cmd env s : tracked s -> tracked (start name cmd env s).1.
Proof.
  intros [H Hl]. split; [|exact Hl].
  intros id [Hi|Hi]%elem_of_app; simpl; rewrite map_app, elem_of_app; [left; auto|right].
  simpl. set_solver.
Qed.

Lemma alive_kill id s : ss_alive (kill_proc id s) = filter (fun i => i <> id) (ss_alive s).
Proof.
  unfold kill_proc. case_decide as H; [done|]. simpl.
  induction (ss_alive s) as [|i l IH]; [done|]. rewrite filter_cons.
  rewrite decide_True by set_solver. f_equal. apply IH. set_solver.
Qed.

Lemma handles_kill id s : ss_handles (kill_proc id s) = ss_handles s.
Proof. unfold kill_proc. by case_decide. Qed.

Lemma next_kill id s : ss_next (kill_proc id s) = ss_next s.
Proof. unfold kill_proc. by case_decide. Qed.

Lemma left_kill id s i :
  i ∈ ss_left (kill_proc id s) -> i ∈ ss_left s \/ group_ends i = false.
Proof.
  unfold kill_proc. case_decide; [simpl|auto]. rewrite elem_of_app. intros [Hi|Hi]; [by left|right].
  destruct (group_ends id) eqn:E; [by apply not_elem_of_nil in Hi|].
  apply list_elem_of_singleton in Hi as ->. exact E.
Qed.

Lemma tracked_kill id s : tracked s -> tracked (kill_proc id s).
Proof.
  intros [H Hl]. split; intros i.
  - rewrite alive_kill, handles_kill. intros [_ Hi]%list_elem_of_filter. auto.
  - intros [Hi|Hi]%left_kill; auto.
Qed.

Lemma last_removelast {A} (l : list A) x : last l = Some x -> l = (removelast l ++ [x])%list.
Proof.
  intros H. apply last_Some in H as [l' ->]. by rewrite removelast_last.
Qed.

Lemma kill_last_some s p :
  last (ss_handles s) = Some p ->
  ss_handles (kill_last s) = removelast (ss_handles s) /\
  ss_alive (kill_last s) = filter (fun i => i <> pr_id p) (ss_alive s).
Proof. intros H. unfold kill_last. rewrite H. by rewrite handles_kill, alive_kill. Qed.

Lemma tracked_kill_last s : tracked s -> tracked (kill_last s).
Proof.
  intros [H Hl]. destruct (last (ss_handles s)) as [p|] eqn:E; [|unfold kill_last; by rewrite E].
  destruct (kill_last_some s p E) as [Hh Ha]. split; intros i.
  2: { unfold kill_last. rewrite E. intros [Hi|Hi]%left_kill; auto. }
  rewrite Ha, Hh. intros [Hne Hi]%list_elem_of_filter. apply H in Hi.
  rewrite (last_removelast _ _ E), map_app, elem_of_app in Hi. destruct Hi as [Hi|Hi]; [done|].
  simpl in Hi. set_solver.
Qed.

Lemma tracked_measure p s : tracked s -> tracked (measure_act p s).
Proof. done. Qed.

(** The cleanup leaves nothing that has a handle. *)
Lemma alive_kill_all ps s :
  ss_alive (foldl (fun s p => kill_proc (pr_id p) s) s ps)
  = filter (fun i => i ∉ map pr_id ps) (ss_alive s).
Proof.
  revert s; induction ps as [|p ps IH]; intros s; simpl.
  - symmetry. induction (ss_alive s) as [|i l IHl]; [done|]. rewrite filter_cons.
    rewrite decide_True by set_solver. by f_equal.
  - rewrite IH, alive_kill, list_filter_filter. apply list_filter_iff.
    intros i. set_solver.
Qed.

Lemma left_kill_all ps s i :
  i ∈ ss_left (foldl (fun s p => kill_proc (pr_id p) s) s ps) -> i ∈ ss_left s \/ group_ends i = false.
Proof.
  revert s; induction ps as [|p ps IH]; intros s; simpl; [auto|].
  intros [[Hi|Hi]%left_kill|Hi]%IH; auto.
Qed.

Lemma cleanup_left s id : tracked s -> id ∈ ss_left (cleanup s) -> group_ends id = false.
Proof. intros [_ Hl] [Hi|Hi]%left_kill_all; auto. Qed.

Lemma cleanup_empty s : tracked s -> ss_alive (cleanup s) = [] /\ ss_handles (cleanup s) = [].
Proof.
  intros [H _]. split; [|done]. unfold cleanup. simpl. rewrite alive_kill_all.
  assert (Hall : forall i, i ∈ ss_alive s -> i ∈ map pr_id (reverse (ss_handles s))).
  { intros i Hi. apply H, list_elem_of_fmap in Hi as (p & -> & Hp).
    apply list_elem_of_fmap. exists p. split; [done|]. by rewrite elem_of_reverse. }
  induction (ss_alive s) as [|i l IH]; [done|]. rewrite filter_cons.
  rewrite decide_False; [apply IH; set_solver|].
  intros Hn. apply Hn, Hall. set_solver.
Qed.

End Processes.

#[export] Hint Resolve tracked_init tracked_start tracked_kill tracked_kill_last tracked_measure : dio.

(** ** Arms *)

Section Arms.
Context {R : Type} {MA : Machine}.
Variables (ready : Proc -> bool) (measure : Proc -> Z -> R) (failed : R).

(** A stop keeps the record of what runs. *)
Definition keeps (stop : Stop) : Prop := forall ok p s, tracked s -> tracked (stop ok p s).

Lemma tracked_run stop r s :
  keeps stop -> tracked s -> tracked (seed_run ready stop measure failed r s).1.
Proof.
  intros Hk H. unfold seed_run.
  pose proof (tracked_start (ru_name r) (ru_cmd r) (ru_env r) s H) as H1.
  destruct (start _ _ _ _) as [s1 p]. simpl in H1. destruct (ready p); simpl; by apply Hk.
Qed.

Lemma tracked_runs stop rs s :
  keeps stop -> tracked s -> tracked (seed_runs ready stop measure failed rs s).1.
Proof.
  intros Hk. revert s; induction rs as [|r rs IH]; intros s H; [done|]. simpl.
  pose proof (tracked_run stop r s Hk H) as H1. destruct (seed_run _ _ _ _ _ _) as [s1 row].
  specialize (IH s1 H1). by destruct (seed_runs _ _ _ _ _ _).
Qed.

(** One row for each seed, in order. *)
Lemma length_rows_runs stop rs s :
  length (seed_runs ready stop measure failed rs s).2 = length rs.
Proof.
  revert s; induction rs as [|r rs IH]; intros s; [done|]. simpl.
  destruct (seed_run _ _ _ _ _ _) as [s1 row]. specialize (IH s1).
  destruct (seed_runs _ _ _ _ _ _). simpl in *. lia.
Qed.

(** The acts of an arm: each gateway is started, loaded at most once with only the processes
    of [base] beside it, and killed before the next one starts. *)
Inductive episodes (base : list nat) : list Act -> Prop :=
| ep_nil : episodes base []
| ep_run p (loaded : bool) acts :
    episodes base acts ->
    episodes base
      (Start p :: (if loaded then [Measure p (base ++ [pr_id p])] else []) ++
       Kill (pr_id p) :: acts).

Lemma episodes_app base a b : episodes base a -> episodes base b -> episodes base (a ++ b).
Proof.
  intros Ha Hb. induction Ha as [|p loaded acts Ha IH]; [done|].
  simpl. rewrite <- app_assoc. simpl. by apply ep_run.
Qed.

(** A stop that ends the gateway it is given. *)
Definition stops (stop : Stop) : Prop := forall ok p s,
  last (ss_handles s) = Some p -> pr_id p ∈ ss_alive s ->
  ss_alive (stop ok p s) = filter (fun i => i <> pr_id p) (ss_alive s) /\
  ss_acts (stop ok p s) = (ss_acts s ++ [Kill (pr_id p)])%list /\
  ss_next (stop ok p s) = ss_next s.

Lemma stops_pop : stops stop_pop.
Proof.
  intros ok p s Hl Hin. unfold stop_pop, kill_last. rewrite Hl. unfold kill_proc. simpl.
  by rewrite decide_True.
Qed.

Lemma filter_fresh (l : list nat) n :
  (forall i, i ∈ l -> (i < n)%nat) -> filter (fun i => i <> n) (l ++ [n])%list = l.
Proof.
  intros H. rewrite filter_app, filter_cons, decide_False by (intros Hn; by apply Hn).
  rewrite filter_nil, app_nil_r. induction l as [|i l IH]; [done|].
  rewrite filter_cons, decide_True by (specialize (H i); set_solver by lia).
  f_equal. apply IH. intros j Hj. apply H. set_solver.
Qed.

Lemma run_episode stop r s :
  stops stop -> (forall i, i ∈ ss_alive s -> (i < ss_next s)%nat) ->
  let s' := (seed_run ready stop measure failed r s).1 in
  ss_alive s' = ss_alive s /\ (ss_next s <= ss_next s')%nat /\
  exists acts, ss_acts s' = (ss_acts s ++ acts)%list /\ episodes (ss_alive s) acts.
Proof.
  intros Hs Hf. cbv zeta. unfold seed_run, start.
  set (p := mkProc (ss_next s) (ru_name r) (ru_cmd r) (ru_env r)).
  set (s1 := mkSession _ _ _ _ _).
  assert (Hlast : last (ss_handles s1) = Some p) by (simpl; by rewrite last_snoc).
  assert (Hin : pr_id p ∈ ss_alive s1) by (simpl; set_solver).
  assert (Hal : filter (fun i => i <> pr_id p) (ss_alive s1) = ss_alive s).
  { simpl. by apply filter_fresh. }
  destruct (ready p); cbn [fst].
  - destruct (Hs true p (measure_act p s1) Hlast Hin) as (Ha & Hc & Hn).
    rewrite Ha, Hc, Hn. simpl. split_and!; [exact Hal|lia|].
    eexists. rewrite <- !app_assoc. split; [reflexivity|].
    apply (ep_run (ss_alive s) p true []). constructor.
  - destruct (Hs false p s1 Hlast Hin) as (Ha & Hc & Hn).
    rewrite Ha, Hc, Hn. simpl. split_and!; [exact Hal|lia|].
    eexists. rewrite <- !app_assoc. split; [reflexivity|].
    apply (ep_run (ss_alive s) p false []). constructor.
Qed.

Lemma runs_episodes stop rs s :
  stops stop -> (forall i, i ∈ ss_alive s -> (i < ss_next s)%nat) ->
  let s' := (seed_runs ready stop measure failed rs s).1 in
  ss_alive s' = ss_alive s /\ (ss_next s <= ss_next s')%nat /\
  exists acts, ss_acts s' = (ss_acts s ++ acts)%list /\ episodes (ss_alive s) acts.
Proof.
  intros Hs. revert s; induction rs as [|r rs IH]; intros s Hf; cbv zeta.
  { split_and!; [done..|]. exists []. by rewrite app_nil_r; split; [|constructor]. }
  simpl. destruct (run_episode stop r s Hs Hf) as (Ha & Hn & acts & Hc & He).
  destruct (seed_run _ _ _ _ _ _) as [s1 row]. simpl in Ha, Hn, Hc.
  destruct (IH s1) as (Ha2 & Hn2 & acts2 & Hc2 & He2).
  { rewrite Ha. intros i Hi. apply Hf in Hi. lia. }
  destruct (seed_runs _ _ _ _ _ _) as [s2 rows]. simpl in *.
  rewrite Ha2, Ha. split_and!; [done|lia|]. exists (acts ++ acts2)%list. split.
  - by rewrite Hc2, Hc, app_assoc.
  - apply episodes_app; [done|]. by rewrite <- Ha.
Qed.
End Arms.

Lemma keeps_pop {MA : Machine} : keeps stop_pop.
Proof. intros ok p s. apply tracked_kill_last. Qed.
Lemma keeps_measured {MA : Machine} : keeps stop_measured.
Proof. intros [] p s H; [by apply tracked_kill_last|done]. Qed.

(** ** The workshop suite *)

Section Workshop.
Context {F : Type} {PF : PyFloat F} {PS : PyStats F} {MA : Machine}.
Variables (PY DELAY_PROXY : string) (ready : Proc -> bool).
Variable measure : Proc -> Z -> SeedRow (F:=F).
Implicit Types (s : Session) (backends : list string).

Local Abbreviation arms := (matrix_arms PY ready measure).
Local Abbreviation matrix := (multi_seed_matrix PY ready measure).

(** A session after a part of the suite, compared with the one before. *)
Record quiet (s s' : Session) : Prop := mkQuiet {
  qu_alive : ss_alive s' = ss_alive s;
  qu_next : (ss_next s <= ss_next s')%nat;
  qu_acts : exists acts, ss_acts s' = (ss_acts s ++ acts)%list /\ episodes (ss_alive s) acts
}.

Lemma quiet_refl s : quiet s s.
Proof. split; [done|done|]. exists []. by rewrite app_nil_r; split; [|constructor]. Qed.

Lemma quiet_trans s1 s2 s3 : quiet s1 s2 -> quiet s2 s3 -> quiet s1 s3.
Proof.
  intros [A1 N1 (a1 & C1 & E1)] [A2 N2 (a2 & C2 & E2)].
  split; [congruence|lia|]. exists (a1 ++ a2)%list.
  split; [by rewrite C2, C1, app_assoc|]. apply episodes_app; [done|]. by rewrite <- A1.
Qed.

Lemma quiet_alive_fresh s s' :
  quiet s s' -> (forall i, i ∈ ss_alive s -> (i < ss_next s)%nat) ->
  (forall i, i ∈ ss_alive s' -> (i < ss_next s')%nat).
Proof. intros [-> Hn _] Hf i Hi. apply Hf in Hi. lia. Qed.

Lemma quiet_runs {R} (m : Proc -> Z -> R) failed stop rs s :
  stops stop -> (forall i, i ∈ ss_alive s -> (i < ss_next s)%nat) ->
  quiet s (seed_runs ready stop m failed rs s).1.
Proof. intros Hs Hf. by destruct (runs_episodes ready m failed stop rs s Hs Hf) as (? & ? & ?). Qed.

Lemma arms_quiet backends base label tok seeds si strategies out s :
  (forall i, i ∈ ss_alive s -> (i < ss_next s)%nat) ->
  quiet s (arms backends base label tok seeds si strategies out s).1.
Proof.
  revert si out s; induction strategies as [|strat rest IH]; intros si out s Hf;
    [apply quiet_refl|]. simpl.
  pose proof (quiet_runs measure row_not_started stop_pop
    (matrix_runs PY backends base label tok seeds si strat) s stops_pop Hf) as Hq.
  destruct (seed_runs _ _ _ _ _ _) as [s1 rows]. simpl in Hq.
  destruct (block_of rows) as [b|e]; [|done].
  eapply quiet_trans; [exact Hq|]. apply IH. by eapply quiet_alive_fresh.
Qed.

(** However many arms and seeds a matrix has, and whichever gateways fail to come up:
    the gateways run one at a time.  Each is started, measured at most once, while
    nothing runs beside it but what ran before the matrix, and killed before the next
    is started; at the end exactly the processes from before are left. *)
Theorem matrix_one_gateway_at_a_time backends strategies seeds base label tok s :
  (forall i, i ∈ ss_alive s -> (i < ss_next s)%nat) ->
  let s' := (matrix backends strategies seeds base label tok s).1 in
  ss_alive s' = ss_alive s /\
  exists acts, ss_acts s' = (ss_acts s ++ acts)%list /\ episodes (ss_alive s) acts.
Proof.
  intros Hf. cbv zeta. unfold multi_seed_matrix.
  pose proof (arms_quiet backends base label tok seeds 0 strategies [] s Hf) as [Ha _ Hc].
  by destruct (matrix_arms _ _ _ _ _ _ _ _ _ _ _ _).
Qed.

(** *** Nothing is left running *)

Lemma arms_tracked backends base label tok seeds si strategies out s :
  tracked s -> tracked (arms backends base label tok seeds si strategies out s).1.
Proof.
  revert si out s; induction strategies as [|strat rest IH]; intros si out s H; [done|]. simpl.
  pose proof (tracked_runs ready measure row_not_started stop_pop
    (matrix_runs PY backends base label tok seeds si strat) s keeps_pop H) as H1.
  destruct (seed_runs _ _ _ _ _ _) as [s1 rows]. simpl in H1.
  destruct (block_of rows) as [b|e]; [by apply IH|done].
Qed.

Lemma matrix_tracked backends strategies seeds base label tok s :
  tracked s -> tracked (matrix backends strategies seeds base label tok s).1.
Proof.
  intros H. unfold multi_seed_matrix.
  pose proof (arms_tracked backends base label tok seeds 0 strategies [] s H) as H1.
  by destruct (matrix_arms _ _ _ _ _ _ _ _ _ _ _ _).
Qed.

Definition phase_tracked (ph : Phase (F:=F)) : Prop := forall s, tracked s -> tracked (ph s).1.

Lemma run_phases_tracked skip ps s :
  Forall (fun p => phase_tracked p.2) ps -> tracked s -> tracked (run_phases skip ps s).1.
Proof.
  intros Hp. revert s; induction Hp as [|[name ph] ps Hph _ IH]; intros s H; [done|]. simpl.
  match goal with |- context [let '(_, _) := ?x in _] => assert (H1 : tracked x.1) end.
  { destruct (dget_or _ _ _); [done|by apply Hph]. }
  match goal with |- context [let '(_, _) := ?x in _] => destruct x as [s1 [o|e]] end; [|done].
  specialize (IH s1 H1). by destruct (run_phases _ _ _) as [s2 [outs ok]].
Qed.

Lemma matrix_phase_tracked backends strategies seeds port label tok :
  phase_tracked (matrix_phase PY ready measure backends strategies seeds port label tok).
Proof.
  intros s H. unfold matrix_phase.
  pose proof (matrix_tracked backends (comma_list strategies) seeds port label tok s H) as H1.
  by destruct (multi_seed_matrix _ _ _ _ _ _ _ _ _ _).
Qed.

Lemma workshop_phases_tracked backends v a :
  Forall (fun p => phase_tracked p.2) (workshop_phases PY DELAY_PROXY ready measure backends v a).
Proof.
  repeat apply Forall_cons_2; try apply Forall_nil_2; simpl; try apply matrix_phase_tracked.
  - intros s H. unfold w2.
    pose proof (tracked_runs ready measure row_not_started stop_pop
      (w2_runs PY backends (se_dio_base v) false "" (wa_seeds_mape a)) s keeps_pop H) as H1.
    destruct (seed_runs _ _ _ _ _ _) as [s1 rows1]. simpl in H1.
    destruct (w2_mape rows1) as [m1|e]; [|done].
    pose proof (tracked_runs ready measure row_not_started stop_pop
      (w2_runs PY backends (se_dio_base v) true (se_tokenizer v) (wa_seeds_mape a)) s1
      keeps_pop H1) as H2.
    by destruct (seed_runs _ _ _ _ _ _).
  - intros s H. unfold throttle_phase. destruct (negb _); [done|].
    pose proof (tracked_start "delay_proxy_slow" (proxy_cmd PY DELAY_PROXY (nth 1 backends "")
      (se_proxy_port v) (se_slow_mult v)) [] s H) as H1.
    destruct (start _ _ _ _) as [s1 p]. destruct (ready p); [|done].
    by apply matrix_phase_tracked.
  - intros s H. unfold coeff_sweep_live.
    pose proof (tracked_runs ready measure row_not_started stop_pop
      (coeff_runs PY backends (se_tokenizer v) (se_dio_base v + 700)) s keeps_pop H) as H1.
    by destruct (seed_runs _ _ _ _ _ _).
Qed.

Lemma suite_body_tracked v a backends s :
  tracked s -> tracked (suite_body PY DELAY_PROXY ready measure v a backends s).1.
Proof.
  intros H. unfold suite_body, start_dio.
  match goal with |- context [start ?n ?c ?e s] =>
    pose proof (tracked_start n c e s H) as H1; destruct (start n c e s) as [s1 p] end.
  simpl in H1. destruct (negb (ready p)); [done|]. destruct (_ <? 1)%Z.
  { by apply (tracked_kill_last (measure_act p s1)). }
  pose proof (run_phases_tracked (wa_skip a)
    (workshop_phases PY DELAY_PROXY ready measure backends v a) (kill_last (measure_act p s1))
    (workshop_phases_tracked backends v a) (tracked_kill_last (measure_act p s1) H1)) as H2.
  by destruct (run_phases _ _ _) as [s2 [outs ok]].
Qed.

Lemma start_engines_tracked v gpus s :
  tracked s -> tracked (start_engines PY v gpus s).1.
Proof.
  unfold start_engines. generalize (imap (fun i gpu => (i, gpu)) (take 2 gpus)) as l.
  intros l. cut (forall ps, tracked s -> tracked (foldl (fun '(s, ps) '(i, gpu) =>
      let '(s, p) := start_vllm PY gpu (se_engine_base v + Z.of_nat i) (se_model v)
        (se_max_model_len v) (se_gpu_mem_util v) ("vllm_gpu" ++ gpu) true s in
      (s, ps ++ [p])%list) (s, ps) l).1); [intros Hc; apply Hc|].
  revert s; induction l as [|[i gpu] l IH]; intros s ps H; [done|]. cbn [foldl].
  unfold start_vllm at 2.
  match goal with |- context [start ?n ?c ?e s] =>
    pose proof (tracked_start n c e s H) as H1; destruct (start n c e s) as [s1 p] end.
  by apply IH.
Qed.


(** The exit code says whether the suite got to its end. *)
Theorem workshop_exit_code v a :
  let o := (workshop_main PY DELAY_PROXY ready measure v a).2 in
  oc_code o = 0 <-> oc_status o = Some "ok".
Proof.
  cbv zeta. unfold workshop_main.
  assert (Hb : forall bs s, let o := (suite_body PY DELAY_PROXY ready measure v
      (apply_only_flags a) bs s).2 in oc_code o = 0 <-> oc_status o = Some "ok").
  { intros bs s. cbv zeta. unfold suite_body. destruct (start_dio _ _ _ _ _) as [s1 p].
    destruct (negb (ready p)); [done|]. destruct (_ <? 1)%Z; [done|].
    by destruct (run_phases _ _ _) as [s2 [outs []]]. }
  destruct (_ || _).
  - destruct (comma_list (se_backends v)) as [|b1 [|b2 bs]]; [done..|].
    specialize (Hb (b1 :: b2 :: bs) session_init). by destruct (suite_body _ _ _ _ _ _ _ _).
  - destruct (comma_list (se_gpus v)) as [|g1 [|g2 gs]]; [done..|].
    destruct (start_engines _ _ _ _) as [s1 ps]. destruct (forallb ready ps); [|done].
    specialize (Hb (imap (fun i _ => local_url (se_engine_base v + Z.of_nat i)) ps) s1).
    by destruct (suite_body _ _ _ _ _ _ _ _).
Qed.
End Workshop.

(** ** [run_real_hetero_multiseed.py] keeps a gateway that failed to come up *)

Lemma measured_step {R} {MA : Machine} ready (measure : Proc -> Z -> R) failed r s id :
  (forall i, i ∈ ss_alive s -> (i < ss_next s)%nat) -> id ∈ ss_alive s ->
  let s' := (seed_run ready stop_measured measure failed r s).1 in
  id ∈ ss_alive s' /\ (forall i, i ∈ ss_alive s' -> (i < ss_next s')%nat) /\
  forall p alive, Measure p alive ∈ ss_acts s' -> Measure p alive ∈ ss_acts s \/ id ∈ alive.
Proof.
  intros Hf Hin. cbv zeta. unfold seed_run, start.
  set (p := mkProc (ss_next s) (ru_name r) (ru_cmd r) (ru_env r)).
  set (s1 := mkSession _ _ _ _ _). destruct (ready p) eqn:Hr; cbn [fst].
  - assert (Hl : last (ss_handles (measure_act p s1)) = Some p) by (simpl; by rewrite last_snoc).
    assert (Hal : pr_id p ∈ ss_alive (measure_act p s1)) by (simpl; set_solver).
    destruct (stops_pop true p (measure_act p s1) Hl Hal) as (Ha & Hc & Hn).
    unfold stop_pop in *. simpl (stop_measured _ _ _). rewrite Ha, Hc, Hn. simpl.
    rewrite filter_fresh by done. split_and!; [done| |].
    + intros i Hi. apply Hf in Hi. lia.
    + intros q al. rewrite !elem_of_app, !list_elem_of_singleton.
      intros [[[?|?]|E]|?]; try done; [by left|]. injection E as -> ->. right. set_solver.
  - simpl. split_and!; [set_solver| |].
    + intros i [Hi|Hi]%elem_of_app; [apply Hf in Hi; lia|]. apply list_elem_of_singleton in Hi. lia.
    + intros q al. rewrite elem_of_app, list_elem_of_singleton. intros [?|?]; [by left|done].
Qed.

(** A gateway that does not answer in time is neither killed nor taken off the session: it
    runs beside every later gateway of the suite, while they are measured, and is still
    there at the end of the arms.  The other suites stop it. *)
Theorem hetero_failed_gateway_survives {R} {MA : Machine} ready (measure : Proc -> Z -> R) failed r rs s :
  (forall i, i ∈ ss_alive s -> (i < ss_next s)%nat) ->
  ready (start (ru_name r) (ru_cmd r) (ru_env r) s).2 = false ->
  let s' := (seed_runs ready stop_measured measure failed (r :: rs) s).1 in
  ss_next s ∈ ss_alive s' /\
  forall p alive, Measure p alive ∈ ss_acts s' ->
    Measure p alive ∈ ss_acts s \/ ss_next s ∈ alive.
Proof.
  intros Hf Hr. cbv zeta. cbn [seed_runs]. unfold seed_run. unfold start in *.
  cbn [snd] in Hr. rewrite Hr. cbn [stop_measured].
  set (s1 := mkSession _ _ _ _ _).
  assert (H1 : (forall i, i ∈ ss_alive s1 -> (i < ss_next s1)%nat) /\ ss_next s ∈ ss_alive s1 /\
    forall p alive, Measure p alive ∈ ss_acts s1 -> Measure p alive ∈ ss_acts s \/ ss_next s ∈ alive).
  { simpl. split_and!; [|set_solver|].
    - intros i [Hi|Hi]%elem_of_app; [apply Hf in Hi; lia|]. apply list_elem_of_singleton in Hi. lia.
    - intros p al. rewrite elem_of_app, list_elem_of_singleton. intros [?|?]; [by left|done]. }
  clearbody s1. generalize dependent s1.
  induction rs as [|r' rs IH]; intros s1 (Hf1 & Hin & Hm); [by split|]. cbn [seed_runs].
  destruct (measured_step ready measure failed r' s1 (ss_next s) Hf1 Hin) as (Ha & Hfr & Hms).
  destruct (seed_run _ _ _ _ r' s1) as [s2 row]. cbn [fst] in *.
  assert (H2 : (forall i, i ∈ ss_alive s2 -> (i < ss_next s2)%nat) /\ ss_next s ∈ ss_alive s2 /\
    forall p alive, Measure p alive ∈ ss_acts s2 -> Measure p alive ∈ ss_acts s \/ ss_next s ∈ alive).
  { split_and!; [done|done|]. intros p al Hp. apply Hms in Hp as [Hp|?]; [by apply Hm|by right]. }
  specialize (IH s2 H2). by destruct (seed_runs _ _ _ _ rs s2).
Qed.

(** ** Loads *)

Section Loads.
Context {F : Type} {PF : PyFloat F} {PS : PyStats F} {MA : Machine}.
Implicit Types (xs : list (Exchange F)).

Record wload_ok (l : WLoad (F:=F)) (n : Z) : Prop := mkWok {
  wo_total : (wl_ok l + wl_fail l)%Z = n;
  wo_e2e : Z.of_nat (length (wl_e2e l)) = wl_ok l;
  wo_routes : sum_of id (dvalues (wl_routes l)) = wl_ok l
}.

Lemma wload_one_ok l n x : wload_ok l n -> wload_ok (wload_one l x) (n + 1).
Proof.
  intros []. unfold wload_one. repeat case_match; split; simpl; rewrite ?length_app, ?sum_count_route;
    simpl; lia.
Qed.

Lemma wload_accounts xs : wload_ok (wload xs) (Z.of_nat (length xs)).
Proof.
  unfold wload. cut (forall l n, wload_ok l n -> wload_ok (foldl wload_one l xs) (n + Z.of_nat (length xs))).
  { intros Hc. apply (Hc wload_init 0). by split. }
  induction xs as [|x xs IH]; intros l n H; [by rewrite Z.add_0_r|]. simpl.
  replace (n + Z.of_nat (S (length xs)))%Z with (n + 1 + Z.of_nat (length xs))%Z by lia.
  by apply IH, wload_one_ok.
Qed.

(** A row accounts for every request once, and for every success once in its routes. *)
Theorem load_row_accounts (health : bool) xs metrics :
  let r := load_row health xs metrics in
  (sr_ok r + sr_fail r)%Z = Z.of_nat (length xs) /\
  sum_of id (dvalues (sr_routes r)) = sr_ok r /\ 0 <= sr_ok r.
Proof.
  cbv zeta. unfold load_row. destruct health; simpl; [|split_and!; [lia|done|lia]].
  destruct (wload_accounts xs). split_and!; [done|done|lia].
Qed.

Lemma wload_none xs : wl_ok (wload xs) = 0 -> wl_e2e (wload xs) = [].
Proof.
  destruct (wload_accounts xs) as [_ He _]. intros H. rewrite H in He.
  destruct (wl_e2e (wload xs)); [done|simpl in He; lia].
Qed.

Lemma routes_none_step (l : WLoad (F:=F)) (x : Exchange F) : wl_ok l <= wl_ok (wload_one l x) /\
  (wl_ok (wload_one l x) = wl_ok l -> wl_routes (wload_one l x) = wl_routes l).
Proof. unfold wload_one. repeat case_match; simpl; split; try lia; done. Qed.

Lemma wload_no_routes xs : wl_ok (wload xs) = 0 -> wl_routes (wload xs) = [].
Proof.
  unfold wload. induction xs as [|x xs IH] using rev_ind; [done|]. rewrite foldl_snoc.
  intros H. destruct (routes_none_step (foldl wload_one wload_init xs) x) as [Hle Hr].
  pose proof (wo_total _ _ (wload_accounts xs)). pose proof (wo_e2e _ _ (wload_accounts xs)) as He.
  unfold wload in He. rewrite Hr by lia. apply IH. lia.
Qed.

(** A seed in which no request was answered has no percentile, and so stays out of the mean
    of the p99; but it has a share of the first engine, 0, and so it enters the mean
    share as if the gateway had avoided that engine. *)
Theorem dead_seed_counts_as_share xs metrics :
  sr_ok (load_row true xs metrics) = 0 ->
  sr_p99 (load_row true xs metrics) = None /\
  sr_frac_e0 (load_row true xs metrics) = Some (fdiv (fint 0) (fint 1)).
Proof.
  simpl. intros H. rewrite wload_none, wload_no_routes by done. done.
Qed.

(** *** Concurrent requests *)

Lemma count_routes_perm (ws ws' : list string) wid :
  ws ≡ₚ ws' ->
  dget_or wid 0%Z (foldl (fun d w => count_route w d) [] ws)
  = dget_or wid 0%Z (foldl (fun d w => count_route w d) [] ws').
Proof.
  assert (Hc : forall l d, dget_or wid 0%Z (foldl (fun d w => count_route w d) d l)
    = (dget_or wid 0%Z d + Z.of_nat (length (filter (fun w => w = wid) l)))%Z).
  { induction l as [|w l IH]; intros d; simpl; [by rewrite Z.add_0_r|]. rewrite IH.
    unfold dget_or. rewrite dget_count_route. rewrite filter_cons.
    destruct (decide (wid = w)) as [->|Hne].
    - rewrite decide_True by done. simpl. unfold dget_or. lia.
    - rewrite decide_False by done. lia. }
  intros Hp. by rewrite !Hc, Hp.
Qed.

Lemma sum_routes (ws : list string) d :
  sum_of id (dvalues (foldl (fun d w => count_route w d) d ws))
  = (sum_of id (dvalues d) + Z.of_nat (length ws))%Z.
Proof.
  revert d; induction ws as [|w ws IH]; intros d; simpl; [lia|].
  rewrite IH, sum_count_route. lia.
Qed.

(** The order in which concurrent requests complete decides nothing but the order of the
    latencies: counts, routes, share and throughput are the same. *)
Theorem completion_order_irrelevant xs xs' elapsed :
  xs ≡ₚ xs' ->
  let a := concurrent_load xs elapsed in
  let b := concurrent_load xs' elapsed in
  kr_ok a = kr_ok b /\ kr_fail a = kr_fail b /\ kr_frac_e0 a = kr_frac_e0 b /\
  kr_rps a = kr_rps b /\
  (forall wid, dget_or wid 0%Z (kr_routes a) = dget_or wid 0%Z (kr_routes b)) /\
  omap kaggle_one xs ≡ₚ omap kaggle_one xs'.
Proof.
  intros Hp. cbv zeta. assert (Ho : omap kaggle_one xs ≡ₚ omap kaggle_one xs') by (by rewrite Hp).
  assert (Hw : map snd (omap kaggle_one xs) ≡ₚ map snd (omap kaggle_one xs'))
    by (by apply Permutation_map).
  pose proof (Permutation_length Ho) as Hl.
  assert (Hlm : length (map snd (omap kaggle_one xs)) = length (map snd (omap kaggle_one xs')))
    by (by rewrite !length_map).
  unfold concurrent_load. simpl. rewrite Hl, (Permutation_length Hp).
  split_and!; try done; [|by intros wid; apply count_routes_perm].
  unfold route_share, route_total. rewrite (count_routes_perm _ _ "e0" Hw), !sum_routes, Hlm. done.
Qed.

(** The same requests, one after the other, are counted as the workshop suite counts them. *)
Theorem concurrent_counts_as_workshop xs elapsed :
  let a := concurrent_load xs elapsed in
  kr_ok a = wl_ok (wload xs) /\ kr_fail a = wl_fail (wload xs) /\
  kr_routes a = wl_routes (wload xs) /\ map fst (omap kaggle_one xs) = wl_e2e (wload xs).
Proof.
  cbv zeta. unfold concurrent_load. simpl.
  assert (H : Z.of_nat (length (omap kaggle_one xs)) = wl_ok (wload xs) /\
    foldl (fun d w => count_route w d) [] (map snd (omap kaggle_one xs)) = wl_routes (wload xs) /\
    map fst (omap kaggle_one xs) = wl_e2e (wload xs)).
  { unfold wload. induction xs as [|x xs IH] using rev_ind; [done|].
    rewrite foldl_snoc, omap_app, !map_app, foldl_app, length_app.
    destruct IH as (H1 & H2 & H3). rewrite H2, H3. destruct x as [st h ms|]; simpl.
    - destruct (st =? 200)%Z; simpl; rewrite ?app_nil_r; split_and!; try done; lia.
    - rewrite ?app_nil_r. split_and!; try done; lia. }
  destruct H as (H1 & H2 & H3). pose proof (wo_total _ _ (wload_accounts xs)).
  split_and!; [done|lia|done|done].
Qed.
End Loads.

(** ** A seed without an answer poisons a cell of the Kaggle suite *)

Lemma fadd_nan_l (x : float) : fadd (SpecFloat.S754_nan : float) x = SpecFloat.S754_nan.
Proof. by destruct x. Qed.
Lemma fadd_nan_r (x : float) : fadd x (SpecFloat.S754_nan : float) = SpecFloat.S754_nan.
Proof. by destruct x. Qed.

Lemma sum_nan (l : list float) acc :
  SpecFloat.S754_nan ∈ l \/ acc = SpecFloat.S754_nan -> foldl fadd acc l = SpecFloat.S754_nan.
Proof.
  revert acc; induction l as [|x l IH]; intros acc [H|H]; [by apply not_elem_of_nil in H|done| |].
  - apply elem_of_cons in H as [<-|H]; cbn [foldl]; apply IH; [right; apply fadd_nan_r|by left].
  - subst. cbn [foldl]. apply IH. right. apply fadd_nan_l.
Qed.

Lemma mean_nan (xs : list float) :
  SpecFloat.S754_nan ∈ xs -> mean xs = SpecFloat.S754_nan.
Proof.
  intros H. simpl. unfold StatsB64.mean.
  assert (Hf : SpecFloat.S754_nan ∈ filter (fun x => StatsB64.is_finite x = false) xs)
    by (by apply list_elem_of_filter).
  destruct (filter _ xs) as [|y ys]; [by apply not_elem_of_nil in Hf|].
  rewrite sum_nan by (by left). done.
Qed.

(** [pct] answers NaN, not [None], for no latency, and only [None] is left out of the
    means: one seed in which every request failed turns the p99 and the p50 of its whole
    cell into NaN.  The workshop suite leaves such a seed out. *)
Theorem kaggle_dead_seed_is_nan conc strat (rows : list (option (KRow (F:=float))))
    (xs : list (Exchange float)) elapsed :
  Some (concurrent_load xs elapsed) ∈ rows -> kr_ok (concurrent_load xs elapsed) = 0 ->
  mc_mean (kc_p99 (kaggle_cell conc strat rows)) = SpecFloat.S754_nan /\
  mc_mean (kc_p50 (kaggle_cell conc strat rows)) = SpecFloat.S754_nan.
Proof.
  intros Hin Hok.
  assert (Hnil : omap kaggle_one xs = []).
  { simpl in Hok. destruct (omap kaggle_one xs); [done|simpl in Hok; lia]. }
  assert (Hg : concurrent_load xs elapsed ∈ omap id rows).
  { apply list_elem_of_omap. by exists (Some (concurrent_load xs elapsed)). }
  assert (Hm : forall l : list float, SpecFloat.S754_nan ∈ l -> mc_mean (mean_ci l) = SpecFloat.S754_nan).
  { intros l Hl. unfold mean_ci. pose proof (mean_nan l Hl) as E.
    destruct l as [|x [|y l]]; [by apply not_elem_of_nil in Hl|exact E|exact E]. }
  split; apply Hm, list_elem_of_fmap; exists (concurrent_load xs elapsed);
    (split; [|done]); unfold concurrent_load; simpl; rewrite Hnil; reflexivity.
Qed.

(** ** Ports *)

(** Up to 40 seeds, no two runs of a matrix are given the same port. *)
Theorem matrix_ports_distinct {F} {PF : PyFloat F} PY backends base label tok seeds si si' strat strat' r r' :
  seeds <= 40 ->
  r ∈ matrix_runs PY backends base label tok seeds si strat ->
  r' ∈ matrix_runs PY backends base label tok seeds si' strat' ->
  ru_port r = ru_port r' -> si = si' /\ ru_seed r = ru_seed r'.
Proof.
  unfold matrix_runs. intros Hs (k & -> & Hk)%list_elem_of_fmap (k' & -> & Hk')%list_elem_of_fmap.
  apply elem_of_seqZ in Hk, Hk'. simpl. intros E. split; lia.
Qed.

(** With more, the last seeds of an arm share the ports of the next arm. *)
Example matrix_ports_meet :
  map ru_port (drop 40 (matrix_runs "py" [] 9000 "w" "" 41 0 "nlms"))
  = map ru_port (take 1 (matrix_runs "py" [] 9000 "w" "" 41 1 "rls")).
Proof. reflexivity. Qed.

(** ** The flags of the workshop suite *)

(** A phase named after [--only] runs, any other is skipped, whatever the skip flags say;
    applying the flags twice changes nothing. *)
Theorem only_decides a w :
  str_truth (strip (wa_only a)) = true -> w ∈ WORKSHOP_PHASES ->
  dget w (wa_skip (apply_only_flags a)) = Some (negb (str_in w (wanted (wa_only a)))).
Proof.
  intros Ho Hw. unfold apply_only_flags. simpl. rewrite Ho. unfold WORKSHOP_PHASES in *. simpl.
  repeat (apply elem_of_cons in Hw as [->|Hw]; [done|]). by apply not_elem_of_nil in Hw.
Qed.

Theorem only_flags_once a : apply_only_flags (apply_only_flags a) = apply_only_flags a.
Proof.
  unfold apply_only_flags. simpl. f_equal; try (destruct (wa_quick a); [lia|done]).
  by destruct (str_truth (strip (wa_only a))).
Qed.

(** ** The factorial of [run_gpu_abc_suite.py] *)

Definition named {F} {PF : PyFloat F} (name : string) : option (AbcConfig (F:=F)) :=
  snd <$> list_find (fun c => ac_name c = name) G1_CONFIGS.

(** The arms of each margin differ in the one setting the margin is named after. *)
Theorem margins_isolate_one_factor {F} {PF : PyFloat F} :
  let arm name := named (F:=F) name in
  (ac_cache_bonus_ms <$> arm "nlms_affinity_only") = (ac_cache_bonus_ms <$> arm "nlms_hybrid_on") /\
  (ac_engine_metrics <$> arm "nlms_affinity_only") = Some false /\
  (ac_engine_metrics <$> arm "nlms_hybrid_on") = Some true /\
  (ac_engine_metrics <$> arm "nlms_metrics_only") = (ac_engine_metrics <$> arm "nlms_hybrid_on") /\
  (ac_cache_bonus_ms <$> arm "nlms_metrics_only") = Some (fint 0) /\
  (ac_cache_bonus_ms <$> arm "nlms_hybrid_on") = Some (fint 200) /\
  (ac_cache_bonus_ms <$> arm "nlms_hybrid_off") = (ac_cache_bonus_ms <$> arm "nlms_metrics_only") /\
  (ac_engine_metrics <$> arm "nlms_hybrid_off") = (ac_engine_metrics <$> arm "nlms_affinity_only").
Proof. cbv zeta. split_and!; reflexivity. Qed.

(** ** The options of the delay proxy *)

(** The proxy of the skewed Kaggle cell is given an option it does not have, so it ends with
    a usage error and the second engine of that cell is a port nobody listens on; the
    workshop suite gives it the option it has. *)
Theorem kaggle_proxy_option_unknown {F} {PF : PyFloat F} PY DP up port (mult : F) :
  "--mult" ∈ kaggle_proxy_cmd PY DP up port mult /\ proxy_option "--mult" = [] /\
  "--latency-mult" ∈ proxy_cmd PY DP up port mult /\
  proxy_option "--latency-mult" = ["--latency-mult"].
Proof. split_and!; try reflexivity; unfold kaggle_proxy_cmd, proxy_cmd; set_solver. Qed.

(** ** Environment variables and flags *)

Section Environment.
Context {F : Type} {PF : PyFloat F}.
Variables (bracketed_ok : string -> bool).
Variable build_config : list (string * string) -> list (string * json F) -> result PyExc (DIOConfig F).

(** The setting an environment variable is for: the name after [DIO_], whatever its case. *)
Definition setting_of (var : string) : string := lower (str_drop 4 var).

(** [DIOConfig] takes a setting from the keyword arguments first: variables for settings that
    are given as arguments change nothing. *)
Hypothesis arguments_win : forall env env' kw,
  (forall var, setting_of var ∉ dkeys kw -> dget var env = dget var env') ->
  build_config env kw = build_config env' kw.

(** The settings [dio serve] takes by flag.  It passes every one of them on, given or not. *)
Definition FLAG_SETTINGS : list string :=
  ["host"; "port"; "strategy"; "nlms_mode"; "slo_ms"; "admission_off"; "admission_mode";
   "tokenizer_name"; "use_tokenizer"; "engine_metrics"; "cache_bonus_ms"; "ablation"].

(** [dio serve -b ...] without a configuration file starts the same gateway in two
    environments that differ in the variables of its flags only: setting
    [DIO_STRATEGY], [DIO_SLO_MS] or [DIO_CACHE_BONUS_MS] has no effect on it. *)
Theorem flags_shadow_environment env env' load found o :
  so_backend o <> [] -> so_config o = None ->
  (forall var, setting_of var ∉ FLAG_SETTINGS -> dget var env = dget var env') ->
  serve bracketed_ok (build_config env) load found o
  = serve bracketed_ok (build_config env') load found o.
Proof.
  intros Hb Hc He. unfold serve. rewrite Hc. destruct (so_backend o) as [|b bs] eqn:Eb; [done|].
  simpl. unfold serve_flags. by rewrite (arguments_win env env').
Qed.

Lemma dget_dupdate {V} (k : string) (d e : list (string * V)) :
  dict_wf e ->
  dget k (dupdate d e) = match dget k e with Some v => Some v | None => dget k d end.
Proof.
  unfold dupdate, dict_wf. revert d; induction e as [|[k' v] e IH]; intros d; simpl; [done|].
  intros [Hn He]%NoDup_cons. rewrite IH by done. rewrite dget_dset. case_decide as E; [subst|done].
  destruct (dget k' e) eqn:G; [|done]. exfalso. apply Hn. apply dget_is_Some. by eexists.
Qed.

(** The variants of the coefficient sweep that scale the cache bonus do so in the environment
    of a setting that [dio serve] always passes by flag: they measure the gateway of the
    baseline, of [tier_p50] and of [tier_m50] again. *)
Theorem cache_variants_measure_nothing tok name name' tier cache cache' load found o :
  so_backend o <> [] -> so_config o = None ->
  let env n c := dio_env (workshop_spec "nlms" n tok (coeff_env tier c)) in
  serve bracketed_ok (build_config (env name cache)) load found o
  = serve bracketed_ok (build_config (env name' cache')) load found o.
Proof.
  intros Hb Hc. cbv zeta. apply flags_shadow_environment; [done|done|].
  intros var Hv. unfold dio_env. simpl ds_extra.
  assert (Hwf : forall c, dict_wf (coeff_env tier c)).
  { intros c. unfold dict_wf. simpl. repeat constructor; set_solver. }
  rewrite !dget_dupdate by done. simpl ds_tokenizer. simpl ds_strategy. simpl ds_admission_mode.
  assert (Hne : var <> "DIO_CACHE_BONUS_MS").
  { intros ->. apply Hv. vm_compute. set_solver. }
  unfold coeff_env. cbn [dget]. repeat case_decide; subst; done.
Qed.
End Environment.

(** The hypothesis holds of the usual precedence: the arguments, then the variables, then the
    defaults. *)
Lemma arguments_win_holds : exists build : list (string * string) -> list (string * json float) ->
    result PyExc (DIOConfig float),
  forall env env' kw, (forall var, setting_of var ∉ dkeys kw -> dget var env = dget var env') ->
  build env kw = build env' kw.
Proof.
  exists (fun env kw =>
    if decide ("tier_mismatch_ms" ∈ dkeys kw) then Ok DIOConfig_default
    else match dget "DIO_TIER_MISMATCH_MS" env with
         | Some _ => Err OtherExc | None => Ok DIOConfig_default end).
  intros env env' kw H. destruct (decide _) as [Hd|Hd]; [done|].
  by rewrite (H "DIO_TIER_MISMATCH_MS").
Qed.

(** ** Witnesses: on a machine where every group ends *)

#[local] Instance all_end : Machine := fun _ => true.

Definition suite_env : SuiteEnv (F:=float) :=
  mkSuiteEnv false "" "0,1" "m" "" 18000 19500 18101 2048 (fdec 85 (-2)) (fint 2)
    "nlms,round_robin" "nlms" "nlms" true.
Definition demo_args : WorkshopArgs :=
  mkWorkshopArgs "w3" true [] 10 10 3 3 30 20 24 128.
(** Everything comes up but the second gateway of the matrix. *)
Definition up_but_one (p : Proc) : bool := negb (str_eqb (pr_name p) "W3_regime_a_nlms_s1").
Definition one_answer (p : Proc) (seed : Z) : SeedRow (F:=float) :=
  load_row true [Reply 200 (Some "e0") (fint 100)] None.

(** The quick run of W3 alone: two engines, a smoke gateway, and four gateways in turn. *)
Lemma workshop_run :
  let s := (workshop_main "py" "proxy.py" up_but_one one_answer suite_env demo_args).1 in
  map (fun a => match a with Start p => (0%nat, pr_id p) | Kill i => (1%nat, i)
                             | Measure p _ => (2%nat, pr_id p) end) (ss_acts s)
  = [(0, 0); (0, 1); (0, 2); (2, 2); (1, 2); (0, 3); (2, 3); (1, 3); (0, 4); (1, 4);
     (0, 5); (2, 5); (1, 5); (0, 6); (2, 6); (1, 6); (1, 1); (1, 0)]%nat.
Proof. vm_compute. reflexivity. Qed.

Lemma hetero_survivor :
  let rs := hetero_runs "py" [] 19200 2 "nlms" in
  let ready p := negb (str_eqb (pr_name p) "dio_nlms_s0") in
  let s := (seed_runs ready stop_measured one_answer row_not_started rs session_init).1 in
  ss_alive s = [0%nat].
Proof. vm_compute. reflexivity. Qed.
