(* ===== verification/SuiteMainProps.v ===== *)
(** What holds of the runs of RegimeRuns.v and of every [main] of SuiteMains.v: nothing is left
    running, the cells of an experiment leave the machine as they found it, the arms of D1
    are paired by seed, and the declared memory reaches the right backend. *)

From S2P Require Import Prelude PyFloat PyStats PyStr PyDict PySort Json Config ConfigFile Simulation.
From S2P Require Import ResultStats LoadClients RegimeD Backends AbcExperiments Cli Suites GpuSuites.
From S2P Require Import RegimeRuns SuiteMains SuiteProps.

Create HintDb track.
#[export] Hint Resolve tracked_init tracked_start tracked_kill tracked_kill_last tracked_measure
  tracked_runs keeps_pop keeps_measured matrix_tracked : track.

(** The session in front of a [let]. *)
Ltac track_let :=
  match goal with
  | |- context [let '(_, _) := ?x in _] =>
    let H := fresh "Ht" in
    assert (H : tracked x.1) by (eauto 3 with track);
    let s := fresh "s" in destruct x as [s ?]; cbn [fst snd] in H |- *
  end.
Ltac track := repeat (track_let || case_match); eauto 3 with track.

(** A [main] that cleans up, whatever came before. *)
Lemma cleanup_let {A} {MA : Machine} (x : Session * A) :
  tracked x.1 -> ss_alive (let '(s, out) := x in (cleanup s, out)).1 = [].
Proof. destruct x as [s out]. apply cleanup_empty. Qed.

Lemma tracked_foldl {A B} {MA : Machine} (f : Session * B -> A -> Session * B) (l : list A) (x : Session * B) :
  (forall y a, tracked y.1 -> tracked (f y a).1) -> tracked x.1 -> tracked (foldl f x l).1.
Proof. intros Hf. revert x; induction l as [|a l IH]; intros x H; [done|]. apply IH, Hf, H. Qed.

Section Restored.
Context {MA : Machine}.

(** A run that changes nothing but what has been done: the processes and their handles are
    those from before, and only children of processes that did not end in time are left. *)
Record restored (s s' : Session) : Prop := mkRestored {
  rs_quiet : quiet s s';
  rs_handles : ss_handles s' = ss_handles s;
  rs_left : forall id, id ∈ ss_left s' -> id ∈ ss_left s \/ group_ends id = false
}.

Lemma restored_refl s : restored s s.
Proof. split; [apply quiet_refl|done|by left]. Qed.
Lemma restored_trans s1 s2 s3 : restored s1 s2 -> restored s2 s3 -> restored s1 s3.
Proof.
  intros [Q1 H1 L1] [Q2 H2 L2]. split; [by eapply quiet_trans|congruence|].
  intros id [Hi|Hi]%L2; auto.
Qed.
Lemma restored_fresh s s' : restored s s' -> fresh_ids s -> fresh_ids s'.
Proof.
  intros [Q Hh _] [Ha Hp]. split; [by eapply quiet_alive_fresh|].
  intros p. rewrite Hh. intros H%Hp. pose proof (qu_next _ _ Q). lia.
Qed.
Lemma restored_tracked s s' : restored s s' -> tracked s -> tracked s'.
Proof.
  intros [[Ha _ _] Hh Hl] [H HL]. split; intros id; [rewrite Ha, Hh; apply H|].
  intros [Hi|Hi]%Hl; auto.
Qed.

Lemma fresh_init : fresh_ids session_init.
Proof. split; intros ? ?%not_elem_of_nil; done. Qed.
Lemma fresh_start name cmd env s : fresh_ids s -> fresh_ids (start name cmd env s).1.
Proof.
  intros [Ha Hp]. split; simpl.
  - intros i [Hi%Ha| ->%list_elem_of_singleton]%elem_of_app; lia.
  - intros p [Hi%Hp| ->%list_elem_of_singleton]%elem_of_app; simpl; lia.
Qed.

(** Starting a process, measuring it or not, ending it and forgetting its handle. *)
Lemma filter_forget (l : list Proc) p :
  (forall q, q ∈ l -> (pr_id q < pr_id p)%nat) ->
  filter (fun q => pr_id q <> pr_id p) (l ++ [p])%list = l.
Proof.
  intros H. rewrite filter_app, filter_cons, decide_False by (intros Hn; by apply Hn).
  rewrite filter_nil, app_nil_r. induction l as [|q l IH]; [done|].
  rewrite filter_cons, decide_True.
  - f_equal. apply IH. intros r Hr. apply H. set_solver.
  - pose proof (H q ltac:(set_solver)). lia.
Qed.

Lemma episode_restores name cmd env (loaded : bool) s :
  fresh_ids s ->
  let '(s1, p) := start name cmd env s in
  restored s (remove_handle (pr_id p)
                (kill_proc (pr_id p) (if loaded then measure_act p s1 else s1))).
Proof.
  intros [Ha Hp]. unfold start. set (p := mkProc (ss_next s) name cmd env).
  set (s1 := mkSession _ _ _ _ _).
  assert (E : (if loaded then measure_act p s1 else s1)
              = mkSession (ss_handles s ++ [p]) (S (ss_next s)) (ss_alive s ++ [pr_id p])
                  (ss_acts s ++ Start p :: if loaded then [Measure p (ss_alive s ++ [pr_id p])] else [])
                  (ss_left s)).
  { destruct loaded; [|done]. unfold measure_act, s1. cbn. by rewrite <- app_assoc. }
  rewrite E. unfold kill_proc. cbn [ss_alive]. rewrite decide_True by set_solver.
  unfold remove_handle. cbn. split; [split| |]; cbn.
  - rewrite (filter_fresh (ss_alive s) (ss_next s)); [done|exact Ha].
  - lia.
  - exists (Start p :: (if loaded then [Measure p (ss_alive s ++ [pr_id p])] else []) ++ [Kill (pr_id p)])%list.
    split; [by rewrite <- app_assoc|]. apply (ep_run (ss_alive s) p loaded []). constructor.
  - by apply (filter_forget (ss_handles s) p).
  - intros id [Hi|Hi]%elem_of_app; [by left|right]. destruct (group_ends (ss_next s)) eqn:E1;
      [by apply not_elem_of_nil in Hi|]. by apply list_elem_of_singleton in Hi as ->.
Qed.
End Restored.

(** ** The cells of Regime D *)

Section Regime.
Context {F : Type} {PF : PyFloat F} {PS : PyStats F} {MA : Machine}.
Variables (PY MOCK_SERVER : string) (ready : Proc -> bool).
Variable load : Proc -> list (string * Z) -> result PyExc (Row F).
Variables (randint : Z -> nat -> Z -> Z -> Z) (choice : Z -> nat -> list Z -> Z).
Implicit Types (f : Fleet (F:=F)) (c : DCell) (s : Session).

Lemma one_seed_restores f c s :
  fresh_ids s -> restored s (one_seed PY ready load f c s).1.
Proof.
  intros H. unfold one_seed. destruct (dc_workload c) as [items|e]; [|apply restored_refl].
  match goal with |- context [start ?n ?c ?e s] =>
    pose proof (episode_restores n c e true s H) as Ht;
    pose proof (episode_restores n c e false s H) as Hf;
    destruct (start n c e s) as [s1 p] end.
  by destruct (ready p).
Qed.

Lemma one_seeds_restore f cs s :
  fresh_ids s -> restored s (one_seeds PY ready load f cs s).1.
Proof.
  revert s; induction cs as [|c cs IH]; intros s H; [apply restored_refl|]. simpl.
  pose proof (one_seed_restores f c s H) as H1. destruct (one_seed _ _ _ _ _ _) as [s1 [row|e]];
    [|done]. simpl in H1. specialize (IH s1 (restored_fresh _ _ H1 H)).
  destruct (one_seeds _ _ _ _ _ _) as [s2 rows]. by eapply restored_trans.
Qed.

Lemma d1_rows_restore f mt seeds si strategies rows s :
  fresh_ids s ->
  restored s (d1_rows PY ready load randint choice f mt seeds si strategies rows s).1.
Proof.
  revert si rows s; induction strategies as [|strat rest IH]; intros si rows s H;
    [apply restored_refl|]. simpl.
  pose proof (one_seeds_restore f (d1_cells randint choice f mt seeds si strat) s H) as H1.
  destruct (one_seeds _ _ _ _ _ _) as [s1 [new|e]]; [|done]. simpl in H1.
  eapply restored_trans; [exact H1|]. apply IH. by eapply restored_fresh.
Qed.

Lemma run_d1_restores f strategies seeds mt s :
  fresh_ids s -> restored s (run_d1 PY ready load randint choice f strategies seeds mt s).1.
Proof.
  intros H. unfold run_d1.
  pose proof (d1_rows_restore f mt seeds 0 strategies
    (foldl (fun d strat => dset strat [] d) [] strategies) s H) as H1.
  by destruct (d1_rows _ _ _ _ _ _ _ _ _ _ _ _).
Qed.

Lemma run_d2_restores f seeds mt s :
  fresh_ids s -> restored s (run_d2 PY ready load randint choice f seeds mt s).1.
Proof.
  intros H. unfold run_d2.
  pose proof (one_seeds_restore f (d2_cells randint choice f mt seeds) s H) as H1.
  by destruct (one_seeds _ _ _ _ _ _).
Qed.

Lemma d3_lengths_restore f seeds li lengths cells s :
  fresh_ids s -> restored s (d3_lengths PY ready load randint choice f seeds li lengths cells s).1.
Proof.
  revert li cells s; induction lengths as [|L rest IH]; intros li cells s H;
    [apply restored_refl|]. simpl.
  pose proof (one_seeds_restore f (d3_cells randint choice f seeds li L) s H) as H1.
  destruct (one_seeds _ _ _ _ _ _) as [s1 [rows|e]]; [|done]. simpl in H1.
  eapply restored_trans; [exact H1|]. apply IH. by eapply restored_fresh.
Qed.

Lemma run_d3_restores f spec seeds s :
  fresh_ids s -> restored s (run_d3 PY ready load randint choice f spec seeds s).1.
Proof.
  intros H. unfold run_d3. destruct (int_list spec); [by apply d3_lengths_restore|apply restored_refl].
Qed.

Lemma cell_of_restores {A} asked (run : Session -> Session * result PyExc A)
    (out : A -> RegimeOut (F:=F)) st s :
  (forall s, fresh_ids s -> restored s (run s).1) -> fresh_ids s -> restored s st.1 ->
  restored s (cell_of asked run out st).1.
Proof.
  intros Hr Hf H. destruct st as [s1 [outs ok]]. unfold cell_of. destruct (asked && ok); [|done].
  pose proof (Hr s1 (restored_fresh _ _ H Hf)) as H1.
  destruct (run s1) as [s2 r]. by eapply restored_trans.
Qed.

Lemma regime_body_restores (a : RegimeArgs) backends vram tokenizer s :
  fresh_ids s ->
  restored s (regime_body PY ready load randint choice a backends vram tokenizer s).1.
Proof.
  intros H. unfold regime_body. destruct (int_list _) as [mt|e]; [|apply restored_refl].
  repeat (apply cell_of_restores; [|done|]); try apply restored_refl; intros s0 H0.
  - by apply run_d3_restores.
  - by apply run_d2_restores.
  - by apply run_d1_restores.
Qed.

(** However many strategies, seeds and lengths are asked for, whichever gateways fail to
    come up and whether a load raises: the experiments leave the engines running that ran
    before, with their handles, and nothing else.  In between the gateways run one at a
    time. *)
Theorem regime_experiments_restore (a : RegimeArgs) backends vram tokenizer s :
  fresh_ids s ->
  let s' := (regime_body PY ready load randint choice a backends vram tokenizer s).1 in
  ss_alive s' = ss_alive s /\ ss_handles s' = ss_handles s /\
  exists acts, ss_acts s' = (ss_acts s ++ acts)%list /\ episodes (ss_alive s) acts.
Proof.
  intros H. cbv zeta. destruct (regime_body_restores a backends vram tokenizer s H) as [[Ha _ Hc] Hh _].
  done.
Qed.

Lemma start_mocks_session specs s :
  tracked s -> fresh_ids s ->
  let s' := (start_mocks (F:=F) PY MOCK_SERVER specs s).1 in tracked s' /\ fresh_ids s'.
Proof.
  intros Ht Hf. cbv zeta. unfold start_mocks.
  match goal with |- context [foldl ?g ?x0 specs] => set (step := g) end.
  generalize (([] : list (string * string)), ([] : list (string * F)), ([] : list Proc)) as x.
  revert s Ht Hf. induction specs as [|[[[bid port] ms] mb] specs IH]; intros s Ht Hf x; [done|].
  cbn [foldl]. destruct x as [[backends vram] ps]. unfold step at 2 4.
  match goal with |- context [start ?n ?c ?e s] =>
    pose proof (tracked_start n c e s Ht) as H1; pose proof (fresh_start n c e s Hf) as H2;
    destruct (start n c e s) as [s1 p] end.
  by apply IH.
Qed.

(** The suite leaves nothing running, whatever happens. *)
Theorem regime_leaves_nothing_running reached (a : RegimeArgs) :
  ss_alive (regime_main PY MOCK_SERVER ready load randint choice reached a).1 = [].
Proof.
  assert (Hb : forall backends vram tok s, tracked s -> fresh_ids s ->
    tracked (regime_body PY ready load randint choice a backends vram tok s).1).
  { intros backends vram tok s Ht Hf. apply (restored_tracked s); [by apply regime_body_restores|done]. }
  unfold regime_main. apply cleanup_let. destruct (_ || _).
  - pose proof (start_mocks_session (if rg_mock3 a then MOCK_SPECS_3 else MOCK_SPECS)
      session_init tracked_init fresh_init) as [Ht Hf].
    destruct (start_mocks _ _ _ _) as [s [[backends vram] ps]].
    destruct (forallb ready ps); [by apply Hb|done].
  - destruct (parse_kv _) as [|b1 [|b2 bs]]; [apply tracked_init..|].
    destruct (vram_table _); [|apply tracked_init].
    destruct (forallb _ _); [|apply tracked_init]. apply Hb; [apply tracked_init|apply fresh_init].
Qed.

(** *** Pairing by seed *)

(** A row is what the load of its cell gave, on a gateway started for it; [None] when that
    gateway did not come up. *)
Definition row_from f c (row : option (Row F)) : Prop :=
  exists items p, dc_workload c = Ok items /\
    pr_cmd p = regime_cmd PY (fl_backends f) (fl_vram f) (dc_port c) (dc_strategy c)
                 (fl_tokenizer f) true /\
    if ready p then exists r, load p items = Ok r /\ row = Some r else row = None.

Lemma one_seeds_rows f cs s rows :
  (one_seeds PY ready load f cs s).2 = Ok rows -> Forall2 (row_from f) cs rows.
Proof.
  revert s rows; induction cs as [|c cs IH]; intros s rows; simpl; [intros [= <-]; constructor|].
  destruct (one_seed PY ready load f c s) as [s1 [row|e]] eqn:E; [|done].
  specialize (IH s1). destruct (one_seeds PY ready load f cs s1) as [s2 [rest|e]]; [|done].
  simpl. intros [= <-]. constructor; [|by apply IH].
  unfold one_seed in E. destruct (dc_workload c) as [items|] eqn:Hw; [|done]. unfold start in E.
  exists items. match goal with H : context [ready ?p] |- _ => exists p; destruct (ready p) eqn:Hr end;
    (split; [done|split; [done|]]).
  - destruct (load _ items) as [r|e] eqn:Hl; [|done]. injection E as <- <-. by exists r.
  - by injection E as <- <-.
Qed.

(** A row of a seed of a strategy: the items depend on the seed alone. *)
Definition seed_row f (mt : list Z) (strat : string) (seed : Z) (row : option (Row F)) : Prop :=
  exists items p port, workload_of randint choice (fl_requests f) (1000 + seed) mt = Ok items /\
    pr_cmd p = regime_cmd PY (fl_backends f) (fl_vram f) port strat (fl_tokenizer f) true /\
    if ready p then exists r, load p items = Ok r /\ row = Some r else row = None.

Lemma d1_cells_rows f mt seeds si strat rows :
  Forall2 (row_from f) (d1_cells randint choice f mt seeds si strat) rows ->
  Forall2 (seed_row f mt strat) (seqZ 0 seeds) rows.
Proof.
  unfold d1_cells. rewrite Forall2_fmap_l. intros H. eapply Forall2_impl; [exact H|].
  intros seed row (items & p & Hw & Hc & Hr). exists items, p. eexists. split; [exact Hw|].
  by split; [exact Hc|].
Qed.

Lemma d1_rows_spec f mt seeds si strategies rows s rows' :
  NoDup strategies ->
  (forall x, x ∈ strategies -> dget x rows = Some []) ->
  (d1_rows PY ready load randint choice f mt seeds si strategies rows s).2 = Ok rows' ->
  (forall x, x ∉ strategies -> dget x rows' = dget x rows) /\
  (forall x, x ∈ strategies ->
     exists l, dget x rows' = Some l /\ Forall2 (seed_row f mt x) (seqZ 0 seeds) l).
Proof.
  revert si rows s. induction strategies as [|strat rest IH]; intros si rows s Hnd He.
  { simpl. intros [= <-]. split; [done|]. by intros x ?%not_elem_of_nil. }
  apply NoDup_cons in Hnd as [Hn Hnd]. simpl.
  pose proof (one_seeds_rows f (d1_cells randint choice f mt seeds si strat) s) as Hr.
  destruct (one_seeds _ _ _ _ _ _) as [s1 [new|e]]; [|done]. simpl in Hr.
  specialize (Hr new eq_refl). apply d1_cells_rows in Hr.
  assert (E0 : dget_or strat [] rows = []).
  { unfold dget_or. by rewrite He by set_solver. }
  rewrite E0. intros H. destruct (IH (S si) (dset strat new rows) s1 Hnd) as [H1 H2]; [|exact H|].
  { intros x Hx. rewrite dget_dset_ne by set_solver. apply He. set_solver. }
  split; intros x Hx.
  - rewrite H1 by set_solver. apply dget_dset_ne. set_solver.
  - apply elem_of_cons in Hx as [->|Hx]; [|by apply H2].
    exists new. split; [|done]. rewrite H1 by done. apply dget_dset_eq.
Qed.

(** The comparison of D1 is paired: when the experiment runs through, the rows of every
    strategy are those of the seeds in order, and the row of a seed is what a gateway
    started for that strategy gave on the items of the seed, the same items whatever the
    strategy; it is absent exactly when that gateway did not come up. *)
Theorem d1_paired_by_seed f mt seeds strategies s rows x y i rx ry :
  NoDup strategies ->
  (d1_rows PY ready load randint choice f mt seeds 0 strategies
     (foldl (fun d strat => dset strat [] d) [] strategies) s).2 = Ok rows ->
  x ∈ strategies -> y ∈ strategies ->
  dget_or x [] rows !! i = Some rx -> dget_or y [] rows !! i = Some ry ->
  exists items, workload_of randint choice (fl_requests f) (1000 + Z.of_nat i) mt = Ok items /\
    (forall r, rx = Some r -> exists p, ready p = true /\ load p items = Ok r) /\
    (forall r, ry = Some r -> exists p, ready p = true /\ load p items = Ok r).
Proof.
  intros Hnd H Hx Hy Hrx Hry.
  assert (He : forall z, z ∈ strategies ->
    dget z (foldl (fun d strat => dset strat ([] : list (option (Row F))) d) [] strategies) = Some []).
  { clear. intros z. generalize ([] : list (string * list (option (Row F)))) as d.
    induction strategies as [|w l IH] using rev_ind; [by intros d ?%not_elem_of_nil|].
    intros d Hz. rewrite foldl_app. simpl. destruct (decide (z = w)) as [->|Hne].
    - apply dget_dset_eq.
    - rewrite dget_dset_ne by done. apply IH. set_solver. }
  destruct (d1_rows_spec f mt seeds 0 strategies _ s rows Hnd He H) as [_ Hs].
  destruct (Hs x Hx) as (lx & Ex & Fx), (Hs y Hy) as (ly & Ey & Fy).
  unfold dget_or in Hrx, Hry. rewrite Ex in Hrx. rewrite Ey in Hry. simpl in *.
  destruct (Forall2_lookup_r _ _ _ _ _ Fx Hrx) as (k & Hk & items & p & port & Hw & _ & Hp).
  destruct (Forall2_lookup_r _ _ _ _ _ Fy Hry) as (k' & Hk' & items' & p' & port' & Hw' & _ & Hp').
  apply lookup_seqZ in Hk as [-> _], Hk' as [-> _]. rewrite !Z.add_0_l in *.
  exists items. split; [exact Hw|].
  assert (items' = items) as -> by congruence. split; intros r ->.
  - exists p. destruct (ready p); [|done]. destruct Hp as (r' & Hl & [= <-]). done.
  - exists p'. destruct (ready p'); [|done]. destruct Hp' as (r' & Hl & [= <-]). done.
Qed.
End Regime.

(** ** The declared memory *)

Section Declared.
Context {F : Type} {PF : PyFloat F}.
Variable bracketed_ok : string -> bool.

Lemma partition_tier_none u : has_char ";" u = false -> partition_str ";tier=" u = None.
Proof.
  unfold has_char. intros H%bool_decide_eq_false. induction u as [|x u IH]; [done|].
  simpl in H. cbn [partition_str].
  assert (E : startswith ";tier=" (String x u) = false).
  { cbn [startswith]. rewrite bool_decide_eq_false_2; [done|]. set_solver. }
  rewrite E, IH by set_solver. done.
Qed.

(** An id the flag can carry, and a URL without a tier. *)
Definition plain_backend (b : string * string) : Prop :=
  has_char "=" b.1 = false /\ startswith "http" b.1 = false /\ has_char ";" b.2 = false.

Lemma parse_flag_plain i (b : string * string) (vrams : list F) :
  plain_backend b ->
  parse_flag bracketed_ok i (b.1 ++ "=" ++ b.2) [] vrams
  = post_init bracketed_ok (spec_backend (mkSpec b.1 b.2 "small") (default (fint 24000) (vrams !! i))).
Proof.
  intros (H1 & H2 & H3). unfold parse_flag.
  change ("=" ++ b.2) with (String "=" b.2). rewrite partition_at by done.
  destruct (startswith "http" (b.1 ++ String "=" b.2)) eqn:E.
  { pose proof (startswith_before bracketed_ok "http" b.1 "=" b.2 eq_refl E). congruence. }
  by rewrite partition_tier_none.
Qed.

(** The flags of a run say what was declared: the gateway the suite starts reads from them
    every backend in order, with its name, its URL and the memory declared for that name,
    24000 where none was; they are refused only if a URL does not pass the vetting. *)
Theorem declared_memory_reaches_gateway (backends : list (string * string)) (vram : list (string * F)) :
  Forall plain_backend backends ->
  parse_backends bracketed_ok (kv_values backends) [] (vram_values vram backends)
  = map_result (fun b => post_init bracketed_ok
                  (spec_backend (mkSpec b.1 b.2 "small") (declared_vram vram b.1))) backends.
Proof.
  unfold parse_backends. intros H.
  cut (forall pre, parse_flags bracketed_ok (length pre) (kv_values backends) []
                     (map (declared_vram vram) pre ++ vram_values vram backends)
                   = map_result (fun b => post_init bracketed_ok
                       (spec_backend (mkSpec b.1 b.2 "small") (declared_vram vram b.1))) backends).
  { intros Hc. apply (Hc []). }
  induction H as [|b bs Hb _ IH]; intros pre; [done|].
  cbn [kv_values map parse_flags map_result]. rewrite parse_flag_plain by done.
  unfold vram_values. cbn [map].
  rewrite lookup_app_r, length_map, Nat.sub_diag by (rewrite length_map; lia). cbn [lookup list_lookup default].
  cbn. destruct (post_init _ _); [|done].
  specialize (IH (pre ++ [b.1])%list). rewrite length_app, map_app, <- app_assoc in IH. simpl in IH.
  rewrite Nat.add_1_r in IH. unfold kv_values, vram_values in IH. by rewrite IH.
Qed.
End Declared.

(** ** The follow-ups of Regime D *)

Section Post.
Context {F : Type} {PF : PyFloat F} {PS : PyStats F} {MA : Machine}.
Variables (PY : string) (ready : Proc -> bool).
Variables (randint : Z -> nat -> Z -> Z -> Z) (choice : Z -> nat -> list Z -> Z).
Variables (answers : Proc -> list (string * Z) -> list (Exchange F))
          (slopes : Proc -> list (string * Z) -> option (list (option F * option F))).

(** Nothing runs but what ran before, and process numbers stay new. *)
Definition same_alive (s s' : Session) : Prop :=
  ss_alive s' = ss_alive s /\ (ss_next s <= ss_next s')%nat.

Lemma same_alive_trans s1 s2 s3 : same_alive s1 s2 -> same_alive s2 s3 -> same_alive s1 s3.
Proof. intros [A1 N1] [A2 N2]. split; [congruence|lia]. Qed.

Lemma with_gateway_alive {A} backends vram port strat tok log (body : Proc -> option A) s :
  (forall i, i ∈ ss_alive s -> (i < ss_next s)%nat) ->
  same_alive s (with_gateway (F:=F) PY ready backends vram port strat tok log body s).1.
Proof.
  intros H. unfold with_gateway, post_start, popen, start.
  case_match; split; cbn [fst]; rewrite ?alive_kill, ?next_kill; cbn; try lia; by apply filter_fresh.
Qed.

Lemma extra_rows_alive backends vram tok n cells rows s :
  (forall i, i ∈ ss_alive s -> (i < ss_next s)%nat) ->
  same_alive s (extra_rows PY ready randint choice answers backends vram tok n cells rows s).1.
Proof.
  revert rows s; induction cells as [|[[strat seed] port] cells IH]; intros rows s H; [done|].
  cbn [extra_rows].
  match goal with |- context [with_gateway ?a ?b ?c ?d ?e ?f ?g ?h ?k s] =>
    pose proof (with_gateway_alive c d e f g h k s H) as Hw;
    destruct (with_gateway a b c d e f g h k s) as [s1 [row|]] end; [|done].
  cbn [fst] in Hw. eapply same_alive_trans; [exact Hw|]. apply IH.
  destruct Hw as [-> Hn]. intros i Hi. apply H in Hi. lia.
Qed.

(** The script has no session and no cleanup of its own, and still leaves nothing running,
    also when a client raises in the middle of a load. *)
Theorem post_leaves_nothing_running reached (a : PostArgs) :
  ss_alive (post_main PY ready randint choice answers slopes reached a).1 = [].
Proof.
  assert (Hn : forall s i, ss_alive s = [] -> i ∈ ss_alive s -> (i < ss_next s)%nat).
  { intros s i -> ?%not_elem_of_nil. done. }
  unfold post_main. destruct (map_result _ _) as [kvs|e]; [|done].
  destruct (negb (forallb _ _)); [done|].
  match goal with |- context [let '(_, _) := ?x in _] => assert (H1 : ss_alive x.1 = []) end.
  { destruct (pa_skip_discovery a); [done|]. unfold discovery_run.
    match goal with |- context [with_gateway ?a ?b ?c ?d ?e ?f ?g ?h ?k ?s] =>
      pose proof (with_gateway_alive c d e f g h k s (fun i => Hn s i eq_refl)) as [Hw _];
      destruct (with_gateway a b c d e f g h k s) end. exact Hw. }
  match goal with |- context [let '(_, _) := ?x in _] => destruct x as [s1 []] end; [|done].
  simpl negb. cbv iota. cbn [fst] in H1.
  match goal with |- context [let '(_, _) := ?x in _] => assert (H2 : ss_alive x.1 = []) end.
  { destruct (pa_skip_extra_seeds a); [done|]. unfold extra_d1_seeds.
    match goal with |- context [extra_rows ?a ?b ?c ?d ?e ?f ?g ?h ?k ?l ?m s1] =>
      pose proof (extra_rows_alive f g h k l m s1 (fun i => Hn s1 i H1)) as [Hw _];
      destruct (extra_rows a b c d e f g h k l m s1) end. cbn [fst] in *. congruence. }
  match goal with |- context [let '(_, _) := ?x in _] => by destruct x end.
Qed.
End Post.

(** ** The other suites *)

Section Mains.
Context {F : Type} {PF : PyFloat F} {PS : PyStats F} {MA : Machine}.
Local Abbreviation env := (SuiteEnv (F:=F)).
Variables (PY DELAY_PROXY ENGINE_HF : string) (ready : Proc -> bool).
Variable measure : Proc -> Z -> SeedRow (F:=F).
Variables (hash : string -> Z) (kmeasure : Z -> Proc -> Z -> option (KRow (F:=F)))
          (ameasure : AbcLoad -> Proc -> Z -> option (AbcRow (F:=F)))
          (cmeasure : Z -> Proc -> Z -> option (CRow (F:=F)))
          (g5_load : Z -> Proc -> option (list (ChatReply (F:=F)))).
Implicit Types (v : env) (s : Session).

Lemma tracked_start_each v caching l s : tracked s -> tracked (start_each PY v caching l s).1.
Proof.
  intros H. unfold start_each. apply tracked_foldl; [|done].
  intros [s1 ps] [[gpu port] name] H1. unfold start_vllm. cbn [fst] in H1. by track.
Qed.

Lemma tracked_hetero backends base seeds s :
  tracked s -> tracked (hetero PY ready measure backends base seeds s).1.
Proof. intros H. unfold hetero. by track. Qed.

Lemma tracked_hetero_body v seeds backends s :
  tracked s -> tracked (hetero_body PY DELAY_PROXY ready measure v seeds backends s).1.
Proof.
  intros H. unfold hetero_body, start_proxy. track_let. case_match; [|done].
  pose proof (tracked_hetero [nth 0 backends ""; local_url (se_proxy_port v)] (se_dio_base v) seeds
    s0 Ht) as H1. by destruct (hetero _ _ _ _ _ _ _).
Qed.

Theorem hetero_leaves_nothing_running v seeds :
  ss_alive (hetero_main PY DELAY_PROXY ready measure v seeds).1 = [].
Proof.
  unfold hetero_main. apply cleanup_let. destruct (external v).
  - destruct (comma_list _) as [|b1 [|b2 bs]]; [apply tracked_init..|].
    apply tracked_hetero_body, tracked_init.
  - destruct (comma_list _) as [|g1 [|g2 gs]]; [apply tracked_init..|].
    pose proof (tracked_start_each v false (gpu_engines v (take 2 (g1 :: g2 :: gs))) session_init
      tracked_init) as H1.
    cbv zeta. destruct (start_each _ _ _ _ _) as [s1 ps]. destruct (forallb ready ps); [|done].
    by apply tracked_hetero_body.
Qed.

Lemma tracked_real_arms v backends seeds strategies out s :
  tracked s -> tracked (real_arms PY ready measure hash v backends seeds strategies out s).1.
Proof.
  revert out s; induction strategies as [|strat rest IH]; intros out s H; [done|].
  cbn [real_arms]. track_let. case_match; [by apply IH|done].
Qed.

Lemma tracked_real_body v seeds backends s :
  tracked s -> tracked (real_body PY DELAY_PROXY ready measure hash v seeds backends s).1.
Proof.
  intros H. unfold real_body. destruct backends as [|b0 [|b1 bs]]; [by apply tracked_real_arms..|].
  case_match; [|by apply tracked_real_arms]. track_let. case_match; [|done].
  by apply tracked_real_arms.
Qed.

Theorem head_to_head_leaves_nothing_running v seeds :
  ss_alive (run_real PY DELAY_PROXY ready measure hash v seeds).1 = [].
Proof.
  unfold run_real.
  match goal with |- context [let '(_, _) := ?x in _] => assert (H : tracked x.1) end.
  { case_match; [apply tracked_real_body, tracked_init|].
    pose proof (tracked_start_each v false (gpu_engines v (take 2 (comma_list (se_gpus v))))
      session_init tracked_init) as H1.
    destruct (start_each _ _ _ _ _) as [s1 ps]. destruct (forallb ready ps); [|done].
    by apply tracked_real_body. }
  match goal with |- context [let '(_, _) := ?x in _] => destruct x as [s [out ok]] end.
  by apply cleanup_empty.
Qed.

Lemma tracked_dual_vllm v l urls s : tracked s -> tracked (dual_vllm PY ready v l urls s).1.
Proof.
  revert urls s; induction l as [|[[gpu port] name] l IH]; intros urls s H; [done|].
  cbn [dual_vllm]. unfold start_vllm. track_let. case_match; [by apply IH|done].
Qed.

Lemma tracked_start_dual v s : tracked s -> tracked (start_dual_vllm PY ready v s).1.
Proof.
  intros H. unfold start_dual_vllm. repeat case_match; try done. by apply tracked_dual_vllm.
Qed.

Theorem ewma_leaves_nothing_running v quick seeds :
  ss_alive (run_ewma_mode PY DELAY_PROXY ready measure v quick seeds).1 = [].
Proof.
  unfold run_ewma_mode. apply cleanup_let. unfold ewma_body.
  pose proof (tracked_start_dual v session_init tracked_init) as H1.
  destruct (start_dual_vllm _ _ _ _) as [s1 [[|b0 [|b1 bs]]|]]; try done. cbn [fst] in H1.
  match goal with |- context [multi_seed_matrix ?a ?b ?c ?d ?e ?f ?g ?h ?k s1] =>
    pose proof (matrix_tracked a b c d e f g h k s1 H1) as H2;
    destruct (multi_seed_matrix a b c d e f g h k s1) as [s2 [m1|e1]] end; [|done].
  case_match; [|done]. track_let.
  match goal with |- context [multi_seed_matrix ?a ?b ?c ?d ?e ?f ?g ?h ?k s] =>
    pose proof (matrix_tracked a b c d e f g h k s Ht) as H3;
    destruct (multi_seed_matrix a b c d e f g h k s) as [s3 [m2|e2]] end; done.
Qed.

Lemma tracked_kaggle_cells km backends tok seeds port grid cells s :
  tracked s -> tracked (kaggle_cells PY ready km backends tok seeds port grid cells s).1.
Proof.
  revert port cells s; induction grid as [|[conc strat] grid IH]; intros port cells s H; [done|].
  cbn [kaggle_cells]. track_let. by apply IH.
Qed.

Lemma tracked_concurrency v backends seeds port grid cells s :
  tracked s -> tracked (concurrency_cells PY ready kmeasure v backends seeds port grid cells s).1.
Proof.
  revert port cells s; induction grid as [|[conc strat] grid IH]; intros port cells s H; [done|].
  cbn [concurrency_cells].
  pose proof (tracked_kaggle_cells (kmeasure conc) backends (se_tokenizer v) seeds port
    [(conc, strat)] cells s H) as H1.
  destruct (kaggle_cells _ _ _ _ _ _ _ _ _ _) as [s1 cells']. by apply IH.
Qed.

Theorem concurrency_leaves_nothing_running v quick seeds concurrencies :
  ss_alive (run_concurrency_mode PY ready kmeasure v quick seeds concurrencies).1 = [].
Proof.
  unfold run_concurrency_mode. destruct (int_list _) as [concs|]; [|done]. cbv zeta.
  match goal with |- context [let '(_, _) := ?x in _] => assert (H : tracked x.1) end.
  { pose proof (tracked_start_dual v session_init tracked_init) as H1.
    destruct (start_dual_vllm _ _ _ _) as [s1 [bs|]]; [|done]. cbn [fst] in H1.
    match goal with |- context [concurrency_cells ?a ?b ?c ?d ?e ?f ?g ?h ?k s1] =>
      pose proof (tracked_concurrency d e f g h k s1 H1) as H2;
      destruct (concurrency_cells a b c d e f g h k s1) end. done. }
  match goal with |- context [let '(_, _) := ?x in _] => destruct x as [s out] end.
  by apply cleanup_empty.
Qed.

Lemma tracked_block am backends tok label mt base seeds ci cfgs out s :
  tracked s ->
  tracked (multi_seed_block PY ready am backends tok label mt base seeds ci cfgs out s).1.
Proof.
  revert ci out s; induction cfgs as [|c cfgs IH]; intros ci out s H; [done|].
  cbn [multi_seed_block]. track_let. by apply IH.
Qed.

Lemma tracked_abc_experiments v backends l out s :
  tracked s -> tracked (run_abc_experiments PY ready ameasure v backends l out s).1.
Proof.
  revert out s; induction l as [|x l IH]; intros out s H; [done|]. cbn [run_abc_experiments].
  destruct (ax_skip x); [by apply IH|].
  match goal with |- context [multi_seed_block ?a ?b ?c ?d ?e ?f ?g ?h ?k ?m ?n ?o s] =>
    pose proof (tracked_block c d e f g h k m n o s H) as H1;
    destruct (multi_seed_block a b c d e f g h k m n o s) end. by apply IH.
Qed.

Theorem abc_leaves_nothing_running v a :
  ss_alive (abc_main PY ready ameasure v a).1 = [].
Proof.
  unfold abc_main. apply cleanup_let.
  assert (Hb : forall bs l s, tracked s -> tracked
    (let '(s, o) := run_abc_experiments PY ready ameasure v bs l [] s in (s, (0, Some o))).1).
  { intros bs l s H. pose proof (tracked_abc_experiments v bs l [] s H) as H1.
    by destruct (run_abc_experiments _ _ _ _ _ _ _ _). }
  destruct (external v).
  - destruct (comma_list _) as [|b1 [|b2 bs]]; [apply tracked_init..|]. apply Hb, tracked_init.
  - destruct (comma_list _) as [|g1 [|g2 gs]]; [apply tracked_init..|].
    match goal with |- context [start_each ?a ?b ?c ?l ?s] =>
      pose proof (tracked_start_each b c l s tracked_init) as H1;
      destruct (start_each a b c l s) as [s1 ps] end.
    destruct (forallb ready ps); [by apply Hb|done].
Qed.

(** *** [run_gpu_cluster_validation.py] *)

Lemma tracked_try_runs {R} (m : Proc -> Z -> option R) rs s :
  tracked s -> tracked (try_runs ready m rs s).1.
Proof.
  revert s; induction rs as [|r rs IH]; intros s H; [done|]. cbn [try_runs].
  pose proof (tracked_start (ru_name r) (ru_cmd r) (ru_env r) s H) as H1.
  destruct (start _ _ _ _) as [s1 p]. cbn [fst] in H1.
  assert (Hn : forall row s', tracked s' ->
    tracked (let '(s, rows) := try_runs ready m rs (kill_proc (pr_id p) s') in
             (s, option_map (cons row) rows)).1).
  { intros row s' H'. specialize (IH _ (tracked_kill (pr_id p) s' H')).
    by destruct (try_runs _ _ _ _). }
  destruct (ready p); [destruct (m p _); [|done]|]; by apply Hn.
Qed.
#[local] Hint Resolve tracked_try_runs : track.

Lemma tracked_g3_hetero cm backends port seeds s :
  tracked s -> tracked (g3_hetero PY ready cm backends port seeds s).1.
Proof.
  intros H. unfold g3_hetero. destruct backends as [|b0 [|b1 bs]]; [done..|].
  match goal with |- context [try_runs ?a ?b ?c s] =>
    pose proof (tracked_try_runs b c s H) as H1; destruct (try_runs a b c s) as [s1 [x|]] end; [|done].
  match goal with |- context [try_runs ?a ?b ?c s1] =>
    pose proof (tracked_try_runs b c s1 H1) as H2; by destruct (try_runs a b c s1) as [s2 [y|]] end.
Qed.

Lemma tracked_g2 a backends all todo out s :
  tracked s -> tracked (g2_matrix PY ready cmeasure a backends all todo out s).1.
Proof.
  revert out s; induction todo as [|strat todo IH]; intros out s H; [done|]. cbn [g2_matrix].
  match goal with |- context [try_runs ?a ?b ?c s] =>
    pose proof (tracked_try_runs b c s H) as H1; destruct (try_runs a b c s) as [s1 [x|]] end; [|done].
  by apply IH.
Qed.

Lemma tracked_make_hetero backends mult port s :
  tracked s -> tracked (make_hetero_backends PY DELAY_PROXY backends mult port s).1.
Proof.
  intros H. unfold make_hetero_backends. destruct backends as [|b0 [|b1 bs]]; [done..|].
  case_match; [by track|done].
Qed.

Lemma tracked_g3_of a backends s :
  tracked s -> tracked (g3_of PY DELAY_PROXY ready cmeasure a backends s).1.
Proof.
  intros H. unfold g3_of. destruct backends as [|b0 [|b1 bs]]; [done..|].
  pose proof (tracked_make_hetero (b0 :: b1 :: bs) (cg_slow_mult a) (cg_proxy_port a) s H) as H1.
  destruct (make_hetero_backends _ _ _ _ _ _) as [s1 [hs t]]. by apply tracked_g3_hetero.
Qed.

Lemma tracked_g4 a backends s :
  tracked s -> tracked (g4_dual_single PY ready cmeasure a backends s).1.
Proof.
  intros H. unfold g4_dual_single. cbv zeta.
  match goal with |- context [try_runs ?a ?b ?c s] =>
    pose proof (tracked_try_runs b c s H) as H1; destruct (try_runs a b c s) as [s1 [x|]] end; [|done].
  match goal with |- context [try_runs ?a ?b ?c s1] =>
    pose proof (tracked_try_runs b c s1 H1) as H2; by destruct (try_runs a b c s1) as [s2 [y|]] end.
Qed.

Lemma tracked_exp_of {A} skip (run : Session -> Session * option A) (out : A -> GOut (F:=F)) st :
  (forall s, tracked s -> tracked (run s).1) -> tracked st.1 -> tracked (exp_of skip run out st).1.
Proof.
  destruct st as [s [outs ok]]. intros Hr H. unfold exp_of. case_match; [|done].
  specialize (Hr s H). by destruct (run s).
Qed.

Lemma tracked_cluster_body a backends s :
  tracked s -> tracked (cluster_body PY DELAY_PROXY ready cmeasure g5_load a backends s).1.
Proof.
  intros H. unfold cluster_body. cbv zeta.
  match goal with |- context [start ?n ?c ?e s] =>
    pose proof (tracked_start n c e s H) as H1; destruct (start n c e s) as [s1 p] end.
  cbn [fst] in H1. destruct (negb (ready p)); [done|]. case_match; [|done]. case_match; [done|].
  match goal with |- context [let '(_, _) := ?x in _] => assert (Hx : tracked x.1) end.
  { repeat (apply tracked_exp_of; [intros ? ?|]).
    - by apply tracked_try_runs.
    - by apply tracked_g4.
    - by apply tracked_g3_of.
    - by apply tracked_g2.
    - cbn [fst]. by apply tracked_kill. }
  match goal with |- context [let '(_, _) := ?x in _] => by destruct x as [s2 [outs ok]] end.
Qed.

Theorem cluster_leaves_nothing_running hf_script a :
  ss_alive (cluster_main PY DELAY_PROXY ready ENGINE_HF cmeasure g5_load hf_script a).1 = [].
Proof.
  unfold cluster_main. cbv zeta. apply cleanup_let. case_match.
  - destruct (comma_list _) as [|b bs]; [apply tracked_init|]. apply tracked_cluster_body, tracked_init.
  - case_match; [apply tracked_init|]. 
    match goal with |- context [start_cluster_engines ?l ?s] =>
      assert (H1 : tracked (start_cluster_engines l s).1) end.
    { apply tracked_foldl; [|apply tracked_init].
      intros [s1 ps] [[[gpu port] name] cmd] H1. cbn [fst] in H1. by track. }
    destruct (start_cluster_engines _ _) as [s1 ps]. destruct (forallb ready ps); [|done].
    by apply tracked_cluster_body.
Qed.

(** One exception of the client, a request that times out for instance, ends the
    experiment, and with it the suite: the later experiments are not run and the exit code
    is 1, whatever was measured before. *)
Theorem client_exception_ends_experiment {R} (m : Proc -> Z -> option R) r rs s :
  let p := (start (ru_name r) (ru_cmd r) (ru_env r) s).2 in
  ready p = true -> m p (ru_seed r) = None ->
  (try_runs ready m (r :: rs) s).2 = None /\
  pr_id p ∈ ss_alive (try_runs ready m (r :: rs) s).1.
Proof.
  cbv zeta. cbn [try_runs]. unfold start. cbn [snd]. intros Hr Hm. rewrite Hr, Hm.
  split; [done|]. cbn. set_solver.
Qed.
End Mains.

(** The ports of the head-to-head come from a hash of the strategy: two strategies whose
    hashes are one apart, modulo 100, share a port as soon as there are two seeds, while a
    gateway that failed to come up may still hold it. *)
Theorem real_ports_meet {F} {PF : PyFloat F} PY hash (v : SuiteEnv (F:=F)) backends seeds a b :
  hash a mod 100 = hash b mod 100 + 1 -> 2 <= seeds ->
  exists r r', r ∈ real_runs PY hash v backends seeds a /\
    r' ∈ real_runs PY hash v backends seeds b /\
    ru_seed r <> ru_seed r' /\ ru_port r = ru_port r'.
Proof.
  intros Hh Hs. unfold real_runs.
  eexists (_ : Run), (_ : Run). split_and!.
  - apply list_elem_of_fmap. exists 0. split; [done|]. apply elem_of_seqZ. lia.
  - apply list_elem_of_fmap. exists 1. split; [done|]. apply elem_of_seqZ. lia.
  - cbn. lia.
  - cbn. lia.
Qed.

(** ** A run, on a machine where every group ends *)

#[local] Instance groups_end : Machine := fun _ => true.

Definition one_row : Row float :=
  row_of (dload [DAnswer 200 (Some "l4") (fint 900) None]) [].

(** Both mock engines, a gateway for each strategy and seed, and nothing left. *)
Lemma regime_run :
  let a := mkRegimeArgs "" "" "" 1 1 "32" "nlms,round_robin" false false false "32" 1 true false 19300 in
  let '(s, (code, outs)) :=
    regime_main "py" "mock.py" (fun _ => true) (fun _ _ => Ok one_row) (fun _ _ _ _ => 0)
      (fun _ _ _ => 32) (fun _ => true) a in
  code = 0 /\ length outs = 1%nat /\ ss_alive s = [] /\
  omap (fun x => match x with Measure p alive => Some (pr_name p, length alive) | _ => None end)
    (ss_acts s) = [("dio_d1_nlms_s0", 3%nat); ("dio_d1_round_robin_s0", 3%nat)].
Proof. vm_compute. done. Qed.

Definition mixed_fleet : list (string * string) := parse_kv "l4=http://a:8000, a100=http://b:8000".

Lemma declared_memory_reaches_gateway_holds :
  Forall plain_backend mixed_fleet /\
  parse_backends (F:=float) (fun _ => true) (kv_values mixed_fleet) []
    (vram_values [("a100", fint 40000)] mixed_fleet)
  = map_result (fun b => post_init (fun _ => true)
                  (spec_backend (mkSpec b.1 b.2 "small") (declared_vram [("a100", fint 40000)] b.1)))
      mixed_fleet.
Proof.
  assert (H : Forall plain_backend mixed_fleet)
    by (vm_compute; repeat constructor).
  split; [exact H|]. by apply declared_memory_reaches_gateway.
Qed.
