(* ===== verification/TraceProps.v ===== *)
(** Properties of TraceRuns.v: the prompts of a replay, what its programs leave running, and
    what the arms of the factorial have in common. *)

From S2P Require Import Prelude PyFloat PyStats PyStr PyDict PySort Json Config ConfigFile Simulation.
From S2P Require Import ResultStats LoadClients RegimeD Backends Requests Cli Suites GpuSuites RegimeRuns.
From S2P Require Import TraceRuns SuiteProps SuiteMainProps.

(** ** Prompts *)

Section Prompts.
Context {F : Type} {PF : PyFloat F}.
Variable randint : Z -> nat -> Z -> Z -> Z.
Variable shuffle : Z -> list string -> list string.
Hypothesis shuffle_permutes : forall seed l, shuffle seed l ≡ₚ l.
Implicit Types (trace : json F) (ps : list string).

Lemma pad_prompts_length n seed ps : length (pad_prompts randint n seed ps) = (length ps `max` n)%nat.
Proof. unfold pad_prompts. rewrite length_app, length_map, length_seq. lia. Qed.

(** A replay has as many prompts as it asked for, whatever the trace held. *)
Lemma sharegpt_prompts_length trace n seed ps :
  sharegpt_prompts randint shuffle trace n seed = Ok ps -> length ps = n.
Proof.
  unfold sharegpt_prompts. destruct (trace_prompts _ _ _) as [qs|]; [|done]. cbn. intros [= <-].
  rewrite length_take, shuffle_permutes, pad_prompts_length. lia.
Qed.

(** What the trace gives is 20 characters long at least before it is cut. *)
Lemma trace_turn_long turn p : trace_turn (F:=F) turn = Ok (Some p) ->
  exists text, p = str_take 2000 (strip text) /\ 20 <= str_len (strip text).
Proof.
  unfold trace_turn. destruct (jget "from" turn) as [a|]; [|done]. cbn.
  destruct (jget "role" turn) as [b|]; [|done]. cbn. destruct (turn_text _) as [who|]; [|done]. cbn.
  destruct (str_in _ _); [|done]. destruct (jget "value" turn) as [v|]; [|done]. cbn.
  destruct (jget "content" turn) as [c|]; [|done]. cbn. destruct (turn_text _) as [text|]; [|done]. cbn.
  destruct (Z.leb_spec 20 (str_len (strip text))); [|done]. intros [= <-]. by exists text.
Qed.

(** A trace with enough prompts is used alone: no synthetic prompt is among them. *)
Lemma long_trace_unpadded trace n seed ps qs :
  trace_prompts n (match trace with JList l => l | _ => [] end) [] = Ok qs -> (n <= length qs)%nat ->
  sharegpt_prompts randint shuffle trace n seed = Ok ps -> ps ⊆ qs.
Proof.
  intros Hq Hn. unfold sharegpt_prompts. rewrite Hq. cbn. intros [= <-]. unfold pad_prompts.
  replace (n - length qs)%nat with O by lia. cbn [seq map]. rewrite app_nil_r.
  intros p Hp. rewrite <- (shuffle_permutes seed qs). by apply elem_of_take in Hp as (? & ?%list_elem_of_lookup_2 & _).
Qed.
End Prompts.

(** The text of a download, cut inside a conversation with two turns already begun: its last
    closing brace before a comma ends a turn, not an item, and what is left is no JSON. *)
Definition download_turn (from value : string) : json float :=
  JDict [("from", JStr from); ("value", JStr value)].
Definition download : string := dumps (JList [
  JDict [("id", JStr "a"); ("conversations", JList [download_turn "human" "one"; download_turn "gpt" "two"])];
  JDict [("id", JStr "b"); ("conversations", JList [download_turn "human" "three"; download_turn "gpt" "four"])]]).
Lemma cut_download_unreadable :
  loads (F:=float) (trim_array (str_take 175 download)) = None /\
  exists v, loads (F:=float) (trim_array (str_take 125 download)) = Some (JList [v]).
Proof. split; [vm_compute; reflexivity|]. eexists. vm_compute. reflexivity. Qed.

(** ** Processes *)

Section TraceProcesses.
Context {F : Type} {PF : PyFloat F} {PS : PyStats F} {MA : Machine}.
Variables (PY : string) (ready : Proc -> bool) (reached : string -> bool).
Variables (randint : Z -> nat -> Z -> Z -> Z) (choice : Z -> nat -> list Z -> Z).
Variable shuffle : Z -> list string -> list string.
Variable answers : Proc -> list (string * Z) -> list (Exchange F).
Implicit Types (s : Session) (workload : Z -> result PyExc (list (string * Z))).

Definition fresh_alive (s : Session) : Prop := forall i, i ∈ ss_alive s -> (i < ss_next s)%nat.
Lemma same_alive_fresh s s' : same_alive s s' -> fresh_alive s -> fresh_alive s'.
Proof. intros [Ha Hn] H i. rewrite Ha. intros Hi%H. lia. Qed.

Lemma run_strategy_alive label backends vram strat tok log items port s :
  fresh_alive s ->
  same_alive s (run_strategy PY ready answers label backends vram strat tok log items port s).1.
Proof.
  intros H. unfold run_strategy.
  match goal with |- context [with_gateway ?a ?b ?c ?d ?e ?f ?g ?h ?k s] =>
    pose proof (with_gateway_alive a b c d e f g h k s H) as Hw;
    destruct (with_gateway a b c d e f g h k s) end. exact Hw.
Qed.
Lemma trace_seeds_alive workload label backends vram tok strat base prefix seeds s :
  fresh_alive s ->
  same_alive s (trace_seeds PY ready answers workload label backends vram tok strat base prefix seeds s).1.
Proof.
  revert s. induction seeds as [|seed seeds IH]; intros s H; [done|]. cbn [trace_seeds].
  destruct (workload seed) as [items|e]; [|done].
  match goal with |- context [run_strategy ?a ?b ?c ?d ?e ?f ?g ?h ?i ?j ?k s] =>
    pose proof (run_strategy_alive d e f g h i j k s H) as Hw;
    destruct (run_strategy a b c d e f g h i j k s) as [s1 row] end. cbn [fst] in Hw.
  specialize (IH s1 (same_alive_fresh _ _ Hw H)).
  destruct (trace_seeds _ _ _ _ _ _ _ _ _ _ _ _ s1) as [s2 rows]. by eapply same_alive_trans.
Qed.
Lemma trace_cells_alive workload label backends vram tok prefix fast base stride seeds si strats cells s :
  fresh_alive s ->
  same_alive s (trace_cells PY ready answers workload label backends vram tok prefix fast base stride
                  seeds si strats cells s).1.
Proof.
  revert si cells s. induction strats as [|strat strats IH]; intros si cells s H; [done|].
  cbn [trace_cells].
  match goal with |- context [trace_seeds ?a ?b ?c ?d ?e ?f ?g ?h ?i ?j ?k ?l s] =>
    pose proof (trace_seeds_alive d e f g h i j k l s H) as Hw;
    destruct (trace_seeds a b c d e f g h i j k l s) as [s1 [rows|x]] end; [|exact Hw].
  cbn [fst] in Hw. eapply same_alive_trans; [exact Hw|]. apply IH. by eapply same_alive_fresh.
Qed.

(** Neither program leaves a gateway behind, also when a trace cannot be read. *)
Lemma sharegpt_leaves_nothing_running trace a :
  ss_alive (sharegpt_main PY ready reached randint shuffle answers trace a).1 = [].
Proof.
  unfold sharegpt_main. destruct (float_table _) as [vram|e]; [|done]. destruct (negb _); [done|].
  match goal with |- context [trace_cells ?a ?b ?c ?d ?e ?f ?g ?h ?i ?j ?k ?l ?m ?n ?o ?p ?s] =>
    assert (Hw : same_alive s (trace_cells a b c d e f g h i j k l m n o p s).1)
      by (apply trace_cells_alive; intros ? ?%not_elem_of_nil; done);
    destruct (trace_cells a b c d e f g h i j k l m n o p s) end.
  exact (proj1 Hw).
Qed.
Lemma n3_leaves_nothing_running a :
  ss_alive (n3_main PY ready reached randint choice answers a).1 = [].
Proof.
  unfold n3_main. destruct (_ <? 3)%nat; [done|]. case_match; [|done]. destruct (negb _); [done|].
  match goal with |- context [trace_cells ?a ?b ?c ?d ?e ?f ?g ?h ?i ?j ?k ?l ?m ?n ?o ?p ?s] =>
    assert (Hw : same_alive s (trace_cells a b c d e f g h i j k l m n o p s).1)
      by (apply trace_cells_alive; intros ? ?%not_elem_of_nil; done);
    destruct (trace_cells a b c d e f g h i j k l m n o p s) end.
  exact (proj1 Hw).
Qed.
End TraceProcesses.

(** ** The factorial *)

Section FactorialProcesses.
Context {F : Type} {PF : PyFloat F} {PS : PyStats F} {MA : Machine}.
Variables (PY MOCK_SERVER SRC : string) (measure : Proc -> Z -> LoadReport F).

Lemma factorial_arms_alive ready seeds arms out s : (forall p, ready p = true) -> fresh_alive s ->
  same_alive s (factorial_arms PY SRC ready measure seeds arms out s).1.
Proof.
  intros Hr. revert out s. induction arms as [|a arms IH]; intros out s H; [done|].
  cbn [factorial_arms]. unfold popen, start. rewrite Hr.
  match goal with |- context [kill_proc ?id ?t] =>
    assert (Hk : same_alive s (kill_proc id t)) end.
  { split; rewrite ?alive_kill, ?next_kill; cbn; [by apply filter_fresh|lia]. }
  destruct (factorial_rows _ _ _); [|exact Hk].
  eapply same_alive_trans; [exact Hk|]. apply IH. by eapply same_alive_fresh.
Qed.

(** When everything comes up nothing is left running, also when a load raises. *)
Lemma factorial_leaves_nothing_running ready seeds : (forall p, ready p = true) ->
  ss_alive (factorial_main PY MOCK_SERVER SRC ready measure seeds).1 = [].
Proof.
  intros Hr. unfold factorial_main, factorial_mocks. cbn [FACTORIAL_BACKENDS foldl app forallb].
  cbn -[factorial_arms ARMS factorial_mock_cmd]. rewrite !Hr. cbn [andb].
  match goal with |- context [factorial_arms ?a ?b ?c ?d ?e ?f ?g ?s] =>
    assert (Hw : same_alive s (factorial_arms a b c d e f g s).1);
    [apply factorial_arms_alive; [done|]|
     destruct (factorial_arms a b c d e f g s) as [s1 arms]; cbn [fst] in Hw] end.
  - intros i. cbn. set_unfold. intros Hi. lia.
  - cbn [fst foldl pr_id]. rewrite !alive_kill. destruct Hw as [-> _]. reflexivity.
Qed.

(** A gateway that does not answer in time is left running, and so are mock engines of which one
    does not come up: both are started outside of what the program cleans up. *)
Lemma factorial_failed_start_survives seeds :
  ss_alive (factorial_main PY MOCK_SERVER SRC
              (fun p => negb (startswith "gateway" (pr_name p))) measure seeds).1 = [2%nat] /\
  ss_alive (factorial_main PY MOCK_SERVER SRC (fun _ => false) measure seeds).1 = [0%nat; 1%nat].
Proof. split; reflexivity. Qed.
End FactorialProcesses.

(** The gateways of two arms with the same strategy are the same gateway: what distinguishes the
    arms is set in the environment, and the settings it is for are passed by flag in any case. *)
Section FactorialArms.
Context {F : Type} {PF : PyFloat F}.
Variables (bracketed_ok : string -> bool) (PY SRC : string).
Variable build_config : list (string * string) -> list (string * json F) -> result PyExc (DIOConfig F).
Hypothesis arguments_win : forall env env' kw,
  (forall var, setting_of var ∉ dkeys kw -> dget var env = dget var env') ->
  build_config env kw = build_config env' kw.

Lemma factorial_arms_do_not_differ (a b : FArm (F:=F)) load found o :
  fa_strategy a = fa_strategy b -> so_backend o <> [] -> so_config o = None ->
  factorial_cmd PY a = factorial_cmd PY b /\
  serve bracketed_ok (build_config (factorial_env SRC a)) load found o =
  serve bracketed_ok (build_config (factorial_env SRC b)) load found o.
Proof.
  intros Hs Hb Hc. split; [unfold factorial_cmd; by rewrite Hs|].
  apply (flags_shadow_environment bracketed_ok build_config arguments_win); [done|done|].
  intros var Hv. unfold factorial_env. cbn [dget].
  assert (H1 : var <> "DIO_ENGINE_METRICS") by (intros ->; apply Hv; vm_compute; set_solver).
  assert (H2 : var <> "DIO_CACHE_BONUS_MS") by (intros ->; apply Hv; vm_compute; set_solver).
  repeat case_decide; done.
Qed.
Lemma factorial_arms_share_strategy :
  Forall (fun a : FArm (F:=F) => fa_strategy a = "nlms") (take 4 ARMS).
Proof. repeat constructor. Qed.
End FactorialArms.
