(* ===== verification/Swarm.v ===== *)
(** The demo of [dio-serve/examples/agent_swarm_demo.py]: a swarm of agents, each with a
    session of its own, sends its turns to one of three engines or through the gateway, and
    one engine is throttled after the 40th answer.  The agents are coroutines that take
    turns at their awaits; what the engines answer, and when, is a parameter. *)

From S2P Require Import Prelude PyFloat PyStats PyStr PyDict PySort Json Requests ResultStats.
From S2P Require Import LoadClients.

(** [statistics.fmean]: the exact sum, rounded, over the count. *)
Class PyFmean (F : Type) := fmean : list F -> F.

#[export] Instance b64_fmean : PyFmean float := fun xs =>
  match filter (fun x => StatsB64.is_finite x = false) xs with
  | [] => fdiv (StatsB64.scaled_ratio (StatsB64.zsum (StatsB64.mantissas xs)) (StatsB64.scale xs) 1)
            (fint (Z.of_nat (length xs)))
  | odd => fdiv (foldl fadd (fint 0) odd) (fint (Z.of_nat (length xs)))
  end.

Section Swarm.
Context {F : Type} {PF : PyFloat F} {PM : PyFmean F}.
Local Open Scope float_scope.
Local Abbreviation json := (json F).

(** ** The scenario *)

(** Name, latency multiplier and decode milliseconds per token. *)
Definition ENGINES : list (string * (F * F)) :=
  [("gpu-a", (fint 1, fint 6)); ("gpu-b", (fdec 22 (-1), fint 14));
   ("gpu-c", (fdec 36 (-1), fint 20))].
Definition THROTTLE_EVENTS : list (string * F) := [("gpu-a", fint 8)].
Definition TURNS_PER_AGENT : nat := 16.
Definition THROTTLE_AFTER_REQUESTS : Z := 40.

Definition engine_names : list string := map fst ENGINES.
Definition engine_mults : list (string * F) := map (fun e => (e.1, e.2.1)) ENGINES.

(** ** [_percentile] and [_summary] *)

Definition percentile_demo (values : list F) (p : F) : F :=
  match fsorted values with
  | [] => f0
  | [y] => y
  | ys =>
    let k := py_max f0 (py_min (fint 100) p) / fint 100 * fint (Z.of_nat (length ys) - 1) in
    let lo := ffloor k in
    let hi := Z.min (Z.of_nat (length ys) - 1) (lo + 1) in
    let frac := k - fint lo in
    fnth ys lo * (f1 - frac) + fnth ys hi * frac
  end.

Record Summary : Type := mkSummary { su_n : Z; su_p50 : F; su_p95 : F; su_p99 : F; su_mean : F }.
Definition summary (latencies : list F) : Summary :=
  match latencies with
  | [] => mkSummary 0 f0 f0 f0 f0
  | _ => mkSummary (Z.of_nat (length latencies)) (percentile_demo latencies (fint 50))
           (percentile_demo latencies (fint 95)) (percentile_demo latencies (fint 99))
           (fmean latencies)
  end.

(** ** The shared state of a replay *)

(** A timeline entry: when it was sent, the engine, the latency. *)
Record Sample : Type := mkSwarmSample { sa_t0 : F; sa_engine : string; sa_ms : F }.

Record Results : Type := mkResults {
  re_latencies : list F;
  re_engines_used : list (list string);
  re_prompts : list string;
  re_timeline : list Sample;
  re_completed : Z;
  re_rejected : Z;
  re_failed : Z
}.
Definition results_init : Results := mkResults [] [] [] [] 0 0 0.

(** An agent: the turn it is at, its history, the engines that answered it; waiting for an
    answer, with the time of the request and the label of its target, or between turns. *)
Inductive Agent : Type :=
| Ready (turn : nat) (history : list json) (used : list string)
| Waiting (turn : nat) (history : list json) (used : list string) (t0 : F) (label : option string)
| Finished.

(** How a target is chosen: per-request round robin, sticky, or the gateway for all. *)
Inductive Routing : Type := PerRequest | Sticky | Through.

Record Swarm : Type := mkSwarm {
  sw_agents : list Agent;
  sw_results : Results;
  sw_counter : nat;
  sw_sticky : list (nat * nat);
  sw_mults : list (string * F);
  sw_fired : bool;
  sw_at : F;
  sw_sent : list (nat * option nat)
}.

(** *** [rr_target] and [sticky_target] *)

(** The index of the engine, the counter and the table of the sessions. *)
Definition resolve_target (r : Routing) (agent : nat) (sw : Swarm) :
    option nat * nat * list (nat * nat) :=
  let n := length engine_names in
  match r with
  | PerRequest => (Some (sw_counter sw mod n)%nat, S (sw_counter sw), sw_sticky sw)
  | Sticky =>
    match dget agent (sw_sticky sw) with
    | Some i => (Some i, sw_counter sw, sw_sticky sw)
    | None => let i := (agent mod n)%nat in (Some i, sw_counter sw, dset agent i (sw_sticky sw))
    end
  | Through => (None, sw_counter sw, sw_sticky sw)
  end.

(** *** The turns of an agent *)

Definition session_prefix (agent : nat) : string :=
  let id := str_of_Z (Z.of_nat agent) in
  ("You are agent-" ++ id ++ ", an autonomous coding assistant working inside a " ++
   "monorepo. You must be concise, prefer small diffs, always explain the risk of " ++
   "each change, and never invent APIs that you have not verified in the source. " ++
   "When you are unsure, say so explicitly and state what you would need to check. " ++
   "This is stable session " ++ id ++ " and the conversation below continues it.")%string.

Definition system_turn (agent : nat) : json := chat_message "system" (session_prefix agent).
Definition user_turn (turn : nat) : json :=
  let id := str_of_Z (Z.of_nat turn) in
  chat_message "user" ("Turn " ++ id ++ ": refactor module_" ++ id ++ " and explain the diff.").

(** The request of a turn: the system turn and the last five of the history. *)
Definition turn_body (history : list json) : list (string * json) :=
  [("model", JStr "default");
   ("messages", JList (take 1 history ++ lastn 5 history));
   ("max_tokens", JInt 32)].

(** [on_progress]: the throttle fires once. *)
Definition on_progress (completed : Z) (now : F) (sw : Swarm) : Swarm :=
  if sw_fired sw || (completed <? THROTTLE_AFTER_REQUESTS)%Z then sw
  else
    mkSwarm (sw_agents sw) (sw_results sw) (sw_counter sw) (sw_sticky sw)
      (foldl (fun m e => dset e.1 e.2 m) (sw_mults sw) THROTTLE_EVENTS) true now (sw_sent sw).

Definition set_agent (i : nat) (a : Agent) (sw : Swarm) : Swarm :=
  mkSwarm (<[i := a]> (sw_agents sw)) (sw_results sw) (sw_counter sw) (sw_sticky sw)
    (sw_mults sw) (sw_fired sw) (sw_at sw) (sw_sent sw).
Definition set_results (re : Results) (sw : Swarm) : Swarm :=
  mkSwarm (sw_agents sw) re (sw_counter sw) (sw_sticky sw) (sw_mults sw) (sw_fired sw)
    (sw_at sw) (sw_sent sw).

(** The end of a session: its engines, and the prompt of its first turn. *)
Definition session_prompt (history : list json) : string :=
  match history with
  | JDict d :: _ => match extract_prompt d with Ok p => p | Err _ => "" end
  | _ => ""
  end.
Definition finish_session (i : nat) (history : list json) (used : list string) (sw : Swarm) : Swarm :=
  let re := sw_results sw in
  set_agent i Finished
    (set_results (mkResults (re_latencies re) (re_engines_used re ++ [used])
       (re_prompts re ++ [session_prompt history]) (re_timeline re) (re_completed re)
       (re_rejected re) (re_failed re)) sw).

(** After a turn: the next one, or the end. *)
Definition next_turn (turns : nat) (i turn : nat) (history : list json) (used : list string)
    (sw : Swarm) : Swarm :=
  if (S turn <? turns)%nat then set_agent i (Ready (S turn) history used) sw
  else finish_session i history used sw.

(** Up to the await of a turn; [now] is the clock. *)
Definition send_turn (r : Routing) (i : nat) (now : F) (sw : Swarm) : option Swarm :=
  match sw_agents sw !! i with
  | Some (Ready turn history used) =>
    let history := (history ++ [user_turn turn])%list in
    let '(target, counter, sticky) := resolve_target r i sw in
    let label := target ≫= (fun k => engine_names !! k) in
    Some (mkSwarm (<[i := Waiting turn history used now label]> (sw_agents sw)) (sw_results sw)
            counter sticky (sw_mults sw) (sw_fired sw) (sw_at sw) (sw_sent sw ++ [(i, target)]))
  | _ => None
  end.

(** [resp.headers.get(...) or target_label], then [engine or "?"]. *)
Definition engine_label (header label : option string) : string :=
  str_or (str_or (default "" header) (default "" label)) "?".

(** From the answer to the next await: status, [X-DIO-Backend], elapsed milliseconds, and the
    clock. *)
Definition receive_turn (turns : nat) (i : nat) (status : Z) (header : option string) (ms now : F)
    (sw : Swarm) : option Swarm :=
  match sw_agents sw !! i with
  | Some (Waiting turn history used t0 label) =>
    let re := sw_results sw in
    Some (
      if (status =? 200)%Z then
        let engine := engine_label header label in
        let done := (re_completed re + 1)%Z in
        let sw := set_results (mkResults (re_latencies re ++ [ms]) (re_engines_used re)
          (re_prompts re) (re_timeline re ++ [mkSwarmSample t0 engine ms]) done (re_rejected re)
          (re_failed re)) sw in
        next_turn turns i turn (history ++ [chat_message "assistant" "ok"])%list
          (used ++ [engine])%list (on_progress done now sw)
      else if (status =? 503)%Z then
        next_turn turns i turn (history ++ [chat_message "assistant" "rejected"])%list used
          (set_results (mkResults (re_latencies re) (re_engines_used re) (re_prompts re)
             (re_timeline re) (re_completed re) (re_rejected re + 1) (re_failed re)) sw)
      else
        next_turn turns i turn history used
          (set_results (mkResults (re_latencies re) (re_engines_used re) (re_prompts re)
             (re_timeline re) (re_completed re) (re_rejected re) (re_failed re + 1)) sw))
  | _ => None
  end.

Inductive SwarmEvent : Type :=
| Sent (agent : nat) (now : F)
| Answered (agent : nat) (status : Z) (header : option string) (ms now : F).

Definition swarm_event (r : Routing) (turns : nat) (sw : Swarm) (e : SwarmEvent) : option Swarm :=
  match e with
  | Sent i now => send_turn r i now sw
  | Answered i status header ms now => receive_turn turns i status header ms now sw
  end.
Fixpoint swarm_run (r : Routing) (turns : nat) (sw : Swarm) (es : list SwarmEvent) : option Swarm :=
  match es with
  | [] => Some sw
  | e :: es' => sw' ← swarm_event r turns sw e; swarm_run r turns sw' es'
  end.

(** [_run_workload]: the state it starts from. *)
Definition swarm_start (agents : nat) : Swarm :=
  mkSwarm (imap (fun i _ => Ready 0 [system_turn i] []) (replicate agents ()))
    results_init 0 [] engine_mults false f0 [].

(** ** The report *)

(** The share of every engine, by the answers. *)
Definition bump_engine (counts : list (string * Z)) (engine : string) : list (string * Z) :=
  match dget engine counts with
  | Some n => dset engine (n + 1)%Z counts
  | None => counts
  end.
Definition no_answers : list (string * Z) := map (fun n => (n, 0%Z)) engine_names.
Definition engine_share (used : list (list string)) : list (string * Z) :=
  foldl (foldl bump_engine) no_answers used.

(** The switches of engine of a session, and their mean over the sessions with two answers at
    least. *)
Fixpoint changes (l : list string) : Z :=
  match l with
  | a :: (b :: _) as l' => ((if str_eqb a b then 0 else 1) + changes l')%Z
  | _ => 0
  end.
Definition switch_counts (used : list (list string)) : list Z :=
  omap (fun seq => let seq := filter (fun x => str_truth x = true) seq in
                   if (1 <? length seq)%nat then Some (changes seq) else None) used.
Definition switches (used : list (list string)) : F :=
  match switch_counts used with
  | [] => f0
  | vals => fmean (map fint vals)
  end.

(** [after]: the answers to requests sent since the throttle. *)
Definition after (throttle_at : F) (re : Results) : list Sample :=
  filter (fun s => (sa_t0 s >=? throttle_at) = true) (re_timeline re).

(** The window of the report: one moment for all three replays, that of the first. *)
Record Window : Type := mkWindow { wi_summary : Summary; wi_share : list (string * Z) }.
Definition window (throttle_at : F) (re : Results) : Window :=
  let rows := after throttle_at re in
  mkWindow (summary (map sa_ms rows)) (foldl bump_engine no_answers (map sa_engine rows)).
Definition window_report (rr sticky dio : Swarm) : option (list Window) :=
  let throttle_at := sw_at rr in
  let runs := map sw_results [rr; sticky; dio] in
  let n_post := foldr Nat.min (length (after throttle_at (sw_results rr)))
                  (map (fun re => length (after throttle_at re)) runs) in
  if (8 <=? n_post)%nat then Some (map (window throttle_at) runs) else None.

(** The change of the mean against round robin, in percent. *)
Definition mean_improvement (rr dio : Results) : option F :=
  let a := su_mean (summary (re_latencies rr)) in
  let b := su_mean (summary (re_latencies dio)) in
  if ftruth a && ftruth b then Some ((f1 - b / a) * fint 100) else None.
Definition p99_improvement_demo (rr dio : Results) : option F :=
  let a := su_p99 (summary (re_latencies rr)) in
  let b := su_p99 (summary (re_latencies dio)) in
  if ftruth a && ftruth b then Some ((f1 - b / a) * fint 100) else None.
End Swarm.
Arguments Swarm F : clear implicits.
Arguments SwarmEvent F : clear implicits.
Arguments Agent F : clear implicits.
Arguments Results F : clear implicits.
