(* ===== verification/SwarmProps.v ===== *)
(** The swarm demo under every interleaving of its agents: it ends, accounts for every turn,
    spreads per-request round robin evenly and pins sticky sessions; the throttle fires
    once, at the 40th answer; and the window of its report misses the throttle. *)

From S2P Require Import Prelude PyFloat PyStats PyStr PyDict PySort Json Requests ResultStats.
From S2P Require Import LoadClients LoadProps Swarm.

Section SwarmProps.
Context {F : Type} {PF : PyFloat F}.
Variables (r : Routing) (turns : nat).
Implicit Types (sw : Swarm F) (es : list (SwarmEvent F)).

Local Abbreviation run := (swarm_run r turns).

(** ** Where the agents are *)

(** The turns an agent is past, and the engines that answered it. *)
Definition turns_past (a : Agent F) : Z :=
  match a with Ready t _ _ | Waiting t _ _ _ _ => Z.of_nat t | Finished => Z.of_nat turns end.
Definition used_by (a : Agent F) : list string :=
  match a with Ready _ _ u | Waiting _ _ u _ _ => u | Finished => [] end.
(** The awaits an agent still has before it. *)
Definition awaits_left (a : Agent F) : Z :=
  match a with
  | Ready t _ _ => 2 * (Z.of_nat turns - Z.of_nat t)
  | Waiting t _ _ _ _ => 2 * (Z.of_nat turns - Z.of_nat t) - 1
  | Finished => 0
  end.

Definition agent_ok (i : nat) (a : Agent F) : Prop :=
  match a with
  | Ready t h _ | Waiting t h _ _ _ => (t < turns)%nat /\ head h = Some (system_turn i)
  | Finished => True
  end.

Definition outcomes_of (re : Results F) : Z := re_completed re + re_rejected re + re_failed re.
Definition answers_in (re : Results F) : Z := sum_of (fun u => Z.of_nat (length u)) (re_engines_used re).
Definition finished (a : Agent F) : Z := match a with Finished => 1 | _ => 0 end.

(** ** The invariant *)

Record swarm_ok (sw : Swarm F) : Prop := mkSwarmOk {
  so_agents : forall i a, sw_agents sw !! i = Some a -> agent_ok i a;
  so_turns : sum_of turns_past (sw_agents sw) = outcomes_of (sw_results sw);
  so_used : (sum_of (fun a => Z.of_nat (length (used_by a))) (sw_agents sw) +
             answers_in (sw_results sw))%Z = re_completed (sw_results sw);
  so_lat : Z.of_nat (length (re_latencies (sw_results sw))) = re_completed (sw_results sw);
  so_line : map sa_ms (re_timeline (sw_results sw)) = re_latencies (sw_results sw);
  so_over : Z.of_nat (length (re_engines_used (sw_results sw))) = sum_of finished (sw_agents sw);
  so_fired : sw_fired sw = (THROTTLE_AFTER_REQUESTS <=? re_completed (sw_results sw))%Z;
  so_mults : sw_mults sw = if sw_fired sw then dset "gpu-a" (fint 8) engine_mults else engine_mults
}.

Lemma agents_set sw i a b :
  (forall j x, sw_agents sw !! j = Some x -> agent_ok j x) -> agent_ok i b ->
  sw_agents sw !! i = Some a ->
  forall j x, <[i := b]> (sw_agents sw) !! j = Some x -> agent_ok j x.
Proof.
  intros H Hb Hi j x Hj. destruct (decide (i = j)) as [->|Hne].
  - rewrite list_lookup_insert_eq in Hj by (by eapply lookup_lt_Some). by injection Hj as <-.
  - rewrite list_lookup_insert_ne in Hj by done. by apply H.
Qed.

Hypothesis turns_pos : (0 < turns)%nat.

Lemma sum_of_zero {A} (f : A -> Z) (l : list A) :
  (forall a, a ∈ l -> f a = 0) -> sum_of f l = 0.
Proof.
  intros H. induction l as [|a l IH]; [done|]. simpl. rewrite H by set_solver.
  rewrite IH; [done|]. intros b Hb. apply H. set_solver.
Qed.

Lemma start_agents agents a i :
  sw_agents (F:=F) (swarm_start agents) !! i = Some a -> a = Ready 0 [system_turn i] [].
Proof. intros H. by apply list_lookup_imap_Some in H as (u & _ & ->). Qed.

Lemma swarm_start_ok agents : swarm_ok (swarm_start agents).
Proof.
  assert (Hz : forall g : Agent F -> Z, (forall i, g (Ready 0 [system_turn i] []) = 0) ->
            sum_of g (sw_agents (swarm_start agents)) = 0).
  { intros g Hg. apply sum_of_zero. intros a (i & Hi)%list_elem_of_lookup.
    apply start_agents in Hi as ->. apply Hg. }
  split; try done.
  - intros i a Hi%start_agents. subst. by split.
  - by rewrite Hz.
  - by rewrite Hz.
  - by rewrite Hz.
Qed.

(** The end of a turn, once its outcome is in the results: [extra] is the engine that
    answered. *)
Lemma next_turn_ok sw i t h u t0 label h' u' :
  sw_agents sw !! i = Some (Waiting t h u t0 label) ->
  head h' = Some (system_turn i) ->
  (forall j x, sw_agents sw !! j = Some x -> agent_ok j x) ->
  (sum_of turns_past (sw_agents sw) + 1)%Z = outcomes_of (sw_results sw) ->
  (sum_of (fun a => Z.of_nat (length (used_by a))) (sw_agents sw) + answers_in (sw_results sw)
   - Z.of_nat (length u) + Z.of_nat (length u'))%Z = re_completed (sw_results sw) ->
  Z.of_nat (length (re_latencies (sw_results sw))) = re_completed (sw_results sw) ->
  map sa_ms (re_timeline (sw_results sw)) = re_latencies (sw_results sw) ->
  Z.of_nat (length (re_engines_used (sw_results sw))) = sum_of finished (sw_agents sw) ->
  sw_fired sw = (THROTTLE_AFTER_REQUESTS <=? re_completed (sw_results sw))%Z ->
  sw_mults sw = (if sw_fired sw then dset "gpu-a" (fint 8) engine_mults else engine_mults) ->
  swarm_ok (next_turn turns i t h' u' sw).
Proof.
  intros Hi Hh Ha Ht Hu Hl Hline Ho Hf Hm.
  destruct (Ha _ _ Hi) as [Hlt _]. unfold next_turn. destruct (Nat.ltb_spec (S t) turns).
  - split; simpl; try done.
    + eapply agents_set; [exact Ha| |exact Hi]. by split.
    + erewrite sum_of_insert by exact Hi. simpl. lia.
    + erewrite sum_of_insert by exact Hi. simpl. lia.
    + erewrite sum_of_insert by exact Hi. simpl. lia.
  - assert (t = (turns - 1)%nat) by lia.
    split; simpl; try done.
    + eapply agents_set; [exact Ha|done|exact Hi].
    + erewrite sum_of_insert by exact Hi. simpl. unfold outcomes_of in *. simpl. lia.
    + erewrite sum_of_insert by exact Hi. unfold answers_in in *. simpl. rewrite sum_of_snoc. lia.
    + erewrite sum_of_insert by exact Hi. simpl. rewrite length_app. simpl. lia.
Qed.

Lemma head_app {A} (h l : list A) x : head h = Some x -> head (h ++ l) = Some x.
Proof. by destruct h. Qed.

Lemma progress_fields now sw done :
  sw_agents (on_progress done now sw) = sw_agents sw /\
  sw_results (on_progress done now sw) = sw_results sw.
Proof. unfold on_progress. by destruct (_ || _). Qed.

Lemma progress_fired now sw done :
  sw_fired sw = (THROTTLE_AFTER_REQUESTS <=? done - 1)%Z ->
  sw_mults sw = (if sw_fired sw then dset "gpu-a" (fint 8) engine_mults else engine_mults) ->
  let sw' := on_progress done now sw in
  sw_fired sw' = (THROTTLE_AFTER_REQUESTS <=? done)%Z /\
  sw_mults sw' = (if sw_fired sw' then dset "gpu-a" (fint 8) engine_mults else engine_mults).
Proof.
  intros Hf Hm. cbv zeta. unfold on_progress. unfold THROTTLE_AFTER_REQUESTS in *.
  destruct (sw_fired sw) eqn:E; simpl.
  - rewrite E. split; [|done]. symmetry in Hf. apply Z.leb_le in Hf. symmetry. apply Z.leb_le. lia.
  - destruct (Z.ltb_spec done 40); simpl.
    + rewrite E. split; [|done]. symmetry. apply Z.leb_gt. lia.
    + split; [symmetry; by apply Z.leb_le|]. by rewrite Hm.
Qed.

Lemma event_ok sw e sw' : swarm_event r turns sw e = Some sw' -> swarm_ok sw -> swarm_ok sw'.
Proof.
  intros He [Ha Ht Hu Hl Hline Ho Hf Hm]. destruct e as [i now|i st header ms now]; simpl in He.
  - unfold send_turn in He. destruct (sw_agents sw !! i) as [[t h u| |]|] eqn:Hi; try done.
    destruct (resolve_target r i sw) as [[target counter] sticky]. injection He as <-.
    destruct (Ha _ _ Hi) as [Hlt Hh]. split; simpl; try done.
    + eapply agents_set; [exact Ha| |exact Hi]. split; [done|by apply head_app].
    + erewrite sum_of_insert by exact Hi. simpl. lia.
    + erewrite sum_of_insert by exact Hi. simpl. lia.
    + erewrite sum_of_insert by exact Hi. simpl. lia.
  - unfold receive_turn in He. destruct (sw_agents sw !! i) as [[|t h u t0 label|]|] eqn:Hi; try done.
    injection He as <-. destruct (Ha _ _ Hi) as [Hlt Hh].
    destruct (st =? 200)%Z; [|destruct (st =? 503)%Z].
    + match goal with |- context [on_progress ?d now ?s] =>
        destruct (progress_fields now s d) as [E1 E2];
        destruct (progress_fired now s d) as [E3 E4]; simpl in E1, E2 end.
      { simpl. rewrite Hf. f_equal. lia. }
      { done. }
      eapply next_turn_ok; rewrite ?E1, ?E2; simpl; try done; try exact Hi.
      * by apply head_app.
      * unfold outcomes_of in *. simpl. lia.
      * unfold answers_in in *. simpl. rewrite length_app. simpl. lia.
      * rewrite length_app. simpl. lia.
      * rewrite map_app. simpl. by rewrite Hline.
    + eapply next_turn_ok; simpl; try done; try exact Hi; try (by apply head_app);
        unfold outcomes_of, answers_in in *; simpl in *; lia.
    + eapply next_turn_ok; simpl; try done; try exact Hi;
        unfold outcomes_of, answers_in in *; simpl in *; lia.
Qed.

Lemma run_ok sw es sw' : run sw es = Some sw' -> swarm_ok sw -> swarm_ok sw'.
Proof.
  revert sw; induction es as [|e es IH]; intros sw H Hok; [by injection H as <-|].
  simpl in H. destruct (swarm_event r turns sw e) as [sw1|] eqn:E; [|done].
  apply (IH sw1 H). by eapply event_ok.
Qed.

(** ** The replay ends *)

Definition swarm_left sw : Z := sum_of awaits_left (sw_agents sw).

Lemma next_turn_left sw i t h u t0 label h' u' :
  (t < turns)%nat -> sw_agents sw !! i = Some (Waiting t h u t0 label) ->
  swarm_left (next_turn turns i t h' u' sw) = (swarm_left sw - 1)%Z.
Proof.
  intros Hlt Hi. unfold next_turn, swarm_left. destruct (Nat.ltb_spec (S t) turns); simpl;
    erewrite sum_of_insert by exact Hi; simpl; lia.
Qed.

Lemma event_left sw e sw' :
  swarm_event r turns sw e = Some sw' -> swarm_ok sw -> swarm_left sw' = (swarm_left sw - 1)%Z.
Proof.
  intros He Hok. destruct e as [i now|i st header ms now]; simpl in He.
  - unfold send_turn in He. destruct (sw_agents sw !! i) as [[t h u| |]|] eqn:Hi; try done.
    destruct (resolve_target r i sw) as [[target counter] sticky]. injection He as <-.
    unfold swarm_left. simpl. erewrite sum_of_insert by exact Hi. simpl. lia.
  - unfold receive_turn in He. destruct (sw_agents sw !! i) as [[|t h u t0 label|]|] eqn:Hi; try done.
    injection He as <-. destruct (so_agents _ Hok _ _ Hi) as [Hlt _].
    destruct (st =? 200)%Z; [|destruct (st =? 503)%Z].
    + match goal with |- context [on_progress ?d now ?s] =>
        destruct (progress_fields now s d) as [E1 _]; simpl in E1 end.
      erewrite next_turn_left; [|done|by rewrite E1]. unfold swarm_left. by rewrite E1.
    + by erewrite next_turn_left.
    + by erewrite next_turn_left.
Qed.

Lemma run_left sw es sw' :
  run sw es = Some sw' -> swarm_ok sw ->
  (Z.of_nat (length es) + swarm_left sw')%Z = swarm_left sw.
Proof.
  revert sw; induction es as [|e es IH]; intros sw H Hok; [injection H as <-; simpl; lia|].
  simpl in *. destruct (swarm_event r turns sw e) as [sw1|] eqn:E; [|done].
  pose proof (event_left sw e sw1 E Hok). pose proof (IH sw1 H (event_ok _ _ _ E Hok)). lia.
Qed.

Lemma sum_of_const {A} (f : A -> Z) c (l : list A) :
  (forall a, a ∈ l -> f a = c) -> sum_of f l = (Z.of_nat (length l) * c)%Z.
Proof.
  intros H. induction l as [|a l IH]; [done|]. simpl. rewrite H by set_solver.
  rewrite IH; [lia|]. intros b Hb. apply H. set_solver.
Qed.

Lemma length_agents sw e sw' :
  swarm_event r turns sw e = Some sw' -> length (sw_agents sw') = length (sw_agents sw).
Proof.
  assert (Hn : forall i t h u s, length (sw_agents (next_turn turns i t h u s)) = length (sw_agents s)).
  { intros i t h u s. unfold next_turn. destruct (_ <? _)%nat; simpl; by rewrite length_insert. }
  intros He. destruct e as [i now|i st header ms now]; simpl in He.
  - unfold send_turn in He. destruct (sw_agents sw !! i) as [[]|]; try done.
    destruct (resolve_target r i sw) as [[]]. injection He as <-. simpl. by rewrite length_insert.
  - unfold receive_turn in He. destruct (sw_agents sw !! i) as [[]|]; try done.
    injection He as <-. destruct (st =? 200)%Z; [|destruct (st =? 503)%Z]; rewrite Hn; try done.
    by rewrite (proj1 (progress_fields _ _ _)).
Qed.

Lemma length_agents_run sw es sw' :
  run sw es = Some sw' -> length (sw_agents sw') = length (sw_agents sw).
Proof.
  revert sw; induction es as [|e es IH]; intros sw H; [by injection H as <-|].
  simpl in H. destruct (swarm_event r turns sw e) as [sw1|] eqn:E; [|done].
  rewrite (IH sw1 H). by eapply length_agents.
Qed.

Lemma length_start agents : length (sw_agents (F:=F) (swarm_start agents)) = agents.
Proof. simpl. by rewrite length_imap, length_replicate. Qed.

Lemma stuck_finished sw :
  (forall e, swarm_event r turns sw e = None) -> forall a, a ∈ sw_agents sw -> a = Finished.
Proof.
  intros Hs a (i & Hi)%list_elem_of_lookup. destruct a as [t h u|t h u t0 l|]; [| |done].
  - specialize (Hs (Sent i f0)). simpl in Hs. unfold send_turn in Hs. rewrite Hi in Hs.
    by destruct (resolve_target r i sw) as [[]].
  - specialize (Hs (Answered i 0 None f0 f0)). simpl in Hs. unfold receive_turn in Hs.
    by rewrite Hi in Hs.
Qed.

Lemma sum_of_nonneg_in {A} (f : A -> Z) (l : list A) :
  (forall a, a ∈ l -> 0 <= f a) -> 0 <= sum_of f l.
Proof.
  intros H. induction l as [|a l IH]; [done|]. simpl.
  assert (0 <= f a) by (apply H; set_solver).
  assert (0 <= sum_of f l); [|lia]. apply IH. intros b Hb. apply H. set_solver.
Qed.

(** Whatever the order in which the agents go on and the engines answer, a replay ends after
    exactly two steps for each turn, and then every turn of every agent has one outcome: the
    answers are the latencies, the entries of the timeline and the engines the sessions
    report, and every session has reported. *)
Theorem swarm_accounts_for_every_turn agents es sw :
  run (swarm_start agents) es = Some sw ->
  (Z.of_nat (length es) <= 2 * Z.of_nat turns * Z.of_nat agents)%Z /\
  ((forall e, swarm_event r turns sw e = None) ->
   let re := sw_results sw in
   Z.of_nat (length es) = (2 * Z.of_nat turns * Z.of_nat agents)%Z /\
   outcomes_of re = (Z.of_nat agents * Z.of_nat turns)%Z /\
   answers_in re = re_completed re /\ Z.of_nat (length (re_latencies re)) = re_completed re /\
   map sa_ms (re_timeline re) = re_latencies re /\
   length (re_engines_used re) = agents).
Proof.
  intros H. pose proof (run_ok _ _ _ H (swarm_start_ok agents)) as Hok.
  pose proof (run_left _ _ _ H (swarm_start_ok agents)) as Hl.
  pose proof (length_agents_run _ _ _ H) as Hn. rewrite length_start in Hn.
  assert (Hs : swarm_left (swarm_start agents) = (2 * Z.of_nat turns * Z.of_nat agents)%Z).
  { unfold swarm_left. rewrite (sum_of_const _ (2 * Z.of_nat turns)%Z).
    - rewrite length_start. lia.
    - intros a (i & Hi)%list_elem_of_lookup. apply start_agents in Hi as ->. simpl. lia. }
  assert (Hpos : 0 <= swarm_left sw).
  { unfold swarm_left. assert (Hall : forall a, a ∈ sw_agents sw -> 0 <= awaits_left a).
    { intros a (i & Hi)%list_elem_of_lookup. apply (so_agents _ Hok) in Hi.
      destruct a; simpl in *; lia. }
    by apply sum_of_nonneg_in. }
  split; [lia|]. intros Hstuck. pose proof (stuck_finished sw Hstuck) as Hfin. cbv zeta.
  assert (Hz : forall (g : Agent F -> Z) c, g Finished = c ->
            sum_of g (sw_agents sw) = (Z.of_nat agents * c)%Z).
  { intros g c Hg. rewrite (sum_of_const g c), Hn; [done|]. intros a Ha. by rewrite (Hfin a Ha). }
  destruct Hok as [_ Ht Hu Hlat Hline Ho _ _].
  rewrite (Hz turns_past (Z.of_nat turns)) in Ht by done.
  rewrite (Hz (fun a => Z.of_nat (length (used_by a))) 0) in Hu by done.
  rewrite (Hz finished 1) in Ho by done. unfold swarm_left in *.
  rewrite (Hz awaits_left 0) in Hl by done. split_and!; try done; lia.
Qed.

(** The throttle fires once, with the 40th answer of the replay, and from then on the fast
    engine is the slow one. *)
Theorem throttle_fires_at_forty agents es sw :
  run (swarm_start agents) es = Some sw ->
  let slowed := (40 <=? re_completed (sw_results sw))%Z in
  sw_fired sw = slowed /\
  dget "gpu-a" (sw_mults sw) = Some (fint (if slowed then 8 else 1)).
Proof.
  intros H. destruct (run_ok _ _ _ H (swarm_start_ok agents)) as [_ _ _ _ _ _ Hf Hm].
  cbv zeta. split; [exact Hf|]. rewrite Hm, Hf. unfold THROTTLE_AFTER_REQUESTS.
  by destruct (40 <=? _)%Z.
Qed.

(** ** The requests of a session *)

(** Every request of an agent starts with its own system turn, whatever was answered before:
    the prefix of a session never changes. *)
Theorem session_prefix_is_stable agents es sw i t h u t0 label :
  run (swarm_start agents) es = Some sw ->
  sw_agents sw !! i = Some (Waiting t h u t0 label) ->
  exists rest, bget "messages" (turn_body h) = JList (system_turn i :: rest) /\
               (length rest <= 5)%nat.
Proof.
  intros H Hi. destruct (run_ok _ _ _ H (swarm_start_ok agents)) as [Ha _ _ _ _ _ _ _].
  destruct (Ha _ _ Hi) as [_ Hh]. destruct h as [|x h]; [done|]. injection Hh as ->.
  exists (lastn 5 (system_turn i :: h)). split; [reflexivity|]. unfold lastn.
  rewrite length_drop. lia.
Qed.

(** ** Where the requests go *)

Lemma event_sent sw e sw' :
  swarm_event r turns sw e = Some sw' ->
  match e with
  | Sent i _ =>
    sw_sent sw' = (sw_sent sw ++ [(i, (resolve_target r i sw).1.1)])%list /\
    sw_counter sw' = (resolve_target r i sw).1.2 /\ sw_sticky sw' = (resolve_target r i sw).2
  | Answered _ _ _ _ _ =>
    sw_sent sw' = sw_sent sw /\ sw_counter sw' = sw_counter sw /\ sw_sticky sw' = sw_sticky sw
  end.
Proof.
  assert (Hn : forall i t h u s, sw_sent (next_turn turns i t h u s) = sw_sent s /\
    sw_counter (next_turn turns i t h u s) = sw_counter s /\
    sw_sticky (next_turn turns i t h u s) = sw_sticky s).
  { intros i t h u s. unfold next_turn. by destruct (_ <? _)%nat. }
  assert (Hp : forall d now s, sw_sent (on_progress d now s) = sw_sent s /\
    sw_counter (on_progress d now s) = sw_counter s /\ sw_sticky (on_progress d now s) = sw_sticky s).
  { intros d now s. unfold on_progress. by destruct (_ || _). }
  intros He. destruct e as [i now|i st header ms now]; simpl in He.
  - unfold send_turn in He. destruct (sw_agents sw !! i) as [[]|]; try done.
    destruct (resolve_target r i sw) as [[]]. by injection He as <-.
  - unfold receive_turn in He. destruct (sw_agents sw !! i) as [[|t h u t0 l|]|]; try done.
    injection He as <-. destruct (st =? 200)%Z; [|destruct (st =? 503)%Z].
    + match goal with |- context [on_progress ?d now ?s] =>
        destruct (Hp d now s) as (P1 & P2 & P3); simpl in P1, P2, P3 end.
      match goal with |- context [next_turn turns i t ?h' ?u' ?s] =>
        destruct (Hn i t h' u' s) as (-> & -> & ->) end.
      by rewrite P1, P2, P3.
    + match goal with |- context [next_turn turns i t ?h' ?u' ?s] =>
        by destruct (Hn i t h' u' s) as (-> & -> & ->) end.
    + match goal with |- context [next_turn turns i t ?h' ?u' ?s] =>
        by destruct (Hn i t h' u' s) as (-> & -> & ->) end.
Qed.
End SwarmProps.

(** *** Round robin and sticky sessions *)

Section Targets.
Context {F : Type} {PF : PyFloat F}.
Variable turns : nat.
Implicit Types (sw : Swarm F) (es : list (SwarmEvent F)).

Definition turn_engine (k : nat) : nat := (k mod 3)%nat.

Lemma per_request_targets sw es sw' :
  swarm_run PerRequest turns sw es = Some sw' ->
  map snd (sw_sent sw) = map (fun k => Some (turn_engine k)) (seq 0 (sw_counter sw)) ->
  map snd (sw_sent sw') = map (fun k => Some (turn_engine k)) (seq 0 (sw_counter sw')).
Proof.
  revert sw; induction es as [|e es IH]; intros sw H Hs; [by injection H as <-|].
  simpl in H. destruct (swarm_event PerRequest turns sw e) as [sw1|] eqn:E; [|done].
  apply (IH sw1 H). apply event_sent in E. destruct e.
  - destruct E as (-> & -> & _). cbn [resolve_target fst snd].
    by rewrite map_app, Hs, seq_S, map_app.
  - destruct E as (-> & -> & _). done.
Qed.

(** Per-request round robin sends the [k]-th request of the swarm, whichever agent it is from,
    to engine [k mod 3]. *)
Theorem round_robin_by_request agents es sw k target :
  swarm_run PerRequest turns (swarm_start agents) es = Some sw ->
  map snd (sw_sent sw) !! k = Some target -> target = Some (k mod 3)%nat.
Proof.
  intros H Hk. rewrite (per_request_targets _ _ _ H) in Hk by done.
  apply list_lookup_fmap_Some in Hk as (j & -> & Hj). apply lookup_seq in Hj as [-> _]. done.
Qed.

Lemma sticky_targets sw es sw' :
  swarm_run Sticky turns sw es = Some sw' ->
  (forall i k, dget i (sw_sticky sw) = Some k -> k = turn_engine i) ->
  (forall i target, (i, target) ∈ sw_sent sw -> target = Some (turn_engine i)) ->
  forall i target, (i, target) ∈ sw_sent sw' -> target = Some (turn_engine i).
Proof.
  revert sw; induction es as [|e es IH]; intros sw H Ht Hs; [by injection H as <-|].
  simpl in H. destruct (swarm_event Sticky turns sw e) as [sw1|] eqn:E; [|done].
  apply event_sent in E. destruct e as [i now|].
  - destruct E as (E1 & _ & E3). unfold resolve_target in E1, E3.
    destruct (dget i (sw_sticky sw)) as [k|] eqn:G; simpl in E1, E3.
    + apply (IH sw1 H); rewrite ?E1, ?E3; [done|]. apply Ht in G as ->.
      intros j target [Hj|Hj]%elem_of_app; [by apply Hs|].
      apply list_elem_of_singleton in Hj. by injection Hj as -> ->.
    + apply (IH sw1 H); rewrite ?E1, ?E3.
      * intros j k. rewrite dget_dset. case_decide; [by intros [= <-]; subst|apply Ht].
      * intros j target [Hj|Hj]%elem_of_app; [by apply Hs|].
        apply list_elem_of_singleton in Hj. by injection Hj as -> ->.
  - destruct E as (E1 & _ & E3). apply (IH sw1 H); by rewrite ?E1, ?E3.
Qed.

(** A sticky session sends all its requests to one engine. *)
Theorem sticky_sessions_stay agents es sw i target :
  swarm_run Sticky turns (swarm_start agents) es = Some sw ->
  (i, target) ∈ sw_sent sw -> target = Some (i mod 3)%nat.
Proof.
  intros H. apply (sticky_targets _ _ _ H); [done|]. by intros ? ? ?%not_elem_of_nil.
Qed.
End Targets.

(** ** The window of the report *)

Section WindowProps.
Context {F : Type} {PF : PyFloat F} {PM : PyFmean F}.
Variables (r : Routing) (turns : nat).
Implicit Types (sw : Swarm F) (es : list (SwarmEvent F)).

(** Requests and answers since [at_]. *)
Definition since (at_ : F) sw : Prop :=
  (forall a, a ∈ sw_agents sw -> match a with Waiting _ _ _ t0 _ => fle at_ t0 = true | _ => True end) /\
  (forall s, s ∈ re_timeline (sw_results sw) -> fle at_ (sa_t0 s) = true).

Lemma since_insert at_ sw i a :
  (forall a, a ∈ sw_agents sw -> match a with Waiting _ _ _ t0 _ => fle at_ t0 = true | _ => True end) ->
  match a with Waiting _ _ _ t0 _ => fle at_ t0 = true | _ => True end ->
  forall b, b ∈ <[i := a]> (sw_agents sw) ->
  match b with Waiting _ _ _ t0 _ => fle at_ t0 = true | _ => True end.
Proof.
  intros H Ha b (j & Hj)%list_elem_of_lookup. destruct (decide (i = j)) as [->|Hne].
  - destruct (decide (j < length (sw_agents sw))%nat).
    + rewrite list_lookup_insert_eq in Hj by done. by injection Hj as <-.
    + rewrite list_insert_ge in Hj by lia. apply H. by eapply list_elem_of_lookup_2.
  - rewrite list_lookup_insert_ne in Hj by done. apply H. by eapply list_elem_of_lookup_2.
Qed.

Lemma since_event at_ sw e sw' :
  swarm_event r turns sw e = Some sw' ->
  match e with Sent _ now => fle at_ now = true | _ => True end -> since at_ sw -> since at_ sw'.
Proof.
  assert (Hn : forall i t h u s, since at_ s -> since at_ (next_turn turns i t h u s)).
  { intros i t h u s [Ha Hl]. unfold next_turn.
    destruct (_ <? _)%nat; (split; [by apply since_insert|done]). }
  assert (Hp : forall d now s, since at_ s -> since at_ (on_progress d now s)).
  { intros d now s Hs. unfold on_progress. by destruct (_ || _). }
  intros He Hs [Ha Hl]. destruct e as [i now|i st header ms now]; simpl in He.
  - unfold send_turn in He. destruct (sw_agents sw !! i) as [[]|]; try done.
    destruct (resolve_target r i sw) as [[]]. injection He as <-.
    split; [by apply since_insert|done].
  - unfold receive_turn in He. destruct (sw_agents sw !! i) as [[|t h u t0 l|]|] eqn:Hi; try done.
    injection He as <-.
    assert (Ht0 : fle at_ t0 = true).
    { apply (Ha (Waiting t h u t0 l)). by eapply list_elem_of_lookup_2. }
    destruct (st =? 200)%Z; [|destruct (st =? 503)%Z]; apply Hn; try (by split).
    apply Hp. split; [done|]. simpl. intros s [H|H]%elem_of_app; [by apply Hl|].
    apply list_elem_of_singleton in H as ->. done.
Qed.

Lemma since_run at_ sw es sw' :
  swarm_run r turns sw es = Some sw' ->
  (forall i now, Sent i now ∈ es -> fle at_ now = true) -> since at_ sw -> since at_ sw'.
Proof.
  revert sw; induction es as [|e es IH]; intros sw H He Hs; [by injection H as <-|].
  simpl in H. destruct (swarm_event r turns sw e) as [sw1|] eqn:E; [|done].
  apply (IH sw1 H); [intros i now Hi; apply (He i now); set_solver|].
  eapply since_event; [exact E| |done]. destruct e; [|done]. apply (He agent now). set_solver.
Qed.

Lemma filter_all {A} (p : A -> bool) (l : list A) :
  (forall a, a ∈ l -> p a = true) -> filter (fun a => p a = true) l = l.
Proof.
  intros H. induction l as [|a l IH]; [done|]. rewrite filter_cons, decide_True by (apply H; set_solver).
  f_equal. apply IH. intros b Hb. apply H. set_solver.
Qed.

(** The report splits all three replays at the moment the first one was throttled.  Of a
    replay that started after that moment nothing is split off: what is shown for it as
    the time after the throttle is all of it, the part before its own throttle too. *)
Theorem window_misses_own_throttle throttle_at agents es sw :
  swarm_run r turns (swarm_start agents) es = Some sw ->
  (forall i now, Sent i now ∈ es -> fle throttle_at now = true) ->
  after throttle_at (sw_results sw) = re_timeline (sw_results sw) /\
  wi_summary (window throttle_at (sw_results sw))
    = summary (map sa_ms (re_timeline (sw_results sw))).
Proof.
  intros H He.
  assert (Ha : after throttle_at (sw_results sw) = re_timeline (sw_results sw)).
  { unfold after. apply filter_all. apply (since_run throttle_at _ _ _ H He).
    split; [|by intros s ?%not_elem_of_nil].
    intros a (i & Hi)%list_elem_of_lookup. by apply start_agents in Hi as ->. }
  split; [done|]. unfold window. simpl. by rewrite Ha.
Qed.
End WindowProps.

(** The prompts the sessions report are all empty: [_extract_prompt] takes a request body and
    is given a message. *)
Theorem session_prompts_empty {F} {PF : PyFloat F} i (h : list (json F)) :
  session_prompt (system_turn i :: h) = "".
Proof. reflexivity. Qed.

(** ** Witnesses *)

(** Two agents of two turns each on the three engines, with their turns interleaved and one
    request refused. *)
Definition two_agents : list (SwarmEvent float) :=
  [Sent 0 (fint 1); Sent 1 (fint 1); Answered 1 200 None (fint 30) (fint 2);
   Sent 1 (fint 2); Answered 0 503 None (fint 5) (fint 3); Sent 0 (fint 3);
   Answered 0 200 None (fint 40) (fint 4); Answered 1 200 (Some "gpu-b") (fint 20) (fint 5)].

Lemma two_agents_run :
  match swarm_run PerRequest 2 (swarm_start 2) two_agents with
  | Some sw => (re_completed (sw_results sw), re_rejected (sw_results sw),
                re_engines_used (sw_results sw), map snd (sw_sent sw))
               = (3, 1, [["gpu-a"]; ["gpu-b"; "gpu-b"]], [Some 0; Some 1; Some 2; Some 0]%nat)
  | None => False
  end.
Proof. vm_compute. reflexivity. Qed.
