(* ===== verification/RegimeDProps.v ===== *)
(** What the summaries of [RegimeD] say of the runs they are made of. *)

From Stdlib Require Import Reals Lra Sorted.
From S2P Require Import Prelude PyFloat PyReal PyStats PyStr PyDict PySort Json Simulation ResultStats.
From S2P Require Import LoadClients LoadProps RegimeD.

(** ** One load *)

Section Counts.
Context {F : Type} {PF : PyFloat F} {PS : PyStats F}.
Implicit Types (l : DLoad F) (r : DReply F).

(** A success whose usage is no object, counted as a failure too. *)
Definition counted_twice r : bool :=
  match r with
  | DAnswer 200 _ _ parsed =>
    match (read_feature parsed).2 with JDict _ => false | _ => true end
  | _ => false
  end.

Record dload_ok l (n twice : Z) : Prop := {
  do_total : dl_ok l + dl_fail l = n + twice;
  do_routes : sum_of Datatypes.id (dvalues (dl_routes l)) = dl_ok l;
  do_e2e : Z.of_nat (length (dl_e2e l)) = dl_ok l;
  do_requests : Z.of_nat (length (dl_requests l)) = dl_ok l - twice
}.

Lemma dload_one_ok r l n twice :
  dload_ok l n twice ->
  dload_ok (dload_one r l) (n + 1) (twice + if counted_twice r then 1 else 0).
Proof.
  intros [H1 H2 H3 H4]. unfold dload_one, counted_twice. destruct r as [status h ms parsed|].
  - destruct (Z.eqb_spec status 200) as [->|Hs]; cbn [negb].
    + destruct (read_feature parsed) as [tokens usage] eqn:E. cbn [snd].
      destruct usage; cbn [jget jget_or]; split; cbn [dl_ok dl_fail dl_e2e dl_routes dl_requests];
        rewrite ?sum_count_route, ?length_app; simpl; lia.
    + replace (match status with 200 => _ | _ => false end) with false; [split; simpl; lia|].
      repeat (case_match; try done); exfalso; by apply Hs.
  - split; simpl; lia.
Qed.

(** Every request is counted, the failed ones once; the routes and the latencies are those
    of the successes. *)
Lemma dload_counts rs :
  dload_ok (dload rs) (Z.of_nat (length rs)) (sum_of (fun r => if counted_twice r then 1 else 0) rs).
Proof.
  unfold dload. induction rs as [|r rs IH] using rev_ind; [by split|].
  rewrite foldl_app, sum_of_snoc, length_app. cbn [foldl length].
  replace (Z.of_nat (length rs + 1)) with (Z.of_nat (length rs) + 1) by lia.
  by apply dload_one_ok.
Qed.

Lemma length_omap_le {A B} (f : A -> option B) xs : (length (omap f xs) <= length xs)%nat.
Proof. induction xs as [|a xs IH]; [done|]. csimpl. destruct (f a); simpl; lia. Qed.

(** The wins are among the pairs, the pairs among the seeds. *)
Lemma d1_gains_bounded (arm rr : list (option (Row F))) :
  let '(_, wins, n) := d1_gains arm rr in
  0 <= wins <= n /\ n <= Z.of_nat (Nat.min (length arm) (length rr)).
Proof.
  unfold d1_gains, improvements.
  split; [split; [lia|apply inj_le, length_filter]|].
  apply inj_le. etrans; [apply length_omap_le|]. rewrite length_zip, !length_map. lia.
Qed.
End Counts.

(** ** The discovery run *)

Section Discovery.
Context {F : Type} {PF : PyFloat F}.
Variable margin : F.

(** Before the discovery no flag of the curve is set; the loop stops ten requests after. *)
Lemma discovery_none i slopes curve :
  discovery_loop margin i None slopes = (curve, None) -> Forall (fun ok => ok = false) curve.
Proof.
  revert i curve. induction slopes as [|s rest IH]; intros i curve; simpl; [by intros [= <-]|].
  destruct (order_ok margin s) eqn:E.
  - rewrite (proj2 (Z.leb_gt _ _)) by lia. destruct (discovery_loop margin (i + 1) _ rest) as [c f] eqn:D.
    intros [= <- ->]. exfalso. revert D. clear. generalize (i + 1) at 1 as j. revert c.
    induction rest as [|s' rest IH]; intros c j; simpl; [done|]. case_match; [done|].
    destruct (discovery_loop margin (j + 1) _ rest) as [c' f'] eqn:D. intros [= <- ->]. by eapply IH.
  - destruct (discovery_loop margin (i + 1) None rest) as [c f] eqn:D. intros [= <- ->].
    constructor; [done|]. by eapply IH.
Qed.

Lemma discovery_found i m slopes :
  (discovery_loop margin i (Some m) slopes).2 = Some m /\
  (i <= m + 9 -> Z.of_nat (length (discovery_loop margin i (Some m) slopes).1) + i <= m + 10)%Z.
Proof.
  revert i. induction slopes as [|s rest IH]; intros i; simpl; [split; [done|lia]|].
  destruct (Z.leb_spec (m + 10) (i + 1)); simpl; [split; [done|lia]|].
  specialize (IH (i + 1)%Z) as [IH1 IH2]. destruct (discovery_loop _ _ _ rest) as [c f]. simpl in *.
  split; [done|]. intros Hm. lia.
Qed.

(** With a discovery, the curve up to it holds no flag, the flag of the discovery is set, and
    at most ten more follow. *)
Lemma discovery_some i slopes curve m :
  discovery_loop margin i None slopes = (curve, Some m) ->
  exists before after, curve = (before ++ true :: after)%list /\ Forall (fun ok => ok = false) before /\
    m = i + Z.of_nat (length before) + 1 /\ (length after <= 10)%nat.
Proof.
  revert i curve. induction slopes as [|s rest IH]; intros i curve; simpl; [done|].
  destruct (order_ok margin s) eqn:E.
  - rewrite (proj2 (Z.leb_gt _ _)) by lia.
    pose proof (discovery_found (i + 1) (i + 1) rest) as [H1 H2].
    destruct (discovery_loop margin (i + 1) _ rest) as [c f]. simpl in *. intros [= <- ->].
    injection H1 as ->. exists [], c. split_and!; [done|constructor|simpl; lia|lia].
  - destruct (discovery_loop margin (i + 1) None rest) as [c f] eqn:D. intros [= <- ->].
    destruct (IH _ _ D) as (before & after & -> & Hb & -> & Ha).
    exists (false :: before), after. split_and!; [done|by constructor|simpl; lia|done].
Qed.

(** What [stable_from] gives is the first position of five flags in a row. *)
Lemma stable_from_spec i curve n :
  stable_from i curve = Some n ->
  exists before after, curve = (before ++ replicate 5 true ++ after)%list /\
    n = i + Z.of_nat (length before) + 1.
Proof.
  revert i. induction curve as [|ok rest IH]; intros i; [done|]. cbn [stable_from].
  destruct (forallb _ _ && _) eqn:E.
  - intros [= <-]. apply andb_true_iff in E as [Hall Hlen].
    destruct rest as [|b [|c [|d [|e rest]]]]; try done. cbn in Hall.
    destruct ok, b, c, d, e; try done. exists [], rest. split; [done|simpl; lia].
  - intros (before & after & -> & ->)%IH. exists (ok :: before), after. split; [done|simpl; lia].
Qed.
End Discovery.

Lemma clean_prefix_le (before after b a : list bool) :
  (before ++ true :: after = b ++ true :: a)%list -> Forall (fun ok => ok = false) before ->
  (length before <= length b)%nat.
Proof.
  revert b. induction before as [|x before IH]; intros b E H; [simpl; lia|].
  inversion_clear H; subst. destruct b as [|y b]; [done|]. injection E as -> E. simpl.
  specialize (IH b E). lia || (apply le_n_S, IH; done).
Qed.

(** The discovery run: once five rankings in a row are right the run has discovered the
    order, at the first right ranking, which is not later; the run stops at most ten requests
    after the discovery, so the stable point is at most six requests after it. *)
Theorem stable_after_discovery {F} `{PyFloat F} (margin : F) slopes found n curve :
  discovery margin slopes = (found, Some n, curve) ->
  exists m, found = Some m /\ 1 <= m <= n /\ n <= m + 6 /\
    (length curve <= Z.to_nat m + 10)%nat /\
    curve !! Z.to_nat (m - 1) = Some true /\
    (forall k, (k < Z.to_nat (m - 1))%nat -> curve !! k = Some false) /\
    (forall k, (k < 5)%nat -> curve !! (Z.to_nat (n - 1) + k)%nat = Some true).
Proof.
  unfold discovery. destruct (discovery_loop margin 0 None slopes) as [c f] eqn:D.
  intros [= -> Hs ->]. destruct (stable_from_spec _ _ _ Hs) as (b & a & E & ->).
  destruct found as [m|].
  - destruct (discovery_some _ _ _ _ _ D) as (before & after & -> & Hb & -> & Ha).
    pose proof (clean_prefix_le _ _ b (replicate 4 true ++ a) E Hb) as Hle.
    assert (length before + S (length after) = length b + 5 + length a)%nat as Hlen.
    { apply (f_equal length) in E. rewrite !length_app, length_replicate in E. simpl in E. lia. }
    exists (0 + Z.of_nat (length before) + 1). split; [done|].
    replace (Z.to_nat (0 + Z.of_nat (length before) + 1 - 1)) with (length before) by lia.
    replace (Z.to_nat (0 + Z.of_nat (length b) + 1 - 1)) with (length b) by lia.
    split_and!; try lia.
    + rewrite length_app. simpl. lia.
    + by rewrite list_lookup_middle.
    + intros k Hk. rewrite lookup_app_l by done.
      destruct (lookup_lt_is_Some_2 before k Hk) as [x Hx].
      rewrite Hx. f_equal. rewrite Forall_forall in Hb. apply Hb. by eapply list_elem_of_lookup_2.
    + intros k Hk. rewrite E, lookup_app_r by lia.
      replace (length b + k - length b)%nat with k by lia.
      rewrite lookup_app_l by (rewrite length_replicate; lia). by apply lookup_replicate_2.
  - apply discovery_none in D. rewrite E, Forall_app in D. destruct D as [_ D].
    by inversion D.
Qed.

(** A ranking that is right from the third request on, at a margin of 10 percent. *)
Definition settling : list (option float * option float) :=
  [(None, None); (Some (fint 2), Some (fint 2))] ++ replicate 20 (Some (fint 3), Some (fint 2)).

Lemma stable_after_discovery_witness :
  discovery (fdec 1 (-1)) settling = (Some 3, Some 3, [false; false] ++ replicate 11 true)%list /\
  (exists m, Some 3 = Some m /\ 1 <= m <= 3).
Proof.
  assert (discovery (fdec 1 (-1)) settling = (Some 3, Some 3, [false; false] ++ replicate 11 true)%list) as E
    by (vm_compute; reflexivity).
  split; [exact E|].
  destruct (stable_after_discovery (fdec 1 (-1)) settling (Some 3) 3 _ E) as (m & Hm & H & _).
  exists m. split; [exact Hm|exact H].
Defined.

(** ** Summaries that say something else *)

(** A worker that a seed never used has no fraction in it, and its mean is over the other
    seeds: the fractions of an arm can add up to more than one. *)
Definition frac_row (frac : list (string * float)) : Row float :=
  mkRow None None None None frac [] [] [].
Lemma fractions_overshoot :
  ar_frac (arm_summary [Some (frac_row [("a100", fint 1)]);
                        Some (frac_row [("a100", fdec 5 (-1)); ("l4", fdec 5 (-1))])])
  = [("a100", fdec 75 (-2)); ("l4", fdec 5 (-1))].
Proof. vm_compute. reflexivity. Qed.

(** One seed of round robin that failed: the two arms are equal on the seeds both have, and a
    gain of 50 percent is reported for each. *)
Lemma failed_seed_is_a_gain :
  workshop_gains [None; Some (fint 100); Some (fint 200)]
                 [Some (fint 50); Some (fint 100); Some (fint 200)]
  = [fint 50; fint 50 : float].
Proof. vm_compute. reflexivity. Qed.

(** ** Normalised slopes *)

Section Normalised.
Local Open Scope R_scope.

Definition slopes_of (l : list (string * R)) : list (string * option xreal) :=
  map (fun x => (x.1, Some (XR x.2))) l.
Definition lifted (l : list (string * R)) : list (string * xreal) := map (fun x => (x.1, XR x.2)) l.

Lemma usable_all l : (forall x, x ∈ l -> 0 < x.2) -> usable_slopes (slopes_of l) = lifted l.
Proof.
  unfold usable_slopes, slopes_of, lifted. induction l as [|x l IH]; intros H; [done|].
  rewrite !map_cons. cbn [omap list_omap fst snd]. cbn [omap] in IH. rewrite IH by set_solver.
  change f0 with (XR 0). rewrite flt_XR.
  by rewrite (proj2 (rlt_true 0 x.2)) by (apply H; set_solver).
Qed.

Lemma max_key_spec x l :
  exists y, max_key_from (x.1, XR x.2) (lifted l) = (y.1, XR y.2) /\
    y ∈ x :: l /\ forall z, z ∈ x :: l -> z.2 <= y.2.
Proof.
  revert x. induction l as [|a l IH]; intros x.
  - exists x. split_and!; [done|set_solver|]. intros z ->%list_elem_of_singleton. lra.
  - cbn [lifted map max_key_from fst snd]. fold (lifted l). rewrite flt_XR. destruct (XReal.rlt x.2 a.2) eqn:E.
    + apply rlt_true in E. destruct (IH a) as (y & -> & Hy & Hz). exists y.
      split_and!; [done|set_solver|]. intros z [->|H]%elem_of_cons; [|by apply Hz].
      specialize (Hz a ltac:(set_solver)). lra.
    + apply rlt_false in E. destruct (IH x) as (y & -> & Hy & Hz). exists y.
      split_and!; [done|set_solver|].
      intros z [->|[->|H]%elem_of_cons]%elem_of_cons; [apply Hz; set_solver| |apply Hz; set_solver].
      specialize (Hz x ltac:(set_solver)). lra.
Qed.

Definition below (x y : string * R) : Prop := x.2 <= y.2.

Lemma insert_value_spec x l :
  exists l', insert_value (x.1, XR x.2) (lifted l) = lifted l' /\ l' ≡ₚ x :: l /\
    (StronglySorted below l -> StronglySorted below l').
Proof.
  induction l as [|a l (l' & IH1 & IH2 & IH3)].
  - exists [x]. split_and!; [done|done|]. intros _. by repeat constructor.
  - cbn [lifted map insert_value fst snd]. rewrite flt_XR. destruct (XReal.rlt x.2 a.2) eqn:E.
    + apply rlt_true in E. exists (x :: a :: l). split_and!; [done|done|].
      intros H. constructor; [done|]. inversion_clear H as [|? ? Hl Ha].
      constructor; [unfold below; lra|]. eapply Forall_impl; [done|]. unfold below. intros z Hz. lra.
    + apply rlt_false in E. exists (a :: l'). split_and!.
      * fold (lifted l). by rewrite IH1.
      * rewrite IH2. apply Permutation_swap.
      * intros H. inversion_clear H as [|? ? Hl Ha]. constructor; [by apply IH3|].
        rewrite Forall_forall in *. intros z. rewrite IH2. intros [->|Hz]%elem_of_cons; [done|auto].
Qed.

Lemma sort_values_spec l :
  exists l', sort_values (lifted l) = lifted l' /\ l' ≡ₚ l /\ StronglySorted below l'.
Proof.
  unfold sort_values. induction l as [|x l (l' & IH1 & IH2 & IH3)] using rev_ind.
  - exists []. split_and!; [done|done|constructor].
  - unfold lifted in *. rewrite map_app, foldl_app, IH1. cbn [map foldl].
    destruct (insert_value_spec x l') as (l2 & E & Hp & Hs). unfold lifted in E.
    exists l2. split_and!; [done| |auto]. rewrite Hp, IH2. by rewrite Permutation_cons_append.
Qed.

Lemma ratios_lifted l top :
  0 < top -> map (fun x => (x.1, fdiv x.2 (XR top))) (lifted l) = map (fun x => (x.1, XR (x.2 / top))) l.
Proof.
  intros H. unfold lifted. rewrite map_map. apply map_ext. intros z. cbn [fst snd].
  by rewrite fdiv_XR by lra.
Qed.

(** The reference is a worker of the greatest slope, every ratio is the slope over it, and the
    order lists all workers from the fastest to the slowest. *)
Lemma slopes_normalised l nm :
  (forall x, x ∈ l -> 0 < x.2) -> normalise (slopes_of l) = Some nm ->
  exists top, (nm_reference nm, top) ∈ l /\ (forall x, x ∈ l -> 0 < x.2 / top <= 1) /\
    nm_ratios nm = map (fun x => (x.1, XR (x.2 / top))) l /\
    exists l', nm_order nm = map fst l' /\ l' ≡ₚ l /\ StronglySorted below l'.
Proof.
  intros Hpos. unfold normalise. rewrite usable_all by done.
  destruct l as [|x [|y l]]; [done|done|]. cbn [lifted map].
  change ((y.1, XR y.2) :: map (fun x => (x.1, XR x.2)) l) with (lifted (y :: l)).
  destruct (max_key_spec x (y :: l)) as ([k top] & -> & Hin & Hmax).
  pose proof (Hpos _ Hin) as Htop. cbn [fst snd] in *.
  destruct (sort_values_spec (x :: y :: l)) as (l' & Hs & Hp & Hsort).
  unfold lifted in Hs. cbn [map] in Hs.
  intros [= <-]. exists top. cbn [nm_reference nm_ratios nm_order fst snd]. split_and!; [done| | |].
  - intros z Hz. specialize (Hpos z Hz). specialize (Hmax z Hz).
    split; [by apply Rdiv_lt_0_compat|]. apply (Rmult_le_reg_r top); [done|].
    unfold Rdiv. rewrite Rmult_assoc, Rinv_l by lra. lra.
  - exact (ratios_lifted (x :: y :: l) top Htop).
  - exists l'. split_and!; [|done|done].
    change ((x.1, XR x.2) :: lifted (y :: l)) with (lifted (x :: y :: l)).
    unfold lifted. cbn [map]. rewrite Hs, map_map. done.
Qed.
End Normalised.
