(* ===== verification/EmulationProps.v ===== *)
(** Bounds of the emulated latencies, in exact arithmetic, and what the delay proxy adds. *)

From Stdlib Require Import Reals Lra.
From S2P Require Import Prelude PyFloat PyReal PyStr Json Feasible Emulation.
Local Open Scope R_scope.

(** A throttle that slows down, by real numbers. *)
Definition throttle_sane (t : ThermalThrottle xreal) (top : R) : Prop :=
  (exists ramp, tt_ramp_per_request t = XR ramp /\ 0 <= ramp) /\ tt_max_factor t = XR top /\ 1 <= top.

(** The factor over real numbers. *)
Definition factor_at (t : ThermalThrottle xreal) (ramp top : R) (n : Z) : R :=
  if tt_enabled t && (tt_start_request t <=? n)%Z
  then Rmin top (1 + IZR (n - tt_start_request t) * ramp) else 1.

Lemma thermal_factor_XR t ramp top n :
  tt_ramp_per_request t = XR ramp -> tt_max_factor t = XR top ->
  thermal_factor t n = XR (factor_at t ramp top n).
Proof.
  intros Hr Ht. unfold thermal_factor, factor_at. rewrite Hr, Ht.
  destruct (tt_enabled t); simpl; [|done].
  destruct (Z.ltb_spec n (tt_start_request t)), (Z.leb_spec (tt_start_request t) n); try lia; [done|].
  by rewrite py_min_XR.
Qed.

Lemma factor_at_bounds t ramp top n : 0 <= ramp -> 1 <= top -> 1 <= factor_at t ramp top n <= top.
Proof.
  intros Hr Ht. unfold factor_at. case_match eqn:E; [|lra].
  apply andb_true_iff in E as [_ E%Z.leb_le].
  assert (0 <= IZR (n - tt_start_request t)) by (apply IZR_le; lia).
  split; [apply Rmin_glb; nra|apply Rmin_l].
Qed.

Lemma factor_at_mono t ramp top n m :
  0 <= ramp -> 1 <= top -> (n <= m)%Z -> factor_at t ramp top n <= factor_at t ramp top m.
Proof.
  intros Hr Ht Hnm. destruct (decide (tt_start_request t <= n)%Z) as [Hn|Hn].
  - unfold factor_at. rewrite !(proj2 (Z.leb_le _ _)) by lia. destruct (tt_enabled t); simpl; [|lra].
    assert (IZR (n - tt_start_request t) <= IZR (m - tt_start_request t)) by (apply IZR_le; lia).
    apply Rle_min_compat_l. nra.
  - unfold factor_at at 1. rewrite (proj2 (Z.leb_gt _ _)) by lia. rewrite andb_false_r.
    by apply factor_at_bounds.
Qed.

(** A profile of non-negative costs. *)
Record profile_sane (p : LatencyProfile xreal) (a b d mult ramp top : R) : Prop := {
  ps_intercept : lp_ttft_intercept_ms p = XR a /\ 0 <= a;
  ps_prefill : lp_prefill_slope p = XR b /\ 0 <= b;
  ps_decode : lp_decode_slope p = XR d /\ 0 <= d;
  ps_jitter : real (lp_jitter_pct p);
  ps_mult : lp_latency_mult p = XR mult /\ 0 <= mult;
  ps_ramp : tt_ramp_per_request (lp_thermal p) = XR ramp /\ 0 <= ramp;
  ps_top : tt_max_factor (lp_thermal p) = XR top /\ 1 <= top
}.

Section Latency.
Variable normal : Z -> xreal.
Hypothesis normal_real : forall k, real (normal k).

Lemma noise_bounds p k :
  real (lp_jitter_pct p) -> exists z, noise_of normal p k = XR z /\ 65 / 100 <= z <= 145 / 100.
Proof.
  intros [j Hj]. destruct (normal_real k) as [z Hz]. unfold noise_of. rewrite Hj, Hz.
  change (fadd f1 (fmul (XR z) (XR j))) with (XR (1 + z * j)).
  cbn [fdec xreal_float]. rewrite !decimal_neg.
  rewrite py_min_XR, py_max_XR. eexists; split; [done|].
  change (IZR (10 ^ 2)) with 100.
  split; [apply Rmax_l|apply Rmax_lub; [lra|apply Rmin_l]].
Qed.

(** Every call adds one to the count; the time to the first token is within the latency, and
    the latency is the one of the profile, times the thermal factor and the multiplier, within
    the 0.65 and 1.45 of the jitter. *)
Lemma mock_latency_bounds p a b d mult ramp top prompt (len n : Z) :
  profile_sane p a b d mult ramp top -> (0 <= len)%Z ->
  let '(n', r) := mock_predict normal p prompt len n in
  let base := a + b * IZR (estimate_prompt_tokens prompt) + d * IZR len in
  let full := base * factor_at (lp_thermal p) ramp top n' * mult in
  n' = (n + 1)%Z /\
  exists t y, mi_ttft_ms r = XR t /\ mi_total_latency_ms r = XR y /\
    0 <= t <= y /\ 65 / 100 * full <= y <= 145 / 100 * full.
Proof.
  intros [[Ha ?] [Hb ?] [Hd ?] Hj [Hm ?] [Hr ?] [Ht ?]] Hlen. unfold mock_predict. cbv zeta.
  split; [done|]. destruct (noise_bounds p (n + 1) Hj) as (z & Hz & ?).
  cbn [mi_ttft_ms mi_total_latency_ms]. rewrite Ha, Hb, Hd, Hm, Hz.
  rewrite (thermal_factor_XR _ _ _ _ Hr Ht).
  pose proof (factor_at_bounds (lp_thermal p) ramp top (n + 1) ltac:(lra) ltac:(lra)) as Hf.
  set (f := factor_at _ _ _ _) in *. set (k := estimate_prompt_tokens prompt).
  assert (0 <= b * IZR k) by (apply Rmult_le_pos; [lra|apply IZR_le; unfold k, estimate_prompt_tokens; lia]).
  assert (0 <= d * IZR len) by (apply Rmult_le_pos; [lra|by apply IZR_le]).
  do 2 eexists. split_and!; [reflexivity|reflexivity| | | |].
  - repeat apply Rmult_le_pos; lra.
  - repeat apply Rmult_le_compat_r; lra.
  - replace ((a + b * IZR k + d * IZR len) * z * f * mult)
      with (z * ((a + b * IZR k + d * IZR len) * f * mult)) by ring.
    apply Rmult_le_compat_r; [repeat apply Rmult_le_pos|]; lra.
  - replace ((a + b * IZR k + d * IZR len) * z * f * mult)
      with (z * ((a + b * IZR k + d * IZR len) * f * mult)) by ring.
    apply Rmult_le_compat_r; [repeat apply Rmult_le_pos|]; lra.
Qed.
End Latency.

(** The proxy stretches the time of an upstream call by its multiplier, and never below it. *)
Lemma delay_stretches m e :
  fadd (XR e) (default f0 (delay_sleep (delay_mult (XR m)) (XR e))) = XR (Rmax 1 m * e).
Proof.
  unfold delay_mult, delay_sleep. change f1 with (XR 1). rewrite py_max_XR, flt_XR.
  case_match eqn:E; cbn.
  - f_equal. ring.
  - apply rlt_false in E. f_equal. replace (Rmax 1 m) with 1; [ring|].
    apply Rle_antisym; [apply Rmax_l|done].
Qed.

(** [GET /health] is forwarded like every other path: the handler of the proxy is never
    reached, because the route that takes every path is declared first. *)
Lemma health_never_served method path : proxy_route method path <> Some Health.
Proof.
  unfold proxy_route, proxy_routes. cbn [List.find snd].
  destruct (bool_decide _) eqn:E; [done|]. cbn [List.find fst snd].
  destruct (str_eqb method "GET") eqn:Hg; [|done].
  apply bool_decide_eq_true in Hg as ->. apply bool_decide_eq_false in E. set_solver.
Qed.

(** The real model slows down by the multiplier: what the caller waits for, the measured time
    and the sleep, is the latency that is reported. *)
Lemma gpu_stretch_is_slept normal mult total ttft tokens prompt n :
  1 < mult ->
  exists y s, gpu_predict normal Loaded (XR mult) (ttft, XR total, tokens) prompt n =
    (n, GpuAnswer (XR y) tokens (fmul ttft (XR mult)) (Some (XR s))) /\ total + 1000 * s = y.
Proof.
  intros Hm. exists (total * mult), ((total * mult - total) / 1000). split; [|field].
  unfold gpu_predict. change f1 with (XR 1). rewrite flt_XR, (proj2 (rlt_true _ _)) by done.
  change (fsub (fmul (XR total) (XR mult)) (XR total)) with (XR (total * mult + - total)).
  change (fint 1000) with (XR 1000). by rewrite fdiv_XR by lra.
Qed.

(** Any address with 443 in it, a port 54433 on the local host too, is dialled over TLS. *)
Example local_port_over_tls : manager_channel "localhost:54433" = (true, "localhost:54433").
Proof. reflexivity. Qed.

(** A pipeline that returns the prompt with its continuation is answered with the latter. *)
Lemma server_strips_prompt run input more latency :
  run input = Ok (input ++ more)%string ->
  wa_output (server_predict (F:=xreal) (Some run) input latency) = more.
Proof.
  intros H. unfold server_predict. rewrite H. cbn [wa_output].
  assert (startswith input (input ++ more) = true /\ str_drop (String.length input) (input ++ more) = more)
    as [-> ->]; [|done].
  clear. induction input as [|c s [IH1 IH2]]; [done|]. simpl.
  rewrite bool_decide_eq_true_2 by done. done.
Qed.
