(* ===== verification/GatewayFacts.v ===== *)
(** How every step of the gateway moves scheduler slots: the lemmas behind the
    accounting theorems. *)

From S2P Require Import Prelude PyFloat PyStr PyDict Json Config EngineMetrics Learner.
From S2P Require Import LearnerFacts Scheduler SchedulerFacts PickFacts Setup Accounting Router.
From S2P Require Import Backends Requests OllamaStream Proxy Routes Gateway.

Section Moves.
Context {F : Type} {PF : PyFloat F}.
Variable c : SchedCfg F.
Implicit Types (s : Sched F) (wid : string).

(** From [s] to [s'], a client that holds the slots [held] (among others) ends up
    with [held'] in their place. *)
Definition moves (held held' : list string) s s' : Prop :=
  forall open rest, client true c s open -> open ≡ₚ held ++ rest ->
  exists open', open' ≡ₚ held' ++ rest /\ client true c s' open'.

Lemma moves_keep h s s' :
  (forall open, client true c s open -> client true c s' open) -> moves h h s s'.
Proof. intros H open rest Ho E. exists open. auto. Qed.

Lemma moves_close wid s s' :
  (forall l1 l2, client true c s (l1 ++ wid :: l2)%list -> client true c s' (l1 ++ l2)%list) ->
  moves [wid] [] s s'.
Proof.
  intros H open rest Ho E.
  assert (Hin : wid ∈ open) by (rewrite E; set_solver).
  apply list_elem_of_split in Hin as (l1 & l2 & ->).
  exists (l1 ++ l2)%list. split; [|by apply H].
  rewrite <- Permutation_middle in E. by apply Permutation_cons_inv in E.
Qed.

(** Slot accounting: the trace plays no part. *)
#[export] Instance moves_laws : SlotMoves c (fun _ => moves).
Proof.
  split; cbv zeta.
  - intros h s open rest H E. by exists open.
  - intros _ _ h1 h2 h3 s1 s2 s3 H1 H2 open rest H E.
    destruct (H1 open rest H E) as (o & Eo & Ho). by apply (H2 o).
  - intros h s o H. apply moves_keep. intros open Ho. by apply cl_admin.
  - intros prompt tier tokens allowed s open rest H E.
    destruct (pick _ _ _ _ _ _) as [s' [[wid d]|e]] eqn:P; simpl in *.
    + exists (wid :: open). split; [by rewrite E|]. by eapply cl_pick.
    + exists open. split; [done|]. by eapply cl_reject.
  - intros wid s. apply moves_close. intros l1 l2 H. by apply cl_release.
  - intros wid e t ok now s. apply moves_close. intros l1 l2 H. by apply cl_feedback.
Qed.
End Moves.

Section Simulates.
Context {F : Type} {PF : PyFloat F} {PL : PyFloatLaws F}.
Variable a : SchedCfg F.
Implicit Types (s : Sched F) (wid : string).
Local Abbreviation c := (sched_cfg a).

(** From [s] to [s'] the abstract router can follow the scheduler along [tr]. *)
Definition follows (tr : list RLabel) (held : list string) s s' : Prop :=
  forall open rest r, client true c s open -> open ≡ₚ held ++ rest -> represents r s ->
  exists r', rrun r tr = Some r' /\ represents r' s'.

Definition simulates (tr : list RLabel) (held held' : list string) s s' : Prop :=
  moves c held held' s s' /\ follows tr held s s'.

(** A client that holds a slot on [wid] has it counted. *)
Lemma held_pending wid s open rest :
  client true c s open -> open ≡ₚ [wid] ++ rest -> 0 < pending_of s wid.
Proof.
  intros H E. rewrite (client_pending true a s open wid H).
  assert (Ho : open_on wid open = open_on wid (wid :: rest)).
  { unfold open_on. by rewrite E. }
  rewrite Ho, open_on_cons, decide_True by done. pose proof (open_on_nonneg wid rest). lia.
Qed.

Lemma client_sched_inv s open : client true c s open -> sched_inv c s.
Proof. intros H. apply client_reachable in H. by apply (inv_reachable a). Qed.

(** The gateway's steps refine the router's. *)
#[export] Instance simulates_laws : SlotMoves c simulates.
Proof.
  split; cbv zeta.
  - intros h s. split; [apply (sm_refl (M := fun _ => moves c))|]. intros open rest r _ _ Hr.
    by exists r.
  - intros t1 t2 h1 h2 h3 s1 s2 s3 [M1 F1] [M2 F2]. split.
    { by eapply (sm_trans (M := fun _ => moves c) t1 t2). }
    intros open rest r H E Hr. destruct (F1 open rest r H E Hr) as (r1 & Hr1 & H1).
    destruct (M1 open rest H E) as (o & Eo & Ho).
    destruct (F2 o rest r1 Ho Eo H1) as (r2 & Hr2 & H2). exists r2. split; [|done].
    by rewrite rrun_app, Hr1.
  - intros h s o Ho. split; [by apply (sm_admin (M := fun _ => moves c))|].
    intros open rest r H E Hr. apply (admin_simulated c r s open o); [apply Ho|done|].
    intros wid. by apply (client_pending true a).
  - intros prompt tier tokens allowed s. split; [apply (sm_pick (M := fun _ => moves c))|].
    intros open rest r H E Hr. apply (pick_simulated c r s); [by apply (client_sched_inv s open)|done].
  - intros wid s. split; [apply (sm_release (M := fun _ => moves c))|].
    intros open rest r H E Hr. pose proof (held_pending wid s open rest H E) as Hp.
    destruct (release_simulated r s wid Hr Hp) as (lr & _ & Hrep & Hstep).
    eexists. cbn [rrun]. by rewrite (Hstep Released).
  - intros wid e t ok now s. split; [apply (sm_feedback (M := fun _ => moves c))|].
    intros open rest r H E Hr. apply feedback_simulated; [done|]. by eapply held_pending.
Qed.
End Simulates.

(** The counts never exceed the slots held, even after a worker was replaced. *)
Section Bounds.
Context {F : Type} {PF : PyFloat F} {PL : PyFloatLaws F}.
Variable a : SchedCfg F.
Local Abbreviation c := (sched_cfg a).

Definition stays_bounded (held held' : list string) (s s' : Sched F) : Prop :=
  forall rest, bounded c s (held ++ rest) -> bounded c s' (held' ++ rest).

#[export] Instance bounded_laws : SlotMoves c (fun _ => stays_bounded).
Proof.
  split; cbv zeta; unfold stays_bounded; cbn [app].
  - done.
  - intros _ _ h1 h2 h3 s1 s2 s3 H1 H2 rest H. by apply H2, H1.
  - intros h s o Ho rest. apply bounded_idle_call. by destruct (Ho []).
  - intros prompt tier tokens allowed s rest H.
    destruct (pick _ _ _ _ _ _) as [s' r] eqn:P. apply (bounded_pick a _ _ _ _ _ _ _ _ P) in H.
    by destruct r as [[wid d]|e].
  - intros wid s rest. apply bounded_release.
  - intros wid e t ok now s rest. apply bounded_feedback.
Qed.
End Bounds.

(** ** Traces of the gateway's stretches *)

#[export] Instance Closing_eq_dec : EqDecision Closing.
Proof. solve_decision. Defined.
#[export] Instance RLabel_eq_dec : EqDecision RLabel.
Proof. solve_decision. Defined.

(** The arrival of a request: refused before [pick], rejected by it, or admitted, and
    then given back at once when the request cannot be built. *)
Definition start_trace (tr : list RLabel) : bool :=
  match tr with
  | [] | [RReject] | [RAdmit _] => true
  | [RAdmit w; RClose w' Released] => str_eqb w w'
  | _ => false
  end.

(** The answer to a plain request on [wid]: nothing (a retry, or a lost slot), a
    closing, or a failure and a closing. *)
Definition reply_trace (wid : string) (tr : list RLabel) : bool :=
  match tr with
  | [] => true
  | [RClose w _] => str_eqb w wid
  | [RFail w thr; RClose w' Failed] => str_eqb w wid && (thr =? 3)%Z && str_eqb w' wid
  | _ => false
  end.

(** The opening of a stream gives its slot back or keeps it. *)
Definition open_trace (wid : string) (tr : list RLabel) : bool :=
  match tr with [] => true | [RClose w Released] => str_eqb w wid | _ => false end.

(** A refused stream is a failed completion, and a 5xx counts for the breaker. *)
Definition refuse_trace (wid : string) (tr : list RLabel) : bool :=
  match tr with
  | [] => true
  | [RClose w Failed] => str_eqb w wid
  | [RClose w Failed; RFail w' thr] => str_eqb w wid && (thr =? 3)%Z && str_eqb w' wid
  | _ => false
  end.

(** The end of a stream: a failed one counts for the breaker first. *)
Definition end_trace (wid : string) (tr : list RLabel) : bool :=
  match tr with
  | [] => true
  | [RClose w _] => str_eqb w wid
  | [RFail w thr] => str_eqb w wid && (thr =? 3)%Z
  | [RFail w thr; RClose w' _] => str_eqb w wid && (thr =? 3)%Z && str_eqb w' wid
  | _ => false
  end.

Lemma str_eqb_refl (w : string) : str_eqb w w = true.
Proof. by apply bool_decide_eq_true. Qed.

Lemma open_trace_inv wid tr : open_trace wid tr = true -> tr = [] \/ tr = [RClose wid Released].
Proof.
  destruct tr as [|[] [|? ?]]; simpl; try done; [by left|destruct k; try done..].
  intros ->%bool_decide_eq_true. by right.
Qed.

Ltac trace_ok := simpl; rewrite ?str_eqb_refl; done.

Section Steps.
Context {F : Type} {PF : PyFloat F}.
Variables (exc_text : PyExc -> string) (g : GwCfg F).
Context (M : list RLabel -> list string -> list string -> Sched F -> Sched F -> Prop).
Context {SM : SlotMoves (gw_sched_cfg g) M}.
Implicit Types (gw : Gateway F) (tk : Ticket F).

(** Some trace of the language [L] moves the slots. *)
Definition moves_in (L : list RLabel -> bool) (held held' : list string) (s s' : Sched F) : Prop :=
  exists tr, L tr = true /\ M tr held held' s s'.

Lemma moves_in_refl L h s : L [] = true -> moves_in L h h s s.
Proof. intros H. exists []. split; [done|apply sm_refl]. Qed.

Lemma release_in L wid s :
  L [RClose wid Released] = true -> moves_in L [wid] [] s (release wid s).
Proof. intros H. eexists. split; [exact H|apply sm_release]. Qed.

(** A failure keeps every slot. *)
Lemma failure_moves h wid s :
  M [RFail wid 3] h h s (note_failure wid failure_threshold s).1.
Proof.
  apply (sm_admin h s (OpNoteFailure wid failure_threshold)). intros open. constructor.
Qed.

(** The slot a coroutine holds after a stretch. *)
Definition json_held (r : JsonStep F) : list string :=
  match r with JSend _ tk _ | JDropped tk _ => [tk_worker tk] | _ => [] end.
Definition stream_held (r : StreamStep F) : list string :=
  match r with
  | SSend _ _ _ _ tk _ | SErrBody tk _ | SStreaming tk _ _ | SDropped tk _ => [tk_worker tk]
  | _ => []
  end.
Definition ticket_held (r : @Admission F) : list string :=
  match r with AdTicket tk => [tk_worker tk] | _ => [] end.

Lemma admit_moves b chat tier allowed gw :
  let r := admit_request g b chat tier allowed gw in
  exists tr, match r.2 with
             | AdTicket tk => tr = [RAdmit (tk_worker tk)]
             | _ => tr = [] \/ tr = [RReject]
             end /\ M tr [] (ticket_held r.2) (gw_sched gw) (gw_sched r.1).
Proof.
  cbv zeta. unfold admit_request.
  destruct (extract_prompt b) as [p|]; [|exists []; split; [by left|apply sm_refl]].
  destruct (feature_tokens _ _ p b) as [n|]; [|exists []; split; [by left|apply sm_refl]].
  pose proof (sm_pick p tier (Some n) allowed (gw_sched gw)) as H. cbv zeta in H.
  destruct (pick _ _ _ _ _ _) as [s' [[wid d]|[]]]; (eexists; split; [|exact H]); simpl;
    [done|by right..].
Qed.

Lemma send_json_moves gw tk chat b retried :
  let r := send_json exc_text g gw tk chat b retried in
  moves_in (open_trace (tk_worker tk)) [tk_worker tk] (json_held r.2) (gw_sched gw) (gw_sched r.1).
Proof.
  cbv zeta. unfold send_json. destruct (forward_to _ _ _ _ _); simpl;
    [by apply moves_in_refl|apply release_in; trace_ok].
Qed.

Lemma json_start_moves b chat tier allowed gw :
  let r := json_start exc_text g b chat tier allowed gw in
  moves_in start_trace [] (json_held r.2) (gw_sched gw) (gw_sched r.1).
Proof.
  cbv zeta. unfold json_start. pose proof (admit_moves b chat tier allowed gw) as H.
  cbv zeta in H. destruct H as (tr & Htr & H).
  destruct (admit_request _ _ _ _ _ _) as [gw' [tk|m r|e]]; simpl in *;
    [|exists tr; split; [by destruct Htr as [->| ->]|done]..].
  destruct (send_json_moves gw' tk chat b false) as (tr' & Htr' & H').
  exists (tr ++ tr')%list. split; [|by eapply sm_trans].
  assert (Hopen : tr' = [] \/ tr' = [RClose (tk_worker tk) Released])
    by (by apply open_trace_inv).
  subst tr. destruct Hopen as [->| ->]; trace_ok.
Qed.

Lemma json_finish_moves tk status parsed text ck gw :
  let r := json_finish g tk status parsed text ck gw in
  moves_in (reply_trace (tk_worker tk)) [tk_worker tk] (json_held r.2) (gw_sched gw) (gw_sched r.1).
Proof.
  cbv zeta. unfold json_finish. destruct (pool_get _ _) as [be|e]; [|by apply moves_in_refl].
  destruct (read_answer _ _ _ _ _ _ _) as [data reported].
  assert (H : moves_in (reply_trace (tk_worker tk)) [tk_worker tk] []
    (gw_sched gw) (gw_sched (gw_feedback g tk ck (status <? 400)
      (if 500 <=? status then gw_note_failure (tk_worker tk) gw else gw)))).
  { destruct (Z.leb_spec 500 status).
    - assert (E : (status <? 400) = false) by (apply Z.ltb_ge; lia). rewrite E.
      eexists. split; [|eapply sm_trans; [apply failure_moves|apply sm_feedback]]. trace_ok.
    - eexists. split; [|apply sm_feedback]. trace_ok. }
  destruct (400 <=? status); exact H.
Qed.

Lemma json_reply_moves tk retried r ck gw :
  let x := json_reply exc_text g tk retried r ck gw in
  moves_in (reply_trace (tk_worker tk)) [tk_worker tk] (json_held x.2) (gw_sched gw) (gw_sched x.1).
Proof.
  cbv zeta. unfold json_reply. destruct r as [status parsed text|m|].
  - destruct (_ && _); [|apply json_finish_moves].
    destruct (send_json_moves gw tk false (completions_fallback tk) true) as (tr & Htr & H).
    exists tr. split; [|exact H]. apply open_trace_inv in Htr as [->| ->]; trace_ok.
  - apply release_in. trace_ok.
  - by apply moves_in_refl.
Qed.

Lemma relay_start_moves b chat tier allowed gw :
  let x := relay_start g b chat tier allowed gw in
  moves_in start_trace [] (stream_held x.2) (gw_sched gw) (gw_sched x.1).
Proof.
  cbv zeta. unfold relay_start. pose proof (admit_moves b chat tier allowed gw) as H.
  cbv zeta in H. destruct H as (tr & Htr & H). exists tr.
  destruct (admit_request _ _ _ _ _ _) as [gw' [tk|m r|e]]; simpl in *;
    [|split; [by destruct Htr as [->| ->]|done]..].
  subst tr. by destruct (pool_get _ _).
Qed.

Lemma ollama_start_moves b chat tier allowed gw :
  let x := ollama_start g b chat tier allowed gw in
  moves_in start_trace [] (stream_held x.2) (gw_sched gw) (gw_sched x.1).
Proof.
  cbv zeta. unfold ollama_start. pose proof (admit_moves b chat tier allowed gw) as H.
  cbv zeta in H. destruct H as (tr & Htr & H). exists tr.
  destruct (admit_request _ _ _ _ _ _) as [gw' [tk|m r|e]]; simpl in *;
    [|split; [by destruct Htr as [->| ->]|done]..].
  subst tr. by destruct (pool_get _ _).
Qed.

Lemma stream_opened_moves tk r gw :
  let x := stream_opened g tk r gw in
  moves_in (open_trace (tk_worker tk)) [tk_worker tk] (stream_held x.2) (gw_sched gw) (gw_sched x.1).
Proof.
  cbv zeta. destruct r as [status|m| |]; simpl;
    [|apply release_in; trace_ok|by apply moves_in_refl..].
  destruct (400 <=? status); by apply moves_in_refl.
Qed.

Lemma ollama_opened_moves url payload headers timeout tk rb r drain gw :
  let x := ollama_opened g url payload headers timeout tk rb r drain gw in
  moves_in (open_trace (tk_worker tk)) [tk_worker tk] (stream_held x.2) (gw_sched gw) (gw_sched x.1).
Proof.
  cbv zeta. unfold ollama_opened. destruct r as [status|m|m|]; try apply stream_opened_moves.
  destruct (_ && _); [|apply (stream_opened_moves tk (Opened status))].
  destruct drain; simpl; [by apply moves_in_refl|apply release_in; trace_ok|by apply moves_in_refl].
Qed.

Lemma refused_moves tk status ck gw :
  moves_in (refuse_trace (tk_worker tk)) [tk_worker tk] [] (gw_sched gw)
    (gw_sched (refused g tk status ck gw)).
Proof.
  unfold refused. destruct (500 <=? status).
  - eexists. split; [|eapply sm_trans; [apply sm_feedback|apply failure_moves]]. trace_ok.
  - eexists. split; [|apply sm_feedback]. trace_ok.
Qed.

Lemma relay_refused_moves tk status r ck gw :
  let x := relay_refused g tk status r ck gw in
  moves_in (refuse_trace (tk_worker tk)) [tk_worker tk] (stream_held x.2) (gw_sched gw) (gw_sched x.1).
Proof. cbv zeta. destruct r; [apply refused_moves|by apply moves_in_refl]. Qed.

Lemma ollama_refused_moves tk status r ck gw :
  let x := ollama_refused g tk status r ck gw in
  moves_in (refuse_trace (tk_worker tk)) [tk_worker tk] (stream_held x.2) (gw_sched gw) (gw_sched x.1).
Proof. cbv zeta. destruct r; [apply refused_moves|by apply moves_in_refl]. Qed.

Lemma stream_end_moves tk e ok (closes : bool) ck gw :
  moves_in (end_trace (tk_worker tk)) [tk_worker tk] (if closes then [] else [tk_worker tk])
    (gw_sched gw) (gw_sched (stream_end g tk e ok closes ck gw)).
Proof.
  unfold stream_end. destruct closes.
  - destruct e as [|m| |]; (eexists; split;
      [|first [eapply sm_trans; [apply failure_moves|apply sm_feedback]
              |apply sm_release|apply sm_feedback]]); trace_ok.
  - destruct e as [|m| |]; (eexists; split; [|first [apply failure_moves|apply sm_refl]]); trace_ok.
Qed.
End Steps.
