(* ===== verification/GatewayInv.v ===== *)
(** Invariants of the whole gateway: which slots its requests hold, that the scheduler
    is always in the state of a client holding exactly these, and that every ticket
    finds its backend. *)

From S2P Require Import Prelude PyFloat PyStr PyDict Json Config EngineMetrics Learner.
From S2P Require Import LearnerFacts Scheduler SchedulerFacts PickFacts Setup Accounting Router.
From S2P Require Import Backends Requests OllamaStream Proxy Routes Gateway GatewayFacts.

(** ** Slots of a world *)

Section Slots.
Context {F : Type} {PF : PyFloat F}.
Variables (exc_text : PyExc -> string) (g : GwCfg F).
Implicit Types (w : World F) (gw : Gateway F) (ev : Event F).

Local Abbreviation wstep := (wstep exc_text g).
Local Abbreviation wrun := (wrun exc_text g).

Definition in_flight w : list string := map (fun kv => flight_worker kv.2) (w_flights w).
Definition slots w : list string := (in_flight w ++ w_lost w)%list.

(** Everything but the slot of request [id]. *)
Definition rest w (id : Z) : list string :=
  (map (fun kv => flight_worker kv.2) (dpop id (w_flights w)) ++ w_lost w)%list.

(** The scheduler is a client's that holds exactly these slots; request numbers are
    distinct and new ones are fresh. *)
Record world_ok w : Prop := mkWorldOk {
  wk_client : exists open, open ≡ₚ slots w /\ client true (gw_sched_cfg g) (gw_sched (w_gw w)) open;
  wk_ids : dict_wf (w_flights w);
  wk_next : forall id, id ∈ dkeys (w_flights w) -> id < w_next w
}.

Lemma dpop_absent {V} (k : Z) (d : list (Z * V)) : k ∉ dkeys d -> dpop k d = d.
Proof.
  intros H. induction d as [|[k' v'] d IH]; [done|]. simpl in *.
  rewrite decide_False by set_solver. f_equal. apply IH. set_solver.
Qed.

Lemma dset_pop_perm {V} (k : Z) (v : V) d : dict_wf d -> dset k v d ≡ₚ (k, v) :: dpop k d.
Proof.
  unfold dict_wf. induction d as [|[k' v'] d IH]; simpl; [done|].
  intros [Hn Hd]%NoDup_cons. case_decide as E; [subst; by rewrite dpop_absent|].
  rewrite IH by done. apply Permutation_swap.
Qed.

Lemma pop_present_perm {V} (k : Z) (v : V) d :
  dict_wf d -> dget k d = Some v -> d ≡ₚ (k, v) :: dpop k d.
Proof. intros Hd Hg. rewrite <- (dset_id k v d Hg) at 1. by apply dset_pop_perm. Qed.

Lemma slots_put id f gw w :
  dict_wf (w_flights w) -> slots (put id f gw w) ≡ₚ flight_worker f :: rest w id.
Proof.
  intros Hd. unfold slots, in_flight, rest, put. simpl. by rewrite (dset_pop_perm id f).
Qed.

Lemma slots_finish id gw w : slots (finish id gw w) = rest w id.
Proof. done. Qed.

Lemma slots_lose id tk gw w : slots (lose id tk gw w) ≡ₚ tk_worker tk :: rest w id.
Proof. unfold slots, in_flight, rest, lose. simpl. by rewrite Permutation_middle. Qed.

Lemma slots_present w id f :
  dict_wf (w_flights w) -> dget id (w_flights w) = Some f ->
  slots w ≡ₚ flight_worker f :: rest w id.
Proof.
  intros Hd Hg. unfold slots, in_flight, rest. by rewrite (pop_present_perm id f) at 1.
Qed.

Lemma slots_absent w id : id ∉ dkeys (w_flights w) -> slots w = rest w id.
Proof. intros H. unfold slots, in_flight, rest. by rewrite dpop_absent. Qed.

(** No backend is added under the name of one that still has a slot open: [register]
    replaces the worker, and its count starts again at zero. *)
Definition idle_add w ev : bool :=
  match ev with EvAddBackend be => bool_decide (b_id be ∉ slots w) | _ => true end.

Fixpoint idle_adds w (evs : list (Event F)) : bool :=
  match evs with
  | [] => true
  | ev :: evs' => idle_add w ev && idle_adds (wstep w ev).1 evs'
  end.

Definition adds ev : bool := match ev with EvAddBackend _ => true | _ => false end.

(** The traces an event may have: completions concern the worker of their own request
    only. *)
Definition explains w ev (tr : list RLabel) : bool :=
  match event_flight ev with
  | Some id =>
    match dget id (w_flights w) with
    | Some f =>
      match ev with
      | EvAnswer _ _ _ _ => reply_trace (flight_worker f) tr
      | EvOpened _ _ _ => open_trace (flight_worker f) tr
      | EvRefusal _ _ _ => refuse_trace (flight_worker f) tr
      | EvEnd _ _ _ _ => end_trace (flight_worker f) tr
      | _ => bool_decide (tr = [])
      end
    | None => bool_decide (tr = [])
    end
  | None =>
    match ev with
    | EvRequest _ _ _ => start_trace tr
    | EvAddBackend be => bool_decide (tr = [RJoin (b_id be)])
    | EvResetStats => bool_decide (tr = [RReset])
    | EvHealth get be =>
      bool_decide (exists h, h ∈ [true; false] /\ tr = [RProbe (b_id be) h])
    | _ => bool_decide (tr = [])
    end
  end.

(** ** Steps move the slots of a world *)

Definition ids_ok w : Prop :=
  dict_wf (w_flights w) /\ forall id, id ∈ dkeys (w_flights w) -> id < w_next w.

Lemma ids_of w : world_ok w -> ids_ok w.
Proof. intros [_ Hd Hn]. by split. Qed.

Lemma fresh_id w : ids_ok w -> w_next w ∉ dkeys (w_flights w).
Proof. intros [_ Hn] Hi. apply Hn in Hi. lia. Qed.

Lemma ids_put id f gw w : ids_ok w -> ids_ok (put id f gw w).
Proof.
  intros [Hd Hn]. split; [by apply dict_wf_dset|]. simpl.
  intros i [->|Hi]%elem_of_dkeys_dset; [lia|]. apply Hn in Hi. lia.
Qed.

Lemma ids_pop id gw w lost :
  ids_ok w -> ids_ok (mkWorld gw (dpop id (w_flights w)) (Z.max (w_next w) (id + 1)) lost).
Proof.
  intros [Hd Hn]. split; [by apply dict_wf_dpop|]. intros i Hi. simpl in *.
  rewrite dkeys_dpop in Hi. apply list_elem_of_filter in Hi as [_ Hi]. apply Hn in Hi. lia.
Qed.

Section WorldMoves.
Context (M : list RLabel -> list string -> list string -> Sched F -> Sched F -> Prop).
Context {SM : SlotMoves (gw_sched_cfg g) M}.
Local Abbreviation moves_in := (moves_in M).

(** A step of the world whose trace is in [L]: some slots are turned into others by it,
    the rest stays. *)
Definition world_moves (L : list RLabel -> bool) w w' : Prop :=
  ids_ok w' /\
  exists held held' r, slots w ≡ₚ held ++ r /\ slots w' ≡ₚ held' ++ r /\
    moves_in L held held' (gw_sched (w_gw w)) (gw_sched (w_gw w')).

Lemma world_stays L w : L [] = true -> ids_ok w -> world_moves L w w.
Proof. intros HL Hw. split; [done|]. exists [], [], (slots w). split_and!; try done. by apply (moves_in_refl g). Qed.

Lemma world_put L held id f gw w :
  slots w ≡ₚ held ++ rest w id -> ids_ok w ->
  moves_in L held [flight_worker f] (gw_sched (w_gw w)) (gw_sched gw) ->
  world_moves L w (put id f gw w).
Proof.
  intros E Hw H. split; [by apply ids_put|]. exists held, [flight_worker f], (rest w id).
  split_and!; [done|apply slots_put, Hw|done].
Qed.

Lemma world_finish L held id gw w :
  slots w ≡ₚ held ++ rest w id -> ids_ok w ->
  moves_in L held [] (gw_sched (w_gw w)) (gw_sched gw) -> world_moves L w (finish id gw w).
Proof. intros E Hw H. split; [by apply ids_pop|]. by exists held, [], (rest w id). Qed.

Lemma world_lose L held id tk gw w :
  slots w ≡ₚ held ++ rest w id -> ids_ok w ->
  moves_in L held [tk_worker tk] (gw_sched (w_gw w)) (gw_sched gw) ->
  world_moves L w (lose id tk gw w).
Proof.
  intros E Hw H. split; [by apply ids_pop|]. exists held, [tk_worker tk], (rest w id).
  split_and!; [done|apply slots_lose|done].
Qed.

Lemma json_next_moves L held id post iso r w :
  slots w ≡ₚ held ++ rest w id -> ids_ok w ->
  moves_in L held (json_held r.2) (gw_sched (w_gw w)) (gw_sched r.1) ->
  world_moves L w (json_next id post iso r w).1.
Proof.
  intros E Hw H. destruct r as [gw [req tk retried|resp|e|tk e]]; simpl in *;
    [by eapply world_put|by eapply world_finish..|by eapply world_lose].
Qed.

Lemma stream_next_moves L held id ollama r w :
  slots w ≡ₚ held ++ rest w id -> ids_ok w ->
  moves_in L held (stream_held r.2) (gw_sched (w_gw w)) (gw_sched r.1) ->
  world_moves L w (stream_next id ollama r w).1.
Proof.
  intros E Hw H. destruct r as [gw [u p h t tk rb|tk st|tk st h|rp|e|tk e]]; simpl in *;
    first [by eapply world_finish|by eapply world_lose|by eapply world_put|idtac].
  eapply world_put; [done..|]. by destruct ollama.
Qed.

Lemma request_moves rt b iso w :
  ids_ok w -> world_moves start_trace w (request exc_text g rt b iso w).1.
Proof.
  intros Hw. assert (E : slots w ≡ₚ [] ++ rest w (w_next w)).
  { by rewrite (slots_absent w _ (fresh_id w Hw)). }
  unfold request. destruct (dispatch rt g (w_gw w) b) as [[r|b' ch al post|b' ch al|b' ch al]|e];
    try by apply world_stays.
  - eapply json_next_moves; [done..|]. by apply json_start_moves.
  - eapply stream_next_moves; [done..|]. by apply relay_start_moves.
  - eapply stream_next_moves; [done..|]. by apply ollama_start_moves.
Qed.

Lemma end_stream_moves id f e closes ck w :
  dget id (w_flights w) = Some f -> ids_ok w ->
  world_moves (end_trace (flight_worker f)) w (end_stream g id f e closes ck w).1.
Proof.
  intros Hg Hw. pose proof (slots_present w id f (proj1 Hw) Hg) as E.
  assert (Hclose : forall tk ok, flight_worker f = tk_worker tk ->
    world_moves (end_trace (flight_worker f)) w (if closes : bool
              then finish id (stream_end g tk e ok closes ck (w_gw w)) w
              else lose id tk (stream_end g tk e ok closes ck (w_gw w)) w)).
  { intros tk ok Hf. rewrite Hf in *.
    pose proof (stream_end_moves g M tk e ok closes ck (w_gw w)) as H. destruct closes.
    - by apply (world_finish _ [tk_worker tk]).
    - by apply (world_lose _ [tk_worker tk]). }
  destruct f as [tk rt po|ol u p h t tk rb|ol tk st|tk|tk og]; try by apply world_stays.
  { by apply Hclose. }
  simpl. destruct e; simpl; try (by apply Hclose).
  destruct (og_ok og); [by apply Hclose|by apply world_stays].
Qed.

Lemma resume_moves id f ev w :
  event_flight ev = Some id -> dget id (w_flights w) = Some f -> ids_ok w ->
  world_moves (explains w ev) w (resume exc_text g id f ev w).1.
Proof.
  intros Hev Hg Hw. pose proof (slots_present w id f (proj1 Hw) Hg) as E.
  assert (Hput : forall L f', L [] = true -> flight_worker f' = flight_worker f ->
            world_moves L w (put id f' (w_gw w) w)).
  { intros L f' HL Hf. apply (world_put _ [flight_worker f]); [done..|].
    rewrite Hf. by apply (moves_in_refl g). }
  assert (Hlose : forall L tk, L [] = true -> tk_worker tk = flight_worker f ->
            world_moves L w (lose id tk (w_gw w) w)).
  { intros L tk HL Hf. apply (world_lose _ [flight_worker f]); [done..|].
    rewrite Hf. by apply (moves_in_refl g). }
  unfold explains. rewrite Hev, Hg.
  destruct ev as [| i r iso ck | i r drain | i r ck | i text iso ck | i iso ck | i e closes ck | i
    | | | | |]; try done;
    destruct f as [tk rt po|ol u p h t tk rb|ol tk st|tk|tk og]; simpl in *;
    try (by apply world_stays); try (by apply Hput); try (by apply Hlose).
  - apply (json_next_moves _ [tk_worker tk]); [done..|]. by apply json_reply_moves.
  - apply (stream_next_moves _ [tk_worker tk]); [done..|].
    destruct ol; [by apply ollama_opened_moves|by apply stream_opened_moves].
  - apply (stream_next_moves _ [tk_worker tk]); [done..|].
    destruct ol; [by apply ollama_refused_moves|by apply relay_refused_moves].
  - destruct (ollama_chunk _ _ _ _ _ _) as [og' lines]. by apply Hput.
  - destruct (ollama_eof _ _ _ _ _) as [og' lines]. by apply Hput.
  - by apply (end_stream_moves id (FRelay tk)).
  - by apply (end_stream_moves id (FOllama tk og)).
Qed.

(** A call of the scheduler that concerns no request. *)
Lemma world_admin L o gw w :
  L (admin_trace o) = true -> (forall open, admin_call (gw_sched (w_gw w)) open o) ->
  gw_sched gw = step (gw_sched_cfg g) (gw_sched (w_gw w)) o -> ids_ok w ->
  world_moves L w (with_gw gw w).
Proof.
  intros HL Ho E Hw. split; [done|]. exists [], [], (slots w). split_and!; try done.
  exists (admin_trace o). split; [done|]. simpl. rewrite E. by apply sm_admin.
Qed.

Lemma chaos_moves v w :
  ids_ok w -> world_moves (fun tr => bool_decide (tr = [])) w (with_gw (chaos_vram v (w_gw w)).1 w).
Proof.
  intros Hw. assert (Hn : world_moves (fun tr => bool_decide (tr = [])) w (with_gw (w_gw w) w))
    by (destruct w; by apply world_stays).
  unfold chaos_vram. destruct (_ : result _ _) as [[wid free]|e]; [|done].
  destruct (negb _); [done|]. destruct wid as [| | | |s| |]; try done.
  apply (world_admin _ (OpSetVram s free)); [done| |done..]. constructor.
Qed.

Lemma metrics_moves now be r w :
  ids_ok w ->
  world_moves (fun tr => bool_decide (tr = [])) w (with_gw (metrics_turn now be r (w_gw w)) w).
Proof.
  intros Hw. assert (Hn : world_moves (fun tr => bool_decide (tr = [])) w (with_gw (w_gw w) w))
    by (destruct w; by apply world_stays).
  destruct r as [st text|]; simpl; [|done]. destruct (400 <=? st); [done|].
  destruct (snap_ok _); [|done].
  eapply (world_admin _ (OpSetEngine _ _)); [done| |reflexivity|done]. constructor.
Qed.

Lemma wstep_moves w ev :
  adds ev = false -> ids_ok w -> world_moves (explains w ev) w (wstep w ev).1.
Proof.
  intros Hf Hw. unfold Gateway.wstep. destruct (event_flight ev) as [id|] eqn:Ee.
  { destruct (dget id (w_flights w)) as [f|] eqn:Hg; [by apply resume_moves|].
    apply world_stays; [|done]. unfold explains. by rewrite Ee, Hg. }
  unfold explains. rewrite Ee.
  destruct ev as [rt b iso| | | | | | | |be|v| |get be|now be r]; try done; simpl.
  - by apply request_moves.
  - pose proof (chaos_moves v w Hw) as H. by destruct (chaos_vram v (w_gw w)).
  - apply (world_admin _ OpResetStats); [by apply bool_decide_eq_true| |done..]. constructor.
  - eapply (world_admin _ (OpSetHealthy _ _)); [| |reflexivity|done]; [|constructor].
    apply bool_decide_eq_true. eexists. split; [|reflexivity].
    destruct (probe_health get be); set_solver.
  - by apply metrics_moves.
Qed.
End WorldMoves.

(** ** Every step keeps a world well formed *)

(** Adding a backend moves no slot. *)
Lemma added_world w be :
  slots (wstep w (EvAddBackend be)).1 = slots w /\
  w_flights (wstep w (EvAddBackend be)).1 = w_flights w /\
  w_next (wstep w (EvAddBackend be)).1 = w_next w /\
  gw_sched (w_gw (wstep w (EvAddBackend be)).1)
  = step (gw_sched_cfg g) (gw_sched (w_gw w))
      (OpRegister (b_id be) (b_tier be) (b_total_vram_mb be) (Some (b_free_vram_mb be))).
Proof. done. Qed.

Lemma adds_spec ev : adds ev = true -> exists be, ev = EvAddBackend be.
Proof. destruct ev; try done. by eexists. Qed.

Lemma moved_ok L w w' :
  world_moves (fun _ => moves (gw_sched_cfg g)) L w w' -> world_ok w -> world_ok w'.
Proof.
  intros [[Hd Hn] (held & held' & r & E & E' & tr & _ & H)] [(open & Ho & Hc) _ _].
  constructor; [|done..]. destruct (H open r Hc) as (o & Eo & Hco); [by rewrite Ho|].
  exists o. split; [|done]. by rewrite Eo, E'.
Qed.

Lemma wstep_ok w ev : idle_add w ev = true -> world_ok w -> world_ok (wstep w ev).1.
Proof.
  intros Hf Hw. destruct (adds ev) eqn:Ea.
  - apply adds_spec in Ea as [be ->]. destruct Hw as [(open & Ho & Hc) Hd Hn].
    apply bool_decide_eq_true in Hf. destruct (added_world w be) as (Es & Ef & En & E).
    constructor; rewrite ?Ef, ?En; [|done..]. exists open. rewrite Es, E. split; [done|].
    apply cl_admin; [done|]. apply adm_replace. by rewrite Ho.
  - eapply moved_ok; [|done]. apply wstep_moves; [apply moves_laws|done|by apply ids_of].
Qed.

Lemma wrun_ok w evs : idle_adds w evs = true -> world_ok w -> world_ok (wrun w evs).
Proof.
  revert w; induction evs as [|ev evs IH]; intros w Hf Hw; [done|]. simpl in Hf. bool_hyps.
  apply IH; [done|]. by apply wstep_ok.
Qed.

(** *** The initial world *)

Definition keyed (p : list (string * Backend F)) : Prop :=
  dict_wf p /\ forall k be, (k, be) ∈ p -> b_id be = k.

Lemma keyed_add be p : keyed p -> keyed (pool_add be p).
Proof.
  intros [Hd Hk]. split; [by apply dict_wf_dset|]. intros k b' Hin.
  unfold pool_add in Hin. apply (dget_elem k b') in Hin; [|by apply dict_wf_dset].
  rewrite dget_dset in Hin. case_decide; [by injection Hin as ->|].
  apply Hk. by apply dget_Some_elem.
Qed.

Lemma keyed_init l : keyed (pool_init l).
Proof.
  unfold pool_init. assert (H : keyed []) by (split; [constructor|by intros ?? ?%not_elem_of_nil]).
  revert H. generalize (@nil (string * Backend F)). induction l as [|b l IH]; intros p H; [done|].
  simpl. apply IH. by apply keyed_add.
Qed.

Lemma keyed_ids p : keyed p -> map b_id (pool_list p) = dkeys p.
Proof.
  intros [_ H]. unfold pool_list, dvalues, dkeys. rewrite map_map. apply map_ext_in.
  intros [k be] Hin%list_elem_of_In. by apply H.
Qed.

Lemma register_all l s :
  NoDup (map b_id l) -> (forall be, be ∈ l -> dmem (b_id be) (predictors s) = false) ->
  forall open, client true (gw_sched_cfg g) s open ->
  client true (gw_sched_cfg g)
    (foldl (fun s be => register (gw_sched_cfg g) (b_id be) (b_tier be) (b_total_vram_mb be)
                          (Some (b_free_vram_mb be)) s) s l) open.
Proof.
  revert s; induction l as [|be l IH]; intros s Hnd Hf open Hc; [done|].
  simpl in *. apply NoDup_cons in Hnd as [Hn Hnd]. apply IH; [done| |].
  - intros b' Hb. specialize (Hf b' ltac:(set_solver)). unfold dmem in *. simpl.
    rewrite dget_dset_ne; [done|]. intros E. apply Hn. rewrite <- E.
    apply list_elem_of_In, in_map, list_elem_of_In, Hb.
  - apply (cl_admin _ _ _ _ (OpRegister (b_id be) (b_tier be) (b_total_vram_mb be)
                              (Some (b_free_vram_mb be))) Hc).
    constructor. apply Hf. set_solver.
Qed.

Lemma world_init_ok l : world_ok (world_init g l).
Proof.
  constructor; [|constructor|by intros ? ?%not_elem_of_nil].
  exists []. split; [done|]. simpl. apply register_all; [| |apply cl_init].
  - rewrite keyed_ids by apply keyed_init. apply keyed_init.
  - intros be _. done.
Qed.

Context {PL : PyFloatLaws F}.

(** The count of each worker is the number of slots on it. *)
Lemma ok_pending w wid :
  world_ok w ->
  pending_of (gw_sched (w_gw w)) wid = (open_on wid (in_flight w) + open_on wid (w_lost w))%Z.
Proof.
  intros [(open & E & H) _ _].
  rewrite (client_pending true (scheduler_args (gw_config g)) _ open wid H).
  unfold open_on. rewrite E. unfold slots. rewrite filter_app, length_app. lia.
Qed.

(** *** The bound that holds in every run *)

Definition world_bounded w : Prop :=
  ids_ok w /\ bounded (gw_sched_cfg g) (gw_sched (w_gw w)) (slots w).

Lemma wstep_bounded w ev : world_bounded w -> world_bounded (wstep w ev).1.
Proof.
  intros [Hd Hb]. destruct (adds ev) eqn:Ea.
  - apply adds_spec in Ea as [be ->]. destruct (added_world w be) as (Es & Ef & En & E).
    split; [unfold ids_ok; by rewrite Ef, En|]. rewrite Es, E. by apply bounded_idle_call.
  - destruct (wstep_moves _ (SM := bounded_laws (scheduler_args (gw_config g))) w ev Ea Hd)
      as [Hd' (held & held' & r & Eh & Eh' & _ & _ & H)].
    split; [done|]. eapply bounded_perm; [symmetry; exact Eh'|]. apply H.
    by eapply bounded_perm.
Qed.

Lemma wrun_bounded w evs : world_bounded w -> world_bounded (wrun w evs).
Proof.
  revert w; induction evs as [|ev evs IH]; intros w Hw; [done|]. by apply IH, wstep_bounded.
Qed.

Lemma world_init_bounded l : world_bounded (world_init g l).
Proof.
  pose proof (world_init_ok l) as Hw. split; [by apply ids_of|].
  destruct Hw as [(open & Ho & Hc) _ _]. eapply bounded_perm; [exact Ho|].
  split; [by apply (client_sched_inv (scheduler_args (gw_config g)) _ open)|]. intros wid.
  rewrite (client_pending true (scheduler_args (gw_config g)) _ open wid Hc).
  pose proof (open_on_nonneg wid open). lia.
Qed.

(** The count of a worker is at most the number of slots on it. *)
Lemma bounded_pending w wid :
  world_bounded w ->
  0 <= pending_of (gw_sched (w_gw w)) wid
    <= (open_on wid (in_flight w) + open_on wid (w_lost w))%Z.
Proof.
  intros [_ [_ H]]. specialize (H wid). unfold slots, open_on in *.
  rewrite filter_app, length_app in H. lia.
Qed.
End Slots.

(** ** Every ticket finds its backend *)

Section Covered.
Context {F : Type} {PF : PyFloat F} {PL : PyFloatLaws F}.
Variables (exc_text : PyExc -> string) (g : GwCfg F).
Implicit Types (w : World F) (gw : Gateway F) (ev : Event F) (tk : Ticket F).

Local Abbreviation wstep := (wstep exc_text g).
Local Abbreviation wrun := (wrun exc_text g).

Definition pool_has gw (wid : string) : Prop := wid ∈ dkeys (gw_pool gw).
Definition gw_covered gw : Prop :=
  forall wid, wid ∈ dkeys (predictors (gw_sched gw)) -> pool_has gw wid.

(** A stretch that registers nothing. *)
Definition steady gw gw' : Prop :=
  gw_pool gw' = gw_pool gw /\
  dkeys (predictors (gw_sched gw')) = dkeys (predictors (gw_sched gw)).

Lemma steady_refl gw : steady gw gw.
Proof. done. Qed.
Lemma steady_trans g1 g2 g3 : steady g1 g2 -> steady g2 g3 -> steady g1 g3.
Proof. intros [H1 H2] [H3 H4]. split; congruence. Qed.
Lemma steady_covered gw gw' : steady gw gw' -> gw_covered gw -> gw_covered gw'.
Proof. intros [Hp Hk] H wid. unfold pool_has. rewrite Hp, Hk. apply H. Qed.

Lemma steady_release wid gw : steady gw (gw_release wid gw).
Proof. split; [done|]. apply dkeys_dalter. Qed.

Lemma steady_feedback tk ck ok gw : steady gw (gw_feedback g tk ck ok gw).
Proof.
  split; [done|]. unfold gw_feedback. simpl. rewrite feedback_workers.
  destruct (dget _ _) as [lr|] eqn:E; [|done]. apply dkeys_dset_present, dget_is_Some. by eexists.
Qed.

Lemma steady_failure wid gw : steady gw (gw_note_failure wid gw).
Proof.
  split; [done|]. unfold gw_note_failure, note_failure. simpl.
  destruct (_ && _); [apply dkeys_dalter|done].
Qed.

Lemma pick_keys c p t n al s :
  sched_inv c s ->
  dkeys (predictors (pick c p t n al s).1) = dkeys (predictors s) /\
  match (pick c p t n al s).2 with Ok (wid, _) => wid ∈ dkeys (predictors s) | Err _ => True end.
Proof.
  intros Hi. destruct (pick c p t n al s) as [s' [[wid d]|e]] eqn:E; simpl.
  - destruct (pick_ok _ _ _ _ _ _ _ _ _ E) as (Hin & _ & [Hw _ _ _ _] & _). rewrite Hw.
    split; [apply dkeys_dalter|]. by apply eligible_registered in Hin.
  - destruct (pick_err _ _ _ _ _ _ _ _ Hi E) as ([Hs _] & _). by rewrite Hs.
Qed.

(** What the world must satisfy for the next step. *)
Definition gw_ok gw : Prop := sched_inv (gw_sched_cfg g) (gw_sched gw) /\ gw_covered gw.

Lemma admit_steady b chat tier allowed gw :
  gw_ok gw ->
  let r := admit_request g b chat tier allowed gw in
  steady gw r.1 /\ match r.2 with AdTicket tk => pool_has gw (tk_worker tk) | _ => True end.
Proof.
  intros [Hi Hc]. cbv zeta. unfold admit_request.
  destruct (extract_prompt b) as [p|]; [|done].
  destruct (feature_tokens _ _ p b) as [n|]; [|done].
  pose proof (pick_keys (gw_sched_cfg g) p tier (Some n) allowed (gw_sched gw) Hi) as H.
  destruct (pick _ _ _ _ _ _) as [s' [[wid d]|[]]]; simpl in *; destruct H as [Hk Hw];
    (split; [by split|]); try done. by apply Hc.
Qed.

Definition json_covered gw (r : Gateway F * JsonStep F) : Prop :=
  steady gw r.1 /\
  match r.2 with
  | JSend _ tk _ => pool_has gw (tk_worker tk)
  | JDropped _ _ => False
  | _ => True
  end.

Lemma send_json_covered gw tk chat b retried :
  pool_has gw (tk_worker tk) -> json_covered gw (send_json exc_text g gw tk chat b retried).
Proof.
  intros Hp. unfold send_json. destruct (forward_to _ _ _ _ _); split; try done.
  apply steady_release.
Qed.

Lemma pool_get_has gw wid : pool_has gw wid -> exists be, pool_get wid (gw_pool gw) = Ok be.
Proof.
  intros H. apply dget_is_Some in H as [be H]. exists be. unfold pool_get. by rewrite H.
Qed.

Lemma json_start_covered b chat tier allowed gw :
  gw_ok gw -> json_covered gw (json_start exc_text g b chat tier allowed gw).
Proof.
  intros Hg. unfold json_start. destruct (admit_steady b chat tier allowed gw Hg) as [Hs Hp].
  destruct (admit_request _ _ _ _ _ _) as [gw' [tk|m r|e]]; simpl in *; [|by split..].
  assert (Hp' : pool_has gw' (tk_worker tk)) by (unfold pool_has; by rewrite (proj1 Hs)).
  destruct (send_json_covered gw' tk chat b false Hp') as [Hs2 H2].
  split; [by eapply steady_trans|]. destruct (send_json _ _ _ _ _ _ _).2 eqn:E; try done.
  unfold pool_has in *. by rewrite <- (proj1 Hs).
Qed.

Definition json_orderly (r : HttpReply F) : bool :=
  match r with HCancelled => false | _ => true end.

Lemma json_reply_covered tk retried r ck gw :
  pool_has gw (tk_worker tk) -> json_orderly r = true ->
  json_covered gw (json_reply exc_text g tk retried r ck gw).
Proof.
  intros Hp Ho. destruct r as [status parsed text|m|]; simpl; [|split; [apply steady_release|done]|done].
  destruct (_ && _); [by apply send_json_covered|].
  unfold json_finish. destruct (pool_get_has gw _ Hp) as [be ->].
  destruct (read_answer _ _ _ _ _ _ _) as [data rep].
  assert (H : steady gw (gw_feedback g tk ck (status <? 400)
      (if 500 <=? status then gw_note_failure (tk_worker tk) gw else gw))).
  { eapply steady_trans; [|apply steady_feedback].
    destruct (500 <=? status); [apply steady_failure|done]. }
  destruct (400 <=? status); by split.
Qed.

Definition stream_covered gw (r : Gateway F * StreamStep F) : Prop :=
  steady gw r.1 /\
  match r.2 with
  | SSend _ _ _ _ tk _ | SErrBody tk _ | SStreaming tk _ _ => pool_has gw (tk_worker tk)
  | SDropped _ _ => False
  | _ => True
  end.

Lemma relay_start_covered b chat tier allowed gw :
  gw_ok gw -> stream_covered gw (relay_start g b chat tier allowed gw).
Proof.
  intros Hg. unfold relay_start. destruct (admit_steady b chat tier allowed gw Hg) as [Hs Hp].
  destruct (admit_request _ _ _ _ _ _) as [gw' [tk|m r|e]]; simpl in *; [|by split..].
  destruct (pool_get_has gw _ Hp) as [be Hb]. rewrite <- (proj1 Hs) in Hb. rewrite Hb. by split.
Qed.

Lemma ollama_start_covered b chat tier allowed gw :
  gw_ok gw -> stream_covered gw (ollama_start g b chat tier allowed gw).
Proof.
  intros Hg. unfold ollama_start. destruct (admit_steady b chat tier allowed gw Hg) as [Hs Hp].
  destruct (admit_request _ _ _ _ _ _) as [gw' [tk|m r|e]]; simpl in *; [|by split..].
  destruct (pool_get_has gw _ Hp) as [be Hb]. rewrite <- (proj1 Hs) in Hb. rewrite Hb. by split.
Qed.

Definition open_orderly (r : OpenReply) (drain : Drain) : bool :=
  match r, drain with
  | (OpenBuildFailed _ | OpenCancelled), _ | _, DrainCancelled => false
  | _, _ => true
  end.

Lemma stream_opened_covered tk r drain gw :
  pool_has gw (tk_worker tk) -> open_orderly r drain = true ->
  stream_covered gw (stream_opened g tk r gw).
Proof.
  intros Hp Ho. destruct r as [st|m| |]; simpl; try done.
  - by destruct (400 <=? st).
  - split; [apply steady_release|done].
Qed.

Lemma ollama_opened_covered url p h t tk rb r drain gw :
  pool_has gw (tk_worker tk) -> open_orderly r drain = true ->
  stream_covered gw (ollama_opened g url p h t tk rb r drain gw).
Proof.
  intros Hp Ho. pose proof (stream_opened_covered tk r drain gw Hp Ho) as H.
  destruct r as [st|m|m|]; try exact H; [|done]. unfold ollama_opened.
  destruct (_ && _); [|exact H]. destruct drain; try done. split; [apply steady_release|done].
Qed.

Lemma steady_refused tk status ck gw : steady gw (refused g tk status ck gw).
Proof.
  unfold refused. eapply steady_trans; [apply steady_feedback|].
  destruct (500 <=? status); [apply steady_failure|done].
Qed.

Lemma steady_stream_end tk e ok closes ck gw : steady gw (stream_end g tk e ok closes ck gw).
Proof.
  unfold stream_end.
  assert (H : steady gw (match e with
    | EndFailed _ => gw_note_failure (tk_worker tk) gw | _ => gw end))
    by (destruct e; first [apply steady_failure|done]).
  destruct closes; [|done]. eapply steady_trans; [exact H|].
  destruct e; first [apply steady_feedback|apply steady_release].
Qed.

(** *** Orderly events *)

(** The event is none of those that end a request without giving its slot back: a
    cancelled await of a plain request or of an opening stream, a failure to build
    the stream's request or to read the body of its refusal, a failing
    [aclose()], a response dropped before its generator starts. *)
Definition orderly ev : bool :=
  match ev with
  | EvAnswer _ r _ _ => json_orderly r
  | EvOpened _ r d => open_orderly r d
  | EvRefusal _ BodyLost _ => false
  | EvEnd _ _ closes _ => closes
  | EvAbandon _ => false
  | _ => true
  end.

Record world_covered w : Prop := mkCovered {
  wc_gw : gw_covered (w_gw w);
  wc_flights : forall id f, (id, f) ∈ w_flights w -> pool_has (w_gw w) (flight_worker f)
}.

Lemma steady_has gw gw' wid : steady gw gw' -> pool_has gw wid -> pool_has gw' wid.
Proof. intros [Hp _] H. unfold pool_has. by rewrite Hp. Qed.

Lemma covered_put id f gw w :
  steady (w_gw w) gw -> world_ok g w -> world_covered w ->
  pool_has (w_gw w) (flight_worker f) -> world_covered (put id f gw w).
Proof.
  intros Hs Hw [Hg Hf] Hp. constructor; [by eapply steady_covered|]. simpl.
  intros i f' Hin. apply (dget_elem i f') in Hin; [|apply dict_wf_dset, Hw].
  rewrite dget_dset in Hin. eapply steady_has; [exact Hs|].
  case_decide; [by injection Hin as <-|]. apply (Hf i). by apply dget_Some_elem.
Qed.

Lemma covered_pop id gw w n lost :
  steady (w_gw w) gw -> world_ok g w -> world_covered w ->
  world_covered (mkWorld gw (dpop id (w_flights w)) n lost).
Proof.
  intros Hs Hw [Hg Hf]. constructor; [by eapply steady_covered|]. simpl.
  intros i f' Hin. apply (dget_elem i f') in Hin; [|apply dict_wf_dpop, Hw].
  rewrite dget_dpop in Hin. case_decide; [done|]. eapply steady_has; [exact Hs|].
  apply (Hf i). by apply dget_Some_elem.
Qed.

Definition kept w w' : Prop := w_lost w' = w_lost w /\ world_covered w'.

Lemma json_next_kept id post iso r w :
  json_covered (w_gw w) r -> world_ok g w -> world_covered w ->
  kept w (json_next id post iso r w).1.
Proof.
  intros [Hs Hr] Hw Hc. destruct r as [gw [req tk rt|resp|e|tk e]]; simpl in *; try done;
    (split; [done|]); first [by apply covered_put|by apply covered_pop].
Qed.

Lemma stream_next_kept id ollama r w :
  stream_covered (w_gw w) r -> world_ok g w -> world_covered w ->
  kept w (stream_next id ollama r w).1.
Proof.
  intros [Hs Hr] Hw Hc. destruct r as [gw [u p h t tk rb|tk st|tk st h|rp|e|tk e]]; simpl in *;
    try done; (split; [done|]); try (by apply covered_put); try (by apply covered_pop).
  apply covered_put; try done. by destruct ollama.
Qed.

Lemma world_gw_ok w : world_ok g w -> world_covered w -> gw_ok (w_gw w).
Proof.
  intros [(open & _ & H) _ _] [Hc _]. split; [|done].
  apply client_reachable in H. by apply (inv_reachable (scheduler_args (gw_config g))).
Qed.

Lemma request_kept rt b iso w :
  world_ok g w -> world_covered w -> kept w (request exc_text g rt b iso w).1.
Proof.
  intros Hw Hc. pose proof (world_gw_ok w Hw Hc) as Hg. unfold request.
  destruct (dispatch rt g (w_gw w) b) as [[r|b' ch al post|b' ch al|b' ch al]|e]; try done.
  - apply json_next_kept; [by apply json_start_covered|done..].
  - apply stream_next_kept; [by apply relay_start_covered|done..].
  - apply stream_next_kept; [by apply ollama_start_covered|done..].
Qed.

Lemma end_stream_kept id f e closes ck w :
  closes = true -> world_ok g w -> world_covered w ->
  kept w (end_stream g id f e closes ck w).1.
Proof.
  intros -> Hw Hc.
  assert (Hend : forall tk ok, kept w (finish id (stream_end g tk e ok true ck (w_gw w)) w)).
  { intros tk ok. split; [done|]. apply covered_pop; try done. apply steady_stream_end. }
  unfold end_stream. destruct f as [tk rt po|ol u p h t tk rb|ol tk st|tk|tk og]; try done.
  - apply Hend.
  - destruct e; try apply Hend. destruct (og_ok og); [apply Hend|done].
Qed.

Lemma resume_kept id f ev w :
  dget id (w_flights w) = Some f -> orderly ev = true -> world_ok g w -> world_covered w ->
  kept w (resume exc_text g id f ev w).1.
Proof.
  intros Hg Ho Hw Hc.
  assert (Hp : pool_has (w_gw w) (flight_worker f)).
  { apply (wc_flights w Hc id). by apply dget_Some_elem. }
  assert (Hput : forall f', flight_worker f' = flight_worker f -> kept w (put id f' (w_gw w) w)).
  { intros f' Hf. split; [done|]. apply covered_put; try done. by rewrite Hf. }
  destruct ev as [| i r iso ck | i r drain | i r ck | i text iso ck | i iso ck | i e closes ck | i
    | | | | |]; try done;
    destruct f as [tk rt po|ol u p h t tk rb|ol tk st|tk|tk og]; simpl in *; try done;
    try (by apply Hput).
  - apply json_next_kept; [by apply json_reply_covered|done..].
  - apply stream_next_kept; [|done..].
    destruct ol; [by apply ollama_opened_covered|by eapply stream_opened_covered].
  - apply stream_next_kept; [|done..]. destruct r as [text|]; [|done].
    destruct ol; (split; [apply steady_refused|done]).
  - destruct (ollama_chunk _ _ _ _ _ _) as [og' lines]. by apply Hput.
  - destruct (ollama_eof _ _ _ _ _) as [og' lines]. by apply Hput.
  - by apply (end_stream_kept id (FRelay tk)).
  - by apply (end_stream_kept id (FOllama tk og)).
Qed.

Lemma steady_kept gw w :
  (forall wid, pool_has (w_gw w) wid -> pool_has gw wid) -> gw_covered gw ->
  world_covered w -> kept w (with_gw gw w).
Proof.
  intros Hp Hg [_ Hf]. split; [done|]. constructor; [done|]. simpl. intros id f Hin.
  by apply Hp, (Hf id).
Qed.

Lemma chaos_keys v gw :
  dkeys (gw_pool (chaos_vram v gw).1) = dkeys (gw_pool gw) /\
  dkeys (predictors (gw_sched (chaos_vram v gw).1)) = dkeys (predictors (gw_sched gw)).
Proof.
  unfold chaos_vram. destruct (_ : result _ _) as [[wid free]|e]; [|done].
  destruct (negb _); [done|]. destruct wid; try done. simpl. by rewrite !dkeys_dalter.
Qed.

Lemma metrics_keys now be r gw : steady gw (metrics_turn now be r gw).
Proof.
  destruct r as [st text|]; simpl; [|done]. destruct (400 <=? st); [done|].
  destruct (snap_ok _); [|done]. split; [done|]. apply dkeys_dalter.
Qed.

Lemma health_keys get be gw : steady gw (health_turn get be gw).
Proof.
  split; [done|]. unfold health_turn, set_healthy. simpl.
  destruct (dmem _ _); [|done]. destruct (probe_health _ _); apply dkeys_dalter.
Qed.

Lemma wstep_kept w ev :
  orderly ev = true -> world_ok g w -> world_covered w -> kept w (wstep w ev).1.
Proof.
  intros Ho Hw Hc. unfold Gateway.wstep. destruct (event_flight ev) as [id|] eqn:Ee.
  { destruct (dget id (w_flights w)) as [f|] eqn:Hg; [by apply resume_kept|done]. }
  assert (Hst : forall gw, steady (w_gw w) gw -> kept w (with_gw gw w)).
  { intros gw Hs. apply steady_kept; [|by eapply steady_covered, Hc|done].
    intros wid. by apply steady_has. }
  destruct ev as [rt b iso| | | | | | | |be|v| |get be|now be r]; try done; simpl.
  - by apply request_kept.
  - apply steady_kept; [| |done].
    + intros wid H. apply elem_of_dkeys_dset. by right.
    + intros wid H. simpl in H. apply elem_of_dkeys_dset in H as [->|H].
      * apply elem_of_dkeys_dset. by left.
      * apply elem_of_dkeys_dset. right. by apply (wc_gw w Hc).
  - destruct (chaos_keys v (w_gw w)) as [H1 H2]. destruct (chaos_vram v (w_gw w)) as [gw r].
    simpl in *. apply steady_kept; [| |done].
    + intros wid. unfold pool_has. by rewrite H1.
    + intros wid. unfold pool_has. rewrite H1, H2. apply (wc_gw w Hc).
  - by apply Hst.
  - apply Hst, health_keys.
  - apply Hst, metrics_keys.
Qed.

Lemma world_init_covered l : world_covered (world_init g l).
Proof.
  constructor; [|by intros ? ? ?%not_elem_of_nil]. intros wid H. simpl in H.
  unfold pool_has. simpl.
  assert (Hin : wid ∈ map b_id (pool_list (pool_init l))).
  { revert H. generalize (pool_list (pool_init l)). intros bs.
    cut (forall s, wid ∈ dkeys (predictors (foldl (fun s be =>
           register (gw_sched_cfg g) (b_id be) (b_tier be) (b_total_vram_mb be)
             (Some (b_free_vram_mb be)) s) s bs)) ->
         wid ∈ dkeys (predictors s) \/ wid ∈ map b_id bs).
    { intros Hc H. apply Hc in H as [H|H]; [by apply not_elem_of_nil in H|done]. }
    induction bs as [|be bs IH]; intros s H; [by left|]. simpl in H. apply IH in H.
    simpl in H. rewrite elem_of_dkeys_dset in H. set_solver. }
  rewrite keyed_ids in Hin by apply keyed_init. done.
Qed.

Lemma wrun_kept w evs :
  idle_adds exc_text g w evs = true -> forallb orderly evs = true ->
  world_ok g w -> world_covered w -> kept w (wrun w evs).
Proof.
  revert w; induction evs as [|ev evs IH]; intros w Hf Ho Hw Hc; [done|].
  simpl in Hf, Ho. bool_hyps. destruct (wstep_kept w ev) as [E Hc']; [done..|].
  destruct (IH (wstep w ev).1) as [E2 Hc2]; [done|done|by apply wstep_ok|done|].
  split; [by transitivity (w_lost (wstep w ev).1)|done].
Qed.
End Covered.
