(* ===== verification/Termination.v ===== *)
(** Every exchange of the gateway ends: a bound on the replies one request can
    take, and the way back to an idle gateway. *)

From S2P Require Import Prelude PyFloat PyStr PyDict Json Config EngineMetrics Learner.
From S2P Require Import LearnerFacts Scheduler SchedulerFacts PickFacts Setup Accounting.
From S2P Require Import Backends Requests OllamaStream Proxy Routes Gateway GatewayFacts GatewayInv.

Section Termination.
Context {F : Type} {PF : PyFloat F}.
Variables (exc_text : PyExc -> string) (g : GwCfg F).
Implicit Types (w : World F) (f : Flight F) (ev : Event F) (evs : list (Event F)).
Local Abbreviation wstep := (wstep exc_text g).
Local Abbreviation wrun := (wrun exc_text g).

(** ** Replies left *)

(** How many more replies of the engine or the server a request can take. *)
Definition waits_left f : nat :=
  match f with
  | FJson _ retried _ => if retried then 1 else 2
  | FOpening ollama _ payload _ _ _ _ => if ollama && dmem "stream_options" payload then 3 else 2
  | FRefused _ _ _ | FRelay _ | FOllama _ _ => 1
  end.

(** The same of request [id]; none once it is over. *)
Definition rank_of w (id : Z) : nat :=
  match dget id (w_flights w) with Some f => waits_left f | None => 0 end.

(** The event is what the request waits for.  A generator whose loop is not over
    cannot end by itself. *)
Definition awaited f ev : bool :=
  match ev, f with
  | EvAnswer _ _ _ _, FJson _ _ _ | EvOpened _ _ _, FOpening _ _ _ _ _ _ _
  | EvRefusal _ _ _, FRefused _ _ _ | EvEnd _ _ _ _, FRelay _
  | EvAbandon _, FRelay _ | EvAbandon _, FOllama _ _ => true
  | EvEnd _ e _ _, FOllama _ og => match e with EndDone => og_ok og | _ => true end
  | _, _ => false
  end.

Definition awaited_by w (id : Z) ev : bool :=
  bool_decide (event_flight ev = Some id) &&
  match dget id (w_flights w) with Some f => awaited f ev | None => false end.

(** The replies request [id] gets in a run. *)
Fixpoint replies w (id : Z) evs : nat :=
  match evs with
  | [] => 0
  | ev :: evs' => (if awaited_by w id ev then 1 else 0) + replies (wstep w ev).1 id evs'
  end.

Lemma rank_bound f : (waits_left f <= 3)%nat.
Proof. destruct f as [? []| [] ? ? ? ? ?| | |]; simpl; try lia. destruct (dmem _ _); lia. Qed.

Lemma rank_put id id' f gw w :
  rank_of (put id' f gw w) id = if decide (id = id') then waits_left f else rank_of w id.
Proof. unfold rank_of. simpl. rewrite dget_dset. by case_decide. Qed.

Lemma rank_pop id id' gw n lost w :
  rank_of (mkWorld gw (dpop id' (w_flights w)) n lost) id
  = if decide (id = id') then 0%nat else rank_of w id.
Proof. unfold rank_of. simpl. rewrite dget_dpop. by case_decide. Qed.

(** The rank of a request after its next stretch. *)
Definition json_rank (r : JsonStep F) : nat :=
  match r with JSend _ _ retried => if retried then 1 else 2 | _ => 0 end.
Definition stream_rank (ollama : bool) (r : StreamStep F) : nat :=
  match r with
  | SSend _ payload _ _ _ _ => if ollama && dmem "stream_options" payload then 3 else 2
  | SErrBody _ _ | SStreaming _ _ _ => 1
  | _ => 0
  end.

Lemma json_next_rank id id' post iso r w :
  rank_of (json_next id' post iso r w).1 id
  = (if decide (id = id') then json_rank r.2 else rank_of w id) /\
  w_next w <= w_next (json_next id' post iso r w).1.
Proof.
  destruct r as [gw []]; cbn [json_next fst snd json_rank];
    (split; [|simpl; lia]); first [apply rank_put|apply rank_pop].
Qed.

Lemma stream_next_rank id id' ollama r w :
  rank_of (stream_next id' ollama r w).1 id
  = (if decide (id = id') then stream_rank ollama r.2 else rank_of w id) /\
  w_next w <= w_next (stream_next id' ollama r w).1.
Proof.
  destruct r as [gw []]; cbn [stream_next fst snd stream_rank];
    (split; [|simpl; lia]); rewrite ?rank_put; try apply rank_pop; try done.
  by destruct ollama.
Qed.

Lemma json_reply_rank tk retried r ck gw :
  (json_rank (json_reply exc_text g tk retried r ck gw).2 < (if retried then 1 else 2))%nat.
Proof.
  destruct r as [st p t|m|]; simpl; [|destruct retried; lia..].
  destruct retried; simpl; rewrite ?andb_false_r, ?andb_true_r.
  - unfold json_finish. destruct (pool_get _ _); [|simpl; lia].
    destruct (read_answer _ _ _ _ _ _ _). destruct (400 <=? st); simpl; lia.
  - destruct (_ && _).
    + unfold send_json. destruct (forward_to _ _ _ _ _); simpl; lia.
    + unfold json_finish. destruct (pool_get _ _); [|simpl; lia].
      destruct (read_answer _ _ _ _ _ _ _). destruct (400 <=? st); simpl; lia.
Qed.

Lemma stream_opened_rank ollama tk r gw :
  (stream_rank ollama (stream_opened g tk r gw).2 < 2)%nat.
Proof. destruct r as [st|m| |]; simpl; try lia. destruct (400 <=? st); simpl; lia. Qed.

Lemma ollama_opened_rank url payload h t tk rb r drain gw :
  (stream_rank true (ollama_opened g url payload h t tk rb r drain gw).2
   < (if dmem "stream_options" payload then 3 else 2))%nat.
Proof.
  pose proof (fun r => stream_opened_rank true tk r gw) as H. unfold ollama_opened.
  destruct r as [st|m|m|]; try (match goal with |- context [stream_opened _ _ ?r _] =>
    specialize (H r); destruct (dmem _ _); lia end).
  specialize (H (Opened st)).
  destruct (dmem "stream_options" payload) eqn:E; [|rewrite andb_false_r; lia].
  destruct (_ && _); [|lia]. destruct drain; simpl; try lia.
  unfold dmem. rewrite dget_dpop, decide_True by done. lia.
Qed.

Lemma refused_rank ollama tk st r ck gw :
  stream_rank ollama (if ollama then ollama_refused g tk st r ck gw
                      else relay_refused g tk st r ck gw).2 = 0%nat.
Proof. by destruct ollama, r. Qed.

(** One step of a request in flight: what it waits for brings it closer to its end;
    any other event of its own leaves it where it is. *)
Lemma resume_rank id f ev w :
  dget id (w_flights w) = Some f ->
  let w' := (resume exc_text g id f ev w).1 in
  (rank_of w' id <= waits_left f)%nat /\ (awaited f ev = true -> (rank_of w' id < waits_left f)%nat) /\
  w_next w <= w_next w' /\ (forall i, i <> id -> rank_of w' i = rank_of w i).
Proof.
  intros Hg. cbv zeta.
  assert (Hr : rank_of w id = waits_left f) by (unfold rank_of; by rewrite Hg).
  assert (Hput : forall f' gw, waits_left f' = waits_left f ->
    (rank_of (put id f' gw w) id <= waits_left f)%nat /\ w_next w <= w_next (put id f' gw w) /\
    (forall i, i <> id -> rank_of (put id f' gw w) i = rank_of w i)).
  { intros f' gw E. split_and!; [|simpl; lia|].
    - rewrite rank_put, decide_True by done. lia.
    - intros i Hi. by rewrite rank_put, decide_False. }
  assert (Hpop : forall gw n lost, w_next w <= n -> let w' := mkWorld gw (dpop id (w_flights w)) n lost in
    (rank_of w' id <= waits_left f)%nat /\ (awaited f ev = true -> (rank_of w' id < waits_left f)%nat) /\
    w_next w <= w_next w' /\ (forall i, i <> id -> rank_of w' i = rank_of w i)).
  { intros gw n lost Hn. cbv zeta. rewrite rank_pop, decide_True by done.
    assert (0 < waits_left f)%nat by (destruct f as [? []|[] ? ? ? ? ?| | |]; simpl; try destruct (dmem _ _); lia).
    split_and!; [lia|lia|done|]. intros i Hi. by rewrite rank_pop, decide_False. }
  assert (Hsame : awaited f ev = false ->
    (rank_of w id <= waits_left f)%nat /\ (awaited f ev = true -> (rank_of w id < waits_left f)%nat) /\
    w_next w <= w_next w /\ (forall i, i <> id -> rank_of w i = rank_of w i)).
  { intros ->. rewrite Hr. split_and!; try done; lia. }
  destruct ev as [| i r iso ck | i r drain | i r ck | i text iso ck | i iso ck | i e closes ck | i
    | | | | |]; try (by apply Hsame); destruct f as [tk rt po|ol u p h t tk rb|ol tk st|tk|tk og];
    try (by apply Hsame); cbn [resume].
  - pose proof (json_reply_rank tk rt r ck (w_gw w)) as H.
    pose proof (fun j => json_next_rank j id po iso (json_reply exc_text g tk rt r ck (w_gw w)) w) as K.
    destruct (K id) as [Ki Kn]. rewrite decide_True in Ki by done. rewrite Ki. simpl.
    split_and!; [lia|done|done|]. intros j Hj. destruct (K j) as [-> _]. by rewrite decide_False.
  - set (x := if ol then _ else _).
    assert (H : (stream_rank ol x.2 < (if ol && dmem "stream_options" p then 3 else 2))%nat).
    { subst x. destruct ol; [apply ollama_opened_rank|apply stream_opened_rank]. }
    pose proof (fun j => stream_next_rank j id ol x w) as K.
    destruct (K id) as [Ki Kn]. rewrite decide_True in Ki by done. rewrite Ki. simpl.
    split_and!; [lia|done|done|]. intros j Hj. destruct (K j) as [-> _]. by rewrite decide_False.
  - set (x := if ol then _ else _).
    assert (H : stream_rank ol x.2 = 0%nat) by apply refused_rank.
    pose proof (fun j => stream_next_rank j id ol x w) as K.
    destruct (K id) as [Ki Kn]. rewrite decide_True in Ki by done. rewrite Ki, H. simpl.
    split_and!; [lia|lia|done|]. intros j Hj. destruct (K j) as [-> _]. by rewrite decide_False.
  - destruct (ollama_chunk _ _ _ _ _ _) as [og' lines]. cbn [fst].
    destruct (Hput (FOllama tk og') (w_gw w) eq_refl) as (H1 & H2 & H3). by split_and!.
  - destruct (ollama_eof _ _ _ _ _) as [og' lines]. cbn [fst].
    destruct (Hput (FOllama tk og') (w_gw w) eq_refl) as (H1 & H2 & H3). by split_and!.
  - cbn [end_stream fst]. destruct closes; apply Hpop; lia.
  - cbn [end_stream]. destruct e; cbn [fst];
      try (destruct closes; apply Hpop; lia).
    destruct (og_ok og) eqn:Eo; cbn [fst]; [destruct closes; apply Hpop; lia|].
    apply Hsame. simpl. by rewrite Eo.
  - cbn [fst]. apply Hpop. lia.
  - cbn [fst]. apply Hpop. lia.
Qed.

(** One step of the gateway, seen by a request that has been numbered. *)
Lemma wstep_rank w ev id :
  id < w_next w ->
  (rank_of (wstep w ev).1 id + (if awaited_by w id ev then 1 else 0) <= rank_of w id)%nat /\
  w_next w <= w_next (wstep w ev).1.
Proof.
  intros Hid. unfold Gateway.wstep, awaited_by.
  destruct (event_flight ev) as [id'|] eqn:Ee.
  - destruct (dget id' (w_flights w)) as [f|] eqn:Hg; simpl.
    + destruct (resume_rank id' f ev w Hg) as (Hle & Hlt & Hn & Hne).
      destruct (decide (id' = id)) as [->|Hd].
      * rewrite bool_decide_eq_true_2, Hg by done. unfold rank_of at 2. rewrite Hg. simpl.
        destruct (awaited f ev); [specialize (Hlt eq_refl); split; [lia|done]|split; [lia|done]].
      * rewrite bool_decide_eq_false_2 by congruence. simpl.
        rewrite Hne by congruence. split; [lia|done].
    + split; [|lia]. destruct (bool_decide _) eqn:Eb; simpl; [|lia].
      apply bool_decide_eq_true in Eb. injection Eb as ->. rewrite Hg. lia.
  - assert (Hsame : forall gw, rank_of (with_gw gw w) id = rank_of w id /\
              w_next w <= w_next (with_gw gw w)) by (intros gw; split; [done|simpl; lia]).
    destruct ev as [rt b iso| | | | | | | |be|v| |get be|now be r]; try done; simpl.
    + unfold request. destruct (dispatch rt g (w_gw w) b) as [[r|b' ch al post|b' ch al|b' ch al]|e];
        simpl; try lia.
      * destruct (json_next_rank id (w_next w) post iso (json_start exc_text g b' ch "small" al (w_gw w)) w)
          as [-> Hn]. rewrite decide_False by lia. split; [lia|done].
      * destruct (stream_next_rank id (w_next w) false (relay_start g b' ch "small" al (w_gw w)) w)
          as [-> Hn]. rewrite decide_False by lia. split; [lia|done].
      * destruct (stream_next_rank id (w_next w) true (ollama_start g b' ch "small" al (w_gw w)) w)
          as [-> Hn]. rewrite decide_False by lia. split; [lia|done].
    + destruct (Hsame (add_backend g be (w_gw w))) as [-> Hn]. split; [lia|done].
    + destruct (chaos_vram v (w_gw w)) as [gw r]. cbn [fst].
      destruct (Hsame gw) as [-> Hn]. split; [lia|done].
    + destruct (Hsame (debug_reset_stats (w_gw w)).1) as [E Hn]. unfold debug_reset_stats in *.
      cbn [fst] in *. rewrite E. split; [lia|done].
    + destruct (Hsame (health_turn get be (w_gw w))) as [-> Hn]. split; [lia|done].
    + destruct (Hsame (metrics_turn now be r (w_gw w))) as [-> Hn]. split; [lia|done].
Qed.

Lemma wrun_rank w evs id :
  id < w_next w -> (rank_of (wrun w evs) id + replies w id evs <= rank_of w id)%nat.
Proof.
  revert w; induction evs as [|ev evs IH]; intros w Hid; cbn [replies]; [simpl; lia|].
  destruct (wstep_rank w ev id Hid) as [H Hn].
  change (wrun w (ev :: evs)) with (wrun (wstep w ev).1 evs).
  pose proof (IH (wstep w ev).1) as IH'. lia.
Qed.

Lemma rank_of_bound w id : (rank_of w id <= 3)%nat.
Proof. unfold rank_of. destruct (dget _ _); [apply rank_bound|lia]. Qed.

(** C14. Every exchange ends, whatever the other requests, the admin endpoints and the
    background loops do meanwhile: a request waits for an engine or for the end of
    its stream at most three times (an opening, its retry without
    [stream_options], and the stream or the body of a refusal); the third reply at
    the latest removes it, and its number is never used again. *)
Theorem exchange_terminates w evs id :
  id < w_next w ->
  (replies w id evs <= 3)%nat /\
  (replies w id evs = 3%nat -> dget id (w_flights (wrun w evs)) = None) /\
  (dget id (w_flights w) = None -> dget id (w_flights (wrun w evs)) = None).
Proof.
  intros Hid. pose proof (wrun_rank w evs id Hid) as H. pose proof (rank_of_bound w id) as Hb.
  assert (Hz : rank_of (wrun w evs) id = 0%nat -> dget id (w_flights (wrun w evs)) = None).
  { unfold rank_of. destruct (dget _ _) as [f|]; [|done].
    destruct f as [? []|[] ? ? ? ? ?| | |]; simpl; try done. by destruct (dmem _ _). }
  split_and!; [lia|intros E; apply Hz; lia|].
  intros E. apply Hz. unfold rank_of in H at 2. rewrite E in H. lia.
Qed.
End Termination.

(** ** Back to an idle gateway *)

Section Draining.
Context {F : Type} {PF : PyFloat F} {PL : PyFloatLaws F}.
Variables (exc_text : PyExc -> string) (g : GwCfg F).
Implicit Types (w : World F) (f : Flight F) (evs : list (Event F)).
Local Abbreviation wstep := (wstep exc_text g).
Local Abbreviation wrun := (wrun exc_text g).

(** A failure of the engine for each phase of a request. *)
Definition failing (ck : Clock F) (id : Z) f : Event F :=
  match f with
  | FJson _ _ _ => EvAnswer id (HRaised "connection reset") "" ck
  | FOpening _ _ _ _ _ _ _ => EvOpened id (OpenRaised "connection reset") Drained
  | FRefused _ _ _ => EvRefusal id (BodyText "") ck
  | FRelay _ | FOllama _ _ => EvEnd id (EndFailed "connection reset") true ck
  end.

Definition outage (ck : Clock F) w : list (Event F) :=
  map (fun kv => failing ck kv.1 kv.2) (w_flights w).

Lemma failing_pops ck id f w :
  dget id (w_flights w) = Some f ->
  w_flights (wstep w (failing ck id f)).1 = dpop id (w_flights w).
Proof.
  intros Hg. unfold Gateway.wstep.
  destruct f as [tk rt po|ol u p h t tk rb|ol tk st|tk|tk og]; cbn [failing event_flight];
    rewrite Hg; cbn [resume].
  - done.
  - by destruct ol.
  - by destruct ol.
  - done.
  - done.
Qed.

Lemma failing_orderly ck id f : orderly (failing ck id f) = true.
Proof. by destruct f. Qed.

Lemma failing_idle ck id f w : idle_add w (failing ck id f) = true.
Proof. by destruct f. Qed.

Lemma outage_run ck l w :
  NoDup (dkeys l) -> w_flights w = l ->
  w_flights (wrun w (map (fun kv => failing ck kv.1 kv.2) l)) = [] /\
  idle_adds exc_text g w (map (fun kv => failing ck kv.1 kv.2) l) = true.
Proof.
  revert w; induction l as [|[id f] l IH]; intros w Hd Hl; [by split|]. cbn [map].
  apply NoDup_cons in Hd as [Hn Hd].
  assert (E : w_flights (wstep w (failing ck id f)).1 = l).
  { rewrite failing_pops by (rewrite Hl; simpl; by rewrite decide_True).
    rewrite Hl. simpl. rewrite decide_True by done. by apply dpop_absent. }
  destruct (IH _ Hd E) as [H1 H2]. split; [exact H1|].
  simpl. rewrite failing_idle. exact H2.
Qed.

(** C15. From every point of an orderly run that re-adds no busy backend, the gateway
    can come to rest, even if every engine fails at once: one error per open request, and no request is in
    flight, no slot is taken on any worker, none has been lost. *)
Theorem outage_leaves_gateway_idle l evs ck w :
  idle_adds exc_text g (world_init g l) evs = true -> forallb orderly evs = true ->
  w = wrun (world_init g l) evs ->
  let w' := wrun w (outage ck w) in
  length (outage ck w) = length (w_flights w) /\ w_flights w' = [] /\ w_lost w' = [] /\
  (forall wid, pending_of (gw_sched (w_gw w')) wid = 0%Z).
Proof.
  intros Hf Ho ->. cbv zeta. set (w := wrun (world_init g l) evs).
  pose proof (wrun_ok exc_text g _ _ Hf (world_init_ok g l)) as Hok.
  destruct (wrun_kept exc_text g _ _ Hf Ho (world_init_ok g l) (world_init_covered g l)) as [Hl Hc].
  fold w in Hok, Hl, Hc.
  destruct (outage_run ck (w_flights w) w (wk_ids g w Hok) eq_refl) as [H1 H2].
  fold (outage ck w) in H1, H2.
  assert (Ho' : forallb orderly (outage ck w) = true).
  { apply forallb_forall. intros ev [[id f] [<- _]]%in_map_iff. apply failing_orderly. }
  destruct (wrun_kept exc_text g w _ H2 Ho' Hok Hc) as [Hl' _].
  assert (Hlost : w_lost (wrun w (outage ck w)) = []) by (rewrite Hl'; exact Hl).
  split; [by unfold outage; rewrite length_map|]. split_and!; [done|done|].
  intros wid. rewrite (ok_pending g) by (by apply wrun_ok). unfold in_flight.
  by rewrite H1, Hlost.
Qed.
End Draining.

(** ** Witnesses *)

Definition live_cfg : GwCfg float :=
  mkGwCfg DIOConfig_default [] (token_counter (fun _ => None) None true).
Definition live_backends : list (Backend float) :=
  [backend_defaults "a" "http://10.0.0.1:8000"; backend_defaults "b" "http://10.0.0.2:8000"].
Definition live_body (stream : bool) : list (string * json float) :=
  [("messages", JList [JDict [("role", JStr "user"); ("content", JStr "hello")]]);
   ("stream", JBool stream)].
Definition live_clock : Clock float := mkClock (fint 800) 1000.
Local Abbreviation live_run := (wrun (fun _ => "") live_cfg).

(** An Ollama stream (request 0) and a plain request (request 1). *)
Definition live_start : list (Event float) :=
  [EvRequest RtOllamaChat (live_body true) "t"; EvRequest RtChat (live_body false) "t"].
Definition live_world : World float := live_run (world_init live_cfg live_backends) live_start.

(** The engine refuses [stream_options], then streams, and the stream is closed;
    meanwhile the other request is answered. *)
Definition live_replies : list (Event float) :=
  [EvOpened 0 (Opened 400) Drained; EvAnswer 1 (HAnswer 200 None "") "t" live_clock;
   EvOpened 0 (Opened 200) Drained; EvChunk 0 "data: x" "t" live_clock;
   EvEnd 0 EndClosed true live_clock].

Lemma exchange_terminates_witness :
  dget 0 (w_flights live_world) <> None /\
  dget 0 (w_flights (live_run live_world live_replies)) = None.
Proof.
  split; [vm_compute; discriminate|].
  assert (Hn : 0 < w_next live_world) by (vm_compute; reflexivity).
  apply (proj1 (proj2 (exchange_terminates (fun _ => "") live_cfg live_world live_replies 0 Hn))).
  vm_compute. reflexivity.
Defined.

Lemma outage_leaves_gateway_idle_witness :
  length (w_flights live_world) = 2%nat /\
  forall wid, pending_of (gw_sched (w_gw (live_run live_world (outage live_clock live_world)))) wid = 0%Z.
Proof.
  split; [vm_compute; reflexivity|].
  assert (Hf : idle_adds (fun _ => "") live_cfg (world_init live_cfg live_backends) live_start = true)
    by (vm_compute; reflexivity).
  assert (Ho : forallb orderly live_start = true) by (vm_compute; reflexivity).
  assert (E : live_world = live_run (world_init live_cfg live_backends) live_start)
    by (unfold live_world; reflexivity).
  pose proof (outage_leaves_gateway_idle (fun _ => "") live_cfg live_backends
    live_start live_clock live_world Hf Ho E) as H. cbv zeta in H.
  exact (proj2 (proj2 (proj2 H))).
Defined.
