(* ===== verification/GatewayProps.v ===== *)
(** What the gateway promises about its scheduler slots, for every interleaving of
    requests, answers, cancellations, admin calls and background loops; and that it
    refines the abstract router. *)

From S2P Require Import Prelude PyFloat PyStr PyDict Json Config EngineMetrics Learner.
From S2P Require Import LearnerFacts Scheduler SchedulerFacts PickFacts Setup Accounting.
From S2P Require Import Backends Requests OllamaStream Proxy Routes Gateway GatewayFacts GatewayInv.
From S2P Require Import Router.

Section Theorems.
Context {F : Type} {PF : PyFloat F} {PL : PyFloatLaws F}.
Variables (exc_text : PyExc -> string) (g : GwCfg F).
Implicit Types (w : World F) (evs : list (Event F)).

Local Abbreviation wstep := (wstep exc_text g).
Local Abbreviation wrun := (wrun exc_text g).

Lemma runs_ok l evs :
  idle_adds exc_text g (world_init g l) evs = true -> world_ok g (wrun (world_init g l) evs).
Proof. intros Hf. apply wrun_ok; [done|]. apply world_init_ok. Qed.

(** C6. At any point of any run of the gateway, a worker's [pending] count is not
    negative and at most the number of slots on it: its requests in flight plus those
    that ended without giving their slot back.  It is exactly that number as long as no
    backend has been added under the name of one with an open slot, which replaces the
    worker and starts its count again at zero. *)
Theorem gateway_slots_accounted l evs wid :
  let w := wrun (world_init g l) evs in
  let pending := pending_of (gw_sched (w_gw w)) wid in
  let slots_on := (open_on wid (in_flight w) + open_on wid (w_lost w))%Z in
  0 <= pending <= slots_on /\
  (idle_adds exc_text g (world_init g l) evs = true -> pending = slots_on).
Proof.
  intros w pending slots_on. split.
  - by apply (bounded_pending g), wrun_bounded, world_init_bounded.
  - intros H. by apply (ok_pending g), runs_ok.
Qed.

(** C13. In a run without cancellation before a stream has started, lost refusal body,
    failing [aclose] or dropped response, and in which no backend is added under the
    name of one with an open slot, no slot is ever lost: [pending] is exactly the number
    of requests in flight, and an idle gateway has none pending. *)
Theorem orderly_gateway_keeps_slots l evs w wid :
  idle_adds exc_text g (world_init g l) evs = true -> forallb orderly evs = true ->
  w = wrun (world_init g l) evs ->
  w_lost w = [] /\ pending_of (gw_sched (w_gw w)) wid = open_on wid (in_flight w).
Proof.
  intros Hf Ho ->. pose proof (runs_ok l evs Hf) as Hok.
  destruct (wrun_kept exc_text g (world_init g l) evs) as [Hl _]; try done.
  - apply world_init_ok.
  - apply world_init_covered.
  - split; [exact Hl|]. rewrite (ok_pending g) by done. rewrite Hl. simpl.
    change (open_on wid []) with 0. lia.
Qed.

(** No step takes a request off the lost ones. *)
Lemma lost_grows w ev : w_lost w `suffix_of` w_lost (wstep w ev).1.
Proof.
  assert (Hj : forall id post iso r, w_lost w `suffix_of` w_lost (json_next id post iso r w).1).
  { intros id post iso [gw [ | | |]]; simpl; try done. by apply suffix_cons_r. }
  assert (Hs : forall id o r, w_lost w `suffix_of` w_lost (stream_next id o r w).1).
  { intros id o [gw [ | | | | |]]; simpl; try done. by apply suffix_cons_r. }
  unfold Gateway.wstep. destruct (event_flight ev) as [id|] eqn:Ee.
  - destruct (dget id (w_flights w)) as [f|] eqn:Hg; [|done].
    destruct ev, f; simpl; try done; try apply Hj; try apply Hs; try (by apply suffix_cons_r).
    + by destruct (ollama_chunk _ _ _ _ _ _).
    + by destruct (ollama_eof _ _ _ _ _).
    + destruct closes; [done|]. by apply suffix_cons_r.
    + destruct e; try (destruct closes; [done|by apply suffix_cons_r]).
      destruct (og_ok og); [|done]. destruct closes; [done|by apply suffix_cons_r].
  - destruct ev; simpl; try done.
    + unfold request. destruct (dispatch _ _ _ _) as [[]|]; simpl; try done;
        first [apply Hj|apply Hs].
    + by destruct (chaos_vram _ _).
Qed.

Lemma lost_grows_run w evs : w_lost w `suffix_of` w_lost (wrun w evs).
Proof.
  revert w; induction evs as [|ev evs IH]; intros w; [done|].
  etransitivity; [apply (lost_grows w ev)|apply IH].
Qed.

Lemma open_on_suffix wid l1 l2 : l1 `suffix_of` l2 -> open_on wid l1 <= open_on wid l2.
Proof.
  intros [k ->]. unfold open_on. rewrite filter_app, length_app. lia.
Qed.

(** A plain request whose task is cancelled while it awaits the engine (the
    client hung up) leaves its slot behind for good: the code catches only
    [Exception], and [CancelledError] is not one.  Whatever happens afterwards, unless
    the worker is replaced, it keeps at least one pending request that no longer
    exists. *)
Theorem cancelled_request_leaks_slot l evs1 evs2 id tk retried post iso ck w w' :
  let evs := (evs1 ++ EvAnswer id HCancelled iso ck :: evs2)%list in
  idle_adds exc_text g (world_init g l) evs = true -> w' = wrun (world_init g l) evs ->
  w = wrun (world_init g l) evs1 ->
  dget id (w_flights w) = Some (FJson tk retried post) ->
  1 <= pending_of (gw_sched (w_gw w')) (tk_worker tk).
Proof.
  intros evs Hf -> -> Hg. rewrite (ok_pending g) by by apply runs_ok. unfold evs.
  unfold Gateway.wrun. rewrite foldl_app. cbn [foldl].
  change (foldl (fun w ev => (wstep w ev).1) ?w0 evs2) with (wrun w0 evs2).
  change (foldl (fun w ev => (wstep w ev).1) ?w0 evs1) with (wrun w0 evs1).
  pose proof (lost_grows_run (wstep (wrun (world_init g l) evs1)
    (EvAnswer id HCancelled iso ck)).1 evs2) as Hs.
  apply (open_on_suffix (tk_worker tk)) in Hs.
  assert (E : w_lost (wstep (wrun (world_init g l) evs1) (EvAnswer id HCancelled iso ck)).1
              = tk_worker tk :: w_lost (wrun (world_init g l) evs1)).
  { unfold Gateway.wstep. simpl. by rewrite Hg. }
  rewrite E, open_on_cons, decide_True in Hs by done.
  pose proof (open_on_nonneg (tk_worker tk) (w_lost (wrun (world_init g l) evs1))).
  pose proof (open_on_nonneg (tk_worker tk)
    (in_flight (wrun (wstep (wrun (world_init g l) evs1) (EvAnswer id HCancelled iso ck)).1 evs2))).
  lia.
Qed.
End Theorems.

(** ** Witnesses: two engines, a plain request, a stream and an Ollama stream *)

Definition demo_gw : GwCfg float :=
  mkGwCfg DIOConfig_default [] (token_counter (fun _ => None) None true).
Definition demo_backends : list (Backend float) :=
  [backend_defaults "a" "http://10.0.0.1:8000"; backend_defaults "b" "http://10.0.0.2:8000"].
Definition demo_exc (e : PyExc) : string := "".
Definition demo_body (stream : bool) : list (string * json float) :=
  [("messages", JList [JDict [("role", JStr "user"); ("content", JStr "hello")]]);
   ("stream", JBool stream)].
Definition demo_clock : Clock float := mkClock (fint 800) 1000.
Definition demo_answer : HttpReply float :=
  HAnswer 200 (Some (JDict [("usage", JDict [("total_tokens", JInt 12)])])) "".

(** Three requests; the first is answered, the second streams, the third is open. *)
Definition demo_events : list (Event float) :=
  [EvRequest RtChat (demo_body false) "t"; EvRequest RtChat (demo_body true) "t";
   EvAnswer 0 demo_answer "t" demo_clock; EvOpened 1 (Opened 200) Drained;
   EvRequest RtOllamaChat (demo_body true) "t"].
Local Abbreviation demo_world :=
  (wrun demo_exc demo_gw (world_init demo_gw demo_backends) demo_events).

Lemma demo_idle : idle_adds demo_exc demo_gw (world_init demo_gw demo_backends) demo_events = true.
Proof. vm_compute. reflexivity. Qed.

Lemma gateway_slots_accounted_witness :
  (pending_of (gw_sched (w_gw demo_world)) "a" + pending_of (gw_sched (w_gw demo_world)) "b")%Z = 2.
Proof.
  rewrite (proj2 (gateway_slots_accounted demo_exc demo_gw demo_backends demo_events "a") demo_idle).
  rewrite (proj2 (gateway_slots_accounted demo_exc demo_gw demo_backends demo_events "b") demo_idle).
  vm_compute. reflexivity.
Defined.

Lemma orderly_gateway_keeps_slots_witness : w_lost demo_world = [].
Proof.
  assert (Ho : forallb orderly demo_events = true) by (vm_compute; reflexivity).
  exact (proj1 (orderly_gateway_keeps_slots demo_exc demo_gw demo_backends demo_events demo_world
    "a" demo_idle Ho eq_refl)).
Defined.

(** Both engines are added again while a request is open on each: the counts start again
    at zero, though no request has ended, and the answers that come then take off counts
    that are not theirs. *)
Definition readd_events : list (Event float) :=
  [EvRequest RtChat (demo_body false) "t"; EvRequest RtChat (demo_body false) "t";
   EvAddBackend (backend_defaults "a" "http://10.0.0.1:8000");
   EvAddBackend (backend_defaults "b" "http://10.0.0.2:8000")].

Lemma readded_backend_forgets_slots :
  let w := wrun demo_exc demo_gw (world_init demo_gw demo_backends) readd_events in
  forallb orderly readd_events = true /\ length (in_flight w) = 2%nat /\ w_lost w = [] /\
  pending_of (gw_sched (w_gw w)) "a" = 0 /\ pending_of (gw_sched (w_gw w)) "b" = 0.
Proof. vm_compute. done. Qed.

(** The second plain request is cancelled; the first one is served afterwards. *)
Definition leak_before : list (Event float) :=
  [EvRequest RtChat (demo_body false) "t"; EvRequest RtChat (demo_body false) "t"].
Definition leak_after : list (Event float) := [EvAnswer 0 demo_answer "t" demo_clock].
Definition leak_events : list (Event float) :=
  (leak_before ++ EvAnswer 1 HCancelled "t" demo_clock :: leak_after)%list.
Local Abbreviation leak_world :=
  (wrun demo_exc demo_gw (world_init demo_gw demo_backends) leak_events).

Lemma cancelled_request_leaks_slot_witness :
  in_flight leak_world = [] /\
  exists wid, 1 <= pending_of (gw_sched (w_gw leak_world)) wid.
Proof.
  split; [vm_compute; reflexivity|].
  assert (Hr : idle_adds demo_exc demo_gw (world_init demo_gw demo_backends) leak_events = true)
    by (vm_compute; reflexivity).
  set (w1 := wrun demo_exc demo_gw (world_init demo_gw demo_backends) leak_before).
  assert (K : match dget 1 (w_flights w1) with Some (FJson _ _ _) => true | _ => false end = true)
    by (vm_compute; reflexivity).
  destruct (dget 1 (w_flights w1)) as [[tk rt po| | | |]|] eqn:G; try discriminate K.
  exists (tk_worker tk).
  exact (cancelled_request_leaks_slot demo_exc demo_gw demo_backends leak_before leak_after 1
    tk rt po "t" demo_clock w1 leak_world Hr eq_refl eq_refl G).
Defined.

(** ** Refinement: the running gateway goes through states of the abstract router

    Whatever its requests, streams, admin calls and background loops do, and in whatever
    order, each event takes only the steps the router may take. *)

Section Refinement.
Context {F : Type} {PF : PyFloat F} {PL : PyFloatLaws F}.
Variables (exc_text : PyExc -> string) (g : GwCfg F).
Implicit Types (w : World F) (evs : list (Event F)) (r : Router).

Local Abbreviation wstep := (wstep exc_text g).
Local Abbreviation wrun := (wrun exc_text g).
Local Abbreviation sched w := (gw_sched (w_gw w)).

(** The events of a run, each with a trace it may have. *)
Fixpoint explained w evs (trs : list (list RLabel)) : bool :=
  match evs, trs with
  | [], [] => true
  | ev :: evs', tr :: trs' => explains w ev tr && explained (wstep w ev).1 evs' trs'
  | _, _ => false
  end.

(** The joins of the backends the gateway starts with, in the order of the pool. *)
Definition joins (l : list (Backend F)) : list RLabel :=
  map (fun be => RJoin (b_id be)) (pool_list (pool_init l)).

Lemma wstep_follows w ev r :
  idle_add w ev = true -> world_ok g w -> represents r (sched w) ->
  exists tr r', explains w ev tr = true /\ rrun r tr = Some r' /\
                represents r' (sched (wstep w ev).1).
Proof.
  intros Hf Hw Hr. destruct (adds ev) eqn:Ea.
  { apply adds_spec in Ea as [be ->]. destruct (wk_client _ w Hw) as (open & Ho & Hc).
    apply bool_decide_eq_true in Hf. destruct (added_world exc_text g w be) as (_ & _ & _ & E).
    destruct (admin_simulated (gw_sched_cfg g) r (sched w) open
      (OpRegister (b_id be) (b_tier be) (b_total_vram_mb be) (Some (b_free_vram_mb be))))
      as (r' & Hrun & Hrep); [apply adm_replace; by rewrite Ho|done| |].
    { intros wid. by apply (client_pending true (scheduler_args (gw_config g))). }
    exists [RJoin (b_id be)], r'. rewrite E. split_and!; [by apply bool_decide_eq_true|done..]. }
  destruct (wstep_moves exc_text g (simulates (scheduler_args (gw_config g)))
    (SM := simulates_laws _) w ev Ea (ids_of g w Hw))
    as [_ (held & held' & rs & E & _ & tr & HL & _ & Hfol)].
  destruct (wk_client _ w Hw) as (open & Ho & Hc).
  destruct (Hfol open rs r Hc) as (r' & Hrun & Hrep); [by rewrite Ho|done|].
  by exists tr, r'.
Qed.

Lemma wrun_follows w evs r :
  idle_adds exc_text g w evs = true -> world_ok g w -> represents r (sched w) ->
  exists trs r', explained w evs trs = true /\ rrun r (concat trs) = Some r' /\
                 represents r' (sched (wrun w evs)).
Proof.
  revert w r; induction evs as [|ev evs IH]; intros w r Hf Hw Hr; [by exists [], r|].
  simpl in Hf. bool_hyps.
  destruct (wstep_follows w ev r) as (tr & r1 & He & Hr1 & H1); [done..|].
  destruct (IH (wstep w ev).1 r1) as (trs & r2 & Hes & Hr2 & H2);
    [done|by apply wstep_ok|done|].
  exists (tr :: trs), r2. split_and!; [|simpl; by rewrite rrun_app, Hr1|done].
  simpl. by rewrite He.
Qed.

(** Registering fresh backends is joining them. *)
Lemma registers_join l s r :
  NoDup (map b_id l) -> (forall be, be ∈ l -> dmem (b_id be) (predictors s) = false) ->
  represents r s ->
  exists r', rrun r (map (fun be => RJoin (b_id be)) l) = Some r' /\
    represents r' (foldl (fun s be => register (gw_sched_cfg g) (b_id be) (b_tier be)
      (b_total_vram_mb be) (Some (b_free_vram_mb be)) s) s l).
Proof.
  revert s r; induction l as [|be l IH]; intros s r Hnd Hf Hr; [by exists r|].
  simpl in *. apply NoDup_cons in Hnd as [Hn Hnd].
  assert (E : pending_of s (b_id be) = 0).
  { specialize (Hf be ltac:(set_solver)). unfold dmem, pending_of in *. by destruct (dget _ _). }
  destruct (register_simulated (gw_sched_cfg g) r s (b_id be) (b_tier be) (b_total_vram_mb be)
    (Some (b_free_vram_mb be)) Hr E) as (r1 & H1 & Hr1).
  cbn [rrun] in H1. destruct (rstep r (RJoin (b_id be))) as [r0|] eqn:E1; [|done].
  injection H1 as ->. cbn [rstep] in E1. rewrite E1. apply IH; [done| |exact Hr1].
  - intros b' Hb. specialize (Hf b' ltac:(set_solver)). unfold dmem in *. simpl.
    rewrite dget_dset_ne; [done|]. intros E'. apply Hn. rewrite <- E'.
    apply list_elem_of_In, in_map, list_elem_of_In, Hb.
Qed.

Lemma world_init_joined l :
  exists r, rrun router_empty (joins l) = Some r /\ represents r (sched (world_init g l)).
Proof.
  unfold joins. simpl. apply registers_join; [|done|apply represents_init].
  rewrite keyed_ids by apply keyed_init. apply keyed_init.
Qed.

Lemma run_follows l evs w :
  idle_adds exc_text g (world_init g l) evs = true -> w = wrun (world_init g l) evs ->
  exists trs r, explained (world_init g l) evs trs = true /\
    rrun router_empty (joins l ++ concat trs) = Some r /\ represents r (sched w).
Proof.
  intros Hf ->. destruct (world_init_joined l) as (r0 & H0 & Hr0).
  destruct (wrun_follows (world_init g l) evs r0 Hf (world_init_ok g l) Hr0)
    as (trs & r & He & Hr & Hrep).
  exists trs, r. split_and!; [done| |done]. by rewrite rrun_app, H0.
Qed.

(** C7. The gateway refines the abstract router.  Along any run in which no backend is
    added under the name of one with an open slot, the router, started empty and joined by
    the configured backends, can take, event by event, steps that the event may have: a
    backend that is added joins, in the place of an idle one if need be; an arriving request at most one admission, and only to a worker of
    the fleet that is up; an answer, an opening or an end at most one closing, on the
    worker of its own request, and a failure there that counts for the breaker; a probe
    one change of health; the slot of a worker is given back only while one is open on
    it.  The scheduler then has the router's workers, with their health and pending
    counts, and the breaker's streaks. *)
Theorem gateway_refines_router l evs w :
  idle_adds exc_text g (world_init g l) evs = true -> w = wrun (world_init g l) evs ->
  exists trs r, explained (world_init g l) evs trs = true /\
    rrun router_empty (joins l ++ concat trs) = Some r /\
    represents r (gw_sched (w_gw w)) /\ loads_ok r.
Proof.
  intros Hf H. destruct (run_follows l evs w Hf H) as (trs & r & He & Hr & Hrep).
  exists trs, r. split_and!; try done. eapply rrun_loads_ok; [exact Hr|].
  intros wid. unfold load_of. simpl. by rewrite lookup_empty.
Qed.

(** The pending count of a worker is its admissions less its closings. *)
Theorem pending_is_admissions_less_closings l evs w :
  idle_adds exc_text g (world_init g l) evs = true -> w = wrun (world_init g l) evs ->
  exists trs, explained (world_init g l) evs trs = true /\
    forall wid, pending_of (gw_sched (w_gw w)) wid = trace_load wid (joins l ++ concat trs).
Proof.
  intros Hf H. destruct (run_follows l evs w Hf H) as (trs & r & He & Hr & Hrep).
  exists trs. split; [done|]. intros wid. pose proof (rrun_load _ _ _ wid Hr) as HL.
  unfold load_of at 2 in HL. simpl in HL. rewrite lookup_empty in HL. rewrite Z.add_0_l in HL.
  rewrite <- HL. unfold pending_of, load_of. rewrite (rep_workers _ _ Hrep).
  by destruct (dget wid _).
Qed.
End Refinement.

(** ** Witnesses *)

(** The trace of the demo run is that of two admissions, a completion and one more. *)
Lemma gateway_refines_router_witness :
  exists trs r,
    explained demo_exc demo_gw (world_init demo_gw demo_backends) demo_events trs = true /\
    rrun router_empty (joins demo_backends ++ concat trs) = Some r /\
    represents r (gw_sched (w_gw (wrun demo_exc demo_gw (world_init demo_gw demo_backends)
                                    demo_events))) /\ loads_ok r.
Proof.
  exact (gateway_refines_router demo_exc demo_gw demo_backends demo_events _ demo_idle eq_refl).
Defined.

(** The trace is not only there in principle: the router's own run on the trace of the
    demo is computed, and ends with one request on each engine. *)
Definition demo_trace : list (list RLabel) :=
  let slot k := match dget k (w_flights (wrun demo_exc demo_gw
      (world_init demo_gw demo_backends) (take 2 demo_events))) with
    | Some f => flight_worker f | None => "" end in
  let last := match dget 2 (w_flights (wrun demo_exc demo_gw
      (world_init demo_gw demo_backends) demo_events)) with
    | Some f => flight_worker f | None => "" end in
  [[RAdmit (slot 0)]; [RAdmit (slot 1)]; [RClose (slot 0) Served]; []; [RAdmit last]].

Lemma demo_trace_explained :
  explained demo_exc demo_gw (world_init demo_gw demo_backends) demo_events demo_trace = true /\
  is_Some (rrun router_empty (joins demo_backends ++ concat demo_trace)).
Proof. split; [vm_compute; reflexivity|]. vm_compute. by eexists. Qed.
