(* ===== verification/RouteProps.v ===== *)
(** Properties of the gateway's front: authentication, size and budget limits, model
    resolution, the plain proxying coroutine and the vetting of backends. *)

From S2P Require Import Prelude PyFloat PyStr PyDict Json Config EngineMetrics Learner.
From S2P Require Import LearnerFacts Scheduler SchedulerFacts PickFacts Setup Accounting.
From S2P Require Import Backends Requests OllamaStream Proxy Routes.

Section Guard.
Context {F : Type} {PF : PyFloat F}.

(** The paths the shared key protects under a configuration. *)
Definition protected (gc : GuardCfg) (path : string) : bool :=
  (g_protect_debug gc && is_admin_path path) || (g_data_plane_auth gc && is_data_plane_path path).

Lemma compare_digest_true a b : compare_digest a b = Ok true -> a = b.
Proof.
  unfold compare_digest. destruct (_ && _); [|done]. intros [= H]. by apply bool_decide_eq_true in H.
Qed.

Lemma guard_auth_pass gc r key :
  key_set gc = Some key -> protected gc (hi_path r) = true ->
  guard_auth gc r = Ok (None : option (Response F)) -> supplied_api_key r = Some key.
Proof.
  intros Hk Hp. unfold guard_auth. rewrite Hk. unfold protected in Hp. rewrite Hp.
  destruct (supplied_api_key r) as [k|]; [|done]. unfold mbind, result_bind.
  destruct (compare_digest k key) as [[]|] eqn:E; intros H; try done.
  by apply compare_digest_true in E as ->.
Qed.

(** C22. With a key configured, a request reaches a protected route only if it
    supplies exactly that key; every other request is answered 401 or fails, and
    a request that declares more bytes than the cap never reaches a route. *)
Theorem protected_routes_need_key gc r key :
  key_set gc = Some key -> protected gc (hi_path r) = true ->
  match request_guard gc r : result PyExc (option (Response F)) with
  | Ok None => supplied_api_key r = Some key /\
      forall n, dget "content-length" (hi_headers r) = Some n -> isdigit n = true ->
        g_body_cap gc <> 0 -> hi_method r ∈ ["POST"; "PUT"; "PATCH"] ->
        exists size, int_of_str n = Some size /\ size <= g_body_cap gc
  | Ok (Some resp) => rs_status resp = 401 \/ rs_status resp = 413
  | Err _ => True
  end.
Proof.
  intros Hk Hp. unfold request_guard.
  pose proof (guard_auth_pass gc r key Hk Hp) as Hpass.
  unfold mbind at 1, result_bind at 1. destruct (guard_auth gc r) as [[resp|]|e] eqn:Ea; [| |done].
  - left. unfold guard_auth in Ea. rewrite Hk in Ea. destruct (_ || _); [|done].
    destruct (supplied_api_key r); simpl in Ea; [|by injection Ea as <-].
    destruct (compare_digest _ _) as [[]|]; simpl in Ea; try done; by injection Ea as <-.
  - unfold guard_size. destruct (dget "content-length" (hi_headers r)) as [n|] eqn:El.
    + destruct (negb (g_body_cap gc =? 0) && str_in (hi_method r) ["POST"; "PUT"; "PATCH"] &&
                str_truth n && isdigit n) eqn:Ec.
      * destruct (int_of_str n) as [size|] eqn:Es; [|done]. destruct (Z.ltb_spec (g_body_cap gc) size).
        { right. by destruct (is_data_plane_path _). }
        split; [by apply Hpass|]. intros n' [= <-] _ _ _. by exists size.
      * split; [by apply Hpass|]. intros n' [= <-] Hd Hcap Hm. exfalso.
        apply not_true_iff_false in Ec. apply Ec. rewrite Hd, !andb_true_iff, negb_true_iff, Z.eqb_neq.
        split_and!; [done|by apply bool_decide_eq_true| |done]. by destruct n.
    + split; [by apply Hpass|done].
Qed.
End Guard.

Section Limits.
Context {F : Type} {PF : PyFloat F}.
Implicit Types (b : list (string * json F)) (g : GwCfg F) (gw : Gateway F).

Lemma check_budgets_ok keys b cap key :
  check_budgets keys b cap = None -> key ∈ keys ->
  bget key b = JNull \/ exists v, bget key b = JInt v /\ 0 < v /\ (cap <> 0 -> v <= cap).
Proof.
  induction keys as [|k keys IH]; [by intros _ ?%not_elem_of_nil|]. simpl.
  intros H Hin. apply elem_of_cons in Hin as [->|Hin].
  - destruct (bget k b); try done; [by left|]. right. eexists. split; [done|].
    destruct (Z.leb_spec z 0); [done|]. split; [done|]. intros Hc.
    destruct (Z.eqb_spec cap 0); [done|]. simpl in H. destruct (Z.ltb_spec cap z); [done|lia].
  - apply IH; [|done]. destruct (bget k b); try done.
    destruct (z <=? 0); [done|]. by destruct (_ && _).
Qed.

Lemma validated_budgets b chat cap key :
  validate_openai_body (JDict b) chat cap = None -> key ∈ budget_keys ->
  bget key b = JNull \/ exists v, bget key b = JInt v /\ 0 < v /\ (cap <> 0 -> v <= cap).
Proof.
  unfold validate_openai_body. intros H. apply check_budgets_ok. by case_match.
Qed.

Lemma prompt_cap_ok b cap ollama :
  prompt_within_cap b cap ollama = Ok (None : option (Response F)) -> cap <> 0 ->
  exists p, extract_prompt b = Ok p /\ str_len p <= cap.
Proof.
  unfold prompt_within_cap. intros H Hc. destruct (Z.eqb_spec cap 0); [done|].
  unfold mbind, result_bind in H. destruct (extract_prompt b) as [p|]; [|done].
  destruct (Z.leb_spec (str_len p) cap); [by exists p|done].
Qed.

(** The body and backends of a request a handler hands to the proxy. *)
Definition handed_over (d : Dispatch F) : option (list (string * json F) * option (list string)) :=
  match d with
  | DReply _ => None
  | DJson b _ allowed _ | DRelay b _ allowed | DOllama b _ allowed => Some (b, allowed)
  end.

(** C23. An OpenAI request that reaches the proxy is the client's body unchanged; its
    token budgets are absent or positive and within the cap, its prompt is within
    the prompt cap, and some backend may serve it. *)
Theorem accepted_requests_within_caps chat g gw b d b' allowed :
  openai_route chat g gw b = Ok d -> handed_over d = Some (b', allowed) ->
  b' = b /\ allowed <> Some [] /\
  (forall key, key ∈ budget_keys -> bget key b = JNull \/
     exists v, bget key b = JInt v /\ 0 < v /\
       (max_tokens_cap (gw_config g) <> 0 -> v <= max_tokens_cap (gw_config g))) /\
  (prompt_chars_cap (gw_config g) <> 0 ->
   exists p, extract_prompt b = Ok p /\ str_len p <= prompt_chars_cap (gw_config g)).
Proof.
  unfold openai_route. intros H Hd.
  destruct (validate_openai_body (JDict b) chat _) eqn:Ev; [by injection H as <-|].
  unfold mbind at 1, result_bind at 1 in H.
  destruct (prompt_within_cap b _ false) as [[r|]|] eqn:Ep; [by injection H as <-| |done].
  unfold mbind, result_bind in H. destruct (resolve_model _ _) as [al|]; [|done].
  split_and!.
  - destruct al as [[|]|]; [by injection H as <-|..]; destruct (truthy _);
      injection H as <-; by injection Hd as <- <-.
  - destruct al as [[|]|]; [by injection H as <-|..]; destruct (truthy _);
      injection H as <-; by injection Hd as <- <-.
  - intros key. by apply validated_budgets with (chat := chat).
  - by apply prompt_cap_ok with (ollama := false).
Qed.

(** The Ollama routes do not enforce the token cap: the budget arrives as
    [options.num_predict], which the validation never looks at, and is forwarded
    as [max_tokens] whatever the cap. *)
Theorem num_predict_is_not_capped g gw n :
  prompt_chars_cap (gw_config g) = 0 \/ 8 <= prompt_chars_cap (gw_config g) ->
  let b := [("messages", JList [JDict [("content", JStr "hi")]]);
            ("options", JDict [("num_predict", JInt n)])] in
  exists ob, ollama_route true g gw b = Ok (DOllama ob true None) /\
             bget "max_tokens" ob = JInt n.
Proof.
  intros Hp. cbv zeta. unfold ollama_route. cbn [validate_openai_body bget].
  match goal with |- context [prompt_within_cap ?b ?c true] =>
    assert (Hc : prompt_within_cap b c true = Ok (None : option (Response F))) end.
  { unfold prompt_within_cap. destruct Hp as [->|Hp]; [done|].
    destruct (Z.eqb_spec (prompt_chars_cap (gw_config g)) 0); [done|].
    match goal with |- context [extract_prompt ?b] =>
      assert (E : extract_prompt b = Ok "user: hi") by done; rewrite E end.
    unfold mbind, result_bind. change (str_len "user: hi") with 8.
    by rewrite (proj2 (Z.leb_le _ _) Hp). }
  rewrite Hc. eexists. split; [|shelve].
  unfold mbind, result_bind, resolve_model. simpl.
  unfold resolve_model_backends. rewrite orb_true_r. reflexivity.
Unshelve.
  reflexivity.
Qed.
End Limits.

(** ** Model resolution *)

Section Models.
Context {F : Type} {PF : PyFloat F}.
Implicit Types (t : AliasTable) (p : Pool F).

(** A table entry that serves a requested name: the same name, the same text but for
    case and surrounding space (or its last path segment), or one of the two last
    segments a prefix of the other. *)
Definition serves (key name : string) : Prop :=
  let l := strip (lower name) in
  let tail := last_segment (lower key) in
  key = name \/ lower key = l \/ tail = l \/ startswith l tail = true \/ startswith tail l = true.

Lemma find_alias_Some q t ids :
  find_alias q t = Some ids -> exists key, (key, ids) ∈ t /\ q (lower key) = true.
Proof.
  induction t as [|[k v] t IH]; [done|]. simpl. destruct (q (lower k)) eqn:E.
  - intros [= ->]. exists k. split; [set_solver|done].
  - intros H. destruct (IH H) as (key & Hin & Hq). exists key. split; [set_solver|done].
Qed.

Lemma find_alias_None q t key ids :
  find_alias q t = None -> (key, ids) ∈ t -> q (lower key) = false.
Proof.
  induction t as [|[k v] t IH]; [by intros _ ?%not_elem_of_nil|]. simpl.
  destruct (q (lower k)) eqn:E; [done|]. intros H [[= -> ->]|Hin]%elem_of_cons; [done|]. by apply IH.
Qed.

(** C24. Model routing fails closed: a named request is confined to the backends of one
    table entry that serves its name, or to none at all, and none only when no
    entry has that name. *)
Theorem resolution_fails_closed t name :
  t <> [] -> name ∉ [""; "default"; "dio-default"] ->
  exists ids, resolve_model_backends t name = Some ids /\
    ((exists key, (key, ids) ∈ t /\ serves key name) \/
     (ids = [] /\ name ∉ dkeys t)).
Proof.
  intros Ht Hn. unfold resolve_model_backends.
  assert (E : Nat.eqb (length t) 0 || negb (str_truth name) ||
              str_in name ["default"; "dio-default"] = false).
  { destruct t; [done|]. simpl. destruct name; [set_solver|]. simpl.
    apply bool_decide_eq_false. set_solver. }
  rewrite E. destruct (dget name t) as [ids|] eqn:Eg.
  { exists ids. split; [done|]. left. exists name. split; [by apply dget_Some_elem|by left]. }
  apply dget_None in Eg.
  destruct (str_len (strip (lower name)) <? 3); [eexists; split; [done|by right]|].
  destruct (find_alias _ t) as [ids|] eqn:E1.
  { exists ids. split; [done|]. left. apply find_alias_Some in E1 as (key & Hin & Hq).
    exists key. split; [done|]. unfold serves. apply orb_true_iff in Hq as [Hq|Hq];
      apply bool_decide_eq_true in Hq; auto. }
  destruct (find_alias _ t) as [ids|] eqn:E2 in |- *; [|eexists; split; [done|by right]].
  exists ids. split; [done|]. left. apply find_alias_Some in E2 as (key & Hin & Hq).
  exists key. split; [done|]. unfold serves. apply orb_true_iff in Hq as [Hq|Hq]; auto 6.
Qed.

(** What the alias table lists is routable: a request for any listed name that is
    not a generic default is confined to exactly the listed backends. *)
Theorem listed_names_route model_map p name ids :
  let t := model_aliases model_map p in
  dget name t = Some ids -> name ∉ [""; "default"; "dio-default"] ->
  resolve_model_backends t name = Some ids.
Proof.
  cbv zeta. intros Hg Hn. unfold resolve_model_backends. rewrite Hg.
  assert (E : Nat.eqb (length (model_aliases model_map p)) 0 || negb (str_truth name) ||
              str_in name ["default"; "dio-default"] = false); [|by rewrite E].
  destruct (model_aliases model_map p); [done|]. simpl. destruct name; [set_solver|]. simpl.
  apply bool_decide_eq_false. set_solver.
Qed.

(** The last rule confines a request for a longer name to the backends of a shorter
    one: a request for one model is routed to engines that serve another. *)
Lemma longer_name_routes_to_shorter (tail more : string) ids :
  lower tail = tail -> last_segment tail = tail -> more <> "" ->
  strip (lower (tail ++ more)) = tail ++ more -> 3 <= str_len (tail ++ more) ->
  str_in (tail ++ more) ["default"; "dio-default"] = false ->
  resolve_model_backends [(tail, ids)] (tail ++ more) = Some ids.
Proof.
  intros Hl Hs Hm Hn Hlen Hd. unfold resolve_model_backends. rewrite Hd.
  assert (Ht : str_truth (tail ++ more) = true) by (destruct tail; [by destruct more|done]).
  rewrite Ht. cbn [length Nat.eqb negb orb dget].
  rewrite decide_False by (intros E; apply (f_equal chars) in E; rewrite chars_app in E;
    rewrite <- (app_nil_r (chars tail)) in E at 2; apply app_inv_head in E; by destruct more).
  rewrite Hn. destruct (Z.ltb_spec (str_len (tail ++ more)) 3); [lia|].
  cbn [find_alias]. rewrite Hl, Hs. rewrite startswith_app, orb_true_r.
  by destruct (str_eqb (tail ++ more) tail || str_eqb tail (tail ++ more)).
Qed.

(** A name an engine reports on its own model list is advertised by the gateway, but
    the table routing reads does not have it. *)
Lemma reported_name_not_routable :
  let be : Backend F := mkBackend "a" "http://h" "small" (Some "model-one") f0 f0 f1 None None []
    "openai" None "" "" "" "" "" "" None in
  let p := pool_init [be] in
  dget "other-model" (collect_model_names [] p (fun _ => Some [JStr "other-model"])) = Some ["a"] /\
  resolve_model_backends (model_aliases [] p) "other-model" = Some [].
Proof. vm_compute. split; reflexivity. Qed.
End Models.

(** ** The plain proxying coroutine *)

Section Plain.
Context {F : Type} {PF : PyFloat F}.
Variables (exc_text : PyExc -> string) (g : GwCfg F).
Implicit Types (gw : Gateway F) (tk : Ticket F).

(** Everything the scheduler has learnt about latencies. *)
Definition same_knowledge (s s' : Sched F) : Prop :=
  (forall w, l_fit <$> dget w (predictors s') = l_fit <$> dget w (predictors s)) /\
  rls s' = rls s /\ ewma_e2e s' = ewma_e2e s /\ ewma_samples s' = ewma_samples s /\
  recent_e2e s' = recent_e2e s /\ pred_history s' = pred_history s.

Lemma same_knowledge_trans s1 s2 s3 :
  same_knowledge s1 s2 -> same_knowledge s2 s3 -> same_knowledge s1 s3.
Proof.
  intros (A1 & A2 & A3 & A4 & A5 & A6) (B1 & B2 & B3 & B4 & B5 & B6).
  split; [intros w; by rewrite B1|]. split_and!; congruence.
Qed.

Lemma same_knowledge_alter f wid s :
  (forall lr, l_fit (f lr) = l_fit lr) -> same_knowledge s (alter_pred f wid s).
Proof.
  intros Hf. split; [|done]. intros w. unfold alter_pred. simpl. rewrite dget_dalter.
  case_decide; [subst|done]. destruct (dget wid (predictors s)); [|done]. simpl. by rewrite Hf.
Qed.

Lemma same_knowledge_release wid s : same_knowledge s (release wid s).
Proof.
  apply same_knowledge_alter. intros lr. unfold dec_pending. by destruct (0 <? pending lr).
Qed.

Lemma same_knowledge_failure wid thr s : same_knowledge s (note_failure wid thr s).1.
Proof.
  unfold note_failure. simpl. destruct (_ && _); [|done].
  eapply same_knowledge_trans; [|by apply same_knowledge_alter]. done.
Qed.

Lemma same_knowledge_failed wid e t now c s : same_knowledge s (feedback c wid e t false now s).
Proof.
  split; [|unfold feedback; rewrite pop_inflight_eq; by destruct (dget wid (predictors s))].
  intros w. rewrite feedback_workers. destruct (dget wid (predictors s)) as [lr|] eqn:E; [|done].
  rewrite dget_dset. case_decide; [subst|done]. rewrite E. unfold dec_pending, served.
  simpl. by destruct (0 <? pending lr).
Qed.

(** A reply that does not count as a served request. *)
Definition failed_reply (r : HttpReply F) : bool :=
  match r with HAnswer status _ _ => 400 <=? status | _ => true end.

(** C21. Only a served request teaches the scheduler anything: whatever the engine or
    the network answers otherwise (an error status, an exception, a cancellation,
    also of the second attempt), no estimate, window or history changes; a served
    one is fed back once, with the very token count its decision was made on, and
    the client is told the backend. *)
Theorem only_success_trains tk retried r ck gw :
  let x := json_reply exc_text g tk retried r ck gw in
  (failed_reply r = true -> same_knowledge (gw_sched gw) (gw_sched x.1)) /\
  (failed_reply r = false -> is_ok (pool_get (tk_worker tk) (gw_pool gw)) = true ->
   gw_sched x.1 = feedback (gw_sched_cfg g) (tk_worker tk) (ck_e2e ck) (tk_tokens tk) true
                    (ck_now ck) (gw_sched gw) /\
   exists resp, x.2 = JReply resp /\ rs_status resp = 200 /\
     dget "X-DIO-Backend" (rs_headers resp) = Some (tk_worker tk)).
Proof.
  cbv zeta. destruct r as [status parsed text|m|]; simpl.
  - split.
    + intros Hs. destruct (_ && _).
      { unfold send_json. destruct (forward_to _ _ _ _ _); [done|apply same_knowledge_release]. }
      unfold json_finish. destruct (pool_get _ _); [|done].
      destruct (read_answer _ _ _ _ _ _ _). rewrite Hs.
      replace (status <? 400) with false by lia. simpl.
      eapply same_knowledge_trans; [|apply same_knowledge_failed].
      destruct (500 <=? status); [apply same_knowledge_failure|done].
    + intros Hs Hp. replace (status =? 404) with false by lia. simpl.
      unfold json_finish. destruct (pool_get _ _) as [be|]; [|done].
      destruct (read_answer _ _ _ _ _ _ _). rewrite Hs.
      replace (500 <=? status) with false by lia. replace (status <? 400) with true by lia.
      split; [done|]. eexists. split; [done|]. split; done.
  - split; [|done]. intros _. apply same_knowledge_release.
  - split; done.
Qed.

(** A plain exchange is over after at most two answers of the engine. *)
Lemma second_answer_is_last tk r ck gw :
  match (json_reply exc_text g tk true r ck gw).2 with JSend _ _ _ => False | _ => True end.
Proof.
  destruct r as [status parsed text|m|]; simpl; [|done..]. rewrite andb_false_r.
  unfold json_finish. destruct (pool_get _ _); [|done]. destruct (read_answer _ _ _ _ _ _ _).
  by destruct (400 <=? status).
Qed.
End Plain.

(** ** Witnesses *)

Definition demo_guard : GuardCfg := mkGuardCfg (Some "key") true true 1000.
Definition demo_request : HttpIn :=
  mkHttpIn "POST" "/v1/chat/completions" [("authorization", "Bearer key"); ("content-length", "12")].

Lemma protected_routes_need_key_witness :
  request_guard demo_guard demo_request = Ok (None : option (Response float)) /\
  supplied_api_key demo_request = Some "key".
Proof.
  pose proof (protected_routes_need_key (F:=float) demo_guard demo_request "key" eq_refl eq_refl) as H.
  change (request_guard demo_guard demo_request) with
    (Ok None : result PyExc (option (Response float))) in H |- *.
  split; [reflexivity|exact (proj1 H)].
Defined.

Definition demo_cfg : GwCfg float :=
  mkGwCfg DIOConfig_default [] (token_counter (fun _ => None) None true).
Definition demo_gateway : Gateway float :=
  gateway_init demo_cfg [backend_defaults "a" "http://10.0.0.1:8000"].
Definition demo_chat : list (string * json float) :=
  [("messages", JList [JDict [("role", JStr "user"); ("content", JStr "hello")]]);
   ("max_tokens", JInt 64)].

Lemma accepted_requests_within_caps_witness :
  exists v, bget "max_tokens" demo_chat = JInt v /\ 0 < v.
Proof.
  assert (H : openai_route true demo_cfg demo_gateway demo_chat = Ok (DJson demo_chat true None PostNone))
    by (vm_compute; reflexivity).
  destruct (accepted_requests_within_caps true demo_cfg demo_gateway demo_chat _ _ _ H eq_refl)
    as (_ & _ & Hb & _).
  assert (Hin : "max_tokens" ∈ budget_keys) by (unfold budget_keys; constructor).
  destruct (Hb "max_tokens" Hin) as [E|(v & E & Hv & _)]; [discriminate E|by exists v].
Defined.

Lemma num_predict_is_not_capped_witness :
  8 <= prompt_chars_cap (gw_config demo_cfg) /\
  exists ob, ollama_route true demo_cfg demo_gateway
    [("messages", JList [JDict [("content", JStr "hi")]]);
     ("options", JDict [("num_predict", JInt 1000000)])] = Ok (DOllama ob true None).
Proof.
  assert (Hc : 8 <= prompt_chars_cap (gw_config demo_cfg)) by (vm_compute; discriminate).
  split; [exact Hc|].
  destruct (num_predict_is_not_capped demo_cfg demo_gateway 1000000 (or_intror Hc)) as (ob & H & _).
  by exists ob.
Defined.

Definition demo_table : AliasTable := [("org/llama3", ["a"; "b"]); ("qwen", ["c"])].

Lemma resolution_fails_closed_witness :
  resolve_model_backends demo_table "gpt-4" = Some [] /\
  exists ids, resolve_model_backends demo_table "gpt-4" = Some ids /\
    ((exists key, (key, ids) ∈ demo_table /\ serves key "gpt-4") \/
     (ids = [] /\ "gpt-4" ∉ dkeys demo_table)).
Proof.
  split; [vm_compute; reflexivity|].
  apply (resolution_fails_closed demo_table "gpt-4"); [discriminate|set_solver].
Defined.

Definition named_backend : Backend float :=
  mkBackend "a" "http://h" "small" (Some "org/Llama-3") f0 f0 f1 None None []
    "openai" None "" "" "" "" "" "" None.

Lemma listed_names_route_witness :
  resolve_model_backends (model_aliases [] (pool_init [named_backend])) "org/Llama-3" = Some ["a"].
Proof.
  apply (listed_names_route [] (pool_init [named_backend]) "org/Llama-3" ["a"]);
    [vm_compute; reflexivity|set_solver].
Defined.

(** The first request of the gateway, admitted. *)
Definition demo_admitted : Gateway float * Admission := admit_request demo_cfg demo_chat true "" None demo_gateway.

Lemma only_success_trains_witness :
  exists tk gw resp, demo_admitted = (gw, AdTicket tk) /\
    (json_reply (fun _ => "") demo_cfg tk false (HAnswer 200 None "") (mkClock (fint 80) 1000) gw).2
    = JReply resp /\ dget "X-DIO-Backend" (rs_headers resp) = Some (tk_worker tk).
Proof.
  assert (K : match demo_admitted with
              | (gw, AdTicket tk) => is_ok (pool_get (tk_worker tk) (gw_pool gw))
              | _ => false end = true) by (vm_compute; reflexivity).
  destruct demo_admitted as [gw [tk| |]]; try discriminate K.
  destruct (only_success_trains (fun _ => "") demo_cfg tk false (HAnswer 200 None "")
    (mkClock (fint 80) 1000) gw) as [_ H].
  destruct (H eq_refl K) as [_ (resp & Hr & _ & Hd)]. by exists tk, gw, resp.
Defined.

(** ** The shape of refusals *)

Section Shapes.
Context {F : Type} {PF : PyFloat F}.
Implicit Types (g : GwCfg F) (gw : Gateway F) (b : list (string * json F)) (r : Response F).

(** The error body an OpenAI client reads, and the one an Ollama client reads. *)
Definition openai_envelope (v : json F) : Prop :=
  exists e m t, v = JDict [("error", JDict e)] /\
    dget "message" e = Some (JStr m) /\ dget "type" e = Some (JStr t) /\
    (dget "code" e = None \/ exists c, dget "code" e = Some (JStr c)).
Definition ollama_envelope (v : json F) : Prop := exists m, v = JDict [("error", JStr m)].

Lemma openai_error_envelope m st t code :
  openai_envelope (rs_content (openai_error (F:=F) m st t code)).
Proof.
  unfold openai_error. destruct code as [c|]; [destruct (str_truth c)|]; eexists _, m, t;
    (split; [reflexivity|]); split_and!; try done; try (by left); right; by eexists.
Qed.

Lemma prompt_refusal b cap ollama r :
  prompt_within_cap b cap ollama = Ok (Some r) ->
  rs_status r = 413 /\
  (if ollama : bool then ollama_envelope (rs_content r) else openai_envelope (rs_content r)).
Proof.
  unfold prompt_within_cap. destruct (cap =? 0); [done|].
  unfold mbind, result_bind. destruct (extract_prompt b) as [p|]; [|done].
  destruct (_ <=? cap); [done|]. destruct ollama; intros [= <-]; (split; [done|]).
  - by eexists.
  - apply openai_error_envelope.
Qed.

(** C27. Every request a route refuses before it reaches the scheduler gets a 400, 404
    or 413 with the error body its kind of client reads: an object with a text
    message and type on the OpenAI routes, a plain text on the Ollama ones; so do
    the errors of the framework that the two handlers rewrite. *)
Theorem refusals_well_typed chat g gw b r :
  (openai_route chat g gw b = Ok (DReply r) ->
   rs_status r ∈ [400; 404; 413] /\ openai_envelope (rs_content r)) /\
  (ollama_route chat g gw b = Ok (DReply r) ->
   rs_status r ∈ [400; 404; 413] /\ ollama_envelope (rs_content r)) /\
  (forall path st detail loc, let for_client v :=
     if startswith "/api/" path then ollama_envelope v else openai_envelope v in
   for_client (rs_content (http_error path st detail)) /\
   for_client (rs_content (body_error path loc detail))).
Proof.
  split_and!.
  - unfold openai_route. destruct (validate_openai_body _ _ _) as [m|].
    { intros [= <-]. split; [set_solver|apply openai_error_envelope]. }
    unfold mbind at 1, result_bind at 1.
    destruct (prompt_within_cap b _ false) as [[r'|]|] eqn:Ep; [|unfold mbind, result_bind|done].
    { intros [= <-]. apply prompt_refusal in Ep as [-> H]. split; [set_solver|done]. }
    destruct (resolve_model _ _) as [al|]; [|done].
    destruct al as [[|]|]; try (destruct (truthy _); discriminate).
    intros [= <-]. split; [set_solver|apply openai_error_envelope].
  - unfold ollama_route. destruct (validate_openai_body _ _ _) as [m|].
    { intros [= <-]. split; [set_solver|by eexists]. }
    unfold mbind at 1, result_bind at 1.
    destruct (prompt_within_cap b _ true) as [[r'|]|] eqn:Ep; [|unfold mbind, result_bind|done].
    { intros [= <-]. apply prompt_refusal in Ep as [-> H]. split; [set_solver|done]. }
    destruct (resolve_model _ _) as [al|]; [|done].
    destruct al as [[|]|]; try (destruct (ollama_openai_body _ _ _); [|done];
      destruct (truthy _); discriminate).
    intros [= <-]. split; [set_solver|by eexists].
  - intros path st detail loc. cbv zeta. unfold http_error, body_error.
    destruct (startswith "/api/" path); split;
      first [by eexists|apply openai_error_envelope].
Qed.

(** The refusals of the middleware and of the proxy do not follow the same rule: an
    Ollama client whose plain request is not admitted gets the OpenAI object. *)
Lemma rejected_ollama_gets_openai_object m retry iso model :
  let r : Response F := mkResponse 503 (rejection_json m) (retry_header retry) in
  ollama_answer iso (PostChat model) r = Ok r /\ ~ ollama_envelope (rs_content r).
Proof. cbv zeta. split; [done|]. intros [m' H]. discriminate H. Qed.
End Shapes.

Lemma refusals_well_typed_witness :
  exists r, openai_route true demo_cfg demo_gateway [("messages", JNull)] = Ok (DReply r) /\
    rs_status r = 400 /\ openai_envelope (rs_content r).
Proof.
  destruct (openai_route true demo_cfg demo_gateway [("messages", JNull)]) as [[r| | |]|] eqn:E;
    try discriminate E.
  exists r. split; [reflexivity|].
  pose proof (proj1 (refusals_well_typed true demo_cfg demo_gateway _ r) E) as H.
  split; [|exact (proj2 H)]. vm_compute in E. by injection E as <-.
Defined.
