(* ===== verification/BackendProps.v ===== *)
(** Properties of the backend registry: where its requests go and what they carry. *)

From S2P Require Import Prelude PyFloat PyStr PyDict Json Backends.

(** ** The vetted host *)

Section Host.
Variable bracketed_ok : string -> bool.

Definition url_delim (c : ascii) : bool := bool_decide (c ∈ ["/"%char; "?"%char; "#"%char]).

(** The shape of a URL with a scheme and a network location. *)
Record url_shape (url : list ascii) (scheme netloc : string) : Prop := mkShape {
  us_split : exists pre c0 raw tail,
    url = (pre ++ (c0 :: raw) ++ ":"%char :: "/"%char :: "/"%char :: chars netloc ++ tail)%list /\
    forallb is_c0_or_space pre = true /\ is_c0_or_space c0 = false /\
    is_ascii_alpha c0 = true /\ forallb is_scheme_char raw = true /\
    unchars (map to_lower (c0 :: raw)) = scheme /\
    (tail = [] \/ exists d r, tail = d :: r /\ url_delim d = true);
  us_netloc : forallb (fun c => negb (url_delim c)) (chars netloc) = true;
  us_brackets : has_char "[" netloc = has_char "]" netloc /\
                (has_char "[" netloc = true -> bracketed_ok netloc = true)
}.

Lemma drop_while_split p (l : list ascii) :
  exists pre, l = (pre ++ drop_while p l)%list /\ forallb p pre = true.
Proof.
  induction l as [|c l (pre & E & Hp)]; [by exists []|]. simpl. destruct (p c) eqn:Hc.
  - exists (c :: pre). simpl. by rewrite <- E, Hc, Hp.
  - by exists [].
Qed.

Lemma drop_while_head p (l : list ascii) c r : drop_while p l = c :: r -> p c = false.
Proof.
  induction l as [|x l IH]; [done|]. simpl. destruct (p x) eqn:E; [done|]. by intros [= <- _].
Qed.

Lemma drop_while_pre p pre c l :
  forallb p pre = true -> p c = false -> drop_while p (pre ++ c :: l) = (c :: l)%list.
Proof.
  intros Hp Hc. induction pre as [|x pre IH]; simpl in *; [by rewrite Hc|].
  bool_hyps. rewrite H. by apply IH.
Qed.

Lemma scheme_no_colon raw : forallb is_scheme_char raw = true -> ":"%char ∉ raw.
Proof. rewrite forallb_forall. intros H Hin%list_elem_of_In%H. by vm_compute in Hin. Qed.

Lemma partition_first c (a b : list ascii) :
  c ∉ a -> partition c (unchars (a ++ c :: b)%list) = Some (unchars a, unchars b).
Proof.
  intros H. induction a as [|x a IH]; simpl; [by rewrite decide_True|].
  rewrite decide_False by set_solver. by rewrite IH by set_solver.
Qed.

Lemma netloc_of_split s :
  exists tail, chars s = (chars (netloc_of s) ++ tail)%list /\
    forallb (fun c => negb (url_delim c)) (chars (netloc_of s)) = true /\
    (tail = [] \/ exists d r, tail = d :: r /\ url_delim d = true).
Proof.
  unfold netloc_of. rewrite String.list_ascii_of_string_of_list_ascii.
  induction (chars s) as [|c l (tail & E & Hn & Ht)].
  - exists []. split_and!; [done|done|by left].
  - destruct (url_delim c) eqn:Hc; unfold url_delim in Hc; simpl; rewrite Hc.
    + exists (c :: l). split_and!; [done|done|]. right. by exists c, l.
    + exists tail. simpl. unfold url_delim at 1. rewrite Hc. simpl.
      split_and!; [by f_equal|done|done].
Qed.

Lemma netloc_of_app n tail :
  forallb (fun c => negb (url_delim c)) n = true ->
  (tail = [] \/ exists d r, tail = d :: r /\ url_delim d = true) ->
  netloc_of (unchars (n ++ tail)%list) = unchars n.
Proof.
  intros Hn Ht. unfold netloc_of. rewrite String.list_ascii_of_string_of_list_ascii. f_equal.
  induction n as [|c n IH]; simpl in *.
  - destruct Ht as [->|(d & r & -> & Hd)]; [done|]. unfold url_delim in Hd. by rewrite Hd.
  - bool_hyps. unfold url_delim in H. rewrite H. f_equal. by apply IH.
Qed.

Lemma urlsplit_shape url u :
  urlsplit bracketed_ok url = Some u -> u_scheme u <> "" -> u_netloc u <> "" ->
  url_shape (chars url) (u_scheme u) (u_netloc u).
Proof.
  unfold urlsplit. intros H Hs Hn.
  destruct (drop_while_split is_c0_or_space (chars url)) as (pre & Eu & Hpre).
  destruct (split_scheme (unchars (drop_while is_c0_or_space (chars url)))) as [sch rest] eqn:Esp.
  assert (Hsch : u_scheme u = sch).
  { destruct (startswith "//" rest); [|by injection H as <-].
    destruct (negb (Bool.eqb _ _)); [done|]. destruct (_ && _); [done|]. by injection H as <-. }
  rewrite Hsch in Hs |- *. unfold split_scheme in Esp.
  destruct (partition ":" _) as [[[|c0 raw] b]|] eqn:Ep;
    [by injection Esp as <- <-| |by injection Esp as <- <-].
  destruct (is_ascii_alpha c0 && forallb is_scheme_char (c0 :: chars raw)) eqn:Ea;
    [|by injection Esp as <- <-].
  injection Esp as <- <-. apply partition_Some in Ep as [Ep _].
  destruct (startswith "//" b) eqn:Eb; [|by injection H as <-].
  apply startswith_spec in Eb as [r ->].
  change (str_drop 2 ("//" ++ r)) with r in H.
  destruct (negb (Bool.eqb _ _)) eqn:Ebr; [done|].
  destruct (has_char "[" (netloc_of r) && negb (bracketed_ok (netloc_of r))) eqn:Ebk; [done|].
  injection H as <-. simpl in *.
  destruct (netloc_of_split r) as (tail & Er & Hnd & Ht).
  apply (f_equal chars) in Ep. rewrite String.list_ascii_of_string_of_list_ascii in Ep.
  rewrite chars_app in Ep. cbn [String.list_ascii_of_string] in Ep.
  rewrite (chars_app "//" r), Er in Ep. cbn [String.list_ascii_of_string app] in Ep.
  bool_hyps. apply eqb_prop in Ebr.
  constructor; [|done|].
  - exists pre, c0, (chars raw), tail. split_and!; try done.
    + rewrite Eu at 1. by rewrite Ep.
    + by eapply drop_while_head.
  - split; [done|]. intros Hb. rewrite Hb in Ebk. simpl in Ebk. by apply negb_false_iff in Ebk.
Qed.

Lemma shape_urlsplit url scheme netloc :
  url_shape url scheme netloc -> urlsplit bracketed_ok (unchars url) = Some (mkUrl scheme netloc).
Proof.
  intros [(pre & c0 & raw & tail & -> & Hpre & Hc & Ha & Hraw & Hs & Ht) Hn [Hb Hok]].
  unfold urlsplit. rewrite String.list_ascii_of_string_of_list_ascii.
  cbn [app]. rewrite drop_while_pre by done.
  unfold split_scheme.
  assert (Hca : is_scheme_char c0 = true) by (unfold is_scheme_char; by rewrite Ha).
  rewrite app_comm_cons, (partition_first ":" (c0 :: raw)).
  2:{ apply (scheme_no_colon (c0 :: raw)). simpl. by rewrite Hca. }
  cbn [String.string_of_list_ascii forallb].
  rewrite String.list_ascii_of_string_of_list_ascii, Ha, Hca, Hraw. cbn [andb].
  change (startswith "//" (String "/" (String "/" ?x))) with true.
  change (str_drop 2 (String "/" (String "/" ?x))) with x. cbv iota.
  rewrite netloc_of_app by done. rewrite String.string_of_list_ascii_of_string.
  rewrite Hb, eqb_reflx. cbn [negb].
  destruct (has_char "]" netloc) eqn:Ec.
  - rewrite Hok by (by rewrite Hb). cbn [negb andb]. do 2 f_equal. rewrite <- Hs.
    unfold lower. cbn [String.list_ascii_of_string].
    by rewrite String.list_ascii_of_string_of_list_ascii.
  - cbn [andb]. do 2 f_equal. rewrite <- Hs.
    unfold lower. cbn [String.list_ascii_of_string].
    by rewrite String.list_ascii_of_string_of_list_ascii.
Qed.
End Host.

Lemma drop_while_stop p (m : list ascii) c k :
  p c = false -> drop_while p (m ++ c :: k)%list = (drop_while p m ++ c :: k)%list.
Proof.
  intros Hc. induction m as [|x m IH]; simpl; [by rewrite Hc|]. by destruct (p x).
Qed.

Lemma strip_right_stop p (l : list ascii) c m :
  p c = false -> strip_right p (l ++ c :: m)%list = (l ++ c :: strip_right p m)%list.
Proof.
  intros Hc. unfold strip_right. rewrite rev_app_distr. simpl. rewrite <- app_assoc. simpl.
  rewrite drop_while_stop by done. rewrite rev_app_distr. simpl.
  by rewrite rev_involutive, <- app_assoc.
Qed.

Lemma strip_right_prefix p (l : list ascii) : exists k, l = (strip_right p l ++ k)%list.
Proof.
  destruct (drop_while_split p (rev l)) as (pre & E & _). exists (rev pre).
  unfold strip_right. rewrite <- rev_app_distr, <- E. by rewrite rev_involutive.
Qed.

(** Appending a path to the stripped base URL changes neither scheme nor host. *)
Lemma shape_endpoint bo base scheme netloc (path : string) :
  url_shape bo (chars base) scheme netloc -> netloc <> "" ->
  url_shape bo (chars (rstrip_char "/" base ++ String "/" path)) scheme netloc.
Proof.
  intros [(pre & c0 & raw & tail & E & Hpre & Hc & Ha & Hraw & Hs & Ht) Hn Hb] Hne.
  constructor; [|done|done].
  assert (Hlast : exists nl c, chars netloc = (nl ++ [c])%list).
  { destruct (exists_last (l:=chars netloc)) as (nl & c & El); [by destruct netloc|].
    by exists nl, c. }
  destruct Hlast as (nl & c & El).
  assert (Hcs : bool_decide (c = "/"%char) = false).
  { rewrite El, forallb_app in Hn. simpl in Hn. bool_hyps.
    apply bool_decide_eq_false. intros ->. by vm_compute in H0. }
  set (p := fun c' => bool_decide (c' = "/"%char)).
  assert (Er : chars (rstrip_char "/" base) = (pre ++ (c0 :: raw) ++
     ":"%char :: "/"%char :: "/"%char :: chars netloc ++ strip_right p tail)%list).
  { unfold rstrip_char. rewrite String.list_ascii_of_string_of_list_ascii, E, El.
    rewrite <- (app_assoc nl [c]). cbn [app].
    pose proof (strip_right_stop p (pre ++ (c0 :: raw) ++ ":"%char :: "/"%char :: "/"%char :: nl)
                  c tail Hcs) as H.
    repeat (rewrite <- ?app_assoc in H; cbn [app] in H).
    repeat (rewrite <- ?app_assoc; cbn [app]). exact H. }
  exists pre, c0, raw, (strip_right p tail ++ "/"%char :: chars path)%list.
  split_and!; try done.
  - rewrite chars_app, Er. cbn [String.list_ascii_of_string].
    rewrite <- !app_assoc. cbn [app]. by rewrite <- !app_assoc.
  - right. destruct (strip_right p tail) as [|d r] eqn:Et; [by eexists _, _|].
    exists d, (r ++ "/"%char :: chars path)%list. split; [done|].
    destruct (strip_right_prefix p tail) as [k Ek]. rewrite Et in Ek.
    destruct Ht as [->|(d' & r' & -> & Hd)]; [done|]. by injection Ek as -> _.
Qed.

(** What [validate_backend_url] promises of the URL it returns. *)
Lemma vetted_url bo base id v :
  validate_backend_url bo base id = Ok v ->
  v = strip base /\ exists u h, urlsplit bo v = Some u /\ u_scheme u ∈ ["http"; "https"] /\
    hostname u = Some h /\ h ∉ BLOCKED_BACKEND_HOSTS.
Proof.
  unfold validate_backend_url. destruct (negb _); [done|]. destruct (existsb _ _); [done|].
  destruct (urlsplit bo (strip base)) as [u|] eqn:Eu; [|done].
  destruct (bool_decide (u_scheme u ∈ _)) eqn:Es; [|done]. simpl.
  destruct (hostname u) as [h|] eqn:Eh; [|done].
  destruct (bool_decide (h ∈ _)) eqn:Eb; [done|]. intros [= <-].
  apply bool_decide_eq_true in Es. apply bool_decide_eq_false in Eb.
  split; [done|]. exists u, h. done.
Qed.

Section Endpoints.
Context {F : Type} {PF : PyFloat F}.
Implicit Types b : Backend F.

(** The URLs the gateway's client is ever asked for, for a backend. *)
Definition endpoints b : list string :=
  [chat_url b; completions_url b; models_url b; health_url b; metrics_url b].

Lemma url_of_slash b path :
  exists rest, url_of b path = rstrip_char "/" (b_base_url b) ++ String "/" rest.
Proof.
  unfold url_of. destruct (startswith "/" path) eqn:E; [|by exists path].
  apply startswith_spec in E as [r ->]. by exists r.
Qed.

Lemma endpoints_url_of b u : u ∈ endpoints b -> exists path, u = url_of b path.
Proof.
  unfold endpoints. intros H. in_cases H; subst; unfold chat_url, completions_url;
    repeat case_match; by eexists.
Qed.

(** C26. Whatever paths a backend is configured with, every URL the gateway's client
    requests for it is either the target of a redirect that the engine answered with,
    and that the client follows, or has the scheme and the host that were vetted when
    the backend was constructed: http(s), and none of the blocked metadata hosts. *)
Theorem endpoints_stay_on_vetted_host bo redirects b b' u v :
  post_init bo b = Ok b' -> u ∈ endpoints b' -> v ∈ client_requests redirects u ->
  v ∈ redirects FOLLOW_REDIRECTS u \/
  exists parts h, urlsplit bo v = Some parts /\ u_scheme parts ∈ ["http"; "https"] /\
    hostname parts = Some h /\ h ∉ BLOCKED_BACKEND_HOSTS /\
    urlsplit bo (b_base_url b') = Some parts.
Proof.
  intros H Hu [->|Hv]%elem_of_cons; [right|by left]. revert H. unfold post_init, mbind, result_bind.
  intros H.
  destruct (validate_backend_url _ _ _) as [v|] eqn:Ev; [|done]. injection H as <-.
  apply vetted_url in Ev as (-> & parts & h & Es & Hsch & Hh & Hblk).
  apply endpoints_url_of in Hu as [path ->].
  destruct (url_of_slash (set_base_url (strip (b_base_url b)) b) path) as [rest ->]. simpl.
  exists parts, h. split_and!; try done.
  assert (Hn : u_netloc parts <> "").
  { intros E. unfold hostname in Hh. by rewrite E in Hh. }
  assert (Hs : u_scheme parts <> "") by (intros E; rewrite E in Hsch; set_solver).
  pose proof (urlsplit_shape bo _ _ Es Hs Hn) as Hshape.
  apply (shape_endpoint _ _ _ _ rest) in Hshape; [|done].
  apply shape_urlsplit in Hshape. rewrite String.string_of_list_ascii_of_string in Hshape.
  rewrite Hshape. by destruct parts.
Qed.
End Endpoints.

(** ** What a request carries *)

Section Payload.
Context {F : Type} {PF : PyFloat F}.
Implicit Types (b : Backend F) (body : list (string * json F)).

(** A backend that speaks the OpenAI API gets the client's fields unchanged, all but
    "model", which is the backend's own when it names one; the timeout is the
    backend's when it has one, and its key is sent as a bearer token. *)
Theorem forwarded_body_faithful url b body timeout rq :
  b_api_style b <> "tgi_generate" -> forward url b body timeout = Ok rq ->
  exists sent, rq_payload rq = JDict sent /\
    (forall k, k <> "model" -> dget k sent = dget k body) /\
    dget "model" sent = match b_model b with
                        | Some m => if str_truth m then Some (JStr m) else dget "model" body
                        | None => dget "model" body
                        end /\
    rq_timeout rq = default timeout (b_timeout_s b) /\
    rq_headers rq = auth_headers b /\ rq_url rq = url.
Proof.
  unfold forward. intros Hs. unfold str_eqb. rewrite (bool_decide_eq_false_2 _ Hs).
  intros [= <-]. exists (with_model b body). unfold with_model. split_and!; try done.
  - intros k Hk. destruct (b_model b) as [m|]; [|done]. destruct (str_truth m); [|done].
    by rewrite dget_dset_ne by congruence.
  - destruct (b_model b) as [m|]; [|done]. destruct (str_truth m); [|done].
    by rewrite dget_dset_eq.
Qed.

Lemma tgi_numbers_keeps pairs body params params' k :
  k ∉ map snd pairs -> tgi_numbers pairs body params = Ok params' -> dget k params' = dget k params.
Proof.
  revert params; induction pairs as [|[s d] pairs IH]; intros params Hk; simpl; [by intros [= ->]|].
  simpl in Hk. apply not_elem_of_cons in Hk as [Hd Hk].
  destruct (is_none (bget s body)); [by apply IH|].
  unfold mbind, result_bind. destruct (jfloat (bget s body)); [|done].
  intros H. rewrite (IH _ Hk H). by apply dget_dset_ne.
Qed.

(** The mapping to TGI never takes an explicit zero for an absent value: a budget of
    [max_tokens] and a temperature, 0 included, arrive as they are given, and
    sampling is off exactly when the temperature is not positive; only a body
    without them gets 64 tokens at 0.7. *)
Theorem tgi_keeps_explicit_zero body inputs params :
  openai_chat_to_tgi_generate body = Ok (JDict [("inputs", inputs); ("parameters", JDict params)]) ->
  (forall n, bget "max_tokens" body = JInt n -> dget "max_new_tokens" params = Some (JInt n)) /\
  (forall t, bget "temperature" body = JFloat t ->
     dget "temperature" params = Some (JFloat t) /\
     dget "do_sample" params = Some (JBool (flt f0 t))) /\
  (bget "max_tokens" body = JNull -> bget "max_new_tokens" body = JNull ->
     dget "max_new_tokens" params = Some (JInt 64)) /\
  (bget "temperature" body = JNull ->
     dget "temperature" params = Some (JFloat (fdec 7 (-1))) /\
     dget "do_sample" params = Some (JBool true)).
Proof.
  unfold openai_chat_to_tgi_generate, mbind, result_bind.
  destruct (tgi_prompt body) as [prompt|]; [|done].
  destruct (if is_none _ then Ok 64 else jint _) as [n|] eqn:En; [|done].
  destruct (if is_none (bget "temperature" body) then _ else _) as [p1|] eqn:Et; [|done].
  destruct (tgi_numbers _ _ _) as [p2|] eqn:E2; [|done].
  destruct (match bget "stop" body with JNull => _ | _ => _ end) as [p3|] eqn:E3; [|done].
  intros [= <- <-].
  assert (K : forall k, k ∉ ["stop_sequences"; "top_p"; "repetition_penalty"; "frequency_penalty"] ->
            dget k p3 = dget k p1).
  { intros k Hk. transitivity (dget k p2).
    - assert (Hs : forall v, dget k (dset "stop_sequences" v p2) = dget k p2)
        by (intros v; apply dget_dset_ne; set_solver).
      revert E3. destruct (bget "stop" body) as [| | | | | |]; simpl;
        intros [= <-]; by rewrite ?Hs.
    - eapply tgi_numbers_keeps; [|exact E2]. simpl. set_solver. }
  rewrite !K by set_solver.
  assert (Hn : dget "max_new_tokens" p1 = Some (JInt n)).
  { revert Et. destruct (is_none (bget "temperature" body)); [by intros [= <-]|].
    destruct (jfloat _); [|done]. by intros [= <-]. }
  rewrite Hn. split_and!.
  - intros m Hm. rewrite Hm in En. simpl in En. congruence.
  - intros t Ht. rewrite Ht in Et. simpl in Et. by injection Et as <-.
  - intros H1 H2. rewrite H1 in En. simpl in En. rewrite H2 in En. simpl in En. congruence.
  - intros Ht. rewrite Ht in Et. simpl in Et. by injection Et as <-.
Qed.

(** The usage block of a normalised TGI answer adds up: the prompt count is the
    caller's, never negative; the completion count is the engine's own when that is
    positive and otherwise at least one; the total is their sum. *)
Theorem tgi_usage_adds_up now_ms raw model ptoks answer :
  tgi_generate_to_openai_chat now_ms raw model ptoks = Ok answer ->
  exists d p cv c, answer = JDict d /\
    dget "usage" d = Some (JDict [("prompt_tokens", JInt p); ("completion_tokens", cv);
                                  ("total_tokens", JInt (p + c))]) /\
    p = Z.max 0 ptoks /\ as_int cv = Some c /\ 1 <= c /\ dget "model" d = Some model /\
    (forall text det n, tgi_text raw = Ok (text, JDict det) ->
       bget "generated_tokens" det = JInt n -> 0 < n -> c = n).
Proof.
  unfold tgi_generate_to_openai_chat, mbind, result_bind. intros H.
  destruct (tgi_text raw) as [[text details]|] eqn:Et; [|done].
  set (rep := match details with JDict d => bget "generated_tokens" d | _ => JNull end) in *.
  destruct (match as_int rep with Some _ => _ | None => _ end) as [cv|] eqn:Ec; [|done].
  injection H as <-.
  assert (Hc : exists c, as_int cv = Some c /\ 1 <= c /\
    (forall n, as_int rep = Some n -> 0 < n -> c = n)).
  { destruct (as_int rep) as [n|] eqn:En.
    - destruct (Z.leb_spec n 0).
      + destruct (jlen text); [|done]. injection Ec as <-. eexists. split; [done|]. split; [lia|].
        intros n' [= <-]. lia.
      + injection Ec as <-. exists n. rewrite En. split; [done|]. split; [lia|]. by intros n' [= ->].
    - destruct (jlen text); [|done]. injection Ec as <-. eexists. split; [done|].
      split; [lia|done]. }
  destruct Hc as (c & Hcv & H1 & Hrep). rewrite Hcv. simpl.
  eexists _, _, cv, c. split; [reflexivity|]. split; [reflexivity|].
  split; [destruct (Z.ltb_spec 0 ptoks); lia|]. split_and!; try done.
  intros text' det n [= <- ->] Hg Hn. apply Hrep; [|done]. unfold rep. by rewrite Hg.
Qed.
End Payload.

(** ** Witnesses *)

Definition demo_backend : Backend float := backend_defaults "a" "HTTP://10.0.0.1:8000//?q=1".

Lemma endpoints_stay_on_vetted_host_witness :
  exists parts h, urlsplit (fun _ => false) "HTTP://10.0.0.1:8000//?q=1/v1/models" = Some parts /\
    u_scheme parts ∈ ["http"; "https"] /\ hostname parts = Some h /\
    h ∉ BLOCKED_BACKEND_HOSTS /\
    urlsplit (fun _ => false) "HTTP://10.0.0.1:8000//?q=1" = Some parts.
Proof.
  destruct (endpoints_stay_on_vetted_host (fun _ => false) (fun _ _ => []) demo_backend demo_backend
    "HTTP://10.0.0.1:8000//?q=1/v1/models" "HTTP://10.0.0.1:8000//?q=1/v1/models") as [H|H].
  - reflexivity.
  - apply (proj2 (list_elem_of_In _ _)). vm_compute. tauto.
  - by left.
  - by apply not_elem_of_nil in H.
  - exact H.
Defined.

(** An engine that answers with a redirect sends the gateway's client to a blocked host;
    a client built without [follow_redirects] would have stayed. *)
Lemma redirect_reaches_blocked_host :
  let redirects (follow : bool) (_ : string) :=
    if follow then ["http://169.254.169.254/latest/meta-data/"] else [] in
  post_init (fun _ => false) demo_backend = Ok demo_backend /\
  (forall u, redirects false u = []) /\
  exists v parts h, v ∈ client_requests redirects (models_url demo_backend) /\
    urlsplit (fun _ => false) v = Some parts /\ hostname parts = Some h /\
    h ∈ BLOCKED_BACKEND_HOSTS.
Proof.
  split_and!; [reflexivity|done|]. eexists _, _, _. split_and!.
  - right. left.
  - reflexivity.
  - reflexivity.
  - left.
Qed.

Definition demo_fields : list (string * json float) :=
  [("model", JStr "default"); ("max_tokens", JInt 0); ("temperature", JFloat (fint 0));
   ("prompt", JStr "hi")].

Lemma forwarded_body_faithful_witness :
  exists sent, rq_payload (mkRequest "u" (JDict demo_fields) [] (fint 5)) = JDict sent /\
    (forall k, k <> "model" -> dget k sent = dget k demo_fields).
Proof.
  destruct (forwarded_body_faithful "u" demo_backend demo_fields (fint 5)
    (mkRequest "u" (JDict demo_fields) [] (fint 5))) as (sent & H1 & H2 & _).
  - by vm_compute.
  - reflexivity.
  - exists sent. split; [exact H1|exact H2].
Defined.

Lemma tgi_keeps_explicit_zero_witness :
  match openai_chat_to_tgi_generate demo_fields with
  | Ok (JDict [(_, _); (_, JDict params)]) =>
      dget "max_new_tokens" params = Some (JInt 0) /\
      dget "do_sample" params = Some (JBool false)
  | _ => False
  end.
Proof.
  destruct (tgi_keeps_explicit_zero demo_fields (JStr "hi")
    [("max_new_tokens", JInt 0); ("do_sample", JBool false); ("temperature", JFloat (fint 0))])
    as (H1 & H2 & _); [vm_compute; reflexivity|].
  split; [exact (H1 0 eq_refl)|exact (proj2 (H2 (fint 0) eq_refl))].
Defined.

Definition demo_tgi_reply : json float :=
  JList [JDict [("generated_text", JStr "some text"); ("details", JDict [("generated_tokens", JInt 7)])]].

Lemma tgi_usage_adds_up_witness :
  exists d, dget "usage" d = Some (JDict [("prompt_tokens", JInt 5); ("completion_tokens", JInt 7 : json float);
                                  ("total_tokens", JInt 12)]).
Proof.
  destruct (tgi_generate_to_openai_chat 1000 demo_tgi_reply (JStr "m") 5) as [a|] eqn:E; [|discriminate E].
  destruct (tgi_usage_adds_up 1000 demo_tgi_reply (JStr "m") 5 a E)
    as (d & p & cv & c & -> & Hu & -> & Hcv & _ & _ & Hn).
  exists d. injection E as <-. reflexivity.
Defined.
