(* ===== verification/ConfigProps.v ===== *)
(** Properties of configuration files: where they are found, what the settings become,
    and that the models they declare are routed to the backends that list them. *)

From S2P Require Import Prelude PyFloat PyStr PyDict Json Config EngineMetrics Learner.
From S2P Require Import LearnerFacts Scheduler SchedulerFacts PickFacts Setup Accounting.
From S2P Require Import Backends Requests ConfigFile OllamaStream Proxy Routes RouteProps.

(** ** Discovery *)

Section Discovery.
Variable is_file : list string -> string -> bool.

(** The first configuration name that is a file in a directory. *)
Definition first_name (dir : list string) (name : string) : Prop :=
  exists before after, CONFIG_NAMES = (before ++ name :: after)%list /\
    is_file dir name = true /\ forall n, n ∈ before -> is_file dir n = false.

Definition no_config (dir : list string) : Prop :=
  forall name, name ∈ CONFIG_NAMES -> is_file dir name = false.

Lemma find_first dir name :
  List.find (is_file dir) CONFIG_NAMES = Some name -> first_name dir name.
Proof.
  unfold first_name. induction CONFIG_NAMES as [|n l IH]; [done|]. simpl.
  destruct (is_file dir n) eqn:E.
  - intros [= <-]. exists [], l. split_and!; [done|done|]. by intros ? ?%not_elem_of_nil.
  - intros H. destruct (IH H) as (b & a & -> & Hf & Hb). exists (n :: b), a.
    split_and!; [done|done|]. intros m [->|Hm]%elem_of_cons; auto.
Qed.

Lemma find_none dir : List.find (is_file dir) CONFIG_NAMES = None -> no_config dir.
Proof. intros H n Hn%list_elem_of_In. by apply (List.find_none _ _ H). Qed.

Lemma discover_up_spec fuel dir :
  match discover_up fuel is_file dir with
  | Some (d, name) => exists k, (k < fuel)%nat /\ (k <= length dir)%nat /\ d = drop k dir /\
      first_name d name /\ forall j, (j < k)%nat -> no_config (drop j dir)
  | None => forall j, (j < fuel)%nat -> (j <= length dir)%nat -> no_config (drop j dir)
  end.
Proof.
  revert dir; induction fuel as [|fuel IH]; intros dir; [simpl; lia|].
  cbn [discover_up]. destruct (List.find (is_file dir) CONFIG_NAMES) as [name|] eqn:E.
  - exists 0%nat. split_and!; [lia|lia|done|by apply find_first|intros j Hj; lia].
  - apply find_none in E. destruct dir as [|c parent].
    + intros j _ Hj. simpl in Hj. by replace j with 0%nat by lia.
    + specialize (IH parent). destruct (discover_up fuel is_file parent) as [[d name]|].
      * destruct IH as (k & Hk & Hl & -> & Hf & Hno). exists (S k).
        split_and!; [lia|simpl; lia|done|done|]. intros [|j] Hj; [done|]. apply Hno. lia.
      * intros [|j] Hj Hl; [done|]. simpl in Hl. apply IH; lia.
Qed.

(** The configuration found is the nearest one: from the starting directory upward,
    in the first of at most ten levels that holds any of the five names, the first
    name of the list that is a file there; nothing is found only if none of those
    levels holds one.  The search ends at the root. *)
Theorem discovery_finds_nearest dir :
  match discover_config is_file dir with
  | Some (d, name) => exists k, (k < 10)%nat /\ (k <= length dir)%nat /\ d = drop k dir /\
      first_name d name /\ forall j, (j < k)%nat -> no_config (drop j dir)
  | None => forall j, (j < 10)%nat -> (j <= length dir)%nat -> no_config (drop j dir)
  end.
Proof. apply discover_up_spec. Qed.
End Discovery.

(** ** Settings *)

Section Settings.
Context {F : Type} {PF : PyFloat F}.
Implicit Types (kw d : list (string * json F)) (sec v : json F).

Definition is_jbool v : bool := match v with JBool _ => true | _ => false end.
Definition is_jint v : bool := match v with JInt _ => true | _ => false end.
Definition is_jfloat v : bool := match v with JFloat _ => true | _ => false end.

(** The type a field of [DIOConfig] is declared with; the texts are given as they are
    in the document, when they are not empty. *)
Definition field_type (name : string) : option (json F -> bool) :=
  if str_in name ["learner_robust"; "admission_off"; "engine_metrics"; "protect_debug";
                  "data_plane_auth"; "use_tokenizer"] then Some is_jbool
  else if str_in name ["affinity_cache_size"; "port"; "body_size_cap_bytes"; "prompt_chars_cap"]
  then Some is_jint
  else if str_in name ["cache_bonus_ms"; "slo_ms"; "admission_percentile"; "request_timeout_s"]
  then Some is_jfloat
  else if str_in name ["strategy"; "nlms_mode"; "ablation"; "admission_mode"; "host"; "api_key";
                       "tokenizer_name"] then Some truthy
  else None.

Definition well_typed kw : Prop :=
  forall name v, dget name kw = Some v -> exists ty, field_type name = Some ty /\ ty v = true.

Lemma well_typed_dset name v kw ty :
  field_type name = Some ty -> ty v = true -> well_typed kw -> well_typed (dset name v kw).
Proof.
  intros Hf Hv Hk n w. rewrite dget_dset. case_decide; [|apply Hk].
  intros [= <-]. subst. by exists ty.
Qed.

Lemma set_truthy_typed sec key name kw kw' :
  set_truthy sec key name kw = Ok kw' -> field_type name = Some truthy -> well_typed kw ->
  well_typed kw'.
Proof.
  unfold set_truthy, mbind, result_bind. destruct (jget key sec) as [v|]; [|done].
  destruct (truthy v) eqn:E; intros [= <-] Hf Hk; [|done]. by eapply well_typed_dset.
Qed.

Lemma set_given_typed conv ty sec key name kw kw' :
  set_given conv sec key name kw = Ok kw' -> field_type name = Some ty ->
  (forall v w, conv v = Ok w -> ty w = true) -> well_typed kw -> well_typed kw'.
Proof.
  unfold set_given, mbind, result_bind. destruct (jget key sec) as [v|]; [|done].
  destruct (is_none v); [by intros [= <-]|]. destruct (conv v) as [w|] eqn:E; [|done].
  intros [= <-] Hf Hc Hk. by eapply well_typed_dset; [|eapply Hc|].
Qed.

Lemma as_float_typed v w : as_float v = Ok w -> is_jfloat w = true.
Proof. unfold as_float, mbind, result_bind. destruct (jfloat v); [|done]. by intros [= <-]. Qed.
Lemma to_int_typed v w : to_int v = Ok w -> is_jint w = true.
Proof. unfold to_int, mbind, result_bind. destruct (jint v); [|done]. by intros [= <-]. Qed.
Lemma to_bool_typed v w : to_bool v = Ok w -> is_jbool w = true.
Proof. by intros [= <-]. Qed.

(** Peel one binding off a computation that returned. *)
Ltac peel H := let x := fresh "x" in let E := fresh "E" in
  apply bind_Ok in H as (x & E & H).
(** One assignment keeps the arguments well typed. *)
Ltac typed_step H K := let x := fresh "kw" in let E := fresh "E" in
  apply bind_Ok in H as (x & E & H);
  first [ apply set_truthy_typed in E; [|done..]
        | eapply set_given_typed in E;
            [|reflexivity|first [apply as_float_typed|apply to_int_typed|apply to_bool_typed]
             |exact K] ];
  clear K; rename E into K.

(** Whatever the document holds, the arguments given to [DIOConfig] name fields it has
    and carry the types it declares for them: a number that does not read as one makes
    loading fail instead. *)
Theorem settings_well_typed d kw : config_kwargs d = Ok kw -> well_typed kw.
Proof.
  unfold config_kwargs. intros H.
  assert (K : well_typed []) by done.
  do 6 typed_step H K. typed_step H K. peel H. do 2 typed_step H K. do 2 peel H.
  match type of H with context [if ?b then dset ?n ?v ?k else ?k] =>
    assert (K' : well_typed (if b then dset n v k else k))
      by (destruct b; [by eapply well_typed_dset|done]) end.
  clear K. rename K' into K.
  do 9 typed_step H K. apply bind_Ok in H as (tok & _ & H). injection H as <-.
  destruct (truthy tok) eqn:Et; [|done].
  eapply well_typed_dset; [reflexivity|done|]. by eapply well_typed_dset.
Qed.
End Settings.

(** ** Declared models are routed *)

Section Routing.
Context {F : Type} {PF : PyFloat F}.
Variable bracketed_ok : string -> bool.
Implicit Types (raw : json F) (b : Backend F) (bs l : list (Backend F)) (m : AliasTable).
Local Abbreviation load_entries := (load_entries bracketed_ok).

(** An entry as the loop reads it. *)
Definition normal_entry (i : Z) raw : json F :=
  match raw with
  | JStr s => JDict [("url", JStr s); ("id", JStr ("b" ++ str_of_Z i))]
  | v => v
  end.

(** The entry lists the model. *)
Definition lists_model (name : string) raw : Prop :=
  exists ms, entry_models raw = Ok (JList ms) /\ JStr name ∈ ms.

Lemma lift_py_Ok {A} (r : result PyExc A) a : lift_py r = Ok a -> r = Ok a.
Proof. destruct r; [by intros [= ->]|done]. Qed.

Lemma bind_models_spec id models m m' name i :
  bind_models id models m = Ok m' ->
  (i ∈ dget_or name [] m' <-> i ∈ dget_or name [] m \/ (i = id /\ JStr (F:=F) name ∈ models)) /\
  (dict_wf m -> dict_wf m') /\
  (name ∈ dkeys m' <-> name ∈ dkeys m \/ JStr (F:=F) name ∈ models).
Proof.
  revert m; induction models as [|v models IH]; intros m; simpl.
  - intros [= <-]. set_solver.
  - destruct v; try done. intros H. destruct (IH _ H) as (H1 & H2 & H3). split_and!.
    + rewrite H1. unfold dget_or at 1. rewrite dget_dset. case_decide as E.
      * subst. simpl. set_solver.
      * fold (dget_or name [] m). set_solver.
    + intros Hm. by apply H2, dict_wf_dset.
    + rewrite H3, elem_of_dkeys_dset. set_solver.
Qed.

(** Open every binding of a computation that returned. *)
Ltac peel_all H := repeat (apply bind_Ok in H as (? & ? & H)).

Lemma parse_backend_inv raw i b :
  parse_backend bracketed_ok raw i = Ok b ->
  exists models first s, entry_models raw = Ok models /\
    let models := if is_none models then JList [] else models in
    first_model models = Ok first /\ as_opt_text first = Ok (b_model b) /\
    joined_models models = Ok s.
Proof.
  unfold parse_backend. intros H. peel_all H. destruct (negb _); [done|]. peel_all H.
  apply lift_py_Ok in H. unfold post_init in H. peel_all H. injection H as <-.
  repeat match goal with E : lift_py _ = Ok _ |- _ => apply lift_py_Ok in E end.
  eexists _, _, _. split; [eassumption|]. cbv zeta. split_and!; eassumption.
Qed.


(** The model an entry's backend declares is the first one it lists. *)
Lemma parse_backend_model raw i b name :
  parse_backend bracketed_ok raw i = Ok b -> b_model b = Some name -> lists_model name raw.
Proof.
  intros H Hm. destruct (parse_backend_inv _ _ _ H) as (models & first & s & Em & Hf & Ht & Hj).
  rewrite Hm in Ht. unfold first_model in Hf. destruct (is_none models) eqn:En.
  { simpl in Hf. by injection Hf as <-. }
  destruct (truthy models); [|by injection Hf as <-].
  destruct models as [| | | | |[|v l]|]; try done. injection Hf as <-.
  exists (v :: l). split; [done|]. destruct v; try done. injection Ht as ->. set_solver.
Qed.

Lemma load_entry_spec p i raw m b m' :
  load_entry bracketed_ok p i raw m = Ok (b, m') ->
  parse_backend bracketed_ok (normal_entry i raw) i = Ok b /\
  (forall name id, id ∈ dget_or name [] m' <->
     id ∈ dget_or name [] m \/ (id = b_id b /\ lists_model name (normal_entry i raw))) /\
  (dict_wf m -> dict_wf m') /\
  (forall name, name ∈ dkeys m' <-> name ∈ dkeys m \/ lists_model name (normal_entry i raw)).
Proof.
  unfold load_entry. fold (normal_entry i raw). intros H. peel_all H. injection H as -> ->.
  assert (Hp : parse_backend bracketed_ok (normal_entry i raw) i = Ok b).
  { destruct (parse_backend _ _ _) as [b'|[| |[]|]]; try done. }
  split; [exact Hp|]. destruct (parse_backend_inv _ _ _ Hp) as (models & first & s & Em & Hf & _ & Hj).
  repeat match goal with E : lift_py _ = Ok _ |- _ => apply lift_py_Ok in E end.
  rewrite Em in H1. injection H1 as <-.
  assert (Hl : forall name, lists_model name (normal_entry i raw) <-> JStr (F:=F) name ∈ x1).
  { intros name. unfold lists_model. rewrite Em.
    assert (Hno : x1 = [] -> (forall ms, models <> JList ms) ->
      (exists ms, Ok (E:=PyExc) models = Ok (JList ms) /\ JStr name ∈ ms) <-> JStr (F:=F) name ∈ x1).
    { intros -> Hm. split; [intros (l & [= E] & _); by destruct (Hm l)|by intros ?%not_elem_of_nil]. }
    destruct models as [| | | | |l|d]; try done.
    - apply Hno; [by injection H2 as <-|done].
    - assert (x1 = l) as -> by (destruct l; by injection H2 as <-).
      split; [by intros (? & [= <-] & ?)|by exists l].
    - destruct d; [|done]. apply Hno; [by injection H2 as <-|done]. }
  split_and!.
  - intros name id. destruct (bind_models_spec _ _ _ _ name id H3) as (-> & _ & _). by rewrite Hl.
  - by destruct (bind_models_spec _ _ _ _ "" "" H3) as (_ & Hw & _).
  - intros name. destruct (bind_models_spec _ _ _ _ name "" H3) as (_ & _ & ->). by rewrite Hl.
Qed.

(** The pairs of the entries and the backends they become. *)
Fixpoint numbered (i : Z) (raws : list (json F)) (bs : list (Backend F)) :
    list (json F * Backend F) :=
  match raws, bs with
  | raw :: raws', b :: bs' => (normal_entry i raw, b) :: numbered (i + 1) raws' bs'
  | _, _ => []
  end.

Lemma load_entries_spec p raws i m bs m' :
  load_entries p i raws m = Ok (bs, m') ->
  map snd (numbered i raws bs) = bs /\
  (forall raw b name, (raw, b) ∈ numbered i raws bs -> b_model b = Some name -> lists_model name raw) /\
  (forall name id, id ∈ dget_or name [] m' <->
     id ∈ dget_or name [] m \/
     exists raw b, (raw, b) ∈ numbered i raws bs /\ lists_model name raw /\ id = b_id b) /\
  (dict_wf m -> dict_wf m') /\
  (forall name, name ∈ dkeys m' <-> name ∈ dkeys m \/
     exists raw b, (raw, b) ∈ numbered i raws bs /\ lists_model name raw).
Proof.
  revert i m bs; induction raws as [|raw raws IH]; intros i m bs; cbn [ConfigFile.load_entries].
  - intros [= <- <-]. simpl. split_and!; [done| |set_solver|done|set_solver].
    by intros ? ? ? ?%not_elem_of_nil.
  - intros H. apply bind_Ok in H as ([b m1] & He & H). apply bind_Ok in H as ([bs' m2] & Hr & H).
    simpl in H. injection H as <- <-. simpl in Hr.
    destruct (load_entry_spec _ _ _ _ _ _ He) as (Hp & H1 & Hw & Hk).
    destruct (IH _ _ _ Hr) as (I0 & I1 & I2 & I3 & I4). simpl.
    split_and!; [by f_equal| | |auto|].
    + intros raw' b' name [[= -> ->]|Hin]%elem_of_cons Hm; [|by eapply I1].
      by eapply parse_backend_model.
    + intros name id. rewrite I2, H1. split.
      * intros [[Hm|[-> Hl]]|(r & b' & Hin & Hl & ->)]; [by left|right..].
        -- eexists _, _. split; [by left|done].
        -- exists r, b'. split; [by right|done].
      * intros [Hm|(r & b' & [[= -> ->]|Hin]%elem_of_cons & Hl & ->)]; auto.
        right. by exists r, b'.
    + intros name. rewrite I4, Hk. split.
      * intros [[Hm|Hl]|(r & b' & Hin & Hl)]; [by left|right..].
        -- eexists _, _. split; [by left|done].
        -- exists r, b'. split; [by right|done].
      * intros [Hm|(r & b' & [[= -> ->]|Hin]%elem_of_cons & Hl)]; auto.
        right. by exists r, b'.
Qed.

Lemma filter_every (ids : list string) (P : string -> Prop) {HP : forall x, Decision (P x)} :
  (forall i, i ∈ ids -> P i) -> filter P ids = ids.
Proof.
  induction ids as [|i ids IH]; intros H; [done|]. rewrite filter_cons_True by (apply H; by left).
  f_equal. apply IH. intros j Hj. apply H. by right.
Qed.

Lemma pool_init_list bs : NoDup (map b_id bs) -> pool_list (pool_init bs) = bs.
Proof.
  unfold pool_init, pool_list.
  assert (H : forall acc, NoDup (dkeys acc ++ map b_id bs) ->
    foldl (fun p b => pool_add b p) acc bs = (acc ++ map (fun b => (b_id b, b)) bs)%list).
  { induction bs as [|b bs IH]; intros acc Hd; simpl; [by rewrite app_nil_r|].
    assert (Hf : b_id b ∉ dkeys acc).
    { apply NoDup_app in Hd as (_ & Hd & _). intros Hin. by apply (Hd _ Hin); left. }
    unfold pool_add at 2. rewrite dset_fresh by done. rewrite IH.
    - by rewrite <- app_assoc.
    - unfold dkeys in *. rewrite map_app. simpl. by rewrite <- app_assoc. }
  intros Hd. rewrite H by done. simpl. unfold dvalues. rewrite map_map. apply map_id.
Qed.

Lemma foldl_dset_map (f : list string -> list string) m acc name :
  dict_wf m ->
  dget name (foldl (fun t '(n, ids) => dset n (f ids) t) acc m)
  = match dget name m with Some ids => Some (f ids) | None => dget name acc end.
Proof.
  revert acc; induction m as [|[n ids] m IH]; intros acc Hm; [done|].
  apply NoDup_cons in Hm as [Hn Hm]. simpl. rewrite IH by done. rewrite dget_dset.
  case_decide as E; [subst|].
  - by assert (dget n m = None) as -> by (by apply dget_None).
  - done.
Qed.

Lemma aliases_spec l t name id :
  (id ∈ dget_or name [] (foldl (fun t b => match b_model b with
     | Some x => if str_truth x then alias_add x (b_id b) t else t | None => t end) t l) <->
   id ∈ dget_or name [] t \/
   exists b, b ∈ l /\ b_model b = Some name /\ name <> "" /\ id = b_id b) /\
  (name ∈ dkeys t -> name ∈ dkeys (foldl (fun t b => match b_model b with
     | Some x => if str_truth x then alias_add x (b_id b) t else t | None => t end) t l)).
Proof.
  revert t; induction l as [|b l IH]; intros t; simpl; [set_solver|].
  set (t' := match b_model b with
             | Some x => if str_truth x then alias_add x (b_id b) t else t | None => t end).
  destruct (IH t') as [H1 H2].
  assert (K : (id ∈ dget_or name [] t' <-> id ∈ dget_or name [] t \/
                (b_model b = Some name /\ name <> "" /\ id = b_id b)) /\
              (name ∈ dkeys t -> name ∈ dkeys t')).
  { unfold t'. destruct (b_model b) as [x|]; [|split; [split; [by left|by intros [?|[? _]]]|done]].
    destruct x as [|c x]; simpl; [split; [split; [by left|intros [?|([= <-] & ? & _)]; done]|done]|].
    unfold alias_add. set (x' := String c x). split.
    - unfold dget_or at 1. rewrite dget_dset. case_decide as E.
      + subst name. simpl. case_decide; set_solver.
      + fold (dget_or name [] t). split; [by left|intros [?|([= <-] & _)]; done].
    - intros Hn. apply elem_of_dkeys_dset. by right. }
  destruct K as [K1 K2]. split; [|auto]. rewrite H1, K1. split.
  - intros [[?|(? & ? & ?)]|(b' & ? & ?)]; [by left|right; exists b; set_solver|].
    right. exists b'. set_solver.
  - intros [?|(b' & [->|?]%elem_of_cons & ?)]; [by left; left|by left; right|].
    right. by exists b'.
Qed.

(** C25. A configuration file is obeyed by the router: a request for a model that some entry
    lists is confined to exactly the backends whose entries list it, as long as
    the entries have distinct ids and the name is not one of the generic ones. *)
Theorem declared_models_route p raws bs mm name :
  load_entries p 0 raws [] = Ok (bs, mm) -> NoDup (map b_id bs) ->
  name ∉ [""; "default"; "dio-default"] ->
  (exists raw b, (raw, b) ∈ numbered 0 raws bs /\ lists_model name raw) ->
  exists ids, resolve_model_backends (model_aliases mm (pool_init bs)) name = Some ids /\
    forall id, id ∈ ids <->
      exists raw b, (raw, b) ∈ numbered 0 raws bs /\ lists_model name raw /\ id = b_id b.
Proof.
  intros H Hd Hn Hex. destruct (load_entries_spec _ _ _ _ _ _ H) as (Hbs & Hmod & Hids & Hw & Hkeys).
  assert (Hwf : dict_wf mm) by (apply Hw; constructor).
  set (t := model_aliases mm (pool_init bs)).
  assert (Hin : name ∈ dkeys mm) by (apply Hkeys; by right).
  assert (Hpool : forall id, id ∈ dget_or name [] mm -> id ∈ map b_id bs).
  { intros id Hid. apply Hids in Hid as [Hid|(raw & b & Hb & _ & ->)]; [by apply not_elem_of_nil in Hid|].
    rewrite <- Hbs, map_map. apply list_elem_of_In, in_map_iff. exists (raw, b).
    split; [done|by apply list_elem_of_In]. }
  set (f := fun ids : list string => let kept := filter (fun i => i ∈ map b_id bs) ids in
                                     match kept with [] => ids | _ => kept end).
  assert (Et : t = foldl (fun t b => match b_model b with
     | Some x => if str_truth x then alias_add x (b_id b) t else t | None => t end)
     (foldl (fun t '(n, ids) => dset n (f ids) t) [] mm) bs).
  { unfold t, model_aliases. by rewrite !pool_init_list by done. }
  destruct (dget name mm) as [ids0|] eqn:E0; [|by apply dget_None in E0].
  assert (Ef : dget name (foldl (fun t '(n, ids) => dset n (f ids) t) [] mm) = Some ids0).
  { rewrite foldl_dset_map, E0 by done. f_equal. unfold f.
    assert (Hall : forall i, i ∈ ids0 -> i ∈ map b_id bs)
      by (intros i Hi; apply Hpool; unfold dget_or; by rewrite E0).
    rewrite (filter_every ids0) by done. by destruct ids0. }
  assert (Hk : name ∈ dkeys t).
  { rewrite Et. apply (aliases_spec bs _ name ""). apply dget_is_Some. by eexists. }
  apply dget_is_Some in Hk as [ids Hids']. exists ids.
  split; [by apply listed_names_route|]. intros id.
  assert (E1 : id ∈ ids <-> id ∈ dget_or name [] t) by (unfold dget_or; by rewrite Hids').
  rewrite E1, Et. destruct (aliases_spec bs (foldl (fun t '(n, ids) => dset n (f ids) t) [] mm) name id)
    as [-> _]. unfold dget_or at 1. rewrite Ef.
  assert (E2 : id ∈ ids0 <-> id ∈ dget_or name [] mm) by (unfold dget_or; by rewrite E0).
  simpl. rewrite E2, Hids. split.
  - intros [[Hx|Hx]|(b & Hb & Hm & _ & ->)]; [by apply not_elem_of_nil in Hx|done|].
    rewrite <- Hbs in Hb. apply list_elem_of_In, in_map_iff in Hb as ([raw b'] & <- & Hb).
    apply list_elem_of_In in Hb. exists raw, b'. split_and!; [done| |done]. by eapply Hmod.
  - intros Hx. left. by right.
Qed.
End Routing.

(** ** Without PyYAML *)

Section Fallback.
Context {F : Type} {PF : PyFloat F}.
Variable bracketed_ok : string -> bool.
Variable build_config : list (string * json F) -> result PyExc (DIOConfig F).

(** A document whose "backends" entry came out empty, as the built-in parser reads every
    nested list, has no backends and no error. *)
Lemma empty_backends p d cfg :
  dget "backends" d = Some JNull -> bget "backend" d = JNull ->
  config_kwargs d = Ok [] -> build_config [] = Ok cfg ->
  load_document bracketed_ok build_config p (JDict d) = Ok ([], cfg, []).
Proof.
  intros H1 H2 H3 H4. unfold load_document, raw_backends, bget, dget_or. rewrite H1.
  unfold bget, dget_or in H2. rewrite H2. simpl. rewrite H3. simpl. by rewrite H4.
Qed.

(** Without PyYAML the very file [dio init] writes is accepted with an empty
    topology: no backend, no model and the default settings, where the code means to
    refuse it.  The built-in parser sees the key "backends" (with an empty value), and
    the guard only asks whether the key is there. *)
Theorem fallback_drops_topology read p cfg :
  read p = Some (false, generate_example_config) -> p <> "" -> build_config [] = Ok cfg ->
  load_config_file bracketed_ok build_config None read (Some p) None = Ok ([], cfg, []).
Proof.
  intros Hr Hp Hb. unfold load_config_file. destruct p as [|c p]; [done|]. simpl str_truth.
  cbv iota. rewrite Hr. unfold load_yaml.
  destruct (minimal_yaml_parse (F:=F) generate_example_config) as [d|] eqn:E; [|by vm_compute in E].
  assert (Hd : dget "backends" d = Some JNull /\ bget "backend" d = JNull /\ config_kwargs d = Ok [])
    by (vm_compute in E; injection E as <-; split_and!; reflexivity).
  destruct Hd as (H1 & H2 & H3). simpl. unfold dmem. rewrite H1.
  change (load_document bracketed_ok build_config (String c p) (JDict d) = Ok ([], cfg, [])).
  by apply empty_backends.
Qed.
End Fallback.

(** ** Witnesses *)

Definition demo_document : list (string * json float) :=
  [("scheduler", JDict [("slo_ms", JInt 30000); ("learner_robust", JInt 0)]);
   ("server", JDict [("port", JStr " 80_85 ")])].

Lemma settings_well_typed_witness :
  exists kw, config_kwargs demo_document = Ok kw /\
    dget "port" kw = Some (JInt 8085) /\ well_typed kw.
Proof.
  destruct (config_kwargs demo_document) as [kw|] eqn:E; [|discriminate E].
  exists kw. split; [reflexivity|]. split; [|exact (settings_well_typed demo_document kw E)].
  injection E as <-. vm_compute. reflexivity.
Defined.

Definition demo_entries : list (json float) :=
  [JDict [("id", JStr "gpu"); ("url", JStr "http://a:1/"); ("models", JList [JStr "org/llama3"; JStr "qwen"])];
   JStr "http://b:2";
   JDict [("url", JStr "http://c:3"); ("model", JStr "qwen"); ("tier", JStr "large")]].

Lemma declared_models_route_witness :
  exists bs mm ids, load_entries (fun _ => false) "dio.yaml" 0 demo_entries [] = Ok (bs, mm) /\
    resolve_model_backends (model_aliases mm (pool_init bs)) "qwen" = Some ids /\
    "gpu" ∈ ids.
Proof.
  destruct (load_entries (fun _ => false) "dio.yaml" 0 demo_entries []) as [[bs mm]|] eqn:E;
    [|vm_compute in E; discriminate E].
  assert (Hd : NoDup (map b_id bs)).
  { vm_compute in E. injection E as <- <-.
    apply (bool_decide_unpack _). vm_compute. exact I. }
  assert (Hl : exists raw b, (raw, b) ∈ numbered 0 demo_entries bs /\ lists_model "qwen" raw /\
            "gpu" = b_id b).
  { vm_compute in E. injection E as <- <-. eexists _, _. split; [by left|].
    split; [|reflexivity]. eexists. split; [reflexivity|]. right. by left. }
  destruct (declared_models_route (fun _ => false) "dio.yaml" demo_entries bs mm "qwen" E Hd)
    as (ids & Hr & Hi).
  - set_solver.
  - destruct Hl as (raw & b & H1 & H2 & _). by exists raw, b.
  - exists bs, mm, ids. split; [reflexivity|]. split; [exact Hr|]. by apply Hi.
Defined.

Lemma fallback_drops_topology_witness :
  load_config_file (fun _ => false) (fun _ => Ok (DIOConfig_default (F:=float))) None
    (fun _ => Some (false, generate_example_config)) (Some "dio.yaml") None
  = Ok ([], DIOConfig_default, []).
Proof.
  apply (fallback_drops_topology (F:=float) (fun _ => false) (fun _ => Ok DIOConfig_default)
    (fun _ => Some (false, generate_example_config)) "dio.yaml" DIOConfig_default);
    [reflexivity|discriminate|reflexivity].
Defined.

(** A project with a file two levels up. *)
Definition demo_files (dir : list string) (name : string) : bool :=
  bool_decide (dir = ["home"]) && str_eqb name "dio.yml".

Lemma discovery_finds_nearest_witness :
  discover_config demo_files ["src"; "project"; "home"] = Some (["home"], "dio.yml") /\
  first_name demo_files ["home"] "dio.yml".
Proof.
  pose proof (discovery_finds_nearest demo_files ["src"; "project"; "home"]) as H.
  change (discover_config demo_files ["src"; "project"; "home"])
    with (Some (["home"], "dio.yml")) in H |- *.
  destruct H as (k & _ & _ & _ & Hf & _). split; [reflexivity|exact Hf].
Defined.
