(* ===== verification/McpProps.v ===== *)
(** Properties of the Model Context Protocol server: its replies, its frames, and how
    its latency predictions relate to the scheduler's. *)

From S2P Require Import Prelude PyFloat PyStr PyDict Json JsonFacts Config Learner Backends.
From S2P Require Import Requests ConfigFile Mcp Setup Scheduler.

Section Protocol.
Context {F : Type} {PF : PyFloat F}.
Variables (gateway_url version : string) (exc_text : PyExc -> string).
Implicit Types (req rep v : json F) (env : McpEnv F).
Local Abbreviation handle_request := (handle_request gateway_url version exc_text).
Local Abbreviation handle_batch := (handle_batch gateway_url version exc_text).
Local Abbreviation handle_message := (handle_message gateway_url version exc_text).

(** ** Replies *)

(** A request has an id and is not one of the two notifications; anything that is not an
    object is answered too, as invalid. *)
Definition wants_reply req : bool :=
  match req with
  | JDict d => dmem "id" d && negb (is_str "notifications/initialized" (bget "method" d) ||
                                    is_str "initialized" (bget "method" d))
  | _ => true
  end.

Definition request_id req : json F :=
  match req with JDict d => bget "id" d | _ => JNull end.

(** A JSON-RPC 2.0 response to a request: its id, and a result or an error, not both. *)
Definition reply_for req rep : Prop :=
  exists d, rep = JDict d /\ dget "jsonrpc" d = Some (JStr "2.0") /\
    dget "id" d = Some (request_id req) /\
    ((is_Some (dget "result" d) /\ dget "error" d = None) \/
     (dget "result" d = None /\ exists code m,
        dget "error" d = Some (JDict [("code", JInt code); ("message", JStr m)]))).

Lemma result_reply req id v : request_id req = id -> reply_for req (rpc_result id v).
Proof. intros <-. eexists. split; [reflexivity|]. split_and!; [done|done|]. left. by split. Qed.

Lemma error_reply req id code m : request_id req = id -> reply_for req (rpc_error id code m).
Proof.
  intros <-. eexists. split; [reflexivity|]. split_and!; [done|done|]. right. split; [done|].
  by eexists _, _.
Qed.

Lemma handle_request_spec env req :
  match handle_request env req with
  | Some rep => wants_reply req = true /\ reply_for req rep
  | None => wants_reply req = false
  end.
Proof.
  destruct req as [| | | | | |d]; try (split; [done|by apply error_reply]).
  unfold Mcp.handle_request, wants_reply, dmem.
  assert (Hid : forall id, dget "id" d = Some id -> request_id (JDict d) = id).
  { intros id E. unfold request_id, bget, dget_or. by rewrite E. }
  destruct (dget "id" d) as [id|] eqn:Ei; [|done]. specialize (Hid id eq_refl).
  set (m := bget "method" d).
  assert (Hne : forall s t : string, s <> t -> is_str s m = true -> is_str t m = false).
  { intros s t Hst. destruct m; try done. simpl. unfold str_eqb.
    rewrite bool_decide_eq_true. intros ->. by apply bool_decide_eq_false. }
  destruct (is_str "initialize" m) eqn:E1.
  { rewrite !(Hne "initialize") by done. split; [done|by apply result_reply]. }
  destruct (is_str "notifications/initialized" m || is_str "initialized" m) eqn:E2; [done|].
  destruct (is_str "ping" m); [split; [done|by apply result_reply]|].
  destruct (is_str "tools/list" m); [split; [done|by apply result_reply]|].
  destruct (is_str "tools/call" m); [|split; [done|by apply error_reply]].
  split; [done|]. unfold tools_call.
  destruct (call_tool _ _ _ _ _); first [by apply result_reply|by apply error_reply].
Qed.

Lemma handle_batch_spec envs n items :
  Forall2 reply_for (filter (fun r => wants_reply r = true) items) (handle_batch envs n items).
Proof.
  revert n; induction items as [|r items IH]; intros n; [constructor|]. cbn [Mcp.handle_batch].
  pose proof (handle_request_spec (envs n) r) as H.
  destruct (handle_request (envs n) r) as [rep|].
  - destruct H as [Hw Hr]. rewrite filter_cons_True by done. by constructor.
  - rewrite filter_cons_False by congruence. apply IH.
Qed.

(** C31. Every message gets what JSON-RPC 2.0 asks for, whatever the gateway answers or
    fails to answer meanwhile: a request exactly one response with its own id,
    carrying a result or an error; a notification none; a batch the responses to its
    requests in their order, and nothing at all when it has none. *)
Theorem replies_match_requests envs msg :
  match msg with
  | JList [] => handle_message envs msg = Some invalid_request
  | JList items =>
    let requests := filter (fun r => wants_reply r = true) items in
    match handle_message envs msg with
    | Some rep => requests <> [] /\ exists reps, rep = JList reps /\ Forall2 reply_for requests reps
    | None => requests = []
    end
  | _ => match handle_message envs msg with
         | Some rep => wants_reply msg = true /\ reply_for msg rep
         | None => wants_reply msg = false
         end
  end.
Proof.
  destruct msg as [| | | | |[|r items]|]; try apply handle_request_spec; [done|].
  cbv zeta. unfold Mcp.handle_message. pose proof (handle_batch_spec envs 0 (r :: items)) as H.
  destruct (handle_batch envs 0 (r :: items)) as [|rep reps]; [by apply Forall2_nil_inv_r in H|].
  split; [|by exists (rep :: reps)]. intros E. rewrite E in H. by apply Forall2_nil_inv_l in H.
Qed.

(** ** Frames *)

(** The server never breaks the framing of its transport: what it writes for one line
    of input is nothing or one line, printable ASCII and a newline at the end, even
    when a tool's answer holds newlines or other control characters. *)
Theorem frames_are_lines envs line :
  match stdio_line gateway_url version exc_text envs line with
  | Some out => exists frame, out = frame ++ newline /\ has_char "010" frame = false /\
      forallb printable_ascii (chars frame) = true
  | None => str_truth (strip line) = false \/
      exists msg, loads (strip line) = Some msg /\ handle_message envs msg = None
  end.
Proof.
  unfold stdio_line. destruct (str_truth (strip line)) eqn:Et; cbn [negb]; [|by left].
  assert (H : forall v : json F, exists frame, dumps v ++ newline = frame ++ newline /\
    has_char "010" frame = false /\ forallb printable_ascii (chars frame) = true).
  { intros v. exists (dumps v). split; [done|].
    split; [apply printable_no_newline|]; apply printable_dumps. }
  destruct (loads (strip line)) as [msg|] eqn:El; [|apply H].
  destruct (handle_message envs msg) as [rep|] eqn:Em; [apply H|].
  right. by exists msg.
Qed.
End Protocol.

(** ** Predictions *)

Section Predictions.
Context {F : Type} {PF : PyFloat F} {PL : PyFloatLaws F}.
Variables (gateway_url : string) (exc_text : PyExc -> string).
Implicit Types (p q : Prediction F) (ps : list (Prediction F)) (est metrics : json F).

Fixpoint cheapest_first ps : Prop :=
  match ps with
  | [] => True
  | p :: ps' => (forall q, q ∈ ps' -> fle (pr_total p) (pr_total q) = true) /\ cheapest_first ps'
  end.

Definition scored ps : Prop := forall p, p ∈ ps -> fisnan (pr_total p) = false.

Lemma insert_perm p ps : insert_prediction p ps ≡ₚ p :: ps.
Proof.
  induction ps as [|q ps IH]; simpl; [done|]. destruct (flt _ _); [done|].
  rewrite IH. apply Permutation_swap.
Qed.

Lemma sort_perm_from ps acc : foldl (fun a p => insert_prediction p a) acc ps ≡ₚ acc ++ ps.
Proof.
  revert acc; induction ps as [|p ps IH]; intros acc; simpl; [by rewrite app_nil_r|].
  by rewrite IH, insert_perm, <- Permutation_middle.
Qed.

Lemma sort_perm ps : sort_predictions ps ≡ₚ ps.
Proof. apply (sort_perm_from ps []). Qed.

Lemma insert_sorted p ps :
  scored (p :: ps) -> cheapest_first ps -> cheapest_first (insert_prediction p ps).
Proof.
  induction ps as [|q ps IH]; intros Hn Hs; simpl;
    [by split; [intros ? ?%not_elem_of_nil|]|].
  destruct Hs as [Hq Hs]. assert (Hp : fisnan (pr_total p) = false) by (apply Hn; set_solver).
  assert (Hqn : fisnan (pr_total q) = false) by (apply Hn; set_solver).
  destruct (flt (pr_total p) (pr_total q)) eqn:E.
  - split; [|by split]. intros r [->|Hr]%elem_of_cons; [by apply flt_fle|].
    eapply fle_trans; [by apply flt_fle|by apply Hq].
  - split; [|apply IH; [|done]].
    + intros r Hr. rewrite insert_perm in Hr. apply elem_of_cons in Hr as [->|Hr]; [|by apply Hq].
      by apply flt_false_fle.
    + intros r Hr. apply Hn. set_solver.
Qed.

Lemma sort_sorted ps : scored ps -> cheapest_first (sort_predictions ps).
Proof.
  intros Hn. unfold sort_predictions.
  cut (forall acc, scored (acc ++ ps) -> cheapest_first acc ->
       cheapest_first (foldl (fun a p => insert_prediction p a) acc ps)); [by intros H; apply H|].
  clear Hn. induction ps as [|p ps IH]; intros acc Hn Hs; [done|]. simpl. apply IH.
  - intros q Hq. apply Hn. rewrite insert_perm in Hq. set_solver.
  - apply insert_sorted; [|done]. intros q Hq. apply Hn. set_solver.
Qed.

Lemma map_result_Forall2 {A B} (f : A -> result PyExc B) l r :
  map_result f l = Ok r -> Forall2 (fun a b => f a = Ok b) l r.
Proof.
  revert r; induction l as [|a l IH]; intros r; simpl; [by intros [= <-]|].
  unfold mbind, result_bind. destruct (f a) as [b|] eqn:E; [|done].
  destruct (map_result f l) as [bs|]; [|done]. intros [= <-]. constructor; [done|by apply IH].
Qed.

(** The recommendation is sound for the figures it is made of: with a metrics document
    that can be read, the candidates are exactly its workers, each predicted from its
    own entry; they are listed cheapest first, the recommended one is the first of
    them and costs no more than any other; and the request is called admissible only
    if it fits the reported SLO, inadmissible only if no candidate does. *)
Theorem recommendation_is_cheapest env prompt model tokens metrics text headers ps slo res :
  let est := estimated_tokens prompt tokens in
  env_get env (gateway_url ++ "/debug/metrics") = McpAnswer 200 (Some metrics) text headers ->
  candidates est metrics = Ok (ps, slo) -> scored ps ->
  predict_latency gateway_url exc_text env prompt model tokens = Ok res ->
  (exists workers preds, jget_or "workers" (JDict []) metrics = Ok (JDict workers) /\
     Forall2 (fun kv p => predict_worker est kv.1 kv.2 = Ok p) workers preds /\ ps ≡ₚ preds) /\
  cheapest_first ps /\
  match ps with
  | [] => dget "recommended_backend" res = Some JNull /\ dget "admissible" res = Some (JBool false)
  | best :: _ =>
    dget "recommended_backend" res = Some (JStr (pr_backend best)) /\
    dget "admissible" res = Some (JBool (fle (pr_total best) slo)) /\
    (fle (pr_total best) slo = false -> forall p, p ∈ ps -> fle (pr_total p) slo = false)
  end.
Proof.
  cbv zeta. intros Hg Hc Hn Hp.
  assert (Hr : dget "recommended_backend" res
      = Some match head ps with Some b => JStr (pr_backend b) | None => JNull end /\
    dget "admissible" res
      = Some (JBool match head ps with Some b => fle (pr_total b) slo | None => false end)).
  { unfold predict_latency in Hp. rewrite Hg in Hp. cbn [answered] in Hp.
    unfold mbind at 1, result_bind at 1 in Hp. cbn in Hp. rewrite Hc in Hp.
    cbn in Hp. injection Hp as <-. by split. }
  unfold candidates, mbind, result_bind in Hc.
  destruct (jget_or "workers" _ _) as [workers|] eqn:Ew; [|done].
  destruct (jget_or "admission" _ _) as [adm|]; [|done].
  destruct (jget_or "slo_ms" _ _) as [s|]; [|done]. destruct (jfloat s) as [sl|]; [|done].
  destruct workers as [| | | | | |d]; try done.
  destruct (map_result _ d) as [preds|] eqn:Em; [|done]. injection Hc as <- ->.
  assert (Hs : cheapest_first (sort_predictions preds)).
  { apply sort_sorted. intros p Hp'. apply Hn. by rewrite sort_perm. }
  split; [exists d, preds; split_and!; [done|by apply map_result_Forall2|apply sort_perm]|].
  split; [exact Hs|].
  destruct (sort_predictions preds) as [|best rest]; [exact Hr|].
  destruct Hr as [H1 H2]. split_and!; [exact H1|exact H2|].
  intros Hb p [->|Hin]%elem_of_cons; [done|]. destruct Hs as [Hbest _].
  apply not_true_iff_false. intros Hle. specialize (Hbest p Hin).
  assert (fle (pr_total best) slo = true) by by eapply fle_trans. congruence.
Qed.

(** A worker whose figures are not zero. *)
Definition nonzero (x : F) : Prop := ftruth x = true.

Lemma float_or_given key d (w : json F) x :
  jget key w = Ok (JFloat x) -> nonzero x -> float_or key d w = Ok x.
Proof. intros H Hx. unfold float_or, mbind, result_bind. rewrite H. unfold jor. simpl. by rewrite Hx. Qed.

Lemma float_or_absent key d (w : json F) : jget key w = Ok JNull -> float_or key d w = Ok d.
Proof. intros H. unfold float_or, mbind, result_bind. by rewrite H. Qed.

(** At the default blend the tool predicts what the scheduler predicts: for a worker
    of a dual learner with the blend 0.8 and non-zero figures, the predicted execution
    time is the scheduler's own estimate for that many tokens, rounded. *)
Theorem prediction_matches_scheduler l wid n p :
  p_dual (l_params l) = true -> p_blend (l_params l) = fdec 8 (-1) ->
  nonzero (fast_slope (l_fit l)) -> nonzero (slow_slope (l_fit l)) ->
  nonzero (intercept (l_fit l)) -> 1 <= n ->
  predict_worker (JInt n) wid (worker_json (snapshot l)) = Ok p ->
  pr_exec p = py_round 1 (estimate l n).1 /\ pr_backend p = wid /\ pr_pending p = pending l /\
  pr_healthy p = JBool (healthy l).
Proof.
  intros Hd Hb Hf Hs Hi Hn H. unfold predict_worker in H.
  rewrite (float_or_given "fast_slope" _ _ (fast_slope (l_fit l))) in H by done.
  rewrite (float_or_given "slow_slope" _ _ (slow_slope (l_fit l))) in H by done.
  rewrite (float_or_given "intercept" _ _ (intercept (l_fit l))) in H by done.
  rewrite (float_or_absent "alpha"), (float_or_absent "tier_cost") in H by done.
  assert (Hp : jget "pending" (worker_json (snapshot l)) = Ok (JInt (pending l))) by done.
  assert (Hh : jget_or "healthy" (JBool true) (worker_json (snapshot l)) = Ok (JBool (healthy l)))
    by done.
  assert (Hj : jor (JInt (pending l)) (JInt (F:=F) 0) = JInt (pending l)).
  { unfold jor. simpl. destruct (Z.eqb_spec (pending l) 0) as [->|]; done. }
  rewrite Hp, Hh in H. unfold mbind, result_bind in H. rewrite Hj in H.
  cbn [jint as_factor] in H. destruct (jfloat (JInt n)) as [x|] eqn:Ex; [|done].
  destruct (jfloat (JInt (pending l))) as [y|]; [|done]. injection H as <-. simpl in *.
  destruct (fisinf (fint n)); [done|]. injection Ex as <-.
  split_and!; try done. unfold predict, effective_slope. rewrite Hd, Hb.
  by rewrite Z.max_r by lia.
Qed.

(** The figures the tool reads do not include the blend or the mode: two learners that
    report the same slopes and intercept get the same prediction, whatever their blend,
    and so does one that does not use its slow slope at all. *)
Lemma prediction_ignores_blend l l' wid est p :
  l_fit l = l_fit l' -> pending l = pending l' -> healthy l = healthy l' ->
  predict_worker est wid (worker_json (snapshot l)) = Ok p ->
  predict_worker est wid (worker_json (snapshot l')) = Ok p.
Proof.
  intros H1 H2 H3. unfold predict_worker, float_or, worker_json, snapshot. cbn. by rewrite H1, H2, H3.
Qed.
End Predictions.

(** ** Witnesses *)

(** A worker that has learnt something, and one that has not. *)
Definition demo_learner : Learner float :=
  match dget "b" (predictors (fleet nlms_args)) with
  | Some l => l
  | None => new_learner (sched_cfg nlms_args) "small" (fint 1) None
  end.

Definition demo_workers : list (string * json float) :=
  [("slow", JDict [("fast_slope", JFloat (fint 50)); ("healthy", JBool true)]);
   ("quick", JDict [("fast_slope", JFloat (fint 2)); ("healthy", JBool false)])].
Definition demo_metrics : json float := JDict [("workers", JDict demo_workers)].
Definition demo_env : McpEnv float :=
  mkEnv (fun _ => McpAnswer 200 (Some demo_metrics) "" []) (fun _ _ => McpRaised "down") None.

Lemma recommendation_is_cheapest_witness :
  exists best rest, match candidates (JInt 10) demo_metrics with
    | Ok (ps, slo) => ps = best :: rest /\ pr_backend best = "quick" /\
        (forall q, q ∈ rest -> fle (pr_total best) (pr_total q) = true)
    | Err _ => False end.
Proof.
  destruct (candidates (JInt 10) demo_metrics) as [[ps slo]|] eqn:Ec; [|vm_compute in Ec; discriminate Ec].
  destruct (predict_latency "http://g" (fun _ => "") demo_env "hi" JNull (JInt 10)) as [res|] eqn:Ep;
    [|vm_compute in Ep; discriminate Ep].
  assert (Hn : scored ps).
  { vm_compute in Ec. injection Ec as <- <-. intros p Hp. in_cases Hp; subst; reflexivity. }
  pose proof (recommendation_is_cheapest "http://g" (fun _ => "") demo_env "hi" JNull (JInt 10)
    demo_metrics "" [] ps slo res eq_refl Ec Hn Ep) as (_ & Hs & _).
  destruct ps as [|best rest]; [vm_compute in Ec; discriminate Ec|].
  exists best, rest. split; [reflexivity|]. split; [|exact (proj1 Hs)].
  vm_compute in Ec. injection Ec as <- _ _. reflexivity.
Defined.

(** The recommendation of the witness is a worker the scheduler has marked unhealthy and
    would not pick: the tool reports health but does not use it. *)
Lemma unhealthy_worker_recommended :
  match predict_latency "http://g" (fun _ => "") demo_env "hi" JNull (JInt 10) with
  | Ok res => dget "recommended_backend" res = Some (JStr "quick")
  | Err _ => False
  end.
Proof. vm_compute. reflexivity. Qed.

Lemma prediction_matches_scheduler_witness :
  exists p, predict_worker (JInt 100) "b" (worker_json (snapshot demo_learner)) = Ok p /\
    pr_exec p = py_round 1 (estimate demo_learner 100).1.
Proof.
  destruct (predict_worker (JInt 100) "b" (worker_json (snapshot demo_learner))) as [p|] eqn:E;
    [|vm_compute in E; discriminate E].
  exists p. split; [reflexivity|].
  refine (proj1 (prediction_matches_scheduler demo_learner "b" 100 p _ _ _ _ _ _ E));
    try (vm_compute; reflexivity). lia.
Defined.
