(* ===== verification/StreamProps.v ===== *)
(** Properties of the Ollama stream translator: its output does not depend on how
    the network cuts the text, and it carries the engine's text unchanged. *)

From S2P Require Import Prelude PyFloat PyStr PyDict Json Backends Requests OllamaStream JsonFacts MockBackend.

Section Chunking.
Context {F : Type} {PF : PyFloat F}.
Variables (model_name : json F) (is_chat : bool) (now_iso : string).
Implicit Types (t : TState F) (s : string).

Local Abbreviation handle_data := (handle_data model_name is_chat now_iso).
Local Abbreviation handle_line := (handle_line model_name is_chat now_iso).
Local Abbreviation handle_pieces := (handle_pieces model_name is_chat now_iso).
Local Abbreviation feed := (feed model_name is_chat now_iso).
Local Abbreviation feed_all := (feed_all model_name is_chat now_iso).

(** ** The buffer is a frame *)

(** A statement that neither reads nor writes the buffer. *)
Definition framed {A} (m : M A) : Prop :=
  forall b t, m (set_buffer b t) = (set_buffer b (m t).1, (m t).2).

Lemma framed_lift {A} (r : result PyExc A) : framed (lift r).
Proof. done. Qed.
Lemma framed_ret {A} (a : A) : framed (mret a).
Proof. done. Qed.
Lemma framed_modify (f : TState F -> TState F) :
  (forall b t, f (set_buffer b t) = set_buffer b (f t)) -> framed (modify f).
Proof. intros H b t. unfold modify. simpl. by rewrite H. Qed.
Lemma framed_bind {A B} (m : M A) (f : A -> M B) :
  framed m -> (forall a, framed (f a)) -> framed (m ≫= f).
Proof.
  intros Hm Hf b t. unfold mbind, M_bind. rewrite Hm.
  destruct (m t) as [t' [a|e]]; simpl; [apply Hf|done].
Qed.
Lemma framed_if {A} (c : bool) (m1 m2 : M A) :
  framed m1 -> framed m2 -> framed (if c then m1 else m2).
Proof. by destruct c. Qed.

#[local] Hint Resolve framed_lift framed_ret framed_bind framed_if : dio.

Ltac frame := repeat first
  [ apply framed_if | apply framed_bind; [|intros ?] | apply framed_lift | apply framed_ret
  | apply framed_modify; done ].

Lemma framed_usage u : framed (note_usage u).
Proof. unfold note_usage. repeat case_match; frame. Qed.

Lemma framed_fragment frag : framed (note_fragment model_name now_iso frag).
Proof. unfold note_fragment, alter_slot. frame. Qed.

Lemma framed_fragments l : framed (note_fragments model_name now_iso l).
Proof. induction l as [|x l IH]; simpl; frame; first [apply framed_fragment|done]. Qed.

Lemma framed_chunk v : framed (handle_chunk model_name is_chat now_iso v).
Proof.
  unfold handle_chunk. frame; first [apply framed_usage|apply framed_fragments].
Qed.

Lemma framed_data d : framed (handle_data d).
Proof. apply framed_bind; [apply framed_lift|apply framed_chunk]. Qed.

Lemma handle_line_frame line b t :
  handle_line line (set_buffer b t)
  = (set_buffer b (handle_line line t).1, (handle_line line t).2).
Proof.
  unfold OllamaStream.handle_line. case_match; [done|]. case_match; [done|]. simpl.
  by rewrite framed_data.
Qed.

(** ** Text in pieces *)

(** What a state shows: everything but the buffer. *)
Definition visible t : TState F := set_buffer "" t.

Lemma handle_pieces_frame ps b t :
  ps <> [] -> handle_pieces ps (set_buffer b t) = handle_pieces ps t.
Proof.
  revert t; induction ps as [|p ps IH]; intros t Hne; [done|]. destruct ps as [|q ps]; [done|].
  cbn [OllamaStream.handle_pieces]. rewrite handle_line_frame.
  destruct (handle_line p t) as [t' []]; simpl; [done|]. by apply IH.
Qed.

Lemma split_app c (a : string) :
  exists ls l, split c a = (ls ++ [l])%list /\ has_char c l = false /\
    forall b, split c (a ++ b) = (ls ++ split c (l ++ b))%list.
Proof.
  induction a as [|x a (ls & l & E & Hl & Hb)].
  - exists [], "". split_and!; [done|by vm_compute|done].
  - destruct (decide (x = c)) as [->|Hx].
    + exists ("" :: ls), l. simpl. rewrite decide_True by done. rewrite E.
      split_and!; [done|done|]. intros b. by rewrite decide_True, Hb by done.
    + destruct ls as [|w ls].
      * exists [], (String x l). simpl. rewrite decide_False by done. rewrite E.
        split_and!; [done| |].
        { unfold has_char in *. apply bool_decide_eq_false in Hl.
          apply bool_decide_eq_false. simpl. set_solver. }
        intros b. rewrite decide_False, Hb by done. simpl.
        by rewrite decide_False by done.
      * exists (String x w :: ls), l. simpl. rewrite decide_False by done. rewrite E.
        split_and!; [done|done|]. intros b. by rewrite decide_False, Hb by done.
Qed.

(** The complete lines of the buffer, one after the other. *)
Fixpoint handle_lines (ls : list string) t : TState F * bool :=
  match ls with
  | [] => (t, false)
  | l :: ls' => match handle_line l t with
                | (t', true) => (t', true)
                | (t', false) => handle_lines ls' t'
                end
  end.

Lemma handle_pieces_app ls ps t :
  ps <> [] ->
  match handle_lines ls t with
  | (t', true) => exists b, handle_pieces (ls ++ ps) t = (set_buffer b t', true)
  | (t', false) => handle_pieces (ls ++ ps) t = handle_pieces ps t'
  end.
Proof.
  intros Hne. revert t; induction ls as [|l ls IH]; intros t; [done|].
  cbn [handle_lines app]. specialize (IH (handle_line l t).1).
  destruct (ls ++ ps)%list as [|p qs] eqn:E; [by destruct ls, ps|].
  cbn [OllamaStream.handle_pieces]. destruct (handle_line l t) as [t' []]; [by eexists|done].
Qed.

(** Feeding [a] and then [b] is feeding [a ++ b]; a finished stream reads no more. *)
Lemma feed_app t (a b : string) :
  match feed t a with
  | (t', true) => (feed t (a ++ b)).2 = true /\ visible (feed t (a ++ b)).1 = visible t'
  | (t', false) => feed t (a ++ b) = feed t' b
  end.
Proof.
  unfold OllamaStream.feed. rewrite (str_app_assoc _ a b).
  destruct (split_app "010" (t_buffer t ++ a)) as (ls & l & E & Hl & Hb). rewrite E, Hb.
  pose proof (handle_pieces_app ls [l] t ltac:(done)) as H1.
  pose proof (handle_pieces_app ls (split "010" (l ++ b)) t (split_nonempty _ _)) as H2.
  destruct (handle_lines ls t) as [t' []].
  - destruct H1 as [b1 ->], H2 as [b2 ->]. done.
  - rewrite H1, H2. cbn [OllamaStream.handle_pieces]. simpl t_buffer.
    by rewrite handle_pieces_frame by apply split_nonempty.
Qed.

Lemma feed_all_join c chunks t :
  (feed_all t (c :: chunks)).2 = (feed t (join "" (c :: chunks))).2 /\
  visible (feed_all t (c :: chunks)).1 = visible (feed t (join "" (c :: chunks))).1.
Proof.
  revert c t; induction chunks as [|d chunks IH]; intros c t.
  - cbn [OllamaStream.feed_all]. change (join "" [c]) with c.
    by destruct (feed t c) as [t' []].
  - change (join "" (c :: d :: chunks)) with (c ++ join "" (d :: chunks)).
    pose proof (feed_app t c (join "" (d :: chunks))) as H.
    change (feed_all t (c :: d :: chunks)) with
      (match feed t c with (t', true) => (t', true) | (t', false) => feed_all t' (d :: chunks) end).
    destruct (feed t c) as [t' []]; [destruct H as [-> ->]; done|].
    rewrite H. apply IH.
Qed.

Lemma feed_all_text chunks :
  (feed_all t_init chunks).2 = (feed t_init (join "" chunks)).2 /\
  visible (feed_all t_init chunks).1 = visible (feed t_init (join "" chunks)).1.
Proof. destruct chunks; [done|]. apply feed_all_join. Qed.

Lemma final_chunk_visible n e t1 t2 :
  visible t1 = visible t2 ->
  final_chunk model_name is_chat now_iso n e t1 = final_chunk model_name is_chat now_iso n e t2 /\
  t_lines t1 = t_lines t2.
Proof.
  destruct t1, t2. unfold visible, set_buffer. simpl. by intros [= -> -> -> -> -> ->].
Qed.

(** C17. The translation of a stream depends on its text only: two ways of cutting
    the same text into chunks give the client the same lines, the same final
    statistics, and stop at the same point. *)
Theorem chunking_irrelevant chunks1 chunks2 prompt_only e2e :
  join "" chunks1 = join "" chunks2 ->
  let r1 := feed_all t_init chunks1 in
  let r2 := feed_all t_init chunks2 in
  r1.2 = r2.2 /\ t_lines r1.1 = t_lines r2.1 /\
  final_chunk model_name is_chat now_iso prompt_only e2e r1.1
  = final_chunk model_name is_chat now_iso prompt_only e2e r2.1.
Proof.
  intros E. cbv zeta. destruct (feed_all_text chunks1) as [F1 V1], (feed_all_text chunks2) as [F2 V2].
  rewrite E in *. rewrite F1, F2. split; [done|].
  rewrite <- V2 in V1. by destruct (final_chunk_visible prompt_only e2e _ _ V1).
Qed.
End Chunking.

(** ** Whole events *)

Section Events.
Context {F : Type} {PF : PyFloat F}.
Variables (model_name : json F) (is_chat : bool) (now_iso : string).
Implicit Types (t : TState F) (v : json F).

Local Abbreviation handle_chunk := (handle_chunk model_name is_chat now_iso).
Local Abbreviation handle_line := (handle_line model_name is_chat now_iso).
Local Abbreviation handle_pieces := (handle_pieces model_name is_chat now_iso).
Local Abbreviation feed := (feed model_name is_chat now_iso).
Local Abbreviation feed_all := (feed_all model_name is_chat now_iso).

(** The line of an event is its own stripped text, and so is its payload. *)
Lemma event_line d :
  strip ("data: " ++ dumps (JDict d)) = "data: " ++ dumps (JDict d) /\
  strip (" " ++ dumps (JDict d)) = dumps (JDict d) /\ strip (dumps (JDict d)) = dumps (JDict d) /\
  exists m, chars (dumps (JDict d)) = "{"%char :: m ++ ["}"%char].
Proof.
  assert (Hd : exists m, chars (dumps (JDict d)) = "{"%char :: m ++ ["}"%char]).
  { cbn [dumps]. rewrite (chars_app "{"), (chars_app _ "}"). by eexists. }
  destruct Hd as [m Hm]. split_and!; [| | |by exists m].
  - rewrite <- (unchars_chars ("data: " ++ dumps (JDict d))), chars_app, Hm.
    apply (strip_ends [] "d" (chars "ata: " ++ "{"%char :: m) "}"); done.
  - rewrite <- (unchars_chars (" " ++ _)), chars_app, Hm.
    change (chars " ") with [" "%char]. rewrite strip_ends by done.
    by rewrite <- Hm, unchars_chars.
  - rewrite <- (unchars_chars (dumps (JDict d))), Hm. by apply (strip_ends [] "{" m "}").
Qed.
Lemma not_done_marker d : str_eqb (dumps (JDict d)) "[DONE]" = false.
Proof.
  destruct (event_line d) as (_ & _ & _ & m & Hm). apply bool_decide_eq_false_2.
  intros E. apply (f_equal chars) in E. by rewrite Hm in E.
Qed.

Lemma handle_line_event d t :
  jplain (JDict d) = true ->
  handle_line ("data: " ++ dumps (JDict d)) t = ((handle_chunk (JDict d) t).1, false).
Proof.
  intros Hp. destruct (event_line d) as (Hl & Hs & _ & _).
  unfold OllamaStream.handle_line. rewrite Hl.
  change (str_drop 5 ("data: " ++ dumps (JDict d))) with (" " ++ dumps (JDict d)).
  rewrite Hs, not_done_marker. cbn [str_truth startswith String.append].
  change (startswith "data:" ("data: " ++ dumps (JDict d))) with true. cbn [negb orb].
  unfold handle_data. by rewrite (loads_dumps (JDict d) Hp).
Qed.

Lemma handle_chunk_buffer v t : t_buffer (handle_chunk v t).1 = t_buffer t.
Proof.
  assert (H : t = set_buffer (t_buffer t) t) by by destruct t.
  rewrite H at 1. rewrite framed_chunk. done.
Qed.

Lemma feed_event d t s :
  jplain (JDict d) = true -> t_buffer t = "" ->
  feed t (sse (JDict d) ++ s) = feed (handle_chunk (JDict d) t).1 s.
Proof.
  intros Hp Hb. unfold OllamaStream.feed. rewrite handle_chunk_buffer, Hb, !str_app_nil_l.
  assert (E : split "010" (sse (JDict d) ++ s)
              = ("data: " ++ dumps (JDict d)) :: "" :: split "010" s).
  { unfold sse. rewrite <- !str_app_assoc. rewrite str_app_assoc.
    change (newline ++ newline ++ s) with (String "010" (String "010" s)).
    rewrite split_line; [done|].
    apply printable_no_newline. rewrite chars_app, forallb_app.
    by rewrite (printable_dumps (JDict d)). }
  rewrite E. cbn [OllamaStream.handle_pieces]. rewrite handle_line_event by done.
  destruct (split "010" s) as [|p ps] eqn:Es; [by apply split_nonempty in Es|]. done.
Qed.

Lemma feed_done t : t_buffer t = "" -> visible (feed t sse_done).1 = visible t /\ (feed t sse_done).2 = true.
Proof. intros Hb. unfold OllamaStream.feed. rewrite Hb. done. Qed.

(** The state after whole events. *)
Definition after_events (vs : list (json F)) t : TState F :=
  foldl (fun t v => (handle_chunk v t).1) t vs.

Definition plain_event v : Prop := match v with JDict d => jplain v = true | _ => False end.

Lemma join_cons (s : string) ss : join "" (s :: ss) = s ++ join "" ss.
Proof. destruct ss; [by rewrite str_app_nil_r|done]. Qed.

Lemma feed_events vs t :
  Forall plain_event vs -> t_buffer t = "" ->
  let r := feed t (join "" (map sse vs) ++ sse_done) in
  r.2 = true /\ visible r.1 = visible (after_events vs t).
Proof.
  intros H. revert t; induction H as [|v vs Hv H IH]; intros t Hb; cbv zeta.
  - by destruct (feed_done t Hb).
  - destruct v as [| | | | | |d]; try done. cbn [map]. rewrite join_cons, <- str_app_assoc.
    rewrite feed_event by done. apply IH. by rewrite handle_chunk_buffer.
Qed.

Lemma events_fold vs chunks :
  Forall plain_event vs -> join "" chunks = join "" (map sse vs) ++ sse_done ->
  let r := feed_all t_init chunks in
  r.2 = true /\ visible r.1 = visible (after_events vs t_init).
Proof.
  intros H E. cbv zeta.
  destruct (feed_all_text model_name is_chat now_iso chunks) as [-> ->]. rewrite E.
  by apply feed_events.
Qed.

(** An engine's events, each a JSON object without floats, followed by the
    end marker: however the wire cuts their text, every event is handled exactly
    once, in order, and the stream ends. *)
Theorem events_handled_in_order vs chunks :
  Forall plain_event vs -> join "" chunks = join "" (map sse vs) ++ sse_done ->
  let r := feed_all t_init chunks in
  r.2 = true /\ visible r.1 = visible (after_events vs t_init).
Proof. apply events_fold. Qed.
End Events.

(** ** The mock engine behind the translator *)

Section MockStream.
Context {F : Type} {PF : PyFloat F}.
Variables (model_name : json F) (now_iso : string).
Variables (name : string) (now_ms : Z).
Implicit Types (t : TState F) (w : string) (b : list (string * json F)).

Local Abbreviation handle := (handle_chunk model_name true now_iso).
Local Abbreviation after := (after_events model_name true now_iso).
Local Abbreviation feed_all := (feed_all model_name true now_iso).

(** The text a line carries to the client. *)
Definition line_text (v : json F) : string :=
  match v with
  | JDict d => match bget "message" d with
               | JDict m => match bget "content" m with JStr s => s | _ => "" end
               | _ => ""
               end
  | _ => ""
  end.

Definition stream_text t : string := join "" (map line_text (t_lines t)).

Lemma stream_text_yield line t :
  stream_text (yield_token line t) = stream_text t ++ line_text line.
Proof.
  unfold stream_text, yield_token. simpl. rewrite map_app. simpl.
  generalize (map line_text (t_lines t)). intros l.
  induction l as [|s l IH]; [done|]. cbn [app]. by rewrite !join_cons, IH, str_app_assoc.
Qed.

(** One event with a piece of text. *)
Lemma handle_text cid object model w t :
  let t' := (handle (mock_event now_ms cid object model
               [chat_choice [("content", JStr w)] JNull] None) t).1 in
  stream_text t' = stream_text t ++ w /\ t_reported_prompt t' = t_reported_prompt t /\
  t_reported_gen t' = t_reported_gen t /\ t_last_finish t' = t_last_finish t.
Proof.
  destruct w as [|c w].
  - rewrite str_app_nil_r. done.
  - cbv zeta.
    change (handle _ t).1 with
      (yield_token (chat_line model_name now_iso (JStr (String c w)) None) t).
    rewrite stream_text_yield. done.
Qed.

Lemma join_spaced words : join "" (spaced words) = join " " words.
Proof.
  induction words as [|w words IH]; [done|]. destruct words as [|w2 words]; [done|].
  change (spaced (w :: w2 :: words)) with ((w ++ " ") :: spaced (w2 :: words)).
  rewrite join_cons, IH, <- str_app_assoc. done.
Qed.

Lemma handle_texts cid object model words t :
  let t' := after (map (fun w => mock_event now_ms cid object model
               [chat_choice [("content", JStr w)] JNull] None) words) t in
  stream_text t' = stream_text t ++ join "" words /\
  t_reported_prompt t' = t_reported_prompt t /\ t_reported_gen t' = t_reported_gen t /\
  t_last_finish t' = t_last_finish t.
Proof.
  revert t; induction words as [|w words IH]; intros t; cbv zeta.
  - by rewrite str_app_nil_r.
  - destruct (handle_text cid object model w t) as (H1 & H2 & H3 & H4).
    cbn [map after_events foldl]. unfold after_events in IH |- *.
    destruct (IH (handle (mock_event now_ms cid object model
               [chat_choice [("content", JStr w)] JNull] None) t).1) as (-> & -> & -> & ->).
    rewrite H1, H2, H3, H4, join_cons, str_app_assoc. done.
Qed.

Lemma plain_mock_event cid object (model : json F) choices usage :
  jplain model = true -> jplain (JList choices) = true ->
  match usage with Some u => jplain u = true | None => True end ->
  plain_event (mock_event now_ms cid object model choices usage).
Proof.
  intros Hm Hc Hu. unfold plain_event, mock_event. cbn [jplain] in Hc |- *.
  destruct usage as [u|]; cbn [app map fst forallb snd jplain]; rewrite Hm, Hc; [by rewrite Hu|done].
Qed.

Lemma visible_fields t t' :
  visible t = visible t' ->
  stream_text t = stream_text t' /\ t_reported_prompt t = t_reported_prompt t' /\
  t_reported_gen t = t_reported_gen t' /\ t_last_finish t = t_last_finish t'.
Proof.
  destruct t, t'. unfold visible, set_buffer, stream_text. simpl. by intros [= -> -> -> -> -> ->].
Qed.

Lemma mock_events_plain b content n u :
  jplain (mock_model b) = true -> include_usage b = Ok u ->
  Forall plain_event (mock_chat_stream name now_ms b content n).1.
Proof.
  intros Hm Hu. unfold mock_chat_stream, mock_tail. rewrite Hu. cbv zeta.
  assert (Hp : forall cid object choices, jplain (JList choices) = true ->
            plain_event (mock_event now_ms cid object (mock_model b) choices None)).
  { intros. by apply plain_mock_event. }
  assert (Hq : forall cid object usage, jplain usage = true ->
            plain_event (mock_event now_ms cid object (mock_model b) [] (Some usage))).
  { intros. by apply plain_mock_event. }
  destruct u; cbn [fst]; (apply Forall_cons; split; [by apply Hp|]); (apply Forall_app; split);
    first [apply Forall_forall; intros v Hv;
           apply list_elem_of_In, in_map_iff in Hv as (w & <- & _); by apply Hp
          |repeat constructor; first [by apply Hp|by apply Hq]].
Qed.

(** What the client has seen of the mock's chat stream. *)
Lemma mock_stream_seen b content n chunks :
  jplain (mock_model b) = true -> include_usage b = Ok true ->
  join "" chunks = mock_wire (mock_chat_stream name now_ms b content n) ->
  let text := mock_chat_text name content in
  let words := py_take n (split " " text) in
  let r := feed_all t_init chunks in
  r.2 = true /\ stream_text r.1 = join " " words /\
  t_reported_prompt r.1 = Some (mock_tokens_in content) /\
  t_reported_gen r.1 = Some (Z.of_nat (length words)) /\
  t_last_finish r.1 = JStr (mock_finish text n).
Proof.
  intros Hm Hu E. pose proof (mock_events_plain b content n true Hm Hu) as Hpl.
  unfold mock_wire, mock_chat_stream, mock_tail in E, Hpl. rewrite Hu in E, Hpl.
  cbv zeta in E, Hpl |- *. cbn [fst snd] in E, Hpl.
  set (words := py_take n _) in *. set (text := mock_chat_text name content) in *.
  set (ev := mock_event now_ms _ _ _) in *.
  destruct (events_fold model_name true now_iso _ chunks Hpl E) as [Hr Hv].
  apply visible_fields in Hv as (Ht & Hp & Hg & Hl). rewrite Hr, Ht, Hp, Hg, Hl.
  unfold after_events. cbn [foldl]. rewrite foldl_app.
  match goal with |- context [foldl ?f ?t0 (map ?g (spaced words))] =>
    destruct (handle_texts ("chatcmpl-mock-" ++ str_of_Z now_ms) "chat.completion.chunk"
      (mock_model b) (spaced words) t0) as (H1 & H2 & H3 & H4);
    unfold after_events in H1, H2, H3, H4; fold ev in H1, H2, H3, H4;
    set (t1 := foldl f t0 (map g (spaced words))) in *
  end.
  rewrite join_spaced in H1.
  unfold mock_finish. clearbody t1.
  destruct (mock_truncated text n); (split_and!; [done| |reflexivity..]);
    change (stream_text t1 = join " " words); by rewrite H1.
Qed.

Lemma words_joined text n :
  0 <= n ->
  (if mock_truncated text n then join " " (py_take n (split " " text)) else text)
  = join " " (py_take n (split " " text)) /\
  Z.min n (Z.of_nat (length (split " " text))) = Z.of_nat (length (py_take n (split " " text))).
Proof.
  intros Hn. unfold mock_truncated, py_take. rewrite (proj2 (Z.ltb_ge n 0) Hn), length_take.
  destruct (Z.ltb_spec n (Z.of_nat (length (split " " text)))); [split; [done|lia]|].
  rewrite take_ge by lia. rewrite (join_split " " text). split; [done|lia].
Qed.

(** C16. End to end with the engine of [backends.py]: whatever way its streamed
    answer is cut on the wire, the lines the Ollama client gets carry the very
    text, stop reason and token counts of the engine's non-streamed answer to
    the same request. *)
Theorem streamed_equals_plain b content n chunks cid object choice :
  0 <= n -> jplain (mock_model b) = true -> include_usage b = Ok true ->
  join "" chunks = mock_wire (mock_chat_stream name now_ms b content n) ->
  let t := (feed_all t_init chunks).1 in
  (feed_all t_init chunks).2 = true /\
  mock_reply now_ms cid object (mock_model b) choice (mock_chat_text name content)
    (mock_tokens_in content) n
  = JDict [("id", JStr cid); ("object", JStr object); ("created", JInt (now_ms / 1000));
           ("model", mock_model b);
           ("choices", JList [choice (stream_text t) (JStr (done_reason t))]);
           ("usage", usage_json (default 0 (t_reported_prompt t))
                       (default 0 (t_reported_gen t)))].
Proof.
  intros Hn Hm Hu E. cbv zeta.
  destruct (mock_stream_seen b content n chunks Hm Hu E) as (Hr & Ht & Hp & Hg & Hl).
  split; [done|]. rewrite Ht, Hp, Hg. unfold done_reason. rewrite Hl.
  destruct (words_joined (mock_chat_text name content) n Hn) as [Hw Hc].
  unfold mock_reply. rewrite Hw, Hc. unfold mock_finish.
  by destruct (mock_truncated (mock_chat_text name content) n).
Qed.
End MockStream.

(** ** Witnesses *)

Definition demo_stream_body : list (string * json float) :=
  [("messages", JList [JDict [("role", JStr "user"); ("content", JStr "hi there you")]]);
   ("max_tokens", JInt 4); ("stream", JBool true);
   ("stream_options", JDict [("include_usage", JBool true)])].

Definition demo_wire : string :=
  mock_wire (mock_chat_stream "m" 1000 demo_stream_body (JStr "hi there you") 4).

Lemma chunking_irrelevant_witness :
  (feed_all (JStr "m" : json float) true "now" t_init [demo_wire]).2
  = (feed_all (JStr "m" : json float) true "now" t_init
       [str_take 300 demo_wire; str_drop 300 demo_wire]).2.
Proof.
  refine (proj1 (chunking_irrelevant (JStr "m" : json float) true "now" [demo_wire]
    [str_take 300 demo_wire; str_drop 300 demo_wire] 1 (fint 1) _)).
  vm_compute. reflexivity.
Defined.

Lemma events_handled_in_order_witness :
  (feed_all (JStr "m" : json float) true "now" t_init [demo_wire]).2 = true.
Proof.
  refine (proj1 (events_handled_in_order (JStr "m" : json float) true "now"
    (mock_chat_stream "m" 1000 demo_stream_body (JStr "hi there you") 4).1 [demo_wire] _ _)).
  - repeat constructor.
  - vm_compute. reflexivity.
Defined.

Lemma streamed_equals_plain_witness :
  (feed_all (JStr "m" : json float) true "now" t_init
     [str_take 300 demo_wire; str_drop 300 demo_wire]).2 = true /\
  stream_text (feed_all (JStr "m" : json float) true "now" t_init
     [str_take 300 demo_wire; str_drop 300 demo_wire]).1 = "[m] echo: hi there".
Proof.
  split; [|vm_compute; reflexivity].
  refine (proj1 (streamed_equals_plain (JStr "m" : json float) "now" "m" 1000 demo_stream_body
    (JStr "hi there you") 4 [str_take 300 demo_wire; str_drop 300 demo_wire] "" ""
    (fun _ v => v) _ _ _ _)); [lia|reflexivity|reflexivity|vm_compute; reflexivity].
Defined.
