(* ===== verification/WorkerProps.v ===== *)
(** Properties of the gRPC sidecar: what it reads from a streaming engine, its
    counters under overlapping calls, and its registration. *)

From S2P Require Import Prelude PyFloat PyStr PyDict Json OllamaStream JsonFacts Worker.

Section Streaming.
Context {F : Type} {PF : PyFloat F}.
Local Abbreviation json := (json F).
Variables (exc_text : PyExc -> string) (cid : string).
Implicit Types (g : GState F) (start stop now : F).

(** ** An engine's stream, item by item *)

(** A piece of text, the usage figures, or a line that carries no chunk. *)
Inductive WireItem : Type :=
| WPiece (text : string)
| WUsage (tokens : Z)
| WNoise (line : string).

Definition wire_chunk (choices : list json) (more : list (string * json)) : json :=
  JDict ([("id", JStr cid); ("choices", JList choices)] ++ more)%list.

Definition wire_line (i : WireItem) : string :=
  match i with
  | WPiece s => "data: " ++ dumps (wire_chunk [JDict [("index", JInt 0); ("text", JStr s);
                                                      ("finish_reason", JNull)]] [])
  | WUsage n => "data: " ++ dumps (wire_chunk [] [("usage", JDict [("completion_tokens", JInt n)])])
  | WNoise line => line
  end.

Definition wire_event (it : WireItem * F) : LineEvent F := LineText (wire_line it.1) it.2.

(** A comment or blank line, or a data line that is not JSON. *)
Definition is_noise (line : string) : Prop :=
  startswith "data: " line = false \/
  str_eqb (strip (str_drop 6 line)) "[DONE]" = false /\ @loads F PF (str_drop 6 line) = None.

Definition item_ok (it : WireItem * F) : Prop :=
  match it.1 with WNoise line => is_noise line | _ => True end.

Fixpoint wire_text (items : list (WireItem * F)) : string :=
  match items with
  | [] => ""
  | (WPiece s, _) :: items' => s ++ wire_text items'
  | _ :: items' => wire_text items'
  end.

(** One token a piece, until the engine reports its own figure. *)
Definition wire_tokens (items : list (WireItem * F)) (n : Z) : Z :=
  foldl (fun n it => match it.1 with
                     | WPiece s => if str_truth s then n + 1 else n
                     | WUsage m => m
                     | WNoise _ => n
                     end) n items.

(** When the first piece that is not empty arrived. *)
Fixpoint wire_first (items : list (WireItem * F)) : option F :=
  match items with
  | [] => None
  | (WPiece s, now) :: items' => if str_truth s then Some now else wire_first items'
  | _ :: items' => wire_first items'
  end.

(** ** Reading it *)

(** The state once [text] was read, the count is [n] and the first token came at [t]. *)
Definition holds (start : F) (text : string) (n : Z) (t : option F) g : Prop :=
  join_chunks (g_chunks g) = Ok text /\ g_tokens g = JInt n /\
  g_first g = bool_decide (is_Some t) /\
  g_ttft_ms g = match t with Some now => ms_since start now | None => f0 end.

Lemma join_chunks_snoc (l : list json) a s :
  join_chunks l = Ok a -> join_chunks (l ++ [JStr s]) = Ok (a ++ s).
Proof.
  revert a; induction l as [|v l IH]; intros a; simpl.
  - intros [= <-]. by rewrite str_app_nil_r.
  - destruct v; try done. destruct (join_chunks l) as [b|]; [|done].
    intros [= <-]. cbn. rewrite (IH b) by done. cbn. by rewrite str_app_assoc.
Qed.

Lemma read_event start now d g :
  jplain (JDict d) = true ->
  read_line exc_text start now ("data: " ++ dumps (JDict d)) g
  = (g ← lift_exc exc_text (note_chunk start now (JDict d) g); Ok (g, false)).
Proof.
  intros Hp. unfold read_line.
  change (str_drop 6 ("data: " ++ dumps (JDict d))) with (dumps (JDict d)).
  change (startswith "data: " ("data: " ++ dumps (JDict d))) with true. cbn [negb].
  rewrite (loads_dumps (JDict d) Hp). unfold str_eqb. rewrite bool_decide_eq_false_2; [done|].
  assert (Hd : exists m, chars (dumps (JDict d)) = "{"%char :: m ++ ["}"%char]).
  { cbn [dumps]. rewrite (chars_app "{"), (chars_app _ "}"). by eexists. }
  destruct Hd as [m Hm]. intros E. apply (f_equal chars) in E. revert E.
  rewrite <- (unchars_chars (dumps (JDict d))), Hm.
  pose proof (strip_ends [] "{" m "}" eq_refl eq_refl eq_refl) as Hs.
  change ([] ++ ?l)%list with l in Hs. by rewrite Hs, String.list_ascii_of_string_of_list_ascii.
Qed.

Lemma read_noise start now line g :
  is_noise line -> read_line exc_text start now line g = Ok (g, false).
Proof. unfold read_line. intros [->|[-> ->]]; [done|]. by destruct (startswith _ _). Qed.

Definition piece_chunk (s : string) : json :=
  wire_chunk [JDict [("index", JInt 0); ("text", JStr s); ("finish_reason", JNull)]] [].
Definition usage_chunk (n : Z) : json :=
  wire_chunk [] [("usage", JDict [("completion_tokens", JInt n)])].

Lemma read_chunk start now cs more g :
  jplain (wire_chunk cs more) = true ->
  read_line exc_text start now ("data: " ++ dumps (wire_chunk cs more)) g
  = (g ← lift_exc exc_text (note_chunk start now (wire_chunk cs more) g); Ok (g, false)).
Proof. apply read_event. Qed.

Lemma note_piece start now s g :
  note_chunk start now (piece_chunk s) g = note_text (JStr s) (note_first start now (JStr s) g).
Proof.
  unfold note_chunk.
  cbn [jget_or piece_chunk wire_chunk mbind result_bind].
  change (first_text _) with (Ok (JStr s) : result PyExc json). cbn [mbind result_bind].
  by destruct (note_text _ _).
Qed.

Lemma note_usage_chunk start now n g :
  note_chunk start now (usage_chunk n) g
  = Ok (mkGState (g_ttft_ms g) (g_first g) (g_chunks g) (JInt n)).
Proof. by destruct g as [ttft [] chunks n0]. Qed.

(** One item, by its effect on what the state holds. *)
Lemma read_item start text n t g it :
  item_ok it -> holds start text n t g ->
  exists g', read_line exc_text start it.2 (wire_line it.1) g = Ok (g', false) /\
    holds start (text ++ wire_text [it]) (wire_tokens [it] n)
      (match t with Some now => Some now | None => wire_first [it] end) g'.
Proof.
  destruct it as [[s|m|line] now]; intros Hok (Hj & Ht & Hf & Hm); cbn [fst snd].
  - change (wire_line (WPiece s)) with ("data: " ++ dumps (piece_chunk s)).
    unfold piece_chunk at 1. rewrite read_chunk by done. fold (piece_chunk s). rewrite note_piece.
    destruct g as [ttft first chunks tokens]; cbn in *. subst tokens first ttft.
    destruct s as [|c s]; [|destruct t]; (eexists; split; [done|]);
      rewrite str_app_nil_r; split_and!; cbn; try done;
      [by destruct t..|by apply join_chunks_snoc|by apply join_chunks_snoc].
  - change (wire_line (WUsage m)) with ("data: " ++ dumps (usage_chunk m)).
    unfold usage_chunk at 1. rewrite read_chunk by done. fold (usage_chunk m). rewrite note_usage_chunk.
    eexists; split; [done|]. cbn. rewrite str_app_nil_r.
    destruct t; split_and!; done.
  - rewrite read_noise by done. eexists; split; [done|]. cbn. rewrite str_app_nil_r.
    destruct t; split_and!; done.
Qed.

Lemma wire_text_cons it items : wire_text (it :: items) = wire_text [it] ++ wire_text items.
Proof. destruct it as [[s|m|l] now]; cbn; by rewrite ?str_app_nil_r. Qed.

Lemma wire_first_cons it items :
  wire_first (it :: items) = match wire_first [it] with Some t => Some t | None => wire_first items end.
Proof. destruct it as [[s|m|l] now]; cbn; [by destruct (str_truth s)|done..]. Qed.

(** Items read one after the other, then whatever is left of the stream. *)
Lemma read_items start items rest tail text n t g :
  Forall item_ok items -> holds start text n t g ->
  exists g', read_lines exc_text start (map wire_event items ++ rest) tail g
             = read_lines exc_text start rest tail g' /\
    holds start (text ++ wire_text items) (wire_tokens items n)
      (match t with Some now => Some now | None => wire_first items end) g'.
Proof.
  intros H. revert text n t g; induction H as [|it items Hok H IH]; intros text n t g Hg.
  - exists g. cbn. rewrite str_app_nil_r. by destruct t.
  - destruct (read_item _ _ _ _ _ _ Hok Hg) as (g1 & E1 & H1).
    destruct (IH _ _ _ _ H1) as (g2 & E2 & H2). exists g2. split.
    + cbn [map app read_lines]. unfold wire_event at 1. rewrite E1. exact E2.
    + rewrite wire_text_cons, wire_first_cons, str_app_assoc.
      by destruct t, (wire_first [it]).
Qed.

(** The stream ends by itself, or with the end marker; what follows it is not read. *)
Definition stream_ends (rest : list (LineEvent F)) (tail : option GenExc) : Prop :=
  (rest = [] /\ tail = None) \/ exists now rest', rest = LineText "data: [DONE]" now :: rest'.

Lemma read_end start rest tail g :
  stream_ends rest tail -> read_lines exc_text start rest tail g = Ok g.
Proof. by intros [[-> ->]|(now & rest' & ->)]. Qed.

(** The time to the first token a stream reports. *)
Definition wire_ttft start (items : list (WireItem * F)) (total : F) : F :=
  let t := match wire_first items with Some now => ms_since start now | None => f0 end in
  if feq t f0 then fmul total fifteen_percent else t.

(** C32. What the sidecar reports of a well-formed stream of completions: the text is the
    concatenation of the pieces whatever comment lines, keep-alives or broken lines
    stand between them, the time to the first token is that of the first piece that
    is not empty, or 15 % of the latency when there is none, the prompt tokens are an
    estimate from the length of the prompt, the completion tokens are the figure the
    engine reported last plus the pieces after it, or the pieces alone when it reported
    none, and the total is the sum of the two. *)
Theorem streamed_completion_read prompt status err items rest tail start stop :
  (status < 400)%Z -> Forall item_ok items -> stream_ends rest tail ->
  generate_streaming exc_text prompt
    (StreamOpen status err (map wire_event items ++ rest) tail) start stop
  = let total := ms_since start stop in
    let p := prompt_estimate prompt in
    let n := wire_tokens items 0 in
    mkGen (JStr (wire_text items)) total (wire_ttft start items total)
      (JInt p) (JInt n) (JInt (p + n)).
Proof.
  intros Hs Hok Hend. unfold generate_streaming, raise_for_status.
  rewrite (proj2 (Z.leb_gt 400 status)) by done. cbn.
  destruct (read_items start items rest tail "" 0 None g_init Hok) as (g & E & Hj & Ht & _ & Hm);
    [done|].
  rewrite E, read_end by done. cbn. unfold stream_result. rewrite Hj, Ht. cbn.
  unfold wire_ttft. by rewrite Hm.
Qed.
End Streaming.

Lemma streamed_completion_read_witness :
  exists r : GenResult float,
    generate_streaming (fun _ => "") "Hello, world"
      (StreamOpen 200 ""
         (map (wire_event "c1") [(WPiece "", fint 1); (WNoise ": ping", fint 2);
                                 (WPiece "Hi", fint 3); (WPiece " you", fint 4)]
          ++ [LineText "data: [DONE]" (fint 5)]) None) (fint 1) (fint 6) = r /\
    gr_output r = JStr "Hi you" /\ gr_completion_tokens r = JInt 2 /\
    gr_total_tokens r = JInt 5.
Proof.
  eexists. split; [|split_and!].
  - apply (streamed_completion_read (fun _ => "") "c1"); [done| |by right; eexists _, _].
    repeat constructor.
  - reflexivity.
  - reflexivity.
  - reflexivity.
Defined.

(** The total the engine reports is not read: a prompt of twelve characters counts for
    three tokens though the engine counted thirty. *)
Lemma reported_total_is_not_read :
  let usage := JDict [("choices", JList []);
    ("usage", JDict [("prompt_tokens", JInt 30); ("completion_tokens", JInt 2 : json float);
                     ("total_tokens", JInt 32)])] in
  let r := generate_streaming (fun _ => "") "Hello, world"
    (StreamOpen 200 "" [LineText ("data: " ++ dumps usage) (fint 2)] None) (fint 1) (fint 6) in
  gr_total_tokens r = JInt 5.
Proof. vm_compute. reflexivity. Qed.

(** Without any text the time to the first token is 15 % of the latency, not the
    latency. *)
Lemma silent_stream_ttft :
  let r := generate_streaming (fun _ => "") "Hello, world"
    (StreamOpen 200 "" [LineText "data: [DONE]" (fint 2)] None) (fint 0) (fint 1) in
  gr_latency_ms r = (fint 1000 : float) /\ gr_ttft_ms r = fint 150.
Proof. vm_compute. done. Qed.

(** ** Overlapping calls *)

Section Counters.
Context {F : Type} {PF : PyFloat F}.
Variables (exc_text : PyExc -> string) (w : WorkerCfg F) (extended : bool).
Implicit Types (c : Call F) (cs : list (Call F)) (s : Counters F).

(** The tokens a call reports, and what a call has contributed so far. *)
Definition tokens_of c : Z := default 0 (int_value (gr_total_tokens (ca_result c))).
Definition counted c : Z := match ca_phase c with PStart | PCounting _ => 0 | _ => 1 end.
Definition served_tokens c : Z := match ca_phase c with PDone _ => tokens_of c | _ => 0 end.

Definition reports_tokens (r : GenResult F) : Prop :=
  exists n, 0 <= n /\ int_value (gr_total_tokens r) = Some n.

(** What a thread may have read is never above what was contributed. *)
Definition seen_ok (counts tokens : Z) c : Prop :=
  match ca_phase c with
  | PCounting n => 0 <= n <= counts
  | PAdding v => exists t, v = JInt t /\ 0 <= t <= tokens
  | _ => True
  end.

Definition counters_ok (st : Counters F * list (Call F)) : Prop :=
  let counts := sum_of counted st.2 in
  let tokens := sum_of served_tokens st.2 in
  Forall (fun c => reports_tokens (ca_result c)) st.2 /\
  Forall (seen_ok counts tokens) st.2 /\
  0 <= request_count st.1 <= counts /\ (0 < counts -> 0 < request_count st.1) /\
  exists t, total_tokens_served st.1 = JInt t /\ 0 <= t <= tokens.

Lemma seen_ok_le a b a' b' c : a <= a' -> b <= b' -> seen_ok a b c -> seen_ok a' b' c.
Proof.
  unfold seen_ok. intros. destruct (ca_phase c); try done; [lia|].
  destruct H1 as (t & -> & ?). exists t. split; [done|lia].
Qed.

(** A step that contributes [a] calls and [b] tokens keeps the other threads' view. *)
Lemma counters_ok_move a b s s' i c c' cs :
  counters_ok (s, cs) -> cs !! i = Some c -> ca_result c' = ca_result c ->
  counted c' = counted c + a -> served_tokens c' = served_tokens c + b -> 0 <= a -> 0 <= b ->
  seen_ok (sum_of counted cs + a) (sum_of served_tokens cs + b) c' ->
  0 <= request_count s' <= sum_of counted cs + a ->
  (0 < sum_of counted cs + a -> 0 < request_count s') ->
  (exists t, total_tokens_served s' = JInt t /\ 0 <= t <= sum_of served_tokens cs + b) ->
  counters_ok (s', <[i := c']> cs).
Proof.
  intros (Hr & Hs & _) Hi Er Ha Hb Ha0 Hb0 Hs' H1 H2 H3. cbn [fst snd] in *.
  assert (Ec : sum_of counted (<[i := c']> cs) = sum_of counted cs + a)
    by (rewrite (sum_of_insert _ _ _ _ _ Hi); lia).
  assert (Et : sum_of served_tokens (<[i := c']> cs) = sum_of served_tokens cs + b)
    by (rewrite (sum_of_insert _ _ _ _ _ Hi); lia).
  unfold counters_ok; cbn [fst snd]. rewrite Ec, Et. split_and!; try done; [..|lia|lia].
  - apply Forall_insert; [done|]. rewrite Er. by eapply (Forall_lookup_1 _ _ _ _ Hr).
  - apply Forall_insert; [|done]. eapply Forall_impl; [exact Hs|].
    intros x. apply seen_ok_le; lia.
Qed.

Lemma py_add_int t v n : int_value v = Some n -> py_add (JInt t) v = Ok (JInt (t + n) : json F).
Proof. unfold py_add. cbn. by intros ->. Qed.

Lemma calls_step_ok i st : counters_ok st -> counters_ok (calls_step w extended i st).
Proof.
  destruct st as [s cs]. intros H. unfold calls_step. cbn [fst snd].
  destruct (cs !! i) as [c|] eqn:Hi; [|done].
  pose proof H as (Hr & Hs & Hn & Hp & t & Ht & Htt). cbn [fst snd] in *.
  pose proof (Forall_lookup_1 _ _ _ _ Hs Hi) as Hc.
  destruct (Forall_lookup_1 _ _ _ _ Hr Hi) as (n & Hn0 & En).
  assert (Et : tokens_of c = n) by (unfold tokens_of; by rewrite En).
  destruct c as [r ph]; unfold call_step; cbn [ca_result ca_phase] in *.
  destruct ph as [|seen| |seen|res]; cbn [seen_ok ca_phase] in Hc.
  - apply (counters_ok_move 0 0 s s i _ _ cs H Hi); cbn; try lia; eauto with lia.
  - apply (counters_ok_move 1 0 s _ i _ _ cs H Hi); cbn; try lia; eauto with lia.
  - apply (counters_ok_move 0 0 s s i _ _ cs H Hi); cbn; try lia; eauto with lia.
  - destruct Hc as (u & -> & Hu). rewrite (py_add_int _ _ _ En).
    apply (counters_ok_move 0 n s _ i _ _ cs H Hi); cbn; try lia; eauto with lia.
  - by rewrite list_insert_id.
Qed.

Lemma calls_run_ok schedule st : counters_ok st -> counters_ok (calls_run w extended schedule st).
Proof.
  revert st; induction schedule as [|i l IH]; intros st H; [done|]. by apply IH, calls_step_ok.
Qed.

Definition fresh (rs : list (GenResult F)) : list (Call F) := map (fun r => mkCall r PStart) rs.

Lemma fresh_ok rs : Forall reports_tokens rs -> counters_ok (counters_init, fresh rs).
Proof.
  intros H. unfold counters_ok, fresh; cbn [fst snd].
  assert (Hz : forall f : Call F -> Z, (forall r, f (mkCall r PStart) = 0) ->
            sum_of f (map (fun r => mkCall r PStart) rs) = 0).
  { intros f Hf. induction rs as [|r rs' IH]; cbn; [done|].
    apply Forall_cons in H as [_ H]. specialize (IH H). unfold sum_of in IH. rewrite Hf. lia. }
  rewrite !Hz by done. split_and!; cbn; try lia.
  - by apply Forall_map.
  - apply Forall_map. by apply Forall_true.
  - exists 0. split; [done|lia].
Qed.

(** C33. However the threads of the server interleave, the counters never run ahead of what
    the calls did: the request count is at most the number of calls that wrote it,
    and at least one once any did; the tokens are at most the sum over the finished
    calls.  (They may fall behind, see [overlapping_calls_lose_updates].) *)
Theorem overlapping_calls_never_overcount schedule rs :
  Forall reports_tokens rs ->
  let '(s, cs) := calls_run w extended schedule (counters_init, fresh rs) in
  0 <= request_count s <= sum_of counted cs /\
  (0 < sum_of counted cs -> 0 < request_count s) /\
  exists t, total_tokens_served s = JInt t /\ 0 <= t <= sum_of served_tokens cs.
Proof.
  intros H. pose proof (calls_run_ok schedule _ (fresh_ok rs H)) as Ho.
  destruct (calls_run _ _ _ _) as [s cs]. by destruct Ho as (_ & _ & Ho).
Qed.

Lemma calls_step_at i s cs c :
  (i < length cs)%nat ->
  calls_step w extended i (s, <[i := c]> cs)
  = let '(s', c') := call_step w extended s c in (s', <[i := c']> cs).
Proof.
  intros H. unfold calls_step. cbn [fst snd]. rewrite list_lookup_insert_eq by done.
  destruct (call_step _ _ _ _). by rewrite list_insert_insert_eq.
Qed.

(** A call that no other call interrupts is [Predict]. *)
Lemma call_alone cl en prompt i s cs :
  cs !! i = Some (mkCall (generate exc_text w cl en prompt) PStart) ->
  calls_run w extended [i; i; i; i] (s, cs)
  = let '(s', r) := Predict exc_text w cl extended en prompt s in
    (s', <[i := mkCall (generate exc_text w cl en prompt) (PDone r)]> cs).
Proof.
  intros Hi. pose proof (lookup_lt_Some _ _ _ Hi) as Hlt.
  rewrite <- (list_insert_id _ _ _ Hi) at 1. unfold Predict.
  set (r := generate _ _ _ _ _). unfold calls_run. cbn [foldl].
  do 4 (rewrite calls_step_at by done; cbn [call_step ca_phase ca_result]).
  cbn [total_tokens_served request_count]. by destruct (py_add _ _).
Qed.
End Counters.

(** Two calls that both read before either writes leave the count at one. *)
Lemma overlapping_calls_lose_updates :
  let r := failed GTimeout (fint 1) : GenResult float in
  let w := mkWorker "w" true 200 (fint 1) in
  request_count (calls_run w false [0; 1; 0; 1]%nat (counters_init, fresh [r; r])).1 = 1.
Proof. reflexivity. Qed.

Lemma overlapping_calls_never_overcount_witness :
  let r := mkGen (JStr "a") (fint 1) (fint 1) (JInt 1) (JInt 2) (JInt 3) : GenResult float in
  let w := mkWorker "w" true 200 (fint 1) in
  let '(s, cs) := calls_run w false [0; 1; 0; 1; 0; 1; 0; 1]%nat (counters_init, fresh [r; r]) in
  0 <= request_count s <= sum_of counted cs /\
  (0 < sum_of counted cs -> 0 < request_count s) /\
  exists t, total_tokens_served s = JInt t /\ 0 <= t <= sum_of served_tokens cs.
Proof.
  apply overlapping_calls_never_overcount. repeat constructor; by exists 3.
Defined.

(** ** Errors *)

Section Errors.
Context {F : Type} {PF : PyFloat F}.
Variable exc_text : PyExc -> string.

(** The result of a stream: text, an integer for the prompt, and figures that add up. *)
Definition well_formed_result (r : GenResult F) : Prop :=
  exists text p, gr_output r = JStr text /\ gr_prompt_tokens r = JInt p /\ 0 <= p /\
    py_add (JInt p) (gr_completion_tokens r) = Ok (gr_total_tokens r).

Lemma failed_well_formed e x : well_formed_result (failed e x).
Proof. by eexists _, 0. Qed.

Lemma streaming_well_formed prompt post start stop :
  well_formed_result (generate_streaming exc_text prompt post start stop).
Proof.
  unfold generate_streaming, or_failed.
  destruct post as [e|status err lines tail]; [apply failed_well_formed|].
  destruct (raise_for_status _ _) as [[]|e]; [cbn|apply failed_well_formed].
  destruct (read_lines _ _ _ _ _) as [g|e]; [cbn|apply failed_well_formed].
  unfold stream_result. destruct (join_chunks _) as [text|e];
    [cbn [mbind result_bind]|apply failed_well_formed].
  destruct (py_add (JInt _) _) as [sum|e] eqn:E; [cbn|apply failed_well_formed].
  exists text, (prompt_estimate prompt). split_and!; try done. unfold prompt_estimate. lia.
Qed.

Lemma py_add_int_inv (p n : Z) (c v : json F) :
  py_add (JInt p) c = Ok v -> int_value v = Some n -> int_value c = Some (n - p).
Proof.
  unfold py_add. cbn [int_value]. destruct (int_value c) as [k|] eqn:Ec.
  - intros [= <-] [= <-]. f_equal; lia.
  - destruct c; try done; cbn. by destruct (fisinf _); intros [= <-].
Qed.

Lemma as_int_jint (v : json F) n : int_value v = Some n -> jint v = Ok n.
Proof. destruct v as [|[]| | | | |]; try done; by intros [= <-]. Qed.

(** A streaming call always answers, whatever the engine sent and even when it
    failed, as long as the figures it reported are integers. *)
Lemma streaming_call_answers w cl extended en prompt s n t :
  wk_use_streaming w = true -> total_tokens_served s = JInt t ->
  int_value (gr_total_tokens (generate exc_text w cl en prompt)) = Some n ->
  exists resp, Predict exc_text w cl extended en prompt s
    = (mkCounters (request_count s + 1) (JInt (t + n)), Ok resp) /\ ir_tokens_used resp = n.
Proof.
  intros Hw Ht Hn. unfold Predict.
  assert (Hf : well_formed_result (generate exc_text w cl en prompt)).
  { unfold generate. rewrite Hw. apply streaming_well_formed. }
  destruct Hf as (text & p & Ho & Hp & _ & Hadd). cbn [total_tokens_served request_count].
  rewrite Ht, (py_add_int _ _ _ Hn).
  pose proof (py_add_int_inv _ _ _ _ Hadd Hn) as Hc.
  unfold predict_response. rewrite Ho, Hp, (as_int_jint _ _ Hn). cbn.
  rewrite (as_int_jint _ _ Hc). destruct extended; cbn; by eexists.
Qed.

(** A request that raises is answered with the error as its text, and adds no token. *)
Lemma failed_call_counts_nothing w cl extended en prompt s e t :
  wk_use_streaming w = true -> total_tokens_served s = JInt t ->
  (forall payload, en_stream en payload = StreamFailed e) ->
  exists resp, Predict exc_text w cl extended en prompt s
    = (mkCounters (request_count s + 1) (JInt t), Ok resp) /\
    ir_tokens_used resp = 0 /\ startswith "ERROR: " (ir_output resp) = true.
Proof.
  intros Hw Ht He. unfold Predict, generate. rewrite Hw, He. cbn. rewrite Ht. cbn.
  unfold predict_response. rewrite Z.add_0_r.
  destruct extended; cbn; eexists; split_and!; try done; by destruct e.
Qed.
End Errors.

(** ** Registration *)

Section Registration.
Variables (request : nat -> RegisterRequest) (manager : nat -> RegisterRequest -> RegReply).

(** The run that stops at attempt [k]: what the manager said, and what was sent. *)
Definition stops_at (attempt k : nat) (run : RegRun) : Prop :=
  rr_sent run = map request (seq attempt (S k - attempt)) /\
  (forall j, (attempt <= j < k)%nat -> manager j (request j) = RegRaised) /\
  (manager k (request k) = RegAnswer (rr_registered run) \/
   k = (max_retries - 1)%nat /\ manager k (request k) = RegRaised /\ rr_registered run = false).

Lemma register_loop_stops left attempt :
  (attempt + S left = max_retries)%nat ->
  exists k, (attempt <= k < max_retries)%nat /\
    let run := register_loop request manager attempt (S left) in
    stops_at attempt k run /\ rr_slept run = retry_delay * Z.of_nat (k - attempt).
Proof.
  revert attempt; induction left as [|left IH]; intros attempt H.
  - exists attempt. split; [lia|]. assert (attempt = 9%nat) as -> by (unfold max_retries in H; lia).
    cbn. unfold stops_at. destruct (manager 9 (request 9)) as [b|] eqn:E; cbn;
      (split; [|done]); split_and!; try done; try lia; [by left|by right].
  - cbn [register_loop]. destruct (manager attempt (request attempt)) as [b|] eqn:E.
    + exists attempt. split; [lia|]. unfold stops_at.
      replace (S attempt - attempt)%nat with 1%nat by lia. rewrite Nat.sub_diag.
      split_and!; try done; [intros; lia|by left].
    + destruct (IH (S attempt)) as (k & Hk & (Hs & Hr & Hl) & Ht); [lia|].
      exists k. split; [lia|]. cbn zeta in *. cbn [register_loop] in Hs, Hl, Ht.
      unfold stops_at; cbn [rr_sent rr_registered rr_slept]. split_and!; [| |exact Hl|].
      * replace (S k - attempt)%nat with (S (S k - S attempt)) by lia. cbn [seq map].
        f_equal. exact Hs.
      * intros j Hj. destruct (decide (j = attempt)) as [->|]; [done|]. apply Hr. lia.
      * rewrite bool_decide_eq_true_2 by lia. rewrite Ht. unfold retry_delay. lia.
Qed.
End Registration.

(** Registration ends after at most ten attempts and twenty-seven seconds of sleep; it
    stops at the first answer of the manager and returns that answer, or returns
    [False] when all ten attempts raised. *)
Lemma registration_ends extended wid address tier g reads manager :
  let request n := registration_request extended wid address tier g (reads n) in
  let run := register_with_manager extended wid address tier g reads manager in
  exists k, (k < 10)%nat /\ stops_at request manager 0 k run /\
    rr_slept run = 3 * Z.of_nat k /\ length (rr_sent run) = S k.
Proof.
  intros request run.
  destruct (register_loop_stops request manager 9 0 eq_refl) as (k & Hk & Hs & Ht).
  exists k. split_and!; [unfold max_retries in Hk; lia|exact Hs| |].
  - change run with (register_loop request manager 0 10). rewrite Ht. unfold retry_delay. lia.
  - destruct Hs as [Hs _]. change run with (register_loop request manager 0 10). rewrite Hs.
    rewrite length_map, length_seq. lia.
Qed.
