(* ===== verification/FixtureProps.v ===== *)
(** Properties of the fixture engine: its slots under every interleaving, when it can
    drain and when it is stuck, and what the gateway reads from its metrics. *)

From S2P Require Import Prelude PyFloat PyStr PyDict EngineMetrics EngineProps Json JsonFacts.
From S2P Require Import Backends EngineFixture.

Local Arguments sum_of : simpl never.

Section Slots.
Context {F : Type} {PF : PyFloat F}.
Variable c : EngineCfg F.
Implicit Types (s : EngineState) (st : FixState) (t : Thread).

(** Requests in progress, and those past the slot loop. *)
Definition busy t : Z := match t with Gone => 0 | _ => 1 end.
Definition in_service t : Z := match t with Serving => 1 | _ => 0 end.
Definition in_progress st : Z := sum_of busy (fx_threads st).
Definition served_now st : Z := sum_of in_service (fx_threads st).

Lemma busy_nonneg t : 0 <= busy t.
Proof. by destruct t. Qed.
Lemma in_service_nonneg t : 0 <= in_service t.
Proof. by destruct t. Qed.
Lemma in_service_busy t : in_service t <= busy t.
Proof. by destruct t. Qed.

Record slots_ok st : Prop := mkSlotsOk {
  so_count : es_running (fx_engine st) + es_waiting (fx_engine st) = in_progress st;
  so_served : served_now st <= es_running (fx_engine st) <= max_concurrency c;
  so_waiting : 0 <= es_waiting (fx_engine st);
  so_peaks : 0 <= es_peak_running (fx_engine st) <= max_concurrency c
}.

Record prefixes_ok s : Prop := mkPrefixesOk {
  po_hits : 0 <= es_prefix_hits s;
  po_queries : es_prefix_hits s + Z.of_nat (size (es_seen_prefixes s)) = es_prefix_queries s
}.

Lemma served_now_nonneg st : 0 <= served_now st.
Proof. apply sum_of_nonneg, in_service_nonneg. Qed.

Lemma admit_prefixes key s : prefixes_ok s -> prefixes_ok (engine_admit c key s).1.
Proof.
  intros [H1 H2]. unfold engine_admit, count_prefix.
  case_bool_decide; destruct (_ <=? _); split; cbn; try lia;
    rewrite size_union, size_singleton by set_solver; lia.
Qed.

Lemma start_turn_prefixes s : prefixes_ok s -> prefixes_ok (start_turn c s).1.
Proof. intros [H1 H2]. unfold start_turn. destruct (_ && _); by split. Qed.

Lemma tick_prefixes st e : prefixes_ok (fx_engine st) -> prefixes_ok (fx_engine (tick c st e)).
Proof.
  intros H. destruct e as [key|i|]; cbn; [by apply admit_prefixes| |by split].
  destruct (_ !! i) as [t|]; [|done]. destruct t; cbn.
  - pose proof (start_turn_prefixes (fx_engine st) H) as Hs. by destruct (start_turn _ _) as [s []].
  - by destruct H.
  - done.
Qed.

(** A turn that changes thread [i] from [t] to [t']. *)
Lemma slots_ok_turn st s' i t t' :
  slots_ok st -> fx_threads st !! i = Some t ->
  es_running s' + es_waiting s' = in_progress st - busy t + busy t' ->
  served_now st - in_service t + in_service t' <= es_running s' <= max_concurrency c ->
  0 <= es_waiting s' -> 0 <= es_peak_running s' <= max_concurrency c ->
  slots_ok (mkFix s' (<[i := t']> (fx_threads st))).
Proof.
  intros H Hi H1 H2 H3 H4.
  split; unfold in_progress, served_now; cbn [fx_engine fx_threads];
    rewrite ?(sum_of_insert _ _ _ _ _ Hi); done.
Qed.

Lemma served_in_progress st : served_now st <= in_progress st.
Proof. apply sum_of_le, in_service_busy. Qed.

(** A thread that is not in service yet is not counted there. *)
Lemma starting_not_served st i :
  fx_threads st !! i = Some Starting -> served_now st + 1 <= in_progress st.
Proof.
  intros Hi. pose proof (sum_of_le _ _ (<[i := Serving]> (fx_threads st)) in_service_busy) as H.
  rewrite !(sum_of_insert _ _ _ _ _ Hi) in H. unfold served_now, in_progress. cbn in *. lia.
Qed.

Lemma start_turn_cases s :
  (es_running s < max_concurrency c /\ 0 < es_waiting s /\
   start_turn c s = (note_running (set_slots (es_running s + 1) (es_waiting s - 1) s), true)) \/
  (es_running s <= max_concurrency c /\ es_waiting s = 0 /\ start_turn c s = (s, true)) \/
  (~ (es_running s < max_concurrency c /\ 0 < es_waiting s) /\
   ~ (es_running s <= max_concurrency c /\ es_waiting s = 0) /\
   start_turn c s = (s, false)).
Proof.
  unfold start_turn.
  destruct (Z.ltb_spec (es_running s) (max_concurrency c)), (Z.ltb_spec 0 (es_waiting s)),
    (Z.leb_spec (es_running s) (max_concurrency c)), (Z.eqb_spec (es_waiting s) 0); cbn; lia || auto 10 with lia.
Qed.

Lemma thread_turn_ok st i t s' t' :
  slots_ok st -> fx_threads st !! i = Some t -> thread_turn c (fx_engine st) t = (s', t') ->
  slots_ok (mkFix s' (<[i := t']> (fx_threads st))).
Proof.
  intros H Hi Ht. pose proof H as [H1 H2 H3 H4].
  destruct t; cbn in Ht.
  - pose proof (starting_not_served st i Hi) as Hs.
    destruct (start_turn_cases (fx_engine st)) as [(?&?&E)|[(?&?&E)|(?&?&E)]]; rewrite E in Ht;
      injection Ht as <- <-; eapply slots_ok_turn; eauto; cbn; lia.
  - injection Ht as <- <-.
    pose proof (sum_of_elem in_service _ _ _ in_service_nonneg Hi) as Hs.
    change (sum_of in_service (fx_threads st)) with (served_now st) in Hs.
    eapply slots_ok_turn; eauto; cbn in *; lia.
  - injection Ht as <- <-. by rewrite list_insert_id by done; destruct st.
Qed.

Hypothesis max_nonneg : 0 <= max_concurrency c.

Lemma tick_slots st e : slots_ok st -> slots_ok (tick c st e).
Proof.
  intros H. destruct e as [key|i|]; cbn.
  - destruct H as [H1 H2 H3 H4]. unfold in_progress, served_now in *.
    unfold engine_admit, count_prefix. destruct (Z.leb_spec (max_concurrency c) (es_running (fx_engine st)));
      split; cbn in *; unfold in_progress, served_now; cbn [fx_threads];
      rewrite ?sum_of_snoc; cbn; lia.
  - destruct (_ !! i) as [t|] eqn:Hi; [|done].
    destruct (thread_turn c (fx_engine st) t) as [s' t'] eqn:Ht. by eapply thread_turn_ok.
  - destruct H as [H1 H2 H3 H4]. split; cbn; try done; lia.
Qed.

Lemma reachable_slots st : fixture_reachable c st -> slots_ok st /\ prefixes_ok (fx_engine st).
Proof.
  induction 1 as [|st e H [IH1 IH2]].
  - split; split; done.
  - split; [by apply tick_slots|by apply tick_prefixes].
Qed.

(** In every interleaving of arrivals, spins and releases: never more than
    [max_concurrency] requests are in service, the running and waiting gauges add up to
    the requests in progress, the running gauge covers those in service, the recorded
    peak stays within the capacity, and the hits are the queries less the distinct
    prefixes. *)
Theorem fixture_within_capacity st :
  fixture_reachable c st ->
  let s := fx_engine st in
  0 <= served_now st <= es_running s /\ es_running s <= max_concurrency c /\
  es_running s + es_waiting s = in_progress st /\ 0 <= es_waiting s /\
  0 <= es_peak_running s <= max_concurrency c /\
  0 <= es_prefix_hits s /\
  es_prefix_hits s + Z.of_nat (size (es_seen_prefixes s)) = es_prefix_queries s.
Proof.
  intros Hr s. destruct (reachable_slots st Hr) as [[H1 H2 H3 H4] [H5 H6]].
  pose proof (served_now_nonneg st). subst s. lia.
Qed.

(** ** Draining *)

(** Every slot is taken, the queue is not empty, and nobody is in service: the threads
    that hold the slots spin until the queue is empty, those in the queue until a
    slot is free. *)
Definition stuck st : Prop :=
  es_running (fx_engine st) = max_concurrency c /\ 0 < es_waiting (fx_engine st) /\
  served_now st = 0.

Definition turns (l : list nat) : list Tick := map Turn l.

(** What a request still has to do: leave the loop, and release. *)
Definition to_do t : Z := match t with Starting => 2 | Serving => 1 | Gone => 0 end.
Definition work st : Z := sum_of to_do (fx_threads st).

Definition spinning t : Z := match t with Starting => 1 | _ => 0 end.

Lemma spinning_count st : served_now st + sum_of spinning (fx_threads st) = in_progress st.
Proof.
  unfold served_now, in_progress. induction (fx_threads st) as [|t l IH]; [done|].
  rewrite !sum_of_cons. destruct t; cbn; lia.
Qed.

Lemma find_starting st :
  served_now st < in_progress st -> exists i, fx_threads st !! i = Some Starting.
Proof.
  intros H. pose proof (spinning_count st).
  destruct (sum_of_pos spinning (fx_threads st)) as (i & t & Hi & Ht); [by intros []|lia|].
  exists i. by destruct t.
Qed.

Lemma find_serving st : 0 < served_now st -> exists i, fx_threads st !! i = Some Serving.
Proof.
  intros H. destruct (sum_of_pos in_service (fx_threads st)) as (i & t & Hi & Ht);
    [apply in_service_nonneg|done|]. exists i. by destruct t.
Qed.

(** Turns of a thread that does not spin. *)
Lemma tick_go st i s' :
  fx_threads st !! i = Some Starting -> start_turn c (fx_engine st) = (s', true) ->
  tick c st (Turn i) = mkFix s' (<[i := Serving]> (fx_threads st)) /\
  served_now (tick c st (Turn i)) = served_now st + 1 /\ work (tick c st (Turn i)) = work st - 1.
Proof.
  intros Hi Hs.
  assert (E : tick c st (Turn i) = mkFix s' (<[i := Serving]> (fx_threads st))).
  { cbn. rewrite Hi. cbn. by rewrite Hs. }
  rewrite E. unfold served_now, work; cbn [fx_threads].
  rewrite !(sum_of_insert _ _ _ _ _ Hi). cbn. split; [done|lia].
Qed.

Lemma tick_release st i :
  fx_threads st !! i = Some Serving ->
  tick c st (Turn i) = mkFix (release_slot (fx_engine st)) (<[i := Gone]> (fx_threads st)) /\
  work (tick c st (Turn i)) = work st - 1.
Proof.
  intros Hi.
  assert (E : tick c st (Turn i) = mkFix (release_slot (fx_engine st)) (<[i := Gone]> (fx_threads st)))
    by (cbn; by rewrite Hi).
  rewrite E. unfold work; cbn [fx_threads].
  rewrite !(sum_of_insert _ _ _ _ _ Hi). cbn. split; [done|lia].
Qed.

Lemma drain_step st :
  slots_ok st -> ~ stuck st -> 0 < in_progress st ->
  exists i, ~ stuck (tick c st (Turn i)) /\ work (tick c st (Turn i)) = work st - 1.
Proof.
  intros [H1 H2 H3 H4] Hn Hp. pose proof (served_now_nonneg st) as H0. unfold stuck in *.
  destruct (decide (served_now st < in_progress st)) as [Hl|Hl];
    destruct (start_turn_cases (fx_engine st)) as [(Ha&Hb&E)|[(Ha&Hb&E)|(Ha&Hb&E)]].
  1, 2: destruct (find_starting st Hl) as [i Hi]; exists i;
    destruct (tick_go st i _ Hi E) as (_ & Hs & Hw); split; [lia|done].
  all: destruct (find_serving st) as [i Hi]; [lia|]; exists i;
    destruct (tick_release st i Hi) as [Ht Hw]; split; [|done];
    rewrite Ht; cbn; lia.
Qed.

Lemma drains st :
  slots_ok st -> ~ stuck st -> exists l, in_progress (ticks c st (turns l)) = 0.
Proof.
  remember (Z.to_nat (work st)) as n eqn:E. revert st E.
  induction n as [|n IH]; intros st E H Hn.
  - exists []. cbn. pose proof (sum_of_nonneg busy (fx_threads st) busy_nonneg).
    assert (in_progress st <= work st) by (apply sum_of_le; by intros []).
    unfold in_progress in *. lia.
  - destruct (decide (0 < in_progress st)) as [Hp|Hp].
    + destruct (drain_step st H Hn Hp) as (i & Hs & Hw).
      destruct (IH (tick c st (Turn i))) as [l Hl]; [lia|by apply tick_slots|done|].
      by exists (i :: l).
    + exists []. cbn. pose proof (sum_of_nonneg busy (fx_threads st) busy_nonneg).
      unfold in_progress in *. lia.
Qed.

Lemma stuck_turn st i : stuck st -> tick c st (Turn i) = st.
Proof.
  intros (H1 & H2 & H3). cbn. destruct (fx_threads st !! i) as [t|] eqn:Hi; [|done].
  destruct t; cbn.
  - destruct (start_turn_cases (fx_engine st)) as [(?&?&E)|[(?&?&E)|(?&?&E)]]; [lia|lia|].
    rewrite E, list_insert_id by done. by destruct st.
  - pose proof (sum_of_elem in_service _ _ _ in_service_nonneg Hi) as Hs.
    unfold served_now in H3. cbn in Hs. lia.
  - rewrite list_insert_id by done. by destruct st.
Qed.

Lemma ticks_slots st l : slots_ok st -> slots_ok (ticks c st l).
Proof. revert st; induction l as [|e l IH]; intros st H; [done|]. by apply IH, tick_slots. Qed.

(** C35. The fixture can finish every request it holds, without another arrival, exactly
    when it is not stuck: from a state that is not, some order of turns ends all
    requests and frees every slot; from a stuck one no turn changes anything. *)
Theorem fixture_drains_unless_stuck st :
  fixture_reachable c st ->
  (~ stuck st -> exists l, let st' := ticks c st (turns l) in
     in_progress st' = 0 /\ es_running (fx_engine st') = 0 /\ es_waiting (fx_engine st') = 0) /\
  (stuck st -> forall l, ticks c st (turns l) = st).
Proof.
  intros Hr. destruct (reachable_slots st Hr) as [H _]. split.
  - intros Hn. destruct (drains st H Hn) as [l Hl]. exists l. cbv zeta.
    destruct (ticks_slots st (turns l) H) as [H1 H2 H3 H4].
    pose proof (served_now_nonneg (ticks c st (turns l))). lia.
  - intros Hs l. induction l as [|i l IH]; [done|]. cbn. fold (tick c st (Turn i)).
    change (ticks c (tick c st (Turn i)) (turns l) = st). by rewrite stuck_turn.
Qed.
End Slots.

(** ** The fixture can lock up *)

Definition one_slot : EngineCfg float := mkEngineCfg 1 (fdec 12 (-2)).

Lemma ticks_reachable {F} (c : EngineCfg F) st l :
  fixture_reachable c st -> fixture_reachable c (ticks c st l).
Proof. revert st; induction l as [|e l IH]; intros st H; [done|]. by apply IH, fix_tick. Qed.

(** A request that is served and gone, a second that waits for it, a third that arrives
    before the second has seen the free slot: the third has the slot but leaves its
    loop only when the queue is empty, the second leaves the queue only when a slot
    is free. *)
Definition lockup : list Tick :=
  [Arrive "p"; Turn 0; Arrive "q"; Turn 0; Arrive "r"].

Lemma fixture_can_lock_up :
  fixture_reachable one_slot (ticks one_slot fixture_init lockup) /\
  stuck one_slot (ticks one_slot fixture_init lockup).
Proof. split; [apply ticks_reachable, fix_start|by split_and!]. Qed.

Lemma fixture_within_capacity_witness :
  let st := ticks one_slot fixture_init [Arrive "p"; Turn 0; Arrive "p"] in
  served_now st = 1 /\ es_waiting (fx_engine st) = 1 /\
  es_running (fx_engine st) + es_waiting (fx_engine st) = in_progress st.
Proof.
  split_and!; [reflexivity|reflexivity|].
  apply (fixture_within_capacity one_slot); [done|apply ticks_reachable, fix_start].
Defined.

Lemma fixture_drains_unless_stuck_witness :
  exists l, in_progress (ticks one_slot
    (ticks one_slot fixture_init [Arrive "p"; Turn 0; Arrive "q"]) (turns l)) = 0.
Proof.
  destruct (fixture_drains_unless_stuck one_slot (ltac:(done))
    (ticks one_slot fixture_init [Arrive "p"; Turn 0; Arrive "q"])) as [H _];
    [apply ticks_reachable, fix_start|].
  destruct H as [l Hl]; [|exists l; apply Hl].
  intros (_ & _ & H). discriminate H.
Defined.

(** ** What the gateway scrapes *)

Section Telemetry.
Context {F : Type} {PF : PyFloat F}.

(** A number of the metrics page, as its digits before and after the point. *)
Definition decimal_text (v : list ascii * list ascii) : string := unchars (v.1 ++ frac_part v.2)%list.
Definition decimal_value (v : list ascii * list ascii) : F :=
  fdec (nat_of_digits (v.1 ++ v.2)) (0 - Z.of_nat (length v.2)).
Definition decimal_ok (v : list ascii * list ascii) : bool :=
  negb (Nat.eqb (length v.1) 0) && forallb is_decimal v.1 && forallb is_decimal v.2.

Definition model_label (model : string) : list ascii :=
  (chars "model_name=" ++ chars dquote ++ chars model ++ chars dquote)%list.

(** A gauge line as a sample of the exposition format; [tail] is the name without its
    first letter. *)
Definition gauge_sample (tail model : string) (v : list ascii * list ascii) : Sample :=
  mkSample "v" (chars tail) (Some (model_label model)) v.1 v.2.

Lemma gauge_line tail model v :
  chars ("v" ++ tail ++ "{model_name=" ++ dquote ++ model ++ dquote ++ "} " ++ decimal_text v)
  = sp_render (gauge_sample tail model v).
Proof.
  unfold sp_render, gauge_sample, model_label, decimal_text; cbn [sp_head sp_tail sp_labels sp_int sp_frac].
  rewrite !chars_app, String.list_ascii_of_string_of_list_ascii. cbn [app].
  rewrite <- !app_assoc. done.
Qed.

(** A type line and a sample, read from the front of a page. *)
Lemma read_gauge comment p rest out :
  forallb (fun c => negb (is_linebreak c)) comment = true ->
  parse_line out (unchars comment) = out -> sp_ok p = true ->
  foldl parse_line out
    (splitlines_from [] (unchars (comment ++ "010"%char :: sp_render p ++ "010"%char :: rest)%list))
  = foldl parse_line (dset (sp_name p) (sp_value p) out) (splitlines_from [] (unchars rest)).
Proof.
  intros Hc Hp Hok. rewrite splitlines_line by done. cbn [rev app foldl]. rewrite Hp.
  rewrite splitlines_line by (by apply sp_render_no_linebreak). cbn [rev app foldl].
  by rewrite parse_line_render.
Qed.

Lemma gauge_ok tail model v :
  forallb is_name_char (chars tail) = true -> forallb label_char (chars model) = true ->
  decimal_ok v = true -> sp_ok (gauge_sample tail model v) = true.
Proof.
  intros Ht Hm Hv. unfold decimal_ok in Hv. bool_hyps.
  unfold sp_ok, gauge_sample; cbn [sp_head sp_tail sp_labels sp_int sp_frac].
  rewrite Ht, H0, H1. unfold model_label. rewrite !forallb_app, Hm. by rewrite H.
Qed.

Lemma page_step comment tail model v x rest out :
  forallb (fun c => negb (is_linebreak c)) (chars comment) = true ->
  parse_line out comment = out ->
  forallb is_name_char (chars tail) = true -> forallb label_char (chars model) = true ->
  decimal_ok v = true ->
  foldl parse_line out (splitlines_from []
    (join newline (comment ::
       ("v" ++ tail ++ "{model_name=" ++ dquote ++ model ++ dquote ++ "} " ++ decimal_text v)
       :: x :: rest)))
  = foldl parse_line (dset ("v" ++ tail) (decimal_value v) out)
      (splitlines_from [] (join newline (x :: rest))).
Proof.
  intros Hc Hp Ht Hm Hv. pose proof (gauge_ok tail model v Ht Hm Hv) as Hok.
  pose proof (gauge_line tail model v) as Hg. revert Hg.
  generalize ("v" ++ tail ++ "{model_name=" ++ dquote ++ model ++ dquote ++ "} " ++ decimal_text v).
  intros g Hg. rewrite !join_cons2, <- (unchars_chars (comment ++ _)), !chars_app, Hg.
  change (chars newline) with ["010"%char]. cbn [app].
  rewrite <- (unchars_chars comment) in Hp.
  rewrite (read_gauge (chars comment) (gauge_sample tail model v)) by done.
  rewrite unchars_chars. unfold sp_name, sp_value, gauge_sample; cbn [sp_head sp_tail sp_int sp_frac].
  change (unchars ("v"%char :: chars tail)) with (String "v" (unchars (chars tail))).
  by rewrite unchars_chars.
Qed.

Definition type_lines : list string :=
  ["# TYPE vllm:num_requests_running gauge"; "# TYPE vllm:num_requests_waiting gauge";
   "# TYPE vllm:gpu_cache_usage_perc gauge"; "# TYPE vllm:prefix_cache_hits counter";
   "# TYPE vllm:prefix_cache_queries counter"].

Lemma type_line_plain line :
  line ∈ type_lines -> forallb (fun c => negb (is_linebreak c)) (chars line) = true.
Proof. intros H. in_cases H; by subst. Qed.

Lemma type_line_ignored (out : list (string * F)) line :
  line ∈ type_lines -> parse_line out line = out.
Proof. intros H. in_cases H; by subst. Qed.

(** Reads the type line and the sample of one gauge. *)
Ltac gauge_step tail :=
  eapply eq_trans;
    [refine (page_step _ tail _ _ _ _ _ _ _ eq_refl _ _);
     [apply type_line_plain|apply type_line_ignored|done|done]; unfold type_lines; set_solver|].

(** The gateway reads the fixture as it is: from a metrics page whose figures are
    decimal numbers, the snapshot has the running and waiting counts and the KV usage
    of the page, and the prefix hit rate is the ratio of its two counters. *)
Theorem fixture_scraped model running waiting kv hits queries now :
  forallb label_char (chars model) = true ->
  decimal_ok running = true -> decimal_ok waiting = true -> decimal_ok kv = true ->
  decimal_ok hits = true -> decimal_ok queries = true ->
  let snap := snapshot_from_metrics now (parse_prometheus_text
    (metrics_text model (decimal_text running) (decimal_text waiting) (decimal_text kv)
       (decimal_text hits) (decimal_text queries))) in
  num_running snap = py_max f0 (decimal_value running) /\
  num_waiting snap = py_max f0 (decimal_value waiting) /\
  kv_cache_usage snap = unit_clamp (decimal_value kv) /\
  prefix_hit_rate snap = (if flt f0 (decimal_value queries)
    then unit_clamp (fdiv (decimal_value hits) (decimal_value queries)) else f0) /\
  snap_ok snap = true.
Proof.
  intros Hm Hr Hw Hk Hh Hq.
  assert (E : parse_prometheus_text (metrics_text model (decimal_text running)
      (decimal_text waiting) (decimal_text kv) (decimal_text hits) (decimal_text queries))
    = [("vllm:num_requests_running", decimal_value running);
       ("vllm:num_requests_waiting", decimal_value waiting);
       ("vllm:gpu_cache_usage_perc", decimal_value kv);
       ("vllm:prefix_cache_hits", decimal_value hits);
       ("vllm:prefix_cache_queries", decimal_value queries)]).
  { unfold parse_prometheus_text, splitlines, metrics_text, gauge. cbn [app].
    gauge_step "llm:num_requests_running". gauge_step "llm:num_requests_waiting".
    gauge_step "llm:gpu_cache_usage_perc". gauge_step "llm:prefix_cache_hits".
    gauge_step "llm:prefix_cache_queries". reflexivity. }
  rewrite E. by split_and!.
Qed.
End Telemetry.

Lemma fixture_scraped_witness :
  let d n f : list ascii * list ascii := (chars n, chars f) in
  let snap := snapshot_from_metrics (fint 0) (parse_prometheus_text
    (metrics_text "m" (decimal_text (d "3" "0")) (decimal_text (d "1" "0"))
       (decimal_text (d "0" "360000")) (decimal_text (d "1" "0")) (decimal_text (d "4" "0")))) in
  num_running snap = (fint 3 : float) /\ prefix_hit_rate snap = fdec 25 (-2).
Proof.
  cbv zeta.
  destruct (fixture_scraped (F:=float) "m" (chars "3", chars "0") (chars "1", chars "0")
    (chars "0", chars "360000") (chars "1", chars "0") (chars "4", chars "0") (fint 0)
    eq_refl eq_refl eq_refl eq_refl eq_refl eq_refl) as (-> & _ & _ & -> & _).
  split; reflexivity.
Defined.
