(* ===== verification/SwarmClient.v ===== *)
(** One agent of a swarm: [dio-serve/examples/swarm_client.py].  It talks to the gateway over
    the OpenAI or the Ollama protocol, plain or streamed, and reports one session.  What the
    gateway answers, and how long it takes, is a parameter. *)

From S2P Require Import Prelude PyFloat PyStats PyStr PyDict Json Backends Routes Mcp OllamaStream.
From S2P Require Import LoadClients Worker Swarm.
From S2P Require Import Requests JsonFacts MockBackend StreamProps.

Definition PERSONAS : list (string * (string * list string)) :=
  [("coding",
    (("You are a senior Python engineer working inside a large monorepo. Prefer small " ++
      "diffs, state the risk of each change, never invent APIs you have not verified, and " ++
      "say when you are unsure. Keep answers under 120 words.")%string,
     ["Refactor the retry path in the gateway proxy so the failure modes are explicit.";
      "Write a regression test for a stream that dies mid-flight.";
      "Why does feeding backend total_tokens into an NLMS learner skew the slope?";
      "Review the last diff for TOCTOU issues and say what you would change.";
      "Add type hints to the scheduler pick() signature and justify each one.";
      "What breaks if a backend returns 200 with an empty choices list?"]));
   ("triage",
    (("You are an on-call SRE. Triage fast, rank by blast radius, and always give one " ++
      "concrete next command. Never speculate without labelling it a guess.")%string,
     ["p99 latency doubled ten minutes ago and error budget burn is flat. Go.";
      "One GPU is at 100% KV cache while its peer idles. What do you check first?";
      "A client retried into 503s for a minute. Which header was lying, and why?";
      "The learner's slope for one worker drifted up 3x overnight. Investigate.";
      "Traffic shifted to the slowest worker after a restart. Hypothesise.";
      "Is it the engine, the network, or the router? Give a decision procedure."]));
   ("summarize",
    (("You are a technical writer. Compress without losing the constraint that matters. " ++
      "Prefer concrete nouns and numbers over adjectives.")%string,
     ["Summarise why session affinity matters for KV-cache reuse.";
      "Explain the difference between goodput and throughput in one paragraph.";
      "Describe prefix caching to a new engineer using one analogy.";
      "Summarise what an adaptive router can and cannot fix.";
      "Explain why round-robin is a poor default for heterogeneous GPUs.";
      "Write the release note for a router that learns per-engine latency."]));
   ("burst",
    (("You are a load generator with a job to do. Answer briefly but completely, and do " ++
      "not refuse the request. Follow the requested format exactly.")%string,
     ["Enumerate every failure mode of an HTTP proxy in front of an LLM engine.";
      "List the metrics you would scrape from vLLM every five seconds, and why.";
      "Write the incident timeline template you would use for a GPU fleet.";
      "Describe the load profile of a coding assistant at 9am on a Monday.";
      "Enumerate the ways a KV cache can be wasted, one line each.";
      "List the arguments for and against per-request versus per-session routing."]))].

Section SwarmClient.
Context {F : Type} {PF : PyFloat F} {PM : PyFmean F}.
Local Open Scope float_scope.
Local Abbreviation json := (json F).

(** ** One request *)

(** What comes of a turn: the text and the engine, [Rejected], an [httpx.HTTPError], or an
    exception nobody catches. *)
Inductive TurnOut : Type :=
| Answer (text : json) (backend : option string)
| Rejected (status : Z)
| Transport
| Uncaught (e : PyExc).

Definition or_uncaught (r : result PyExc TurnOut) : TurnOut :=
  match r with Ok x => x | Err e => Uncaught e end.

(** A response: its status, its [X-DIO-Backend], its body when that is JSON. *)
Inductive PlainReply : Type :=
| PlainFailed
| PlainAnswered (status : Z) (backend : option string) (parsed : option json).

Definition parsed_or_raise (parsed : option json) : result PyExc json :=
  match parsed with Some v => Ok v | None => Err (ValueError "json") end.
(** [(v.get("message") or {}).get("content")]. *)
Definition message_content (v : json) : result PyExc json :=
  m ← jget "message" v; jget "content" (jor m (JDict [])).
(** [(data.get("choices") or [{}])[0]]. *)
Definition choice_or_empty (data : json) : result PyExc json :=
  choices ← jget "choices" data; first_choice (jor choices (JList [JDict []])).

Definition plain_turn (text : json -> result PyExc json) (r : PlainReply) : TurnOut :=
  match r with
  | PlainFailed => Transport
  | PlainAnswered status backend parsed =>
    if (400 <=? status)%Z then Rejected status
    else or_uncaught (data ← parsed_or_raise parsed;
                      c ← text data; Ok (Answer (jor c (JStr "")) backend))
  end.
(** [_openai_json], and [_ollama_chat] without a stream. *)
Definition openai_json : PlainReply -> TurnOut :=
  plain_turn (fun data => c ← choice_or_empty data; message_content c).
Definition ollama_plain : PlainReply -> TurnOut := plain_turn message_content.

(** *** Streams *)

(** What a line does to the loop. *)
Inductive LineOut : Type :=
| LineSkip
| LineStop
| LineChunk (text : json)
| LineRejected
| LineRaised (e : PyExc).

Definition frame_error (frame : json) : bool :=
  match frame with JDict d => truthy (bget "error" d) | _ => false end.
Definition frame_done (frame : json) : bool :=
  match frame with JDict d => truthy (bget "done" d) | _ => false end.
Definition chunk_line (r : result PyExc json) : LineOut :=
  match r with
  | Ok v => if truthy v then LineChunk v else LineSkip
  | Err e => LineRaised e
  end.

(** A line of an OpenAI stream, and of an Ollama one. *)
Definition sse_line (line : string) : LineOut :=
  if negb (startswith "data:" line) then LineSkip
  else
    let payload := strip (str_drop 5 line) in
    if str_eqb payload "[DONE]" then LineStop
    else
      match loads payload with
      | None => LineSkip
      | Some frame =>
        if frame_error frame then LineRejected
        else chunk_line (c ← choice_or_empty frame; d ← jget "delta" c;
                         jget "content" (jor d (JDict [])))
      end.
Definition ndjson_line (line : string) : LineOut :=
  let line := strip line in
  if negb (str_truth line) then LineSkip
  else
    match loads line with
    | None => LineSkip
    | Some frame =>
      if frame_error frame then LineRejected
      else if frame_done frame then LineStop
      else chunk_line (message_content frame)
    end.

(** The loop over the lines; [broken] tells whether the connection fails after the last. *)
Fixpoint read_stream (line_of : string -> LineOut) (lines : list string) (broken : bool)
    (chunks : list json) (backend : option string) : TurnOut :=
  let finish := or_uncaught (text ← join_chunks chunks; Ok (Answer (JStr text) backend)) in
  match lines with
  | [] => if broken then Transport else finish
  | line :: rest =>
    match line_of line with
    | LineSkip => read_stream line_of rest broken chunks backend
    | LineStop => finish
    | LineChunk v => read_stream line_of rest broken (chunks ++ [v])%list backend
    | LineRejected => Rejected 200
    | LineRaised e => Uncaught e
    end
  end.
Inductive StreamedReply : Type :=
| StreamFailed
| StreamAnswered (status : Z) (backend : option string) (lines : list string) (broken : bool).
Definition stream_turn (line_of : string -> LineOut) (r : StreamedReply) : TurnOut :=
  match r with
  | StreamFailed => Transport
  | StreamAnswered status backend lines broken =>
    if (400 <=? status)%Z then Rejected status else read_stream line_of lines broken [] backend
  end.
(** [_openai_stream], and [_ollama_chat] with one. *)
Definition openai_stream : StreamedReply -> TurnOut := stream_turn sse_line.
Definition ollama_stream : StreamedReply -> TurnOut := stream_turn ndjson_line.

(** *** The choice of protocol *)

Definition client_request (ollama stream : bool) (model : string) (history : list json) :
    string * list (string * json) :=
  if ollama then ("/api/chat", [("model", JStr model); ("messages", JList history);
                                ("stream", JBool stream)])
  else ("/v1/chat/completions",
        ([("model", JStr model); ("messages", JList history); ("max_tokens", JInt 48)] ++
         if stream then [("stream", JBool true)] else [])%list).
Definition client_turn (ollama stream : bool) (plain : PlainReply) (streamed : StreamedReply) : TurnOut :=
  if stream then (if ollama then ollama_stream else openai_stream) streamed
  else (if ollama then ollama_plain else openai_json) plain.
(** The default of [--stream]. *)
Definition stream_default (ollama : bool) (given : option bool) : bool := default ollama given.

(** ** [run_session] *)

Record ClientState : Type := mkClientState {
  cs_history : list json;
  cs_latencies : list F;
  cs_engines : list string;
  cs_errors : Z;
  cs_rejected : Z;
  cs_sample : string
}.

Definition client_system (persona agent session : string) : json :=
  chat_message "system" (persona ++ newline ++ "[agent-" ++ agent ++ " session " ++ session ++ "]").
Definition client_user (prompts : list string) (turn : nat) : json :=
  chat_message "user" (cycle prompts turn ++ " (turn " ++ str_of_Z (Z.of_nat turn) ++ ")").
Definition client_start (persona agent session : string) : ClientState :=
  mkClientState [client_system persona agent session] [] [] 0 0 "".

(** After the answer to a turn whose question is the last of [h]: a turn that failed on the way
    gets no assistant message. *)
Definition client_answer (h : list json) (out : TurnOut) (ms : F) (s : ClientState) :
    result PyExc ClientState :=
  match out with
  | Rejected status =>
    let busy := (status =? 503)%Z in
    Ok (mkClientState (h ++ [chat_message "assistant" "(rejected)"]) (cs_latencies s) (cs_engines s)
          (if busy then cs_errors s else cs_errors s + 1)
          (if busy then cs_rejected s + 1 else cs_rejected s) (cs_sample s))
  | Transport =>
    Ok (mkClientState h (cs_latencies s) (cs_engines s) (cs_errors s + 1) (cs_rejected s) (cs_sample s))
  | Answer (JStr text) backend =>
    Ok (mkClientState (h ++ [chat_message "assistant" (str_take 200 text)])
          (cs_latencies s ++ [ms]) (cs_engines s ++ [header_or "?" backend])
          (cs_errors s) (cs_rejected s) (str_take 80 (strip text)))
  | Answer _ _ => Err AttributeError
  | Uncaught e => Err e
  end.
(** A turn; [gateway] gives what comes of the request with a history, and the milliseconds. *)
Variable gateway : nat -> list json -> TurnOut * F.
Definition client_step (prompts : list string) (turn : nat) (s : ClientState) :
    result PyExc ClientState :=
  let h := (cs_history s ++ [client_user prompts turn])%list in
  let '(out, ms) := gateway turn h in client_answer h out ms s.
Fixpoint client_turns (prompts : list string) (turns : list nat) (s : ClientState) :
    result PyExc ClientState :=
  match turns with
  | [] => Ok s
  | t :: rest => s' ← client_step prompts t s; client_turns prompts rest s'
  end.

Record ClientSummary : Type := mkClientSummary {
  cy_ok : Z;
  cy_errors : Z;
  cy_rejected : Z;
  cy_switches : Z;
  cy_engines : list string;
  cy_p50 : F;
  cy_p95 : F;
  cy_mean : F;
  cy_engine_share : list (string * Z);
  cy_sample : string
}.
Definition client_summary (s : ClientState) : ClientSummary :=
  mkClientSummary (Z.of_nat (length (cs_latencies s))) (cs_errors s) (cs_rejected s)
    (changes (cs_engines s)) (cs_engines s)
    (py_round 1 (percentile_demo (cs_latencies s) (fint 50)))
    (py_round 1 (percentile_demo (cs_latencies s) (fint 95)))
    (match cs_latencies s with [] => f0 | l => py_round 1 (fmean l) end)
    (map (fun e => (e, Z.of_nat (length (filter (fun x => x = e) (cs_engines s)))))
       (ssorted (remove_dups (cs_engines s)))) (cs_sample s).
(** [None] for a persona that does not exist. *)
Definition run_session (persona agent session : string) (turns : nat) :
    option (result PyExc ClientSummary) :=
  p ← dget persona PERSONAS;
  Some (s ← client_turns p.2 (seq 0 turns) (client_start p.1 agent session); Ok (client_summary s)).
End SwarmClient.

(** ** What an agent reads, and what becomes of its turns *)

(** ** The lines of a stream *)

Section Lines.
Context {F : Type} {PF : PyFloat F}.
Local Abbreviation json := (json F).
Implicit Types (v : json) (vs : list json) (d : list (string * json)).

Lemma no_newline_in_line (prefix : string) v :
  forallb printable_ascii (chars prefix) = true -> has_char "010" (prefix ++ dumps v) = false.
Proof.
  intros H. apply printable_no_newline. by rewrite chars_app, forallb_app, H, printable_dumps.
Qed.

(** The text of events, and of Ollama lines, cut at its line ends. *)
Lemma sse_lines vs s :
  split "010" (join "" (map sse vs) ++ s) =
  (flat_map (fun v => [("data: " ++ dumps v)%string; ""]) vs ++ split "010" s)%list.
Proof.
  induction vs as [|v vs IH]; [done|]. cbn [map flat_map app]. rewrite join_cons. unfold sse at 1.
  rewrite <- !str_app_assoc, (str_app_assoc "data: ").
  change (newline ++ newline ++ join "" (map sse vs) ++ s)
    with (String "010" (String "010" (join "" (map sse vs) ++ s))).
  rewrite split_line by by apply no_newline_in_line. f_equal.
  change (String "010" ?x) with ("" ++ String "010" x).
  rewrite split_line by done. by f_equal.
Qed.
Lemma ndjson_lines vs :
  split "010" (join "" (map ndjson vs)) = (map dumps vs ++ [""])%list.
Proof.
  induction vs as [|v vs IH]; [done|]. cbn [map app]. rewrite join_cons. unfold ndjson at 1.
  rewrite <- str_app_assoc.
  change (newline ++ join "" (map ndjson vs)) with (String "010" (join "" (map ndjson vs))).
  rewrite split_line, IH; [done|]. by apply (no_newline_in_line "").
Qed.

(** A line that carries an event is read as the event. *)
Definition sse_event v : LineOut :=
  if frame_error v then LineRejected
  else chunk_line (c ← choice_or_empty v; d ← jget "delta" c; jget "content" (jor d (JDict []))).
Definition ndjson_event v : LineOut :=
  if frame_error v then LineRejected
  else if frame_done v then LineStop else chunk_line (message_content v).

Lemma sse_line_event d : jplain (JDict d) = true ->
  sse_line ("data: " ++ dumps (JDict d)) = sse_event (JDict d).
Proof.
  intros Hp. unfold sse_line. change (startswith "data:" ("data: " ++ ?x)) with true. cbn [negb].
  change (str_drop 5 ("data: " ++ dumps (JDict d))) with (" " ++ dumps (JDict d)).
  destruct (event_line d) as (_ & -> & _ & _). by rewrite not_done_marker, (loads_dumps (JDict d) Hp).
Qed.
Lemma ndjson_line_event d : jplain (JDict d) = true -> ndjson_line (dumps (JDict d)) = ndjson_event (JDict d).
Proof.
  intros Hp. unfold ndjson_line. destruct (event_line d) as (_ & _ & Hs & m & Hm).
  rewrite Hs, (loads_dumps (JDict d) Hp).
  destruct (dumps (JDict d)) as [|c s]; [by apply (f_equal length) in Hm|done].
Qed.

(** Reading on after lines that each give text or nothing. *)
Definition line_chunks (line_of : string -> LineOut (F:=F)) (lines : list string) : list json :=
  omap (fun l => match line_of l with LineChunk v => Some v | _ => None end) lines.
Definition quiet_line (o : LineOut (F:=F)) : Prop :=
  match o with LineSkip | LineChunk _ => True | _ => False end.

Lemma read_stream_app line_of ls rest broken chunks backend :
  Forall (fun l => quiet_line (line_of l)) ls ->
  read_stream line_of (ls ++ rest) broken chunks backend =
  read_stream line_of rest broken (chunks ++ line_chunks line_of ls) backend.
Proof.
  intros H. revert chunks. induction H as [|l ls Hl _ IH]; intros chunks.
  - by rewrite app_nil_r.
  - unfold line_chunks. cbn [app read_stream omap list_omap]. unfold quiet_line in Hl.
    destruct (line_of l) as [| |v| |]; try done; rewrite IH; try done. by rewrite <- app_assoc.
Qed.

Lemma join_chunks_strings (ws : list string) : join_chunks (map JStr ws : list json) = Ok (join "" ws).
Proof. induction ws as [|w ws IH]; [done|]. cbn [map join_chunks]. by rewrite IH, join_cons. Qed.

(** Pieces of text that are not empty, and their text. *)
Definition pieces (ws : list string) : list string := filter (fun w => str_truth w = true) ws.
Lemma join_pieces ws : join "" (pieces ws) = join "" ws.
Proof.
  unfold pieces. induction ws as [|w ws IH]; [done|]. rewrite filter_cons, join_cons.
  destruct w as [|c w].
  - rewrite decide_False by done. exact IH.
  - rewrite decide_True by done. by rewrite join_cons, IH.
Qed.
End Lines.

(** ** The mock engine behind the client *)

Section MockClient.
Context {F : Type} {PF : PyFloat F}.
Variables (name : string) (now_ms : Z).
Implicit Types (b : list (string * json F)) (ws : list string) (t : TState F).

Local Abbreviation word_event cid object model := (fun w =>
  mock_event (F:=F) now_ms cid object model [chat_choice [("content", JStr w)] JNull] None).

(** The events of the words give the words that are not empty. *)
Lemma word_lines cid object model ws : jplain model = true ->
  let ls := flat_map (fun v => [("data: " ++ dumps v)%string; ""]) (map (word_event cid object model) ws) in
  Forall (fun l => quiet_line (sse_line (F:=F) l)) ls /\
  line_chunks sse_line ls = map JStr (pieces ws).
Proof.
  intros Hm. cbn zeta. unfold pieces. induction ws as [|w ws [IHq IHc]]; [done|].
  assert (Hl : sse_line (F:=F) ("data: " ++ dumps (word_event cid object model w)) =
               if str_truth w then LineChunk (JStr w) else LineSkip).
  { pose proof (plain_mock_event now_ms cid object model [chat_choice [("content", JStr w)] JNull]
                  None Hm eq_refl I) as Hp.
    unfold mock_event in *. rewrite sse_line_event by exact Hp. by destruct w. }
  cbn [map flat_map app]. unfold line_chunks in *. cbn [omap list_omap]. rewrite Hl, filter_cons.
  split.
  - repeat constructor; [|exact IHq]. rewrite Hl. by destruct w.
  - destruct w as [|c w]; cbn [str_truth].
    + rewrite decide_False by done. exact IHc.
    + rewrite decide_True by done. cbn [map]. f_equal. exact IHc.
Qed.

(** An event that carries no text is passed over. *)
Lemma silent_event (choices : list (json F)) cid object model usage :
  jplain model = true -> jplain (JList choices) = true ->
  match usage with Some u => jplain u = true | None => True end ->
  sse_event (mock_event now_ms cid object model choices usage) = LineSkip ->
  let ls := [("data: " ++ dumps (mock_event now_ms cid object model choices usage))%string; ""] in
  Forall (fun l => quiet_line (sse_line (F:=F) l)) ls /\ line_chunks (F:=F) sse_line ls = [].
Proof.
  intros Hm Hc Hu E. pose proof (plain_mock_event now_ms cid object model choices usage Hm Hc Hu) as Hp.
  unfold mock_event in *. cbn zeta. unfold line_chunks. cbn [omap list_omap].
  rewrite sse_line_event, E by exact Hp. split; [|done].
  repeat constructor. by rewrite sse_line_event, E by exact Hp.
Qed.

Lemma line_chunks_app (line_of : string -> LineOut (F:=F)) (l1 l2 : list string) :
  line_chunks line_of (l1 ++ l2) = (line_chunks line_of l1 ++ line_chunks line_of l2)%list.
Proof. unfold line_chunks. apply omap_app. Qed.
Lemma line_chunks_cons2 (line_of : string -> LineOut (F:=F)) (l1 l2 : string) (l : list string) :
  line_chunks line_of [l1; l2] = [] -> line_chunks line_of (l1 :: l2 :: l) = line_chunks line_of l.
Proof. intros H. change (l1 :: l2 :: l) with ([l1; l2] ++ l)%list. by rewrite line_chunks_app, H. Qed.

(** All events of a stream: the lines are quiet, and give the words. *)
Lemma stream_lines b content n u : jplain (mock_model b) = true -> include_usage b = Ok u ->
  let s := mock_chat_stream name now_ms b content n in
  let ls := flat_map (fun v => [("data: " ++ dumps v)%string; ""]) s.1 in
  s.2 = true /\ Forall (fun l => quiet_line (sse_line (F:=F) l)) ls /\
  line_chunks sse_line ls = map JStr (pieces (spaced (py_take n (split " " (mock_chat_text name content))))).
Proof.
  intros Hm Hu. unfold mock_chat_stream, mock_tail. rewrite Hu. cbn zeta.
  set (ws := spaced _). set (cid := ("chatcmpl-mock-" ++ str_of_Z now_ms)%string).
  destruct (word_lines cid "chat.completion.chunk" (mock_model b) ws Hm) as [Hwq Hwc].
  edestruct (silent_event [chat_choice [("role", JStr "assistant"); ("content", JStr "")] JNull] cid
    "chat.completion.chunk" (mock_model b) None Hm) as [Hiq Hic]; [reflexivity|exact I|reflexivity|].
  set (stop_choice := chat_choice [] (JStr (mock_finish (mock_chat_text name content) n))).
  edestruct (silent_event [stop_choice] cid
    "chat.completion.chunk" (mock_model b) None Hm) as [Hsq Hsc]; [reflexivity|exact I|reflexivity|].
  set (usage := usage_json _ _).
  edestruct (silent_event [] cid "chat.completion.chunk" (mock_model b) (Some usage) Hm)
    as [Huq Huc]; [reflexivity|reflexivity|reflexivity|].
  destruct u; (split; [done|]); cbn [fst]; cbn [flat_map]; rewrite flat_map_app; cbn [flat_map app];
    rewrite ?app_nil_r.
  - split.
    + apply (Forall_app_2 _ [_; _] _ Hiq). apply Forall_app_2; [exact Hwq|].
      exact (Forall_app_2 _ [_; _] [_; _] Hsq Huq).
    + rewrite line_chunks_cons2 by exact Hic. rewrite line_chunks_app, Hwc.
      rewrite line_chunks_cons2 by exact Hsc. rewrite Huc. apply app_nil_r.
  - split.
    + apply (Forall_app_2 _ [_; _] _ Hiq). by apply Forall_app_2.
    + rewrite line_chunks_cons2 by exact Hic. rewrite line_chunks_app, Hwc, Hsc. apply app_nil_r.
Qed.

(** The agent reads the same text from the engine's streamed answer as from its plain one,
    whether it asked for the usage or not. *)
Lemma client_streamed_equals_plain b content n u backend cid object :
  0 <= n -> jplain (mock_model b) = true -> include_usage b = Ok u ->
  openai_stream (StreamAnswered 200 backend
    (split "010" (mock_wire (mock_chat_stream name now_ms b content n))) false) =
  openai_json (PlainAnswered 200 backend (Some (mock_reply now_ms cid object (mock_model b)
    (fun text finish => JDict [("index", JInt 0);
       ("message", JDict [("role", JStr "assistant"); ("content", JStr text)]);
       ("finish_reason", finish)])
    (mock_chat_text name content) (mock_tokens_in content) n))).
Proof.
  intros Hn Hm Hu. destruct (stream_lines b content n u Hm Hu) as (Hf & Hq & Hc).
  unfold mock_wire. rewrite Hf, sse_lines.
  unfold openai_stream, stream_turn. cbn [Z.leb]. change (400 <=? 200) with false. cbn iota.
  rewrite read_stream_app by exact Hq. cbn [app]. rewrite Hc.
  change (split "010" sse_done) with ["data: [DONE]"; ""; ""]. cbn [read_stream].
  change (sse_line (F:=F) "data: [DONE]") with (LineStop (F:=F)). cbn iota.
  rewrite join_chunks_strings, join_pieces, join_spaced.
  destruct (words_joined (mock_chat_text name content) n Hn) as [Hw _].
  unfold mock_reply. rewrite Hw. by destruct (join " " _).
Qed.
End MockClient.

(** ** Through the gateway's translation *)

Section Translated.
Context {F : Type} {PF : PyFloat F}.
Variables (model_name : json F) (now_iso : string) (name : string) (now_ms : Z).
Hypothesis model_plain : jplain model_name = true.
Implicit Types (b : list (string * json F)) (ws : list string) (t : TState F).

Local Abbreviation line w := (chat_line model_name now_iso (JStr w) None).
Local Abbreviation after := (after_events model_name true now_iso).

Lemma translated_word cid object model w t :
  let t' := (handle_chunk model_name true now_iso (mock_event now_ms cid object model
               [chat_choice [("content", JStr w)] JNull] None) t).1 in
  t_lines t' = (t_lines t ++ map (fun w => line w) (pieces [w]))%list /\
  t_tool_calls t' = t_tool_calls t.
Proof.
  unfold pieces. rewrite filter_cons. destruct w as [|c w].
  - rewrite decide_False by done. cbn [map filter list_filter]. by rewrite app_nil_r.
  - by rewrite decide_True by done.
Qed.
Lemma pieces_cons w ws : pieces (w :: ws) = (pieces [w] ++ pieces ws)%list.
Proof. exact (filter_app _ [w] ws). Qed.
Lemma translated_words cid object model ws t :
  let t' := after (map (fun w => mock_event now_ms cid object model
               [chat_choice [("content", JStr w)] JNull] None) ws) t in
  t_lines t' = (t_lines t ++ map (fun w => line w) (pieces ws))%list /\
  t_tool_calls t' = t_tool_calls t.
Proof.
  cbn zeta. revert t. induction ws as [|w ws IH]; intros t; [by rewrite app_nil_r|].
  cbn [map after_events foldl]. destruct (translated_word cid object model w t) as [Hl Hc].
  specialize (IH (handle_chunk model_name true now_iso (mock_event now_ms cid object model
               [chat_choice [("content", JStr w)] JNull] None) t).1) as [IHl IHc].
  unfold after_events in IHl, IHc. rewrite IHl, IHc, Hl, Hc. split; [|done].
  by rewrite (pieces_cons w ws), map_app, <- app_assoc.
Qed.

(** What the client reads of the translation's lines. *)
Lemma plain_line w : jplain (line w) = true.
Proof. unfold chat_line. cbn. by rewrite model_plain. Qed.
Lemma translated_line w : w <> "" -> ndjson_line (dumps (line w)) = LineChunk (JStr w).
Proof.
  intros Hw. pose proof (plain_line w) as Hp. unfold chat_line in *.
  rewrite ndjson_line_event by exact Hp. by destruct w.
Qed.
Lemma translated_lines ws :
  let ls := map dumps (map (fun w => line w) (pieces ws)) in
  Forall (fun l => quiet_line (ndjson_line (F:=F) l)) ls /\
  line_chunks ndjson_line ls = map JStr (pieces ws).
Proof.
  cbn zeta. assert (Hne : Forall (fun w => w <> "") (pieces ws)).
  { apply Forall_forall. intros w [H _]%list_elem_of_filter. by destruct w. }
  induction Hne as [|w l Hw _ [IHq IHc]]; [done|]. cbn [map]. unfold line_chunks in *.
  cbn [omap list_omap]. rewrite translated_line by done. split; [|by f_equal].
  constructor; [by rewrite translated_line|exact IHq].
Qed.

(** The last line ends the client's loop. *)
Lemma final_line n e2e t : t_tool_calls t = [] ->
  ndjson_line (dumps (final_chunk model_name true now_iso n e2e t)) = LineStop.
Proof.
  intros Hc. assert (Hp : jplain (final_chunk model_name true now_iso n e2e t) = true).
  { unfold final_chunk. rewrite Hc. cbn. by rewrite model_plain. }
  unfold final_chunk in *. cbn [app] in *. rewrite ndjson_line_event by exact Hp. done.
Qed.

(** C34. End to end: the engine's streamed answer, cut in any way on the wire, translated by the
    gateway into Ollama lines, is read by the agent as the text of the plain answer. *)
Theorem agent_reads_engine_text b content n chunks prompt_only e2e backend :
  0 <= n -> jplain (mock_model b) = true -> include_usage b = Ok true ->
  join "" chunks = mock_wire (mock_chat_stream name now_ms b content n) ->
  let t := (feed_all model_name true now_iso t_init chunks).1 in
  let sent := join "" (map ndjson (t_lines t ++ [final_chunk model_name true now_iso prompt_only e2e t])) in
  let text := mock_chat_text name content in
  ollama_stream (StreamAnswered 200 backend (split "010" sent) false) =
  Answer (JStr (if mock_truncated text n then join " " (py_take n (split " " text)) else text)) backend.
Proof.
  intros Hn Hm Hu E. cbv zeta. set (t := (feed_all _ _ _ _ _).1). set (text := mock_chat_text name content).
  set (ws := spaced (py_take n (split " " text))).
  assert (Ht : t_lines t = map (fun w => line w) (pieces ws) /\ t_tool_calls t = []).
  { pose proof (mock_events_plain name now_ms b content n true Hm Hu) as Hpl.
    unfold mock_wire, mock_chat_stream, mock_tail in E, Hpl. rewrite Hu in E, Hpl.
    cbv zeta in E, Hpl. cbn [fst snd] in E, Hpl. fold text in E, Hpl. fold ws in E, Hpl.
    destruct (events_fold model_name true now_iso _ chunks Hpl E) as [_ Hv]. fold t in Hv.
    assert (Hl : forall t1 t2 : TState F, visible t1 = visible t2 ->
              t_lines t1 = t_lines t2 /\ t_tool_calls t1 = t_tool_calls t2).
    { intros [] []. unfold visible, set_buffer. cbn. by intros [= -> -> -> -> -> ->]. }
    destruct (Hl _ _ Hv) as [-> ->]. unfold after_events. cbn [foldl]. rewrite foldl_app.
    match goal with |- context [foldl ?f ?t0 (map ?g ws)] =>
      destruct (translated_words ("chatcmpl-mock-" ++ str_of_Z now_ms) "chat.completion.chunk"
        (mock_model b) ws t0) as [H1 H2];
      unfold after_events in H1, H2; set (t1 := foldl f t0 (map g ws)) in *
    end.
    clearbody t1. unfold mock_finish. by destruct (mock_truncated text n). }
  destruct Ht as [Hl Hc]. destruct (translated_lines ws) as [Hq Hch].
  rewrite ndjson_lines, map_app, Hl, <- app_assoc.
  unfold ollama_stream, stream_turn. change (400 <=? 200) with false. cbn iota.
  rewrite read_stream_app by exact Hq. rewrite Hch. cbn [map app read_stream].
  rewrite final_line by exact Hc. cbn iota.
  rewrite join_chunks_strings, join_pieces. unfold ws. rewrite join_spaced.
  destruct (words_joined text n Hn) as [-> _]. done.
Qed.
End Translated.

(** ** The session *)

Section Session.
Context {F : Type} {PF : PyFloat F} {PM : PyFmean F}.
Variable gateway : nat -> list (json F) -> TurnOut (F:=F) * F.
Variable prompts : list string.
Implicit Types (s : ClientState (F:=F)).

(** Every turn is an answer, a rejection or an error, with an engine for every answer. *)
Lemma client_turns_accounted turns s s' :
  client_turns gateway prompts turns s = Ok s' ->
  length (cs_engines s) = length (cs_latencies s) ->
  length (cs_engines s') = length (cs_latencies s') /\
  Z.of_nat (length (cs_latencies s')) + cs_errors s' + cs_rejected s' =
  Z.of_nat (length (cs_latencies s)) + cs_errors s + cs_rejected s + Z.of_nat (length turns).
Proof.
  revert s. induction turns as [|t turns IH]; intros s; cbn [client_turns].
  - intros [= ->] H. split; [exact H|]. cbn. lia.
  - destruct (client_step gateway prompts t s) as [s1|] eqn:E; [|done]. cbn. intros Hr H.
    assert (H1 : length (cs_engines s1) = length (cs_latencies s1) /\
      Z.of_nat (length (cs_latencies s1)) + cs_errors s1 + cs_rejected s1 =
      Z.of_nat (length (cs_latencies s)) + cs_errors s + cs_rejected s + 1).
    { unfold client_step, client_answer in E. destruct (gateway _ _) as [out ms].
      repeat case_match; simplify_eq E; clear E; intros <-;
        cbn [cs_engines cs_latencies cs_errors cs_rejected]; rewrite ?length_app; cbn [length];
        split; lia. }
    destruct H1 as [He Hs]. destruct (IH _ Hr He) as [H2 H3]. split; [exact H2|].
    cbn [length]. lia.
Qed.

(** A turn lost on the way leaves its question in the history without an answer: the next
    request ends in two user messages. *)
Lemma lost_turn_unanswered t s ms :
  gateway t (cs_history s ++ [client_user prompts t])%list = (Transport, ms) ->
  exists s', client_step gateway prompts t s = Ok s' /\
    cs_history s' = (cs_history s ++ [client_user prompts t])%list /\
    (cs_history s' ++ [client_user prompts (S t)])%list =
    (cs_history s ++ [client_user prompts t; client_user prompts (S t)])%list.
Proof.
  intros E. unfold client_step. rewrite E. eexists. split; [reflexivity|]. split; [done|].
  cbn [cs_history]. by rewrite <- app_assoc.
Qed.
End Session.

(** ** Witness *)

Definition agent_wire : string :=
  mock_wire (mock_chat_stream "m" 1000 demo_stream_body (JStr "hi there you") 4).

Lemma agent_reads_engine_text_witness :
  let t := (feed_all (JStr "m" : json float) true "now" t_init
              [str_take 300 agent_wire; str_drop 300 agent_wire]).1 in
  ollama_stream (StreamAnswered 200 (Some "b0") (split "010" (join "" (map ndjson
    (t_lines t ++ [final_chunk (JStr "m") true "now" 1 (fint 1) t])))) false) =
  Answer (JStr "[m] echo: hi there") (Some "b0").
Proof.
  refine (agent_reads_engine_text (JStr "m" : json float) "now" "m" 1000 _ demo_stream_body
    (JStr "hi there you") 4 [str_take 300 agent_wire; str_drop 300 agent_wire] 1 (fint 1)
    (Some "b0") _ _ _ _); [reflexivity|lia|reflexivity|reflexivity|vm_compute; reflexivity].
Defined.
