(* ===== verification/Lifecycle.v ===== *)
(** The programs around the components: how a gateway opens and closes its client and its
    background tasks ([gateway.py]), how the sidecar of an engine starts, registers and stops
    ([worker_proxy.py]), what the launcher of an engine does ([vllm_launcher.py]), the start of
    the other two workers, and the mock engine and the traffic of [dio demo].  Each long-lived
    program is a state with a function from its events; engines, managers and clocks are
    parameters of the events. *)

From S2P Require Import Prelude PyFloat PyStr PyDict Json Config Backends Requests Mcp.
From S2P Require Import Emulation Worker.

Section Lifecycle.
Context {F : Type} {PF : PyFloat F}.
Local Open Scope float_scope.
Local Abbreviation json := (json F).

(** ** The gateway as an application *)

(** Clients and tasks by number; [lf_open] and [lf_running] are those not closed and not
    cancelled. *)
Record Life : Type := mkLife {
  lf_client : option nat;
  lf_metrics : option nat;
  lf_health : option nat;
  lf_next : nat;
  lf_open : list nat;
  lf_running : list nat
}.
Definition life_init : Life := mkLife None None None 0 [] [].

(** [_http]: a client is made when there is none. *)
Definition http_client (l : Life) : Life * nat :=
  match lf_client l with
  | Some c => (l, c)
  | None =>
    let c := lf_next l in
    (mkLife (Some c) (lf_metrics l) (lf_health l) (S c) (c :: lf_open l) (lf_running l), c)
  end.

(** The part of [lifespan] before [yield]: a client and one or two tasks are made whatever
    was there. *)
Definition life_startup (engine_metrics : bool) (l : Life) : Life :=
  let c := lf_next l in
  let h := S c in
  mkLife (Some c) (if engine_metrics then Some (S h) else lf_metrics l) (Some h) (S (S h))
    (c :: lf_open l) ((if engine_metrics then [S h; h] else [h]) ++ lf_running l)%list.

Definition cancel (task : option nat) (running : list nat) : list nat :=
  match task with
  | Some t => filter (fun x => x <> t) running
  | None => running
  end.
(** The part after [yield]. *)
Definition life_shutdown (l : Life) : Life :=
  mkLife None (lf_metrics l) (lf_health l) (lf_next l)
    (match lf_client l with
     | Some c => filter (fun x => x <> c) (lf_open l)
     | None => lf_open l
     end)
    (cancel (lf_health l) (cancel (lf_metrics l) (lf_running l))).

Inductive LifeEvent : Type :=
| LifeRequest
| LifeStartup
| LifeShutdown.
Definition life_event (engine_metrics : bool) (l : Life) (e : LifeEvent) : Life :=
  match e with
  | LifeRequest => (http_client l).1
  | LifeStartup => life_startup engine_metrics l
  | LifeShutdown => life_shutdown l
  end.
Definition life_run (engine_metrics : bool) (es : list LifeEvent) (l : Life) : Life :=
  foldl (life_event engine_metrics) l es.

(** Whether the start warns of open admin routes. *)
Definition admin_warning (key : option string) (h : string) : bool :=
  negb (match key with Some k => str_truth k | None => false end) &&
  negb (str_in h ["127.0.0.1"; "localhost"; "::1"]).

(** [run]: the address served, [host or config.host] and the like. *)
Definition served_address (c : DIOConfig F) (h : option string) (p : option Z) : string * Z :=
  (str_or (default "" h) (host c),
   match p with Some p => if (p =? 0)%Z then port c else p | None => port c end).

(** ** The sidecar of an engine *)

Record SideArgs : Type := mkSideArgs {
  sa_worker_id : string;
  sa_port : Z;
  sa_vllm_url : string;
  sa_tier : string;
  sa_model_id : string;
  sa_max_tokens : Z;
  sa_vllm_timeout : F
}.

(** The client's timeout is the number of tokens. *)
Definition side_client (a : SideArgs) : VLLMClient :=
  client_init (sa_vllm_url a) (sa_model_id a) (sa_max_tokens a).
Definition listen_addr (port : Z) : string := ("0.0.0.0:" ++ str_of_Z port)%string.
Definition worker_address (port : Z) : string := ("localhost:" ++ str_of_Z port)%string.

Inductive SidePhase : Type :=
| SideWaiting
| SideRegistering (attempt : nat)
| SideReady
| SideExited (code : Z)
(** Ended by a signal it does not handle yet. *)
| SideKilled.

Record SideState : Type := mkSide {
  sd_phase : SidePhase;
  sd_listening : option string;
  sd_nvml : bool;
  sd_sent : list RegisterRequest
}.

Variable extended : bool.

Inductive SideEvent : Type :=
(** A turn of [wait_for_vllm]: the clock of its test and what a GET gives then. *)
| SidePoll (now : F) (get : string -> option Z)
(** An attempt to register: the memory query and what the manager gives. *)
| SideAttempt (read : option Z) (manager : RegisterRequest -> RegReply)
(** A turn of the heartbeat; an exception of it is only logged. *)
| SideBeat (read read' : option Z)
(** SIGTERM. *)
| SideSignal.

Definition side_phase (p : SidePhase) (s : SideState) : SideState :=
  mkSide p (sd_listening s) (sd_nvml s) (sd_sent s).
Definition side_send (r : RegisterRequest) (s : SideState) : SideState :=
  mkSide (sd_phase s) (sd_listening s) (sd_nvml s) (sd_sent s ++ [r])%list.

(** [main] with the clock at its start; [g] is what NVML gave. *)
Definition side_init (g : GPU) : SideState := mkSide SideWaiting None (gpu_handle g) [].
Definition side_event (a : SideArgs) (g : GPU) (start : F) (s : SideState) (e : SideEvent) :
    SideState :=
  match sd_phase s, e with
  | SideWaiting, SidePoll now get =>
    if now - start <? sa_vllm_timeout a then
      if health_check (side_client a) get
      then mkSide (SideRegistering 0) (Some (listen_addr (sa_port a))) (sd_nvml s) (sd_sent s)
      else s
    else side_phase (SideExited 1) s
  | SideRegistering n, SideAttempt read manager =>
    let req := registration_request extended (sa_worker_id a) (worker_address (sa_port a))
                 (sa_tier a) g read in
    let s := side_send req s in
    match manager req with
    | RegAnswer _ => side_phase SideReady s
    | RegRaised => side_phase (if bool_decide (S n < max_retries)%nat then SideRegistering (S n)
                               else SideReady) s
    end
  | SideReady, SideBeat read read' =>
    side_send (heartbeat_request extended (sa_worker_id a) (worker_address (sa_port a)) (sa_tier a)
                 g read read') s
  | SideReady, SideSignal => mkSide (SideExited 0) None false (sd_sent s)
  | SideExited _, _ | SideKilled, _ => s
  | _, SideSignal => mkSide SideKilled None (sd_nvml s) (sd_sent s)
  | _, _ => s
  end.
Definition side_run (a : SideArgs) (g : GPU) (start : F) (es : list SideEvent) (s : SideState) :
    SideState := foldl (side_event a g start) s es.

(** ** The launcher of an engine *)

Record LaunchArgs : Type := mkLaunchArgs {
  la_model : string;
  la_port : Z;
  la_gpu_index : Z;
  la_gpu_memory_utilization : F;
  la_max_model_len : Z;
  la_tensor_parallel_size : Z;
  la_quantization : option string;
  la_dtype : string;
  la_max_num_seqs : Z;
  la_enforce_eager : bool;
  la_host : string;
  la_trust_remote_code : bool
}.
Definition launch_env (a : LaunchArgs) : string * string :=
  ("CUDA_VISIBLE_DEVICES", str_of_Z (la_gpu_index a)).
Definition launch_cmd (executable : string) (a : LaunchArgs) : list string :=
  ([executable; "-m"; "vllm.entrypoints.openai.api_server"; "--model"; la_model a;
    "--port"; str_of_Z (la_port a); "--host"; la_host a;
    "--gpu-memory-utilization"; float_repr (la_gpu_memory_utilization a);
    "--max-model-len"; str_of_Z (la_max_model_len a);
    "--tensor-parallel-size"; str_of_Z (la_tensor_parallel_size a);
    "--dtype"; la_dtype a; "--max-num-seqs"; str_of_Z (la_max_num_seqs a)] ++
   match la_quantization a with
   | Some q => if str_truth q then ["--quantization"; q] else []
   | None => []
   end ++
   (if la_enforce_eager a then ["--enforce-eager"] else []) ++
   (if la_trust_remote_code a then ["--trust-remote-code"] else []))%list.

(** What a GET of [/v1/models] gives: a status and the parsed body ([None] when it is no
    JSON); an outer [None] is an exception. *)
Definition ready_reply (r : option (Z * option json)) : bool :=
  match r with
  | Some (status, Some data) =>
    (status =? 200)%Z &&
    match (v ← jget_or "data" (JList []) data; items ← iterate v;
           map_result (jitem "id") items) with
    | Ok _ => true
    | Err _ => false
    end
  | _ => false
  end.
Definition ready_timeout : F := fint 600.

Inductive LaunchPhase : Type :=
| Launching
| Serving
| LaunchExited (code : Z)
| LaunchKilled.
(** The engine: running, asked to end, or ended. *)
Inductive EngineProc : Type :=
| EngineUp
| EngineAsked
| EngineGone.
Record Launch : Type := mkLaunch { lu_phase : LaunchPhase; lu_engine : EngineProc }.
Definition launch_init : Launch := mkLaunch Launching EngineUp.

Inductive LaunchEvent : Type :=
(** A turn of [wait_for_vllm_ready]. *)
| LaunchPoll (now : F) (reply : option (Z * option json))
(** The engine ends, with its return code. *)
| EngineEnds (code : Z)
(** SIGTERM to the launcher. *)
| LaunchSignal.

(** The loop looks at the port only, not at the process; once it is served, [process.wait]
    returns with the engine, and the handler ends it. *)
Definition launch_event (start : F) (l : Launch) (e : LaunchEvent) : Launch :=
  match lu_phase l, e with
  | Launching, LaunchPoll now reply =>
    if now - start <? ready_timeout then
      if ready_reply reply
      then match lu_engine l with
           | EngineGone => mkLaunch (LaunchExited 0) EngineGone
           | x => mkLaunch Serving x
           end
      else l
    else mkLaunch (LaunchExited 1)
           (match lu_engine l with EngineUp => EngineAsked | x => x end)
  | Launching, EngineEnds _ => mkLaunch Launching EngineGone
  | Launching, LaunchSignal => mkLaunch LaunchKilled (lu_engine l)
  | Serving, EngineEnds _ => mkLaunch (LaunchExited 0) EngineGone
  (* [terminate], a wait of ten seconds, [kill] when it takes longer: gone in either case. *)
  | Serving, LaunchSignal => mkLaunch (LaunchExited 0) EngineGone
  | Serving, LaunchPoll _ _ => l
  | (LaunchExited _ | LaunchKilled), EngineEnds _ => mkLaunch (lu_phase l) EngineGone
  | (LaunchExited _ | LaunchKilled), _ => l
  end.
Definition launch_run (start : F) (es : list LaunchEvent) (l : Launch) : Launch :=
  foldl (launch_event start) l es.

(** ** The emulated and the Python worker *)

Definition gpu_vram_mb (total_memory : option Z) : Z :=
  match total_memory with Some b => (b / mib)%Z | None => 24000 end.
(** [main] of [worker_gpu.py]: the address it listens on, what it registers, and its exit
    code when it stops before serving. *)
Definition gpu_worker_request (wid tier : string) (port vram : Z) (total_memory : option Z) :
    RegisterRequest :=
  mkReg wid (worker_address port) tier
    (if (0 <? vram)%Z then vram else gpu_vram_mb total_memory) "" 0.
Definition gpu_worker_listen (port : Z) : string := ("127.0.0.1:" ++ str_of_Z port)%string.
Definition gpu_worker_main (wid tier : string) (port vram : Z) (total_memory : option Z)
    (manager : RegisterRequest -> RegReply) : string * RegisterRequest * option Z :=
  let req := gpu_worker_request wid tier port vram total_memory in
  (gpu_worker_listen port, req,
   match manager req with RegAnswer true => None | _ => Some 1%Z end).

(** [register_with_manager] of [model_server.py]: the channel and the request, [None] when
    reading the memory of the environment raises; nothing of it ends the worker. *)
Definition model_server_request (hostname tier : string) (ip : option string) (port vram_env : string) :
    option RegisterRequest :=
  match jint (JStr vram_env : json) with
  | Ok vram => Some (mkReg (hostname ++ "-" ++ tier) (default "127.0.0.1" ip ++ ":" ++ port) tier vram "" 0)
  | Err _ => None
  end.
Definition model_server_port : string := "50051".
Definition model_server (hostname tier : string) (ip : option string)
    (manager_addr vram_env : option string) : (bool * string) * option RegisterRequest :=
  (manager_channel (default "localhost:50052" manager_addr),
   model_server_request hostname tier ip model_server_port (default "8" vram_env)).

(** ** The mock engine and [dio demo] *)

Definition mock_base_url (host : string) (port : Z) : string :=
  ("http://" ++ host ++ ":" ++ str_of_Z port)%string.
Definition mock_health (name : string) : json :=
  JDict [("status", JStr "ok"); ("backend", JStr name)].
Definition mock_models : json :=
  JDict [("object", JStr "list");
         ("data", JList [JDict [("id", JStr "mock-model"); ("object", JStr "model");
                                ("owned_by", JStr "dio")]])].

(** [start]: whether one of the fifty GETs of [/health] gave 200, and the tenths of a second
    slept; [replies n] is the status of the [n]th, [None] an exception. *)
Fixpoint mock_wait (replies : nat -> option Z) (n left : nat) : bool * nat :=
  match left with
  | O => (false, O)
  | S left' =>
    match replies n with
    | Some status => if (status =? 200)%Z then (true, O) else mock_wait replies (S n) left'
    | None => let '(up, slept) := mock_wait replies (S n) left' in (up, S slept)
    end
  end.
(** The server object, with its [should_exit], and whether its task was made. *)
Record MockServer : Type := mkMockServer { ms_should_exit : option bool; ms_task : bool }.
Definition mock_server_init : MockServer := mkMockServer None false.
Definition mock_start (replies : nat -> option Z) (m : MockServer) : MockServer * (bool * nat) :=
  (mkMockServer (Some false) true, mock_wait replies 0 50).
(** [stop]: the seconds it waits for the task, which may end sooner. *)
Definition mock_stop (m : MockServer) : MockServer * Z :=
  (mkMockServer (match ms_should_exit m with Some _ => Some true | None => None end) (ms_task m),
   if ms_task m then 5%Z else 0%Z).

(** A request of the demo. *)
Definition demo_body (i : nat) : list (string * json) :=
  [("model", JStr "mock");
   ("messages", JList [JDict [("role", JStr "user");
      ("content", JStr ("hello " ++ str_of_Z (Z.of_nat i) ++ " " ++
                        unchars (repeat "x"%char (i mod 50))))]]);
   ("max_tokens", JInt 32)].
(** The loop of the demo over the clock of its tests and the status of each request: requests
    sent and answered 200; [None] when a request raises or the list is too short. *)
Fixpoint demo_loop (t_end : F) (turns : list (F * option Z)) (i n_ok : nat) : option (nat * nat) :=
  match turns with
  | [] => None
  | (now, status) :: turns' =>
    if now <? t_end then
      match status with
      | Some st => demo_loop t_end turns' (S i) (if (st =? 200)%Z then S n_ok else n_ok)
      | None => None
      end
    else Some (i, n_ok)
  end.
Definition demo (started duration : F) (turns : list (F * option Z)) : option (nat * nat) :=
  demo_loop (started + duration) turns 0 0.
(** A request of [bench-smoke]. *)
Definition bench_body (i : nat) : list (string * json) :=
  [("model", JStr "m");
   ("messages", JList [JDict [("role", JStr "user");
      ("content", JStr ("q" ++ str_of_Z (Z.of_nat i) ++ " " ++
                        join "" (repeat "word " (10 + i mod 30))))]]);
   ("max_tokens", JInt 24)].
End Lifecycle.
