(* ===== verification/LifecycleProps.v ===== *)
(** Properties of Lifecycle.v: which clients and tasks a gateway leaves behind, when a sidecar
    registers and with what it exits, and when the launcher of an engine leaves it running. *)

From S2P Require Import Prelude PyFloat PyStr PyDict Json Config Backends Requests.
From S2P Require Import Emulation Worker Lifecycle.

(** ** The gateway *)

Section Gateway.
Implicit Types (l : Life) (es : list LifeEvent) (m : bool).

(** Numbers are used once, and the client in use is open. *)
Definition life_wf (l : Life) : Prop :=
  (forall x, x ∈ lf_open l -> (x < lf_next l)%nat) /\
  (forall x, x ∈ lf_running l -> (x < lf_next l)%nat) /\
  (forall c, lf_client l = Some c -> c ∈ lf_open l).

Lemma life_init_wf : life_wf life_init.
Proof. split_and!; cbn; try done; intros x Hx; by apply elem_of_nil in Hx. Qed.

Lemma http_client_wf l : life_wf l -> life_wf (http_client l).1.
Proof.
  intros (Ho & Hr & Hc). unfold http_client. destruct (lf_client l) as [c|] eqn:E.
  - split_and!; [done|done|]. cbn [fst]. rewrite E. exact Hc.
  - split_and!; cbn.
    + intros x [->|Hx]%elem_of_cons; [lia|]. specialize (Ho _ Hx). lia.
    + intros x Hx. specialize (Hr _ Hx). lia.
    + intros c [= <-]. by left.
Qed.

Lemma life_startup_wf m l : life_wf l -> life_wf (life_startup m l).
Proof.
  intros (Ho & Hr & Hc). split_and!; cbn.
  - intros x [->|Hx]%elem_of_cons; [lia|]. specialize (Ho _ Hx). lia.
  - intros x [Hx|Hx]%elem_of_app; [|specialize (Hr _ Hx); lia].
    destruct m; set_unfold in Hx; lia.
  - intros c [= <-]. by left.
Qed.

Lemma cancel_subset t running x : x ∈ cancel t running -> x ∈ running.
Proof. destruct t; cbn; [|done]. by intros [_ H]%list_elem_of_filter. Qed.

Lemma life_shutdown_wf l : life_wf l -> life_wf (life_shutdown l).
Proof.
  intros (Ho & Hr & Hc). split_and!; cbn; [| |done].
  - intros x Hx. apply Ho. destruct (lf_client l); [|done]. apply list_elem_of_filter in Hx. tauto.
  - intros x Hx. apply Hr. by do 2 apply cancel_subset in Hx.
Qed.

Lemma life_event_wf m l e : life_wf l -> life_wf (life_event m l e).
Proof.
  destruct e; cbn; auto using http_client_wf, life_startup_wf, life_shutdown_wf.
Qed.

(** Any number of requests share one client. *)
Lemma http_client_idempotent l : http_client (http_client l).1 = http_client l.
Proof. unfold http_client. destruct (lf_client l) eqn:E; cbn; [by rewrite E|done]. Qed.
Lemma requests_share_client m n l :
  life_run m (repeat LifeRequest n) (http_client l).1 = (http_client l).1.
Proof.
  induction n as [|n IH]; [done|]. cbn [repeat life_run foldl life_event].
  rewrite http_client_idempotent. exact IH.
Qed.

(** Nothing open, nothing running. *)
Definition quiet (l : Life) : Prop :=
  lf_client l = None /\ lf_open l = [] /\ lf_running l = [].

Lemma cancel_nil t : cancel t [] = [].
Proof. by destruct t. Qed.
Lemma cancel_cons t x (ts : list nat) :
  cancel (Some t) (x :: ts) = if decide (x = t) then cancel (Some t) ts else x :: cancel (Some t) ts.
Proof. unfold cancel. rewrite filter_cons. repeat case_decide; tauto. Qed.
Lemma cancel_started m l : lf_running l = [] ->
  let s := life_startup m l in cancel (lf_health s) (cancel (lf_metrics s) (lf_running s)) = [].
Proof.
  intros Hr. unfold life_startup. cbn [lf_health lf_metrics lf_running]. rewrite Hr, app_nil_r.
  destruct m.
  - rewrite cancel_cons, decide_True by done. rewrite cancel_cons, decide_False by lia.
    by rewrite cancel_nil, cancel_cons, decide_True.
  - destruct (lf_metrics l) as [t|].
    + rewrite cancel_cons. case_decide; rewrite cancel_nil; [done|].
      by rewrite cancel_cons, decide_True.
    + unfold cancel at 2. by rewrite cancel_cons, decide_True.
Qed.

(** A start, requests, and a stop. *)
Definition served_cycle (n : nat) : list LifeEvent :=
  LifeStartup :: (repeat LifeRequest n ++ [LifeShutdown])%list.

Lemma served_cycle_quiet m n l : quiet l -> quiet (life_run m (served_cycle n) l).
Proof.
  intros (Hc & Ho & Hr). unfold life_run, served_cycle. cbn [foldl life_event]. rewrite foldl_app.
  change (foldl (life_event m) ?s (repeat LifeRequest n)) with (life_run m (repeat LifeRequest n) s).
  change (life_startup m l) with (http_client (life_startup m l)).1 at 1.
  rewrite requests_share_client. cbn [foldl life_event].
  change (http_client (life_startup m l)).1 with (life_startup m l).
  split_and!; [done| |by apply cancel_started].
  unfold life_shutdown, life_startup. cbn [lf_client lf_open]. rewrite Ho.
  change (cancel (Some (lf_next l)) [lf_next l] = []). by rewrite cancel_cons, decide_True.
Qed.

(** A gateway whose requests come between start and stop leaves no client open and no task
    running, however often it is started. *)
Lemma cycles_leave_nothing m (ns : list nat) l :
  quiet l -> quiet (life_run m (flat_map served_cycle ns) l).
Proof.
  revert l. induction ns as [|n ns IH]; intros l Hl; [done|]. cbn [flat_map].
  unfold life_run. rewrite foldl_app. apply IH. by apply served_cycle_quiet.
Qed.

(** The client of a request before the start stays open whatever happens after it. *)
Definition orphan (c : nat) (l : Life) : Prop :=
  c ∈ lf_open l /\ (c < lf_next l)%nat /\ lf_client l <> Some c.

Lemma orphan_event m c l e : orphan c l -> orphan c (life_event m l e).
Proof.
  intros (Ho & Hn & Hc). destruct e; cbn [life_event].
  - unfold http_client. destruct (lf_client l) eqn:E; cbn [fst]; [by split_and!; try rewrite E|].
    split_and!; cbn; [by right|lia|]. intros [= Hx]; lia.
  - split_and!; cbn; [by right|lia|]. intros [= Hx]; lia.
  - split_and!; cbn; [|done|done]. destruct (lf_client l) as [d|]; [|done].
    apply list_elem_of_filter. split; [congruence|done].
Qed.
Lemma early_client_never_closed m l c es : life_wf l -> lf_client l = Some c ->
  c ∈ lf_open (life_run m (LifeStartup :: es) l).
Proof.
  intros (Ho & _ & Hc) E.
  assert (H : orphan c (life_startup m l)).
  { specialize (Hc _ E). specialize (Ho _ Hc). split_and!; cbn; [by right|lia|].
    intros [= Hx]; lia. }
  unfold life_run. cbn [foldl life_event]. revert H. generalize (life_startup m l).
  induction es as [|e es IH]; intros l' H; [by destruct H|]. apply IH. by apply orphan_event.
Qed.
Example request_before_start :
  lf_open (life_run true [LifeRequest; LifeStartup; LifeRequest; LifeShutdown] life_init) = [0%nat].
Proof. reflexivity. Qed.

(** No warning and no key: the gateway listens on this machine only. *)
Lemma no_warning_without_key (h : string) :
  admin_warning None h = false -> h ∈ ["127.0.0.1"; "localhost"; "::1"].
Proof.
  unfold admin_warning, str_in. cbn [negb andb]. intros H%negb_false_iff.
  by apply bool_decide_eq_true in H.
Qed.
End Gateway.

(** A key that does not guard the admin routes silences the warning as well. *)
Lemma unguarded_admin_without_warning {F} key cap method path headers h :
  str_truth key = true ->
  guard_auth (F:=F) (mkGuardCfg (Some key) false false cap) (mkHttpIn method path headers) = Ok None /\
  admin_warning (Some key) h = false.
Proof.
  intros Hk. unfold guard_auth, key_set, admin_warning. cbn [g_api_key g_protect_debug g_data_plane_auth].
  rewrite Hk. done.
Qed.

(** ** The sidecar *)

Section Sidecar.
Context {F : Type} {PF : PyFloat F}.
Variables (extended : bool) (a : SideArgs (F:=F)) (g : GPU) (start : F).
Local Abbreviation step := (side_event extended a g start).
Local Abbreviation run := (side_run extended a g start).
Local Abbreviation beat read read' :=
  (heartbeat_request extended (sa_worker_id a) (worker_address (sa_port a)) (sa_tier a) g read read').
Implicit Types (s : SideState) (es : list (SideEvent (F:=F))).

(** Before the engine answers nothing listens and nothing is registered; while it registers,
    one request for each attempt that raised; the memory library is closed only by the
    handler. *)
Definition side_ok (s : SideState) : Prop :=
  match sd_phase s with
  | SideWaiting => sd_listening s = None /\ sd_sent s = []
  | SideRegistering n => sd_listening s = Some (listen_addr (sa_port a)) /\
                         length (sd_sent s) = n /\ (n < max_retries)%nat
  | SideReady => sd_listening s = Some (listen_addr (sa_port a)) /\ sd_sent s <> []
  | SideExited c => sd_listening s = None /\
                    (c = 1 /\ sd_sent s = [] \/ c = 0 /\ sd_sent s <> [] /\ sd_nvml s = false)
  | SideKilled => sd_listening s = None
  end.

Lemma side_init_ok : side_ok (side_init g).
Proof. done. Qed.

Lemma side_event_ok s e : side_ok s -> side_ok (step s e).
Proof.
  unfold side_ok, side_event. destruct s as [p l nv sent]. cbn [sd_phase sd_listening sd_sent sd_nvml].
  destruct p as [|n| |c|]; destruct e as [now get|read manager|read read'|];
    cbn [sd_phase sd_listening sd_sent sd_nvml side_phase side_send]; try done.
  - intros [-> ->]. destruct (now - start <? sa_vllm_timeout a)%fl; cbn; [|by auto].
    destruct (health_check _ _); cbn; [|done]. split_and!; try done. unfold max_retries. lia.
  - intros (-> & Hn & Hlt). destruct (manager _); cbn; [split; [done|by destruct sent]|].
    case_bool_decide; cbn; [|split; [done|by destruct sent]].
    split_and!; [done|rewrite length_app; cbn; lia|done].
  - intros (-> & Hs). split; [done|by destruct sent].
  - intros (-> & Hs). split; [done|right; by split_and!].
Qed.
Lemma side_run_ok es s : side_ok s -> side_ok (run es s).
Proof.
  revert s. induction es as [|e es IH]; intros s Hs; [done|]. apply IH. by apply side_event_ok.
Qed.

(** The sidecar exits with 1 having registered nothing, with 0 after the handler; there is no
    other code. *)
Lemma sidecar_exit_codes es c : sd_phase (run es (side_init g)) = SideExited c ->
  c = 1 /\ sd_sent (run es (side_init g)) = [] \/ c = 0 /\ sd_sent (run es (side_init g)) <> [].
Proof.
  intros E. pose proof (side_run_ok es _ side_init_ok) as H. unfold side_ok in H.
  rewrite E in H. destruct H as [_ [?|(?&?&?)]]; auto.
Qed.

Lemma side_run_cons e es s : run (e :: es) s = run es (step s e).
Proof. done. Qed.

Lemma ready_attempts_ignored (reads : nat -> option Z) manager (l : list nat) s : sd_phase s = SideReady ->
  run (map (fun i => SideAttempt (reads i) (manager i)) l) s = s.
Proof.
  intros E. induction l as [|i l IH]; [done|]. cbn [map]. rewrite side_run_cons.
  unfold side_event. by rewrite E.
Qed.

(** The turns one by one are the loop of [wait_for_vllm]. *)
Lemma polls_are_the_loop turns s : sd_phase s = SideWaiting ->
  sd_phase (run (map (fun t => SidePoll t.1 t.2) turns) s) =
  match wait_for_vllm (side_client a) start (sa_vllm_timeout a) turns with
  | Some true => SideRegistering 0
  | Some false => SideExited 1
  | None => SideWaiting
  end.
Proof.
  assert (Hr : forall l s, sd_phase s <> SideWaiting ->
            run (map (fun t => SidePoll (F:=F) t.1 t.2) l) s = s).
  { induction l as [|t l IH]; intros q E; [done|]. cbn [map]. rewrite side_run_cons.
    assert (Hq : step q (SidePoll t.1 t.2) = q) by (unfold side_event; by destruct (sd_phase q)).
    rewrite Hq. by apply IH. }
  revert s. induction turns as [|[now get] turns IH]; intros s E; [exact E|].
  cbn [map wait_for_vllm]. rewrite side_run_cons. unfold side_event. rewrite E. cbn [fst snd].
  destruct (now - start <? sa_vllm_timeout a)%fl; [|by rewrite Hr].
  destruct (health_check _ _); [by rewrite Hr|by apply IH].
Qed.

(** The attempts one by one are the loop of [register_with_manager]: the same requests, and
    after the last one the sidecar is ready whatever the manager gave. *)
Lemma attempts_are_the_loop reads manager n left s :
  (n + left = max_retries)%nat -> left <> O -> sd_phase s = SideRegistering n ->
  let s' := run (map (fun i => SideAttempt (reads i) (manager i)) (seq n left)) s in
  let r := register_loop
    (fun i => registration_request extended (sa_worker_id a) (worker_address (sa_port a)) (sa_tier a)
                g (reads i)) manager n left in
  sd_phase s' = SideReady /\ sd_sent s' = (sd_sent s ++ rr_sent r)%list /\ sd_nvml s' = sd_nvml s.
Proof.
  cbn zeta. revert n s. induction left as [|left IH]; intros n s Hn Hl E; [done|].
  cbn [seq map register_loop]. rewrite side_run_cons. unfold side_event. rewrite E.
  set (req := registration_request _ _ _ _ _ _).
  destruct (manager n req) as [b|].
  - by rewrite ready_attempts_ignored.
  - cbn [rr_sent]. destruct left as [|left].
    + by rewrite bool_decide_eq_false_2 by lia.
    + rewrite bool_decide_eq_true_2 by lia.
      destruct (IH (S n) (side_phase (SideRegistering (S n)) (side_send req s)))
        as (H1 & H2 & H3); [lia|done|done|].
      split_and!; [exact H1|rewrite H2; cbn; by rewrite <- app_assoc|exact H3].
Qed.

(** Every turn of the heartbeat of a ready sidecar sends one request, so a sidecar none of whose
    registrations came through is known to the manager after the next. *)
Lemma beats_register beats s : sd_phase s = SideReady ->
  let s' := run (map (fun b => SideBeat b.1 b.2) beats) s in
  sd_phase s' = SideReady /\ sd_sent s' = (sd_sent s ++ map (fun b => beat b.1 b.2) beats)%list.
Proof.
  cbn zeta. revert s. induction beats as [|b beats IH]; intros s E; [by rewrite app_nil_r|].
  cbn [map]. rewrite side_run_cons. unfold side_event. rewrite E.
  destruct (IH (side_send (beat b.1 b.2) s)) as [H1 H2]; [done|].
  split; [exact H1|]. rewrite H2. cbn. by rewrite <- app_assoc.
Qed.

(** A registered address names this machine whoever reads it. *)
Lemma registered_address_is_local es r : r ∈ sd_sent (run es (side_init g)) ->
  rg_address r = worker_address (sa_port a).
Proof.
  assert (H : forall s, Forall (fun r => rg_address r = worker_address (sa_port a)) (sd_sent s) ->
            Forall (fun r => rg_address r = worker_address (sa_port a)) (sd_sent (run es s))).
  { induction es as [|e es IH]; intros s Hs; [done|]. apply IH. unfold side_event.
    assert (Hadd : forall q, rg_address q = worker_address (sa_port a) ->
              Forall (fun r => rg_address r = worker_address (sa_port a)) (sd_sent s ++ [q])%list).
    { intros q Hq. apply Forall_app. split; [done|by constructor]. }
    repeat case_match; cbn [sd_sent side_phase side_send]; try done; apply Hadd;
      by destruct extended. }
  intros Hr. assert (H0 := H (side_init g) (Forall_nil_2 _)).
  rewrite Forall_forall in H0. by apply H0.
Qed.
End Sidecar.

(** ** The launcher *)

Section Launcher.
Context {F : Type} {PF : PyFloat F}.
Variable start : F.
Local Abbreviation step := (launch_event start).
Local Abbreviation run := (launch_run start).
Implicit Types (l : Launch) (es : list (LaunchEvent (F:=F))).

(** Exit 0 leaves no engine, exit 1 one that is asked to end at most. *)
Definition launch_ok (l : Launch) : Prop :=
  match lu_phase l with
  | Launching | LaunchKilled => True
  | Serving => lu_engine l = EngineUp
  | LaunchExited 0 => lu_engine l = EngineGone
  | LaunchExited c => c = 1 /\ lu_engine l <> EngineUp
  end.
Definition launching_up (l : Launch) : Prop :=
  lu_phase l = Launching -> lu_engine l <> EngineAsked.

Lemma launch_event_ok l e : launching_up l -> launch_ok l ->
  launching_up (step l e) /\ launch_ok (step l e).
Proof.
  unfold launching_up, launch_ok, launch_event. destruct l as [p en]. cbn [lu_phase lu_engine].
  destruct p as [| |c|]; destruct e as [now reply|code|]; cbn [lu_phase lu_engine]; intros Hu H; try done.
  - destruct (now - start <? ready_timeout)%fl; cbn; [|split; [done|split; [done|by destruct en]]].
    destruct (ready_reply reply); [|done]. destruct en; cbn; try done. by specialize (Hu eq_refl).
  - split; [done|]. destruct c; [done|by destruct H|by destruct H].
Qed.
Lemma launch_run_ok es : launch_ok (run es launch_init).
Proof.
  assert (H : forall l, launching_up l -> launch_ok l -> launch_ok (run es l)).
  { induction es as [|e es IH]; intros l Hu Hl; [done|].
    destruct (launch_event_ok l e Hu Hl). by apply IH. }
  by apply H.
Qed.
Lemma clean_exit_means_engine_gone es : lu_phase (run es launch_init) = LaunchExited 0 ->
  lu_engine (run es launch_init) = EngineGone.
Proof. intros E. pose proof (launch_run_ok es) as H. unfold launch_ok in H. by rewrite E in H. Qed.

(** A signal to a serving launcher ends the engine; one during the wait, which has no handler
    yet, leaves it running. *)
Lemma handled_signal_ends_engine l : lu_phase l = Serving ->
  step l LaunchSignal = mkLaunch (LaunchExited 0) EngineGone.
Proof. intros E. unfold launch_event. by rewrite E. Qed.

Definition unready (e : LaunchEvent (F:=F)) : Prop :=
  exists now reply, e = LaunchPoll now reply /\ (now - start <? ready_timeout)%fl = true /\
    ready_reply reply = false.
Lemma unready_polls_keep es l : Forall unready es -> lu_phase l = Launching -> run es l = l.
Proof.
  intros H E. induction H as [|e es (now & reply & -> & Ht & Hr) _ IH]; [done|].
  cbn [launch_run foldl]. unfold launch_event at 2. rewrite E, Ht, Hr. exact IH.
Qed.
Lemma early_signal_leaves_engine es : Forall unready es ->
  run (es ++ [LaunchSignal])%list launch_init = mkLaunch LaunchKilled EngineUp.
Proof.
  intros H. unfold launch_run. rewrite foldl_app.
  change (foldl step launch_init es) with (run es launch_init). by rewrite unready_polls_keep.
Qed.

(** An engine that ends during the wait is waited for all the same. *)
Lemma dead_engine_waited_for es code : Forall unready es ->
  run (EngineEnds code :: es) launch_init = mkLaunch Launching EngineGone.
Proof. intros H. by apply (unready_polls_keep es (mkLaunch Launching EngineGone)). Qed.

(** A launcher whose engine crashed exits like one that was asked to stop. *)
Lemma engine_failure_exits_zero l code : lu_phase l = Serving ->
  step l (EngineEnds code) = step l LaunchSignal.
Proof. intros E. unfold launch_event. by rewrite E. Qed.
End Launcher.

(** ** Workers, mock engine and demo *)

Section Starts.
Context {F : Type} {PF : PyFloat F}.

(** The emulated worker serves exactly when the manager took it. *)
Lemma gpu_worker_serves_iff wid tier port vram mem manager :
  let '(_, req, code) := gpu_worker_main wid tier port vram mem manager in
  code = None <-> manager req = RegAnswer true.
Proof.
  unfold gpu_worker_main. destruct (manager _) as [[]|]; split; congruence.
Qed.

(** The mock engine is up when one of the first fifty answers is 200, all before it not; it
    sleeps once for each that raised. *)
Lemma mock_wait_spec replies n left :
  let '(up, slept) := mock_wait replies n left in
  (slept <= left)%nat /\
  (up = true <-> exists k, (n <= k < n + left)%nat /\ replies k = Some 200).
Proof.
  revert n. induction left as [|left IH]; intros n; cbn [mock_wait].
  - split; [lia|]. split; [done|]. intros (k & Hk & _). lia.
  - specialize (IH (S n)). destruct (mock_wait replies (S n) left) as [up slept].
    destruct IH as [Hs Hup].
    assert (Hnext : replies n <> Some 200 ->
      up = true <-> exists k, (n <= k < n + S left)%nat /\ replies k = Some 200).
    { intros Hn. rewrite Hup. split; intros (k & Hk & Er); exists k; (split; [|done]); [lia|].
      assert (k <> n) by congruence. lia. }
    destruct (replies n) as [status|] eqn:E; [|split; [lia|by apply Hnext]].
    destruct (Z.eqb_spec status 200) as [->|Hne].
    + split; [lia|]. split; [|done]. intros _. exists n. split; [lia|done].
    + split; [lia|]. apply Hnext. congruence.
Qed.

(** Stopping a server that was started asks it to end. *)
Lemma started_mock_is_stopped replies m :
  ms_should_exit (mock_stop (mock_start replies m).1).1 = Some true.
Proof. done. Qed.

(** The demo counts every request it sent, and of them those answered 200. *)
Lemma demo_loop_counts t_end turns i n_ok sent ok : (n_ok <= i)%nat ->
  demo_loop (F:=F) t_end turns i n_ok = Some (sent, ok) ->
  exists k now st rest, turns = (take k turns ++ (now, st) :: rest)%list /\
    (now <? t_end)%fl = false /\ sent = (i + k)%nat /\ (ok <= sent)%nat /\
    ok = (n_ok + length (filter (fun t : F * option Z => t.2 = Some 200%Z) (take k turns)))%nat.
Proof.
  revert i n_ok. induction turns as [|[now status] turns IH]; intros i n_ok Hle; [done|].
  cbn [demo_loop]. destruct (now <? t_end)%fl eqn:E.
  - destruct status as [st|]; [|done]. intros H.
    apply IH in H; [|destruct (st =? 200); lia].
    destruct H as (k & now' & st' & rest & Ht & Hc & -> & Hok & ->).
    exists (S k), now', st', rest. cbn [take app]. split_and!; [by f_equal|done|lia|lia|].
    rewrite filter_cons. cbn [snd]. destruct (Z.eqb_spec st 200) as [->|Hne].
    + rewrite decide_True by done. cbn [length]. lia.
    + rewrite decide_False by congruence. done.
  - intros [= <- <-]. exists O, now, status, turns. cbn. split_and!; [done|done|lia|lia|lia].
Qed.
End Starts.
